(* ===== verification/_CoqProject ===== *)
-Q . S2P
Prelude.v
PyDecimal.v
PyText.v
Sha256.v
AgentModel.v
RunControl.v
PlanModel.v
Preflight.v
ToolRun.v
PyParse.v
Ledger.v
Claims.v
FinModel.v
FinCalc.v
Session.v
FinNormalize.v
FinFormulas.v
FinMetrics.v
ProviderGuards.v
AgentRun.v
AgentCli.v
Text.v
DocModel.v
Chunking.v
Citations.v
Knowledge.v
DocIdentity.v
Parsers.v
Ingest.v
Citable.v
DocumentCli.v
Bm25.v
RetrievalModel.v
Ranking.v
Lexical.v
Retrieval.v
Grounded.v
RagRead.v
ReportModel.v
ReportText.v
ReportLabels.v
Language.v
Reflection.v
ReportRevise.v
ReleaseGate.v
ReportInput.v
ReportTemplate.v
ReportRender.v
ReportCompose.v
Composed.v
ReportStore.v
ReportCli.v
ReportRuns.v
Published.v
ProviderSync.v
SyncStore.v
LiveModel.v
GateB.v
LiveStore.v
LiveBudget.v
SecPolicy.v
HttpClient.v
Artifacts.v
SecPilot.v
