(* ===== verification/Prelude.v ===== *)
(** Verification of the stock research agent.

    The program prepares research packages about listed companies from data it
    has stored: a request is bound to a policy, a Tool catalog and a data
    snapshot; a run executes a validated plan of read-only Tool calls under a
    budget; what the Tools return becomes observations, evidence, claims and one
    package.  The financial side normalizes the provider facts of a snapshot and
    derives metrics from them.  Documents are parsed, cut into chunks and cited;
    an index over the chunks answers queries with citations.  A sealed package is
    composed into a report, which is reflected on, revised and released.  Data
    come in through provider synchronization; the one path to the network is the
    SEC pilot, under an authorization that is used once and has a budget.  File
    names below are relative to src/src/stock_research_agent/.

    * Conventions

    - A Python call is a value of [res A]: [Ok] or [Raise] with the exception's
      class and code ([Prelude]).  A database is explicit state.  One session
      scope is one transaction: an operation that raises returns no state, since
      the scope rolls back.  [Session.sessM] is that monad; components with few
      statements pass the state by hand.  [SecPilot.ioM] is for what is not one
      transaction: a step that raises keeps what was committed and sent before.
    - Integers of the code are unbounded [Z]; times are microseconds since
      the epoch; a UUID is its canonical text.  Payloads are [PyText.pyval];
      dictionaries keep insertion order.  [Decimal]s are signed
      coefficient-exponent pairs with the 28-digit half-even context, so results
      are the digits the program computes ([PyDecimal]).  A [str] is UTF-8 text,
      or its list of code points where characters matter ([Text]).  SHA-256,
      [isoformat], [fromisoformat], [Decimal(str)], [urlsplit] and canonical JSON
      are executable and checked on concrete inputs.
    - What is not under src/ or not determined by the code is an argument: the
      clock, [uuid4], the Tool functions, the credential, network and blob gates,
      jitter.  No theorem assumes more of them than its hypotheses say (freshness
      of a new identifier, mostly).  Larger interfaces are classes:
      [Text.UnicodeData] (NFKC and case folding), [Language.CharData] (classes of
      characters of [re] and [str]), [Citations.BlobStorage],
      [DocumentCli.Tokenizers] (html.parser, json, pypdf), [ReportStore.RowSizes]
      and [SyncStore.JsonBounds] (lengths of PostgreSQL's text of a JSON value).
      The network of [HttpClient] is a function from the number of an attempt to
      what the resolver, the limiter, the clock and the exchange answer.

    * Files, in dependency order

    - [Prelude]: results, folds and guards over them, lists, stable sorting,
      strings; the automation of the development ([inv_res], [bools]).
    - [PyDecimal], [PyParse], [PyText], [Sha256]: the standard-library
      functions the program computes with, and research_agent/canonical.py.
    - Research agent (domain/research_agent/): [AgentModel] (enums.py,
      schemas.py), [RunControl] (budgets.py, state_machine.py, idempotency.py,
      resume.py and the run tables of db/repositories/research_agent.py),
      [PlanModel] (planning.py, plan_validation.py), [Preflight] (policies.py,
      requests.py, tool_catalog.py, tool_policy.py), [ToolRun] (tool_context.py,
      invocations.py, observations.py, tool_execution.py), [Ledger] (evidence.py,
      evidence_adapters.py, conflicts.py), [Claims] (claims.py,
      claim_pipeline.py, packages.py), [AgentRun] (application.py, the execution
      of a planned run over all those tables together) and [AgentCli] (the
      commands of cli_agent.py as transactions).
    - Financials (domain/financials/ over db/repositories/financials.py, on the
      sessions of [Session]): [FinModel], [FinCalc], [FinNormalize],
      [FinFormulas], [FinMetrics].
    - [ProviderGuards]: providers/circuit_breaker.py, retry.py, the reservations
      of rate_limit.py and the gate order of http_executor.py.
    - Documents (domain/documents/ over db/repositories/knowledge.py): [Text],
      [DocModel], [Chunking], [Citations], [Knowledge] (the tables), [DocIdentity],
      [Parsers], [Ingest], [Citable] (the parts composed), [DocumentCli]
      (cli_documents.py).
    - Retrieval (domain/retrieval/): [Bm25] and [Ranking] (scores and orders),
      [RetrievalModel], [Lexical] (index and search), [Retrieval] (runs and
      cli_rag.py), [Grounded] (what a run stores), [RagRead] (what is read back).
    - Reports (domain/reports/ over db/repositories/reports.py): [ReportModel],
      [ReportText] and [ReportLabels] (Markdown, references, checksums),
      [Language] and [Reflection] (the forty rules), [ReportRevise],
      [ReleaseGate], [ReportInput], [ReportTemplate], [ReportRender],
      [ReportCompose], [Composed], [ReportStore] (the tables), [ReportCli]
      (report_cli_application.py), [ReportRuns] and [Published] (what holds after
      every sequence of commands).
    - Synchronization: [ProviderSync] (domain/providers/sync.py) and [SyncStore]
      (its tables in db/repositories/providers.py).
    - Live evidence: [LiveModel] (grants, approvals, incidents, retention in
      domain/live_evidence/), [GateB] (gate_b_authorization.py), [LiveStore] (the
      transactions of db/repositories/live_evidence.py) and [LiveBudget] (what
      they keep).
    - The SEC pilot: [SecPolicy] (providers/sec_edgar/policy.py, endpoints.py),
      [HttpClient] (providers/http_client.py), [Artifacts]
      (domain/providers/artifacts.py, quality.py, their tables, the terminal
      store) and [SecPilot] (providers/sec_edgar/transport.py, retry.py and
      domain/live_evidence/gate_b_pilot.py).

    * What the theorems show

    - Research runs: audit trails replay to the status of their run, budgets
      and Tool authorization hold in every execution, claims are grounded in
      evidence of their own run, every sequence of commands leaves settled runs.
      Plan validation, authorization, classification and package status are each
      characterized by an equivalence with a declarative predicate.
    - Financials: selection is exactly what was public at the research time,
      normalized facts are justified by such facts, the two
      trailing-twelve-months methods agree when nothing is rounded, formulas never
      raise, calculation is idempotent.
    - Documents and retrieval: the windows of the chunker tile a segment and the
      loop ends when windows advance; parsers locate their text; every chunk of
      an ingested document has a citation that verifies; the search through the
      index is the direct search; stored hits were visible and are cited.
    - Reports: inputs are sealed, composition states each claim once with its
      support, reflection finds what its rules describe, revision only takes away,
      versions form a chain, published reports are clean.
    - Synchronization and authorization: plans are finite and acyclic, the state
      machine agrees with the database trigger, checkpoints advance by one, a
      persisted circuit breaker refines a state machine per scope; the gate
      accepts exactly the bound contracts; over every sequence of transactions a
      grant's budget holds, a run has at most four attempts, and authorizations
      and approvals are used once.
    - The pilot: binding a plan fixes three URLs; a request of the client is
      bounded and only reaches public addresses of allowed hosts; over every
      sequence of pilot runs each message has its own funded attempt, committed
      before it is sent.  The last is proved step by step with a triple on [ioM]
      ([SecPilot.triple]).
    - Where the code does not do what it means to, the theorem says so: the
      names of those theorems are of the form [controls_never_succeed],
      [stored_plan_not_bound], [long_terminal_refused].

    * Fuel and bounds

    - [PlanModel.visit] and [_has_ancestor] take one more than the number of
      steps as fuel; [visit_complete] proves that a failure with that much fuel is
      a cycle, so the fuel is never what ends the search.
    - [ToolRun.attempt_loop] runs for two rounds, the code's maximum of attempts;
      [execute_loop_ends] proves that two are enough.  Retries of
      [ProviderGuards] recurse on the attempts the policy leaves.
    - [Chunking.ranges_loop] takes any fuel; the length of the text is enough
      when the overlap is within the minimum window, and no fuel is enough on the
      inputs of [Chunking.default_config_never_ends].
    - [HttpClient.get_go] takes the attempts per target times the targets;
      [get_bounded] proves that this always gives an answer.
    - [Bm25.atanh_series], [Ledger.remove_sub] and the digit loops of [PyDecimal]
      take a bound of their series or the length of their input.

    * Simplifications

    - Transactions run one at a time: the row and advisory locks of the code
      serialize them.  The in-process [MonotonicRateLimiter] (threads, binary
      floats) and the deadline worker of the HTTP client are not modelled.
    - pydantic validation is modelled where a service relies on the constraint or
      can trip it; a record of the model otherwise holds values of its type.
    - NUMERIC columns keep amounts as they are (exact within their digits); text
      compares by code points.  The unique, foreign-key and check constraints that
      modelled statements meet are part of the model; triggers of the migrations
      that only refuse updates and deletes are met by no modelled statement, and
      the one that guards sync runs is [ProviderSync.stage9_guard_sync_run].

    * Not modelled, and why

    - Input and output, and glue: sockets and TLS, file locks and paths of
      infrastructure/blob_storage.py, main.py, api/, config.py, logging.py,
      argument parsing and printing of the cli_*.py files.
    - Code whose results depend on third-party parsers or services: the vendor
      adapters (providers/tushare, sec_edgar/adapter.py), the content validator of
      providers/http_response.py.  The adapter, the admission of documents and the
      audit view are ports of [SecPilot].
    - Read-only projections: the query views of db/repositories/, the audit view
      of a pilot, tools/registry.py (the Tools are arguments of [ToolRun]),
      domain/securities and data-access snapshots (inputs named by identifiers).
    - Registries without a theorem to offer beyond insertion: the provider
      control plane, adapters and capabilities; dead letters, the persisted HTTP
      cache, manual evidence and its offline pipeline; seeds of constant tables. *)
From stdpp Require Export base tactics option list strings gmap sorting.
From Stdlib Require Export ZArith Lia.
From Stdlib Require Import Ascii DecimalString.

#[global] Open Scope Z_scope.

(** * Exceptions and results

    A Python call either returns a value or raises.  The exception carries its
    class (callers discriminate on it in [except] clauses) and its message or
    stable error code. *)

Inductive exn_kind :=
| ValueError | TypeError | KeyError | LookupError | ValidationError
| ResearchStateTransitionError | ResearchRunControlError | ResearchBudgetError
| ResearchOrchestrationError | ResearchPlanValidationError
| ResearchToolAuthorizationError | ResearchToolContextError
| ResearchToolExecutionError | ToolRegistryError | ResearchInvocationError
| ResearchObservationError | ResearchRequestError | ResearchPolicyError
| PeriodSemanticsError | UnitNormalizationBlocked | CalculationBlocked
| FormulaBlocked | IntegrityError | RecursionError | AssertionError | InvalidOperation
| DivisionByZero | OverflowError | RuntimeError | OSError | PermissionError | ProviderError
| IndexError | UnicodeEncodeError | BlobStorageError
(** a class of the program's own, by its name *)
| NamedError (cls : string).

#[export] Instance exn_kind_eq_dec : EqDecision exn_kind.
Proof. solve_decision. Defined.

Record exn := mkExn { exn_class : exn_kind; exn_code : string }.

#[export] Instance exn_eq_dec : EqDecision exn.
Proof. solve_decision. Defined.

Inductive res (A : Type) :=
| Ok (a : A)
| Raise (e : exn).
Arguments Ok {A} _.
Arguments Raise {A} _.

#[export] Instance res_eq_dec {A} `{EqDecision A} : EqDecision (res A).
Proof. refine (λ x y, match x, y with
  | Ok a, Ok b => cast_if (decide (a = b))
  | Raise e, Raise e' => cast_if (decide (e = e'))
  | _, _ => right _ end); abstract congruence. Defined.

#[export] Instance res_ret : MRet res := λ A a, Ok a.
#[export] Instance res_bind : MBind res := λ A B f m,
  match m with Ok a => f a | Raise e => Raise e end.
#[export] Instance res_fmap : FMap res := λ A B f m,
  match m with Ok a => Ok (f a) | Raise e => Raise e end.

(** [raise k c] is the statement [raise k(c)]; [reject_if b k c] is
    [if b: raise k(c)]. *)
Definition raise {A} (k : exn_kind) (c : string) : res A := Raise (mkExn k c).
Definition reject_if (b : bool) (k : exn_kind) (c : string) : res unit :=
  if b then raise k c else Ok tt.

(** [x is not None]-style access that raises otherwise. *)
Definition require_some {A} (o : option A) (k : exn_kind) (c : string) : res A :=
  match o with Some a => Ok a | None => raise k c end.

Definition is_ok {A} (m : res A) : bool := match m with Ok _ => true | Raise _ => false end.

Lemma bind_Ok {A B} (m : res A) (f : A → res B) b :
  m ≫= f = Ok b ↔ ∃ a, m = Ok a ∧ f a = Ok b.
Proof. destruct m as [a|e]; cbn; split; [eauto|intros (? & [= ->] & ?); done|done|intros (? & ? & ?); done]. Qed.

Lemma bind_Raise {A B} (m : res A) (f : A → res B) e :
  m ≫= f = Raise e ↔ m = Raise e ∨ ∃ a, m = Ok a ∧ f a = Raise e.
Proof.
  destruct m as [a|e']; cbn; split.
  - eauto.
  - intros [?|(? & [= ->] & ?)]; done.
  - intros [= ->]; by left.
  - by intros [[= ->]|(? & ? & ?)].
Qed.

(** Running a statement whose outcome is known. *)
Lemma Ok_bind {A B} (a : A) (f : A → res B) : Ok a ≫= f = f a.
Proof. done. Qed.
Lemma Raise_bind {A B} (e : exn) (f : A → res B) : Raise e ≫= f = Raise e.
Proof. done. Qed.
#[export] Hint Rewrite @Ok_bind @Raise_bind : res.

Lemma reject_if_Ok b k c u : reject_if b k c = Ok u ↔ b = false.
Proof. by destruct b, u. Qed.

Lemma reject_if_Raise b k c e : reject_if b k c = Raise e ↔ b = true ∧ e = mkExn k c.
Proof. destruct b; cbn; split; [by intros [= <-]|by intros [_ ->]|done|by intros []]. Qed.

Lemma require_some_Ok {A} (o : option A) k c a : require_some o k c = Ok a ↔ o = Some a.
Proof. destruct o; cbn; unfold raise; split; congruence. Qed.

Lemma seq_Ok {A} (m : res unit) (k : res A) a : (m;; k) = Ok a ↔ m = Ok tt ∧ k = Ok a.
Proof.
  rewrite bind_Ok. split; [intros ([] & ? & ?); done|intros [? ?]; by exists tt].
Qed.

Lemma guard_seq {A} b k c (m : res A) a : (reject_if b k c;; m) = Ok a ↔ b = false ∧ m = Ok a.
Proof. by rewrite seq_Ok, reject_if_Ok. Qed.

#[global] Arguments mbind : simpl never.
#[global] Arguments reject_if : simpl never.
#[global] Arguments require_some : simpl never.

(** [inv_res] takes apart every hypothesis saying that a sequence of guarded
    statements returned normally. *)
Ltac inv_res :=
  repeat match goal with
  | H : (_ ≫= _) = Ok _ |- _ => apply bind_Ok in H; destruct H as (? & ? & H)
  | H : reject_if _ _ _ = Ok _ |- _ => apply reject_if_Ok in H
  | H : require_some _ _ _ = Ok _ |- _ => apply require_some_Ok in H
  | H : match ?p with (_, _) => _ end = Ok _ |- _ => destruct p
  | H : Ok _ = Ok _ |- _ => injection H as H
  | H : mret _ = Ok _ |- _ => injection H as H
  | H : raise _ _ = Ok _ |- _ => discriminate H
  | H : Raise _ = Ok _ |- _ => discriminate H
  end.

(** [run_res] steps through statements whose outcome is known, [run_res H]
    through the one [H] describes. *)
Tactic Notation "run_res" := autorewrite with res; cbv beta iota.
Tactic Notation "run_res" constr(H) := rewrite H; run_res.

(** Boolean tests met in guards, turned into propositions. *)
Ltac decide_closed H :=
  repeat match type of H with
  | context [bool_decide ?P] =>
      let b := eval vm_compute in (bool_decide P) in
      match b with
      | true => change (bool_decide P) with true in H
      | false => change (bool_decide P) with false in H
      end
  end; cbv iota in H.

Ltac bools :=
  repeat match goal with
  | H : negb _ = true |- _ => apply negb_true_iff in H
  | H : negb _ = false |- _ => apply negb_false_iff in H
  | H : (_ && _)%bool = true |- _ => apply andb_true_iff in H; destruct H
  | H : (_ || _)%bool = false |- _ => apply orb_false_iff in H; destruct H
  | H : bool_decide _ = true |- _ => apply bool_decide_eq_true_1 in H
  | H : bool_decide _ = false |- _ => apply bool_decide_eq_false_1 in H
  | H : (_ <? _) = true |- _ => apply Z.ltb_lt in H
  | H : (_ <? _) = false |- _ => apply Z.ltb_ge in H
  | H : (_ <=? _) = true |- _ => apply Z.leb_le in H
  | H : (_ <=? _) = false |- _ => apply Z.leb_gt in H
  | H : (_ =? _) = true |- _ => apply Z.eqb_eq in H
  | H : (_ =? _) = false |- _ => apply Z.eqb_neq in H
  end.

(** Loops whose body can raise: with an accumulator, collecting results, or
    for effect only. *)
Fixpoint res_fold {A S} (f : S → A → res S) (l : list A) (s : S) : res S :=
  match l with
  | [] => Ok s
  | x :: l => s' ← f s x; res_fold f l s'
  end.

Fixpoint res_map {A B} (f : A → res B) (l : list A) : res (list B) :=
  match l with
  | [] => Ok []
  | x :: l => y ← f x; ys ← res_map f l; Ok (y :: ys)
  end.

Fixpoint res_iter {A} (f : A → res unit) (l : list A) : res unit :=
  match l with [] => Ok tt | x :: l => f x;; res_iter f l end.

Lemma res_iter_Ok {A} (f : A → res unit) l u :
  res_iter f l = Ok u ↔ Forall (λ x, f x = Ok tt) l.
Proof.
  destruct u. induction l as [|x l IH]; cbn; [by split|].
  rewrite bind_Ok, Forall_cons, <- IH. split.
  - by intros ([] & ? & ?).
  - intros [? ?]. by exists tt.
Qed.

Lemma Forall2_elem_r {A B} (R : A → B → Prop) l k b :
  Forall2 R l k → b ∈ k → ∃ a, a ∈ l ∧ R a b.
Proof.
  induction 1 as [|x y l k Hxy _ IH]; intros Hb; [by apply elem_of_nil in Hb|].
  apply elem_of_cons in Hb as [->|Hb]; [exists x; split; [left|done]|].
  destruct (IH Hb) as (a & ? & ?). exists a. split; [by right|done].
Qed.

Lemma Forall2_elem_l {A B} (R : A → B → Prop) l k a :
  Forall2 R l k → a ∈ l → ∃ b, b ∈ k ∧ R a b.
Proof. intros H%Forall2_flip Ha. exact (Forall2_elem_r _ _ _ _ H Ha). Qed.

(** A filter that keeps nothing. *)
Lemma list_filter_none {A} (P : A → Prop) `{!∀ x, Decision (P x)} l :
  Forall (λ x, ¬ P x) l → filter P l = [].
Proof. induction 1 as [|x l Hx _ IH]; [done|]. by rewrite filter_cons_False, IH. Qed.

Lemma list_filter_all {A} (P : A → Prop) `{∀ x, Decision (P x)} (l : list A) :
  (∀ x, x ∈ l → P x) → filter P l = l.
Proof.
  intros Hl. induction l as [|x l IH]; [done|]. rewrite filter_cons_True by (apply Hl; left).
  f_equal. apply IH. intros y Hy. apply Hl. by right.
Qed.

Lemma res_map_Ok {A B} (f : A → res B) l l' :
  res_map f l = Ok l' ↔ Forall2 (λ x y, f x = Ok y) l l'.
Proof.
  revert l'. induction l as [|x l IH]; intros l'; cbn.
  - split; [by intros [= <-]|by inversion 1].
  - rewrite bind_Ok. split.
    + intros (y & Hy & H). apply bind_Ok in H as (ys & Hys & [= <-]).
      constructor; [done|]. by apply IH.
    + inversion 1 as [|? y ? ys Hy Hys]; subst. exists y. split; [done|].
      apply bind_Ok. exists ys. split; [|done]. by apply IH.
Qed.

(** * Identifiers, times, enumerations *)

(** A UUID is kept as its canonical text: the program compares UUIDs for
    equality and orders them by [str]. *)
Record UUID := mkUUID { uuid_str : string }.
#[export] Instance UUID_eq_dec : EqDecision UUID.
Proof. solve_decision. Defined.
#[export] Instance UUID_countable : Countable UUID.
Proof. refine (inj_countable' uuid_str mkUUID _); abstract by intros []. Defined.

(** An aware UTC datetime is its number of microseconds since the epoch. *)
Abbreviation time := Z (only parsing).
(** A calendar date is its number of days since 1970-01-01. *)
Abbreviation date := Z (only parsing).

(** A datetime as Python carries it: local microseconds and the UTC offset
    ([None] for a naive datetime). *)
Record datetime := mkDatetime { dt_local : Z; dt_utcoffset : option Z }.
#[export] Instance datetime_eq_dec : EqDecision datetime.
Proof. solve_decision. Defined.

Definition opt_eqb `{EqDecision A} (a b : option A) : bool := bool_decide (a = b).
Definition is_none {A} (o : option A) : bool := match o with None => true | Some _ => false end.
Definition is_some {A} (o : option A) : bool := negb (is_none o).

Lemma is_none_true {A} (o : option A) : is_none o = true ↔ o = None.
Proof. by destruct o. Qed.
Lemma is_none_false {A} (o : option A) : is_none o = false ↔ is_Some o.
Proof.
  unfold is_Some. destruct o; cbn; split; intros H; eauto; [done|by destruct H].
Qed.

(** * Strings *)

Definition str_ltb (a b : string) : bool :=
  match String.compare a b with Lt => true | _ => false end.

Fixpoint str_join (sep : string) (l : list string) : string :=
  match l with
  | [] => ""
  | [s] => s
  | s :: l => s +:+ sep +:+ str_join sep l
  end.

Definition str_of_Z (z : Z) : string := NilZero.string_of_int (Z.to_int z).
Definition str_startswith (s p : string) : bool := String.prefix p s.

Fixpoint str_map (f : ascii → ascii) (s : string) : string :=
  match s with EmptyString => EmptyString | String c s => String (f c) (str_map f s) end.

Definition ascii_upper (c : ascii) : ascii :=
  let n := N_of_ascii c in
  if (97 <=? n)%N && (n <=? 122)%N then ascii_of_N (n - 32) else c.
Definition ascii_lower (c : ascii) : ascii :=
  let n := N_of_ascii c in
  if (65 <=? n)%N && (n <=? 90)%N then ascii_of_N (n + 32) else c.

Lemma ascii_compare_refl a : Ascii.compare a a = Eq.
Proof. unfold Ascii.compare. apply N.compare_refl. Qed.

Lemma str_compare_refl a : String.compare a a = Eq.
Proof. induction a as [|c a IH]; cbn; [done|]. by rewrite ascii_compare_refl. Qed.

Lemma str_ltb_irrefl a : str_ltb a a = false.
Proof. unfold str_ltb. by rewrite str_compare_refl. Qed.

Lemma str_ltb_lt a b : str_ltb a b = true ↔ String.compare a b = Lt.
Proof. unfold str_ltb. by destruct (String.compare a b). Qed.

Lemma ascii_compare_trans a b c :
  Ascii.compare a b = Lt → Ascii.compare b c = Lt → Ascii.compare a c = Lt.
Proof.
  unfold Ascii.compare. rewrite !N.compare_lt_iff. lia.
Qed.

Lemma str_compare_trans a : ∀ b c,
  String.compare a b = Lt → String.compare b c = Lt → String.compare a c = Lt.
Proof.
  induction a as [|x a IH]; intros [|y b] [|z c]; cbn; try done.
  destruct (Ascii.compare x y) eqn:Exy; destruct (Ascii.compare y z) eqn:Eyz; try done.
  - apply Ascii.compare_eq_iff in Exy as ->. rewrite Eyz. apply IH.
  - apply Ascii.compare_eq_iff in Exy as ->. by rewrite Eyz.
  - apply Ascii.compare_eq_iff in Eyz as <-. by rewrite Exy.
  - intros _ _. by rewrite (ascii_compare_trans _ _ _ Exy Eyz).
Qed.

Lemma str_ltb_trans a b c : str_ltb a b = true → str_ltb b c = true → str_ltb a c = true.
Proof. rewrite !str_ltb_lt. apply str_compare_trans. Qed.

Lemma str_ltb_asym a b : str_ltb a b = true → str_ltb b a = false.
Proof.
  intros H. destruct (str_ltb b a) eqn:E; [|done].
  by rewrite <- (str_ltb_irrefl a), (str_ltb_trans a b a).
Qed.

Lemma str_ltb_total a b : str_ltb a b = false → str_ltb b a = false → a = b.
Proof.
  unfold str_ltb. rewrite (String.compare_antisym a b).
  destruct (String.compare b a) eqn:E; cbn; try done.
  intros _ _. symmetry. by apply String.compare_eq_iff.
Qed.

(** Elements of a list are told apart by a key without duplicates. *)
Lemma NoDup_map_inj {A B} (f : A → B) l x y : NoDup (map f l) → x ∈ l → y ∈ l → f x = f y → x = y.
Proof.
  intros Hn [i Hi]%list_elem_of_lookup [j Hj]%list_elem_of_lookup E.
  assert (i = j) as <-; [|congruence].
  eapply NoDup_lookup; [exact Hn|rewrite list_lookup_fmap, Hi; cbn; done|].
  rewrite list_lookup_fmap, Hj. cbn. by rewrite E.
Qed.

(** * Stable sorting by a key, as Python's [sorted]

    [sorted] only uses [<] on the keys and keeps equal elements in their
    original order. *)
Section SortBy.
Context {A : Type} (ltb : A → A → bool).

Fixpoint insert_by (x : A) (l : list A) : list A :=
  match l with
  | [] => [x]
  | y :: l' => if ltb y x then y :: insert_by x l' else x :: l
  end.

Definition sort_by (l : list A) : list A := foldr insert_by [] l.

Lemma insert_by_perm x l : insert_by x l ≡ₚ x :: l.
Proof.
  induction l as [|y l IH]; cbn; [done|].
  destruct (ltb y x); [|done]. rewrite IH. apply Permutation_swap.
Qed.

Lemma sort_by_perm l : sort_by l ≡ₚ l.
Proof.
  unfold sort_by. induction l as [|x l IH]; cbn; [done|].
  by rewrite insert_by_perm, IH.
Qed.

Lemma elem_of_sort_by x l : x ∈ sort_by l ↔ x ∈ l.
Proof. by rewrite sort_by_perm. Qed.

Lemma length_sort_by l : length (sort_by l) = length l.
Proof. by rewrite sort_by_perm. Qed.

(** "not later": the relation of neighbours in a sorted list. *)
Definition not_after (x y : A) : Prop := ltb y x = false.

Context (ltb_asym : ∀ x y, ltb x y = true → ltb y x = false).
Context (not_after_trans : ∀ x y z, not_after x y → not_after y z → not_after x z).

Lemma insert_by_sorted x l :
  StronglySorted not_after l → StronglySorted not_after (insert_by x l).
Proof.
  induction 1 as [|y l Hl IH Hy]; cbn; [by repeat constructor|].
  destruct (ltb y x) eqn:E.
  - constructor; [done|]. rewrite insert_by_perm.
    constructor; [by apply ltb_asym|done].
  - constructor; [by constructor|].
    constructor; [done|].
    eapply Forall_impl; [exact Hy|]. intros z Hz. by eapply not_after_trans.
Qed.

Lemma sort_by_sorted l : StronglySorted not_after (sort_by l).
Proof. induction l; cbn; [constructor|by apply insert_by_sorted]. Qed.

Lemma insert_by_head x l : Forall (not_after x) l → insert_by x l = x :: l.
Proof. destruct 1 as [|y l Hy]; cbn; [done|]. by rewrite Hy. Qed.

Lemma sort_by_id l : StronglySorted not_after l → sort_by l = l.
Proof.
  unfold sort_by. induction 1 as [|x l Hl IH Hx]; cbn; [done|].
  rewrite IH. by apply insert_by_head.
Qed.
End SortBy.

(** Two sorted lists with the same elements and no ties are equal: [sorted]
    forgets the order of its argument when the keys are distinct. *)
Section SortUnique.
Context {A : Type} (ltb : A → A → bool).
Context (ltb_asym : ∀ x y, ltb x y = true → ltb y x = false).
Context (not_after_trans : ∀ x y z,
  not_after ltb x y → not_after ltb y z → not_after ltb x z).

Lemma sort_by_unique l1 l2 :
  (∀ x y, x ∈ l1 → y ∈ l1 → ltb x y = false → ltb y x = false → x = y) →
  l1 ≡ₚ l2 → sort_by ltb l1 = sort_by ltb l2.
Proof.
  intros Htie Hp.
  assert (Hs1 := sort_by_sorted ltb ltb_asym not_after_trans l1).
  assert (Hs2 := sort_by_sorted ltb ltb_asym not_after_trans l2).
  assert (Hp' : sort_by ltb l1 ≡ₚ sort_by ltb l2) by by rewrite !sort_by_perm.
  assert (Htie' : ∀ x y, x ∈ sort_by ltb l1 → y ∈ sort_by ltb l1 →
    ltb x y = false → ltb y x = false → x = y).
  { intros x y. rewrite !elem_of_sort_by. apply Htie. }
  clear Htie Hp. revert Hp' Hs1 Hs2 Htie'.
  generalize (sort_by ltb l1) as m1, (sort_by ltb l2) as m2. clear l1 l2.
  induction m1 as [|x m1 IH]; intros m2 Hp Hs1 Hs2 Htie.
  - by apply Permutation_nil_l in Hp.
  - destruct m2 as [|y m2]; [by apply Permutation_nil_r in Hp|].
    apply StronglySorted_inv in Hs1 as [Hs1 Hx], Hs2 as [Hs2 Hy].
    assert (x = y) as ->.
    { assert (Hyin : y ∈ x :: m1) by (rewrite Hp; left).
      assert (Hxin : x ∈ y :: m2) by (rewrite <- Hp; left).
      apply elem_of_cons in Hyin as [->|Hyin]; [done|].
      apply elem_of_cons in Hxin as [->|Hxin]; [done|].
      rewrite Forall_forall in Hx, Hy.
      apply Htie; [left|by right|by apply Hy|by apply Hx]. }
    f_equal. apply IH; try done.
    + by apply Permutation_cons_inv in Hp.
    + intros a b Ha Hb. apply Htie; by right.
Qed.
End SortUnique.

(** Sorting by a string key. *)
Definition key_ltb {A} (key : A → string) (a b : A) : bool := str_ltb (key a) (key b).

Lemma key_ltb_asym {A} (key : A → string) a b :
  key_ltb key a b = true → key_ltb key b a = false.
Proof. apply str_ltb_asym. Qed.

Lemma key_not_after_trans {A} (key : A → string) x y z :
  not_after (key_ltb key) x y → not_after (key_ltb key) y z → not_after (key_ltb key) x z.
Proof.
  unfold not_after, key_ltb. intros H1 H2.
  destruct (str_ltb (key z) (key x)) eqn:E; [|done].
  destruct (str_ltb (key x) (key y)) eqn:Exy.
  - by rewrite (str_ltb_trans _ _ _ E Exy) in H2.
  - rewrite (str_ltb_total _ _ H1 Exy) in H2. congruence.
Qed.

#[export] Hint Resolve key_ltb_asym key_not_after_trans : core.

Definition sort_key {A} (key : A → string) : list A → list A := sort_by (key_ltb key).
Definition sort_str : list string → list string := sort_key id.
Definition sort_uuid : list UUID → list UUID := sort_key uuid_str.

(** [a != b] *)
Definition neqb {A} `{EqDecision A} (x y : A) : bool := negb (bool_decide (x = y)).
Lemma neqb_false {A} `{EqDecision A} (x y : A) : neqb x y = false ↔ x = y.
Proof. unfold neqb. by rewrite negb_false_iff, bool_decide_eq_true. Qed.
Lemma negb_decide (P : Prop) `{Decision P} : negb (bool_decide P) = false ↔ P.
Proof. by rewrite negb_false_iff, bool_decide_eq_true. Qed.
Lemma existsb_iff {A} (f : A → bool) l : existsb f l = true ↔ ∃ x, x ∈ l ∧ f x = true.
Proof. rewrite existsb_exists. by setoid_rewrite <- list_elem_of_In. Qed.
Lemma existsb_false {A} (f : A → bool) l : existsb f l = false ↔ ∀ x, x ∈ l → f x = false.
Proof.
  rewrite <- not_true_iff_false, existsb_exists. setoid_rewrite <- list_elem_of_In.
  setoid_rewrite <- not_true_iff_false. naive_solver.
Qed.

Lemma elem_of_concat {A} (x : A) l : x ∈ concat l ↔ ∃ xs, x ∈ xs ∧ xs ∈ l.
Proof.
  rewrite list_elem_of_In, in_concat. setoid_rewrite list_elem_of_In. naive_solver.
Qed.
