(* ===== verification/PyDecimal.v ===== *)
(** Python's [decimal.Decimal] in the default context (28 significant digits,
    round half to even; [_at] gives the precision), as the program uses it: signed
    coefficient-exponent triples, exact comparison, rounded [+ - * /],
    [quantize], [str] and [format(_, "f")].  The exponent limits of the context (±999999) are
    not modelled: stored values are bounded NUMERIC columns. *)
From S2P Require Import Prelude.
From Stdlib Require Import Ascii DecimalString.

Record decimal := mkDec { dsign : bool; dcoef : Z; dexp : Z }.
#[export] Instance decimal_eq_dec : EqDecision decimal.
Proof. solve_decision. Defined.

Definition prec : Z := 28.

(** The signed integer coefficient. *)
Definition dint (d : decimal) : Z := if dsign d then - dcoef d else dcoef d.

Definition dec_of_Z (z : Z) : decimal := mkDec (z <? 0) (Z.abs z) 0.

Definition dec_wf (d : decimal) : Prop := 0 <= dcoef d.

(** The value of [d] counted in units of [10^s], for [s <= dexp d]. *)
Definition dscaled (d : decimal) (s : Z) : Z := dint d * 10 ^ (dexp d - s).

(** Number of decimal digits of a coefficient. *)
Fixpoint digits_fuel (f : nat) (n : Z) : Z :=
  match f with
  | O => 1
  | S f => if n <? 10 then 1 else 1 + digits_fuel f (n / 10)
  end.
Definition num_digits (n : Z) : Z := digits_fuel (Z.to_nat (Z.log2 n)) n.

(** Drop [k] digits of [n], rounding half to even. *)
Definition round_half_even (n k : Z) : Z :=
  let q := n / 10 ^ k in
  let r := n mod 10 ^ k in
  if (2 * r <? 10 ^ k) || ((2 * r =? 10 ^ k) && Z.even q) then q else q + 1.

(** [Decimal._fix]: round the coefficient to the context precision. *)
Definition dfix_at (prec : Z) (d : decimal) : decimal :=
  let k := num_digits (dcoef d) - prec in
  if k <=? 0 then d
  else
    let q := round_half_even (dcoef d) k in
    if q =? 10 ^ prec then mkDec (dsign d) (10 ^ (prec - 1)) (dexp d + k + 1)
    else mkDec (dsign d) q (dexp d + k).
Definition dfix : decimal → decimal := dfix_at prec.

Definition dadd_exact (a b : decimal) : decimal :=
  let e := Z.min (dexp a) (dexp b) in
  let s := dscaled a e + dscaled b e in
  mkDec (if s =? 0 then dsign a && dsign b else s <? 0) (Z.abs s) e.
Definition dneg (a : decimal) : decimal := mkDec (negb (dsign a)) (dcoef a) (dexp a).
Definition dmul_exact (a b : decimal) : decimal :=
  mkDec (xorb (dsign a) (dsign b)) (dcoef a * dcoef b) (dexp a + dexp b).

Definition dadd (a b : decimal) : decimal := dfix (dadd_exact a b).
Definition dsub (a b : decimal) : decimal := dadd a (dneg b).
Definition dmul (a b : decimal) : decimal := dfix (dmul_exact a b).

(** Strip trailing zeros of an exact quotient up to the ideal exponent. *)
Fixpoint strip_zeros (f : nat) (coef e ideal : Z) : Z * Z :=
  match f with
  | O => (coef, e)
  | S f =>
      if (e <? ideal) && (coef mod 10 =? 0) then strip_zeros f (coef / 10) (e + 1) ideal
      else (coef, e)
  end.

(** [Decimal.__truediv__]: an exact quotient keeps the exponent nearest to the
    ideal one, an inexact one carries a sticky digit into the rounding. *)
Definition ddiv_at (prec : Z) (a b : decimal) : res decimal :=
  if dcoef b =? 0 then raise InvalidOperation "DivisionByZero"
  else
    let sign := xorb (dsign a) (dsign b) in
    if dcoef a =? 0 then Ok (mkDec sign 0 (dexp a - dexp b))
    else
      let shift := num_digits (dcoef b) - num_digits (dcoef a) + prec + 1 in
      let e := dexp a - dexp b - shift in
      let num := if shift <? 0 then dcoef a else dcoef a * 10 ^ shift in
      let den := if shift <? 0 then dcoef b * 10 ^ (- shift) else dcoef b in
      let q := num / den in
      let r := num mod den in
      if r =? 0 then
        let '(c, e') := strip_zeros (Z.to_nat (num_digits q)) q e (dexp a - dexp b) in
        Ok (dfix_at prec (mkDec sign c e'))
      else Ok (dfix_at prec (mkDec sign (if q mod 5 =? 0 then q + 1 else q) e)).
Definition ddiv : decimal → decimal → res decimal := ddiv_at prec.

(** [d.quantize(10 ** e)] in a context of [prec] digits, rounding half to even. *)
Definition quantize_at (prec e : Z) (d : decimal) : res decimal :=
  let coef := if e <=? dexp d then dcoef d * 10 ^ (dexp d - e)
              else round_half_even (dcoef d) (e - dexp d) in
  if prec <? num_digits coef then raise InvalidOperation "quantize result has too many digits"
  else Ok (mkDec (dsign d) coef e).
Definition dquantize : Z → decimal → res decimal := quantize_at prec.

Definition dcompare (a b : decimal) : comparison :=
  let e := Z.min (dexp a) (dexp b) in
  Z.compare (dscaled a e) (dscaled b e).
Definition dlt (a b : decimal) : bool := match dcompare a b with Lt => true | _ => false end.
Definition dle (a b : decimal) : bool := match dcompare a b with Gt => false | _ => true end.
Definition deq (a b : decimal) : bool := match dcompare a b with Eq => true | _ => false end.
Definition dzero : decimal := mkDec false 0 0.

(** [sum(values, start=Decimal("0"))] *)
Definition dsum (l : list decimal) : decimal := foldl dadd dzero l.

(** ** Printing *)
Fixpoint str_repeat (n : nat) (s : string) : string :=
  match n with O => "" | S n => s +:+ str_repeat n s end.
Definition zeros (n : Z) : string := str_repeat (Z.to_nat n) "0".

Definition place_dot (ds : string) (dotplace : Z) : string :=
  let len := Z.of_nat (String.length ds) in
  if dotplace <=? 0 then "0." +:+ zeros (- dotplace) +:+ ds
  else if len <=? dotplace then ds +:+ zeros (dotplace - len)
  else String.substring 0 (Z.to_nat dotplace) ds +:+ "." +:+
       String.substring (Z.to_nat dotplace) (Z.to_nat (len - dotplace)) ds.

Definition str_of_dec (d : decimal) : string :=
  let ds := str_of_Z (dcoef d) in
  let left := dexp d + Z.of_nat (String.length ds) in
  let dotplace := if (dexp d <=? 0) && (-6 <? left) then left else 1 in
  (if dsign d then "-" else "") +:+ place_dot ds dotplace +:+
  (if left =? dotplace then "" else
     "E" +:+ (if 0 <=? left - dotplace then "+" else "") +:+ str_of_Z (left - dotplace)).

(** [format(d, "f")] *)
Definition format_f (d : decimal) : string :=
  let ds := str_of_Z (dcoef d) in
  (if dsign d then "-" else "") +:+
  (if 0 <=? dexp d then (if dcoef d =? 0 then "0" else ds +:+ zeros (dexp d))
   else place_dot ds (dexp d + Z.of_nat (String.length ds))).

Example str_dec_1 : str_of_dec (mkDec true 12345 (-2)) = "-123.45".
Proof. reflexivity. Qed.
Example str_dec_2 : str_of_dec (mkDec false 1 3) = "1E+3".
Proof. reflexivity. Qed.
Example str_dec_3 : str_of_dec (mkDec false 5 (-8)) = "5E-8".
Proof. reflexivity. Qed.
Example div_1 : ddiv (dec_of_Z 1) (dec_of_Z 3) = Ok (mkDec false 3333333333333333333333333333 (-28)).
Proof. vm_compute. reflexivity. Qed.
Example div_2 : ddiv (dec_of_Z 2) (dec_of_Z 3) = Ok (mkDec false 6666666666666666666666666667 (-28)).
Proof. vm_compute. reflexivity. Qed.
Example div_3 : ddiv (dec_of_Z 10) (dec_of_Z 4) = Ok (mkDec false 25 (-1)).
Proof. vm_compute. reflexivity. Qed.
Example div_4 : ddiv (dec_of_Z 6) (mkDec false 20 (-1)) = Ok (mkDec false 3 0).
Proof. vm_compute. reflexivity. Qed.

(** ** Rounding: at most 28 digits, at most half a unit in the last place *)

Lemma digits_fuel_spec f : ∀ n, 0 < n < 2 ^ (Z.of_nat f + 1) →
  1 ≤ digits_fuel f n ∧ 10 ^ (digits_fuel f n - 1) ≤ n < 10 ^ digits_fuel f n.
Proof.
  induction f as [|f IH]; intros n Hn; cbn [digits_fuel].
  - change (2 ^ (Z.of_nat 0 + 1)) with 2 in Hn. change (10 ^ (1 - 1)) with 1.
    change (10 ^ 1) with 10. lia.
  - destruct (Z.ltb_spec n 10) as [Hlt|Hge].
    { change (10 ^ (1 - 1)) with 1. change (10 ^ 1) with 10. lia. }
    assert (Hq : 0 < n / 10 < 2 ^ (Z.of_nat f + 1)).
    { split; [apply Z.div_str_pos; lia|].
      apply Z.div_lt_upper_bound; [lia|].
      replace (Z.of_nat (S f) + 1) with (Z.of_nat f + 1 + 1) in Hn by lia.
      rewrite Z.pow_add_r in Hn by lia. lia. }
    destruct (IH _ Hq) as (H1 & H2 & H3). set (k := digits_fuel f (n / 10)) in *.
    split; [lia|]. replace (1 + k - 1) with (k - 1 + 1) by lia.
    rewrite Z.pow_add_r, (Z.pow_add_r 10 1 k) by lia. change (10 ^ 1) with 10.
    assert (n = 10 * (n / 10) + n mod 10) by (apply Z.div_mod; lia).
    assert (0 ≤ n mod 10 < 10) by (apply Z.mod_pos_bound; lia). lia.
Qed.

Lemma num_digits_spec n : 0 < n →
  1 ≤ num_digits n ∧ 10 ^ (num_digits n - 1) ≤ n < 10 ^ num_digits n.
Proof.
  intros Hn. apply digits_fuel_spec. split; [done|].
  rewrite Z2Nat.id by apply Z.log2_nonneg. apply Z.log2_spec. done.
Qed.

Lemma num_digits_zero : num_digits 0 = 1.
Proof. reflexivity. Qed.

Lemma num_digits_le n k : 0 ≤ n < 10 ^ k → 1 ≤ k → num_digits n ≤ k.
Proof.
  intros Hn Hk. destruct (decide (n = 0)) as [->|Hn0]; [rewrite num_digits_zero; lia|].
  destruct (num_digits_spec n) as (H1 & H2 & _); [lia|].
  assert (10 ^ (num_digits n - 1) < 10 ^ k) as Hlt by lia.
  apply Z.pow_lt_mono_r_iff in Hlt; lia.
Qed.

Lemma round_half_even_error n k : 0 ≤ n → 0 < k →
  2 * Z.abs (round_half_even n k * 10 ^ k - n) ≤ 10 ^ k ∧
  n / 10 ^ k ≤ round_half_even n k ≤ n / 10 ^ k + 1.
Proof.
  intros Hn Hk. unfold round_half_even.
  assert (0 < 10 ^ k) by (apply Z.pow_pos_nonneg; lia).
  assert (Hdm := Z.div_mod n (10 ^ k)). assert (Hm := Z.mod_pos_bound n (10 ^ k)).
  destruct (2 * (n mod 10 ^ k) <? 10 ^ k) eqn:E1; cbn; bools; [lia|].
  destruct (2 * (n mod 10 ^ k) =? 10 ^ k) eqn:E2; cbn; bools;
    [destruct (Z.even _)|]; lia.
Qed.

(** Everything the rounding of [dfix] guarantees. *)
Lemma dfix_spec d : dec_wf d →
  dec_wf (dfix d) ∧ dcoef (dfix d) < 10 ^ prec ∧ dexp d ≤ dexp (dfix d) ∧
  2 * Z.abs (dscaled (dfix d) (dexp d) - dint d) ≤ 10 ^ (dexp (dfix d) - dexp d).
Proof.
  unfold dec_wf, dfix, dfix_at. intros Hwf. assert (0 < 10 ^ prec) by reflexivity.
  destruct (Z.leb_spec (num_digits (dcoef d) - prec) 0) as [Hle|Hgt].
  - unfold dscaled. rewrite Z.sub_diag, Z.pow_0_r, Z.mul_1_r, Z.sub_diag.
    split_and!; [done| |lia|lia].
    destruct (decide (dcoef d = 0)) as [->|]; [done|].
    destruct (num_digits_spec (dcoef d)) as (_ & _ & H3); [lia|].
    eapply Z.lt_le_trans; [exact H3|]. apply Z.pow_le_mono_r; lia.
  - set (k := num_digits (dcoef d) - prec) in *.
    destruct (round_half_even_error (dcoef d) k Hwf Hgt) as (He & Hq1 & Hq2).
    assert (Hlt : dcoef d / 10 ^ k < 10 ^ prec).
    { destruct (decide (dcoef d = 0)) as [E0|]; [rewrite E0; by rewrite Zdiv_0_l|].
      destruct (num_digits_spec (dcoef d)) as (_ & _ & H3); [lia|].
      apply Z.div_lt_upper_bound; [apply Z.pow_pos_nonneg; lia|].
      rewrite <- Z.pow_add_r by (unfold prec in *; lia).
      by replace (k + prec) with (num_digits (dcoef d)) by (unfold k; lia). }
    assert (0 ≤ dcoef d / 10 ^ k) by (apply Z.div_pos; [done|apply Z.pow_pos_nonneg; lia]).
    set (q := round_half_even (dcoef d) k) in *.
    assert (Hpk : 0 < 10 ^ k) by (apply Z.pow_pos_nonneg; lia).
    destruct (Z.eqb_spec q (10 ^ prec)) as [Hq|Hq]; unfold dscaled, dint; cbn.
    + replace (dexp d + k + 1 - dexp d) with (k + 1) by lia.
      rewrite Z.pow_add_r by lia. change (10 ^ 1) with 10.
      assert (E : 10 ^ (prec - 1) * (10 ^ k * 10) = q * 10 ^ k)
        by (rewrite Hq; change (10 ^ prec) with (10 ^ (prec - 1) * 10); ring).
      split_and!; [done|done|lia|].
      destruct (dsign d); rewrite ?Z.mul_opp_l, E; lia.
    + replace (dexp d + k - dexp d) with k by lia.
      split_and!; [lia|lia|lia|]. destruct (dsign d); rewrite ?Z.mul_opp_l; lia.
Qed.

Lemma dfix_exact d : num_digits (dcoef d) ≤ prec → dfix d = d.
Proof. intros H. unfold dfix, dfix_at. by rewrite (proj2 (Z.leb_le _ _)) by lia. Qed.

Lemma dfix_exact_bound d : 0 ≤ dcoef d < 10 ^ prec → dfix d = d.
Proof. intros H. apply dfix_exact. apply num_digits_le; [done|unfold prec; lia]. Qed.

Lemma dfix_idemp d : dec_wf d → dfix (dfix d) = dfix d.
Proof. intros H. apply dfix_exact_bound. destruct (dfix_spec d H) as (? & ? & _). done. Qed.

(** ** Exactness of sums and products that fit *)

Lemma dint_abs d : dec_wf d → Z.abs (dint d) = dcoef d.
Proof. unfold dec_wf, dint. destruct (dsign d); lia. Qed.

Lemma dadd_exact_int a b : dint (dadd_exact a b) =
  dscaled a (Z.min (dexp a) (dexp b)) + dscaled b (Z.min (dexp a) (dexp b)).
Proof.
  unfold dadd_exact, dint; cbn. set (s := dscaled a _ + _).
  destruct (Z.eqb_spec s 0) as [->|]; [by destruct (_ && _)%bool|].
  destruct (Z.ltb_spec s 0); lia.
Qed.

Lemma dscaled_rescale d s t : s ≤ t ≤ dexp d → dscaled d s = dscaled d t * 10 ^ (t - s).
Proof.
  intros H. unfold dscaled. rewrite <- Z.mul_assoc, <- Z.pow_add_r by lia. do 2 f_equal. lia.
Qed.

Lemma dadd_exact_scaled a b s : s ≤ dexp a → s ≤ dexp b →
  dscaled (dadd_exact a b) s = dscaled a s + dscaled b s.
Proof.
  intros Ha Hb. set (m := Z.min (dexp a) (dexp b)).
  rewrite (dscaled_rescale a s m), (dscaled_rescale b s m) by lia.
  unfold dscaled at 1. rewrite dadd_exact_int. cbn. fold m. ring.
Qed.

Lemma dneg_scaled a s : dscaled (dneg a) s = - dscaled a s.
Proof. unfold dscaled, dint. cbn. destruct (dsign a); cbn; ring. Qed.

(** Well-formed results. *)
Lemma dadd_wf a b : dec_wf (dadd a b).
Proof. apply dfix_spec. unfold dec_wf, dadd_exact. cbn. lia. Qed.
Lemma dmul_wf a b : dec_wf a → dec_wf b → dec_wf (dmul a b).
Proof. intros Ha Hb. apply dfix_spec. unfold dec_wf, dmul_exact in *. cbn. nia. Qed.
#[export] Hint Resolve dadd_wf dmul_wf : core.

(** ** Comparison is comparison of values *)

Lemma dcompare_scaled a b s : s ≤ dexp a → s ≤ dexp b →
  dcompare a b = Z.compare (dscaled a s) (dscaled b s).
Proof.
  intros Ha Hb. unfold dcompare. set (m := Z.min (dexp a) (dexp b)).
  rewrite (dscaled_rescale a s m), (dscaled_rescale b s m) by lia.
  assert (0 < 10 ^ (m - s)) by (apply Z.pow_pos_nonneg; lia).
  by rewrite <- Zmult_compare_compat_r by lia.
Qed.

Lemma deq_scaled a b s : s ≤ dexp a → s ≤ dexp b →
  deq a b = true ↔ dscaled a s = dscaled b s.
Proof.
  intros Ha Hb. unfold deq. rewrite (dcompare_scaled a b s) by done.
  destruct (Z.compare_spec (dscaled a s) (dscaled b s)); split; intros; try done; lia.
Qed.

Lemma dlt_scaled a b s : s ≤ dexp a → s ≤ dexp b →
  dlt a b = true ↔ dscaled a s < dscaled b s.
Proof.
  intros Ha Hb. unfold dlt. rewrite (dcompare_scaled a b s) by done.
  destruct (Z.compare_spec (dscaled a s) (dscaled b s)); split; intros; try done; lia.
Qed.

Lemma dle_scaled a b s : s ≤ dexp a → s ≤ dexp b →
  dle a b = true ↔ dscaled a s ≤ dscaled b s.
Proof.
  intros Ha Hb. unfold dle. rewrite (dcompare_scaled a b s) by done.
  destruct (Z.compare_spec (dscaled a s) (dscaled b s)); split; intros; try done; lia.
Qed.

Lemma deq_sym a b : deq a b = true → deq b a = true.
Proof.
  intros H. apply (deq_scaled a b (Z.min (dexp a) (dexp b))) in H; [|lia..].
  apply (deq_scaled b a (Z.min (dexp a) (dexp b))); [lia..|done].
Qed.

Lemma deq_trans a b c : deq a b = true → deq b c = true → deq a c = true.
Proof.
  set (s := Z.min (dexp a) (Z.min (dexp b) (dexp c))). intros Hab Hbc.
  apply (deq_scaled a b s) in Hab; [|lia..]. apply (deq_scaled b c s) in Hbc; [|lia..].
  apply (deq_scaled a c s); [lia..|congruence].
Qed.

(** The sign of a value is the sign of its coefficient. *)
Lemma dle_zero a : dle a dzero = true ↔ dint a ≤ 0.
Proof.
  set (s := Z.min (dexp a) 0). rewrite (dle_scaled a dzero s) by (cbn; lia).
  unfold dscaled at 2. cbn. unfold dscaled.
  assert (0 < 10 ^ (dexp a - s)) by (apply Z.pow_pos_nonneg; lia).
  split; intros; nia.
Qed.

Lemma dle_false_pos a : dle a dzero = false → dec_wf a → 0 < dcoef a ∧ dsign a = false.
Proof.
  intros H Hw. assert (¬ dint a ≤ 0) as Hp by (rewrite <- dle_zero; congruence).
  unfold dint in Hp. unfold dec_wf in Hw. destruct (dsign a); split; try done; lia.
Qed.
