(* ===== verification/PyText.v ===== *)
(** Dynamic values and canonical text: the payload values the program moves
    around ([pyval]), the canonical JSON of research_agent/canonical.py and the
    [isoformat] text of its times, all executable. *)
From S2P Require Import Prelude PyDecimal.
From Stdlib Require Import Ascii.

(** * Dates and times as text *)

Definition pad_left (n : nat) (s : string) : string :=
  zeros (Z.of_nat n - Z.of_nat (String.length s)) +:+ s.

(** Proleptic Gregorian date of a day number (epoch 1970-01-01). *)
Definition civil_of_days (days : Z) : Z * Z * Z :=
  let z := days + 719468 in
  let era := z / 146097 in
  let doe := z mod 146097 in
  let yoe := (doe - doe / 1460 + doe / 36524 - doe / 146096) / 365 in
  let doy := doe - (365 * yoe + yoe / 4 - yoe / 100) in
  let mp := (5 * doy + 2) / 153 in
  let d := doy - (153 * mp + 2) / 5 + 1 in
  let m := if mp <? 10 then mp + 3 else mp - 9 in
  let y := yoe + era * 400 in
  ((if m <=? 2 then y + 1 else y), m, d).

Definition date_isoformat (d : date) : string :=
  let '(y, m, dd) := civil_of_days d in
  pad_left 4 (str_of_Z y) +:+ "-" +:+ pad_left 2 (str_of_Z m) +:+ "-" +:+ pad_left 2 (str_of_Z dd).

Definition us_per_day : Z := 86400000000.

(** Date of an aware UTC instant. *)
Definition time_date (t : time) : date := t / us_per_day.

(** [isoformat] without its offset suffix. *)
Definition local_isoformat (us : Z) : string :=
  let r := us mod us_per_day in
  let s := r / 1000000 in
  let frac := r mod 1000000 in
  date_isoformat (us / us_per_day) +:+ "T" +:+
  pad_left 2 (str_of_Z (s / 3600)) +:+ ":" +:+ pad_left 2 (str_of_Z (s / 60 mod 60)) +:+ ":" +:+
  pad_left 2 (str_of_Z (s mod 60)) +:+
  (if frac =? 0 then "" else "." +:+ pad_left 6 (str_of_Z frac)).

(** [value.isoformat()] of an aware UTC datetime. *)
Definition time_isoformat (t : time) : string := local_isoformat t +:+ "+00:00".

(** [value.astimezone(UTC).isoformat().replace("+00:00", "Z")] *)
Definition time_isoformat_z (t : time) : string := local_isoformat t +:+ "Z".

Example iso_1 : time_isoformat_z 1709210096789012 = "2024-02-29T12:34:56.789012Z".
Proof. vm_compute. reflexivity. Qed.
Example iso_2 : time_isoformat 0 = "1970-01-01T00:00:00+00:00".
Proof. vm_compute. reflexivity. Qed.

(** [research_agent/schemas.py:_aware_utc]: only an aware datetime at offset
    zero is accepted. *)
Definition _aware_utc (value : datetime) : res time :=
  match dt_utcoffset value with
  | Some off => if off =? 0 then Ok (dt_local value)
                else raise ValueError "datetime must use an aware UTC timezone"
  | None => raise ValueError "datetime must use an aware UTC timezone"
  end.

(** [value.astimezone(UTC)] of an aware datetime, [None] for a naive one. *)
Definition to_utc (value : datetime) : option time :=
  off ← dt_utcoffset value; Some (dt_local value - off).

(** * Dynamic values *)

(** The values found in tool payloads, plan bindings, evidence payloads and
    checksum inputs.  Mappings keep their insertion order, as Python dicts do;
    every mapping of the program has string keys.  [VDecSpecial] is a NaN or
    an infinity and [VOther] any value canonical JSON does not support. *)
Inductive pyval :=
| VNone
| VBool (b : bool)
| VInt (z : Z)
| VFloat (repr : string)
| VStr (s : string)
| VDec (d : decimal)
| VDecSpecial (repr : string)
| VUuid (u : UUID)
| VTime (t : datetime)
| VDate (d : date)
| VList (l : list pyval)
| VMap (l : list (string * pyval))
| VOther (repr : string).

Section pyval_ind.
Context (P : pyval → Prop).
Context (Hnone : P VNone) (Hbool : ∀ b, P (VBool b)) (Hint : ∀ z, P (VInt z))
  (Hfloat : ∀ s, P (VFloat s)) (Hstr : ∀ s, P (VStr s)) (Hdec : ∀ d, P (VDec d))
  (Hspec : ∀ s, P (VDecSpecial s)) (Huuid : ∀ u, P (VUuid u)) (Htime : ∀ t, P (VTime t))
  (Hdate : ∀ d, P (VDate d)) (Hother : ∀ s, P (VOther s))
  (Hlist : ∀ l, Forall P l → P (VList l))
  (Hmap : ∀ l, Forall (λ kv, P kv.2) l → P (VMap l)).

Fixpoint pyval_ind' (v : pyval) : P v :=
  match v with
  | VNone => Hnone | VBool b => Hbool b | VInt z => Hint z | VFloat s => Hfloat s
  | VStr s => Hstr s | VDec d => Hdec d | VDecSpecial s => Hspec s | VUuid u => Huuid u
  | VTime t => Htime t | VDate d => Hdate d | VOther s => Hother s
  | VList l => Hlist l ((fix go l : Forall P l :=
      match l with [] => Forall_nil_2 _ | x :: l => Forall_cons_2 _ _ _ (pyval_ind' x) (go l) end) l)
  | VMap l => Hmap l ((fix go l : Forall (λ kv : string * pyval, P kv.2) l :=
      match l with [] => Forall_nil_2 _ | x :: l => Forall_cons_2 _ _ _ (pyval_ind' x.2) (go l) end) l)
  end.
End pyval_ind.

(** ** Dictionaries: insertion-ordered association lists with unique keys *)

(** [d.get(k)] *)
Fixpoint dict_get {V} (d : list (string * V)) (k : string) : option V :=
  match d with
  | [] => None
  | (k', v) :: d => if bool_decide (k' = k) then Some v else dict_get d k
  end.

(** [d[k] = v]: an existing key keeps its position. *)
Fixpoint dict_set {V} (d : list (string * V)) (k : string) (v : V) : list (string * V) :=
  match d with
  | [] => [(k, v)]
  | (k', v') :: d => if bool_decide (k' = k) then (k', v) :: d else (k', v') :: dict_set d k v
  end.

Definition dict_has {V} (d : list (string * V)) (k : string) : bool := is_some (dict_get d k).

(** [del d[k]] or [d.pop(k, None)] *)
Definition dict_del {V} (d : list (string * V)) (k : string) : list (string * V) :=
  filter (λ kv, kv.1 ≠ k) d.

Lemma dict_get_set {V} (d : list (string * V)) k k' v :
  dict_get (dict_set d k v) k' = if bool_decide (k = k') then Some v else dict_get d k'.
Proof.
  induction d as [|[j w] d IH]; cbn; [done|].
  repeat case_bool_decide; subst; cbn; repeat case_bool_decide; subst; done.
Qed.

Lemma dict_get_elem {V} (d : list (string * V)) k v : dict_get d k = Some v → (k, v) ∈ d.
Proof.
  induction d as [|[j w] d IH]; cbn; [done|].
  case_bool_decide; [intros [= ->]; subst; left|right; auto].
Qed.

Lemma dict_get_None {V} (d : list (string * V)) k : dict_get d k = None ↔ k ∉ d.*1.
Proof.
  induction d as [|[j w] d IH]; cbn; [split; [intros _; set_solver|done]|].
  case_bool_decide; rewrite not_elem_of_cons; naive_solver.
Qed.

Lemma dict_elem_get {V} (d : list (string * V)) k v :
  NoDup d.*1 → (k, v) ∈ d → dict_get d k = Some v.
Proof.
  induction d as [|[j w] d IH]; cbn; [set_solver|].
  rewrite NoDup_cons, elem_of_cons. intros [Hj Hd] [[= -> ->]|Hin].
  - by rewrite bool_decide_eq_true_2.
  - rewrite bool_decide_eq_false_2; [by apply IH|]. intros ->. apply Hj.
    apply list_elem_of_fmap. by exists (k, v).
Qed.

(** Python's [==] on these values: booleans and integers compare as numbers,
    dicts ignore order, aware datetimes compare as instants. *)
Fixpoint py_eqb (x y : pyval) {struct x} : bool :=
  match x, y with
  | VNone, VNone => true
  | VBool a, VBool b => Bool.eqb a b
  | VBool a, VInt b | VInt b, VBool a => b =? (if a then 1 else 0)
  | VInt a, VInt b => a =? b
  | VBool a, VDec b | VDec b, VBool a => deq (dec_of_Z (if a then 1 else 0)) b
  | VInt a, VDec b | VDec b, VInt a => deq (dec_of_Z a) b
  | VDec a, VDec b => deq a b
  | VFloat a, VFloat b => bool_decide (a = b)
  | VDecSpecial a, VDecSpecial b => bool_decide (a = b)
  | VStr a, VStr b => bool_decide (a = b)
  | VUuid a, VUuid b => bool_decide (a = b)
  | VDate a, VDate b => a =? b
  | VOther a, VOther b => bool_decide (a = b)
  | VTime a, VTime b =>
      match to_utc a, to_utc b with
      | Some s, Some t => s =? t
      | None, None => dt_local a =? dt_local b
      | _, _ => false
      end
  | VList a, VList b =>
      (fix go (a b : list pyval) : bool :=
        match a, b with
        | [], [] => true
        | x :: a, y :: b => py_eqb x y && go a b
        | _, _ => false
        end) a b
  | VMap a, VMap b =>
      bool_decide (length a = length b) &&
      (fix go (a : list (string * pyval)) : bool :=
        match a with
        | [] => true
        | (k, v) :: a =>
            match dict_get b k with Some w => py_eqb v w && go a | None => false end
        end) a
  | _, _ => false
  end.

Definition v_str (s : option string) : pyval := match s with Some s => VStr s | None => VNone end.
Definition utc_time (t : time) : pyval := VTime (mkDatetime t (Some 0)).
Definition as_str (v : pyval) : option string := match v with VStr s => Some s | _ => None end.

(** * Canonical JSON: [research_agent/canonical.py] *)

Definition hex_digit (n : N) : ascii :=
  ascii_of_N (if (n <? 10)%N then 48 + n else 87 + n).

(** JSON string escapes of [json.dumps(_, ensure_ascii=False)]. *)
Fixpoint json_escape (s : string) : string :=
  match s with
  | EmptyString => EmptyString
  | String c s =>
      let n := N_of_ascii c in
      (if (n =? 34)%N then String "\" (String c "")
       else if (n =? 92)%N then "\\"
       else if (n =? 10)%N then "\n"
       else if (n =? 13)%N then "\r"
       else if (n =? 9)%N then "\t"
       else if (n =? 8)%N then "\b"
       else if (n =? 12)%N then "\f"
       else if (n <? 32)%N then
         "\u00" +:+ String (hex_digit (n / 16)) (String (hex_digit (n mod 16)) "")
       else String c "") +:+ json_escape s
  end.
Definition dquote : string := String (ascii_of_N 34) "".
Definition json_string (s : string) : string := dquote +:+ json_escape s +:+ dquote.

(** What [_normalize] leaves: plain JSON values. *)
Inductive json :=
| JNull | JBool (b : bool) | JInt (z : Z) | JStr (s : string)
| JList (l : list json) | JObj (l : list (string * json)).

(** [_normalize] *)
Fixpoint _normalize (value : pyval) : res json :=
  match value with
  | VNone => Ok JNull
  | VBool b => Ok (JBool b)
  | VStr s => Ok (JStr s)
  | VInt z => Ok (JInt z)
  | VFloat _ => raise TypeError "binary floating-point values are not canonical"
  | VDecSpecial _ => raise ValueError "Decimal values must be finite"
  | VDec d => Ok (JStr (str_of_dec d))
  | VUuid u => Ok (JStr (uuid_str u))
  | VTime t =>
      match to_utc t with
      | Some us => Ok (JStr (time_isoformat_z us))
      | None => raise ValueError "datetime values must include a timezone"
      end
  | VDate d => Ok (JStr (date_isoformat d))
  | VMap l => JObj <$> res_map (λ kv, j ← _normalize kv.2; Ok (kv.1, j)) l
  | VList l => JList <$> res_map _normalize l
  | VOther _ => raise TypeError "unsupported canonical value type"
  end.

(** [json.dumps(_, separators=(",", ":"), sort_keys=True)] *)
Fixpoint json_dumps (v : json) : string :=
  match v with
  | JNull => "null"
  | JBool true => "true"
  | JBool false => "false"
  | JInt z => str_of_Z z
  | JStr s => json_string s
  | JList l => "[" +:+ str_join "," (map json_dumps l) +:+ "]"
  | JObj l => "{" +:+ str_join ","
      (map (λ kv, json_string kv.1 +:+ ":" +:+ kv.2)
        (sort_key fst (map (λ kv, (kv.1, json_dumps kv.2)) l))) +:+ "}"
  end.

Definition canonical_json (value : pyval) : res string := json_dumps <$> _normalize value.
