(* ===== verification/Sha256.v ===== *)
(** SHA-256 ([hashlib.sha256(...).hexdigest()]) on byte strings, so that the
    checksums of the model are the concrete ones, and [stable_checksum] of
    research_agent/canonical.py on top of it. *)
From S2P Require Import Prelude PyDecimal PyText.
From Stdlib Require Import Ascii.

Definition w32 (n : N) : N := N.land n 0xffffffff.
Definition add32 (a b : N) : N := w32 (a + b).

(** The constants of the hash: the first 32 bits of the fractional parts of the
    square and cube roots of the first primes, computed here. *)
Definition primes_below (n : nat) : list N :=
  filter (λ p, forallb (λ d, negb (p mod N.of_nat d =? 0)%N) (seq 2 (N.to_nat p - 2)) = true)
    (map N.of_nat (seq 2 (n - 2))).

(** The largest [r < acc + 2 ^ bits] with [r ^ k <= n]. *)
Fixpoint integer_root (k : N) (bits : nat) (acc n : N) : N :=
  match bits with
  | O => acc
  | S bits =>
      let candidate := (acc + 2 ^ N.of_nat bits)%N in
      integer_root k bits (if (candidate ^ k <=? n)%N then candidate else acc) n
  end.
Definition root_fraction (k p : N) : N := w32 (integer_root k 40 0 (p * 2 ^ (32 * k))).

Definition round_constants : list N :=
  Eval vm_compute in map (root_fraction 3) (primes_below 312).
Definition initial_hash : list N :=
  Eval vm_compute in map (root_fraction 2) (primes_below 20).

(** A word twice over, whose shifts are the rotations of the word. *)
Definition doubled (x : N) : N := N.lor x (N.shiftl x 32).
Definition big_sigma0 (x : N) : N :=
  let d := doubled x in w32 (N.lxor (N.shiftr d 2) (N.lxor (N.shiftr d 13) (N.shiftr d 22))).
Definition big_sigma1 (x : N) : N :=
  let d := doubled x in w32 (N.lxor (N.shiftr d 6) (N.lxor (N.shiftr d 11) (N.shiftr d 25))).
Definition small_sigma0 (x : N) : N :=
  let d := doubled x in w32 (N.lxor (N.shiftr d 7) (N.lxor (N.shiftr d 18) (N.shiftr x 3))).
Definition small_sigma1 (x : N) : N :=
  let d := doubled x in w32 (N.lxor (N.shiftr d 17) (N.lxor (N.shiftr d 19) (N.shiftr x 10))).

(** The message schedule, kept in reverse (last word first). *)
Fixpoint extend_schedule (f : nat) (w : list N) : list N :=
  match f with
  | O => w
  | S f =>
      let at_ (i : nat) := nth i w 0%N in
      extend_schedule f
        (w32 (small_sigma1 (at_ 1%nat) + at_ 6%nat + small_sigma0 (at_ 14%nat) + at_ 15%nat) :: w)
  end.

Record hash_state := mkHS { ha : N; hb : N; hc : N; hd : N; he : N; hf : N; hg : N; hh : N }.

Definition sha_round (s : hash_state) (kw : N * N) : hash_state :=
  let ch := N.lxor (hg s) (N.land (he s) (N.lxor (hf s) (hg s))) in
  let maj := N.lor (N.land (ha s) (hb s)) (N.land (hc s) (N.lor (ha s) (hb s))) in
  let t1 := (hh s + big_sigma1 (he s) + ch + kw.1 + kw.2)%N in
  mkHS (w32 (t1 + big_sigma0 (ha s) + maj)) (ha s) (hb s) (hc s) (w32 (hd s + t1)) (he s) (hf s) (hg s).

Definition compress (s : hash_state) (block : list N) : hash_state :=
  let w := rev (extend_schedule 48 (rev block)) in
  let r := foldl sha_round s (zip round_constants w) in
  mkHS (add32 (ha s) (ha r)) (add32 (hb s) (hb r)) (add32 (hc s) (hc r)) (add32 (hd s) (hd r))
       (add32 (he s) (he r)) (add32 (hf s) (hf r)) (add32 (hg s) (hg r)) (add32 (hh s) (hh r)).

Fixpoint string_bytes (s : string) : list N :=
  match s with EmptyString => [] | String c s => N_of_ascii c :: string_bytes s end.

(** [n] as [k] big-endian bytes. *)
Fixpoint be_bytes (k : nat) (n : N) : list N :=
  match k with O => [] | S k => be_bytes k (n / 256) ++ [(n mod 256)%N] end.

Definition sha_pad (l : list N) : list N :=
  let len := length l in
  let k := Z.to_nat ((55 - Z.of_nat len) mod 64) in
  l ++ [128%N] ++ replicate k 0%N ++ be_bytes 8 (N.of_nat len * 8).

Fixpoint words (l : list N) : list N :=
  match l with
  | a :: b :: c :: d :: l => (a * 16777216 + b * 65536 + c * 256 + d)%N :: words l
  | _ => []
  end.

Fixpoint sha_blocks (f : nat) (s : hash_state) (w : list N) : hash_state :=
  match f with
  | O => s
  | S f => match w with [] => s | _ => sha_blocks f (compress s (take 16 w)) (drop 16 w) end
  end.

Definition initial_state : hash_state :=
  match initial_hash with
  | [a; b; c; d; e; f; g; h] => mkHS a b c d e f g h
  | _ => mkHS 0 0 0 0 0 0 0 0
  end.

Definition hex_byte (n : N) : string :=
  String (hex_digit (n / 16)) (String (hex_digit (n mod 16)) EmptyString).

(** [sha256(s.encode("utf-8")).hexdigest()] *)
Definition sha256_hex (s : string) : string :=
  let w := words (sha_pad (string_bytes s)) in
  let r := sha_blocks (length w) initial_state w in
  str_join EmptyString (map hex_byte
    (concat (map (be_bytes 4) [ha r; hb r; hc r; hd r; he r; hf r; hg r; hh r]))).

Example sha_abc : sha256_hex "abc" =
  "ba7816bf8f01cfea414140de5dae2223b00361a396177a9cb410ff61f20015ad".
Proof. vm_compute. reflexivity. Qed.
Example sha_empty : sha256_hex EmptyString =
  "e3b0c44298fc1c149afbf4c8996fb92427ae41e4649b934ca495991b7852b855".
Proof. vm_compute. reflexivity. Qed.

(** [stable_checksum] *)
Definition stable_checksum (value : pyval) : res string := sha256_hex <$> canonical_json value.
