(* ===== verification/AgentModel.v ===== *)
(** Data model of the controlled research agent: the closed vocabularies of
    research_agent/enums.py and the immutable contracts of
    research_agent/schemas.py (with the field constraints their operations
    rely on). *)
From S2P Require Import Prelude PyDecimal PyText Sha256.
From Stdlib Require Import Ascii.

(** * Closed vocabularies *)

Module RType.
Inductive ResearchType :=
  | COMPANY_OVERVIEW | FINANCIAL_HEALTH | VALUATION_SNAPSHOT | CATALYSTS_AND_RISKS
   | DATA_QUALITY_REVIEW | FULL_RESEARCH_PACKAGE.
#[global] Instance ResearchType_eq_dec : EqDecision ResearchType.
Proof. solve_decision. Defined.
Definition all : list ResearchType :=
  [COMPANY_OVERVIEW; FINANCIAL_HEALTH; VALUATION_SNAPSHOT; CATALYSTS_AND_RISKS
  ; DATA_QUALITY_REVIEW; FULL_RESEARCH_PACKAGE].
Definition value (x : ResearchType) : string :=
  match x with
  | COMPANY_OVERVIEW => "COMPANY_OVERVIEW"
  | FINANCIAL_HEALTH => "FINANCIAL_HEALTH"
  | VALUATION_SNAPSHOT => "VALUATION_SNAPSHOT"
  | CATALYSTS_AND_RISKS => "CATALYSTS_AND_RISKS"
  | DATA_QUALITY_REVIEW => "DATA_QUALITY_REVIEW"
  | FULL_RESEARCH_PACKAGE => "FULL_RESEARCH_PACKAGE"
  end.
End RType.
Abbreviation ResearchType := RType.ResearchType.

Module RSection.
Inductive ResearchSection :=
  | SECURITY_IDENTITY | DATA_AVAILABILITY | FINANCIAL_HEALTH | VALUATION_SNAPSHOT
   | DOCUMENT_EVIDENCE | CATALYST_EVIDENCE | RISK_EVIDENCE | CORPORATE_ACTIONS | DATA_QUALITY
   | LIMITATIONS.
#[global] Instance ResearchSection_eq_dec : EqDecision ResearchSection.
Proof. solve_decision. Defined.
Definition all : list ResearchSection :=
  [SECURITY_IDENTITY; DATA_AVAILABILITY; FINANCIAL_HEALTH; VALUATION_SNAPSHOT
  ; DOCUMENT_EVIDENCE; CATALYST_EVIDENCE; RISK_EVIDENCE; CORPORATE_ACTIONS; DATA_QUALITY
  ; LIMITATIONS].
Definition value (x : ResearchSection) : string :=
  match x with
  | SECURITY_IDENTITY => "SECURITY_IDENTITY"
  | DATA_AVAILABILITY => "DATA_AVAILABILITY"
  | FINANCIAL_HEALTH => "FINANCIAL_HEALTH"
  | VALUATION_SNAPSHOT => "VALUATION_SNAPSHOT"
  | DOCUMENT_EVIDENCE => "DOCUMENT_EVIDENCE"
  | CATALYST_EVIDENCE => "CATALYST_EVIDENCE"
  | RISK_EVIDENCE => "RISK_EVIDENCE"
  | CORPORATE_ACTIONS => "CORPORATE_ACTIONS"
  | DATA_QUALITY => "DATA_QUALITY"
  | LIMITATIONS => "LIMITATIONS"
  end.
End RSection.
Abbreviation ResearchSection := RSection.ResearchSection.

Module RMode.
Inductive ResearchMode :=
  | REAL_RESEARCH | SYNTHETIC_TEST_ONLY.
#[global] Instance ResearchMode_eq_dec : EqDecision ResearchMode.
Proof. solve_decision. Defined.
Definition all : list ResearchMode :=
  [REAL_RESEARCH; SYNTHETIC_TEST_ONLY].
Definition value (x : ResearchMode) : string :=
  match x with
  | REAL_RESEARCH => "REAL_RESEARCH"
  | SYNTHETIC_TEST_ONLY => "SYNTHETIC_TEST_ONLY"
  end.
End RMode.
Abbreviation ResearchMode := RMode.ResearchMode.

Module RunStatus.
Inductive ResearchRunStatus :=
  | CREATED | PLANNING | PLANNED | RUNNING | PAUSED | COMPLETED | PARTIAL | BLOCKED | FAILED
   | CANCELLED.
#[global] Instance ResearchRunStatus_eq_dec : EqDecision ResearchRunStatus.
Proof. solve_decision. Defined.
Definition all : list ResearchRunStatus :=
  [CREATED; PLANNING; PLANNED; RUNNING; PAUSED; COMPLETED; PARTIAL; BLOCKED; FAILED; CANCELLED].
Definition value (x : ResearchRunStatus) : string :=
  match x with
  | CREATED => "CREATED"
  | PLANNING => "PLANNING"
  | PLANNED => "PLANNED"
  | RUNNING => "RUNNING"
  | PAUSED => "PAUSED"
  | COMPLETED => "COMPLETED"
  | PARTIAL => "PARTIAL"
  | BLOCKED => "BLOCKED"
  | FAILED => "FAILED"
  | CANCELLED => "CANCELLED"
  end.
End RunStatus.
Abbreviation ResearchRunStatus := RunStatus.ResearchRunStatus.

Module StepStatus.
Inductive ResearchStepStatus :=
  | PENDING | READY | RUNNING | PASS | PARTIAL | BLOCKED | FAIL | SKIPPED.
#[global] Instance ResearchStepStatus_eq_dec : EqDecision ResearchStepStatus.
Proof. solve_decision. Defined.
Definition all : list ResearchStepStatus :=
  [PENDING; READY; RUNNING; PASS; PARTIAL; BLOCKED; FAIL; SKIPPED].
Definition value (x : ResearchStepStatus) : string :=
  match x with
  | PENDING => "PENDING"
  | READY => "READY"
  | RUNNING => "RUNNING"
  | PASS => "PASS"
  | PARTIAL => "PARTIAL"
  | BLOCKED => "BLOCKED"
  | FAIL => "FAIL"
  | SKIPPED => "SKIPPED"
  end.
End StepStatus.
Abbreviation ResearchStepStatus := StepStatus.ResearchStepStatus.

Module InvStatus.
Inductive ToolInvocationStatus :=
  | PENDING | RUNNING | PASS | PARTIAL | BLOCKED | FAIL.
#[global] Instance ToolInvocationStatus_eq_dec : EqDecision ToolInvocationStatus.
Proof. solve_decision. Defined.
Definition all : list ToolInvocationStatus :=
  [PENDING; RUNNING; PASS; PARTIAL; BLOCKED; FAIL].
Definition value (x : ToolInvocationStatus) : string :=
  match x with
  | PENDING => "PENDING"
  | RUNNING => "RUNNING"
  | PASS => "PASS"
  | PARTIAL => "PARTIAL"
  | BLOCKED => "BLOCKED"
  | FAIL => "FAIL"
  end.
End InvStatus.
Abbreviation ToolInvocationStatus := InvStatus.ToolInvocationStatus.

Module StepType.
Inductive ResearchStepType :=
  | RESOLVE_SECURITY | LOAD_SNAPSHOT | QUERY_STRUCTURED_DATA | QUERY_DOCUMENT_EVIDENCE
   | VALIDATE_EVIDENCE | BUILD_CLAIMS | VALIDATE_CLAIMS | ASSEMBLE_PACKAGE.
#[global] Instance ResearchStepType_eq_dec : EqDecision ResearchStepType.
Proof. solve_decision. Defined.
Definition all : list ResearchStepType :=
  [RESOLVE_SECURITY; LOAD_SNAPSHOT; QUERY_STRUCTURED_DATA; QUERY_DOCUMENT_EVIDENCE
  ; VALIDATE_EVIDENCE; BUILD_CLAIMS; VALIDATE_CLAIMS; ASSEMBLE_PACKAGE].
Definition value (x : ResearchStepType) : string :=
  match x with
  | RESOLVE_SECURITY => "RESOLVE_SECURITY"
  | LOAD_SNAPSHOT => "LOAD_SNAPSHOT"
  | QUERY_STRUCTURED_DATA => "QUERY_STRUCTURED_DATA"
  | QUERY_DOCUMENT_EVIDENCE => "QUERY_DOCUMENT_EVIDENCE"
  | VALIDATE_EVIDENCE => "VALIDATE_EVIDENCE"
  | BUILD_CLAIMS => "BUILD_CLAIMS"
  | VALIDATE_CLAIMS => "VALIDATE_CLAIMS"
  | ASSEMBLE_PACKAGE => "ASSEMBLE_PACKAGE"
  end.
End StepType.
Abbreviation ResearchStepType := StepType.ResearchStepType.

Module ObsType.
Inductive ObservationType :=
  | SECURITY_IDENTITY | STRUCTURED_METRIC | FINANCIAL_FACT | DOCUMENT_EVIDENCE
   | CORPORATE_ACTION | DATA_QUALITY | TOOL_ERROR | BLOCKED_CAPABILITY.
#[global] Instance ObservationType_eq_dec : EqDecision ObservationType.
Proof. solve_decision. Defined.
Definition all : list ObservationType :=
  [SECURITY_IDENTITY; STRUCTURED_METRIC; FINANCIAL_FACT; DOCUMENT_EVIDENCE; CORPORATE_ACTION
  ; DATA_QUALITY; TOOL_ERROR; BLOCKED_CAPABILITY].
Definition value (x : ObservationType) : string :=
  match x with
  | SECURITY_IDENTITY => "SECURITY_IDENTITY"
  | STRUCTURED_METRIC => "STRUCTURED_METRIC"
  | FINANCIAL_FACT => "FINANCIAL_FACT"
  | DOCUMENT_EVIDENCE => "DOCUMENT_EVIDENCE"
  | CORPORATE_ACTION => "CORPORATE_ACTION"
  | DATA_QUALITY => "DATA_QUALITY"
  | TOOL_ERROR => "TOOL_ERROR"
  | BLOCKED_CAPABILITY => "BLOCKED_CAPABILITY"
  end.
End ObsType.
Abbreviation ObservationType := ObsType.ObservationType.

Module ObsStatus.
Inductive ObservationStatus :=
  | PASS | PARTIAL | BLOCKED | FAIL.
#[global] Instance ObservationStatus_eq_dec : EqDecision ObservationStatus.
Proof. solve_decision. Defined.
Definition all : list ObservationStatus :=
  [PASS; PARTIAL; BLOCKED; FAIL].
Definition value (x : ObservationStatus) : string :=
  match x with
  | PASS => "PASS"
  | PARTIAL => "PARTIAL"
  | BLOCKED => "BLOCKED"
  | FAIL => "FAIL"
  end.
End ObsStatus.
Abbreviation ObservationStatus := ObsStatus.ObservationStatus.

Module EvType.
Inductive EvidenceType :=
  | SECURITY_MASTER_EVIDENCE | SNAPSHOT_EVIDENCE | STRUCTURED_FACT_EVIDENCE
   | DERIVED_METRIC_EVIDENCE | METRIC_LINEAGE_EVIDENCE | DOCUMENT_CITATION_EVIDENCE
   | CORPORATE_ACTION_EVIDENCE | DATA_QUALITY_EVIDENCE | BLOCKED_CAPABILITY_EVIDENCE.
#[global] Instance EvidenceType_eq_dec : EqDecision EvidenceType.
Proof. solve_decision. Defined.
Definition all : list EvidenceType :=
  [SECURITY_MASTER_EVIDENCE; SNAPSHOT_EVIDENCE; STRUCTURED_FACT_EVIDENCE
  ; DERIVED_METRIC_EVIDENCE; METRIC_LINEAGE_EVIDENCE; DOCUMENT_CITATION_EVIDENCE
  ; CORPORATE_ACTION_EVIDENCE; DATA_QUALITY_EVIDENCE; BLOCKED_CAPABILITY_EVIDENCE].
Definition value (x : EvidenceType) : string :=
  match x with
  | SECURITY_MASTER_EVIDENCE => "SECURITY_MASTER_EVIDENCE"
  | SNAPSHOT_EVIDENCE => "SNAPSHOT_EVIDENCE"
  | STRUCTURED_FACT_EVIDENCE => "STRUCTURED_FACT_EVIDENCE"
  | DERIVED_METRIC_EVIDENCE => "DERIVED_METRIC_EVIDENCE"
  | METRIC_LINEAGE_EVIDENCE => "METRIC_LINEAGE_EVIDENCE"
  | DOCUMENT_CITATION_EVIDENCE => "DOCUMENT_CITATION_EVIDENCE"
  | CORPORATE_ACTION_EVIDENCE => "CORPORATE_ACTION_EVIDENCE"
  | DATA_QUALITY_EVIDENCE => "DATA_QUALITY_EVIDENCE"
  | BLOCKED_CAPABILITY_EVIDENCE => "BLOCKED_CAPABILITY_EVIDENCE"
  end.
End EvType.
Abbreviation EvidenceType := EvType.EvidenceType.

Module EvStatus.
Inductive EvidenceStatus :=
  | VALID | INVALID | FUTURE_DATA | SOURCE_MISSING | CONFLICTING | BLOCKED.
#[global] Instance EvidenceStatus_eq_dec : EqDecision EvidenceStatus.
Proof. solve_decision. Defined.
Definition all : list EvidenceStatus :=
  [VALID; INVALID; FUTURE_DATA; SOURCE_MISSING; CONFLICTING; BLOCKED].
Definition value (x : EvidenceStatus) : string :=
  match x with
  | VALID => "VALID"
  | INVALID => "INVALID"
  | FUTURE_DATA => "FUTURE_DATA"
  | SOURCE_MISSING => "SOURCE_MISSING"
  | CONFLICTING => "CONFLICTING"
  | BLOCKED => "BLOCKED"
  end.
End EvStatus.
Abbreviation EvidenceStatus := EvStatus.EvidenceStatus.

Module Synth.
Inductive SyntheticStatus :=
  | REAL_VERIFIED | FIXTURE_REAL_EXCERPT | SYNTHETIC_TEST_ONLY | UNKNOWN.
#[global] Instance SyntheticStatus_eq_dec : EqDecision SyntheticStatus.
Proof. solve_decision. Defined.
Definition all : list SyntheticStatus :=
  [REAL_VERIFIED; FIXTURE_REAL_EXCERPT; SYNTHETIC_TEST_ONLY; UNKNOWN].
Definition value (x : SyntheticStatus) : string :=
  match x with
  | REAL_VERIFIED => "REAL_VERIFIED"
  | FIXTURE_REAL_EXCERPT => "FIXTURE_REAL_EXCERPT"
  | SYNTHETIC_TEST_ONLY => "SYNTHETIC_TEST_ONLY"
  | UNKNOWN => "UNKNOWN"
  end.
End Synth.
Abbreviation SyntheticStatus := Synth.SyntheticStatus.

Module ClType.
Inductive ClaimType :=
  | IDENTITY | FINANCIAL_FACT | FINANCIAL_METRIC | VALUATION_METRIC | DOCUMENT_DISCLOSURE
   | CORPORATE_ACTION | DATA_QUALITY | LIMITATION.
#[global] Instance ClaimType_eq_dec : EqDecision ClaimType.
Proof. solve_decision. Defined.
Definition all : list ClaimType :=
  [IDENTITY; FINANCIAL_FACT; FINANCIAL_METRIC; VALUATION_METRIC; DOCUMENT_DISCLOSURE
  ; CORPORATE_ACTION; DATA_QUALITY; LIMITATION].
Definition value (x : ClaimType) : string :=
  match x with
  | IDENTITY => "IDENTITY"
  | FINANCIAL_FACT => "FINANCIAL_FACT"
  | FINANCIAL_METRIC => "FINANCIAL_METRIC"
  | VALUATION_METRIC => "VALUATION_METRIC"
  | DOCUMENT_DISCLOSURE => "DOCUMENT_DISCLOSURE"
  | CORPORATE_ACTION => "CORPORATE_ACTION"
  | DATA_QUALITY => "DATA_QUALITY"
  | LIMITATION => "LIMITATION"
  end.
End ClType.
Abbreviation ClaimType := ClType.ClaimType.

Module Support.
Inductive ClaimSupportStatus :=
  | SUPPORTED | PARTIALLY_SUPPORTED | CONFLICTING | UNSUPPORTED | BLOCKED.
#[global] Instance ClaimSupportStatus_eq_dec : EqDecision ClaimSupportStatus.
Proof. solve_decision. Defined.
Definition all : list ClaimSupportStatus :=
  [SUPPORTED; PARTIALLY_SUPPORTED; CONFLICTING; UNSUPPORTED; BLOCKED].
Definition value (x : ClaimSupportStatus) : string :=
  match x with
  | SUPPORTED => "SUPPORTED"
  | PARTIALLY_SUPPORTED => "PARTIALLY_SUPPORTED"
  | CONFLICTING => "CONFLICTING"
  | UNSUPPORTED => "UNSUPPORTED"
  | BLOCKED => "BLOCKED"
  end.
End Support.
Abbreviation ClaimSupportStatus := Support.ClaimSupportStatus.

Module Lifecycle.
Inductive ClaimLifecycleStatus :=
  | CANDIDATE | VALIDATED | REJECTED.
#[global] Instance ClaimLifecycleStatus_eq_dec : EqDecision ClaimLifecycleStatus.
Proof. solve_decision. Defined.
Definition all : list ClaimLifecycleStatus :=
  [CANDIDATE; VALIDATED; REJECTED].
Definition value (x : ClaimLifecycleStatus) : string :=
  match x with
  | CANDIDATE => "CANDIDATE"
  | VALIDATED => "VALIDATED"
  | REJECTED => "REJECTED"
  end.
End Lifecycle.
Abbreviation ClaimLifecycleStatus := Lifecycle.ClaimLifecycleStatus.

Module EvRole.
Inductive EvidenceRole :=
  | PRIMARY | CORROBORATING | CONTRADICTING | CONTEXT | LIMITATION.
#[global] Instance EvidenceRole_eq_dec : EqDecision EvidenceRole.
Proof. solve_decision. Defined.
Definition all : list EvidenceRole :=
  [PRIMARY; CORROBORATING; CONTRADICTING; CONTEXT; LIMITATION].
Definition value (x : EvidenceRole) : string :=
  match x with
  | PRIMARY => "PRIMARY"
  | CORROBORATING => "CORROBORATING"
  | CONTRADICTING => "CONTRADICTING"
  | CONTEXT => "CONTEXT"
  | LIMITATION => "LIMITATION"
  end.
End EvRole.
Abbreviation EvidenceRole := EvRole.EvidenceRole.

Module PkgStatus.
Inductive ResearchPackageStatus :=
  | COMPLETE | PARTIAL | BLOCKED | FAILED.
#[global] Instance ResearchPackageStatus_eq_dec : EqDecision ResearchPackageStatus.
Proof. solve_decision. Defined.
Definition all : list ResearchPackageStatus :=
  [COMPLETE; PARTIAL; BLOCKED; FAILED].
Definition value (x : ResearchPackageStatus) : string :=
  match x with
  | COMPLETE => "COMPLETE"
  | PARTIAL => "PARTIAL"
  | BLOCKED => "BLOCKED"
  | FAILED => "FAILED"
  end.
End PkgStatus.
Abbreviation ResearchPackageStatus := PkgStatus.ResearchPackageStatus.

Module SecStatus.
Inductive PackageSectionStatus :=
  | PASS | NOT_REQUESTED | NO_EVIDENCE | BLOCKED | PARTIAL.
#[global] Instance PackageSectionStatus_eq_dec : EqDecision PackageSectionStatus.
Proof. solve_decision. Defined.
Definition all : list PackageSectionStatus :=
  [PASS; NOT_REQUESTED; NO_EVIDENCE; BLOCKED; PARTIAL].
Definition value (x : PackageSectionStatus) : string :=
  match x with
  | PASS => "PASS"
  | NOT_REQUESTED => "NOT_REQUESTED"
  | NO_EVIDENCE => "NO_EVIDENCE"
  | BLOCKED => "BLOCKED"
  | PARTIAL => "PARTIAL"
  end.
End SecStatus.
Abbreviation PackageSectionStatus := SecStatus.PackageSectionStatus.

Module RunEvent.
Inductive ResearchRunEventType :=
  | RUN_CREATED | STATE_TRANSITION | PLAN_CREATED | STEP_TRANSITION | TOOL_ATTEMPT
   | BUDGET_EXHAUSTED | WARNING | RUN_TERMINATED.
#[global] Instance ResearchRunEventType_eq_dec : EqDecision ResearchRunEventType.
Proof. solve_decision. Defined.
Definition all : list ResearchRunEventType :=
  [RUN_CREATED; STATE_TRANSITION; PLAN_CREATED; STEP_TRANSITION; TOOL_ATTEMPT; BUDGET_EXHAUSTED
  ; WARNING; RUN_TERMINATED].
Definition value (x : ResearchRunEventType) : string :=
  match x with
  | RUN_CREATED => "RUN_CREATED"
  | STATE_TRANSITION => "STATE_TRANSITION"
  | PLAN_CREATED => "PLAN_CREATED"
  | STEP_TRANSITION => "STEP_TRANSITION"
  | TOOL_ATTEMPT => "TOOL_ATTEMPT"
  | BUDGET_EXHAUSTED => "BUDGET_EXHAUSTED"
  | WARNING => "WARNING"
  | RUN_TERMINATED => "RUN_TERMINATED"
  end.
End RunEvent.
Abbreviation ResearchRunEventType := RunEvent.ResearchRunEventType.

(** * Field constraints *)

(** [len(s)] of a UTF-8 encoded Python string: its number of code points. *)
Fixpoint str_len (s : string) : Z :=
  match s with
  | EmptyString => 0
  | String c s =>
      let n := N_of_ascii c in
      (if (128 <=? n)%N && (n <? 192)%N then 0 else 1) + str_len s
  end.
Definition len_between (lo hi : Z) (s : string) : bool := (lo <=? str_len s) && (str_len s <=? hi).

Fixpoint str_forallb (p : ascii → bool) (s : string) : bool :=
  match s with EmptyString => true | String c s => p c && str_forallb p s end.
Definition in_range (lo hi : N) (c : ascii) : bool :=
  ((lo <=? N_of_ascii c) && (N_of_ascii c <=? hi))%N.
Definition is_lower := in_range 97 122.
Definition is_upper := in_range 65 90.
Definition is_digit := in_range 48 57.
Definition is_hex_lower (c : ascii) : bool := is_digit c || in_range 97 102 c.
Definition char_in (cs : list ascii) (c : ascii) : bool := bool_decide (c ∈ cs).

(** [^<head><tail>{lo,hi}$] *)
Definition matches_ident (head tail : ascii → bool) (lo hi : Z) (s : string) : bool :=
  match s with
  | EmptyString => false
  | String c s => head c && str_forallb tail s && (lo <=? str_len s) && (str_len s <=? hi)
  end.

Definition Checksum_ok (s : string) : bool := str_forallb is_hex_lower s && (str_len s =? 64).
Definition Version_ok : string → bool :=
  matches_ident (λ c, is_lower c || is_digit c)
    (λ c, is_lower c || is_digit c || char_in ["."; "_"; ":"; "-"]%char c) 2 127.
Definition Code_ok : string → bool :=
  matches_ident is_upper
    (λ c, is_upper c || is_digit c || char_in ["_"; ":"; "-"]%char c) 0 127.
Definition step_key_ok : string → bool :=
  matches_ident is_lower (λ c, is_lower c || is_digit c || char_in ["_"%char] c) 0 63.
Definition currency_ok (s : string) : bool := str_forallb is_upper s && (str_len s =? 3).

(** [^\d+\.\d+\.\d+$]: three non-empty runs of digits separated by dots. *)
Fixpoint semver_go (parts : nat) (seen : bool) (s : string) : bool :=
  match s with
  | EmptyString => (parts =? 0)%nat && seen
  | String c s =>
      if is_digit c then semver_go parts true s
      else if bool_decide (c = "."%char) && seen then
        match parts with O => false | S p => semver_go p false s end
      else false
  end.
Definition semver_ok : string → bool := semver_go 2 false.

Definition opt_forallb {A} (p : A → bool) (o : option A) : bool :=
  match o with Some a => p a | None => true end.
Definition between (lo hi z : Z) : bool := (lo <=? z) && (z <=? hi).

(** * Policies, requests, runs *)

Record AllowedTool := mkTool { tool_name : string; tool_version : string }.
#[export] Instance AllowedTool_eq_dec : EqDecision AllowedTool.
Proof. solve_decision. Defined.

Record RequestedBudgets := mkRequested {
  rb_max_steps : option Z; rb_max_tool_calls : option Z; rb_max_calls_per_tool : option Z;
  rb_max_retries_per_step : option Z; rb_max_duration_seconds : option Z }.

Record ResearchPolicyRecord := mkPolicy {
  pol_version : string; pol_checksum : string;
  pol_allowed_research_types : list ResearchType;
  pol_allowed_sections : list ResearchSection;
  pol_allowed_tools : list AllowedTool; pol_denied_tools : list AllowedTool;
  pol_max_steps : Z; pol_max_tool_calls : Z; pol_max_calls_per_tool : Z;
  pol_max_retries_per_step : Z; pol_max_duration_seconds : Z; pol_model_token_budget : Z;
  pol_require_snapshot : bool; pol_require_as_of : bool; pol_require_evidence_for_claims : bool;
  pol_allow_synthetic_evidence : bool; pol_allow_unknown_published_at : bool;
  pol_allow_partial_completion : bool; pol_reuse_partial_runs : bool;
  pol_allow_model_planner : bool; pol_allow_model_reasoner : bool }.

Record ResearchRequestCreate := mkRequestCreate {
  rq_security_query : string; rq_research_type : ResearchType; rq_snapshot_id : UUID;
  rq_research_as_of_time : time; rq_requested_sections : list ResearchSection;
  rq_policy_version : string; rq_planner_version : string;
  rq_requested_budgets : RequestedBudgets; rq_research_mode : ResearchMode }.

Record ResearchRequestRecord := mkRequest {
  rq_create :> ResearchRequestCreate;
  rq_id : UUID; rq_resolved_security_id : UUID; rq_normalized_security_query : string;
  rq_tool_catalog_version : string; rq_tool_catalog_checksum : string;
  rq_request_checksum : string; rq_created_at : time }.

Record ControlledRunContext := mkContext {
  cx_security_id : UUID; cx_snapshot_id : UUID; cx_research_as_of_time : time;
  cx_research_agent_run_id : UUID; cx_research_request_id : UUID;
  cx_policy_version : string; cx_tool_catalog_version : string }.

Record RunBudget := mkBudget {
  max_steps : Z; max_tool_calls : Z; max_calls_per_tool : Z; max_retries_per_step : Z;
  max_duration_seconds : Z; model_token_budget : Z;
  consumed_steps : Z; consumed_tool_calls : Z; consumed_model_tokens : Z;
  elapsed_seconds : decimal;
  calls_per_tool : gmap string Z; retries_per_step : gmap string Z }.
#[export] Instance RunBudget_eq_dec : EqDecision RunBudget.
Proof. solve_decision. Defined.

(** The [Field(ge=..., le=...)] constraints of [RunBudget]. *)
Definition RunBudget_valid (b : RunBudget) : bool :=
  between 1 20 (max_steps b) && between 1 50 (max_tool_calls b) &&
  between 1 5 (max_calls_per_tool b) && between 0 1 (max_retries_per_step b) &&
  between 1 600 (max_duration_seconds b) && between 0 0 (model_token_budget b) &&
  (0 <=? consumed_steps b) && (0 <=? consumed_tool_calls b) &&
  between 0 0 (consumed_model_tokens b) && dle dzero (elapsed_seconds b).

Record ResearchAgentRunRecord := mkRun {
  run_id : UUID; run_request_id : UUID; run_security_id : UUID; run_snapshot_id : UUID;
  run_research_as_of_time : time; run_status : ResearchRunStatus;
  run_policy_version : string; run_planner_version : string;
  run_tool_catalog_version : string; run_tool_catalog_checksum : string;
  run_idempotency_key : string; run_budget : RunBudget; run_warning_codes : list string;
  run_terminal_reason_code : option string;
  run_created_at : time; run_updated_at : time; run_terminal_at : option time }.
#[export] Instance ResearchAgentRunRecord_eq_dec : EqDecision ResearchAgentRunRecord.
Proof. solve_decision. Defined.

Record ResearchRunUpdate := mkRunUpdate {
  up_expected_status : ResearchRunStatus; up_target_status : ResearchRunStatus;
  up_budget : RunBudget; up_warning_codes : list string;
  up_terminal_reason_code : option string; up_changed_at : time }.

Record ResearchRunEventWrite := mkRunEvent {
  ev_id : UUID; ev_run_id : UUID; ev_sequence_number : Z; ev_event_type : ResearchRunEventType;
  ev_from_status : option ResearchRunStatus; ev_to_status : option ResearchRunStatus;
  ev_reason_code : option string; ev_created_at : time }.

(** * Plans and steps *)

Record ResearchStepDefinition := mkStepDef {
  step_index : Z; step_key : string; step_type : ResearchStepType; title : string;
  required : bool; dependency_keys : list string;
  def_tool_name : option string; def_tool_version : option string;
  component_name : option string;
  input_binding : list (string * pyval); fanout_limit : Z }.

Definition ResearchStepDefinition_valid (s : ResearchStepDefinition) : bool :=
  between 0 19 (step_index s) && step_key_ok (step_key s) && len_between 1 160 (title s) &&
  (Z.of_nat (length (dependency_keys s)) <=? 20) &&
  opt_forallb (len_between 1 128) (def_tool_name s) &&
  opt_forallb semver_ok (def_tool_version s) &&
  opt_forallb (len_between 1 128) (component_name s) &&
  between 1 5 (fanout_limit s).

Record ResearchPlanDraft := mkPlanDraft {
  planner_version : string; plan_version : string; draft_tool_catalog_version : string;
  steps : list ResearchStepDefinition }.

Record ValidatedResearchPlan := mkValidatedPlan {
  plan_draft :> ResearchPlanDraft; plan_checksum_of : string }.

Record ResearchPlanRecord := mkPlan {
  plan_validated :> ValidatedResearchPlan;
  plan_id : UUID; plan_run_id : UUID; plan_created_at : time }.

Record ResearchStepRecord := mkStep {
  st_id : UUID; st_run_id : UUID; st_plan_id : UUID; definition : ResearchStepDefinition;
  st_status : ResearchStepStatus; st_skip_reason_code : option string;
  st_created_at : time; st_updated_at : time; st_terminal_at : option time }.

(** * Tool invocations, observations, evidence *)

Record AuthorizedToolCall := mkAuthorized {
  ac_tool_name : string; ac_tool_version : string;
  ac_payload : list (string * pyval); ac_input_checksum : string }.

Record ResearchToolInvocationWrite := mkInvocation {
  iv_id : UUID; iv_run_id : UUID; iv_step_id : UUID; iv_attempt_number : Z;
  iv_tool_name : string; iv_tool_version : string; iv_status : ToolInvocationStatus;
  iv_redacted_input : pyval; iv_input_checksum : string; iv_started_at : time }.

Record ResearchToolInvocationCompletion := mkCompletion {
  ic_status : ToolInvocationStatus; ic_output_checksum : option string;
  ic_error_code : option string; ic_safe_error_message : option string; ic_completed_at : time }.

Record ResearchToolInvocationRecord := mkInvRecord {
  ir_write :> ResearchToolInvocationWrite;
  ir_completion : option ResearchToolInvocationCompletion }.

Record ResearchObservationWrite := mkObservation {
  ob_id : UUID; ob_run_id : UUID; ob_research_step_id : UUID; ob_invocation_id : option UUID;
  ob_observation_type : ObservationType; ob_status : ObservationStatus;
  ob_schema_version : string; ob_payload : list (string * pyval); ob_output_checksum : string;
  ob_security_id : UUID; ob_snapshot_id : UUID; ob_research_as_of_time : time;
  ob_synthetic_status : SyntheticStatus; ob_warnings : list string; ob_created_at : time }.

Record ResearchEvidenceRecord := mkEvidence {
  e_id : UUID; e_run_id : UUID; e_observation_id : UUID; e_evidence_type : EvidenceType;
  e_status : EvidenceStatus; e_schema_version : string;
  e_security_id : UUID; e_snapshot_id : UUID; e_research_as_of_time : time;
  e_source_record_type : option string; e_source_record_id : option UUID;
  e_source_checksum : option string; e_published_at : option time; e_citation_id : option UUID;
  e_calculation_run_id : option UUID; e_calculation_input_ids : list UUID;
  e_formula_version : option string; e_synthetic_status : SyntheticStatus;
  e_payload : list (string * pyval); e_warning_codes : list string; e_created_at : time }.

(** * Claims and packages *)

Record ResearchClaimWrite := mkClaim {
  cl_id : UUID; cl_run_id : UUID; cl_claim_type : ClaimType;
  cl_lifecycle_status : ClaimLifecycleStatus; cl_support_status : option ClaimSupportStatus;
  cl_statement_code : string; cl_value : option decimal; cl_unit : option string;
  cl_currency_code : option string; cl_period : option string; cl_as_of_time : option time;
  cl_metric_basis : option string; cl_builder_version : string;
  cl_validator_version : option string; cl_created_at : time; cl_completed_at : option time }.

Definition numeric_types : list ClaimType :=
  [ClType.FINANCIAL_FACT; ClType.FINANCIAL_METRIC; ClType.VALUATION_METRIC].

(** Field constraints and [validate_numeric_shape] of [ResearchClaimWrite]. *)
Definition ResearchClaimWrite_valid (c : ResearchClaimWrite) : bool :=
  Code_ok (cl_statement_code c) && opt_forallb (λ s, str_len s <=? 32) (cl_unit c) &&
  opt_forallb currency_ok (cl_currency_code c) &&
  opt_forallb (λ s, str_len s <=? 64) (cl_period c) &&
  opt_forallb (λ s, str_len s <=? 128) (cl_metric_basis c) &&
  Version_ok (cl_builder_version c) && opt_forallb Version_ok (cl_validator_version c) &&
  negb (bool_decide (cl_claim_type c ∈ numeric_types) &&
        (is_none (cl_value c) || is_none (cl_unit c) || is_none (cl_period c) ||
         is_none (cl_as_of_time c) || is_none (cl_metric_basis c))) &&
  negb (bool_decide (cl_lifecycle_status c = Lifecycle.CANDIDATE) && is_some (cl_support_status c)).

Record ResearchClaimCompletion := mkClaimCompletion {
  cc_lifecycle_status : ClaimLifecycleStatus; cc_support_status : ClaimSupportStatus;
  cc_validator_version : string; cc_completed_at : time }.

Record ClaimEvidenceLinkWrite := mkLink {
  lk_id : UUID; lk_run_id : UUID; lk_claim_id : UUID; lk_evidence_id : UUID;
  lk_role : EvidenceRole; lk_created_at : time }.

Record ResearchPackageSection := mkSection {
  sec_section : ResearchSection; sec_status : PackageSectionStatus;
  sec_claim_ids : list UUID; sec_warning_codes : list string }.

Record ResearchPackageWrite := mkPackage {
  pk_run_id : UUID; pk_request_id : UUID; pk_security_id : UUID; pk_snapshot_id : UUID;
  pk_research_as_of_time : time; pk_research_type : ResearchType; pk_policy_version : string;
  pk_planner_version : string; pk_tool_catalog_version : string; pk_evidence_version : string;
  pk_claim_version : string; pk_package_version : string; pk_status : ResearchPackageStatus;
  pk_sections : list ResearchPackageSection; pk_evidence_ids : list UUID;
  pk_unsupported_claim_ids : list UUID; pk_conflicting_claim_ids : list UUID;
  pk_blocked_capabilities : list string; pk_warnings : list string }.

Record ResearchPackageRecord := mkPackageRecord {
  pk_write :> ResearchPackageWrite; pk_checksum : string; pk_id : UUID; pk_created_at : time }.

Record ToolExecutionResult := mkToolResult {
  tr_status : ObservationStatus; tr_invocation : ResearchToolInvocationRecord;
  tr_observation : option ResearchObservationWrite; tr_budget : RunBudget; tr_retryable : bool }.

Record ConflictResult := mkConflict {
  conflicting : bool; reason_codes : list string; evidence_ids : list UUID }.

(** * Tool catalog: [research_agent/tool_catalog.py] *)

Record ToolCatalogEntry := mkCatalogEntry {
  ce_tool_name : string; ce_tool_version : string; ce_permission : string;
  ce_read_only : bool; ce_writes : bool; ce_requires_network : bool;
  ce_input_schema_version : string; ce_output_schema_version : string;
  ce_data_domain : string; ce_description : string; ce_snapshot_behavior : string }.

Record ToolCatalogSnapshot := mkCatalog {
  catalog_version : string; catalog_checksum : string; entry_count : Z;
  entries : list ToolCatalogEntry }.

(** What a [ToolRegistry] lists of one Tool. *)
Record ToolMetadata := mkMetadata {
  md_name : string; md_version : string; md_permission : string; md_read_only : bool;
  md_writes : bool; md_requires_network : bool; md_input_schema : pyval;
  md_output_schema : pyval; md_domain : string; md_description : string;
  md_snapshot_behavior : string }.
