(* ===== verification/RunControl.v ===== *)
(** Life cycle of a research run: budgets (research_agent/budgets.py), the
    audited state machine (state_machine.py) over the run tables of
    db/repositories/research_agent.py, run reuse (idempotency.py), and the
    pause / resume / cancel controls (resume.py).

    The database is explicit state.  An operation that raises leaves it
    unchanged: the callers run inside one session scope that rolls back. *)
From S2P Require Import Prelude PyDecimal PyText Sha256 AgentModel.

(** * Budgets *)

Definition with_consumed_steps (b : RunBudget) (n : Z) : RunBudget :=
  mkBudget (max_steps b) (max_tool_calls b) (max_calls_per_tool b) (max_retries_per_step b)
    (max_duration_seconds b) (model_token_budget b) n (consumed_tool_calls b)
    (consumed_model_tokens b) (elapsed_seconds b) (calls_per_tool b) (retries_per_step b).
Definition with_tool_calls (b : RunBudget) (n : Z) (calls : gmap string Z) : RunBudget :=
  mkBudget (max_steps b) (max_tool_calls b) (max_calls_per_tool b) (max_retries_per_step b)
    (max_duration_seconds b) (model_token_budget b) (consumed_steps b) n
    (consumed_model_tokens b) (elapsed_seconds b) calls (retries_per_step b).
Definition with_retries (b : RunBudget) (retries : gmap string Z) : RunBudget :=
  mkBudget (max_steps b) (max_tool_calls b) (max_calls_per_tool b) (max_retries_per_step b)
    (max_duration_seconds b) (model_token_budget b) (consumed_steps b) (consumed_tool_calls b)
    (consumed_model_tokens b) (elapsed_seconds b) (calls_per_tool b) retries.

(** [RunBudgetTracker.consume_step] *)
Definition consume_step (b : RunBudget) : res RunBudget :=
  reject_if (max_steps b <=? consumed_steps b) ResearchBudgetError "STEP_BUDGET_EXCEEDED";;
  Ok (with_consumed_steps b (consumed_steps b + 1)).

(** [RunBudgetTracker.consume_tool_call] *)
Definition consume_tool_call (b : RunBudget) (tool : string) : res RunBudget :=
  reject_if (max_tool_calls b <=? consumed_tool_calls b)
    ResearchBudgetError "TOOL_CALL_BUDGET_EXCEEDED";;
  let current := default 0 (calls_per_tool b !! tool) in
  reject_if (max_calls_per_tool b <=? current) ResearchBudgetError "TOOL_LIMIT_EXCEEDED";;
  Ok (with_tool_calls b (consumed_tool_calls b + 1) (<[tool := current + 1]> (calls_per_tool b))).

(** [RunBudgetTracker.consume_retry] *)
Definition consume_retry (b : RunBudget) (key : string) : res RunBudget :=
  let current := default 0 (retries_per_step b !! key) in
  reject_if (max_retries_per_step b <=? current) ResearchBudgetError "RETRY_BUDGET_EXCEEDED";;
  Ok (with_retries b (<[key := current + 1]> (retries_per_step b))).

(** [RunBudgetTracker.ensure_duration] *)
Definition ensure_duration (b : RunBudget) (elapsed : decimal) : res unit :=
  reject_if (dlt (dec_of_Z (max_duration_seconds b)) elapsed)
    ResearchBudgetError "DURATION_BUDGET_EXCEEDED".

(** [RunBudgetTracker.consume_model_tokens] *)
Definition consume_model_tokens (b : RunBudget) (token_count : Z) : res RunBudget :=
  reject_if (negb (token_count =? 0) || (model_token_budget b =? 0))
    ResearchBudgetError "MODEL_BUDGET_UNAVAILABLE";;
  Ok b.

(** What the tracker maintains: every counter stays within its limit, and the
    total of the per-tool counters is the total number of calls. *)
Definition calls_total (m : gmap string Z) : Z := map_fold (λ _ n acc, n + acc) 0 m.

Record budget_within (b : RunBudget) : Prop := {
  bw_steps : 0 <= consumed_steps b <= max_steps b;
  bw_calls : 0 <= consumed_tool_calls b <= max_tool_calls b;
  bw_per_tool : ∀ t n, calls_per_tool b !! t = Some n → 0 <= n <= max_calls_per_tool b;
  bw_retries : ∀ k n, retries_per_step b !! k = Some n → 0 <= n <= max_retries_per_step b;
  bw_total : calls_total (calls_per_tool b) = consumed_tool_calls b }.

(** One use of the tracker. *)
Inductive budget_use := UseStep | UseTool (tool : string) | UseRetry (key : string).
Definition consume (b : RunBudget) (u : budget_use) : res RunBudget :=
  match u with
  | UseStep => consume_step b
  | UseTool t => consume_tool_call b t
  | UseRetry k => consume_retry b k
  end.
Fixpoint consume_all (b : RunBudget) (us : list budget_use) : res RunBudget :=
  match us with
  | [] => Ok b
  | u :: us => b' ← consume b u; consume_all b' us
  end.

(** * State machine *)

(** [ALLOWED_RUN_TRANSITIONS.get(status, frozenset())] *)
Definition ALLOWED_RUN_TRANSITIONS (s : ResearchRunStatus) : list ResearchRunStatus :=
  match s with
  | RunStatus.CREATED => [RunStatus.PLANNING]
  | RunStatus.PLANNING => [RunStatus.PLANNED; RunStatus.BLOCKED; RunStatus.FAILED]
  | RunStatus.PLANNED => [RunStatus.RUNNING]
  | RunStatus.RUNNING =>
      [RunStatus.PAUSED; RunStatus.PARTIAL; RunStatus.BLOCKED; RunStatus.COMPLETED;
       RunStatus.FAILED; RunStatus.CANCELLED]
  | RunStatus.PAUSED => [RunStatus.RUNNING; RunStatus.CANCELLED]
  | _ => []
  end.

Definition TERMINAL_RUN_STATUSES : list ResearchRunStatus :=
  [RunStatus.COMPLETED; RunStatus.PARTIAL; RunStatus.BLOCKED; RunStatus.FAILED;
   RunStatus.CANCELLED].
Definition terminal (s : ResearchRunStatus) : bool := bool_decide (s ∈ TERMINAL_RUN_STATUSES).

(** The tables the run repository owns.  Events are in insertion order. *)
Record run_db := mkRunDb {
  db_requests : gset UUID;
  db_runs : gmap UUID ResearchAgentRunRecord;
  db_events : list ResearchRunEventWrite }.

Definition get_run (db : run_db) (rid : UUID) : option ResearchAgentRunRecord :=
  db_runs db !! rid.

Definition updated_run (r : ResearchAgentRunRecord) (v : ResearchRunUpdate) :
    ResearchAgentRunRecord :=
  mkRun (run_id r) (run_request_id r) (run_security_id r) (run_snapshot_id r)
    (run_research_as_of_time r) (up_target_status v) (run_policy_version r)
    (run_planner_version r) (run_tool_catalog_version r) (run_tool_catalog_checksum r)
    (run_idempotency_key r) (up_budget v) (up_warning_codes v) (up_terminal_reason_code v)
    (run_created_at r) (up_changed_at v)
    (if terminal (up_target_status v) then Some (up_changed_at v) else None).

(** [update_run]: compare-and-set on the expected status. *)
Definition update_run (db : run_db) (rid : UUID) (v : ResearchRunUpdate) :
    res (ResearchAgentRunRecord * run_db) :=
  match db_runs db !! rid with
  | Some r =>
      if bool_decide (run_status r = up_expected_status v) then
        let r' := updated_run r v in
        Ok (r', mkRunDb (db_requests db) (<[rid := r']> (db_runs db)) (db_events db))
      else raise LookupError "RESEARCH_RUN_STATE_MISMATCH"
  | None => raise LookupError "RESEARCH_RUN_STATE_MISMATCH"
  end.

(** [append_event]: primary key and (run, sequence) are unique. *)
Definition append_event (db : run_db) (ev : ResearchRunEventWrite) : res run_db :=
  reject_if (existsb (λ e, bool_decide (ev_id e = ev_id ev) ||
      bool_decide (ev_run_id e = ev_run_id ev) &&
      (ev_sequence_number e =? ev_sequence_number ev)) (db_events db))
    IntegrityError "research_run_events";;
  Ok (mkRunDb (db_requests db) (db_runs db) (db_events db ++ [ev])).

(** Events of one run, and [cli_agent.py:next_sequence] (their count plus 1). *)
Definition trail (db : run_db) (rid : UUID) : list ResearchRunEventWrite :=
  filter (λ e, ev_run_id e = rid) (db_events db).
#[global] Arguments trail : simpl never.
Definition next_sequence (db : run_db) (rid : UUID) : Z := Z.of_nat (length (trail db rid)) + 1.

(** [ResearchRunStateMachine.transition] *)
Definition transition (db : run_db) (now : time) (event_id : UUID) (rid : UUID)
    (target : ResearchRunStatus) (reason : option string) :
    res (ResearchAgentRunRecord * run_db) :=
  current ← require_some (get_run db rid)
    ResearchStateTransitionError "RESEARCH_RUN_NOT_FOUND";
  reject_if (negb (bool_decide (target ∈ ALLOWED_RUN_TRANSITIONS (run_status current))))
    ResearchStateTransitionError "ILLEGAL_RUN_STATE_TRANSITION";;
  let terminal_reason := if terminal target then reason else None in
  '(updated, db') ← update_run db rid
    (mkRunUpdate (run_status current) target (run_budget current) (run_warning_codes current)
      terminal_reason now);
  db'' ← append_event db' (mkRunEvent event_id rid (next_sequence db' rid)
    RunEvent.STATE_TRANSITION (Some (run_status current)) (Some target) reason now);
  Ok (updated, db'').

(** * Run creation and reuse *)

(** [idempotency.py:_REUSABLE], also the SQL filter of [find_reusable_run] and
    the partial unique index on the idempotency key. *)
Definition _REUSABLE : list ResearchRunStatus :=
  [RunStatus.CREATED; RunStatus.PLANNING; RunStatus.PLANNED; RunStatus.RUNNING;
   RunStatus.PAUSED; RunStatus.COMPLETED].

(** [is_reusable_run] *)
Definition is_reusable_run (r : ResearchAgentRunRecord) (policy : ResearchPolicyRecord) : bool :=
  if negb (bool_decide (run_policy_version r = pol_version policy)) then false
  else if bool_decide (run_status r ∈ _REUSABLE) then true
  else bool_decide (run_status r = RunStatus.PARTIAL) && pol_reuse_partial_runs policy.

Definition run_order (a b : ResearchAgentRunRecord) : bool :=
  (run_created_at a <? run_created_at b) ||
  ((run_created_at a =? run_created_at b) && str_ltb (uuid_str (run_id a)) (uuid_str (run_id b))).

Definition holds_key (key : string) (r : ResearchAgentRunRecord) : Prop :=
  run_idempotency_key r = key ∧ run_status r ∈ _REUSABLE.
#[export] Instance holds_key_dec key r : Decision (holds_key key r).
Proof. unfold holds_key. apply _. Defined.

(** [find_reusable_run] *)
Definition find_reusable_run (db : run_db) (key : string) : option ResearchAgentRunRecord :=
  head (sort_by run_order (filter (holds_key key) (map_to_list (db_runs db)).*2)).

(** [create_run]: reuse first, then insert. *)
Definition create_run (db : run_db) (v : ResearchAgentRunRecord) :
    res (ResearchAgentRunRecord * run_db) :=
  match find_reusable_run db (run_idempotency_key v) with
  | Some reusable => Ok (reusable, db)
  | None =>
      reject_if (negb (bool_decide (run_request_id v ∈ db_requests db)))
        LookupError "RESEARCH_REQUEST_NOT_FOUND";;
      reject_if (is_some (db_runs db !! run_id v)) IntegrityError "pk_research_agent_runs";;
      Ok (v, mkRunDb (db_requests db) (<[run_id v := v]> (db_runs db)) (db_events db))
  end.

(** [update_run_budget] *)
Definition update_run_budget (db : run_db) (now : time) (rid : UUID) (b : RunBudget) :
    res (ResearchAgentRunRecord * run_db) :=
  match db_runs db !! rid with
  | Some r =>
      if terminal (run_status r) then raise LookupError "RESEARCH_RUN_NOT_MUTABLE"
      else
        let r' := mkRun (run_id r) (run_request_id r) (run_security_id r) (run_snapshot_id r)
          (run_research_as_of_time r) (run_status r) (run_policy_version r)
          (run_planner_version r) (run_tool_catalog_version r) (run_tool_catalog_checksum r)
          (run_idempotency_key r) b (run_warning_codes r) (run_terminal_reason_code r)
          (run_created_at r) now (run_terminal_at r) in
        Ok (r', mkRunDb (db_requests db) (<[rid := r']> (db_runs db)) (db_events db))
  | None => raise LookupError "RESEARCH_RUN_NOT_MUTABLE"
  end.

(** [cli_agent.py:_budget]: the fresh budget of a new run. *)
Definition _budget (policy : ResearchPolicyRecord) : RunBudget :=
  mkBudget (pol_max_steps policy) (pol_max_tool_calls policy) (pol_max_calls_per_tool policy)
    (pol_max_retries_per_step policy) (pol_max_duration_seconds policy) 0 0 0 0 dzero ∅ ∅.

(** [research_run_idempotency_key] *)
Definition research_run_idempotency_key (normalized_request : string) (security_id snapshot_id : UUID)
    (as_of : time) (rtype : ResearchType) (sections : list ResearchSection)
    (policy_version planner_version catalog_checksum : string) : res string :=
  stable_checksum (VMap [
    ("normalized_request", VStr normalized_request);
    ("security_id", VUuid security_id);
    ("snapshot_id", VUuid snapshot_id);
    ("research_as_of_time", utc_time as_of);
    ("research_type", VStr (RType.value rtype));
    ("requested_sections", VList (map (λ s, VStr (RSection.value s)) sections));
    ("policy_version", VStr policy_version);
    ("planner_version", VStr planner_version);
    ("tool_catalog_checksum", VStr catalog_checksum)]).

(** * Controls *)

Definition _TERMINAL_STEPS : list ResearchStepStatus :=
  [StepStatus.PASS; StepStatus.PARTIAL; StepStatus.BLOCKED; StepStatus.FAIL; StepStatus.SKIPPED].

Record ResumeResult := mkResume {
  resumed_run : ResearchAgentRunRecord;
  completed_step_ids : list UUID; pending_step_ids : list UUID;
  reuse_unfinished_invocations : bool }.

(** The planning repository as the controls read it. *)
Record planning_db := mkPlanning {
  plans : gmap UUID ResearchPlanRecord;
  plan_steps : list ResearchStepRecord }.

Definition get_plan (p : planning_db) (rid : UUID) : option ResearchPlanRecord := plans p !! rid.

(** [list_steps]: ordered by step index, then id. *)
Definition step_order (a b : ResearchStepRecord) : bool :=
  (step_index (definition a) <? step_index (definition b)) ||
  ((step_index (definition a) =? step_index (definition b)) &&
   str_ltb (uuid_str (st_id a)) (uuid_str (st_id b))).
Definition list_steps (p : planning_db) (pid : UUID) : list ResearchStepRecord :=
  sort_by step_order (filter (λ s, st_plan_id s = pid) (plan_steps p)).

Section Controls.
Context (snapshot_validator : UUID → UUID → time → bool).

Definition _require (db : run_db) (rid : UUID) : res ResearchAgentRunRecord :=
  require_some (get_run db rid) ResearchRunControlError "RESEARCH_RUN_NOT_FOUND".

Definition pause (db : run_db) (now : time) (eid rid : UUID) :
    res (ResearchAgentRunRecord * run_db) :=
  run ← _require db rid;
  reject_if (negb (bool_decide (run_status run = RunStatus.RUNNING)))
    ResearchRunControlError "RUN_NOT_RUNNING";;
  transition db now eid rid RunStatus.PAUSED (Some "RUN_PAUSED").

Definition resume (db : run_db) (p : planning_db) (now : time) (eid rid : UUID)
    (current_policy : ResearchPolicyRecord) (current_catalog : ToolCatalogSnapshot) :
    res (ResumeResult * run_db) :=
  run ← _require db rid;
  reject_if (negb (bool_decide (run_status run = RunStatus.PAUSED)))
    ResearchRunControlError "RUN_NOT_PAUSED";;
  reject_if (negb (bool_decide (run_policy_version run = pol_version current_policy)))
    ResearchRunControlError "POLICY_VERSION_MISMATCH";;
  reject_if (negb (bool_decide (run_tool_catalog_version run = catalog_version current_catalog)))
    ResearchRunControlError "TOOL_CATALOG_VERSION_MISMATCH";;
  reject_if (negb (bool_decide (run_tool_catalog_checksum run = catalog_checksum current_catalog)))
    ResearchRunControlError "TOOL_CATALOG_CHECKSUM_MISMATCH";;
  reject_if (negb (snapshot_validator (run_security_id run) (run_snapshot_id run)
                     (run_research_as_of_time run)))
    ResearchRunControlError "SNAPSHOT_CONTEXT_MISMATCH";;
  plan ← require_some (get_plan p rid) ResearchRunControlError "RESEARCH_PLAN_NOT_FOUND";
  let steps := list_steps p (plan_id plan) in
  let completed := map st_id (filter (λ s, st_status s ∈ _TERMINAL_STEPS) steps) in
  let pending := map st_id (filter (λ s, st_status s ∉ _TERMINAL_STEPS) steps) in
  '(resumed, db') ← transition db now eid rid RunStatus.RUNNING (Some "RUN_RESUMED");
  Ok (mkResume resumed completed pending false, db').

Definition cancel (db : run_db) (now : time) (eid rid : UUID) :
    res (ResearchAgentRunRecord * run_db) :=
  run ← _require db rid;
  reject_if (negb (bool_decide (run_status run ∈ [RunStatus.RUNNING; RunStatus.PAUSED])))
    ResearchRunControlError "RUN_NOT_CANCELLABLE";;
  transition db now eid rid RunStatus.CANCELLED (Some "RUN_CANCELLED").
End Controls.

(** * Reachable databases *)

(** Every way the program changes the run tables.  New runs are created in
    status CREATED with a fresh budget ([_create_planned_run]). *)
Inductive db_step : run_db → run_db → Prop :=
| step_request db rid :
    db_step db (mkRunDb ({[rid]} ∪ db_requests db) (db_runs db) (db_events db))
| step_create db v r db' :
    run_status v = RunStatus.CREATED → run_terminal_at v = None →
    run_terminal_reason_code v = None → budget_within (run_budget v) →
    create_run db v = Ok (r, db') → db_step db db'
| step_transition db now eid rid target reason r db' :
    transition db now eid rid target reason = Ok (r, db') → db_step db db'
| step_budget db now rid b r r0 us db' :
    get_run db rid = Some r0 → consume_all (run_budget r0) us = Ok b →
    update_run_budget db now rid b = Ok (r, db') → db_step db db'.

Definition empty_db : run_db := mkRunDb ∅ ∅ [].
Definition reachable (db : run_db) : Prop := rtc db_step empty_db db.

(** Replaying an audit trail through the transition table. *)
Fixpoint replay (s : ResearchRunStatus) (evs : list ResearchRunEventWrite) :
    option ResearchRunStatus :=
  match evs with
  | [] => Some s
  | e :: evs =>
      match ev_from_status e, ev_to_status e with
      | Some a, Some b =>
          if bool_decide (a = s) && bool_decide (b ∈ ALLOWED_RUN_TRANSITIONS s)
          then replay b evs else None
      | _, _ => None
      end
  end.

(** * Budget lemmas *)

Lemma calls_total_insert m t n :
  calls_total (<[t := n]> m) = calls_total m - default 0 (m !! t) + n.
Proof.
  assert (Hcomm : ∀ (j1 j2 : string) (z1 z2 : Z) (y : Z), z1 + (z2 + y) = z2 + (z1 + y)) by lia.
  unfold calls_total. rewrite <- insert_delete_eq, map_fold_insert_L;
    [|intros; lia|apply lookup_delete_eq].
  destruct (m !! t) as [k|] eqn:E; cbn.
  - rewrite (map_fold_delete_L _ _ t k m); [lia|intros; lia|done].
  - rewrite delete_id by done. lia.
Qed.

Lemma calls_total_empty : calls_total ∅ = 0.
Proof. unfold calls_total. by rewrite map_fold_empty. Qed.

(** Looking up a counter just incremented below its limit. *)
Lemma counter_within (m : gmap string Z) lim k :
  (∀ t n, m !! t = Some n → 0 ≤ n ≤ lim) → default 0 (m !! k) < lim →
  ∀ t n, <[k := default 0 (m !! k) + 1]> m !! t = Some n → 0 ≤ n ≤ lim.
Proof.
  intros Hm Hlt t n. rewrite lookup_insert. case_decide as Htk; [|apply Hm].
  intros [= <-]. destruct (m !! k) as [j|] eqn:E; cbn in *; [apply Hm in E|]; lia.
Qed.

Ltac inv_consume :=
  unfold consume, consume_step, consume_tool_call, consume_retry in *; inv_res; bools; subst.

Lemma consume_within b u b' : budget_within b → consume b u = Ok b' → budget_within b'.
Proof.
  intros [Hs Hc Ht Hr Htot]. destruct u as [|t|k]; intros H; inv_consume.
  - split; cbn; try done. lia.
  - split; cbn; try done; [lia|by apply counter_within|].
    rewrite calls_total_insert, Htot. lia.
  - split; cbn; try done. by apply counter_within.
Qed.

Lemma consume_limits b u b' : consume b u = Ok b' →
  max_steps b' = max_steps b ∧ max_tool_calls b' = max_tool_calls b ∧
  max_calls_per_tool b' = max_calls_per_tool b ∧
  max_retries_per_step b' = max_retries_per_step b ∧
  max_duration_seconds b' = max_duration_seconds b ∧
  model_token_budget b' = model_token_budget b ∧
  consumed_model_tokens b' = consumed_model_tokens b.
Proof. destruct u; intros H; by inv_consume. Qed.

Lemma consume_all_within us : ∀ b b', budget_within b → consume_all b us = Ok b' → budget_within b'.
Proof.
  induction us as [|u us IH]; cbn; intros b b' Hb H; inv_res; [by subst|].
  eauto using consume_within.
Qed.

(** Uses of one kind in a sequence. *)
Definition uses_of (P : budget_use → bool) (us : list budget_use) : Z :=
  Z.of_nat (length (filter (λ u, P u = true) us)).
Definition is_tool (u : budget_use) : bool := match u with UseTool _ => true | _ => false end.
Definition is_step (u : budget_use) : bool := match u with UseStep => true | _ => false end.
Definition is_retry_of (k : string) (u : budget_use) : bool :=
  match u with UseRetry k' => bool_decide (k = k') | _ => false end.
Definition is_call_of (t : string) (u : budget_use) : bool :=
  match u with UseTool t' => bool_decide (t = t') | _ => false end.

Lemma uses_of_cons P u us : uses_of P (u :: us) = (if P u then 1 else 0) + uses_of P us.
Proof.
  unfold uses_of. rewrite filter_cons. case_decide as H; destruct (P u); try done.
  rewrite length_cons. lia.
Qed.

(** The counters count exactly the successful uses. *)
Lemma consume_all_counts us : ∀ b b', consume_all b us = Ok b' →
  consumed_steps b' = consumed_steps b + uses_of is_step us ∧
  consumed_tool_calls b' = consumed_tool_calls b + uses_of is_tool us ∧
  (∀ t, default 0 (calls_per_tool b' !! t) =
        default 0 (calls_per_tool b !! t) + uses_of (is_call_of t) us) ∧
  (∀ k, default 0 (retries_per_step b' !! k) =
        default 0 (retries_per_step b !! k) + uses_of (is_retry_of k) us).
Proof.
  induction us as [|u us IH]; intros b b' H; cbn in H; inv_res.
  { subst. unfold uses_of. cbn. repeat split; intros; lia. }
  destruct (IH _ _ H) as (H1 & H2 & H3 & H4). clear IH H.
  split_and!; [|  |intros t|intros k]; rewrite uses_of_cons, ?H1, ?H2, ?H3, ?H4;
    match goal with Hc : consume _ _ = Ok _ |- _ => destruct u; inv_consume; cbn end;
    try lia; rewrite lookup_insert; case_decide; subst;
    rewrite ?bool_decide_eq_true_2, ?bool_decide_eq_false_2 by done; cbn; lia.
Qed.

Lemma consume_all_limits us : ∀ b b', consume_all b us = Ok b' →
  max_steps b' = max_steps b ∧ max_tool_calls b' = max_tool_calls b ∧
  max_calls_per_tool b' = max_calls_per_tool b ∧
  max_retries_per_step b' = max_retries_per_step b.
Proof.
  induction us as [|u us IH]; cbn; intros b b' H; inv_res; [by subst|].
  match goal with Hc : consume _ _ = Ok _ |- _ => apply consume_limits in Hc end.
  apply IH in H. intuition congruence.
Qed.

Lemma fresh_budget_within p :
  0 ≤ pol_max_steps p → 0 ≤ pol_max_tool_calls p → budget_within (_budget p).
Proof.
  intros Hs Hc. split; cbn; [lia|lia|intros t n|intros t n|apply calls_total_empty];
    by rewrite lookup_empty.
Qed.

(** * The run tables *)

Lemma terminal_true s : terminal s = true ↔ s ∈ TERMINAL_RUN_STATUSES.
Proof. apply bool_decide_eq_true. Qed.

Lemma terminal_no_successor s t : t ∈ ALLOWED_RUN_TRANSITIONS s → terminal s = false.
Proof. unfold terminal. destruct s; cbn; intros H; try done; by apply not_elem_of_nil in H. Qed.

Lemma successor_reusable s t : t ∈ ALLOWED_RUN_TRANSITIONS s → s ∈ _REUSABLE.
Proof.
  destruct s; cbn; intros H; try (by apply not_elem_of_nil in H); unfold _REUSABLE;
    rewrite !elem_of_cons; tauto.
Qed.

Lemma append_event_Ok db ev db' : append_event db ev = Ok db' →
  db' = mkRunDb (db_requests db) (db_runs db) (db_events db ++ [ev]).
Proof. unfold append_event. intros H. by inv_res. Qed.

(** What a successful transition does, in full. *)
Lemma transition_inv db now eid rid target reason r' db' :
  transition db now eid rid target reason = Ok (r', db') →
  ∃ r, db_runs db !! rid = Some r ∧ target ∈ ALLOWED_RUN_TRANSITIONS (run_status r) ∧
    r' = updated_run r (mkRunUpdate (run_status r) target (run_budget r) (run_warning_codes r)
           (if terminal target then reason else None) now) ∧
    db' = mkRunDb (db_requests db) (<[rid := r']> (db_runs db))
      (db_events db ++ [mkRunEvent eid rid (next_sequence db rid) RunEvent.STATE_TRANSITION
         (Some (run_status r)) (Some target) reason now]).
Proof.
  unfold transition, get_run. intros H. inv_res. bools. simplify_eq.
  match goal with Hr : db_runs db !! _ = Some ?x |- _ => rename x into cur; rename Hr into Hcur end.
  exists cur. unfold update_run in *. rewrite Hcur in *. cbn in *.
  rewrite bool_decide_eq_true_2 in * by done. inv_res. simplify_eq.
  match goal with Ha : append_event _ _ = Ok _ |- _ => apply append_event_Ok in Ha; cbn in Ha end.
  subst. split_and!; done.
Qed.

Lemma create_run_inv db v r db' : create_run db v = Ok (r, db') →
  (find_reusable_run db (run_idempotency_key v) = Some r ∧ db' = db) ∨
  (find_reusable_run db (run_idempotency_key v) = None ∧ run_request_id v ∈ db_requests db ∧
   db_runs db !! run_id v = None ∧ r = v ∧
   db' = mkRunDb (db_requests db) (<[run_id v := v]> (db_runs db)) (db_events db)).
Proof.
  unfold create_run. destruct (find_reusable_run _ _) as [x|] eqn:E; intros H; inv_res.
  - left. by simplify_eq.
  - right. bools. simplify_eq. unfold is_some in *. bools.
    match goal with Hn : is_none _ = true |- _ => apply is_none_true in Hn end.
    done.
Qed.

Lemma update_run_budget_inv db now rid b r' db' : update_run_budget db now rid b = Ok (r', db') →
  ∃ r, db_runs db !! rid = Some r ∧ terminal (run_status r) = false ∧
    run_id r' = run_id r ∧ run_status r' = run_status r ∧
    run_idempotency_key r' = run_idempotency_key r ∧ run_terminal_at r' = run_terminal_at r ∧
    run_terminal_reason_code r' = run_terminal_reason_code r ∧ run_budget r' = b ∧
    db' = mkRunDb (db_requests db) (<[rid := r']> (db_runs db)) (db_events db).
Proof.
  unfold update_run_budget. destruct (db_runs db !! rid) as [r|]; [|done].
  destruct (terminal (run_status r)) eqn:E; [done|]. intros H. inv_res. simplify_eq.
  exists r. by split_and!.
Qed.

Lemma elem_of_runs db (r : ResearchAgentRunRecord) :
  r ∈ (map_to_list (db_runs db)).*2 ↔ ∃ rid, db_runs db !! rid = Some r.
Proof.
  rewrite list_elem_of_fmap. split.
  - intros [[rid r'] [-> Hin]]. exists rid. by apply elem_of_map_to_list in Hin.
  - intros [rid Hr]. exists (rid, r). split; [done|]. by apply elem_of_map_to_list.
Qed.

Lemma find_reusable_run_None db key : find_reusable_run db key = None ↔
  ∀ rid r, db_runs db !! rid = Some r → ¬ holds_key key r.
Proof.
  unfold find_reusable_run. split.
  - intros Hnone rid r Hr Hk.
    assert (Hin : r ∈ sort_by run_order (filter (holds_key key) (map_to_list (db_runs db)).*2)).
    { apply elem_of_sort_by, list_elem_of_filter. split; [done|]. apply elem_of_runs. eauto. }
    destruct (sort_by _ _); [by apply elem_of_nil in Hin|done].
  - intros Hall. destruct (sort_by _ _) as [|r l] eqn:E; [done|exfalso].
    assert (Hin : r ∈ sort_by run_order (filter (holds_key key) (map_to_list (db_runs db)).*2))
      by (rewrite E; left).
    apply elem_of_sort_by, list_elem_of_filter in Hin as [Hk Hin].
    apply elem_of_runs in Hin as [rid Hr]. by eapply Hall.
Qed.

Lemma find_reusable_run_Some db key r : find_reusable_run db key = Some r →
  holds_key key r ∧ ∃ rid, db_runs db !! rid = Some r.
Proof.
  unfold find_reusable_run. intros H. apply head_Some in H as [l Hl].
  assert (Hin : r ∈ sort_by run_order (filter (holds_key key) (map_to_list (db_runs db)).*2))
    by (rewrite Hl; left).
  apply elem_of_sort_by, list_elem_of_filter in Hin as [Hk Hin].
  by apply elem_of_runs in Hin.
Qed.

(** ** The invariant of the run tables *)

Record db_inv (db : run_db) : Prop := {
  inv_id : ∀ rid r, db_runs db !! rid = Some r → run_id r = rid;
  inv_trail : ∀ rid r, db_runs db !! rid = Some r →
    replay RunStatus.CREATED (trail db rid) = Some (run_status r);
  inv_fresh : ∀ rid, db_runs db !! rid = None → trail db rid = [];
  inv_seq : ∀ rid, map ev_sequence_number (trail db rid) = seqZ 1 (Z.of_nat (length (trail db rid)));
  inv_key : ∀ key i j r1 r2, db_runs db !! i = Some r1 → db_runs db !! j = Some r2 →
    holds_key key r1 → holds_key key r2 → i = j;
  inv_terminal : ∀ rid r, db_runs db !! rid = Some r →
    (terminal (run_status r) = true ↔ is_Some (run_terminal_at r)) ∧
    (terminal (run_status r) = false → run_terminal_reason_code r = None);
  inv_budget : ∀ rid r, db_runs db !! rid = Some r → budget_within (run_budget r) }.

Lemma trail_app db reqs runs ev rid :
  trail (mkRunDb reqs runs (db_events db ++ [ev])) rid =
  trail db rid ++ (if decide (ev_run_id ev = rid) then [ev] else []).
Proof. unfold trail. cbn. rewrite filter_app. cbn. by case_decide. Qed.

Lemma replay_app evs1 evs2 : ∀ s t,
  replay s evs1 = Some t → replay s (evs1 ++ evs2) = replay t evs2.
Proof.
  induction evs1 as [|e evs1 IH]; intros s t; cbn; [congruence|].
  destruct (ev_from_status e), (ev_to_status e); try done.
  case_match; [apply IH|done].
Qed.

Lemma holds_key_eq key r1 r2 : holds_key key r1 → holds_key key r2 → holds_key (run_idempotency_key r1) r2.
Proof. unfold holds_key. intros [-> _] [<- ?]. done. Qed.

Lemma empty_db_inv : db_inv empty_db.
Proof. split; cbn; intros; simplify_map_eq; done. Qed.

Lemma db_inv_request db rid :
  db_inv db → db_inv (mkRunDb ({[rid]} ∪ db_requests db) (db_runs db) (db_events db)).
Proof. by intros []. Qed.

Lemma db_inv_create db v r db' :
  run_status v = RunStatus.CREATED → run_terminal_at v = None →
  run_terminal_reason_code v = None → budget_within (run_budget v) →
  create_run db v = Ok (r, db') → db_inv db → db_inv db'.
Proof.
  intros Hs Ht Hreason Hb Hc Hinv. apply create_run_inv in Hc as [[_ ->]|(Hnone & _ & Hfresh & -> & ->)];
    [done|]. destruct Hinv as [I1 I2 I3 I4 I5 I6 I7].
  rewrite find_reusable_run_None in Hnone.
  assert (Htr : ∀ rid, trail (mkRunDb (db_requests db) (<[run_id v:=v]> (db_runs db)) (db_events db)) rid
    = trail db rid) by done.
  split; cbn; intros; rewrite ?Htr;
    repeat match goal with
    | H : <[_ := _]> _ !! _ = Some _ |- _ => apply lookup_insert_Some in H as [[??]|[??]]; subst
    | H : <[_ := _]> _ !! _ = None |- _ => apply lookup_insert_None in H as [??]
    end; eauto.
  - rewrite (I3 _ Hfresh), Hs. done.
  - exfalso. eapply Hnone; [done|]. by eapply holds_key_eq.
  - exfalso. eapply Hnone; [done|]. by eapply holds_key_eq.
  - rewrite Hs, Ht. split; [split; [done|intros []; done]|done].
Qed.

Lemma db_inv_transition db now eid rid target reason r db' :
  transition db now eid rid target reason = Ok (r, db') → db_inv db → db_inv db'.
Proof.
  intros Hc [I1 I2 I3 I4 I5 I6 I7].
  apply transition_inv in Hc as (r0 & Hr0 & Hal & Hr & ->).
  assert (Hst : run_status r = target) by (by subst r).
  assert (Hkey : ∀ key, holds_key key r → holds_key key r0).
  { intros key [Hk _]. split; [by subst r|by eapply successor_reusable]. }
  split; cbn; intros; rewrite ?trail_app; cbn;
    repeat match goal with
    | H : <[_ := _]> _ !! _ = Some _ |- _ => apply lookup_insert_Some in H as [[??]|[??]]; subst
    | H : <[_ := _]> _ !! _ = None |- _ => apply lookup_insert_None in H as [??]
    end; eauto.
  - apply (I1 _ _ Hr0).
  - rewrite decide_True, (replay_app _ _ _ _ (I2 _ _ Hr0)) by done. cbn.
    by rewrite !bool_decide_eq_true_2.
  - rewrite decide_False, app_nil_r by done. by apply I2.
  - rewrite decide_False, app_nil_r by done. by apply I3.
  - case_decide; [|by rewrite app_nil_r]. subst.
    rewrite map_app, I4, length_app. cbn. unfold next_sequence.
    rewrite Nat2Z.inj_add, seqZ_app by lia. f_equal. cbn [map].
    rewrite seqZ_cons, seqZ_nil by lia. cbn. f_equal. lia.
  - cbn. destruct (terminal target); split; try done; split; try done; intros []; done.
  - cbn. by eapply I7.
Qed.

Lemma db_inv_budget db now rid b r0 us r db' :
  get_run db rid = Some r0 → consume_all (run_budget r0) us = Ok b →
  update_run_budget db now rid b = Ok (r, db') → db_inv db → db_inv db'.
Proof.
  intros Hg Hus Hc [I1 I2 I3 I4 I5 I6 I7]. unfold get_run in Hg.
  apply update_run_budget_inv in Hc as (r1 & Hr1 & Hterm & Hi & Hs & Hk & Hta & Hrc & Hb & ->).
  simplify_eq.
  assert (Hkey : ∀ key, holds_key key r → holds_key key r0).
  { intros key [? ?]. split; congruence. }
  assert (Htr : ∀ i, trail (mkRunDb (db_requests db) (<[rid:=r]> (db_runs db)) (db_events db)) i
    = trail db i) by done.
  split; cbn; intros; rewrite ?Htr;
    repeat match goal with
    | H : <[_ := _]> _ !! _ = Some _ |- _ => apply lookup_insert_Some in H as [[??]|[??]]; subst
    | H : <[_ := _]> _ !! _ = None |- _ => apply lookup_insert_None in H as [??]
    end; eauto.
  - rewrite Hi. eauto.
  - rewrite Hs. eauto.
  - rewrite Hs, Hta, Hrc. by eapply I6.
  - eapply consume_all_within; [|done]. eauto.
Qed.

Lemma db_step_inv db db' : db_step db db' → db_inv db → db_inv db'.
Proof.
  destruct 1; eauto using db_inv_request, db_inv_create, db_inv_transition, db_inv_budget.
Qed.

Lemma reachable_inv db : reachable db → db_inv db.
Proof.
  unfold reachable. intros H. assert (Hi := empty_db_inv). revert Hi.
  induction H; eauto using db_step_inv.
Qed.

Lemma find_reusable_run_unique db key rid r : db_inv db →
  db_runs db !! rid = Some r → holds_key key r → find_reusable_run db key = Some r.
Proof.
  intros Hinv Hr Hk. destruct (find_reusable_run db key) as [r'|] eqn:E.
  - apply find_reusable_run_Some in E as [Hk' [rid' Hr']].
    assert (rid = rid') as <- by (by eapply inv_key). congruence.
  - rewrite find_reusable_run_None in E. naive_solver.
Qed.

(** A new run's key is held by the run the creation returned. *)
Lemma create_run_holds db v r db' : db_inv db → db_inv db' →
  run_status v = RunStatus.CREATED → create_run db v = Ok (r, db') →
  find_reusable_run db' (run_idempotency_key v) = Some r.
Proof.
  intros Hinv Hinv' Hs Hc. apply create_run_inv in Hc as [[Hf ->]|(_ & _ & _ & -> & ->)]; [done|].
  eapply find_reusable_run_unique; [done|cbn; apply lookup_insert_eq|].
  split; [done|]. rewrite Hs. unfold _REUSABLE. left.
Qed.

Lemma next_sequence_fresh db rid e : db_inv db → e ∈ db_events db →
  ev_run_id e = rid → ev_sequence_number e < next_sequence db rid.
Proof.
  intros Hinv He Hrid. unfold next_sequence.
  assert (Hin : ev_sequence_number e ∈ map ev_sequence_number (trail db rid)).
  { apply list_elem_of_fmap. exists e. split; [done|]. by apply list_elem_of_filter. }
  rewrite (inv_seq _ Hinv), elem_of_seqZ in Hin. lia.
Qed.

Lemma transition_ok db now eid rid target reason r : db_inv db →
  (∀ e, e ∈ db_events db → ev_id e ≠ eid) →
  db_runs db !! rid = Some r → target ∈ ALLOWED_RUN_TRANSITIONS (run_status r) →
  is_ok (transition db now eid rid target reason) = true.
Proof.
  intros Hinv Hfresh Hr Hal. unfold transition, get_run. rewrite Hr. cbn.
  unfold mbind, res_bind, require_some. rewrite bool_decide_eq_true_2 by done. cbn.
  unfold update_run. rewrite Hr. cbn. rewrite bool_decide_eq_true_2 by done.
  unfold append_event, reject_if. cbn [db_events].
  destruct (existsb _ _) eqn:E; [exfalso|done].
  apply existsb_exists in E as (e & He & Hc). apply list_elem_of_In in He. cbn in Hc.
  apply orb_true_iff in Hc as [Hc|Hc]; bools; [by eapply Hfresh|].
  assert (Hlt := next_sequence_fresh db rid e Hinv He).
  match goal with Hq : _ = next_sequence (mkRunDb _ _ _) rid |- _ =>
    change (next_sequence (mkRunDb _ _ _) rid) with (next_sequence db rid) in Hq end.
  specialize (Hlt ltac:(done)). lia.
Qed.

(** ** Properties *)

(** C1. The audit trail of a run is complete and legal: in every database the
    program can reach, replaying a run's events from CREATED through the
    transition table ends exactly in its stored status, and the events are
    numbered 1, 2, ..., n without gaps. *)
Theorem run_audit_trail_replays db rid r :
  reachable db → get_run db rid = Some r →
  replay RunStatus.CREATED (trail db rid) = Some (run_status r) ∧
  map ev_sequence_number (trail db rid) = seqZ 1 (Z.of_nat (length (trail db rid))).
Proof.
  intros Hreach Hr. apply reachable_inv in Hreach.
  split; [by apply inv_trail|by apply inv_seq].
Qed.

(** Terminal runs are immutable: whatever the program does next, a run in
    a terminal status keeps every field of its record. *)
Theorem terminal_run_immutable db db' rid r :
  rtc db_step db db' → get_run db rid = Some r → terminal (run_status r) = true →
  get_run db' rid = Some r.
Proof.
  intros Hstar. unfold get_run. induction Hstar as [|db db1 db2 Hstep _ IH]; [done|].
  intros Hr Ht. apply IH; [|done]. clear IH.
  destruct Hstep as [| ???? _ _ _ _ Hc | ???????? Hc | ????? r0 us ? Hg Hus Hc].
  - done.
  - apply create_run_inv in Hc as [[_ ->]|(_ & _ & Hn & -> & ->)]; [done|].
    cbn. rewrite lookup_insert_ne; congruence.
  - apply transition_inv in Hc as (r2 & Hr2 & Hal & _ & ->). cbn.
    rewrite lookup_insert_ne; [done|]. intros ->.
    apply terminal_no_successor in Hal. congruence.
  - apply update_run_budget_inv in Hc as (r2 & Hr2 & Hnt & _ & _ & _ & _ & _ & _ & ->). cbn.
    rewrite lookup_insert_ne; [done|]. intros ->. congruence.
Qed.

(** Run creation is idempotent: in a reachable database, once a run was
    created or reused for a key, creating a run with the same key again returns
    that same run and changes nothing. *)
Theorem create_run_idempotent db v r db' w :
  reachable db → run_status v = RunStatus.CREATED → run_terminal_at v = None →
  run_terminal_reason_code v = None → budget_within (run_budget v) →
  create_run db v = Ok (r, db') → run_idempotency_key w = run_idempotency_key v →
  create_run db' w = Ok (r, db').
Proof.
  intros Hreach Hs Ht Hrc Hb Hc Hk. apply reachable_inv in Hreach.
  unfold create_run at 1. rewrite Hk.
  by rewrite (create_run_holds db v r db') by eauto using db_inv_create.
Qed.

(** Transitions are never refused for bookkeeping reasons: in a reachable
    database and with a fresh event id, a transition succeeds exactly when the
    run exists and the table allows the target. *)
Theorem transition_enabled db now eid rid target reason :
  reachable db → (∀ e, e ∈ db_events db → ev_id e ≠ eid) →
  (is_ok (transition db now eid rid target reason) = true ↔
   ∃ r, get_run db rid = Some r ∧ target ∈ ALLOWED_RUN_TRANSITIONS (run_status r)).
Proof.
  intros Hreach Hfresh. split.
  - destruct (transition db now eid rid target reason) as [[r db']|] eqn:E; [|done].
    intros _. apply transition_inv in E as (r0 & Hr0 & Hal & _). by exists r0.
  - intros (r & Hr & Hal). eapply transition_ok; eauto using reachable_inv.
Qed.

(** C2. Execution budgets are hard: however the tracker is used, a sequence of
    uses it accepts never exceeds the step limit, the total tool-call limit, the
    per-tool limit or the per-step retry limit. *)
Theorem budget_never_exceeded b us b' :
  budget_within b → consume_all b us = Ok b' →
  budget_within b' ∧
  consumed_steps b + uses_of is_step us ≤ max_steps b ∧
  consumed_tool_calls b + uses_of is_tool us ≤ max_tool_calls b ∧
  (∀ t, 0 < uses_of (is_call_of t) us →
     default 0 (calls_per_tool b !! t) + uses_of (is_call_of t) us ≤ max_calls_per_tool b) ∧
  (∀ k, 0 < uses_of (is_retry_of k) us →
     default 0 (retries_per_step b !! k) + uses_of (is_retry_of k) us ≤ max_retries_per_step b).
Proof.
  intros Hb H. assert (Hb' := consume_all_within _ _ _ Hb H).
  destruct (consume_all_counts _ _ _ H) as (C1 & C2 & C3 & C4).
  destruct (consume_all_limits _ _ _ H) as (L1 & L2 & L3 & L4).
  assert (Hpos := bw_steps b Hb). assert (Hpos' := bw_calls b Hb).
  split; [done|]. destruct Hb' as [Hs Hc Ht Hr _]. split_and!; [lia|lia|intros t|intros k]; intros Hlt.
  - rewrite <- C3. destruct (calls_per_tool b' !! t) eqn:E; cbn; [apply Ht in E; lia|].
    specialize (C3 t). rewrite E in C3. cbn in C3.
    destruct (calls_per_tool b !! t) eqn:E'; cbn in C3; [|lia].
    apply (bw_per_tool b Hb) in E'. lia.
  - rewrite <- C4. destruct (retries_per_step b' !! k) eqn:E; cbn; [apply Hr in E; lia|].
    specialize (C4 k). rewrite E in C4. cbn in C4.
    destruct (retries_per_step b !! k) eqn:E'; cbn in C4; [|lia].
    apply (bw_retries b Hb) in E'. lia.
Qed.

(** Resuming is safe: it succeeds only for a PAUSED run whose policy,
    catalog and snapshot context are unchanged; the run becomes RUNNING, and the
    steps of its plan split exactly into the finished ones (never run again) and
    the pending ones. *)
Theorem resume_partitions_steps validator db p now eid rid policy catalog result db' :
  resume validator db p now eid rid policy catalog = Ok (result, db') →
  ∃ run plan, get_run db rid = Some run ∧ get_plan p rid = Some plan ∧
    run_status run = RunStatus.PAUSED ∧ run_policy_version run = pol_version policy ∧
    run_tool_catalog_version run = catalog_version catalog ∧
    run_tool_catalog_checksum run = catalog_checksum catalog ∧
    validator (run_security_id run) (run_snapshot_id run) (run_research_as_of_time run) = true ∧
    get_run db' rid = Some (resumed_run result) ∧
    run_status (resumed_run result) = RunStatus.RUNNING ∧
    completed_step_ids result ++ pending_step_ids result ≡ₚ
      map st_id (list_steps p (plan_id plan)) ∧
    (∀ s, s ∈ list_steps p (plan_id plan) →
       if bool_decide (st_status s ∈ _TERMINAL_STEPS)
       then st_id s ∈ completed_step_ids result else st_id s ∈ pending_step_ids result).
Proof.
  unfold resume, _require. intros H. inv_res. bools. subst.
  match goal with Hg : get_run db rid = Some ?x |- _ => exists x end.
  match goal with Hg : get_plan p rid = Some ?x |- _ => exists x; set (pl := x) in * end.
  match goal with Ht : transition _ _ _ _ _ _ = Ok _ |- _ =>
    apply transition_inv in Ht as (cur & Hcur & _ & Hr & ->) end.
  split_and!; try done; cbn.
  - unfold get_run. cbn. apply lookup_insert_eq.
  - by rewrite Hr.
  - rewrite <- map_app. apply Permutation_map.
    apply (filter_app_complement (λ s, st_status s ∈ _TERMINAL_STEPS)).
  - intros s Hs. case_bool_decide; apply list_elem_of_fmap; exists s; (split; [done|]);
      by apply list_elem_of_filter.
Qed.

(** ** Runs shared across research modes

    [cli_agent.py:_create_planned_run] computes the key of a request without
    its research mode, although the docstring of
    [research_run_idempotency_key] promises to hash every semantic input. *)
Definition request_idempotency_key (q : ResearchRequestRecord) : res string :=
  research_run_idempotency_key (rq_normalized_security_query q) (rq_resolved_security_id q)
    (rq_snapshot_id q) (rq_research_as_of_time q) (rq_research_type q)
    (rq_requested_sections q) (rq_policy_version q) (rq_planner_version q)
    (rq_tool_catalog_checksum q).

Definition with_mode (q : ResearchRequestRecord) (m : ResearchMode) : ResearchRequestRecord :=
  mkRequest (mkRequestCreate (rq_security_query q) (rq_research_type q) (rq_snapshot_id q)
      (rq_research_as_of_time q) (rq_requested_sections q) (rq_policy_version q)
      (rq_planner_version q) (rq_requested_budgets q) m)
    (rq_id q) (rq_resolved_security_id q) (rq_normalized_security_query q)
    (rq_tool_catalog_version q) (rq_tool_catalog_checksum q) (rq_request_checksum q)
    (rq_created_at q).

(** A run created for a SYNTHETIC_TEST_ONLY request is handed out again to the
    otherwise equal REAL_RESEARCH request. *)
Lemma synthetic_run_reused_for_real_request db v r db' w q k :
  reachable db → run_status v = RunStatus.CREATED → run_terminal_at v = None →
  run_terminal_reason_code v = None → budget_within (run_budget v) →
  request_idempotency_key (with_mode q RMode.SYNTHETIC_TEST_ONLY) = Ok k →
  run_idempotency_key v = k → create_run db v = Ok (r, db') →
  request_idempotency_key (with_mode q RMode.REAL_RESEARCH) = Ok (run_idempotency_key w) →
  create_run db' w = Ok (r, db').
Proof.
  intros Hreach Hs Ht Hrc Hb Hk Hvk Hc Hw. apply reachable_inv in Hreach.
  assert (Hwk : run_idempotency_key w = run_idempotency_key v).
  { change (request_idempotency_key (with_mode q RMode.SYNTHETIC_TEST_ONLY) =
      Ok (run_idempotency_key w)) in Hw. congruence. }
  unfold create_run at 1. rewrite Hwk.
  by rewrite (create_run_holds db v r db') by eauto using db_inv_create.
Qed.

(** ** Concrete runs *)
Module RunExamples.
Definition policy : ResearchPolicyRecord :=
  mkPolicy "controlled-offline-v1" "00" RType.all RSection.all
    [mkTool "get_data_snapshot" "1.0.0"] [] 12 24 5 1 120 0
    true true true false false true false false false.
Definition rid : UUID := mkUUID "run-1".
Definition run0 : ResearchAgentRunRecord :=
  mkRun rid (mkUUID "req-1") (mkUUID "sec-1") (mkUUID "snap-1") 1000 RunStatus.CREATED
    "controlled-offline-v1" "deterministic-template-v1" "cat" "cc" "key-1" (_budget policy) []
    None 10 10 None.
Definition db0 : run_db := mkRunDb {[mkUUID "req-1"]} ∅ [].
Definition after {A} (d : run_db) (m : res (A * run_db)) : run_db :=
  match m with Ok (_, d') => d' | Raise _ => d end.
Definition db1 := after db0 (create_run db0 run0).
Definition db2 := after db1 (transition db1 11 (mkUUID "ev-1") rid RunStatus.PLANNING (Some "PLAN_STARTED")).
Definition db3 := after db2 (transition db2 12 (mkUUID "ev-2") rid RunStatus.BLOCKED (Some "NO_DATA")).
Definition get (d : run_db) : ResearchAgentRunRecord := default run0 (get_run d rid).

Lemma run0_budget : budget_within (run_budget run0).
Proof. by apply fresh_budget_within. Qed.

Lemma db0_reachable : reachable db0.
Proof.
  apply rtc_once. replace db0 with
    (mkRunDb ({[mkUUID "req-1"]} ∪ db_requests empty_db) (db_runs empty_db) (db_events empty_db)).
  - constructor.
  - cbn. by rewrite (right_id_L ∅ (∪)).
Qed.
Lemma db1_reachable : reachable db1.
Proof.
  eapply rtc_r; [apply db0_reachable|].
  apply (step_create db0 run0 run0); [done..|apply run0_budget|reflexivity].
Qed.
Lemma db2_reachable : reachable db2.
Proof.
  eapply rtc_r; [apply db1_reachable|].
  apply (step_transition db1 11 (mkUUID "ev-1") rid RunStatus.PLANNING (Some "PLAN_STARTED") (get db2)).
  reflexivity.
Qed.
Lemma db3_step : db_step db2 db3.
Proof.
  apply (step_transition db2 12 (mkUUID "ev-2") rid RunStatus.BLOCKED (Some "NO_DATA") (get db3)).
  reflexivity.
Qed.
Lemma db3_reachable : reachable db3.
Proof. eapply rtc_r; [apply db2_reachable|apply db3_step]. Qed.
Lemma fresh_event d : db_events d = db_events db2 → ∀ e, e ∈ db_events d → ev_id e ≠ mkUUID "ev-9".
Proof. intros ->. vm_compute. intros e He. by repeat (apply elem_of_cons in He as [->|He]; [done|]); apply elem_of_nil in He. Qed.

(** A paused run with a two-step plan, one step of which is finished. *)
Definition paused : ResearchAgentRunRecord :=
  mkRun rid (mkUUID "req-1") (mkUUID "sec-1") (mkUUID "snap-1") 1000 RunStatus.PAUSED
    "controlled-offline-v1" "deterministic-template-v1" "cat" "cc" "key-1" (_budget policy) []
    None 10 10 None.
Definition pdb : run_db := mkRunDb {[mkUUID "req-1"]} {[rid := paused]} [].
Definition step_def (i : Z) (k : string) : ResearchStepDefinition :=
  mkStepDef i k StepType.RESOLVE_SECURITY k true [] None None (Some "component-v1") [] 1.
Definition plan : ResearchPlanRecord :=
  mkPlan (mkValidatedPlan (mkPlanDraft "p" "v" "cat" [step_def 0 "a"; step_def 1 "b"]) "00")
    (mkUUID "plan-1") rid 11.
Definition step (i : Z) (k : string) (s : ResearchStepStatus) : ResearchStepRecord :=
  mkStep (mkUUID k) rid (mkUUID "plan-1") (step_def i k) s None 11 11 None.
Definition planning : planning_db :=
  mkPlanning {[rid := plan]} [step 1 "b" StepStatus.PENDING; step 0 "a" StepStatus.PASS].
Definition catalog : ToolCatalogSnapshot := mkCatalog "cat" "cc" 0 [].
Definition resumed : ResumeResult :=
  match resume (λ _ _ _, true) pdb planning 20 (mkUUID "ev-1") rid policy catalog with
  | Ok (r, _) => r | Raise _ => mkResume run0 [] [] false end.
Definition rdb : run_db :=
  after pdb (resume (λ _ _ _, true) pdb planning 20 (mkUUID "ev-1") rid policy catalog).
End RunExamples.

Lemma run_audit_trail_replays_witness :
  replay RunStatus.CREATED (trail RunExamples.db3 RunExamples.rid) = Some RunStatus.BLOCKED.
Proof.
  refine (proj1 (run_audit_trail_replays RunExamples.db3 RunExamples.rid
    (RunExamples.get RunExamples.db3) RunExamples.db3_reachable _)). reflexivity.
Defined.

Lemma terminal_run_immutable_witness :
  get_run (mkRunDb ({[mkUUID "req-2"]} ∪ db_requests RunExamples.db3)
    (db_runs RunExamples.db3) (db_events RunExamples.db3)) RunExamples.rid
  = Some (RunExamples.get RunExamples.db3).
Proof.
  apply (terminal_run_immutable RunExamples.db3); [|reflexivity..].
  apply rtc_once. constructor.
Defined.

Lemma create_run_idempotent_witness :
  create_run RunExamples.db1 RunExamples.run0 = Ok (RunExamples.run0, RunExamples.db1).
Proof.
  apply (create_run_idempotent RunExamples.db0 RunExamples.run0);
    [apply RunExamples.db0_reachable|reflexivity|reflexivity|reflexivity|
     apply RunExamples.run0_budget|reflexivity|reflexivity].
Defined.

Lemma transition_enabled_witness :
  is_ok (transition RunExamples.db2 15 (mkUUID "ev-9") RunExamples.rid RunStatus.PLANNED None) = true ∧
  is_ok (transition RunExamples.db2 15 (mkUUID "ev-9") RunExamples.rid RunStatus.COMPLETED None) = false.
Proof.
  split.
  - apply transition_enabled; [apply RunExamples.db2_reachable|by apply RunExamples.fresh_event|].
    exists (RunExamples.get RunExamples.db2). split; [reflexivity|left].
  - apply not_true_is_false. intros H.
    apply (transition_enabled RunExamples.db2 15 (mkUUID "ev-9") RunExamples.rid RunStatus.COMPLETED None
      RunExamples.db2_reachable (RunExamples.fresh_event _ eq_refl)) in H as (r & [= <-] & Hal).
    vm_compute in Hal. by repeat (apply elem_of_cons in Hal as [?|Hal]; [done|]); apply elem_of_nil in Hal.
Defined.

Lemma budget_never_exceeded_witness :
  uses_of is_tool [UseStep; UseTool "t"; UseRetry "k"; UseTool "t"] ≤ 24.
Proof.
  refine (proj1 (proj2 (proj2 (budget_never_exceeded (_budget RunExamples.policy)
    [UseStep; UseTool "t"; UseRetry "k"; UseTool "t"] _ RunExamples.run0_budget eq_refl)))).
Defined.

Lemma resume_partitions_steps_witness :
  completed_step_ids RunExamples.resumed ++ pending_step_ids RunExamples.resumed
    ≡ₚ [mkUUID "a"; mkUUID "b"].
Proof.
  destruct (resume_partitions_steps (λ _ _ _, true) RunExamples.pdb RunExamples.planning 20
    (mkUUID "ev-1") RunExamples.rid RunExamples.policy RunExamples.catalog RunExamples.resumed
    RunExamples.rdb eq_refl) as (run & plan & Hr & Hp & _ & _ & _ & _ & _ & _ & _ & Hperm & _).
  injection Hp as <-. exact Hperm.
Defined.
