(* ===== verification/PlanModel.v ===== *)
(** Research plans: the deterministic template planner
    (research_agent/planning.py) and the fail-closed plan validator
    (research_agent/plan_validation.py). *)
From S2P Require Import Prelude PyDecimal PyText Sha256 AgentModel.
From Stdlib Require Import Ascii.

(** * The planner *)

Definition PLANNER_VERSION : string := "deterministic-template-v1".
Definition PLAN_VERSION : string := "research-plan-v1".
Definition _DOCUMENT_TOOLS : list string := ["list_document_versions"; "search_document_chunks"].

Definition _TEMPLATES (t : ResearchType) : list string :=
  match t with
  | RType.COMPANY_OVERVIEW =>
      ["list_snapshot_items"; "list_document_versions"; "search_document_chunks"]
  | RType.FINANCIAL_HEALTH =>
      ["get_financial_periods"; "get_normalized_financial_facts"; "get_financial_metrics";
       "get_metric_lineage"]
  | RType.VALUATION_SNAPSHOT =>
      ["get_latest_close"; "get_financial_metrics"; "get_metric_detail"; "get_metric_lineage"]
  | RType.CATALYSTS_AND_RISKS =>
      ["get_corporate_actions"; "list_document_versions"; "search_document_chunks"]
  | RType.DATA_QUALITY_REVIEW =>
      ["list_snapshot_items"; "get_normalized_financial_facts"; "list_document_versions"]
  | RType.FULL_RESEARCH_PACKAGE =>
      ["get_financial_periods"; "get_normalized_financial_facts"; "get_financial_metrics";
       "get_metric_lineage"; "get_corporate_actions"; "search_document_chunks"]
  end.

(** [key.replace("_", " ").title()] on the program's ASCII keys. *)
Fixpoint str_title (start : bool) (s : string) : string :=
  match s with
  | EmptyString => EmptyString
  | String c s =>
      let letter := is_lower c || is_upper c in
      String (if letter then (if start then ascii_upper c else ascii_lower c) else c)
        (str_title (negb letter) s)
  end.
Definition title_of (key : string) : string :=
  str_title true (str_map (λ c, if bool_decide (c = "_"%char) then " "%char else c) key).

(** [_tool_step] *)
Definition _tool_step (index : Z) (tool_name : string) (stype : ResearchStepType)
    (dependencies : list string) : ResearchStepDefinition :=
  mkStepDef index tool_name stype (title_of tool_name) true dependencies
    (Some tool_name) (Some "1.0.0") None
    (if bool_decide (tool_name = "search_document_chunks")
     then [("query_template", VStr "company_disclosures_bilingual-v1")] else [])
    (if bool_decide (tool_name = "get_metric_lineage") then 5 else 1).

(** [_component_step] *)
Definition _component_step (index : Z) (key : string) (stype : ResearchStepType)
    (dependencies : list string) (component : string) : ResearchStepDefinition :=
  mkStepDef index key stype (title_of key) true dependencies None None (Some component) [] 1.

Definition template_dependency (tool_name : string) (data_keys : list string) : list string :=
  if bool_decide (tool_name = "get_metric_lineage") then ["get_financial_metrics"]
  else if bool_decide (tool_name = "search_document_chunks") &&
          bool_decide ("list_document_versions" ∈ data_keys) then ["list_document_versions"]
  else ["get_data_snapshot"].

(** One round of the [for tool_name in _TEMPLATES[...]] loop. *)
Definition add_template_step (acc : list ResearchStepDefinition * list string)
    (tool_name : string) : list ResearchStepDefinition * list string :=
  let '(steps, data_keys) := acc in
  (steps ++ [_tool_step (Z.of_nat (length steps)) tool_name
     (if bool_decide (tool_name ∈ _DOCUMENT_TOOLS) then StepType.QUERY_DOCUMENT_EVIDENCE
      else StepType.QUERY_STRUCTURED_DATA)
     (template_dependency tool_name data_keys)],
   data_keys ++ [tool_name]).

(** The steps of the plan for a research type. *)
Definition template_steps (t : ResearchType) : list ResearchStepDefinition :=
  let '(steps, data_keys) := foldl add_template_step
    ([_component_step 0 "resolve_security" StepType.RESOLVE_SECURITY [] "security-resolution-v1";
      _tool_step 1 "get_data_snapshot" StepType.LOAD_SNAPSHOT ["resolve_security"]], [])
    (_TEMPLATES t) in
  let n := Z.of_nat (length steps) in
  steps ++
    [_component_step n "validate_evidence" StepType.VALIDATE_EVIDENCE (sort_str data_keys)
       "evidence-ledger-v1";
     _component_step (n + 1) "build_claims" StepType.BUILD_CLAIMS ["validate_evidence"]
       "deterministic-claim-builder-v1";
     _component_step (n + 2) "validate_claims" StepType.VALIDATE_CLAIMS ["build_claims"]
       "claim-support-v1";
     _component_step (n + 3) "assemble_package" StepType.ASSEMBLE_PACKAGE ["validate_claims"]
       "research-package-v1"].

(** [DeterministicTemplatePlanner.create_plan] *)
Definition create_plan (request : ResearchRequestRecord) (policy : ResearchPolicyRecord)
    (tool_catalog : ToolCatalogSnapshot) : res ResearchPlanDraft :=
  reject_if (negb (bool_decide (rq_planner_version request = PLANNER_VERSION)))
    ValueError "PLANNER_VERSION_MISMATCH";;
  reject_if (negb (bool_decide (rq_tool_catalog_version request = catalog_version tool_catalog)) ||
             negb (bool_decide (rq_tool_catalog_checksum request = catalog_checksum tool_catalog)))
    ValueError "TOOL_CATALOG_VERSION_MISMATCH";;
  reject_if (negb (bool_decide (rq_policy_version request = pol_version policy)))
    ValueError "POLICY_VERSION_MISMATCH";;
  reject_if (negb (bool_decide (rq_research_type request ∈ pol_allowed_research_types policy)))
    ValueError "RESEARCH_TYPE_NOT_ALLOWED";;
  Ok (mkPlanDraft PLANNER_VERSION PLAN_VERSION (catalog_version tool_catalog)
        (template_steps (rq_research_type request))).

(** [draft.model_dump(mode="python")] *)
Definition dump_step (s : ResearchStepDefinition) : pyval :=
  VMap [("step_index", VInt (step_index s)); ("step_key", VStr (step_key s));
        ("step_type", VStr (StepType.value (step_type s))); ("title", VStr (title s));
        ("required", VBool (required s));
        ("dependency_keys", VList (map VStr (dependency_keys s)));
        ("tool_name", v_str (def_tool_name s)); ("tool_version", v_str (def_tool_version s));
        ("component_name", v_str (component_name s));
        ("input_binding", VMap (input_binding s)); ("fanout_limit", VInt (fanout_limit s))].
Definition dump_draft (d : ResearchPlanDraft) : pyval :=
  VMap [("planner_version", VStr (planner_version d)); ("plan_version", VStr (plan_version d));
        ("tool_catalog_version", VStr (draft_tool_catalog_version d));
        ("steps", VList (map dump_step (steps d)))].

(** [plan_checksum] *)
Definition plan_checksum (draft : ResearchPlanDraft) : res string :=
  stable_checksum (dump_draft draft).

(** * The validator *)

Definition plan_error {A} (code : string) : res A := raise ResearchPlanValidationError code.

(** [{step.step_key: step for step in draft.steps}]: the last one wins. *)
Definition by_key (l : list ResearchStepDefinition) : gmap string ResearchStepDefinition :=
  list_to_map (reverse (map (λ s, (step_key s, s)) l)).

(** [visit] of [_reject_cycles]: depth-first search with the sets [visiting]
    and [visited].  Running out of fuel stands for unbounded recursion. *)
Fixpoint visit (fuel : nat) (bk : gmap string ResearchStepDefinition)
    (acc : gset string * gset string) (key : string) : res (gset string * gset string) :=
  match fuel with
  | O => raise RecursionError "visit"
  | S fuel =>
      let '(visiting, visited) := acc in
      if bool_decide (key ∈ visiting) then plan_error "CYCLIC_PLAN"
      else if bool_decide (key ∈ visited) then Ok (visiting, visited)
      else
        step ← require_some (bk !! key) KeyError key;
        '(visiting', visited') ←
          res_fold (visit fuel bk) (dependency_keys step) ({[key]} ∪ visiting, visited);
        Ok (visiting' ∖ {[key]}, {[key]} ∪ visited')
  end.

(** [_reject_cycles] *)
Definition _reject_cycles (l : list ResearchStepDefinition)
    (bk : gmap string ResearchStepDefinition) : res unit :=
  res_fold (visit (S (size bk)) bk) (map step_key l) (∅, ∅);;
  Ok tt.

(** The loop of [_has_ancestor] over the dependency keys of one step, [rec]
    being the recursive call. *)
Fixpoint scan_deps (rec : list string → gset string → res (bool * gset string))
    (bk : gmap string ResearchStepDefinition) (req : gset string) (ds : list string)
    (visited : gset string) : res (bool * gset string) :=
  match ds with
  | [] => Ok (false, visited)
  | key :: ds =>
      if bool_decide (key ∈ req) then Ok (true, visited)
      else if bool_decide (key ∈ visited) then scan_deps rec bk req ds visited
      else
        step ← require_some (bk !! key) KeyError key;
        match rec (dependency_keys step) ({[key]} ∪ visited) with
        | Ok (true, visited') => Ok (true, visited')
        | Ok (false, visited') => scan_deps rec bk req ds visited'
        | Raise e => Raise e
        end
  end.

(** [_has_ancestor], threading the shared [visited] set. *)
Fixpoint _has_ancestor (fuel : nat) (bk : gmap string ResearchStepDefinition)
    (req : gset string) (deps : list string) (visited : gset string) : res (bool * gset string) :=
  match fuel with
  | O => raise RecursionError "_has_ancestor"
  | S fuel => scan_deps (_has_ancestor fuel bk req) bk req deps visited
  end.

(** [_require_order] *)
Definition _require_order (l : list ResearchStepDefinition)
    (bk : gmap string ResearchStepDefinition) (target_type ancestor_type : ResearchStepType)
    (code : string) : res unit :=
  let targets := filter (λ s, step_type s = target_type) l in
  let ancestors : gset string :=
    list_to_set (map step_key (filter (λ s, step_type s = ancestor_type) l)) in
  reject_if (negb (length targets =? 1)%nat || negb (size ancestors =? 1)%nat)
    ResearchPlanValidationError code;;
  target ← require_some (head targets) AssertionError code;
  found ← fst <$> _has_ancestor (S (size bk)) bk ancestors (dependency_keys target) ∅;
  reject_if (negb found) ResearchPlanValidationError code.

Definition tool_key (t : AllowedTool) : string * string := (tool_name t, tool_version t).
Definition entry_key (e : ToolCatalogEntry) : string * string :=
  (ce_tool_name e, ce_tool_version e).

(** [_validate_tools], per step. *)
Definition _validate_tool (policy : ResearchPolicyRecord) (catalog : ToolCatalogSnapshot)
    (s : ResearchStepDefinition) : res unit :=
  match def_tool_name s, def_tool_version s with
  | Some name, Some version =>
      let key := (name, version) in
      reject_if (negb (bool_decide (key ∈ map entry_key (entries catalog))))
        ResearchPlanValidationError "TOOL_NOT_IN_CATALOG";;
      reject_if (negb (bool_decide (key ∈ map tool_key (pol_allowed_tools policy))) ||
                 bool_decide (key ∈ map tool_key (pol_denied_tools policy)))
        ResearchPlanValidationError "TOOL_NOT_ALLOWED_BY_POLICY"
  | _, _ => Ok tt
  end.

(** The per-step shape checks of [validate]. *)
Definition check_step (bk : gmap string ResearchStepDefinition) (s : ResearchStepDefinition) :
    res unit :=
  reject_if (Bool.eqb (is_none (def_tool_name s)) (is_none (component_name s)))
    ResearchPlanValidationError "INVALID_STEP_TARGET";;
  reject_if (is_none (def_tool_name s) && is_some (def_tool_version s))
    ResearchPlanValidationError "INVALID_STEP_TARGET";;
  reject_if (is_some (def_tool_name s) && is_none (def_tool_version s))
    ResearchPlanValidationError "INVALID_STEP_TARGET";;
  reject_if (bool_decide (step_key s ∈ dependency_keys s))
    ResearchPlanValidationError "SELF_STEP_DEPENDENCY";;
  reject_if (existsb (λ k, is_none (bk !! k)) (dependency_keys s))
    ResearchPlanValidationError "UNKNOWN_STEP_DEPENDENCY".

(** [ResearchPlanValidator.validate] *)
Definition validate (draft : ResearchPlanDraft) (policy : ResearchPolicyRecord)
    (catalog : ToolCatalogSnapshot) : res ValidatedResearchPlan :=
  let l := steps draft in
  let bk := by_key l in
  reject_if (negb (bool_decide (draft_tool_catalog_version draft = catalog_version catalog)))
    ResearchPlanValidationError "TOOL_CATALOG_VERSION_MISMATCH";;
  reject_if (pol_max_steps policy <? Z.of_nat (length l))
    ResearchPlanValidationError "STEP_BUDGET_EXCEEDED";;
  reject_if (negb (size (list_to_set (map step_key l) : gset string) =? length l)%nat)
    ResearchPlanValidationError "DUPLICATE_STEP_KEY";;
  reject_if (negb (bool_decide (map step_index l = seqZ 0 (Z.of_nat (length l)))))
    ResearchPlanValidationError "NON_CONTIGUOUS_STEP_INDEX";;
  reject_if (negb (bool_decide (StepType.RESOLVE_SECURITY ∈ map step_type l)))
    ResearchPlanValidationError "REQUIRED_IDENTITY_STEP_MISSING";;
  reject_if (negb (bool_decide (StepType.LOAD_SNAPSHOT ∈ map step_type l)))
    ResearchPlanValidationError "REQUIRED_SNAPSHOT_STEP_MISSING";;
  res_iter (check_step bk) l;;
  _reject_cycles l bk;;
  res_iter (_validate_tool policy catalog) l;;
  _require_order l bk StepType.BUILD_CLAIMS StepType.VALIDATE_EVIDENCE
    "INVALID_CLAIM_BUILD_ORDER";;
  _require_order l bk StepType.VALIDATE_CLAIMS StepType.BUILD_CLAIMS
    "INVALID_CLAIM_VALIDATION_ORDER";;
  _require_order l bk StepType.ASSEMBLE_PACKAGE StepType.VALIDATE_CLAIMS
    "INVALID_PACKAGE_ORDER";;
  checksum ← plan_checksum draft;
  Ok (mkValidatedPlan draft checksum).


(** * Dependency graphs *)

(** [k] depends directly on [k']. *)
Definition depends (bk : gmap string ResearchStepDefinition) (k k' : string) : Prop :=
  ∃ s, bk !! k = Some s ∧ k' ∈ dependency_keys s.

(** Every dependency names a step. *)
Definition closed (bk : gmap string ResearchStepDefinition) : Prop :=
  ∀ k k', depends bk k k' → is_Some (bk !! k').

(** No step depends on itself, directly or not. *)
Definition grounded (bk : gmap string ResearchStepDefinition) (k : string) : Prop :=
  Acc (λ a b, depends bk b a) k.

Lemma grounded_no_cycle bk k : grounded bk k → ¬ tc (depends bk) k k.
Proof.
  induction 1 as [k _ IH]. intros Hc. inversion Hc as [? ? H|? k' ? H Ht]; subst.
  - by apply (IH _ H).
  - apply (IH _ H). by eapply tc_r.
Qed.

Section Visit.
Context (bk : gmap string ResearchStepDefinition).

Definition all_grounded (b : gset string) : Prop := ∀ k, k ∈ b → grounded bk k.

(** Inverting one step of a successful visit. *)
Lemma visit_Ok fuel key g b g' b' : visit (S fuel) bk (g, b) key = Ok (g', b') →
  key ∉ g ∧ ((key ∈ b ∧ g' = g ∧ b' = b) ∨
  ∃ s g1 b1, bk !! key = Some s ∧ key ∉ b ∧
    res_fold (visit fuel bk) (dependency_keys s) ({[key]} ∪ g, b) = Ok (g1, b1) ∧
    g' = g1 ∖ {[key]} ∧ b' = {[key]} ∪ b1).
Proof.
  cbn. case_bool_decide as Hg; [done|]. case_bool_decide as Hk.
  { intros H. inv_res. simplify_eq. split; [done|]. by left. }
  intros H. split; [done|]. right.
  apply bind_Ok in H as (s & Hs & H). apply require_some_Ok in Hs.
  apply bind_Ok in H as ([g1 b1] & Hf & H). inv_res. simplify_eq. by exists s, g1, b1.
Qed.

(** A successful visit leaves the set [visiting] as it found it. *)
Lemma visit_path fuel : ∀ key g b g' b', visit fuel bk (g, b) key = Ok (g', b') → g' = g.
Proof.
  induction fuel as [|fuel IH]; intros key g b g' b' H; [done|].
  apply visit_Ok in H as [Hg [(_ & -> & _)|(s & g1 & b1 & _ & _ & Hf & -> & _)]]; [done|].
  assert (g1 = {[key]} ∪ g) as ->; [|set_solver].
  revert b Hf. generalize ({[key]} ∪ g) as g0. induction (dependency_keys s) as [|d ds IHds];
    cbn; intros g0 b Hf; [by inv_res; simplify_eq|].
  apply bind_Ok in Hf as ([g2 b2] & Hv & Hf). apply IH in Hv as ->. eauto.
Qed.

Lemma visit_all_sound fuel :
  (∀ key g b g' b', visit fuel bk (g, b) key = Ok (g', b') → all_grounded b →
     b ⊆ b' ∧ key ∈ b' ∧ all_grounded b') →
  ∀ ds g b g' b', res_fold (visit fuel bk) ds (g, b) = Ok (g', b') → all_grounded b →
    b ⊆ b' ∧ (∀ d, d ∈ ds → d ∈ b') ∧ all_grounded b'.
Proof.
  intros IH ds. induction ds as [|d ds IHds]; cbn; intros g b g' b' H Hb.
  - inv_res. simplify_eq. split_and!; try done. intros d Hd. by apply elem_of_nil in Hd.
  - apply bind_Ok in H as ([g1 b1] & Hv & H).
    destruct (IH _ _ _ _ _ Hv Hb) as (Hsub & Hd & Hb1).
    destruct (IHds _ _ _ _ H Hb1) as (Hsub' & Hds & Hb').
    split_and!; [set_solver| |done].
    intros d' [->|Hd']%elem_of_cons; [set_solver|by apply Hds].
Qed.

(** A successful visit adds grounded steps only, among them its key. *)
Lemma visit_sound fuel : ∀ key g b g' b',
  visit fuel bk (g, b) key = Ok (g', b') → all_grounded b →
  b ⊆ b' ∧ key ∈ b' ∧ all_grounded b'.
Proof.
  induction fuel as [|fuel IH]; intros key g b g' b' H Hb; [done|].
  apply visit_Ok in H as [Hg [(? & _ & ->)|(s & g1 & b1 & Hs & _ & Hf & _ & ->)]]; [done|].
  destruct (visit_all_sound fuel IH _ _ _ _ _ Hf Hb) as (Hsub & Hds & Hb1).
  split_and!; [set_solver|set_solver|].
  intros k [->%elem_of_singleton|Hin]%elem_of_union; [|by apply Hb1].
  constructor. intros k' (s' & Hs' & Hk'). simplify_eq. by apply Hb1, Hds.
Qed.

(** The outcome of a failing visit, given enough fuel: a cycle was found. *)
Definition found_cycle (e : exn) : Prop :=
  e = mkExn ResearchPlanValidationError "CYCLIC_PLAN" ∧ ∃ k, tc (depends bk) k k.

Lemma visit_all_complete fuel g :
  (∀ key b e, visit fuel bk (g, b) key = Raise e → is_Some (bk !! key) →
     (∀ x, x ∈ g → tc (depends bk) x key) → found_cycle e) →
  ∀ ds b e, res_fold (visit fuel bk) ds (g, b) = Raise e →
    (∀ d, d ∈ ds → is_Some (bk !! d) ∧ ∀ x, x ∈ g → tc (depends bk) x d) → found_cycle e.
Proof.
  intros IH ds. induction ds as [|d ds IHds]; cbn; intros b e H Hds; [done|].
  apply bind_Raise in H as [H|([g1 b1] & Hv & H)].
  - destruct (Hds d) as [? ?]; [left|]. by eapply IH.
  - apply visit_path in Hv as ->. eapply IHds; [done|]. intros d' Hd'. apply Hds. by right.
Qed.

(** With fuel for every step not on the path, only a cycle makes a visit fail. *)
Lemma visit_complete (Hclosed : closed bk) fuel : ∀ g key b e,
  g ⊆ dom bk → (size (dom bk ∖ g) < fuel)%nat →
  visit fuel bk (g, b) key = Raise e → is_Some (bk !! key) →
  (∀ x, x ∈ g → tc (depends bk) x key) → found_cycle e.
Proof.
  induction fuel as [|fuel IH]; intros g key b e Hg Hf H [s Hs] Hpath; [lia|]. cbn in H.
  case_bool_decide as Hin; [injection H as <-; split; [done|]; exists key; by apply Hpath|].
  case_bool_decide as Hk; [done|]. rewrite Hs in H.
  apply bind_Raise in H as [?|(s' & [= <-] & H)]; [done|].
  apply bind_Raise in H as [H|([g1 b1] & _ & ?)]; [|done].
  assert (Hdom : key ∈ dom bk) by (apply elem_of_dom; eauto).
  eapply visit_all_complete; [|exact H|].
  - intros key' b' e' Hv Hk' Hp'. eapply IH; [| |exact Hv|done..]; [set_solver|].
    assert (E : dom bk ∖ g = {[key]} ∪ dom bk ∖ ({[key]} ∪ g)).
    { apply set_eq. intros x. destruct (decide (x = key)); set_solver. }
    rewrite E, size_union, size_singleton in Hf by set_solver. lia.
  - intros d Hd. assert (Hkd : depends bk key d) by by exists s.
    split; [by eapply Hclosed|].
    intros x [->%elem_of_singleton|Hx]%elem_of_union; [by apply tc_once|].
    eapply tc_r; [by apply Hpath|done].
Qed.
End Visit.

(** [_reject_cycles] accepts exactly the plans without a dependency cycle. *)
Lemma reject_cycles_sound bk l u k :
  _reject_cycles l bk = Ok u → k ∈ map step_key l → grounded bk k.
Proof.
  unfold _reject_cycles. intros H Hk. apply bind_Ok in H as ([g b] & H & _).
  destruct (visit_all_sound bk (S (size bk)) (visit_sound bk _) _ _ _ _ _ H) as (_ & Hds & Hb).
  - intros x Hx. set_solver.
  - by apply Hb, Hds.
Qed.

Lemma reject_cycles_complete bk l e :
  closed bk → (∀ k, k ∈ map step_key l → is_Some (bk !! k)) →
  _reject_cycles l bk = Raise e → found_cycle bk e.
Proof.
  unfold _reject_cycles. intros Hcl Hl H. apply bind_Raise in H as [H|([g b] & _ & ?)]; [|done].
  eapply visit_all_complete; [|exact H|].
  - intros key b' e' Hv Hk Hp. eapply (visit_complete bk Hcl); [| |exact Hv|done..]; [set_solver|].
    rewrite difference_empty_L, size_dom. lia.
  - intros d Hd. split; [by apply Hl|]. intros x Hx. set_solver.
Qed.

(** * Ancestors *)

Section Ancestors.
Context (bk : gmap string ResearchStepDefinition) (req : gset string).

(** [ds] leads to a required key. *)
Definition leads (ds : list string) : Prop := ∃ d r, d ∈ ds ∧ r ∈ req ∧ rtc (depends bk) d r.

Lemma leads_cons d ds : leads ds → leads (d :: ds).
Proof. intros (d' & r & ? & ? & ?). exists d', r. split_and!; [by right|done..]. Qed.

Lemma scan_true rec ds : ∀ V V',
  (∀ deps V V', rec deps V = Ok (true, V') → leads deps) →
  scan_deps rec bk req ds V = Ok (true, V') → leads ds.
Proof.
  induction ds as [|d ds IH]; cbn; intros V V' Hrec H; [done|].
  case_bool_decide as Hd; [exists d, d; split_and!; [left|done|done]|].
  case_bool_decide; [by eapply leads_cons, IH|].
  apply bind_Ok in H as (s & Hs & H). apply require_some_Ok in Hs.
  destruct (rec _ _) as [[[] V1]|] eqn:E; [| |done].
  - apply Hrec in E as (d' & r & Hd' & Hr & Hp).
    exists d, r. split_and!; [left|done|]. eapply rtc_l; [by exists s|done].
  - by eapply leads_cons, IH.
Qed.

Lemma has_ancestor_true fuel : ∀ deps V V',
  _has_ancestor fuel bk req deps V = Ok (true, V') → leads deps.
Proof.
  induction fuel as [|fuel IH]; cbn; intros deps V V' H; [done|].
  eapply scan_true; [|exact H]. exact IH.
Qed.

(** What a failed search has established: everything it visited is fully
    explored and avoids the required keys. *)
Definition explored (V V' : gset string) : Prop :=
  V ⊆ V' ∧ ∀ v k, v ∈ V' → v ∉ V → depends bk v k → k ∉ req ∧ k ∈ V'.

Lemma scan_false rec ds : ∀ V V',
  (∀ deps V V', rec deps V = Ok (false, V') →
     explored V V' ∧ ∀ d, d ∈ deps → d ∉ req ∧ d ∈ V') →
  scan_deps rec bk req ds V = Ok (false, V') →
  explored V V' ∧ ∀ d, d ∈ ds → d ∉ req ∧ d ∈ V'.
Proof.
  induction ds as [|d ds IH]; cbn; intros V V' Hrec H.
  { inv_res. simplify_eq. split; [split; [done|]|]; [by intros|].
    intros d Hd. by apply elem_of_nil in Hd. }
  case_bool_decide as Hd; [done|]. case_bool_decide as HdV.
  - destruct (IH _ _ Hrec H) as [[Hsub Hex] Hds]. split; [done|].
    intros d' [->|Hd']%elem_of_cons; [set_solver|by apply Hds].
  - apply bind_Ok in H as (s & Hs & H). apply require_some_Ok in Hs.
    destruct (rec _ _) as [[[] V1]|] eqn:E; [done| |done].
    destruct (Hrec _ _ _ E) as [[Hsub1 Hex1] Hds1].
    destruct (IH _ _ Hrec H) as [[Hsub Hex] Hds].
    split; [split; [set_solver|]|].
    + intros v k Hv HvV Hdep. destruct (decide (v ∈ V1)) as [Hv1|]; [|by apply (Hex v k)].
      destruct (decide (v = d)) as [->|Hne].
      * destruct Hdep as (s' & Hs' & Hk). simplify_eq. apply Hds1 in Hk as [? ?]. set_solver.
      * destruct (Hex1 v k) as [? ?]; [done|set_solver|done|]. set_solver.
    + intros d' [->|Hd']%elem_of_cons; [|by apply Hds]. set_solver.
Qed.

Lemma has_ancestor_false fuel : ∀ deps V V',
  _has_ancestor fuel bk req deps V = Ok (false, V') →
  explored V V' ∧ ∀ d, d ∈ deps → d ∉ req ∧ d ∈ V'.
Proof.
  induction fuel as [|fuel IH]; cbn; intros deps V V' H; [done|].
  eapply scan_false; [|exact H]. exact IH.
Qed.

Lemma has_ancestor_false_leads fuel deps V' :
  _has_ancestor fuel bk req deps ∅ = Ok (false, V') → ¬ leads deps.
Proof.
  intros H. apply has_ancestor_false in H as [[_ Hex] Hds].
  intros (d & r & Hd & Hr & Hp). apply Hds in Hd as [Hdr Hd].
  induction Hp as [d|d d' r Hdep Hp IH]; [done|].
  destruct (Hex d d') as [? ?]; [done|set_solver|done|]. by apply IH.
Qed.

(** Visited sets only grow. *)
Lemma scan_mono rec ds : ∀ b V V',
  (∀ deps b V V', rec deps V = Ok (b, V') → V ⊆ V') →
  scan_deps rec bk req ds V = Ok (b, V') → V ⊆ V'.
Proof.
  induction ds as [|d ds IH]; cbn; intros b V V' Hrec H; [by inv_res; simplify_eq|].
  case_bool_decide; [by inv_res; simplify_eq|]. case_bool_decide; [by eapply IH|].
  apply bind_Ok in H as (s & Hs & H).
  destruct (rec _ _) as [[[] V1]|] eqn:E; [| |done]; apply Hrec in E.
  - inv_res. simplify_eq. set_solver.
  - apply IH in H; [set_solver|done].
Qed.

Lemma has_ancestor_mono fuel : ∀ deps b V V',
  _has_ancestor fuel bk req deps V = Ok (b, V') → V ⊆ V'.
Proof.
  induction fuel as [|fuel IH]; cbn; intros deps b V V' H; [done|].
  eapply scan_mono; [|exact H]. exact IH.
Qed.

(** With fuel for every unvisited step the search does not fail. *)
Lemma has_ancestor_total (Hclosed : closed bk) fuel : ∀ deps V e,
  (size (dom bk ∖ V) < fuel)%nat → (∀ d, d ∈ deps → is_Some (bk !! d)) →
  _has_ancestor fuel bk req deps V ≠ Raise e.
Proof.
  induction fuel as [|fuel IH]; intros deps V e Hf Hdeps H; [lia|]. cbn in H.
  revert V Hf H. induction deps as [|d ds IHds]; cbn; intros V Hf H; [done|].
  assert (Hds : ∀ d', d' ∈ ds → is_Some (bk !! d')) by (intros; apply Hdeps; by right).
  case_bool_decide; [done|]. case_bool_decide as HdV; [by eapply IHds|].
  destruct (Hdeps d) as [s Hs]; [left|]. rewrite Hs in H.
  change (match _has_ancestor fuel bk req (dependency_keys s) ({[d]} ∪ V) with
    | Ok (true, V1) => Ok (true, V1)
    | Ok (false, V1) => scan_deps (_has_ancestor fuel bk req) bk req ds V1
    | Raise e => Raise e end = Raise e) in H.
  assert (Hdom : d ∈ dom bk) by (apply elem_of_dom; eauto).
  destruct (_has_ancestor fuel bk req _ _) as [[[] V1]|] eqn:E; [done| |].
  - eapply IHds; [done| |exact H]. apply has_ancestor_mono in E.
    eapply Nat.le_lt_trans; [|exact Hf]. apply subseteq_size. set_solver.
  - eapply IH; [| |exact E].
    + assert (E' : dom bk ∖ V = {[d]} ∪ dom bk ∖ ({[d]} ∪ V)).
      { apply set_eq. intros x. destruct (decide (x = d)); set_solver. }
      rewrite E', size_union, size_singleton in Hf by set_solver. lia.
    + intros k Hk. eapply Hclosed. by exists s.
Qed.
End Ancestors.

#[global] Arguments _has_ancestor : simpl never.

Lemma by_key_lookup l s :
  NoDup (map step_key l) → s ∈ l → by_key l !! step_key s = Some s.
Proof.
  intros Hnd Hs. unfold by_key. apply elem_of_list_to_map_1.
  - rewrite reverse_Permutation.
    replace ((map (λ s, (step_key s, s)) l).*1) with (map step_key l); [done|].
    clear. induction l as [|x l IH]; cbn; [done|]. by f_equal.
  - rewrite elem_of_reverse. apply list_elem_of_fmap. by exists s.
Qed.

Lemma by_key_inv l k s : by_key l !! k = Some s → s ∈ l ∧ step_key s = k.
Proof.
  unfold by_key. intros H. apply elem_of_list_to_map_2 in H.
  rewrite elem_of_reverse in H. apply list_elem_of_fmap in H as (s' & [= -> ->] & Hs). done.
Qed.

(** [_require_order] decides whether the single target step depends, directly
    or through other steps, on the single ancestor step. *)
Lemma require_order_iff l t a code :
  NoDup (map step_key l) → closed (by_key l) →
  (_require_order l (by_key l) t a code = Ok tt ↔
   ∃ s k, filter (λ s, step_type s = t) l = [s] ∧
     (list_to_set (map step_key (filter (λ s, step_type s = a) l)) : gset string) = {[k]} ∧
     tc (depends (by_key l)) (step_key s) k).
Proof.
  intros Hnd Hcl. unfold _require_order.
  set (anc := list_to_set _ : gset string). split.
  - intros H. apply bind_Ok in H as (u & Hu & H). apply reject_if_Ok in Hu. bools.
    apply bind_Ok in H as (s & Hs & H). apply require_some_Ok in Hs.
    apply bind_Ok in H as (found & Hf & H). apply reject_if_Ok in H. bools. subst.
    destruct (_has_ancestor _ _ _ _ _) as [[b V]|] eqn:E; [|done]. cbn in Hf. simplify_eq/=.
    apply has_ancestor_true in E as (d & r & Hd & Hr & Hp).
    match goal with Ha : (size anc =? 1)%nat = true |- _ => apply Nat.eqb_eq in Ha;
      apply size_1_elem_of in Ha as [k Hk]; fold_leibniz end.
    destruct (filter (λ s, step_type s = t) l) as [|s0 [|]] eqn:Ef; try done. cbn in Hs. simplify_eq.
    exists s, k. split_and!; [done|done|].
    assert (Hsl : s ∈ l) by (eapply list_elem_of_filter; rewrite Ef; left).
    rewrite Hk in Hr. apply elem_of_singleton in Hr as ->.
    eapply tc_rtc_r; [apply tc_once|done]. exists s. split; [by apply by_key_lookup|done].
  - intros (s & k & Ef & Hk & Hp). fold anc in Hk. rewrite Ef, Hk, size_singleton.
    assert (Hsl : s ∈ l) by (eapply list_elem_of_filter; rewrite Ef; left).
    assert (Hlk := by_key_lookup l s Hnd Hsl).
    apply bind_Ok. exists tt. split; [done|].
    apply bind_Ok. exists s. split; [done|].
    apply bind_Ok. exists true. split; [|done].
    destruct (_has_ancestor (S (size (by_key l))) (by_key l) {[k]} (dependency_keys s) ∅)
      as [[[] V]|] eqn:E; [done| |].
    + exfalso. eapply has_ancestor_false_leads; [exact E|].
      assert (Hd : ∃ d, depends (by_key l) (step_key s) d ∧ rtc (depends (by_key l)) d k).
      { inversion Hp as [? ? H|? d ? H Ht]; subst; eexists; (split; [exact H|]);
          [done|by apply tc_rtc]. }
      destruct Hd as (d & (s' & Hs' & Hd) & Hr). simplify_eq. exists d, k. set_solver.
    + exfalso. eapply has_ancestor_total; [exact Hcl| | |exact E].
      * rewrite difference_empty_L, size_dom. lia.
      * intros d Hd. eapply Hcl. by exists s.
Qed.

(** * What validation establishes *)

(** The declarative contract of a validated plan. *)
Record plan_ok (draft : ResearchPlanDraft) (policy : ResearchPolicyRecord)
    (catalog : ToolCatalogSnapshot) : Prop := {
  ok_catalog : draft_tool_catalog_version draft = catalog_version catalog;
  ok_budget : Z.of_nat (length (steps draft)) <= pol_max_steps policy;
  ok_keys : NoDup (map step_key (steps draft));
  ok_indexes : map step_index (steps draft) = seqZ 0 (Z.of_nat (length (steps draft)));
  ok_identity : StepType.RESOLVE_SECURITY ∈ map step_type (steps draft);
  ok_snapshot : StepType.LOAD_SNAPSHOT ∈ map step_type (steps draft);
  ok_target : ∀ s, s ∈ steps draft →
    (is_Some (def_tool_name s) ↔ component_name s = None) ∧
    (is_Some (def_tool_name s) ↔ is_Some (def_tool_version s));
  ok_closed : ∀ s k, s ∈ steps draft → k ∈ dependency_keys s →
    k ≠ step_key s ∧ k ∈ map step_key (steps draft);
  ok_acyclic : ∀ k, k ∈ map step_key (steps draft) → ¬ tc (depends (by_key (steps draft))) k k;
  ok_tools : ∀ s name version, s ∈ steps draft →
    def_tool_name s = Some name → def_tool_version s = Some version →
    (name, version) ∈ map entry_key (entries catalog) ∧
    (name, version) ∈ map tool_key (pol_allowed_tools policy) ∧
    (name, version) ∉ map tool_key (pol_denied_tools policy);
  ok_order : ∀ t a, (t, a) ∈ [(StepType.BUILD_CLAIMS, StepType.VALIDATE_EVIDENCE);
      (StepType.VALIDATE_CLAIMS, StepType.BUILD_CLAIMS);
      (StepType.ASSEMBLE_PACKAGE, StepType.VALIDATE_CLAIMS)] →
    ∃ s k, filter (λ s, step_type s = t) (steps draft) = [s] ∧
      (list_to_set (map step_key (filter (λ s, step_type s = a) (steps draft))) : gset string)
        = {[k]} ∧ tc (depends (by_key (steps draft))) (step_key s) k }.

Lemma distinct_keys_iff (l : list string) :
  (size (list_to_set l : gset string) =? length l)%nat = true ↔ NoDup l.
Proof.
  rewrite Nat.eqb_eq. split.
  - intros H. apply NoDup_ListNoDup.
    eapply (List.NoDup_incl_NoDup (l := elements (list_to_set l : gset string))).
    + apply NoDup_ListNoDup, NoDup_elements.
    + change (length (elements (list_to_set l : gset string)))
        with (size (list_to_set l : gset string)). lia.
    + intros x Hx. apply list_elem_of_In in Hx. apply list_elem_of_In.
      by rewrite elem_of_elements, elem_of_list_to_set in Hx.
  - apply size_list_to_set.
Qed.

Lemma elem_of_keys l k : k ∈ map step_key l ↔ ∃ s, s ∈ l ∧ step_key s = k.
Proof. rewrite list_elem_of_fmap. naive_solver. Qed.

Lemma by_key_dom l k : NoDup (map step_key l) →
  is_Some (by_key l !! k) ↔ k ∈ map step_key l.
Proof.
  intros Hnd. rewrite elem_of_keys. split.
  - intros [s Hs]. apply by_key_inv in Hs. naive_solver.
  - intros (s & Hs & <-). exists s. by apply by_key_lookup.
Qed.

Lemma check_step_iff l s : NoDup (map step_key l) →
  (check_step (by_key l) s = Ok tt ↔
   (is_Some (def_tool_name s) ↔ component_name s = None) ∧
   (is_Some (def_tool_name s) ↔ is_Some (def_tool_version s)) ∧
   ∀ k, k ∈ dependency_keys s → k ≠ step_key s ∧ k ∈ map step_key l).
Proof.
  intros Hnd. unfold check_step.
  assert (Hdep : (bool_decide (step_key s ∈ dependency_keys s) = false ∧
      existsb (λ k, is_none (by_key l !! k)) (dependency_keys s) = false) ↔
    ∀ k, k ∈ dependency_keys s → k ≠ step_key s ∧ k ∈ map step_key l).
  { rewrite bool_decide_eq_false, <- not_true_iff_false, existsb_exists. split.
    - intros [H1 H2] k Hk. split; [by intros ->|]. apply (by_key_dom l k Hnd).
      apply is_none_false, not_true_is_false. intros Hn. apply H2.
      exists k. split; [by apply list_elem_of_In|done].
    - intros H. split; [intros Hk; by destruct (H _ Hk)|].
      intros (k & Hk & Hn). apply list_elem_of_In in Hk. destruct (H _ Hk) as [_ Hd].
      apply (by_key_dom l k Hnd), is_none_false in Hd. congruence. }
  rewrite <- Hdep. unfold check_step. rewrite !guard_seq, reject_if_Ok.
  unfold is_Some. destruct (def_tool_name s), (component_name s), (def_tool_version s);
    cbn; naive_solver.
Qed.

Lemma validate_tool_iff policy catalog s :
  _validate_tool policy catalog s = Ok tt ↔
  ∀ name version, def_tool_name s = Some name → def_tool_version s = Some version →
    (name, version) ∈ map entry_key (entries catalog) ∧
    (name, version) ∈ map tool_key (pol_allowed_tools policy) ∧
    (name, version) ∉ map tool_key (pol_denied_tools policy).
Proof.
  unfold _validate_tool. destruct (def_tool_name s) as [n|], (def_tool_version s) as [v|];
    try naive_solver.
  rewrite guard_seq, reject_if_Ok, negb_false_iff, orb_false_iff, negb_false_iff,
    !bool_decide_eq_true, bool_decide_eq_false. naive_solver.
Qed.

Lemma closed_iff l : NoDup (map step_key l) →
  (∀ s k, s ∈ l → k ∈ dependency_keys s → k ∈ map step_key l) → closed (by_key l).
Proof.
  intros Hnd H k k' (s & Hs & Hk). apply by_key_inv in Hs as [Hs _].
  apply by_key_dom; eauto.
Qed.

Lemma order_list_iff l :
  NoDup (map step_key l) → closed (by_key l) →
  ((∀ t a, (t, a) ∈ [(StepType.BUILD_CLAIMS, StepType.VALIDATE_EVIDENCE);
      (StepType.VALIDATE_CLAIMS, StepType.BUILD_CLAIMS);
      (StepType.ASSEMBLE_PACKAGE, StepType.VALIDATE_CLAIMS)] →
    ∃ s k, filter (λ s, step_type s = t) l = [s] ∧
      (list_to_set (map step_key (filter (λ s, step_type s = a) l)) : gset string)
        = {[k]} ∧ tc (depends (by_key l)) (step_key s) k) ↔
  (_require_order l (by_key l) StepType.BUILD_CLAIMS StepType.VALIDATE_EVIDENCE
     "INVALID_CLAIM_BUILD_ORDER" = Ok tt ∧
   _require_order l (by_key l) StepType.VALIDATE_CLAIMS StepType.BUILD_CLAIMS
     "INVALID_CLAIM_VALIDATION_ORDER" = Ok tt ∧
   _require_order l (by_key l) StepType.ASSEMBLE_PACKAGE StepType.VALIDATE_CLAIMS
     "INVALID_PACKAGE_ORDER" = Ok tt)).
Proof.
  intros Hnd Hcl. rewrite !require_order_iff by done. split.
  - intros H. split_and!; apply H; set_solver.
  - intros (H1 & H2 & H3) t a [[= -> ->]|[[= -> ->]|[[= -> ->]|[]%elem_of_nil]
      %elem_of_cons]%elem_of_cons]%elem_of_cons; done.
Qed.

Lemma acyclic_iff l : NoDup (map step_key l) → closed (by_key l) →
  (_reject_cycles l (by_key l) = Ok tt ↔
   ∀ k, k ∈ map step_key l → ¬ tc (depends (by_key l)) k k).
Proof.
  intros Hnd Hcl. split.
  - intros H k Hk. by eapply grounded_no_cycle, reject_cycles_sound.
  - intros H. destruct (_reject_cycles l (by_key l)) as [[]|e] eqn:E; [done|].
    apply reject_cycles_complete in E as [_ (k & Hk)]; [|done|].
    + exfalso. apply (H k); [|done]. apply (by_key_dom l k Hnd).
      inversion Hk as [? ? (s & Hs & _)|? ? ? (s & Hs & _)]; by exists s.
    + intros k Hk. by apply by_key_dom.
Qed.

Lemma validate_Ok draft policy catalog plan :
  validate draft policy catalog = Ok plan ↔
  plan_ok draft policy catalog ∧
  ∃ checksum, plan_checksum draft = Ok checksum ∧ plan = mkValidatedPlan draft checksum.
Proof.
  unfold validate. rewrite !guard_seq, !seq_Ok, !res_iter_Ok, !Forall_forall, bind_Ok,
    !negb_false_iff, !bool_decide_eq_true, <- (length_map step_key), distinct_keys_iff,
    length_map, Z.ltb_ge.
  assert (Hc : (∃ c, plan_checksum draft = Ok c ∧ Ok (mkValidatedPlan draft c) = Ok plan) ↔
    ∃ c, plan_checksum draft = Ok c ∧ plan = mkValidatedPlan draft c) by naive_solver.
  rewrite Hc. clear Hc. split.
  - intros (H1 & H2 & Hnd & H4 & H5 & H6 & Hst & Hcy & Hto & Ho1 & Ho2 & Ho3 & Hc).
    split; [|done].
    assert (Hst' := λ s Hs, proj1 (check_step_iff _ s Hnd) (Hst s Hs)).
    assert (Hcl : closed (by_key (steps draft))).
    { apply closed_iff; [done|]. intros s k Hs Hk. by apply (Hst' s Hs). }
    split; try done.
    + intros s Hs. split; apply (Hst' s Hs).
    + intros s k Hs Hk. by apply (Hst' s Hs).
    + by apply acyclic_iff.
    + intros s n v Hs. apply validate_tool_iff; auto.
    + by apply order_list_iff.
  - intros [[H1 H2 Hnd H4 H5 H6 Hta Hcl Hcy Hto Ho] Hc].
    assert (closed (by_key (steps draft))).
    { apply closed_iff; [done|]. intros s k Hs Hk. by apply (Hcl s). }
    apply order_list_iff in Ho as (Ho1 & Ho2 & Ho3); [|done..].
    split_and!; try done.
    + intros s Hs. apply check_step_iff; [done|]. destruct (Hta s Hs). split_and!; eauto.
    + by apply acyclic_iff.
    + intros s Hs. apply validate_tool_iff; eauto.
Qed.

(** C3. Plan validation is exactly its declarative contract: a draft is
    accepted if and only if it matches the catalog version and the step budget,
    has distinct keys and contiguous indexes, resolves the identity and loads
    the snapshot, depends only on its own other steps without any cycle, uses
    only catalogued tools that the policy allows and does not deny, and orders
    evidence validation, claim building, claim validation and packaging by
    dependency; the accepted plan is the draft with its checksum. *)
Theorem validate_iff draft policy catalog plan :
  validate draft policy catalog = Ok plan ↔
  plan_ok draft policy catalog ∧
  ∃ checksum, plan_checksum draft = Ok checksum ∧ plan = mkValidatedPlan draft checksum.
Proof. apply validate_Ok. Qed.
