(* ===== verification/Preflight.v ===== *)
(** What happens before a run may execute: the built-in offline policy and its
    seeding (research_agent/policies.py), the request preflight
    (research_agent/requests.py), the Tool catalog fingerprint
    (research_agent/tool_catalog.py) and the deny-by-default Tool authorization
    (research_agent/tool_policy.py). *)
From S2P Require Import Prelude PyDecimal PyText Sha256 AgentModel PlanModel.

(** * Policies *)

Definition CONTROLLED_OFFLINE_POLICY_VERSION : string := "controlled-offline-v1".
Definition CONTROLLED_OFFLINE_TOOL_NAMES : list string :=
  ["get_calculation_run"; "get_citation"; "get_corporate_actions"; "get_daily_price_history";
   "get_data_snapshot"; "get_document_chunk"; "get_document_metadata"; "get_evidence_bundle";
   "get_financial_metrics"; "get_financial_periods"; "get_latest_close"; "get_metric_detail";
   "get_metric_lineage"; "get_normalized_financial_facts"; "get_reported_financial_facts";
   "get_retrieval_run"; "get_source_document_metadata"; "list_document_versions";
   "list_snapshot_items"; "list_source_documents"; "search_document_chunks"; "verify_citation"].

#[export] Instance ResearchPolicyRecord_eq_dec : EqDecision ResearchPolicyRecord.
Proof. solve_decision. Defined.

Definition dump_tool (t : AllowedTool) : pyval :=
  VMap [("tool_name", VStr (tool_name t)); ("tool_version", VStr (tool_version t))].

(** [policy.model_dump(mode="python", exclude={"checksum"})] *)
Definition dump_policy_body (p : ResearchPolicyRecord) : list (string * pyval) :=
  [("version", VStr (pol_version p));
   ("allowed_research_types",
      VList (map (λ t, VStr (RType.value t)) (pol_allowed_research_types p)));
   ("allowed_sections",
      VList (map (λ s, VStr (RSection.value s)) (pol_allowed_sections p)));
   ("allowed_tools", VList (map dump_tool (pol_allowed_tools p)));
   ("denied_tools", VList (map dump_tool (pol_denied_tools p)));
   ("max_steps", VInt (pol_max_steps p)); ("max_tool_calls", VInt (pol_max_tool_calls p));
   ("max_calls_per_tool", VInt (pol_max_calls_per_tool p));
   ("max_retries_per_step", VInt (pol_max_retries_per_step p));
   ("max_duration_seconds", VInt (pol_max_duration_seconds p));
   ("model_token_budget", VInt (pol_model_token_budget p));
   ("require_snapshot", VBool (pol_require_snapshot p));
   ("require_as_of", VBool (pol_require_as_of p));
   ("require_evidence_for_claims", VBool (pol_require_evidence_for_claims p));
   ("allow_synthetic_evidence", VBool (pol_allow_synthetic_evidence p));
   ("allow_unknown_published_at", VBool (pol_allow_unknown_published_at p));
   ("allow_partial_completion", VBool (pol_allow_partial_completion p));
   ("reuse_partial_runs", VBool (pol_reuse_partial_runs p));
   ("allow_model_planner", VBool (pol_allow_model_planner p));
   ("allow_model_reasoner", VBool (pol_allow_model_reasoner p))].

(** The literal of [build_controlled_offline_policy], for a checksum. *)
Definition offline_policy (checksum : string) : ResearchPolicyRecord :=
  mkPolicy CONTROLLED_OFFLINE_POLICY_VERSION checksum RType.all RSection.all
    (map (λ name, mkTool name "1.0.0") CONTROLLED_OFFLINE_TOOL_NAMES) []
    12 24 5 1 120 0 true true true false false true false false false.

(** [build_controlled_offline_policy] *)
Definition build_controlled_offline_policy : res ResearchPolicyRecord :=
  let provisional := offline_policy (String.concat "" (replicate 64 "0")) in
  checksum ← stable_checksum (VMap (dump_policy_body provisional));
  Ok (offline_policy checksum).

(** The policy table, by version. *)
Abbreviation policy_db := (gmap string ResearchPolicyRecord).

Definition get_policy (db : policy_db) (version : string) : option ResearchPolicyRecord :=
  db !! version.

(** [add_policy] of the repository. *)
Definition add_policy (db : policy_db) (value : ResearchPolicyRecord) :
    res (ResearchPolicyRecord * policy_db) :=
  match get_policy db (pol_version value) with
  | Some existing =>
      if bool_decide (existing = value) then Ok (existing, db)
      else raise ValueError "POLICY_VERSION_CONFLICT"
  | None => Ok (value, <[pol_version value := value]> db)
  end.

(** [ResearchPolicyService.require] *)
Definition require_policy (db : policy_db) (version : string) : res ResearchPolicyRecord :=
  require_some (get_policy db version) ResearchPolicyError "POLICY_NOT_FOUND".

(** [ResearchPolicySeedService.seed_v1]: the policy, whether it was created,
    and the table after it. *)
Definition seed_v1 (db : policy_db) : res (ResearchPolicyRecord * bool * policy_db) :=
  expected ← build_controlled_offline_policy;
  match get_policy db (pol_version expected) with
  | Some existing =>
      reject_if (negb (bool_decide (existing = expected)))
        ResearchPolicyError "POLICY_VERSION_CONFLICT";;
      Ok (existing, false, db)
  | None =>
      created ← add_policy db expected;
      Ok (created.1, true, created.2)
  end.

(** * Requests *)

(** [domain/securities/enums.py:ResolutionStatus] *)
Module ResolutionStatus.
Inductive ResolutionStatus := RESOLVED | AMBIGUOUS | NOT_FOUND | INVALID_QUERY.
End ResolutionStatus.
#[export] Instance ResolutionStatus_eq_dec : EqDecision ResolutionStatus.ResolutionStatus.
Proof. solve_decision. Defined.

(** The fields of [SecurityResolutionResult] and [DataSnapshotRecord] that the
    preflight reads. *)
Record SecurityResolutionResult := mkResolution {
  sr_status : ResolutionStatus.ResolutionStatus; sr_normalized_query : string;
  sr_candidates : list UUID }.
Record DataSnapshotRecord := mkSnapshot {
  sn_id : UUID; sn_status : string; sn_security_id : UUID; sn_research_as_of_time : time;
  sn_checksum : option string }.

(** [_validate_requested_budgets] *)
Definition _validate_requested_budgets (command : ResearchRequestCreate)
    (policy : ResearchPolicyRecord) : res unit :=
  let requested := rq_requested_budgets command in
  res_iter (λ '(value, maximum),
      reject_if (match value with Some v => maximum <? v | None => false end)
        ResearchRequestError "REQUESTED_BUDGET_EXCEEDS_POLICY")
    [(rb_max_steps requested, pol_max_steps policy);
     (rb_max_tool_calls requested, pol_max_tool_calls policy);
     (rb_max_calls_per_tool requested, pol_max_calls_per_tool policy);
     (rb_max_retries_per_step requested, pol_max_retries_per_step policy);
     (rb_max_duration_seconds requested, pol_max_duration_seconds policy)].

Definition v_int (o : option Z) : pyval := match o with Some z => VInt z | None => VNone end.

(** [command.model_dump(mode="python")] *)
Definition dump_command (c : ResearchRequestCreate) : list (string * pyval) :=
  let b := rq_requested_budgets c in
  [("security_query", VStr (rq_security_query c));
   ("research_type", VStr (RType.value (rq_research_type c)));
   ("snapshot_id", VUuid (rq_snapshot_id c));
   ("research_as_of_time", utc_time (rq_research_as_of_time c));
   ("requested_sections",
      VList (map (λ s, VStr (RSection.value s)) (rq_requested_sections c)));
   ("policy_version", VStr (rq_policy_version c));
   ("planner_version", VStr (rq_planner_version c));
   ("requested_budgets", VMap [("max_steps", v_int (rb_max_steps b));
      ("max_tool_calls", v_int (rb_max_tool_calls b));
      ("max_calls_per_tool", v_int (rb_max_calls_per_tool b));
      ("max_retries_per_step", v_int (rb_max_retries_per_step b));
      ("max_duration_seconds", v_int (rb_max_duration_seconds b))]);
   ("research_mode", VStr (RMode.value (rq_research_mode c)))].

(** The constraints [ResearchRequestWrite] adds to those of the command. *)
Definition ResearchRequestWrite_valid (r : ResearchRequestRecord) : bool :=
  len_between 1 256 (rq_normalized_security_query r) &&
  len_between 80 80 (rq_tool_catalog_version r) &&
  Checksum_ok (rq_tool_catalog_checksum r) && Checksum_ok (rq_request_checksum r).

(** [add_request] of the repository: a fresh row, by id. *)
Definition add_request (db : gmap UUID ResearchRequestRecord) (value : ResearchRequestRecord) :
    res (ResearchRequestRecord * gmap UUID ResearchRequestRecord) :=
  reject_if (is_some (db !! rq_id value)) IntegrityError "research_requests.id";;
  Ok (value, <[rq_id value := value]> db).

(** [ResearchRequestService.create], with the collaborators of the service:
    [resolve], [get_snapshot], [require], [catalog], [id] and [now]. *)
Section RequestService.
Context (resolve : string → SecurityResolutionResult)
  (get_snapshot : UUID → option DataSnapshotRecord)
  (require : string → res ResearchPolicyRecord) (catalog : ToolCatalogSnapshot)
  (id : UUID) (now : datetime).

(** The checks of the preflight; their result is the resolved security. *)
Definition preflight (command : ResearchRequestCreate) : res (SecurityResolutionResult * UUID) :=
  let resolution := resolve (rq_security_query command) in
  security_id ← match sr_status resolution, sr_candidates resolution with
    | ResolutionStatus.RESOLVED, [security_id] => Ok security_id
    | _, _ => raise ResearchRequestError "SECURITY_NOT_RESOLVED"
    end;
  snapshot ← require_some (get_snapshot (rq_snapshot_id command))
    ResearchRequestError "SNAPSHOT_NOT_FOUND";
  reject_if (negb (bool_decide (sn_status snapshot ∈ ["COMPLETE"; "PARTIAL"])))
    ResearchRequestError "SNAPSHOT_NOT_COMPLETE";;
  reject_if (negb (bool_decide (sn_security_id snapshot = security_id)))
    ResearchRequestError "SNAPSHOT_SECURITY_MISMATCH";;
  reject_if (rq_research_as_of_time command <? sn_research_as_of_time snapshot)
    ResearchRequestError "SNAPSHOT_AFTER_RESEARCH_AS_OF";;
  policy ← require (rq_policy_version command);
  reject_if (negb (bool_decide (rq_research_type command ∈ pol_allowed_research_types policy)))
    ResearchRequestError "RESEARCH_TYPE_NOT_ALLOWED";;
  reject_if (existsb (λ s, negb (bool_decide (s ∈ pol_allowed_sections policy)))
      (rq_requested_sections command))
    ResearchRequestError "RESEARCH_SECTION_NOT_ALLOWED";;
  _validate_requested_budgets command policy;;
  Ok (resolution, security_id).

Definition create_request (db : gmap UUID ResearchRequestRecord)
    (command : ResearchRequestCreate) :
    res (ResearchRequestRecord * gmap UUID ResearchRequestRecord) :=
  checked ← preflight command;
  let request_basis := dump_command command ++
    [("normalized_security_query", VStr (sr_normalized_query checked.1));
     ("resolved_security_id", VUuid checked.2);
     ("tool_catalog_version", VStr (catalog_version catalog));
     ("tool_catalog_checksum", VStr (catalog_checksum catalog))] in
  request_checksum ← stable_checksum (VMap request_basis);
  created_at ← _aware_utc now;
  let write := mkRequest command id checked.2 (sr_normalized_query checked.1)
    (catalog_version catalog) (catalog_checksum catalog) request_checksum created_at in
  reject_if (negb (ResearchRequestWrite_valid write)) ValidationError "ResearchRequestWrite";;
  add_request db write.
End RequestService.

(** * The Tool catalog *)

#[export] Instance ToolCatalogEntry_eq_dec : EqDecision ToolCatalogEntry.
Proof. solve_decision. Defined.

Definition ToolCatalogEntry_valid (e : ToolCatalogEntry) : bool :=
  len_between 1 128 (ce_tool_name e) && len_between 1 64 (ce_tool_version e) &&
  bool_decide (ce_permission e = "READ_ONLY") && ce_read_only e && negb (ce_writes e) &&
  negb (ce_requires_network e) && Checksum_ok (ce_input_schema_version e) &&
  Checksum_ok (ce_output_schema_version e) && len_between 1 64 (ce_data_domain e) &&
  len_between 1 512 (ce_description e) && len_between 1 64 (ce_snapshot_behavior e).

(** [entry.model_dump(mode="python")] *)
Definition dump_entry (e : ToolCatalogEntry) : pyval :=
  VMap [("tool_name", VStr (ce_tool_name e)); ("tool_version", VStr (ce_tool_version e));
        ("permission", VStr (ce_permission e)); ("read_only", VBool (ce_read_only e));
        ("writes", VBool (ce_writes e)); ("requires_network", VBool (ce_requires_network e));
        ("input_schema_version", VStr (ce_input_schema_version e));
        ("output_schema_version", VStr (ce_output_schema_version e));
        ("data_domain", VStr (ce_data_domain e)); ("description", VStr (ce_description e));
        ("snapshot_behavior", VStr (ce_snapshot_behavior e))].

(** One round of the loop over [registry.list()]. *)
Definition catalog_entry (md : ToolMetadata) : res ToolCatalogEntry :=
  reject_if (negb (bool_decide (md_permission md = "READ_ONLY")) || negb (md_read_only md) ||
             md_writes md || md_requires_network md)
    ValueError "Tool Catalog includes a non-read-only or network Tool";;
  input_version ← stable_checksum (md_input_schema md);
  output_version ← stable_checksum (md_output_schema md);
  let e := mkCatalogEntry (md_name md) (md_version md) "READ_ONLY" true false false
    input_version output_version (md_domain md) (md_description md) (md_snapshot_behavior md) in
  reject_if (negb (ToolCatalogEntry_valid e)) ValidationError "ToolCatalogEntry";;
  Ok e.

(** [build_tool_catalog_snapshot] of a registry listing. *)
Definition build_tool_catalog_snapshot (registry : list ToolMetadata) : res ToolCatalogSnapshot :=
  entries ← res_map catalog_entry registry;
  checksum ← stable_checksum (VList (map dump_entry entries));
  let n := Z.of_nat (length entries) in
  reject_if (negb (between 1 256 n)) ValidationError "ToolCatalogSnapshot";;
  Ok (mkCatalog ("tool-catalog-v1:" +:+ checksum) checksum n entries).

(** * Tool authorization *)

Definition deny {A} (code : string) : res A := raise ResearchToolAuthorizationError code.

(** [ResearchToolPolicy.authorize] *)
Definition authorize (context : ControlledRunContext) (step : ResearchStepRecord)
    (catalog : ToolCatalogSnapshot) (policy : ResearchPolicyRecord) : res AuthorizedToolCall :=
  let reject b code := reject_if b ResearchToolAuthorizationError code in
  reject (negb (bool_decide (cx_tool_catalog_version context = catalog_version catalog)))
    "TOOL_CATALOG_VERSION_MISMATCH";;
  reject (negb (bool_decide (cx_policy_version context = pol_version policy)))
    "POLICY_VERSION_MISMATCH";;
  reject (negb (bool_decide (st_run_id step = cx_research_agent_run_id context)))
    "STEP_RUN_MISMATCH";;
  match def_tool_name (definition step), def_tool_version (definition step) with
  | Some name, Some version =>
      let same_name := filter (λ e, ce_tool_name e = name) (entries catalog) in
      reject (bool_decide (same_name = [])) "TOOL_NOT_IN_CATALOG";;
      entry ← require_some (head (filter (λ e, ce_tool_version e = version) same_name))
        ResearchToolAuthorizationError "TOOL_VERSION_NOT_IN_CATALOG";
      reject (negb (bool_decide (ce_permission entry = "READ_ONLY")) ||
              negb (ce_read_only entry) || ce_writes entry || ce_requires_network entry)
        "TOOL_PERMISSION_DENIED";;
      reject (bool_decide ((name, version) ∈ map tool_key (pol_denied_tools policy)))
        "TOOL_DENIED_BY_POLICY";;
      reject (negb (bool_decide ((name, version) ∈ map tool_key (pol_allowed_tools policy))))
        "TOOL_NOT_ALLOWED_BY_POLICY";;
      let payload := input_binding (definition step) in
      input_checksum ← stable_checksum (VMap payload);
      Ok (mkAuthorized name version payload input_checksum)
  | _, _ => deny "STEP_HAS_NO_TOOL"
  end.

(** * Properties *)

(** The built-in policy is the fixed record under some checksum. *)
Lemma build_policy_shape policy :
  build_controlled_offline_policy = Ok policy → ∃ c, policy = offline_policy c.
Proof.
  intros H. apply bind_Ok in H as (c & _ & [= <-]). by exists c.
Qed.

(** Canonical JSON never fails on a plan of the planner. *)
Lemma template_checksum_total v t :
  is_ok (plan_checksum (mkPlanDraft PLANNER_VERSION PLAN_VERSION v (template_steps t))) = true.
Proof.
  unfold plan_checksum, stable_checksum, canonical_json.
  set (n := _normalize _). assert (is_ok n = true) as Hn by (destruct t; vm_compute; reflexivity).
  by destruct n.
Qed.

(** The structural half of validation depends on the research type only. *)
Definition template_checks (t : ResearchType) : res unit :=
  let l := template_steps t in
  let bk := by_key l in
  res_iter (check_step bk) l;;
  _reject_cycles l bk;;
  _require_order l bk StepType.BUILD_CLAIMS StepType.VALIDATE_EVIDENCE
    "INVALID_CLAIM_BUILD_ORDER";;
  _require_order l bk StepType.VALIDATE_CLAIMS StepType.BUILD_CLAIMS
    "INVALID_CLAIM_VALIDATION_ORDER";;
  _require_order l bk StepType.ASSEMBLE_PACKAGE StepType.VALIDATE_CLAIMS
    "INVALID_PACKAGE_ORDER".

Lemma template_checks_pass t : template_checks t = Ok tt.
Proof. destruct t; vm_compute; reflexivity. Qed.

Definition offline_step (s : ResearchStepDefinition) : bool :=
  match def_tool_name s, def_tool_version s with
  | Some n, Some v => bool_decide (n ∈ CONTROLLED_OFFLINE_TOOL_NAMES) && bool_decide (v = "1.0.0")
  | _, _ => true
  end.

Lemma template_tools t s name version :
  s ∈ template_steps t → def_tool_name s = Some name → def_tool_version s = Some version →
  name ∈ CONTROLLED_OFFLINE_TOOL_NAMES ∧ version = "1.0.0".
Proof.
  intros Hs Hn Hv.
  assert (Hall : forallb offline_step (template_steps t) = true)
    by (destruct t; vm_compute; reflexivity).
  rewrite forallb_forall in Hall. apply list_elem_of_In, Hall in Hs.
  unfold offline_step in Hs. rewrite Hn, Hv in Hs. apply andb_true_iff in Hs as [H1 H2].
  by apply bool_decide_eq_true in H1, H2.
Qed.

(** C4. Every plan the planner produces under the built-in offline policy
    passes validation: for each research type, given a catalog that lists the
    policy's tools, [create_plan] yields a plan the validator accepts unchanged. *)
Theorem planner_meets_validator request policy catalog draft :
  build_controlled_offline_policy = Ok policy →
  (∀ name, name ∈ CONTROLLED_OFFLINE_TOOL_NAMES →
    (name, "1.0.0") ∈ map entry_key (entries catalog)) →
  create_plan request policy catalog = Ok draft →
  ∃ checksum, validate draft policy catalog = Ok (mkValidatedPlan draft checksum).
Proof.
  intros Hp Hcat H. apply build_policy_shape in Hp as [c ->]. unfold create_plan in H.
  rewrite !guard_seq in H. destruct H as (_ & _ & _ & _ & [= <-]).
  set (t := rq_research_type request). set (d := mkPlanDraft _ _ _ _).
  destruct (plan_checksum d) as [ck|e] eqn:E;
    [|by pose proof (template_checksum_total (catalog_version catalog) t) as Ht;
      fold t in d; unfold d in E; rewrite E in Ht].
  exists ck. unfold validate. rewrite E. cbn [steps d draft_tool_catalog_version].
  assert (Hsh := template_checks_pass t). unfold template_checks in Hsh.
  rewrite !seq_Ok in Hsh. destruct Hsh as (H1 & H2 & H3 & H4 & H5).
  rewrite !guard_seq, !seq_Ok, H1, H2, H3, H4, H5. split_and!; try done.
  { by apply negb_false_iff, bool_decide_eq_true. }
  1-5: destruct t; vm_compute; reflexivity.
  apply res_iter_Ok, Forall_forall. intros s Hs. apply validate_tool_iff.
  intros name version Hn Hv. destruct (template_tools _ _ _ _ Hs Hn Hv) as [Hname ->].
  split_and!; [by apply Hcat| |by intros ?%elem_of_nil].
  apply list_elem_of_fmap. exists (mkTool name "1.0.0"). split; [done|].
  apply list_elem_of_fmap. by exists name.
Qed.

Lemma build_policy_version policy :
  build_controlled_offline_policy = Ok policy →
  pol_version policy = CONTROLLED_OFFLINE_POLICY_VERSION.
Proof. by intros [c ->]%build_policy_shape. Qed.

(** Seeding is idempotent and never rewrites a policy version: a successful
    seed leaves the built-in policy under its version, keeps every other row as
    it was, creates at most once, and seeding again changes nothing. *)
Theorem seed_idempotent db policy created db' :
  seed_v1 db = Ok (policy, created, db') →
  build_controlled_offline_policy = Ok policy ∧
  get_policy db' CONTROLLED_OFFLINE_POLICY_VERSION = Some policy ∧
  (∀ version p, get_policy db version = Some p → get_policy db' version = Some p) ∧
  (created = true ↔ get_policy db CONTROLLED_OFFLINE_POLICY_VERSION = None) ∧
  seed_v1 db' = Ok (policy, false, db').
Proof.
  unfold seed_v1. intros H. apply bind_Ok in H as (expected & He & H).
  rewrite He. assert (Hv := build_policy_version _ He). unfold get_policy in *.
  destruct (db !! pol_version expected) as [p|] eqn:E.
  - apply guard_seq in H as [->%negb_false_iff%bool_decide_eq_true [= <- <- <-]].
    rewrite Hv in E. split_and!; try done; [by rewrite E|].
    cbn. unfold mbind, res_bind. rewrite Hv, E. by rewrite bool_decide_eq_true_2.
  - unfold add_policy, get_policy in H. rewrite E in H. cbn in H.
    apply bind_Ok in H as (r & [= <-] & [= <- <- <-]). rewrite Hv in *.
    split_and!; try done.
    + apply lookup_insert_eq.
    + intros v p Hp. destruct (decide (v = CONTROLLED_OFFLINE_POLICY_VERSION)) as [->|];
        [congruence|]. by rewrite lookup_insert_ne.
    + cbn. unfold mbind, res_bind. rewrite Hv, lookup_insert_eq.
      by rewrite bool_decide_eq_true_2.
Qed.

Lemma requested_budgets_iff command policy :
  _validate_requested_budgets command policy = Ok tt ↔
  ∀ v m, (Some v, m) ∈ [(rb_max_steps (rq_requested_budgets command), pol_max_steps policy);
     (rb_max_tool_calls (rq_requested_budgets command), pol_max_tool_calls policy);
     (rb_max_calls_per_tool (rq_requested_budgets command), pol_max_calls_per_tool policy);
     (rb_max_retries_per_step (rq_requested_budgets command), pol_max_retries_per_step policy);
     (rb_max_duration_seconds (rq_requested_budgets command), pol_max_duration_seconds policy)] →
    v <= m.
Proof.
  unfold _validate_requested_budgets. rewrite res_iter_Ok, Forall_forall. split.
  - intros H v m Hin. specialize (H _ Hin). cbn in H. apply reject_if_Ok in H. lia.
  - intros H [[v|] m] Hin; [|done]. apply reject_if_Ok. specialize (H v m Hin). lia.
Qed.

(** What the preflight establishes about a command. *)
Record preflight_ok (resolve : string → SecurityResolutionResult)
    (get_snapshot : UUID → option DataSnapshotRecord)
    (require : string → res ResearchPolicyRecord)
    (command : ResearchRequestCreate) (resolution : SecurityResolutionResult)
    (security : UUID) : Prop := {
  pf_resolution : resolve (rq_security_query command) = resolution;
  pf_resolved : sr_status resolution = ResolutionStatus.RESOLVED;
  pf_security : sr_candidates resolution = [security];
  pf_snapshot : ∃ snapshot, get_snapshot (rq_snapshot_id command) = Some snapshot ∧
    (sn_status snapshot = "COMPLETE" ∨ sn_status snapshot = "PARTIAL") ∧
    sn_security_id snapshot = security ∧
    sn_research_as_of_time snapshot <= rq_research_as_of_time command;
  pf_policy : ∃ policy, require (rq_policy_version command) = Ok policy ∧
    rq_research_type command ∈ pol_allowed_research_types policy ∧
    (∀ s, s ∈ rq_requested_sections command → s ∈ pol_allowed_sections policy) ∧
    _validate_requested_budgets command policy = Ok tt }.

Lemma preflight_iff resolve get_snapshot require command resolution security :
  preflight resolve get_snapshot require command = Ok (resolution, security) ↔
  preflight_ok resolve get_snapshot require command resolution security.
Proof.
  unfold preflight. split.
  - intros H. apply bind_Ok in H as (sec & Hsec & H).
    destruct (sr_status _) eqn:Es; try done.
    destruct (sr_candidates _) as [|c [|]] eqn:Ec; try done. injection Hsec as ->.
    apply bind_Ok in H as (snap & Hsnap%require_some_Ok & H).
    rewrite !guard_seq in H. destruct H as (H1 & H2 & H3 & H).
    apply bind_Ok in H as (policy & Hpol & H). rewrite !guard_seq, seq_Ok in H.
    destruct H as (H4 & H5 & H6 & [= <- <-]).
    apply negb_false_iff, bool_decide_eq_true in H1, H2, H4. split; try done.
    + exists snap. split_and!; [done| |done|lia]. set_solver.
    + exists policy. split_and!; try done. intros s Hs.
      apply not_true_iff_false in H5. destruct (decide (s ∈ pol_allowed_sections policy)); [done|].
      exfalso. apply H5, existsb_exists. exists s. split; [by apply list_elem_of_In|].
      by rewrite bool_decide_eq_false_2.
  - intros [<- Hst Hc (snap & Hsnap & Hss & Hsec & Has) (policy & Hpol & Ht & Hs & Hb)].
    rewrite Hst, Hc, Hsnap. cbn. apply bind_Ok. exists security. split; [done|].
    apply bind_Ok. exists snap. split; [done|].
    rewrite !guard_seq. split_and!.
    + apply negb_false_iff, bool_decide_eq_true. destruct Hss as [->| ->]; set_solver.
    + by apply negb_false_iff, bool_decide_eq_true.
    + lia.
    + apply bind_Ok. exists policy. split; [done|]. rewrite !guard_seq, seq_Ok.
      split_and!; [by apply negb_false_iff, bool_decide_eq_true| |done|done].
      apply not_true_iff_false. rewrite existsb_exists. intros (s & Hin%list_elem_of_In & Hn).
      rewrite bool_decide_eq_true_2 in Hn; [done|]. by apply Hs.
Qed.

(** A research request is created exactly when its preflight contract
    holds (one resolved security, a usable snapshot of that security taken no
    later than the research time, a known policy that allows the research type,
    the sections and the budgets), and the stored record binds the resolved
    security, the catalog fingerprint and the checksum of its whole basis. *)
Theorem create_request_iff resolve get_snapshot require catalog id now db command r db' :
  create_request resolve get_snapshot require catalog id now db command = Ok (r, db') ↔
  ∃ resolution security checksum created_at,
    preflight_ok resolve get_snapshot require command resolution security ∧
    stable_checksum (VMap (dump_command command ++
      [("normalized_security_query", VStr (sr_normalized_query resolution));
       ("resolved_security_id", VUuid security);
       ("tool_catalog_version", VStr (catalog_version catalog));
       ("tool_catalog_checksum", VStr (catalog_checksum catalog))])) = Ok checksum ∧
    _aware_utc now = Ok created_at ∧
    r = mkRequest command id security (sr_normalized_query resolution)
      (catalog_version catalog) (catalog_checksum catalog) checksum created_at ∧
    ResearchRequestWrite_valid r = true ∧ db !! id = None ∧ db' = <[id := r]> db.
Proof.
  unfold create_request. rewrite bind_Ok. split.
  - intros ([resolution security] & Hp%preflight_iff & H). cbn in H.
    apply bind_Ok in H as (ck & Hck & H). apply bind_Ok in H as (t & Ht & H).
    apply guard_seq in H as [Hv%negb_false_iff H]. unfold add_request in H.
    apply guard_seq in H as [Hid [= <- <-]]. cbn in Hid.
    exists resolution, security, ck, t. split_and!; try done.
    by destruct (db !! id).
  - intros (resolution & security & ck & t & Hp & Hck & Ht & -> & Hv & Hid & ->).
    exists (resolution, security). split; [by apply preflight_iff|]. cbn.
    apply bind_Ok. exists ck. split; [done|]. apply bind_Ok. exists t. split; [done|].
    apply guard_seq. split; [by apply negb_false_iff|]. unfold add_request.
    apply guard_seq. cbn. by rewrite Hid.
Qed.

(** The identifier of a created request. *)
Lemma created_request_id resolve get_snapshot require catalog id now db command r db' :
  create_request resolve get_snapshot require catalog id now db command = Ok (r, db') →
  rq_id r = id.
Proof.
  unfold create_request. intros (c & _ & H)%bind_Ok. apply bind_Ok in H as (ck & _ & H).
  apply bind_Ok in H as (t & _ & H). apply guard_seq in H as [_ H]. unfold add_request in H.
  by apply guard_seq in H as [_ [= <- _]].
Qed.

(** * Authorization *)

(** An entry the policy may run at all. *)
Definition entry_read_only (e : ToolCatalogEntry) : bool :=
  bool_decide (ce_permission e = "READ_ONLY") && ce_read_only e && negb (ce_writes e) &&
  negb (ce_requires_network e).

Lemma catalog_entry_Ok md e : catalog_entry md = Ok e →
  entry_key e = (md_name md, md_version md) ∧ entry_read_only e = true ∧
  ToolCatalogEntry_valid e = true ∧
  md_permission md = "READ_ONLY" ∧ md_read_only md = true ∧ md_writes md = false ∧
  md_requires_network md = false.
Proof.
  unfold catalog_entry. intros [H1 H]%guard_seq.
  apply bind_Ok in H as (i & _ & H). apply bind_Ok in H as (o & _ & H).
  apply guard_seq in H as [Hv%negb_false_iff [= <-]].
  rewrite !orb_false_iff, !negb_false_iff, bool_decide_eq_true in H1.
  destruct H1 as [[[Hp Hr] Hw] Hn]. split_and!; done.
Qed.

Lemma catalog_entries_Ok registry catalog :
  build_tool_catalog_snapshot registry = Ok catalog →
  Forall2 (λ md e, catalog_entry md = Ok e) registry (entries catalog) ∧
  stable_checksum (VList (map dump_entry (entries catalog))) = Ok (catalog_checksum catalog) ∧
  catalog_version catalog = "tool-catalog-v1:" +:+ catalog_checksum catalog ∧
  entry_count catalog = Z.of_nat (length registry) ∧ 1 <= entry_count catalog <= 256.
Proof.
  unfold build_tool_catalog_snapshot. intros H.
  apply bind_Ok in H as (es & Hes & H). apply res_map_Ok in Hes. apply bind_Ok in H as (ck & Hck & H).
  apply guard_seq in H as [Hb%negb_false_iff [= <-]]. cbn.
  rewrite (Forall2_length _ _ _ Hes). unfold between in Hb.
  split_and!; try done; lia.
Qed.

(** A catalog exists only for a registry of read-only, offline Tools: it
    fingerprints exactly the registry's names and versions, in order, its
    version is its content checksum, and one writing or networked Tool in the
    registry makes the build fail. *)
Theorem catalog_read_only registry catalog :
  build_tool_catalog_snapshot registry = Ok catalog →
  map entry_key (entries catalog) = map (λ md, (md_name md, md_version md)) registry ∧
  (∀ e, e ∈ entries catalog → entry_read_only e = true ∧ ToolCatalogEntry_valid e = true) ∧
  (∀ md, md ∈ registry → md_permission md = "READ_ONLY" ∧ md_read_only md = true ∧
     md_writes md = false ∧ md_requires_network md = false) ∧
  stable_checksum (VList (map dump_entry (entries catalog))) = Ok (catalog_checksum catalog) ∧
  catalog_version catalog = "tool-catalog-v1:" +:+ catalog_checksum catalog.
Proof.
  intros (HF & Hck & Hv & _)%catalog_entries_Ok. split_and!; try done.
  - clear Hck Hv. induction HF as [|md e l k He _ IH]; [done|]. cbn. f_equal; [|done].
    by apply catalog_entry_Ok in He as [-> _].
  - intros e He. destruct (Forall2_elem_r _ _ _ _ HF He) as (md & _ & Hm).
    apply catalog_entry_Ok in Hm. tauto.
  - intros md Hmd. destruct (Forall2_elem_l _ _ _ _ HF Hmd) as (e & _ & Hm).
    apply catalog_entry_Ok in Hm. tauto.
Qed.

(** What an authorized call satisfies. *)
Record authorized (context : ControlledRunContext) (step : ResearchStepRecord)
    (catalog : ToolCatalogSnapshot) (policy : ResearchPolicyRecord)
    (call : AuthorizedToolCall) : Prop := {
  au_catalog : cx_tool_catalog_version context = catalog_version catalog;
  au_policy : cx_policy_version context = pol_version policy;
  au_run : st_run_id step = cx_research_agent_run_id context;
  au_name : def_tool_name (definition step) = Some (ac_tool_name call);
  au_version : def_tool_version (definition step) = Some (ac_tool_version call);
  au_entry : ∃ e, head (filter (λ e, entry_key e = (ac_tool_name call, ac_tool_version call))
    (entries catalog)) = Some e ∧ entry_read_only e = true;
  au_allowed : (ac_tool_name call, ac_tool_version call) ∈ map tool_key (pol_allowed_tools policy);
  au_denied : (ac_tool_name call, ac_tool_version call) ∉ map tool_key (pol_denied_tools policy);
  au_payload : ac_payload call = input_binding (definition step);
  au_checksum : stable_checksum (VMap (ac_payload call)) = Ok (ac_input_checksum call) }.

Lemma filter_entry_key name version (l : list ToolCatalogEntry) :
  filter (λ e, ce_tool_version e = version) (filter (λ e, ce_tool_name e = name) l) =
  filter (λ e, entry_key e = (name, version)) l.
Proof.
  rewrite list_filter_filter. apply list_filter_iff. intros e. unfold entry_key. naive_solver.
Qed.

Lemma authorize_Ok context step catalog policy call :
  authorize context step catalog policy = Ok call ↔ authorized context step catalog policy call.
Proof.
  unfold authorize. rewrite !guard_seq, !negb_false_iff, !bool_decide_eq_true.
  destruct (def_tool_name (definition step)) as [n|] eqn:En;
    [|split; [by intros (_ & _ & _ & ?)|intros []; congruence]].
  destruct (def_tool_version (definition step)) as [v|] eqn:Ev;
    [|split; [by intros (_ & _ & _ & ?)|intros []; congruence]].
  rewrite guard_seq, filter_entry_key. split.
  - intros (H1 & H2 & H3 & _ & H). apply bind_Ok in H as (e & He%require_some_Ok & H).
    rewrite !guard_seq in H. destruct H as (Hro & Hd & Ha & H).
    apply bind_Ok in H as (ck & Hck & [= <-]).
    apply bool_decide_eq_false in Hd. apply negb_false_iff, bool_decide_eq_true in Ha.
    split; try done; cbn. exists e. split; [done|].
    unfold entry_read_only. by destruct (bool_decide _), (ce_read_only e), (ce_writes e),
      (ce_requires_network e).
  - intros [H1 H2 H3 Hn Hv (e & He & Hro) Ha Hd Hp Hck].
    rewrite En in Hn. rewrite Ev in Hv. simplify_eq. split_and!; try done.
    + apply bool_decide_eq_false. intros Hnil.
      rewrite <- filter_entry_key, Hnil in He. done.
    + apply bind_Ok. exists e. split; [by rewrite He|]. rewrite !guard_seq.
      apply andb_true_iff in Hro as [Hro Hq]. split_and!.
      * by destruct (bool_decide _), (ce_read_only e), (ce_writes e), (ce_requires_network e).
      * by apply bool_decide_eq_false.
      * by apply negb_false_iff, bool_decide_eq_true.
      * apply bind_Ok. exists (ac_input_checksum call). rewrite <- Hp. by destruct call.
Qed.

(** Authorization is deny-by-default: a call is authorized if and only if
    the run's catalog and policy versions match, the step belongs to the run
    and names a Tool, the catalog lists that exact version as read-only and
    offline, and the policy allows it and does not deny it; the call then
    carries the step's own payload and its checksum. *)
Theorem authorize_iff context step catalog policy call :
  authorize context step catalog policy = Ok call ↔ authorized context step catalog policy call.
Proof. apply authorize_Ok. Qed.

(** A step of a validated plan is always authorized: under the policy the
    plan was validated against and the registry's own catalog, every Tool step
    of the plan in a run with the same versions is authorized, whenever its
    payload has a checksum. *)
Theorem validated_steps_authorized registry catalog policy draft plan context step :
  build_tool_catalog_snapshot registry = Ok catalog →
  validate draft policy catalog = Ok plan →
  definition step ∈ steps plan → is_Some (def_tool_name (definition step)) →
  cx_tool_catalog_version context = catalog_version catalog →
  cx_policy_version context = pol_version policy →
  st_run_id step = cx_research_agent_run_id context →
  is_ok (stable_checksum (VMap (input_binding (definition step)))) = true →
  is_ok (authorize context step catalog policy) = true.
Proof.
  intros Hc Hval Hin [n Hn] H1 H2 H3 Hck. apply validate_Ok in Hval as [Hok (ck & _ & ->)].
  cbn in Hin. destruct (ok_target _ _ _ Hok _ Hin) as [_ Hv].
  destruct (proj1 Hv (ex_intro _ n Hn)) as [v Hv'].
  destruct (ok_tools _ _ _ Hok _ n v Hin Hn Hv') as (Hcat & Hall & Hden).
  destruct (stable_checksum _) as [c|] eqn:Ec; [|done].
  assert (Hau : authorize context step catalog policy =
      Ok (mkAuthorized n v (input_binding (definition step)) c)); [|by rewrite Hau].
  apply authorize_Ok. split; try done.
  apply list_elem_of_fmap in Hcat as (e & He & Hel).
  destruct (head (filter (λ e, entry_key e = (n, v)) (entries catalog))) as [e'|] eqn:Eh.
  - exists e'. split; [done|].
    assert (He' : e' ∈ filter (λ e, entry_key e = (n, v)) (entries catalog)).
    { destruct (filter _ _) as [|x l]; [done|]. injection Eh as ->. left. }
    apply list_elem_of_filter in He' as [_ He'].
    destruct (catalog_entries_Ok _ _ Hc) as (HF & _).
    destruct (Forall2_elem_r _ _ _ _ HF He') as (md & _ & Hm). apply catalog_entry_Ok in Hm. tauto.
  - assert (He' : e ∈ filter (λ e, entry_key e = (n, v)) (entries catalog)).
    { apply list_elem_of_filter. done. }
    destruct (filter _ _); [by apply elem_of_nil in He'|done].
Qed.

(** * Examples *)

Module PreflightExamples.

Definition policy : ResearchPolicyRecord :=
  offline_policy "8837fc71e6c98e32ce72cee5d20bcfc7bcff5fc5de06747d83a24b19e3e014dd".
Definition metadata (name : string) : ToolMetadata :=
  mkMetadata name "1.0.0" "READ_ONLY" true false false (VMap []) (VMap []) "research" name
    "SNAPSHOT_REQUIRED".
Definition registry : list ToolMetadata :=
  map metadata ["get_data_snapshot"; "get_latest_close"; "get_financial_metrics";
    "get_metric_detail"; "get_metric_lineage"].
Definition empty_schema : string :=
  "44136fa355b3678a1146ad16f7e8649e94fb4fc21fe77e8310c060f61caaff8a".
Definition entry (name : string) : ToolCatalogEntry :=
  mkCatalogEntry name "1.0.0" "READ_ONLY" true false false empty_schema empty_schema
    "research" name "SNAPSHOT_REQUIRED".
Definition catalog_ck : string :=
  "812fc280b7a3be397cf6baa99b4d158a23ca4041545415c31fd40f1ee5d2e7d5".
Definition catalog : ToolCatalogSnapshot :=
  mkCatalog ("tool-catalog-v1:" +:+ catalog_ck) catalog_ck 5 (map (λ md, entry (md_name md)) registry).

Lemma policy_built : build_controlled_offline_policy = Ok policy.
Proof. vm_compute. reflexivity. Qed.

Lemma catalog_built : build_tool_catalog_snapshot registry = Ok catalog.
Proof. vm_compute. reflexivity. Qed.

(** A catalog with every Tool of the built-in policy. *)
Definition full_catalog : ToolCatalogSnapshot :=
  mkCatalog (catalog_version catalog) (catalog_checksum catalog) 22
    (map entry CONTROLLED_OFFLINE_TOOL_NAMES).
Definition command : ResearchRequestCreate :=
  mkRequestCreate "AAPL" RType.VALUATION_SNAPSHOT (mkUUID "snap") 100 [RSection.VALUATION_SNAPSHOT]
    CONTROLLED_OFFLINE_POLICY_VERSION PLANNER_VERSION
    (mkRequested None None None None None) RMode.REAL_RESEARCH.
Definition request : ResearchRequestRecord :=
  mkRequest command (mkUUID "req") (mkUUID "sec") "aapl" (catalog_version catalog)
    (catalog_checksum catalog) "ck" 100.
Definition draft : ResearchPlanDraft :=
  mkPlanDraft PLANNER_VERSION PLAN_VERSION (catalog_version catalog)
    (template_steps RType.VALUATION_SNAPSHOT).
Definition plan : ValidatedResearchPlan :=
  mkValidatedPlan draft 
    "4876c565099427f7b09419cb95e6d228f404c310845ddb234da0d0a1932d3cb8".
Definition context : ControlledRunContext :=
  mkContext (mkUUID "sec") (mkUUID "snap") 100 (mkUUID "run") (mkUUID "req")
    (pol_version policy) (catalog_version catalog).
Definition step : ResearchStepRecord :=
  mkStep (mkUUID "st") (mkUUID "run") (mkUUID "plan")
    (_tool_step 1 "get_data_snapshot" StepType.LOAD_SNAPSHOT ["resolve_security"])
    StepStatus.PENDING None 100 100 None.

Lemma catalog_lists name : name ∈ CONTROLLED_OFFLINE_TOOL_NAMES →
  (name, "1.0.0") ∈ map entry_key (entries full_catalog).
Proof.
  intros H. cbn [entries full_catalog]. rewrite map_map.
  apply list_elem_of_fmap. by exists name.
Qed.

End PreflightExamples.

Import PreflightExamples.

Lemma planner_meets_validator_witness :
  ∃ checksum, validate draft policy full_catalog = Ok (mkValidatedPlan draft checksum).
Proof.
  apply (planner_meets_validator request policy full_catalog draft policy_built catalog_lists).
  vm_compute. reflexivity.
Defined.

Lemma seed_idempotent_witness :
  seed_v1 {[CONTROLLED_OFFLINE_POLICY_VERSION := policy]} =
  Ok (policy, false, {[CONTROLLED_OFFLINE_POLICY_VERSION := policy]}).
Proof.
  apply (seed_idempotent ∅ policy true {[CONTROLLED_OFFLINE_POLICY_VERSION := policy]}).
  vm_compute. reflexivity.
Defined.

Lemma catalog_read_only_witness :
  map entry_key (entries catalog) = map (λ md, (md_name md, md_version md)) registry.
Proof. apply (catalog_read_only registry catalog catalog_built). Defined.

Lemma validated_steps_authorized_witness :
  is_ok (authorize context step catalog policy) = true.
Proof.
  refine (validated_steps_authorized registry catalog policy draft plan context step
    catalog_built _ _ _ eq_refl eq_refl eq_refl _); [vm_compute; reflexivity| | |vm_compute; reflexivity].
  - apply elem_of_cons. right. left.
  - by exists "get_data_snapshot".
Defined.
