(* ===== verification/ToolRun.v ===== *)
(** One controlled Tool call: binding the run's scope into the input and
    checking it in the output (research_agent/tool_context.py), the redacted
    invocation record (research_agent/invocations.py), the observation built
    from a validated output (research_agent/observations.py) and the bounded
    executor that composes them (research_agent/tool_execution.py). *)
From S2P Require Import Prelude PyDecimal PyText Sha256 AgentModel RunControl Preflight.
From Stdlib Require Import Ascii.

(** * Text *)

Definition byte_str (n : N) : string := String (ascii_of_N n) "".

(** The code points of a UTF-8 string, each with its continuation bytes. *)
Definition is_continuation : ascii → bool := in_range 128 191.
Fixpoint chars (s : string) : list string :=
  match s with
  | EmptyString => []
  | String c s =>
      match chars s with
      | String d r :: rest =>
          if is_continuation d then String c (String d r) :: rest
          else String c "" :: String d r :: rest
      | l => String c "" :: l
      end
  end.

Definition utf8 (bytes : list N) : string := String.concat "" (map byte_str bytes).

(** The code points outside ASCII whose case folding holds ASCII letters. *)
Definition FOLD_TABLE : list (string * string) :=
  [(utf8 [195; 159], "ss"); (utf8 [196; 176], "i" +:+ utf8 [204; 135]);
   (utf8 [197; 137], utf8 [202; 188] +:+ "n"); (utf8 [197; 191], "s");
   (utf8 [199; 176], "j" +:+ utf8 [204; 140]); (utf8 [225; 186; 150], "h" +:+ utf8 [204; 177]);
   (utf8 [225; 186; 151], "t" +:+ utf8 [204; 136]); (utf8 [225; 186; 152], "w" +:+ utf8 [204; 138]);
   (utf8 [225; 186; 153], "y" +:+ utf8 [204; 138]); (utf8 [225; 186; 154], "a" +:+ utf8 [202; 190]);
   (utf8 [225; 186; 158], "ss"); (utf8 [226; 132; 170], "k"); (utf8 [239; 172; 128], "ff");
   (utf8 [239; 172; 129], "fi"); (utf8 [239; 172; 130], "fl"); (utf8 [239; 172; 131], "ffi");
   (utf8 [239; 172; 132], "ffl"); (utf8 [239; 172; 133], "st"); (utf8 [239; 172; 134], "st")]%N.

(** [s.casefold()], up to code points that fold to other non-ASCII ones: these
    are kept, which no comparison with an ASCII word can tell. *)
Definition casefold (s : string) : string :=
  String.concat "" (map (λ c, default (str_map ascii_lower c) (dict_get FOLD_TABLE c)) (chars s)).

(** * Run scope: [tool_context.py] *)

Definition _CONTROLLED_KEYS : list string :=
  ["security_id"; "snapshot_id"; "research_as_of_time"; "research_agent_run_id";
   "research_request_id"; "policy_version"; "tool_catalog_version"].
Definition _FORBIDDEN_KEYS : list string :=
  ["budget"; "command"; "env"; "environment"; "file"; "file_path"; "model"; "path"; "provider";
   "shell"; "shell_command"; "sql"; "uri"; "url"].
Definition _SECURITY_AND_SNAPSHOT_TOOLS : list string :=
  ["get_corporate_actions"; "get_daily_price_history"; "get_financial_metrics";
   "get_financial_periods"; "get_latest_close"; "get_metric_detail";
   "get_normalized_financial_facts"; "get_reported_financial_facts";
   "get_source_document_metadata"; "list_document_versions"; "list_source_documents";
   "search_document_chunks"].
Definition _SNAPSHOT_TOOLS : list string :=
  ["get_data_snapshot"; "list_snapshot_items"; "verify_citation"].

(** [value > context.research_as_of_time] on a datetime; comparing a naive one
    with an aware one is a [TypeError]. *)
Definition after_as_of (t : datetime) (context : ControlledRunContext) : res bool :=
  us ← require_some (to_utc t) TypeError "can't compare offset-naive and offset-aware datetimes";
  Ok (cx_research_as_of_time context <? us).

Definition reject_future (t : datetime) (context : ControlledRunContext) : res unit :=
  future ← after_as_of t context;
  reject_if future ResearchToolContextError "FUTURE_DATA".

(** [_validate_untrusted] *)
Fixpoint _validate_untrusted (context : ControlledRunContext) (value : pyval) : res unit :=
  match value with
  | VTime t => reject_future t context
  | VMap l =>
      res_iter (λ kv,
        let key := casefold kv.1 in
        reject_if (bool_decide (key ∈ _CONTROLLED_KEYS))
          ResearchToolContextError "CONTROLLED_CONTEXT_OVERRIDE";;
        reject_if (bool_decide (key ∈ _FORBIDDEN_KEYS))
          ResearchToolContextError "FORBIDDEN_TOOL_ARGUMENT";;
        _validate_untrusted context kv.2) l
  | VList l => res_iter (_validate_untrusted context) l
  | _ => Ok tt
  end.

(** One round of the loop over [arguments.items()]. *)
Definition bind_argument (bound : list (string * pyval)) (kv : string * pyval) :
    res (list (string * pyval)) :=
  reject_if (match dict_get bound kv.1 with Some v => negb (py_eqb kv.2 v) | None => false end)
    ResearchToolContextError "PLAN_BINDING_EXPANSION";;
  Ok (dict_set bound kv.1 kv.2).

(** The scope keys set last. *)
Definition bind_scope (context : ControlledRunContext) (tool : string)
    (bound : list (string * pyval)) : list (string * pyval) :=
  if bool_decide (tool ∈ _SECURITY_AND_SNAPSHOT_TOOLS) then
    dict_set (dict_set bound "security_id" (VUuid (cx_security_id context)))
      "snapshot_id" (VUuid (cx_snapshot_id context))
  else if bool_decide (tool ∈ _SNAPSHOT_TOOLS) then
    dict_set bound "snapshot_id" (VUuid (cx_snapshot_id context))
  else bound.

Fixpoint bind_arguments (bound : list (string * pyval)) (arguments : list (string * pyval)) :
    res (list (string * pyval)) :=
  match arguments with
  | [] => Ok bound
  | kv :: arguments => bound' ← bind_argument bound kv; bind_arguments bound' arguments
  end.

(** [bind_tool_input] *)
Definition bind_tool_input (context : ControlledRunContext) (authorized_call : AuthorizedToolCall)
    (arguments : list (string * pyval)) : res (list (string * pyval)) :=
  _validate_untrusted context (VMap (ac_payload authorized_call));;
  _validate_untrusted context (VMap arguments);;
  bound ← bind_arguments (ac_payload authorized_call) arguments;
  Ok (bind_scope context (ac_tool_name authorized_call) bound).

(** The checks of [_validate_result] on one item of a mapping. *)
Definition check_scope_item (context : ControlledRunContext) (exact_snapshot_scope : bool)
    (key : string) (item : pyval) : res unit :=
  let mismatch name expected code :=
    reject_if (bool_decide (key = name) && negb (py_eqb item expected))
      ResearchToolContextError code in
  mismatch "security_id" (VUuid (cx_security_id context)) "SECURITY_SCOPE_MISMATCH";;
  mismatch "snapshot_id" (VUuid (cx_snapshot_id context)) "SNAPSHOT_SCOPE_MISMATCH";;
  mismatch "research_agent_run_id" (VUuid (cx_research_agent_run_id context)) "RUN_SCOPE_MISMATCH";;
  mismatch "research_request_id" (VUuid (cx_research_request_id context)) "REQUEST_SCOPE_MISMATCH";;
  reject_if (bool_decide (key = "research_as_of_time") &&
      negb (py_eqb item (utc_time (cx_research_as_of_time context))) && negb exact_snapshot_scope)
    ResearchToolContextError "AS_OF_SCOPE_MISMATCH";;
  match item with
  | VTime t => if bool_decide (key = "published_at") then reject_future t context else Ok tt
  | _ => Ok tt
  end.

Definition exact_scope (context : ControlledRunContext) (l : list (string * pyval)) : bool :=
  py_eqb (default VNone (dict_get l "snapshot_id")) (VUuid (cx_snapshot_id context)) &&
  match dict_get l "research_as_of_time" with None | Some VNone => true | _ => false end.

(** [_validate_result] on a dumped value. *)
Fixpoint _validate_result (context : ControlledRunContext) (value : pyval) : res unit :=
  match value with
  | VMap l =>
      res_iter (λ kv, check_scope_item context (exact_scope context l) kv.1 kv.2;;
                      _validate_result context kv.2) l
  | VList l => res_iter (_validate_result context) l
  | _ => Ok tt
  end.

(** [validate_output_scope] *)
Definition validate_output_scope (context : ControlledRunContext) (result : pyval) : res unit :=
  _validate_result context result.

(** * Invocation records: [invocations.py] *)

Definition _MAX_INPUT_BYTES : Z := 8192.
Definition _SENSITIVE_KEY_PARTS : list string :=
  ["api_key"; "authorization"; "cookie"; "credential"; "header"; "password"; "path"; "secret";
   "token"].
Definition _TERMINAL_INVOCATIONS : list ToolInvocationStatus :=
  [InvStatus.PASS; InvStatus.PARTIAL; InvStatus.BLOCKED; InvStatus.FAIL].

(** [part in s] *)
Fixpoint str_contains (part s : string) : bool :=
  String.prefix part s ||
  match s with EmptyString => false | String _ s => str_contains part s end.

Definition underscores (s : string) : string :=
  str_map (λ c, if bool_decide (c = "-"%char) then "_"%char else c) s.
Definition sensitive_key (key : string) : bool :=
  existsb (λ part, str_contains part (underscores (casefold key))) _SENSITIVE_KEY_PARTS.

(** [_redact] *)
Fixpoint _redact (value : pyval) : pyval :=
  match value with
  | VMap l =>
      VMap (map (λ kv, (kv.1, if sensitive_key kv.1 then VStr "[REDACTED]" else _redact kv.2)) l)
  | VList l => VList (map _redact l)
  | v => v
  end.

(** [json.loads(canonical_json(_))]: the plain JSON value, its keys in sorted
    order. *)
Fixpoint of_json (j : json) : pyval :=
  match j with
  | JNull => VNone
  | JBool b => VBool b
  | JInt z => VInt z
  | JStr s => VStr s
  | JList l => VList (map of_json l)
  | JObj l => VMap (sort_key fst (map (λ kv, (kv.1, of_json kv.2)) l))
  end.
Definition json_round (value : pyval) : res pyval := of_json <$> _normalize value.

(** [len(s.encode("utf-8"))] *)
Definition byte_len (s : string) : Z := Z.of_nat (String.length s).

(** [redact_tool_payload] *)
Definition redact_tool_payload (payload : list (string * pyval)) : res pyval :=
  encoded ← canonical_json (VMap payload);
  reject_if (_MAX_INPUT_BYTES <? byte_len encoded)
    ResearchInvocationError "INVOCATION_INPUT_TOO_LARGE";;
  json_round (_redact (VMap payload)).

(** [start_invocation] *)
Definition start_invocation (invocation_id : UUID) (context : ControlledRunContext)
    (step_id : UUID) (authorized_call : AuthorizedToolCall) (bound_input : list (string * pyval))
    (attempt_number : Z) (started_at : time) : res ResearchToolInvocationWrite :=
  reject_if (negb (bool_decide (attempt_number ∈ [1; 2])))
    ResearchInvocationError "INVALID_ATTEMPT_NUMBER";;
  redacted ← redact_tool_payload bound_input;
  input_checksum ← stable_checksum (VMap bound_input);
  Ok (mkInvocation invocation_id (cx_research_agent_run_id context) step_id attempt_number
        (ac_tool_name authorized_call) (ac_tool_version authorized_call) InvStatus.RUNNING
        redacted input_checksum started_at).

(** [_safe_message]: control characters and runs of white space become single
    spaces, and at most 256 characters are kept. *)
Definition WHITESPACE : list string :=
  [" "; utf8 [194; 133]; utf8 [194; 160]; utf8 [225; 154; 128]; utf8 [226; 128; 128];
   utf8 [226; 128; 129]; utf8 [226; 128; 130]; utf8 [226; 128; 131]; utf8 [226; 128; 132];
   utf8 [226; 128; 133]; utf8 [226; 128; 134]; utf8 [226; 128; 135]; utf8 [226; 128; 136];
   utf8 [226; 128; 137]; utf8 [226; 128; 138]; utf8 [226; 128; 168]; utf8 [226; 128; 169];
   utf8 [226; 128; 175]; utf8 [226; 129; 159]; utf8 [227; 128; 128]]%N.
Definition is_control (c : ascii) : bool := in_range 0 31 c || in_range 127 127 c.
Definition is_space (c : string) : bool :=
  bool_decide (c ∈ WHITESPACE) || str_forallb is_control c.

(** The words between white space. *)
Fixpoint words (cur : string) (cs : list string) : list string :=
  match cs with
  | [] => if bool_decide (cur = "") then [] else [cur]
  | c :: cs =>
      if is_space c then (if bool_decide (cur = "") then words "" cs else cur :: words "" cs)
      else words (cur +:+ c) cs
  end.
Definition _safe_message (value : option string) : option string :=
  value ← value;
  Some (String.concat "" (take 256 (chars (str_join " " (words "" (chars value)))))).

Definition successful (s : ToolInvocationStatus) : bool :=
  bool_decide (s ∈ [InvStatus.PASS; InvStatus.PARTIAL]).

(** [complete_invocation] *)
Definition complete_invocation (invocation : ResearchToolInvocationWrite)
    (status : ToolInvocationStatus) (completed_at : time) (output : option pyval)
    (error_code safe_error_message : option string) : res ResearchToolInvocationCompletion :=
  reject_if (negb (bool_decide (status ∈ _TERMINAL_INVOCATIONS)))
    ResearchInvocationError "INVOCATION_NOT_TERMINAL";;
  reject_if (completed_at <? iv_started_at invocation)
    ResearchInvocationError "INVALID_COMPLETION_TIME";;
  reject_if (successful status && (is_none output || is_some error_code))
    ResearchInvocationError "INVALID_COMPLETION_SHAPE";;
  reject_if (negb (successful status) && (is_some output || is_none error_code))
    ResearchInvocationError "INVALID_COMPLETION_SHAPE";;
  output_checksum ← match output with
    | Some v => Some <$> stable_checksum v
    | None => Ok None
    end;
  reject_if (negb (opt_forallb Code_ok error_code)) ValidationError "error_code";;
  Ok (mkCompletion status output_checksum error_code (_safe_message safe_error_message) completed_at).

(** * Observations: [observations.py] *)

Definition _MAX_OBSERVATION_BYTES : Z := 262144.

(** The [try] of [build]: type and value errors of the encoding become one code. *)
Definition encode_output (payload : list (string * pyval)) : res string :=
  match canonical_json (VMap payload) with
  | Ok s => Ok s
  | Raise _ => raise ResearchObservationError "INVALID_OBSERVATION_OUTPUT"
  end.

(** [ResearchObservationBuilder.build] *)
Definition build_observation (observation_id : UUID) (context : ControlledRunContext)
    (research_step_id invocation_id : UUID) (observation_type : ObservationType)
    (status : ObservationStatus) (schema_version : string) (payload : list (string * pyval))
    (synthetic_status : SyntheticStatus) (warnings : list string) (created_at : time) :
    res ResearchObservationWrite :=
  reject_if (bool_decide (observation_type = ObsType.TOOL_ERROR) &&
             negb (bool_decide (status = ObsStatus.FAIL)))
    ResearchObservationError "INVALID_TOOL_ERROR_OBSERVATION";;
  reject_if (bool_decide (observation_type = ObsType.BLOCKED_CAPABILITY) &&
             (negb (bool_decide (status = ObsStatus.BLOCKED)) ||
              negb (dict_has payload "capability_code")))
    ResearchObservationError "INVALID_BLOCKED_OBSERVATION";;
  serialized ← encode_output payload;
  reject_if (_MAX_OBSERVATION_BYTES <? byte_len serialized)
    ResearchObservationError "OBSERVATION_OUTPUT_TOO_LARGE";;
  normalized ← json_round (VMap payload);
  output_checksum ← stable_checksum (VMap payload);
  reject_if (negb (Version_ok schema_version) || (100 <? Z.of_nat (length warnings)) ||
             negb (forallb Code_ok warnings))
    ResearchObservationError "INVALID_OBSERVATION_OUTPUT";;
  match normalized with
  | VMap l =>
      Ok (mkObservation observation_id (cx_research_agent_run_id context) research_step_id
            (Some invocation_id) observation_type status schema_version l output_checksum
            (cx_security_id context) (cx_snapshot_id context) (cx_research_as_of_time context)
            synthetic_status warnings created_at)
  | _ => raise ResearchObservationError "INVALID_OBSERVATION_OUTPUT"
  end.

(** * The executor: [tool_execution.py] *)

Definition _BLOCKED_CODES : list string :=
  ["BLOCKED"; "FUTURE_DATA"; "INVALID_CITATION"; "INVALID_QUERY"; "NOT_FOUND";
   "PERMISSION_DENIED"; "SCHEMA_ERROR"].

(** [_registry_error_code] *)
Definition _registry_error_code (code : string) : string :=
  if bool_decide (code ∈ ["INVALID_INPUT"; "INVALID_OUTPUT"]) then "SCHEMA_ERROR"
  else if bool_decide (code = "TOOL_NOT_FOUND") then "PERMISSION_DENIED"
  else "TOOL_EXECUTION_FAILED".

(** [_observation_status] *)
Definition _observation_status (value : option pyval) : ObservationStatus :=
  match value with
  | Some (VStr s) =>
      default ObsStatus.PASS (find (λ o, bool_decide (ObsStatus.value o = s)) ObsStatus.all)
  | _ => ObsStatus.PASS
  end.

(** [_failed_result] *)
Definition _failed_result (invocation : ResearchToolInvocationWrite) (budget : RunBudget)
    (error_code : string) (now : time) : res ToolExecutionResult :=
  let blocked := bool_decide (error_code ∈ _BLOCKED_CODES) in
  completion ← complete_invocation invocation
    (if blocked then InvStatus.BLOCKED else InvStatus.FAIL) now None
    (Some error_code) (Some error_code);
  Ok (mkToolResult (if blocked then ObsStatus.BLOCKED else ObsStatus.FAIL)
        (mkInvRecord invocation (Some completion)) None budget false).

(** The collaborators of an executor: the registry's answer to the n-th call
    (the dumped output, or the exception it raises), the n-th identifier and
    the n-th reading of the clock. *)
Record tool_env := mkEnv {
  registry_execute : nat → string → string → list (string * pyval) → res (list (string * pyval));
  id_factory : nat → UUID;
  clock : nat → time }.

(** One round of the [while True] loop, the attempts before it being [n]. *)
Section Executor.
Context (env : tool_env) (context : ControlledRunContext) (step : ResearchStepRecord)
  (authorized : AuthorizedToolCall) (bound : list (string * pyval))
  (observation_type : ObservationType) (synthetic_status : SyntheticStatus).

(** The [try] body: the Tool's output, within the run's scope. *)
Definition call_tool (n : nat) : res (list (string * pyval)) :=
  output ← registry_execute env n (ac_tool_name authorized) (ac_tool_version authorized) bound;
  validate_output_scope context (VMap output);;
  Ok output.

(** What follows a call that passed. *)
Definition passed_result (n : nat) (invocation : ResearchToolInvocationWrite)
    (budget : RunBudget) (payload : list (string * pyval)) : res ToolExecutionResult :=
  let observation_status := _observation_status (dict_get payload "status") in
  completion ← complete_invocation invocation InvStatus.PASS (clock env (n + 1))
    (Some (VMap payload)) None None;
  observation ← build_observation (id_factory env (n + 1)) context (st_id step)
    (iv_id invocation) observation_type observation_status "observation-v1" payload
    synthetic_status [] (clock env (n + 2));
  Ok (mkToolResult observation_status (mkInvRecord invocation (Some completion))
        (Some observation) budget false).

Fixpoint attempt_loop (fuel : nat) (n : nat) (budget : RunBudget) : res ToolExecutionResult :=
  match fuel with
  | O => raise RecursionError "attempt_loop"
  | S fuel =>
      invocation ← start_invocation (id_factory env n) context (st_id step) authorized bound
        (Z.of_nat n + 1) (clock env n);
      let failed budget code := _failed_result invocation budget code (clock env (n + 1)) in
      match call_tool n with
      | Ok payload => passed_result n invocation budget payload
      | Raise e =>
          match exn_class e with
          | ResearchToolExecutionError =>
              if bool_decide (exn_code e = "TRANSIENT_INTERNAL") && (n =? 0)%nat then
                match consume_retry budget (step_key (definition step)) with
                | Raise e' => failed budget (exn_code e')
                | Ok budget =>
                    match consume_tool_call budget (ac_tool_name authorized) with
                    | Raise e' => failed budget (exn_code e')
                    | Ok budget => attempt_loop fuel (S n) budget
                    end
                end
              else failed budget (exn_code e)
          | ToolRegistryError => failed budget (_registry_error_code (exn_code e))
          | ResearchToolContextError => failed budget (exn_code e)
          | _ => Raise e
          end
      end
  end.
End Executor.

(** The [except] of [execute] around the guards. *)
Definition guard_errors {A} (m : res A) : res A :=
  match m with
  | Raise e =>
      match exn_class e with
      | ResearchBudgetError | ResearchToolAuthorizationError | ResearchToolContextError =>
          raise ResearchToolExecutionError (exn_code e)
      | _ => Raise e
      end
  | _ => m
  end.

(** [ResearchToolExecutor.execute]: two rounds of the loop are enough. *)
Definition execute (env : tool_env) (context : ControlledRunContext) (step : ResearchStepRecord)
    (catalog : ToolCatalogSnapshot) (policy : ResearchPolicyRecord) (budget : RunBudget)
    (arguments : list (string * pyval)) (observation_type : ObservationType)
    (synthetic_status : SyntheticStatus) : res ToolExecutionResult :=
  checked ← guard_errors (
    authorized ← authorize context step catalog policy;
    bound ← bind_tool_input context authorized arguments;
    budget ← consume_tool_call budget (ac_tool_name authorized);
    Ok (authorized, bound, budget));
  let '(authorized, bound, budget) := checked in
  attempt_loop env context step authorized bound observation_type synthetic_status 2 0 budget.

(** * Values at any depth *)

Inductive occurs (y : pyval) : pyval → Prop :=
| occurs_here : occurs y y
| occurs_list l x : x ∈ l → occurs y x → occurs y (VList l)
| occurs_map l k x : (k, x) ∈ l → occurs y x → occurs y (VMap l).

(** Somewhere in [v] a mapping has the item [k: x]. *)
Definition item_at (k : string) (x v : pyval) : Prop := ∃ l, occurs (VMap l) v ∧ (k, x) ∈ l.

Lemma occurs_list_iff y l : (∀ l', y ≠ VList l') →
  occurs y (VList l) ↔ ∃ x, x ∈ l ∧ occurs y x.
Proof.
  intros Hy. split; [|intros (x & ? & ?); by eapply occurs_list].
  inversion 1; subst; [by destruct (Hy l)|eauto].
Qed.

Lemma occurs_map_iff y l :
  occurs y (VMap l) ↔ y = VMap l ∨ ∃ k x, (k, x) ∈ l ∧ occurs y x.
Proof.
  split; [inversion 1; subst; eauto|].
  intros [->|(k & x & ? & ?)]; [constructor|by eapply occurs_map].
Qed.

Lemma item_at_list k x l : item_at k x (VList l) ↔ ∃ y, y ∈ l ∧ item_at k x y.
Proof.
  unfold item_at. split.
  - intros (m & Hm & Hk). apply occurs_list_iff in Hm; [|done]. naive_solver.
  - intros (y & Hy & m & Hm & Hk). exists m. split; [by eapply occurs_list|done].
Qed.

Lemma item_at_map k x l :
  item_at k x (VMap l) ↔ (k, x) ∈ l ∨ ∃ k' y, (k', y) ∈ l ∧ item_at k x y.
Proof.
  unfold item_at. split.
  - intros (m & [[= ->]|(k' & y & ? & ?)]%occurs_map_iff & Hk); [by left|right; eauto 6].
  - intros [Hk|(k' & y & Hy & m & Hm & Hk)]; [exists l; split; [constructor|done]|].
    exists m. split; [by eapply occurs_map|done].
Qed.

(** Values without parts. *)
Definition atomic (v : pyval) : bool := match v with VList _ | VMap _ => false | _ => true end.

Lemma occurs_atomic y v : atomic v = true → occurs y v ↔ y = v.
Proof.
  intros Hv. split; [|intros ->; constructor].
  inversion 1; subst; done.
Qed.

Lemma item_at_atomic k x v : atomic v = true → ¬ item_at k x v.
Proof. intros Hv (m & Hm & _). apply occurs_atomic in Hm as <-; done. Qed.

(** Induction over atoms, lists and mappings. *)
Lemma pyval_parts_ind (P : pyval → Prop) :
  (∀ v, atomic v = true → P v) →
  (∀ l, (∀ x, x ∈ l → P x) → P (VList l)) →
  (∀ l, (∀ k x, (k, x) ∈ l → P x) → P (VMap l)) → ∀ v, P v.
Proof.
  intros Ha Hl Hm v. induction v using pyval_ind'; try by apply Ha.
  - apply Hl. by apply Forall_forall.
  - apply Hm. intros k x Hx. rewrite Forall_forall in H. apply (H (k, x) Hx).
Qed.

(** ** What the untrusted-input check establishes *)

Definition not_future (context : ControlledRunContext) (t : datetime) : Prop :=
  ∃ us, to_utc t = Some us ∧ us <= cx_research_as_of_time context.

Lemma reject_future_Ok context t : reject_future t context = Ok tt ↔ not_future context t.
Proof.
  unfold reject_future, after_as_of, not_future. destruct (to_utc t) as [us|].
  - change (reject_if (cx_research_as_of_time context <? us) ResearchToolContextError "FUTURE_DATA"
      = Ok tt ↔ ∃ u, Some us = Some u ∧ u <= cx_research_as_of_time context).
    rewrite reject_if_Ok, Z.ltb_ge. split; [eauto|by intros (? & [= <-] & ?)].
  - split; [done|]. by intros (? & ? & ?).
Qed.

Definition untrusted_ok (context : ControlledRunContext) (v : pyval) : Prop :=
  (∀ k x, item_at k x v → casefold k ∉ _CONTROLLED_KEYS ∧ casefold k ∉ _FORBIDDEN_KEYS) ∧
  (∀ t, occurs (VTime t) v → not_future context t).

Lemma untrusted_iff context v : _validate_untrusted context v = Ok tt ↔ untrusted_ok context v.
Proof.
  unfold untrusted_ok.
  induction v as [v Hv|l IH|l IH] using pyval_parts_ind; cbn [_validate_untrusted].
  - assert (∀ k x, ¬ item_at k x v) as Hno by (intros; by apply item_at_atomic).
    assert (Ht : ∀ t, occurs (VTime t) v ↔ VTime t = v) by (intros; by apply occurs_atomic).
    destruct v as [| | | | | | | |t| | | |]; try done; cbn [_validate_untrusted];
      [split; [intros _; split; [by intros k x ?%Hno|by intros t ?%Ht]|done]..| | |];
      [|split; [intros _; split; [by intros k x ?%Hno|by intros u ?%Ht]|done]..].
    rewrite reject_future_Ok. split; [|intros [_ H]; by apply H, Ht].
    intros H. split; [by intros k x ?%Hno|]. by intros u [= ->]%Ht.
  - rewrite res_iter_Ok, Forall_forall. split.
    + intros H. split.
      * intros k x (y & Hy & Hk)%item_at_list. by eapply (proj1 (IH _ Hy)); [apply H|].
      * intros t Ht. apply occurs_list_iff in Ht as (y & Hy & Ht); [|done].
        by eapply (proj1 (IH _ Hy)); [apply H|].
    + intros [H1 H2] y Hy. apply IH; [done|]. split.
      * intros k x Hk. apply (H1 k x), item_at_list. eauto.
      * intros t Ht. apply H2. by eapply occurs_list.
  - rewrite res_iter_Ok, Forall_forall.
    assert (Hkv : (∀ kv, kv ∈ l → (reject_if (bool_decide (casefold kv.1 ∈ _CONTROLLED_KEYS))
          ResearchToolContextError "CONTROLLED_CONTEXT_OVERRIDE";;
        reject_if (bool_decide (casefold kv.1 ∈ _FORBIDDEN_KEYS))
          ResearchToolContextError "FORBIDDEN_TOOL_ARGUMENT";;
        _validate_untrusted context kv.2) = Ok tt) ↔
      ∀ k x, (k, x) ∈ l → (casefold k ∉ _CONTROLLED_KEYS ∧ casefold k ∉ _FORBIDDEN_KEYS) ∧
        _validate_untrusted context x = Ok tt).
    { split.
      - intros H k x Hx. specialize (H _ Hx). rewrite !guard_seq, !bool_decide_eq_false in H.
        cbn in H. tauto.
      - intros H [k x] Hx. rewrite !guard_seq, !bool_decide_eq_false. specialize (H k x Hx).
        cbn. tauto. }
    rewrite Hkv. clear Hkv. split.
    + intros H. split.
      * intros k x [Hk|(k' & y & Hy & Hi)]%item_at_map; [by apply (H k x)|].
        by eapply (proj1 (IH k' y Hy)); [apply (H k' y)|].
      * intros t [?|(k' & y & Hy & Ht)]%occurs_map_iff; [done|].
        by eapply (proj1 (IH k' y Hy)); [apply (H k' y)|].
    + intros [H1 H2] k x Hx. split; [apply (H1 k x), item_at_map; by left|].
      apply (IH k x Hx). split.
      * intros k' y Hy. apply (H1 k' y), item_at_map. right. eauto.
      * intros t Ht. apply H2. by eapply occurs_map.
Qed.

(** ** What the output check establishes *)

Lemma py_eqb_uuid x u : py_eqb x (VUuid u) = true ↔ x = VUuid u.
Proof.
  destruct x as [|[]| | | | | | | | | | |]; cbn; try done.
  rewrite bool_decide_eq_true. split; [by intros ->|by intros [= ->]].
Qed.

(** The item [k: x] of the output mapping [l] belongs to the run. *)
Record item_in_scope (context : ControlledRunContext) (l : list (string * pyval)) (k : string)
    (x : pyval) : Prop := {
  is_security : k = "security_id" → x = VUuid (cx_security_id context);
  is_snapshot : k = "snapshot_id" → x = VUuid (cx_snapshot_id context);
  is_run : k = "research_agent_run_id" → x = VUuid (cx_research_agent_run_id context);
  is_request : k = "research_request_id" → x = VUuid (cx_research_request_id context);
  is_as_of : k = "research_as_of_time" →
    py_eqb x (utc_time (cx_research_as_of_time context)) = true ∨ exact_scope context l = true;
  is_published : k = "published_at" → ∀ t, x = VTime t → not_future context t }.

Lemma mismatch_false (k name : string) x u :
  bool_decide (k = name) && negb (py_eqb x (VUuid u)) = false ↔ (k = name → x = VUuid u).
Proof.
  rewrite andb_false_iff, bool_decide_eq_false, negb_false_iff, py_eqb_uuid.
  destruct (decide (k = name)); naive_solver.
Qed.

Lemma check_scope_item_Ok context l k x :
  check_scope_item context (exact_scope context l) k x = Ok tt ↔ item_in_scope context l k x.
Proof.
  unfold check_scope_item. cbv zeta. rewrite !guard_seq, !mismatch_false.
  assert (Has : bool_decide (k = "research_as_of_time") &&
      negb (py_eqb x (utc_time (cx_research_as_of_time context))) &&
      negb (exact_scope context l) = false ↔
    (k = "research_as_of_time" →
     py_eqb x (utc_time (cx_research_as_of_time context)) = true ∨ exact_scope context l = true)).
  { rewrite !andb_false_iff, bool_decide_eq_false, !negb_false_iff.
    destruct (decide (k = "research_as_of_time")); naive_solver. }
  assert (Hpub : match x with
      | VTime t => if bool_decide (k = "published_at") then reject_future t context else Ok tt
      | _ => Ok tt
      end = Ok tt ↔ (k = "published_at" → ∀ t, x = VTime t → not_future context t)).
  { destruct x as [| | | | | | | |t| | | |]; try (split; [intros _ _ ? [=]|done]).
    destruct (decide (k = "published_at")) as [Hk|Hk].
    - rewrite (bool_decide_eq_true_2 _ Hk), reject_future_Ok. naive_solver.
    - rewrite (bool_decide_eq_false_2 _ Hk). naive_solver. }
  rewrite Has, Hpub. split; [intros (? & ? & ? & ? & ? & ?); by split|by intros []].
Qed.

Lemma result_iff context v : _validate_result context v = Ok tt ↔
  ∀ l k x, occurs (VMap l) v → (k, x) ∈ l → item_in_scope context l k x.
Proof.
  induction v as [v Hv|l IH|l IH] using pyval_parts_ind; cbn [_validate_result].
  - split; [intros _ l k x H; apply occurs_atomic in H; [by subst|done]|by destruct v].
  - rewrite res_iter_Ok, Forall_forall. split.
    + intros H m k x Hm Hk. apply occurs_list_iff in Hm as (y & Hy & Hm); [|done].
      by eapply (proj1 (IH _ Hy)); [apply H| |].
    + intros H y Hy. apply IH; [done|]. intros m k x Hm. apply H. by eapply occurs_list.
  - rewrite res_iter_Ok, Forall_forall. split.
    + intros H m k x Hm Hk. apply occurs_map_iff in Hm as [[= <-]|(k' & y & Hy & Hm)].
      * specialize (H _ Hk). apply seq_Ok in H as [H _]. by apply check_scope_item_Ok.
      * specialize (H _ Hy). apply seq_Ok in H as [_ H]. by eapply (proj1 (IH _ _ Hy)).
    + intros H [k x] Hk. apply seq_Ok. split; [apply check_scope_item_Ok, H; [constructor|done]|].
      apply (IH k x Hk). intros m k' y Hm. apply H. by eapply occurs_map.
Qed.

(** Tool output cannot escape the run: the output check accepts a value
    exactly when, in every mapping at every depth, the security, snapshot, run
    and request identifiers are the run's own, the research time is the run's
    (or absent next to the run's exact snapshot) and nothing was published
    after it. *)
Theorem output_scope_iff context v :
  validate_output_scope context v = Ok tt ↔
  ∀ l k x, occurs (VMap l) v → (k, x) ∈ l → item_in_scope context l k x.
Proof. apply result_iff. Qed.

(** ** What binding the input establishes *)

(** The bound arguments keep every planned value, up to [==], and add only
    arguments; argument names are the keys of a dict. *)
Lemma bind_arguments_Ok arguments : NoDup arguments.*1 → ∀ bound result,
  bind_arguments bound arguments = Ok result →
  ∀ k, match dict_get bound k, dict_get arguments k with
       | Some v, Some w => dict_get result k = Some w ∧ py_eqb w v = true
       | _, Some w => dict_get result k = Some w
       | o, None => dict_get result k = o
       end.
Proof.
  induction arguments as [|[k0 v0] arguments IH]; intros Hnd bound result H k.
  - injection H as <-. cbn. by destruct (dict_get bound k).
  - apply NoDup_cons in Hnd as [Hk0 Hnd]. cbn in H, Hk0.
    apply bind_Ok in H as (b & Hb & H). unfold bind_argument in Hb. cbn in Hb.
    apply guard_seq in Hb as [Hg [= <-]]. specialize (IH Hnd _ _ H k).
    rewrite dict_get_set in IH. cbn [dict_get]. destruct (decide (k0 = k)) as [->|Hne].
    + rewrite bool_decide_eq_true_2 in IH |- * by done.
      apply dict_get_None in Hk0. rewrite Hk0 in IH.
      destruct (dict_get bound k); [|done]. by apply negb_false_iff in Hg.
    + by rewrite bool_decide_eq_false_2 in IH |- * by done.
Qed.

Lemma bind_scope_get context tool bound k :
  dict_get (bind_scope context tool bound) k =
  if bool_decide (tool ∈ _SECURITY_AND_SNAPSHOT_TOOLS) && bool_decide (k = "security_id") then
    Some (VUuid (cx_security_id context))
  else if bool_decide (tool ∈ _SECURITY_AND_SNAPSHOT_TOOLS ++ _SNAPSHOT_TOOLS) &&
          bool_decide (k = "snapshot_id") then Some (VUuid (cx_snapshot_id context))
  else dict_get bound k.
Proof.
  unfold bind_scope. rewrite (bool_decide_ext _ _ (elem_of_app _ _ tool)).
  destruct (decide (tool ∈ _SECURITY_AND_SNAPSHOT_TOOLS)) as [Hs|Hs];
    [rewrite (bool_decide_eq_true_2 _ Hs), (bool_decide_eq_true_2 (_ ∨ _)) by tauto
    |rewrite (bool_decide_eq_false_2 _ Hs)].
  - rewrite !dict_get_set. cbn. repeat case_bool_decide; subst; done.
  - cbn. destruct (decide (tool ∈ _SNAPSHOT_TOOLS)) as [Hn|Hn].
    + rewrite (bool_decide_eq_true_2 _ Hn), (bool_decide_eq_true_2 (_ ∨ _)) by tauto.
      rewrite dict_get_set. cbn. repeat case_bool_decide; subst; done.
    + rewrite (bool_decide_eq_false_2 _ Hn), (bool_decide_eq_false_2 (_ ∨ _)) by tauto. done.
Qed.

(** Tool input stays inside the run: a bound input holds the run's own
    security and snapshot for every Tool scoped by them, each other key has the
    planned value (an argument may only repeat it) or, for keys the plan leaves
    open, the argument; and neither the plan's payload nor the arguments name a
    controlled or forbidden key at any depth, in any letter case, or a time
    after the research time. *)
Theorem bound_input_in_scope context call arguments bound :
  NoDup arguments.*1 → bind_tool_input context call arguments = Ok bound →
  untrusted_ok context (VMap (ac_payload call)) ∧ untrusted_ok context (VMap arguments) ∧
  (ac_tool_name call ∈ _SECURITY_AND_SNAPSHOT_TOOLS →
     dict_get bound "security_id" = Some (VUuid (cx_security_id context))) ∧
  (ac_tool_name call ∈ _SECURITY_AND_SNAPSHOT_TOOLS ++ _SNAPSHOT_TOOLS →
     dict_get bound "snapshot_id" = Some (VUuid (cx_snapshot_id context))) ∧
  ∀ k, k ≠ "security_id" → k ≠ "snapshot_id" →
    match dict_get (ac_payload call) k, dict_get arguments k with
    | Some v, Some w => dict_get bound k = Some w ∧ py_eqb w v = true
    | _, Some w => dict_get bound k = Some w
    | o, None => dict_get bound k = o
    end.
Proof.
  intros Hnd H. unfold bind_tool_input in H. rewrite !seq_Ok in H. destruct H as (H1 & H2 & H).
  apply bind_Ok in H as (b & Hb & [= <-]).
  split_and!; [by apply untrusted_iff|by apply untrusted_iff| | |].
  - intros Ht. by rewrite bind_scope_get, bool_decide_eq_true_2.
  - intros Ht. rewrite bind_scope_get, (bool_decide_eq_true_2 _ Ht).
    by rewrite (bool_decide_eq_false_2 ("snapshot_id" = "security_id")), andb_false_r.
  - intros k Hk1 Hk2. rewrite bind_scope_get, !(bool_decide_eq_false_2 (k = _)) by done.
    rewrite !andb_false_r. by apply bind_arguments_Ok.
Qed.

(** ** Redaction *)

#[global] Arguments sensitive_key : simpl never.
#[global] Arguments casefold : simpl never.

Definition REDACTED : pyval := VStr "[REDACTED]".

(** No value of a sensitive key survives in [v]. *)
Definition redacted (v : pyval) : Prop :=
  ∀ k x, item_at k x v → sensitive_key k = true → x = REDACTED.

Lemma redacted_atomic v : atomic v = true → redacted v.
Proof. intros Hv k x Hk. by apply item_at_atomic in Hk. Qed.

Lemma redacted_list l : (∀ x, x ∈ l → redacted x) → redacted (VList l).
Proof. intros H k x (y & Hy & Hk)%item_at_list. by apply (H y). Qed.

Lemma redacted_map l :
  (∀ k x, (k, x) ∈ l → redacted x ∧ (sensitive_key k = true → x = REDACTED)) → redacted (VMap l).
Proof.
  intros H k x [Hk|(k' & y & Hy & Hk)]%item_at_map; [by apply H|by apply (H k' y)].
Qed.

Lemma redact_redacted v : redacted (_redact v).
Proof.
  induction v as [v Hv|l IH|l IH] using pyval_parts_ind; cbn [_redact].
  - apply redacted_atomic. by destruct v.
  - apply redacted_list. intros x Hx. apply list_elem_of_fmap in Hx as (y & -> & Hy). auto.
  - apply redacted_map. intros k x Hx. apply list_elem_of_fmap in Hx as ([k' y] & [= -> ->] & Hy).
    cbn. destruct (sensitive_key k') eqn:E; [|by split; [eapply IH|]].
    split; [by apply redacted_atomic|done].
Qed.

Lemma json_round_redacted v : ∀ r, json_round v = Ok r → redacted v → redacted r.
Proof.
  assert (Hl : ∀ l js, res_map _normalize l = Ok js → ∀ y, y ∈ map of_json js →
    ∃ x, x ∈ l ∧ json_round x = Ok y).
  { intros l js H%res_map_Ok y Hy. apply list_elem_of_fmap in Hy as (j & -> & Hj).
    destruct (Forall2_elem_r _ _ _ _ H Hj) as (x & Hx & Hn). exists x. split; [done|].
    unfold json_round. by rewrite Hn. }
  induction v as [v Hv|l IH|l IH] using pyval_parts_ind; intros r Hr Hred;
    unfold json_round in Hr.
  - apply redacted_atomic. destruct v as [| | | | | | | |t| | | |]; try done; cbn in Hr;
      try (by injection Hr as <-). destruct (to_utc t); [by injection Hr as <-|done].
  - cbn in Hr. destruct (res_map _normalize l) as [js|] eqn:E; [|done]. injection Hr as <-.
    apply redacted_list. intros y Hy. destruct (Hl _ _ E y Hy) as (x & Hx & Hj).
    apply (IH x Hx y Hj). intros k z Hk. apply Hred, item_at_list. eauto.
  - cbn in Hr. destruct (res_map _ l) as [js|] eqn:E; [|done]. injection Hr as <-.
    apply redacted_map. intros k y Hy. unfold sort_key in Hy.
    rewrite sort_by_perm in Hy. apply list_elem_of_fmap in Hy as ([k' j] & [= -> ->] & Hj).
    apply res_map_Ok in E. destruct (Forall2_elem_r _ _ _ _ E Hj) as ([k x] & Hx & Hn).
    apply bind_Ok in Hn as (j' & Hn & [= <- <-]). cbn in *.
    assert (Hjx : json_round x = Ok (of_json j')) by (unfold json_round; by rewrite Hn).
    split.
    + apply (IH k x Hx _ Hjx). intros k' z Hk. apply Hred, item_at_map. right. eauto.
    + intros Hs. assert (x = REDACTED) as -> by (apply (Hred k); [apply item_at_map; by left|done]).
      by injection Hn as <-.
Qed.

Lemma redact_id v :
  (∀ k x, item_at k x v → sensitive_key k = false) → _redact v = v.
Proof.
  induction v as [v Hv|l IH|l IH] using pyval_parts_ind; cbn [_redact]; intros H.
  - by destruct v.
  - f_equal. transitivity (map id l); [|apply map_id]. apply map_ext_in.
    intros x Hx%list_elem_of_In. apply (IH x Hx). intros k y Hk.
    apply (H k y), item_at_list. eauto.
  - f_equal. transitivity (map id l); [|apply map_id]. apply map_ext_in.
    intros [k x] Hx%list_elem_of_In. cbn.
    rewrite (H k x) by (apply item_at_map; by left). unfold id. f_equal.
    apply (IH k x Hx). intros k' y Hk. apply (H k' y), item_at_map. right. eauto.
Qed.

(** Persisted Tool inputs are bounded and carry no secrets: a payload of
    more than 8192 bytes is rejected; in the stored copy every key that names a
    credential, path or header, in any letter case and with either dash, holds
    the redaction mark at every depth; a payload without such keys is stored as
    its plain JSON value. *)
Theorem redaction_sound payload r :
  redact_tool_payload payload = Ok r →
  (∃ encoded, canonical_json (VMap payload) = Ok encoded ∧ byte_len encoded <= 8192) ∧
  (∀ k x, item_at k x r → sensitive_key k = true → x = VStr "[REDACTED]") ∧
  ((∀ k x, item_at k x (VMap payload) → sensitive_key k = false) →
     json_round (VMap payload) = Ok r).
Proof.
  unfold redact_tool_payload. intros H. apply bind_Ok in H as (enc & Henc & H).
  apply guard_seq in H as [Hb%Z.ltb_ge H]. split_and!.
  - exists enc. split; [done|exact Hb].
  - apply (json_round_redacted _ _ H), redact_redacted.
  - intros Hs. by rewrite redact_id in H.
Qed.

(** ** The executor *)

(** The outcome recorded of a call: an observation of the checked output, or a
    terminal failure with its code. *)
Inductive outcome_of (env : tool_env) (context : ControlledRunContext)
    (call : AuthorizedToolCall) (bound : list (string * pyval)) (n : nat)
    (r : ToolExecutionResult) : Prop :=
| outcome_pass payload completion observation :
    registry_execute env n (ac_tool_name call) (ac_tool_version call) bound = Ok payload →
    validate_output_scope context (VMap payload) = Ok tt →
    ir_completion (tr_invocation r) = Some completion → ic_status completion = InvStatus.PASS →
    stable_checksum (VMap payload) = Ok (ob_output_checksum observation) →
    tr_observation r = Some observation → ob_status observation = tr_status r →
    ob_security_id observation = cx_security_id context →
    ob_snapshot_id observation = cx_snapshot_id context →
    ob_invocation_id observation = Some (iv_id (tr_invocation r)) →
    outcome_of env context call bound n r
| outcome_fail completion error :
    ir_completion (tr_invocation r) = Some completion →
    ic_error_code completion = Some error → ic_output_checksum completion = None →
    (tr_status r, ic_status completion) =
      (if bool_decide (error ∈ _BLOCKED_CODES) then (ObsStatus.BLOCKED, InvStatus.BLOCKED)
       else (ObsStatus.FAIL, InvStatus.FAIL)) →
    tr_observation r = None → outcome_of env context call bound n r.

Lemma failed_result_Ok inv budget error now r env context call bound n :
  _failed_result inv budget error now = Ok r →
  tr_budget r = budget ∧ ir_write (tr_invocation r) = inv ∧ outcome_of env context call bound n r.
Proof.
  unfold _failed_result. intros H. apply bind_Ok in H as (cpl & Hc & [= <-]). split_and!; try done.
  unfold complete_invocation in Hc. rewrite !guard_seq in Hc.
  destruct Hc as (_ & _ & _ & _ & Hc). cbn in Hc. unfold mbind, res_bind in Hc.
  apply guard_seq in Hc as [_ [= <-]].
  eapply (outcome_fail _ _ _ _ _ _ _ error); try done. cbn. by case_bool_decide.
Qed.

Lemma passed_result_Ok env context step call bound ot ss n inv budget payload r :
  passed_result env context step ot ss n inv budget payload = Ok r →
  call_tool env context call bound n = Ok payload →
  tr_budget r = budget ∧ ir_write (tr_invocation r) = inv ∧ outcome_of env context call bound n r.
Proof.
  unfold passed_result, call_tool. intros H Hcall.
  apply bind_Ok in Hcall as (out & Hout & Hv). apply seq_Ok in Hv as [Hv [= ->]].
  apply bind_Ok in H as (cpl & Hc & H). apply bind_Ok in H as (ob & Hob & [= <-]).
  split_and!; try done. unfold complete_invocation in Hc. rewrite !guard_seq in Hc.
  destruct Hc as (_ & _ & _ & _ & Hc). apply bind_Ok in Hc as (ck & _ & Hc).
  apply guard_seq in Hc as [_ [= <-]].
  unfold build_observation in Hob. rewrite !guard_seq in Hob. destruct Hob as (_ & _ & Hob).
  apply bind_Ok in Hob as (s & _ & Hob). apply guard_seq in Hob as [_ Hob].
  apply bind_Ok in Hob as (nrm & _ & Hob). apply bind_Ok in Hob as (ck' & Hck & Hob).
  apply guard_seq in Hob as [_ Hob]. destruct nrm; try done. injection Hob as <-.
  eapply (outcome_pass _ _ _ _ _ _ payload); try done. exact Hck.
Qed.

Lemma start_invocation_Ok id context step_id call bound attempt at_ inv :
  start_invocation id context step_id call bound attempt at_ = Ok inv →
  iv_attempt_number inv = attempt ∧ iv_run_id inv = cx_research_agent_run_id context ∧
  iv_step_id inv = step_id ∧ iv_tool_name inv = ac_tool_name call.
Proof.
  unfold start_invocation. intros [_ H]%guard_seq. apply bind_Ok in H as (red & _ & H).
  by apply bind_Ok in H as (ck & _ & [= <-]).
Qed.

(** The last attempt of a call, after the uses [us] of the budget. *)
Lemma last_attempt env context step call bound ot ss fuel budget r :
  attempt_loop env context step call bound ot ss (S fuel) 1 budget = Ok r →
  tr_budget r = budget ∧ iv_attempt_number (tr_invocation r) = 2 ∧
  outcome_of env context call bound 1 r.
Proof.
  cbn [attempt_loop]. intros H. apply bind_Ok in H as (inv & Hinv & H).
  apply start_invocation_Ok in Hinv as (Hn & _).
  destruct (call_tool _ _ _ _ _) as [payload|e] eqn:Ec.
  - eapply passed_result_Ok in H as (-> & -> & ?); [|done]. done.
  - rewrite andb_false_r in H. destruct (exn_class e); try done;
      eapply failed_result_Ok in H as (-> & -> & ?); done.
Qed.

Lemma first_attempt env context step call bound ot ss budget r :
  attempt_loop env context step call bound ot ss 2 0 budget = Ok r →
  ∃ us n, consume_all budget us = Ok (tr_budget r) ∧
    (us, n) ∈ [([], 1); ([UseRetry (step_key (definition step))], 1);
      ([UseRetry (step_key (definition step)); UseTool (ac_tool_name call)], 2)] ∧
    iv_attempt_number (tr_invocation r) = n ∧
    outcome_of env context call bound (Z.to_nat n - 1) r.
Proof.
  cbn [attempt_loop]. intros H. apply bind_Ok in H as (inv & Hinv & H).
  apply start_invocation_Ok in Hinv as (Hn & _).
  destruct (call_tool env context call bound 0) as [payload|e] eqn:Ec.
  { eapply passed_result_Ok in H as (<- & <- & ?); [|done]. exists [], 1. split_and!; try done. left. }
  assert (Hfail : ∀ code, _failed_result inv budget code (clock env (0 + 1)) = Ok r →
    ∃ us n, consume_all budget us = Ok (tr_budget r) ∧
    (us, n) ∈ [([], 1); ([UseRetry (step_key (definition step))], 1);
      ([UseRetry (step_key (definition step)); UseTool (ac_tool_name call)], 2)] ∧
    iv_attempt_number (tr_invocation r) = n ∧
    outcome_of env context call bound (Z.to_nat n - 1) r).
  { intros c Hc. eapply failed_result_Ok in Hc as (<- & <- & ?). exists [], 1.
    split_and!; try done. left. }
  destruct (exn_class e); try done; try by eapply Hfail.
  destruct (_ && _); [|by eapply Hfail].
  destruct (consume_retry budget _) as [b|] eqn:Er; [|by eapply Hfail].
  destruct (consume_tool_call b _) as [b'|] eqn:Et.
  - apply (last_attempt env context step call bound ot ss 0) in H as (<- & ? & ?).
    exists [UseRetry (step_key (definition step)); UseTool (ac_tool_name call)], 2.
    split_and!; try done; [|right; right; left].
    cbn. rewrite Er. cbn. unfold mbind, res_bind. by rewrite Et.
  - eapply failed_result_Ok in H as (<- & <- & ?).
    exists [UseRetry (step_key (definition step))], 1. split_and!; try done; [|right; left].
    cbn. by rewrite Er.
Qed.

(** What a result means for the guards: all passed, then the loop returned. *)
Lemma execute_checked env context step catalog policy budget arguments ot ss r :
  execute env context step catalog policy budget arguments ot ss = Ok r →
  ∃ call bound b, authorize context step catalog policy = Ok call ∧
    bind_tool_input context call arguments = Ok bound ∧
    consume_tool_call budget (ac_tool_name call) = Ok b ∧
    attempt_loop env context step call bound ot ss 2 0 b = Ok r.
Proof.
  unfold execute. intros H. apply bind_Ok in H as ([[call bound] b] & Hg & H).
  assert (Hok : (authorized ← authorize context step catalog policy;
    bound ← bind_tool_input context authorized arguments;
    budget ← consume_tool_call budget (ac_tool_name authorized);
    Ok (authorized, bound, budget)) = Ok (call, bound, b)).
  { destruct (authorize _ _ _ _ ≫= _) as [x|e]; [done|]. cbn in Hg. by destruct (exn_class e). }
  clear Hg. apply bind_Ok in Hok as (c & Ha & Hok). apply bind_Ok in Hok as (bd & Hb & Hok).
  apply bind_Ok in Hok as (b' & Hc & [= -> -> ->]). by exists call, bound, b.
Qed.

(** A Tool step pays for one or two calls. *)
Lemma execute_budget env context step catalog policy budget arguments ot ss r :
  execute env context step catalog policy budget arguments ot ss = Ok r →
  ∃ us, consume_all budget us = Ok (tr_budget r) ∧ 1 ≤ uses_of is_tool us ≤ 2.
Proof.
  intros (call & bound & b & _ & _ & Hc & H)%execute_checked.
  apply first_attempt in H as (us & n & Hus & Hin & _).
  exists (UseTool (ac_tool_name call) :: us). split; [cbn; by rewrite Hc|].
  rewrite uses_of_cons. cbn.
  repeat (apply elem_of_cons in Hin as [[= -> ->]|Hin]; [vm_compute; by split|]).
  by apply elem_of_nil in Hin.
Qed.

(** C5. A Tool step is executed under every guard and at most twice: a result
    means the call was authorized and its input bound to the run, the budget
    paid one call, or one call, one retry and (when still affordable) a second
    call, the invocation is the first or second attempt accordingly, and it
    carries either the observation of an output checked against the run's scope
    or a terminal failure with the status its code calls for. *)
Theorem execute_guarded env context step catalog policy budget arguments ot ss r :
  execute env context step catalog policy budget arguments ot ss = Ok r →
  ∃ call bound us n,
    authorized context step catalog policy call ∧
    bind_tool_input context call arguments = Ok bound ∧
    consume_all budget (UseTool (ac_tool_name call) :: us) = Ok (tr_budget r) ∧
    (us, n) ∈ [([], 1); ([UseRetry (step_key (definition step))], 1);
      ([UseRetry (step_key (definition step)); UseTool (ac_tool_name call)], 2)] ∧
    iv_attempt_number (tr_invocation r) = n ∧
    outcome_of env context call bound (Z.to_nat n - 1) r.
Proof.
  intros (call & bound & b & Ha & Hb & Hc & H)%execute_checked.
  apply first_attempt in H as (us & n & Hus & Hin & Hn & Ho).
  exists call, bound, us, n. split_and!; try done; [by apply authorize_Ok|].
  cbn. by rewrite Hc.
Qed.

Lemma second_round_final env context step call bound ot ss fuel b :
  attempt_loop env context step call bound ot ss (S fuel) 1 b =
  attempt_loop env context step call bound ot ss 1 1 b.
Proof.
  cbn [attempt_loop]. destruct (start_invocation _ _ _ _ _ _ _) as [inv|]; [|done].
  cbn. destruct (call_tool _ _ _ _ _) as [|e]; [done|]. rewrite !andb_false_r.
  by destruct (exn_class e).
Qed.

Lemma first_round_ext env context step call bound ot ss f g budget :
  (∀ b, attempt_loop env context step call bound ot ss f 1 b =
        attempt_loop env context step call bound ot ss g 1 b) →
  attempt_loop env context step call bound ot ss (S f) 0 budget =
  attempt_loop env context step call bound ot ss (S g) 0 budget.
Proof.
  intros H. cbn [attempt_loop]. destruct (start_invocation _ _ _ _ _ _ _) as [inv|]; [|done].
  unfold mbind, res_bind. destruct (call_tool _ _ _ _ _) as [|e]; [done|].
  destruct (exn_class e); try done. destruct (_ && _); [|done].
  destruct (consume_retry _ _) as [b|]; [|done].
  destruct (consume_tool_call b _) as [b'|]; [|done]. apply H.
Qed.

(** The executor's loop ends: two rounds are enough, since the second
    attempt never retries, so any further rounds change nothing. *)
Theorem execute_loop_ends env context step call bound ot ss fuel budget :
  attempt_loop env context step call bound ot ss (2 + fuel) 0 budget =
  attempt_loop env context step call bound ot ss 2 0 budget.
Proof. apply first_round_ext. intros b. apply second_round_final. Qed.

(** * Examples *)

Module ToolRunExamples.
Import PreflightExamples.

Definition call : AuthorizedToolCall := mkAuthorized "get_data_snapshot" "1.0.0" [] empty_schema.
Definition arguments : list (string * pyval) := [("limit", VInt 3)].
Definition bound : list (string * pyval) :=
  [("limit", VInt 3); ("snapshot_id", VUuid (mkUUID "snap"))].

(** The first attempt fails transiently, the second returns an output. *)
Definition env : tool_env := mkEnv
  (λ n _ _ _, match n with
    | O => raise ResearchToolExecutionError "TRANSIENT_INTERNAL"
    | _ => Ok [("status", VStr "PARTIAL"); ("snapshot_id", VUuid (mkUUID "snap"))]
    end)
  (λ n, mkUUID (str_of_Z (Z.of_nat n))) (λ n, 100 + Z.of_nat n).
Definition budget : RunBudget := mkBudget 12 24 5 1 120 0 0 0 0 dzero ∅ ∅.
Definition outcome : res ToolExecutionResult :=
  execute env context step catalog policy budget arguments ObsType.DATA_QUALITY Synth.REAL_VERIFIED.
Definition secret_payload : list (string * pyval) :=
  [("limit", VInt 3); ("Auth", VMap [("API-Key", VStr "k")])].
Definition stored : pyval :=
  match redact_tool_payload secret_payload with Ok r => r | Raise _ => VNone end.
Definition stored_auth : list (string * pyval) :=
  match stored with VMap ((_, VMap l) :: _) => l | _ => [] end.

End ToolRunExamples.
Import PreflightExamples ToolRunExamples.

Lemma bound_input_in_scope_witness :
  dict_get bound "snapshot_id" = Some (VUuid (cx_snapshot_id context)).
Proof.
  refine (proj1 (proj2 (proj2 (proj2 (bound_input_in_scope context call arguments bound _ _)))) _).
  - cbn. apply NoDup_singleton.
  - vm_compute. reflexivity.
  - apply elem_of_app. right. left.
Defined.

Lemma redaction_sound_witness :
  default VNone (dict_get stored_auth "API-Key") = VStr "[REDACTED]".
Proof.
  refine (proj1 (proj2 (redaction_sound secret_payload stored _)) "API-Key" _ _ _);
    [vm_compute; reflexivity| |reflexivity].
  exists stored_auth. split; [|left].
  apply (occurs_map _ _ "Auth" (VMap stored_auth)); [left|constructor].
Defined.

Lemma execute_guarded_witness :
  match outcome with
  | Ok r => ∃ call bound us n,
      authorized context step catalog policy call ∧
      bind_tool_input context call arguments = Ok bound ∧
      consume_all budget (UseTool (ac_tool_name call) :: us) = Ok (tr_budget r) ∧
      iv_attempt_number (tr_invocation r) = n
  | Raise _ => False
  end.
Proof.
  destruct outcome as [r|e] eqn:E; [|vm_compute in E; discriminate].
  destruct (execute_guarded env context step catalog policy budget arguments
    ObsType.DATA_QUALITY Synth.REAL_VERIFIED r E) as (c & b & us & n & H1 & H2 & H3 & _ & H4 & _).
  by exists c, b, us, n.
Defined.
