(* ===== verification/PyParse.v ===== *)
(** Parsing of numbers and timestamps out of payload text: Python 3.12's
    [Decimal(str)] and [datetime.fromisoformat], executable. *)
From S2P Require Import Prelude PyDecimal PyText AgentModel ToolRun.
From Stdlib Require Import Ascii.

(** * Characters *)

(** The code point of one UTF-8 character. *)
Definition byte_of (c : ascii) : Z := Z.of_N (N_of_ascii c).
Definition code_point (c : string) : Z :=
  match map byte_of (String.list_ascii_of_string c) with
  | [a] => a
  | [a; b] => (a - 192) * 64 + (b - 128)
  | [a; b; c] => (a - 224) * 4096 + (b - 128) * 64 + (c - 128)
  | [a; b; c; d] => (a - 240) * 262144 + (b - 128) * 4096 + (c - 128) * 64 + (d - 128)
  | _ => -1
  end.

(** The zeros of the runs of decimal digits outside ASCII. *)
Definition DIGIT_ZEROS : list Z :=
  [1632; 1776; 1984; 2406; 2534; 2662; 2790; 2918; 3046; 3174; 3302; 3430; 3558; 3664; 3792;
   3872; 4160; 4240; 6112; 6160; 6470; 6608; 6784; 6800; 6992; 7088; 7232; 7248; 42528; 43216;
   43264; 43472; 43504; 43600; 44016; 65296; 66720; 68912; 69734; 69872; 69942; 70096; 70384;
   70736; 70864; 71248; 71360; 71472; 71904; 72016; 72784; 73040; 73120; 73552; 92768; 92864;
   93008; 120782; 120792; 120802; 120812; 120822; 123200; 123632; 124144; 125264; 130032].

(** The value of a decimal digit character. *)
Definition digit_value (c : string) : option Z :=
  let n := code_point c in
  if between 48 57 n then Some (n - 48)
  else z ← find (λ z, between z (z + 9) n) DIGIT_ZEROS; Some (n - z).

(** * [Decimal(str)] *)

Inductive parsed_decimal := PFinite (d : decimal) | PInf (negative : bool) | PNan | PSNan.

Fixpoint drop_spaces (cs : list string) : list string :=
  match cs with c :: cs' => if is_space c then drop_spaces cs' else cs | [] => [] end.
Definition strip (cs : list string) : list string :=
  reverse (drop_spaces (reverse (drop_spaces cs))).

(** Leading digits: their value, their number and the rest. *)
Fixpoint take_digits (acc count : Z) (cs : list string) : Z * Z * list string :=
  match cs with
  | c :: cs' =>
      match digit_value c with
      | Some v => take_digits (10 * acc + v) (count + 1) cs'
      | None => (acc, count, cs)
      end
  | [] => (acc, count, [])
  end.

Definition sign_of (cs : list string) : bool * list string :=
  match cs with
  | c :: cs' => if bool_decide (c = "-") then (true, cs')
                else if bool_decide (c = "+") then (false, cs') else (false, cs)
  | [] => (false, [])
  end.

(** The exponent part: nothing, or [e] and a signed integer. *)
Definition parse_exponent (cs : list string) : option Z :=
  match cs with
  | [] => Some 0
  | c :: cs =>
      if bool_decide (str_map ascii_lower c = "e") then
        let '(neg, cs) := sign_of cs in
        let '(n, count, rest) := take_digits 0 0 cs in
        if (0 <? count) && bool_decide (rest = []) then Some (if neg then - n else n) else None
      else None
  end.

Definition MAX_EMAX : Z := 999999999999999999.
Definition MIN_ETINY : Z := -1999999999999999997.

(** An exact literal outside the widest context is invalid. *)
Definition literal (neg : bool) (coef exp : Z) : option decimal :=
  if (MAX_EMAX <? exp + num_digits coef - 1) || (exp <? MIN_ETINY) then None
  else Some (mkDec neg coef exp).

Definition parse_special (neg : bool) (s : string) : option parsed_decimal :=
  if bool_decide (s ∈ ["inf"; "infinity"]) then Some (PInf neg)
  else
    let payload_digits s := str_forallb is_digit s in
    if String.prefix "nan" s && payload_digits (String.substring 3 (String.length s) s)
    then Some PNan
    else if String.prefix "snan" s && payload_digits (String.substring 4 (String.length s) s)
    then Some PSNan else None.

Definition parse_number (neg : bool) (cs : list string) : option parsed_decimal :=
  let '(int, icount, cs) := take_digits 0 0 cs in
  let '(coef, fcount, cs) :=
    match cs with
    | c :: cs' => if bool_decide (c = ".") then take_digits int 0 cs' else (int, 0, cs)
    | [] => (int, 0, [])
    end in
  if icount + fcount =? 0 then None
  else e ← parse_exponent cs; PFinite <$> literal neg coef (e - fcount).

(** [Decimal(s)]; [None] is [InvalidOperation]. *)
Definition parse_decimal (s : string) : option parsed_decimal :=
  let cs := filter (λ c, c ≠ "_") (strip (chars s)) in
  let '(neg, cs) := sign_of cs in
  match parse_number neg cs with
  | Some d => Some d
  | None =>
      match cs with
      | c :: _ => if is_some (digit_value c) || bool_decide (c = ".") then None
                  else parse_special neg (str_map ascii_lower (String.concat "" cs))
      | [] => None
      end
  end.

Example dec_1 : parse_decimal " -1_2.50e3 " = Some (PFinite (mkDec true 1250 1)).
Proof. reflexivity. Qed.
Example dec_2 : map parse_decimal ["."; ""; "1e"; "nan12"; "-Infinity"; "1 2"; "--1"]
  = [None; None; None; Some PNan; Some (PInf true); None; None].
Proof. reflexivity. Qed.

(** * [datetime.fromisoformat] *)

(** Day number of a proleptic Gregorian date. *)
Definition days_of_civil (y m d : Z) : Z :=
  let y' := if m <=? 2 then y - 1 else y in
  let era := y' / 400 in
  let yoe := y' mod 400 in
  let doy := (153 * (if 2 <? m then m - 3 else m + 9) + 2) / 5 + d - 1 in
  era * 146097 + (yoe * 365 + yoe / 4 - yoe / 100 + doy) - 719468.

Definition is_leap (y : Z) : bool := (y mod 4 =? 0) && (negb (y mod 100 =? 0) || (y mod 400 =? 0)).
Definition days_in_month (y m : Z) : Z :=
  if m =? 2 then (if is_leap y then 29 else 28)
  else if bool_decide (m ∈ [4; 6; 9; 11]) then 30 else 31.

Definition valid_date (y m d : Z) : option Z :=
  if between 1 9999 y && between 1 12 m && between 1 (days_in_month y m) d
  then Some (days_of_civil y m d) else None.

(** [_isoweek_to_gregorian] *)
Definition days_of_isoweek (y week day : Z) : option Z :=
  let jan1 := days_of_civil y 1 1 in
  let weekday := (jan1 + 3) mod 7 in  (* Monday is 0 *)
  let long_year := (weekday =? 3) || ((weekday =? 2) && is_leap y) in
  let monday := jan1 - weekday + (if 3 <? weekday then 7 else 0) in
  let days := monday + (week - 1) * 7 + (day - 1) in
  if between 1 9999 y && (between 1 52 week || ((week =? 53) && long_year)) && between 1 7 day &&
     between (days_of_civil 1 1 1) (days_of_civil 9999 12 31) days
  then Some days else None.

(** Exactly [n] ASCII digits. *)
Fixpoint ascii_digits (n : nat) (acc : Z) (cs : list string) : option (Z * list string) :=
  match n with
  | O => Some (acc, cs)
  | S n =>
      match cs with
      | c :: cs => let k := code_point c in
                   if between 48 57 k then ascii_digits n (10 * acc + (k - 48)) cs else None
      | [] => None
      end
  end.

Definition dash (cs : list string) : bool :=
  match cs with c :: _ => bool_decide (c = "-") | [] => false end.
Definition skip_dash (expected : bool) (cs : list string) : option (list string) :=
  if Bool.eqb (dash cs) expected then Some (if expected then drop 1 cs else cs) else None.

(** [_parse_isoformat_date] of exactly these characters. *)
Definition parse_isoformat_date (cs : list string) : option Z :=
  '(y, cs) ← ascii_digits 4 0 cs;
  let sep := dash cs in
  let cs := if sep then drop 1 cs else cs in
  match cs with
  | c :: week_cs =>
      if bool_decide (c = "W") then
        '(week, cs) ← ascii_digits 2 0 week_cs;
        match cs with
        | [] => days_of_isoweek y week 1
        | _ => cs ← skip_dash sep cs;
               '(day, cs) ← ascii_digits 1 0 cs;
               if bool_decide (cs = []) then days_of_isoweek y week day else None
        end
      else
        '(m, cs) ← ascii_digits 2 0 cs;
        cs ← skip_dash sep cs;
        '(d, cs) ← ascii_digits 2 0 cs;
        if bool_decide (cs = []) then valid_date y m d else None
  | [] => None
  end.

(** [_find_isoformat_datetime_separator] *)
Definition char_at (cs : list string) (i : nat) : string := default "" (cs !! i).
Definition ascii_digit (c : string) : bool := between 48 57 (code_point c).
Fixpoint digits_end (i : nat) (cs : list string) : nat :=
  match cs with c :: cs => if ascii_digit c then digits_end (S i) cs else i | [] => i end.
Definition find_separator (cs : list string) : option nat :=
  let len := length cs in
  if (len =? 7)%nat then Some 7%nat
  else if bool_decide (char_at cs 4 = "-") then
    if bool_decide (char_at cs 5 = "W") then
      if (len <? 8)%nat then None
      else if (8 <? len)%nat && bool_decide (char_at cs 8 = "-") then
        if (len =? 9)%nat then None
        else if (10 <? len)%nat && ascii_digit (char_at cs 10) then Some 8%nat else Some 10%nat
      else Some 8%nat
    else Some 10%nat
  else if bool_decide (char_at cs 4 = "W") then
    let idx := digits_end 7 (drop 7 cs) in
    if (idx <? 9)%nat then Some idx
    else if Nat.even idx then Some 7%nat else Some 8%nat
  else Some 8%nat.

(** [parse_hh_mm_ss_ff] of the C implementation: the clock components read, and
    whether the text ended with them.  A single left-over character after a
    component, or text after six fraction digits, is reported and not refused:
    the caller refuses it unless an offset follows. *)
Definition clock : Type := (Z * Z * Z * Z)%type.
Fixpoint skip_digits (cs : list string) : list string :=
  match cs with c :: cs' => if ascii_digit c then skip_digits cs' else cs | [] => [] end.
Definition parse_fraction (cs : list string) : option (Z * bool) :=
  let n := Nat.min 6 (length cs) in
  '(us, cs) ← ascii_digits n 0 cs;
  Some (us * 10 ^ (6 - Z.of_nat n), bool_decide (skip_digits cs = [])).

Definition set_component (i : nat) (v : Z) (c : clock) : clock :=
  let '(h, m, s, us) := c in
  match i with O => (v, m, s, us) | 1%nat => (h, v, s, us) | _ => (h, m, v, us) end.
Definition with_fraction (c : clock) (cs : list string) : option (clock * bool) :=
  let '(h, m, s, _) := c in
  f ← parse_fraction cs; Some ((h, m, s, f.1), f.2).

Fixpoint parse_components (fuel i : nat) (has_sep : bool) (c : clock) (cs : list string) :
    option (clock * bool) :=
  match fuel with
  | O => with_fraction c cs
  | S fuel =>
      '(v, cs) ← ascii_digits 2 0 cs;
      let c := set_component i v c in
      match cs with
      | [] => Some (c, true)
      | [_] => Some (c, false)
      | x :: rest =>
          let has_sep := if (i =? 0)%nat then bool_decide (x = ":") else has_sep in
          if has_sep && bool_decide (x = ":") then parse_components fuel (S i) has_sep c rest
          else if bool_decide (x ∈ ["."; ","]) then with_fraction c rest
          else if has_sep then None
          else parse_components fuel (S i) has_sep c cs
      end
  end.
Definition parse_hh_mm_ss_ff (cs : list string) : option (clock * bool) :=
  parse_components 3 0 true (0, 0, 0, 0) cs.

(** The text before the first [+], [-] or [Z], that mark, and the text after. *)
Fixpoint split_zone (cs : list string) : list string * option (string * list string) :=
  match cs with
  | [] => ([], None)
  | c :: cs =>
      if bool_decide (c ∈ ["+"; "-"; "Z"]) then ([], Some (c, cs))
      else let '(l, z) := split_zone cs in (c :: l, z)
  end.

Definition clock_us (c : clock) : Z :=
  let '(h, m, s, us) := c in ((h * 60 + m) * 60 + s) * 1000000 + us.
Definition clock_ok (c : clock) : bool :=
  let '(h, m, s, us) := c in between 0 23 h && between 0 59 m && between 0 59 s.

(** The offset of a zone, in microseconds; less than a second is UTC. *)
Definition parse_zone (mark : string) (cs : list string) : option Z :=
  if bool_decide (mark = "Z") then if bool_decide (cs = []) then Some 0 else None
  else
    z ← parse_hh_mm_ss_ff cs;
    if z.2 && (clock_us z.1 <? us_per_day)
    then Some (if clock_us z.1 <? 1000000 then 0
               else if bool_decide (mark = "-") then - clock_us z.1 else clock_us z.1)
    else None.

(** [parse_isoformat_time]: microseconds of the day and the offset. *)
Definition parse_isoformat_time (cs : list string) : option (Z * option Z) :=
  let '(clock_cs, zone) := split_zone cs in
  c ← parse_hh_mm_ss_ff clock_cs;
  if negb (clock_ok c.1) then None
  else match zone with
  | None => if c.2 : bool then Some (clock_us c.1, None) else None
  | Some (mark, zone_cs) => off ← parse_zone mark zone_cs; Some (clock_us c.1, Some off)
  end.

(** [datetime.fromisoformat(s)]; [None] is [ValueError]. *)
Definition fromisoformat (s : string) : option datetime :=
  let cs := chars s in
  if (length cs <? 7)%nat then None else
  sep ← find_separator cs;
  day ← parse_isoformat_date (take sep cs);
  if (length cs <=? sep)%nat then Some (mkDatetime (day * us_per_day) None)
  else
    t ← parse_isoformat_time (drop (S sep) cs);
    Some (mkDatetime (day * us_per_day + t.1) t.2).

Example iso_in_1 : fromisoformat "2024-02-29T12:34:56.789012+00:00" =
  Some (mkDatetime 1709210096789012 (Some 0)).
Proof. reflexivity. Qed.
Example iso_in_2 : map fromisoformat ["2024-02-30"; "20240229"; "2024-W09-4"; "2024-02-29 24:00"]
  = [None; Some (mkDatetime 1709164800000000 None); Some (mkDatetime 1709164800000000 None); None].
Proof. reflexivity. Qed.
