(* ===== verification/Ledger.v ===== *)
(** The Evidence Ledger: deterministic admission (research_agent/evidence.py),
    the fail-closed mapping of observations to evidence
    (research_agent/evidence_adapters.py) and conflict detection
    (research_agent/conflicts.py). *)
From S2P Require Import Prelude PyDecimal PyText Sha256 AgentModel Preflight ToolRun PyParse.
From Stdlib Require Import Ascii.

(** * Admission: [evidence.py] *)

Record EvidenceSource := mkSource {
  es_record_type : string; es_record_id : UUID; es_checksum : string;
  es_expected_checksum : string; es_exists : bool; es_security_id : UUID; es_snapshot_id : UUID;
  es_published_at : option datetime; es_citation_id : option UUID;
  es_citation_valid : option bool; es_calculation_run_id : option UUID;
  es_calculation_input_ids : list UUID; es_formula_version : option string;
  es_metric_lineage_valid : option bool; es_payload : list (string * pyval) }.

Definition EvidenceSource_valid (s : EvidenceSource) : bool :=
  len_between 1 128 (es_record_type s) && Checksum_ok (es_checksum s) &&
  Checksum_ok (es_expected_checksum s) &&
  (Z.of_nat (length (es_calculation_input_ids s)) <=? 100) &&
  opt_forallb (λ v, str_len v <=? 128) (es_formula_version s).

(** [source.published_at is not None and source.published_at > as_of] *)
Definition published_after (context : ControlledRunContext) (source : EvidenceSource) : res bool :=
  match es_published_at source with
  | None => Ok false
  | Some t => after_as_of t context
  end.

(** [_classify] *)
Definition _classify (context : ControlledRunContext) (observation : ResearchObservationWrite)
    (evidence_type : EvidenceType) (source : EvidenceSource) (synthetic_status : SyntheticStatus)
    (real_research : bool) : res (EvidenceStatus * list string) :=
  let invalid code := Ok (EvStatus.INVALID, [code]) in
  if bool_decide (evidence_type = EvType.BLOCKED_CAPABILITY_EVIDENCE) then
    Ok (EvStatus.BLOCKED, ["BLOCKED_CAPABILITY"])
  else if bool_decide (ob_run_id observation ≠ cx_research_agent_run_id context) then
    invalid "OBSERVATION_RUN_MISMATCH"
  else if bool_decide (ob_security_id observation ≠ cx_security_id context) then
    invalid "OBSERVATION_SECURITY_MISMATCH"
  else if bool_decide (ob_snapshot_id observation ≠ cx_snapshot_id context) then
    invalid "OBSERVATION_SNAPSHOT_MISMATCH"
  else if bool_decide (ob_research_as_of_time observation ≠ cx_research_as_of_time context) then
    invalid "OBSERVATION_AS_OF_MISMATCH"
  else if real_research &&
      bool_decide (synthetic_status ∈ [Synth.SYNTHETIC_TEST_ONLY; Synth.UNKNOWN]) then
    invalid "SYNTHETIC_EVIDENCE_FOR_REAL_RUN"
  else if negb (es_exists source) then Ok (EvStatus.SOURCE_MISSING, ["SOURCE_RECORD_MISSING"])
  else if bool_decide (es_checksum source ≠ es_expected_checksum source) then
    invalid "SOURCE_CHECKSUM_MISMATCH"
  else if bool_decide (es_security_id source ≠ cx_security_id context) then
    invalid "EVIDENCE_SECURITY_MISMATCH"
  else if bool_decide (es_snapshot_id source ≠ cx_snapshot_id context) then
    invalid "EVIDENCE_SNAPSHOT_MISMATCH"
  else
    future ← published_after context source;
    if future : bool then Ok (EvStatus.FUTURE_DATA, ["FUTURE_DATA"])
    else
      let document := bool_decide (evidence_type = EvType.DOCUMENT_CITATION_EVIDENCE) in
      if document && is_none (es_citation_id source) then invalid "CITATION_MISSING"
      else if document && negb (bool_decide (es_citation_valid source = Some true)) then
        invalid "INVALID_CITATION"
      else if document && is_none (es_published_at source) then invalid "PUBLISHED_AT_UNKNOWN"
      else if bool_decide (evidence_type ∈ [EvType.DERIVED_METRIC_EVIDENCE;
                EvType.METRIC_LINEAGE_EVIDENCE]) &&
              (is_none (es_calculation_run_id source) ||
               bool_decide (es_calculation_input_ids source = []) ||
               is_none (es_formula_version source) ||
               negb (bool_decide (es_metric_lineage_valid source = Some true))) then
        invalid "INVALID_METRIC_LINEAGE"
      else Ok (EvStatus.VALID, []).

(** [published_at] of the written record: an aware UTC datetime. *)
Definition utc_option (o : option datetime) : res (option time) :=
  match o with None => Ok None | Some t => Some <$> _aware_utc t end.

(** [EvidenceLedgerService.admit] *)
Definition admit_evidence (evidence_id : UUID) (context : ControlledRunContext)
    (observation : ResearchObservationWrite) (evidence_type : EvidenceType)
    (source : EvidenceSource) (synthetic_status : SyntheticStatus) (real_research : bool)
    (created_at : time) : res ResearchEvidenceRecord :=
  classified ← _classify context observation evidence_type source synthetic_status real_research;
  published_at ← utc_option (es_published_at source);
  Ok (mkEvidence evidence_id (cx_research_agent_run_id context) (ob_id observation) evidence_type
        classified.1 "evidence-v1" (cx_security_id context) (cx_snapshot_id context)
        (cx_research_as_of_time context) (Some (es_record_type source))
        (Some (es_record_id source)) (Some (es_checksum source)) published_at
        (es_citation_id source) (es_calculation_run_id source) (es_calculation_input_ids source)
        (es_formula_version source) synthetic_status (es_payload source) classified.2 created_at).

(** * From observations to evidence: [evidence_adapters.py] *)

Definition SECURITY_MASTER_IDENTITY_SOURCE_RECORD_TYPE : string := "SECURITY_MASTER_IDENTITY_V1".

Definition _FACTUAL_EVIDENCE_TYPES : list (string * EvidenceType) :=
  [("get_normalized_financial_facts", EvType.STRUCTURED_FACT_EVIDENCE);
   ("get_financial_metrics", EvType.DERIVED_METRIC_EVIDENCE);
   ("get_metric_lineage", EvType.METRIC_LINEAGE_EVIDENCE);
   ("get_corporate_actions", EvType.CORPORATE_ACTION_EVIDENCE);
   ("search_document_chunks", EvType.DOCUMENT_CITATION_EVIDENCE)].

(** A source record validated by pydantic. *)
Definition new_source (s : EvidenceSource) : res EvidenceSource :=
  reject_if (negb (EvidenceSource_valid s)) ValidationError "EvidenceSource";; Ok s.
Definition plain_source (record_type : string) (record_id : UUID) (checksum expected : string)
    (exists_ : bool) (security_id snapshot_id : UUID) (payload : list (string * pyval)) :
    res EvidenceSource :=
  new_source (mkSource record_type record_id checksum expected exists_ security_id snapshot_id
    None None None None [] None None payload).

(** [_observation_source] *)
Definition _observation_source (observation : ResearchObservationWrite)
    (payload : list (string * pyval)) : res EvidenceSource :=
  expected ← stable_checksum (VMap (ob_payload observation));
  plain_source "research_observations" (ob_id observation) (ob_output_checksum observation)
    expected true (ob_security_id observation) (ob_snapshot_id observation) payload.

(** [str(x)] of a JSON value; the text of a container starts with its bracket. *)
Definition py_str (v : pyval) : string :=
  match v with
  | VNone => "None"
  | VBool true => "True"
  | VBool false => "False"
  | VInt z => str_of_Z z
  | VStr s => s
  | VList _ => "["
  | VMap _ => "{"
  | VFloat s | VDecSpecial s | VOther s => s
  | VDec d => str_of_dec d
  | VUuid u => uuid_str u
  | VTime t => local_isoformat (dt_local t)
  | VDate d => date_isoformat d
  end.

(** [UUID(s)]: the hexadecimal digits left without [urn:], [uuid:], braces and
    dashes. *)
Fixpoint remove_sub (part : string) (fuel : nat) (s : string) : string :=
  match fuel with
  | O => s
  | S fuel =>
      match s with
      | EmptyString => EmptyString
      | String c s' =>
          if String.prefix part s
          then remove_sub part fuel (String.substring (String.length part) (String.length s) s)
          else String c (remove_sub part fuel s')
      end
  end.
Definition remove_all (part s : string) : string := remove_sub part (String.length s) s.

Fixpoint drop_braces (cs : list string) : list string :=
  match cs with
  | c :: cs' => if bool_decide (c ∈ ["{"; "}"]) then drop_braces cs' else cs
  | [] => []
  end.
Definition strip_braces (s : string) : list string :=
  reverse (drop_braces (reverse (drop_braces (chars s)))).

Definition hex_value (c : string) : option Z :=
  match digit_value c with
  | Some d => Some d
  | None => let n := code_point (str_map ascii_lower c) in
            if between 97 102 n then Some (n - 87) else None
  end.
(** Digits with single underscores between them. *)
Fixpoint hex_digits (acc : Z) (after_digit : bool) (cs : list string) : option Z :=
  match cs with
  | [] => if after_digit then Some acc else None
  | c :: cs =>
      if bool_decide (c = "_") then if after_digit then hex_digits acc false cs else None
      else d ← hex_value c; hex_digits (16 * acc + d) true cs
  end.
(** [int(s, 16)] *)
Definition hex_int (cs : list string) : option Z :=
  let '(neg, cs) := sign_of (strip cs) in
  let cs := match cs with
    | z :: x :: rest => if bool_decide (z = "0") && bool_decide (str_map ascii_lower x = "x")
                        then match rest with
                             | u :: rest' => if bool_decide (u = "_") then rest' else rest
                             | [] => []
                             end
                        else cs
    | _ => cs
    end in
  v ← hex_digits 0 false cs; Some (if neg then - v else v).

Fixpoint hex_text (n : nat) (v : Z) : string :=
  match n with
  | O => ""
  | S n => hex_text n (v / 16) +:+ String (hex_digit (Z.to_N (v mod 16))) ""
  end.
Definition uuid_of_int (v : Z) : UUID :=
  mkUUID (hex_text 8 (v / 2 ^ 96) +:+ "-" +:+ hex_text 4 (v / 2 ^ 80) +:+ "-" +:+
          hex_text 4 (v / 2 ^ 64) +:+ "-" +:+ hex_text 4 (v / 2 ^ 48) +:+ "-" +:+ hex_text 12 v).
Definition parse_uuid (s : string) : option UUID :=
  let cs := filter (λ c, c ≠ "-") (strip_braces (remove_all "uuid:" (remove_all "urn:" s))) in
  if (length cs =? 32)%nat then
    v ← hex_int cs; if (0 <=? v) && (v <? 2 ^ 128) then Some (uuid_of_int v) else None
  else None.

Example uuid_1 : parse_uuid "{12345678-1234-5678-1234-56789ABCDEF0}" =
  Some (mkUUID "12345678-1234-5678-1234-56789abcdef0").
Proof. reflexivity. Qed.

(** [_missing_source] *)
Definition _missing_source (tool_name : string) (observation : ResearchObservationWrite) :
    res EvidenceSource :=
  let source_id :=
    match dict_get (ob_payload observation) "source_record_ids" with
    | Some (VList (x :: _)) => default (ob_id observation) (parse_uuid (py_str x))
    | _ => ob_id observation
    end in
  expected ← stable_checksum (VMap (ob_payload observation));
  plain_source (tool_name +:+ "_source") source_id (ob_output_checksum observation) expected false
    (ob_security_id observation) (ob_snapshot_id observation) [("tool_name", VStr tool_name)].

(** [_snapshot_checksum] *)
Definition _snapshot_checksum (payload : list (string * pyval)) : option string :=
  match dict_get payload "data" with
  | Some (VList [VMap d]) =>
      match dict_get d "checksum" with Some (VStr s) => Some s | _ => None end
  | _ => None
  end.

(** [_snapshot_source], the snapshot repository being a function. *)
Definition _snapshot_source (get_snapshot : UUID → option DataSnapshotRecord)
    (observation : ResearchObservationWrite) : res EvidenceSource :=
  match get_snapshot (ob_snapshot_id observation) with
  | Some snapshot =>
      match sn_checksum snapshot, _snapshot_checksum (ob_payload observation) with
      | Some checksum, Some expected_checksum =>
          plain_source "data_snapshots" (sn_id snapshot) checksum expected_checksum true
            (sn_security_id snapshot) (sn_id snapshot)
            [("snapshot_id", VStr (uuid_str (sn_id snapshot)));
             ("snapshot_status", VStr (sn_status snapshot));
             ("quality_code", VStr (if bool_decide (sn_status snapshot = "PARTIAL")
                                    then "SNAPSHOT_PARTIAL" else "SNAPSHOT_COMPLETE"))]
      | _, _ => _missing_source "get_data_snapshot" observation
      end
  | None => _missing_source "get_data_snapshot" observation
  end.

(** [_first_warning(observation) or f"{tool_name.upper()}_..."] on an ASCII
    Tool name. *)
Definition warning_or (observation : ResearchObservationWrite) (tool_name suffix : string) : string :=
  match ob_warnings observation with
  | w :: _ => if bool_decide (w = "") then str_map ascii_upper tool_name +:+ suffix else w
  | [] => str_map ascii_upper tool_name +:+ suffix
  end.
Definition _capability_code (tool_name : string) (observation : ResearchObservationWrite) : string :=
  warning_or observation tool_name "_BLOCKED".
Definition _quality_code (tool_name : string) (observation : ResearchObservationWrite) : string :=
  warning_or observation tool_name "_PARTIAL".

(** [_candidate] *)
Definition _candidate (get_snapshot : UUID → option DataSnapshotRecord) (tool_name : string)
    (observation : ResearchObservationWrite) : res (EvidenceType * EvidenceSource) :=
  if bool_decide (ob_status observation = ObsStatus.BLOCKED) then
    source ← _observation_source observation
      [("capability_code", VStr (_capability_code tool_name observation));
       ("tool_name", VStr tool_name)];
    Ok (EvType.BLOCKED_CAPABILITY_EVIDENCE, source)
  else if bool_decide (tool_name = "get_data_snapshot") then
    source ← _snapshot_source get_snapshot observation; Ok (EvType.SNAPSHOT_EVIDENCE, source)
  else if bool_decide (ob_status observation = ObsStatus.PARTIAL) then
    source ← _observation_source observation
      [("quality_code", VStr (_quality_code tool_name observation));
       ("tool_name", VStr tool_name)];
    Ok (EvType.DATA_QUALITY_EVIDENCE, source)
  else
    source ← _missing_source tool_name observation;
    Ok (default EvType.DATA_QUALITY_EVIDENCE (dict_get _FACTUAL_EVIDENCE_TYPES tool_name), source).

(** [ProductionObservationEvidenceAdapter.admit] *)
Definition adapter_admit (get_snapshot : UUID → option DataSnapshotRecord) (evidence_id : UUID)
    (now : time) (context : ControlledRunContext) (tool_name : string)
    (observation : ResearchObservationWrite) (real_research : bool) :
    res ResearchEvidenceRecord :=
  candidate ← _candidate get_snapshot tool_name observation;
  admit_evidence evidence_id context observation candidate.1 candidate.2 (ob_synthetic_status observation)
    real_research now.

(** The fields of [SecurityDetail] the identity projection reads. *)
Record SecurityDetail := mkDetail {
  sd_security_id : UUID; sd_issuer_id : UUID; sd_legal_name : string; sd_symbol : string;
  sd_mic : string }.

(** [security_master_identity_projection] *)
Definition security_master_identity_projection (d : SecurityDetail) : list (string * pyval) :=
  [("security_id", VStr (uuid_str (sd_security_id d)));
   ("issuer_id", VStr (uuid_str (sd_issuer_id d))); ("issuer", VStr (sd_legal_name d));
   ("symbol", VStr (sd_symbol d)); ("exchange_mic", VStr (sd_mic d));
   ("exchange", VStr (sd_mic d))].

(** [security_master_identity_checksum] *)
Definition security_master_identity_checksum (projection : list (string * pyval)) : res string :=
  stable_checksum (VMap [("source_record_type", VStr SECURITY_MASTER_IDENTITY_SOURCE_RECORD_TYPE);
                         ("projection", VMap projection)]).

(** [_security_identity_source] *)
Definition _security_identity_source (context : ControlledRunContext)
    (observation : ResearchObservationWrite) (detail : option SecurityDetail) :
    res EvidenceSource :=
  match detail with
  | None =>
      checksum ← security_master_identity_checksum (ob_payload observation);
      plain_source SECURITY_MASTER_IDENTITY_SOURCE_RECORD_TYPE (cx_security_id context) checksum
        checksum false (cx_security_id context) (cx_snapshot_id context) []
  | Some d =>
      let projection := security_master_identity_projection d in
      expected ← security_master_identity_checksum (ob_payload observation);
      actual ← stable_checksum (VMap (ob_payload observation));
      expected ← (if bool_decide (ob_output_checksum observation ≠ actual) then
          stable_checksum (VMap
            [("invalid_observation_checksum", VStr (ob_output_checksum observation));
             ("projection", VMap (ob_payload observation))])
        else Ok expected);
      checksum ← security_master_identity_checksum projection;
      plain_source SECURITY_MASTER_IDENTITY_SOURCE_RECORD_TYPE (sd_security_id d) checksum
        expected true (sd_security_id d) (cx_snapshot_id context) projection
  end.

(** [admit_security_identity] *)
Definition admit_security_identity (get_security : UUID → option SecurityDetail)
    (evidence_id : UUID) (now : time) (context : ControlledRunContext)
    (observation : ResearchObservationWrite) (real_research : bool) :
    res ResearchEvidenceRecord :=
  source ← _security_identity_source context observation (get_security (cx_security_id context));
  admit_evidence evidence_id context observation EvType.SECURITY_MASTER_EVIDENCE source
    (ob_synthetic_status observation) real_research now.

(** * Conflicts: [conflicts.py] *)

Definition _REASON_ORDER : list string :=
  ["SECURITY_CONFLICT"; "SNAPSHOT_CONFLICT"; "FUTURE_DATA_CONFLICT"; "SYNTHETIC_REAL_CONFLICT";
   "CURRENCY_CONFLICT"; "UNIT_CONFLICT"; "VALUE_CONFLICT"; "PROVIDER_CONFLICT";
   "RESTATEMENT_CONFLICT"; "DOCUMENT_ASSERTION_CONFLICT"].

Definition payload_get (e : ResearchEvidenceRecord) (k : string) : pyval :=
  default VNone (dict_get (e_payload e) k).

(** [itertools.combinations(l, 2)] *)
Fixpoint combinations2 {A} (l : list A) : list (A * A) :=
  match l with [] => [] | x :: l => map (pair x) l ++ combinations2 l end.

(** [_same_subject] *)
Definition _same_subject (left right : ResearchEvidenceRecord) : bool :=
  py_eqb (payload_get left "metric_code") (payload_get right "metric_code") &&
  py_eqb (payload_get left "period") (payload_get right "period").

Definition COMPARISONS : list (string * string) :=
  [("currency_code", "CURRENCY_CONFLICT"); ("unit", "UNIT_CONFLICT"); ("value", "VALUE_CONFLICT");
   ("provider", "PROVIDER_CONFLICT"); ("restatement_version", "RESTATEMENT_CONFLICT");
   ("document_assertion", "DOCUMENT_ASSERTION_CONFLICT")].

Definition is_vnone (v : pyval) : bool := match v with VNone => true | _ => false end.
Definition differ (left right : ResearchEvidenceRecord) (field : string) : bool :=
  let l := payload_get left field in
  let r := payload_get right field in
  negb (is_vnone l) && negb (is_vnone r) && negb (py_eqb l r).

(** [_compare_payload], adding to the set of reasons. *)
Definition _compare_payload (left right : ResearchEvidenceRecord) (reasons : gset string) :
    gset string :=
  foldl (λ acc c, if differ left right c.1 then {[c.2]} ∪ acc else acc) reasons COMPARISONS.

Definition distinct {A} `{Countable A} (l : list A) : Z :=
  Z.of_nat (size (list_to_set l : gset A)).

(** The reasons found over the whole set. *)
Definition conflict_reasons (evidence : list ResearchEvidenceRecord) : gset string :=
  let synthetic := map e_synthetic_status evidence in
  let add (b : bool) (reason : string) (acc : gset string) := if b then {[reason]} ∪ acc else acc in
  let whole :=
    add (1 <? distinct (map e_security_id evidence)) "SECURITY_CONFLICT"
      (add (1 <? distinct (map e_snapshot_id evidence)) "SNAPSHOT_CONFLICT"
        (add (existsb (λ e, bool_decide (e_status e = EvStatus.FUTURE_DATA)) evidence)
           "FUTURE_DATA_CONFLICT"
          (add (existsb (λ s, bool_decide (s ∈ [Synth.REAL_VERIFIED; Synth.FIXTURE_REAL_EXCERPT]))
                 synthetic && bool_decide (Synth.SYNTHETIC_TEST_ONLY ∈ synthetic))
             "SYNTHETIC_REAL_CONFLICT" ∅))) in
  foldl (λ acc p, if _same_subject p.1 p.2 then _compare_payload p.1 p.2 acc else acc)
    whole (combinations2 evidence).

(** [EvidenceConflictDetector.detect] *)
Definition detect (evidence : list ResearchEvidenceRecord) : ConflictResult :=
  let reasons := conflict_reasons evidence in
  let ordered := filter (λ r, r ∈ reasons) _REASON_ORDER in
  let found := negb (bool_decide (ordered = [])) in
  mkConflict found ordered (if found then sort_uuid (map e_id evidence) else []).

(** * Properties *)

(** The declarative conditions for evidence to be eligible. *)
Record eligible (context : ControlledRunContext) (observation : ResearchObservationWrite)
    (evidence_type : EvidenceType) (source : EvidenceSource) (synthetic_status : SyntheticStatus)
    (real_research : bool) : Prop := {
  el_not_blocked : evidence_type ≠ EvType.BLOCKED_CAPABILITY_EVIDENCE;
  el_run : ob_run_id observation = cx_research_agent_run_id context;
  el_security : ob_security_id observation = cx_security_id context;
  el_snapshot : ob_snapshot_id observation = cx_snapshot_id context;
  el_as_of : ob_research_as_of_time observation = cx_research_as_of_time context;
  el_real : real_research = true →
    synthetic_status = Synth.REAL_VERIFIED ∨ synthetic_status = Synth.FIXTURE_REAL_EXCERPT;
  el_exists : es_exists source = true;
  el_checksum : es_checksum source = es_expected_checksum source;
  el_source_security : es_security_id source = cx_security_id context;
  el_source_snapshot : es_snapshot_id source = cx_snapshot_id context;
  el_published : ∀ t, es_published_at source = Some t → not_future context t;
  el_document : evidence_type = EvType.DOCUMENT_CITATION_EVIDENCE →
    is_Some (es_citation_id source) ∧ es_citation_valid source = Some true ∧
    is_Some (es_published_at source);
  el_lineage : evidence_type ∈ [EvType.DERIVED_METRIC_EVIDENCE; EvType.METRIC_LINEAGE_EVIDENCE] →
    is_Some (es_calculation_run_id source) ∧ es_calculation_input_ids source ≠ [] ∧
    is_Some (es_formula_version source) ∧ es_metric_lineage_valid source = Some true }.

Lemma after_as_of_iff context t : after_as_of t context = Ok false ↔ not_future context t.
Proof.
  rewrite <- reject_future_Ok. unfold reject_future. rewrite bind_Ok.
  setoid_rewrite reject_if_Ok. naive_solver.
Qed.

Lemma published_after_iff context source :
  published_after context source = Ok false ↔
  ∀ t, es_published_at source = Some t → not_future context t.
Proof.
  unfold published_after. destruct (es_published_at source) as [t|]; [|naive_solver].
  rewrite after_as_of_iff. naive_solver.
Qed.

Lemma if_invalid {A} (b : bool) (x : A) m v : x ≠ v →
  (if b then Ok x else m) = Ok v ↔ b = false ∧ m = Ok v.
Proof. destruct b; naive_solver. Qed.

Lemma future_valid (m : res bool) (x v : EvidenceStatus * list string) k : x ≠ v →
  (f ← m; if f : bool then Ok x else k) = Ok v ↔ m = Ok false ∧ k = Ok v.
Proof.
  intros Hx. rewrite bind_Ok. split; [|intros [-> ?]; by exists false].
  intros ([] & -> & H); [congruence|done].
Qed.

Lemma real_iff (real : bool) (status : SyntheticStatus) :
  real && bool_decide (status ∈ [Synth.SYNTHETIC_TEST_ONLY; Synth.UNKNOWN]) = false ↔
  (real = true → status = Synth.REAL_VERIFIED ∨ status = Synth.FIXTURE_REAL_EXCERPT).
Proof. destruct real, status; cbn; naive_solver. Qed.

Lemma guarded_false (P : Prop) `{Decision P} (b : bool) :
  bool_decide P && b = false ↔ (P → b = false).
Proof. destruct (decide P); [rewrite bool_decide_eq_true_2|rewrite bool_decide_eq_false_2]; naive_solver. Qed.

Lemma eq_stable {A} `{EqDecision A} (x y : A) : ¬ x ≠ y ↔ x = y.
Proof. destruct (decide (x = y)); naive_solver. Qed.

Lemma lineage_false source :
  is_none (es_calculation_run_id source) || bool_decide (es_calculation_input_ids source = []) ||
  is_none (es_formula_version source) ||
  negb (bool_decide (es_metric_lineage_valid source = Some true)) = false ↔
  is_Some (es_calculation_run_id source) ∧ es_calculation_input_ids source ≠ [] ∧
  is_Some (es_formula_version source) ∧ es_metric_lineage_valid source = Some true.
Proof.
  rewrite !orb_false_iff, !is_none_false, bool_decide_eq_false, negb_false_iff,
    bool_decide_eq_true. tauto.
Qed.

Lemma classify_valid context observation evidence_type source synthetic_status real :
  _classify context observation evidence_type source synthetic_status real
    = Ok (EvStatus.VALID, []) ↔
  eligible context observation evidence_type source synthetic_status real.
Proof.
  unfold _classify. cbv zeta. rewrite !if_invalid, future_valid, !if_invalid by done.
  rewrite published_after_iff, !guarded_false, real_iff, lineage_false, !bool_decide_eq_false,
    !negb_false_iff, !is_none_false, bool_decide_eq_true, !eq_stable.
  split; [intros H; split; tauto|intros []; tauto].
Qed.

(** The ledger marks evidence VALID exactly when it is eligible: bound to
    the run, its security, snapshot and research time, from an existing source
    with a matching checksum in the same scope, real when the research is real,
    not published after the research time, with a verified dated citation for a
    document and a complete calculation lineage for a metric. *)
Theorem classify_valid_iff context observation evidence_type source synthetic_status real :
  _classify context observation evidence_type source synthetic_status real
    = Ok (EvStatus.VALID, []) ↔
  eligible context observation evidence_type source synthetic_status real.
Proof. apply classify_valid. Qed.

Lemma combinations2_spec {A} (l : list A) x y :
  (x, y) ∈ combinations2 l ↔ ∃ l1 l2 l3, l = l1 ++ x :: l2 ++ y :: l3.
Proof.
  induction l as [|z l IH]; cbn.
  - rewrite elem_of_nil. split; [done|]. by intros ([] & ? & ? & ?).
  - rewrite elem_of_app, IH, list_elem_of_fmap. split.
    + intros [(y' & [= -> ->] & Hy)|(l1 & l2 & l3 & ->)].
      * apply list_elem_of_split in Hy as (l2 & l3 & ->). by exists [], l2, l3.
      * by exists (z :: l1), l2, l3.
    + intros ([|z' l1] & l2 & l3 & [= <- ->]).
      * left. exists y. split; [done|]. set_solver.
      * right. by exists l1, l2, l3.
Qed.

(** Folds that add elements to a set. *)
Lemma fold_union_spec {A} (f : gset string → A → gset string) (P : A → string → Prop) l :
  (∀ acc x r, r ∈ f acc x ↔ r ∈ acc ∨ P x r) →
  ∀ acc r, r ∈ foldl f acc l ↔ r ∈ acc ∨ ∃ x, x ∈ l ∧ P x r.
Proof.
  intros Hf. induction l as [|x l IH]; intros acc r; cbn.
  - split; [by left|]. intros [?|(y & Hy & _)]; [done|by apply elem_of_nil in Hy].
  - rewrite IH, Hf. setoid_rewrite elem_of_cons. split.
    + intros [[?|?]|(y & ? & ?)]; [by left|right; exists x; auto|right; exists y; auto].
    + intros [?|(y & [->|?] & ?)]; [tauto|tauto|right; by exists y].
Qed.

(** One reason of a pair. *)
Lemma compare_payload_spec left right reasons r :
  r ∈ _compare_payload left right reasons ↔
  r ∈ reasons ∨ ∃ field, (field, r) ∈ COMPARISONS ∧ differ left right field = true.
Proof.
  unfold _compare_payload.
  rewrite (fold_union_spec _ (λ c r, differ left right c.1 = true ∧ r = c.2)).
  - split; (intros [?|H]; [by left|right]).
    + destruct H as ([f c] & Hin & Hd & ->). by exists f.
    + destruct H as (f & Hin & Hd). by exists (f, r).
  - intros acc c r'. destruct (differ left right c.1);
      [rewrite elem_of_union, elem_of_singleton|]; naive_solver.
Qed.

(** Two records about one subject disagree on a field. *)
Definition disagree (evidence : list ResearchEvidenceRecord) (field : string) : Prop :=
  ∃ left right, (left, right) ∈ combinations2 evidence ∧ _same_subject left right = true ∧
    differ left right field = true.

Lemma pairs_spec pairs reasons r :
  r ∈ foldl (λ acc p, if _same_subject p.1 p.2 then _compare_payload p.1 p.2 acc else acc)
        reasons pairs ↔
  r ∈ reasons ∨ ∃ left right field, (left, right) ∈ pairs ∧ _same_subject left right = true ∧
    (field, r) ∈ COMPARISONS ∧ differ left right field = true.
Proof.
  rewrite (fold_union_spec _ (λ p r, _same_subject p.1 p.2 = true ∧
    ∃ field, (field, r) ∈ COMPARISONS ∧ differ p.1 p.2 field = true)).
  - split; (intros [?|H]; [by left|right]).
    + destruct H as ([a b] & Hin & Hs & f & Hf & Hd). by exists a, b, f.
    + destruct H as (a & b & f & Hin & Hs & Hf & Hd). exists (a, b). eauto.
  - intros acc p r'. destruct (_same_subject p.1 p.2); [rewrite compare_payload_spec|]; naive_solver.
Qed.

Lemma distinct_one {A} `{Countable A} (l : list A) :
  (1 <? distinct l) = false ↔ ∀ x y, x ∈ l → y ∈ l → x = y.
Proof.
  unfold distinct. rewrite Z.ltb_ge. split.
  - intros Hs x y Hx Hy.
    assert (Hxl : x ∈ (list_to_set l : gset A)) by (by apply elem_of_list_to_set).
    assert (Hyl : y ∈ (list_to_set l : gset A)) by (by apply elem_of_list_to_set).
    destruct (decide (x = y)) as [|Hne]; [done|].
    assert (Hsub : {[x; y]} ⊆ (list_to_set l : gset A)) by set_solver.
    apply subseteq_size in Hsub. rewrite size_union, !size_singleton in Hsub by set_solver. lia.
  - intros Hall. destruct l as [|x l]; [cbn; rewrite size_empty; lia|].
    assert (list_to_set (x :: l) ⊆ ({[x]} : gset A)) as Hsub.
    { intros y Hy%elem_of_list_to_set. apply elem_of_singleton, Hall; [done|left]. }
    apply subseteq_size in Hsub. rewrite size_singleton in Hsub. lia.
Qed.

(** Evidence with nothing to reconcile. *)
Record consistent (evidence : list ResearchEvidenceRecord) : Prop := {
  co_security : ∀ a b, a ∈ evidence → b ∈ evidence → e_security_id a = e_security_id b;
  co_snapshot : ∀ a b, a ∈ evidence → b ∈ evidence → e_snapshot_id a = e_snapshot_id b;
  co_future : ∀ a, a ∈ evidence → e_status a ≠ EvStatus.FUTURE_DATA;
  co_synthetic : ∀ a b, a ∈ evidence → b ∈ evidence →
    e_synthetic_status a ∈ [Synth.REAL_VERIFIED; Synth.FIXTURE_REAL_EXCERPT] →
    e_synthetic_status b ≠ Synth.SYNTHETIC_TEST_ONLY;
  co_fields : ∀ field reason, (field, reason) ∈ COMPARISONS → ¬ disagree evidence field }.

Lemma distinct_map_one {A B} `{Countable B} (f : A → B) (l : list A) :
  (1 <? distinct (map f l)) = false ↔ ∀ a b, a ∈ l → b ∈ l → f a = f b.
Proof.
  rewrite distinct_one. setoid_rewrite list_elem_of_fmap. split; [|naive_solver].
  intros Hall a b Ha Hb. apply Hall; eauto.
Qed.


Lemma synthetic_false evidence :
  existsb (λ s, bool_decide (s ∈ [Synth.REAL_VERIFIED; Synth.FIXTURE_REAL_EXCERPT]))
    (map e_synthetic_status evidence) &&
  bool_decide (Synth.SYNTHETIC_TEST_ONLY ∈ map e_synthetic_status evidence) = false ↔
  ∀ a b, a ∈ evidence → b ∈ evidence →
    e_synthetic_status a ∈ [Synth.REAL_VERIFIED; Synth.FIXTURE_REAL_EXCERPT] →
    e_synthetic_status b ≠ Synth.SYNTHETIC_TEST_ONLY.
Proof.
  rewrite andb_false_iff, existsb_false, bool_decide_eq_false. split.
  - intros [H|H] a b Ha Hb Hs Ht.
    + specialize (H (e_synthetic_status a)). rewrite bool_decide_eq_false in H.
      apply H; [|done]. apply list_elem_of_fmap. by exists a.
    + apply H, list_elem_of_fmap. by exists b.
  - intros H. destruct (decide (Synth.SYNTHETIC_TEST_ONLY ∈ map e_synthetic_status evidence))
      as [Hin|]; [left|by right].
    apply list_elem_of_fmap in Hin as (b & Hb & Hin). intros s Hs.
    apply list_elem_of_fmap in Hs as (a & -> & Ha). apply bool_decide_eq_false.
    intros Hr. by eapply (H a b).
Qed.

Lemma conflict_reasons_spec evidence r :
  r ∈ conflict_reasons evidence ↔
  (r = "SECURITY_CONFLICT" ∧ (1 <? distinct (map e_security_id evidence)) = true) ∨
  (r = "SNAPSHOT_CONFLICT" ∧ (1 <? distinct (map e_snapshot_id evidence)) = true) ∨
  (r = "FUTURE_DATA_CONFLICT" ∧
   existsb (λ e, bool_decide (e_status e = EvStatus.FUTURE_DATA)) evidence = true) ∨
  (r = "SYNTHETIC_REAL_CONFLICT" ∧
   existsb (λ s, bool_decide (s ∈ [Synth.REAL_VERIFIED; Synth.FIXTURE_REAL_EXCERPT]))
    (map e_synthetic_status evidence) &&
   bool_decide (Synth.SYNTHETIC_TEST_ONLY ∈ map e_synthetic_status evidence) = true) ∨
  ∃ field, (field, r) ∈ COMPARISONS ∧ disagree evidence field.
Proof.
  assert (Hadd : ∀ (b : bool) (x : string) (acc : gset string),
    r ∈ (if b then {[x]} ∪ acc else acc) ↔ (r = x ∧ b = true) ∨ r ∈ acc).
  { intros [] x acc; [rewrite elem_of_union, elem_of_singleton|]; naive_solver. }
  unfold conflict_reasons. cbv zeta beta. rewrite pairs_spec, !Hadd, elem_of_empty.
  unfold disagree. naive_solver.
Qed.

(** Conflict detection neither misses nor invents a conflict: evidence is
    reported free of conflict exactly when it has one security and one
    snapshot, no future data, no mix of real and synthetic records and, for
    every two records about the same metric and period, equal currency, unit,
    value, provider, restatement and assertion wherever both state one; a
    report lists only found reasons, in the fixed order, with every evidence
    identifier in order. *)
Theorem detect_iff evidence :
  (conflicting (detect evidence) = false ↔ consistent evidence) ∧
  (∀ r, r ∈ reason_codes (detect evidence) ↔ r ∈ conflict_reasons evidence) ∧
  reason_codes (detect evidence) `sublist_of` _REASON_ORDER ∧
  (conflicting (detect evidence) = true → evidence_ids (detect evidence) ≡ₚ map e_id evidence).
Proof.
  assert (Hr : ∀ r, r ∈ reason_codes (detect evidence) ↔ r ∈ conflict_reasons evidence).
  { intros r. unfold detect. cbn [reason_codes conflicting evidence_ids]. rewrite list_elem_of_filter. split; [tauto|].
    intros H. split; [done|]. apply conflict_reasons_spec in H.
    destruct H as [[-> _]|[[-> _]|[[-> _]|[[-> _]|(f & Hf & _)]]]];
      try (apply (bool_decide_unpack _); vm_compute; exact I).
    unfold COMPARISONS in Hf. rewrite !elem_of_cons, elem_of_nil in Hf.
    destruct_or! Hf; try done; injection Hf as [= -> ->];
      apply (bool_decide_unpack _); vm_compute; exact I. }
  split_and!; [|exact Hr| |].
  - transitivity (∀ r, r ∉ conflict_reasons evidence).
    + setoid_rewrite <- Hr. unfold detect. cbn [reason_codes conflicting evidence_ids]. rewrite negb_false_iff, bool_decide_eq_true.
      split; [intros -> r; apply not_elem_of_nil|apply elem_of_nil_inv].
    + setoid_rewrite conflict_reasons_spec. split.
      * intros H. split.
        -- apply distinct_map_one, not_true_iff_false. intros Ht. apply (H "SECURITY_CONFLICT"). tauto.
        -- apply distinct_map_one, not_true_iff_false. intros Ht. apply (H "SNAPSHOT_CONFLICT"). tauto.
        -- intros a Ha Hs. apply (H "FUTURE_DATA_CONFLICT"). do 2 right. left. split; [done|].
           apply existsb_exists. exists a. split; [by apply list_elem_of_In|].
           by apply bool_decide_eq_true.
        -- apply synthetic_false, not_true_iff_false. intros Ht.
           apply (H "SYNTHETIC_REAL_CONFLICT"). tauto.
        -- intros f r Hf Hd. apply (H r). do 4 right. by exists f.
      * intros [H1 H2 H3 H4 H5] r.
        apply distinct_map_one in H1, H2. apply synthetic_false in H4.
        intros [[_ H]|[[_ H]|[[_ H]|[[_ H]|(f & Hf & H)]]]]; try congruence.
        -- apply existsb_exists in H as (a & Ha%list_elem_of_In & Hs%bool_decide_eq_true).
           by apply (H3 a).
        -- by apply (H5 f r).
  - unfold detect. cbn [reason_codes conflicting evidence_ids]. apply sublist_filter.
  - unfold detect. cbn [reason_codes conflicting evidence_ids]. intros ->. apply sort_by_perm.
Qed.

Lemma classify_valid_reasons context observation ty source synthetic real ws :
  _classify context observation ty source synthetic real = Ok (EvStatus.VALID, ws) → ws = [].
Proof.
  unfold _classify. cbv zeta. intros H. repeat (destruct (bool_decide _); [done|]).
  destruct (real && _); [done|]. destruct (negb (es_exists source)); [done|].
  repeat (destruct (bool_decide _); [done|]). apply bind_Ok in H as ([] & _ & H); [done|].
  repeat (destruct (_ && _); [done|]). by injection H as <-.
Qed.

Lemma admit_Ok eid context observation ty source synthetic real now e :
  admit_evidence eid context observation ty source synthetic real now = Ok e →
  e_evidence_type e = ty ∧ e_run_id e = cx_research_agent_run_id context ∧
  e_security_id e = cx_security_id context ∧ e_snapshot_id e = cx_snapshot_id context ∧
  e_payload e = es_payload source ∧ e_source_checksum e = Some (es_checksum source) ∧
  (e_status e = EvStatus.VALID → eligible context observation ty source synthetic real).
Proof.
  unfold admit_evidence. intros H. apply bind_Ok in H as ([st ws] & Hc & H).
  apply bind_Ok in H as (p & _ & [= <-]). split_and!; try done. cbn. intros ->.
  assert (ws = []) as -> by by eapply classify_valid_reasons. by apply classify_valid.
Qed.

Lemma plain_source_Ok ty id ck ex b sec snap payload source :
  plain_source ty id ck ex b sec snap payload = Ok source →
  source = mkSource ty id ck ex b sec snap None None None None [] None None payload.
Proof. unfold plain_source, new_source. by intros [_ [= <-]]%guard_seq. Qed.

Lemma missing_source_Ok tool observation source :
  _missing_source tool observation = Ok source → es_exists source = false.
Proof.
  unfold _missing_source. intros H. apply bind_Ok in H as (ck & _ & H).
  by apply plain_source_Ok in H as ->.
Qed.

(** The adapter is fail-closed: evidence it admits as VALID is never a
    fact, metric, lineage, corporate action or document.  It is either the
    run's snapshot, whose stored checksum is the one the Tool reported, or a
    data-quality note on a PARTIAL observation whose payload still has its
    recorded checksum. *)
Theorem adapter_fail_closed get_snapshot eid now context tool observation real e :
  adapter_admit get_snapshot eid now context tool observation real = Ok e →
  e_status e = EvStatus.VALID →
  (e_evidence_type e = EvType.SNAPSHOT_EVIDENCE ∧ tool = "get_data_snapshot" ∧
   ∃ snapshot, get_snapshot (cx_snapshot_id context) = Some snapshot ∧
     sn_security_id snapshot = cx_security_id context ∧
     sn_checksum snapshot = _snapshot_checksum (ob_payload observation) ∧
     is_Some (sn_checksum snapshot)) ∨
  (e_evidence_type e = EvType.DATA_QUALITY_EVIDENCE ∧ ob_status observation = ObsStatus.PARTIAL ∧
   stable_checksum (VMap (ob_payload observation)) = Ok (ob_output_checksum observation)).
Proof.
  unfold adapter_admit. intros H Hv. apply bind_Ok in H as ([ty source] & Hc & H).
  apply admit_Ok in H as (Hty & _ & _ & _ & _ & _ & Hel). specialize (Hel Hv).
  cbn in Hel, Hty. unfold _candidate in Hc.
  destruct Hel as [Hnb _ _ Hsnap _ _ Hex Hck Hsec _ _ _ _].
  case_bool_decide; [apply bind_Ok in Hc as (s & _ & [= <- <-]); done|].
  case_bool_decide as Htool.
  { apply bind_Ok in Hc as (s & Hs & [= <- <-]). left. split_and!; [done..|].
    unfold _snapshot_source in Hs. rewrite Hsnap in Hs.
    destruct (get_snapshot _) as [snap|] eqn:Eg; [|apply missing_source_Ok in Hs; congruence].
    destruct (sn_checksum snap) as [ck|] eqn:Ec, (_snapshot_checksum _) as [ck'|] eqn:Ec';
      try (apply missing_source_Ok in Hs; congruence).
    apply plain_source_Ok in Hs as ->. cbn in *. exists snap. subst. rewrite Ec. eauto. }
  case_bool_decide as Hp.
  { apply bind_Ok in Hc as (s & Hs & [= <- <-]). right. split_and!; [done..|].
    unfold _observation_source in Hs. apply bind_Ok in Hs as (x & Hx & Hs).
    apply plain_source_Ok in Hs as ->. cbn in *. congruence. }
  apply bind_Ok in Hc as (s & Hs & [= <- <-]). apply missing_source_Ok in Hs. congruence.
Qed.

(** * Examples *)

Module LedgerExamples.
Import PreflightExamples.

Definition partial_observation : ResearchObservationWrite :=
  mkObservation (mkUUID "ob") (mkUUID "run") (mkUUID "st") None ObsType.DATA_QUALITY
    ObsStatus.PARTIAL "observation-v1" [] empty_schema (mkUUID "sec") (mkUUID "snap") 100
    Synth.REAL_VERIFIED ["STALE_DATA"] 100.
Definition quality_evidence : ResearchEvidenceRecord :=
  mkEvidence (mkUUID "ev") (mkUUID "run") (mkUUID "ob") EvType.DATA_QUALITY_EVIDENCE EvStatus.VALID
    "evidence-v1" (mkUUID "sec") (mkUUID "snap") 100 (Some "research_observations")
    (Some (mkUUID "ob")) (Some empty_schema) None None None [] None Synth.REAL_VERIFIED
    [("quality_code", VStr "STALE_DATA"); ("tool_name", VStr "get_latest_close")] [] 101.

End LedgerExamples.

Lemma adapter_fail_closed_witness :
  e_status LedgerExamples.quality_evidence = EvStatus.VALID ∧
  (e_evidence_type LedgerExamples.quality_evidence = EvType.SNAPSHOT_EVIDENCE ∨
   e_evidence_type LedgerExamples.quality_evidence = EvType.DATA_QUALITY_EVIDENCE).
Proof.
  split; [reflexivity|].
  destruct (adapter_fail_closed (λ _, None) (mkUUID "ev") 101 PreflightExamples.context
    "get_latest_close" LedgerExamples.partial_observation true LedgerExamples.quality_evidence)
    as [[H _]|[H _]]; [vm_compute; reflexivity|reflexivity|left; exact H|right; exact H].
Defined.
