(* ===== verification/Claims.v ===== *)
(** Claims: the deterministic builder and the support validator
    (research_agent/claims.py), the pipeline that persists them
    (research_agent/claim_pipeline.py, with the claim tables of
    db/repositories/research_agent.py) and the package assembler
    (research_agent/packages.py). *)
From S2P Require Import Prelude PyDecimal PyText Sha256 AgentModel PlanModel Preflight.
From S2P Require Import ToolRun PyParse Ledger.
From Stdlib Require Import Ascii.

(** * The builder *)

Record ResearchClaimProposal := mkProposal {
  pp_claim :> ResearchClaimWrite; proposed_evidence_ids : list UUID }.

(** A claim validated by pydantic. *)
Definition new_proposal (c : ResearchClaimWrite) (ids : list UUID) : res ResearchClaimProposal :=
  reject_if (negb (ResearchClaimWrite_valid c)) ValidationError "ResearchClaimProposal";;
  Ok (mkProposal c ids).

Definition BUILDER_VERSION : string := "deterministic-claim-builder-v1".

(** [_basic] *)
Definition _basic (id : UUID) (evidence : ResearchEvidenceRecord) (created_at : time)
    (claim_type : ClaimType) (statement_code : string) : res ResearchClaimProposal :=
  new_proposal (mkClaim id (e_run_id evidence) claim_type Lifecycle.CANDIDATE None statement_code
    None None None None None None BUILDER_VERSION None created_at None) [e_id evidence].

(** [raw.replace("Z", "+00:00")] *)
Fixpoint replace_z (s : string) : string :=
  match s with
  | EmptyString => EmptyString
  | String c s => if bool_decide (c = "Z"%char) then "+00:00" +:+ replace_z s
                  else String c (replace_z s)
  end.

Definition payload_str (e : ResearchEvidenceRecord) (k : string) : option string :=
  v ← dict_get (e_payload e) k; as_str v.

(** What the [try] of [_numeric] reads: value, unit, period, as-of time, basis
    and code; [None] when the method returns [None]. *)
Record numeric_fields := mkNumeric {
  nf_value : decimal; nf_unit : string; nf_period : string; nf_as_of : datetime;
  nf_basis : string; nf_code : string }.
Definition read_numeric (evidence : ResearchEvidenceRecord) : option numeric_fields :=
  raw_value ← payload_str evidence "value";
  raw_unit ← payload_str evidence "unit";
  raw_period ← payload_str evidence "period";
  raw_as_of ← payload_str evidence "as_of_time";
  raw_basis ← payload_str evidence "metric_basis";
  code ← payload_str evidence "metric_code";
  value ← match parse_decimal raw_value with Some (PFinite d) => Some d | _ => None end;
  as_of ← fromisoformat (replace_z raw_as_of);
  Some (mkNumeric value raw_unit raw_period as_of raw_basis code).

(** [_numeric]: the as-of time must be UTC, or the claim is refused. *)
Definition _numeric (id : UUID) (evidence : ResearchEvidenceRecord) (created_at : time) :
    res (option ResearchClaimProposal) :=
  match read_numeric evidence with
  | None => Ok None
  | Some f =>
      as_of ← match _aware_utc (nf_as_of f) with
              | Ok t => Ok t
              | Raise _ => raise ValidationError "as_of_time"
              end;
      Some <$> new_proposal (mkClaim id (e_run_id evidence)
        (if bool_decide (e_evidence_type evidence = EvType.DERIVED_METRIC_EVIDENCE)
         then ClType.FINANCIAL_METRIC else ClType.FINANCIAL_FACT)
        Lifecycle.CANDIDATE None (nf_code f) (Some (nf_value f)) (Some (nf_unit f))
        (payload_str evidence "currency_code") (Some (nf_period f)) (Some as_of)
        (Some (nf_basis f)) BUILDER_VERSION None created_at None) [e_id evidence]
  end.

Definition IDENTITY_FIELDS : list string := ["security_id"; "issuer"; "symbol"; "exchange"].
Definition has_identity (e : ResearchEvidenceRecord) : bool :=
  forallb (dict_has (e_payload e)) IDENTITY_FIELDS.

(** [str(payload.get(key, default))] *)
Definition code_or (e : ResearchEvidenceRecord) (key default_code : string) : string :=
  match dict_get (e_payload e) key with Some v => py_str v | None => default_code end.

(** [_propose] *)
Definition _propose (id : UUID) (evidence : ResearchEvidenceRecord) (created_at : time)
    (research_mode : ResearchMode) : res (option ResearchClaimProposal) :=
  let basic ty code := Some <$> _basic id evidence created_at ty code in
  let ty := e_evidence_type evidence in
  if bool_decide (ty = EvType.BLOCKED_CAPABILITY_EVIDENCE) then
    basic ClType.LIMITATION (code_or evidence "capability_code" "CAPABILITY_BLOCKED")
  else if negb (bool_decide (e_status evidence = EvStatus.VALID)) then Ok None
  else if bool_decide (e_synthetic_status evidence = Synth.UNKNOWN) ||
          (bool_decide (e_synthetic_status evidence = Synth.SYNTHETIC_TEST_ONLY) &&
           negb (bool_decide (research_mode = RMode.SYNTHETIC_TEST_ONLY))) then Ok None
  else if bool_decide (ty = EvType.SECURITY_MASTER_EVIDENCE) && has_identity evidence then
    basic ClType.IDENTITY "SECURITY_IDENTITY"
  else if bool_decide (ty = EvType.DATA_QUALITY_EVIDENCE) then
    basic ClType.DATA_QUALITY (code_or evidence "quality_code" "DATA_QUALITY_LIMITATION")
  else if bool_decide (ty ∈ [EvType.DERIVED_METRIC_EVIDENCE; EvType.STRUCTURED_FACT_EVIDENCE]) then
    numeric ← _numeric id evidence created_at;
    match numeric with
    | Some p => Ok (Some p)
    | None => basic ClType.LIMITATION "METRIC_INPUT_INCOMPLETE"
    end
  else
    let disclosure :=
      if bool_decide (ty = EvType.DOCUMENT_CITATION_EVIDENCE)
      then payload_str evidence "disclosure_code" else None in
    let action :=
      if bool_decide (ty = EvType.CORPORATE_ACTION_EVIDENCE)
      then payload_str evidence "action_code" else None in
    match disclosure, action with
    | Some code, _ => basic ClType.DOCUMENT_DISCLOSURE code
    | None, Some code => basic ClType.CORPORATE_ACTION code
    | None, None => Ok None
    end.

(** [propose_claims]: one identifier of [id_factory] per proposal. *)
Fixpoint propose_claims (id_factory : nat → UUID) (n : nat) (run_id : UUID)
    (evidence : list ResearchEvidenceRecord) (created_at : time) (research_mode : ResearchMode) :
    res (list ResearchClaimProposal) :=
  match evidence with
  | [] => Ok []
  | item :: evidence =>
      if negb (bool_decide (e_run_id item = run_id))
      then propose_claims id_factory n run_id evidence created_at research_mode
      else
        proposal ← _propose (id_factory n) item created_at research_mode;
        match proposal with
        | Some p =>
            ps ← propose_claims id_factory (S n) run_id evidence created_at research_mode;
            Ok (p :: ps)
        | None => propose_claims id_factory n run_id evidence created_at research_mode
        end
  end.

(** * The support validator *)

(** [evidence_value == claim.value]: comparing a signaling NaN raises. *)
Definition value_matches (p : parsed_decimal) (v : option decimal) : res bool :=
  match p, v with
  | PSNan, Some _ => raise InvalidOperation "comparison involving sNaN"
  | PFinite d, Some d' => Ok (deq d d')
  | _, _ => Ok false
  end.

(** [evidence_as_of == claim.as_of_time] *)
Definition as_of_matches (t : datetime) (o : option time) : bool :=
  match o with Some us => py_eqb (VTime t) (utc_time us) | None => false end.

Definition payload_is (e : ResearchEvidenceRecord) (k : string) (v : option string) : bool :=
  py_eqb (default VNone (dict_get (e_payload e) k)) (v_str v).

(** The lineage a derived metric must carry. *)
Definition has_lineage (e : ResearchEvidenceRecord) : bool :=
  is_some (e_calculation_run_id e) && negb (bool_decide (e_calculation_input_ids e = [])) &&
  is_some (e_formula_version e).

(** [_metric_matches_claim] *)
Definition _metric_matches_claim (claim : ResearchClaimWrite) (evidence : ResearchEvidenceRecord) :
    res bool :=
  if negb (bool_decide (e_evidence_type evidence ∈
       [EvType.DERIVED_METRIC_EVIDENCE; EvType.STRUCTURED_FACT_EVIDENCE])) then Ok false
  else if bool_decide (cl_claim_type claim ∈ [ClType.FINANCIAL_METRIC; ClType.VALUATION_METRIC]) &&
          negb (has_lineage evidence) then Ok false
  else
    match payload_str evidence "value", payload_str evidence "as_of_time" with
    | Some raw_value, Some raw_as_of =>
        match parse_decimal raw_value, fromisoformat (replace_z raw_as_of) with
        | Some value, Some as_of =>
            same ← value_matches value (cl_value claim);
            Ok (same && payload_is evidence "unit" (cl_unit claim) &&
                payload_is evidence "period" (cl_period claim) &&
                as_of_matches as_of (cl_as_of_time claim) &&
                payload_is evidence "metric_basis" (cl_metric_basis claim) &&
                (bool_decide (cl_claim_type claim = ClType.FINANCIAL_FACT) ||
                 bool_decide (e_formula_version evidence = cl_metric_basis claim)))
        | _, _ => Ok false
        end
    | _, _ => Ok false
    end.

(** [any(f(item) for item in l)], stopping at the first true. *)
Fixpoint res_any {A} (f : A → res bool) (l : list A) : res bool :=
  match l with
  | [] => Ok false
  | x :: l => b ← f x; if b : bool then Ok true else res_any f l
  end.

Definition blocked_evidence (e : ResearchEvidenceRecord) : bool :=
  bool_decide (e_evidence_type e = EvType.BLOCKED_CAPABILITY_EVIDENCE) ||
  bool_decide (e_status e = EvStatus.BLOCKED).
Definition synthetic_evidence (e : ResearchEvidenceRecord) : bool :=
  bool_decide (e_synthetic_status e ∈ [Synth.SYNTHETIC_TEST_ONLY; Synth.UNKNOWN]).
Definition limitation_type (t : ClaimType) : bool :=
  bool_decide (t ∈ [ClType.DATA_QUALITY; ClType.LIMITATION]).

(** [_support] *)
Definition _support (claim : ResearchClaimWrite) (evidence : list ResearchEvidenceRecord)
    (real_research : bool) : res (ClaimSupportStatus * EvidenceRole) :=
  let ty := cl_claim_type claim in
  let unsupported := Ok (Support.UNSUPPORTED, EvRole.CONTEXT) in
  if bool_decide (evidence = []) then unsupported
  else if existsb (λ e, bool_decide (e_status e = EvStatus.CONFLICTING)) evidence then
    Ok (Support.CONFLICTING, EvRole.CONTRADICTING)
  else if existsb blocked_evidence evidence then
    if limitation_type ty then Ok (Support.BLOCKED, EvRole.LIMITATION) else unsupported
  else if existsb (λ e, negb (bool_decide (e_status e = EvStatus.VALID))) evidence then unsupported
  else if real_research && existsb synthetic_evidence evidence then unsupported
  else if bool_decide (ty = ClType.IDENTITY) then
    let valid := existsb (λ e,
      bool_decide (e_evidence_type e = EvType.SECURITY_MASTER_EVIDENCE) && has_identity e) evidence in
    Ok (if valid then Support.SUPPORTED else Support.UNSUPPORTED, EvRole.PRIMARY)
  else if bool_decide (ty ∈ numeric_types) then
    matched ← res_any (_metric_matches_claim claim) evidence;
    Ok (if matched : bool then (Support.SUPPORTED, EvRole.PRIMARY)
        else (Support.PARTIALLY_SUPPORTED, EvRole.CONTEXT))
  else if bool_decide (ty = ClType.DOCUMENT_DISCLOSURE) then
    let documents := filter (λ e, e_evidence_type e = EvType.DOCUMENT_CITATION_EVIDENCE) evidence in
    if existsb (λ e, is_none (e_published_at e)) documents then
      Ok (Support.BLOCKED, EvRole.LIMITATION)
    else
      let valid := existsb (λ e, is_some (e_citation_id e) &&
        payload_is e "disclosure_code" (Some (cl_statement_code claim))) documents in
      Ok (if valid then Support.SUPPORTED else Support.UNSUPPORTED, EvRole.PRIMARY)
  else if limitation_type ty then Ok (Support.SUPPORTED, EvRole.PRIMARY)
  else unsupported.

(** [_linkable] *)
Definition _linkable (evidence : ResearchEvidenceRecord) (support : ClaimSupportStatus)
    (claim_type : ClaimType) : bool :=
  if bool_decide (support = Support.SUPPORTED) then bool_decide (e_status evidence = EvStatus.VALID)
  else if bool_decide (support ∈ [Support.CONFLICTING; Support.BLOCKED]) then true
  else limitation_type claim_type.

(** The run's proposed evidence, the first record of each identifier. *)
Fixpoint select_evidence (claim : ResearchClaimProposal) (seen : list UUID)
    (evidence : list ResearchEvidenceRecord) : list ResearchEvidenceRecord :=
  match evidence with
  | [] => []
  | item :: evidence =>
      if bool_decide (e_run_id item = cl_run_id claim) &&
         bool_decide (e_id item ∈ proposed_evidence_ids claim) &&
         negb (bool_decide (e_id item ∈ seen))
      then item :: select_evidence claim (e_id item :: seen) evidence
      else select_evidence claim seen evidence
  end.

Record ClaimValidationResult := mkClaimValidation {
  cv_completion : ResearchClaimCompletion; cv_links : list ClaimEvidenceLinkWrite }.

(** [ClaimSupportValidator.validate] *)
Definition validate_claim (id_factory : nat → UUID) (n : nat) (claim : ResearchClaimProposal)
    (evidence : list ResearchEvidenceRecord) (completed_at : time) (real_research : bool) :
    res ClaimValidationResult :=
  let selected := select_evidence claim [] evidence in
  supported ← _support claim selected real_research;
  let linked := filter (λ e, _linkable e supported.1 (cl_claim_type claim) = true) selected in
  reject_if (100 <? Z.of_nat (length linked)) ValidationError "links";;
  Ok (mkClaimValidation
    (mkClaimCompletion Lifecycle.VALIDATED supported.1 "claim-support-validator-v1" completed_at)
    (imap (λ i e, mkLink (id_factory (n + i)%nat) (cl_run_id claim) (cl_id claim) (e_id e)
       supported.2 completed_at) linked)).

(** * The pipeline and its tables *)

(** [research_claims] by identifier, each row with its [claim_key], and
    [claim_evidence_links] in insertion order. *)
Record claims_db := mkClaimsDb {
  cdb_claims : gmap UUID (string * ResearchClaimWrite);
  cdb_links : list ClaimEvidenceLinkWrite }.

Definition v_dec (o : option decimal) : pyval := match o with Some d => VDec d | None => VNone end.
Definition v_time (o : option time) : pyval := match o with Some t => utc_time t | None => VNone end.

(** The basis of the claim key: the claim without its identifier and status. *)
Definition claim_basis (c : ResearchClaimWrite) : pyval :=
  VMap [("run_id", VUuid (cl_run_id c)); ("claim_type", VStr (ClType.value (cl_claim_type c)));
        ("statement_code", VStr (cl_statement_code c)); ("value", v_dec (cl_value c));
        ("unit", v_str (cl_unit c)); ("currency_code", v_str (cl_currency_code c));
        ("period", v_str (cl_period c)); ("as_of_time", v_time (cl_as_of_time c));
        ("metric_basis", v_str (cl_metric_basis c)); ("builder_version", VStr (cl_builder_version c));
        ("created_at", utc_time (cl_created_at c)); ("completed_at", v_time (cl_completed_at c))].

(** A stored claim with this key in this run. *)
Definition key_taken (db : claims_db) (run_id : UUID) (key : string) : bool :=
  existsb (λ row, bool_decide (cl_run_id row.2.2 = run_id) && bool_decide (row.2.1 = key))
    (map_to_list (cdb_claims db)).

(** [add_claim]: the primary key and [uq_research_claims_run_key]. *)
Definition add_claim (db : claims_db) (value : ResearchClaimWrite) : res claims_db :=
  claim_key ← stable_checksum (claim_basis value);
  reject_if (is_some (cdb_claims db !! cl_id value)) IntegrityError "pk_research_claims";;
  reject_if (key_taken db (cl_run_id value) claim_key) IntegrityError "uq_research_claims_run_key";;
  Ok (mkClaimsDb (<[cl_id value := (claim_key, value)]> (cdb_claims db)) (cdb_links db)).

(** [add_links]: the keys of the link table and its reference to the claim. *)
Definition add_link (db : claims_db) (l : ClaimEvidenceLinkWrite) : res claims_db :=
  reject_if (existsb (λ r, bool_decide (lk_id r = lk_id l)) (cdb_links db))
    IntegrityError "pk_claim_evidence_links";;
  reject_if (existsb (λ r, bool_decide (lk_claim_id r = lk_claim_id l) &&
                           bool_decide (lk_evidence_id r = lk_evidence_id l)) (cdb_links db))
    IntegrityError "uq_claim_evidence_links_pair";;
  reject_if (is_none (cdb_claims db !! lk_claim_id l))
    IntegrityError "fk_claim_evidence_links_claim";;
  Ok (mkClaimsDb (cdb_claims db) (cdb_links db ++ [l])).
Definition add_links (db : claims_db) (ls : list ClaimEvidenceLinkWrite) : res claims_db :=
  res_fold add_link ls db.

Definition completed_claim (c : ResearchClaimWrite) (v : ResearchClaimCompletion) :
    ResearchClaimWrite :=
  mkClaim (cl_id c) (cl_run_id c) (cl_claim_type c) (cc_lifecycle_status v)
    (Some (cc_support_status v)) (cl_statement_code c) (cl_value c) (cl_unit c)
    (cl_currency_code c) (cl_period c) (cl_as_of_time c) (cl_metric_basis c)
    (cl_builder_version c) (Some (cc_validator_version v)) (cl_created_at c)
    (Some (cc_completed_at v)).

(** [complete_claim] *)
Definition complete_claim (db : claims_db) (claim_id : UUID) (v : ResearchClaimCompletion) :
    res (ResearchClaimWrite * claims_db) :=
  row ← require_some (cdb_claims db !! claim_id) LookupError "RESEARCH_CLAIM_NOT_FOUND";
  let c := completed_claim row.2 v in
  Ok (c, mkClaimsDb (<[claim_id := (row.1, c)]> (cdb_claims db)) (cdb_links db)).

(** The collaborators: the builder's and the validator's identifiers and the
    clock, each by the number of earlier calls. *)
Record claim_env := mkClaimEnv {
  claim_ids : nat → UUID; link_ids : nat → UUID; claim_clock : nat → time }.

(** One proposal of the loop of [build_and_validate]; [k] earlier completions,
    [m] earlier links. *)
Definition run_proposal (env : claim_env) (evidence : list ResearchEvidenceRecord)
    (research_mode : ResearchMode) (db : claims_db) (k m : nat)
    (proposal : ResearchClaimProposal) : res (ResearchClaimWrite * nat * claims_db) :=
  db ← add_claim db proposal;
  validation ← validate_claim (link_ids env) m proposal evidence (claim_clock env (S k))
    (bool_decide (research_mode = RMode.REAL_RESEARCH));
  db ← add_links db (cv_links validation);
  done ← complete_claim db (cl_id proposal) (cv_completion validation);
  Ok (done.1, (m + length (cv_links validation))%nat, done.2).

Fixpoint run_proposals (env : claim_env) (evidence : list ResearchEvidenceRecord)
    (research_mode : ResearchMode) (db : claims_db) (k m : nat)
    (proposals : list ResearchClaimProposal) : res (list ResearchClaimWrite * claims_db) :=
  match proposals with
  | [] => Ok ([], db)
  | p :: proposals =>
      r ← run_proposal env evidence research_mode db k m p;
      rest ← run_proposals env evidence research_mode r.2 (S k) r.1.2 proposals;
      Ok (r.1.1 :: rest.1, rest.2)
  end.

(** [build_and_validate], [evidence] being the run's evidence as listed. *)
Definition build_and_validate (env : claim_env) (db : claims_db)
    (evidence : list ResearchEvidenceRecord) (run_id : UUID) (research_mode : ResearchMode) :
    res (list ResearchClaimWrite * claims_db) :=
  proposals ← propose_claims (claim_ids env) 0 run_id evidence (claim_clock env 0) research_mode;
  run_proposals env evidence research_mode db 0 0 proposals.

(** * Packages *)

(** [_claim_section] *)
Definition _claim_section (c : ResearchClaimWrite) : ResearchSection :=
  match cl_claim_type c with
  | ClType.IDENTITY => RSection.SECURITY_IDENTITY
  | ClType.FINANCIAL_FACT | ClType.FINANCIAL_METRIC => RSection.FINANCIAL_HEALTH
  | ClType.VALUATION_METRIC => RSection.VALUATION_SNAPSHOT
  | ClType.DOCUMENT_DISCLOSURE =>
      if str_startswith (cl_statement_code c) "CATALYST_" then RSection.CATALYST_EVIDENCE
      else if str_startswith (cl_statement_code c) "RISK_" then RSection.RISK_EVIDENCE
      else RSection.DOCUMENT_EVIDENCE
  | ClType.CORPORATE_ACTION => RSection.CORPORATE_ACTIONS
  | ClType.DATA_QUALITY => RSection.DATA_QUALITY
  | ClType.LIMITATION => RSection.LIMITATIONS
  end.

Definition has_support (s : option ClaimSupportStatus) (claims : list ResearchClaimWrite) : bool :=
  bool_decide (s ∈ map cl_support_status claims).

(** The status and warnings of a section with claims. *)
Definition section_outcome (claims : list ResearchClaimWrite) : PackageSectionStatus * list string :=
  let support := map cl_support_status claims in
  if forallb (λ s, bool_decide (s = Some Support.SUPPORTED)) support then (SecStatus.PASS, [])
  else if forallb (λ s, bool_decide (s = Some Support.BLOCKED)) support then
    (SecStatus.BLOCKED, ["BLOCKED_CLAIMS"])
  else (SecStatus.PARTIAL,
    if has_support (Some Support.CONFLICTING) claims then ["CONFLICTING_CLAIMS"]
    else if has_support (Some Support.UNSUPPORTED) claims then ["UNSUPPORTED_CLAIMS"]
    else if has_support (Some Support.BLOCKED) claims then ["BLOCKED_CLAIMS"]
    else ["PARTIALLY_SUPPORTED_CLAIMS"]).

(** [_section] *)
Definition _section (section : ResearchSection) (requested : list ResearchSection)
    (claims : list ResearchClaimWrite) : ResearchPackageSection :=
  if negb (bool_decide (section ∈ requested)) then mkSection section SecStatus.NOT_REQUESTED [] []
  else
    let selected := sort_key (λ c, uuid_str (cl_id c))
      (filter (λ c, _claim_section c = section) claims) in
    if bool_decide (map cl_id selected = []) then mkSection section SecStatus.NO_EVIDENCE [] []
    else
      let outcome := section_outcome selected in
      mkSection section outcome.1 (map cl_id selected) outcome.2.

(** [_package_status] *)
Definition _package_status (sections : list ResearchPackageSection)
    (requested : list ResearchSection) (run_failed : bool) : ResearchPackageStatus :=
  if run_failed then PkgStatus.FAILED
  else
    let active := map sec_status (filter (λ s, sec_section s ∈ requested) sections) in
    if negb (bool_decide (active = [])) && forallb (λ s, bool_decide (s = SecStatus.PASS)) active
    then PkgStatus.COMPLETE
    else if negb (bool_decide (active = [])) &&
            forallb (λ s, bool_decide (s ∈ [SecStatus.BLOCKED; SecStatus.NO_EVIDENCE])) active
    then PkgStatus.BLOCKED
    else PkgStatus.PARTIAL.

Definition dump_section (s : ResearchPackageSection) : pyval :=
  VMap [("section", VStr (RSection.value (sec_section s)));
        ("status", VStr (SecStatus.value (sec_status s)));
        ("claim_ids", VList (map VUuid (sec_claim_ids s)));
        ("warning_codes", VList (map VStr (sec_warning_codes s)))].

(** The [values] of the package, for its checksum. *)
Definition dump_package (p : ResearchPackageWrite) : pyval :=
  VMap [("run_id", VUuid (pk_run_id p)); ("request_id", VUuid (pk_request_id p));
        ("security_id", VUuid (pk_security_id p)); ("snapshot_id", VUuid (pk_snapshot_id p));
        ("research_as_of_time", utc_time (pk_research_as_of_time p));
        ("research_type", VStr (RType.value (pk_research_type p)));
        ("policy_version", VStr (pk_policy_version p));
        ("planner_version", VStr (pk_planner_version p));
        ("tool_catalog_version", VStr (pk_tool_catalog_version p));
        ("evidence_version", VStr (pk_evidence_version p));
        ("claim_version", VStr (pk_claim_version p));
        ("package_version", VStr (pk_package_version p));
        ("status", VStr (PkgStatus.value (pk_status p)));
        ("sections", VList (map dump_section (pk_sections p)));
        ("evidence_ids", VList (map VUuid (pk_evidence_ids p)));
        ("unsupported_claim_ids", VList (map VUuid (pk_unsupported_claim_ids p)));
        ("conflicting_claim_ids", VList (map VUuid (pk_conflicting_claim_ids p)));
        ("blocked_capabilities", VList (map VStr (pk_blocked_capabilities p)));
        ("warnings", VList (map VStr (pk_warnings p)))].

Definition at_most {A} (n : Z) (l : list A) : bool := Z.of_nat (length l) <=? n.

(** The field constraints of the package and its sections. *)
Definition package_valid (p : ResearchPackageWrite) (checksum : string) : bool :=
  Version_ok (pk_policy_version p) && Version_ok (pk_planner_version p) &&
  len_between 80 80 (pk_tool_catalog_version p) &&
  forallb (λ s, at_most 100 (sec_claim_ids s)) (pk_sections p) &&
  at_most 500 (pk_evidence_ids p) && at_most 100 (pk_unsupported_claim_ids p) &&
  at_most 100 (pk_conflicting_claim_ids p) && at_most 100 (pk_blocked_capabilities p) &&
  at_most 100 (pk_warnings p) && forallb Code_ok (pk_blocked_capabilities p) &&
  forallb Code_ok (pk_warnings p) && Checksum_ok checksum.

Definition ids_with_support (s : ClaimSupportStatus) (claims : list ResearchClaimWrite) : list UUID :=
  sort_uuid (map cl_id (filter (λ c, cl_support_status c = Some s) claims)).

(** [ResearchPackageAssembler.assemble] *)
Definition assemble (package_id run_id request_id security_id snapshot_id : UUID)
    (research_as_of_time : time) (research_type : ResearchType)
    (policy_version planner_version tool_catalog_version : string)
    (requested : list ResearchSection) (claims : list ResearchClaimWrite)
    (evidence : list ResearchEvidenceRecord) (blocked_capabilities warnings : list string)
    (run_failed : bool) (created_at : time) : res ResearchPackageRecord :=
  let sections := map (λ s, _section s requested claims) RSection.all in
  let values := mkPackage run_id request_id security_id snapshot_id research_as_of_time
    research_type policy_version planner_version tool_catalog_version
    "evidence-v1" "claim-v1" "research-package-v1"
    (_package_status sections requested run_failed) sections
    (sort_uuid (remove_dups (map e_id evidence)))
    (ids_with_support Support.UNSUPPORTED claims) (ids_with_support Support.CONFLICTING claims)
    blocked_capabilities warnings in
  checksum ← stable_checksum (dump_package values);
  reject_if (negb (package_valid values checksum)) ValidationError "ResearchPackageRecord";;
  Ok (mkPackageRecord values checksum package_id created_at).

(** * Properties of support *)

(** Some evidence carries the claim's content. *)
Definition typed_support (claim : ResearchClaimWrite) (evidence : list ResearchEvidenceRecord) : Prop :=
  match cl_claim_type claim with
  | ClType.IDENTITY => ∃ e, e ∈ evidence ∧
      e_evidence_type e = EvType.SECURITY_MASTER_EVIDENCE ∧ has_identity e = true
  | ClType.FINANCIAL_FACT | ClType.FINANCIAL_METRIC | ClType.VALUATION_METRIC =>
      ∃ e, e ∈ evidence ∧ _metric_matches_claim claim e = Ok true
  | ClType.DOCUMENT_DISCLOSURE =>
      (∀ e, e ∈ evidence → e_evidence_type e = EvType.DOCUMENT_CITATION_EVIDENCE →
         is_Some (e_published_at e)) ∧
      ∃ e, e ∈ evidence ∧ e_evidence_type e = EvType.DOCUMENT_CITATION_EVIDENCE ∧
        is_Some (e_citation_id e) ∧
        payload_is e "disclosure_code" (Some (cl_statement_code claim)) = true
  | ClType.DATA_QUALITY | ClType.LIMITATION => True
  | ClType.CORPORATE_ACTION => False
  end.

Record supported_by (claim : ResearchClaimWrite) (evidence : list ResearchEvidenceRecord)
    (real_research : bool) : Prop := {
  sb_some : evidence ≠ [];
  sb_valid : ∀ e, e ∈ evidence → e_status e = EvStatus.VALID;
  sb_not_blocked : ∀ e, e ∈ evidence → e_evidence_type e ≠ EvType.BLOCKED_CAPABILITY_EVIDENCE;
  sb_real : real_research = true → ∀ e, e ∈ evidence →
    e_synthetic_status e = Synth.REAL_VERIFIED ∨ e_synthetic_status e = Synth.FIXTURE_REAL_EXCERPT;
  sb_typed : typed_support claim evidence }.

Lemma res_any_true {A} (f : A → res bool) l :
  res_any f l = Ok true → ∃ x, x ∈ l ∧ f x = Ok true.
Proof.
  induction l as [|x l IH]; [done|]. cbn. intros H. apply bind_Ok in H as ([] & Hx & H).
  - exists x. split; [left|done].
  - destruct (IH H) as (y & Hy & Hf). exists y. split; [by right|done].
Qed.


Lemma support_supported claim evidence real role :
  _support claim evidence real = Ok (Support.SUPPORTED, role) →
  supported_by claim evidence real ∧ role = EvRole.PRIMARY.
Proof.
  unfold _support. cbv zeta. intros H.
  case_bool_decide as Hne; [done|].
  destruct (existsb (λ e, bool_decide (e_status e = EvStatus.CONFLICTING)) evidence); [done|].
  destruct (existsb blocked_evidence evidence) eqn:E2.
  { by destruct (limitation_type _). }
  destruct (existsb (λ e, negb _) evidence) eqn:E3; [done|].
  destruct (real && existsb synthetic_evidence evidence) eqn:E4; [done|].
  rewrite existsb_false in E2, E3.
  assert (Hcommon : typed_support claim evidence → supported_by claim evidence real).
  { intros Ht. split; try done.
    - intros e He. specialize (E3 e He). by apply negb_false_iff, bool_decide_eq_true in E3.
    - intros e He Hb. specialize (E2 e He). unfold blocked_evidence in E2.
      by rewrite (bool_decide_eq_true_2 _ Hb) in E2.
    - intros -> e He. cbn in E4. rewrite existsb_false in E4. specialize (E4 e He).
      unfold synthetic_evidence in E4. apply bool_decide_eq_false in E4.
      destruct (e_synthetic_status e); [by left|by right|exfalso; apply E4; left|
        exfalso; apply E4; right; left]. }
  unfold typed_support in Hcommon. unfold limitation_type in H.
  destruct (cl_claim_type claim) eqn:Et; decide_closed H.
  - destruct (existsb _ evidence) eqn:E5 in H; [|done]. injection H as <-. split; [|done].
    apply Hcommon. apply existsb_iff in E5 as (e & He & Hi). apply andb_true_iff in Hi as [Hi Hh].
    apply bool_decide_eq_true in Hi. by exists e.
  - apply bind_Ok in H as ([] & Hm & H); [|done]. injection H as <-.
    split; [by apply Hcommon, res_any_true|done].
  - apply bind_Ok in H as ([] & Hm & H); [|done]. injection H as <-.
    split; [by apply Hcommon, res_any_true|done].
  - apply bind_Ok in H as ([] & Hm & H); [|done]. injection H as <-.
    split; [by apply Hcommon, res_any_true|done].
  - destruct (existsb _ (filter _ evidence)) eqn:E5 in H; [done|].
    destruct (existsb _ (filter _ evidence)) eqn:E6 in H; [|done]. injection H as <-.
    split; [|done]. apply Hcommon. split.
    + intros e He Hd. rewrite existsb_false in E5. apply is_none_false, E5.
      by apply list_elem_of_filter.
    + apply existsb_iff in E6 as (e & He & Hc). apply list_elem_of_filter in He as [Hd He].
      apply andb_true_iff in Hc as [Hc Hp]. exists e. split_and!; try done.
      by destruct (e_citation_id e).
  - done.
  - injection H as <-. split; [by apply Hcommon|done].
  - injection H as <-. split; [by apply Hcommon|done].
Qed.

Lemma select_evidence_spec claim seen evidence e :
  e ∈ select_evidence claim seen evidence →
  e ∈ evidence ∧ e_run_id e = cl_run_id claim ∧ e_id e ∈ proposed_evidence_ids claim ∧
  e_id e ∉ seen.
Proof.
  revert seen. induction evidence as [|x l IH]; intros seen; cbn; [by intros ?%elem_of_nil|].
  destruct (_ && _) eqn:E; [|intros H; destruct (IH _ H) as (? & ? & ? & ?); split_and!;
    [by right|done..]].
  rewrite !andb_true_iff, negb_true_iff, !bool_decide_eq_true, bool_decide_eq_false in E.
  destruct E as [[E1 E2] E3]. intros [->|H]%elem_of_cons; [split_and!; [left|done..]|].
  destruct (IH _ H) as (? & ? & ? & ?). split_and!; [by right|done..|set_solver].
Qed.

Lemma select_evidence_nodup claim seen evidence :
  NoDup (map e_id (select_evidence claim seen evidence)).
Proof.
  revert seen. induction evidence as [|x l IH]; intros seen; cbn; [apply NoDup_nil_2|].
  destruct (_ && _); [|apply IH]. cbn. apply NoDup_cons. split; [|apply IH].
  intros H. apply list_elem_of_fmap in H as (e & He & Hs).
  apply select_evidence_spec in Hs as (_ & _ & _ & Hn). rewrite He in Hn. set_solver.
Qed.


(** ** The verdict on a proposal *)

(** Unique identifiers select exactly the proposed record. *)
Lemma select_evidence_none claim seen evidence id :
  proposed_evidence_ids claim = [id] → id ∉ map e_id evidence →
  select_evidence claim seen evidence = [].
Proof.
  intros Hp Hn. apply elem_of_nil_inv. intros e He.
  apply select_evidence_spec in He as (He & _ & Hid & _). rewrite Hp in Hid.
  apply list_elem_of_singleton in Hid as <-. apply Hn, list_elem_of_fmap. by exists e.
Qed.

Lemma select_evidence_one claim evidence e :
  proposed_evidence_ids claim = [e_id e] → e_run_id e = cl_run_id claim →
  NoDup (map e_id evidence) → e ∈ evidence → select_evidence claim [] evidence = [e].
Proof.
  intros Hp Hr Hnd He. induction evidence as [|x l IH]; [by apply elem_of_nil in He|].
  cbn in Hnd. apply NoDup_cons in Hnd as [Hx Hnd]. cbn. rewrite Hp.
  apply elem_of_cons in He as [<-|He].
  - rewrite !bool_decide_eq_true_2, bool_decide_eq_false_2 by (set_solver || done). cbn.
    f_equal. by apply (select_evidence_none _ _ _ (e_id e)).
  - rewrite (bool_decide_eq_false_2 (e_id x ∈ [e_id e])); [rewrite andb_false_r; by apply IH|].
    intros Heq%list_elem_of_singleton. apply Hx. rewrite Heq. apply list_elem_of_fmap. by exists e.
Qed.

Lemma payload_str_is e k s : payload_str e k = Some s → payload_is e k (Some s) = true.
Proof.
  unfold payload_str, payload_is. destruct (dict_get (e_payload e) k) as [v|]; [|done].
  cbn. destruct v; try done. intros [= ->]. by apply bool_decide_eq_true.
Qed.

Lemma aware_utc_matches t us : _aware_utc t = Ok us → as_of_matches t (Some us) = true.
Proof.
  unfold _aware_utc, as_of_matches. destruct t as [l [off|]]; [|done]. cbn.
  destruct (off =? 0) eqn:E; [|done]. intros [= ->]. apply Z.eqb_eq in E as ->.
  change ((us - 0 =? us - 0) = true). apply Z.eqb_refl.
Qed.

Lemma deq_refl d : deq d d = true.
Proof. unfold deq, dcompare. by rewrite Z.compare_refl. Qed.

(** Evidence a claim may be built from in a research mode. *)
Record usable (e : ResearchEvidenceRecord) (mode : ResearchMode) : Prop := {
  us_valid : e_status e = EvStatus.VALID;
  us_known : e_synthetic_status e ≠ Synth.UNKNOWN;
  us_synthetic : e_synthetic_status e = Synth.SYNTHETIC_TEST_ONLY →
    mode = RMode.SYNTHETIC_TEST_ONLY }.

(** What a proposed claim says of its evidence. *)
Inductive proposed_from (e : ResearchEvidenceRecord) (mode : ResearchMode) :
    ResearchClaimWrite → Prop :=
| from_blocked c : e_evidence_type e = EvType.BLOCKED_CAPABILITY_EVIDENCE →
    cl_claim_type c = ClType.LIMITATION → proposed_from e mode c
| from_identity c : usable e mode → e_evidence_type e = EvType.SECURITY_MASTER_EVIDENCE →
    has_identity e = true → cl_claim_type c = ClType.IDENTITY → proposed_from e mode c
| from_quality c : usable e mode → e_evidence_type e = EvType.DATA_QUALITY_EVIDENCE →
    cl_claim_type c = ClType.DATA_QUALITY → proposed_from e mode c
| from_numeric c f us : usable e mode →
    e_evidence_type e ∈ [EvType.DERIVED_METRIC_EVIDENCE; EvType.STRUCTURED_FACT_EVIDENCE] →
    read_numeric e = Some f → _aware_utc (nf_as_of f) = Ok us →
    cl_claim_type c = (if bool_decide (e_evidence_type e = EvType.DERIVED_METRIC_EVIDENCE)
      then ClType.FINANCIAL_METRIC else ClType.FINANCIAL_FACT) →
    cl_value c = Some (nf_value f) → cl_unit c = Some (nf_unit f) →
    cl_period c = Some (nf_period f) → cl_as_of_time c = Some us →
    cl_metric_basis c = Some (nf_basis f) → proposed_from e mode c
| from_incomplete c : usable e mode →
    e_evidence_type e ∈ [EvType.DERIVED_METRIC_EVIDENCE; EvType.STRUCTURED_FACT_EVIDENCE] →
    cl_claim_type c = ClType.LIMITATION → proposed_from e mode c
| from_document c : usable e mode → e_evidence_type e = EvType.DOCUMENT_CITATION_EVIDENCE →
    payload_str e "disclosure_code" = Some (cl_statement_code c) →
    cl_claim_type c = ClType.DOCUMENT_DISCLOSURE → proposed_from e mode c
| from_action c : usable e mode → e_evidence_type e = EvType.CORPORATE_ACTION_EVIDENCE →
    cl_claim_type c = ClType.CORPORATE_ACTION → proposed_from e mode c.

Lemma new_proposal_Ok c ids p : new_proposal c ids = Ok p → p = mkProposal c ids.
Proof. unfold new_proposal. by intros [_ [= <-]]%guard_seq. Qed.

Lemma basic_Ok id e now ty code p : (Some <$> _basic id e now ty code) = Ok (Some p) →
  p = mkProposal (mkClaim id (e_run_id e) ty Lifecycle.CANDIDATE None code None None None None
    None None BUILDER_VERSION None now None) [e_id e].
Proof.
  unfold _basic. destruct (new_proposal _ _) as [q|] eqn:E; [|done]. intros [= <-].
  by apply new_proposal_Ok.
Qed.

Lemma propose_Ok id e now mode p : _propose id e now mode = Ok (Some p) →
  proposed_from e mode p ∧ proposed_evidence_ids p = [e_id e] ∧ cl_run_id p = e_run_id e ∧
  cl_id p = id ∧ cl_lifecycle_status p = Lifecycle.CANDIDATE ∧ cl_support_status p = None.
Proof.
  unfold _propose. cbv zeta. intros H.
  case_bool_decide as Hb.
  { apply basic_Ok in H as ->. split_and!; [|done..]. by apply from_blocked. }
  case_bool_decide as Hv; [|done]. cbn [negb] in H.
  destruct (_ || _) eqn:Es; [done|].
  assert (Hu : usable e mode).
  { apply orb_false_iff in Es as [E1 E2]. apply bool_decide_eq_false in E1. split; [done..|].
    intros Hs. rewrite (bool_decide_eq_true_2 _ Hs) in E2. cbn in E2.
    by apply negb_false_iff, bool_decide_eq_true in E2. }
  destruct (_ && has_identity e) eqn:Ei in H.
  { apply andb_true_iff in Ei as [Ei Hi]. apply bool_decide_eq_true in Ei.
    apply basic_Ok in H as ->. split_and!; [|done..]. by apply from_identity. }
  case_bool_decide as Hq.
  { apply basic_Ok in H as ->. split_and!; [|done..]. by apply from_quality. }
  case_bool_decide as Hn.
  { apply bind_Ok in H as ([q|] & Hnum & H).
    - injection H as ->. unfold _numeric in Hnum.
      destruct (read_numeric e) as [f|] eqn:Ef; [|done].
      apply bind_Ok in Hnum as (us & Hus & Hnum).
      destruct (new_proposal _ _) as [q|] eqn:Eq; [|done]. injection Hnum as ->.
      apply new_proposal_Ok in Eq as ->. split_and!; [|done..].
      eapply (from_numeric _ _ _ f us); try done. by destruct (_aware_utc _).
    - apply basic_Ok in H as ->. split_and!; [|done..]. by apply from_incomplete. }
  case_bool_decide as Hd.
  { rewrite (bool_decide_eq_false_2 (_ = EvType.CORPORATE_ACTION_EVIDENCE)) in H by congruence.
    destruct (payload_str e "disclosure_code") as [code|] eqn:Ec; [|done].
    apply basic_Ok in H as ->. split_and!; [|done..]. by apply from_document. }
  case_bool_decide as Ha; [|done]. destruct (payload_str e "action_code"); [|done].
  apply basic_Ok in H as ->. split_and!; [|done..]. by apply from_action.
Qed.

Lemma res_bind_Ok {A B} (x : A) (f : A → res B) : Ok x ≫= f = f x.
Proof. done. Qed.

Lemma metric_matches_own c e f us :
  e_evidence_type e ∈ [EvType.DERIVED_METRIC_EVIDENCE; EvType.STRUCTURED_FACT_EVIDENCE] →
  read_numeric e = Some f → _aware_utc (nf_as_of f) = Ok us →
  cl_value c = Some (nf_value f) → cl_unit c = Some (nf_unit f) →
  cl_period c = Some (nf_period f) → cl_as_of_time c = Some us →
  cl_metric_basis c = Some (nf_basis f) →
  _metric_matches_claim c e =
    Ok (if bool_decide (cl_claim_type c ∈ [ClType.FINANCIAL_METRIC; ClType.VALUATION_METRIC])
        then has_lineage e && (bool_decide (cl_claim_type c = ClType.FINANCIAL_FACT) ||
          bool_decide (e_formula_version e = cl_metric_basis c))
        else bool_decide (cl_claim_type c = ClType.FINANCIAL_FACT) ||
          bool_decide (e_formula_version e = cl_metric_basis c)).
Proof.
  intros Hty Hf Hus Hv Hu Hp Ha Hb. unfold _metric_matches_claim.
  rewrite (bool_decide_eq_true_2 _ Hty). cbn [negb].
  unfold read_numeric in Hf.
  apply bind_Some in Hf as (rv & Ev & Hf). apply bind_Some in Hf as (ru & Eu & Hf).
  apply bind_Some in Hf as (rp & Ep & Hf). apply bind_Some in Hf as (ra & Ea & Hf).
  apply bind_Some in Hf as (rb & Eb & Hf). apply bind_Some in Hf as (rc & _ & Hf).
  apply bind_Some in Hf as (d & Ed & Hf). apply bind_Some in Hf as (t & Et & Hf).
  injection Hf as <-. cbn in Hus, Hv, Hu, Hp, Hb.
  rewrite Ev, Ea, Et, Hv, Hu, Hp, Ha, Hb. destruct (parse_decimal rv) as [[d'| | |]|]; try done.
  injection Ed as ->. cbn [value_matches]. rewrite res_bind_Ok, deq_refl,
    (payload_str_is _ _ _ Eu), (payload_str_is _ _ _ Ep), (payload_str_is _ _ _ Eb),
    (aware_utc_matches _ _ Hus). cbn [andb].
  destruct (bool_decide (_ ∈ _)), (has_lineage e); done.
Qed.

(** The verdict the validator reaches on a claim built from [e]. *)
Definition expected_support (e : ResearchEvidenceRecord) (c : ResearchClaimWrite) :
    ClaimSupportStatus :=
  match cl_claim_type c with
  | ClType.IDENTITY | ClType.DATA_QUALITY | ClType.FINANCIAL_FACT => Support.SUPPORTED
  | ClType.LIMITATION =>
      if bool_decide (e_evidence_type e = EvType.BLOCKED_CAPABILITY_EVIDENCE)
      then if bool_decide (e_status e = EvStatus.CONFLICTING) then Support.CONFLICTING
           else Support.BLOCKED
      else Support.SUPPORTED
  | ClType.FINANCIAL_METRIC =>
      if has_lineage e && bool_decide (e_formula_version e = cl_metric_basis c)
      then Support.SUPPORTED else Support.PARTIALLY_SUPPORTED
  | ClType.DOCUMENT_DISCLOSURE =>
      if is_none (e_published_at e) then Support.BLOCKED
      else if is_some (e_citation_id e) then Support.SUPPORTED else Support.UNSUPPORTED
  | ClType.CORPORATE_ACTION | ClType.VALUATION_METRIC => Support.UNSUPPORTED
  end.

(** On usable evidence only the claim's own rule is left. *)
Lemma support_usable e mode :
  usable e mode → e_evidence_type e ≠ EvType.BLOCKED_CAPABILITY_EVIDENCE →
  existsb (λ e, bool_decide (e_status e = EvStatus.CONFLICTING)) [e] = false ∧
  existsb blocked_evidence [e] = false ∧
  existsb (λ e, negb (bool_decide (e_status e = EvStatus.VALID))) [e] = false ∧
  bool_decide (mode = RMode.REAL_RESEARCH) && existsb synthetic_evidence [e] = false.
Proof.
  intros [Hv Hk Hs] Hb. unfold blocked_evidence, synthetic_evidence. cbn.
  rewrite Hv, (bool_decide_eq_false_2 _ Hb). split_and!; try reflexivity.
  destruct (e_synthetic_status e); cbn; try (by rewrite andb_false_r); [|done].
  by rewrite (Hs eq_refl).
Qed.

Lemma support_own e mode c : proposed_from e mode c →
  ∃ role, _support c [e] (bool_decide (mode = RMode.REAL_RESEARCH)) =
    Ok (expected_support e c, role).
Proof.
  assert (Hus : ∀ c, usable e mode → e_evidence_type e ≠ EvType.BLOCKED_CAPABILITY_EVIDENCE →
    _support c [e] (bool_decide (mode = RMode.REAL_RESEARCH)) =
    (if bool_decide (cl_claim_type c = ClType.IDENTITY) then
       Ok (if existsb (λ e, bool_decide (e_evidence_type e = EvType.SECURITY_MASTER_EVIDENCE) &&
             has_identity e) [e] then Support.SUPPORTED else Support.UNSUPPORTED, EvRole.PRIMARY)
     else if bool_decide (cl_claim_type c ∈ numeric_types) then
       matched ← res_any (_metric_matches_claim c) [e];
       Ok (if matched : bool then (Support.SUPPORTED, EvRole.PRIMARY)
           else (Support.PARTIALLY_SUPPORTED, EvRole.CONTEXT))
     else if bool_decide (cl_claim_type c = ClType.DOCUMENT_DISCLOSURE) then
       let documents := filter (λ e, e_evidence_type e = EvType.DOCUMENT_CITATION_EVIDENCE) [e] in
       if existsb (λ e, is_none (e_published_at e)) documents then
         Ok (Support.BLOCKED, EvRole.LIMITATION)
       else Ok (if existsb (λ e, is_some (e_citation_id e) &&
           payload_is e "disclosure_code" (Some (cl_statement_code c))) documents
           then Support.SUPPORTED else Support.UNSUPPORTED, EvRole.PRIMARY)
     else if limitation_type (cl_claim_type c) then Ok (Support.SUPPORTED, EvRole.PRIMARY)
     else Ok (Support.UNSUPPORTED, EvRole.CONTEXT))).
  { intros c' Hu Hb. destruct (support_usable e mode Hu Hb) as (E1 & E2 & E3 & E4).
    unfold _support. cbv zeta. rewrite bool_decide_eq_false_2 by done.
    by rewrite E1, E2, E3, E4. }
  intros H. unfold expected_support. destruct H as [c Hb Ht|c Hu Hty Hi Ht|c Hu Hty Ht
    |c f us Hu Hty Hf Hus' Ht Hv Hun Hp Ha Hba|c Hu Hty Ht|c Hu Hty Hc Ht|c Hu Hty Ht]; rewrite ?Ht.
  - rewrite (bool_decide_eq_true_2 _ Hb). unfold _support. cbv zeta.
    rewrite bool_decide_eq_false_2 by done. cbn [existsb orb].
    unfold blocked_evidence. rewrite (bool_decide_eq_true_2 _ Hb), Ht, !orb_false_r.
    destruct (bool_decide (e_status e = EvStatus.CONFLICTING)); eauto.
  - rewrite Hus by (rewrite ?Hty; done). rewrite Ht. cbn [existsb].
    rewrite Hty, Hi. eauto.
  - rewrite Hus by (rewrite ?Hty; done). rewrite Ht. eauto.
  - rewrite Hus; [|done|intros Hb; rewrite Hb in Hty; set_solver].
    cbn [res_any]. rewrite (metric_matches_own _ _ _ _ Hty Hf Hus' Hv Hun Hp Ha Hba), Ht.
    destruct (bool_decide (e_evidence_type e = _)); cbn [mbind res_bind].
    + change (bool_decide (ClType.FINANCIAL_METRIC = ClType.FINANCIAL_FACT)) with false.
      cbn [orb]. destruct (has_lineage e && _); eauto.
    + eauto.
  - rewrite Hus; [|done|intros Hb; rewrite Hb in Hty; set_solver]. rewrite Ht.
    rewrite (bool_decide_eq_false_2 (_ = EvType.BLOCKED_CAPABILITY_EVIDENCE)); [eauto|].
    intros Hb. rewrite Hb in Hty. set_solver.
  - rewrite Hus by (rewrite ?Hty; done). rewrite Ht. cbv zeta.
    rewrite filter_cons_True, filter_nil by done. cbn [existsb].
    rewrite !orb_false_r, (payload_str_is _ _ _ Hc), andb_true_r.
    change (bool_decide (ClType.DOCUMENT_DISCLOSURE = ClType.IDENTITY)) with false.
    destruct (is_none (e_published_at e)), (is_some (e_citation_id e)); eauto.
  - rewrite Hus by (rewrite ?Hty; done). rewrite Ht. eauto.
Qed.

(** The verdict on every claim the builder proposes, judged against the
    run's own evidence: identities, facts and data-quality notes are SUPPORTED;
    a metric is SUPPORTED exactly when its lineage is complete and its formula
    version is the metric basis; a limitation from a blocked capability is
    BLOCKED (or CONFLICTING); a disclosure is BLOCKED without a publication
    date and SUPPORTED when cited; a corporate action is never supported. *)
Theorem proposal_verdict ids n id e evidence created completed mode p v :
  NoDup (map e_id evidence) → e ∈ evidence →
  _propose id e created mode = Ok (Some p) →
  validate_claim ids n p evidence completed (bool_decide (mode = RMode.REAL_RESEARCH)) = Ok v →
  cc_support_status (cv_completion v) = expected_support e p ∧
  cc_lifecycle_status (cv_completion v) = Lifecycle.VALIDATED.
Proof.
  intros Hnd He Hp Hv. apply propose_Ok in Hp as (Hfrom & Hids & Hrun & _).
  unfold validate_claim in Hv. rewrite (select_evidence_one p evidence e) in Hv by done.
  destruct (support_own _ _ _ Hfrom) as (role & Hs). rewrite Hs in Hv. cbv zeta in Hv.
  apply bind_Ok in Hv as ([s r] & [= <- <-] & Hv). apply guard_seq in Hv as [_ [= <-]]. done.
Qed.

(** ** The pipeline *)

Lemma add_claim_Ok db c db' : add_claim db c = Ok db' →
  cdb_claims db !! cl_id c = None ∧
  ∃ key, stable_checksum (claim_basis c) = Ok key ∧ key_taken db (cl_run_id c) key = false ∧
    db' = mkClaimsDb (<[cl_id c := (key, c)]> (cdb_claims db)) (cdb_links db).
Proof.
  unfold add_claim. intros H. apply bind_Ok in H as (key & Hkey & H).
  apply guard_seq in H as [Hid H]. apply guard_seq in H as [Hk [= <-]].
  split; [by destruct (cdb_claims db !! cl_id c)|]. by exists key.
Qed.

Lemma add_links_Ok ls db db' : add_links db ls = Ok db' →
  cdb_claims db' = cdb_claims db ∧ cdb_links db' = cdb_links db ++ ls.
Proof.
  unfold add_links. revert db. induction ls as [|l ls IH]; intros db H; cbn in H.
  - injection H as <-. by rewrite app_nil_r.
  - apply bind_Ok in H as (db1 & H1 & H). unfold add_link in H1. rewrite !guard_seq in H1.
    destruct H1 as (_ & _ & _ & [= <-]). apply IH in H as [-> ->]. cbn. by rewrite <- app_assoc.
Qed.

(** What one proposal adds to the tables. *)
Record stored_claim (db db' : claims_db) (p : ResearchClaimProposal)
    (evidence : list ResearchEvidenceRecord) (c : ResearchClaimWrite) : Prop := {
  sc_id : cl_id c = cl_id p;
  sc_fresh : cdb_claims db !! cl_id c = None;
  sc_rows : ∃ key, cdb_claims db' = <[cl_id c := (key, c)]> (cdb_claims db);
  sc_validated : cl_lifecycle_status c = Lifecycle.VALIDATED ∧ is_Some (cl_support_status c);
  sc_links : ∃ ls, cdb_links db' = cdb_links db ++ ls ∧ ∀ l, l ∈ ls →
    lk_claim_id l = cl_id c ∧ lk_evidence_id l ∈ map e_id evidence }.

Lemma validate_claim_links ids n p evidence now real v l :
  validate_claim ids n p evidence now real = Ok v → l ∈ cv_links v →
  lk_claim_id l = cl_id p ∧ lk_evidence_id l ∈ map e_id evidence.
Proof.
  unfold validate_claim. cbv zeta. intros H Hl. apply bind_Ok in H as ([s r] & _ & H).
  apply guard_seq in H as [_ [= <-]]. cbn in Hl.
  apply elem_of_lookup_imap in Hl as (i & e & -> & He%list_elem_of_lookup_2). cbn.
  split; [done|]. apply list_elem_of_filter in He as [_ He].
  apply select_evidence_spec in He as [He _]. apply list_elem_of_fmap. by exists e.
Qed.

Lemma run_proposal_Ok env evidence mode db k m p c m' db' :
  run_proposal env evidence mode db k m p = Ok (c, m', db') → stored_claim db db' p evidence c.
Proof.
  unfold run_proposal. intros H. apply bind_Ok in H as (db1 & H1 & H).
  apply add_claim_Ok in H1 as (Hfresh & key & _ & _ & ->).
  apply bind_Ok in H as (v & Hv & H). apply bind_Ok in H as (db2 & H2 & H).
  apply add_links_Ok in H2 as [Hc2 Hl2]. apply bind_Ok in H as ([c' db3] & H3 & [= <- <- <-]).
  unfold complete_claim in H3. apply bind_Ok in H3 as (row & Hrow & [= <- <-]).
  apply require_some_Ok in Hrow. rewrite Hc2 in Hrow. cbn in Hrow, Hc2, Hl2.
  rewrite lookup_insert_eq in Hrow. injection Hrow as <-. cbn. split; cbn; try done.
  - exists key. by rewrite Hc2, insert_insert_eq.
  - split; [|done]. unfold validate_claim in Hv. cbv zeta in Hv.
    apply bind_Ok in Hv as (s & _ & Hv). by apply guard_seq in Hv as [_ [= <-]].
  - exists (cv_links v). split; [done|]. intros l Hl. by eapply validate_claim_links.
Qed.

Lemma run_proposals_Ok env evidence mode ps : ∀ db k m cs db',
  run_proposals env evidence mode db k m ps = Ok (cs, db') →
  map cl_id cs = map (λ p : ResearchClaimProposal, cl_id p) ps ∧
  (∀ id row, cdb_claims db !! id = Some row → cdb_claims db' !! id = Some row) ∧
  (∀ c, c ∈ cs → (∃ key, cdb_claims db' !! cl_id c = Some (key, c)) ∧
     cl_lifecycle_status c = Lifecycle.VALIDATED ∧ is_Some (cl_support_status c)) ∧
  (∃ ls, cdb_links db' = cdb_links db ++ ls ∧ ∀ l, l ∈ ls →
     lk_claim_id l ∈ map cl_id cs ∧ lk_evidence_id l ∈ map e_id evidence).
Proof.
  induction ps as [|p ps IH]; intros db k m cs db' H; cbn in H.
  - injection H as <- <-. split_and!; try done; [by intros c ?%elem_of_nil|].
    exists []. rewrite app_nil_r. split; [done|]. by intros l ?%elem_of_nil.
  - apply bind_Ok in H as ([[c m'] db1] & H1 & H). apply bind_Ok in H as ([cs' db2] & H2 & [= <- <-]).
    cbn in H2. apply run_proposal_Ok in H1 as [Hid Hfr [key Hrows] Hval (ls & Hl & Hls)].
    destruct (IH _ _ _ _ _ H2) as (Hids & Hold & Hcs & ls' & Hl' & Hls').
    split_and!; cbn.
    + by rewrite Hid, Hids.
    + intros id row Hr. apply Hold. rewrite Hrows, lookup_insert_ne; [done|]. congruence.
    + intros c' [->|Hc]%elem_of_cons; [|by apply Hcs]. split; [|done].
      exists key. apply Hold. by rewrite Hrows, lookup_insert_eq.
    + exists (ls ++ ls'). rewrite Hl', Hl, app_assoc. split; [done|].
      intros l [Hin|Hin]%elem_of_app.
      * destruct (Hls _ Hin) as [-> ?]. split; [left|done].
      * destruct (Hls' _ Hin) as [? ?]. split; [by right|done].
Qed.

(** The pipeline completes every claim it stores: it returns one claim per
    proposal, each stored, VALIDATED and with a support status; no earlier
    claim changes; and every new link joins one of these claims to a listed
    evidence record. *)
Theorem pipeline_completes_claims env db evidence run_id mode cs db' :
  build_and_validate env db evidence run_id mode = Ok (cs, db') →
  (∃ ps, propose_claims (claim_ids env) 0 run_id evidence (claim_clock env 0) mode = Ok ps ∧
     map cl_id cs = map (λ p : ResearchClaimProposal, cl_id p) ps) ∧
  (∀ c, c ∈ cs → (∃ key, cdb_claims db' !! cl_id c = Some (key, c)) ∧
     cl_lifecycle_status c = Lifecycle.VALIDATED ∧ is_Some (cl_support_status c)) ∧
  (∀ id row, cdb_claims db !! id = Some row → cdb_claims db' !! id = Some row) ∧
  (∃ ls, cdb_links db' = cdb_links db ++ ls ∧ ∀ l, l ∈ ls →
     lk_claim_id l ∈ map cl_id cs ∧ lk_evidence_id l ∈ map e_id evidence).
Proof.
  unfold build_and_validate. intros H. apply bind_Ok in H as (ps & Hps & H).
  destruct (run_proposals_Ok _ _ _ _ _ _ _ _ _ H) as (H1 & H2 & H3 & H4).
  split_and!; try done. by exists ps.
Qed.

(** ** Packages *)

(** The claims of a section. *)
Definition claims_of (section : ResearchSection) (claims : list ResearchClaimWrite) :
    list ResearchClaimWrite := filter (λ c, _claim_section c = section) claims.

Lemma all_sections s : s ∈ RSection.all.
Proof. destruct s; vm_compute; repeat constructor. Qed.

Lemma section_section s requested claims : sec_section (_section s requested claims) = s.
Proof. unfold _section. destruct (negb _); [done|]. by destruct (bool_decide _). Qed.

Lemma sections_order requested claims l :
  map sec_section (map (λ s, _section s requested claims) l) = l.
Proof. induction l as [|s l IH]; [done|]. cbn. by rewrite section_section, IH. Qed.

Lemma section_ids s requested claims id :
  id ∈ sec_claim_ids (_section s requested claims) ↔
  s ∈ requested ∧ id ∈ map cl_id (claims_of s claims).
Proof.
  unfold _section. case_bool_decide as Hs; cbn [negb]; [|cbn; set_solver].
  assert (Hp : map cl_id (sort_key (λ c, uuid_str (cl_id c)) (claims_of s claims)) ≡ₚ
    map cl_id (claims_of s claims)) by (apply fmap_Permutation, sort_by_perm).
  fold (claims_of s claims). case_bool_decide as Hn; cbn.
  - rewrite Hn in Hp. rewrite <- Hp. set_solver.
  - rewrite Hp. tauto.
Qed.

Lemma section_outcome_pass claims :
  (section_outcome claims).1 = SecStatus.PASS ↔
  ∀ c, c ∈ claims → cl_support_status c = Some Support.SUPPORTED.
Proof.
  unfold section_outcome. cbv zeta. destruct (forallb _ _) eqn:E1; cbn.
  - rewrite forallb_forall in E1. split; [intros _ c Hc|done].
    apply (bool_decide_eq_true_1 _), E1, list_elem_of_In, list_elem_of_fmap. by exists c.
  - split; [destruct (forallb (λ s, bool_decide (s = Some Support.BLOCKED)) _); done|].
    intros H. exfalso. apply not_true_iff_false in E1. apply E1, forallb_forall.
    intros x Hx%list_elem_of_In. apply list_elem_of_fmap in Hx as (c & -> & Hc).
    by apply bool_decide_eq_true, H.
Qed.

Lemma section_pass s requested claims :
  sec_status (_section s requested claims) = SecStatus.PASS ↔
  s ∈ requested ∧ claims_of s claims ≠ [] ∧
  ∀ c, c ∈ claims_of s claims → cl_support_status c = Some Support.SUPPORTED.
Proof.
  unfold _section. fold (claims_of s claims).
  assert (Hp := sort_by_perm (key_ltb (λ c, uuid_str (cl_id c))) (claims_of s claims)).
  fold (sort_key (λ c, uuid_str (cl_id c)) (claims_of s claims)) in Hp.
  case_bool_decide as Hs; cbn [negb]; [|cbn; naive_solver].
  case_bool_decide as Hn; cbn [sec_status].
  - apply map_eq_nil in Hn. rewrite Hn in Hp. apply Permutation_nil_l in Hp. naive_solver.
  - rewrite section_outcome_pass. setoid_rewrite Hp. split; [|tauto].
    intros H. split_and!; try done. intros Hc. rewrite Hc in Hn. done.
Qed.

Lemma package_complete requested claims failed :
  _package_status (map (λ s, _section s requested claims) RSection.all) requested failed
    = PkgStatus.COMPLETE ↔
  failed = false ∧ requested ≠ [] ∧ ∀ s, s ∈ requested → claims_of s claims ≠ [] ∧
    ∀ c, c ∈ claims_of s claims → cl_support_status c = Some Support.SUPPORTED.
Proof.
  unfold _package_status. destruct failed; [naive_solver|]. cbv zeta.
  set (active := map sec_status _).
  assert (Hact : ∀ st, st ∈ active ↔ ∃ s, s ∈ requested ∧ st = sec_status (_section s requested claims)).
  { intros st. unfold active. rewrite list_elem_of_fmap. split.
    - intros (sec & -> & Hs). apply list_elem_of_filter in Hs as [Hr Hs].
      apply list_elem_of_fmap in Hs as (s & -> & _). rewrite section_section in Hr. eauto.
    - intros (s & Hs & ->). eexists. split; [done|]. apply list_elem_of_filter.
      rewrite section_section. split; [done|]. apply list_elem_of_fmap. exists s.
      split; [done|apply all_sections]. }
  assert (Hnil : active = [] ↔ requested = []).
  { split; [|intros ->; apply elem_of_nil_inv; intros st; rewrite Hact; set_solver].
    intros Hn. apply elem_of_nil_inv. intros s Hs.
    apply (not_elem_of_nil (sec_status (_section s requested claims))). rewrite <- Hn.
    apply Hact. eauto. }
  transitivity (negb (bool_decide (active = [])) &&
    forallb (λ s, bool_decide (s = SecStatus.PASS)) active = true).
  { destruct (_ && _); [done|]. by destruct (_ && _). }
  rewrite andb_true_iff, negb_true_iff, bool_decide_eq_false, Hnil, forallb_forall.
  setoid_rewrite bool_decide_eq_true. setoid_rewrite <- list_elem_of_In. setoid_rewrite Hact.
  split.
  - intros [Hr Hall]. split_and!; try done. intros s Hs. apply (section_pass s requested claims).
    apply Hall. eauto.
  - intros (_ & Hr & Hall). split; [done|]. intros st (s & Hs & ->). apply section_pass.
    split; [done|]. by apply Hall.
Qed.

(** A package tells the truth about its claims: it is FAILED exactly when
    the run failed, COMPLETE exactly when the run did not fail, something was
    requested and every requested section has claims, all SUPPORTED; each
    section lists exactly the identifiers of its claims when requested and
    nothing otherwise; the unsupported, conflicting and evidence lists are
    exactly those of the inputs; and the checksum covers every field. *)
Theorem package_status_iff package_id run_id request_id security snapshot as_of rtype pv plv tv
    requested claims evidence blocked warnings failed now p :
  assemble package_id run_id request_id security snapshot as_of rtype pv plv tv requested claims
    evidence blocked warnings failed now = Ok p →
  (pk_status p = PkgStatus.FAILED ↔ failed = true) ∧
  (pk_status p = PkgStatus.COMPLETE ↔ failed = false ∧ requested ≠ [] ∧
     ∀ s, s ∈ requested → claims_of s claims ≠ [] ∧
       ∀ c, c ∈ claims_of s claims → cl_support_status c = Some Support.SUPPORTED) ∧
  map sec_section (pk_sections p) = RSection.all ∧
  (∀ sec id, sec ∈ pk_sections p → id ∈ sec_claim_ids sec ↔
     sec_section sec ∈ requested ∧ id ∈ map cl_id (claims_of (sec_section sec) claims)) ∧
  (∀ id, id ∈ pk_evidence_ids p ↔ id ∈ map e_id evidence) ∧
  (∀ id, id ∈ pk_unsupported_claim_ids p ↔
     ∃ c, c ∈ claims ∧ cl_id c = id ∧ cl_support_status c = Some Support.UNSUPPORTED) ∧
  (∀ id, id ∈ pk_conflicting_claim_ids p ↔
     ∃ c, c ∈ claims ∧ cl_id c = id ∧ cl_support_status c = Some Support.CONFLICTING) ∧
  stable_checksum (dump_package p) = Ok (pk_checksum p).
Proof.
  unfold assemble. cbv zeta. intros H. apply bind_Ok in H as (ck & Hck & H).
  apply guard_seq in H as [_ [= <-]]. cbn [pk_write pk_checksum pk_status pk_sections
    pk_evidence_ids pk_unsupported_claim_ids pk_conflicting_claim_ids].
  assert (Hids : ∀ s id, id ∈ ids_with_support s claims ↔
    ∃ c, c ∈ claims ∧ cl_id c = id ∧ cl_support_status c = Some s).
  { intros s id. unfold ids_with_support, sort_uuid, sort_key. rewrite sort_by_perm,
      list_elem_of_fmap. setoid_rewrite list_elem_of_filter. naive_solver. }
  split; [|split; [|split; [|split; [|split; [|split; [|split; [|exact Hck]]]]]]].
  - unfold _package_status. destruct failed; [done|]. cbv zeta.
    destruct (_ && _); [done|]. by destruct (_ && _).
  - apply package_complete.
  - apply (sections_order requested claims RSection.all).
  - intros sec id Hsec.
    change (sec ∈ map (λ s, _section s requested claims) RSection.all) in Hsec.
    apply list_elem_of_fmap in Hsec as (s & -> & _).
    by rewrite section_ids, section_section.
  - intros id. unfold sort_uuid, sort_key. by rewrite sort_by_perm, elem_of_remove_dups.
  - apply Hids.
  - apply Hids.
Qed.

(** * Examples *)

Module ClaimExamples.
Import PreflightExamples LedgerExamples.

Definition env : claim_env := mkClaimEnv
  (λ n, mkUUID ("claim-" +:+ str_of_Z (Z.of_nat n))) (λ n, mkUUID ("link-" +:+ str_of_Z (Z.of_nat n)))
  (λ n, 200 + Z.of_nat n).
Definition no_claims : claims_db := mkClaimsDb ∅ [].
Definition run : UUID := mkUUID "run".

Definition quality_claim (support : option ClaimSupportStatus) : ResearchClaimWrite :=
  mkClaim (mkUUID "claim-0") run ClType.DATA_QUALITY
    (if is_some support then Lifecycle.VALIDATED else Lifecycle.CANDIDATE) support "STALE_DATA"
    None None None None None None BUILDER_VERSION
    (if is_some support then Some "claim-support-validator-v1" else None) 200
    (if is_some support then Some 201 else None).
Definition proposal : ResearchClaimProposal := mkProposal (quality_claim None) [mkUUID "ev"].
Definition validation : ClaimValidationResult :=
  mkClaimValidation (mkClaimCompletion Lifecycle.VALIDATED Support.SUPPORTED
      "claim-support-validator-v1" 201)
    [mkLink (mkUUID "link-0") run (mkUUID "claim-0") (mkUUID "ev") EvRole.PRIMARY 201].

Lemma validation_ok :
  validate_claim (link_ids env) 0 proposal [quality_evidence] 201 true = Ok validation.
Proof. vm_compute. reflexivity. Qed.

(** The outcome of a whole pipeline run. *)
Definition outcome (evidence : list ResearchEvidenceRecord) : res (list ResearchClaimWrite * claims_db) :=
  build_and_validate env no_claims evidence run RMode.REAL_RESEARCH.

Definition with_id (e : ResearchEvidenceRecord) (id : string) : ResearchEvidenceRecord :=
  mkEvidence (mkUUID id) (e_run_id e) (e_observation_id e) (e_evidence_type e) (e_status e)
    (e_schema_version e) (e_security_id e) (e_snapshot_id e) (e_research_as_of_time e)
    (e_source_record_type e) (e_source_record_id e) (e_source_checksum e) (e_published_at e)
    (e_citation_id e) (e_calculation_run_id e) (e_calculation_input_ids e) (e_formula_version e)
    (e_synthetic_status e) (e_payload e) (e_warning_codes e) (e_created_at e).

(** A structured fact whose as-of time has no offset. *)
Definition naive_fact : ResearchEvidenceRecord :=
  mkEvidence (mkUUID "ev") run (mkUUID "ob") EvType.STRUCTURED_FACT_EVIDENCE EvStatus.VALID
    "evidence-v1" (mkUUID "sec") (mkUUID "snap") 100 None None None None None None [] None
    Synth.REAL_VERIFIED
    [("value", VStr "1.5"); ("unit", VStr "RATIO"); ("period", VStr "FY2023");
     ("as_of_time", VStr "2024-01-01T00:00:00"); ("metric_basis", VStr "GAAP");
     ("metric_code", VStr "CURRENT_RATIO")] [] 101.

Definition package : res ResearchPackageRecord :=
  assemble (mkUUID "pkg") run (mkUUID "req") (mkUUID "sec") (mkUUID "snap") 100
    RType.DATA_QUALITY_REVIEW "controlled-offline-v1" PLANNER_VERSION (catalog_version catalog)
    [RSection.DATA_QUALITY] [quality_claim (Some Support.SUPPORTED)] [quality_evidence] [] [] false 300.
Definition package_status : option PkgStatus.ResearchPackageStatus :=
  match package with Ok p => Some (pk_status p) | Raise _ => None end.

End ClaimExamples.

(** Two records with the same quality code make the second claim collide with
    the first: the key of a claim leaves out the evidence it is built from. *)
Lemma same_code_collides :
  ClaimExamples.outcome [LedgerExamples.quality_evidence;
    ClaimExamples.with_id LedgerExamples.quality_evidence "ev-2"]
  = Raise (mkExn IntegrityError "uq_research_claims_run_key").
Proof. vm_compute. reflexivity. Qed.

(** An as-of time without an offset makes the builder raise instead of falling
    back to a METRIC_INPUT_INCOMPLETE limitation. *)
Lemma naive_as_of_raises :
  ClaimExamples.outcome [ClaimExamples.naive_fact] = Raise (mkExn ValidationError "as_of_time").
Proof. vm_compute. reflexivity. Qed.


Lemma proposal_verdict_witness :
  Support.SUPPORTED = expected_support LedgerExamples.quality_evidence ClaimExamples.proposal.
Proof.
  refine (proj1 (proposal_verdict (link_ids ClaimExamples.env) 0 (mkUUID "claim-0")
    LedgerExamples.quality_evidence [LedgerExamples.quality_evidence] 200 201
    RMode.REAL_RESEARCH ClaimExamples.proposal ClaimExamples.validation _ _ _ _)).
  - apply NoDup_singleton.
  - left.
  - reflexivity.
  - exact ClaimExamples.validation_ok.
Defined.

Lemma pipeline_completes_claims_witness :
  match ClaimExamples.outcome [LedgerExamples.quality_evidence] with
  | Ok (cs, _) => map cl_id cs = [mkUUID "claim-0"]
  | Raise _ => False
  end.
Proof.
  destruct (ClaimExamples.outcome [LedgerExamples.quality_evidence]) as [[cs db]|e] eqn:E;
    [|vm_compute in E; discriminate].
  destruct (pipeline_completes_claims _ _ _ _ _ _ _ E) as [(ps & Hps & ->) _].
  vm_compute in Hps. injection Hps as <-. reflexivity.
Defined.

Lemma package_status_iff_witness : ClaimExamples.package_status = Some PkgStatus.COMPLETE.
Proof.
  unfold ClaimExamples.package_status.
  destruct ClaimExamples.package as [p|e] eqn:E; [|vm_compute in E; discriminate].
  f_equal. apply (package_status_iff _ _ _ _ _ _ _ _ _ _ _ _ _ _ _ _ _ _ E).
  split; [reflexivity|]. split; [discriminate|].
  intros s Hs. apply list_elem_of_singleton in Hs as ->. split; [discriminate|].
  intros c Hc. apply list_elem_of_singleton in Hc as ->. reflexivity.
Defined.
