(* ===== verification/FinModel.v ===== *)
(** The vocabulary of the financial components and their point-in-time rules:
    domain/financials/enums.py, concepts.py, units.py (unit scaling and
    currencies), periods.py (fiscal periods and their comparability),
    mapping.py (provider concept mapping) and as_of.py (fact versions public at
    a research time).  Values are finite [decimal]s: the type rules out the
    floats, NaNs and infinities the code rejects first. *)
From S2P Require Import Prelude PyDecimal PyText.
From Stdlib Require Import Ascii.

(** * Closed vocabularies *)

Module Stmt.
Inductive StatementType :=
  | INCOME_STATEMENT | BALANCE_SHEET | CASH_FLOW | SHARES.
#[global] Instance StatementType_eq_dec : EqDecision StatementType.
Proof. solve_decision. Defined.
Definition all : list StatementType :=
  [INCOME_STATEMENT; BALANCE_SHEET; CASH_FLOW; SHARES].
Definition value (x : StatementType) : string :=
  match x with
  | INCOME_STATEMENT => "INCOME_STATEMENT"
  | BALANCE_SHEET => "BALANCE_SHEET"
  | CASH_FLOW => "CASH_FLOW"
  | SHARES => "SHARES"
  end.
End Stmt.
Abbreviation StatementType := Stmt.StatementType.

Module Nature.
Inductive FactNature :=
  | DURATION | INSTANT | PER_SHARE | SHARES | RATIO_INPUT.
#[global] Instance FactNature_eq_dec : EqDecision FactNature.
Proof. solve_decision. Defined.
Definition all : list FactNature :=
  [DURATION; INSTANT; PER_SHARE; SHARES; RATIO_INPUT].
Definition value (x : FactNature) : string :=
  match x with
  | DURATION => "DURATION"
  | INSTANT => "INSTANT"
  | PER_SHARE => "PER_SHARE"
  | SHARES => "SHARES"
  | RATIO_INPUT => "RATIO_INPUT"
  end.
End Nature.
Abbreviation FactNature := Nature.FactNature.

Module UType.
Inductive UnitType :=
  | MONETARY_AMOUNT | PER_SHARE | SHARES | RATIO.
#[global] Instance UnitType_eq_dec : EqDecision UnitType.
Proof. solve_decision. Defined.
Definition all : list UnitType :=
  [MONETARY_AMOUNT; PER_SHARE; SHARES; RATIO].
Definition value (x : UnitType) : string :=
  match x with
  | MONETARY_AMOUNT => "MONETARY_AMOUNT"
  | PER_SHARE => "PER_SHARE"
  | SHARES => "SHARES"
  | RATIO => "RATIO"
  end.
End UType.
Abbreviation UnitType := UType.UnitType.

Module MapStatus.
Inductive MappingStatus :=
  | APPROVED | AMBIGUOUS | UNMAPPED | DEPRECATED.
#[global] Instance MappingStatus_eq_dec : EqDecision MappingStatus.
Proof. solve_decision. Defined.
Definition all : list MappingStatus :=
  [APPROVED; AMBIGUOUS; UNMAPPED; DEPRECATED].
Definition value (x : MappingStatus) : string :=
  match x with
  | APPROVED => "APPROVED"
  | AMBIGUOUS => "AMBIGUOUS"
  | UNMAPPED => "UNMAPPED"
  | DEPRECATED => "DEPRECATED"
  end.
End MapStatus.
Abbreviation MappingStatus := MapStatus.MappingStatus.

Module Quality.
Inductive QualityStatus :=
  | PASS | PARTIAL | BLOCKED | FAIL.
#[global] Instance QualityStatus_eq_dec : EqDecision QualityStatus.
Proof. solve_decision. Defined.
Definition all : list QualityStatus :=
  [PASS; PARTIAL; BLOCKED; FAIL].
Definition value (x : QualityStatus) : string :=
  match x with
  | PASS => "PASS"
  | PARTIAL => "PARTIAL"
  | BLOCKED => "BLOCKED"
  | FAIL => "FAIL"
  end.
End Quality.
Abbreviation QualityStatus := Quality.QualityStatus.

Module RUnit.
Inductive ReportedUnit :=
  | ONE | THOUSAND | MILLION | BILLION | PER_SHARE | SHARES | PERCENT | RATIO.
#[global] Instance ReportedUnit_eq_dec : EqDecision ReportedUnit.
Proof. solve_decision. Defined.
Definition all : list ReportedUnit :=
  [ONE; THOUSAND; MILLION; BILLION; PER_SHARE; SHARES; PERCENT; RATIO].
Definition value (x : ReportedUnit) : string :=
  match x with
  | ONE => "ONE"
  | THOUSAND => "THOUSAND"
  | MILLION => "MILLION"
  | BILLION => "BILLION"
  | PER_SHARE => "PER_SHARE"
  | SHARES => "SHARES"
  | PERCENT => "PERCENT"
  | RATIO => "RATIO"
  end.
End RUnit.
Abbreviation ReportedUnit := RUnit.ReportedUnit.

Module PType.
Inductive PeriodType :=
  | ANNUAL | QUARTER | HALF_YEAR | NINE_MONTH_YTD | YEAR_TO_DATE | TTM | INSTANT.
#[global] Instance PeriodType_eq_dec : EqDecision PeriodType.
Proof. solve_decision. Defined.
Definition all : list PeriodType :=
  [ANNUAL; QUARTER; HALF_YEAR; NINE_MONTH_YTD; YEAR_TO_DATE; TTM; INSTANT].
Definition value (x : PeriodType) : string :=
  match x with
  | ANNUAL => "ANNUAL"
  | QUARTER => "QUARTER"
  | HALF_YEAR => "HALF_YEAR"
  | NINE_MONTH_YTD => "NINE_MONTH_YTD"
  | YEAR_TO_DATE => "YEAR_TO_DATE"
  | TTM => "TTM"
  | INSTANT => "INSTANT"
  end.
End PType.
Abbreviation PeriodType := PType.PeriodType.

Module Concept.
Inductive CanonicalConcept :=
  | REVENUE | COST_OF_REVENUE | GROSS_PROFIT | OPERATING_INCOME | EBITDA | PRETAX_INCOME
   | INCOME_TAX_EXPENSE | NET_INCOME | NET_INCOME_ATTRIBUTABLE_TO_PARENT | BASIC_EPS
   | DILUTED_EPS | CASH_AND_CASH_EQUIVALENTS | SHORT_TERM_INVESTMENTS | ACCOUNTS_RECEIVABLE
   | INVENTORY | TOTAL_CURRENT_ASSETS | TOTAL_ASSETS | SHORT_TERM_DEBT | LONG_TERM_DEBT
   | TOTAL_DEBT | TOTAL_CURRENT_LIABILITIES | TOTAL_LIABILITIES | TOTAL_EQUITY
   | EQUITY_ATTRIBUTABLE_TO_PARENT | MINORITY_INTEREST | PREFERRED_EQUITY
   | OPERATING_CASH_FLOW | CAPITAL_EXPENDITURES | INVESTING_CASH_FLOW | FINANCING_CASH_FLOW
   | CASH_DIVIDENDS_PAID | SHARE_REPURCHASES | BASIC_WEIGHTED_AVERAGE_SHARES
   | DILUTED_WEIGHTED_AVERAGE_SHARES | PERIOD_END_SHARES_OUTSTANDING.
#[global] Instance CanonicalConcept_eq_dec : EqDecision CanonicalConcept.
Proof. solve_decision. Defined.
Definition all : list CanonicalConcept :=
  [REVENUE; COST_OF_REVENUE; GROSS_PROFIT; OPERATING_INCOME; EBITDA; PRETAX_INCOME
  ; INCOME_TAX_EXPENSE; NET_INCOME; NET_INCOME_ATTRIBUTABLE_TO_PARENT; BASIC_EPS; DILUTED_EPS
  ; CASH_AND_CASH_EQUIVALENTS; SHORT_TERM_INVESTMENTS; ACCOUNTS_RECEIVABLE; INVENTORY
  ; TOTAL_CURRENT_ASSETS; TOTAL_ASSETS; SHORT_TERM_DEBT; LONG_TERM_DEBT; TOTAL_DEBT
  ; TOTAL_CURRENT_LIABILITIES; TOTAL_LIABILITIES; TOTAL_EQUITY; EQUITY_ATTRIBUTABLE_TO_PARENT
  ; MINORITY_INTEREST; PREFERRED_EQUITY; OPERATING_CASH_FLOW; CAPITAL_EXPENDITURES
  ; INVESTING_CASH_FLOW; FINANCING_CASH_FLOW; CASH_DIVIDENDS_PAID; SHARE_REPURCHASES
  ; BASIC_WEIGHTED_AVERAGE_SHARES; DILUTED_WEIGHTED_AVERAGE_SHARES
  ; PERIOD_END_SHARES_OUTSTANDING].
Definition value (x : CanonicalConcept) : string :=
  match x with
  | REVENUE => "REVENUE"
  | COST_OF_REVENUE => "COST_OF_REVENUE"
  | GROSS_PROFIT => "GROSS_PROFIT"
  | OPERATING_INCOME => "OPERATING_INCOME"
  | EBITDA => "EBITDA"
  | PRETAX_INCOME => "PRETAX_INCOME"
  | INCOME_TAX_EXPENSE => "INCOME_TAX_EXPENSE"
  | NET_INCOME => "NET_INCOME"
  | NET_INCOME_ATTRIBUTABLE_TO_PARENT => "NET_INCOME_ATTRIBUTABLE_TO_PARENT"
  | BASIC_EPS => "BASIC_EPS"
  | DILUTED_EPS => "DILUTED_EPS"
  | CASH_AND_CASH_EQUIVALENTS => "CASH_AND_CASH_EQUIVALENTS"
  | SHORT_TERM_INVESTMENTS => "SHORT_TERM_INVESTMENTS"
  | ACCOUNTS_RECEIVABLE => "ACCOUNTS_RECEIVABLE"
  | INVENTORY => "INVENTORY"
  | TOTAL_CURRENT_ASSETS => "TOTAL_CURRENT_ASSETS"
  | TOTAL_ASSETS => "TOTAL_ASSETS"
  | SHORT_TERM_DEBT => "SHORT_TERM_DEBT"
  | LONG_TERM_DEBT => "LONG_TERM_DEBT"
  | TOTAL_DEBT => "TOTAL_DEBT"
  | TOTAL_CURRENT_LIABILITIES => "TOTAL_CURRENT_LIABILITIES"
  | TOTAL_LIABILITIES => "TOTAL_LIABILITIES"
  | TOTAL_EQUITY => "TOTAL_EQUITY"
  | EQUITY_ATTRIBUTABLE_TO_PARENT => "EQUITY_ATTRIBUTABLE_TO_PARENT"
  | MINORITY_INTEREST => "MINORITY_INTEREST"
  | PREFERRED_EQUITY => "PREFERRED_EQUITY"
  | OPERATING_CASH_FLOW => "OPERATING_CASH_FLOW"
  | CAPITAL_EXPENDITURES => "CAPITAL_EXPENDITURES"
  | INVESTING_CASH_FLOW => "INVESTING_CASH_FLOW"
  | FINANCING_CASH_FLOW => "FINANCING_CASH_FLOW"
  | CASH_DIVIDENDS_PAID => "CASH_DIVIDENDS_PAID"
  | SHARE_REPURCHASES => "SHARE_REPURCHASES"
  | BASIC_WEIGHTED_AVERAGE_SHARES => "BASIC_WEIGHTED_AVERAGE_SHARES"
  | DILUTED_WEIGHTED_AVERAGE_SHARES => "DILUTED_WEIGHTED_AVERAGE_SHARES"
  | PERIOD_END_SHARES_OUTSTANDING => "PERIOD_END_SHARES_OUTSTANDING"
  end.
End Concept.
Abbreviation CanonicalConcept := Concept.CanonicalConcept.

(** [Enum(value)]: the member with that value. *)
Definition enum_of {A} (all : list A) (value : A → string) (s : string) : option A :=
  find (λ x, bool_decide (value x = s)) all.

(** * Concepts *)

(** The fields of [CanonicalConceptDefinition] the calculations read. *)
Record CanonicalConceptDefinition := mkConcept {
  cc_code : CanonicalConcept; cc_statement_type : StatementType; cc_fact_nature : FactNature;
  cc_default_unit_type : UnitType; supports_duration : bool; supports_instant : bool;
  supports_cumulative : bool; supports_ttm : bool; allows_negative : bool }.

Definition _duration_amount (code : CanonicalConcept) (statement : StatementType) :
    CanonicalConceptDefinition :=
  mkConcept code statement Nature.DURATION UType.MONETARY_AMOUNT true false true true
    (negb (bool_decide (code ∈ [Concept.REVENUE; Concept.COST_OF_REVENUE;
                                Concept.INCOME_TAX_EXPENSE]))).
Definition _instant_amount (code : CanonicalConcept) : CanonicalConceptDefinition :=
  mkConcept code Stmt.BALANCE_SHEET Nature.INSTANT UType.MONETARY_AMOUNT false true false false
    (bool_decide (code ∈ [Concept.TOTAL_EQUITY; Concept.EQUITY_ATTRIBUTABLE_TO_PARENT])).
Definition _per_share (code : CanonicalConcept) : CanonicalConceptDefinition :=
  mkConcept code Stmt.INCOME_STATEMENT Nature.PER_SHARE UType.PER_SHARE true false false false true.
Definition _shares (code : CanonicalConcept) (instant : bool) : CanonicalConceptDefinition :=
  mkConcept code Stmt.SHARES Nature.SHARES UType.SHARES (negb instant) instant false false false.

Definition _INCOME_AMOUNT_CONCEPTS : list CanonicalConcept :=
  [Concept.REVENUE; Concept.COST_OF_REVENUE; Concept.GROSS_PROFIT; Concept.OPERATING_INCOME;
   Concept.EBITDA; Concept.PRETAX_INCOME; Concept.INCOME_TAX_EXPENSE; Concept.NET_INCOME;
   Concept.NET_INCOME_ATTRIBUTABLE_TO_PARENT].
Definition _BALANCE_CONCEPTS : list CanonicalConcept :=
  [Concept.CASH_AND_CASH_EQUIVALENTS; Concept.SHORT_TERM_INVESTMENTS; Concept.ACCOUNTS_RECEIVABLE;
   Concept.INVENTORY; Concept.TOTAL_CURRENT_ASSETS; Concept.TOTAL_ASSETS; Concept.SHORT_TERM_DEBT;
   Concept.LONG_TERM_DEBT; Concept.TOTAL_DEBT; Concept.TOTAL_CURRENT_LIABILITIES;
   Concept.TOTAL_LIABILITIES; Concept.TOTAL_EQUITY; Concept.EQUITY_ATTRIBUTABLE_TO_PARENT;
   Concept.MINORITY_INTEREST; Concept.PREFERRED_EQUITY].
Definition _CASH_FLOW_CONCEPTS : list CanonicalConcept :=
  [Concept.OPERATING_CASH_FLOW; Concept.CAPITAL_EXPENDITURES; Concept.INVESTING_CASH_FLOW;
   Concept.FINANCING_CASH_FLOW; Concept.CASH_DIVIDENDS_PAID; Concept.SHARE_REPURCHASES].

Definition CANONICAL_CONCEPTS : list CanonicalConceptDefinition :=
  map (λ c, _duration_amount c Stmt.INCOME_STATEMENT) _INCOME_AMOUNT_CONCEPTS ++
  [_per_share Concept.BASIC_EPS; _per_share Concept.DILUTED_EPS] ++
  map _instant_amount _BALANCE_CONCEPTS ++
  map (λ c, _duration_amount c Stmt.CASH_FLOW) _CASH_FLOW_CONCEPTS ++
  [_shares Concept.BASIC_WEIGHTED_AVERAGE_SHARES false;
   _shares Concept.DILUTED_WEIGHTED_AVERAGE_SHARES false;
   _shares Concept.PERIOD_END_SHARES_OUTSTANDING true].

(** [get_concept]; the registry is complete, so the default is never used. *)
Definition get_concept (code : CanonicalConcept) : CanonicalConceptDefinition :=
  default (_per_share code) (find (λ d, bool_decide (cc_code d = code)) CANONICAL_CONCEPTS).

(** The registry defines every concept once. *)
Lemma concepts_complete c : filter (λ d, cc_code d = c) CANONICAL_CONCEPTS = [get_concept c].
Proof. destruct c; vm_compute; reflexivity. Qed.

(** * Units and currencies *)

Record UnitNormalizationResult := mkUnitResult {
  un_original_value : decimal; un_original_unit : ReportedUnit; un_normalized_value : decimal;
  un_normalized_unit : string; un_scale_factor : decimal }.

(** [_AMOUNT_SCALES] *)
Definition _AMOUNT_SCALES (u : ReportedUnit) : option decimal :=
  match u with
  | RUnit.ONE => Some (dec_of_Z 1)
  | RUnit.THOUSAND => Some (dec_of_Z 1000)
  | RUnit.MILLION => Some (dec_of_Z 1000000)
  | RUnit.BILLION => Some (dec_of_Z 1000000000)
  | _ => None
  end.

(** The scale and the normalized unit of a compatible pair. *)
Definition unit_scale (unit : ReportedUnit) (expected : UnitType) : option (decimal * ReportedUnit) :=
  match expected, unit, _AMOUNT_SCALES unit with
  | UType.MONETARY_AMOUNT, _, Some scale => Some (scale, RUnit.ONE)
  | UType.PER_SHARE, RUnit.PER_SHARE, _ => Some (dec_of_Z 1, RUnit.PER_SHARE)
  | UType.SHARES, RUnit.SHARES, _ => Some (dec_of_Z 1, RUnit.SHARES)
  | UType.RATIO, RUnit.PERCENT, _ => Some (mkDec false 1 (-2), RUnit.RATIO)
  | UType.RATIO, RUnit.RATIO, _ => Some (dec_of_Z 1, RUnit.RATIO)
  | _, _, _ => None
  end.

(** [normalize_unit] *)
Definition normalize_unit (value : decimal) (reported_unit : ReportedUnit)
    (expected_unit_type : UnitType) : res UnitNormalizationResult :=
  match unit_scale reported_unit expected_unit_type with
  | Some (scale, normalized) =>
      Ok (mkUnitResult value reported_unit (dmul value scale) (RUnit.value normalized) scale)
  | None => raise UnitNormalizationBlocked ("incompatible reported unit " +:+
      RUnit.value reported_unit +:+ " for " +:+ UType.value expected_unit_type)
  end.

(** [len(c) == 3 and c.isascii() and c.isupper()] *)
Definition str_isascii (s : string) : bool :=
  forallb (λ c, (nat_of_ascii c <? 128)%nat) (String.list_ascii_of_string s).
Definition str_isupper (s : string) : bool :=
  let l := String.list_ascii_of_string s in
  existsb (λ c, negb (bool_decide (ascii_lower c = c))) l &&
  forallb (λ c, bool_decide (ascii_upper c = c)) l.
Definition currency_token (s : string) : bool :=
  (String.length s =? 3)%nat && str_isascii s && str_isupper s.

(** [require_same_currency] *)
Definition require_same_currency (currencies : list (option string)) : res string :=
  reject_if (match currencies with [] => true | _ => false end || existsb is_none currencies)
    UnitNormalizationBlocked "currency is required for every monetary input";;
  let values := omap id currencies in
  reject_if (negb (forallb currency_token values))
    UnitNormalizationBlocked "currency must be an uppercase ISO 4217 code";;
  match remove_dups values with
  | [c] => Ok c
  | _ => raise UnitNormalizationBlocked "currency mismatch blocks deterministic calculation"
  end.

(** * Fiscal periods *)

Record FinancialPeriod := mkPeriod {
  fp_fiscal_year : Z; fp_fiscal_quarter : option Z; fp_fiscal_period : string;
  fp_period_type : PeriodType; fp_fact_nature : FactNature; fp_period_start : option date;
  fp_period_end : date; fp_filing_date : option date; fp_published_at : option time;
  fp_duration_days : option Z; fp_is_annual : bool; fp_is_cumulative : bool;
  fp_is_single_quarter : bool; fp_is_ttm : bool; fp_accounting_standard : string;
  fp_source_form_type : string }.
#[export] Instance FinancialPeriod_eq_dec : EqDecision FinancialPeriod.
Proof. solve_decision. Defined.

(** [published_at] made aware UTC. *)
Definition utc_optional (o : option datetime) (k : exn_kind) (msg : string) : res (option time) :=
  match o with
  | None => Ok None
  | Some d => t ← require_some (to_utc d) k msg; Ok (Some t)
  end.

(** The duration of [FinancialPeriod.create], once its shape is checked. *)
Definition period_duration (ptype : PeriodType) (nature : FactNature) (start : option date)
    (end_ : date) (cumulative single_quarter : bool) : res (option Z) :=
  if bool_decide (ptype = PType.INSTANT) then
    reject_if (negb (bool_decide (nature = Nature.INSTANT)))
      PeriodSemanticsError "instant period requires instant fact nature";;
    reject_if (is_some start || cumulative || single_quarter) PeriodSemanticsError
      "instant periods cannot have a start, duration, cumulative or quarter flag";;
    Ok None
  else
    reject_if (bool_decide (nature = Nature.INSTANT))
      PeriodSemanticsError "duration period cannot contain an instant fact";;
    start ← require_some start PeriodSemanticsError "duration period requires period_start";
    reject_if (end_ <? start) PeriodSemanticsError "period_end cannot precede period_start";;
    Ok (Some (end_ - start + 1)).

(** [FinancialPeriod.create] *)
Definition create_period (fiscal_year fiscal_quarter : option Z) (fiscal_period : string)
    (ptype : PeriodType) (nature : FactNature) (start : option date) (end_ : date)
    (filing_date : option date) (published_at : option datetime)
    (cumulative single_quarter : bool) (standard form : string) : res FinancialPeriod :=
  year ← require_some fiscal_year
    PeriodSemanticsError "fiscal_year must come from source fiscal identity";
  reject_if (negb ((1900 <=? year) && (year <=? 9999)))
    PeriodSemanticsError "fiscal_year is outside the supported range";;
  reject_if (match fiscal_quarter with Some q => negb (bool_decide (q ∈ [1; 2; 3; 4])) | None => false end)
    PeriodSemanticsError "fiscal_quarter must be between 1 and 4";;
  reject_if (bool_decide (fiscal_period = "") || bool_decide (standard = "") ||
             bool_decide (form = ""))
    PeriodSemanticsError "period source vocabulary must not be empty";;
  published ← utc_optional published_at PeriodSemanticsError "published_at must be timezone aware";
  duration ← period_duration ptype nature start end_ cumulative single_quarter;
  Ok (mkPeriod year fiscal_quarter fiscal_period ptype nature start end_ filing_date published
        duration (bool_decide (ptype = PType.ANNUAL)) cumulative single_quarter
        (bool_decide (ptype = PType.TTM)) standard form).

Record PeriodComparability := mkComparability { pc_comparable : bool; pc_warnings : list string }.

(** One finding: its warning, and whether it rules the comparison out. *)
Definition duration_findings (current comparison : option Z) (maximum : Z) : list (string * bool) :=
  match current, comparison with
  | Some a, Some b =>
      let difference := Z.abs (a - b) in
      (if difference =? 0 then []
       else if maximum <? difference then [("PERIOD_LENGTH_NOT_COMPARABLE", true)]
       else [("PERIOD_LENGTH_DIFFERS_BY_" +:+ str_of_Z difference +:+ "_DAYS", false)]) ++
      (if (370 <=? a) || (370 <=? b) then [("FIFTY_THREE_WEEK_PERIOD", false)] else [])
  | None, None => []
  | _, _ => [("DURATION_SHAPE_MISMATCH", true)]
  end.
Definition period_findings (current comparison : FinancialPeriod) (maximum : Z) :
    list (string * bool) :=
  (if bool_decide (fp_fact_nature current = fp_fact_nature comparison) then []
   else [("FACT_NATURE_MISMATCH", true)]) ++
  (if bool_decide (fp_period_type current = fp_period_type comparison) then []
   else [("PERIOD_TYPE_MISMATCH", true)]) ++
  (if bool_decide (fp_accounting_standard current = fp_accounting_standard comparison) then []
   else [("ACCOUNTING_STANDARD_MISMATCH", true)]) ++
  duration_findings (fp_duration_days current) (fp_duration_days comparison) maximum.

(** [assess_period_comparability] *)
Definition assess_period_comparability (current comparison : FinancialPeriod) (maximum : Z) :
    PeriodComparability :=
  let findings := period_findings current comparison maximum in
  mkComparability (negb (existsb snd findings)) (map fst findings).

(** * Provider concept mapping *)

Record FactMappingInput := mkMappingInput {
  fi_provider_code : string; fi_provider_concept : string; fi_taxonomy : string;
  fi_statement_type : StatementType; fi_form_type : option string; fi_contexts : list string;
  fi_dimensions : list string; fi_source_published_on : date }.

Record ProviderFactMappingRule := mkMappingRule {
  mr_rule_id : string; mr_provider_code : string; mr_provider_concept : string;
  mr_taxonomy : string; mr_statement_type : StatementType; mr_form_type : option string;
  mr_context_rules : list string; mr_dimension_rules : list string;
  mr_canonical_concept : option CanonicalConcept; mr_status : MappingStatus;
  mr_mapping_version : string; mr_valid_from : option date; mr_valid_to : option date;
  mr_source_reference : option string; mr_reviewed_by : option string }.

(** [not value] of an optional text. *)
Definition empty_text (o : option string) : bool :=
  match o with Some s => bool_decide (s = "") | None => true end.

(** [ProviderFactMappingRule.__post_init__] *)
Definition mapping_rule_valid (r : ProviderFactMappingRule) : res unit :=
  reject_if (bool_decide (mr_rule_id r = "") || bool_decide (mr_provider_code r = "") ||
             bool_decide (mr_provider_concept r = ""))
    ValueError "mapping identity fields must not be empty";;
  reject_if (match mr_valid_from r, mr_valid_to r with Some a, Some b => b <? a | _, _ => false end)
    ValueError "valid_to cannot precede valid_from";;
  if bool_decide (mr_status r = MapStatus.APPROVED) then
    reject_if (is_none (mr_canonical_concept r))
      ValueError "APPROVED mappings require a canonical_concept";;
    reject_if (empty_text (mr_source_reference r))
      ValueError "APPROVED mappings require source_reference evidence";;
    reject_if (empty_text (mr_reviewed_by r))
      ValueError "APPROVED mappings require reviewed_by evidence"
  else Ok tt.

Record FactMappingResult := mkMappingResult {
  fm_status : MappingStatus; fm_canonical_concept : option CanonicalConcept;
  fm_rule_ids : list string; fm_mapping_version : option string }.

(** [_matches] *)
Definition subset_of (a b : list string) : bool := forallb (λ x, bool_decide (x ∈ b)) a.
Definition _matches (fact : FactMappingInput) (rule : ProviderFactMappingRule) : bool :=
  negb (bool_decide (mr_status rule = MapStatus.DEPRECATED)) &&
  bool_decide (fi_provider_code fact = mr_provider_code rule) &&
  bool_decide (fi_provider_concept fact = mr_provider_concept rule) &&
  bool_decide (fi_taxonomy fact = mr_taxonomy rule) &&
  bool_decide (fi_statement_type fact = mr_statement_type rule) &&
  (is_none (mr_form_type rule) || opt_eqb (fi_form_type fact) (mr_form_type rule)) &&
  subset_of (mr_context_rules rule) (fi_contexts fact) &&
  subset_of (mr_dimension_rules rule) (fi_dimensions fact) &&
  match mr_valid_from rule with Some d => d <=? fi_source_published_on fact | None => true end &&
  match mr_valid_to rule with Some d => fi_source_published_on fact <=? d | None => true end.

(** [resolve_fact_mapping] *)
Definition resolve_fact_mapping (fact : FactMappingInput) (rules : list ProviderFactMappingRule) :
    FactMappingResult :=
  let matches := sort_key mr_rule_id (filter (λ r, _matches fact r = true) rules) in
  let ids := map mr_rule_id matches in
  match matches with
  | [] => mkMappingResult MapStatus.UNMAPPED None [] None
  | [r] =>
      if bool_decide (mr_status r = MapStatus.APPROVED) then
        mkMappingResult MapStatus.APPROVED (mr_canonical_concept r) ids (Some (mr_mapping_version r))
      else mkMappingResult MapStatus.AMBIGUOUS None ids None
  | _ => mkMappingResult MapStatus.AMBIGUOUS None ids None
  end.

(** * Fact versions public at a research time *)

Record FactVersionCandidate := mkCandidate {
  fv_fact_id : UUID; fv_identity_key : string; fv_value : decimal;
  fv_source_published_at : option time; fv_retrieved_at : time; fv_is_restated : bool }.
#[export] Instance FactVersionCandidate_eq_dec : EqDecision FactVersionCandidate.
Proof. solve_decision. Defined.

(** [FactVersionCandidate(...)]: the checks of [__post_init__]. *)
Definition new_candidate (fact_id : UUID) (identity_key : string) (value : decimal)
    (source_published_at : option datetime) (retrieved_at : datetime) (is_restated : bool) :
    res FactVersionCandidate :=
  reject_if (bool_decide (identity_key = "")) ValueError "identity_key must not be empty";;
  retrieved ← require_some (to_utc retrieved_at) ValueError "retrieved_at must be timezone aware";
  published ← utc_optional source_published_at
    ValueError "source_published_at must be timezone aware";
  Ok (mkCandidate fact_id identity_key value published retrieved is_restated).

Record AsOfFactSelection := mkSelection {
  so_status : QualityStatus; selected_fact_ids : list UUID; excluded_fact_ids : list UUID;
  so_warnings : list string }.

(** The order candidates are read in. *)
Definition candidate_ltb (a b : FactVersionCandidate) : bool :=
  str_ltb (fv_identity_key a) (fv_identity_key b) ||
  (bool_decide (fv_identity_key a = fv_identity_key b) &&
   str_ltb (uuid_str (fv_fact_id a)) (uuid_str (fv_fact_id b))).

(** Public at the cutoff. *)
Definition public_at (cutoff : time) (c : FactVersionCandidate) : bool :=
  match fv_source_published_at c with Some t => t <=? cutoff | None => false end.

(** The latest versions of an identity, by fact id. *)
Definition latest_publication (versions : list FactVersionCandidate) : option time :=
  match omap fv_source_published_at versions with
  | [] => None
  | t :: ts => Some (foldr Z.max t ts)
  end.
Definition latest_versions (versions : list FactVersionCandidate) : list FactVersionCandidate :=
  sort_key (λ c, uuid_str (fv_fact_id c))
    (filter (λ c, fv_source_published_at c = latest_publication versions) versions).

(** One identity: the chosen version if any, what it excludes, its warnings. *)
Definition select_identity (key : string) (versions : list FactVersionCandidate) :
    option FactVersionCandidate * list UUID * list string :=
  match latest_versions versions with
  | [] => (None, [], [])
  | chosen :: rest =>
      if existsb (λ c, negb (deq (fv_value c) (fv_value chosen))) rest then
        (None, map fv_fact_id versions, ["CONFLICTING_FACT_VERSIONS:" +:+ key])
      else
        (Some chosen,
         map fv_fact_id (filter (λ c, fv_fact_id c ≠ fv_fact_id chosen) versions),
         match rest with [] => [] | _ => ["DUPLICATE_FACT_VERSION:" +:+ key] end)
  end.

(** [select_fact_versions_as_of] at an aware cutoff. *)
Definition select_as_of (candidates : list FactVersionCandidate) (cutoff : time) :
    AsOfFactSelection :=
  let ordered := sort_by candidate_ltb candidates in
  let eligible := filter (λ c, public_at cutoff c = true) ordered in
  let unknown := filter (λ c, fv_source_published_at c = None) ordered in
  let hidden := filter (λ c, public_at cutoff c = false) ordered in
  let keys := sort_str (remove_dups (map fv_identity_key eligible)) in
  let outcomes := map (λ k, select_identity k (filter (λ c, fv_identity_key c = k) eligible)) keys in
  let selected := omap (λ o, o.1.1) outcomes in
  let excluded := map fv_fact_id hidden ++ concat (map (λ o, o.1.2) outcomes) in
  let warnings := map (λ c, "SOURCE_PUBLISHED_AT_UNKNOWN:" +:+ uuid_str (fv_fact_id c)) unknown ++
    concat (map snd outcomes) in
  let warnings := match selected, warnings with [], [] => ["NO_FACTS_AS_OF"] | _, _ => warnings end in
  mkSelection
    (match selected with
     | [] => Quality.BLOCKED
     | _ => match warnings with [] => Quality.PASS | _ => Quality.PARTIAL end
     end)
    (map fv_fact_id selected) (sort_uuid (remove_dups excluded)) (sort_str warnings).

(** [select_fact_versions_as_of] *)
Definition select_fact_versions_as_of (candidates : list FactVersionCandidate)
    (research_as_of_time : datetime) : res AsOfFactSelection :=
  cutoff ← require_some (to_utc research_as_of_time)
    ValueError "research_as_of_time must be timezone aware";
  Ok (select_as_of candidates cutoff).

(** * Properties of the point-in-time rules *)

(** A version that holds at the cutoff: public, no public version of its
    identity is later, and those of the same instant agree with it in value and
    do not precede it by id. *)
Record current_version (cands : list FactVersionCandidate) (cutoff : time)
    (c : FactVersionCandidate) : Prop := {
  cv_in : c ∈ cands;
  cv_public : public_at cutoff c = true;
  cv_latest : ∀ c' t t', c' ∈ cands → fv_identity_key c' = fv_identity_key c →
    public_at cutoff c' = true → fv_source_published_at c = Some t →
    fv_source_published_at c' = Some t' → t' ≤ t;
  cv_agreed : ∀ c', c' ∈ cands → fv_identity_key c' = fv_identity_key c →
    fv_source_published_at c' = fv_source_published_at c →
    deq (fv_value c') (fv_value c) = true ∧
    str_ltb (uuid_str (fv_fact_id c')) (uuid_str (fv_fact_id c)) = false }.

Lemma max_ge (t : Z) ts : t ≤ foldr Z.max t ts ∧ ∀ x, x ∈ ts → x ≤ foldr Z.max t ts.
Proof.
  induction ts as [|y ts [IH1 IH2]]; cbn.
  - split; [lia|by intros x ?%elem_of_nil].
  - split; [lia|]. intros x [->|Hx]%elem_of_cons; [lia|]. specialize (IH2 x Hx). lia.
Qed.

Lemma max_in (t : Z) ts : foldr Z.max t ts ∈ t :: ts.
Proof.
  induction ts as [|y ts IH]; cbn; [left|].
  destruct (Z.max_spec y (foldr Z.max t ts)) as [[_ ->]|[_ ->]]; [|right; left].
  apply elem_of_cons in IH as [->|IH]; [left|by do 2 right].
Qed.

(** The latest publication of versions that are all published. *)
Lemma latest_publication_spec versions m : latest_publication versions = Some m →
  (∃ c, c ∈ versions ∧ fv_source_published_at c = Some m) ∧
  ∀ c t, c ∈ versions → fv_source_published_at c = Some t → t ≤ m.
Proof.
  unfold latest_publication. destruct (omap _ _) as [|t ts] eqn:E; [done|]. intros [= <-].
  assert (Hin : ∀ x, x ∈ t :: ts ↔ ∃ c, c ∈ versions ∧ fv_source_published_at c = Some x)
    by (intros x; rewrite <- E; apply list_elem_of_omap).
  split; [apply Hin, max_in|]. intros c x Hc Hx.
  assert (Hx' : x ∈ t :: ts) by (apply Hin; by exists c).
  destruct (max_ge t ts) as [H1 H2]. apply elem_of_cons in Hx' as [->|Hx']; [done|by apply H2].
Qed.

Lemma latest_publication_some versions c t : c ∈ versions → fv_source_published_at c = Some t →
  is_Some (latest_publication versions).
Proof.
  intros Hc Ht. unfold latest_publication. destruct (omap _ _) as [|x xs] eqn:E; [|by eexists].
  assert (Hin : t ∈ omap fv_source_published_at versions) by (apply list_elem_of_omap; by exists c).
  rewrite E in Hin. by apply elem_of_nil in Hin.
Qed.

(** The version an identity selects. *)
Lemma select_identity_chosen key versions c :
  (∀ x, x ∈ versions → is_Some (fv_source_published_at x)) →
  (select_identity key versions).1.1 = Some c →
  c ∈ versions ∧ fv_source_published_at c = latest_publication versions ∧
  ∀ c', c' ∈ versions → fv_source_published_at c' = latest_publication versions →
    deq (fv_value c') (fv_value c) = true ∧
    str_ltb (uuid_str (fv_fact_id c')) (uuid_str (fv_fact_id c)) = false.
Proof.
  intros Hpub. unfold select_identity.
  assert (Hin : ∀ x, x ∈ latest_versions versions ↔
    x ∈ versions ∧ fv_source_published_at x = latest_publication versions).
  { intros x. unfold latest_versions, sort_key. rewrite sort_by_perm, list_elem_of_filter. tauto. }
  assert (Hsort : StronglySorted (not_after (key_ltb (λ c, uuid_str (fv_fact_id c))))
    (latest_versions versions)) by (apply sort_by_sorted; eauto).
  destruct (latest_versions versions) as [|chosen rest]; [done|].
  destruct (existsb _ rest) eqn:E; [done|]. cbn. intros [= <-].
  destruct (proj1 (Hin chosen)) as [H1 H2]; [left|]. split_and!; [done|done|].
  intros c' Hc' Hl. assert (Hc2 : c' ∈ chosen :: rest) by by apply Hin.
  apply elem_of_cons in Hc2 as [->|Hr].
  - split; [|apply str_ltb_irrefl]. by apply (deq_scaled _ _ (dexp (fv_value chosen))); [lia..|].
  - apply StronglySorted_inv in Hsort as [_ Hs]. rewrite Forall_forall in Hs. split; [|by apply Hs].
    destruct (deq (fv_value c') (fv_value chosen)) eqn:Ed; [done|].
    apply not_true_iff_false in E. destruct E. apply existsb_exists.
    exists c'. by rewrite <- list_elem_of_In, Ed.
Qed.

(** An identity with an agreed latest version selects one with its id. *)
Lemma select_identity_finds key versions c :
  c ∈ versions → fv_source_published_at c = latest_publication versions →
  (∀ c', c' ∈ versions → fv_source_published_at c' = fv_source_published_at c →
    deq (fv_value c') (fv_value c) = true ∧
    str_ltb (uuid_str (fv_fact_id c')) (uuid_str (fv_fact_id c)) = false) →
  ∃ chosen, (select_identity key versions).1.1 = Some chosen ∧ fv_fact_id chosen = fv_fact_id c.
Proof.
  intros Hc Hl Hall. unfold select_identity.
  assert (Hin : ∀ x, x ∈ latest_versions versions ↔
    x ∈ versions ∧ fv_source_published_at x = latest_publication versions).
  { intros x. unfold latest_versions, sort_key. rewrite sort_by_perm, list_elem_of_filter. tauto. }
  assert (Hsort : StronglySorted (not_after (key_ltb (λ c, uuid_str (fv_fact_id c))))
    (latest_versions versions)) by (apply sort_by_sorted; eauto).
  assert (Hcl : c ∈ latest_versions versions) by by apply Hin.
  destruct (latest_versions versions) as [|chosen rest]; [by apply elem_of_nil in Hcl|].
  destruct (proj1 (Hin chosen)) as [Hv Hp]; [left|].
  destruct (Hall chosen) as [Hd Hlt]; [done|congruence|].
  destruct (existsb _ rest) eqn:E.
  - apply existsb_exists in E as (x & Hx%list_elem_of_In & Hne). exfalso.
    destruct (proj1 (Hin x)) as [Hxv Hxp]; [by right|].
    destruct (Hall x) as [Hdx _]; [done|congruence|].
    by rewrite (deq_trans _ _ _ Hdx (deq_sym _ _ Hd)) in Hne.
  - exists chosen. split; [done|]. apply elem_of_cons in Hcl as [->|Hr]; [done|].
    apply StronglySorted_inv in Hsort as [_ Hs]. rewrite Forall_forall in Hs.
    specialize (Hs _ Hr). unfold not_after, key_ltb in Hs.
    assert (Heq := str_ltb_total _ _ Hlt Hs).
    destruct (fv_fact_id chosen), (fv_fact_id c). cbn in Heq. by subst.
Qed.

(** C12. Point-in-time selection has no look-ahead: a fact version is selected
    exactly when it is public at the cutoff, no public version of the same fact
    is later, and all versions published at that instant agree on the value (of
    several, the least id stands for them); versions published after the cutoff
    or at an unknown time never count. *)
Theorem as_of_selection_iff cands cutoff id :
  id ∈ selected_fact_ids (select_as_of cands cutoff) ↔
  ∃ c, current_version cands cutoff c ∧ fv_fact_id c = id.
Proof.
  cbn. set (ordered := sort_by candidate_ltb cands).
  set (eligible := filter (λ c, public_at cutoff c = true) ordered).
  assert (Hel : ∀ c, c ∈ eligible ↔ c ∈ cands ∧ public_at cutoff c = true).
  { intros c. unfold eligible, ordered. rewrite list_elem_of_filter, sort_by_perm. tauto. }
  assert (Hpub : ∀ c, public_at cutoff c = true →
    ∃ t, fv_source_published_at c = Some t ∧ t ≤ cutoff).
  { intros c. unfold public_at. destruct (fv_source_published_at c) as [t|]; [|done].
    intros ?%Z.leb_le. by exists t. }
  set (versions k := filter (λ c, fv_identity_key c = k) eligible).
  assert (Hv : ∀ k c, c ∈ versions k ↔ c ∈ cands ∧ public_at cutoff c = true ∧ fv_identity_key c = k).
  { intros k c. unfold versions. rewrite list_elem_of_filter, Hel. tauto. }
  rewrite list_elem_of_fmap. setoid_rewrite list_elem_of_omap.
  setoid_rewrite list_elem_of_fmap. unfold sort_str, sort_key. setoid_rewrite sort_by_perm.
  setoid_rewrite elem_of_remove_dups. split.
  - intros (c & -> & o & (k & -> & _) & Ho). fold (versions k) in Ho.
    apply select_identity_chosen in Ho as (Hc & Hl & Hall).
    2: { intros x (_ & (t & Ht & _)%Hpub & _)%Hv. by exists t. }
    apply Hv in Hc as (Hc & Hp & Hk). exists c. split; [|done].
    destruct (Hpub c Hp) as (t & Ht & Hle).
    assert (Hm : latest_publication (versions k) = Some t) by congruence.
    apply latest_publication_spec in Hm as Hms. destruct Hms as [_ Hmax]. split; [done|done| |].
    + intros c' t1 t' Hc' Hk' Hp' Ht1 Ht'. assert (t1 = t) as -> by congruence.
      apply (Hmax c'); [|done]. apply Hv. by rewrite Hk', Hk.
    + intros c' Hc' Hk' Hs. apply Hall; [|congruence]. apply Hv. rewrite Hk', Hk.
      split_and!; try done. unfold public_at. rewrite Hs, Ht. by apply Z.leb_le.
  - intros (c & [Hc Hp Hlate Hagree] & <-). destruct (Hpub c Hp) as (t & Ht & Hle).
    set (k := fv_identity_key c). assert (Hcv : c ∈ versions k) by by apply Hv.
    assert (Hl : fv_source_published_at c = latest_publication (versions k)).
    { destruct (latest_publication_some _ _ _ Hcv Ht) as [m Hm]. rewrite Hm, Ht.
      destruct (latest_publication_spec _ _ Hm) as [(c' & Hc' & Hm') Hmax]. f_equal.
      specialize (Hmax c t Hcv Ht). apply Hv in Hc' as (Hc' & Hp' & Hk').
      specialize (Hlate c' t m Hc' Hk' Hp' Ht Hm'). lia. }
    destruct (select_identity_finds k (versions k) c Hcv Hl) as (chosen & Hch & Hid).
    { intros c' (Hc' & _ & Hk')%Hv Hs. by apply Hagree. }
    exists chosen. split; [done|]. exists (select_identity k (versions k)). split; [|done].
    exists k. split; [done|]. apply list_elem_of_fmap. exists c. split; [done|]. by apply Hel.
Qed.

(** The shape every created period has. *)
Record period_wf (p : FinancialPeriod) : Prop := {
  pw_year : 1900 ≤ fp_fiscal_year p ≤ 9999;
  pw_quarter : ∀ q, fp_fiscal_quarter p = Some q → 1 ≤ q ≤ 4;
  pw_instant : fp_period_type p = PType.INSTANT ↔ fp_duration_days p = None;
  pw_nature : fp_period_type p = PType.INSTANT ↔ fp_fact_nature p = Nature.INSTANT;
  pw_duration : ∀ d, fp_duration_days p = Some d → ∃ start, fp_period_start p = Some start ∧
    d = fp_period_end p - start + 1 ∧ 1 ≤ d;
  pw_annual : fp_is_annual p = true ↔ fp_period_type p = PType.ANNUAL;
  pw_words : fp_fiscal_period p ≠ "" ∧ fp_accounting_standard p ≠ "" ∧ fp_source_form_type p ≠ "" }.

Lemma create_period_wf year quarter period ptype nature start end_ filing published cum single
    standard form p :
  create_period year quarter period ptype nature start end_ filing published cum single
    standard form = Ok p →
  period_wf p ∧ fp_is_cumulative p = cum ∧ fp_period_type p = ptype ∧ fp_fact_nature p = nature ∧
  fp_period_end p = end_ ∧ fp_period_start p = start.
Proof.
  unfold create_period. intros (y & Hy & H)%bind_Ok. rewrite !guard_seq in H.
  destruct H as (H1 & H2 & H3 & H). apply bind_Ok in H as (pub & _ & H).
  apply bind_Ok in H as (d & Hd & [= <-]). cbn.
  apply negb_false_iff, andb_true_iff in H1. apply orb_false_iff in H3 as [[H3 H4]%orb_false_iff H5].
  apply bool_decide_eq_false in H3, H4, H5.
  assert (Hq : ∀ q, quarter = Some q → 1 ≤ q ≤ 4).
  { intros q ->. apply negb_false_iff, bool_decide_eq_true in H2.
    repeat (apply elem_of_cons in H2 as [->|H2]; [lia|]). by apply elem_of_nil in H2. }
  unfold period_duration in Hd. case_bool_decide as Ht.
  - rewrite !guard_seq in Hd. destruct Hd as (Hn & Hs & [= <-]).
    apply negb_false_iff, bool_decide_eq_true in Hn.
    split; [|done]. split; cbn; try done; try lia; by rewrite ?bool_decide_eq_true, ?Ht.
  - apply guard_seq in Hd as [Hn Hd]. apply bool_decide_eq_false in Hn.
    apply bind_Ok in Hd as (st & Hst%require_some_Ok & Hd). apply guard_seq in Hd as [Hle [= <-]].
    split; [|done]. split; cbn; try done; try lia; [|by rewrite bool_decide_eq_true].
    intros d' [= <-]. exists st. split_and!; try done. lia.
Qed.

(** Comparability does not depend on the order of the two periods. *)
Lemma comparability_sym a b n :
  pc_comparable (assess_period_comparability a b n) =
  pc_comparable (assess_period_comparability b a n).
Proof.
  unfold assess_period_comparability, period_findings. cbn. f_equal. rewrite !existsb_app.
  f_equal; [|f_equal; [|f_equal]].
  - repeat case_bool_decide; congruence.
  - repeat case_bool_decide; congruence.
  - repeat case_bool_decide; congruence.
  - unfold duration_findings. destruct (fp_duration_days a) as [x|], (fp_duration_days b) as [y|]; try done.
    rewrite !existsb_app. replace (Z.abs (y - x)) with (Z.abs (x - y)) by lia. f_equal.
    by rewrite orb_comm.
Qed.

(** A mapping is APPROVED exactly when one rule matches and it is approved. *)
Lemma mapping_approved_iff fact rules concept :
  (fm_status (resolve_fact_mapping fact rules) = MapStatus.APPROVED ∧
   fm_canonical_concept (resolve_fact_mapping fact rules) = concept) ↔
  ∃ r, filter (λ r, _matches fact r = true) rules = [r] ∧ mr_status r = MapStatus.APPROVED ∧
    mr_canonical_concept r = concept.
Proof.
  unfold resolve_fact_mapping, sort_key. cbv zeta.
  destruct (filter _ rules) as [|r [|r' l]] eqn:E; cbn.
  - split; [by intros [? _]|by intros (? & ? & _)].
  - case_bool_decide; cbn.
    + split; [intros [_ <-]; by exists r|by intros (? & [= <-] & _ & ?)].
    + split; [by intros [? _]|by intros (? & [= <-] & ? & _)].
  - assert (Hl := length_sort_by (key_ltb mr_rule_id) (r :: r' :: l)). cbn in Hl.
    destruct (insert_by _ _ _) as [|x [|y m]]; try done; cbn.
    split; [by intros [? _]|by intros (? & ? & _)].
Qed.

(** Scaling keeps every value of at most 28 digits exactly... *)
Lemma normalize_unit_exact value unit expected r :
  0 ≤ dcoef value → normalize_unit value unit expected = Ok r →
  dcoef value * dcoef (un_scale_factor r) < 10 ^ prec →
  un_normalized_value r = dmul_exact value (un_scale_factor r).
Proof.
  unfold normalize_unit. destruct (unit_scale unit expected) as [[scale n]|] eqn:E; [|done].
  intros Hv [= <-] Hlt. cbn in *. apply dfix_exact_bound. cbn. split; [|done].
  assert (0 ≤ dcoef scale); [|nia].
  destruct expected, unit; cbn in E; try done; injection E as <- _; cbn; lia.
Qed.

(** ... and rounds a longer one, even at scale one: the database stores up to
    38 digits. *)
Lemma normalize_unit_rounds :
  normalize_unit (mkDec false 12345678901234567890123456785 0) RUnit.ONE UType.MONETARY_AMOUNT =
  Ok (mkUnitResult (mkDec false 12345678901234567890123456785 0) RUnit.ONE
        (mkDec false 1234567890123456789012345678 1) "ONE" (dec_of_Z 1)).
Proof. vm_compute. reflexivity. Qed.
