(* ===== verification/FinCalc.v ===== *)
(** Period derivations before any metric: domain/financials/calculations.py
    (de-accumulation of year-to-date facts, trailing twelve months by four
    quarters and by the annual bridge).  The value of a fact is a [decimal];
    arithmetic is that of the default 28-digit context. *)
From S2P Require Import Prelude PyDecimal PyText FinModel.

(** * Definitions *)

Record FinancialValue := mkFinValue {
  fn_fact_id : UUID; fn_security_id : UUID; fn_concept : CanonicalConcept;
  fn_period : FinancialPeriod; fn_value : decimal; fn_normalized_unit : string;
  fn_currency_code : option string; fn_accounting_basis : string;
  fn_source_published_at : option time }.

(** [FinancialValue(...)] with the checks of [__post_init__]. *)
Definition new_financial_value (fact_id security_id : UUID) (concept : CanonicalConcept)
    (period : FinancialPeriod) (value : decimal) (unit : string) (currency : option string)
    (basis : string) (published : option datetime) : res FinancialValue :=
  reject_if (bool_decide (unit = "") || bool_decide (basis = ""))
    ValueError "normalized unit and accounting basis are required";;
  published ← utc_optional published CalculationBlocked
    "source_published_at must be timezone aware";
  Ok (mkFinValue fact_id security_id concept period value unit currency basis published).

Record DerivedFinancialValue := mkDerived {
  dv_concept : CanonicalConcept; dv_value : decimal; dv_normalized_unit : string;
  dv_currency_code : option string; dv_input_fact_ids : list UUID; dv_formula_version : string;
  dv_method : string; dv_warnings : list string; dv_is_derived_from_cumulative : bool }.

Definition _require_visible (value : FinancialValue) (cutoff : time) : res unit :=
  published ← require_some (fn_source_published_at value) CalculationBlocked
    "source_published_at is required for as-of calculation";
  reject_if (cutoff <? published) CalculationBlocked
    "fact was not public at the research as-of time".

(** One comparison of [_require_compatible]. *)
Definition compatible (first value : FinancialValue) : res unit :=
  reject_if (negb (bool_decide (fn_security_id value = fn_security_id first)))
    CalculationBlocked "security mismatch blocks deterministic calculation";;
  reject_if (negb (bool_decide (fn_concept value = fn_concept first)))
    CalculationBlocked "concept mismatch blocks deterministic calculation";;
  reject_if (negb (bool_decide (fn_currency_code value = fn_currency_code first)))
    CalculationBlocked "currency mismatch blocks deterministic calculation";;
  reject_if (negb (bool_decide (fn_normalized_unit value = fn_normalized_unit first)))
    CalculationBlocked "unit mismatch blocks deterministic calculation";;
  reject_if (negb (bool_decide (fn_accounting_basis value = fn_accounting_basis first)))
    CalculationBlocked "accounting basis mismatch blocks deterministic calculation".
(** [_require_compatible((first, *rest))] *)
Definition _require_compatible (first : FinancialValue) (rest : list FinancialValue) : res unit :=
  res_iter (compatible first) rest.

Definition _cumulative_stage (period : FinancialPeriod) : res Z :=
  if bool_decide (fp_period_type period = PType.QUARTER) && opt_eqb (fp_fiscal_quarter period) (Some 1)
  then Ok 1
  else if bool_decide (fp_period_type period = PType.HALF_YEAR) &&
          opt_eqb (fp_fiscal_quarter period) (Some 2) then Ok 2
  else if bool_decide (fp_period_type period = PType.NINE_MONTH_YTD) &&
          opt_eqb (fp_fiscal_quarter period) (Some 3) then Ok 3
  else if bool_decide (fp_period_type period = PType.ANNUAL) then Ok 4
  else raise CalculationBlocked "unsupported cumulative fiscal-period sequence".

(** [_aware_utc] of this module. *)
Definition aware_cutoff (research_as_of_time : datetime) : res time :=
  require_some (to_utc research_as_of_time) CalculationBlocked
    "research_as_of_time must be timezone aware".

(** The difference of two consecutive cumulative facts of a year. *)
Definition cumulative_difference (current : FinancialValue) (previous : option FinancialValue)
    (stage : Z) (cutoff : time) : res (decimal * list UUID) :=
  if stage =? 1 then
    reject_if (is_some previous) CalculationBlocked
      "Q1 cumulative derivation must not have a predecessor";;
    Ok (fn_value current, [fn_fact_id current])
  else
    previous ← require_some previous CalculationBlocked "previous cumulative fact is required";
    _require_compatible current [previous];;
    _require_visible previous cutoff;;
    reject_if (negb (fp_is_cumulative (fn_period previous))) CalculationBlocked
      "previous fact must be explicitly cumulative";;
    reject_if (negb (fp_fiscal_year (fn_period current) =? fp_fiscal_year (fn_period previous)))
      CalculationBlocked "cumulative facts must belong to the same fiscal year";;
    previous_stage ← _cumulative_stage (fn_period previous);
    reject_if (negb (previous_stage =? stage - 1)) CalculationBlocked
      "cumulative periods must be consecutive";;
    reject_if (negb (opt_eqb (fp_period_start (fn_period current)) (fp_period_start (fn_period previous)))
               || (fp_period_end (fn_period current) <=? fp_period_end (fn_period previous)))
      CalculationBlocked "cumulative periods must share a continuous source start";;
    Ok (dsub (fn_value current) (fn_value previous), [fn_fact_id previous; fn_fact_id current]).

(** [deaccumulate_quarter] *)
Definition deaccumulate_quarter (current : FinancialValue) (previous : option FinancialValue)
    (research_as_of_time : datetime) : res DerivedFinancialValue :=
  cutoff ← aware_cutoff research_as_of_time;
  let concept := get_concept (fn_concept current) in
  reject_if (negb (supports_cumulative concept) ||
             negb (bool_decide (cc_fact_nature concept = Nature.DURATION)))
    CalculationBlocked (Concept.value (cc_code concept) +:+ " cannot be de-accumulated");;
  reject_if (negb (fp_is_cumulative (fn_period current))) CalculationBlocked
    "current fact must be explicitly cumulative";;
  _require_visible current cutoff;;
  stage ← _cumulative_stage (fn_period current);
  '(value, input_ids) ← cumulative_difference current previous stage cutoff;
  Ok (mkDerived (fn_concept current) value (fn_normalized_unit current)
        (fn_currency_code current) input_ids "deaccumulation-v1.0.0" "CUMULATIVE_DIFFERENCE"
        (if dlt value dzero then ["NEGATIVE_DEACCUMULATED_VALUE"] else []) true).

Definition _quarter_index (period : FinancialPeriod) : res Z :=
  quarter ← require_some (fp_fiscal_quarter period) CalculationBlocked
    "single-quarter fact requires an explicit fiscal quarter";
  Ok (fp_fiscal_year period * 4 + quarter - 1).

(** [all later == earlier + 1] of neighbours. *)
Fixpoint consecutive (l : list Z) : bool :=
  match l with
  | x :: ((y :: _) as rest) => (y =? x + 1) && consecutive rest
  | _ => true
  end.

Definition period_end_ltb (a b : FinancialValue) : bool :=
  fp_period_end (fn_period a) <? fp_period_end (fn_period b).

(** The concept must support trailing twelve months. *)
Definition ttm_eligible (c : CanonicalConcept) : res unit :=
  reject_if (negb (supports_ttm (get_concept c)) || negb (supports_duration (get_concept c)))
    CalculationBlocked (Concept.value c +:+ " is not eligible for TTM").

(** [calculate_ttm_four_quarters] *)
Definition calculate_ttm_four_quarters (quarters : list FinancialValue)
    (research_as_of_time : datetime) : res DerivedFinancialValue :=
  reject_if (negb (length quarters =? 4)%nat) CalculationBlocked
    "TTM method A requires exactly four quarters";;
  cutoff ← aware_cutoff research_as_of_time;
  match sort_by period_end_ltb quarters with
  | [] => raise AssertionError "unreachable"
  | first :: rest =>
      let ordered := first :: rest in
      _require_compatible first rest;;
      ttm_eligible (fn_concept first);;
      reject_if (existsb (λ f, fp_is_cumulative (fn_period f) ||
                               negb (fp_is_single_quarter (fn_period f))) ordered)
        CalculationBlocked "TTM method A requires non-cumulative single quarters";;
      res_iter (λ f, _require_visible f cutoff) ordered;;
      indexes ← res_map (λ f, _quarter_index (fn_period f)) ordered;
      reject_if (negb (consecutive indexes)) CalculationBlocked "TTM quarters must be consecutive";;
      let duration_days := foldr Z.add 0 (map (λ f, default 0 (fp_duration_days (fn_period f))) ordered) in
      Ok (mkDerived (fn_concept first) (dsum (map fn_value ordered)) (fn_normalized_unit first)
            (fn_currency_code first) (map fn_fact_id ordered) "ttm-four-quarters-v1.0.0"
            "FOUR_QUARTERS" (if 370 <=? duration_days then ["FIFTY_THREE_WEEK_PERIOD"] else []) false)
  end.

(** [calculate_ttm_bridge] *)
Definition calculate_ttm_bridge (annual latest_ytd prior_year_ytd : FinancialValue)
    (research_as_of_time : datetime) : res DerivedFinancialValue :=
  cutoff ← aware_cutoff research_as_of_time;
  let inputs := [annual; latest_ytd; prior_year_ytd] in
  _require_compatible annual [latest_ytd; prior_year_ytd];;
  ttm_eligible (fn_concept annual);;
  res_iter (λ f, _require_visible f cutoff) inputs;;
  let fy := fn_period annual in let ytd := fn_period latest_ytd in
  let prior := fn_period prior_year_ytd in
  reject_if (negb (bool_decide (fp_period_type fy = PType.ANNUAL)) || negb (fp_is_cumulative fy))
    CalculationBlocked "TTM bridge requires one cumulative annual fact";;
  reject_if (negb (fp_is_cumulative ytd) || negb (fp_is_cumulative prior))
    CalculationBlocked "TTM bridge requires cumulative YTD facts";;
  reject_if (negb (fp_fiscal_year ytd =? fp_fiscal_year fy + 1))
    CalculationBlocked "latest YTD must follow the annual fiscal year";;
  reject_if (negb (fp_fiscal_year prior =? fp_fiscal_year fy))
    CalculationBlocked "prior YTD must belong to the annual fiscal year";;
  reject_if (negb (opt_eqb (fp_fiscal_quarter ytd) (fp_fiscal_quarter prior)))
    CalculationBlocked "YTD fiscal quarters must match";;
  let comparability := assess_period_comparability ytd prior 7 in
  reject_if (negb (pc_comparable comparability)) CalculationBlocked
    "YTD periods are not comparable";;
  Ok (mkDerived (fn_concept annual)
        (dsub (dadd (fn_value annual) (fn_value latest_ytd)) (fn_value prior_year_ytd))
        (fn_normalized_unit annual) (fn_currency_code annual) (map fn_fact_id inputs)
        "ttm-annual-ytd-bridge-v1.0.0" "ANNUAL_YTD_BRIDGE" (pc_warnings comparability) false).

(** * Exact arithmetic within 28 digits *)

(** [d] is the integer [v] in units of [10^s]. *)
Record counts (s : Z) (d : decimal) (v : Z) : Prop := {
  cn_unit : s ≤ dexp d; cn_value : dscaled d s = v }.

Lemma dadd_counts s a b x y : counts s a x → counts s b y →
  Z.abs (x + y) < 10 ^ prec → counts s (dadd a b) (x + y).
Proof.
  intros [Ha <-] [Hb <-] Hlt. unfold dadd.
  rewrite <- (dadd_exact_scaled a b s Ha Hb) in Hlt |- *.
  assert (He : s ≤ dexp (dadd_exact a b)) by (cbn; lia).
  assert (Hw : dec_wf (dadd_exact a b)) by (unfold dec_wf; cbn; lia).
  rewrite dfix_exact_bound; [by split|]. split; [done|].
  rewrite <- (dint_abs _ Hw). unfold dscaled in Hlt. rewrite Z.abs_mul in Hlt.
  assert (0 < 10 ^ (dexp (dadd_exact a b) - s)) by (apply Z.pow_pos_nonneg; lia). nia.
Qed.

Lemma dneg_counts s a x : counts s a x → counts s (dneg a) (- x).
Proof. intros [? <-]. split; [done|apply dneg_scaled]. Qed.

Lemma dsub_counts s a b x y : counts s a x → counts s b y →
  Z.abs (x - y) < 10 ^ prec → counts s (dsub a b) (x - y).
Proof. intros Ha Hb%dneg_counts ?. by apply dadd_counts. Qed.

(** The sum of integers, and that of decimals when it fits. *)
Definition zsum (l : list Z) : Z := foldr Z.add 0 l.

Lemma zsum_app l k : zsum (l ++ k) = zsum l + zsum k.
Proof. induction l as [|x l IH]; cbn; [done|]. unfold zsum in *. cbn in *. lia. Qed.

#[export] Instance zsum_perm : Proper ((≡ₚ) ==> (=)) zsum.
Proof. intros l k H. unfold zsum. induction H; cbn in *; lia. Qed.

Lemma dsum_counts s b ds : (s ≤ 0) → Forall (λ d, s ≤ dexp d ∧ Z.abs (dscaled d s) ≤ b) ds →
  Z.of_nat (length ds) * b < 10 ^ prec →
  counts s (dsum ds) (zsum (map (λ d, dscaled d s) ds)).
Proof.
  intros Hs Hall Hlt.
  assert (Hgen : ∀ acc v, counts s acc v → Z.abs v + Z.of_nat (length ds) * b < 10 ^ prec →
    counts s (foldl dadd acc ds) (v + zsum (map (λ d, dscaled d s) ds))).
  { clear Hlt. induction Hall as [|d ds [Hd1 Hd2] _ IH]; intros acc v Hacc Hlt.
    - cbn. by rewrite Z.add_0_r.
    - cbn [map zsum foldr foldl length] in *. rewrite Z.add_assoc. apply IH; [|lia].
      apply dadd_counts; [done|by split|].
      assert (0 ≤ b) by lia. assert (0 ≤ Z.of_nat (length ds) * b) by nia. lia. }
  apply (Hgen dzero 0); [|lia]. split; [done|]. reflexivity.
Qed.

(** ** Differences of a cumulative series *)

Fixpoint differences (previous : Z) (l : list Z) : list Z :=
  match l with [] => [] | x :: l => (x - previous) :: differences x l end.

Lemma zsum_differences p l : zsum (differences p l) = List.last l p - p.
Proof.
  assert (Hd : ∀ (l : list Z) a b, l ≠ [] → List.last l a = List.last l b).
  { clear. induction l as [|x [|y l] IH]; intros a b ?; [done..|]. by apply IH. }
  revert p. induction l as [|x l IH]; intros p; [cbn; lia|].
  cbn [differences zsum foldr]. unfold zsum in IH. rewrite IH.
  destruct l as [|y l]; [cbn; lia|]. change (List.last (x :: y :: l) p) with (List.last (y :: l) p).
  rewrite (Hd (y :: l) x p) by done. lia.
Qed.

Lemma take_differences p l n : take n (differences p l) = differences p (take n l).
Proof. revert p n. induction l as [|x l IH]; intros p [|n]; cbn; [done..|]. by rewrite IH. Qed.

Lemma length_differences p l : length (differences p l) = length l.
Proof. revert p. induction l as [|x l IH]; intros p; cbn; [done|]. by rewrite IH. Qed.

(** Every quarter of a fiscal year, each from its cumulative fact and the one
    before it. *)
Fixpoint derive_quarters (research_as_of_time : datetime) (previous : option FinancialValue)
    (cumulative : list FinancialValue) : res (list DerivedFinancialValue) :=
  match cumulative with
  | [] => Ok []
  | current :: rest =>
      d ← deaccumulate_quarter current previous research_as_of_time;
      ds ← derive_quarters research_as_of_time (Some current) rest;
      Ok (d :: ds)
  end.

(** The values a de-accumulation reads. *)
Lemma deaccumulate_value current previous t d :
  deaccumulate_quarter current previous t = Ok d →
  dv_value d = match previous with
               | None => fn_value current
               | Some p => dsub (fn_value current) (fn_value p)
               end.
Proof.
  unfold deaccumulate_quarter. intros (cutoff & _ & H)%bind_Ok. rewrite !guard_seq in H.
  destruct H as (_ & _ & H). apply bind_Ok in H as ([] & _ & H).
  apply bind_Ok in H as (stage & _ & H). apply bind_Ok in H as ([v ids] & Hv & [= <-]).
  unfold cumulative_difference in Hv. cbn. destruct (stage =? 1).
  - apply guard_seq in Hv as [Hp [= <- _]]. by destruct previous.
  - apply bind_Ok in Hv as (p & ->%require_some_Ok & Hv). inv_res. done.
Qed.

(** A fact amount of at most 27 digits in units of [10^s]. *)
Definition amount_fits (s : Z) (f : FinancialValue) : Prop :=
  s ≤ dexp (fn_value f) ∧ Z.abs (dscaled (fn_value f) s) < 10 ^ (prec - 1).
Definition amount (s : Z) (f : FinancialValue) : Z := dscaled (fn_value f) s.

Lemma derive_quarters_values s t cumulative : ∀ previous ds,
  derive_quarters t previous cumulative = Ok ds →
  Forall (amount_fits s) cumulative →
  match previous with Some p => amount_fits s p | None => True end →
  Forall2 (λ d v, counts s (dv_value d) v) ds
    (differences (match previous with Some p => amount s p | None => 0 end)
       (map (amount s) cumulative)).
Proof.
  induction cumulative as [|c cs IH]; intros previous ds; cbn [derive_quarters map differences].
  - intros [= <-] _ _. constructor.
  - intros (d & Hd & H)%bind_Ok Hall Hp. apply bind_Ok in H as (ds' & Hds & [= <-]).
    apply Forall_cons in Hall as [Hc Hcs]. constructor; [|by apply (IH (Some c))].
    apply deaccumulate_value in Hd as ->. destruct Hc as [Hc1 Hc2].
    destruct previous as [p|].
    + destruct Hp as [Hp1 Hp2]. apply dsub_counts; [by split..|].
      change (10 ^ prec) with (10 * 10 ^ (prec - 1)). unfold amount. lia.
    + rewrite Z.sub_0_r. by split.
Qed.

(** The amounts of all quarters up to the [n]th are the [n]th cumulative amount. *)
Lemma derived_sum s t cumulative ds n last_fact :
  derive_quarters t None cumulative = Ok ds → Forall (amount_fits s) cumulative →
  cumulative !! n = Some last_fact →
  zsum (map (λ d, dscaled (dv_value d) s) (take (S n) ds)) = amount s last_fact.
Proof.
  intros H Hall Hn. assert (Hv := derive_quarters_values s t _ None _ H Hall I). cbn in Hv.
  assert (Hmap : map (λ d, dscaled (dv_value d) s) ds = differences 0 (map (amount s) cumulative)).
  { clear -Hv. induction Hv as [|d v ds vs [_ <-] _ IH]; cbn; [done|]. by rewrite IH. }
  rewrite <- firstn_map, Hmap, take_differences, zsum_differences, Z.sub_0_r.
  rewrite firstn_map. erewrite take_S_r by done. rewrite map_app. cbn [map]. by rewrite List.last_last.
Qed.

(** The range of a derived quarter: a difference of two amounts. *)
Lemma derived_fit s t cumulative ds :
  derive_quarters t None cumulative = Ok ds → Forall (amount_fits s) cumulative →
  Forall (λ d, s ≤ dexp (dv_value d) ∧
    Z.abs (dscaled (dv_value d) s) ≤ 2 * 10 ^ (prec - 1)) ds.
Proof.
  intros H Hall. assert (Hv := derive_quarters_values s t _ None _ H Hall I). cbn in Hv.
  assert (Hd : ∀ p l, Z.abs p < 10 ^ (prec - 1) → Forall (λ x, Z.abs x < 10 ^ (prec - 1)) l →
    Forall (λ x, Z.abs x ≤ 2 * 10 ^ (prec - 1)) (differences p l)).
  { intros p l Hp Hl. revert p Hp. induction Hl as [|x l Hx _ IH]; intros p Hp; cbn; constructor;
      [lia|by apply IH]. }
  specialize (Hd 0 (map (amount s) cumulative)).
  apply Forall_forall. intros d Hin. destruct (Forall2_elem_l _ _ _ _ Hv Hin) as (v & Hvin & [? <-]).
  split; [done|].
  assert (Hall' : Forall (λ x, Z.abs x < 10 ^ (prec - 1)) (map (amount s) cumulative)).
  { apply Forall_map. eapply Forall_impl; [exact Hall|]. by intros f [_ ?]. }
  specialize (Hd eq_refl Hall'). rewrite Forall_forall in Hd. by apply Hd.
Qed.

Lemma length_derive t cumulative : ∀ previous ds,
  derive_quarters t previous cumulative = Ok ds → length ds = length cumulative.
Proof.
  induction cumulative as [|c cs IH]; intros previous ds; cbn; [by intros [= <-]|].
  intros (d & _ & H)%bind_Ok. apply bind_Ok in H as (ds' & Hds & [= <-]). cbn. f_equal. eauto.
Qed.

(** The value of each trailing-twelve-months method. *)
Lemma ttm_four_quarters_value quarters t r : calculate_ttm_four_quarters quarters t = Ok r →
  length quarters = 4%nat ∧ ∃ l, l ≡ₚ quarters ∧ dv_value r = dsum (map fn_value l).
Proof.
  unfold calculate_ttm_four_quarters. rewrite guard_seq. intros [Hl H].
  apply negb_false_iff, Nat.eqb_eq in Hl. split; [done|].
  apply bind_Ok in H as (cutoff & _ & H). destruct (sort_by _ quarters) as [|f fs] eqn:E; [done|].
  exists (f :: fs). split; [rewrite <- E; apply sort_by_perm|]. inv_res. by subst.
Qed.

Lemma ttm_bridge_value annual latest prior t r : calculate_ttm_bridge annual latest prior t = Ok r →
  dv_value r = dsub (dadd (fn_value annual) (fn_value latest)) (fn_value prior).
Proof. unfold calculate_ttm_bridge. intros H. inv_res. by subst. Qed.

(** * Properties *)

(** C13. The two trailing-twelve-months methods agree: when the four quarters
    are the latest ones de-accumulated from the year-to-date facts of two
    fiscal years (the last of the first year and the first [n] of the second),
    their sum and the bridge "annual + latest year-to-date - prior
    year-to-date" are the same number, for amounts of at most 27 digits. *)
Theorem ttm_methods_agree s t year next qs ns quarters annual latest prior bridge total :
  s ≤ 0 →
  derive_quarters t None year = Ok qs → derive_quarters t None next = Ok ns →
  Forall (amount_fits s) (year ++ next) → length year = 4%nat →
  year !! 3%nat = Some annual → next !! pred (length next) = Some latest →
  year !! pred (length next) = Some prior →
  map fn_value quarters ≡ₚ map dv_value (drop (length next) qs ++ ns) →
  calculate_ttm_bridge annual latest prior t = Ok bridge →
  calculate_ttm_four_quarters quarters t = Ok total →
  deq (dv_value total) (dv_value bridge) = true.
Proof.
  intros Hs Hq Hn [Hfy Hfn]%Forall_app Hlen Ha Hl Hp Hperm Hb%ttm_bridge_value
    (H4 & l & Hl4 & Hsum)%ttm_four_quarters_value.
  assert (Hne : length next = S (pred (length next))).
  { destruct next; [by rewrite lookup_nil in Hl|done]. }
  set (n := pred (length next)) in *.
  destruct (Forall_lookup_1 _ _ _ _ Hfy Ha) as [Ha1 Ha2], (Forall_lookup_1 _ _ _ _ Hfn Hl) as [Hl1 Hl2],
    (Forall_lookup_1 _ _ _ _ Hfy Hp) as [Hp1 Hp2].
  assert (E : 10 ^ prec = 10 * 10 ^ (prec - 1)) by reflexivity.
  assert (Hbridge : counts s (dv_value bridge) (amount s annual + amount s latest - amount s prior)).
  { rewrite Hb. unfold amount. apply dsub_counts; [apply dadd_counts; [by split..|lia]|by split|lia]. }
  assert (Hlq := length_derive _ _ _ _ Hq). assert (Hln := length_derive _ _ _ _ Hn).
  assert (Htot := derived_sum _ _ _ _ _ _ Hq Hfy Ha). rewrite take_ge in Htot by lia.
  assert (Hprior := derived_sum _ _ _ _ _ _ Hq Hfy Hp). rewrite <- Hne in Hprior.
  assert (Hnt := derived_sum _ _ _ _ _ _ Hn Hfn Hl). rewrite <- Hne, take_ge in Hnt by lia.
  rewrite <- (take_drop (length next) qs), map_app, zsum_app, Hprior in Htot.
  assert (Hvs : map fn_value l ≡ₚ map dv_value (drop (length next) qs ++ ns)).
  { rewrite <- Hperm. by apply Permutation_map. }
  assert (Hquarters : counts s (dv_value total) (amount s annual + amount s latest - amount s prior)).
  { rewrite Hsum. replace (amount s annual + amount s latest - amount s prior)
      with (zsum (map (λ d, dscaled d s) (map fn_value l))).
    - apply (dsum_counts s (2 * 10 ^ (prec - 1))); [done| |].
      + rewrite Hvs. apply Forall_map, Forall_app. split;
          [apply Forall_drop|]; by eapply derived_fit.
      + rewrite length_map, (Permutation_length Hl4), H4. reflexivity.
    - rewrite Hvs, map_map, map_app, zsum_app. lia. }
  destruct Hbridge as [Hb1 Hb2], Hquarters as [Hq1 Hq2].
  apply (deq_scaled _ _ s Hq1 Hb1). congruence.
Qed.

(** A sample filer: year-to-date revenue of 2023 and the first half of 2024. *)
Module Sample.
Definition period (year quarter : Z) (name : string) (ptype : PeriodType) (start end_ : date)
    (cumulative : bool) : FinancialPeriod :=
  mkPeriod year (Some quarter) name ptype Nature.DURATION (Some start) end_ (Some (end_ + 30))
    (Some ((end_ + 30) * us_per_day)) (Some (end_ - start + 1))
    (bool_decide (ptype = PType.ANNUAL)) cumulative (negb cumulative) false "CAS" "10-Q".
Definition revenue (id : string) (p : FinancialPeriod) (cents : Z) : FinancialValue :=
  mkFinValue (mkUUID id) (mkUUID "sec") Concept.REVENUE p (mkDec (cents <? 0) (Z.abs cents) (-2))
    "ONE" (Some "CNY") "CAS" (fp_published_at p).
Definition y1 := revenue "y1" (period 2023 1 "Q1" PType.QUARTER 19358 19447 true) 10050.
Definition y2 := revenue "y2" (period 2023 2 "H1" PType.HALF_YEAR 19358 19538 true) 25075.
Definition y3 := revenue "y3" (period 2023 3 "9M" PType.NINE_MONTH_YTD 19358 19630 true) 24000.
Definition y4 := revenue "y4" (period 2023 4 "FY" PType.ANNUAL 19358 19722 true) 61000.
Definition n1 := revenue "n1" (period 2024 1 "Q1" PType.QUARTER 19723 19813 true) 14999.
Definition n2 := revenue "n2" (period 2024 2 "H1" PType.HALF_YEAR 19723 19904 true) 31001.
Definition quarters : list FinancialValue :=
  [revenue "q2" (period 2024 2 "Q2" PType.QUARTER 19814 19904 false) 16002;
   revenue "q3" (period 2023 3 "Q3" PType.QUARTER 19539 19630 false) (-1075);
   revenue "q4" (period 2023 4 "Q4" PType.QUARTER 19631 19722 false) 37000;
   revenue "q1" (period 2024 1 "Q1" PType.QUARTER 19723 19813 false) 14999].
Definition now : datetime := mkDatetime (20000 * us_per_day) (Some 0).
End Sample.

Lemma ttm_methods_agree_witness : ∃ bridge total,
  calculate_ttm_bridge Sample.y4 Sample.n2 Sample.y2 Sample.now = Ok bridge ∧
  calculate_ttm_four_quarters Sample.quarters Sample.now = Ok total ∧
  deq (dv_value total) (dv_value bridge) = true.
Proof.
  eexists _, _. split; [vm_compute; reflexivity|]. split; [vm_compute; reflexivity|].
  eapply (ttm_methods_agree (-2) Sample.now [Sample.y1; Sample.y2; Sample.y3; Sample.y4]
    [Sample.n1; Sample.n2] _ _ Sample.quarters Sample.y4 Sample.n2 Sample.y2).
  - lia.
  - vm_compute. reflexivity.
  - vm_compute. reflexivity.
  - repeat constructor; vm_compute; done.
  - reflexivity.
  - reflexivity.
  - reflexivity.
  - reflexivity.
  - vm_compute. apply (Permutation_app_comm [_] [_; _; _]).
  - vm_compute. reflexivity.
  - vm_compute. reflexivity.
Defined.
