(* ===== verification/Session.v ===== *)
(** A database session: statements that read and write the tables [S] and
    return a value or raise.  A statement that raises aborts the transaction, so
    no tables are returned with an exception. *)
From S2P Require Import Prelude.

Definition sessM (S A : Type) : Type := S → res (A * S).

Section Session.
Context {S : Type}.

#[global] Instance sess_ret : MRet (sessM S) := λ A a db, Ok (a, db).
#[global] Instance sess_bind : MBind (sessM S) := λ A B f m db,
  match m db with Ok (a, db') => f a db' | Raise e => Raise e end.

(** A pure computation, and a read of the tables. *)
Definition sess_lift {A} (m : res A) : sessM S A := λ db, a ← m; Ok (a, db).
Definition sess_read {A} (f : S → A) : sessM S A := λ db, Ok (f db, db).

(** A loop that collects what each statement returns. *)
Fixpoint sess_map {A B} (f : A → sessM S B) (l : list A) : sessM S (list B) :=
  match l with
  | [] => mret []
  | x :: l => y ← f x; ys ← sess_map f l; mret (y :: ys)
  end.

Lemma sess_bind_Ok {A B} (m : sessM S A) (f : A → sessM S B) db b db' :
  (m ≫= f) db = Ok (b, db') ↔ ∃ a db1, m db = Ok (a, db1) ∧ f a db1 = Ok (b, db').
Proof.
  unfold mbind, sess_bind. destruct (m db) as [[a db1]|e].
  - split; [by eauto|by intros (? & ? & [= -> ->] & ?)].
  - split; [done|by intros (? & ? & ? & _)].
Qed.

Lemma sess_bind_eq {A B} (m : sessM S A) (f : A → sessM S B) db a db1 :
  m db = Ok (a, db1) → (m ≫= f) db = f a db1.
Proof. intros E. unfold mbind, sess_bind. by rewrite E. Qed.

Lemma sess_bind_raise {A B} (m : sessM S A) (f : A → sessM S B) db e :
  m db = Raise e → (m ≫= f) db = Raise e.
Proof. intros E. unfold mbind, sess_bind. by rewrite E. Qed.

Lemma sess_lift_Ok {A} (m : res A) db a db' :
  sess_lift m db = Ok (a, db') ↔ m = Ok a ∧ db' = db.
Proof.
  unfold sess_lift. rewrite bind_Ok. split; [by intros (? & -> & [= <- <-])|intros [-> ->]; eauto].
Qed.

(** Loops keep an invariant of the tables and collect what each call ensures,
    along a relation [ext] of growing tables. *)
Context (ext : S → S → Prop) `{!PreOrder ext}.

Lemma sess_map_inv {A B} (f : A → sessM S B) (I : S → Prop) (P : S → A → Prop)
    (Q : S → A → B → Prop) l :
  (∀ db db' x, ext db db' → P db x → P db' x) →
  (∀ db db' x y, ext db db' → Q db x y → Q db' x y) →
  (∀ x db y db', I db → P db x → f x db = Ok (y, db') → ext db db' ∧ I db' ∧ Q db' x y) →
  ∀ db ys db', I db → Forall (P db) l → sess_map f l db = Ok (ys, db') →
  ext db db' ∧ I db' ∧ Forall2 (Q db') l ys.
Proof.
  intros HP HQ Hf. induction l as [|x l IH]; intros db ys db' HI Hall; cbn.
  - intros [= <- <-]. by split_and!.
  - intros (y & db1 & Hy & H)%sess_bind_Ok.
    apply sess_bind_Ok in H as (ys' & db2 & Hys & [= <- <-]).
    apply Forall_cons in Hall as [Hx Hall]. destruct (Hf _ _ _ _ HI Hx Hy) as (He & HI1 & HQ1).
    apply IH in Hys as (He2 & HI2 & HQ2); [|done|].
    2: { eapply Forall_impl; [exact Hall|]. intros. by eapply HP. }
    split_and!; [by etrans|done|]. constructor; [by eapply HQ|done].
Qed.
End Session.

(** A lookup finds the same row in a longer table. *)
Lemma find_prefix {A} (p : A → bool) l l' x : l `prefix_of` l' → find p l = Some x → find p l' = Some x.
Proof. intros [k ->]. induction l as [|y l IH]; cbn; [done|]. by destruct (p y). Qed.

Lemma find_snoc {A} (p : A → bool) l x : find p l = None → p x = true → find p (l ++ [x]) = Some x.
Proof. induction l as [|y l IH]; cbn; [by intros _ ->|]. by destruct (p y). Qed.

Lemma find_elem {A} (p : A → bool) l x : find p l = Some x → x ∈ l ∧ p x = true.
Proof. intros [H1 H2]%find_some. by rewrite list_elem_of_In. Qed.

Lemma find_app_none {A} (p : A → bool) l k : find p l = None → find p (l ++ k) = find p k.
Proof. induction l as [|y l IH]; cbn; [done|]. by destruct (p y). Qed.

(** Nothing passes the first of two tests. *)
Lemma find_conj_none {A} (p q : A → bool) l :
  existsb p l = false → find (λ x, p x && q x) l = None.
Proof.
  induction l as [|y l IH]; cbn; [done|]. intros [E ?]%orb_false_iff. rewrite E. by apply IH.
Qed.
