(* ===== verification/FinNormalize.v ===== *)
(** Normalization of a snapshot's provider facts: domain/financials/
    normalization.py over the tables and queries of db/repositories/
    financials.py (mapping lookup, the idempotent inserts of periods, facts and
    lineage, with the unique and check constraints of db/models/financials.py).

    The tables are association lists in insertion order; a statement that raises
    aborts the transaction, so no state is returned with an exception.  New row
    ids come from [uuid4], which is a parameter.  Stored amounts are kept as
    they are: NUMERIC(38, 18) holds every amount with at most 18 fractional and
    20 integral digits. *)
From S2P Require Import Prelude PyDecimal PyText AgentModel FinModel FinCalc Session.
From Stdlib Require Import Ascii.

(** * Data *)

Record SnapshotForNormalization := mkNormSnapshot {
  ns_snapshot_id : UUID; ns_security_id : UUID; ns_research_as_of_time : time; ns_status : string }.

(** A row of provider_financial_facts. *)
Record ProviderFinancialFact := mkProviderFact {
  pf_id : UUID; pf_security_id : UUID; pf_provider_id : UUID; pf_statement_type : string;
  pf_provider_concept : string; pf_taxonomy : option string; pf_context_id : option string;
  pf_dimensions : list (string * string); pf_value : option decimal; pf_unit : option string;
  pf_currency_code : option string; pf_fiscal_year : option Z; pf_fiscal_quarter : option Z;
  pf_fiscal_period : option string; pf_period_start : option date; pf_period_end : option date;
  pf_instant_date : option date; pf_filed_at : option time; pf_source_published_at : option time;
  pf_form_type : option string; pf_is_annual : option bool; pf_is_cumulative : option bool;
  pf_is_restated : option bool; pf_retrieved_at : time }.

Record RawFinancialFact := mkRawFact {
  rf_id : UUID; rf_security_id : UUID; rf_provider_id : UUID; rf_statement_type : string;
  rf_provider_concept : string; rf_taxonomy : option string; rf_context_id : option string;
  rf_dimensions : list (string * string); rf_value : decimal; rf_unit : string;
  rf_currency_code : option string; rf_fiscal_year : Z; rf_fiscal_quarter : option Z;
  rf_fiscal_period : string; rf_period_start : option date; rf_period_end : option date;
  rf_instant_date : option date; rf_filed_at : option time; rf_source_published_at : option time;
  rf_form_type : option string; rf_is_annual : bool; rf_is_cumulative : bool;
  rf_is_restated : bool; rf_retrieved_at : time }.

(** A row of provider_fact_mappings joined with its canonical concept. *)
Record StoredMapping := mkStoredMapping {
  sm_id : UUID; sm_provider_id : UUID; sm_provider_concept : string; sm_taxonomy : option string;
  sm_statement_type : string; sm_form_type : option string; sm_status : MappingStatus;
  sm_valid_from : option date; sm_valid_to : option date; sm_context_rules : list string;
  sm_dimension_rules : list string; sm_mapping_version : string; sm_concept_id : UUID;
  sm_concept_code : string; sm_fact_nature : FactNature; sm_default_unit_type : UnitType }.

Record ApprovedFactMapping := mkApproved {
  am_mapping_id : UUID; am_canonical_concept_id : UUID; am_canonical_concept_code : string;
  am_fact_nature : FactNature; am_default_unit_type : UnitType; am_accounting_standard : string;
  am_mapping_version : string }.

Record FinancialPeriodWrite := mkPeriodWrite {
  pw_security_id : UUID; pw_snapshot_id : UUID; pw_fiscal_year : Z; pw_fiscal_quarter : option Z;
  pw_fiscal_period : string; pw_period_type : PeriodType; pw_period_start : option date;
  pw_period_end : date; pw_filing_date : option date; pw_published_at : option time;
  pw_duration_days : option Z; pw_is_annual : bool; pw_is_cumulative : bool;
  pw_is_single_quarter : bool; pw_is_ttm : bool; pw_accounting_standard : string;
  pw_source_form_type : string }.
#[export] Instance FinancialPeriodWrite_eq_dec : EqDecision FinancialPeriodWrite.
Proof. solve_decision. Defined.

Record NormalizedFinancialFactWrite := mkNormFact {
  nf_security_id : UUID; nf_snapshot_id : UUID; nf_financial_period_id : UUID;
  nf_canonical_concept_id : UUID; nf_source_financial_fact_id : UUID; nf_mapping_id : UUID;
  nf_original_value : decimal; nf_normalized_value : decimal; nf_original_unit : string;
  nf_normalized_unit : string; nf_currency_code : option string; nf_scale_factor : decimal;
  nf_fact_nature : FactNature; nf_is_reported : bool; nf_is_derived_from_cumulative : bool;
  nf_is_restated : bool; nf_source_published_at : time; nf_mapping_version : string;
  nf_normalization_version : string }.

Record NormalizedFactInputWrite := mkNormInput {
  ni_normalized_fact_id : UUID; ni_input_normalized_fact_id : UUID; ni_input_role : string;
  ni_input_ordinal : Z }.

Record FinancialNormalizationResult := mkNormResult {
  nr_snapshot_id : UUID; nr_status : QualityStatus; nr_normalized_fact_count : Z;
  nr_period_count : Z; nr_warnings : list string }.

(** The tables normalization reads and writes. *)
Record FinDb := mkFinDb {
  fdb_snapshots : list SnapshotForNormalization;
  fdb_snapshot_facts : list (UUID * ProviderFinancialFact);
  fdb_mappings : list StoredMapping;
  fdb_periods : list (UUID * FinancialPeriodWrite);
  fdb_facts : list (UUID * NormalizedFinancialFactWrite);
  fdb_inputs : list (UUID * NormalizedFactInputWrite);
  fdb_next : nat }.

Definition NORMALIZATION_VERSION : string := "1.0.0".

(** Statements over these tables. *)
Abbreviation finM := (sessM FinDb).

(** ** Queries *)

Definition get_snapshot_for_normalization (snapshot_id : UUID) (db : FinDb) :
    option SnapshotForNormalization :=
  find (λ s, bool_decide (ns_snapshot_id s = snapshot_id)) (fdb_snapshots db).

(** A provider row usable as a raw fact. *)
Definition raw_fact (f : ProviderFinancialFact) : option RawFinancialFact :=
  value ← pf_value f; unit ← pf_unit f; year ← pf_fiscal_year f; period ← pf_fiscal_period f;
  Some (mkRawFact (pf_id f) (pf_security_id f) (pf_provider_id f) (pf_statement_type f)
    (pf_provider_concept f) (pf_taxonomy f) (pf_context_id f)
    (sort_by (λ a b, str_ltb a.1 b.1 || (bool_decide (a.1 = b.1) && str_ltb a.2 b.2))
       (pf_dimensions f))
    value unit (pf_currency_code f) year (pf_fiscal_quarter f) period (pf_period_start f)
    (pf_period_end f) (pf_instant_date f) (pf_filed_at f) (pf_source_published_at f)
    (pf_form_type f) (default false (pf_is_annual f)) (default false (pf_is_cumulative f))
    (default false (pf_is_restated f)) (pf_retrieved_at f)).

Definition list_snapshot_financial_facts (snapshot_id : UUID) (db : FinDb) : list RawFinancialFact :=
  omap raw_fact
    (sort_key (λ f, uuid_str (pf_id f))
       (map snd (filter (λ row, row.1 = snapshot_id) (fdb_snapshot_facts db)))).

(** The [WHERE] clause of the mapping query. *)
Definition mapping_candidate (fact : RawFinancialFact) (as_of : date) (m : StoredMapping) : bool :=
  bool_decide (sm_provider_id m = rf_provider_id fact) &&
  bool_decide (sm_provider_concept m = rf_provider_concept fact) &&
  opt_eqb (sm_taxonomy m) (rf_taxonomy fact) &&
  bool_decide (sm_statement_type m = rf_statement_type fact) &&
  opt_eqb (sm_form_type m) (rf_form_type fact) &&
  bool_decide (sm_status m = MapStatus.APPROVED) &&
  match sm_valid_from m with Some d => d <=? as_of | None => true end &&
  match sm_valid_to m with Some d => as_of <=? d | None => true end.

Definition mapping_matches (fact : RawFinancialFact) (m : StoredMapping) : bool :=
  subset_of (sm_context_rules m) (match rf_context_id fact with Some c => [c] | None => [] end) &&
  subset_of (sm_dimension_rules m) (map (λ kv, kv.1 +:+ "=" +:+ kv.2) (rf_dimensions fact)).

(** [find_approved_fact_mapping] *)
Definition find_approved_fact_mapping (fact : RawFinancialFact) (as_of : date) (db : FinDb) :
    option ApprovedFactMapping :=
  let candidates := sort_key (λ m, uuid_str (sm_id m))
    (filter (λ m, mapping_candidate fact as_of m = true) (fdb_mappings db)) in
  match filter (λ m, mapping_matches fact m = true) candidates with
  | [m] => Some (mkApproved (sm_id m) (sm_concept_id m) (sm_concept_code m) (sm_fact_nature m)
      (sm_default_unit_type m)
      (match rf_taxonomy fact with Some s => if bool_decide (s = "") then "PROVIDER_REPORTED" else s
                              | None => "PROVIDER_REPORTED" end)
      (sm_mapping_version m))
  | _ => None
  end.

(** ** Idempotent inserts

    A conflict with a stored row raises FinancialSeedConflictError, a
    [RuntimeError]. *)

Section Writes.
(** The ids given to new rows. *)
Variable uuid4 : nat → UUID.

Definition with_periods (db : FinDb) (rows : list (UUID * FinancialPeriodWrite)) (n : nat) : FinDb :=
  mkFinDb (fdb_snapshots db) (fdb_snapshot_facts db) (fdb_mappings db) rows (fdb_facts db)
    (fdb_inputs db) n.
Definition with_facts (db : FinDb) (rows : list (UUID * NormalizedFinancialFactWrite)) (n : nat) :
    FinDb :=
  mkFinDb (fdb_snapshots db) (fdb_snapshot_facts db) (fdb_mappings db) (fdb_periods db) rows
    (fdb_inputs db) n.
Definition with_inputs (db : FinDb) (rows : list (UUID * NormalizedFactInputWrite)) (n : nat) :
    FinDb :=
  mkFinDb (fdb_snapshots db) (fdb_snapshot_facts db) (fdb_mappings db) (fdb_periods db)
    (fdb_facts db) rows n.

(** [uq_financial_periods_snapshot_identity] *)
Definition same_period_identity (a b : FinancialPeriodWrite) : bool :=
  bool_decide (pw_security_id a = pw_security_id b) &&
  bool_decide (pw_snapshot_id a = pw_snapshot_id b) && (pw_fiscal_year a =? pw_fiscal_year b) &&
  opt_eqb (pw_fiscal_quarter a) (pw_fiscal_quarter b) &&
  bool_decide (pw_fiscal_period a = pw_fiscal_period b) &&
  bool_decide (pw_period_type a = pw_period_type b) &&
  opt_eqb (pw_period_start a) (pw_period_start b) && (pw_period_end a =? pw_period_end b) &&
  Bool.eqb (pw_is_cumulative a) (pw_is_cumulative b) &&
  Bool.eqb (pw_is_single_quarter a) (pw_is_single_quarter b) &&
  bool_decide (pw_accounting_standard a = pw_accounting_standard b) &&
  bool_decide (pw_source_form_type a = pw_source_form_type b).

(** The CHECK constraints of financial_periods. *)
Definition period_shape_ok (p : FinancialPeriodWrite) : bool :=
  if bool_decide (pw_period_type p = PType.INSTANT) then
    is_none (pw_period_start p) && is_none (pw_duration_days p) && negb (pw_is_cumulative p) &&
    negb (pw_is_single_quarter p) && negb (pw_is_ttm p)
  else
    match pw_period_start p, pw_duration_days p with
    | Some start, Some days => (start <=? pw_period_end p) && (0 <? days)
    | _, _ => false
    end.
Definition period_row_ok (p : FinancialPeriodWrite) : bool :=
  between 1900 9999 (pw_fiscal_year p) && opt_forallb (between 1 4) (pw_fiscal_quarter p) &&
  len_between 1 32 (pw_fiscal_period p) && period_shape_ok p &&
  Bool.eqb (pw_is_annual p) (bool_decide (pw_period_type p = PType.ANNUAL)) &&
  Bool.eqb (pw_is_ttm p) (bool_decide (pw_period_type p = PType.TTM)) &&
  len_between 1 64 (pw_accounting_standard p) && len_between 1 64 (pw_source_form_type p).

Definition get_or_create_financial_period (value : FinancialPeriodWrite) : finM UUID := λ db,
  match find (λ row, bool_decide (row.2 = value)) (fdb_periods db) with
  | Some row => Ok (row.1, db)
  | None =>
      reject_if (negb (period_row_ok value)) IntegrityError "ck_financial_periods";;
      reject_if (existsb (λ row, same_period_identity row.2 value) (fdb_periods db))
        IntegrityError "uq_financial_periods_snapshot_identity";;
      let id := uuid4 (fdb_next db) in
      Ok (id, with_periods db (fdb_periods db ++ [(id, value)]) (S (fdb_next db)))
  end.

(** [uq_normalized_facts_source_mapping_version], also the lookup key. *)
Definition same_fact_key (a b : NormalizedFinancialFactWrite) : bool :=
  bool_decide (nf_snapshot_id a = nf_snapshot_id b) &&
  bool_decide (nf_source_financial_fact_id a = nf_source_financial_fact_id b) &&
  bool_decide (nf_mapping_version a = nf_mapping_version b) &&
  bool_decide (nf_normalization_version a = nf_normalization_version b) &&
  Bool.eqb (nf_is_derived_from_cumulative a) (nf_is_derived_from_cumulative b).

(** No field differs from the expected one (numbers compare by value). *)
Definition same_fact (a b : NormalizedFinancialFactWrite) : bool :=
  bool_decide (nf_security_id a = nf_security_id b) &&
  bool_decide (nf_snapshot_id a = nf_snapshot_id b) &&
  bool_decide (nf_financial_period_id a = nf_financial_period_id b) &&
  bool_decide (nf_canonical_concept_id a = nf_canonical_concept_id b) &&
  bool_decide (nf_source_financial_fact_id a = nf_source_financial_fact_id b) &&
  bool_decide (nf_mapping_id a = nf_mapping_id b) &&
  deq (nf_original_value a) (nf_original_value b) &&
  deq (nf_normalized_value a) (nf_normalized_value b) &&
  bool_decide (nf_original_unit a = nf_original_unit b) &&
  bool_decide (nf_normalized_unit a = nf_normalized_unit b) &&
  opt_eqb (nf_currency_code a) (nf_currency_code b) &&
  deq (nf_scale_factor a) (nf_scale_factor b) &&
  bool_decide (nf_fact_nature a = nf_fact_nature b) &&
  Bool.eqb (nf_is_reported a) (nf_is_reported b) &&
  Bool.eqb (nf_is_derived_from_cumulative a) (nf_is_derived_from_cumulative b) &&
  Bool.eqb (nf_is_restated a) (nf_is_restated b) &&
  (nf_source_published_at a =? nf_source_published_at b) &&
  bool_decide (nf_mapping_version a = nf_mapping_version b) &&
  bool_decide (nf_normalization_version a = nf_normalization_version b).

(** The CHECK constraints of normalized_financial_facts. *)
Definition fact_row_ok (f : NormalizedFinancialFactWrite) : bool :=
  dlt dzero (nf_scale_factor f) && len_between 1 64 (nf_original_unit f) &&
  len_between 1 64 (nf_normalized_unit f) && opt_forallb currency_ok (nf_currency_code f) &&
  semver_ok (nf_mapping_version f) && semver_ok (nf_normalization_version f).

Definition get_or_create_normalized_fact (value : NormalizedFinancialFactWrite) :
    finM (UUID * bool) := λ db,
  match find (λ row, same_fact_key row.2 value) (fdb_facts db) with
  | Some row =>
      reject_if (negb (same_fact row.2 value)) RuntimeError
        ("normalized fact conflict for source " +:+ uuid_str (nf_source_financial_fact_id value));;
      Ok ((row.1, false), db)
  | None =>
      reject_if (negb (fact_row_ok value)) IntegrityError "ck_normalized_facts";;
      let id := uuid4 (fdb_next db) in
      Ok ((id, true), with_facts db (fdb_facts db ++ [(id, value)]) (S (fdb_next db)))
  end.

Definition same_input_key (a b : NormalizedFactInputWrite) : bool :=
  bool_decide (ni_normalized_fact_id a = ni_normalized_fact_id b) &&
  bool_decide (ni_input_role a = ni_input_role b) &&
  bool_decide (ni_input_normalized_fact_id a = ni_input_normalized_fact_id b).

(** The CHECK constraints of normalized_fact_inputs. *)
Definition input_row_ok (i : NormalizedFactInputWrite) : bool :=
  negb (bool_decide (ni_normalized_fact_id i = ni_input_normalized_fact_id i)) &&
  len_between 1 64 (ni_input_role i) && (0 <=? ni_input_ordinal i).

Definition get_or_create_normalized_fact_input (value : NormalizedFactInputWrite) :
    finM (UUID * bool) := λ db,
  match find (λ row, same_input_key row.2 value) (fdb_inputs db) with
  | Some row =>
      reject_if (negb (ni_input_ordinal row.2 =? ni_input_ordinal value)) RuntimeError
        ("normalized lineage conflict for fact " +:+ uuid_str (ni_normalized_fact_id value));;
      Ok ((row.1, false), db)
  | None =>
      reject_if (negb (input_row_ok value)) IntegrityError "ck_normalized_fact_inputs";;
      let id := uuid4 (fdb_next db) in
      Ok ((id, true), with_inputs db (fdb_inputs db ++ [(id, value)]) (S (fdb_next db)))
  end.

(** * The service *)

Record _ReportedNormalization := mkReported {
  rn_raw : RawFinancialFact; rn_snapshot_id : UUID; rn_mapping : ApprovedFactMapping;
  rn_period : FinancialPeriod; rn_period_id : UUID; rn_normalized_fact_id : UUID;
  rn_normalized_value : UnitNormalizationResult }.

Definition _period_type (fact : RawFinancialFact) (fact_nature : FactNature) : res PeriodType :=
  let value := str_map ascii_upper (rf_fiscal_period fact) in
  if bool_decide (fact_nature = Nature.INSTANT) then Ok PType.INSTANT
  else if bool_decide (value ∈ ["FY"; "ANNUAL"]) || rf_is_annual fact then Ok PType.ANNUAL
  else if bool_decide (value ∈ ["H1"; "HY"; "HALF_YEAR"]) then Ok PType.HALF_YEAR
  else if bool_decide (value ∈ ["9M"; "Q3_YTD"; "NINE_MONTH_YTD"]) then Ok PType.NINE_MONTH_YTD
  else if bool_decide (value ∈ ["YTD"; "YEAR_TO_DATE"]) then Ok PType.YEAR_TO_DATE
  else if is_some (rf_fiscal_quarter fact) || bool_decide (value ∈ ["Q1"; "Q2"; "Q3"; "Q4"])
  then Ok PType.QUARTER
  else raise PeriodSemanticsError ("unsupported fiscal period: " +:+ rf_fiscal_period fact).

(** A stored instant as an aware datetime. *)
Definition aware (t : time) : datetime := mkDatetime t (Some 0).

Definition _build_period (fact : RawFinancialFact) (fact_nature : FactNature)
    (accounting_standard : string) : res FinancialPeriod :=
  period_type ← _period_type fact fact_nature;
  period_end ← require_some
    (if bool_decide (period_type = PType.INSTANT) then rf_instant_date fact else rf_period_end fact)
    PeriodSemanticsError "period_end or instant_date is required";
  form ← require_some (rf_form_type fact) PeriodSemanticsError "source form type is required";
  create_period (Some (rf_fiscal_year fact)) (rf_fiscal_quarter fact) (rf_fiscal_period fact)
    period_type fact_nature (rf_period_start fact) period_end
    (option_map time_date (rf_filed_at fact)) (option_map aware (rf_source_published_at fact))
    (rf_is_cumulative fact)
    (bool_decide (period_type = PType.QUARTER) && negb (rf_is_cumulative fact))
    accounting_standard form.

(** [ReportedUnit(fact.unit)] *)
Definition reported_unit (unit : string) : res ReportedUnit :=
  require_some (enum_of RUnit.all RUnit.value unit) ValueError
    ("'" +:+ unit +:+ "' is not a valid ReportedUnit").

(** The body of the [try] of the fact loop. *)
Definition fact_semantics (fact : RawFinancialFact) (mapping : ApprovedFactMapping) :
    res (FinancialPeriod * UnitNormalizationResult) :=
  period ← _build_period fact (am_fact_nature mapping) (am_accounting_standard mapping);
  unit ← reported_unit (rf_unit fact);
  amount ← normalize_unit (rf_value fact) unit (am_default_unit_type mapping);
  Ok (period, amount).

Definition period_write (security_id snapshot_id : UUID) (p : FinancialPeriod) :
    FinancialPeriodWrite :=
  mkPeriodWrite security_id snapshot_id (fp_fiscal_year p) (fp_fiscal_quarter p)
    (fp_fiscal_period p) (fp_period_type p) (fp_period_start p) (fp_period_end p)
    (fp_filing_date p) (fp_published_at p) (fp_duration_days p) (fp_is_annual p)
    (fp_is_cumulative p) (fp_is_single_quarter p) (fp_is_ttm p) (fp_accounting_standard p)
    (fp_source_form_type p).

Definition reported_write (snapshot_id period_id : UUID) (fact : RawFinancialFact)
    (mapping : ApprovedFactMapping) (unit : UnitNormalizationResult) (published : time) :
    NormalizedFinancialFactWrite :=
  mkNormFact (rf_security_id fact) snapshot_id period_id (am_canonical_concept_id mapping)
    (rf_id fact) (am_mapping_id mapping) (un_original_value unit) (un_normalized_value unit)
    (RUnit.value (un_original_unit unit)) (un_normalized_unit unit) (rf_currency_code fact)
    (un_scale_factor unit) (am_fact_nature mapping) true false (rf_is_restated fact) published
    (am_mapping_version mapping) NORMALIZATION_VERSION.

(** One iteration of the fact loop: a warning, or the stored fact. *)
Definition normalize_fact (snapshot : SnapshotForNormalization) (fact : RawFinancialFact)
    (published : time) : finM (string + _ReportedNormalization) :=
  found ← sess_read (find_approved_fact_mapping fact (time_date (ns_research_as_of_time snapshot)));
  match found with
  | None => mret (inl ("NO_APPROVED_MAPPING:" +:+ uuid_str (rf_id fact)))
  | Some mapping =>
      match fact_semantics fact mapping with
      | Raise e => mret (inl ("FACT_NORMALIZATION_BLOCKED:" +:+ uuid_str (rf_id fact) +:+ ":" +:+
                              exn_code e))
      | Ok (period, unit) =>
          period_id ← get_or_create_financial_period
            (period_write (rf_security_id fact) (ns_snapshot_id snapshot) period);
          '(fact_id, _) ← get_or_create_normalized_fact
            (reported_write (ns_snapshot_id snapshot) period_id fact mapping unit published);
          mret (inr (mkReported fact (ns_snapshot_id snapshot) mapping period period_id fact_id unit))
      end
  end.

(** ** Derived quarters *)

(** [groups.setdefault(key, []).append(item)] *)
Fixpoint group_add {K V} `{EqDecision K} (k : K) (v : V) (groups : list (K * list V)) :
    list (K * list V) :=
  match groups with
  | [] => [(k, [v])]
  | (k', vs) :: groups =>
      if bool_decide (k' = k) then (k', vs ++ [v]) :: groups else (k', vs) :: group_add k v groups
  end.

Definition group_key (item : _ReportedNormalization) :
    option (UUID * string * Z * option string * string) :=
  let mapping := rn_mapping item in
  if negb (bool_decide (am_fact_nature mapping = Nature.DURATION)) ||
     negb (rf_is_cumulative (rn_raw item)) then None
  else
    concept ← enum_of Concept.all Concept.value (am_canonical_concept_code mapping);
    Some (rf_security_id (rn_raw item), Concept.value concept, rf_fiscal_year (rn_raw item),
          rf_currency_code (rn_raw item), am_accounting_standard mapping).

Definition cumulative_groups (reported : list _ReportedNormalization) :
    list (list _ReportedNormalization) :=
  map snd (foldl (λ groups item,
    match group_key item with Some k => group_add k item groups | None => groups end) [] reported).

(** The [FinancialValue] of a stored fact. *)
Definition item_value (concept : CanonicalConcept) (item : _ReportedNormalization) :
    res FinancialValue :=
  let unit := rn_normalized_value item in
  new_financial_value (rn_normalized_fact_id item) (rf_security_id (rn_raw item)) concept
    (rn_period item) (un_normalized_value unit) (un_normalized_unit unit)
    (rf_currency_code (rn_raw item)) (am_accounting_standard (rn_mapping item))
    (option_map aware (rf_source_published_at (rn_raw item))).

(** The body of the [try] of the derivation loop. *)
Definition derive_value (previous : option _ReportedNormalization)
    (current : _ReportedNormalization) (research_as_of_time : time) : res DerivedFinancialValue :=
  concept ← require_some
    (enum_of Concept.all Concept.value (am_canonical_concept_code (rn_mapping current)))
    ValueError "not a valid CanonicalConcept";
  current_value ← item_value concept current;
  previous_value ← match previous with
                   | Some p => v ← item_value concept p; Ok (Some v)
                   | None => Ok None
                   end;
  deaccumulate_quarter current_value previous_value (aware research_as_of_time).

(** The single quarter a cumulative fact ends. *)
Definition derived_period (previous : option _ReportedNormalization)
    (current : _ReportedNormalization) (start : date) : res FinancialPeriod :=
  let raw := rn_raw current in let p := rn_period current in
  let quarter := match rf_fiscal_quarter raw with
                 | Some q => if q =? 0 then 4 else q
                 | None => 4
                 end in
  create_period (Some (rf_fiscal_year raw)) (Some quarter) ("Q" +:+ str_of_Z quarter)
    PType.QUARTER Nature.DURATION (Some start) (fp_period_end p) (fp_filing_date p)
    (option_map aware (fp_published_at p)) false true
    (am_accounting_standard (rn_mapping current)) (fp_source_form_type p).

Definition derived_write (period_id : UUID) (current : _ReportedNormalization)
    (derived : DerivedFinancialValue) (published : time) : NormalizedFinancialFactWrite :=
  let raw := rn_raw current in let mapping := rn_mapping current in
  let unit := rn_normalized_value current in
  mkNormFact (rf_security_id raw) (rn_snapshot_id current) period_id
    (am_canonical_concept_id mapping) (rf_id raw) (am_mapping_id mapping)
    (un_original_value unit) (dv_value derived) (RUnit.value (un_original_unit unit))
    (dv_normalized_unit derived) (dv_currency_code derived) (un_scale_factor unit)
    Nature.DURATION false true (rf_is_restated raw) published (am_mapping_version mapping)
    NORMALIZATION_VERSION.

(** One lineage edge of a derived fact. *)
Definition lineage_write (current : _ReportedNormalization) (fact_id : UUID)
    (input : nat * UUID) : NormalizedFactInputWrite :=
  mkNormInput fact_id input.2
    (if bool_decide (input.2 = rn_normalized_fact_id current) then "CURRENT_CUMULATIVE"
     else "PREVIOUS_CUMULATIVE") (Z.of_nat input.1).

(** Store one derived quarter with its lineage. *)
Definition store_derived (current : _ReportedNormalization) (derived : DerivedFinancialValue)
    (period : FinancialPeriod) : finM UUID :=
  period_id ← get_or_create_financial_period
    (period_write (rf_security_id (rn_raw current)) (rn_snapshot_id current) period);
  published ← sess_lift (require_some (rf_source_published_at (rn_raw current)) AssertionError "");
  '(fact_id, _) ← get_or_create_normalized_fact
    (derived_write period_id current derived published);
  sess_map (λ input, get_or_create_normalized_fact_input (lineage_write current fact_id input))
    (imap pair (dv_input_fact_ids derived));;
  mret period_id.

(** One iteration: its warnings, and the period of the derived fact. *)
Definition derive_item (research_as_of_time : time) (previous : option _ReportedNormalization)
    (current : _ReportedNormalization) : finM (list string * option UUID) :=
  match derive_value previous current research_as_of_time with
  | Raise e =>
      if bool_decide (exn_class e = CalculationBlocked) then
        mret (["DEACCUMULATION_BLOCKED:" +:+ am_canonical_concept_code (rn_mapping current) +:+ ":" +:+
               str_of_Z (rf_fiscal_year (rn_raw current)) +:+ ":" +:+ exn_code e], None)
      else sess_lift (Raise e)
  | Ok derived =>
      match match previous with
            | None => fp_period_start (rn_period current)
            | Some p => Some (fp_period_end (rn_period p) + 1)
            end with
      | None => mret (["DEACCUMULATION_BLOCKED:" +:+ uuid_str (rf_id (rn_raw current)) +:+
                       ":MISSING_START"], None)
      | Some start =>
          period ← sess_lift (derived_period previous current start);
          period_id ← store_derived current derived period;
          mret (dv_warnings derived, Some period_id)
      end
  end.

(** The loop over one ordered group. *)
Fixpoint derive_group (research_as_of_time : time) (previous : option _ReportedNormalization)
    (items : list _ReportedNormalization) : finM (list (list string * option UUID)) :=
  match items with
  | [] => mret []
  | current :: items =>
      r ← derive_item research_as_of_time previous current;
      rs ← derive_group research_as_of_time (Some current) items;
      mret (r :: rs)
  end.

Definition by_period_end (a b : _ReportedNormalization) : bool :=
  fp_period_end (rn_period a) <? fp_period_end (rn_period b).

(** [_derive_cumulative_quarters]: the derived periods and the warnings. *)
Definition _derive_cumulative_quarters (reported : list _ReportedNormalization)
    (research_as_of_time : time) : finM (list UUID * list string) :=
  rs ← sess_map (λ items, derive_group research_as_of_time None (sort_by by_period_end items))
    (cumulative_groups reported);
  mret (omap snd (concat rs), concat (map fst (concat rs))).

(** ** The whole snapshot *)

(** The visibility filter: a warning, or the fact with its publication. *)
Definition visible_fact (cutoff : time) (fact : RawFinancialFact) :
    string + (RawFinancialFact * time) :=
  match rf_source_published_at fact with
  | None => inl ("SOURCE_PUBLISHED_AT_UNKNOWN:" +:+ uuid_str (rf_id fact))
  | Some published =>
      if cutoff <? published then inl ("FACT_AFTER_RESEARCH_AS_OF:" +:+ uuid_str (rf_id fact))
      else inr (fact, published)
  end.

Definition lefts {A B} (l : list (A + B)) : list A :=
  omap (λ x, match x with inl a => Some a | inr _ => None end) l.
Definition rights {A B} (l : list (A + B)) : list B :=
  omap (λ x, match x with inr b => Some b | inl _ => None end) l.

Definition blocked (snapshot_id : UUID) (warnings : list string) : FinancialNormalizationResult :=
  mkNormResult snapshot_id Quality.BLOCKED 0 0 warnings.

(** The result once every fact has been processed. *)
Definition normalization_result (snapshot_id : UUID) (count : Z) (period_ids : list UUID)
    (warnings : list string) : FinancialNormalizationResult :=
  if count =? 0 then
    blocked snapshot_id
      (match warnings with [] => ["NO_APPROVED_FINANCIAL_FACT_MAPPINGS"] | _ => warnings end)
  else
    mkNormResult snapshot_id
      (match warnings with [] => Quality.PASS | _ => Quality.PARTIAL end) count
      (Z.of_nat (length (remove_dups period_ids))) warnings.

(** [FinancialNormalizationService.normalize_snapshot] *)
Definition normalize_snapshot (snapshot_id : UUID) : finM FinancialNormalizationResult :=
  snapshot ← sess_read (get_snapshot_for_normalization snapshot_id);
  match snapshot with
  | None => mret (blocked snapshot_id ["SNAPSHOT_NOT_FOUND"])
  | Some snapshot =>
      facts ← sess_read (list_snapshot_financial_facts snapshot_id);
      match facts with
      | [] => mret (blocked snapshot_id ["NO_FINANCIAL_FACTS_IN_SNAPSHOT"])
      | _ =>
          let seen := map (visible_fact (ns_research_as_of_time snapshot)) facts in
          match rights seen with
          | [] => mret (blocked snapshot_id (lefts seen))
          | eligible =>
              outcomes ← sess_map (λ fp, normalize_fact snapshot fp.1 fp.2) eligible;
              let reported := rights outcomes in
              '(derived, derived_warnings) ← _derive_cumulative_quarters reported
                (ns_research_as_of_time snapshot);
              mret (normalization_result snapshot_id
                (Z.of_nat (length reported) + Z.of_nat (length derived))
                (map rn_period_id reported ++ derived)
                (lefts seen ++ lefts outcomes ++ derived_warnings))
          end
      end
  end.
End Writes.

(** * Re-running an idempotent statement *)

(** The session [db'] holds every row of [db], in the same place, and the same
    source tables. *)
Record ext (db db' : FinDb) : Prop := {
  ext_snapshots : fdb_snapshots db' = fdb_snapshots db;
  ext_snapshot_facts : fdb_snapshot_facts db' = fdb_snapshot_facts db;
  ext_mappings : fdb_mappings db' = fdb_mappings db;
  ext_periods : fdb_periods db `prefix_of` fdb_periods db';
  ext_facts : fdb_facts db `prefix_of` fdb_facts db';
  ext_inputs : fdb_inputs db `prefix_of` fdb_inputs db' }.

#[export] Instance ext_preorder : PreOrder ext.
Proof.
  split; [by split|]. intros a b c [] []. split; try congruence; by etrans.
Qed.

(** What a statement returned once it returns again, with nothing written, in
    every later state. *)
Definition stable {A} (m : finM A) : Prop := ∀ db a db', m db = Ok (a, db') →
  ext db db' ∧ ∀ later, ext db' later → m later = Ok (a, later).

Lemma stable_ret {A} (a : A) : stable (mret a).
Proof. intros db b db' [= <- <-]. by split. Qed.

Lemma stable_bind {A B} (m : finM A) (f : A → finM B) :
  stable m → (∀ a, stable (f a)) → stable (m ≫= f).
Proof.
  intros Hm Hf db b db' (a & db1 & E1 & E2)%sess_bind_Ok.
  destruct (Hm _ _ _ E1) as [H1 H1'], (Hf _ _ _ _ E2) as [H2 H2']. split; [by etrans|].
  intros later Hl. rewrite (sess_bind_eq _ _ _ a later); [by apply H2'|]. apply H1'. by etrans.
Qed.

Lemma stable_lift {A} (m : res A) : stable (sess_lift m).
Proof.
  intros db a db' (x & -> & [= <- <-])%bind_Ok. by split.
Qed.

(** A read of the source tables. *)
Lemma stable_read {A} (f : FinDb → A) : (∀ db db', ext db db' → f db' = f db) → stable (sess_read f).
Proof.
  intros Hf db a db' [= <- <-]. split; [done|]. intros later Hl. unfold sess_read.
  by rewrite (Hf _ _ Hl).
Qed.

Lemma stable_map {A B} (f : A → finM B) l : (∀ x, stable (f x)) → stable (sess_map f l).
Proof.
  intros Hf. induction l as [|x l IH]; cbn; [apply stable_ret|].
  apply stable_bind; [done|]. intros y. apply stable_bind; [done|]. intros ys. apply stable_ret.
Qed.

Lemma stable_period uuid4 value : stable (get_or_create_financial_period uuid4 value).
Proof.
  intros db id db'. unfold get_or_create_financial_period at 1.
  destruct (find _ (fdb_periods db)) as [row|] eqn:E.
  - intros [= <- <-]. split; [done|]. intros later []. unfold get_or_create_financial_period.
    by erewrite find_prefix.
  - rewrite !guard_seq. intros (_ & _ & [= <- <-]). split; [split; cbn; try done; by eexists|].
    intros later [_ _ _ Hp _ _]. unfold get_or_create_financial_period.
    erewrite find_prefix; [|exact Hp|apply find_snoc; [done|by apply bool_decide_eq_true]]. done.
Qed.

Lemma same_fact_refl v : same_fact v v = true.
Proof.
  unfold same_fact, opt_eqb.
  assert (Hd : ∀ d, deq d d = true) by (intros d; by apply (deq_scaled d d (dexp d))).
  by rewrite !bool_decide_true, !Hd, !eqb_reflx, Z.eqb_refl by done.
Qed.

Lemma same_fact_key_refl v : same_fact_key v v = true.
Proof. unfold same_fact_key. by rewrite !bool_decide_true, eqb_reflx by done. Qed.

(** The id of a stored fact: whether it is new changes nothing after. *)
Definition fact_id (m : finM (UUID * bool)) : finM UUID := '(id, _) ← m; mret (M := finM) id.

Lemma stable_fact uuid4 value : stable (fact_id (get_or_create_normalized_fact uuid4 value)).
Proof.
  intros db id db' (p & db1 & E1 & E2)%sess_bind_Ok. destruct p as [i b]. injection E2 as -> ->.
  unfold get_or_create_normalized_fact in E1. unfold fact_id.
  destruct (find _ (fdb_facts db)) as [row|] eqn:E.
  - apply guard_seq in E1 as [Hs [= <- _ <-]]. split; [done|]. intros later [].
    erewrite (sess_bind_eq _ _ _ (row.1, false) later); [done|].
    unfold get_or_create_normalized_fact. erewrite find_prefix by done. cbn. by rewrite Hs.
  - apply guard_seq in E1 as [_ [= <- _ <-]]. split; [split; cbn; try done; by eexists|].
    intros later [_ _ _ _ Hp _].
    erewrite (sess_bind_eq _ _ _ (_, false) later); [done|].
    unfold get_or_create_normalized_fact.
    erewrite find_prefix; [|exact Hp|apply find_snoc; [done|apply same_fact_key_refl]].
    by rewrite same_fact_refl.
Qed.

Lemma stable_input uuid4 value : stable (fact_id (get_or_create_normalized_fact_input uuid4 value)).
Proof.
  intros db id db' (p & db1 & E1 & E2)%sess_bind_Ok. destruct p as [i b]. injection E2 as -> ->.
  unfold get_or_create_normalized_fact_input in E1. unfold fact_id.
  destruct (find _ (fdb_inputs db)) as [row|] eqn:E.
  - apply guard_seq in E1 as [Hs [= <- _ <-]]. split; [done|]. intros later [].
    erewrite (sess_bind_eq _ _ _ (row.1, false) later); [done|].
    unfold get_or_create_normalized_fact_input. erewrite find_prefix by done. cbn. by rewrite Hs.
  - apply guard_seq in E1 as [_ [= <- _ <-]]. split; [split; cbn; try done; by eexists|].
    intros later [_ _ _ _ _ Hp].
    erewrite (sess_bind_eq _ _ _ (_, false) later); [done|].
    unfold get_or_create_normalized_fact_input.
    erewrite find_prefix; [|exact Hp|apply find_snoc; [done|]].
    + cbn. by rewrite Z.eqb_refl.
    + unfold same_input_key. by rewrite !bool_decide_true by done.
Qed.

Lemma stable_eq {A} (m m' : finM A) : (∀ db, m db = m' db) → stable m → stable m'.
Proof.
  intros Heq Hm db a db' E. rewrite <- Heq in E. destruct (Hm _ _ _ E) as [? H].
  split; [done|]. intros later ?. rewrite <- Heq. by apply H.
Qed.

(** A statement that only uses the id of a stored fact. *)
Lemma stable_bind_id {B} (m : finM (UUID * bool)) (k : UUID → finM B) :
  stable (fact_id m) → (∀ id, stable (k id)) → stable ('(id, _) ← m; k id).
Proof.
  intros Hm Hk. apply (stable_eq (fact_id m ≫= k)); [|by apply stable_bind].
  intros db. unfold fact_id, mbind, sess_bind. by destruct (m db) as [[[? ?] ?]|].
Qed.

Lemma stable_map_ids {A} (f : A → finM (UUID * bool)) l {B} (k : finM B) :
  (∀ x, stable (fact_id (f x))) → stable k → stable (sess_map f l;; k).
Proof.
  intros Hf Hk. apply (stable_eq (sess_map (λ x, fact_id (f x)) l;; k)).
  - clear. intros db.
    assert (H : match sess_map (λ x, fact_id (f x)) l db, sess_map f l db with
                | Ok (_, d), Ok (_, d') => d = d' | Raise e, Raise e' => e = e' | _, _ => False end).
    { revert db. induction l as [|x l IH]; intros db; cbn; [done|].
      destruct (f x db) as [[[i b] db1]|e] eqn:E.
      - rewrite (sess_bind_eq (f x) _ _ _ _ E), (sess_bind_eq (fact_id (f x)) _ db i db1)
          by (unfold fact_id; by rewrite (sess_bind_eq _ _ _ _ _ E)).
        specialize (IH db1). unfold mbind, sess_bind.
        destruct (sess_map (λ x, fact_id (f x)) l db1) as [[]|], (sess_map f l db1) as [[]|]; done.
      - by rewrite (sess_bind_raise (f x) _ _ _ E), (sess_bind_raise (fact_id (f x)) _ db e)
          by (unfold fact_id; by rewrite (sess_bind_raise _ _ _ _ E)). }
    unfold mbind at 1 2, sess_bind. destruct (sess_map _ l db) as [[]|], (sess_map f l db) as [[]|];
      done || by subst.
  - apply stable_bind; [by apply stable_map|done].
Qed.

Create HintDb stable.
#[export] Hint Resolve stable_ret stable_lift stable_period stable_fact stable_input : stable.

(** Reduces a statement's stability to that of its calls. *)
Ltac stable :=
  repeat (intros; match goal with
  | |- stable (match ?x with _ => _ end) => destruct x
  | |- stable (_ ≫= _) => first [apply stable_bind_id | apply stable_map_ids | apply stable_bind]
  | |- stable (sess_map _ _) => apply stable_map
  | |- stable (sess_read _) => apply stable_read
  | |- stable _ => solve [eauto with stable]
  end).

Lemma normalize_fact_stable uuid4 snapshot fact published :
  stable (normalize_fact uuid4 snapshot fact published).
Proof.
  unfold normalize_fact. stable. intros db db' [_ _ E _ _ _].
  unfold find_approved_fact_mapping. by rewrite E.
Qed.

Lemma derive_item_stable uuid4 t previous current :
  stable (derive_item uuid4 t previous current).
Proof. unfold derive_item, store_derived. stable. Qed.

Lemma derive_group_stable uuid4 t items : ∀ previous, stable (derive_group uuid4 t previous items).
Proof.
  induction items as [|c cs IH]; intros previous; cbn; [apply stable_ret|].
  apply stable_bind; [apply derive_item_stable|]. stable.
Qed.
#[export] Hint Resolve normalize_fact_stable derive_group_stable : stable.

Lemma normalize_snapshot_stable uuid4 snapshot_id : stable (normalize_snapshot uuid4 snapshot_id).
Proof.
  unfold normalize_snapshot, _derive_cumulative_quarters. stable.
  - intros db db' [E _ _ _ _ _]. unfold get_snapshot_for_normalization. by rewrite E.
  - intros db db' [_ E _ _ _ _]. unfold list_snapshot_financial_facts. by rewrite E.
Qed.

(** Normalization is idempotent: normalizing a snapshot again, also after
    any other snapshots were normalized in between, gives the same result and
    writes nothing. *)
Theorem normalize_idempotent uuid4 snapshot_id others db result db1 results db2 :
  normalize_snapshot uuid4 snapshot_id db = Ok (result, db1) →
  sess_map (normalize_snapshot uuid4) others db1 = Ok (results, db2) →
  normalize_snapshot uuid4 snapshot_id db2 = Ok (result, db2).
Proof.
  intros H1%normalize_snapshot_stable H2%stable_map; [|apply normalize_snapshot_stable].
  by apply H1, H2.
Qed.

(** * What a normalized fact rests on *)

Section Justified.
Context (uuid4 : nat → UUID) (snapshot : SnapshotForNormalization).

(** A reported fact of [db]: a snapshot fact public at the research time, its
    one approved mapping, its period and unit, and its row. *)
Record item_sound (db : FinDb) (item : _ReportedNormalization) : Prop := {
  is_fact : rn_raw item ∈ list_snapshot_financial_facts (ns_snapshot_id snapshot) db;
  is_public : ∃ published, rf_source_published_at (rn_raw item) = Some published ∧
    published ≤ ns_research_as_of_time snapshot;
  is_mapping : find_approved_fact_mapping (rn_raw item)
    (time_date (ns_research_as_of_time snapshot)) db = Some (rn_mapping item);
  is_semantics : fact_semantics (rn_raw item) (rn_mapping item) =
    Ok (rn_period item, rn_normalized_value item);
  is_row : ∃ w published, (rn_normalized_fact_id item, w) ∈ fdb_facts db ∧
    rf_source_published_at (rn_raw item) = Some published ∧
    same_fact w (reported_write (ns_snapshot_id snapshot) (rn_period_id item) (rn_raw item)
      (rn_mapping item) (rn_normalized_value item) published) = true }.

(** What a row of normalized_financial_facts can be: a reported fact, or a
    quarter de-accumulated from one or two reported facts, to which its lineage
    edges lead. *)
Inductive row_sound (db : FinDb) : UUID * NormalizedFinancialFactWrite → Prop :=
| row_reported id item published :
    item_sound db item → rn_normalized_fact_id item = id →
    rf_source_published_at (rn_raw item) = Some published →
    row_sound db (id, reported_write (ns_snapshot_id snapshot) (rn_period_id item) (rn_raw item)
      (rn_mapping item) (rn_normalized_value item) published)
| row_derived id previous current derived period_id published :
    item_sound db current → (∀ p, previous = Some p → item_sound db p) →
    derive_value previous current (ns_research_as_of_time snapshot) = Ok derived →
    rf_source_published_at (rn_raw current) = Some published →
    (∀ n input, dv_input_fact_ids derived !! n = Some input →
      ∃ edge w, (edge, w) ∈ fdb_inputs db ∧ ni_input_ordinal w = Z.of_nat n ∧
        same_input_key w (lineage_write current id (n, input)) = true) →
    row_sound db (id, derived_write period_id current derived published).

Lemma item_sound_ext db db' item : ext db db' → item_sound db item → item_sound db' item.
Proof.
  intros [E1 E2 E3 _ Hf _] [H1 H2 H3 H4 (w & t & Hw & Ht & Hs)]. split; try done.
  - unfold list_snapshot_financial_facts in *. by rewrite E2.
  - unfold find_approved_fact_mapping in *. by rewrite E3.
  - exists w, t. split; [|done]. by eapply elem_of_prefix.
Qed.

Lemma row_sound_ext db db' row : ext db db' → row_sound db row → row_sound db' row.
Proof.
  intros He. destruct 1 as [id item t H1 H2 H3|id previous current d pid t H1 H2 H3 H4 H5].
  - constructor; [by eapply item_sound_ext|done..].
  - eapply row_derived; [by eapply item_sound_ext| |done..|].
    + intros p ->. eapply item_sound_ext; [done|]. by apply H2.
    + intros n i (e & w & Hw & ? & ?)%H5. exists e, w. split; [|done].
      eapply elem_of_prefix; [done|apply He].
Qed.

(** Every row is an old one or sound. *)
Definition rows_sound (db0 db : FinDb) : Prop :=
  ∀ row, row ∈ fdb_facts db → row ∈ fdb_facts db0 ∨ row_sound db row.

Lemma rows_sound_ext db0 db db' : ext db db' → fdb_facts db' = fdb_facts db →
  rows_sound db0 db → rows_sound db0 db'.
Proof.
  intros He Hf H row. rewrite Hf. intros [?|?]%H; [by left|right]. by eapply row_sound_ext.
Qed.

(** The row a stored fact's id leads to. *)
Lemma get_or_create_fact_row value db id b db' :
  get_or_create_normalized_fact uuid4 value db = Ok ((id, b), db') →
  ext db db' ∧ (∃ w, (id, w) ∈ fdb_facts db' ∧ same_fact w value = true) ∧
  (fdb_facts db' = fdb_facts db ∨ fdb_facts db' = fdb_facts db ++ [(id, value)]).
Proof.
  unfold get_or_create_normalized_fact. destruct (find _ _) as [[id' w]|] eqn:E; rewrite guard_seq.
  - intros [Hs%negb_false_iff [= <- <- <-]]. split; [done|]. apply find_elem in E as [? _].
    split; [by exists w|by left].
  - intros [_ [= <- <- <-]]. split; [split; cbn; try done; by eexists|]. cbn.
    split; [|by right]. exists value. split; [apply elem_of_app; right; left|apply same_fact_refl].
Qed.

Lemma get_or_create_period_ext value db id db' :
  get_or_create_financial_period uuid4 value db = Ok (id, db') →
  ext db db' ∧ fdb_facts db' = fdb_facts db.
Proof.
  intros H. split; [by eapply stable_period|]. revert H. unfold get_or_create_financial_period.
  destruct (find _ _); [by intros [= <- <-]|]. rewrite !guard_seq. by intros (_ & _ & [= <- <-]).
Qed.

Lemma get_or_create_input_row value db id b db' :
  get_or_create_normalized_fact_input uuid4 value db = Ok ((id, b), db') →
  ext db db' ∧ fdb_facts db' = fdb_facts db ∧
  ∃ w, (id, w) ∈ fdb_inputs db' ∧ ni_input_ordinal w = ni_input_ordinal value ∧
    same_input_key w value = true.
Proof.
  unfold get_or_create_normalized_fact_input. destruct (find _ _) as [[id' w]|] eqn:E;
    rewrite guard_seq.
  - intros [Hs%negb_false_iff%Z.eqb_eq [= <- <- <-]]. apply find_elem in E as [? ?].
    split_and!; [done|done|]. by exists w.
  - intros [_ [= <- <- <-]]. split; [split; cbn; try done; by eexists|]. split; [done|].
    exists value. split_and!; [apply elem_of_app; right; left|done|].
    unfold same_input_key. by rewrite !bool_decide_true by done.
Qed.

Lemma normalize_fact_sound db0 fact published db out db' :
  rows_sound db0 db → fact ∈ list_snapshot_financial_facts (ns_snapshot_id snapshot) db →
  rf_source_published_at fact = Some published → published ≤ ns_research_as_of_time snapshot →
  normalize_fact uuid4 snapshot fact published db = Ok (out, db') →
  ext db db' ∧ rows_sound db0 db' ∧ ∀ item, out = inr item → item_sound db' item.
Proof.
  intros Hs Hin Hpub Hle. unfold normalize_fact.
  intros (found & db1 & [= <- <-] & H)%sess_bind_Ok.
  destruct (find_approved_fact_mapping _ _ _) as [mapping|] eqn:Em.
  2: { injection H as <- <-. by split_and!. }
  destruct (fact_semantics fact mapping) as [[period unit]|e] eqn:Ef.
  2: { injection H as <- <-. by split_and!. }
  apply sess_bind_Ok in H as (pid & db1 & Hp & H). apply sess_bind_Ok in H as ([fid b] & db2 & Hf & [= <- <-]).
  apply get_or_create_period_ext in Hp as [He1 Hf1].
  apply get_or_create_fact_row in Hf as (He2 & (w & Hw & Hsame) & Hrows).
  assert (He : ext db db2) by by etrans.
  assert (Hitem : item_sound db2 (mkReported fact (ns_snapshot_id snapshot) mapping period pid fid unit)).
  { split; cbn; try done; [|by exists published| |by exists w, published].
    - destruct He as [_ E _ _ _ _]. unfold list_snapshot_financial_facts in *. by rewrite E.
    - destruct He as [_ _ E _ _ _]. unfold find_approved_fact_mapping in *. by rewrite E. }
  split; [done|]. split; [|by intros item [= <-]].
  intros row. destruct Hrows as [E|E]; rewrite E, Hf1.
  - intros [?|?]%Hs; [by left|right; by eapply row_sound_ext].
  - rewrite elem_of_app, list_elem_of_singleton. intros [[?|?]%Hs| ->];
      [by left|right; by eapply row_sound_ext|right].
    by apply (row_reported _ _ _ _ Hitem).
Qed.

Lemma store_derived_sound db0 previous current derived period db pid db' :
  rows_sound db0 db → item_sound db current → (∀ p, previous = Some p → item_sound db p) →
  derive_value previous current (ns_research_as_of_time snapshot) = Ok derived →
  store_derived uuid4 current derived period db = Ok (pid, db') → ext db db' ∧ rows_sound db0 db'.
Proof.
  intros Hs Hc Hp Hd. unfold store_derived.
  intros (pid' & db1 & H1 & H)%sess_bind_Ok. apply get_or_create_period_ext in H1 as [He1 Hf1].
  apply sess_bind_Ok in H as (t & db2 & Ht & H). apply bind_Ok in Ht as (t' & Ht%require_some_Ok & [= -> <-]).
  apply sess_bind_Ok in H as ([fid b] & db3 & Hf & H).
  apply get_or_create_fact_row in Hf as (He3 & _ & Hrows).
  apply sess_bind_Ok in H as (es & db4 & Hes & [= <- <-]).
  set (edges := λ (d : FinDb) (input : nat * UUID) (e : UUID * bool), ∃ w, (e.1, w) ∈ fdb_inputs d ∧
    ni_input_ordinal w = Z.of_nat input.1 ∧ same_input_key w (lineage_write current fid input) = true).
  assert (Hinv : ext db3 db4 ∧ fdb_facts db4 = fdb_facts db3 ∧
    Forall2 (edges db4) (imap pair (dv_input_fact_ids derived)) es).
  { eapply (sess_map_inv ext _ (λ d, fdb_facts d = fdb_facts db3) (λ _ _, True) edges);
      [done| | |done| |exact Hes].
    - intros d d' x e [_ _ _ _ _ Hi] (w & Hw & ?). exists w. split; [|done].
      by eapply elem_of_prefix.
    - intros x d [e b'] d' Hd' _ (Hx1 & Hx2 & w & Hw & Ho & Hk)%get_or_create_input_row.
      split_and!; [done|congruence|by exists w].
    - by apply Forall_forall. }
  destruct Hinv as (He4 & Hf4 & Hall).
  assert (He : ext db db4) by (etrans; [exact He1|by etrans]).
  split; [done|]. intros row. rewrite Hf4. destruct Hrows as [E|E]; rewrite E, Hf1.
  - intros [?|?]%Hs; [by left|right; by eapply row_sound_ext].
  - rewrite elem_of_app, list_elem_of_singleton. intros [[?|?]%Hs| ->];
      [by left|right; by eapply row_sound_ext|right].
    eapply row_derived; [by eapply item_sound_ext| |done..|].
    + intros p Hpp. eapply item_sound_ext; [done|by apply Hp].
    + intros n input Hn. assert (Hin : (n, input) ∈ imap pair (dv_input_fact_ids derived)).
      { apply list_elem_of_lookup. exists n. by rewrite list_lookup_imap, Hn. }
      destruct (Forall2_elem_l _ _ _ _ Hall Hin) as ([e b'] & _ & w & ? & ? & ?). by exists e, w.
Qed.

Lemma derive_item_sound db0 previous current db r db' :
  rows_sound db0 db → item_sound db current → (∀ p, previous = Some p → item_sound db p) →
  derive_item uuid4 (ns_research_as_of_time snapshot) previous current db = Ok (r, db') →
  ext db db' ∧ rows_sound db0 db'.
Proof.
  intros Hs Hc Hp. unfold derive_item. destruct (derive_value _ _ _) as [derived|e] eqn:Ed.
  2: { case_bool_decide; [intros [= <- <-]; by split|done]. }
  destruct (match previous with None => _ | Some p => _ end) as [start|]; [|intros [= <- <-]; by split].
  intros (p & db1 & H1 & H)%sess_bind_Ok. apply bind_Ok in H1 as (p' & _ & [= -> <-]).
  apply sess_bind_Ok in H as (pid & db2 & H2 & [= <- <-]).
  by eapply store_derived_sound.
Qed.

Lemma derive_group_sound db0 items : ∀ previous db rs db',
  rows_sound db0 db → Forall (item_sound db) items →
  (∀ p, previous = Some p → item_sound db p) →
  derive_group uuid4 (ns_research_as_of_time snapshot) previous items db = Ok (rs, db') →
  ext db db' ∧ rows_sound db0 db'.
Proof.
  induction items as [|c cs IH]; intros previous db rs db' Hs Hall Hp; cbn.
  { intros [= <- <-]. by split. }
  apply Forall_cons in Hall as [Hc Hcs]. intros (r & db1 & H1 & H)%sess_bind_Ok.
  apply sess_bind_Ok in H as (rs' & db2 & H2 & [= <- <-]).
  destruct (derive_item_sound _ _ _ _ _ _ Hs Hc Hp H1) as [He1 Hs1].
  apply IH in H2 as [He2 Hs2]; [split; [by etrans|done]|done| |].
  - eapply Forall_impl; [exact Hcs|]. intros. by eapply item_sound_ext.
  - intros p [= <-]. by eapply item_sound_ext.
Qed.

(** Grouping keeps the items. *)
Lemma group_add_items {K V} `{EqDecision K} (k : K) (v : V) groups :
  concat (map snd (group_add k v groups)) ≡ₚ v :: concat (map snd groups).
Proof.
  induction groups as [|[k' vs] groups IH]; cbn; [done|]. case_bool_decide; cbn.
  - rewrite <- app_assoc. by rewrite Permutation_middle.
  - rewrite IH. by rewrite Permutation_middle.
Qed.

Lemma cumulative_groups_items reported :
  Forall (λ items, Forall (λ i, i ∈ reported) items) (cumulative_groups reported).
Proof.
  unfold cumulative_groups.
  assert (H : ∀ l groups, (∀ i, i ∈ concat (map snd groups) → i ∈ reported) →
    (∀ i, i ∈ l → i ∈ reported) → ∀ i,
    i ∈ concat (map snd (foldl (λ (gs : list (_ * list _ReportedNormalization)) item,
      match group_key item with Some k => group_add k item gs | None => gs end) groups l)) →
    i ∈ reported).
  { induction l as [|x l IH]; intros groups Hg Hl; cbn; [done|]. apply IH.
    - intros i. destruct (group_key x); [|apply Hg]. rewrite group_add_items.
      intros [->|?]%elem_of_cons; [apply Hl; left|by apply Hg].
    - intros i ?. apply Hl. by right. }
  apply Forall_forall. intros items Hitems. apply Forall_forall. intros i Hi.
  apply (H reported []); [by intros ? ?%elem_of_nil|done|].
  apply list_elem_of_In, in_concat. exists items. by rewrite <- !list_elem_of_In.
Qed.
Lemma derive_cumulative_sound db0 reported db r db' :
  rows_sound db0 db → (∀ i, i ∈ reported → item_sound db i) →
  _derive_cumulative_quarters uuid4 reported (ns_research_as_of_time snapshot) db = Ok (r, db') →
  rows_sound db0 db'.
Proof.
  intros Hs Hitems. unfold _derive_cumulative_quarters.
  intros (rs & db1 & Hd & [= _ <-])%sess_bind_Ok.
  eapply (sess_map_inv ext _ (rows_sound db0) (λ d items, Forall (item_sound d) items)
    (λ _ _ _, True)) in Hd as (_ & Hs3 & _); [done|..|done|].
  - intros d d' items Hdd Hall. eapply Forall_impl; [exact Hall|]. intros. by eapply item_sound_ext.
  - done.
  - intros items d rs' d' Hsd Hall Hg. eapply derive_group_sound in Hg as [? ?]; try done.
    by rewrite sort_by_perm.
  - eapply Forall_impl; [apply cumulative_groups_items|]. intros items Hi.
    eapply Forall_impl; [exact Hi|]. intros i. apply Hitems.
Qed.
End Justified.

Lemma rights_elem {A B} (l : list (A + B)) b : b ∈ rights l → inr b ∈ l.
Proof. unfold rights. intros (x & Hx & E)%list_elem_of_omap. destruct x; [done|]. by injection E as ->. Qed.

(** The facts the visibility filter lets through. *)
Lemma visible_facts cutoff facts :
  Forall (λ fp, fp.1 ∈ facts ∧ rf_source_published_at fp.1 = Some fp.2 ∧ fp.2 ≤ cutoff)
    (rights (map (visible_fact cutoff) facts)).
Proof.
  apply Forall_forall. intros [x t] (x' & E & Hx)%rights_elem%list_elem_of_fmap.
  unfold visible_fact in E. destruct (rf_source_published_at x') as [t'|] eqn:Et; [|done].
  destruct (Z.ltb_spec cutoff t'); [done|]. by injection E as -> ->.
Qed.


(** A snapshot with two year-to-date revenue facts, and a later restatement of
    the first. *)
Module NormSample.
Definition uuid4 (n : nat) : UUID := mkUUID ("row-" +:+ str_of_Z (Z.of_nat n)).
Definition fact (id : string) (quarter : Z) (name : string) (end_ filed : date) (value : Z) :
    ProviderFinancialFact :=
  mkProviderFact (mkUUID id) (mkUUID "sec") (mkUUID "prov") "INCOME_STATEMENT" "OperatingRevenue"
    (Some "CAS") None [] (Some (mkDec false value (-12))) (Some "THOUSAND") (Some "CNY")
    (Some 2023) (Some quarter) (Some name) (Some 19358) (Some end_) None
    (Some (filed * us_per_day)) (Some (filed * us_per_day)) (Some "QUARTERLY_REPORT")
    None (Some true) None 0.
Definition mapping : StoredMapping :=
  mkStoredMapping (mkUUID "map") (mkUUID "prov") "OperatingRevenue" (Some "CAS")
    "INCOME_STATEMENT" (Some "QUARTERLY_REPORT") MapStatus.APPROVED None None [] [] "1.0.0"
    (mkUUID "concept") "REVENUE" Nature.DURATION UType.MONETARY_AMOUNT.
Definition db (facts : list ProviderFinancialFact) : FinDb :=
  mkFinDb [mkNormSnapshot (mkUUID "snap") (mkUUID "sec") (20000 * us_per_day) "COMPLETE"]
    (map (λ f, (mkUUID "snap", f)) facts) [mapping] [] [] [] 0.
Definition q1 := fact "f1" 1 "Q1" 19447 19470 5000000000000.
Definition h1 := fact "f2" 2 "H1" 19538 19560 12500000000000.
Definition q1_restated := fact "f3" 1 "Q1" 19447 19600 5100000000000.
Abbreviation run facts := (normalize_snapshot uuid4 (mkUUID "snap") (db facts)).
End NormSample.

(** Two reported and two derived quarters: 5,000,000 and 7,500,000. *)
Example sample_normalized :
  match NormSample.run [NormSample.q1; NormSample.h1] with
  | Ok (r, db) => Some (r, map (λ row, (nf_is_reported row.2, nf_normalized_value row.2)) (fdb_facts db))
  | Raise _ => None
  end = Some (mkNormResult (mkUUID "snap") Quality.PASS 4 4 [],
    [(true, mkDec false 5000000000000000 (-12)); (true, mkDec false 12500000000000000 (-12));
     (false, mkDec false 5000000000000000 (-12)); (false, mkDec false 7500000000000000 (-12))]).
Proof. vm_compute. reflexivity. Qed.

Lemma sample_run_ok : is_ok (NormSample.run [NormSample.q1; NormSample.h1]) = true.
Proof. vm_compute. reflexivity. Qed.

Lemma normalize_idempotent_witness : ∃ result db1,
  NormSample.run [NormSample.q1; NormSample.h1] = Ok (result, db1) ∧
  normalize_snapshot NormSample.uuid4 (mkUUID "snap") db1 = Ok (result, db1).
Proof.
  assert (H := sample_run_ok). destruct (normalize_snapshot _ _ _) as [[result db1]|e] eqn:E; [|discriminate H].
  exists result, db1. split; [reflexivity|].
  exact (normalize_idempotent NormSample.uuid4 (mkUUID "snap") [] _ result db1 [] db1 E eq_refl).
Defined.


(** A restated version of a fact has other filing and publication dates, so its
    period is not the stored one, yet it has the same unique identity: the
    insert fails and the whole normalization with it. *)
Lemma restated_fact_aborts :
  NormSample.run [NormSample.q1; NormSample.q1_restated] =
  raise IntegrityError "uq_financial_periods_snapshot_identity".
Proof. vm_compute. reflexivity. Qed.
