(* ===== verification/FinFormulas.v ===== *)
(** The metric formulas: domain/financials/formulas.py (the whitelist of 23
    formulas, their blocking rules and their 28-digit implementations). *)
From S2P Require Import Prelude PyDecimal PyText FinModel.

(** * Vocabulary and registry *)

Module Metric.
Inductive MetricCode :=
  | REVENUE_GROWTH | GROSS_MARGIN | OPERATING_MARGIN | NET_MARGIN_PARENT | ROE_PARENT
   | ROA_TOTAL | ROIC | OPERATING_CASH_FLOW | FREE_CASH_FLOW | LIABILITIES_TO_ASSETS
   | NET_DEBT | BASIC_EPS | DILUTED_EPS | MARKET_CAP | PE_TTM_DILUTED | PB_PARENT | PS_TTM
   | ENTERPRISE_VALUE | EV_TO_EBITDA_TTM | FCF_YIELD_TTM | REVENUE_TTM | NET_INCOME_PARENT_TTM
   | EBITDA_TTM.
#[global] Instance MetricCode_eq_dec : EqDecision MetricCode.
Proof. solve_decision. Defined.
Definition all : list MetricCode :=
  [REVENUE_GROWTH; GROSS_MARGIN; OPERATING_MARGIN; NET_MARGIN_PARENT; ROE_PARENT; ROA_TOTAL
  ; ROIC; OPERATING_CASH_FLOW; FREE_CASH_FLOW; LIABILITIES_TO_ASSETS; NET_DEBT; BASIC_EPS
  ; DILUTED_EPS; MARKET_CAP; PE_TTM_DILUTED; PB_PARENT; PS_TTM; ENTERPRISE_VALUE
  ; EV_TO_EBITDA_TTM; FCF_YIELD_TTM; REVENUE_TTM; NET_INCOME_PARENT_TTM; EBITDA_TTM].
Definition value (x : MetricCode) : string :=
  match x with
  | REVENUE_GROWTH => "revenue_growth"
  | GROSS_MARGIN => "gross_margin"
  | OPERATING_MARGIN => "operating_margin"
  | NET_MARGIN_PARENT => "net_margin_parent"
  | ROE_PARENT => "roe_parent"
  | ROA_TOTAL => "roa_total"
  | ROIC => "roic"
  | OPERATING_CASH_FLOW => "operating_cash_flow"
  | FREE_CASH_FLOW => "free_cash_flow"
  | LIABILITIES_TO_ASSETS => "liabilities_to_assets"
  | NET_DEBT => "net_debt"
  | BASIC_EPS => "basic_eps"
  | DILUTED_EPS => "diluted_eps"
  | MARKET_CAP => "market_cap"
  | PE_TTM_DILUTED => "pe_ttm_diluted"
  | PB_PARENT => "pb_parent"
  | PS_TTM => "ps_ttm"
  | ENTERPRISE_VALUE => "enterprise_value"
  | EV_TO_EBITDA_TTM => "ev_to_ebitda_ttm"
  | FCF_YIELD_TTM => "fcf_yield_ttm"
  | REVENUE_TTM => "revenue_ttm"
  | NET_INCOME_PARENT_TTM => "net_income_parent_ttm"
  | EBITDA_TTM => "ebitda_ttm"
  end.
End Metric.
Abbreviation MetricCode := Metric.MetricCode.

Module VState.
Inductive MetricValueState :=
  | VALUE | ZERO | NULL | NOT_MEANINGFUL.
#[global] Instance MetricValueState_eq_dec : EqDecision MetricValueState.
Proof. solve_decision. Defined.
Definition all : list MetricValueState :=
  [VALUE; ZERO; NULL; NOT_MEANINGFUL].
Definition value (x : MetricValueState) : string :=
  match x with
  | VALUE => "VALUE"
  | ZERO => "ZERO"
  | NULL => "NULL"
  | NOT_MEANINGFUL => "NOT_MEANINGFUL"
  end.
End VState.
Abbreviation MetricValueState := VState.MetricValueState.

(** [FormulaDefinition]: [name] is the title-cased code and [status] is always
    ACTIVE; both are left out. *)
Record FormulaDefinition := mkFormula {
  fd_metric_code : MetricCode; fd_formula_expression : string; fd_formula_version : string;
  fd_required_inputs : list string; fd_optional_inputs : list string;
  fd_period_requirement : string; fd_currency_requirement : string;
  fd_denominator_policy : string; fd_negative_value_policy : string }.

Definition _definition (code : MetricCode) (expression : string) (required : list string)
    (period currency denominator negative : string) (optional : list string) : FormulaDefinition :=
  mkFormula code expression "1.0.0" required optional period currency denominator negative.

Definition FORMULA_REGISTRY : list FormulaDefinition :=
  [_definition Metric.REVENUE_GROWTH "(current_revenue - prior_revenue) / prior_revenue"
     ["current_revenue"; "prior_revenue"]
     "COMPARABLE_DURATION" "SAME_CURRENCY" "NON_POSITIVE_IS_NM" "ALLOWED" [];
   _definition Metric.GROSS_MARGIN "(revenue - cost_of_revenue) / revenue"
     ["revenue"; "cost_of_revenue"]
     "SAME_DURATION" "SAME_CURRENCY" "NON_POSITIVE_IS_NM" "ALLOWED" [];
   _definition Metric.OPERATING_MARGIN "operating_income / revenue"
     ["operating_income"; "revenue"]
     "SAME_DURATION" "SAME_CURRENCY" "NON_POSITIVE_IS_NM" "ALLOWED" [];
   _definition Metric.NET_MARGIN_PARENT "net_income_parent / revenue"
     ["net_income_parent"; "revenue"]
     "SAME_DURATION" "SAME_CURRENCY" "NON_POSITIVE_IS_NM" "ALLOWED" [];
   _definition Metric.ROE_PARENT "net_income_parent / average(opening_equity_parent, closing_equity_parent)"
     ["net_income_parent"; "opening_equity_parent"; "closing_equity_parent"]
     "DURATION_WITH_OPENING_AND_CLOSING" "SAME_CURRENCY" "NON_POSITIVE_IS_NM" "ALLOWED" [];
   _definition Metric.ROA_TOTAL "net_income_total / average(opening_total_assets, closing_total_assets)"
     ["net_income_total"; "opening_total_assets"; "closing_total_assets"]
     "DURATION_WITH_OPENING_AND_CLOSING" "SAME_CURRENCY" "NON_POSITIVE_IS_NM" "ALLOWED" [];
   _definition Metric.ROIC "nopat / average(opening_invested_capital, closing_invested_capital)"
     ["operating_income"; "pretax_income"; "income_tax_expense"; "opening_total_equity"; "closing_total_equity"; "opening_total_debt"; "closing_total_debt"; "opening_cash"; "closing_cash"]
     "DURATION_WITH_OPENING_AND_CLOSING" "SAME_CURRENCY" "NON_POSITIVE_IS_NM" "ALLOWED" [];
   _definition Metric.OPERATING_CASH_FLOW "reported_ocf"
     ["reported_ocf"]
     "DURATION" "SAME_CURRENCY" "NOT_APPLICABLE" "ALLOWED" [];
   _definition Metric.FREE_CASH_FLOW "operating_cash_flow - capital_expenditures"
     ["operating_cash_flow"; "capital_expenditures"]
     "SAME_DURATION" "SAME_CURRENCY" "NOT_APPLICABLE" "ALLOWED" [];
   _definition Metric.LIABILITIES_TO_ASSETS "total_liabilities / total_assets"
     ["total_liabilities"; "total_assets"]
     "SAME_INSTANT" "SAME_CURRENCY" "NON_POSITIVE_IS_NM" "NEGATIVE_LIABILITIES_BLOCKED" [];
   _definition Metric.NET_DEBT "total_debt - cash"
     ["total_debt"; "cash"]
     "SAME_INSTANT" "SAME_CURRENCY" "NOT_APPLICABLE" "ALLOWED" [];
   _definition Metric.BASIC_EPS "reported_basic_eps"
     ["reported_basic_eps"]
     "EXACT_REPORTED_DURATION" "PER_SHARE_CURRENCY" "NOT_APPLICABLE" "ALLOWED" [];
   _definition Metric.DILUTED_EPS "reported_diluted_eps"
     ["reported_diluted_eps"]
     "EXACT_REPORTED_DURATION" "PER_SHARE_CURRENCY" "NOT_APPLICABLE" "ALLOWED" [];
   _definition Metric.MARKET_CAP "price * actual_shares_outstanding"
     ["price"; "actual_shares_outstanding"]
     "PRICE_DATE" "PRICE_CURRENCY" "POSITIVE_PRICE_AND_SHARES" "ALLOWED" [];
   _definition Metric.PE_TTM_DILUTED "market_cap / net_income_parent_ttm"
     ["market_cap"; "net_income_parent_ttm"]
     "POINT_IN_TIME_OVER_TTM" "SAME_CURRENCY" "NON_POSITIVE_IS_NM" "ALLOWED" [];
   _definition Metric.PB_PARENT "market_cap / equity_parent"
     ["market_cap"; "equity_parent"]
     "POINT_IN_TIME" "SAME_CURRENCY" "NON_POSITIVE_IS_NM" "ALLOWED" [];
   _definition Metric.PS_TTM "market_cap / revenue_ttm"
     ["market_cap"; "revenue_ttm"]
     "POINT_IN_TIME_OVER_TTM" "SAME_CURRENCY" "NON_POSITIVE_IS_NM" "ALLOWED" [];
   _definition Metric.ENTERPRISE_VALUE "market_cap + total_debt + preferred_equity + minority_interest - cash"
     ["market_cap"; "total_debt"; "preferred_equity"; "minority_interest"; "cash"]
     "POINT_IN_TIME" "SAME_CURRENCY" "NOT_APPLICABLE" "ALLOWED" [];
   _definition Metric.EV_TO_EBITDA_TTM "enterprise_value / ebitda_ttm"
     ["enterprise_value"; "ebitda_ttm"]
     "POINT_IN_TIME_OVER_TTM" "SAME_CURRENCY" "NON_POSITIVE_IS_NM" "ALLOWED" [];
   _definition Metric.FCF_YIELD_TTM "free_cash_flow_ttm / market_cap"
     ["free_cash_flow_ttm"; "market_cap"]
     "POINT_IN_TIME_OVER_TTM" "SAME_CURRENCY" "NON_POSITIVE_IS_NM" "ALLOWED" [];
   _definition Metric.REVENUE_TTM "four quarters OR latest_fy + latest_ytd - prior_ytd"
     ["quarter_1"; "quarter_2"; "quarter_3"; "quarter_4"]
     "FOUR_COMPARABLE_QUARTERS" "SAME_CURRENCY" "NOT_APPLICABLE" "ALLOWED" ["latest_fy"; "latest_ytd"; "prior_ytd"];
   _definition Metric.NET_INCOME_PARENT_TTM "four quarters OR latest_fy + latest_ytd - prior_ytd"
     ["quarter_1"; "quarter_2"; "quarter_3"; "quarter_4"]
     "FOUR_COMPARABLE_QUARTERS" "SAME_CURRENCY" "NOT_APPLICABLE" "ALLOWED" ["latest_fy"; "latest_ytd"; "prior_ytd"];
   _definition Metric.EBITDA_TTM "four quarters OR latest_fy + latest_ytd - prior_ytd"
     ["quarter_1"; "quarter_2"; "quarter_3"; "quarter_4"]
     "FOUR_COMPARABLE_QUARTERS" "SAME_CURRENCY" "NOT_APPLICABLE" "ALLOWED" ["latest_fy"; "latest_ytd"; "prior_ytd"]].

(** [get_formula] of a member; the registry is complete, so the default is
    never used. *)
Definition get_formula (code : MetricCode) : FormulaDefinition :=
  default (_definition code "" [] "" "" "" "" [])
    (find (λ d, bool_decide (fd_metric_code d = code)) FORMULA_REGISTRY).

(** The registry defines every metric once, in the order of the enumeration. *)
Lemma registry_complete : map fd_metric_code FORMULA_REGISTRY = Metric.all.
Proof. reflexivity. Qed.

(** * Inputs and results *)

Record FormulaInput := mkInput {
  in_value : option decimal; in_unit : string; in_currency_code : option string }.

(** [FormulaInput(...)] with the checks of [__post_init__]. *)
Definition new_formula_input (value : option decimal) (unit : string) (currency : option string) :
    res FormulaInput :=
  reject_if (bool_decide (unit = "")) ValueError "formula input unit must not be empty";;
  reject_if (match currency with Some c => negb (currency_token c) | None => false end)
    ValueError "currency_code must be an uppercase ISO 4217 token";;
  Ok (mkInput value unit currency).

Abbreviation inputs := (list (string * FormulaInput)).

Record MetricResult := mkMetric {
  mt_metric_code : MetricCode; mt_value : option decimal; mt_value_state : MetricValueState;
  mt_unit : string; mt_currency_code : option string; mt_quality_status : QualityStatus;
  mt_formula_version : string; mt_warnings : list string; mt_consumed_inputs : list string }.

(** * Building blocks *)

(** [_required]: each item with its value. *)
Definition required_one (ins : inputs) (role : string) : res (FormulaInput * decimal) :=
  match dict_get ins role with
  | Some item => v ← require_some (in_value item) FormulaBlocked ("SOURCE_MISSING:" +:+ role);
                 Ok (item, v)
  | None => raise FormulaBlocked ("SOURCE_MISSING:" +:+ role)
  end.
Definition _required (ins : inputs) (roles : list string) : res (list (FormulaInput * decimal)) :=
  res_map (required_one ins) roles.

(** [_same_amount_basis] *)
Definition _same_amount_basis (items : list (FormulaInput * decimal)) : res (string * string) :=
  match remove_dups (map (λ i, in_currency_code i.1) items) with
  | [Some currency] =>
      match remove_dups (map (λ i, in_unit i.1) items) with
      | [unit] => Ok (currency, unit)
      | _ => raise FormulaBlocked "INCOMPATIBLE_UNIT"
      end
  | _ => raise FormulaBlocked "INCOMPATIBLE_CURRENCY"
  end.

Definition _numeric (code : MetricCode) (value : decimal) (unit : string)
    (currency : option string) (roles warnings : list string) : MetricResult :=
  mkMetric code (Some value) (if deq value dzero then VState.ZERO else VState.VALUE) unit currency
    (match warnings with [] => Quality.PASS | _ => Quality.PARTIAL end)
    (fd_formula_version (get_formula code)) warnings roles.

Definition amount_outputs : list MetricCode :=
  [Metric.OPERATING_CASH_FLOW; Metric.FREE_CASH_FLOW; Metric.NET_DEBT; Metric.MARKET_CAP;
   Metric.ENTERPRISE_VALUE; Metric.REVENUE_TTM; Metric.NET_INCOME_PARENT_TTM; Metric.EBITDA_TTM].
Definition per_share_outputs : list MetricCode := [Metric.BASIC_EPS; Metric.DILUTED_EPS].
Definition output_unit (code : MetricCode) : string :=
  if bool_decide (code ∈ amount_outputs) then "ONE"
  else if bool_decide (code ∈ per_share_outputs) then "PER_SHARE" else "RATIO".

Definition _non_numeric (code : MetricCode) (state : MetricValueState) (warning : string)
    (roles : list string) : MetricResult :=
  mkMetric code None state (output_unit code) None
    (if bool_decide (state = VState.NULL) then Quality.BLOCKED else Quality.PASS)
    (fd_formula_version (get_formula code)) [warning] roles.

(** [Decimal("2")], [Decimal("1")] *)
Definition dtwo : decimal := dec_of_Z 2.
Definition done_one : decimal := dec_of_Z 1.

(** An optional warning when the value is negative. *)
Definition negative_warning (w : option string) (value : decimal) : list string :=
  match w with Some s => if dlt value dzero then [s] else [] | None => [] end.

(** The shape of [_required] for a fixed number of roles. *)
Definition required2 (ins : inputs) (a b : string) :
    res ((FormulaInput * decimal) * (FormulaInput * decimal)) :=
  items ← _required ins [a; b];
  match items with [x; y] => Ok (x, y) | _ => raise ValueError "not enough values to unpack" end.
Definition required3 (ins : inputs) (a b c : string) :
    res ((FormulaInput * decimal) * (FormulaInput * decimal) * (FormulaInput * decimal)) :=
  items ← _required ins [a; b; c];
  match items with [x; y; z] => Ok (x, y, z) | _ => raise ValueError "not enough values to unpack" end.

(** * Formulas *)

Definition non_positive (code : MetricCode) (roles : list string) : MetricResult :=
  _non_numeric code VState.NOT_MEANINGFUL "DENOMINATOR_NON_POSITIVE" roles.

Definition _ratio_formula (code : MetricCode) (ins : inputs) (numerator_role denominator_role : string)
    (warning : option string) : res MetricResult :=
  let roles := [numerator_role; denominator_role] in
  '(numerator, denominator) ← required2 ins numerator_role denominator_role;
  _same_amount_basis [numerator; denominator];;
  if dle denominator.2 dzero then Ok (non_positive code roles)
  else
    result ← ddiv numerator.2 denominator.2;
    Ok (_numeric code result "RATIO" None roles (negative_warning warning result)).

Definition _revenue_growth (ins : inputs) : res MetricResult :=
  let roles := ["current_revenue"; "prior_revenue"] in
  '(current, prior) ← required2 ins "current_revenue" "prior_revenue";
  _same_amount_basis [current; prior];;
  if dle prior.2 dzero then Ok (non_positive Metric.REVENUE_GROWTH roles)
  else
    result ← ddiv (dsub current.2 prior.2) prior.2;
    Ok (_numeric Metric.REVENUE_GROWTH result "RATIO" None roles
          (negative_warning (Some "NEGATIVE_CURRENT_REVENUE") current.2)).

Definition _average_return (code : MetricCode) (ins : inputs)
    (numerator_role opening_role closing_role : string) : res MetricResult :=
  let roles := [numerator_role; opening_role; closing_role] in
  '(numerator, opening, closing) ← required3 ins numerator_role opening_role closing_role;
  _same_amount_basis [numerator; opening; closing];;
  average ← ddiv (dadd opening.2 closing.2) dtwo;
  if dle average dzero then Ok (non_positive code roles)
  else
    result ← ddiv numerator.2 average;
    Ok (_numeric code result "RATIO" None roles []).

(** The value computed by [_roic], from its nine inputs. *)
Definition roic_value (operating_income pretax tax opening_equity closing_equity opening_debt
    closing_debt opening_cash closing_cash : decimal) (roles : list string) : res MetricResult :=
  let unusable := _non_numeric Metric.ROIC VState.NULL "EFFECTIVE_TAX_RATE_UNUSABLE" roles in
  if dle pretax dzero then Ok unusable
  else
    tax_rate ← ddiv tax pretax;
    if dlt tax_rate dzero || dlt done_one tax_rate then Ok unusable
    else
      let opening_capital := dsub (dadd opening_equity opening_debt) opening_cash in
      let closing_capital := dsub (dadd closing_equity closing_debt) closing_cash in
      average_capital ← ddiv (dadd opening_capital closing_capital) dtwo;
      if dle average_capital dzero then Ok (non_positive Metric.ROIC roles)
      else
        let nopat := dmul operating_income (dsub done_one tax_rate) in
        result ← ddiv nopat average_capital;
        Ok (_numeric Metric.ROIC result "RATIO" None roles []).

Definition _roic (ins : inputs) : res MetricResult :=
  let roles := fd_required_inputs (get_formula Metric.ROIC) in
  items ← _required ins roles;
  _same_amount_basis items;;
  match map snd items with
  | [operating_income; pretax; tax; opening_equity; closing_equity; opening_debt; closing_debt;
     opening_cash; closing_cash] =>
      roic_value operating_income pretax tax opening_equity closing_equity opening_debt
        closing_debt opening_cash closing_cash roles
  | _ => raise ValueError "zip() argument 2 is shorter than argument 1"
  end.

Definition _signed_amount (code : MetricCode) (ins : inputs) (roles : list string)
    (operation : list decimal → decimal) : res MetricResult :=
  items ← _required ins roles;
  '(currency, unit) ← _same_amount_basis items;
  Ok (_numeric code (operation (map snd items)) unit (Some currency) roles []).

(** [values[n]] of a checked tuple. *)
Definition val (n : nat) (values : list decimal) : decimal := nth n values dzero.

Definition quarter_roles : list string := ["quarter_1"; "quarter_2"; "quarter_3"; "quarter_4"].
Definition bridge_roles : list string := ["latest_fy"; "latest_ytd"; "prior_ytd"].

Definition _ttm_amount (code : MetricCode) (ins : inputs) : res MetricResult :=
  if forallb (dict_has ins) quarter_roles then _signed_amount code ins quarter_roles dsum
  else if forallb (dict_has ins) bridge_roles then
    _signed_amount code ins bridge_roles (λ v, dsub (dadd (val 0 v) (val 1 v)) (val 2 v))
  else raise FormulaBlocked "SOURCE_MISSING:TTM_COMPARABLE_INPUT_SET".

Definition _reported_eps (code : MetricCode) (role : string) (ins : inputs) : res MetricResult :=
  '(item, value) ← required_one ins role;
  reject_if (negb (bool_decide (in_unit item = "PER_SHARE")) || is_none (in_currency_code item))
    FormulaBlocked "INCOMPATIBLE_UNIT";;
  Ok (_numeric code value "PER_SHARE" (in_currency_code item) [role] []).

Definition _market_cap (ins : inputs) : res MetricResult :=
  let roles := ["price"; "actual_shares_outstanding"] in
  '(price, shares) ← required2 ins "price" "actual_shares_outstanding";
  reject_if (negb (bool_decide (in_unit price.1 = "PER_SHARE")) ||
             negb (bool_decide (in_unit shares.1 = "SHARES")))
    FormulaBlocked "INCOMPATIBLE_UNIT";;
  reject_if (is_none (in_currency_code price.1) || is_some (in_currency_code shares.1))
    FormulaBlocked "INCOMPATIBLE_CURRENCY";;
  if dle price.2 dzero || dle shares.2 dzero then
    Ok (_non_numeric Metric.MARKET_CAP VState.NOT_MEANINGFUL "NON_POSITIVE_PRICE_OR_SHARES" roles)
  else
    Ok (_numeric Metric.MARKET_CAP (dmul price.2 shares.2) "ONE" (in_currency_code price.1) roles []).

Definition _enterprise_value (ins : inputs) : res MetricResult :=
  let roles := fd_required_inputs (get_formula Metric.ENTERPRISE_VALUE) in
  items ← _required ins roles;
  '(currency, unit) ← _same_amount_basis items;
  let v := map snd items in
  let result := dsub (dadd (dadd (dadd (val 0 v) (val 1 v)) (val 2 v)) (val 3 v)) (val 4 v) in
  Ok (_numeric Metric.ENTERPRISE_VALUE result unit (Some currency) roles
        (negative_warning (Some "NEGATIVE_ENTERPRISE_VALUE") result)).

Definition _ev_to_ebitda (ins : inputs) : res MetricResult :=
  result ← _ratio_formula Metric.EV_TO_EBITDA_TTM ins "enterprise_value" "ebitda_ttm" None;
  match mt_value result with
  | Some v =>
      if dlt v dzero then
        Ok (mkMetric (mt_metric_code result) (mt_value result) (mt_value_state result)
              (mt_unit result) (mt_currency_code result) Quality.PARTIAL
              (mt_formula_version result) ["NEGATIVE_ENTERPRISE_VALUE"] (mt_consumed_inputs result))
      else Ok result
  | None => Ok result
  end.

Definition _liabilities_to_assets (ins : inputs) : res MetricResult :=
  let negative := match dict_get ins "total_liabilities" with
                  | Some item => match in_value item with Some v => dlt v dzero | None => false end
                  | None => false
                  end in
  if negative then
    Ok (_non_numeric Metric.LIABILITIES_TO_ASSETS VState.NULL "NEGATIVE_LIABILITIES_REJECTED" [])
  else _ratio_formula Metric.LIABILITIES_TO_ASSETS ins "total_liabilities" "total_assets" None.

Definition _gross_margin (ins : inputs) : res MetricResult :=
  let roles := ["revenue"; "cost_of_revenue"] in
  '(revenue, cost) ← required2 ins "revenue" "cost_of_revenue";
  _same_amount_basis [revenue; cost];;
  if dle revenue.2 dzero then Ok (non_positive Metric.GROSS_MARGIN roles)
  else
    result ← ddiv (dsub revenue.2 cost.2) revenue.2;
    Ok (_numeric Metric.GROSS_MARGIN result "RATIO" None roles
          (negative_warning (Some "NEGATIVE_GROSS_MARGIN") result)).

(** [_IMPLEMENTATIONS] *)
Definition _IMPLEMENTATIONS (code : MetricCode) (ins : inputs) : res MetricResult :=
  match code with
  | Metric.REVENUE_GROWTH => _revenue_growth ins
  | Metric.GROSS_MARGIN => _gross_margin ins
  | Metric.OPERATING_MARGIN =>
      _ratio_formula code ins "operating_income" "revenue" (Some "NEGATIVE_OPERATING_MARGIN")
  | Metric.NET_MARGIN_PARENT =>
      _ratio_formula code ins "net_income_parent" "revenue" (Some "NEGATIVE_NET_MARGIN")
  | Metric.ROE_PARENT =>
      _average_return code ins "net_income_parent" "opening_equity_parent" "closing_equity_parent"
  | Metric.ROA_TOTAL =>
      _average_return code ins "net_income_total" "opening_total_assets" "closing_total_assets"
  | Metric.ROIC => _roic ins
  | Metric.OPERATING_CASH_FLOW => _signed_amount code ins ["reported_ocf"] (val 0)
  | Metric.FREE_CASH_FLOW =>
      _signed_amount code ins ["operating_cash_flow"; "capital_expenditures"]
        (λ v, dsub (val 0 v) (val 1 v))
  | Metric.LIABILITIES_TO_ASSETS => _liabilities_to_assets ins
  | Metric.NET_DEBT =>
      _signed_amount code ins ["total_debt"; "cash"] (λ v, dsub (val 0 v) (val 1 v))
  | Metric.BASIC_EPS => _reported_eps code "reported_basic_eps" ins
  | Metric.DILUTED_EPS => _reported_eps code "reported_diluted_eps" ins
  | Metric.MARKET_CAP => _market_cap ins
  | Metric.PE_TTM_DILUTED => _ratio_formula code ins "market_cap" "net_income_parent_ttm" None
  | Metric.PB_PARENT => _ratio_formula code ins "market_cap" "equity_parent" None
  | Metric.PS_TTM => _ratio_formula code ins "market_cap" "revenue_ttm" None
  | Metric.ENTERPRISE_VALUE => _enterprise_value ins
  | Metric.EV_TO_EBITDA_TTM => _ev_to_ebitda ins
  | Metric.FCF_YIELD_TTM => _ratio_formula code ins "free_cash_flow_ttm" "market_cap" None
  | Metric.REVENUE_TTM | Metric.NET_INCOME_PARENT_TTM | Metric.EBITDA_TTM => _ttm_amount code ins
  end.

(** [execute_formula]: a blocked formula is a NULL metric. *)
Definition execute_formula (code : MetricCode) (ins : inputs) : res MetricResult :=
  let definition := get_formula code in
  match _IMPLEMENTATIONS (fd_metric_code definition) ins with
  | Raise e =>
      if bool_decide (exn_class e = FormulaBlocked) then
        Ok (_non_numeric (fd_metric_code definition) VState.NULL (exn_code e) [])
      else Raise e
  | Ok result => Ok result
  end.

(** * Every formula returns a coherent metric *)

(** The roles are present, with a value. *)
Definition present (ins : inputs) (role : string) (i : FormulaInput * decimal) : Prop :=
  dict_get ins role = Some i.1 ∧ in_value i.1 = Some i.2.

(** All roles are present, in one currency and one unit. *)
Definition same_basis (ins : inputs) (roles : list string) : Prop :=
  ∃ currency unit, ∀ role, role ∈ roles → ∃ i, present ins role i ∧
    in_currency_code i.1 = Some currency ∧ in_unit i.1 = unit.

(** The metrics that mix units: an amount per share and a number of shares. *)
Definition mixed_units : list MetricCode := [Metric.BASIC_EPS; Metric.DILUTED_EPS; Metric.MARKET_CAP].

Definition inputs_ok (code : MetricCode) (ins : inputs) (roles : list string) : Prop :=
  roles ≠ [] ∧ (∀ role, role ∈ roles → ∃ i, present ins role i) ∧
  (code ∉ mixed_units → same_basis ins roles).

Record metric_ok (code : MetricCode) (ins : inputs) (r : MetricResult) : Prop := {
  mo_code : mt_metric_code r = code;
  mo_version : mt_formula_version r = "1.0.0";
  mo_value : is_Some (mt_value r) ↔ mt_value_state r ∈ [VState.VALUE; VState.ZERO];
  mo_zero : ∀ v, mt_value r = Some v → (mt_value_state r = VState.ZERO ↔ deq v dzero = true);
  mo_blocked : mt_quality_status r = Quality.BLOCKED ↔ mt_value_state r = VState.NULL;
  mo_partial : mt_quality_status r = Quality.PARTIAL ↔ is_Some (mt_value r) ∧ mt_warnings r ≠ [];
  mo_pass : mt_quality_status r = Quality.PASS ↔ (is_Some (mt_value r) ∧ mt_warnings r = []) ∨
    mt_value_state r = VState.NOT_MEANINGFUL;
  mo_warned : mt_value r = None → length (mt_warnings r) = 1%nat;
  mo_currency : is_Some (mt_currency_code r) ↔ is_Some (mt_value r) ∧ output_unit code ≠ "RATIO";
  mo_ratio : output_unit code = "RATIO" → mt_unit r = "RATIO";
  mo_inputs : is_Some (mt_value r) → inputs_ok code ins (mt_consumed_inputs r) }.

Lemma formula_version code : fd_formula_version (get_formula code) = "1.0.0".
Proof. by destruct code. Qed.
Lemma formula_code code : fd_metric_code (get_formula code) = code.
Proof. by destruct code. Qed.

Lemma numeric_ok code ins value unit currency roles warnings :
  (is_Some currency ↔ output_unit code ≠ "RATIO") → (output_unit code = "RATIO" → unit = "RATIO") →
  inputs_ok code ins roles → metric_ok code ins (_numeric code value unit currency roles warnings).
Proof.
  intros Hc Hu Hi. unfold _numeric. split; cbn; try done.
  - apply formula_version.
  - destruct (deq value dzero); split; [set_solver|by eexists|set_solver|by eexists].
  - intros v [= <-]. by destruct (deq value dzero).
  - by destruct warnings, (deq value dzero).
  - destruct warnings; naive_solver eauto.
  - destruct warnings, (deq value dzero); naive_solver eauto.
  - rewrite Hc. split; [by split; [eexists|]|by intros [_ ?]].
Qed.

Lemma non_numeric_ok code ins state warning roles :
  state ∈ [VState.NULL; VState.NOT_MEANINGFUL] →
  metric_ok code ins (_non_numeric code state warning roles).
Proof.
  intros Hs. unfold _non_numeric.
  assert (Hnone : ∀ A : Type, ¬ is_Some (@None A)) by (intros A [? ?]; done).
  rewrite !elem_of_cons, elem_of_nil in Hs.
  split; cbn; try done; try (by intros [? ?]); try (apply formula_version).
  - split; [by intros ?%Hnone|]. rewrite !elem_of_cons, elem_of_nil. naive_solver.
  - case_bool_decide; naive_solver.
  - split; [by case_bool_decide|by intros [?%Hnone _]].
  - case_bool_decide as E; split; try done; [|naive_solver].
    + subst. intros [[?%Hnone _]|?]; done.
  - split; [by intros ?%Hnone|by intros [?%Hnone _]].
Qed.

(** The outcome of a formula body: a coherent metric or a blocked formula. *)
Definition formula_ok (code : MetricCode) (ins : inputs) (m : res MetricResult) : Prop :=
  match m with Ok r => metric_ok code ins r | Raise e => exn_class e = FormulaBlocked end.
Definition blocks {A} (m : res A) : Prop := ∀ e, m = Raise e → exn_class e = FormulaBlocked.

Lemma formula_bind {A} code ins (m : res A) (f : A → res MetricResult) :
  blocks m → (∀ a, m = Ok a → formula_ok code ins (f a)) → formula_ok code ins (m ≫= f).
Proof. intros Hb Hf. destruct m as [a|e]; cbn; [by apply Hf|by apply Hb]. Qed.

Lemma required_one_spec ins role :
  blocks (required_one ins role) ∧ ∀ i, required_one ins role = Ok i → present ins role i.
Proof.
  unfold required_one, present. destruct (dict_get ins role) as [item|]; cbn.
  - destruct (in_value item) as [v|] eqn:E; cbn.
    + split; [done|]. by intros i [= <-].
    + by split; [intros e [= <-]|].
  - by split; [intros e [= <-]|].
Qed.

Lemma required_spec ins roles :
  blocks (_required ins roles) ∧ ∀ items, _required ins roles = Ok items → Forall2 (present ins) roles items.
Proof.
  unfold _required. split.
  - induction roles as [|r roles IH]; intros e; cbn; [done|]. rewrite bind_Raise.
    intros [H|(i & _ & H)]; [by apply required_one_spec in H|]. apply bind_Raise in H as [H|(? & _ & ?)];
      [by apply IH|done].
  - intros items H%res_map_Ok. eapply Forall2_impl; [exact H|]. intros r i. apply required_one_spec.
Qed.

Lemma same_amount_basis_spec items :
  blocks (_same_amount_basis items) ∧ ∀ c u, _same_amount_basis items = Ok (c, u) →
  Forall (λ i, in_currency_code i.1 = Some c ∧ in_unit i.1 = u) items.
Proof.
  assert (Hone : ∀ {B} `{EqDecision B} (f : FormulaInput * decimal → B) x,
    remove_dups (map f items) = [x] → Forall (λ i, f i = x) items).
  { intros B ? f x E. apply Forall_forall. intros i Hi.
    assert (H : f i ∈ remove_dups (map f items)).
    { apply elem_of_remove_dups, list_elem_of_fmap. by exists i. }
    rewrite E in H. by apply list_elem_of_singleton in H. }
  unfold _same_amount_basis. split.
  - intros e. destruct (remove_dups (map (λ i, in_currency_code i.1) items)) as [|[?|] [|? ?]]; cbn;
      try (by intros [= <-]).
    by destruct (remove_dups (map (λ i, in_unit i.1) items)) as [|? [|? ?]]; intros [= <-].
  - intros c u. destruct (remove_dups (map (λ i, in_currency_code i.1) items)) as [|[c'|] [|? ?]] eqn:Ec;
      try done.
    destruct (remove_dups (map (λ i, in_unit i.1) items)) as [|u' [|? ?]] eqn:Eu; try done.
    intros [= <- <-]. apply Hone in Ec, Eu. apply Forall_and. by split.
Qed.

(** The checked inputs of a formula. *)
Lemma checked_inputs code ins roles items cu :
  roles ≠ [] → Forall2 (present ins) roles items → _same_amount_basis items = Ok cu →
  inputs_ok code ins roles.
Proof.
  intros Hne Hp Hb. destruct cu as [c u]. apply same_amount_basis_spec in Hb.
  assert (H : ∀ role, role ∈ roles → ∃ i, present ins role i ∧
    in_currency_code i.1 = Some c ∧ in_unit i.1 = u).
  { intros role Hr. destruct (Forall2_elem_l _ _ _ _ Hp Hr) as (i & Hi & Hpi).
    rewrite Forall_forall in Hb. by exists i; split; [|apply Hb]. }
  split; [done|]. split; [|intros _; by exists c, u]. intros role Hr. destruct (H role Hr) as (i & ? & _).
  by exists i.
Qed.

Lemma required2_spec ins a b : blocks (required2 ins a b) ∧ ∀ x y, required2 ins a b = Ok (x, y) →
  Forall2 (present ins) [a; b] [x; y].
Proof.
  unfold required2. destruct (required_spec ins [a; b]) as [Hb Hs]. split.
  - intros e [?|(items & Hi & H)]%bind_Raise; [by apply Hb|]. apply Hs in Hi.
    inversion Hi as [|? ? ? ? ? Hi2]; subst. inversion Hi2 as [|? ? ? ? ? Hi3]; subst. by inversion Hi3; subst.
  - intros x y (items & Hi & H)%bind_Ok. destruct items as [|? [|? [|? ?]]]; try done.
    injection H as -> ->. by apply Hs.
Qed.

Lemma required3_spec ins a b c : blocks (required3 ins a b c) ∧ ∀ x y z,
  required3 ins a b c = Ok (x, y, z) → Forall2 (present ins) [a; b; c] [x; y; z].
Proof.
  unfold required3. destruct (required_spec ins [a; b; c]) as [Hb Hs]. split.
  - intros e [?|(items & Hi & H)]%bind_Raise; [by apply Hb|]. apply Hs in Hi.
    inversion Hi as [|? ? ? ? ? Hi2]; subst. inversion Hi2 as [|? ? ? ? ? Hi3]; subst.
    inversion Hi3 as [|? ? ? ? ? Hi4]; subst. by inversion Hi4; subst.
  - intros x y z (items & Hi & H)%bind_Ok. destruct items as [|? [|? [|? [|? ?]]]]; try done.
    injection H as -> -> ->. by apply Hs.
Qed.

(** A positive denominator never raises. *)
Lemma ddiv_positive a b : dle b dzero = false → ∃ q, ddiv a b = Ok q.
Proof.
  intros H. assert (Hd : ¬ dint b ≤ 0) by (rewrite <- dle_zero; congruence).
  unfold ddiv, ddiv_at. destruct (Z.eqb_spec (dcoef b) 0) as [E|_].
  { unfold dint in Hd. rewrite E in Hd. destruct (dsign b); lia. }
  destruct (dcoef a =? 0); [by eexists|]. cbv zeta.
  repeat match goal with |- context [if ?c then _ else _] => destruct c end; eauto;
    destruct (strip_zeros _ _ _ _); eauto.
Qed.

Lemma formula_ddiv code ins a b (f : decimal → res MetricResult) :
  dle b dzero = false → (∀ q, formula_ok code ins (f q)) → formula_ok code ins (ddiv a b ≫= f).
Proof. intros [q E]%(ddiv_positive a) Hf. rewrite E. apply Hf. Qed.

Lemma ratio_output code : output_unit code = "RATIO" → is_Some (@None string) ↔ output_unit code ≠ "RATIO".
Proof. intros ->. split; [by intros [? ?]|done]. Qed.

(** The formula bodies, by shape. *)
Lemma formula_required2 code ins a b (f : _ → res MetricResult) :
  (∀ x y, Forall2 (present ins) [a; b] [x; y] → formula_ok code ins (f (x, y))) →
  formula_ok code ins (required2 ins a b ≫= f).
Proof.
  intros H. apply formula_bind; [apply required2_spec|]. intros [x y] E. by apply H, required2_spec.
Qed.

Lemma formula_basis code ins roles items (f : _ → res MetricResult) :
  Forall2 (present ins) roles items → roles ≠ [] →
  (∀ cu, inputs_ok code ins roles → formula_ok code ins (f cu)) →
  formula_ok code ins (_same_amount_basis items ≫= f).
Proof.
  intros Hp Hne H. apply formula_bind; [apply same_amount_basis_spec|]. intros cu E.
  apply H. by eapply checked_inputs.
Qed.

Lemma ratio_numeric_ok code ins value roles warnings :
  output_unit code = "RATIO" → inputs_ok code ins roles →
  formula_ok code ins (Ok (_numeric code value "RATIO" None roles warnings)).
Proof. intros Hc Hi. apply numeric_ok; [by apply ratio_output|done|done]. Qed.

Lemma amount_numeric_ok code ins value unit currency roles warnings :
  output_unit code ≠ "RATIO" → inputs_ok code ins roles →
  formula_ok code ins (Ok (_numeric code value unit (Some currency) roles warnings)).
Proof. intros Hc Hi. by apply numeric_ok. Qed.

Lemma non_positive_ok code ins roles : formula_ok code ins (Ok (non_positive code roles)).
Proof. apply non_numeric_ok. right. left. Qed.
Hint Resolve ratio_numeric_ok amount_numeric_ok non_positive_ok : core.

Lemma ratio_formula_ok code ins a b w :
  output_unit code = "RATIO" → formula_ok code ins (_ratio_formula code ins a b w).
Proof.
  intros Hc. apply formula_required2. intros x y Hp. eapply formula_basis; [exact Hp|done|].
  intros _ Hi. lazy beta iota zeta. destruct (dle y.2 dzero) eqn:E; [apply non_positive_ok|]. apply formula_ddiv; auto.
Qed.

Lemma revenue_growth_ok ins : formula_ok Metric.REVENUE_GROWTH ins (_revenue_growth ins).
Proof.
  apply formula_required2. intros x y Hp. eapply formula_basis; [exact Hp|done|].
  intros _ Hi. lazy beta iota zeta. destruct (dle y.2 dzero) eqn:E; [apply non_positive_ok|]. apply formula_ddiv; auto.
Qed.

Lemma gross_margin_ok ins : formula_ok Metric.GROSS_MARGIN ins (_gross_margin ins).
Proof.
  apply formula_required2. intros x y Hp. eapply formula_basis; [exact Hp|done|].
  intros _ Hi. lazy beta iota zeta. destruct (dle x.2 dzero) eqn:E; [apply non_positive_ok|]. apply formula_ddiv; auto.
Qed.

Lemma average_return_ok code ins a b c :
  output_unit code = "RATIO" → formula_ok code ins (_average_return code ins a b c).
Proof.
  intros Hc. apply formula_bind; [apply required3_spec|]. intros [[x y] z] Hp%required3_spec.
  eapply formula_basis; [exact Hp|done|]. intros _ Hi. apply formula_ddiv; [reflexivity|].
  intros avg. destruct (dle avg dzero) eqn:E; [apply non_positive_ok|]. apply formula_ddiv; auto.
Qed.

Lemma roic_ok ins : formula_ok Metric.ROIC ins (_roic ins).
Proof.
  unfold _roic. apply formula_bind; [apply required_spec|]. intros items Hp%required_spec.
  eapply formula_basis; [exact Hp|done|]. intros _ Hi.
  assert (Hlen := Forall2_length _ _ _ Hp).
  destruct items as [|? [|? [|? [|? [|? [|? [|? [|? [|? [|? ?]]]]]]]]]]; try done.
  cbn [map]. clear Hlen. unfold roic_value.
  assert (Hu : ∀ roles, formula_ok Metric.ROIC ins
    (Ok (_non_numeric Metric.ROIC VState.NULL "EFFECTIVE_TAX_RATE_UNUSABLE" roles)))
    by (intros; apply non_numeric_ok; left).
  destruct (dle _ dzero) eqn:E; [apply Hu|]. apply formula_ddiv; [done|]. intros rate.
  destruct (_ || _); [apply Hu|]. apply formula_ddiv; [reflexivity|]. intros avg.
  destruct (dle avg dzero) eqn:E2; [apply non_positive_ok|]. apply formula_ddiv; auto.
Qed.

Lemma signed_amount_ok code ins roles op :
  roles ≠ [] → output_unit code ≠ "RATIO" → formula_ok code ins (_signed_amount code ins roles op).
Proof.
  intros Hne Hc. apply formula_bind; [apply required_spec|]. intros items Hp%required_spec.
  eapply formula_basis; [exact Hp|done|]. intros [c u] Hi. auto.
Qed.

Lemma ttm_amount_ok code ins : output_unit code ≠ "RATIO" → formula_ok code ins (_ttm_amount code ins).
Proof.
  intros Hc. unfold _ttm_amount. repeat case_match; [by apply signed_amount_ok..|done].
Qed.

Lemma reported_eps_ok code ins role :
  code ∈ mixed_units → output_unit code ≠ "RATIO" → formula_ok code ins (_reported_eps code role ins).
Proof.
  intros Hm Hc. apply formula_bind; [apply required_one_spec|]. intros [item v] Hp%required_one_spec.
  apply formula_bind; [by intros e [_ ->]%reject_if_Raise|]. intros [] Hg%reject_if_Ok.
  apply orb_false_iff in Hg as [_ Hcur]. apply is_none_false in Hcur.
  apply numeric_ok; [done|done|]. split; [done|]. split; [|done].
  intros r ->%list_elem_of_singleton. by eexists.
Qed.

Lemma market_cap_ok ins : formula_ok Metric.MARKET_CAP ins (_market_cap ins).
Proof.
  apply formula_required2. intros x y Hp.
  apply formula_bind; [by intros e [_ ->]%reject_if_Raise|]. intros [] _.
  apply formula_bind; [by intros e [_ ->]%reject_if_Raise|]. intros [] Hg%reject_if_Ok.
  apply orb_false_iff in Hg as [Hcur _]. apply is_none_false in Hcur.
  destruct (_ || _); [apply non_numeric_ok; right; left|].
  apply numeric_ok; [done|done|]. split; [done|]. split.
  - intros r Hr. destruct (Forall2_elem_l _ _ _ _ Hp Hr) as (i & _ & ?). by exists i.
  - intros []. by do 2 right; left.
Qed.

Lemma enterprise_value_ok ins : formula_ok Metric.ENTERPRISE_VALUE ins (_enterprise_value ins).
Proof.
  unfold _enterprise_value. apply formula_bind; [apply required_spec|]. intros items Hp%required_spec.
  eapply formula_basis; [exact Hp|done|]. intros [c u] Hi. auto.
Qed.

Lemma ev_to_ebitda_ok ins : formula_ok Metric.EV_TO_EBITDA_TTM ins (_ev_to_ebitda ins).
Proof.
  unfold _ev_to_ebitda.
  assert (H := ratio_formula_ok Metric.EV_TO_EBITDA_TTM ins "enterprise_value" "ebitda_ttm" None eq_refl).
  destruct (_ratio_formula _ _ _ _ _) as [r|e]; [|done]. cbn. unfold mbind, res_bind.
  destruct (mt_value r) as [v|] eqn:E; [|done]. destruct (dlt v dzero) eqn:Ed; [|done].
  assert (Hz : deq v dzero = false) by (unfold dlt, deq in *; by destruct (dcompare v dzero)).
  destruct H as [H1 H2 H3 H4 H5 H6 H7 H8 H9 H10 H11]. rewrite E in *. specialize (H4 v eq_refl).
  assert (Hs : mt_value_state r = VState.VALUE).
  { assert (Hin : mt_value_state r ∈ [VState.VALUE; VState.ZERO]) by by apply H3.
    rewrite !elem_of_cons, elem_of_nil in Hin. destruct Hin as [?|[Hz'|[]]]; [done|].
    apply H4 in Hz'. congruence. }
  split; cbn; rewrite ?E, ?Hs in *; try done; naive_solver eauto.
Qed.

Lemma liabilities_to_assets_ok ins :
  formula_ok Metric.LIABILITIES_TO_ASSETS ins (_liabilities_to_assets ins).
Proof.
  unfold _liabilities_to_assets. destruct (match dict_get _ _ with Some _ => _ | None => _ end).
  - apply non_numeric_ok. left.
  - by apply ratio_formula_ok.
Qed.

Lemma implementations_ok code ins : formula_ok code ins (_IMPLEMENTATIONS code ins).
Proof.
  destruct code; lazymatch goal with
  | |- context [Metric.REVENUE_GROWTH] => apply revenue_growth_ok
  | |- context [Metric.GROSS_MARGIN] => apply gross_margin_ok
  | |- context [Metric.ROIC] => apply roic_ok
  | |- context [Metric.LIABILITIES_TO_ASSETS] => apply liabilities_to_assets_ok
  | |- context [Metric.MARKET_CAP] => apply market_cap_ok
  | |- context [Metric.ENTERPRISE_VALUE] => apply enterprise_value_ok
  | |- context [Metric.EV_TO_EBITDA_TTM] => apply ev_to_ebitda_ok
  | |- _ => cbn [_IMPLEMENTATIONS]; lazymatch goal with
    | |- formula_ok _ _ (_ratio_formula _ _ _ _ _) => apply ratio_formula_ok; reflexivity
    | |- formula_ok _ _ (_average_return _ _ _ _ _) => apply average_return_ok; reflexivity
    | |- formula_ok _ _ (_signed_amount _ _ _ _) => apply signed_amount_ok; discriminate
    | |- formula_ok _ _ (_ttm_amount _ _) => apply ttm_amount_ok; discriminate
    | |- _ => apply reported_eps_ok; [unfold mixed_units; set_solver|discriminate]
    end
  end.
Qed.

(** C15. Every formula terminates with a coherent metric, whatever its inputs:
    a number exactly in the states VALUE and ZERO (ZERO when it is zero), BLOCKED
    exactly when NULL, PARTIAL exactly for a number with a warning, one reason
    for every missing number; a ratio has no currency and an amount has one; and
    a number rests on inputs that are all present, in one currency and unit
    unless the formula is about amounts per share.  No formula divides by zero. *)
Theorem execute_formula_coherent code ins :
  ∃ r, execute_formula code ins = Ok r ∧ metric_ok code ins r.
Proof.
  unfold execute_formula. rewrite formula_code. assert (H := implementations_ok code ins).
  destruct (_IMPLEMENTATIONS code ins) as [r|e]; [by exists r|]. cbn in H.
  rewrite H, bool_decide_eq_true_2 by done. eexists. split; [done|]. apply non_numeric_ok. left.
Qed.
