(* ===== verification/FinMetrics.v ===== *)
(** Metric calculation: domain/financials/calculation_service.py over the
    tables of db/repositories/financials.py (normalized facts joined with their
    periods and concepts, calculation runs, derived metrics, input lineage). *)
From S2P Require Import Prelude PyDecimal PyText Sha256 AgentModel FinModel FinCalc Session.
From S2P Require Import FinNormalize.
From S2P Require Import FinFormulas.
From Stdlib Require Import Ascii.

(** * Data *)

Definition CALCULATION_VERSION : string := "1.0.0".
Definition FORMULA_SET_VERSION : string := "1.0.0".
Definition MAPPING_VERSION : string := "1.0.0".

Record NormalizedFactForCalculation := mkCalcFact {
  nc_id : UUID; nc_canonical_concept_code : string; nc_financial_period_id : UUID;
  nc_fiscal_year : Z; nc_fiscal_quarter : option Z; nc_fiscal_period : string;
  nc_period_type : PeriodType; nc_period_start : option date; nc_period_end : date;
  nc_duration_days : option Z; nc_accounting_standard : string; nc_is_cumulative : bool;
  nc_is_single_quarter : bool; nc_normalized_value : decimal; nc_normalized_unit : string;
  nc_currency_code : option string; nc_source_published_at : time }.

(** A row of calculation_runs; [cr_status] is [None] while RUNNING. *)
Record CalculationRun := mkRun {
  cr_id : UUID; cr_security_id : UUID; cr_snapshot_id : UUID; cr_status : option QualityStatus;
  cr_calculation_version : string; cr_formula_set_version : string; cr_mapping_version : string;
  cr_normalization_version : string; cr_input_checksum : string; cr_started_at : time;
  cr_completed_at : option time; cr_warning_count : Z }.

Record DerivedMetricWrite := mkDerivedMetric {
  dm_calculation_run_id : UUID; dm_security_id : UUID; dm_snapshot_id : UUID;
  dm_formula_definition_id : UUID; dm_metric_code : string; dm_metric_period : string;
  dm_period_end : option date; dm_value : option decimal; dm_value_state : MetricValueState;
  dm_unit : string; dm_currency_code : option string; dm_quality_status : QualityStatus;
  dm_formula_version : string; dm_warning_codes : list string }.

(** [source_record_type] and [source_record_id] are always None. *)
Record CalculationInputWrite := mkCalcInput {
  ci_calculation_run_id : UUID; ci_metric_code : string; ci_normalized_fact_id : UUID;
  ci_input_role : string; ci_value_used : decimal; ci_unit : string;
  ci_currency_code : option string }.

Record CalculationResult := mkCalcResult {
  cres_calculation_run_id : UUID; cres_snapshot_id : UUID; cres_status : QualityStatus;
  cres_metric_count : Z; cres_warning_count : Z; cres_input_checksum : string }.

(** A row of formula_definitions. *)
Record StoredFormula := mkStoredFormula {
  sf_id : UUID; sf_metric_code : string; sf_formula_version : string; sf_active : bool }.

(** The tables calculation reads and writes: those of normalization, and its own. *)
Record CalcDb := mkCalcDb {
  cdb_fin : FinDb; cdb_concepts : list (UUID * string); cdb_formulas : list StoredFormula;
  cdb_runs : list CalculationRun; cdb_metrics : list DerivedMetricWrite;
  cdb_inputs : list CalculationInputWrite; cdb_next : nat }.

Abbreviation calcM := (sessM CalcDb).

(** * Queries and inserts *)

Definition lookup_id {A} (table : list (UUID * A)) (id : UUID) : option A :=
  snd <$> find (λ row, bool_decide (row.1 = id)) table.

(** One joined row. *)
Definition calculation_fact (db : CalcDb) (row : UUID * NormalizedFinancialFactWrite) :
    option NormalizedFactForCalculation :=
  let f := row.2 in
  p ← lookup_id (fdb_periods (cdb_fin db)) (nf_financial_period_id f);
  code ← lookup_id (cdb_concepts db) (nf_canonical_concept_id f);
  Some (mkCalcFact row.1 code (nf_financial_period_id f) (pw_fiscal_year p)
    (pw_fiscal_quarter p) (pw_fiscal_period p) (pw_period_type p) (pw_period_start p)
    (pw_period_end p) (pw_duration_days p) (pw_accounting_standard p) (pw_is_cumulative p)
    (pw_is_single_quarter p) (nf_normalized_value f) (nf_normalized_unit f)
    (nf_currency_code f) (nf_source_published_at f)).

(** The [ORDER BY] of the query. *)
Definition calculation_order (a b : NormalizedFactForCalculation) : bool :=
  (nc_period_end a <? nc_period_end b) || ((nc_period_end a =? nc_period_end b) &&
  (str_ltb (nc_canonical_concept_code a) (nc_canonical_concept_code b) ||
   (bool_decide (nc_canonical_concept_code a = nc_canonical_concept_code b) &&
    str_ltb (uuid_str (nc_id a)) (uuid_str (nc_id b))))).

Definition list_normalized_facts_for_calculation (snapshot_id : UUID) (db : CalcDb) :
    list NormalizedFactForCalculation :=
  sort_by calculation_order (omap (calculation_fact db)
    (filter (λ row, nf_snapshot_id row.2 = snapshot_id) (fdb_facts (cdb_fin db)))).

(** [uq_calculation_runs_idempotency] *)
Definition run_key (snapshot_id : UUID) (checksum : string) (r : CalculationRun) : bool :=
  bool_decide (cr_snapshot_id r = snapshot_id) && bool_decide (cr_input_checksum r = checksum) &&
  bool_decide (cr_calculation_version r = CALCULATION_VERSION) &&
  bool_decide (cr_formula_set_version r = FORMULA_SET_VERSION) &&
  bool_decide (cr_mapping_version r = MAPPING_VERSION) &&
  bool_decide (cr_normalization_version r = NORMALIZATION_VERSION).

Definition metrics_of (run_id : UUID) (db : CalcDb) : list DerivedMetricWrite :=
  filter (λ m, dm_calculation_run_id m = run_id) (cdb_metrics db).

(** [find_calculation_run], as the result the service makes of the record. *)
Definition find_calculation_run (snapshot_id : UUID) (checksum : string) (db : CalcDb) :
    option CalculationResult :=
  r ← find (λ r, run_key snapshot_id checksum r && is_some (cr_status r)) (cdb_runs db);
  status ← cr_status r;
  Some (mkCalcResult (cr_id r) (cr_snapshot_id r) status
    (Z.of_nat (length (metrics_of (cr_id r) db))) (cr_warning_count r) (cr_input_checksum r)).

Section Inserts.
(** The ids of new rows, and the clock. *)
Context (uuid4 : nat → UUID) (started completed : time).

Definition create_calculation_run (security_id snapshot_id : UUID) (checksum : string) :
    calcM UUID := λ db,
  reject_if (existsb (run_key snapshot_id checksum) (cdb_runs db)) IntegrityError
    "uq_calculation_runs_idempotency";;
  let id := uuid4 (cdb_next db) in
  let run := mkRun id security_id snapshot_id None CALCULATION_VERSION FORMULA_SET_VERSION
    MAPPING_VERSION NORMALIZATION_VERSION checksum started None 0 in
  Ok (id, mkCalcDb (cdb_fin db) (cdb_concepts db) (cdb_formulas db) (cdb_runs db ++ [run])
        (cdb_metrics db) (cdb_inputs db) (S (cdb_next db))).

Definition get_formula_definition_id (metric_code formula_version : string) (db : CalcDb) :
    option UUID :=
  sf_id <$> find (λ f, bool_decide (sf_metric_code f = metric_code) &&
    bool_decide (sf_formula_version f = formula_version) && sf_active f) (cdb_formulas db).

(** The constraints of derived_metrics: the value of a state, and one row per
    run, metric and period. *)
Definition metric_row_ok (m : DerivedMetricWrite) : bool :=
  match dm_value_state m, dm_value m with
  | VState.VALUE, Some v => negb (deq v dzero)
  | VState.ZERO, Some v => deq v dzero
  | (VState.NULL | VState.NOT_MEANINGFUL), None => true
  | _, _ => false
  end && opt_forallb currency_ok (dm_currency_code m) && len_between 1 32 (dm_metric_period m).
Definition same_metric_key (a b : DerivedMetricWrite) : bool :=
  bool_decide (dm_calculation_run_id a = dm_calculation_run_id b) &&
  bool_decide (dm_metric_code a = dm_metric_code b) &&
  bool_decide (dm_metric_period a = dm_metric_period b) && opt_eqb (dm_period_end a) (dm_period_end b).

Definition add_derived_metric (m : DerivedMetricWrite) : calcM unit := λ db,
  reject_if (negb (metric_row_ok m)) IntegrityError "ck_derived_metrics";;
  reject_if (existsb (same_metric_key m) (cdb_metrics db)) IntegrityError
    "uq_derived_metrics_run_metric_period";;
  Ok (tt, mkCalcDb (cdb_fin db) (cdb_concepts db) (cdb_formulas db) (cdb_runs db)
        (cdb_metrics db ++ [m]) (cdb_inputs db) (cdb_next db)).

(** [uq_calculation_inputs_lineage] *)
Definition same_lineage_key (a b : CalculationInputWrite) : bool :=
  bool_decide (ci_calculation_run_id a = ci_calculation_run_id b) &&
  bool_decide (ci_metric_code a = ci_metric_code b) &&
  bool_decide (ci_input_role a = ci_input_role b) &&
  bool_decide (ci_normalized_fact_id a = ci_normalized_fact_id b).

Definition add_calculation_input (i : CalculationInputWrite) : calcM unit := λ db,
  reject_if (existsb (same_lineage_key i) (cdb_inputs db)) IntegrityError
    "uq_calculation_inputs_lineage";;
  Ok (tt, mkCalcDb (cdb_fin db) (cdb_concepts db) (cdb_formulas db) (cdb_runs db)
        (cdb_metrics db) (cdb_inputs db ++ [i]) (cdb_next db)).

Definition complete_run (run : CalculationRun) (status : QualityStatus) (warnings : Z) :
    CalculationRun :=
  mkRun (cr_id run) (cr_security_id run) (cr_snapshot_id run) (Some status)
    (cr_calculation_version run) (cr_formula_set_version run) (cr_mapping_version run)
    (cr_normalization_version run) (cr_input_checksum run) (cr_started_at run) (Some completed)
    warnings.

Definition complete_calculation_run (run_id : UUID) (status : QualityStatus) (warnings : Z) :
    calcM unit := λ db,
  run ← require_some (find (λ r, bool_decide (cr_id r = run_id)) (cdb_runs db)) RuntimeError
    "calculation run is missing or already terminal";
  reject_if (is_some (cr_status run)) RuntimeError
    "calculation run is missing or already terminal";;
  reject_if (completed <? cr_started_at run) IntegrityError "ck_calculation_runs_timestamp_order";;
  Ok (tt, mkCalcDb (cdb_fin db) (cdb_concepts db) (cdb_formulas db)
        (map (λ r, if bool_decide (cr_id r = run_id) then complete_run r status warnings else r)
           (cdb_runs db))
        (cdb_metrics db) (cdb_inputs db) (cdb_next db)).
End Inserts.

(** * Binding facts to roles *)

Abbreviation facts := (list NormalizedFactForCalculation).
Abbreviation selection := (list (string * NormalizedFactForCalculation)).

(** [_output_unit]: the same table as the formulas'. *)
Definition _output_unit (code : MetricCode) : string := output_unit code.

Definition checksum_part (f : NormalizedFactForCalculation) : string :=
  str_join "|" [uuid_str (nc_id f); nc_canonical_concept_code f; uuid_str (nc_financial_period_id f);
    format_f (nc_normalized_value f); nc_normalized_unit f; default "" (nc_currency_code f);
    match nc_duration_days f with Some d => if d =? 0 then "" else str_of_Z d | None => "" end;
    nc_accounting_standard f; time_isoformat (nc_source_published_at f)].
(** [_input_checksum] *)
Definition newline : string := String "010" "".
Definition _input_checksum (fs : facts) : string :=
  sha256_hex (str_join newline (map checksum_part (sort_key (λ f, uuid_str (nc_id f)) fs))).

#[global] Arguments _input_checksum : simpl never.

Definition _ROLE_CONCEPT : list (string * string) :=
  [("current_revenue", "REVENUE"); ("prior_revenue", "REVENUE"); ("revenue", "REVENUE");
   ("cost_of_revenue", "COST_OF_REVENUE"); ("operating_income", "OPERATING_INCOME");
   ("net_income_parent", "NET_INCOME_ATTRIBUTABLE_TO_PARENT"); ("net_income_total", "NET_INCOME");
   ("opening_equity_parent", "EQUITY_ATTRIBUTABLE_TO_PARENT");
   ("closing_equity_parent", "EQUITY_ATTRIBUTABLE_TO_PARENT");
   ("opening_total_assets", "TOTAL_ASSETS"); ("closing_total_assets", "TOTAL_ASSETS");
   ("opening_total_equity", "TOTAL_EQUITY"); ("closing_total_equity", "TOTAL_EQUITY");
   ("opening_total_debt", "TOTAL_DEBT"); ("closing_total_debt", "TOTAL_DEBT");
   ("opening_cash", "CASH_AND_CASH_EQUIVALENTS"); ("closing_cash", "CASH_AND_CASH_EQUIVALENTS");
   ("reported_ocf", "OPERATING_CASH_FLOW"); ("operating_cash_flow", "OPERATING_CASH_FLOW");
   ("capital_expenditures", "CAPITAL_EXPENDITURES"); ("total_liabilities", "TOTAL_LIABILITIES");
   ("total_assets", "TOTAL_ASSETS"); ("total_debt", "TOTAL_DEBT");
   ("cash", "CASH_AND_CASH_EQUIVALENTS"); ("reported_basic_eps", "BASIC_EPS");
   ("reported_diluted_eps", "DILUTED_EPS");
   ("actual_shares_outstanding", "PERIOD_END_SHARES_OUTSTANDING");
   ("equity_parent", "EQUITY_ATTRIBUTABLE_TO_PARENT"); ("preferred_equity", "PREFERRED_EQUITY");
   ("minority_interest", "MINORITY_INTEREST")].

Definition _TTM_CONCEPT (code : MetricCode) : option string :=
  match code with
  | Metric.REVENUE_TTM => Some "REVENUE"
  | Metric.NET_INCOME_PARENT_TTM => Some "NET_INCOME_ATTRIBUTABLE_TO_PARENT"
  | Metric.EBITDA_TTM => Some "EBITDA"
  | _ => None
  end.

(** The key [(period_end, source_published_at, str(id))]. *)
Definition version_order (a b : NormalizedFactForCalculation) : bool :=
  (nc_period_end a <? nc_period_end b) || ((nc_period_end a =? nc_period_end b) &&
  ((nc_source_published_at a <? nc_source_published_at b) ||
   ((nc_source_published_at a =? nc_source_published_at b) &&
    str_ltb (uuid_str (nc_id a)) (uuid_str (nc_id b))))).
Definition _facts_for_concept (fs : facts) (concept : string) : facts :=
  sort_by version_order (filter (λ f, nc_canonical_concept_code f = concept) fs).

(** [candidates[-1]] *)
Definition latest (candidates : facts) : option NormalizedFactForCalculation := last candidates.

Definition flow_role (role : string) : bool :=
  negb (str_startswith role "opening_") && negb (str_startswith role "closing_").

Fixpoint _latest_anchor (roles : list string) (fs : facts) : option NormalizedFactForCalculation :=
  match roles with
  | [] => None
  | role :: roles =>
      match dict_get _ROLE_CONCEPT role with
      | Some concept =>
          if flow_role role then
            match latest (_facts_for_concept fs concept) with
            | Some f => Some f
            | None => _latest_anchor roles fs
            end
          else _latest_anchor roles fs
      | None => _latest_anchor roles fs
      end
  end.

(** The fact bound to one role. *)
Definition bind_role (anchor : option NormalizedFactForCalculation) (fs : facts) (role : string) :
    option (string * NormalizedFactForCalculation) :=
  concept ← dict_get _ROLE_CONCEPT role;
  let candidates := _facts_for_concept fs concept in
  fact ←
    (if str_startswith role "opening_" then
       match reverse candidates with _ :: opening :: _ => Some opening | _ => None end
     else if str_startswith role "closing_" then latest candidates
     else match anchor with
          | Some a => latest (filter (λ f, nc_financial_period_id f = nc_financial_period_id a) candidates)
          | None => latest candidates
          end);
  Some (role, fact).

Definition single_valued {A} `{EqDecision A} (l : list A) : bool :=
  (length (remove_dups l) =? 1)%nat.
Definition _same_ttm_basis (fs : facts) : bool :=
  single_valued (map nc_normalized_unit fs) && single_valued (map nc_currency_code fs) &&
  negb (existsb (λ f, is_none (nc_currency_code f)) fs) &&
  single_valued (map nc_accounting_standard fs).

Definition _quarters_are_comparable (quarters : facts) : bool :=
  _same_ttm_basis quarters && forallb (λ f, is_some (nc_fiscal_quarter f)) quarters &&
  consecutive (map (λ f, nc_fiscal_year f * 4 + default 0 (nc_fiscal_quarter f) - 1) quarters).

Definition _durations_are_comparable (current comparison : NormalizedFactForCalculation) : bool :=
  match nc_duration_days current, nc_duration_days comparison with
  | Some a, Some b => Z.abs (a - b) <=? 7
  | a, b => opt_eqb a b
  end.

(** The bridges the nested loops try, in order. *)
Definition bridges (concept_facts : facts) : list selection :=
  let annual_of f := bool_decide (nc_period_type f = PType.ANNUAL) in
  let annuals := filter (λ f, annual_of f && nc_is_cumulative f = true) concept_facts in
  concat (map (λ annual,
    let latest_candidates := filter (λ f,
      (nc_fiscal_year f =? nc_fiscal_year annual + 1) && nc_is_cumulative f &&
      negb (annual_of f) = true) concept_facts in
    omap (λ latest_ytd,
      prior_ytd ← latest (filter (λ f,
        (nc_fiscal_year f =? nc_fiscal_year annual) &&
        opt_eqb (nc_fiscal_quarter f) (nc_fiscal_quarter latest_ytd) &&
        bool_decide (nc_period_type f = nc_period_type latest_ytd) && nc_is_cumulative f &&
        negb (annual_of f) = true) concept_facts);
      if _same_ttm_basis [annual; latest_ytd; prior_ytd] &&
         _durations_are_comparable latest_ytd prior_ytd
      then Some [("latest_fy", annual); ("latest_ytd", latest_ytd); ("prior_ytd", prior_ytd)]
      else None) (reverse latest_candidates)) (reverse annuals)).

Definition _bind_ttm_inputs (fs : facts) (concept : string) : selection :=
  let concept_facts := _facts_for_concept fs concept in
  let singles := filter (λ f, nc_is_single_quarter f && negb (nc_is_cumulative f) = true)
    concept_facts in
  let quarters := drop (length singles - 4) singles in
  if (length quarters =? 4)%nat && _quarters_are_comparable quarters then
    zip ["quarter_1"; "quarter_2"; "quarter_3"; "quarter_4"] quarters
  else default [] (head (bridges concept_facts)).

(** The same period a year before. *)
Definition prior_year_of (current f : NormalizedFactForCalculation) : bool :=
  (nc_fiscal_year f =? nc_fiscal_year current - 1) &&
  bool_decide (nc_period_type f = nc_period_type current) &&
  opt_eqb (nc_fiscal_quarter f) (nc_fiscal_quarter current) &&
  Bool.eqb (nc_is_cumulative f) (nc_is_cumulative current).

Definition bind_growth (fs : facts) : selection :=
  match reverse (_facts_for_concept fs "REVENUE") with
  | [] => []
  | current :: earlier =>
      ("current_revenue", current) ::
      match find (prior_year_of current) earlier with
      | Some prior => [("prior_revenue", prior)]
      | None => []
      end
  end.

(** The facts [_bind_inputs] selects. *)
Definition bind_selected (definition : FormulaDefinition) (fs : facts) : selection :=
  match _TTM_CONCEPT (fd_metric_code definition) with
  | Some concept => _bind_ttm_inputs fs concept
  | None =>
      if bool_decide (fd_metric_code definition = Metric.REVENUE_GROWTH) then bind_growth fs
      else
        let roles := fd_required_inputs definition in
        omap (bind_role (_latest_anchor roles fs) fs) roles
  end.

Definition formula_input (f : NormalizedFactForCalculation) : res FormulaInput :=
  new_formula_input (Some (nc_normalized_value f)) (nc_normalized_unit f) (nc_currency_code f).
Definition _formula_inputs (selected : selection) : res inputs :=
  res_map (λ rf, i ← formula_input rf.2; Ok (rf.1, i)) selected.

(** [_bind_inputs] *)
Definition _bind_inputs (definition : FormulaDefinition) (fs : facts) : res (inputs * selection) :=
  let selected := bind_selected definition fs in
  ins ← _formula_inputs selected; Ok (ins, selected).

(** [max(selected.values(), key=(period_end, str(id)), default=None)] *)
Definition reference_order (a b : NormalizedFactForCalculation) : bool :=
  (nc_period_end a <? nc_period_end b) || ((nc_period_end a =? nc_period_end b) &&
   str_ltb (uuid_str (nc_id a)) (uuid_str (nc_id b))).
Definition reference_of (selected : selection) : option NormalizedFactForCalculation :=
  foldl (λ best rf, match best with
    | None => Some rf.2
    | Some b => if reference_order b rf.2 then Some rf.2 else Some b
    end) None selected.

Definition _metric_period (definition : FormulaDefinition)
    (reference : option NormalizedFactForCalculation) (selected : selection) : string :=
  if is_some (_TTM_CONCEPT (fd_metric_code definition)) then
    if dict_has selected "quarter_1" then "TTM:FOUR_QUARTERS"
    else if dict_has selected "latest_fy" then "TTM:ANNUAL_YTD_BRIDGE" else "TTM:BLOCKED"
  else match reference with Some f => nc_fiscal_period f | None => "SNAPSHOT" end.

Definition _aggregate_status (statuses : list QualityStatus) : QualityStatus :=
  if negb (bool_decide (statuses = [])) && forallb (λ s, bool_decide (s = Quality.PASS)) statuses
  then Quality.PASS
  else if existsb (λ s, bool_decide (s ∈ [Quality.PASS; Quality.PARTIAL])) statuses
  then Quality.PARTIAL else Quality.BLOCKED.

(** * The service *)

Section Service.
Context (uuid4 : nat → UUID) (started completed : time).

Definition formula_row_id (definition : FormulaDefinition) : calcM UUID := λ db,
  let code := Metric.value (fd_metric_code definition) in
  id ← require_some (get_formula_definition_id code (fd_formula_version definition) db) RuntimeError
    ("active formula definition missing for " +:+ code +:+ ":" +:+ fd_formula_version definition);
  Ok (id, db).

(** The blocked metric of a snapshot without facts. *)
Definition empty_metric (run_id security_id snapshot_id formula_id : UUID)
    (definition : FormulaDefinition) : DerivedMetricWrite :=
  mkDerivedMetric run_id security_id snapshot_id formula_id
    (Metric.value (fd_metric_code definition)) "SNAPSHOT" None None VState.NULL
    (_output_unit (fd_metric_code definition)) None Quality.BLOCKED
    (fd_formula_version definition) ["NO_NORMALIZED_FINANCIAL_FACTS"].
Definition add_empty_metric (run_id security_id snapshot_id : UUID)
    (definition : FormulaDefinition) : calcM unit :=
  formula_id ← formula_row_id definition;
  add_derived_metric (empty_metric run_id security_id snapshot_id formula_id definition).

Definition metric_write (run_id security_id snapshot_id formula_id : UUID)
    (definition : FormulaDefinition) (selected : selection) (result : MetricResult) :
    DerivedMetricWrite :=
  let reference := reference_of selected in
  mkDerivedMetric run_id security_id snapshot_id formula_id
    (Metric.value (fd_metric_code definition)) (_metric_period definition reference selected)
    (nc_period_end <$> reference) (mt_value result) (mt_value_state result) (mt_unit result)
    (mt_currency_code result) (mt_quality_status result) (mt_formula_version result)
    (mt_warnings result).

Definition input_write (run_id : UUID) (code : MetricCode)
    (rf : string * NormalizedFactForCalculation) : CalculationInputWrite :=
  mkCalcInput run_id (Metric.value code) (nc_id rf.2) rf.1 (nc_normalized_value rf.2)
    (nc_normalized_unit rf.2) (nc_currency_code rf.2).

(** One iteration of the formula loop: the metric, its lineage, its status and
    number of warnings. *)
Definition calculate_metric (run_id security_id snapshot_id : UUID) (fs : facts)
    (definition : FormulaDefinition) : calcM (QualityStatus * Z) :=
  '(ins, selected) ← sess_lift (_bind_inputs definition fs);
  result ← sess_lift (execute_formula (fd_metric_code definition) ins);
  formula_id ← formula_row_id definition;
  add_derived_metric
    (metric_write run_id security_id snapshot_id formula_id definition selected result);;
  sess_map (λ rf, add_calculation_input (input_write run_id (fd_metric_code definition) rf))
    (sort_key fst selected);;
  mret (mt_quality_status result, Z.of_nat (length (mt_warnings result))).

(** A new calculation run. *)
Definition calculate_new (security_id snapshot_id : UUID) (fs : facts) (checksum : string) :
    calcM CalculationResult :=
  run_id ← create_calculation_run uuid4 started security_id snapshot_id checksum;
  '(status, warnings) ←
    match fs with
    | [] =>
        sess_map (add_empty_metric run_id security_id snapshot_id) FORMULA_REGISTRY;;
        mret (Quality.BLOCKED, Z.of_nat (length FORMULA_REGISTRY))
    | _ =>
        outcomes ← sess_map (calculate_metric run_id security_id snapshot_id fs) FORMULA_REGISTRY;
        mret (_aggregate_status (map fst outcomes), foldr Z.add 0 (map snd outcomes))
    end;
  complete_calculation_run completed run_id status warnings;;
  mret (mkCalcResult run_id snapshot_id status (Z.of_nat (length FORMULA_REGISTRY)) warnings checksum).

(** [MetricCalculationService.calculate_snapshot] *)
Definition calculate_snapshot (snapshot_id : UUID) : calcM CalculationResult := λ db,
  snapshot ← require_some (get_snapshot_for_normalization snapshot_id (cdb_fin db)) ValueError
    "snapshot does not exist";
  let fs := list_normalized_facts_for_calculation snapshot_id db in
  let checksum := _input_checksum fs in
  match find_calculation_run snapshot_id checksum db with
  | Some existing => Ok (existing, db)
  | None => calculate_new (ns_security_id snapshot) (ns_snapshot_id snapshot) fs checksum db
  end.
End Service.

(** * What a calculation writes *)

(** [db'] is [db] with metrics and lineage added. *)
Record adds (db : CalcDb) (ms : list DerivedMetricWrite) (ins : list CalculationInputWrite)
    (db' : CalcDb) : Prop := {
  ad_fin : cdb_fin db' = cdb_fin db;
  ad_concepts : cdb_concepts db' = cdb_concepts db;
  ad_formulas : cdb_formulas db' = cdb_formulas db;
  ad_runs : cdb_runs db' = cdb_runs db;
  ad_next : cdb_next db' = cdb_next db;
  ad_metrics : cdb_metrics db' = cdb_metrics db ++ ms;
  ad_inputs : cdb_inputs db' = cdb_inputs db ++ ins }.

Lemma adds_nil db : adds db [] [] db.
Proof. by split; rewrite ?app_nil_r. Qed.

Lemma adds_trans db1 ms1 is1 db2 ms2 is2 db3 :
  adds db1 ms1 is1 db2 → adds db2 ms2 is2 db3 → adds db1 (ms1 ++ ms2) (is1 ++ is2) db3.
Proof. intros [] []. split; try congruence; rewrite app_assoc; congruence. Qed.

Lemma formula_row_id_Ok definition db id db' :
  formula_row_id definition db = Ok (id, db') → db' = db.
Proof. unfold formula_row_id. by intros (? & _ & [= _ <-])%bind_Ok. Qed.

Lemma add_derived_metric_adds m db u db' :
  add_derived_metric m db = Ok (u, db') → adds db [m] [] db' ∧ metric_row_ok m = true.
Proof.
  unfold add_derived_metric. rewrite !guard_seq. intros (H%negb_false_iff & _ & [= _ <-]).
  split; [|done]. by split; cbn; rewrite ?app_nil_r.
Qed.

Lemma add_inputs_adds {A} (f : A → CalculationInputWrite) l : ∀ db us db',
  sess_map (λ x, add_calculation_input (f x)) l db = Ok (us, db') → adds db [] (map f l) db'.
Proof.
  induction l as [|x l IH]; intros db us db'; cbn; [intros [= _ <-]; apply adds_nil|].
  intros (u & db1 & H1 & H)%sess_bind_Ok. apply sess_bind_Ok in H as (us' & db2 & H2 & [= _ <-]).
  apply IH in H2. unfold add_calculation_input in H1. apply guard_seq in H1 as [_ [= _ <-]].
  eapply (adds_trans _ [] [f x]) in H2; [exact H2|]. by split; cbn; rewrite ?app_nil_r.
Qed.

(** A stored metric and its lineage: the formula's result on the facts bound to
    its roles, or the blocked metric when there are no facts at all. *)
Definition metric_spec (run_id security_id snapshot_id : UUID) (fs : facts)
    (definition : FormulaDefinition) (mi : DerivedMetricWrite * list CalculationInputWrite) : Prop :=
  match fs with
  | [] => ∃ formula_id, mi = (empty_metric run_id security_id snapshot_id formula_id definition, [])
  | _ => ∃ ins selected result formula_id,
      _bind_inputs definition fs = Ok (ins, selected) ∧
      execute_formula (fd_metric_code definition) ins = Ok result ∧
      mi = (metric_write run_id security_id snapshot_id formula_id definition selected result,
            map (input_write run_id (fd_metric_code definition)) (sort_key fst selected))
  end.

(** The status and the number of warnings the service counts for a metric. *)
Definition metric_outcome (m : DerivedMetricWrite) : QualityStatus * Z :=
  (dm_quality_status m, Z.of_nat (length (dm_warning_codes m))).

Lemma calculate_metric_adds run_id security_id snapshot_id f fs definition db out db' :
  calculate_metric run_id security_id snapshot_id (f :: fs) definition db = Ok (out, db') →
  ∃ mi, metric_spec run_id security_id snapshot_id (f :: fs) definition mi ∧
    adds db [mi.1] mi.2 db' ∧ out = metric_outcome mi.1.
Proof.
  unfold calculate_metric.
  intros ([ins selected] & db1 & [Hb ->]%sess_lift_Ok & H)%sess_bind_Ok.
  apply sess_bind_Ok in H as (result & db1 & [Hr ->]%sess_lift_Ok & H).
  apply sess_bind_Ok in H as (fid & db1 & ->%formula_row_id_Ok & H).
  apply sess_bind_Ok in H as (u & db1 & [Ha _]%add_derived_metric_adds & H).
  apply sess_bind_Ok in H as (us & db2 & Hi%add_inputs_adds & [= <- <-]).
  eexists. split; [by exists ins, selected, result, fid|]. split; [|done].
  exact (adds_trans _ _ _ _ _ _ _ Ha Hi).
Qed.

Lemma add_empty_metric_adds run_id security_id snapshot_id definition db u db' :
  add_empty_metric run_id security_id snapshot_id definition db = Ok (u, db') →
  ∃ mi, metric_spec run_id security_id snapshot_id [] definition mi ∧ adds db [mi.1] mi.2 db' ∧
    metric_outcome mi.1 = (Quality.BLOCKED, 1).
Proof.
  intros (fid & db1 & ->%formula_row_id_Ok & [H _]%add_derived_metric_adds)%sess_bind_Ok.
  eexists. split; [by exists fid|]. by split.
Qed.

(** A loop over the registry adds one metric per definition. *)
Lemma metrics_loop {B} (f : FormulaDefinition → calcM B)
    (P : FormulaDefinition → DerivedMetricWrite * list CalculationInputWrite → Prop)
    (g : DerivedMetricWrite → B) l :
  (∀ d db b db', f d db = Ok (b, db') → ∃ mi, P d mi ∧ adds db [mi.1] mi.2 db' ∧ b = g mi.1) →
  ∀ db bs db', sess_map f l db = Ok (bs, db') →
  ∃ mis, Forall2 P l mis ∧ adds db (map fst mis) (concat (map snd mis)) db' ∧
    bs = map (λ mi, g mi.1) mis.
Proof.
  intros Hf. induction l as [|d l IH]; intros db bs db'; cbn.
  - intros [= <- <-]. exists []. split_and!; [constructor|apply adds_nil|done].
  - intros (b & db1 & H1 & H)%sess_bind_Ok. apply sess_bind_Ok in H as (bs' & db2 & H2 & [= <- <-]).
    apply Hf in H1 as (mi & Hp & Ha & ->). apply IH in H2 as (mis & Hall & Ham & ->).
    exists (mi :: mis). split_and!; [by constructor|exact (adds_trans _ _ _ _ _ _ _ Ha Ham)|done].
Qed.

Section Spec.
Context (uuid4 : nat → UUID) `{!Inj (=) (=) uuid4} (started completed : time).

(** Every run and metric has an id the tables gave out. *)
Record calc_wf (db : CalcDb) : Prop := {
  cw_runs : ∀ r, r ∈ cdb_runs db → ∃ k, (k < cdb_next db)%nat ∧ cr_id r = uuid4 k;
  cw_metrics : ∀ m, m ∈ cdb_metrics db →
    ∃ k, (k < cdb_next db)%nat ∧ dm_calculation_run_id m = uuid4 k }.

(** The metrics of a run belong to it. *)
Lemma metric_spec_run run_id security_id snapshot_id fs definition mi :
  metric_spec run_id security_id snapshot_id fs definition mi → dm_calculation_run_id mi.1 = run_id.
Proof.
  destruct fs; [by intros [? ->]|]. by intros (? & ? & ? & ? & _ & _ & ->).
Qed.

(** The body of a new run, between its creation and its completion. *)
Lemma calculate_new_Ok security_id snapshot_id fs checksum db r db' :
  calculate_new uuid4 started completed security_id snapshot_id fs checksum db = Ok (r, db') →
  ∃ mis run_id,
    run_id = uuid4 (cdb_next db) ∧
    existsb (run_key snapshot_id checksum) (cdb_runs db) = false ∧
    Forall2 (metric_spec run_id security_id snapshot_id fs) FORMULA_REGISTRY mis ∧
    r = mkCalcResult run_id snapshot_id (_aggregate_status (map (λ mi, dm_quality_status mi.1) mis))
      (Z.of_nat (length FORMULA_REGISTRY))
      (foldr Z.add 0 (map (λ mi, Z.of_nat (length (dm_warning_codes mi.1))) mis)) checksum ∧
    cdb_fin db' = cdb_fin db ∧ cdb_concepts db' = cdb_concepts db ∧
    cdb_next db' = S (cdb_next db) ∧
    cdb_metrics db' = cdb_metrics db ++ map fst mis ∧
    cdb_inputs db' = cdb_inputs db ++ concat (map snd mis) ∧
    cdb_runs db' = map (λ c, if bool_decide (cr_id c = run_id)
      then complete_run completed c (cres_status r) (cres_warning_count r) else c)
      (cdb_runs db ++ [mkRun run_id security_id snapshot_id None CALCULATION_VERSION
        FORMULA_SET_VERSION MAPPING_VERSION NORMALIZATION_VERSION checksum started None 0]).
Proof.
  unfold calculate_new. intros (run_id & db1 & Hc & H)%sess_bind_Ok.
  unfold create_calculation_run in Hc. apply guard_seq in Hc as [Hnew [= <- <-]].
  apply sess_bind_Ok in H as ([status warnings] & db2 & Hm & H).
  apply sess_bind_Ok in H as (u & db3 & Hdone & [= <- <-]).
  unfold complete_calculation_run in Hdone. inv_res. subst.
  set (run_id := uuid4 (cdb_next db)) in *. set (db1 := mkCalcDb _ _ _ _ _ _ _) in Hm.
  assert (Hmis : ∃ mis, Forall2 (metric_spec run_id security_id snapshot_id fs) FORMULA_REGISTRY mis ∧
    adds db1 (map fst mis) (concat (map snd mis)) db2 ∧
    status = _aggregate_status (map (λ mi, dm_quality_status mi.1) mis) ∧
    warnings = foldr Z.add 0 (map (λ mi, Z.of_nat (length (dm_warning_codes mi.1))) mis)).
  { destruct fs as [|f fs]; apply sess_bind_Ok in Hm as (outs & db2' & Hl & [= <- <- <-]).
    - apply (metrics_loop _ (λ d mi, metric_spec run_id security_id snapshot_id [] d mi ∧
        metric_outcome mi.1 = (Quality.BLOCKED, 1)) (λ _, tt)) in Hl as (mis & Hall & Ha & _).
      2: { intros d dbx [] dby (mi & ? & ? & ?)%add_empty_metric_adds. by exists mi. }
      exists mis. split; [by eapply Forall2_impl; [exact Hall|intros ? ? []]|]. split; [done|].
      assert (Hout : map (λ mi, metric_outcome mi.1) mis = replicate (length FORMULA_REGISTRY) (Quality.BLOCKED, 1)).
      { clear -Hall. induction Hall as [|d mi l mis [_ E] _ IH]; cbn; [done|]. by rewrite E, IH. }
      split.
      + transitivity (_aggregate_status (map fst (map (λ mi, metric_outcome mi.1) mis)));
          [by rewrite Hout|by rewrite map_map].
      + transitivity (foldr Z.add 0 (map snd (map (λ mi, metric_outcome mi.1) mis)));
          [by rewrite Hout|by rewrite map_map].
    - apply (metrics_loop _ (metric_spec run_id security_id snapshot_id (f :: fs)) metric_outcome) in Hl
        as (mis & Hall & Ha & ->); [|intros d dbx b dby; apply calculate_metric_adds].
      exists mis. by rewrite !map_map. }
  destruct Hmis as (mis & Hall & [A1 A2 A3 A4 A5 A6 A7] & -> & ->). exists mis, run_id.
  cbn. rewrite A1, A2, A4, A5, A6, A7. by split_and!.
Qed.

Lemma calc_ids_differ db k : (k < cdb_next db)%nat → uuid4 k ≠ uuid4 (cdb_next db).
Proof. intros H E%(inj uuid4). lia. Qed.

(** Completing the new run changes no other. *)
Lemma complete_only_new db (g : CalculationRun → CalculationRun) run :
  calc_wf db → cr_id run = uuid4 (cdb_next db) →
  map (λ c, if bool_decide (cr_id c = uuid4 (cdb_next db)) then g c else c) (cdb_runs db ++ [run]) =
  cdb_runs db ++ [g run].
Proof.
  intros [Hr _] Hid. rewrite map_app. f_equal.
  - etransitivity; [|apply map_id]. apply map_ext_in. intros c Hc. rewrite bool_decide_eq_false_2; [done|].
    destruct (Hr c) as (k & Hk & ->); [by apply list_elem_of_In|]. by apply calc_ids_differ.
  - cbn. by rewrite bool_decide_eq_true_2.
Qed.

(** Calculation keeps the tables well formed. *)
Lemma calculate_snapshot_wf snapshot_id db r db' :
  calc_wf db → calculate_snapshot uuid4 started completed snapshot_id db = Ok (r, db') → calc_wf db'.
Proof.
  intros Hwf. unfold calculate_snapshot. intros (s & _ & H)%bind_Ok.
  destruct (find_calculation_run _ _ _); [by injection H as <- <-|].
  apply calculate_new_Ok in H as (mis & run_id & -> & _ & Hall & _ & _ & _ & E3 & E4 & _ & E6).
  rewrite complete_only_new in E6 by done. split.
  - intros c. rewrite E3, E6, elem_of_app, list_elem_of_singleton. intros [Hc| ->].
    + destruct (cw_runs _ Hwf c Hc) as (k & ? & ?). exists k. split; [lia|done].
    + exists (cdb_next db). split; [lia|done].
  - intros m. rewrite E3, E4, elem_of_app. intros [Hm|(mi & -> & Hmi)%list_elem_of_fmap].
    + destruct (cw_metrics _ Hwf m Hm) as (k & ? & ?). exists k. split; [lia|done].
    + exists (cdb_next db). split; [lia|].
      destruct (Forall2_elem_r _ _ _ _ Hall Hmi) as (d & _ & Hs). by eapply metric_spec_run.
Qed.
(** The metrics of a new run are those it added. *)
Lemma new_run_metrics security_id snapshot_id fs mis db db' :
  calc_wf db → cdb_metrics db' = cdb_metrics db ++ map fst mis →
  Forall2 (metric_spec (uuid4 (cdb_next db)) security_id snapshot_id fs) FORMULA_REGISTRY mis →
  metrics_of (uuid4 (cdb_next db)) db' = map fst mis.
Proof.
  intros Hwf E Hall. unfold metrics_of. rewrite E, filter_app, list_filter_none, list_filter_all; [done|..].
  - intros m (mi & -> & Hmi)%list_elem_of_fmap.
    destruct (Forall2_elem_r _ _ _ _ Hall Hmi) as (d & _ & Hd). by eapply metric_spec_run.
  - apply Forall_forall. intros m Hm E'. destruct (cw_metrics _ Hwf m Hm) as (k & Hk & Hm').
    rewrite Hm' in E'. by apply calc_ids_differ in E'.
Qed.
End Spec.

(** A calculation that is not a repetition stores exactly one metric per
    registered formula, each the result of its formula on the facts bound to its
    roles, with one lineage row per bound fact and nothing else; its status
    aggregates theirs and its warnings are counted. *)
Theorem calculation_run_spec uuid4 started completed snapshot_id db result db'
    (Huuid : Inj (=) (=) uuid4) :
  calc_wf uuid4 db →
  calculate_snapshot uuid4 started completed snapshot_id db = Ok (result, db') →
  let fs := list_normalized_facts_for_calculation snapshot_id db in
  find_calculation_run snapshot_id (_input_checksum fs) db = None →
  ∃ snapshot mis, get_snapshot_for_normalization snapshot_id (cdb_fin db) = Some snapshot ∧
    Forall2 (metric_spec (cres_calculation_run_id result) (ns_security_id snapshot) snapshot_id fs)
      FORMULA_REGISTRY mis ∧
    metrics_of (cres_calculation_run_id result) db' = map fst mis ∧
    cdb_inputs db' = cdb_inputs db ++ concat (map snd mis) ∧
    cres_status result = _aggregate_status (map (λ mi, dm_quality_status mi.1) mis) ∧
    cres_warning_count result =
      foldr Z.add 0 (map (λ mi, Z.of_nat (length (dm_warning_codes mi.1))) mis) ∧
    cdb_fin db' = cdb_fin db.
Proof.
  intros Hwf H fs Hnone. unfold calculate_snapshot in H.
  apply bind_Ok in H as (snapshot & Hs%require_some_Ok & H). cbv zeta in H. fold fs in H.
  rewrite Hnone in H. assert (Hid : ns_snapshot_id snapshot = snapshot_id).
  { apply find_elem in Hs as [_ E]. by apply bool_decide_eq_true in E. }
  rewrite Hid in H.
  apply calculate_new_Ok in H as (mis & run_id & Er & _ & Hall & -> & E1 & _ & _ & E4 & E5 & _).
  cbn. exists snapshot, mis. split_and!; try done.
  subst run_id. by eapply new_run_metrics.
Qed.

(** C16. Calculating a snapshot again, with its facts unchanged, returns the same
    result — run, status, number of metrics and of warnings — and writes
    nothing, whatever the clock says. *)
Theorem calculation_idempotent uuid4 started completed started' completed' snapshot_id db result db'
    (Huuid : Inj (=) (=) uuid4) :
  calc_wf uuid4 db →
  calculate_snapshot uuid4 started completed snapshot_id db = Ok (result, db') →
  calculate_snapshot uuid4 started' completed' snapshot_id db' = Ok (result, db').
Proof.
  intros Hwf H0. assert (H := H0). unfold calculate_snapshot in H.
  apply bind_Ok in H as (snapshot & Hs%require_some_Ok & H). cbv zeta in H.
  set (fs := list_normalized_facts_for_calculation snapshot_id db) in *.
  destruct (find_calculation_run snapshot_id (_input_checksum fs) db) as [existing|] eqn:Hf.
  { injection H as <- <-. unfold calculate_snapshot. rewrite Hs.
    unfold require_some, mbind, res_bind. cbv zeta. fold fs. by rewrite Hf. }
  assert (Hid : ns_snapshot_id snapshot = snapshot_id).
  { apply find_elem in Hs as [_ E]. by apply bool_decide_eq_true in E. }
  rewrite Hid in H.
  apply calculate_new_Ok in H as (mis & run_id & Er & Hnew & Hall & -> & E1 & E2 & E3 & E4 & E5 & E6).
  subst run_id. rewrite complete_only_new in E6 by done. cbn in E6.
  unfold calculate_snapshot. rewrite E1, Hs. unfold require_some, mbind at 1, res_bind.
  assert (Hfs : list_normalized_facts_for_calculation snapshot_id db' = fs).
  { unfold fs, list_normalized_facts_for_calculation, calculation_fact. by rewrite E1, E2. }
  rewrite Hfs. cbv zeta. unfold find_calculation_run. rewrite E6, find_app_none by by apply find_conj_none.
  set (run := complete_run _ _ _ _). assert (Hkey : run_key snapshot_id (_input_checksum fs) run = true).
  { unfold run_key. cbn. by rewrite !bool_decide_eq_true_2. }
  cbn [find]. rewrite Hkey. unfold mbind, option_bind. cbn -[metrics_of].
  rewrite (new_run_metrics _ _ _ _ mis db db') by done.
  by rewrite length_map, <- (Forall2_length _ _ _ Hall).
Qed.

(** * Samples *)

(** The metrics of the normalized sample snapshot. *)
Module CalcSample.
Definition uuid4 (n : nat) : UUID := mkUUID (str_repeat n "c").
Definition db : CalcDb :=
  mkCalcDb
    (match NormSample.run [NormSample.q1; NormSample.h1] with
     | Ok (_, db) => db
     | Raise _ => NormSample.db []
     end)
    [(mkUUID "concept", "REVENUE")]
    (map (λ d, mkStoredFormula (mkUUID (Metric.value (fd_metric_code d)))
       (Metric.value (fd_metric_code d)) (fd_formula_version d) true) FORMULA_REGISTRY)
    [] [] [] 0.
Abbreviation run := (calculate_snapshot uuid4 0 1 (mkUUID "snap") db).
End CalcSample.

Lemma sample_uuid4_inj : Inj (=) (=) CalcSample.uuid4.
Proof.
  assert (Hlen : ∀ n, String.length (str_repeat n "c") = n).
  { induction n as [|n IH]; [done|]. exact (f_equal S IH). }
  intros n m E%(f_equal (λ u, String.length (uuid_str u))). cbn in E. by rewrite !Hlen in E.
Qed.

Lemma sample_calc_wf : calc_wf CalcSample.uuid4 CalcSample.db.
Proof. by split; intros ? ?%elem_of_nil. Qed.

Lemma sample_calc_ok : is_ok CalcSample.run = true.
Proof. vm_compute. reflexivity. Qed.

Lemma sample_calc_new : find_calculation_run (mkUUID "snap")
  (_input_checksum (list_normalized_facts_for_calculation (mkUUID "snap") CalcSample.db))
  CalcSample.db = None.
Proof. reflexivity. Qed.

Lemma calculation_run_spec_witness :
  ∃ result db' (mis : list (DerivedMetricWrite * list CalculationInputWrite)), CalcSample.run = Ok (result, db') ∧
  metrics_of (cres_calculation_run_id result) db' = map fst mis ∧ length mis = 23%nat.
Proof.
  assert (H := sample_calc_ok). destruct (calculate_snapshot _ _ _ _ _) as [[result db']|e] eqn:E;
    [|discriminate H].
  destruct (calculation_run_spec CalcSample.uuid4 0 1 (mkUUID "snap") CalcSample.db result db'
    sample_uuid4_inj sample_calc_wf E sample_calc_new) as (snapshot & mis & _ & Hall & Hm & _).
  exists result, db', mis. split; [reflexivity|]. split; [exact Hm|].
  rewrite <- (Forall2_length _ _ _ Hall). reflexivity.
Defined.

Lemma calculation_idempotent_witness : ∃ result db', CalcSample.run = Ok (result, db') ∧
  calculate_snapshot CalcSample.uuid4 7 8 (mkUUID "snap") db' = Ok (result, db').
Proof.
  assert (H := sample_calc_ok). destruct (calculate_snapshot _ _ _ _ _) as [[result db']|e] eqn:E;
    [|discriminate H].
  exists result, db'. split; [reflexivity|].
  exact (calculation_idempotent CalcSample.uuid4 0 1 7 8 (mkUUID "snap") CalcSample.db result db'
    sample_uuid4_inj sample_calc_wf E).
Defined.

(** Facts of one filer for the lemmas below. *)
Definition calc_fact (id concept period_id period : string) (year : Z) (ptype : PeriodType)
    (end_ : date) (published : time) (cumulative single : bool) (value : Z) :
    NormalizedFactForCalculation :=
  mkCalcFact (mkUUID id) concept (mkUUID period_id) year None period ptype None end_ None "CAS"
    cumulative single (dec_of_Z value) "ONE" (Some "CNY") published.

(** Average balances take the two latest versions, whatever their periods: with
    a corrected closing balance on file, the "opening" balance is the superseded
    closing balance and the real opening one is not used. *)
Lemma superseded_closing_used_as_opening :
  let opening := calc_fact "a" "TOTAL_ASSETS" "p22" "FY" 2022 PType.INSTANT 19357 100 false false 1000 in
  let closing := calc_fact "b" "TOTAL_ASSETS" "p23" "FY" 2023 PType.INSTANT 19722 200 false false 3000 in
  let corrected := calc_fact "c" "TOTAL_ASSETS" "p23b" "FY" 2023 PType.INSTANT 19722 300 false false 2000 in
  map (λ rf, (rf.1, nc_id rf.2))
    (bind_selected (get_formula Metric.ROA_TOTAL) [opening; closing; corrected]) =
  [("opening_total_assets", mkUUID "b"); ("closing_total_assets", mkUUID "c")].
Proof. vm_compute. reflexivity. Qed.

(** A reported year and the fourth quarter derived from it end on the same day
    and are published together: which of them the metrics are about is decided by
    the random ids of the rows. *)
Lemma metric_period_depends_on_row_ids :
  let year id := calc_fact id "REVENUE" "fy" "FY" 2023 PType.ANNUAL 19722 100 true false 400 in
  let quarter id := calc_fact id "REVENUE" "q4" "Q4" 2023 PType.QUARTER 19722 100 false true 100 in
  let income := calc_fact "i" "OPERATING_INCOME" "fy" "FY" 2023 PType.ANNUAL 19722 100 true false 40 in
  let anchor y q := nc_fiscal_period <$> _latest_anchor ["revenue"] [year y; quarter q; income] in
  anchor "a" "b" = Some "Q4" ∧ anchor "b" "a" = Some "FY".
Proof. vm_compute. by split. Qed.
