(* ===== verification/ProviderGuards.v ===== *)
(** The guards in front of a data provider: providers/circuit_breaker.py,
    rate_limit.py (reservations), retry.py and the gate order of
    http_executor.py.  The circuit store is a finite map from scopes to
    snapshots; the reservations are the audit events the limiter writes. *)
From S2P Require Import Prelude PyDecimal PyText.

(** * Circuit breaker *)

Module Circuit.
Inductive ProviderCircuitStatus := CLOSED | OPEN | HALF_OPEN.
#[global] Instance ProviderCircuitStatus_eq_dec : EqDecision ProviderCircuitStatus.
Proof. solve_decision. Defined.
End Circuit.
Abbreviation ProviderCircuitStatus := Circuit.ProviderCircuitStatus.

Module Outcome.
Inductive CircuitBreakerOutcome := SUCCESS | TRANSIENT_FAILURE | PERMANENT_FAILURE.
#[global] Instance CircuitBreakerOutcome_eq_dec : EqDecision CircuitBreakerOutcome.
Proof. solve_decision. Defined.
End Outcome.
Abbreviation CircuitBreakerOutcome := Outcome.CircuitBreakerOutcome.

(** [CircuitBreakerScope]: a definition and a capability. *)
Abbreviation CircuitBreakerScope := (UUID * UUID)%type.

Record CircuitBreakerSnapshot := mkCircuit {
  cb_status : ProviderCircuitStatus; cb_failure_count : Z; cb_opened_at : option time;
  cb_half_open_probe_at : option time; cb_updated_at : time }.

Record CircuitBreakerDecision := mkDecision {
  cd_allowed : bool; cd_status : ProviderCircuitStatus; cd_reason_code : string }.

(** The rows of provider_circuit_breakers, unique per scope. *)
Abbreviation CircuitStore := (gmap CircuitBreakerScope CircuitBreakerSnapshot).

Definition _closed (now : time) : CircuitBreakerSnapshot := mkCircuit Circuit.CLOSED 0 None None now.

(** The limits the service is built with. *)
Record breaker_config := mkBreaker { failure_threshold : Z; reset_after_seconds : Z }.
Definition new_breaker (threshold reset : Z) : res breaker_config :=
  reject_if (negb ((1 <=? threshold) && (threshold <=? 100))) ValueError
    "CIRCUIT_FAILURE_THRESHOLD_INVALID";;
  reject_if (negb ((1 <=? reset) && (reset <=? 86400))) ValueError "CIRCUIT_RESET_WINDOW_INVALID";;
  Ok (mkBreaker threshold reset).

Section Breaker.
Context (config : breaker_config).

(** [before_call] *)
Definition before_call (scope : CircuitBreakerScope) (now : time) (store : CircuitStore) :
    CircuitBreakerDecision * CircuitStore :=
  let '(snapshot, store) := match store !! scope with
                            | Some s => (s, store)
                            | None => (_closed now, <[scope := _closed now]> store)
                            end in
  match cb_status snapshot with
  | Circuit.CLOSED => (mkDecision true Circuit.CLOSED "PROVIDER_CIRCUIT_CLOSED", store)
  | Circuit.HALF_OPEN => (mkDecision false Circuit.HALF_OPEN "PROVIDER_CIRCUIT_PROBE_IN_PROGRESS", store)
  | Circuit.OPEN =>
      if match cb_opened_at snapshot with
         | Some opened => opened + reset_after_seconds config * 1000000 <=? now
         | None => false
         end
      then
        (mkDecision true Circuit.HALF_OPEN "PROVIDER_CIRCUIT_HALF_OPEN_PROBE",
         <[scope := mkCircuit Circuit.HALF_OPEN (cb_failure_count snapshot) (cb_opened_at snapshot)
                      (Some now) now]> store)
      else (mkDecision false Circuit.OPEN "PROVIDER_CIRCUIT_OPEN", store)
  end.

(** [record_outcome] *)
Definition outcome_target (current : CircuitBreakerSnapshot) (outcome : CircuitBreakerOutcome)
    (now : time) : CircuitBreakerSnapshot :=
  match outcome with
  | Outcome.SUCCESS => _closed now
  | Outcome.PERMANENT_FAILURE =>
      mkCircuit (cb_status current) (cb_failure_count current) (cb_opened_at current)
        (cb_half_open_probe_at current) now
  | Outcome.TRANSIENT_FAILURE =>
      let failure_count := cb_failure_count current + 1 in
      let should_open := bool_decide (cb_status current = Circuit.HALF_OPEN) ||
                         (failure_threshold config <=? failure_count) in
      mkCircuit (if should_open then Circuit.OPEN else Circuit.CLOSED) failure_count
        (if should_open then Some now else None) None now
  end.
Definition record_outcome (scope : CircuitBreakerScope) (outcome : CircuitBreakerOutcome)
    (now : time) (store : CircuitStore) : CircuitBreakerSnapshot * CircuitStore :=
  let target := outcome_target (default (_closed now) (store !! scope)) outcome now in
  (target, <[scope := target]> store).

(** ** The breaker as a state machine

    What the breaker promises, one scope at a time. *)

Inductive phase :=
| Closed (failures : Z)
| Open (since : time)
| Probing.

Inductive event :=
| Call (scope : CircuitBreakerScope) (now : time)
| Report (scope : CircuitBreakerScope) (outcome : CircuitBreakerOutcome) (now : time).
Definition event_scope (e : event) : CircuitBreakerScope :=
  match e with Call s _ | Report s _ _ => s end.

(** One event: whether a call is let through, and the next phase. *)
Definition phase_step (e : event) (p : phase) : option bool * phase :=
  match e with
  | Call _ now =>
      match p with
      | Closed n => (Some true, Closed n)
      | Open since =>
          if since + reset_after_seconds config * 1000000 <=? now then (Some true, Probing)
          else (Some false, Open since)
      | Probing => (Some false, Probing)
      end
  | Report _ Outcome.SUCCESS _ => (None, Closed 0)
  | Report _ Outcome.PERMANENT_FAILURE _ => (None, p)
  | Report _ Outcome.TRANSIENT_FAILURE now =>
      (None, match p with
             | Closed n => if failure_threshold config <=? n + 1 then Open now else Closed (n + 1)
             | Open _ | Probing => Open now
             end)
  end.

Fixpoint phase_run (es : list event) (p : phase) : list bool * phase :=
  match es with
  | [] => ([], p)
  | e :: es =>
      let '(d, p) := phase_step e p in
      let '(ds, p) := phase_run es p in
      (match d with Some b => b :: ds | None => ds end, p)
  end.

(** The events of all scopes on the stored breaker, with the decisions taken for
    one of them. *)
Definition store_step (e : event) (store : CircuitStore) : option bool * CircuitStore :=
  match e with
  | Call s now => let '(d, store) := before_call s now store in (Some (cd_allowed d), store)
  | Report s o now => (None, (record_outcome s o now store).2)
  end.

Fixpoint store_run (scope : CircuitBreakerScope) (es : list event) (store : CircuitStore) :
    list bool * CircuitStore :=
  match es with
  | [] => ([], store)
  | e :: es =>
      let '(d, store) := store_step e store in
      let '(ds, store) := store_run scope es store in
      (match d with
       | Some b => if bool_decide (event_scope e = scope) then b :: ds else ds
       | None => ds
       end, store)
  end.

(** The phase a stored row is in. *)
Definition row_phase (row : option CircuitBreakerSnapshot) (p : phase) : Prop :=
  match row with
  | None => p = Closed 0
  | Some s =>
      match cb_status s with
      | Circuit.CLOSED => p = Closed (cb_failure_count s) ∧ cb_failure_count s < failure_threshold config
      | Circuit.OPEN => ∃ t, cb_opened_at s = Some t ∧ p = Open t ∧
          failure_threshold config ≤ cb_failure_count s
      | Circuit.HALF_OPEN => p = Probing ∧ failure_threshold config ≤ cb_failure_count s
      end
  end.

Context (threshold_positive : 1 ≤ failure_threshold config).

Lemma store_step_phase e store p :
  row_phase (store !! event_scope e) p →
  (store_step e store).1 = (phase_step e p).1 ∧
  row_phase ((store_step e store).2 !! event_scope e) (phase_step e p).2.
Proof.
  destruct e as [s now|s o now]; cbn; intros H.
  - unfold before_call. destruct (store !! s) as [row|] eqn:E.
    + cbn in H. destruct (cb_status row) eqn:Es; cbn.
      * destruct H as [-> H]. cbn. rewrite E. cbn. by rewrite Es.
      * destruct H as (t & Ht & -> & H). rewrite Ht. cbn. destruct (_ <=? now); cbn.
        -- by rewrite lookup_insert_eq.
        -- rewrite E. cbn. rewrite Es. split; [done|]. by exists t.
      * destruct H as [-> H]. cbn. rewrite E. cbn. by rewrite Es.
    + cbn in H. subst p. cbn. rewrite lookup_insert_eq. cbn. split; [done|]. split; [done|lia].
  - split; [by destruct o|]. rewrite lookup_insert_eq. unfold outcome_target.
    destruct o; cbn.
    + split; [done|lia].
    + destruct (store !! s) as [row|] eqn:E; cbn in H |- *.
      * destruct (cb_status row) eqn:Es; cbn.
        -- destruct H as [-> H]. destruct (Z.leb_spec (failure_threshold config) (cb_failure_count row + 1)); cbn;
             [by exists now|]. split; [done|lia].
        -- destruct H as (t & Ht & -> & H). destruct (Z.leb_spec (failure_threshold config) (cb_failure_count row + 1)); [cbn|lia].
           exists now. split_and!; [done|done|lia].
        -- destruct H as [-> H]. cbn. exists now. split_and!; [done|done|lia].
      * subst p. destruct (Z.leb_spec (failure_threshold config) (0 + 1)); cbn; [by exists now|].
        split; [done|lia].
    + destruct (store !! s) as [row|] eqn:E; cbn in H |- *.
      * by destruct (cb_status row).
      * subst p. split; [done|lia].
Qed.

Lemma store_step_other e store s : event_scope e ≠ s → (store_step e store).2 !! s = store !! s.
Proof.
  intros Hne. destruct e as [s' now|s' o now]; cbn in *; [|by rewrite lookup_insert_ne].
  unfold before_call. destruct (store !! s') as [row|]; cbn.
  - destruct (cb_status row); cbn; try done. destruct (match cb_opened_at row with Some _ => _ | None => _ end);
      cbn; [by rewrite lookup_insert_ne|done].
  - by rewrite lookup_insert_ne.
Qed.

Lemma store_run_phase scope es : ∀ store p, row_phase (store !! scope) p →
  (store_run scope es store).1 = (phase_run (filter (λ e, event_scope e = scope) es) p).1.
Proof.
  induction es as [|e es IH]; intros store p H; [done|].
  destruct (decide (event_scope e = scope)) as [Heq|Hne].
  - rewrite filter_cons_True by done. cbn [store_run phase_run].
    rewrite <- Heq in H. destruct (store_step_phase e store p H) as [Hd Hp].
    destruct (store_step e store) as [d store'], (phase_step e p) as [d' p']. cbn in Hd, Hp. subst d'.
    rewrite Heq in Hp. specialize (IH store' p' Hp).
    destruct (store_run scope es store') as [ds st], (phase_run _ p') as [ds' p2]. cbn in IH |- *.
    subst ds'. rewrite bool_decide_eq_true_2 by done. by destruct d.
  - rewrite filter_cons_False by done. cbn [store_run].
    assert (Ho := store_step_other e store scope Hne).
    destruct (store_step e store) as [d store']. cbn in Ho. rewrite <- Ho in H. rewrite <- (IH store' p H).
    destruct (store_run scope es store') as [ds st]. cbn. destruct d; [|done].
    by rewrite bool_decide_eq_false_2.
Qed.
End Breaker.

(** C17. The persisted circuit breaker implements one state machine per scope:
    whatever calls and outcomes of any scopes interleave, the calls of a scope
    are let through exactly as its own machine says — all while fewer than the
    threshold of transient failures followed one another, none while open, and
    a single probe once the reset window has passed, which a success closes and
    a transient failure opens again. *)
Theorem breaker_refines threshold reset config scope es :
  new_breaker threshold reset = Ok config →
  (store_run config scope es ∅).1 =
  (phase_run config (filter (λ e, event_scope e = scope) es) (Closed 0)).1.
Proof.
  unfold new_breaker. rewrite !guard_seq. intros (H%negb_false_iff & _ & [= <-]).
  apply andb_true_iff in H as [H%Z.leb_le _]. by apply store_run_phase.
Qed.

Module GuardSample.
Definition scope : CircuitBreakerScope := (mkUUID "provider", mkUUID "prices").
Definition other : CircuitBreakerScope := (mkUUID "provider", mkUUID "filings").
Definition events : list event :=
  [Call scope 0; Report scope Outcome.TRANSIENT_FAILURE 1; Call other 1;
   Report other Outcome.SUCCESS 2; Call scope 2; Report scope Outcome.TRANSIENT_FAILURE 3;
   Call scope 4; Call other 5; Call scope 61000003; Call scope 61000004;
   Report scope Outcome.SUCCESS 61000005; Call scope 61000006].
End GuardSample.

Lemma breaker_refines_witness :
  (store_run (mkBreaker 2 60) GuardSample.scope GuardSample.events ∅).1 =
    [true; true; false; true; false; true] ∧
  (store_run (mkBreaker 2 60) GuardSample.scope GuardSample.events ∅).1 =
    (phase_run (mkBreaker 2 60)
       (filter (λ e, event_scope e = GuardSample.scope) GuardSample.events) (Closed 0)).1.
Proof.
  split; [vm_compute; reflexivity|].
  exact (breaker_refines 2 60 (mkBreaker 2 60) GuardSample.scope GuardSample.events eq_refl).
Defined.

(** A probe that ends in a permanent failure leaves the scope half-open: no later
    call is let through at any time, so no outcome can ever be recorded again. *)
Lemma permanent_failure_wedges config scope now store :
  (snd (record_outcome config scope Outcome.PERMANENT_FAILURE now
     (<[scope := mkCircuit Circuit.HALF_OPEN 3 (Some 0) (Some 1) 1]> store))) !! scope =
    Some (mkCircuit Circuit.HALF_OPEN 3 (Some 0) (Some 1) now) ∧
  ∀ later s, s !! scope = Some (mkCircuit Circuit.HALF_OPEN 3 (Some 0) (Some 1) now) →
    before_call config scope later s =
      (mkDecision false Circuit.HALF_OPEN "PROVIDER_CIRCUIT_PROBE_IN_PROGRESS", s).
Proof.
  unfold record_outcome. split.
  - cbn. rewrite lookup_insert_eq. cbn. by rewrite lookup_insert_eq.
  - intros later s E. unfold before_call. by rewrite E.
Qed.

(** * Retry *)

Record ProviderRetryOutcome := mkRetryOutcome { ro_http_status : option Z; ro_error_code : option string }.
Record ProviderRetryBudget := mkRetryBudget {
  rb_max_attempts : Z; rb_remaining_requests : Z; rb_remaining_bytes : Z;
  rb_remaining_duration_seconds : decimal; rb_base_delay_seconds : decimal; rb_idempotent_read : bool }.
Record RetryDecision := mkRetryDecision {
  rd_retry : bool; rd_reason_code : string; rd_next_attempt : option Z; rd_delay_seconds : decimal;
  rd_resolve_credential_again : bool }.

Definition _TRANSIENT_STATUS : list Z := [408; 425; 429; 500; 502; 503; 504].
Definition _TRANSIENT_ERROR : list string := ["CONNECT_TIMEOUT"; "READ_TIMEOUT"].

(** [Decimal(2) ** n], exact for the few attempts a budget allows. *)
Definition dpow2 (n : Z) : decimal := dec_of_Z (2 ^ n).

Definition transient (o : ProviderRetryOutcome) : bool :=
  match ro_http_status o with Some s => bool_decide (s ∈ _TRANSIENT_STATUS) | None => false end ||
  match ro_error_code o with Some e => bool_decide (e ∈ _TRANSIENT_ERROR) | None => false end.

(** [ProviderRetryPolicy.classify] *)
Definition classify (outcome : ProviderRetryOutcome) (attempt : Z) (budget : ProviderRetryBudget) :
    res RetryDecision :=
  reject_if (attempt <? 1) ValueError "PROVIDER_RETRY_ATTEMPT_INVALID";;
  let delay := dmul (rb_base_delay_seconds budget) (dpow2 (attempt - 1)) in
  let available := rb_idempotent_read budget && (attempt <? rb_max_attempts budget) &&
    (0 <? rb_remaining_requests budget) && (0 <? rb_remaining_bytes budget) &&
    dle delay (rb_remaining_duration_seconds budget) in
  if negb available then
    Ok (mkRetryDecision false "PROVIDER_RETRY_BUDGET_EXHAUSTED" None dzero false)
  else if negb (transient outcome) then
    Ok (mkRetryDecision false "PROVIDER_RETRY_NOT_ELIGIBLE" None dzero false)
  else Ok (mkRetryDecision true "PROVIDER_RETRY_TRANSIENT" (Some (attempt + 1)) delay false).

(** The attempts a request makes when every outcome is transient. *)
Fixpoint attempts (fuel : nat) (outcome : ProviderRetryOutcome) (attempt : Z)
    (budget : ProviderRetryBudget) : res Z :=
  match fuel with
  | O => raise RuntimeError "fuel"
  | S fuel =>
      d ← classify outcome attempt budget;
      match rd_next_attempt d with
      | Some next => attempts fuel outcome next budget
      | None => Ok attempt
      end
  end.

(** Retrying ends within the budget's attempts, whatever the outcomes. *)
Lemma attempts_bounded outcome budget : ∀ fuel attempt,
  1 ≤ attempt ≤ rb_max_attempts budget → (Z.to_nat (rb_max_attempts budget - attempt) < fuel)%nat →
  ∃ n, attempts fuel outcome attempt budget = Ok n ∧ n ≤ rb_max_attempts budget.
Proof.
  induction fuel as [|fuel IH]; intros attempt Ha Hf; [lia|]. cbn. unfold classify.
  destruct (Z.ltb_spec attempt 1); [lia|]. cbn.
  destruct (rb_idempotent_read budget && (attempt <? rb_max_attempts budget)) eqn:E.
  2: { cbn. exists attempt. split; [done|lia]. }
  apply andb_true_iff in E as [_ E%Z.ltb_lt]. cbn.
  destruct (negb _); cbn; [exists attempt; split; [done|lia]|].
  destruct (negb _); cbn; [exists attempt; split; [done|lia]|]. apply IH; lia.
Qed.

(** * Rate limit reservations *)

(** The reservations of one scope checksum: the [created_at] of the
    RATE_LIMIT_RESERVATION audit events of a provider. *)
Record rate_event := mkRateEvent { re_provider : UUID; re_decision_code : string; re_created_at : time }.

(** Seconds between two instants: [Decimal(str(timedelta.total_seconds()))],
    exact to the microsecond. *)
Definition elapsed_seconds (now previous : time) : decimal :=
  mkDec (now - previous <? 0) (Z.abs (now - previous)) (-6).

(** [PostgresRateLimitReservationStore.reserve_slot] *)
Definition reserve_slot (provider : UUID) (checksum : string) (now : time) (interval : decimal)
    (events : list rate_event) : bool * list rate_event :=
  let code := "RATE_" +:+ checksum in
  let mine := filter (λ e, re_provider e = provider ∧ re_decision_code e = code) events in
  let granted := (true, events ++ [mkRateEvent provider code now]) in
  match map re_created_at mine with
  | [] => granted
  | t :: ts =>
      if dlt (elapsed_seconds now (foldr Z.max t ts)) interval then (false, events) else granted
  end.

(** [ProviderRateLimitScope.validate_rates] *)
Definition rates_valid (project official : decimal) : res unit :=
  reject_if (dle project dzero || dle official dzero) ValueError
    "Provider rates must be positive and finite";;
  reject_if (dle official project) ValueError
    "project rate must be strictly below official maximum".

Record RateLimitDecision := mkRateDecision {
  rl_allowed : bool; rl_reason_code : string; rl_retry_after_seconds : decimal;
  rl_scope_checksum : string }.

(** [ProviderRateLimiter.reserve] *)
Definition reserve (provider : UUID) (checksum : string) (project_rate : decimal) (now : time)
    (units : Z) (events : list rate_event) : res (RateLimitDecision * list rate_event) :=
  reject_if (negb ((1 <=? units) && (units <=? 100))) ValueError "PROVIDER_RATE_LIMIT_UNITS_INVALID";;
  interval ← ddiv (dec_of_Z units) project_rate;
  let '(allowed, events) := reserve_slot provider checksum now interval events in
  Ok (mkRateDecision allowed (if allowed then "PROVIDER_RATE_RESERVED" else "PROVIDER_RATE_LIMITED")
        (if allowed then dzero else interval) checksum, events).

(** A granted reservation waited its interval since every earlier one. *)
Lemma granted_spacing provider checksum now interval events events' e :
  reserve_slot provider checksum now interval events = (true, events') →
  e ∈ events → re_provider e = provider → re_decision_code e = "RATE_" +:+ checksum →
  dlt (elapsed_seconds now (re_created_at e)) interval = false.
Proof.
  unfold reserve_slot. set (mine := filter _ events). intros H He Hp Hc.
  assert (Hin : re_created_at e ∈ map re_created_at mine).
  { apply list_elem_of_fmap. exists e. split; [done|]. by apply list_elem_of_filter. }
  destruct (map re_created_at mine) as [|t ts]; [by apply elem_of_nil in Hin|].
  destruct (dlt _ interval) eqn:E; [done|].
  set (m := foldr Z.max t ts) in *. assert (Hm : re_created_at e ≤ m).
  { unfold m. clear -Hin. revert Hin. generalize (re_created_at e). intros x.
    assert (Hfold : ∀ y l, y ≤ foldr Z.max y l ∧ ∀ z, z ∈ l → z ≤ foldr Z.max y l).
    { intros y l. induction l as [|w l [IH1 IH2]]; cbn; [split; [lia|by intros z ?%elem_of_nil]|].
      split; [lia|]. intros z [->|Hz]%elem_of_cons; [lia|]. specialize (IH2 z Hz). lia. }
    destruct (Hfold t ts) as [H1 H2]. intros [->|Hx]%elem_of_cons; [done|by apply H2]. }
  apply not_true_iff_false. intros Hlt. apply not_true_iff_false in E. apply E.
  set (s := Z.min (-6) (dexp interval)).
  apply (dlt_scaled _ _ s) in Hlt; [|cbn; lia..]. apply (dlt_scaled _ _ s); [cbn; lia..|].
  assert (Hsc : ∀ a, dscaled (elapsed_seconds now a) s = (now - a) * 10 ^ (-6 - s)).
  { intros a. unfold dscaled, dint, elapsed_seconds; cbn. destruct (Z.ltb_spec (now - a) 0); f_equal; lia. }
  rewrite Hsc in Hlt |- *. assert (0 < 10 ^ (-6 - s)) by (apply Z.pow_pos_nonneg; lia). nia.
Qed.

(** * The gate order of a controlled execution *)

Module Gate.
Inductive ProviderExecutionGate :=
  | DEFINITION | CAPABILITY | LICENSE | PROVIDER_POLICY | CREDENTIAL_REFERENCE
  | CONFIGURATION_VALIDATION | LIVE_AUTHORIZATION | NETWORK | CIRCUIT | ENDPOINT | RATE_LIMIT
  | CACHE.
#[global] Instance ProviderExecutionGate_eq_dec : EqDecision ProviderExecutionGate.
Proof. solve_decision. Defined.
End Gate.
Abbreviation ProviderExecutionGate := Gate.ProviderExecutionGate.

Inductive ControlledExecutionStatus := COMPLETED | BLOCKED.

Record ProviderGateDecision := mkGateDecision { gd_allowed : bool; gd_reason_code : string }.

Record ControlledExecutionResult := mkExecution {
  ex_status : ControlledExecutionStatus; ex_blocked_gate : option ProviderExecutionGate;
  ex_reason_code : string; ex_executed_gates : list ProviderExecutionGate;
  ex_body : option string }.

(** What a transport returns: a body, or a ProviderTransportResult. *)
Inductive transport_result :=
| RawBody (body : string)
| TransportResult (completed : bool) (reason_code : string) (body : option string).

Definition _governance : list ProviderExecutionGate :=
  [Gate.DEFINITION; Gate.CAPABILITY; Gate.LICENSE; Gate.PROVIDER_POLICY; Gate.CREDENTIAL_REFERENCE;
   Gate.CONFIGURATION_VALIDATION; Gate.LIVE_AUTHORIZATION; Gate.NETWORK].
Definition _operational : list ProviderExecutionGate :=
  [Gate.CIRCUIT; Gate.ENDPOINT; Gate.RATE_LIMIT; Gate.CACHE].

(** What an execution does to the outside, in order. *)
Inductive effect {Credential : Type} :=
| Evaluated (gate : ProviderExecutionGate) (allowed : bool)
| Resolved
| Sent (credential : Credential)
| Audited (status : ControlledExecutionStatus) (reason_code : string).
Arguments effect : clear implicits.

Section Executor.
(** The injected ports: gates, credential resolver and transport act on a world
    of their own. *)
Context {World Credential : Type}.
Context (evaluate : ProviderExecutionGate → World → ProviderGateDecision * World)
  (resolve : World → Credential * World)
  (send : Credential → World → transport_result * World).

Abbreviation trace := (list (effect Credential)).

(** One phase of gates: the result of the first that denies. *)
Fixpoint run_gates (gates executed : list ProviderExecutionGate) (w : World) :
    option ControlledExecutionResult * list ProviderExecutionGate * World * trace :=
  match gates with
  | [] => (None, executed, w, [])
  | gate :: gates =>
      let '(decision, w) := evaluate gate w in
      let executed := executed ++ [gate] in
      if gd_allowed decision then
        let '(r, executed, w, tr) := run_gates gates executed w in
        (r, executed, w, Evaluated gate true :: tr)
      else
        (Some (mkExecution BLOCKED (Some gate) (gd_reason_code decision) executed None), executed, w,
         [Evaluated gate false; Audited BLOCKED (gd_reason_code decision)])
  end.

(** [DefaultControlledProviderExecutor.execute] *)
Definition execute (w : World) : ControlledExecutionResult * World * trace :=
  let '(blocked, executed, w, tr) := run_gates _governance [] w in
  match blocked with
  | Some r => (r, w, tr)
  | None =>
      let '(credential, w) := resolve w in
      let '(blocked, executed, w, tr') := run_gates _operational executed w in
      let tr := tr ++ [Resolved] ++ tr' in
      match blocked with
      | Some r => (r, w, tr)
      | None =>
          let '(result, w) := send credential w in
          match result with
          | TransportResult false reason _ =>
              (mkExecution BLOCKED (Some Gate.NETWORK) reason executed None, w,
               tr ++ [Sent credential; Audited BLOCKED reason])
          | TransportResult true _ body =>
              (mkExecution COMPLETED None "PROVIDER_EXECUTION_COMPLETED" executed body, w,
               tr ++ [Sent credential; Audited COMPLETED "PROVIDER_EXECUTION_COMPLETED"])
          | RawBody body =>
              (mkExecution COMPLETED None "PROVIDER_EXECUTION_COMPLETED" executed (Some body), w,
               tr ++ [Sent credential; Audited COMPLETED "PROVIDER_EXECUTION_COMPLETED"])
          end
      end
  end.

(** Gates that all let the request through. *)
Definition all_allowed (gates : list ProviderExecutionGate) : trace :=
  map (λ gate, Evaluated gate true) gates.

(** What running a phase of gates amounts to. *)
Lemma run_gates_spec gates : ∀ executed w r executed' w' tr,
  run_gates gates executed w = (r, executed', w', tr) →
  match r with
  | None => executed' = executed ++ gates ∧ tr = all_allowed gates
  | Some res => ∃ before gate after reason, gates = before ++ gate :: after ∧
      executed' = executed ++ before ++ [gate] ∧
      res = mkExecution BLOCKED (Some gate) reason executed' None ∧
      tr = all_allowed before ++ [Evaluated gate false; Audited BLOCKED reason]
  end.
Proof.
  induction gates as [|gate gates IH]; intros executed w r executed' w' tr; cbn.
  - intros [= <- <- _ <-]. by rewrite app_nil_r.
  - destruct (evaluate gate w) as [[[] reason] w1]; cbn.
    + destruct (run_gates gates _ w1) as [[[r1 ex1] w2] tr1] eqn:E. intros [= <- <- _ <-].
      apply IH in E. destruct r1 as [res|].
      * destruct E as (before & g & after & reason' & -> & -> & -> & ->).
        exists (gate :: before), g, after, reason'. by rewrite <- !app_assoc.
      * destruct E as [-> ->]. by rewrite <- app_assoc.
    + intros [= <- <- _ <-]. exists [], gate, gates, reason. by split_and!.
Qed.

(** The traces the executor may leave: it stops at the first gate that denies,
    resolves the credential only after every governance gate, sends only after
    every gate, and audits the outcome once, last. *)
Inductive fail_closed (res : ControlledExecutionResult) : trace → Prop :=
| governance_denied before gate after reason :
    _governance = before ++ gate :: after →
    res = mkExecution BLOCKED (Some gate) reason (before ++ [gate]) None →
    fail_closed res (all_allowed before ++ [Evaluated gate false; Audited BLOCKED reason])
| operation_denied before gate after reason :
    _operational = before ++ gate :: after →
    res = mkExecution BLOCKED (Some gate) reason (_governance ++ before ++ [gate]) None →
    fail_closed res (all_allowed _governance ++ [Resolved] ++ all_allowed before ++
      [Evaluated gate false; Audited BLOCKED reason])
| request_sent credential :
    ex_executed_gates res = _governance ++ _operational →
    (ex_status res = BLOCKED → ex_blocked_gate res = Some Gate.NETWORK ∧ ex_body res = None) →
    fail_closed res (all_allowed _governance ++ [Resolved] ++ all_allowed _operational ++
      [Sent credential; Audited (ex_status res) (ex_reason_code res)]).

(** The executor is fail-closed, whatever its gates, resolver and transport do. *)
Theorem execute_fail_closed w : let '(res, _, tr) := execute w in fail_closed res tr.
Proof.
  unfold execute. destruct (run_gates _governance [] w) as [[[b1 ex1] w1] tr1] eqn:E1.
  apply run_gates_spec in E1. destruct b1 as [r1|].
  { destruct E1 as (before & gate & after & reason & E & -> & Er & ->). by eapply governance_denied. }
  destruct E1 as [-> ->]. destruct (resolve w1) as [credential w2].
  destruct (run_gates _operational _ w2) as [[[b2 ex2] w3] tr2] eqn:E2.
  apply run_gates_spec in E2. destruct b2 as [r2|].
  { destruct E2 as (before & gate & after & reason & E & -> & Er & ->). by eapply operation_denied. }
  destruct E2 as [-> ->]. destruct (send credential w3) as [result w4].
  destruct result as [body|[] reason body]; rewrite <- !app_assoc.
  - exact (request_sent (mkExecution COMPLETED None "PROVIDER_EXECUTION_COMPLETED" _ (Some body))
      credential eq_refl ltac:(done)).
  - exact (request_sent (mkExecution COMPLETED None "PROVIDER_EXECUTION_COMPLETED" _ body)
      credential eq_refl ltac:(done)).
  - exact (request_sent (mkExecution BLOCKED (Some Gate.NETWORK) reason _ None)
      credential eq_refl ltac:(done)).
Qed.
End Executor.
