(* ===== verification/AgentRun.v ===== *)
(** The deterministic execution service (research_agent/application.py): it
    runs the steps of a stored plan under every guard, persists the audit
    trail, builds and validates claims, assembles the package and ends the run;
    with the run planning of cli_agent.py and the step, invocation, observation,
    evidence and package tables of db/repositories/research_agent.py. *)
From S2P Require Import Prelude PyDecimal PyText Sha256 AgentModel RunControl PlanModel Preflight.
From S2P Require Import ToolRun PyParse Ledger Claims.
From Stdlib Require Import Ascii.

(** * Tables *)

Record agent_db := mkAgentDb {
  ag_runs : run_db;
  ag_planning : planning_db;
  ag_invocations : list ResearchToolInvocationRecord;
  ag_observations : list ResearchObservationWrite;
  ag_evidence : list ResearchEvidenceRecord;
  ag_claims : claims_db;
  ag_packages : gmap UUID ResearchPackageRecord }.

Definition with_runs (db : agent_db) (x : run_db) : agent_db :=
  mkAgentDb x (ag_planning db) (ag_invocations db) (ag_observations db) (ag_evidence db)
    (ag_claims db) (ag_packages db).
Definition with_planning (db : agent_db) (x : planning_db) : agent_db :=
  mkAgentDb (ag_runs db) x (ag_invocations db) (ag_observations db) (ag_evidence db)
    (ag_claims db) (ag_packages db).
Definition with_invocations (db : agent_db) (x : list ResearchToolInvocationRecord) : agent_db :=
  mkAgentDb (ag_runs db) (ag_planning db) x (ag_observations db) (ag_evidence db)
    (ag_claims db) (ag_packages db).
Definition with_observations (db : agent_db) (x : list ResearchObservationWrite) : agent_db :=
  mkAgentDb (ag_runs db) (ag_planning db) (ag_invocations db) x (ag_evidence db)
    (ag_claims db) (ag_packages db).
Definition with_evidence (db : agent_db) (x : list ResearchEvidenceRecord) : agent_db :=
  mkAgentDb (ag_runs db) (ag_planning db) (ag_invocations db) (ag_observations db) x
    (ag_claims db) (ag_packages db).
Definition with_claims (db : agent_db) (x : claims_db) : agent_db :=
  mkAgentDb (ag_runs db) (ag_planning db) (ag_invocations db) (ag_observations db)
    (ag_evidence db) x (ag_packages db).
Definition with_packages (db : agent_db) (x : gmap UUID ResearchPackageRecord) : agent_db :=
  mkAgentDb (ag_runs db) (ag_planning db) (ag_invocations db) (ag_observations db)
    (ag_evidence db) (ag_claims db) x.

(** [transition_step] *)
Definition moved_step (s : ResearchStepRecord) (target : ResearchStepStatus) (now : time)
    (skip_reason : option string) : ResearchStepRecord :=
  mkStep (st_id s) (st_run_id s) (st_plan_id s) (definition s) target skip_reason
    (st_created_at s) now (if bool_decide (target ∈ _TERMINAL_STEPS) then Some now else None).
Definition transition_step (p : planning_db) (step_id : UUID) (expected target : ResearchStepStatus)
    (now : time) (skip_reason : option string) : res (ResearchStepRecord * planning_db) :=
  s ← require_some (head (filter (λ s, st_id s = step_id ∧ st_status s = expected) (plan_steps p)))
    LookupError "RESEARCH_STEP_STATE_MISMATCH";
  let s' := moved_step s target now skip_reason in
  Ok (s', mkPlanning (plans p)
    (map (λ x, if bool_decide (st_id x = step_id) then s' else x) (plan_steps p))).

(** [add_invocation] *)
Definition add_invocation (db : agent_db) (v : ResearchToolInvocationWrite) : res agent_db :=
  let rows := ag_invocations db in
  reject_if (existsb (λ r, bool_decide (iv_id (ir_write r) = iv_id v)) rows)
    IntegrityError "pk_research_tool_invocations";;
  reject_if (existsb (λ r, bool_decide (iv_step_id (ir_write r) = iv_step_id v) &&
                           (iv_attempt_number (ir_write r) =? iv_attempt_number v)) rows)
    IntegrityError "uq_research_tool_invocations_step_attempt";;
  Ok (with_invocations db (rows ++ [mkInvRecord v None])).

(** [complete_invocation] of the repository. *)
Definition complete_stored_invocation (db : agent_db) (id : UUID)
    (v : ResearchToolInvocationCompletion) : res agent_db :=
  require_some (head (filter (λ r, iv_id (ir_write r) = id) (ag_invocations db)))
    LookupError "RESEARCH_TOOL_INVOCATION_NOT_FOUND";;
  Ok (with_invocations db (map (λ r, if bool_decide (iv_id (ir_write r) = id)
    then mkInvRecord (ir_write r) (Some v) else r) (ag_invocations db))).

(** [add_observation]: one per invocation, and one per component step. *)
Definition add_observation (db : agent_db) (v : ResearchObservationWrite) : res agent_db :=
  let rows := ag_observations db in
  reject_if (existsb (λ r, bool_decide (ob_id r = ob_id v)) rows)
    IntegrityError "pk_research_observations";;
  reject_if (existsb (λ r, is_some (ob_invocation_id v) &&
      bool_decide (ob_invocation_id r = ob_invocation_id v)) rows)
    IntegrityError "ux_research_observations_invocation_nonnull";;
  reject_if (existsb (λ r, is_none (ob_invocation_id v) && is_none (ob_invocation_id r) &&
      bool_decide (ob_research_step_id r = ob_research_step_id v)) rows)
    IntegrityError "ux_research_observations_component_step";;
  Ok (with_observations db (rows ++ [v])).

(** [add_evidence] of one record. *)
Definition add_evidence (db : agent_db) (v : ResearchEvidenceRecord) : res agent_db :=
  reject_if (existsb (λ r, bool_decide (e_id r = e_id v)) (ag_evidence db))
    IntegrityError "pk_research_evidence";;
  Ok (with_evidence db (ag_evidence db ++ [v])).

(** [list_evidence]: by creation time, then identifier. *)
Definition evidence_order (a b : ResearchEvidenceRecord) : bool :=
  (e_created_at a <? e_created_at b) ||
  ((e_created_at a =? e_created_at b) && str_ltb (uuid_str (e_id a)) (uuid_str (e_id b))).
Definition list_evidence (db : agent_db) (run_id : UUID) : list ResearchEvidenceRecord :=
  sort_by evidence_order (filter (λ e, e_run_id e = run_id) (ag_evidence db)).

(** [add_package]: one package per run; the row has its own identifier. *)
Definition add_package (db : agent_db) (id : UUID) (created_at : time) (v : ResearchPackageRecord) :
    res (ResearchPackageRecord * agent_db) :=
  reject_if (is_some (ag_packages db !! pk_run_id v)) IntegrityError "uq_research_packages_run";;
  let row := mkPackageRecord (pk_write v) (pk_checksum v) id created_at in
  Ok (row, with_packages db (<[pk_run_id v := row]> (ag_packages db))).

(** * The composed registries *)

(** A registry: the names and versions it lists, and its [execute]. *)
Record tool_registry := mkRegistry {
  rg_names : list (string * string);
  rg_execute : string → string → list (string * pyval) → res (list (string * pyval)) }.

(** [CompositeReadOnlyToolInvoker.__init__]: no name and version twice. *)
Definition composite_ok (registries : list tool_registry) : res unit :=
  reject_if (negb (bool_decide (NoDup (concat (map rg_names registries)))))
    ValueError "DUPLICATE_COMPOSITE_TOOL".

(** The payload handed to the registry. *)
Definition composite_payload (name : string) (payload : list (string * pyval)) :
    list (string * pyval) :=
  if bool_decide (name = "search_document_chunks") then
    let popped := dict_del payload "query_template" in
    match dict_get payload "query_template" with
    | Some (VStr t) =>
        if bool_decide (t = "company_disclosures_bilingual-v1") && negb (dict_has popped "query")
        then dict_set popped "query" (VStr "company disclosures") else popped
    | _ => popped
    end
  else payload.

(** [CompositeReadOnlyToolInvoker.execute] *)
Definition composite_execute (registries : list tool_registry) (name version : string)
    (payload : list (string * pyval)) : res (list (string * pyval)) :=
  match head (filter (λ r, (name, version) ∈ rg_names r) registries) with
  | Some r => rg_execute r name version (composite_payload name payload)
  | None => raise ToolRegistryError "TOOL_NOT_FOUND"
  end.

(** * The service *)

(** [_context] *)
Definition _context (run : ResearchAgentRunRecord) (request : ResearchRequestRecord) :
    ControlledRunContext :=
  mkContext (run_security_id run) (run_snapshot_id run) (run_research_as_of_time run)
    (run_id run) (rq_id request) (run_policy_version run) (run_tool_catalog_version run).

(** [_arguments] *)
Definition _arguments (step : ResearchStepRecord) : list (string * pyval) :=
  match def_tool_name (definition step) with
  | Some name =>
      if bool_decide (name = "search_document_chunks") then
        [("query", VStr "company disclosures"); ("max_results", VInt 10)]
      else if bool_decide (name ∈ ["get_corporate_actions"; "get_financial_metrics";
          "get_financial_periods"; "get_normalized_financial_facts"; "list_document_versions";
          "list_snapshot_items"]) then [("limit", VInt 20)]
      else []
  | None => []
  end.

(** [_step_status] *)
Definition _step_status (s : ObservationStatus) : ResearchStepStatus :=
  match s with
  | ObsStatus.PASS => StepStatus.PASS
  | ObsStatus.PARTIAL => StepStatus.PARTIAL
  | ObsStatus.BLOCKED => StepStatus.BLOCKED
  | ObsStatus.FAIL => StepStatus.FAIL
  end.

(** The collaborators of the service: for the n-th step its executor's
    registries, identifiers and clock, its observation and evidence
    identifiers and its transition times; the snapshot and security
    repositories; and what the end of the run uses. *)
Record service_env := mkServiceEnv {
  sv_tools : nat → tool_env;
  sv_clock : nat → nat → time;
  sv_observation_id : nat → UUID;
  sv_evidence_id : nat → UUID;
  sv_get_snapshot : UUID → option DataSnapshotRecord;
  sv_get_security : UUID → option SecurityDetail;
  sv_claims : claim_env;
  sv_package_id : UUID;
  sv_row_id : UUID;
  sv_start_event : UUID;
  sv_end_event : UUID;
  sv_now : nat → time }.

Section Service.
Context (env : service_env) (request : ResearchRequestRecord) (policy : ResearchPolicyRecord)
  (catalog : ToolCatalogSnapshot).

Definition real_research : bool := bool_decide (rq_research_mode request = RMode.REAL_RESEARCH).

(** [_transition] of the n-th step, at its k-th clock reading. *)
Definition _transition (n k : nat) (db : agent_db) (step : ResearchStepRecord)
    (expected target : ResearchStepStatus) : res (ResearchStepRecord * agent_db) :=
  r ← transition_step (ag_planning db) (st_id step) expected target (sv_clock env n k) None;
  Ok (r.1, with_planning db r.2).

(** [_persist_execution] *)
Definition _persist_execution (n : nat) (db : agent_db) (result : ToolExecutionResult)
    (context : ControlledRunContext) (tool_name : string) : res agent_db :=
  let record := tr_invocation result in
  db ← add_invocation db (ir_write record);
  db ← complete_stored_invocation db (iv_id (ir_write record))
    (default (mkCompletion (iv_status (ir_write record)) None None None (sv_clock env n 9))
       (ir_completion record));
  match tr_observation result with
  | None => Ok db
  | Some observation =>
      db ← add_observation db observation;
      evidence ← adapter_admit (sv_get_snapshot env) (sv_evidence_id env n) (sv_clock env n 8)
        context tool_name observation real_research;
      add_evidence db evidence
  end.

(** [_persist_security_identity] *)
Definition _persist_security_identity (n : nat) (db : agent_db) (step : ResearchStepRecord)
    (context : ControlledRunContext) : res agent_db :=
  detail ← require_some (sv_get_security env (cx_security_id context))
    LookupError "SECURITY_NOT_FOUND";
  let payload := security_master_identity_projection detail in
  checksum ← stable_checksum (VMap payload);
  let observation := mkObservation (sv_observation_id env n) (cx_research_agent_run_id context)
    (st_id step) None ObsType.SECURITY_IDENTITY ObsStatus.PASS "research-observation-v1" payload
    checksum (cx_security_id context) (cx_snapshot_id context) (cx_research_as_of_time context)
    Synth.REAL_VERIFIED [] (sv_clock env n 7) in
  db ← add_observation db observation;
  evidence ← admit_security_identity (sv_get_security env) (sv_evidence_id env n)
    (sv_clock env n 8) context observation real_research;
  add_evidence db evidence.

(** What the loop over the steps carries. *)
Record loop_state := mkLoop {
  lp_db : agent_db; lp_budget : RunBudget; lp_blocked : list string; lp_failed : bool }.

(** A step without a Tool. *)
Definition run_component (running : ResearchAgentRunRecord) (n : nat) (db : agent_db)
    (active : ResearchStepRecord) (st : loop_state) : res loop_state :=
  let key := step_key (definition active) in
  db ← (if bool_decide (key = "resolve_security")
        then _persist_security_identity n db active (_context running request) else Ok db);
  let target := if bool_decide (key = "validate_evidence") && negb (bool_decide (lp_blocked st = []))
                then StepStatus.BLOCKED else StepStatus.PASS in
  r ← _transition n 2 db active StepStatus.RUNNING target;
  Ok (mkLoop r.2 (lp_budget st) (lp_blocked st) (lp_failed st)).

(** A Tool step. *)
Definition run_tool (running : ResearchAgentRunRecord) (n : nat) (db : agent_db)
    (active : ResearchStepRecord) (tool_name : string) (st : loop_state) : res loop_state :=
  let context := _context running request in
  result ← execute (sv_tools env n) context active catalog policy (lp_budget st)
    (_arguments active) ObsType.DATA_QUALITY Synth.REAL_VERIFIED;
  db ← _persist_execution n db result context tool_name;
  let target := _step_status (tr_status result) in
  r ← _transition n 2 db active StepStatus.RUNNING target;
  let upper := str_map ascii_upper tool_name in
  Ok (mkLoop r.2 (tr_budget result)
    (lp_blocked st ++
       (if bool_decide (target = StepStatus.BLOCKED) then [upper +:+ "_BLOCKED"]
        else if bool_decide (target = StepStatus.FAIL) then [upper +:+ "_FAILED"] else []))
    (lp_failed st || bool_decide (target = StepStatus.FAIL))).

(** One round of the loop. *)
Definition run_step (running : ResearchAgentRunRecord) (n : nat) (step : ResearchStepRecord)
    (st : loop_state) : res loop_state :=
  if bool_decide (st_status step ∈ _TERMINAL_STEPS) then Ok st
  else
    ready ← _transition n 0 (lp_db st) step StepStatus.PENDING StepStatus.READY;
    active ← _transition n 1 ready.2 ready.1 StepStatus.READY StepStatus.RUNNING;
    match def_tool_name (definition active.1) with
    | None => run_component running n active.2 active.1 st
    | Some tool_name => run_tool running n active.2 active.1 tool_name st
    end.

Fixpoint run_steps (running : ResearchAgentRunRecord) (n : nat) (steps : list ResearchStepRecord)
    (st : loop_state) : res loop_state :=
  match steps with
  | [] => Ok st
  | step :: steps => st ← run_step running n step st; run_steps running (S n) steps st
  end.

(** [tuple(dict.fromkeys(l))]: the first occurrences, in order. *)
Definition dedupe (l : list string) : list string := reverse (remove_dups (reverse l)).

(** The run status a package ends in. *)
Definition terminal_of (s : ResearchPackageStatus) : ResearchRunStatus :=
  match s with
  | PkgStatus.FAILED => RunStatus.FAILED
  | PkgStatus.PARTIAL => RunStatus.PARTIAL
  | PkgStatus.BLOCKED => RunStatus.BLOCKED
  | PkgStatus.COMPLETE => RunStatus.COMPLETED
  end.

(** The warnings of the package. *)
Definition package_warnings (run : ResearchAgentRunRecord) (claims : list ResearchClaimWrite) :
    list string :=
  dedupe (run_warning_codes run ++
    match claims with [] => ["NO_VALIDATED_CLAIMS"] | _ => [] end).

(** After the steps: claims and package. *)
Definition build_package (run updated : ResearchAgentRunRecord) (st : loop_state) (db : agent_db) :
    res (ResearchPackageRecord * agent_db) :=
  let evidence := list_evidence db (run_id run) in
  claimed ← build_and_validate (sv_claims env) (ag_claims db) evidence (run_id run)
    (rq_research_mode request);
  package ← assemble (sv_package_id env) (run_id run) (rq_id request) (run_security_id run)
    (run_snapshot_id run) (run_research_as_of_time run) (rq_research_type request)
    (run_policy_version run) (run_planner_version run) (run_tool_catalog_version run)
    (rq_requested_sections request) claimed.1 evidence (sort_str (remove_dups (lp_blocked st)))
    (package_warnings updated claimed.1) (lp_failed st) (sv_now env 2);
  add_package (with_claims db claimed.2) (sv_row_id env) (sv_now env 3) package.

(** The budget, the package, then the terminal transition. *)
Definition finish_run (run : ResearchAgentRunRecord) (st : loop_state) :
    res (ResearchAgentRunRecord * ResearchPackageRecord * agent_db) :=
  updated ← update_run_budget (ag_runs (lp_db st)) (sv_now env 1) (run_id run) (lp_budget st);
  persisted ← build_package run updated.1 st (with_runs (lp_db st) updated.2);
  completed ← transition (ag_runs persisted.2) (sv_now env 4) (sv_end_event env) (run_id run)
    (terminal_of (pk_status (pk_write persisted.1)))
    (Some ("PACKAGE_" +:+ PkgStatus.value (pk_status (pk_write persisted.1))));
  Ok (completed.1, persisted.1, with_runs persisted.2 completed.2).

(** [DeterministicResearchExecutionService.execute] *)
Definition execute_run (db : agent_db) (run : ResearchAgentRunRecord) :
    res (ResearchAgentRunRecord * ResearchPackageRecord * agent_db) :=
  started ← (if bool_decide (run_status run = RunStatus.PLANNED) then
      transition (ag_runs db) (sv_now env 0) (sv_start_event env) (run_id run) RunStatus.RUNNING
        (Some "RUN_STARTED")
    else if bool_decide (run_status run = RunStatus.RUNNING) then Ok (run, ag_runs db)
    else raise ValueError "RUN_NOT_EXECUTABLE");
  let db := with_runs db started.2 in
  plan ← require_some (get_plan (ag_planning db) (run_id run)) ValueError "RESEARCH_PLAN_NOT_FOUND";
  let steps := list_steps (ag_planning db) (plan_id plan) in
  st ← run_steps started.1 0 steps (mkLoop db (run_budget started.1) [] false);
  finish_run run st.
End Service.

(** * Steps *)

(** Storing a step over the row with its identifier. *)
Definition put_step (rows : list ResearchStepRecord) (s : ResearchStepRecord) :
    list ResearchStepRecord :=
  map (λ x, if bool_decide (st_id x = st_id s) then s else x) rows.

#[global] Arguments put_step : simpl never.

(** Two versions of one step. *)
Definition same_step (a b : ResearchStepRecord) : Prop :=
  st_id a = st_id b ∧ st_run_id a = st_run_id b ∧ st_plan_id a = st_plan_id b ∧
  definition a = definition b.

Lemma put_step_put rows a b : st_id a = st_id b → put_step (put_step rows a) b = put_step rows b.
Proof.
  intros Hid. unfold put_step. rewrite map_map. apply map_ext. intros x.
  repeat case_bool_decide; congruence.
Qed.

Lemma put_step_ids rows s : map st_id (put_step rows s) = map st_id rows.
Proof. unfold put_step. rewrite map_map. apply map_ext. intros x. case_bool_decide; congruence. Qed.

Lemma elem_of_put_step rows s x :
  x ∈ put_step rows s ↔ (x = s ∧ st_id s ∈ map st_id rows) ∨ (x ∈ rows ∧ st_id x ≠ st_id s).
Proof.
  unfold put_step. rewrite !list_elem_of_fmap. split.
  - intros (y & -> & Hy). case_bool_decide as Hid; [left|right; done].
    split; [done|]. by exists y.
  - intros [[-> (y & Hid & Hy)]|[Hx Hne]].
    + exists y. by rewrite bool_decide_eq_true_2.
    + exists x. by rewrite bool_decide_eq_false_2.
Qed.

Lemma transition_step_Ok p id expected target now reason s p' :
  transition_step p id expected target now reason = Ok (s, p') →
  ∃ row, row ∈ plan_steps p ∧ st_status row = expected ∧ st_id row = id ∧ same_step row s ∧
    st_status s = target ∧ p' = mkPlanning (plans p) (put_step (plan_steps p) s).
Proof.
  unfold transition_step. intros H. apply bind_Ok in H as (row & Hr & [= <- <-]).
  apply require_some_Ok, head_Some_elem_of, list_elem_of_filter in Hr as [[<- <-] Hr].
  exists row. by split_and!.
Qed.

(** * One step *)

(** What a finished step adds to the blocked capabilities. *)
Definition step_codes (s : ResearchStepRecord) : list string :=
  match def_tool_name (definition s), st_status s with
  | Some tool, StepStatus.BLOCKED => [str_map ascii_upper tool +:+ "_BLOCKED"]
  | Some tool, StepStatus.FAIL => [str_map ascii_upper tool +:+ "_FAILED"]
  | _, _ => []
  end.
Definition is_tool_step (s : ResearchStepRecord) : bool := is_some (def_tool_name (definition s)).
Definition step_failed (s : ResearchStepRecord) : bool := bool_decide (st_status s = StepStatus.FAIL).
Definition finished (s : ResearchStepRecord) : Prop :=
  st_status s ∈ [StepStatus.PASS; StepStatus.PARTIAL; StepStatus.BLOCKED; StepStatus.FAIL].

(** The effect of a step that ends as [d] on what the loop carries. *)
Record step_effect (st st' : loop_state) (d : ResearchStepRecord) : Prop := {
  se_runs : ag_runs (lp_db st') = ag_runs (lp_db st);
  se_packages : ag_packages (lp_db st') = ag_packages (lp_db st);
  se_plans : plans (ag_planning (lp_db st')) = plans (ag_planning (lp_db st));
  se_rows : plan_steps (ag_planning (lp_db st')) = put_step (plan_steps (ag_planning (lp_db st))) d;
  se_invocations : length (ag_invocations (lp_db st')) =
    (length (ag_invocations (lp_db st)) + if is_tool_step d then 1 else 0)%nat;
  se_blocked : lp_blocked st' = lp_blocked st ++ step_codes d;
  se_failed : lp_failed st' = lp_failed st || step_failed d;
  se_budget : ∃ us, consume_all (lp_budget st) us = Ok (lp_budget st') ∧
    (if is_tool_step d then 1 ≤ uses_of is_tool us ≤ 2 else us = []) }.

Section Effects.
Context (env : service_env) (request : ResearchRequestRecord) (policy : ResearchPolicyRecord)
  (catalog : ToolCatalogSnapshot).

(** The tables a step's recording leaves alone. *)
Definition same_frame (db db' : agent_db) : Prop :=
  ag_runs db' = ag_runs db ∧ ag_packages db' = ag_packages db ∧ ag_planning db' = ag_planning db.

Lemma _transition_Ok n k db step expected target s db' :
  _transition env n k db step expected target = Ok (s, db') →
  ∃ row, row ∈ plan_steps (ag_planning db) ∧ st_status row = expected ∧ st_id row = st_id step ∧
    same_step row s ∧ st_status s = target ∧
    db' = with_planning db (mkPlanning (plans (ag_planning db))
      (put_step (plan_steps (ag_planning db)) s)).
Proof.
  unfold _transition. intros H. apply bind_Ok in H as ([s0 p] & H & [= <- <-]).
  by apply transition_step_Ok in H as (row & ? & ? & ? & ? & ? & ->); exists row.
Qed.

Lemma add_observation_Ok db v db' : add_observation db v = Ok db' →
  same_frame db db' ∧ ag_invocations db' = ag_invocations db.
Proof.
  unfold add_observation. intros (_ & (_ & (_ & [= <-])%guard_seq)%guard_seq)%guard_seq. done.
Qed.

Lemma add_evidence_Ok db v db' : add_evidence db v = Ok db' →
  same_frame db db' ∧ ag_invocations db' = ag_invocations db.
Proof. unfold add_evidence. by intros (_ & [= <-])%guard_seq. Qed.

Lemma same_frame_trans a b c : same_frame a b → same_frame b c → same_frame a c.
Proof. intros (? & ? & ?) (? & ? & ?). split_and!; congruence. Qed.

Lemma _persist_execution_Ok n db result context tool_name db' :
  _persist_execution env request n db result context tool_name = Ok db' →
  same_frame db db' ∧ length (ag_invocations db') = S (length (ag_invocations db)).
Proof.
  unfold _persist_execution, add_invocation. cbv zeta.
  intros (db1 & (_ & (_ & [= <-])%guard_seq)%guard_seq & H)%bind_Ok.
  apply bind_Ok in H as (db2 & H2 & H). unfold complete_stored_invocation in H2.
  apply bind_Ok in H2 as (_ & _ & [= <-]). set (db2 := with_invocations _ _) in H.
  assert (Hl : length (ag_invocations db2) = S (length (ag_invocations db)))
    by (cbn; rewrite length_map, length_app; cbn; lia).
  destruct (tr_observation result) as [ob|]; [|by injection H as <-].
  apply bind_Ok in H as (db3 & [Hf3 Hi3]%add_observation_Ok & H).
  apply bind_Ok in H as (ev & _ & [Hf4 Hi4]%add_evidence_Ok).
  split; [|by rewrite Hi4, Hi3]. by do 2 (eapply same_frame_trans; [|done]).
Qed.

Lemma _persist_security_identity_Ok n db step context db' :
  _persist_security_identity env request n db step context = Ok db' →
  same_frame db db' ∧ ag_invocations db' = ag_invocations db.
Proof.
  unfold _persist_security_identity. intros (detail & _ & H)%bind_Ok. cbv zeta in H.
  apply bind_Ok in H as (ck & _ & H). apply bind_Ok in H as (db1 & [Hf1 Hi1]%add_observation_Ok & H).
  apply bind_Ok in H as (ev & _ & [Hf2 Hi2]%add_evidence_Ok).
  split; [by eapply same_frame_trans|by rewrite Hi2].
Qed.

(** The codes of a Tool step, as the loop computes them. *)
Lemma outcome_codes tool s : def_tool_name (definition s) = Some tool →
  step_codes s = (if bool_decide (st_status s = StepStatus.BLOCKED)
    then [str_map ascii_upper tool +:+ "_BLOCKED"]
    else if bool_decide (st_status s = StepStatus.FAIL)
    then [str_map ascii_upper tool +:+ "_FAILED"] else []).
Proof. unfold step_codes. intros ->. by destruct (st_status s). Qed.

(** The database of an activated step: only its row changed. *)
Definition activated (db db' : agent_db) (active : ResearchStepRecord) : Prop :=
  ag_runs db' = ag_runs db ∧ ag_packages db' = ag_packages db ∧
  ag_invocations db' = ag_invocations db ∧ plans (ag_planning db') = plans (ag_planning db) ∧
  plan_steps (ag_planning db') = put_step (plan_steps (ag_planning db)) active.

(** The last transition, after what the step recorded. *)
Lemma last_transition n db db1 db2 active target d db3 :
  activated db db1 active → ag_runs db2 = ag_runs db1 → ag_packages db2 = ag_packages db1 →
  ag_planning db2 = ag_planning db1 →
  _transition env n 2 db2 active StepStatus.RUNNING target = Ok (d, db3) →
  same_step active d ∧ st_status d = target ∧ ag_runs db3 = ag_runs db ∧
  ag_packages db3 = ag_packages db ∧ ag_invocations db3 = ag_invocations db2 ∧
  plans (ag_planning db3) = plans (ag_planning db) ∧
  plan_steps (ag_planning db3) = put_step (plan_steps (ag_planning db)) d.
Proof.
  intros (A1 & A2 & A3 & A4 & A5) R P Q H.
  apply _transition_Ok in H as (row & Hrow & _ & Hid & Hs & Ht & ->).
  assert (row = active) as ->.
  { rewrite Q, A5 in Hrow. apply elem_of_put_step in Hrow as [(-> & _)|(_ & ?)]; [done|congruence]. }
  cbn. rewrite R, P, Q, A1, A2, A4, A5. split_and!; try done.
  rewrite put_step_put; [done|]. apply Hs.
Qed.

Lemma run_component_Ok running n db db1 active st st' :
  lp_db st = db → activated db db1 active → def_tool_name (definition active) = None →
  run_component env request running n db1 active st = Ok st' →
  ∃ d, same_step active d ∧ finished d ∧ step_effect st st' d.
Proof.
  intros <- Hact Htool H. unfold run_component in H. cbv zeta in H.
  apply bind_Ok in H as (db2 & H2 & H). apply bind_Ok in H as ([d db3] & H3 & [= <-]).
  assert (same_frame db1 db2 ∧ ag_invocations db2 = ag_invocations db1) as [(R & P & Q) I].
  { destruct (bool_decide _); [by eapply _persist_security_identity_Ok|by injection H2 as <-]. }
  eapply last_transition in H3 as (Hs & Ht & F1 & F2 & F3 & F4 & F5); [|done..].
  assert (Hnone : def_tool_name (definition d) = None) by (by rewrite <- (proj2 (proj2 (proj2 Hs)))).
  assert (Hst : st_status d = StepStatus.PASS ∨ st_status d = StepStatus.BLOCKED)
    by (rewrite Ht; destruct (_ && _); auto).
  exists d. split_and!; [done| |].
  { unfold finished. destruct Hst as [-> | ->]; set_solver. }
  assert (Ha := proj1 (proj2 (proj2 Hact))).
  split; cbn; try done; unfold is_tool_step, step_codes, step_failed; rewrite ?Hnone; cbn.
  - rewrite F3, I, Ha. lia.
  - by rewrite app_nil_r.
  - destruct Hst as [-> | ->]; by rewrite orb_false_r.
  - by exists [].
Qed.

Lemma run_tool_Ok running n db db1 active tool st st' :
  lp_db st = db → activated db db1 active → def_tool_name (definition active) = Some tool →
  run_tool env request policy catalog running n db1 active tool st = Ok st' →
  ∃ d, same_step active d ∧ finished d ∧ step_effect st st' d.
Proof.
  intros <- Hact Htool H. unfold run_tool in H. cbv zeta in H.
  apply bind_Ok in H as (r & Hr & H). apply bind_Ok in H as (db2 & H2 & H).
  apply bind_Ok in H as ([d db3] & H3 & [= <-]).
  apply _persist_execution_Ok in H2 as [(R & P & Q) I].
  eapply last_transition in H3 as (Hs & Ht & F1 & F2 & F3 & F4 & F5); [|done..].
  assert (Hsome : def_tool_name (definition d) = Some tool)
    by (by rewrite <- (proj2 (proj2 (proj2 Hs)))).
  exists d. split_and!; [done| |].
  { unfold finished. rewrite Ht. destruct (tr_status r); cbn; set_solver. }
  assert (Ha := proj1 (proj2 (proj2 Hact))). apply execute_budget in Hr.
  split; cbn [lp_db lp_budget lp_blocked lp_failed]; try done;
    unfold is_tool_step, step_failed; rewrite ?Hsome; cbn [is_some is_none negb].
  - rewrite F3, I, Ha. lia.
  - rewrite (outcome_codes tool) by done. by rewrite Ht.
  - by rewrite Ht.
  - exact Hr.
Qed.

(** A step that is not yet terminal is run: its row, found PENDING, ends as
    [d], which differs in its status and times only. *)
Lemma run_step_Ok running n step st st' :
  st_status step ∉ _TERMINAL_STEPS →
  run_step env request policy catalog running n step st = Ok st' →
  ∃ row d, row ∈ plan_steps (ag_planning (lp_db st)) ∧ st_id row = st_id step ∧
    st_status row = StepStatus.PENDING ∧ same_step row d ∧ finished d ∧ step_effect st st' d.
Proof.
  intros Hnt H. unfold run_step in H. rewrite bool_decide_eq_false_2 in H by done.
  apply bind_Ok in H as ([ready dbr] & H1 & H). apply bind_Ok in H as ([active dba] & H2 & H).
  apply _transition_Ok in H1 as (row & Hrow & Hp & Hid & Hs1 & Ht1 & ->).
  cbn [fst snd] in H2, H. apply _transition_Ok in H2 as (row' & Hrow' & _ & Hid' & Hs2 & Ht2 & ->).
  assert (row' = ready) as ->.
  { apply elem_of_put_step in Hrow' as [(-> & _)|(_ & ?)]; [done|congruence]. }
  assert (Hsame : same_step row active).
  { destruct Hs1 as (?&?&?&?), Hs2 as (?&?&?&?). split_and!; congruence. }
  set (dba := with_planning _ _) in H.
  assert (Hact : activated (lp_db st) dba active).
  { unfold activated, dba. cbn. rewrite put_step_put; [done|]. apply Hs2. }
  assert (Hgo : ∃ d, same_step active d ∧ finished d ∧ step_effect st st' d).
  { destruct (def_tool_name (definition active)) eqn:Et.
    - by eapply run_tool_Ok.
    - by eapply run_component_Ok. }
  destruct Hgo as (d & Hd & Hf & He). exists row, d. split_and!; try done.
  destruct Hsame as (?&?&?&?), Hd as (?&?&?&?). split_and!; congruence.
Qed.

(** The effect of steps that end as [ds], in order. *)
Record steps_effect (st st' : loop_state) (ds : list ResearchStepRecord) : Prop := {
  sx_runs : ag_runs (lp_db st') = ag_runs (lp_db st);
  sx_packages : ag_packages (lp_db st') = ag_packages (lp_db st);
  sx_plans : plans (ag_planning (lp_db st')) = plans (ag_planning (lp_db st));
  sx_rows : plan_steps (ag_planning (lp_db st')) =
    foldl put_step (plan_steps (ag_planning (lp_db st))) ds;
  sx_invocations : length (ag_invocations (lp_db st')) =
    (length (ag_invocations (lp_db st)) + length (filter (λ d, is_tool_step d = true) ds))%nat;
  sx_blocked : lp_blocked st' = lp_blocked st ++ concat (map step_codes ds);
  sx_failed : lp_failed st' = lp_failed st || existsb step_failed ds;
  sx_budget : ∃ us, consume_all (lp_budget st) us = Ok (lp_budget st') ∧
    Z.of_nat (length (filter (λ d, is_tool_step d = true) ds)) ≤ uses_of is_tool us ≤
      2 * Z.of_nat (length (filter (λ d, is_tool_step d = true) ds)) }.

Lemma consume_all_app us1 us2 : ∀ b b1 b2,
  consume_all b us1 = Ok b1 → consume_all b1 us2 = Ok b2 → consume_all b (us1 ++ us2) = Ok b2.
Proof.
  induction us1 as [|u us1 IH]; cbn; intros b b1 b2 H1 H2; [by injection H1 as <-|].
  apply bind_Ok in H1 as (b' & Hb' & H1). rewrite Hb'. by apply (IH b' b1).
Qed.

Lemma uses_of_app P us1 us2 : uses_of P (us1 ++ us2) = uses_of P us1 + uses_of P us2.
Proof. unfold uses_of. rewrite filter_app, length_app. lia. Qed.

Lemma steps_effect_nil st : steps_effect st st [].
Proof.
  split; rewrite ?filter_nil; cbn; try done; [by rewrite app_nil_r|by rewrite orb_false_r|].
  by exists [].
Qed.

Lemma steps_effect_cons st st1 st2 d ds :
  step_effect st st1 d → steps_effect st1 st2 ds → steps_effect st st2 (d :: ds).
Proof.
  intros [A1 A2 A3 A4 A5 A6 A7 (us1 & A8 & A9)] [B1 B2 B3 B4 B5 B6 B7 (us2 & B8 & B9)].
  assert (Hn : length (filter (λ d, is_tool_step d = true) (d :: ds)) =
    ((if is_tool_step d then 1 else 0) + length (filter (λ d, is_tool_step d = true) ds))%nat).
  { rewrite filter_cons. destruct (is_tool_step d); by case_decide. }
  split; try congruence.
  - cbn. congruence.
  - rewrite B5, A5, Hn. lia.
  - by rewrite B6, A6, <- app_assoc.
  - by rewrite B7, A7, <- orb_assoc.
  - exists (us1 ++ us2). split; [by eapply consume_all_app|].
    rewrite Hn, uses_of_app. destruct (is_tool_step d); [lia|]. subst us1.
    change (uses_of is_tool []) with 0. lia.
Qed.

(** The rows a list of steps was read from. *)
Definition current (rows steps : list ResearchStepRecord) : Prop :=
  ∀ s row, s ∈ steps → row ∈ rows → st_id row = st_id s → row = s.

Lemma current_put rows steps s d :
  current rows (s :: steps) → st_id d = st_id s → st_id s ∉ map st_id steps →
  current (put_step rows d) steps.
Proof.
  intros Hc Hd Hs s' row Hs' Hrow Hid. apply elem_of_put_step in Hrow as [(-> & _)|(Hrow & _)].
  - destruct Hs. rewrite <- Hd, Hid. by apply list_elem_of_fmap_2.
  - apply (Hc s' row); [by right|done..].
Qed.

(** Steps leave runs and packages alone, and only use the budget. *)
Lemma run_steps_frame running steps : ∀ n st st',
  run_steps env request policy catalog running n steps st = Ok st' →
  ag_runs (lp_db st') = ag_runs (lp_db st) ∧ ag_packages (lp_db st') = ag_packages (lp_db st) ∧
  map st_id (plan_steps (ag_planning (lp_db st'))) =
    map st_id (plan_steps (ag_planning (lp_db st))) ∧
  ∃ us, consume_all (lp_budget st) us = Ok (lp_budget st').
Proof.
  induction steps as [|s steps IH]; intros n st st' H; cbn in H.
  { injection H as <-. split_and!; try done. by exists []. }
  apply bind_Ok in H as (st1 & H1 & H). apply IH in H as (-> & -> & -> & us2 & Hu2).
  destruct (decide (st_status s ∈ _TERMINAL_STEPS)) as [Ht|Ht].
  - unfold run_step in H1. rewrite bool_decide_eq_true_2 in H1 by done.
    injection H1 as <-. split_and!; try done. by exists us2.
  - apply run_step_Ok in H1 as (row & d & _ & _ & _ & _ & _ & He); [|done].
    destruct (se_budget _ _ _ He) as (us1 & Hu1 & _).
    split_and!; [apply He..| |].
    + by rewrite (se_rows _ _ _ He), put_step_ids.
    + exists (us1 ++ us2). by eapply consume_all_app.
Qed.

Lemma run_steps_Ok running steps : ∀ n st st',
  current (plan_steps (ag_planning (lp_db st))) steps → NoDup (map st_id steps) →
  run_steps env request policy catalog running n steps st = Ok st' →
  ∃ ds, Forall2 (λ s d, st_status s = StepStatus.PENDING ∧ same_step s d)
      (filter (λ s, st_status s ∉ _TERMINAL_STEPS) steps) ds ∧
    Forall finished ds ∧ steps_effect st st' ds.
Proof.
  induction steps as [|s steps IH]; intros n st st' Hc Hnd H; cbn in H.
  { injection H as <-. exists []. split_and!; [constructor..|apply steps_effect_nil]. }
  apply bind_Ok in H as (st1 & H1 & H). inversion_clear Hnd as [|?? Hs Hnd'].
  rewrite filter_cons. case_decide as Ht.
  - apply run_step_Ok in H1 as (row & d & Hrow & Hid & Hp & Hsame & Hf & He); [|done].
    assert (row = s) as -> by (apply Hc; [left|done..]).
    apply IH in H as (ds & Hds & Hfs & Hes); [| |done].
    + exists (d :: ds). split_and!; [by constructor..|by eapply steps_effect_cons].
    + rewrite (se_rows _ _ _ He). eapply current_put; [done| |done]. symmetry. apply Hsame.
  - assert (st1 = st) as ->.
    { unfold run_step in H1. rewrite bool_decide_eq_true_2 in H1 by done.
      by injection H1 as <-. }
    apply IH in H; [done| |done]. intros s' row' Hs' Hrow' Hid'. by apply Hc; [right| |].
Qed.
End Effects.

(** * A whole execution *)

Lemma list_steps_NoDup p pid : NoDup (map st_id (plan_steps p)) → NoDup (map st_id (list_steps p pid)).
Proof.
  intros Hnd. unfold list_steps.
  rewrite (fmap_Permutation st_id _ _ (sort_by_perm step_order _)).
  eapply sublist_NoDup; [exact Hnd|]. apply fmap_sublist, sublist_filter.
Qed.

Lemma NoDup_ids_eq (rows : list ResearchStepRecord) a b :
  NoDup (map st_id rows) → a ∈ rows → b ∈ rows → st_id a = st_id b → a = b.
Proof.
  induction rows as [|x rows IH]; [by intros _ ?%elem_of_nil|].
  intros Hnd%NoDup_cons Ha Hb Hid. destruct Hnd as [Hx Hnd].
  apply elem_of_cons in Ha as [->|Ha], Hb as [->|Hb]; [done| | |by apply IH];
    destruct Hx; [rewrite Hid|rewrite <- Hid]; by apply list_elem_of_fmap_2.
Qed.

Lemma list_steps_current p pid :
  NoDup (map st_id (plan_steps p)) → current (plan_steps p) (list_steps p pid).
Proof.
  intros Hnd s row Hs Hrow Hid. unfold list_steps in Hs.
  rewrite sort_by_perm in Hs. apply list_elem_of_filter in Hs as [_ Hs].
  by eapply NoDup_ids_eq.
Qed.

(** What a run, a package and a request agree on. *)
Definition run_scope (r : ResearchAgentRunRecord) :=
  (run_id r, run_request_id r, (run_security_id r, run_snapshot_id r, run_research_as_of_time r),
   (run_policy_version r, run_planner_version r, run_tool_catalog_version r),
   run_tool_catalog_checksum r, run_idempotency_key r, run_created_at r).
Record package_of_run (request : ResearchRequestRecord) (run : ResearchAgentRunRecord)
    (pkg : ResearchPackageRecord) : Prop := {
  pr_run : pk_run_id pkg = run_id run;
  pr_request : pk_request_id pkg = rq_id request;
  pr_security : pk_security_id pkg = run_security_id run;
  pr_snapshot : pk_snapshot_id pkg = run_snapshot_id run;
  pr_as_of : pk_research_as_of_time pkg = run_research_as_of_time run;
  pr_policy : pk_policy_version pkg = run_policy_version run;
  pr_planner : pk_planner_version pkg = run_planner_version run;
  pr_catalog : pk_tool_catalog_version pkg = run_tool_catalog_version run;
  pr_checksum : stable_checksum (dump_package pkg) = Ok (pk_checksum pkg) }.

Lemma package_failed sections requested failed :
  _package_status sections requested failed = PkgStatus.FAILED ↔ failed = true.
Proof.
  unfold _package_status. destruct failed; [done|]. cbv zeta.
  destruct (_ && _); [done|]. by destruct (_ && _).
Qed.

Section Execution.
Context (env : service_env) (request : ResearchRequestRecord) (policy : ResearchPolicyRecord)
  (catalog : ToolCatalogSnapshot).

Lemma build_package_Ok run updated st db pkg db' :
  build_package env request run updated st db = Ok (pkg, db') →
  package_of_run request run pkg ∧ (pk_status pkg = PkgStatus.FAILED ↔ lp_failed st = true) ∧
  (∀ code, code ∈ pk_blocked_capabilities pkg ↔ code ∈ lp_blocked st) ∧
  ag_packages db !! run_id run = None ∧ ag_packages db' = <[run_id run := pkg]> (ag_packages db) ∧
  ag_runs db' = ag_runs db ∧ ag_planning db' = ag_planning db ∧
  ag_invocations db' = ag_invocations db.
Proof.
  unfold build_package. cbv zeta. intros ([cs cdb] & _ & H)%bind_Ok.
  apply bind_Ok in H as (p & Hp & H). unfold assemble in Hp. cbv zeta in Hp.
  apply bind_Ok in Hp as (ck & Hck & Hp). apply guard_seq in Hp as [_ [= <-]].
  apply guard_seq in H as [Hnone [= <- <-]]. apply negb_false_iff, is_none_true in Hnone.
  cbn in Hnone. split; [by split|]. split; [apply package_failed|].
  split_and!; try done. intros code. cbn. unfold sort_str, sort_key.
  by rewrite sort_by_perm, elem_of_remove_dups.
Qed.

(** The run after the last step: its budget and status are stored. *)
Lemma finish_run_Ok run st r0 run' pkg db' :
  db_runs (ag_runs (lp_db st)) !! run_id run = Some r0 →
  finish_run env request run st = Ok (run', pkg, db') →
  run_status run' = terminal_of (pk_status pkg) ∧ run_budget run' = lp_budget st ∧
  run_scope run' = run_scope r0 ∧ get_run (ag_runs db') (run_id run) = Some run' ∧
  package_of_run request run pkg ∧ (pk_status pkg = PkgStatus.FAILED ↔ lp_failed st = true) ∧
  (∀ code, code ∈ pk_blocked_capabilities pkg ↔ code ∈ lp_blocked st) ∧
  ag_packages (lp_db st) !! run_id run = None ∧
  ag_packages db' = <[run_id run := pkg]> (ag_packages (lp_db st)) ∧
  ag_planning db' = ag_planning (lp_db st) ∧ ag_invocations db' = ag_invocations (lp_db st).
Proof.
  intros Hr0. unfold finish_run. intros ([u dbu] & Hu & H)%bind_Ok.
  apply bind_Ok in H as ([p db1] & Hp & H). apply bind_Ok in H as ([c dbc] & Hc & [= <- <- <-]).
  unfold update_run_budget in Hu. rewrite Hr0 in Hu.
  destruct (terminal (run_status r0)); [done|]. injection Hu as <- <-.
  apply build_package_Ok in Hp as (P1 & P2 & P3 & P4 & P5 & P6 & P7 & P8).
  cbn [fst snd] in *. apply transition_inv in Hc as (r1 & Hr1 & _ & -> & ->).
  rewrite P6 in Hr1. cbn in Hr1. rewrite lookup_insert_eq in Hr1. injection Hr1 as <-.
  unfold get_run. cbn in *. rewrite P5, lookup_insert_eq. by split_and!.
Qed.

(** What [execute] does, from its steps to its end. *)
Lemma execute_run_Ok db run run' pkg db' :
  get_run (ag_runs db) (run_id run) = Some run →
  execute_run env request policy catalog db run = Ok (run', pkg, db') →
  ∃ started db1 plan st, run_status run ∈ [RunStatus.PLANNED; RunStatus.RUNNING] ∧
    run_scope started = run_scope run ∧ run_budget started = run_budget run ∧
    get_run (ag_runs db1) (run_id run) = Some started ∧ db1 = with_runs db (ag_runs db1) ∧
    get_plan (ag_planning db) (run_id run) = Some plan ∧
    run_steps env request policy catalog started 0 (list_steps (ag_planning db) (plan_id plan))
      (mkLoop db1 (run_budget run) [] false) = Ok st ∧
    finish_run env request run st = Ok (run', pkg, db').
Proof.
  intros Hget. unfold execute_run. cbv zeta. intros ([started runs] & Hs & H)%bind_Ok.
  apply bind_Ok in H as (plan & Hplan%require_some_Ok & H). apply bind_Ok in H as (st & Hst & H).
  cbn [fst snd] in *.
  assert (Hstart : run_status run ∈ [RunStatus.PLANNED; RunStatus.RUNNING] ∧
    run_scope started = run_scope run ∧ run_budget started = run_budget run ∧
    get_run runs (run_id run) = Some started).
  { case_bool_decide as E1; [|case_bool_decide as E2; [|done]].
    - apply transition_inv in Hs as (r & Hr & _ & -> & ->).
      unfold get_run in *. rewrite Hget in Hr. injection Hr as <-. cbn.
      rewrite lookup_insert_eq, E1. split_and!; try done. left.
    - injection Hs as <- <-. rewrite E2. split_and!; try done. right. left. }
  destruct Hstart as (H1 & H2 & H3 & H4). rewrite H3 in Hst.
  by exists started, (with_runs db runs), plan, st.
Qed.

(** Execution moves the run tables by the steps of the run protocol only. *)
Lemma execute_run_reaches db run run' pkg db' :
  get_run (ag_runs db) (run_id run) = Some run →
  execute_run env request policy catalog db run = Ok (run', pkg, db') →
  rtc db_step (ag_runs db) (ag_runs db').
Proof.
  intros Hget. unfold execute_run. cbv zeta. intros ([started runs] & Hs & H)%bind_Ok.
  apply bind_Ok in H as (plan & _ & H). apply bind_Ok in H as (st & Hst & H).
  apply run_steps_frame in Hst as (Hr & _ & _ & us & Hu). cbn [fst snd] in *. cbn in Hr, Hu.
  assert (Hstart : rtc db_step (ag_runs db) runs ∧ get_run runs (run_id run) = Some started).
  { case_bool_decide; [|case_bool_decide; [|done]].
    - split; [by eapply rtc_once, step_transition|].
      apply transition_inv in Hs as (r & _ & _ & _ & ->). apply lookup_insert_eq.
    - injection Hs as <- <-. done. }
  destruct Hstart as [Hrtc Hg]. etrans; [exact Hrtc|]. unfold finish_run in H.
  apply bind_Ok in H as ([u dbu] & Hb & H). apply bind_Ok in H as ([p db1] & Hp & H).
  apply bind_Ok in H as ([c dbc] & Hc & [= <- <- <-]). cbn [fst snd] in *.
  apply build_package_Ok in Hp as (_ & _ & _ & _ & _ & P6 & _).
  rewrite Hr in Hb. eapply rtc_l; [by eapply step_budget|]. rewrite P6 in Hc.
  eapply rtc_once. cbn. by eapply step_transition.
Qed.

(** Execution leaves other runs and the identifiers of steps alone. *)
Lemma execute_run_frame db run run' pkg db' :
  execute_run env request policy catalog db run = Ok (run', pkg, db') →
  (∀ rid, rid ≠ run_id run → get_run (ag_runs db') rid = get_run (ag_runs db) rid) ∧
  map st_id (plan_steps (ag_planning db')) = map st_id (plan_steps (ag_planning db)).
Proof.
  unfold execute_run. cbv zeta. intros ([started runs] & Hs & H)%bind_Ok.
  apply bind_Ok in H as (plan & _ & H). apply bind_Ok in H as (st & Hst & H).
  apply run_steps_frame in Hst as (Hr & _ & Hids & _). cbn [fst snd] in *. cbn in Hr, Hids.
  unfold finish_run in H.
  apply bind_Ok in H as ([u dbu] & Hb & H). apply bind_Ok in H as ([p db1] & Hp & H).
  apply bind_Ok in H as ([c dbc] & Hc & [= <- <- <-]). cbn [fst snd] in *.
  apply build_package_Ok in Hp as (_ & _ & _ & _ & _ & P6 & P7 & _).
  cbn. rewrite P7. split; [|exact Hids]. intros rid Hne.
  apply transition_inv in Hc as (r2 & _ & _ & _ & ->).
  apply update_run_budget_inv in Hb as (r1 & _ & _ & _ & _ & _ & _ & _ & _ & ->).
  unfold get_run. cbn. rewrite P6. cbn. rewrite !lookup_insert_ne, Hr by done.
  case_bool_decide; [|case_bool_decide; [by injection Hs as <- <-|done]].
  apply transition_inv in Hs as (r0 & _ & _ & _ & ->). cbn. by rewrite lookup_insert_ne.
Qed.

(** The end of an execution, for the commands that use it. *)
Lemma execute_run_ends db run run' pkg db' :
  get_run (ag_runs db) (run_id run) = Some run →
  execute_run env request policy catalog db run = Ok (run', pkg, db') →
  run_status run ∈ [RunStatus.PLANNED; RunStatus.RUNNING] ∧
  get_run (ag_runs db') (run_id run) = Some run' ∧ run_scope run' = run_scope run ∧
  run_status run' = terminal_of (pk_status pkg) ∧ terminal (run_status run') = true ∧
  package_of_run request run pkg ∧
  ag_packages db !! run_id run = None ∧ ag_packages db' = <[run_id run := pkg]> (ag_packages db).
Proof.
  intros Hget Hex.
  destruct (execute_run_Ok _ _ _ _ _ Hget Hex)
    as (started & db1 & plan & st & H1 & H2 & H3 & H4 & H5 & _ & Hst & Hf).
  apply run_steps_frame in Hst as (Hr & Hp & _). cbn in Hr, Hp. unfold get_run in H4.
  rewrite <- Hr in H4. eapply finish_run_Ok in Hf as (F1 & F2 & F3 & F4 & F5 & _ & _ & F6 & F7 & _); [|done].
  rewrite Hp, H5 in F6, F7. split_and!; try done; [congruence|].
  rewrite F1. by destruct (pk_status pkg).
Qed.

(** Executing a run ends it: a result means the run was PLANNED or RUNNING,
    had no package, and now has the returned package, whose run, request,
    security, snapshot, as-of time and versions are those of the run and whose
    checksum covers it; the stored run is the returned one, differs from the
    input in status, budget and times only, and its status is terminal and the
    one the package status calls for. *)
Theorem execution_ends_run db run run' pkg db' :
  get_run (ag_runs db) (run_id run) = Some run →
  execute_run env request policy catalog db run = Ok (run', pkg, db') →
  run_status run ∈ [RunStatus.PLANNED; RunStatus.RUNNING] ∧
  get_run (ag_runs db') (run_id run) = Some run' ∧ run_scope run' = run_scope run ∧
  run_status run' = terminal_of (pk_status pkg) ∧ terminal (run_status run') = true ∧
  package_of_run request run pkg ∧
  ag_packages db !! run_id run = None ∧ ag_packages db' = <[run_id run := pkg]> (ag_packages db).
Proof. apply execute_run_ends. Qed.

(** Executing a run executes exactly its pending work: every step of the
    stored plan that was not terminal was PENDING and ends finished, no other
    step changes, the package is FAILED exactly when one of these steps failed,
    and its blocked capabilities are exactly those of the Tools among them that
    ended BLOCKED or FAIL. *)
Theorem execution_runs_pending_steps db run run' pkg db' :
  get_run (ag_runs db) (run_id run) = Some run → NoDup (map st_id (plan_steps (ag_planning db))) →
  execute_run env request policy catalog db run = Ok (run', pkg, db') →
  ∃ plan ds, get_plan (ag_planning db) (run_id run) = Some plan ∧
    Forall2 (λ s d, st_status s = StepStatus.PENDING ∧ same_step s d)
      (filter (λ s, st_status s ∉ _TERMINAL_STEPS)
        (list_steps (ag_planning db) (plan_id plan))) ds ∧
    Forall finished ds ∧
    plan_steps (ag_planning db') = foldl put_step (plan_steps (ag_planning db)) ds ∧
    (pk_status pkg = PkgStatus.FAILED ↔ ∃ d, d ∈ ds ∧ st_status d = StepStatus.FAIL) ∧
    (∀ code, code ∈ pk_blocked_capabilities pkg ↔ ∃ d, d ∈ ds ∧ code ∈ step_codes d).
Proof.
  intros Hget Hnd Hex.
  destruct (execute_run_Ok _ _ _ _ _ Hget Hex)
    as (started & db1 & plan & st & _ & _ & _ & H4 & H5 & Hplan & Hst & Hf).
  apply run_steps_Ok in Hst as (ds & Hds & Hfin & [Hr Hp _ Hrows _ Hb Hfl _]);
    [|rewrite H5; by apply list_steps_current|by apply list_steps_NoDup].
  cbn [lp_db lp_blocked lp_failed] in *. unfold get_run in H4. rewrite <- Hr in H4.
  eapply finish_run_Ok in Hf as (_ & _ & _ & _ & _ & F1 & F2 & _ & _ & F3 & _); [|done].
  exists plan, ds. split; [done|]. split; [done|]. split; [done|].
  split; [by rewrite F3, Hrows, H5|]. split.
  - rewrite F1, Hfl. cbn. rewrite existsb_exists. setoid_rewrite <- list_elem_of_In.
    unfold step_failed. by setoid_rewrite bool_decide_eq_true.
  - intros code. rewrite F2, Hb. cbn. rewrite list_elem_of_In, in_concat.
    setoid_rewrite <- list_elem_of_In. setoid_rewrite list_elem_of_fmap. naive_solver.
Qed.

End Execution.

(** * Examples *)

Module AgentRunExamples.
Import PreflightExamples.

Definition row (id : string) (d : ResearchStepDefinition) (s : ResearchStepStatus) :
    ResearchStepRecord := mkStep (mkUUID id) (mkUUID "run") (mkUUID "plan") d s None 100 100 None.
Definition component : ResearchStepDefinition :=
  _component_step 2 "validate_evidence" StepType.VALIDATE_EVIDENCE ["get_data_snapshot"]
    "evidence-ledger-v1".
Definition load : ResearchStepDefinition :=
  _tool_step 1 "get_data_snapshot" StepType.LOAD_SNAPSHOT ["resolve_security"].

(** A run part of which is done: [s] is the status of its Tool step. *)
Definition run : ResearchAgentRunRecord :=
  mkRun (mkUUID "run") (mkUUID "req") (mkUUID "sec") (mkUUID "snap") 100 RunStatus.RUNNING
    (pol_version policy) PLANNER_VERSION (catalog_version catalog) (catalog_checksum catalog) "key"
    (_budget policy) [] None 10 10 None.
Definition stored_plan : ResearchPlanRecord := mkPlan plan (mkUUID "plan") (mkUUID "run") 11.
Definition start (s : ResearchStepStatus) : agent_db :=
  mkAgentDb (mkRunDb {[mkUUID "req"]} {[mkUUID "run" := run]} [])
    (mkPlanning {[mkUUID "run" := stored_plan]}
       [row "a" load s; row "b" component StepStatus.PENDING])
    [] [] [] (mkClaimsDb ∅ []) ∅.

(** Its one Tool fails. *)
Definition failing : tool_env := mkEnv (λ _ _ _ _, raise ToolRegistryError "TOOL_EXECUTION_FAILED")
  (λ n, mkUUID (str_of_Z (Z.of_nat n))) (λ n, 200 + Z.of_nat n).
Definition env : service_env := mkServiceEnv (λ _, failing) (λ i k, 300 + Z.of_nat (10 * i + k))
  (λ _, mkUUID "ob") (λ _, mkUUID "ev") (λ _, None) (λ _, None) ClaimExamples.env
  (mkUUID "pkg") (mkUUID "row") (mkUUID "e1") (mkUUID "e2") (λ n, 400 + Z.of_nat n).
Definition outcome (s : ResearchStepStatus) :
    res (ResearchAgentRunRecord * ResearchPackageRecord * agent_db) :=
  execute_run env request policy catalog (start s) run.
Definition result (s : ResearchStepStatus) : option (ResearchRunStatus * list string) :=
  match outcome s with
  | Ok (r, p, _) => Some (run_status r, pk_blocked_capabilities p)
  | Raise _ => None
  end.

Lemma rows_distinct s : NoDup (map st_id (plan_steps (ag_planning (start s)))).
Proof. cbn. repeat constructor; set_solver. Qed.
Lemma budget_fresh : budget_within (run_budget run).
Proof. by apply fresh_budget_within. Qed.
End AgentRunExamples.

(** A failing Tool step fails the run; but the same failure, recorded by an
    earlier execution, is forgotten when the run is executed again. *)
Lemma earlier_failure_forgotten :
  AgentRunExamples.result StepStatus.PENDING =
    Some (RunStatus.FAILED, ["GET_DATA_SNAPSHOT_FAILED"]) ∧
  AgentRunExamples.result StepStatus.FAIL = Some (RunStatus.BLOCKED, []).
Proof. vm_compute. split; reflexivity. Qed.

Lemma outcome_ok : is_ok (AgentRunExamples.outcome StepStatus.PENDING) = true.
Proof. vm_compute. reflexivity. Qed.

Lemma execution_ends_run_witness :
  match AgentRunExamples.outcome StepStatus.PENDING with
  | Ok (r, p, db) => terminal (run_status r) = true ∧ ag_packages db !! mkUUID "run" = Some p
  | Raise _ => False
  end.
Proof.
  assert (H := outcome_ok). destruct (AgentRunExamples.outcome StepStatus.PENDING) as [[[r p] db]|e]
    eqn:E; [clear H|discriminate H].
  destruct (execution_ends_run _ _ _ _ (AgentRunExamples.start StepStatus.PENDING)
    AgentRunExamples.run r p db eq_refl E) as (_ & _ & _ & _ & Ht & _ & _ & ->).
  split; [exact Ht|apply lookup_insert_eq].
Defined.

Lemma execution_runs_pending_steps_witness :
  match AgentRunExamples.outcome StepStatus.PENDING with
  | Ok (r, p, db) => ∃ a b, st_id a = mkUUID "a" ∧ st_id b = mkUUID "b" ∧
      finished a ∧ finished b ∧
      (pk_status p = PkgStatus.FAILED ↔ ∃ d, d ∈ [a; b] ∧ st_status d = StepStatus.FAIL)
  | Raise _ => False
  end.
Proof.
  assert (H := outcome_ok). destruct (AgentRunExamples.outcome StepStatus.PENDING) as [[[r p] db]|e]
    eqn:E; [clear H|discriminate H].
  destruct (execution_runs_pending_steps _ _ _ _ (AgentRunExamples.start StepStatus.PENDING)
    AgentRunExamples.run r p db eq_refl (AgentRunExamples.rows_distinct _) E)
    as (plan & ds & Hplan & Hds & Hf & _ & Hs & _).
  injection Hplan as <-.
  apply Forall2_cons_inv_l in Hds as (a & ds1 & (_ & Ha & _) & Hds & ->).
  apply Forall2_cons_inv_l in Hds as (b & ds2 & (_ & Hb & _) & Hds & ->).
  apply Forall2_nil_inv_l in Hds as ->.
  apply Forall_cons in Hf as [Hfa Hf]. apply Forall_cons in Hf as [Hfb _].
  exists a, b. split; [symmetry; exact Ha|]. split; [symmetry; exact Hb|].
  split; [exact Hfa|]. split; [exact Hfb|exact Hs].
Defined.

