(* ===== verification/AgentCli.v ===== *)
(** The research commands of cli_agent.py: [plan] and [run] create a request,
    reuse or create its run, plan it and (for [run]) execute it; [pause],
    [cancel] and [resume] control a stored run; with [add_plan] and [add_steps]
    of db/repositories/research_agent.py.  A command is one transaction: it
    commits its whole effect or, on any exception, nothing. *)
From S2P Require Import Prelude PyDecimal PyText Sha256 AgentModel RunControl PlanModel Preflight.
From S2P Require Import ToolRun PyParse Ledger Claims AgentRun.

(** The research tables: the request rows and everything keyed by a run. *)
Record cli_db := mkCliDb { cd_requests : gmap UUID ResearchRequestRecord; cd_agent : agent_db }.

(** The foreign keys of the run tables see the request rows. *)
Definition know_request (db : agent_db) (id : UUID) : agent_db :=
  with_runs db (mkRunDb ({[id]} ∪ db_requests (ag_runs db)) (db_runs (ag_runs db))
    (db_events (ag_runs db))).

(** [add_plan]: one plan per run. *)
Definition add_plan (p : planning_db) (v : ResearchPlanRecord) : res planning_db :=
  reject_if (is_some (plans p !! plan_run_id v)) IntegrityError "uq_research_plans_run";;
  reject_if (existsb (λ q, bool_decide (plan_id q.2 = plan_id v)) (map_to_list (plans p)))
    IntegrityError "pk_research_plans";;
  Ok (mkPlanning (<[plan_run_id v := v]> (plans p)) (plan_steps p)).

(** One row of [add_steps]: its id, and its index and key within the plan. *)
Definition add_step (p : planning_db) (v : ResearchStepRecord) : res planning_db :=
  reject_if (existsb (λ s, bool_decide (st_id s = st_id v)) (plan_steps p))
    IntegrityError "pk_research_steps";;
  reject_if (existsb (λ s, bool_decide (st_plan_id s = st_plan_id v) &&
      (step_index (definition s) =? step_index (definition v))) (plan_steps p))
    IntegrityError "uq_research_steps_plan_index";;
  reject_if (existsb (λ s, bool_decide (st_plan_id s = st_plan_id v) &&
      bool_decide (step_key (definition s) = step_key (definition v))) (plan_steps p))
    IntegrityError "uq_research_steps_plan_key";;
  Ok (mkPlanning (plans p) (plan_steps p ++ [v])).
Fixpoint add_steps (p : planning_db) (vs : list ResearchStepRecord) : res planning_db :=
  match vs with
  | [] => Ok p
  | v :: vs => p ← add_step p v; add_steps p vs
  end.

(** What a command reads: the security resolution, the snapshots, the policy
    table, the fixed catalog, fresh identifiers, the clock, and the execution
    service. *)
Record cli_env := mkCliEnv {
  ce_resolve : string → SecurityResolutionResult;
  ce_snapshot : UUID → option DataSnapshotRecord;
  ce_policies : policy_db;
  ce_catalog : ToolCatalogSnapshot;
  ce_uuid : nat → UUID;
  ce_now : nat → time;
  ce_service : service_env }.

Section Commands.
Context (env : cli_env).

(** The run row of a new request. *)
Definition new_run (request : ResearchRequestRecord) (policy : ResearchPolicyRecord)
    (snapshot : DataSnapshotRecord) (idempotency_key : string) : ResearchAgentRunRecord :=
  mkRun (ce_uuid env 1) (rq_id request) (rq_resolved_security_id request) (rq_snapshot_id request)
    (rq_research_as_of_time request) RunStatus.CREATED (rq_policy_version request)
    (rq_planner_version request) (rq_tool_catalog_version request)
    (rq_tool_catalog_checksum request) idempotency_key (_budget policy)
    (if bool_decide (sn_status snapshot = "PARTIAL") then ["AGENT_SNAPSHOT_PARTIAL"] else [])
    None (ce_now env 1) (ce_now env 1) None.

(** The step rows of a validated plan: each with a fresh identifier. *)
Definition step_rows (run_id plan_id : UUID) (created_at : time)
    (definitions : list ResearchStepDefinition) : list ResearchStepRecord :=
  zip_with (λ i d, mkStep (ce_uuid env (5 + i)) run_id plan_id d StepStatus.PENDING None
    created_at created_at None) (seq 0 (length definitions)) definitions.

(** From CREATED to PLANNED: the plan is drafted, validated and stored. *)
Definition plan_run (db : agent_db) (run : ResearchAgentRunRecord)
    (request : ResearchRequestRecord) (policy : ResearchPolicyRecord) :
    res (ResearchAgentRunRecord * agent_db) :=
  planning ← transition (ag_runs db) (ce_now env 2) (ce_uuid env 2) (run_id run)
    RunStatus.PLANNING (Some "PLAN_STARTED");
  draft ← create_plan request policy (ce_catalog env);
  validated ← validate draft policy (ce_catalog env);
  let created_at := ce_now env 3 in
  p ← add_plan (ag_planning db) (mkPlan validated (ce_uuid env 3) (run_id run) created_at);
  p ← add_steps p (step_rows (run_id run) (ce_uuid env 3) created_at
    (steps (plan_draft validated)));
  planned ← transition planning.2 (ce_now env 4) (ce_uuid env 4) (run_id run)
    RunStatus.PLANNED (Some "PLAN_VALIDATED");
  Ok (planned.1, with_planning (with_runs db planned.2) p).

(** [_create_planned_run] *)
Definition _create_planned_run (db : cli_db) (command : ResearchRequestCreate) :
    res (ResearchAgentRunRecord * ResearchRequestRecord * ResearchPolicyRecord * cli_db) :=
  created ← create_request (ce_resolve env) (ce_snapshot env) (require_policy (ce_policies env))
    (ce_catalog env) (ce_uuid env 0) (mkDatetime (ce_now env 0) (Some 0))
    (cd_requests db) command;
  let request := created.1 in
  let agent := know_request (cd_agent db) (rq_id request) in
  policy ← require_policy (ce_policies env) (rq_policy_version command);
  snapshot ← require_some (ce_snapshot env (rq_snapshot_id request))
    LookupError "SNAPSHOT_NOT_FOUND";
  key ← request_idempotency_key request;
  stored ← create_run (ag_runs agent) (new_run request policy snapshot key);
  let run := stored.1 in
  let agent := with_runs agent stored.2 in
  if negb (bool_decide (run_status run = RunStatus.CREATED)) then
    original ← require_some (created.2 !! run_request_id run)
      LookupError "RESEARCH_REQUEST_NOT_FOUND";
    Ok (run, original, policy, mkCliDb created.2 agent)
  else
    planned ← plan_run agent run request policy;
    Ok (planned.1, request, policy, mkCliDb created.2 planned.2).

(** [_plan_or_run]: the run to render and the tables it commits. *)
Definition _plan_or_run (execute : bool) (db : cli_db) (command : ResearchRequestCreate) :
    res (ResearchAgentRunRecord * cli_db) :=
  planned ← _create_planned_run db command;
  let '(run, request, policy, db) := planned in
  if execute && bool_decide (run_status run = RunStatus.PLANNED) then
    done ← execute_run (ce_service env) request policy (ce_catalog env) (cd_agent db) run;
    Ok (done.1.1, mkCliDb (cd_requests db) done.2)
  else Ok (run, db).

(** The [snapshot_validator] of [_control]. *)
Definition snapshot_validator (security_id snapshot_id : UUID) (as_of : time) : bool :=
  match ce_snapshot env snapshot_id with
  | Some snapshot => bool_decide (sn_status snapshot = "COMPLETE") &&
      bool_decide (sn_security_id snapshot = security_id) &&
      (sn_research_as_of_time snapshot <=? as_of)
  | None => false
  end.

(** The three targets of [_control]. *)
Inductive control_target := Pause | Cancel | Resume.

(** [_control] *)
Definition _control (target : control_target) (db : cli_db) (rid : UUID) :
    res (ResearchAgentRunRecord * cli_db) :=
  current ← require_some (get_run (ag_runs (cd_agent db)) rid)
    LookupError "ResearchQueryNotFoundError";
  policy ← require_policy (ce_policies env) (run_policy_version current);
  let agent := cd_agent db in
  let keep r := mkCliDb (cd_requests db) (with_runs agent r) in
  match target with
  | Pause =>
      r ← pause (ag_runs agent) (ce_now env 2) (ce_uuid env 2) rid; Ok (r.1, keep r.2)
  | Cancel =>
      r ← cancel (ag_runs agent) (ce_now env 2) (ce_uuid env 2) rid; Ok (r.1, keep r.2)
  | Resume =>
      resumed ← resume snapshot_validator (ag_runs agent) (ag_planning agent) (ce_now env 2)
        (ce_uuid env 2) rid policy (ce_catalog env);
      request ← require_some (cd_requests db !! run_request_id current)
        LookupError "RESEARCH_REQUEST_NOT_FOUND";
      done ← execute_run (ce_service env) request policy (ce_catalog env)
        (with_runs agent resumed.2) (resumed_run resumed.1);
      Ok (done.1.1, mkCliDb (cd_requests db) done.2)
  end.

(** [_command] *)
Definition _command (security_query : string) (research_type : ResearchType) (snapshot_id : UUID)
    (as_of : time) (policy_version : string) : ResearchRequestCreate :=
  mkRequestCreate security_query research_type snapshot_id as_of
    [RSection.SECURITY_IDENTITY; RSection.DATA_QUALITY; RSection.LIMITATIONS] policy_version
    PLANNER_VERSION (mkRequested None None None None None) RMode.REAL_RESEARCH.

(** [research_pipeline_application.py:run]: [run] on an exact snapshot, with its
    identifiers and counts as the result. *)
Record pipeline_result := mkPipelineResult {
  pp_run : ResearchAgentRunRecord; pp_request_id : UUID; pp_plan_id : UUID; pp_steps : nat;
  pp_invocations : nat; pp_package_id : UUID }.
Definition pipeline_run (db : cli_db) (snapshot_id : UUID) (research_type : ResearchType)
    (policy_version : string) (as_of : time) : res (pipeline_result * cli_db) :=
  snapshot ← require_some (ce_snapshot env snapshot_id) LookupError "SNAPSHOT_NOT_FOUND";
  security ← require_some (sv_get_security (ce_service env) (sn_security_id snapshot))
    LookupError "SECURITY_NOT_FOUND";
  planned ← _create_planned_run db
    (_command (sd_mic security +:+ ":" +:+ sd_symbol security) research_type snapshot_id as_of
      policy_version);
  let '(run, request, policy, db) := planned in
  plan ← require_some (get_plan (ag_planning (cd_agent db)) (run_id run))
    LookupError "RESEARCH_PLAN_NOT_FOUND";
  ended ← (if bool_decide (run_status run = RunStatus.PLANNED) then
      done ← execute_run (ce_service env) request policy (ce_catalog env) (cd_agent db) run;
      Ok (done.1.1, pk_id done.1.2, mkCliDb (cd_requests db) done.2)
    else
      view ← require_some (ag_packages (cd_agent db) !! run_id run)
        LookupError "RESEARCH_PACKAGE_NOT_FOUND";
      Ok (run, pk_id view, db));
  let '(run, package_id, db) := ended in
  Ok (mkPipelineResult run (rq_id request) (plan_id plan)
        (length (list_steps (ag_planning (cd_agent db)) (plan_id plan)))
        (length (filter (λ v, iv_run_id (ir_write v) = run_id run) (ag_invocations (cd_agent db))))
        package_id, db).

(** The exit code of [plan] and [run]. *)
Definition exit_code (r : res (ResearchAgentRunRecord * cli_db)) : Z :=
  match r with
  | Raise _ => 4
  | Ok (run, _) =>
      match run_status run with
      | RunStatus.PARTIAL => 2
      | RunStatus.BLOCKED => 3
      | _ => 0
      end
  end.
End Commands.

(** * Commands keep the run protocol *)

(** The policies a command can use have non-negative limits, as the policy
    schema demands. *)
Definition policies_usable (env : cli_env) : Prop :=
  ∀ v p, ce_policies env !! v = Some p → 0 ≤ pol_max_steps p ∧ 0 ≤ pol_max_tool_calls p.

Lemma add_step_Ok p v p' : add_step p v = Ok p' →
  p' = mkPlanning (plans p) (plan_steps p ++ [v]) ∧ st_id v ∉ map st_id (plan_steps p).
Proof.
  unfold add_step. intros [Hid (_ & (_ & [= <-])%guard_seq)%guard_seq]%guard_seq. split; [done|].
  intros (s & Hs & Hin)%list_elem_of_fmap. apply not_true_iff_false in Hid. apply Hid.
  apply existsb_exists. exists s. by rewrite <- list_elem_of_In, bool_decide_eq_true.
Qed.

Lemma add_steps_Ok vs : ∀ p p', add_steps p vs = Ok p' →
  p' = mkPlanning (plans p) (plan_steps p ++ vs) ∧
  (NoDup (map st_id (plan_steps p)) → NoDup (map st_id (plan_steps p'))).
Proof.
  induction vs as [|v vs IH]; intros p p' H; cbn in H.
  { injection H as <-. rewrite app_nil_r. by destruct p. }
  apply bind_Ok in H as (p1 & [-> Hid]%add_step_Ok & [-> Hnd]%IH). cbn in *.
  rewrite <- app_assoc in *. split; [done|]. intros Hp. apply Hnd.
  rewrite map_app, NoDup_app. split_and!; [done| |apply NoDup_singleton].
  intros x Hx ->%list_elem_of_singleton. done.
Qed.

Lemma add_plan_Ok p v p' : add_plan p v = Ok p' →
  plans p !! plan_run_id v = None ∧ p' = mkPlanning (<[plan_run_id v := v]> (plans p)) (plan_steps p).
Proof.
  unfold add_plan. intros [Hn (_ & [= <-])%guard_seq]%guard_seq.
  by apply negb_false_iff, is_none_true in Hn.
Qed.

(** What planning a run does to the tables. *)
Record planned_from (env : cli_env) (db db' : agent_db) (run r : ResearchAgentRunRecord)
    (request : ResearchRequestRecord) (policy : ResearchPolicyRecord)
    (plan : ResearchPlanRecord) : Prop := {
  pf_steps : rtc db_step (ag_runs db) (ag_runs db');
  pf_status : run_status r = RunStatus.PLANNED;
  pf_run : get_run (ag_runs db') (run_id run) = Some r;
  pf_scope : ∀ r0, get_run (ag_runs db) (run_id run) = Some r0 →
    run_scope r = run_scope r0 ∧ run_budget r = run_budget r0;
  pf_draft : create_plan request policy (ce_catalog env) = Ok (plan_draft plan);
  pf_valid : validate (plan_draft plan) policy (ce_catalog env) = Ok (plan_validated plan);
  pf_plan_id : plan_id plan = ce_uuid env 3 ∧ plan_run_id plan = run_id run;
  pf_fresh : plans (ag_planning db) !! run_id run = None;
  pf_plan : plans (ag_planning db') = <[run_id run := plan]> (plans (ag_planning db));
  pf_rows : plan_steps (ag_planning db') = plan_steps (ag_planning db) ++
    step_rows env (run_id run) (ce_uuid env 3) (ce_now env 3) (steps plan);
  pf_ids : NoDup (map st_id (plan_steps (ag_planning db))) →
    NoDup (map st_id (plan_steps (ag_planning db')));
  pf_others : ∀ rid, rid ≠ run_id run →
    get_run (ag_runs db') rid = get_run (ag_runs db) rid;
  pf_packages : ag_packages db' = ag_packages db }.

Lemma plan_run_Ok env db run request policy r db' :
  plan_run env db run request policy = Ok (r, db') →
  ∃ plan, planned_from env db db' run r request policy plan.
Proof.
  unfold plan_run. intros ([r1 db1] & H1 & H)%bind_Ok. apply bind_Ok in H as (draft & Hd & H).
  apply bind_Ok in H as (v & Hv & H). cbv zeta in H.
  apply bind_Ok in H as (p1 & [Hn ->]%add_plan_Ok & H).
  apply bind_Ok in H as (p2 & [-> Hids]%add_steps_Ok & H).
  apply bind_Ok in H as ([r2 db2] & H2 & [= <- <-]). cbn [fst snd] in *.
  assert (plan_draft v = draft) as <-.
  { apply validate_Ok in Hv as (_ & ck & _ & ->). done. }
  exists (mkPlan v (ce_uuid env 3) (run_id run) (ce_now env 3)).
  assert (H1' := H1). assert (H2' := H2).
  apply transition_inv in H1 as (q1 & Hq1 & _ & -> & ->).
  apply transition_inv in H2 as (q2 & Hq2 & _ & -> & ->).
  cbn in Hq2. rewrite lookup_insert_eq in Hq2. injection Hq2 as <-.
  split; try done.
  - eapply rtc_l; [by eapply step_transition|]. eapply rtc_once. by eapply step_transition.
  - cbn. unfold get_run. cbn. by rewrite lookup_insert_eq.
  - unfold get_run. intros r0 Hr0. rewrite Hq1 in Hr0. by injection Hr0 as <-.
  - intros rid Hne. unfold get_run. cbn. by rewrite !lookup_insert_ne.
Qed.

Lemma stored_by_id db rid r : reachable db → db_runs db !! rid = Some r →
  get_run db (run_id r) = Some r.
Proof. intros Hreach Hr. unfold get_run. by rewrite (inv_id _ (reachable_inv _ Hreach) _ _ Hr). Qed.

(** Creating or reusing the run of a request keeps to the protocol, and the run
    is stored under its identifier. *)
Lemma create_run_reaches db v r db' :
  reachable db → run_status v = RunStatus.CREATED → run_terminal_at v = None →
  run_terminal_reason_code v = None → budget_within (run_budget v) →
  create_run db v = Ok (r, db') → rtc db_step db db' ∧ get_run db' (run_id r) = Some r ∧
  (get_run db (run_id r) = None ∨ get_run db (run_id r) = Some r) ∧
  (∀ rid, rid ≠ run_id r → get_run db' rid = get_run db rid).
Proof.
  intros Hreach Hs Ht Hc Hb H.
  assert (Hstep : db_step db db') by (by eapply step_create).
  split; [by apply rtc_once|].
  apply create_run_inv in H as [(Hf & ->)|(_ & _ & Hn & -> & ->)].
  - apply find_reusable_run_Some in Hf as [_ [rid Hr]].
    assert (Hg := stored_by_id _ _ _ Hreach Hr). by split_and!; [|right|].
  - split_and!; [apply lookup_insert_eq|by left|]. intros rid Hne.
    unfold get_run. cbn. by rewrite lookup_insert_ne.
Qed.

(** The outcome of [_create_planned_run]: the run of an earlier request, as it
    is, or a run planned by this command. *)
Inductive planned_outcome (env : cli_env) (db : cli_db) (run : ResearchAgentRunRecord)
    (request : ResearchRequestRecord) (policy : ResearchPolicyRecord) (db' : cli_db) : Prop :=
| planned_reused :
    get_run (ag_runs (cd_agent db)) (run_id run) = Some run →
    run_status run ≠ RunStatus.CREATED → run_status run ∈ _REUSABLE →
    cd_requests db' !! run_request_id run = Some request →
    cd_agent db' = know_request (cd_agent db) (ce_uuid env 0) →
    planned_outcome env db run request policy db'
| planned_new r0 agent plan :
    run_status r0 = RunStatus.CREATED → get_run (ag_runs agent) (run_id r0) = Some r0 →
    agent = with_runs (cd_agent db) (ag_runs agent) →
    (get_run (ag_runs (cd_agent db)) (run_id r0) = None ∨
     get_run (ag_runs (cd_agent db)) (run_id r0) = Some r0) →
    (∀ rid, rid ≠ run_id r0 → get_run (ag_runs agent) rid = get_run (ag_runs (cd_agent db)) rid) →
    planned_from env agent (cd_agent db') r0 run request policy plan →
    planned_outcome env db run request policy db'.

Lemma create_planned_run_Ok env db command run request policy db' :
  reachable (ag_runs (cd_agent db)) → policies_usable env →
  _create_planned_run env db command = Ok (run, request, policy, db') →
  rtc db_step (ag_runs (cd_agent db)) (ag_runs (cd_agent db')) ∧
  get_run (ag_runs (cd_agent db')) (run_id run) = Some run ∧
  require_policy (ce_policies env) (rq_policy_version command) = Ok policy ∧
  planned_outcome env db run request policy db'.
Proof.
  intros Hreach Hpol. unfold _create_planned_run. cbv zeta.
  intros ([q reqs] & Hq & H)%bind_Ok. apply bind_Ok in H as (pol & Hp & H).
  apply bind_Ok in H as (snap & _ & H). apply bind_Ok in H as (key & _ & H).
  apply bind_Ok in H as ([r0 runs] & Hc & H). cbn [fst snd] in *.
  set (known := know_request (cd_agent db) (rq_id q)) in *.
  assert (Hk : db_step (ag_runs (cd_agent db)) (ag_runs known)) by constructor.
  assert (Hreach' : reachable (ag_runs known)) by (eapply rtc_r; [exact Hreach|exact Hk]).
  assert (Hb : budget_within (_budget pol)).
  { assert (Hp' := Hp). unfold require_policy in Hp'. apply require_some_Ok in Hp'.
    destruct (Hpol _ _ Hp'). by apply fresh_budget_within. }
  destruct (create_run_reaches _ (new_run env q pol snap key) _ _ Hreach' eq_refl eq_refl eq_refl Hb Hc) as (Hrtc & Hget & Hbefore & Hothers).
  assert (Hid : rq_id q = ce_uuid env 0) by (by eapply created_request_id).
  case_bool_decide as Hst; cbn [negb] in H.
  - apply bind_Ok in H as ([r db1] & Hplan & [= <- <- <- <-]).
    apply plan_run_Ok in Hplan as (plan & Hplan). cbn [cd_agent fst snd] in *.
    assert (Hpf := Hplan). destruct Hpf as [P1 P2 P3 P4 _ _ _ _ _ _ _ _ _].
    destruct (P4 r0) as [Hscope _]; [done|].
    assert (Hrid : run_id r = run_id r0) by (unfold run_scope in Hscope; congruence).
    split_and!; [|by rewrite Hrid|done|].
    + eapply rtc_l; [exact Hk|]. etrans; [exact Hrtc|exact P1].
    + by eapply (planned_new _ _ _ _ _ _ r0 (with_runs known runs)).
  - apply bind_Ok in H as (orig & Ho%require_some_Ok & [= <- <- <- <-]). cbn [cd_agent].
    split_and!; [|done|done|].
    + eapply rtc_l; [exact Hk|exact Hrtc].
    + apply create_run_inv in Hc as [(Hf & ->)|(_ & _ & _ & -> & _)]; [|done].
      apply find_reusable_run_Some in Hf as [[_ Hre] _].
      apply planned_reused; try done. cbn. by rewrite <- Hid.
Qed.

(** * The committed tables *)

(** What a committed run is: planned and without a package, or ended with the
    package its status tells of. *)
Definition settled (db : agent_db) (r : ResearchAgentRunRecord) : Prop :=
  (run_status r = RunStatus.PLANNED ∧ ag_packages db !! run_id r = None) ∨
  ∃ pkg : ResearchPackageRecord, ag_packages db !! run_id r = Some pkg ∧ pk_run_id pkg = run_id r ∧
    run_status r = terminal_of (pk_status pkg).

Record cli_inv (db : agent_db) : Prop := {
  ci_reach : reachable (ag_runs db);
  ci_settled : ∀ rid r, get_run (ag_runs db) rid = Some r → settled db r;
  ci_package : ∀ rid, is_Some (ag_packages db !! rid) → is_Some (get_run (ag_runs db) rid);
  ci_ids : NoDup (map st_id (plan_steps (ag_planning db))) }.

Lemma cli_inv_know db id : cli_inv db → cli_inv (know_request db id).
Proof.
  intros [I1 I2 I3 I4]. split; [|exact I2|exact I3|exact I4].
  eapply rtc_r; [exact I1|]. constructor.
Qed.

Lemma settled_not_open db r : settled db r →
  run_status r = RunStatus.PLANNED ∨ terminal (run_status r) = true.
Proof. intros [[? _]|(pkg & _ & _ & ->)]; [by left|right]. by destruct (pk_status pkg). Qed.

Lemma planned_inv env db run request policy db' :
  cli_inv (cd_agent db) → planned_outcome env db run request policy db' →
  rtc db_step (ag_runs (cd_agent db)) (ag_runs (cd_agent db')) → cli_inv (cd_agent db').
Proof.
  intros Hinv Ho Hrtc. destruct Ho as [_ _ _ _ ->|r0 agent plan Hs Hg Ha Hb Hothers Hp].
  { by apply cli_inv_know. }
  destruct Hinv as [I1 I2 I3 I4], Hp as [P1 P2 P3 P4 _ _ _ _ _ _ P5 P6 P7].
  assert (Hpk : ag_packages (cd_agent db') = ag_packages (cd_agent db)) by (by rewrite P7, Ha).
  assert (Hreach : reachable (ag_runs (cd_agent db'))) by (unfold reachable in *; by etrans).
  assert (Hrid : run_id run = run_id r0).
  { destruct (P4 r0) as [Hsc _]; [done|]. unfold run_scope in Hsc. congruence. }
  assert (Hnone : get_run (ag_runs (cd_agent db)) (run_id r0) = None).
  { destruct Hb as [?|Hb]; [done|]. apply I2, settled_not_open in Hb. rewrite Hs in Hb.
    by destruct Hb. }
  split; [done| | |].
  - intros rid r Hr. destruct (decide (rid = run_id r0)) as [->|Hne].
    + rewrite P3 in Hr. injection Hr as <-. left. split; [done|].
      rewrite Hpk, Hrid. destruct (ag_packages _ !! _) eqn:E; [|done].
      destruct (I3 (run_id r0)) as [? Hx]; [by eexists|]. congruence.
    + rewrite P6, Hothers in Hr by done. unfold settled. rewrite Hpk. by eapply I2.
  - intros rid Hsome. rewrite Hpk in Hsome. destruct (decide (rid = run_id r0)) as [->|Hne].
    + by rewrite P3.
    + rewrite P6, Hothers by done. by apply I3.
  - apply P5. by rewrite Ha.
Qed.

(** An execution settles its run. *)
Lemma execute_inv service request policy catalog db run run' pkg db' :
  reachable (ag_runs db) →
  (∀ rid r, rid ≠ run_id run → get_run (ag_runs db) rid = Some r → settled db r) →
  (∀ rid, is_Some (ag_packages db !! rid) → is_Some (get_run (ag_runs db) rid)) →
  NoDup (map st_id (plan_steps (ag_planning db))) →
  get_run (ag_runs db) (run_id run) = Some run →
  execute_run service request policy catalog db run = Ok (run', pkg, db') → cli_inv db'.
Proof.
  intros I1 I2 I3 I4 Hg Hex.
  assert (Hreach := execute_run_reaches _ _ _ _ _ _ _ _ _ Hg Hex).
  destruct (execute_run_frame _ _ _ _ _ _ _ _ _ Hex) as [Hothers Hids].
  destruct (execute_run_ends _ _ _ _ _ _ _ _ _ Hg Hex)
    as (_ & Hg' & Hsc & Hst & _ & Hpkg & Hnone & Hpk).
  assert (Hrid : run_id run' = run_id run) by (unfold run_scope in Hsc; congruence).
  assert (Hreach' : reachable (ag_runs db')) by (unfold reachable in *; by etrans).
  split; [done| | |by rewrite Hids].
  - intros rid r Hr. destruct (decide (rid = run_id run)) as [->|Hne].
    + rewrite Hg' in Hr. injection Hr as <-. right. exists pkg.
      rewrite Hpk, Hrid, lookup_insert_eq. split_and!; [done|apply Hpkg|done].
    + rewrite Hothers in Hr by done. assert (run_id r = rid) as <-.
      { by apply (inv_id _ (reachable_inv _ I1)). }
      unfold settled. rewrite Hpk, lookup_insert_ne by done. by eapply I2.
  - intros rid. rewrite Hpk. destruct (decide (rid = run_id run)) as [->|Hne]; [by rewrite Hg'|].
    rewrite lookup_insert_ne, Hothers by done. apply I3.
Qed.

(** ** Storing a plan and listing its steps *)

Lemma step_rows_definitions env rid pid now ds : map definition (step_rows env rid pid now ds) = ds.
Proof.
  unfold step_rows. assert (Hl := length_seq (length ds) 0).
  revert Hl. generalize (seq 0 (length ds)) as l.
  induction ds as [|d ds IH]; intros [|i l] Hl; try done.
  cbn. f_equal. apply IH. by injection Hl.
Qed.

Lemma step_rows_fields env rid pid now ds s : s ∈ step_rows env rid pid now ds →
  st_plan_id s = pid ∧ st_run_id s = rid ∧ st_status s = StepStatus.PENDING.
Proof.
  unfold step_rows. generalize (seq 0 (length ds)) as l.
  induction ds as [|d ds IH]; intros [|i l]; cbn; try by intros ?%elem_of_nil.
  intros [->|Hs]%elem_of_cons; [done|by eapply IH].
Qed.

(** Rows numbered upwards are already in the order they are listed in. *)
Lemma rows_in_order rows : ∀ i,
  map (λ s, step_index (definition s)) rows = seqZ i (Z.of_nat (length rows)) →
  StronglySorted (not_after step_order) rows.
Proof.
  induction rows as [|s rows IH]; intros i H; [constructor|].
  rewrite length_cons, Nat2Z.inj_succ, seqZ_cons in H by lia. cbn in H.
  injection H as Hi H. rewrite Z.pred_succ in H. constructor; [by eapply IH|].
  apply Forall_forall. intros s' Hs'. unfold not_after, step_order.
  assert (Hin : step_index (definition s') ∈ seqZ (Z.succ i) (Z.of_nat (length rows))).
  { rewrite <- H. by apply (list_elem_of_fmap_2 (λ s, step_index (definition s))). }
  apply elem_of_seqZ in Hin.
  destruct (_ <? _) eqn:E1; [lia|]. destruct (_ =? _) eqn:E2; [lia|done].
Qed.

Lemma planned_rows_listed env db db' run r request policy plan :
  planned_from env db db' run r request policy plan →
  (∀ s, s ∈ plan_steps (ag_planning db) → st_plan_id s ≠ ce_uuid env 3) →
  list_steps (ag_planning db') (plan_id plan) =
    step_rows env (run_id run) (ce_uuid env 3) (ce_now env 3) (steps plan).
Proof.
  intros [_ _ _ _ _ Hv [Hpid _] _ _ Hrows _ _ _] Hfresh. unfold list_steps.
  rewrite Hrows, Hpid, filter_app.
  assert (filter (λ s, st_plan_id s = ce_uuid env 3) (plan_steps (ag_planning db)) = []) as ->.
  { apply list_filter_none. rewrite Forall_forall. exact Hfresh. }
  assert (Hall : ∀ rows : list ResearchStepRecord, (∀ s, s ∈ rows → st_plan_id s = ce_uuid env 3) →
    filter (λ s, st_plan_id s = ce_uuid env 3) rows = rows).
  { intros rows Hr. apply list_filter_all. exact Hr. }
  rewrite Hall by (by intros s (-> & _)%step_rows_fields). clear Hall.
  apply sort_by_id. apply (rows_in_order _ 0).
  apply validate_Ok in Hv as (Hok & _).
  assert (Hd := step_rows_definitions env (run_id run) (ce_uuid env 3) (ce_now env 3) (steps plan)).
  set (rows := step_rows _ _ _ _ _) in *.
  assert (Hlen : length rows = length (steps plan)) by (by rewrite <- Hd, length_map).
  rewrite Hlen, <- (ok_indexes _ _ _ Hok), <- Hd, map_map. done.
Qed.

(** ** Sequences of commands *)

(** One command; each runs in its own transaction, process and environment. *)
Inductive cli_step : cli_db → cli_db → Prop :=
| cli_plan_or_run env execute db command r db' :
    policies_usable env → _plan_or_run env execute db command = Ok (r, db') → cli_step db db'
| cli_pipeline env db snapshot rtype policy as_of r db' :
    policies_usable env → pipeline_run env db snapshot rtype policy as_of = Ok (r, db') →
    cli_step db db'
| cli_control env target db rid r db' :
    _control env target db rid = Ok (r, db') → cli_step db db'.

Definition empty_cli_db : cli_db :=
  mkCliDb ∅ (mkAgentDb empty_db (mkPlanning ∅ []) [] [] [] (mkClaimsDb ∅ []) ∅).

(** No run is RUNNING or PAUSED between two commands. *)
Lemma control_fails env target db rid :
  cli_inv (cd_agent db) → is_ok (_control env target db rid) = false.
Proof.
  intros Hinv. destruct (_control _ _ _ _) as [[r db']|] eqn:E; [exfalso|done].
  unfold _control in E. apply bind_Ok in E as (cur & Hg%require_some_Ok & E).
  apply bind_Ok in E as (pol & _ & E). cbv zeta in E.
  assert (Hst := settled_not_open _ _ (ci_settled _ Hinv _ _ Hg)).
  assert (Hno : run_status cur ≠ RunStatus.RUNNING ∧ run_status cur ≠ RunStatus.PAUSED)
    by (destruct Hst as [->|Ht]; [done|by destruct (run_status cur)]).
  destruct Hno as [H1 H2].
  destruct target; apply bind_Ok in E as (x & E & _); [unfold pause in E|unfold cancel in E|
    unfold resume in E]; unfold _require in E; rewrite Hg in E; cbn in E;
    apply guard_seq in E as [E _]; apply negb_false_iff, bool_decide_eq_true in E; try done.
  by apply elem_of_cons in E as [?|[?|?%elem_of_nil]%elem_of_cons].
Qed.

Lemma executed_inv env db command run request policy db1 run' pkg agent :
  cli_inv (cd_agent db) → policies_usable env →
  _create_planned_run env db command = Ok (run, request, policy, db1) →
  execute_run (ce_service env) request policy (ce_catalog env) (cd_agent db1) run =
    Ok (run', pkg, agent) → cli_inv agent.
Proof.
  intros Hinv Hpol Hc Hex.
  apply create_planned_run_Ok in Hc as (Hrtc & Hg & _ & Ho); [|apply Hinv|done].
  eapply planned_inv in Ho; [|done..]. destruct Ho as [I1 I2 I3 I4].
  eapply execute_inv; [exact I1| |exact I3|exact I4|exact Hg|exact Hex].
  intros rid r _. apply I2.
Qed.

Lemma created_inv env db command run request policy db1 :
  cli_inv (cd_agent db) → policies_usable env →
  _create_planned_run env db command = Ok (run, request, policy, db1) → cli_inv (cd_agent db1).
Proof.
  intros Hinv Hpol Hc. apply create_planned_run_Ok in Hc as (Hrtc & _ & _ & Ho); [|apply Hinv|done].
  by eapply planned_inv.
Qed.

Lemma cli_step_inv db db' : cli_step db db' → cli_inv (cd_agent db) → cli_inv (cd_agent db').
Proof.
  intros Hstep Hinv. destruct Hstep as [env ex db c r db' Hpol H|env db sn rt pv ao r db' Hpol H
    |env target db rid r db' H].
  - unfold _plan_or_run in H. apply bind_Ok in H as ([[[run q] pol] db1] & Hc & H).
    case_match; [|injection H as <- <-; by eapply created_inv].
    apply bind_Ok in H as ([[run' pkg] agent] & Hex & [= <- <-]). by eapply executed_inv.
  - unfold pipeline_run in H. apply bind_Ok in H as (snap & _ & H).
    apply bind_Ok in H as (sec & _ & H). apply bind_Ok in H as ([[[run q] pol] db1] & Hc & H).
    apply bind_Ok in H as (plan & _ & H). apply bind_Ok in H as ([[run' pid] db2] & He & [= <- <-]).
    case_bool_decide.
    + apply bind_Ok in He as ([[run2 pkg] agent] & Hex & [= <- <- <-]). by eapply executed_inv.
    + apply bind_Ok in He as (view & _ & [= <- <- <-]). by eapply created_inv.
  - apply control_fails with env target db rid in Hinv. by rewrite H in Hinv.
Qed.

Lemma commands_inv db : rtc cli_step empty_cli_db db → cli_inv (cd_agent db).
Proof.
  intros H. assert (Hi : cli_inv (cd_agent empty_cli_db)).
  { split; [by apply rtc_refl|..]; cbn.
    - intros rid r. unfold get_run. cbn. by rewrite lookup_empty.
    - intros rid [? Hx]. by rewrite lookup_empty in Hx.
    - constructor. }
  revert Hi. induction H; eauto using cli_step_inv.
Qed.

(** C8. Whatever commands were run, every committed run is accounted for: it is
    PLANNED without a package or has ended with exactly the package its status
    tells of, its events replay from CREATED to its status, and its budget is
    within its limits. *)
Theorem commands_settle_runs db rid r :
  rtc cli_step empty_cli_db db → get_run (ag_runs (cd_agent db)) rid = Some r →
  settled (cd_agent db) r ∧
  replay RunStatus.CREATED (trail (ag_runs (cd_agent db)) rid) = Some (run_status r) ∧
  budget_within (run_budget r).
Proof.
  intros H%commands_inv Hr. assert (Hi := reachable_inv _ (ci_reach _ H)).
  split_and!; [by eapply ci_settled|by apply inv_trail|by eapply inv_budget].
Qed.

(** C11. The control commands never take effect: no sequence of commands leaves
    a run that [pause], [cancel] or [resume] accepts, because [run] executes in
    one transaction and commits only planned and ended runs. *)
Theorem controls_never_succeed env target db rid :
  rtc cli_step empty_cli_db db → is_ok (_control env target db rid) = false.
Proof. intros H%commands_inv. by apply control_fails. Qed.

(** C9. [run] ends its run: whatever commands came before, its result is a
    stored run in a terminal status with the package that status tells of,
    whether it was executed now or is the COMPLETED run of an equal request. *)
Theorem run_command_ends env db command r db' :
  rtc cli_step empty_cli_db db → policies_usable env →
  _plan_or_run env true db command = Ok (r, db') →
  get_run (ag_runs (cd_agent db')) (run_id r) = Some r ∧ terminal (run_status r) = true ∧
  ∃ pkg : ResearchPackageRecord, ag_packages (cd_agent db') !! run_id r = Some pkg ∧
    pk_run_id pkg = run_id r ∧ run_status r = terminal_of (pk_status pkg).
Proof.
  intros H%commands_inv Hpol Hrun.
  assert (Hfin : ∀ agent, cli_inv agent → get_run (ag_runs agent) (run_id r) = Some r →
    run_status r ≠ RunStatus.PLANNED → terminal (run_status r) = true ∧
    ∃ pkg : ResearchPackageRecord, ag_packages agent !! run_id r = Some pkg ∧
      pk_run_id pkg = run_id r ∧ run_status r = terminal_of (pk_status pkg)).
  { intros agent Hi Hg Hne. destruct (ci_settled _ Hi _ _ Hg) as [[? _]|Hp]; [done|].
    split; [|done]. destruct Hp as (pkg & _ & _ & ->). by destruct (pk_status pkg). }
  unfold _plan_or_run in Hrun. apply bind_Ok in Hrun as ([[[run q] pol] db1] & Hc & Hrun).
  assert (Hi1 := created_inv _ _ _ _ _ _ _ H Hpol Hc).
  destruct (create_planned_run_Ok _ _ _ _ _ _ _ (ci_reach _ H) Hpol Hc) as (_ & Hg & _).
  cbn [andb] in Hrun. case_bool_decide as Hst.
  - apply bind_Ok in Hrun as ([[run' pkg] agent] & Hex & [= <- <-]).
    assert (Hi2 := executed_inv _ _ _ _ _ _ _ _ _ _ H Hpol Hc Hex).
    destruct (execute_run_ends _ _ _ _ _ _ _ _ _ Hg Hex) as (_ & Hg' & Hsc & Hs & Ht & _).
    assert (Hrid : run_id run' = run_id run) by (unfold run_scope in Hsc; congruence).
    cbn. rewrite Hrid. split; [done|]. rewrite <- Hrid in Hg' |- *.
    apply Hfin; [done|done|]. rewrite Hs. by destruct (pk_status pkg).
  - injection Hrun as <- <-. split; [done|]. by apply Hfin.
Qed.


(** A run that FAILED exits with 0, as a COMPLETED one does, although the code
    for failures is 4. *)
Lemma failed_run_exits_zero r db :
  run_status r = RunStatus.FAILED → exit_code (Ok (r, db)) = 0.
Proof. unfold exit_code. by intros ->. Qed.

(** * Examples *)

Module AgentCliExamples.
Import PreflightExamples.

Definition named (prefix : string) (n : nat) : UUID := mkUUID (prefix +:+ str_of_Z (Z.of_nat n)).
Definition snapshot (status : string) : DataSnapshotRecord :=
  mkSnapshot (mkUUID "snap") status (mkUUID "sec") 90 None.
Definition detail : SecurityDetail :=
  mkDetail (mkUUID "sec") (mkUUID "iss") "Apple Inc." "AAPL" "XNAS".

(** Every Tool fails. *)
Definition service : service_env := mkServiceEnv
  (λ i, mkEnv (λ _ _ _ _, raise ToolRegistryError "TOOL_EXECUTION_FAILED")
    (λ k, named ("inv-" +:+ str_of_Z (Z.of_nat i) +:+ "-") k) (λ n, 200 + Z.of_nat n))
  (λ i k, 300 + Z.of_nat (10 * i + k)) (named "ob-") (named "ev-")
  (λ _, Some (snapshot "COMPLETE")) (λ _, Some detail) ClaimExamples.env
  (mkUUID "pkg") (mkUUID "row") (mkUUID "e1") (mkUUID "e2") (λ n, 500 + Z.of_nat n).
Definition env (status : string) : cli_env := mkCliEnv
  (λ _, mkResolution ResolutionStatus.RESOLVED "aapl" [mkUUID "sec"])
  (λ _, Some (snapshot status)) {[pol_version policy := policy]} full_catalog (named "u-")
  (λ n, 100 + Z.of_nat n) service.

Definition planned : res (ResearchAgentRunRecord * cli_db) :=
  _plan_or_run (env "PARTIAL") false empty_cli_db command.
Definition executed : res (ResearchAgentRunRecord * cli_db) :=
  _plan_or_run (env "COMPLETE") true empty_cli_db command.
Definition status_of (r : res (ResearchAgentRunRecord * cli_db)) : option ResearchRunStatus :=
  match r with Ok (run, _) => Some (run_status run) | Raise _ => None end.

Lemma usable s : policies_usable (env s).
Proof.
  intros v p. cbn. intros [<- <-]%lookup_singleton_Some. done.
Qed.
End AgentCliExamples.

Lemma planned_ok : AgentCliExamples.status_of AgentCliExamples.planned = Some RunStatus.PLANNED.
Proof. vm_compute. reflexivity. Qed.
Lemma executed_ok : AgentCliExamples.status_of AgentCliExamples.executed = Some RunStatus.FAILED.
Proof. vm_compute. reflexivity. Qed.

Lemma commands_settle_runs_witness :
  match AgentCliExamples.planned with
  | Ok (r, db) => ∀ rid r', get_run (ag_runs (cd_agent db)) rid = Some r' →
      settled (cd_agent db) r' ∧ budget_within (run_budget r')
  | Raise _ => False
  end.
Proof.
  assert (H := planned_ok). destruct AgentCliExamples.planned as [[r db]|e] eqn:E; [|discriminate H]. clear H.
  intros rid r' Hr. destruct (commands_settle_runs db rid r') as (H1 & _ & H2); [|exact Hr|].
  - apply rtc_once. exact (cli_plan_or_run (AgentCliExamples.env "PARTIAL") false empty_cli_db
      PreflightExamples.command r db (AgentCliExamples.usable _) E).
  - exact (conj H1 H2).
Defined.

Lemma controls_never_succeed_witness :
  match AgentCliExamples.executed with
  | Ok (r, db) => is_ok (_control (AgentCliExamples.env "COMPLETE") Resume db (run_id r)) = false
  | Raise _ => False
  end.
Proof.
  assert (H := executed_ok). destruct AgentCliExamples.executed as [[r db]|e] eqn:E; [|discriminate H]. clear H.
  apply controls_never_succeed, rtc_once.
  exact (cli_plan_or_run (AgentCliExamples.env "COMPLETE") true empty_cli_db
    PreflightExamples.command r db (AgentCliExamples.usable _) E).
Defined.

Lemma run_command_ends_witness :
  match AgentCliExamples.executed with
  | Ok (r, db) => terminal (run_status r) = true
  | Raise _ => False
  end.
Proof.
  assert (H := executed_ok). destruct AgentCliExamples.executed as [[r db]|e] eqn:E; [|discriminate H]. clear H.
  exact (proj1 (proj2 (run_command_ends (AgentCliExamples.env "COMPLETE") empty_cli_db
    PreflightExamples.command r db (rtc_refl _ _) (AgentCliExamples.usable _) E))).
Defined.

(** The run row, before its planning. *)
Definition created_tables : agent_db :=
  mkAgentDb (mkRunDb {[mkUUID "req"]}
      {[mkUUID "run" := mkRun (mkUUID "run") (mkUUID "req") (mkUUID "sec") (mkUUID "snap") 100
         RunStatus.CREATED (pol_version PreflightExamples.policy) PLANNER_VERSION
         (catalog_version PreflightExamples.catalog) (catalog_checksum PreflightExamples.catalog)
         "key" (_budget PreflightExamples.policy) [] None 10 10 None]} [])
    (mkPlanning ∅ []) [] [] [] (mkClaimsDb ∅ []) ∅.
Definition planned_tables : res (ResearchAgentRunRecord * agent_db) :=
  plan_run (AgentCliExamples.env "COMPLETE") created_tables AgentRunExamples.run
    PreflightExamples.request PreflightExamples.policy.

Lemma planned_tables_ok : is_ok planned_tables = true.
Proof. vm_compute. reflexivity. Qed.


(** A run planned over a PARTIAL snapshot, were it ever paused, could not be
    resumed: [plan] accepts the snapshot, [resume] demands a COMPLETE one. *)
Lemma partial_snapshot_not_resumable :
  AgentCliExamples.status_of AgentCliExamples.planned = Some RunStatus.PLANNED ∧
  ∀ security as_of, snapshot_validator (AgentCliExamples.env "PARTIAL") security
    (mkUUID "snap") as_of = false.
Proof. split; [vm_compute; reflexivity|]. intros security as_of. reflexivity. Qed.
