(* ===== verification/Text.v ===== *)
(** Unicode text of documents, queries and reports: a Python [str] as the list
    of its code points, with the operations the program uses of it (slices,
    [isspace], [split], [join], [find], [encode]) and the ASCII-only JSON of
    [json.dumps] with default arguments.  NFKC normalization and case folding
    depend on the Unicode character database; they are the members of
    [UnicodeData]. *)
From S2P Require Import Prelude PyDecimal PyText.
From Stdlib Require Import Ascii.

Abbreviation ustr := (list Z) (only parsing).

(** A literal of ASCII characters. *)
Fixpoint ulit (s : string) : ustr :=
  match s with EmptyString => [] | String c s => Z.of_N (N_of_ascii c) :: ulit s end.
Coercion ulit : string >-> list.

Class UnicodeData := {
  nfkc : ustr → ustr;
  casefold : ustr → ustr }.

(** On ASCII text NFKC is the identity and folding lowers the letters. *)
Definition ascii_fold (c : Z) : Z := if (65 <=? c) && (c <=? 90) then c + 32 else c.
Definition ascii_unicode : UnicodeData := {| nfkc := λ t, t; casefold := map ascii_fold |}.

(** * Indexing and slices *)

Definition ulen (t : ustr) : Z := Z.of_nat (length t).

(** [t[i]]: a negative index counts from the end. *)
Definition py_index (t : ustr) (i : Z) : res Z :=
  let j := if i <? 0 then i + ulen t else i in
  if j <? 0 then raise IndexError "string index out of range"
  else require_some (t !! Z.to_nat j) IndexError "string index out of range".

(** [t[a:b]] *)
Definition slice_bound (n i : Z) : Z := if i <? 0 then Z.max 0 (i + n) else Z.min i n.
Definition slice {A} (t : list A) (a b : Z) : list A :=
  let n := Z.of_nat (length t) in
  let a := slice_bound n a in
  take (Z.to_nat (slice_bound n b - a)) (drop (Z.to_nat a) t).

Lemma slice_nonneg {A} (t : list A) a b :
  0 ≤ a ≤ b → b ≤ Z.of_nat (length t) →
  slice t a b = take (Z.to_nat (b - a)) (drop (Z.to_nat a) t).
Proof.
  intros Ha Hb. unfold slice, slice_bound.
  destruct (Z.ltb_spec a 0), (Z.ltb_spec b 0); try lia. rewrite !Z.min_l by lia. done.
Qed.

Lemma slice_length {A} (t : list A) a b :
  0 ≤ a ≤ b → b ≤ Z.of_nat (length t) → Z.of_nat (length (slice t a b)) = b - a.
Proof. intros Ha Hb. rewrite slice_nonneg, length_take, length_drop by done. lia. Qed.

(** A slice of a slice. *)
Lemma slice_slice {A} (t : list A) a b c d :
  0 ≤ a ≤ b → b ≤ Z.of_nat (length t) → 0 ≤ c ≤ d → d ≤ b - a →
  slice (slice t a b) c d = slice t (a + c) (a + d).
Proof.
  intros Ha Hb Hc Hd.
  rewrite (slice_nonneg (slice t a b)) by (rewrite ?slice_length; lia).
  rewrite !slice_nonneg by lia. rewrite skipn_firstn_comm, drop_drop, take_take.
  f_equal; [lia|f_equal; lia].
Qed.

Lemma slice_full {A} (t : list A) : slice t 0 (Z.of_nat (length t)) = t.
Proof. rewrite slice_nonneg by lia. rewrite drop_0, take_ge by lia. done. Qed.

(** The part of a concatenation that one operand is. *)
Lemma slice_app_middle {A} (x y z : list A) :
  slice (x ++ y ++ z) (Z.of_nat (length x)) (Z.of_nat (length x) + Z.of_nat (length y)) = y.
Proof.
  rewrite slice_nonneg by (rewrite ?length_app; lia).
  rewrite drop_app_length' by lia. rewrite take_app_length' by lia. done.
Qed.

(** * Character classes *)

Definition cp_in (lo hi c : Z) : bool := (lo <=? c) && (c <=? hi).

(** [c.isspace()] *)
Definition is_space (c : Z) : bool :=
  cp_in 9 13 c || cp_in 28 32 c || (c =? 133) || (c =? 160) || (c =? 5760)
  || cp_in 8192 8202 c || cp_in 8232 8233 c || (c =? 8239) || (c =? 8287) || (c =? 12288).
Definition is_cjk (c : Z) : bool := cp_in 13312 40959 c.
Definition is_latin (c : Z) : bool := cp_in 65 90 c || cp_in 97 122 c.
Definition is_alnum (c : Z) : bool := is_latin c || cp_in 48 57 c.
(** [unicodedata.category(c) == "Cc"] *)
Definition is_control (c : Z) : bool := cp_in 0 31 c || cp_in 127 159 c.
Definition is_surrogate (c : Z) : bool := cp_in 55296 57343 c.

(** [t.strip()], [t.split()] and [sep.join(parts)] *)
Fixpoint ltrim (t : ustr) : ustr :=
  match t with [] => [] | c :: t' => if is_space c then ltrim t' else t end.
Definition ustrip (t : ustr) : ustr := rev (ltrim (rev (ltrim t))).

Fixpoint split_go (word : ustr) (t : ustr) : list ustr :=
  let flush := match word with [] => [] | _ => [rev word] end in
  match t with
  | [] => flush
  | c :: t => if is_space c then flush ++ split_go [] t else split_go (c :: word) t
  end.
Definition usplit (t : ustr) : list ustr := split_go [] t.

Fixpoint ujoin (sep : ustr) (l : list ustr) : ustr :=
  match l with
  | [] => []
  | [t] => t
  | t :: l => t ++ sep ++ ujoin sep l
  end.

(** [t.startswith(p)] and [p in t] *)
Definition ustarts (t p : ustr) : bool := bool_decide (take (length p) t = p).
Fixpoint ucontains (t p : ustr) : bool :=
  ustarts t p || match t with [] => false | _ :: t => ucontains t p end.

(** Longest prefix of characters in a class, and the rest. *)
Fixpoint span (p : Z → bool) (t : ustr) : ustr * ustr :=
  match t with
  | [] => ([], [])
  | c :: t' => if p c then let '(a, b) := span p t' in (c :: a, b) else ([], t)
  end.

Lemma span_app p t : (span p t).1 ++ (span p t).2 = t.
Proof.
  induction t as [|c t IH]; [done|]. cbn. destruct (p c); [|done].
  destruct (span p t) eqn:E. cbn in *. by rewrite IH.
Qed.

Lemma span_length p t : (length (span p t).2 ≤ length t)%nat.
Proof. rewrite <- (span_app p t) at 2. rewrite length_app. lia. Qed.

(** The folded, whitespace-collapsed form of a text. *)
Section Normalize.
Context `{UnicodeData}.
Definition normalize_text (t : ustr) : ustr := ujoin (ulit " ") (usplit (casefold (nfkc t))).
End Normalize.

(** * Encoding *)

Definition byte_char (n : Z) : string := String (ascii_of_N (Z.to_N n)) "".

(** [chr(c).encode()]: UTF-8; a lone surrogate cannot be encoded. *)
Definition utf8_char (c : Z) : res string :=
  if is_surrogate c then raise UnicodeEncodeError "surrogates not allowed"
  else if c <? 128 then Ok (byte_char c)
  else if c <? 2048 then Ok (byte_char (192 + c / 64) +:+ byte_char (128 + c mod 64))
  else if c <? 65536 then
    Ok (byte_char (224 + c / 4096) +:+ byte_char (128 + c / 64 mod 64) +:+
        byte_char (128 + c mod 64))
  else Ok (byte_char (240 + c / 262144) +:+ byte_char (128 + c / 4096 mod 64) +:+
           byte_char (128 + c / 64 mod 64) +:+ byte_char (128 + c mod 64)).

(** [t.encode()] *)
Fixpoint utf8 (t : ustr) : res string :=
  match t with
  | [] => Ok ""
  | c :: t => s ← utf8_char c; s' ← utf8 t; Ok (s +:+ s')
  end.

(** * [json.dumps] with [ensure_ascii=True] *)

Inductive ujson :=
| UNull | UBool (b : bool) | UInt (z : Z) | UStr (t : ustr)
| UList (l : list ujson) | UObj (l : list (string * ujson)).

Definition hex4 (n : Z) : string :=
  let d k := String (hex_digit (Z.to_N (n / k mod 16))) "" in
  d 4096 +:+ d 256 +:+ d 16 +:+ d 1.

Definition uescape_char (c : Z) : string :=
  if c =? 34 then "\" +:+ dquote
  else if c =? 92 then "\\"
  else if c =? 10 then "\n"
  else if c =? 13 then "\r"
  else if c =? 9 then "\t"
  else if c =? 8 then "\b"
  else if c =? 12 then "\f"
  else if (32 <=? c) && (c <? 127) then byte_char c
  else if c <? 65536 then "\u" +:+ hex4 c
  else "\u" +:+ hex4 (55296 + (c - 65536) / 1024) +:+ "\u" +:+ hex4 (56320 + (c - 65536) mod 1024).

Fixpoint uescape (t : ustr) : string :=
  match t with [] => "" | c :: t => uescape_char c +:+ uescape t end.
Definition ujson_string (t : ustr) : string := dquote +:+ uescape t +:+ dquote.

(** [json.dumps(_, sort_keys=True, separators=(",", ":"))]; the keys of the
    program's objects are ASCII. *)
Fixpoint ujson_dumps (v : ujson) : string :=
  match v with
  | UNull => "null"
  | UBool b => if b then "true" else "false"
  | UInt z => str_of_Z z
  | UStr t => ujson_string t
  | UList l => "[" +:+ str_join "," (map ujson_dumps l) +:+ "]"
  | UObj l => "{" +:+ str_join ","
      (map (λ kv, json_string kv.1 +:+ ":" +:+ kv.2)
        (sort_key fst (map (λ kv, (kv.1, ujson_dumps kv.2)) l))) +:+ "}"
  end.

Definition u_opt {A} (f : A → ujson) (o : option A) : ujson :=
  match o with Some a => f a | None => UNull end.

Example utf8_cjk : utf8 [8364; 24037; 128512] =
  Ok (str_map (λ c, c) (String.concat "" (map byte_char
       [226; 130; 172; 229; 183; 165; 240; 159; 152; 128]))).
Proof. vm_compute. reflexivity. Qed.
Example dumps_ascii : ujson_dumps (UObj [("b", UStr [128512]); ("a", UList [UInt 3; UNull])]) =
  String.concat "" ["{"; dquote; "a"; dquote; ":[3,null],"; dquote; "b"; dquote; ":"; dquote;
    "\ud83d\ude00"; dquote; "}"].
Proof. vm_compute. reflexivity. Qed.

(** [a < b] on strings: by code points. *)
Fixpoint ultb (a b : ustr) : bool :=
  match a, b with
  | _, [] => false
  | [], _ :: _ => true
  | x :: a, y :: b => (x <? y) || ((x =? y) && ultb a b)
  end.
