(* ===== verification/DocModel.v ===== *)
(** The vocabulary and the immutable contracts of document evidence:
    domain/documents/enums.py and schemas.py, with the field constraints
    that the services can trip over as boolean predicates ([*_valid]). *)
From S2P Require Import Prelude PyDecimal PyText AgentModel Text.
From Stdlib Require Import Ascii.

(** * Closed vocabularies *)

Module DocLang.
Inductive DocumentLanguage :=
  | ZH_CN | EN_US | MIXED | UNKNOWN.
#[global] Instance DocumentLanguage_eq_dec : EqDecision DocumentLanguage.
Proof. solve_decision. Defined.
Definition all : list DocumentLanguage :=
  [ZH_CN; EN_US; MIXED; UNKNOWN].
Definition value (x : DocumentLanguage) : string :=
  match x with
  | ZH_CN => "zh-CN"
  | EN_US => "en-US"
  | MIXED => "MIXED"
  | UNKNOWN => "UNKNOWN"
  end.
End DocLang.
Abbreviation DocumentLanguage := DocLang.DocumentLanguage.

Module Trust.
Inductive TrustLevel :=
  | OFFICIAL_REGULATORY | OFFICIAL_COMPANY | APPROVED_PROVIDER | TEST_FIXTURE | UNKNOWN.
#[global] Instance TrustLevel_eq_dec : EqDecision TrustLevel.
Proof. solve_decision. Defined.
Definition all : list TrustLevel :=
  [OFFICIAL_REGULATORY; OFFICIAL_COMPANY; APPROVED_PROVIDER; TEST_FIXTURE; UNKNOWN].
Definition value (x : TrustLevel) : string :=
  match x with
  | OFFICIAL_REGULATORY => "OFFICIAL_REGULATORY"
  | OFFICIAL_COMPANY => "OFFICIAL_COMPANY"
  | APPROVED_PROVIDER => "APPROVED_PROVIDER"
  | TEST_FIXTURE => "TEST_FIXTURE"
  | UNKNOWN => "UNKNOWN"
  end.
End Trust.
Abbreviation TrustLevel := Trust.TrustLevel.

Module SrcSt.
Inductive SourceVersionStatus :=
  | ACTIVE | WITHDRAWN | UNKNOWN.
#[global] Instance SourceVersionStatus_eq_dec : EqDecision SourceVersionStatus.
Proof. solve_decision. Defined.
Definition all : list SourceVersionStatus :=
  [ACTIVE; WITHDRAWN; UNKNOWN].
Definition value (x : SourceVersionStatus) : string :=
  match x with
  | ACTIVE => "ACTIVE"
  | WITHDRAWN => "WITHDRAWN"
  | UNKNOWN => "UNKNOWN"
  end.
End SrcSt.
Abbreviation SourceVersionStatus := SrcSt.SourceVersionStatus.

Module ParseSt.
Inductive ParseStatus :=
  | RUNNING | PASS | PARTIAL | BLOCKED | FAIL.
#[global] Instance ParseStatus_eq_dec : EqDecision ParseStatus.
Proof. solve_decision. Defined.
Definition all : list ParseStatus :=
  [RUNNING; PASS; PARTIAL; BLOCKED; FAIL].
Definition value (x : ParseStatus) : string :=
  match x with
  | RUNNING => "RUNNING"
  | PASS => "PASS"
  | PARTIAL => "PARTIAL"
  | BLOCKED => "BLOCKED"
  | FAIL => "FAIL"
  end.
End ParseSt.
Abbreviation ParseStatus := ParseSt.ParseStatus.

Module PageSt.
Inductive PageStatus :=
  | PASS | BLANK | NO_TEXT | PARTIAL.
#[global] Instance PageStatus_eq_dec : EqDecision PageStatus.
Proof. solve_decision. Defined.
Definition all : list PageStatus :=
  [PASS; BLANK; NO_TEXT; PARTIAL].
Definition value (x : PageStatus) : string :=
  match x with
  | PASS => "PASS"
  | BLANK => "BLANK"
  | NO_TEXT => "NO_TEXT"
  | PARTIAL => "PARTIAL"
  end.
End PageSt.
Abbreviation PageStatus := PageSt.PageStatus.

Module Loc.
Inductive LocatorType :=
  | PDF_PAGE_RANGE | HTML_ANCHOR_RANGE | TEXT_OFFSET_RANGE | JSON_POINTER | SECTION_RANGE.
#[global] Instance LocatorType_eq_dec : EqDecision LocatorType.
Proof. solve_decision. Defined.
Definition all : list LocatorType :=
  [PDF_PAGE_RANGE; HTML_ANCHOR_RANGE; TEXT_OFFSET_RANGE; JSON_POINTER; SECTION_RANGE].
Definition value (x : LocatorType) : string :=
  match x with
  | PDF_PAGE_RANGE => "PDF_PAGE_RANGE"
  | HTML_ANCHOR_RANGE => "HTML_ANCHOR_RANGE"
  | TEXT_OFFSET_RANGE => "TEXT_OFFSET_RANGE"
  | JSON_POINTER => "JSON_POINTER"
  | SECTION_RANGE => "SECTION_RANGE"
  end.
End Loc.
Abbreviation LocatorType := Loc.LocatorType.

Module CitSt.
Inductive CitationStatus :=
  | VALID | INVALID | STALE_REFERENCE | FUTURE_DATA | SOURCE_MISSING | PARSE_VERSION_MISMATCH.
#[global] Instance CitationStatus_eq_dec : EqDecision CitationStatus.
Proof. solve_decision. Defined.
Definition all : list CitationStatus :=
  [VALID; INVALID; STALE_REFERENCE; FUTURE_DATA; SOURCE_MISSING; PARSE_VERSION_MISMATCH].
Definition value (x : CitationStatus) : string :=
  match x with
  | VALID => "VALID"
  | INVALID => "INVALID"
  | STALE_REFERENCE => "STALE_REFERENCE"
  | FUTURE_DATA => "FUTURE_DATA"
  | SOURCE_MISSING => "SOURCE_MISSING"
  | PARSE_VERSION_MISMATCH => "PARSE_VERSION_MISMATCH"
  end.
End CitSt.
Abbreviation CitationStatus := CitSt.CitationStatus.

Module CKind.
Inductive ContentKind :=
  | TEXT | HEADING | TABLE | JSON.
#[global] Instance ContentKind_eq_dec : EqDecision ContentKind.
Proof. solve_decision. Defined.
Definition all : list ContentKind :=
  [TEXT; HEADING; TABLE; JSON].
Definition value (x : ContentKind) : string :=
  match x with
  | TEXT => "TEXT"
  | HEADING => "HEADING"
  | TABLE => "TABLE"
  | JSON => "JSON"
  end.
End CKind.
Abbreviation ContentKind := CKind.ContentKind.

Module Marker.
Inductive SafetyMarker :=
  | PROMPT_INJECTION_CANDIDATE | SYSTEM_PROMPT_IMITATION | CREDENTIAL_REQUEST
   | TOOL_INVOCATION_TEXT | EXFILTRATION_URL.
#[global] Instance SafetyMarker_eq_dec : EqDecision SafetyMarker.
Proof. solve_decision. Defined.
Definition all : list SafetyMarker :=
  [PROMPT_INJECTION_CANDIDATE; SYSTEM_PROMPT_IMITATION; CREDENTIAL_REQUEST
  ; TOOL_INVOCATION_TEXT; EXFILTRATION_URL].
Definition value (x : SafetyMarker) : string :=
  match x with
  | PROMPT_INJECTION_CANDIDATE => "PROMPT_INJECTION_CANDIDATE"
  | SYSTEM_PROMPT_IMITATION => "SYSTEM_PROMPT_IMITATION"
  | CREDENTIAL_REQUEST => "CREDENTIAL_REQUEST"
  | TOOL_INVOCATION_TEXT => "TOOL_INVOCATION_TEXT"
  | EXFILTRATION_URL => "EXFILTRATION_URL"
  end.
End Marker.
Abbreviation SafetyMarker := Marker.SafetyMarker.

(** * Field constraints *)

(** [re.compile(r"[a-z][a-z0-9_-]{0,31}-v[1-9][0-9]*\Z")]: a name, "-v" and a
    positive decimal number. *)
Fixpoint drop_digits (l : list ascii) : list ascii :=
  match l with c :: l' => if is_digit c then drop_digits l' else l | [] => [] end.
Definition name_ok (l : list ascii) : bool :=
  match l with
  | c :: l => is_lower c && forallb (λ c, is_lower c || is_digit c || char_in ["_"; "-"]%char c) l
              && (Z.of_nat (length l) <=? 31)
  | [] => false
  end.
Definition name_version_ok (s : string) : bool :=
  let l := rev (String.list_ascii_of_string s) in
  let rest := drop_digits l in
  let digits := rev (take (length l - length rest) l) in
  match digits, rest with
  | d :: _, "v"%char :: "-"%char :: name => negb (bool_decide (d = "0"%char)) && name_ok (rev name)
  | _, _ => false
  end.

Definition ulen_between (lo hi : Z) (t : ustr) : bool := between lo hi (ulen t).

(** Construction of a contract whose fields are checked. *)
Definition validated {A} (ok : A → bool) (a : A) : res A :=
  if ok a then Ok a else raise ValidationError "invalid field".

Lemma validated_Ok {A} (ok : A → bool) a a' : validated ok a = Ok a' ↔ a' = a ∧ ok a = true.
Proof.
  unfold validated, raise. destruct (ok a); split; try naive_solver congruence.
Qed.

(** * Versions of a document *)

Record SourceBodyRecord := mkBody {
  sb_source_document_id : UUID; sb_security_id : UUID; sb_provider_id : UUID;
  sb_source_payload_id : UUID; sb_storage_uri : string; sb_checksum : string;
  sb_byte_size : Z; sb_mime_type : string; sb_published_at : option time;
  sb_filed_at : option time; sb_period_end : option date; sb_retrieved_at : time }.
#[export] Instance SourceBodyRecord_eq_dec : EqDecision SourceBodyRecord.
Proof. solve_decision. Defined.

(** [re.compile(r"blob://[a-z][a-z0-9_-]{0,31}/[0-9a-f]{32}\Z")] *)
Fixpoint before_slash (l : list ascii) : list ascii * list ascii :=
  match l with
  | [] => ([], [])
  | c :: l => if bool_decide (c = "/"%char) then ([], l)
              else let '(a, b) := before_slash l in (c :: a, b)
  end.
Definition blob_uri_ok (s : string) : bool :=
  let l := String.list_ascii_of_string s in
  let '(name, digest) := before_slash (drop 7 l) in
  bool_decide (take 7 l = String.list_ascii_of_string "blob://") && name_ok name
  && forallb is_hex_lower digest && bool_decide (length digest = 32%nat).
Definition mime_types : list string :=
  ["application/json"; "application/pdf"; "text/html"; "text/plain"].

Definition SourceBodyRecord_valid (b : SourceBodyRecord) : bool :=
  blob_uri_ok (sb_storage_uri b) && Checksum_ok (sb_checksum b)
  && between 1 10000000 (sb_byte_size b) && bool_decide (sb_mime_type b ∈ mime_types).

Record RegisterDocumentVersionRequest := mkRegister {
  rq_logical_document_id : option UUID; rq_source_body : SourceBodyRecord;
  rq_version_number : option Z; rq_supersedes : option UUID;
  rq_document_language : DocumentLanguage; rq_trust_level : TrustLevel;
  rq_evidence_origin : string; rq_access_mode : string; rq_live_status : string;
  rq_source_version_status : SourceVersionStatus }.

Definition RegisterDocumentVersionRequest_valid (r : RegisterDocumentVersionRequest) : bool :=
  opt_forallb (λ n, 1 <=? n) (rq_version_number r)
  && bool_decide (rq_evidence_origin r ∈ ["SOURCE"; "SYNTHETIC_TEST_ONLY"])
  && bool_decide (rq_access_mode r ∈ ["OFFLINE"; "ONLINE"])
  && bool_decide (rq_live_status r ∈ ["NOT_LIVE"; "LIVE"]).

Record DocumentVersionWrite := mkVersionWrite {
  dv_logical_document_id : UUID; dv_source_document_id : UUID; dv_security_id : UUID;
  dv_provider_id : UUID; dv_source_payload_id : UUID; dv_version_number : Z;
  dv_supersedes : option UUID; dv_storage_uri : string; dv_mime_type : string;
  dv_checksum : string; dv_byte_size : Z; dv_published_at : option time;
  dv_filed_at : option time; dv_period_end : option date; dv_retrieved_at : time;
  dv_document_language : DocumentLanguage; dv_trust_level : TrustLevel;
  dv_evidence_origin : string; dv_access_mode : string; dv_live_status : string;
  dv_source_version_status : SourceVersionStatus }.
Record DocumentVersionRecord := mkVersion {
  dv_write :> DocumentVersionWrite; dv_id : UUID; dv_created_at : time }.

Inductive reuse_status := CREATED | REUSED | BLOCKED.
#[export] Instance reuse_status_eq_dec : EqDecision reuse_status.
Proof. solve_decision. Defined.

Record DocumentVersionResult := mkVersionResult {
  vr_status : reuse_status; vr_version : option DocumentVersionRecord; vr_warnings : list string }.

Record BindSnapshotDocumentVersionRequest := mkBind {
  bd_snapshot_id : UUID; bd_document_version_id : UUID; bd_snapshot_item_id : UUID }.
Record SnapshotDocumentVersionResult := mkBindResult {
  br_status : reuse_status; br_link : option BindSnapshotDocumentVersionRequest;
  br_warnings : list string }.
Record SnapshotBodyEvidenceRecord := mkBodyEvidence {
  be_snapshot_id : UUID; be_snapshot_item_id : UUID; be_security_id : UUID;
  be_provider_id : UUID; be_category : string; be_source_record_type : string;
  be_source_record_id : UUID }.

(** * Parsed documents *)

Record ParserConfig := mkParserConfig {
  max_document_bytes : Z; max_pdf_pages : Z; max_characters_per_page : Z;
  max_document_characters : Z; max_html_nodes : Z; max_html_depth : Z; max_json_depth : Z;
  max_json_array_items : Z; approved_json_pointers : list ustr }.
Definition ParserConfig_valid (c : ParserConfig) : bool :=
  between 1 10000000 (max_document_bytes c) && between 1 500 (max_pdf_pages c)
  && between 1 100000 (max_characters_per_page c) && between 1 5000000 (max_document_characters c)
  && between 1 50000 (max_html_nodes c) && between 1 64 (max_html_depth c)
  && between 1 32 (max_json_depth c) && between 1 10000 (max_json_array_items c).

Record ParsedPage := mkPage {
  pg_page_number : Z; pg_text : ustr; pg_text_checksum : string; pg_character_count : Z;
  pg_status : PageStatus; pg_warnings : list string }.

Record ParsedSection := mkSection {
  sn_section_path : ustr; sn_parent_section_path : option ustr; sn_level : Z; sn_title : ustr;
  sn_locator_type : LocatorType; sn_start_page : option Z; sn_end_page : option Z;
  sn_start_offset : option Z; sn_end_offset : option Z; sn_text_checksum : string;
  sn_content_kind : ContentKind }.

Record ParsedDocument := mkParsed {
  pd_canonical_text : ustr; pd_canonical_text_checksum : string; pd_pages : list ParsedPage;
  pd_sections : list ParsedSection; pd_status : ParseStatus; pd_warnings : list string;
  pd_safety_markers : list string; pd_parser_metadata : list (string * string) }.

(** [_validate_locator_ranges]: [true] when it does not raise. *)
Definition range_pair_ok (ok : Z → Z → bool) (a b : option Z) : bool :=
  match a, b with
  | None, None => true
  | Some a, Some b => ok a b
  | _, _ => false
  end.
Definition _validate_locator_ranges (locator_type : LocatorType)
    (start_page end_page start_offset end_offset : option Z) : bool :=
  range_pair_ok (λ s e, s <=? e) start_page end_page
  && range_pair_ok (λ s e, s <? e) start_offset end_offset
  && negb (bool_decide (locator_type = Loc.PDF_PAGE_RANGE) && is_none start_page)
  && negb (bool_decide (locator_type = Loc.TEXT_OFFSET_RANGE) && is_none start_offset).

Definition ParsedPage_valid (p : ParsedPage) : bool :=
  between 1 500 (pg_page_number p) && (ulen (pg_text p) <=? 100000)
  && Checksum_ok (pg_text_checksum p) && (pg_character_count p =? ulen (pg_text p)).

Definition ParsedSection_valid (s : ParsedSection) : bool :=
  ulen_between 1 512 (sn_section_path s)
  && opt_forallb (λ p, ulen p <=? 512) (sn_parent_section_path s)
  && between 1 64 (sn_level s) && ulen_between 1 1000 (sn_title s)
  && opt_forallb (λ p, 1 <=? p) (sn_start_page s) && opt_forallb (λ p, 1 <=? p) (sn_end_page s)
  && opt_forallb (λ p, 0 <=? p) (sn_start_offset s) && opt_forallb (λ p, 0 <=? p) (sn_end_offset s)
  && Checksum_ok (sn_text_checksum s)
  && _validate_locator_ranges (sn_locator_type s) (sn_start_page s) (sn_end_page s)
       (sn_start_offset s) (sn_end_offset s).

Definition ParsedDocument_valid (d : ParsedDocument) : bool :=
  (ulen (pd_canonical_text d) <=? 5000000) && Checksum_ok (pd_canonical_text_checksum d).

(** * Chunks *)

Record ChunkConfig := mkChunkConfig {
  chunk_version : string; target_characters : Z; maximum_characters : Z;
  minimum_characters : Z; overlap_characters : Z }.

Definition ChunkConfig_valid (c : ChunkConfig) : bool :=
  name_version_ok (chunk_version c) && between 120 1600 (target_characters c)
  && between 120 1600 (maximum_characters c) && between 1 1600 (minimum_characters c)
  && between 0 200 (overlap_characters c)
  && (minimum_characters c <=? target_characters c)
  && (target_characters c <=? maximum_characters c)
  && (overlap_characters c <=? target_characters c / 5).
Definition default_chunk_config : ChunkConfig := mkChunkConfig "chunk-v1" 1000 1600 120 200.

Record DocumentChunkDraft := mkChunk {
  ck_chunk_version : string; ck_chunk_index : Z; ck_text : ustr; ck_normalized_text : ustr;
  ck_language : DocumentLanguage; ck_content_kind : ContentKind; ck_locator_type : LocatorType;
  ck_section_path : option ustr; ck_html_anchor : option ustr; ck_json_pointer : option ustr;
  ck_start_page : option Z; ck_end_page : option Z; ck_start_offset : option Z;
  ck_end_offset : option Z; ck_token_count : Z; ck_checksum : string; ck_warnings : list string }.

Definition locator_has_anchor (locator_type : LocatorType) (html_anchor json_pointer : option ustr)
    : bool :=
  negb (bool_decide (locator_type = Loc.HTML_ANCHOR_RANGE) && is_none html_anchor)
  && negb (bool_decide (locator_type = Loc.JSON_POINTER) && is_none json_pointer).

Definition DocumentChunkDraft_valid (c : DocumentChunkDraft) : bool :=
  name_version_ok (ck_chunk_version c) && (0 <=? ck_chunk_index c)
  && ulen_between 1 1600 (ck_text c) && ulen_between 1 1600 (ck_normalized_text c)
  && opt_forallb (λ t, ulen t <=? 512) (ck_section_path c)
  && opt_forallb (λ t, ulen t <=? 256) (ck_html_anchor c)
  && opt_forallb (λ t, ulen t <=? 1000) (ck_json_pointer c)
  && opt_forallb (λ p, 1 <=? p) (ck_start_page c) && opt_forallb (λ p, 1 <=? p) (ck_end_page c)
  && opt_forallb (λ p, 0 <=? p) (ck_start_offset c) && opt_forallb (λ p, 0 <=? p) (ck_end_offset c)
  && (0 <=? ck_token_count c) && Checksum_ok (ck_checksum c)
  && _validate_locator_ranges (ck_locator_type c) (ck_start_page c) (ck_end_page c)
       (ck_start_offset c) (ck_end_offset c)
  && locator_has_anchor (ck_locator_type c) (ck_html_anchor c) (ck_json_pointer c).

(** A valid draft has a non-empty range. *)
Lemma draft_range c a b : DocumentChunkDraft_valid c = true →
  ck_start_offset c = Some a → ck_end_offset c = Some b → a < b.
Proof.
  unfold DocumentChunkDraft_valid. intros [[_ H]%andb_true_iff _]%andb_true_iff Ha Hb.
  unfold _validate_locator_ranges in H. rewrite Ha, Hb in H. cbn in H. bools. lia.
Qed.

(** * Citations *)

Record CreateCitationRequest := mkCitationRequest {
  ca_document_version_id : UUID; ca_parse_run_id : UUID; ca_page_id : option UUID;
  ca_section_id : option UUID; ca_chunk_id : option UUID; ca_locator_type : LocatorType;
  ca_start_page : option Z; ca_end_page : option Z; ca_html_anchor : option ustr;
  ca_json_pointer : option ustr; ca_start_offset : option Z; ca_end_offset : option Z;
  ca_excerpt : ustr; ca_excerpt_checksum : string; ca_canonical_text_checksum : string;
  ca_document_checksum : string; ca_citation_version : string; ca_parser_version : string;
  ca_sanitizer_version : string }.

Definition CreateCitationRequest_valid (c : CreateCitationRequest) : bool :=
  opt_forallb (λ p, 1 <=? p) (ca_start_page c) && opt_forallb (λ p, 1 <=? p) (ca_end_page c)
  && opt_forallb (λ t, ulen t <=? 256) (ca_html_anchor c)
  && opt_forallb (λ t, ulen t <=? 1000) (ca_json_pointer c)
  && opt_forallb (λ p, 0 <=? p) (ca_start_offset c) && opt_forallb (λ p, 0 <=? p) (ca_end_offset c)
  && ulen_between 1 1000 (ca_excerpt c) && Checksum_ok (ca_excerpt_checksum c)
  && Checksum_ok (ca_canonical_text_checksum c) && Checksum_ok (ca_document_checksum c)
  && name_version_ok (ca_citation_version c) && name_version_ok (ca_parser_version c)
  && name_version_ok (ca_sanitizer_version c).

Record CitationAnchorDraft := mkAnchorDraft {
  ca_request :> CreateCitationRequest; ca_locator_checksum : string }.
Definition CitationAnchorDraft_valid (c : CitationAnchorDraft) : bool :=
  CreateCitationRequest_valid c && Checksum_ok (ca_locator_checksum c)
  && _validate_locator_ranges (ca_locator_type c) (ca_start_page c) (ca_end_page c)
       (ca_start_offset c) (ca_end_offset c)
  && locator_has_anchor (ca_locator_type c) (ca_html_anchor c) (ca_json_pointer c).

Record CitationAnchorRecord := mkAnchor {
  ca_draft :> CitationAnchorDraft; ca_id : UUID; ca_created_at : time }.

(** What [BlobStorage] answers about one object. *)
Record BlobMetadata := mkBlobMetadata {
  checksum_sha256 : string; size_bytes : Z; content_type : string }.

Record CitationContext := mkCitationContext {
  cx_citation : CitationAnchorRecord; cx_document_version : DocumentVersionRecord;
  cx_canonical_source_text : ustr; cx_blob_bytes : string; cx_blob_mime_type : string;
  cx_blob_checksum : string; cx_blob_size : Z; cx_version_in_snapshot : option bool;
  cx_snapshot_ids : list UUID; cx_superseded_by : option UUID; cx_superseded_at : option time;
  cx_supersession_time_unknown : bool; cx_available_page_numbers : list Z;
  cx_page_texts : list (Z * ustr); cx_available_section_ids : list UUID;
  cx_section_paths : gmap UUID ustr; cx_section_ranges : gmap UUID (option Z * option Z);
  cx_available_html_anchors : list ustr; cx_available_json_pointers : list ustr;
  cx_chunk_text : option ustr; cx_parser_version : string; cx_sanitizer_version : string }.

Record CitationScope := mkCitationScope {
  sc_research_as_of_time : option time; sc_strict_historical : bool;
  sc_snapshot_id : option UUID; sc_explicit_document_version_id : option UUID }.
Definition CitationScope_valid (s : CitationScope) : bool :=
  negb (Bool.eqb (is_none (sc_snapshot_id s)) (is_none (sc_research_as_of_time s))).

Record CitationVerification := mkVerification {
  cv_status : CitationStatus; cv_citation_id : UUID; cv_warnings : list string }.

Example version_tokens :
  (name_version_ok "chunk-v1", name_version_ok "a-v2-v10", name_version_ok "x-v01",
   name_version_ok "-v1", name_version_ok "abc") = (true, true, false, false, false).
Proof. vm_compute. reflexivity. Qed.
