(* ===== verification/Chunking.v ===== *)
(** Chunking of canonical document text: domain/documents/chunking.py.  A
    document is cut along its pages or sections into segments, and a segment
    into overlapping windows that end at white space where there is some. *)
From S2P Require Import Prelude PyDecimal PyText Sha256 AgentModel Text DocModel.
From Stdlib Require Import Sorted.

(** * Windows of a segment *)

Record crange := mkRange { rg_start : Z; rg_end : Z; rg_forced : bool }.
#[export] Instance crange_eq_dec : EqDecision crange.
Proof. solve_decision. Defined.

(** A [for] loop over [n] decreasing, or increasing, indexes that returns at the
    first white space. *)
Fixpoint last_boundary_go (text : ustr) (index : Z) (n : nat) : res (option Z) :=
  match n with
  | O => Ok None
  | S n =>
      c ← py_index text (index - 1);
      if is_space c then Ok (Some index) else last_boundary_go text (index - 1) n
  end.
Definition _last_boundary (text : ustr) (lower upper : Z) : res (option Z) :=
  last_boundary_go text upper (Z.to_nat (upper - lower)).

Fixpoint first_boundary_go (text : ustr) (index : Z) (n : nat) : res (option Z) :=
  match n with
  | O => Ok None
  | S n =>
      c ← py_index text index;
      if is_space c then Ok (Some (index + 1)) else first_boundary_go text (index + 1) n
  end.
Definition _first_boundary (text : ustr) (lower upper : Z) : res (option Z) :=
  let lower := Z.max lower 0 in first_boundary_go text lower (Z.to_nat (upper - lower)).

(** A loop that has not ended. *)
Definition out_of_fuel {A} : res A := raise (NamedError "out of fuel") "".

Section Ranges.
Context (text : ustr) (config : ChunkConfig).

(** The end of the window that starts at [start], and whether it was forced. *)
Definition window_end (start : Z) : res (Z * bool) :=
  if ulen text - start <=? maximum_characters config then Ok (ulen text, false)
  else
    let target := Z.min (start + target_characters config) (ulen text) in
    let lower := Z.min (start + minimum_characters config) target in
    boundary ← _last_boundary text lower target;
    Ok (match boundary with
        | Some b => (b, false)
        | None => (Z.min (start + maximum_characters config) (ulen text), true)
        end).

(** The end of the loop body: the window is recorded and, unless it reaches the
    end of the text, the next one starts at a boundary within the overlap. *)
Definition emit (ranges : list crange) (start end_ : Z) (forced : bool) :
    res (list crange * Z + list crange) :=
  let ranges := ranges ++ [mkRange start end_ forced] in
  if end_ =? ulen text then Ok (inr ranges)
  else
    let overlap := Z.min (overlap_characters config) (target_characters config / 5) in
    let next_start := end_ - overlap in
    boundary ← _first_boundary text next_start end_;
    Ok (inl (ranges, match boundary with
                     | Some b => if b <? end_ then b else next_start
                     | None => next_start
                     end)).

(** One round of the [while] loop: the next state, or the result. *)
Definition range_step (ranges : list crange) (start : Z) :
    res (list crange * Z + list crange) :=
  if negb (start <? ulen text) then Ok (inr ranges)
  else
    w ← window_end start;
    let '(end_, forced) := w in
    match last ranges with
    | Some previous =>
        if end_ - start <? minimum_characters config then
          if end_ - rg_start previous <=? maximum_characters config then
            Ok (inr (removelast ranges ++
                     [mkRange (rg_start previous) end_ (rg_forced previous || forced)]))
          else
            emit ranges (Z.max (rg_start previous + 1) (end_ - minimum_characters config))
              end_ forced
        else emit ranges start end_ forced
    | None => emit ranges start end_ forced
    end.

Fixpoint ranges_loop (fuel : nat) (ranges : list crange) (start : Z) : res (list crange) :=
  match fuel with
  | O => out_of_fuel
  | S fuel =>
      s ← range_step ranges start;
      match s with
      | inl (ranges, start) => ranges_loop fuel ranges start
      | inr ranges => Ok ranges
      end
  end.

Definition _ranges (fuel : nat) : res (list crange) :=
  if ulen text <=? maximum_characters config then Ok [mkRange 0 (ulen text) false]
  else ranges_loop fuel [] 0.
End Ranges.

(** * Segments *)

Record _Segment := mkSegment {
  sg_start : Z; sg_end : Z; sg_locator_type : LocatorType; sg_content_kind : ContentKind;
  sg_section_path : option ustr; sg_html_anchor : option ustr; sg_json_pointer : option ustr;
  sg_start_page : option Z; sg_end_page : option Z }.

Fixpoint page_segments (cursor : Z) (pages : list ParsedPage) : list _Segment :=
  match pages with
  | [] => []
  | page :: pages =>
      let end_ := cursor + ulen (pg_text page) in
      (if cursor <? end_ then
         [mkSegment cursor end_ Loc.PDF_PAGE_RANGE CKind.TEXT None None None
            (Some (pg_page_number page)) (Some (pg_page_number page))]
       else []) ++ page_segments (end_ + 3) pages
  end.

Definition section_segment (section : ParsedSection) : option _Segment :=
  match sn_start_offset section, sn_end_offset section with
  | Some start, Some end_ =>
      if start <? end_ then
        let path_if t := if bool_decide (sn_locator_type section = t)
                         then Some (sn_section_path section) else None in
        Some (mkSegment start end_ (sn_locator_type section) (sn_content_kind section)
          (Some (sn_section_path section)) (path_if Loc.HTML_ANCHOR_RANGE)
          (path_if Loc.JSON_POINTER) (sn_start_page section) (sn_end_page section))
      else None
  | _, _ => None
  end.

Definition _segments (parsed : ParsedDocument) : list _Segment :=
  match pd_pages parsed, pd_sections parsed with
  | _ :: _, _ => page_segments 0 (pd_pages parsed)
  | [], _ :: _ => omap section_segment (pd_sections parsed)
  | [], [] => [mkSegment 0 (ulen (pd_canonical_text parsed)) Loc.TEXT_OFFSET_RANGE CKind.TEXT
                 None None None None None]
  end.

(** * Chunks *)

Definition _language (value : ustr) : DocumentLanguage :=
  let has_cjk := existsb is_cjk value in
  let has_latin := existsb is_latin value in
  if has_cjk && has_latin then DocLang.MIXED
  else if has_cjk then DocLang.ZH_CN
  else if has_latin then DocLang.EN_US
  else DocLang.UNKNOWN.

(** Matches of
    [[A-Za-z0-9]+(?:[.:%-][A-Za-z0-9]+)*|[\u3400-\u9fff]]: the state says whether
    the scan is inside a word ([Some true]) or at a separator that a word
    character would make part of it ([Some false]). *)
Definition is_joiner (c : Z) : bool := (c =? 46) || (c =? 58) || (c =? 37) || (c =? 45).
Fixpoint count_tokens (state : option bool) (t : ustr) : Z :=
  match t with
  | [] => 0
  | c :: t =>
      if is_alnum c then (if is_none state then 1 else 0) + count_tokens (Some true) t
      else if is_cjk c then 1 + count_tokens None t
      else if is_joiner c && bool_decide (state = Some true) then count_tokens (Some false) t
      else count_tokens None t
  end.

Section Chunker.
Context `{UnicodeData}.

Definition descriptor (parsed : ParsedDocument) (config : ChunkConfig) (index : Z)
    (segment : _Segment) (start end_ : Z) (chunk_text : ustr) : ujson :=
  let s x := UStr (ulit x) in
  UObj
    [("canonical_text_checksum", s (pd_canonical_text_checksum parsed));
     ("parser_metadata", UObj (map (λ kv, (kv.1, s kv.2)) (pd_parser_metadata parsed)));
     ("chunk_config", UObj
        [("chunk_version", s (chunk_version config));
         ("target_characters", UInt (target_characters config));
         ("maximum_characters", UInt (maximum_characters config));
         ("minimum_characters", UInt (minimum_characters config));
         ("overlap_characters", UInt (overlap_characters config))]);
     ("chunk_version", s (chunk_version config));
     ("chunk_index", UInt index);
     ("locator_type", s (Loc.value (sg_locator_type segment)));
     ("section_path", u_opt UStr (sg_section_path segment));
     ("html_anchor", u_opt UStr (sg_html_anchor segment));
     ("json_pointer", u_opt UStr (sg_json_pointer segment));
     ("start_page", u_opt UInt (sg_start_page segment));
     ("end_page", u_opt UInt (sg_end_page segment));
     ("start_offset", UInt start); ("end_offset", UInt end_); ("text", UStr chunk_text)].

(** The body of the inner loop: the chunk of one window. *)
Definition make_chunk (parsed : ParsedDocument) (config : ChunkConfig) (index : Z)
    (segment : _Segment) (range : crange) : res DocumentChunkDraft :=
  let start := sg_start segment + rg_start range in
  let end_ := sg_start segment + rg_end range in
  let chunk_text := slice (pd_canonical_text parsed) start end_ in
  validated DocumentChunkDraft_valid
    (mkChunk (chunk_version config) index chunk_text (normalize_text chunk_text)
       (_language chunk_text) (sg_content_kind segment) (sg_locator_type segment)
       (sg_section_path segment) (sg_html_anchor segment) (sg_json_pointer segment)
       (sg_start_page segment) (sg_end_page segment) (Some start) (Some end_)
       (count_tokens None chunk_text)
       (sha256_hex (ujson_dumps (descriptor parsed config index segment start end_ chunk_text)))
       (if rg_forced range then ["FORCED_TOKEN_SPLIT"] else [])).

Definition segment_text (parsed : ParsedDocument) (segment : _Segment) : ustr :=
  slice (pd_canonical_text parsed) (sg_start segment) (sg_end segment).

Definition chunk_segment (fuel : nat) (parsed : ParsedDocument) (config : ChunkConfig)
    (results : list DocumentChunkDraft) (segment : _Segment) : res (list DocumentChunkDraft) :=
  ranges ← _ranges (segment_text parsed segment) config fuel;
  res_fold (λ results range,
      draft ← make_chunk parsed config (Z.of_nat (length results)) segment range;
      Ok (results ++ [draft])) ranges results.

(** [DocumentChunker.chunk] *)
Definition chunk (fuel : nat) (parsed : ParsedDocument) (config : ChunkConfig) :
    res (list DocumentChunkDraft) :=
  if bool_decide (pd_canonical_text parsed = []) then Ok []
  else res_fold (chunk_segment fuel parsed config) (_segments parsed) [].
End Chunker.

(** * The windows cover the segment *)

(** Consecutive windows advance and leave no gap. *)
Definition follows (a b : crange) : Prop :=
  rg_start a < rg_start b ∧ rg_start b ≤ rg_end a ∧ rg_end a < rg_end b.

(** A list of windows of a text of [n] characters: one window for a short text;
    otherwise from the first character to the last without a gap, every window
    within the configured sizes. *)
Definition tiling (config : ChunkConfig) (n : Z) (ranges : list crange) : Prop :=
  (n ≤ maximum_characters config ∧ ranges = [mkRange 0 n false]) ∨
  (maximum_characters config < n ∧
   (∃ a, head ranges = Some a ∧ rg_start a = 0) ∧ (∃ z, last ranges = Some z ∧ rg_end z = n) ∧
   Sorted follows ranges ∧
   Forall (λ r, minimum_characters config ≤ rg_end r - rg_start r ≤ maximum_characters config)
     ranges).

Lemma Sorted_snoc {A} (R : A → A → Prop) l x :
  Sorted R (l ++ [x]) ↔ Sorted R l ∧ ∀ y, last l = Some y → R y x.
Proof.
  induction l as [|a l IH]; cbn [app].
  - split; [intros _; split; [constructor|by intros y [=]]|intros _; by repeat constructor].
  - split.
    + intros [Hl Ha]%Sorted_inv. apply IH in Hl as [Hl Hx]. destruct l as [|b l].
      * cbn in Ha. apply HdRel_inv in Ha. split; [by repeat constructor|]. by intros y [= <-].
      * split; [constructor; [done|]|exact Hx]. cbn in Ha. apply HdRel_inv in Ha. by constructor.
    + intros [[Hl Ha]%Sorted_inv Hx]. destruct l as [|b l].
      * cbn. repeat constructor. by apply Hx.
      * constructor; [apply IH; split; [done|exact Hx]|]. apply HdRel_inv in Ha. by constructor.
Qed.

Lemma head_snoc {A} (l : list A) x y : head l = Some y → head (l ++ [x]) = Some y.
Proof. by destruct l. Qed.

Lemma py_index_Ok text i : 0 ≤ i < ulen text → ∃ c, py_index text i = Ok c.
Proof.
  intros Hi. unfold py_index. destruct (Z.ltb_spec i 0); [lia|].
  destruct (Z.ltb_spec i 0); [lia|].
  destruct (lookup_lt_is_Some_2 text (Z.to_nat i)) as [c Hc]; [unfold ulen in Hi; lia|].
  exists c. by rewrite Hc.
Qed.

(** A boundary is a position after white space. *)
Definition boundary (text : ustr) (j : Z) : Prop :=
  ∃ c, py_index text (j - 1) = Ok c ∧ is_space c = true.

(** The last boundary of a range, and the first. *)
Lemma last_boundary_spec text n : ∀ index, 0 ≤ index - Z.of_nat n → index ≤ ulen text →
  ∃ b, last_boundary_go text index n = Ok b ∧
    match b with
    | Some j => index - Z.of_nat n < j ≤ index ∧ boundary text j ∧
                ∀ k, j < k ≤ index → ¬ boundary text k
    | None => ∀ k, index - Z.of_nat n < k ≤ index → ¬ boundary text k
    end.
Proof.
  induction n as [|n IH]; intros index Hlo Hhi; cbn -[Z.of_nat].
  { exists None. split; [done|]. intros k Hk. lia. }
  destruct (py_index_Ok text (index - 1)) as [c Hc]; [lia|].
  run_res Hc. destruct (is_space c) eqn:Es.
  - exists (Some index). split; [done|]. split_and!; [lia|lia|by exists c|]. intros k Hk. lia.
  - destruct (IH (index - 1)) as (b & Hb & Hspec); [lia..|]. exists b. split; [done|].
    assert (Hn : ¬ boundary text index) by (intros (c' & Hc' & ?); congruence).
    destruct b as [j|].
    + destruct Hspec as (Hj & Hbj & Hnone). split_and!; [lia|lia|done|]. intros k Hk.
      destruct (decide (k = index)) as [->|]; [done|]. apply Hnone. lia.
    + intros k Hk. destruct (decide (k = index)) as [->|]; [done|]. apply Hspec. lia.
Qed.

Lemma last_boundary_hit text e n : ∀ index, index - Z.of_nat n < e ≤ index → 0 < e →
  index ≤ ulen text → boundary text e → (∀ k, e < k ≤ index → ¬ boundary text k) →
  last_boundary_go text index n = Ok (Some e).
Proof.
  induction n as [|n IH]; intros index He H0 Hhi Hb Hnone; [lia|]. cbn -[Z.of_nat].
  destruct (py_index_Ok text (index - 1)) as [c Hc]; [lia|]. run_res Hc.
  destruct (decide (index = e)) as [->|Hne].
  - destruct Hb as (c' & Hc' & Hs). rewrite Hc in Hc'. injection Hc' as <-. by rewrite Hs.
  - destruct (is_space c) eqn:Es; [exfalso; apply (Hnone index); [lia|by exists c]|].
    apply IH; [lia|done|lia|done|]. intros k Hk. apply Hnone. lia.
Qed.

Lemma first_boundary_spec text n : ∀ index, 0 ≤ index → index + Z.of_nat n ≤ ulen text →
  ∃ b, first_boundary_go text index n = Ok b ∧
    match b with
    | Some j => index < j ≤ index + Z.of_nat n ∧ boundary text j ∧
                ∀ k, index < k < j → ¬ boundary text k
    | None => ∀ k, index < k ≤ index + Z.of_nat n → ¬ boundary text k
    end.
Proof.
  induction n as [|n IH]; intros index Hlo Hhi; cbn -[Z.of_nat].
  { exists None. split; [done|]. intros k Hk. lia. }
  destruct (py_index_Ok text index) as [c Hc]; [lia|].
  assert (Hi : index = index + 1 - 1) by lia.
  run_res Hc. destruct (is_space c) eqn:Es.
  - exists (Some (index + 1)). split; [done|]. split_and!; [lia|lia| |].
    + exists c. by rewrite <- Hi.
    + intros k Hk. lia.
  - destruct (IH (index + 1)) as (b & Hb & Hspec); [lia..|]. exists b. split; [done|].
    assert (Hn : ¬ boundary text (index + 1)).
    { intros (c' & Hc' & ?). rewrite <- Hi in Hc'. congruence. }
    destruct b as [j|].
    + destruct Hspec as (Hj & Hbj & Hnone). split_and!; [lia|lia|done|]. intros k Hk.
      destruct (decide (k = index + 1)) as [->|]; [done|]. apply Hnone. lia.
    + intros k Hk. destruct (decide (k = index + 1)) as [->|]; [done|]. apply Hspec. lia.
Qed.

Section Tiling.
Context (text : ustr) (config : ChunkConfig).
Abbreviation len := (ulen text).
Abbreviation min_chars := (minimum_characters config).
Abbreviation max_chars := (maximum_characters config).
Abbreviation target := (target_characters config).
Definition overlap_of : Z := Z.min (overlap_characters config) (target_characters config / 5).
Abbreviation overlap := overlap_of.
Context (Hmin : 1 ≤ min_chars) (Htarget : min_chars ≤ target ≤ max_chars)
  (Hoverlap : 0 ≤ overlap) (Hfifth : 5 * overlap ≤ target) (Hlen : max_chars < len).

(** The window of a start, far from the end of the text. *)
Lemma window_end_far start : 0 ≤ start → max_chars < len - start →
  ∃ e f, window_end text config start = Ok (e, f) ∧
    ((f = true ∧ e = start + max_chars) ∨
     (f = false ∧ start + min_chars < e ≤ start + target ∧ boundary text e ∧
      ∀ k, e < k ≤ start + target → ¬ boundary text k)).
Proof using All.
  intros Hs Hfar. unfold window_end. destruct (Z.leb_spec (len - start) max_chars); [lia|].
  rewrite (Z.min_l (start + target)) by lia. rewrite (Z.min_l (start + min_chars)) by lia.
  unfold _last_boundary.
  destruct (last_boundary_spec text (Z.to_nat (start + target - (start + min_chars)))
    (start + target)) as (b & Hb & Hspec); [lia..|].
  run_res Hb. destruct b as [j|].
  - destruct Hspec as (Hj & Hbj & Hnone). exists j, false. split; [done|]. right.
    split_and!; [done|lia|lia|done|done].
  - eexists _, true. split; [done|]. left. split; [done|lia].
Qed.

Lemma window_end_near start : len - start ≤ max_chars →
  window_end text config start = Ok (len, false).
Proof using All. intros Hn. unfold window_end. by rewrite (proj2 (Z.leb_le _ _) Hn). Qed.

(** Where the window after one that ends at [e] starts. *)
Definition next_start (e : Z) : res Z :=
  b ← _first_boundary text (e - overlap) e;
  Ok (match b with Some b => if b <? e then b else e - overlap | None => e - overlap end).

Lemma emit_far ranges start e f : e ≠ len →
  emit text config ranges start e f =
  (s ← next_start e; Ok (inl (ranges ++ [mkRange start e f], s))).
Proof using All.
  intros He. unfold emit, next_start. destruct (Z.eqb_spec e len); [done|].
  change (Z.min (overlap_characters config) (target / 5)) with overlap.
  by destruct (_first_boundary text (e - overlap) e).
Qed.

Lemma next_start_spec e : 0 < e ≤ len →
  ∃ s, next_start e = Ok s ∧ e - overlap ≤ s ≤ e ∧
    ((s = e - overlap ∧ ∀ k, Z.max (e - overlap) 0 < k < e → ¬ boundary text k) ∨
     (boundary text s ∧ Z.max (e - overlap) 0 < s < e ∧
      ∀ k, Z.max (e - overlap) 0 < k < s → ¬ boundary text k)).
Proof using All.
  intros He. unfold next_start, _first_boundary.
  destruct (first_boundary_spec text (Z.to_nat (e - Z.max (e - overlap) 0)) (Z.max (e - overlap) 0))
    as (b & Hb & Hspec); [lia..|].
  run_res Hb. destruct b as [j|].
  - destruct Hspec as (Hj & Hbj & Hnone). destruct (Z.ltb_spec j e).
    + exists j. split; [done|]. split; [lia|]. right. split_and!; [done|lia|lia|done].
    + exists (e - overlap). split; [done|]. split; [lia|]. left. split; [done|].
      intros k Hk. apply Hnone. lia.
  - exists (e - overlap). split; [done|]. split; [lia|]. left. split; [done|].
    intros k Hk. apply Hspec. lia.
Qed.

(** A start from which the loop records the same window for ever. *)
Definition stuck (s : Z) : Prop :=
  ∀ ranges, ranges ≠ [] → ∃ r, range_step text config ranges s = Ok (inl (ranges ++ [r], s)).

Lemma stuck_loop s fuel : stuck s → ∀ ranges, ranges ≠ [] →
  ranges_loop text config fuel ranges s = out_of_fuel.
Proof using All.
  intros Hs. induction fuel as [|fuel IH]; intros ranges Hr; [done|]. cbn [ranges_loop].
  destruct (Hs ranges Hr) as [r Hstep]. run_res Hstep. apply IH. by destruct ranges.
Qed.

(** A window whose successor does not start later is met again. *)
Lemma backward_stuck start e s : 0 ≤ start → max_chars < len - start →
  start + min_chars < e ≤ start + target → boundary text e →
  (∀ k, e < k ≤ start + target → ¬ boundary text k) →
  next_start e = Ok s → s ≤ start → stuck s.
Proof using All.
  intros Hs Hfar He Hb Hnone Hnext Hle ranges Hr.
  destruct (next_start_spec e) as (s' & Hs' & Hbound & _); [lia|].
  rewrite Hnext in Hs'. injection Hs' as <-.
  assert (Hw : window_end text config s = Ok (e, false)).
  { unfold window_end. destruct (Z.leb_spec (len - s) max_chars); [lia|].
    rewrite (Z.min_l (s + target)) by lia. rewrite (Z.min_l (s + min_chars)) by lia.
    unfold _last_boundary. rewrite (last_boundary_hit text e); [done|lia|lia|lia|done|].
    intros k Hk. apply Hnone. lia. }
  exists (mkRange s e false). unfold range_step. destruct (Z.ltb_spec s len); [|lia]. cbn [negb].
  run_res Hw. destruct (last ranges) eqn:El; [|by apply last_None in El].
  destruct (Z.ltb_spec (e - s) min_chars); [lia|]. rewrite emit_far by lia. by run_res Hnext.
Qed.

(** What holds of the windows recorded so far and of the next start. *)
Record progress (ranges : list crange) (start : Z) : Prop := mkProgress {
  pr_start : 0 ≤ start < len;
  pr_first : match ranges with [] => start = 0 | r :: _ => rg_start r = 0 end;
  pr_last : ∀ p, last ranges = Some p →
    rg_start p < start ∧ start ≤ rg_end p ∧ rg_end p < len ∧ next_start (rg_end p) = Ok start;
  pr_sorted : Sorted follows ranges;
  pr_sizes : Forall (λ r, min_chars ≤ rg_end r - rg_start r ≤ max_chars) ranges }.

Definition finished (ranges : list crange) : Prop :=
  (∃ a, head ranges = Some a ∧ rg_start a = 0) ∧ (∃ z, last ranges = Some z ∧ rg_end z = len) ∧
  Sorted follows ranges ∧
  Forall (λ r, min_chars ≤ rg_end r - rg_start r ≤ max_chars) ranges.

(** A window that follows the last one keeps the list well formed. *)
Lemma snoc_window ranges start e f :
  match ranges with [] => start = 0 | r :: _ => rg_start r = 0 end →
  (∀ p, last ranges = Some p → follows p (mkRange start e f)) →
  Sorted follows ranges → Forall (λ r, min_chars ≤ rg_end r - rg_start r ≤ max_chars) ranges →
  min_chars ≤ e - start ≤ max_chars →
  (∃ a, head (ranges ++ [mkRange start e f]) = Some a ∧ rg_start a = 0) ∧
  Sorted follows (ranges ++ [mkRange start e f]) ∧
  Forall (λ r, min_chars ≤ rg_end r - rg_start r ≤ max_chars) (ranges ++ [mkRange start e f]).
Proof using All.
  intros Hfirst Hlast Hsorted Hsizes Hsize. split_and!.
  - destruct ranges as [|r ranges]; eexists; split; [done|exact Hfirst|done|exact Hfirst].
  - by apply Sorted_snoc.
  - apply Forall_app_2; [done|]. constructor; [cbn; lia|constructor].
Qed.

Lemma emit_final ranges start f :
  match ranges with [] => start = 0 | r :: _ => rg_start r = 0 end →
  (∀ p, last ranges = Some p → follows p (mkRange start len f)) →
  Sorted follows ranges → Forall (λ r, min_chars ≤ rg_end r - rg_start r ≤ max_chars) ranges →
  min_chars ≤ len - start ≤ max_chars →
  ∃ ranges', emit text config ranges start len f = Ok (inr ranges') ∧ finished ranges'.
Proof using All.
  intros Hfirst Hlast Hsorted Hsizes Hsize. unfold emit. rewrite Z.eqb_refl.
  eexists. split; [done|].
  destruct (snoc_window ranges start len f Hfirst Hlast Hsorted Hsizes Hsize) as (? & ? & ?).
  split_and!; [done| |done|done]. eexists. by rewrite last_snoc.
Qed.

(** The last round: the rest of the text is a window of its own, part of the
    previous one, or a window that reaches back into it. *)
Lemma last_step ranges start : progress ranges start → len - start ≤ max_chars →
  ∃ ranges', range_step text config ranges start = Ok (inr ranges') ∧ finished ranges'.
Proof using All.
  intros [Hstart Hfirst Hlast Hsorted Hsizes] Hnear. unfold range_step.
  destruct (Z.ltb_spec start len); [|lia]. cbn [negb]. run_res (window_end_near start Hnear).
  destruct (last ranges) as [p|] eqn:Ep.
  2: { apply last_None in Ep as ->. lia. }
  destruct (Hlast p eq_refl) as (Hps & Hpe & Hpl & _).
  destruct (Z.ltb_spec (len - start) min_chars) as [Hshort|Hlong].
  2: { apply emit_final; [done| |done|done|lia].
       rewrite Ep. intros ? [= <-]. unfold follows. cbn. lia. }
  destruct (Z.leb_spec (len - rg_start p) max_chars) as [Hmerge|Hmerge].
  - eexists. split; [done|]. apply last_Some in Ep as [l ->].
    rewrite removelast_last. apply Sorted_snoc in Hsorted as [Hsorted Hp].
    apply Forall_app in Hsizes as [Hsizes Hsize]. apply Forall_cons in Hsize as [Hsize _].
    destruct (snoc_window l (rg_start p) len (rg_forced p || false)) as (? & ? & ?); [|  |done|done|lia|].
    + by destruct l.
    + intros y Hy. destruct (Hp y Hy) as (? & ? & ?). unfold follows. cbn. lia.
    + split_and!; [done| |done|done]. eexists. by rewrite last_snoc.
  - apply emit_final; [by destruct ranges| |done|done|lia].
    rewrite Ep. intros ? [= <-]. unfold follows. cbn. lia.
Qed.

(** Every other round advances, or is stuck. *)
Lemma far_step ranges start : progress ranges start → max_chars < len - start →
  ∃ ranges' start', range_step text config ranges start = Ok (inl (ranges', start')) ∧
    ranges' ≠ [] ∧
    ((progress ranges' start' ∧ start < start') ∨
     (start' ≤ start ∧ stuck start' ∧ min_chars < overlap)).
Proof using All.
  intros [Hstart Hfirst Hlast Hsorted Hsizes] Hfar. unfold range_step.
  destruct (Z.ltb_spec start len); [|lia]. cbn [negb].
  destruct (window_end_far start) as (e & f & Hw & Hcase); [lia|done|].
  assert (Hsize : min_chars ≤ e - start ≤ max_chars) by (destruct Hcase; lia).
  destruct (next_start_spec e) as (s & Hs & Hbound & Hwhere); [lia|].
  assert (Hstep : (λ m, m ≫= λ w, let '(end_, forced) := w in
      match last ranges with
      | Some previous =>
          if end_ - start <? min_chars then
            if end_ - rg_start previous <=? max_chars then
              Ok (inr (removelast ranges ++
                   [mkRange (rg_start previous) end_ (rg_forced previous || forced)]))
            else emit text config ranges (Z.max (rg_start previous + 1) (end_ - min_chars)) end_ forced
          else emit text config ranges start end_ forced
      | None => emit text config ranges start end_ forced
      end) (window_end text config start) = Ok (inl (ranges ++ [mkRange start e f], s))).
  { cbv beta. run_res Hw. destruct (Z.ltb_spec (e - start) min_chars); [lia|].
    rewrite emit_far by lia. run_res Hs. by destruct (last ranges). }
  cbv beta in Hstep. rewrite Hstep. eexists _, s. split; [done|]. split; [by destruct ranges|].
  destruct (Z.lt_ge_cases start s) as [Hlt|Hge].
  - left. split; [|done].
    assert (Hfollows : ∀ p, last ranges = Some p → follows p (mkRange start e f)).
    { intros p Hp. destruct (Hlast p Hp) as (Hps & Hpe & Hpl & Hpn). unfold follows. cbn.
      split_and!; [lia|lia|]. apply Z.nle_gt. intros Hle.
      destruct (next_start_spec (rg_end p)) as (s' & Hs' & Hb' & Hw'); [lia|].
      rewrite Hpn in Hs'. injection Hs' as <-.
      destruct Hcase as [[-> ->]|(-> & He & Hbe & _)]; [lia|].
      destruct Hw' as [[Hnp Hnone]|(Hbs & Hrange & _)].
      - destruct (decide (e = rg_end p)) as [->|Hne]; [rewrite Hpn in Hs; injection Hs as <-; lia|].
        apply (Hnone e); [lia|done].
      - destruct Hwhere as [[-> _]|(_ & _ & Hfirst')]; [lia|]. apply (Hfirst' start); [lia|done]. }
    destruct (snoc_window ranges start e f Hfirst Hfollows Hsorted Hsizes Hsize)
      as ((a & Ha & Ha0) & Hs2 & Hz2).
    split; [lia| | |done|done].
    + destruct ranges as [|r ranges]; exact Hfirst.
    + rewrite last_snoc. intros p [= <-]. cbn. split_and!; [lia|lia|lia|done].
  - right. split; [done|]. destruct Hcase as [[-> ->]|(-> & He & Hbe & Hnone)]; [lia|].
    split; [|lia]. apply (backward_stuck start e s); [lia|done..].
Qed.

Lemma loop_Ok fuel : ∀ ranges start ranges', progress ranges start →
  ranges_loop text config fuel ranges start = Ok ranges' → finished ranges'.
Proof using All.
  induction fuel as [|fuel IH]; intros ranges start ranges' Hp; [done|]. cbn [ranges_loop].
  destruct (Z.le_gt_cases (len - start) max_chars) as [Hnear|Hfar].
  - destruct (last_step ranges start Hp Hnear) as (r & Hs & Hfin). run_res Hs. by intros [= <-].
  - destruct (far_step ranges start Hp ltac:(lia)) as (r & s & Hs & Hne & Hcase). run_res Hs.
    destruct Hcase as [[Hp' _]|(_ & Hstuck & _)]; [by apply IH|]. by rewrite stuck_loop.
Qed.

Lemma loop_ends (Hadv : overlap ≤ min_chars) fuel : ∀ ranges start, progress ranges start →
  (Z.to_nat (len - start) ≤ fuel)%nat →
  ∃ ranges', ranges_loop text config fuel ranges start = Ok ranges'.
Proof using All.
  induction fuel as [|fuel IH]; intros ranges start Hp Hf; pose proof (pr_start _ _ Hp); [lia|].
  cbn [ranges_loop]. destruct (Z.le_gt_cases (len - start) max_chars) as [Hnear|Hfar].
  - destruct (last_step ranges start Hp Hnear) as (r & Hs & Hfin). run_res Hs. by exists r.
  - destruct (far_step ranges start Hp ltac:(lia)) as (r & s & Hs & Hne & Hcase). run_res Hs.
    destruct Hcase as [[Hp' Hlt]|(_ & _ & ?)]; [|lia]. apply IH; [done|lia].
Qed.

Lemma progress_start : progress [] 0.
Proof using All. split; [lia|done|by intros ? [=]|constructor|constructor]. Qed.
End Tiling.

(** The configurations whose overlap is no longer than their shortest window. *)
Definition advancing (config : ChunkConfig) : bool :=
  ChunkConfig_valid config && (overlap_characters config <=? minimum_characters config).

Lemma config_bounds config : ChunkConfig_valid config = true →
  1 ≤ minimum_characters config ∧
  minimum_characters config ≤ target_characters config ≤ maximum_characters config ∧
  0 ≤ overlap_of config ≤ overlap_characters config ∧ 5 * overlap_of config ≤ target_characters config.
Proof.
  unfold ChunkConfig_valid, between, overlap_of. intros H. bools.
  assert (5 * (target_characters config / 5) ≤ target_characters config) by (apply Z.mul_div_le; lia).
  assert (0 ≤ target_characters config / 5) by (apply Z.div_pos; lia). lia.
Qed.

(** Whatever the configuration, windows that are found tile the text. *)
Lemma ranges_Ok_tiling text config fuel ranges : ChunkConfig_valid config = true →
  _ranges text config fuel = Ok ranges → tiling config (ulen text) ranges.
Proof.
  intros Hv. destruct (config_bounds config Hv) as (? & ? & ? & ?). unfold _ranges.
  destruct (Z.leb_spec (ulen text) (maximum_characters config)) as [Hs|Hl].
  { intros [= <-]. by left. }
  intros Hr. right. split; [done|].
  eapply (loop_Ok text config); [lia..|apply progress_start; lia|exact Hr].
Qed.

(** If the overlap is no longer than the shortest window the windows of any text
    are found, one round of the loop per character being enough. *)
Lemma ranges_tile text config fuel : advancing config = true → (length text ≤ fuel)%nat →
  ∃ ranges, _ranges text config fuel = Ok ranges ∧ tiling config (ulen text) ranges.
Proof.
  intros Ha Hfuel. unfold advancing in Ha. apply andb_true_iff in Ha as [Hv Ho%Z.leb_le].
  destruct (config_bounds config Hv) as (? & ? & ? & ?).
  assert (∃ ranges, _ranges text config fuel = Ok ranges) as [ranges Hr].
  { unfold _ranges. destruct (Z.leb_spec (ulen text) (maximum_characters config)); [by eexists|].
    eapply (loop_ends text config); [lia..|apply progress_start; lia|unfold ulen; lia]. }
  exists ranges. split; [done|]. by apply (ranges_Ok_tiling text config fuel).
Qed.

(** A tiling covers every position. *)
Lemma sorted_covers ranges : ∀ a z i, head ranges = Some a → last ranges = Some z →
  Sorted follows ranges → rg_start a ≤ i < rg_end z →
  ∃ r, r ∈ ranges ∧ rg_start r ≤ i < rg_end r.
Proof.
  induction ranges as [|r ranges IH]; intros a z i Ha Hz Hs Hi; [done|]. injection Ha as <-.
  destruct (Z.lt_ge_cases i (rg_end r)) as [Hlt|Hge]; [exists r; split; [left|lia]|].
  destruct ranges as [|b ranges]; [injection Hz as <-; lia|].
  apply Sorted_inv in Hs as [Hs Hr]. apply HdRel_inv in Hr as (_ & ? & _).
  destruct (IH b z i) as (r' & Hr' & ?); [done|exact Hz|done|lia|]. exists r'. split; [by right|done].
Qed.

Lemma tiling_covers config n ranges i : tiling config n ranges → 0 ≤ i < n →
  ∃ r, r ∈ ranges ∧ rg_start r ≤ i < rg_end r.
Proof.
  intros [[_ ->]|(_ & (a & Ha & Ha0) & (z & Hz & Hzn) & Hs & _)] Hi.
  - eexists. split; [left|done].
  - apply (sorted_covers _ a z); [done..|lia].
Qed.

(** * The chunks of a document *)

(** [enumerate(l, start=i)] *)
Definition indexed {A} (i : Z) (l : list A) : list (Z * A) := zip (seqZ i (Z.of_nat (length l))) l.

Lemma indexed_nil {A} i : indexed i ([] : list A) = [].
Proof. done. Qed.

Lemma indexed_cons {A} i (x : A) l : indexed i (x :: l) = (i, x) :: indexed (i + 1) l.
Proof.
  unfold indexed. cbn [length]. rewrite seqZ_cons by lia. rewrite Nat2Z.inj_succ, Z.pred_succ.
  by rewrite <- Z.add_1_r.
Qed.

Lemma indexed_app {A} i (l k : list A) :
  indexed i (l ++ k) = indexed i l ++ indexed (i + Z.of_nat (length l)) k.
Proof.
  revert i. induction l as [|x l IH]; intros i; cbn [app length].
  - by rewrite Z.add_0_r.
  - rewrite !indexed_cons, IH. cbn. do 3 f_equal. lia.
Qed.

(** A loop that appends what it computes from the index is a [map]. *)
Lemma res_fold_snoc {A B} (f : Z → A → res B) l : ∀ acc,
  res_fold (λ acc x, y ← f (Z.of_nat (length acc)) x; Ok (acc ++ [y])) l acc =
  (ys ← res_map (λ ix, f ix.1 ix.2) (indexed (Z.of_nat (length acc)) l); Ok (acc ++ ys)).
Proof.
  induction l as [|x l IH]; intros acc; [rewrite indexed_nil; cbn; by rewrite Ok_bind, app_nil_r|].
  rewrite indexed_cons. cbn. destruct (f _ x) as [y|e]; run_res; [|done].
  rewrite IH, length_app. cbn. rewrite Nat2Z.inj_add. cbn.
  destruct (res_map _ _) as [ys|e]; run_res; [|done]. by rewrite <- app_assoc.
Qed.

Lemma res_map_app {A B} (f : A → res B) l k :
  res_map f (l ++ k) = (a ← res_map f l; b ← res_map f k; Ok (a ++ b)).
Proof.
  induction l as [|x l IH]; cbn.
  - run_res. by destruct (res_map f k).
  - destruct (f x); run_res; [|done]. rewrite IH.
    destruct (res_map f l); run_res; [|done]. by destruct (res_map f k).
Qed.

Lemma res_map_length {A B} (f : A → res B) l l' : res_map f l = Ok l' → length l' = length l.
Proof. intros H%res_map_Ok. symmetry. by eapply Forall2_length. Qed.

(** Every window with its segment, in the order of the document. *)
Definition windows_of (segments : list _Segment) (cuts : list (list crange)) :
    list (_Segment * crange) :=
  concat (zip_with (λ s ranges, map (pair s) ranges) segments cuts).

Section Document.
Context `{UnicodeData}.

Lemma chunk_segment_map fuel parsed config segment ranges results :
  _ranges (segment_text parsed segment) config fuel = Ok ranges →
  chunk_segment fuel parsed config results segment =
  (ds ← res_map (λ w, make_chunk parsed config w.1 w.2.1 w.2.2)
          (indexed (Z.of_nat (length results)) (map (pair segment) ranges));
   Ok (results ++ ds)).
Proof.
  intros Hr. unfold chunk_segment. run_res Hr.
  rewrite (res_fold_snoc (λ i r, make_chunk parsed config i segment r)). f_equal.
  generalize (Z.of_nat (length results)). clear.
  induction ranges as [|r ranges IH]; intros i; [done|]. cbn [map]. rewrite !indexed_cons. cbn.
  by rewrite IH.
Qed.

Lemma chunk_segments_map fuel parsed config segments cuts :
  Forall2 (λ s ranges, _ranges (segment_text parsed s) config fuel = Ok ranges) segments cuts →
  ∀ results, res_fold (chunk_segment fuel parsed config) segments results =
  (ds ← res_map (λ w, make_chunk parsed config w.1 w.2.1 w.2.2)
          (indexed (Z.of_nat (length results)) (windows_of segments cuts));
   Ok (results ++ ds)).
Proof.
  induction 1 as [|s ranges segments cuts Hr _ IH]; intros results.
  { unfold windows_of. cbn [zip_with concat]. rewrite indexed_nil. cbn. by rewrite Ok_bind, app_nil_r. }
  cbn [res_fold]. rewrite (chunk_segment_map _ _ _ _ _ _ Hr). unfold windows_of. cbn.
  rewrite indexed_app, res_map_app.
  destruct (res_map _ (indexed _ (map _ _))) as [ds|e] eqn:E; run_res; [|done].
  rewrite IH. apply res_map_length in E. unfold indexed in E.
  rewrite length_zip_with, length_seqZ, Nat2Z.id, Nat.min_id in E.
  rewrite length_app, E, Nat2Z.inj_add. unfold windows_of.
  destruct (res_map _ (indexed _ (concat _))); run_res; [|done]. by rewrite app_assoc.
Qed.

(** Every segment of the document is cut into windows that tile it. *)
Definition tiled (parsed : ParsedDocument) (config : ChunkConfig) (cuts : list (list crange)) : Prop :=
  Forall2 (λ s ranges,
    tiling config (ulen (segment_text parsed s)) ranges ∧
    ∀ i, 0 ≤ i < ulen (segment_text parsed s) →
      ∃ r, r ∈ ranges ∧ rg_start r ≤ i < rg_end r) (_segments parsed) cuts.

(** The chunks of these windows in document order, numbered from zero. *)
Definition chunks_of (parsed : ParsedDocument) (config : ChunkConfig) (cuts : list (list crange)) :
    res (list DocumentChunkDraft) :=
  res_map (λ w, make_chunk parsed config w.1 w.2.1 w.2.2)
    (indexed 0 (windows_of (_segments parsed) cuts)).

Lemma ranges_tiled parsed config fuel cuts : ChunkConfig_valid config = true →
  Forall2 (λ s ranges, _ranges (segment_text parsed s) config fuel = Ok ranges)
    (_segments parsed) cuts → tiled parsed config cuts.
Proof.
  intros Hv Hcuts. eapply Forall2_impl; [exact Hcuts|]. intros s ranges Hr.
  apply ranges_Ok_tiling in Hr; [|done]. split; [done|]. intros i. by apply (tiling_covers config).
Qed.

Lemma chunk_eq fuel parsed config cuts : pd_canonical_text parsed ≠ [] →
  Forall2 (λ s ranges, _ranges (segment_text parsed s) config fuel = Ok ranges)
    (_segments parsed) cuts → chunk fuel parsed config = chunks_of parsed config cuts.
Proof.
  intros Ht Hcuts. unfold chunk. rewrite bool_decide_eq_false_2 by done.
  rewrite (chunk_segments_map _ _ _ _ _ Hcuts). unfold chunks_of. cbn. by destruct (res_map _ _).
Qed.

(** A result has found the windows of every segment. *)
Lemma chunk_segments_ranges fuel parsed config segments : ∀ results drafts,
  res_fold (chunk_segment fuel parsed config) segments results = Ok drafts →
  ∃ cuts, Forall2 (λ s ranges, _ranges (segment_text parsed s) config fuel = Ok ranges) segments cuts.
Proof.
  induction segments as [|s segments IH]; intros results drafts Hd; [by exists []|]. cbn in Hd.
  apply bind_Ok in Hd as (results' & Hs & Hd). apply IH in Hd as [cuts Hcuts].
  unfold chunk_segment in Hs. apply bind_Ok in Hs as (ranges & Hr & _).
  exists (ranges :: cuts). by constructor.
Qed.

(** C19. Chunking: for every valid configuration a result is the validated chunks,
    numbered in document order, of windows that cover every segment without a
    gap and within the configured sizes; and if the overlap is at most the
    shortest window the windows of any document are found, one round of the loop
    per character being enough. *)
Theorem chunk_tiles_segments fuel parsed config :
  ChunkConfig_valid config = true → pd_canonical_text parsed ≠ [] →
  (∀ drafts, chunk fuel parsed config = Ok drafts →
     ∃ cuts, tiled parsed config cuts ∧ chunks_of parsed config cuts = Ok drafts) ∧
  (advancing config = true → (length (pd_canonical_text parsed) ≤ fuel)%nat →
     ∃ cuts, tiled parsed config cuts ∧ chunk fuel parsed config = chunks_of parsed config cuts).
Proof.
  intros Hv Ht. split.
  - intros drafts Hd. pose proof Hd as Hc. unfold chunk in Hc.
    rewrite bool_decide_eq_false_2 in Hc by done.
    apply chunk_segments_ranges in Hc as [cuts Hcuts].
    exists cuts. split; [by eapply ranges_tiled|]. by rewrite <- (chunk_eq fuel).
  - intros Ha Hf.
    assert (∃ cuts, Forall2 (λ s ranges, _ranges (segment_text parsed s) config fuel = Ok ranges)
      (_segments parsed) cuts) as [cuts Hcuts].
    { induction (_segments parsed) as [|s segments [cuts IH]]; [by exists []|].
      destruct (ranges_tile (segment_text parsed s) config fuel Ha) as (ranges & Hr & _).
      - unfold segment_text, slice. rewrite length_take, length_drop. lia.
      - exists (ranges :: cuts). by constructor. }
    exists cuts. split; [by eapply ranges_tiled|]. by apply chunk_eq.
Qed.
End Document.

(** * Samples *)

(** A run of letters longer than a window after a short first line. *)
Definition long_line : ustr := replicate 120 97 ++ [10] ++ replicate 2000 97.
Definition text_document (text : ustr) : ParsedDocument :=
  mkParsed text (sha256_hex "") [] [] ParseSt.PASS [] [] [("encoding", "utf-8")].
Definition even_config : ChunkConfig := mkChunkConfig "chunk-v1" 1000 1600 200 200.

(** The default configuration allows an overlap longer than the shortest window:
    the next window then starts before the last one, and the same window is
    recorded again and again. *)
Lemma default_config_steps ranges :
  range_step long_line default_chunk_config ranges (-79) =
  Ok (inl (ranges ++ [mkRange (-79) 121 false], -79)).
Proof.
  unfold range_step.
  assert (Hw : window_end long_line default_chunk_config (-79) = Ok (121, false))
    by (vm_compute; reflexivity).
  assert (Hb : _first_boundary long_line (-79) 121 = Ok (Some 121)) by (vm_compute; reflexivity).
  assert (He : ∀ ranges, emit long_line default_chunk_config ranges (-79) 121 false =
    Ok (inl (ranges ++ [mkRange (-79) 121 false], -79))).
  { intros rs. unfold emit. change (121 =? ulen long_line) with false. cbv iota.
    change (121 - _) with (-79). by run_res Hb. }
  change (negb (-79 <? ulen long_line)) with false. cbv iota. run_res Hw.
  destruct (last ranges); apply He.
Qed.

Lemma default_config_never_ends fuel :
  _ranges long_line default_chunk_config fuel = out_of_fuel.
Proof.
  assert (Hloop : ∀ fuel ranges, ranges_loop long_line default_chunk_config fuel ranges (-79) =
    out_of_fuel).
  { clear. induction fuel as [|fuel IH]; intros ranges; [done|]. cbn [ranges_loop].
    run_res (default_config_steps ranges). apply IH. }
  unfold _ranges. change (ulen long_line <=? maximum_characters default_chunk_config) with false.
  cbv iota. destruct fuel as [|fuel]; [done|]. cbn [ranges_loop].
  assert (Hs : range_step long_line default_chunk_config [] 0 =
    Ok (inl ([mkRange 0 121 false], -79))) by (vm_compute; reflexivity).
  run_res Hs. apply Hloop.
Qed.

Example even_config_ends :
  _ranges long_line even_config 3 =
  Ok [mkRange 0 1600 true; mkRange 1400 2121 false].
Proof. vm_compute. reflexivity. Qed.

(** A page of white space only, which the PDF parser keeps, has no chunk: its
    normalized text is empty, and no chunk of the document is made. *)
Lemma blank_page_aborts :
  chunk (H := ascii_unicode) 10
    (mkParsed (ulit "a" ++ [10; 12; 10] ++ ulit " ") (sha256_hex "")
       [mkPage 1 (ulit "a") (sha256_hex "a") 1 PageSt.PASS [];
        mkPage 2 (ulit " ") (sha256_hex " ") 1 PageSt.NO_TEXT []]
       [] ParseSt.PARTIAL [] [] []) default_chunk_config =
  raise ValidationError "invalid field".
Proof. vm_compute. reflexivity. Qed.

Lemma chunk_tiles_segments_witness :
  ChunkConfig_valid even_config = true ∧ advancing even_config = true ∧
  ∃ cuts, tiled (text_document long_line) even_config cuts ∧
    chunk (H := ascii_unicode) 2121 (text_document long_line) even_config =
    chunks_of (H := ascii_unicode) (text_document long_line) even_config cuts.
Proof.
  assert (Hv : ChunkConfig_valid even_config = true) by (vm_compute; reflexivity).
  assert (Ha : advancing even_config = true) by (vm_compute; reflexivity).
  assert (Ht : pd_canonical_text (text_document long_line) ≠ []) by (intros [=]).
  assert (Hf : (length (pd_canonical_text (text_document long_line)) ≤ 2121)%nat)
    by (apply Nat.leb_le; vm_compute; reflexivity).
  split; [exact Hv|]. split; [exact Ha|].
  exact (proj2 (chunk_tiles_segments (H := ascii_unicode) 2121 (text_document long_line) even_config
    Hv Ht) Ha Hf).
Defined.
