(* ===== verification/Citations.v ===== *)
(** Citations: their construction and their verification against the stored
    source (domain/documents/citations.py).  The blob storage is an interface;
    the citation's context is what the repository reads of its tables
    (Knowledge.v). *)
From S2P Require Import Prelude PyDecimal PyText Sha256 AgentModel Text DocModel.

(** The operations of infrastructure/blob_storage.py that documents use. *)
Class BlobStorage := {
  blob_metadata : string → res BlobMetadata;
  blob_get : string → res string;
  blob_checksum : string → res string }.

(** [try: m except BlobStorageError: None] *)
Definition catch_blob {A} (m : res A) : res (option A) :=
  match m with
  | Ok a => Ok (Some a)
  | Raise e =>
      match exn_class e with BlobStorageError => Ok None | _ => Raise e end
  end.

(** * Construction *)

Definition sha256_text (t : ustr) : res string := sha256_hex <$> utf8 t.

Definition locator_json (request : CreateCitationRequest) : ujson :=
  let s x := UStr (ulit x) in
  UObj
    [("document_version_id", s (uuid_str (ca_document_version_id request)));
     ("parse_run_id", s (uuid_str (ca_parse_run_id request)));
     ("locator_type", s (Loc.value (ca_locator_type request)));
     ("start_page", u_opt UInt (ca_start_page request));
     ("end_page", u_opt UInt (ca_end_page request));
     ("html_anchor", u_opt UStr (ca_html_anchor request));
     ("json_pointer", u_opt UStr (ca_json_pointer request));
     ("start_offset", u_opt UInt (ca_start_offset request));
     ("end_offset", u_opt UInt (ca_end_offset request));
     ("excerpt_checksum", s (ca_excerpt_checksum request));
     ("citation_version", s (ca_citation_version request))].
Definition locator_checksum (request : CreateCitationRequest) : string :=
  sha256_hex (ujson_dumps (locator_json request)).

Definition create_citation (request : CreateCitationRequest) : res CitationAnchorDraft :=
  expected ← sha256_text (ca_excerpt request);
  reject_if (negb (bool_decide (ca_excerpt_checksum request = expected))) ValueError
    "excerpt checksum does not match exact excerpt";;
  reject_if (match ca_start_offset request, ca_end_offset request with
             | Some start, Some end_ => negb (end_ - start =? ulen (ca_excerpt request))
             | _, _ => false
             end) ValueError "locator range does not match exact excerpt length";;
  validated CitationAnchorDraft_valid (mkAnchorDraft request (locator_checksum request)).

(** * Verification *)

Definition _result (citation_id : UUID) (status : CitationStatus) (warning : string) :
    CitationVerification := mkVerification status citation_id [warning].

(** The citation rebuilt from its own fields has its locator checksum. *)
Definition _locator_checksum_matches (citation : CitationAnchorRecord) : res bool :=
  match (values ← validated CreateCitationRequest_valid (ca_request citation);
         create_citation values) with
  | Ok rebuilt => Ok (bool_decide (ca_locator_checksum rebuilt = ca_locator_checksum citation))
  | Raise e =>
      match exn_class e with
      | ValueError | ValidationError | UnicodeEncodeError => Ok false
      | _ => Raise e
      end
  end.

Definition _superseded_for_scope (context : CitationContext) (scope : CitationScope) : bool :=
  if is_none (cx_superseded_by context) then false
  else if bool_decide (sc_explicit_document_version_id scope =
                       Some (dv_id (cx_document_version context))) then false
  else if is_some (sc_snapshot_id scope)
          && bool_decide (cx_version_in_snapshot context = Some true) then false
  else if cx_supersession_time_unknown context then true
  else match sc_research_as_of_time scope with
       | None => true
       | Some as_of =>
           match cx_superseded_at context with
           | None => true
           | Some at_ => at_ <=? as_of
           end
       end.

(** [range(a, b + 1)] *)
Definition page_range (a b : Z) : list Z := seqZ a (b + 1 - a).

Definition _locator_exists (context : CitationContext) : bool :=
  let citation := cx_citation context in
  let section_present :=
    match ca_section_id citation with
    | Some id => bool_decide (id ∈ cx_available_section_ids context)
    | None => true
    end in
  let section_path_is (anchor : option ustr) (available : list ustr) :=
    match ca_section_id citation, anchor with
    | Some id, Some path =>
        bool_decide (cx_section_paths context !! id = Some path) && bool_decide (path ∈ available)
    | _, _ => false
    end in
  if negb section_present then false
  else match ca_locator_type citation with
       | Loc.PDF_PAGE_RANGE =>
           match ca_start_page citation, ca_end_page citation with
           | Some a, Some b =>
               forallb (λ n, bool_decide (n ∈ cx_available_page_numbers context)) (page_range a b)
           | _, _ => false
           end
       | Loc.HTML_ANCHOR_RANGE =>
           section_path_is (ca_html_anchor citation) (cx_available_html_anchors context)
       | Loc.JSON_POINTER =>
           section_path_is (ca_json_pointer citation) (cx_available_json_pointers context)
       | Loc.SECTION_RANGE => is_some (ca_section_id citation)
       | Loc.TEXT_OFFSET_RANGE => true
       end.

(** [page_texts.get(n)] and [sorted(page_texts.items())] *)
Definition page_text (pages : list (Z * ustr)) (n : Z) : option ustr :=
  snd <$> find (λ kv, kv.1 =? n) pages.
Definition sorted_pages (pages : list (Z * ustr)) : list (Z * ustr) :=
  sort_by (λ a b, a.1 <? b.1) pages.

(** [_page_spans]: the range of every page in the joined text. *)
Fixpoint spans_from (cursor : Z) (pages : list (Z * ustr)) : list (Z * (Z * Z)) :=
  match pages with
  | [] => []
  | (number, text) :: pages =>
      let end_ := cursor + ulen text in
      (number, (cursor, end_)) :: spans_from (end_ + 3) pages
  end.
Definition _page_spans (context : CitationContext) : list (Z * (Z * Z)) :=
  spans_from 0 (sorted_pages (cx_page_texts context)).
Definition span_of (spans : list (Z * (Z * Z))) (n : Z) : option (Z * Z) :=
  snd <$> find (λ kv, kv.1 =? n) spans.

Definition page_separator : ustr := [10; 12; 10].

Definition _range_is_inside_locator (context : CitationContext) (start end_ : Z) : bool :=
  let citation := cx_citation context in
  match ca_locator_type citation with
  | Loc.PDF_PAGE_RANGE =>
      match ca_start_page citation, ca_end_page citation with
      | Some a, Some b =>
          match span_of (_page_spans context) a, span_of (_page_spans context) b with
          | Some (locator_start, _), Some (_, locator_end) =>
              (locator_start <=? start) && (start <? end_) && (end_ <=? locator_end)
          | _, _ => false
          end
      | _, _ => false
      end
  | Loc.HTML_ANCHOR_RANGE | Loc.JSON_POINTER | Loc.SECTION_RANGE =>
      match ca_section_id citation with
      | None => false
      | Some id =>
          match cx_section_ranges context !! id with
          | Some (Some section_start, Some section_end) =>
              (section_start <=? start) && (start <? end_) && (end_ <=? section_end)
          | _ => false
          end
      end
  | Loc.TEXT_OFFSET_RANGE => true
  end.

(** The text the citation claims, [None] where the code returns [False]. *)
Definition claimed_excerpt (context : CitationContext) : option ustr :=
  let citation := cx_citation context in
  match ca_start_offset citation, ca_end_offset citation with
  | Some start, Some end_ =>
      if _range_is_inside_locator context start end_
      then Some (slice (cx_canonical_source_text context) start end_) else None
  | _, _ =>
      match ca_locator_type citation, ca_start_page citation, ca_end_page citation with
      | Loc.PDF_PAGE_RANGE, Some a, Some b =>
          let claimed := ujoin page_separator
            (map (λ n, default [] (page_text (cx_page_texts context) n)) (page_range a b)) in
          Some (if ucontains claimed (ca_excerpt citation) then ca_excerpt citation else [])
      | _, _, _ => None
      end
  end.

Definition _excerpt_matches (context : CitationContext) : res bool :=
  let citation := cx_citation context in
  match claimed_excerpt context with
  | None => Ok false
  | Some excerpt =>
      if negb (bool_decide (excerpt = ca_excerpt citation)) then Ok false
      else
        checksum ← sha256_text excerpt;
        Ok (bool_decide (checksum = ca_excerpt_checksum citation)
            && match cx_chunk_text context with
               | None => true
               | Some chunk => ucontains chunk excerpt
               end)
  end.

Section Verifier.
Context `{BlobStorage}.

Definition _valid_blob (context : CitationContext) : res bool :=
  let version := cx_document_version context in
  stored ← catch_blob (metadata ← blob_metadata (dv_storage_uri version);
                       content ← blob_get (dv_storage_uri version); Ok (metadata, content));
  Ok (match stored with
      | None => false
      | Some (metadata, content) =>
          let actual := sha256_hex content in
          let size := Z.of_nat (String.length content) in
          bool_decide (cx_blob_bytes context = content)
          && bool_decide (cx_blob_checksum context = actual) && bool_decide (actual = dv_checksum version)
          && bool_decide (dv_checksum version = checksum_sha256 metadata)
          && (cx_blob_size context =? size) && (size =? dv_byte_size version)
          && (dv_byte_size version =? size_bytes metadata)
          && bool_decide (cx_blob_mime_type context = dv_mime_type version)
          && bool_decide (dv_mime_type version = content_type metadata)
      end).

(** [CitationVerifier.verify], of the context the repository gives. *)
Definition verify (context : option CitationContext) (citation_id : UUID)
    (scope : CitationScope) : res CitationVerification :=
  let result status warning := Ok (_result citation_id status warning) in
  match context with
  | None => result CitSt.SOURCE_MISSING "CITATION_SOURCE_NOT_FOUND"
  | Some context =>
      let citation := cx_citation context in
      let version := cx_document_version context in
      if negb (bool_decide (ca_document_version_id citation = dv_id version))
         || negb (bool_decide (ca_document_checksum citation = dv_checksum version)) then
        result CitSt.STALE_REFERENCE "DOCUMENT_VERSION_MISMATCH"
      else
      matches ← _locator_checksum_matches citation;
      if negb matches then result CitSt.INVALID "CITATION_LOCATOR_CHECKSUM_MISMATCH"
      else if negb (bool_decide (ca_parser_version citation = cx_parser_version context))
              || negb (bool_decide (ca_sanitizer_version citation = cx_sanitizer_version context)) then
        result CitSt.PARSE_VERSION_MISMATCH "PARSE_GENERATION_MISMATCH"
      else if match sc_snapshot_id scope with
              | None => false
              | Some s => negb (bool_decide (cx_version_in_snapshot context = Some true))
                          && negb (bool_decide (s ∈ cx_snapshot_ids context))
              end then
        result CitSt.STALE_REFERENCE "SNAPSHOT_MEMBERSHIP_MISMATCH"
      else if bool_decide (dv_source_version_status version = SrcSt.WITHDRAWN) then
        result CitSt.STALE_REFERENCE "DOCUMENT_VERSION_WITHDRAWN"
      else if _superseded_for_scope context scope then
        result CitSt.STALE_REFERENCE "DOCUMENT_VERSION_SUPERSEDED"
      else if sc_strict_historical scope && is_none (dv_published_at version) then
        result CitSt.INVALID "SOURCE_PUBLISHED_AT_UNKNOWN"
      else if match sc_research_as_of_time scope, dv_published_at version with
              | Some as_of, Some published => as_of <? published
              | _, _ => false
              end then
        result CitSt.FUTURE_DATA "SOURCE_PUBLISHED_AFTER_AS_OF"
      else
      blob_ok ← _valid_blob context;
      if negb blob_ok then result CitSt.SOURCE_MISSING "DOCUMENT_BLOB_MISMATCH"
      else if negb (_locator_exists context) then
        result CitSt.INVALID "CITATION_LOCATOR_NOT_FOUND"
      else
      checksum ← sha256_text (cx_canonical_source_text context);
      if negb (bool_decide (checksum = ca_canonical_text_checksum citation)) then
        result CitSt.INVALID "CANONICAL_TEXT_CHECKSUM_MISMATCH"
      else
      excerpt_ok ← _excerpt_matches context;
      if negb excerpt_ok then result CitSt.INVALID "CITATION_EXCERPT_MISMATCH"
      else Ok (mkVerification CitSt.VALID citation_id [])
  end.
End Verifier.

(** * What verification establishes *)

Lemma create_citation_Ok request citation : create_citation request = Ok citation ↔
  citation = mkAnchorDraft request (locator_checksum request) ∧
  sha256_text (ca_excerpt request) = Ok (ca_excerpt_checksum request) ∧
  (∀ a b, ca_start_offset request = Some a → ca_end_offset request = Some b →
     b - a = ulen (ca_excerpt request)) ∧
  CitationAnchorDraft_valid citation = true.
Proof.
  unfold create_citation. split.
  - intros H. apply bind_Ok in H as (expected & He & H). apply guard_seq in H as [Hc H].
    apply guard_seq in H as [Hl H]. apply validated_Ok in H as [-> Hv]. bools.
    split_and!; [done|by rewrite He, Hc| |done]. intros a b Ha Hb. rewrite Ha, Hb in Hl. bools. lia.
  - intros (-> & He & Hl & Hv). run_res He. rewrite bool_decide_eq_true_2 by done. cbn [negb].
    apply guard_seq. split; [done|]. apply guard_seq. split.
    + destruct (ca_start_offset request), (ca_end_offset request); try done.
      rewrite (Hl _ _ eq_refl eq_refl), Z.eqb_refl. done.
    + by apply validated_Ok.
Qed.

(** A stored citation is the one its own request gives. *)
Lemma rebuilt_matches (c : CitationAnchorRecord) :
  CreateCitationRequest_valid (ca_request c) = true →
  create_citation (ca_request c) = Ok (ca_draft c) → _locator_checksum_matches c = Ok true.
Proof.
  intros Hv Hc. unfold _locator_checksum_matches, validated. rewrite Hv, Ok_bind, Hc.
  by rewrite bool_decide_eq_true_2.
Qed.


(** What a verified citation rests on. *)
Record verified `{BlobStorage} (context : CitationContext) (scope : CitationScope) : Prop := mkVerified {
  vf_version : ca_document_version_id (cx_citation context) = dv_id (cx_document_version context);
  vf_document : ca_document_checksum (cx_citation context) = dv_checksum (cx_document_version context);
  vf_locator : _locator_checksum_matches (cx_citation context) = Ok true;
  vf_parser : ca_parser_version (cx_citation context) = cx_parser_version context;
  vf_sanitizer : ca_sanitizer_version (cx_citation context) = cx_sanitizer_version context;
  vf_member : ∀ s, sc_snapshot_id scope = Some s →
    cx_version_in_snapshot context = Some true ∨ s ∈ cx_snapshot_ids context;
  vf_active : dv_source_version_status (cx_document_version context) ≠ SrcSt.WITHDRAWN;
  vf_current : _superseded_for_scope context scope = false;
  vf_known : sc_strict_historical scope = true → is_Some (dv_published_at (cx_document_version context));
  vf_past : ∀ t p, sc_research_as_of_time scope = Some t →
    dv_published_at (cx_document_version context) = Some p → p ≤ t;
  vf_blob : _valid_blob context = Ok true;
  vf_exists : _locator_exists context = true;
  vf_text : sha256_text (cx_canonical_source_text context) =
    Ok (ca_canonical_text_checksum (cx_citation context));
  vf_excerpt : _excerpt_matches context = Ok true }.

(** The branch of a guard whose body is not the outcome at hand. *)
Ltac not_taken H E :=
  match type of H with
  | (if negb ?b then _ else _) = _ => destruct b eqn:E; [cbn [negb] in H|discriminate H]
  | (if ?b then _ else _) = _ => destruct b eqn:E; [discriminate H|]
  end.

Lemma verify_valid_iff `{BlobStorage} context citation_id scope :
  verify (Some context) citation_id scope = Ok (mkVerification CitSt.VALID citation_id []) ↔
  verified context scope.
Proof.
  unfold verify, _result. split.
  - intros Hv. not_taken Hv E1. bools.
    apply bind_Ok in Hv as (matches & Hl & Hv). not_taken Hv E. subst matches.
    not_taken Hv E2. bools. not_taken Hv E3. not_taken Hv E4. not_taken Hv E5. not_taken Hv E6.
    not_taken Hv E7. apply bind_Ok in Hv as (blob_ok & Hb & Hv). not_taken Hv E. subst blob_ok.
    not_taken Hv E8. apply bind_Ok in Hv as (checksum & Hc & Hv). not_taken Hv E9.
    apply bind_Ok in Hv as (excerpt_ok & He & Hv). not_taken Hv E. subst excerpt_ok. bools.
    split; try done.
    + intros s Hs. rewrite Hs in E3. apply andb_false_iff in E3 as [E3|E3]; bools; tauto.
    + intros Hs. rewrite Hs in E6. destruct (dv_published_at _); [by eexists|discriminate E6].
    + intros t p Ht Hp. rewrite Ht, Hp in E7. bools. lia.
    + by rewrite Hc, E9.
  - intros [H1 H2 H3 H4 H5 H6 H7 H8 H9 H10 H11 H12 H13 H14].
    rewrite H1, H2, !bool_decide_eq_true_2 by done. cbn [negb orb].
    run_res H3. cbn [negb orb].
    assert (E3 : match sc_snapshot_id scope with
                 | None => false
                 | Some s => negb (bool_decide (cx_version_in_snapshot context = Some true))
                             && negb (bool_decide (s ∈ cx_snapshot_ids context))
                 end = false).
    { destruct (sc_snapshot_id scope) as [s|]; [|done]. apply andb_false_iff. rewrite !negb_decide.
      by apply H6. }
    rewrite E3, (bool_decide_eq_false_2 _ H7), H8.
    assert (E6 : sc_strict_historical scope && is_none (dv_published_at (cx_document_version context))
                 = false).
    { destruct (sc_strict_historical scope); [|done]. destruct (H9 eq_refl) as [p ->]. done. }
    rewrite E6.
    assert (E7 : match sc_research_as_of_time scope, dv_published_at (cx_document_version context) with
                 | Some as_of, Some published => as_of <? published | _, _ => false end = false).
    { destruct (sc_research_as_of_time scope) as [t|], (dv_published_at _) as [p|] eqn:Ep; try done.
      apply Z.ltb_ge. by apply H10. }
    rewrite E7. run_res H11. cbn [negb]. rewrite H12. cbn [negb]. run_res H13.
    rewrite bool_decide_eq_true_2 by done. cbn [negb]. run_res H14. done.
Qed.
