(* ===== verification/Knowledge.v ===== *)
(** The document tables and their repository: the part of
    db/repositories/knowledge.py about source bodies, document versions,
    parse runs, chunks and citations, with the unique and check constraints of
    db/models/knowledge.py.

    Tables are lists in insertion order; new ids come from [uuid4] and times
    from [now], both parameters.  Text columns compare by code points.  Foreign
    keys hold by construction: the ids written were read from their tables. *)
From S2P Require Import Prelude PyDecimal PyText Sha256 AgentModel Text DocModel Session Chunking.
From S2P Require Import Citations.

(** * Rows *)

Record SourceDocument := mkSourceDocument {
  sd_id : UUID; sd_security_id : UUID; sd_provider_id : UUID; sd_source_payload_id : UUID;
  sd_provider_document_id : option ustr; sd_document_type : string;
  sd_accession_number : option ustr; sd_announcement_id : option ustr;
  sd_period_end : option date; sd_filed_at : option time; sd_published_at : option time;
  sd_mime_type : option string; sd_storage_uri : option string; sd_checksum : option string;
  sd_byte_size : option Z; sd_document_status : string; sd_retrieved_at : time }.

Record LogicalDocument := mkLogical {
  ld_id : UUID; ld_security_id : UUID; ld_document_type : string; ld_identity_scheme : string;
  ld_identity_value : ustr; ld_normalized_identity_value : ustr }.

Record SnapshotItem := mkSnapshotItem {
  si_id : UUID; si_snapshot_id : UUID; si_category : string; si_source_record_type : string;
  si_source_record_id : UUID }.

Record DocumentParseRun := mkParseRun {
  pr_id : UUID; pr_document_version_id : UUID; pr_parser_name : string; pr_parser_version : string;
  pr_sanitizer_version : string; pr_config_checksum : string; pr_status : ParseStatus;
  pr_canonical_text : option ustr; pr_canonical_text_checksum : option string;
  pr_warnings : list string; pr_started_at : time; pr_completed_at : option time }.

Record DocumentPage := mkPageRow { pgr_id : UUID; pgr_run : UUID; pgr_page : ParsedPage }.
Record DocumentSection := mkSectionRow {
  snr_id : UUID; snr_run : UUID; snr_parent : option UUID; snr_section : ParsedSection }.
Record DocumentChunk := mkChunkRow {
  ckr_id : UUID; ckr_run : UUID; ckr_version : UUID; ckr_draft : DocumentChunkDraft }.
Record CitationAnchor := mkAnchorRow {
  car_id : UUID; car_draft : CitationAnchorDraft; car_section_path : option ustr;
  car_created_at : time }.

Record KnowledgeDb := mkKnowledge {
  kd_sources : list SourceDocument; kd_logical : list LogicalDocument;
  kd_versions : list DocumentVersionRecord; kd_items : list SnapshotItem;
  kd_links : list BindSnapshotDocumentVersionRequest; kd_runs : list DocumentParseRun;
  kd_pages : list DocumentPage; kd_sections : list DocumentSection;
  kd_chunks : list DocumentChunk; kd_citations : list CitationAnchor; kd_next : nat }.

Abbreviation knowM := (sessM KnowledgeDb).

Section Setters.
Context (db : KnowledgeDb).
Definition with_logical (rows : list LogicalDocument) : KnowledgeDb :=
  mkKnowledge (kd_sources db) rows (kd_versions db) (kd_items db) (kd_links db) (kd_runs db)
    (kd_pages db) (kd_sections db) (kd_chunks db) (kd_citations db) (S (kd_next db)).
Definition with_versions (rows : list DocumentVersionRecord) : KnowledgeDb :=
  mkKnowledge (kd_sources db) (kd_logical db) rows (kd_items db) (kd_links db) (kd_runs db)
    (kd_pages db) (kd_sections db) (kd_chunks db) (kd_citations db) (S (kd_next db)).
Definition with_links (rows : list BindSnapshotDocumentVersionRequest) : KnowledgeDb :=
  mkKnowledge (kd_sources db) (kd_logical db) (kd_versions db) (kd_items db) rows (kd_runs db)
    (kd_pages db) (kd_sections db) (kd_chunks db) (kd_citations db) (kd_next db).
Definition with_runs (rows : list DocumentParseRun) (n : nat) : KnowledgeDb :=
  mkKnowledge (kd_sources db) (kd_logical db) (kd_versions db) (kd_items db) (kd_links db) rows
    (kd_pages db) (kd_sections db) (kd_chunks db) (kd_citations db) n.
Definition with_pages (rows : list DocumentPage) : KnowledgeDb :=
  mkKnowledge (kd_sources db) (kd_logical db) (kd_versions db) (kd_items db) (kd_links db)
    (kd_runs db) rows (kd_sections db) (kd_chunks db) (kd_citations db) (S (kd_next db)).
Definition with_sections (rows : list DocumentSection) : KnowledgeDb :=
  mkKnowledge (kd_sources db) (kd_logical db) (kd_versions db) (kd_items db) (kd_links db)
    (kd_runs db) (kd_pages db) rows (kd_chunks db) (kd_citations db) (S (kd_next db)).
Definition with_chunks (rows : list DocumentChunk) : KnowledgeDb :=
  mkKnowledge (kd_sources db) (kd_logical db) (kd_versions db) (kd_items db) (kd_links db)
    (kd_runs db) (kd_pages db) (kd_sections db) rows (kd_citations db) (S (kd_next db)).
Definition with_citations (rows : list CitationAnchor) : KnowledgeDb :=
  mkKnowledge (kd_sources db) (kd_logical db) (kd_versions db) (kd_items db) (kd_links db)
    (kd_runs db) (kd_pages db) (kd_sections db) (kd_chunks db) rows (S (kd_next db)).
End Setters.

(** * Bodies, versions and snapshot links *)

Definition get_source (id : UUID) (db : KnowledgeDb) : option SourceDocument :=
  find (λ s, bool_decide (sd_id s = id)) (kd_sources db).

Definition get_source_body (source_document_id : UUID) (db : KnowledgeDb) :
    res (option SourceBodyRecord) :=
  match get_source source_document_id db with
  | None => Ok None
  | Some row =>
      if negb (bool_decide (sd_document_status row = "AVAILABLE")) then Ok None
      else match sd_storage_uri row, sd_checksum row, sd_byte_size row, sd_mime_type row with
           | Some uri, Some checksum, Some size, Some mime =>
               Some <$> validated SourceBodyRecord_valid
                 (mkBody (sd_id row) (sd_security_id row) (sd_provider_id row)
                    (sd_source_payload_id row) uri checksum size mime (sd_published_at row)
                    (sd_filed_at row) (sd_period_end row) (sd_retrieved_at row))
           | _, _, _, _ => Ok None
           end
  end.

Definition get_logical_document_security_id (id : UUID) (db : KnowledgeDb) : option UUID :=
  ld_security_id <$> find (λ l, bool_decide (ld_id l = id)) (kd_logical db).

Definition version_key (logical_document_id : UUID) (checksum : string)
    (v : DocumentVersionRecord) : bool :=
  bool_decide (dv_logical_document_id v = logical_document_id) && bool_decide (dv_checksum v = checksum).
Definition find_version (logical_document_id : UUID) (checksum : string) (db : KnowledgeDb) :
    option DocumentVersionRecord := find (version_key logical_document_id checksum) (kd_versions db).

Definition next_version_number (logical_document_id : UUID) (db : KnowledgeDb) : Z :=
  foldr Z.max 0 (map (λ v : DocumentVersionRecord, dv_version_number v)
    (filter (λ v : DocumentVersionRecord, dv_logical_document_id v = logical_document_id)
       (kd_versions db))) + 1.

Definition get_document_version (id : UUID) (db : KnowledgeDb) : option DocumentVersionRecord :=
  find (λ v, bool_decide (dv_id v = id)) (kd_versions db).

(** The CHECK constraints of document_versions. *)
Definition version_row_ok (v : DocumentVersionWrite) : bool :=
  (0 <? dv_version_number v) && Checksum_ok (dv_checksum v) && between 1 26214400 (dv_byte_size v).

Section Writes.
Context (uuid4 : nat → UUID) (now : time).

(** [acquire_version]: the unique constraint on the version number is the only
    one that can fail once no version with this checksum was found. *)
Definition acquire_version (value : DocumentVersionWrite) :
    knowM (DocumentVersionRecord * bool) := λ db,
  match find_version (dv_logical_document_id value) (dv_checksum value) db with
  | Some existing => Ok ((existing, false), db)
  | None =>
      reject_if (negb (version_row_ok value)) IntegrityError "ck_document_versions";;
      reject_if (existsb (λ v : DocumentVersionRecord,
          bool_decide (dv_logical_document_id v = dv_logical_document_id value)
          && (dv_version_number v =? dv_version_number value)) (kd_versions db))
        IntegrityError "uq_document_versions_number";;
      let row := mkVersion value (uuid4 (kd_next db)) now in
      Ok ((row, true), with_versions db (kd_versions db ++ [row]))
  end.

Definition find_snapshot_version_link (snapshot_id document_version_id : UUID) (db : KnowledgeDb) :
    option BindSnapshotDocumentVersionRequest :=
  find (λ l, bool_decide (bd_snapshot_id l = snapshot_id)
             && bool_decide (bd_document_version_id l = document_version_id)) (kd_links db).

Definition add_snapshot_version_link (value : BindSnapshotDocumentVersionRequest) :
    knowM BindSnapshotDocumentVersionRequest := λ db,
  match find_snapshot_version_link (bd_snapshot_id value) (bd_document_version_id value) db with
  | Some existing => Ok (existing, db)
  | None =>
      reject_if (existsb (λ l, bool_decide (bd_snapshot_item_id l = bd_snapshot_item_id value))
                   (kd_links db)) IntegrityError "uq_snapshot_document_versions_item";;
      Ok (value, with_links db (kd_links db ++ [value]))
  end.

Definition get_snapshot_body_evidence (snapshot_id snapshot_item_id : UUID) (db : KnowledgeDb) :
    res (option SnapshotBodyEvidenceRecord) :=
  match find (λ i, bool_decide (si_id i = snapshot_item_id)
                   && bool_decide (si_snapshot_id i = snapshot_id)) (kd_items db) with
  | None => Ok None
  | Some row =>
      if negb (bool_decide (si_source_record_type row = "source_documents")) then Ok None
      else match get_source (si_source_record_id row) db with
           | None => Ok None
           | Some document =>
               Some <$> validated
                 (λ e, bool_decide (be_category e ∈ ["SOURCE_DOCUMENTS"; "FILING_METADATA"]))
                 (mkBodyEvidence (si_snapshot_id row) (si_id row) (sd_security_id document)
                    (sd_provider_id document) (si_category row) "source_documents"
                    (si_source_record_id row))
           end
  end.

(** [get_or_create_logical_document]: an empty identifier counts as absent. *)
Definition truthy (t : option ustr) : option ustr :=
  match t with Some [] => None | _ => t end.
Definition logical_identity (source : SourceDocument) : option (string * ustr) :=
  match truthy (sd_accession_number source), truthy (sd_provider_document_id source),
        sd_announcement_id source with
  | Some value, _, _ => Some ("ACCESSION_NUMBER", value)
  | None, Some value, _ => Some ("PROVIDER_DOCUMENT_ID", value)
  | None, None, Some value => Some ("ANNOUNCEMENT_ID", value)
  | None, None, None => None
  end.

Section Identity.
Context `{UnicodeData}.
Definition get_or_create_logical_document (source_document_id : UUID) : knowM (option UUID) := λ db,
  match get_source source_document_id db with
  | None => Ok (None, db)
  | Some source =>
      match logical_identity source with
      | None => Ok (None, db)
      | Some (scheme, identity) =>
          let normalized := ujoin (ulit " ") (usplit (casefold identity)) in
          match find (λ l, bool_decide (ld_security_id l = sd_security_id source)
                           && bool_decide (ld_identity_scheme l = scheme)
                           && bool_decide (ld_normalized_identity_value l = normalized))
                  (kd_logical db) with
          | Some existing => Ok (Some (ld_id existing), db)
          | None =>
              let id := uuid4 (kd_next db) in
              Ok (Some id, with_logical db (kd_logical db ++
                [mkLogical id (sd_security_id source) (sd_document_type source) scheme identity
                   normalized]))
          end
      end
  end.
End Identity.
End Writes.
