(* ===== verification/DocIdentity.v ===== *)
(** Registration of exact document bytes as immutable versions, and their
    binding to snapshots: domain/documents/identity.py. *)
From S2P Require Import Prelude PyDecimal PyText Sha256 AgentModel Text DocModel Session.
From S2P Require Import Citations Knowledge.

Definition _blocked (warning : string) : DocumentVersionResult :=
  mkVersionResult BLOCKED None [warning].

Definition _same_content_metadata (version : DocumentVersionRecord) (body : SourceBodyRecord) : bool :=
  bool_decide (dv_source_document_id version = sb_source_document_id body)
  && bool_decide (dv_security_id version = sb_security_id body)
  && bool_decide (dv_provider_id version = sb_provider_id body)
  && bool_decide (dv_source_payload_id version = sb_source_payload_id body)
  && bool_decide (dv_storage_uri version = sb_storage_uri body)
  && bool_decide (dv_mime_type version = sb_mime_type body)
  && bool_decide (dv_checksum version = sb_checksum body)
  && (dv_byte_size version =? sb_byte_size body).

Definition _same_policy (version : DocumentVersionRecord)
    (request : RegisterDocumentVersionRequest) : bool :=
  let body := rq_source_body request in
  opt_eqb (dv_supersedes version) (rq_supersedes request)
  && opt_eqb (dv_published_at version) (sb_published_at body)
  && opt_eqb (dv_filed_at version) (sb_filed_at body)
  && opt_eqb (dv_period_end version) (sb_period_end body)
  && (dv_retrieved_at version =? sb_retrieved_at body)
  && bool_decide (dv_document_language version = rq_document_language request)
  && bool_decide (dv_trust_level version = rq_trust_level request)
  && bool_decide (dv_evidence_origin version = rq_evidence_origin request)
  && bool_decide (dv_access_mode version = rq_access_mode request)
  && bool_decide (dv_live_status version = rq_live_status request)
  && bool_decide (dv_source_version_status version = rq_source_version_status request).

(** [_validate_supersedes_relation]: the error, if any. *)
Definition _validate_supersedes_relation (logical_document_id : UUID) (version_number : Z)
    (supersedes : option UUID) (db : KnowledgeDb) : option string :=
  match supersedes with
  | None => None
  | Some id =>
      match get_document_version id db with
      | None => Some "SUPERSEDES_VERSION_NOT_FOUND"
      | Some superseded =>
          if negb (bool_decide (dv_logical_document_id superseded = logical_document_id))
          then Some "SUPERSEDES_VERSION_LOGICAL_DOCUMENT_MISMATCH"
          else if version_number <=? dv_version_number superseded
          then Some "SUPERSEDES_VERSION_ORDER_INVALID"
          else None
      end
  end.

(** The version a request describes. *)
Definition version_write (request : RegisterDocumentVersionRequest) (logical_document_id : UUID)
    (version_number : Z) : DocumentVersionWrite :=
  let body := rq_source_body request in
  mkVersionWrite logical_document_id (sb_source_document_id body) (sb_security_id body)
    (sb_provider_id body) (sb_source_payload_id body) version_number (rq_supersedes request)
    (sb_storage_uri body) (sb_mime_type body) (sb_checksum body) (sb_byte_size body)
    (sb_published_at body) (sb_filed_at body) (sb_period_end body) (sb_retrieved_at body)
    (rq_document_language request) (rq_trust_level request) (rq_evidence_origin request)
    (rq_access_mode request) (rq_live_status request) (rq_source_version_status request).

Section Service.
Context `{BlobStorage} (uuid4 : nat → UUID) (now : time).

Definition _blob_matches (body : SourceBodyRecord) : res bool :=
  stored ← catch_blob (metadata ← blob_metadata (sb_storage_uri body);
                       content ← blob_get (sb_storage_uri body); Ok (metadata, content));
  match stored with
  | None => Ok false
  | Some (metadata, content) =>
      if bool_decide (checksum_sha256 metadata = sb_checksum body)
         && (size_bytes metadata =? sb_byte_size body)
         && bool_decide (content_type metadata = sb_mime_type body)
         && (Z.of_nat (String.length content) =? sb_byte_size body)
      then
        checksum ← blob_checksum (sb_storage_uri body);
        Ok (bool_decide (checksum = sb_checksum body))
      else Ok false
  end.

(** [DocumentVersionService.register] *)
Definition register (request : RegisterDocumentVersionRequest) : knowM DocumentVersionResult := λ db,
  let blocked warning := Ok (_blocked warning, db) in
  let body := rq_source_body request in
  match rq_logical_document_id request with
  | None => blocked "STABLE_DOCUMENT_IDENTITY_REQUIRED"
  | Some logical =>
      persisted ← get_source_body (sb_source_document_id body) db;
      if negb (bool_decide (persisted = Some body)) then blocked "SOURCE_BODY_RECORD_MISMATCH"
      else match get_logical_document_security_id logical db with
      | None => blocked "LOGICAL_DOCUMENT_NOT_FOUND"
      | Some security =>
          if negb (bool_decide (security = sb_security_id body))
          then blocked "LOGICAL_DOCUMENT_SECURITY_MISMATCH"
          else
          let existing := find_version logical (sb_checksum body) db in
          if match existing with Some v => negb (_same_content_metadata v body) | None => false end
          then blocked "DOCUMENT_VERSION_METADATA_CONFLICT"
          else
          matches ← _blob_matches body;
          if negb matches then blocked "SOURCE_BODY_BLOB_METADATA_MISMATCH"
          else match existing with
          | Some v =>
              if negb (_same_policy v request) then blocked "DOCUMENT_VERSION_POLICY_CONFLICT"
              else Ok (mkVersionResult REUSED (Some v) [], db)
          | None =>
              let version_number := default (next_version_number logical db)
                                      (rq_version_number request) in
              match _validate_supersedes_relation logical version_number (rq_supersedes request) db
              with
              | Some error => blocked error
              | None =>
                  acquired ← acquire_version uuid4 now (version_write request logical version_number) db;
                  let '((record, created), db') := acquired in
                  if negb (_same_content_metadata record body)
                  then Ok (_blocked "DOCUMENT_VERSION_METADATA_CONFLICT", db')
                  else if negb (_same_policy record request)
                  then Ok (_blocked "DOCUMENT_VERSION_POLICY_CONFLICT", db')
                  else Ok (mkVersionResult (if created : bool then CREATED else REUSED) (Some record) [],
                           db')
              end
          end
      end
  end.

Definition _blocked_link (warning : string) : SnapshotDocumentVersionResult :=
  mkBindResult BLOCKED None [warning].

Definition bind_version_to_snapshot (request : BindSnapshotDocumentVersionRequest) :
    knowM SnapshotDocumentVersionResult := λ db,
  let blocked warning := Ok (_blocked_link warning, db) in
  match get_document_version (bd_document_version_id request) db with
  | None => blocked "DOCUMENT_VERSION_NOT_FOUND"
  | Some version =>
      found ← get_snapshot_body_evidence (bd_snapshot_id request) (bd_snapshot_item_id request) db;
      match found with
      | None => blocked "SNAPSHOT_ITEM_NOT_FOUND"
      | Some evidence =>
          if negb (bool_decide (be_category evidence = "SOURCE_DOCUMENTS"))
             || negb (bool_decide (be_source_record_type evidence = "source_documents"))
          then blocked "SNAPSHOT_ITEM_IS_NOT_DOCUMENT_BODY"
          else if negb (bool_decide (be_source_record_id evidence = dv_source_document_id version))
                  || negb (bool_decide (be_security_id evidence = dv_security_id version))
                  || negb (bool_decide (be_provider_id evidence = dv_provider_id version))
          then blocked "SNAPSHOT_ITEM_DOCUMENT_VERSION_MISMATCH"
          else match find_snapshot_version_link (bd_snapshot_id request)
                       (bd_document_version_id request) db with
          | Some existing =>
              if negb (bool_decide (bd_snapshot_item_id existing = bd_snapshot_item_id request))
              then blocked "SNAPSHOT_DOCUMENT_LINK_CONFLICT"
              else Ok (mkBindResult REUSED (Some existing) [], db)
          | None =>
              added ← add_snapshot_version_link request db;
              Ok (mkBindResult CREATED (Some added.1) [], added.2)
          end
      end
  end.
End Service.

(** * Properties *)

Lemma acquire_version_new uuid4 now value db r :
  find_version (dv_logical_document_id value) (dv_checksum value) db = None →
  acquire_version uuid4 now value db = Ok r →
  let row := mkVersion value (uuid4 (kd_next db)) now in
  r = ((row, true), with_versions db (kd_versions db ++ [row])).
Proof. unfold acquire_version. intros -> H. apply guard_seq in H as [_ H]. apply guard_seq in H as [_ H]. by injection H. Qed.

(** What makes a request a repetition of a stored version. *)
Definition registered `{BlobStorage} (request : RegisterDocumentVersionRequest)
    (v : DocumentVersionRecord) (db : KnowledgeDb) : Prop :=
  let body := rq_source_body request in
  ∃ logical, rq_logical_document_id request = Some logical ∧
    get_source_body (sb_source_document_id body) db = Ok (Some body) ∧
    get_logical_document_security_id logical db = Some (sb_security_id body) ∧
    find_version logical (sb_checksum body) db = Some v ∧
    _same_content_metadata v body = true ∧ _same_policy v request = true ∧
    _blob_matches body = Ok true.

Section Properties.
Context `{BlobStorage} (uuid4 : nat → UUID) (now : time).

Lemma registered_reused request v db : registered request v db →
  register uuid4 now request db = Ok (mkVersionResult REUSED (Some v) [], db).
Proof.
  intros (logical & Hl & Hb & Hs & Hv & Hc & Hp & Hm). unfold register.
  rewrite Hl. run_res Hb. rewrite bool_decide_eq_true_2 by done. cbn [negb].
  rewrite Hs. rewrite bool_decide_eq_true_2 by done. cbn [negb].
  rewrite Hv, Hc. cbn [negb]. run_res Hm. cbn [negb]. by rewrite Hp.
Qed.

Lemma register_registered request result db db' v :
  register uuid4 now request db = Ok (result, db') → vr_version result = Some v →
  registered request v db' ∧ kd_versions db `prefix_of` kd_versions db'.
Proof.
  intros Hr Hv. unfold register in Hr.
  destruct (rq_logical_document_id request) as [logical|] eqn:El.
  2: { injection Hr as <- <-. discriminate Hv. }
  apply bind_Ok in Hr as (persisted & Hb & Hr).
  case_bool_decide as Hpb; [|injection Hr as <- <-; discriminate Hv]. subst persisted. cbn [negb] in Hr.
  destruct (get_logical_document_security_id logical db) as [security|] eqn:Es.
  2: { injection Hr as <- <-. discriminate Hv. }
  case_bool_decide as Hse; [|injection Hr as <- <-; discriminate Hv]. subst security. cbn [negb] in Hr.
  destruct (find_version logical (sb_checksum (rq_source_body request)) db) as [e|] eqn:Ef.
  - destruct (_same_content_metadata e _) eqn:Ec; [|injection Hr as <- <-; discriminate Hv].
    apply bind_Ok in Hr as (matches & Hm & Hr).
    destruct matches; [|injection Hr as <- <-; discriminate Hv]. cbn [negb] in Hr.
    destruct (_same_policy e request) eqn:Ep; [|injection Hr as <- <-; discriminate Hv].
    injection Hr as <- <-. injection Hv as <-. split; [|done]. by exists logical.
  - apply bind_Ok in Hr as (matches & Hm & Hr).
    destruct matches; [|injection Hr as <- <-; discriminate Hv]. cbn [negb] in Hr.
    destruct (_validate_supersedes_relation _ _ _ _); [injection Hr as <- <-; discriminate Hv|].
    apply bind_Ok in Hr as (acquired & Ha & Hr).
    apply acquire_version_new in Ha; [|done]. cbn in Ha. subst acquired.
    set (row := mkVersion _ _ _) in Hr. cbn iota beta in Hr.
    destruct (_same_content_metadata row _) eqn:Ec; [|injection Hr as <- <-; discriminate Hv].
    destruct (_same_policy row request) eqn:Ep; [|injection Hr as <- <-; discriminate Hv].
    injection Hr as <- <-. injection Hv as <-. split; [|by eexists].
    exists logical. split_and!; [done|exact Hb|exact Es| |done..].
    unfold find_version, with_versions. cbn [kd_versions]. apply find_snoc; [exact Ef|].
    unfold version_key. cbn. by rewrite !bool_decide_eq_true_2.
Qed.

End Properties.

(** Registration: a version that is returned is stored, carries the content
    identity of the stored source body and of the blob and the policy of the
    request, no earlier version is changed, and registering again, whatever
    the ids and the clock, returns the same version and changes nothing. *)
Theorem register_idempotent `{BlobStorage} uuid4 now request result db db' v uuid4' now' :
  register uuid4 now request db = Ok (result, db') → vr_version result = Some v →
  v ∈ kd_versions db' ∧ kd_versions db `prefix_of` kd_versions db' ∧
  _same_content_metadata v (rq_source_body request) = true ∧ _same_policy v request = true ∧
  _blob_matches (rq_source_body request) = Ok true ∧
  register uuid4' now' request db' = Ok (mkVersionResult REUSED (Some v) [], db').
Proof.
  intros Hr Hv. destruct (register_registered _ _ _ _ _ _ _ Hr Hv) as [Hreg Hpre].
  pose proof Hreg as (logical & ? & ? & ? & Hf & ? & ? & ?).
  split_and!; [by apply find_elem in Hf as []|done..|]. by apply registered_reused.
Qed.

(** * Samples *)

Definition sample_id (n : nat) : UUID := mkUUID ("id-" +:+ str_of_Z (Z.of_nat n)).
Definition sample_blob : string := "Annual report".
Definition sample_uri : string := "blob://documents/0123456789abcdef0123456789abcdef".
#[export] Instance sample_storage : BlobStorage := {|
  blob_metadata uri :=
    if bool_decide (uri = sample_uri)
    then Ok (mkBlobMetadata (sha256_hex sample_blob) 13 "text/plain") else raise BlobStorageError "";
  blob_get uri := if bool_decide (uri = sample_uri) then Ok sample_blob else raise BlobStorageError "";
  blob_checksum uri :=
    if bool_decide (uri = sample_uri) then Ok (sha256_hex sample_blob) else raise BlobStorageError "" |}.

Definition sample_source : SourceDocument :=
  mkSourceDocument (sample_id 100) (sample_id 101) (sample_id 102) (sample_id 103) (Some (ulit "AR-1"))
    "ANNUAL_REPORT" None None (Some 19700) None (Some 1000) (Some "text/plain") (Some sample_uri)
    (Some (sha256_hex sample_blob)) (Some 13) "AVAILABLE" 2000.
Definition sample_body : SourceBodyRecord :=
  mkBody (sample_id 100) (sample_id 101) (sample_id 102) (sample_id 103) sample_uri
    (sha256_hex sample_blob) 13 "text/plain" (Some 1000) None (Some 19700) 2000.
Definition sample_knowledge : KnowledgeDb :=
  mkKnowledge [sample_source]
    [mkLogical (sample_id 104) (sample_id 101) "ANNUAL_REPORT" "PROVIDER_DOCUMENT_ID" (ulit "AR-1")
       (ulit "ar-1")] [] [] [] [] [] [] [] [] 0.
Definition sample_request : RegisterDocumentVersionRequest :=
  mkRegister (Some (sample_id 104)) sample_body None None DocLang.EN_US Trust.OFFICIAL_COMPANY "SOURCE"
    "OFFLINE" "NOT_LIVE" SrcSt.ACTIVE.
Definition sample_version : DocumentVersionRecord :=
  mkVersion (version_write sample_request (sample_id 104) 1) (sample_id 0) 3000.

Example sample_registration :
  register sample_id 3000 sample_request sample_knowledge =
  Ok (mkVersionResult CREATED (Some sample_version) [],
      with_versions sample_knowledge [sample_version]).
Proof. vm_compute. reflexivity. Qed.

Lemma register_idempotent_witness :
  register sample_id 3000 sample_request sample_knowledge =
    Ok (mkVersionResult CREATED (Some sample_version) [],
        with_versions sample_knowledge [sample_version]) ∧
  register sample_id 4000 sample_request (with_versions sample_knowledge [sample_version]) =
    Ok (mkVersionResult REUSED (Some sample_version) [],
        with_versions sample_knowledge [sample_version]).
Proof.
  split; [exact sample_registration|].
  destruct (register_idempotent sample_id 3000 sample_request _ _ _ sample_version sample_id 4000
    sample_registration eq_refl) as (_ & _ & _ & _ & _ & H). exact H.
Defined.
