(* ===== verification/Ingest.v ===== *)
(** From a stored document version to verifiable citations: parse runs
    (domain/documents/parsing.py), their artifacts, chunks and citation anchors,
    and the context a citation is verified in (db/repositories/knowledge.py). *)
From S2P Require Import Prelude PyDecimal PyText Sha256 AgentModel Text DocModel Session Chunking.
From S2P Require Import Citations Knowledge Parsers.

(** * Parse runs *)

Record DocumentParser := mkParser {
  parser_name : string; parser_version : string;
  parser_parse : string → ParserConfig → res ParsedDocument }.

Record DocumentParseRunRecord := mkParseRunRecord {
  rr_id : UUID; rr_document_version_id : UUID; rr_parser_name : string; rr_parser_version : string;
  rr_sanitizer_version : string; rr_config_checksum : string; rr_status : ParseStatus;
  rr_canonical_text_checksum : option string; rr_warnings : list string; rr_started_at : time;
  rr_completed_at : option time }.
Definition _parse_run_record (row : DocumentParseRun) : DocumentParseRunRecord :=
  mkParseRunRecord (pr_id row) (pr_document_version_id row) (pr_parser_name row)
    (pr_parser_version row) (pr_sanitizer_version row) (pr_config_checksum row) (pr_status row)
    (pr_canonical_text_checksum row) (pr_warnings row) (pr_started_at row) (pr_completed_at row).

Record DocumentParseResult := mkParseResult {
  ps_status : ParseStatus; ps_run : option DocumentParseRunRecord;
  ps_document : option ParsedDocument; ps_reused : bool; ps_warnings : list string }.

Definition _SANITIZER_VERSION : string := "sanitizer-v1".

Definition parser_config_checksum (c : ParserConfig) : string :=
  sha256_hex (ujson_dumps (UObj
    [("max_document_bytes", UInt (max_document_bytes c));
     ("max_pdf_pages", UInt (max_pdf_pages c));
     ("max_characters_per_page", UInt (max_characters_per_page c));
     ("max_document_characters", UInt (max_document_characters c));
     ("max_html_nodes", UInt (max_html_nodes c)); ("max_html_depth", UInt (max_html_depth c));
     ("max_json_depth", UInt (max_json_depth c));
     ("max_json_array_items", UInt (max_json_array_items c));
     ("approved_json_pointers", UList (map UStr (approved_json_pointers c)));
     ("approved_text_encoding", UStr (ulit "utf-8"))])).

Definition get_run (id : UUID) (db : KnowledgeDb) : option DocumentParseRun :=
  find (λ r, bool_decide (pr_id r = id)) (kd_runs db).

Definition find_parse_run (version_id : UUID) (name version sanitizer checksum : string)
    (db : KnowledgeDb) : option DocumentParseRun :=
  find (λ r, bool_decide (pr_document_version_id r = version_id)
             && bool_decide (pr_parser_name r = name) && bool_decide (pr_parser_version r = version)
             && bool_decide (pr_sanitizer_version r = sanitizer)
             && bool_decide (pr_config_checksum r = checksum)) (kd_runs db).

(** The rows of a run's artifacts. *)
Definition run_pages (id : UUID) (db : KnowledgeDb) : list DocumentPage :=
  filter (λ p, pgr_run p = id) (kd_pages db).
Definition run_sections (id : UUID) (db : KnowledgeDb) : list DocumentSection :=
  filter (λ s, snr_run s = id) (kd_sections db).
Definition run_chunks (id : UUID) (db : KnowledgeDb) : list DocumentChunk :=
  filter (λ c, ckr_run c = id) (kd_chunks db).

(** [sorted(sections, key=lambda s: (s.level, s.section_path))] *)
Definition section_ltb (a b : ParsedSection) : bool :=
  (sn_level a <? sn_level b)
  || ((sn_level a =? sn_level b) && ultb (sn_section_path a) (sn_section_path b)).

(** An ORM row is updated in place. *)
Definition update_run (id : UUID) (f : DocumentParseRun → DocumentParseRun) (db : KnowledgeDb) :
    KnowledgeDb :=
  with_runs db (map (λ r, if bool_decide (pr_id r = id) then f r else r) (kd_runs db)) (kd_next db).
Definition set_text (text : ustr) (r : DocumentParseRun) : DocumentParseRun :=
  mkParseRun (pr_id r) (pr_document_version_id r) (pr_parser_name r) (pr_parser_version r)
    (pr_sanitizer_version r) (pr_config_checksum r) (pr_status r) (Some text)
    (pr_canonical_text_checksum r) (pr_warnings r) (pr_started_at r) (pr_completed_at r).
Definition set_completion (status : ParseStatus) (checksum : option string) (warnings : list string)
    (completed_at : time) (r : DocumentParseRun) : DocumentParseRun :=
  mkParseRun (pr_id r) (pr_document_version_id r) (pr_parser_name r) (pr_parser_version r)
    (pr_sanitizer_version r) (pr_config_checksum r) status (pr_canonical_text r) checksum warnings
    (pr_started_at r) (Some completed_at).

(** The constraints of document_sections. *)
Definition section_row_ok (s : ParsedSection) : bool :=
  between 1 64 (sn_level s)
  && match sn_start_offset s, sn_end_offset s with
     | Some a, Some b => a <? b
     | None, _ => true
     | Some _, None => true
     end.

Definition get_parsed_document (run_id : UUID) (db : KnowledgeDb) : res (option ParsedDocument) :=
  match get_run run_id db with
  | None => Ok None
  | Some run =>
      match pr_completed_at run, pr_canonical_text run, pr_canonical_text_checksum run with
      | Some _, Some text, Some checksum =>
          let pages := sort_by (λ a b, pg_page_number (pgr_page a) <? pg_page_number (pgr_page b))
                         (run_pages run_id db) in
          let sections := sort_by (λ a b, section_ltb (snr_section a) (snr_section b))
                            (run_sections run_id db) in
          pages ← res_map (λ p, validated ParsedPage_valid (pgr_page p)) pages;
          sections ← res_map (λ row,
            parent ← match snr_parent row with
                     | None => Ok None
                     | Some id =>
                         s ← require_some (find (λ s, bool_decide (snr_id s = id)) sections) KeyError "";
                         Ok (Some (sn_section_path (snr_section s)))
                     end;
            let s := snr_section row in
            validated ParsedSection_valid
              (mkSection (sn_section_path s) parent (sn_level s) (sn_title s) (sn_locator_type s)
                 (sn_start_page s) (sn_end_page s) (sn_start_offset s) (sn_end_offset s)
                 (sn_text_checksum s) (sn_content_kind s))) sections;
          Some <$> validated ParsedDocument_valid
            (mkParsed text checksum pages sections (pr_status run) (pr_warnings run) []
               [("persistence", "postgresql")])
      | _, _, _ => Ok None
      end
  end.

Section Writes.
Context (uuid4 : nat → UUID) (now : time).

Definition add_page (run_id : UUID) (page : ParsedPage) : knowM unit := λ db,
  reject_if ((pg_page_number page <=? 0)
             || existsb (λ p, pg_page_number (pgr_page p) =? pg_page_number page) (run_pages run_id db))
    IntegrityError "document_pages";;
  Ok (tt, with_pages db (kd_pages db ++ [mkPageRow (uuid4 (kd_next db)) run_id page])).

(** A section row, its parent found among the rows written before. *)
Definition add_section (run_id : UUID) (section_ids : list (ustr * UUID)) (s : ParsedSection) :
    knowM (list (ustr * UUID)) := λ db,
  parent ← match sn_parent_section_path s with
           | None => Ok None
           | Some path =>
               kv ← require_some (find (λ kv, bool_decide (kv.1 = path)) section_ids) KeyError "";
               Ok (Some kv.2)
           end;
  reject_if (negb (section_row_ok s)
             || existsb (λ r, bool_decide (sn_section_path (snr_section r) = sn_section_path s))
                  (run_sections run_id db)) IntegrityError "document_sections";;
  let id := uuid4 (kd_next db) in
  Ok ((sn_section_path s, id) :: section_ids,
      with_sections db (kd_sections db ++ [mkSectionRow id run_id parent s])).

Fixpoint add_sections (run_id : UUID) (section_ids : list (ustr * UUID)) (l : list ParsedSection) :
    knowM unit :=
  match l with
  | [] => mret tt
  | s :: l => ids ← add_section run_id section_ids s; add_sections run_id ids l
  end.
Fixpoint add_pages (run_id : UUID) (l : list ParsedPage) : knowM unit :=
  match l with
  | [] => mret tt
  | p :: l => _ ← add_page run_id p; add_pages run_id l
  end.

Definition replace_running_artifacts (run_id : UUID) (value : ParsedDocument) : knowM unit := λ db,
  match get_run run_id db with
  | None => raise ValueError "parse run is not mutable"
  | Some run =>
      reject_if (is_some (pr_completed_at run) || negb (bool_decide (pr_status run = ParseSt.RUNNING)))
        ValueError "parse run is not mutable";;
      reject_if (negb (bool_decide (run_pages run_id db = []))) ValueError
        "parse artifacts already exist";;
      (_ ← add_pages run_id (pd_pages value);
       add_sections run_id [] (sort_by section_ltb (pd_sections value)))
        (update_run run_id (set_text (pd_canonical_text value)) db)
  end.

Definition finish_parse_run (run_id : UUID) (status : ParseStatus) (checksum : option string)
    (warnings : list string) : knowM DocumentParseRunRecord := λ db,
  match get_run run_id db with
  | None => raise ValueError "parse run is not mutable"
  | Some run =>
      reject_if (is_some (pr_completed_at run)) ValueError "parse run is not mutable";;
      let f := set_completion status checksum warnings now in
      Ok (_parse_run_record (f run), update_run run_id f db)
  end.

(** [acquire_parse_run]: the unique constraint is the lookup key, so only an
    interleaved transaction could make the insert fail. *)
Definition acquire_parse_run (version_id : UUID) (name version sanitizer checksum : string) :
    knowM (DocumentParseRunRecord * bool) := λ db,
  match find_parse_run version_id name version sanitizer checksum db with
  | Some existing => Ok ((_parse_run_record existing, false), db)
  | None =>
      let row := mkParseRun (uuid4 (kd_next db)) version_id name version sanitizer checksum
                   ParseSt.RUNNING None None [] now None in
      Ok ((_parse_run_record row, true), with_runs db (kd_runs db ++ [row]) (S (kd_next db)))
  end.

Section Service.
Context `{BlobStorage} (registry : string → option DocumentParser).

Definition _blocked (warning : string) : DocumentParseResult :=
  mkParseResult ParseSt.BLOCKED None None false [warning].
Definition _in_progress (run : DocumentParseRunRecord) : DocumentParseResult :=
  mkParseResult ParseSt.BLOCKED (Some run) None true ["PARSE_RUN_IN_PROGRESS"].

(** A terminal run is reused with the document read back. *)
Definition reuse_run (run : DocumentParseRunRecord) : knowM DocumentParseResult :=
  if bool_decide (rr_status run = ParseSt.RUNNING) then mret (_in_progress run)
  else λ db,
    document ← get_parsed_document (rr_id run) db;
    Ok (mkParseResult (rr_status run) (Some run) document true (rr_warnings run), db).

Definition run_parser (run_id : UUID) (parser : DocumentParser) (content : string)
    (config : ParserConfig) : knowM DocumentParseResult :=
  parsed ← sess_lift (parser_parse parser content config);
  _ ← replace_running_artifacts run_id parsed;
  _ ← sess_lift (reject_if (bool_decide (pd_status parsed = ParseSt.RUNNING)) ValidationError
                   "parse completion must be terminal");
  terminal ← finish_parse_run run_id (pd_status parsed) (Some (pd_canonical_text_checksum parsed))
               (pd_warnings parsed);
  mret (mkParseResult (rr_status terminal) (Some terminal) (Some parsed) false (rr_warnings terminal)).

(** [DocumentParseService.parse] *)
Definition parse (version_id : UUID) (config : ParserConfig) : knowM DocumentParseResult := λ db,
  match get_document_version version_id db with
  | None => Ok (_blocked "DOCUMENT_VERSION_NOT_FOUND", db)
  | Some version =>
      match registry (dv_mime_type version) with
      | None => Ok (_blocked "PARSER_NOT_CONFIGURED", db)
      | Some parser =>
          let checksum := parser_config_checksum config in
          match find_parse_run version_id (parser_name parser) (parser_version parser)
                  _SANITIZER_VERSION checksum db with
          | Some existing => reuse_run (_parse_run_record existing) db
          | None =>
              stored ← catch_blob (blob_get (dv_storage_uri version));
              match stored with
              | None => Ok (_blocked "DOCUMENT_BLOB_NOT_AVAILABLE", db)
              | Some content =>
                  (acquired ← acquire_parse_run version_id (parser_name parser)
                                (parser_version parser) _SANITIZER_VERSION checksum;
                   if negb acquired.2 then reuse_run acquired.1
                   else run_parser (rr_id acquired.1) parser content config) db
              end
          end
      end
  end.
End Service.

(** * Chunks and citations *)

Definition draft_request (run : DocumentParseRun) (version : DocumentVersionRecord)
    (canonical_checksum excerpt_checksum : string) (page_id section_id : option UUID)
    (chunk_id : UUID) (draft : DocumentChunkDraft) : CreateCitationRequest :=
  mkCitationRequest (dv_id version) (pr_id run) page_id section_id (Some chunk_id)
    (ck_locator_type draft) (ck_start_page draft) (ck_end_page draft) (ck_html_anchor draft)
    (ck_json_pointer draft) (ck_start_offset draft) (ck_end_offset draft) (ck_text draft)
    excerpt_checksum canonical_checksum (dv_checksum version) "citation-v1"
    (pr_parser_version run) (pr_sanitizer_version run).

(** The constraints of document_chunks and citation_anchors. *)
Definition chunk_row_ok (c : DocumentChunkDraft) : bool :=
  (0 <=? ck_chunk_index c) && (0 <=? ck_token_count c)
  && match ck_start_offset c, ck_end_offset c with Some a, Some b => a <? b | _, _ => true end.
Definition same_chunk_key (run_id : UUID) (d : DocumentChunkDraft) (c : DocumentChunk) : bool :=
  bool_decide (ckr_run c = run_id)
  && ((bool_decide (ck_chunk_version (ckr_draft c) = ck_chunk_version d)
       && (ck_chunk_index (ckr_draft c) =? ck_chunk_index d))
      || bool_decide (ck_checksum (ckr_draft c) = ck_checksum d)).
Definition anchor_row_ok (c : CitationAnchorDraft) : bool :=
  ulen_between 1 1000 (ca_excerpt c)
  && match ca_locator_type c with
     | Loc.PDF_PAGE_RANGE => is_some (ca_page_id c)
     | Loc.TEXT_OFFSET_RANGE => true
     | _ => is_some (ca_section_id c)
     end.
Definition same_anchor_key (c : CitationAnchorDraft) (r : CitationAnchor) : bool :=
  bool_decide (ca_document_version_id (car_draft r) = ca_document_version_id c)
  && bool_decide (ca_parse_run_id (car_draft r) = ca_parse_run_id c)
  && bool_decide (ca_locator_checksum (car_draft r) = ca_locator_checksum c).

(** The columns of document_chunks: locator paths are kept by the citation. *)
Definition stored_draft (d : DocumentChunkDraft) : DocumentChunkDraft :=
  mkChunk (ck_chunk_version d) (ck_chunk_index d) (ck_text d) (ck_normalized_text d) (ck_language d)
    (ck_content_kind d) (ck_locator_type d) None None None (ck_start_page d) (ck_end_page d)
    (ck_start_offset d) (ck_end_offset d) (ck_token_count d) (ck_checksum d) (ck_warnings d).

(** The loop body: a chunk row and the citation of its exact text. *)
Definition add_chunk (run : DocumentParseRun) (version : DocumentVersionRecord)
    (canonical_checksum : string) (pages : list DocumentPage) (sections : list DocumentSection)
    (draft : DocumentChunkDraft) : knowM UUID := λ db,
  reject_if (negb (chunk_row_ok draft) || existsb (same_chunk_key (pr_id run) draft) (kd_chunks db))
    IntegrityError "document_chunks";;
  let chunk_id := uuid4 (kd_next db) in
  let db1 := with_chunks db (kd_chunks db ++ 
    [mkChunkRow chunk_id (pr_id run) (dv_id version) (stored_draft draft)]) in
  let page_id :=
    match ck_start_page draft, ck_end_page draft with
    | Some a, Some b =>
        if a =? b then pgr_id <$> find (λ p, pg_page_number (pgr_page p) =? a) pages else None
    | _, _ => None
    end in
  let section_id :=
    path ← ck_section_path draft;
    snr_id <$> find (λ s, bool_decide (sn_section_path (snr_section s) = path)) sections in
  excerpt_checksum ← sha256_text (ck_text draft);
  request ← validated CreateCitationRequest_valid
    (draft_request run version canonical_checksum excerpt_checksum page_id section_id chunk_id draft);
  citation ← create_citation request;
  reject_if (negb (anchor_row_ok citation) || existsb (same_anchor_key citation) (kd_citations db1))
    IntegrityError "citation_anchors";;
  let row := mkAnchorRow (uuid4 (kd_next db1)) citation (ck_section_path draft) now in
  Ok (chunk_id, with_citations db1 (kd_citations db1 ++ [row])).

Definition add_chunks_and_citations (run_id version_id : UUID) (chunks : list DocumentChunkDraft) :
    knowM (list UUID) := λ db,
  match get_run run_id db, get_document_version version_id db with
  | Some run, Some version =>
      reject_if (is_none (pr_completed_at run)) ValueError
        "terminal parse run and document version are required";;
      canonical_checksum ← require_some (pr_canonical_text_checksum run) ValueError
        "canonical parse checksum is required";
      let existing := sort_by (λ a b, ck_chunk_index (ckr_draft a) <? ck_chunk_index (ckr_draft b))
                        (run_chunks run_id db) in
      if negb (bool_decide (existing = [])) then
        reject_if (negb (bool_decide (map (λ r, ck_checksum (ckr_draft r)) existing =
                                      map ck_checksum chunks))) ValueError "chunk generation conflict";;
        Ok (map ckr_id existing, db)
      else
        sess_map (add_chunk run version canonical_checksum (run_pages run_id db)
                    (run_sections run_id db)) chunks db
  | _, _ => raise ValueError "terminal parse run and document version are required"
  end.
End Writes.

(** * The context of a citation *)

(** [_supersession_state]: the first version that supersedes this one, the first
    known publication of such versions, and whether one is not known. *)
Definition superseders (version_id : UUID) (db : KnowledgeDb) : list DocumentVersionRecord :=
  sort_by (λ a b : DocumentVersionRecord,
      (dv_version_number a <? dv_version_number b)
      || ((dv_version_number a =? dv_version_number b)
          && str_ltb (uuid_str (dv_id a)) (uuid_str (dv_id b))))
    (filter (λ v : DocumentVersionRecord, dv_supersedes v = Some version_id) (kd_versions db)).
Definition min_time (l : list time) : option time :=
  match l with [] => None | t :: l => Some (foldr Z.min t l) end.
Definition _supersession_state (version_id : UUID) (db : KnowledgeDb) :
    option UUID * option time * bool :=
  match superseders version_id db with
  | [] => (None, None, false)
  | v :: vs =>
      let times := omap (λ v : DocumentVersionRecord, dv_published_at v) (v :: vs) in
      (Some (dv_id v), min_time times,
       existsb (λ v : DocumentVersionRecord, is_none (dv_published_at v)) (v :: vs))
  end.

Definition version_snapshots (version_id : UUID) (db : KnowledgeDb) : list UUID :=
  sort_uuid (map bd_snapshot_id
    (filter (λ l, bd_document_version_id l = version_id) (kd_links db))).

Definition get_citation_row (id : UUID) (db : KnowledgeDb) : option CitationAnchor :=
  find (λ c, bool_decide (car_id c = id)) (kd_citations db).

Definition paths_of_type (t : LocatorType) (sections : list DocumentSection) : list ustr :=
  sort_by ultb (map (λ s, sn_section_path (snr_section s))
    (filter (λ s, sn_locator_type (snr_section s) = t) sections)).

(** The [CitationContext] built from the joined rows. *)
Definition citation_context (citation : CitationAnchor) (version : DocumentVersionRecord)
    (run : DocumentParseRun) (text : ustr) (content : string) (metadata : BlobMetadata)
    (db : KnowledgeDb) : CitationContext :=
  let pages := run_pages (pr_id run) db in
  let sections := run_sections (pr_id run) db in
  let '(superseder, superseded_at, unknown) := _supersession_state (dv_id version) db in
  let chunk := match ca_chunk_id (car_draft citation) with
               | Some id => find (λ c, bool_decide (ckr_id c = id)) (kd_chunks db)
               | None => None
               end in
  mkCitationContext (mkAnchor (car_draft citation) (car_id citation) (car_created_at citation)) version
    text content (content_type metadata) (checksum_sha256 metadata) (size_bytes metadata) None
    (version_snapshots (dv_id version) db) superseder superseded_at unknown
    (sort_by Z.ltb (map (λ p, pg_page_number (pgr_page p)) pages))
    (map (λ p, (pg_page_number (pgr_page p), pg_text (pgr_page p))) pages)
    (sort_uuid (map snr_id sections))
    (list_to_map (map (λ s, (snr_id s, sn_section_path (snr_section s))) sections))
    (list_to_map (map (λ s, (snr_id s,
       (sn_start_offset (snr_section s), sn_end_offset (snr_section s)))) sections))
    (paths_of_type Loc.HTML_ANCHOR_RANGE sections) (paths_of_type Loc.JSON_POINTER sections)
    ((λ c, ck_text (ckr_draft c)) <$> chunk) (pr_parser_version run) (pr_sanitizer_version run).

Section Read.
Context `{BlobStorage}.

(** [get_citation_context] with a blob storage: [None] where a joined row or the
    blob is missing. *)
Definition get_citation_context (citation_id : UUID) (db : KnowledgeDb) : res (option CitationContext) :=
  match get_citation_row citation_id db with
  | None => Ok None
  | Some citation =>
      match get_document_version (ca_document_version_id (car_draft citation)) db,
            get_run (ca_parse_run_id (car_draft citation)) db with
      | Some version, Some run =>
          match pr_canonical_text run with
          | None => Ok None
          | Some text =>
              stored ← catch_blob (metadata ← blob_metadata (dv_storage_uri version);
                                   content ← blob_get (dv_storage_uri version);
                                   Ok (metadata, content));
              match stored with
              | None => Ok None
              | Some (metadata, content) =>
                  Some <$> validated (λ c, CitationAnchorDraft_valid (ca_draft (cx_citation c))
                                           && Checksum_ok (cx_blob_checksum c) && (0 <=? cx_blob_size c))
                    (citation_context citation version run text content metadata db)
              end
          end
      | _, _ => Ok None
      end
  end.

(** [verify_citation]: the status and warnings it reports. *)
Definition verify_citation (citation_id : UUID) (snapshot_id : option UUID) (as_of : option time)
    (strict_historical : bool) (db : KnowledgeDb) : res (option CitationVerification) :=
  match get_citation_row citation_id db with
  | None => Ok None
  | Some _ =>
      scope ← validated CitationScope_valid (mkCitationScope as_of strict_historical snapshot_id None);
      context ← get_citation_context citation_id db;
      Some <$> verify context citation_id scope
  end.
End Read.
