(* ===== verification/Citable.v ===== *)
(** Every chunk of an ingested document carries a citation that verifies: the
    composition of the parsers, the parse run, the chunker, the citation
    anchors and the verifier. *)
From S2P Require Import Prelude PyDecimal PyText Sha256 AgentModel Text DocModel Session Chunking.
From S2P Require Import Citations Knowledge Parsers Ingest.
From Stdlib Require Import Sorted.

(** * Where the chunks of a document lie *)

Lemma sorted_bounds ranges : ∀ a z, head ranges = Some a → last ranges = Some z →
  Sorted follows ranges → ∀ r, r ∈ ranges → rg_start a ≤ rg_start r ∧ rg_end r ≤ rg_end z.
Proof.
  induction ranges as [|x ranges IH]; intros a z Ha Hz Hs r Hr; [done|]. injection Ha as <-.
  destruct ranges as [|y ranges].
  - injection Hz as <-. apply list_elem_of_singleton in Hr as ->. lia.
  - apply Sorted_inv in Hs as [Hs Hx]. apply HdRel_inv in Hx as (? & ? & ?).
    apply elem_of_cons in Hr as [->|Hr].
    + destruct (IH y z eq_refl Hz Hs y) as [_ ?]; [left|lia].
    + destruct (IH y z eq_refl Hz Hs r Hr). lia.
Qed.

Lemma tiling_bounds config n ranges r : tiling config n ranges → r ∈ ranges →
  0 ≤ rg_start r ∧ rg_end r ≤ n.
Proof.
  intros [[_ ->]|(_ & (a & Ha & Ha0) & (z & Hz & Hzn) & Hs & _)] Hr.
  - apply list_elem_of_singleton in Hr as ->. cbn. lia.
  - destruct (sorted_bounds _ a z Ha Hz Hs r Hr). lia.
Qed.

(** The draft is the exact text of a non-empty range within bounds. *)
Definition cut_from (text : ustr) (lo hi : Z) (draft : DocumentChunkDraft) : Prop :=
  ∃ a b, ck_start_offset draft = Some a ∧ ck_end_offset draft = Some b ∧
    lo ≤ a < b ∧ b ≤ hi ∧ ck_text draft = slice text a b.

(** The draft has the locator of a segment and is cut from it. *)
Definition from_segment (d : ParsedDocument) (draft : DocumentChunkDraft) (s : _Segment) : Prop :=
  ck_locator_type draft = sg_locator_type s ∧ ck_section_path draft = sg_section_path s ∧
  ck_html_anchor draft = sg_html_anchor s ∧ ck_json_pointer draft = sg_json_pointer s ∧
  ck_start_page draft = sg_start_page s ∧ ck_end_page draft = sg_end_page s ∧
  cut_from (pd_canonical_text d) (sg_start s) (sg_end s) draft.

Definition segment_ok (s : _Segment) : Prop := 0 ≤ sg_start s ≤ sg_end s.

Lemma slice_length_le {A} (t : list A) a b : 0 ≤ a ≤ b → Z.of_nat (length (slice t a b)) ≤ b - a.
Proof.
  intros Hab. unfold slice, slice_bound. rewrite length_take, length_drop.
  destruct (Z.ltb_spec a 0), (Z.ltb_spec b 0); lia.
Qed.

Section Chunks.
Context `{UnicodeData}.

Lemma make_chunk_from d config index s r draft :
  segment_ok s → 0 ≤ rg_start r → rg_end r ≤ ulen (segment_text d s) →
  make_chunk d config index s r = Ok draft → from_segment d draft s.
Proof.
  intros Hs Hlo Hhi Hm. apply validated_Ok in Hm as [-> Hv].
  pose proof (draft_range _ _ _ Hv eq_refl eq_refl) as Hr. clear Hv.
  pose proof (slice_length_le (pd_canonical_text d) _ _ Hs) as Hle.
  unfold segment_text, ulen in Hhi.
  split_and!; try reflexivity. eexists _, _. split_and!; [reflexivity..|lia|lia|lia|reflexivity].
Qed.

Lemma chunks_from d config cuts drafts : Forall segment_ok (_segments d) →
  tiled d config cuts → chunks_of d config cuts = Ok drafts →
  Forall (λ draft, ∃ s, s ∈ _segments d ∧ from_segment d draft s) drafts.
Proof.
  intros Hok Ht Hc. apply res_map_Ok in Hc. apply Forall_forall. intros draft Hd.
  destruct (Forall2_elem_r _ _ _ _ Hc Hd) as ([index [s r]] & Hw & Hm). cbn in Hm.
  assert (Hsr : (s, r) ∈ windows_of (_segments d) cuts).
  { unfold indexed in Hw. apply elem_of_lookup_zip_with in Hw as (i & z & w & [= -> ->] & _ & Hw).
    by eapply list_elem_of_lookup_2. }
  clear Hw Hc Hd. unfold windows_of in Hsr.
  apply list_elem_of_In, in_concat in Hsr as (ws & Hws & Hsr).
  apply list_elem_of_In, elem_of_lookup_zip_with in Hws as (i & s' & ranges & -> & Hs' & Hranges).
  apply in_map_iff in Hsr as (r' & [= -> ->] & Hr%list_elem_of_In).
  destruct (Forall2_lookup_lr _ _ _ _ _ _ Ht Hs' Hranges) as [Htile _].
  assert (Hin : s ∈ _segments d) by (by eapply list_elem_of_lookup_2).
  exists s. split; [done|]. destruct (tiling_bounds _ _ _ _ Htile Hr).
  eapply make_chunk_from; [|done|done|exact Hm]. rewrite Forall_forall in Hok. by apply Hok.
Qed.
End Chunks.

(** ** The segments of a located document *)

Lemma page_segments_spec pages : ∀ cursor s, 0 ≤ cursor → s ∈ page_segments cursor pages →
  ∃ k p, pages !! k = Some p ∧ sg_locator_type s = Loc.PDF_PAGE_RANGE ∧
    sg_section_path s = None ∧ sg_html_anchor s = None ∧ sg_json_pointer s = None ∧
    sg_start_page s = Some (pg_page_number p) ∧ sg_end_page s = Some (pg_page_number p) ∧
    0 ≤ sg_start s ≤ sg_end s ∧
    spans_from cursor (map (λ p, (pg_page_number p, pg_text p)) pages) !! k =
      Some (pg_page_number p, (sg_start s, sg_end s)).
Proof.
  induction pages as [|p pages IH]; intros cursor s Hc Hs; cbn in Hs; [by apply elem_of_nil in Hs|].
  assert (0 ≤ ulen (pg_text p)) by (unfold ulen; lia).
  apply elem_of_app in Hs as [Hs|Hs].
  - destruct (cursor <? cursor + ulen (pg_text p)); [|by apply elem_of_nil in Hs].
    apply list_elem_of_singleton in Hs as ->. exists 0%nat, p. cbn. split_and!; done || lia.
  - destruct (IH (cursor + ulen (pg_text p) + 3) s) as (k & p' & ? & Hrest); [lia|done|].
    exists (S k), p'. split; [done|]. exact Hrest.
Qed.

Lemma section_segment_spec s seg : section_segment s = Some seg →
  ∃ a b, sn_start_offset s = Some a ∧ sn_end_offset s = Some b ∧ a < b ∧
    sg_start seg = a ∧ sg_end seg = b ∧ sg_locator_type seg = sn_locator_type s ∧
    sg_section_path seg = Some (sn_section_path s) ∧
    sg_html_anchor seg = (if bool_decide (sn_locator_type s = Loc.HTML_ANCHOR_RANGE)
                          then Some (sn_section_path s) else None) ∧
    sg_json_pointer seg = (if bool_decide (sn_locator_type s = Loc.JSON_POINTER)
                           then Some (sn_section_path s) else None) ∧
    sg_start_page seg = sn_start_page s ∧ sg_end_page seg = sn_end_page s.
Proof.
  unfold section_segment. destruct (sn_start_offset s) as [a|], (sn_end_offset s) as [b|]; try done.
  destruct (Z.ltb_spec a b); [|done]. intros [= <-]. exists a, b. by split_and!.
Qed.

Lemma located_segments d : located d → Forall segment_ok (_segments d).
Proof.
  intros Hl. apply Forall_forall. intros s Hs. unfold _segments in Hs. unfold segment_ok.
  destruct (pd_pages d) as [|p pages] eqn:Ep.
  - destruct (pd_sections d) as [|x sections] eqn:Es.
    + apply list_elem_of_singleton in Hs as ->. unfold ulen. cbn. lia.
    + apply list_elem_of_omap in Hs as (x' & Hx & Hseg).
      destruct (section_segment_spec _ _ Hseg) as (a & b & Ha & Hb & Hab & -> & -> & _).
      pose proof (loc_sections d Hl) as Hall. rewrite Es, Forall_forall in Hall.
      destruct (Hall x' Hx) as (a' & b' & Ha' & Hb' & ? & _). rewrite Ha in Ha'. injection Ha' as ->.
      lia.
  - apply page_segments_spec in Hs as (_ & _ & _ & _ & _ & _ & _ & _ & _ & ? & _); [done|lia].
Qed.

(** * Lookups by key *)

Lemma find_by_key {A K} `{EqDecision K} (key : A → K) l x : NoDup (map key l) → x ∈ l →
  find (λ y, bool_decide (key y = key x)) l = Some x.
Proof.
  induction l as [|y l IH]; cbn; intros Hn Hx; [by apply elem_of_nil in Hx|].
  apply NoDup_cons in Hn as [Hy Hn]. apply elem_of_cons in Hx as [->|Hx].
  - by rewrite bool_decide_eq_true_2.
  - rewrite bool_decide_eq_false_2; [by apply IH|]. intros E. apply Hy. rewrite E.
    by apply list_elem_of_fmap_2.
Qed.

Lemma map_lookup_key {A K B} `{Countable K} (key : A → K) (f : A → B) l x :
  NoDup (map key l) → x ∈ l →
  (list_to_map (map (λ y, (key y, f y)) l) : gmap K B) !! key x = Some (f x).
Proof.
  intros Hn Hx. apply elem_of_list_to_map.
  - assert (E : (map (λ y, (key y, f y)) l).*1 = map key l)
      by (clear; induction l as [|y l IH]; cbn; [done|]; by rewrite IH).
    by rewrite E.
  - apply (list_elem_of_fmap_2 (λ y, (key y, f y))). done.
Qed.

Lemma Forall2_impl_l {A B} (R S : A → B → Prop) l k : Forall2 R l k →
  (∀ x y, x ∈ l → R x y → S x y) → Forall2 S l k.
Proof.
  induction 1 as [|x y l k Hxy _ IH]; intros Hi; constructor.
  - by apply Hi; [left|].
  - apply IH. intros x' y' Hx. by apply Hi; right.
Qed.

Lemma ucontains_refl t : ucontains t t = true.
Proof.
  assert (H : ustarts t t = true).
  { unfold ustarts. rewrite firstn_all. by apply bool_decide_eq_true_2. }
  destruct t; cbn [ucontains]; by rewrite H.
Qed.

(** Pages in the order of their numbers are their own sorted list. *)
Lemma seqZ_sorted (l : list (Z * ustr)) : ∀ k, map fst l = seqZ k (Z.of_nat (length l)) →
  StronglySorted (not_after (λ a b, a.1 <? b.1)) l ∧ ∀ x, x ∈ l → k ≤ x.1.
Proof.
  induction l as [|[n t] l IH]; intros k H; [split; [constructor|by intros x ?%elem_of_nil]|].
  cbn [map length] in H. rewrite seqZ_cons in H by lia.
  rewrite Nat2Z.inj_succ, Z.pred_succ in H. injection H as Hn H. cbn in Hn. subst n.
  destruct (IH _ H) as [Hs Hk]. split.
  - constructor; [done|]. apply Forall_forall. intros x Hx. unfold not_after. cbn.
    apply Z.ltb_ge. specialize (Hk x Hx). lia.
  - intros x [->|Hx]%elem_of_cons; [cbn; lia|]. specialize (Hk x Hx). lia.
Qed.

Lemma sorted_pages_id l : map fst l = seqZ 1 (Z.of_nat (length l)) → sorted_pages l = l.
Proof. intros H. apply sort_by_id. by destruct (seqZ_sorted l 1 H). Qed.

Lemma spans_numbers l : ∀ c, map fst (spans_from c l) = map fst l.
Proof. induction l as [|[n t] l IH]; intros c; cbn; [done|]. by rewrite IH. Qed.

Lemma span_of_lookup spans k n se : NoDup (map fst spans) → spans !! k = Some (n, se) →
  span_of spans n = Some se.
Proof.
  intros Hn Hk. unfold span_of. apply list_elem_of_lookup_2 in Hk.
  assert (E : find (λ kv, kv.1 =? n) spans = Some (n, se)).
  { rewrite <- (find_by_key fst spans (n, se) Hn Hk). cbn. clear.
    induction spans as [|x l IH]; cbn; [done|]. rewrite IH.
    destruct (Z.eqb_spec x.1 n); [by rewrite bool_decide_eq_true_2|by rewrite bool_decide_eq_false_2]. }
  by rewrite E.
Qed.

(** * One citation verifies *)

(** The rows of a parse run hold the document it parsed. *)
Record holds (db : KnowledgeDb) (run : DocumentParseRun) (version : DocumentVersionRecord)
    (d : ParsedDocument) : Prop := mkHolds {
  ho_run : get_run (pr_id run) db = Some run;
  ho_version : get_document_version (dv_id version) db = Some version;
  ho_text : pr_canonical_text run = Some (pd_canonical_text d);
  ho_checksum : pr_canonical_text_checksum run = Some (pd_canonical_text_checksum d);
  ho_pages : map pgr_page (run_pages (pr_id run) db) = pd_pages d;
  ho_sections : map snr_section (run_sections (pr_id run) db) ≡ₚ pd_sections d;
  ho_ids : NoDup (map snr_id (run_sections (pr_id run) db));
  ho_paths : NoDup (map (λ r, sn_section_path (snr_section r)) (run_sections (pr_id run) db)) }.

(** The blob storage holds the exact bytes of the version. *)
Definition blob_stored `{BlobStorage} (version : DocumentVersionRecord) : Prop :=
  ∃ content metadata, blob_metadata (dv_storage_uri version) = Ok metadata ∧
    blob_get (dv_storage_uri version) = Ok content ∧
    sha256_hex content = dv_checksum version ∧ checksum_sha256 metadata = dv_checksum version ∧
    dv_byte_size version = Z.of_nat (String.length content) ∧
    size_bytes metadata = dv_byte_size version ∧ content_type metadata = dv_mime_type version ∧
    Checksum_ok (dv_checksum version) = true.

(** The version may be cited in a scope: it is neither withdrawn nor superseded,
    and was public at the research time or belongs to the snapshot. *)
Definition citable (version : DocumentVersionRecord) (snapshot_id : option UUID)
    (as_of : option time) (strict : bool) (db : KnowledgeDb) : Prop :=
  dv_source_version_status version ≠ SrcSt.WITHDRAWN ∧ superseders (dv_id version) db = [] ∧
  (strict = true → is_Some (dv_published_at version)) ∧
  match snapshot_id, as_of with
  | None, Some t => ∀ p, dv_published_at version = Some p → p ≤ t
  | Some s, None => s ∈ version_snapshots (dv_id version) db
  | _, _ => False
  end.

(** The page and section rows a draft is anchored at. *)
Definition page_row (pages : list DocumentPage) (draft : DocumentChunkDraft) : option UUID :=
  match ck_start_page draft, ck_end_page draft with
  | Some a, Some b =>
      if a =? b then pgr_id <$> find (λ p, pg_page_number (pgr_page p) =? a) pages else None
  | _, _ => None
  end.
Definition section_row (sections : list DocumentSection) (draft : DocumentChunkDraft) : option UUID :=
  path ← ck_section_path draft;
  snr_id <$> find (λ s, bool_decide (sn_section_path (snr_section s) = path)) sections.

#[local] Arguments span_of : simpl never.
#[local] Arguments spans_from : simpl never.

Lemma citable_same version snapshot_id as_of strict db db' :
  kd_versions db' = kd_versions db → kd_links db' = kd_links db →
  citable version snapshot_id as_of strict db → citable version snapshot_id as_of strict db'.
Proof. intros Ev El. unfold citable, superseders, version_snapshots. by rewrite Ev, El. Qed.

Section One.
Context `{BlobStorage}.
Context (db : KnowledgeDb) (run : DocumentParseRun) (version : DocumentVersionRecord)
  (d : ParsedDocument) (draft : DocumentChunkDraft) (c : CitationAnchor) (chunk_id : UUID)
  (sum : string).
Abbreviation pages := (run_pages (pr_id run) db).
Abbreviation sections := (run_sections (pr_id run) db).
Abbreviation request := (draft_request run version (pd_canonical_text_checksum d) sum
  (page_row pages draft) (section_row sections draft) chunk_id draft).
Context (Hholds : holds db run version d) (Hlocated : located d)
  (Htypes : Forall (λ s, sn_locator_type s ≠ Loc.PDF_PAGE_RANGE) (pd_sections d))
  (Hfrom : ∃ s, s ∈ _segments d ∧ from_segment d draft s)
  (Hvalid : CreateCitationRequest_valid request = true)
  (Hcreate : create_citation request = Ok (car_draft c))
  (Hrow : anchor_row_ok (car_draft c) = true).

Lemma anchor_eq : car_draft c = mkAnchorDraft request (locator_checksum request) ∧
  sha256_text (ck_text draft) = Ok sum.
Proof using All. apply create_citation_Ok in Hcreate as (-> & Hs & _). done. Qed.

(** The row of a section of the document. *)
Lemma section_row_of s : s ∈ pd_sections d → ck_section_path draft = Some (sn_section_path s) →
  ∃ r, r ∈ sections ∧ snr_section r = s ∧ section_row sections draft = Some (snr_id r).
Proof using Hholds.
  intros Hs Hpath. rewrite <- (ho_sections _ _ _ _ Hholds) in Hs.
  apply list_elem_of_fmap in Hs as (r & -> & Hr). exists r. split_and!; [done|done|].
  unfold section_row. rewrite Hpath.
  change (snr_id <$> find (λ s, bool_decide (sn_section_path (snr_section s) =
    sn_section_path (snr_section r))) sections = Some (snr_id r)).
  rewrite (find_by_key (λ r, sn_section_path (snr_section r)) sections r
    (ho_paths _ _ _ _ Hholds) Hr). done.
Qed.

Lemma numbers_eq : map (λ p, pg_page_number (pgr_page p)) pages = map pg_page_number (pd_pages d).
Proof using Hholds. rewrite <- (ho_pages _ _ _ _ Hholds), map_map. done. Qed.

Lemma texts_eq : map (λ p, (pg_page_number (pgr_page p), pg_text (pgr_page p))) pages =
  map (λ p, (pg_page_number p, pg_text p)) (pd_pages d).
Proof using Hholds. rewrite <- (ho_pages _ _ _ _ Hholds), map_map. done. Qed.

Abbreviation context_of content metadata :=
  (citation_context c version run (pd_canonical_text d) content metadata db).

(** The locator is found in the context and claims exactly the draft's text. *)
Lemma locator_found content metadata : superseders (dv_id version) db = [] →
  _locator_exists (context_of content metadata) = true ∧
  claimed_excerpt (context_of content metadata) = Some (ck_text draft).
Proof using All.
  intros Hsup. destruct anchor_eq as [Hc _].
  destruct Hfrom as (s & Hs & Ht & Hp & Hh & Hj & Hsp & Hep & a & b & Ha & Hb & Hab & Hbh & Htext).
  unfold claimed_excerpt, _locator_exists, _range_is_inside_locator, citation_context,
    _supersession_state, _page_spans. rewrite Hsup. cbn. rewrite Hc in Hrow |- *.
  unfold anchor_row_ok in Hrow. cbn in Hrow |- *.
  rewrite Ht, Ha, Hb, Hsp, Hep, Hh, Hj, <- Htext in *.
  unfold _segments in Hs. destruct (pd_pages d) as [|p0 ps] eqn:Ep.
  - destruct (pd_sections d) as [|s0 ss] eqn:Es.
    + apply list_elem_of_singleton in Hs as ->. cbn in *. unfold section_row. rewrite Hp. done.
    + apply list_elem_of_omap in Hs as (x & Hx & Hseg).
      destruct (section_segment_spec _ _ Hseg) as (a' & b' & Ha' & Hb' & Hab' & Hsa & Hsb & Hty & Hpa &
        Hha & Hja & _ & _).
      rewrite Hpa in Hp. rewrite Hty, Hha, Hja, Hsa, Hsb in *. rewrite <- Es in Hx.
      destruct (section_row_of x Hx Hp) as (r & Hr & Hrx & Hrow').
      assert (Hid : snr_id r ∈ sort_uuid (map snr_id sections)).
      { apply elem_of_sort_by. by apply list_elem_of_fmap_2. }
      assert (Hpath : (list_to_map (map (λ s, (snr_id s, sn_section_path (snr_section s))) sections)
        : gmap UUID ustr) !! snr_id r = Some (sn_section_path x)).
      { rewrite (map_lookup_key snr_id (λ s, sn_section_path (snr_section s)) sections r
          (ho_ids _ _ _ _ Hholds) Hr). by rewrite Hrx. }
      assert (Hrange : (list_to_map (map (λ s, (snr_id s, (sn_start_offset (snr_section s),
        sn_end_offset (snr_section s)))) sections) : gmap UUID (option Z * option Z)) !! snr_id r =
        Some (Some a', Some b')).
      { rewrite (map_lookup_key snr_id (λ s, (sn_start_offset (snr_section s),
          sn_end_offset (snr_section s))) sections r (ho_ids _ _ _ _ Hholds) Hr).
        by rewrite Hrx, Ha', Hb'. }
      assert (Hav : ∀ t, sn_locator_type x = t → sn_section_path x ∈ paths_of_type t sections).
      { intros t <-. apply elem_of_sort_by. apply list_elem_of_fmap. exists r. split; [by rewrite Hrx|].
        apply list_elem_of_filter. split; [by rewrite Hrx|done]. }
      rewrite Forall_forall in Htypes. rewrite <- Es in Htypes. specialize (Htypes x Hx).
      rewrite Hrow'. cbn. rewrite (bool_decide_eq_true_2 _ Hid). cbn.
      rewrite Hrange. rewrite (proj2 (Z.leb_le a' a)), (proj2 (Z.ltb_lt a b)), (proj2 (Z.leb_le b b'))
        by lia.
      destruct (sn_locator_type x) eqn:Ety; try done.
      * rewrite bool_decide_eq_true_2 by done. rewrite Hpath, bool_decide_eq_true_2 by done.
        by rewrite (bool_decide_eq_true_2 _ (Hav _ eq_refl)).
      * rewrite (bool_decide_eq_true_2 (Loc.JSON_POINTER = _)) by done.
        rewrite Hpath, bool_decide_eq_true_2 by done.
        by rewrite (bool_decide_eq_true_2 _ (Hav _ eq_refl)).
  - rewrite <- Ep in Hs.
    apply page_segments_spec in Hs as (k & p & Hk & Hty & Hpa & Hha & Hja & Hss & Hse & Hbound & Hspan);
      [|done].
    rewrite Hty, Hss, Hse, Hpa in *. unfold section_row. rewrite Hp. cbn.
    rewrite numbers_eq, texts_eq.
    assert (Hnum : map fst (map (λ p, (pg_page_number p, pg_text p)) (pd_pages d)) =
      seqZ 1 (Z.of_nat (length (pd_pages d)))).
    { rewrite map_map. cbn. rewrite <- (loc_numbers d Hlocated). done. }
    rewrite sorted_pages_id by (rewrite length_map; exact Hnum).
    rewrite (span_of_lookup _ k (pg_page_number p) (sg_start s, sg_end s)); [| |exact Hspan].
    2: { rewrite spans_numbers, Hnum. apply NoDup_seqZ. }
    rewrite (proj2 (Z.leb_le (sg_start s) a)), (proj2 (Z.ltb_lt a b)), (proj2 (Z.leb_le b (sg_end s)))
      by lia.
    split; [|done]. unfold page_range. replace (pg_page_number p + 1 - pg_page_number p) with 1 by lia.
    rewrite (seqZ_cons _ 1) by lia. cbn.
    rewrite bool_decide_eq_true_2; [done|]. apply elem_of_sort_by.
    apply list_elem_of_fmap_2. by eapply list_elem_of_lookup_2.
Qed.

Lemma anchor_verifies snapshot_id as_of strict chunk :
  blob_stored version → citable version snapshot_id as_of strict db →
  get_citation_row (car_id c) db = Some c →
  find (λ k, bool_decide (ckr_id k = chunk_id)) (kd_chunks db) = Some chunk →
  ck_text (ckr_draft chunk) = ck_text draft →
  verify_citation (car_id c) snapshot_id as_of strict db =
    Ok (Some (mkVerification CitSt.VALID (car_id c) [])).
Proof using All.
  intros (content & metadata & Hmeta & Hget & Hsha & Hms & Hsize & Hmsize & Hmime & Hck)
    (Hactive & Hsup & Hknown & Hscope) Hcite Hchunk Htext.
  destruct anchor_eq as [Hc Hsum]. destruct (locator_found content metadata Hsup) as [Hexists Hclaim].
  unfold verify_citation. rewrite Hcite.
  assert (Hsv : CitationScope_valid (mkCitationScope as_of strict snapshot_id None) = true).
  { unfold CitationScope_valid. cbn. by destruct snapshot_id, as_of. }
  unfold validated at 1. rewrite Hsv. run_res.
  unfold get_citation_context. rewrite Hcite, Hc. cbn [ca_request ca_document_version_id ca_parse_run_id
    draft_request].
  rewrite (ho_version _ _ _ _ Hholds), (ho_run _ _ _ _ Hholds), (ho_text _ _ _ _ Hholds).
  rewrite Hmeta. run_res. rewrite Hget. run_res.
  change (catch_blob (Ok (metadata, content))) with (Ok (Some (metadata, content)) : res _). run_res.
  pose proof Hcreate as Hcr. apply create_citation_Ok in Hcr as (_ & _ & _ & Hdv).
  set (cx := citation_context _ _ _ _ _ _ _) in *.
  assert (Hcx : CitationAnchorDraft_valid (ca_draft (cx_citation cx)) && Checksum_ok (cx_blob_checksum cx)
    && (0 <=? cx_blob_size cx) = true).
  { subst cx. unfold citation_context, _supersession_state. rewrite Hsup. cbn.
    rewrite Hms, Hck, Hdv, Hmsize, Hsize. cbn. apply Z.leb_le. lia. }
  unfold validated at 1. cbv beta. rewrite Hcx.
  change (Some <$> verify (Some cx) (car_id c) (mkCitationScope as_of strict snapshot_id None) =
    Ok (Some (mkVerification CitSt.VALID (car_id c) []))).
  enough (Hv : verified cx (mkCitationScope as_of strict snapshot_id None)).
  { apply (verify_valid_iff _ (car_id c)) in Hv. by rewrite Hv. }
  assert (Hcite_eq : cx_citation cx = mkAnchor (car_draft c) (car_id c) (car_created_at c)).
  { subst cx. unfold citation_context, _supersession_state. by rewrite Hsup. }
  assert (Hver_eq : cx_document_version cx = version).
  { subst cx. unfold citation_context, _supersession_state. by rewrite Hsup. }
  split; rewrite ?Hcite_eq, ?Hver_eq, ?Hc; try done.
  - apply rebuilt_matches; [exact Hvalid|]. etrans; [exact Hcreate|]. by rewrite Hc.
  - subst cx. unfold citation_context, _supersession_state. by rewrite Hsup.
  - subst cx. unfold citation_context, _supersession_state. by rewrite Hsup.
  - intros s Hs. cbn in Hs. right. subst cx. unfold citation_context, _supersession_state.
    rewrite Hsup. cbn. subst snapshot_id. by destruct as_of.
  - subst cx. unfold _superseded_for_scope, citation_context, _supersession_state. by rewrite Hsup.
  - intros t p Ht Hp. cbn in Ht. subst as_of. destruct snapshot_id; [done|]. by apply Hscope.
  - unfold _valid_blob. rewrite Hver_eq, Hmeta. run_res. rewrite Hget. run_res.
    change (catch_blob (Ok (metadata, content))) with (Ok (Some (metadata, content)) : res _).
    run_res. f_equal. cbv zeta. rewrite Hsha.
    subst cx. unfold citation_context, _supersession_state. rewrite Hsup. cbn.
    rewrite Hms, Hmsize, Hsize, Hmime, !bool_decide_eq_true_2, !Z.eqb_refl by done. done.
  - subst cx. unfold citation_context, _supersession_state. rewrite Hsup. cbn.
    apply (loc_checksum d Hlocated).
  - unfold _excerpt_matches. rewrite Hclaim, Hcite_eq, Hc. cbn.
    rewrite bool_decide_eq_true_2 by done. cbn. run_res Hsum. rewrite bool_decide_eq_true_2 by done.
    subst cx. unfold citation_context, _supersession_state. rewrite Hsup. cbn.
    rewrite Hc. cbn. rewrite Hchunk. cbn. by rewrite Htext, ucontains_refl.
Qed.
End One.

(** * The tables under ingestion *)

(** Ids still to be given are in no table, and artifacts belong to stored runs. *)
Record wf (uuid4 : nat → UUID) (db : KnowledgeDb) : Prop := mkWf {
  wf_runs : ∀ n, (kd_next db ≤ n)%nat → uuid4 n ∉ map pr_id (kd_runs db);
  wf_sections : ∀ n, (kd_next db ≤ n)%nat → uuid4 n ∉ map snr_id (kd_sections db);
  wf_chunks : ∀ n, (kd_next db ≤ n)%nat → uuid4 n ∉ map ckr_id (kd_chunks db);
  wf_citations : ∀ n, (kd_next db ≤ n)%nat → uuid4 n ∉ map car_id (kd_citations db);
  wf_page_run : ∀ p, p ∈ kd_pages db → pgr_run p ∈ map pr_id (kd_runs db);
  wf_section_run : ∀ s, s ∈ kd_sections db → snr_run s ∈ map pr_id (kd_runs db);
  wf_chunk_run : ∀ c, c ∈ kd_chunks db → ckr_run c ∈ map pr_id (kd_runs db);
  wf_section_ids : NoDup (map snr_id (kd_sections db)) }.

Lemma find_fresh {A K} `{EqDecision K} (key : A → K) l k : k ∉ map key l →
  find (λ y, bool_decide (key y = k)) l = None.
Proof.
  induction l as [|y l IH]; cbn; [done|]. intros [Hy Hl]%not_elem_of_cons.
  rewrite bool_decide_eq_false_2 by congruence. by apply IH.
Qed.

Lemma find_snoc_key {A K} `{EqDecision K} (key : A → K) l x : key x ∉ map key l →
  find (λ y, bool_decide (key y = key x)) (l ++ [x]) = Some x.
Proof. intros Hx. apply find_snoc; [by apply find_fresh|by apply bool_decide_eq_true_2]. Qed.

Lemma not_elem_snoc {A B} (f : A → B) l x k : k ∉ map f l → k ≠ f x → k ∉ map f (l ++ [x]).
Proof. rewrite map_app, elem_of_app. intros ? ? [?|E%list_elem_of_singleton]; done. Qed.

Section Fresh.
Context (uuid4 : nat → UUID) `{!Inj (=) (=) uuid4} (now : time).

Lemma uuid4_ne n m : (m < n)%nat → uuid4 n ≠ uuid4 m.
Proof using All. intros Hlt E%(inj uuid4). lia. Qed.

(** ** Chunks and anchors *)

(** Only chunk and citation rows are added. *)
Definition grows (db db' : KnowledgeDb) : Prop :=
  kd_versions db' = kd_versions db ∧ kd_links db' = kd_links db ∧ kd_runs db' = kd_runs db ∧
  kd_pages db' = kd_pages db ∧ kd_sections db' = kd_sections db ∧
  kd_chunks db `prefix_of` kd_chunks db' ∧ kd_citations db `prefix_of` kd_citations db'.
#[local] Instance grows_preorder : PreOrder grows.
Proof.
  split; [by intros db; split_and!|].
  intros a b c (?&?&?&?&?&?&?) (?&?&?&?&?&?&?). split_and!; try congruence; by etrans.
Qed.

(** The rows made for a draft: a chunk with its text and a citation of it. *)
Definition anchored (run : DocumentParseRun) (version : DocumentVersionRecord) (sum : string)
    (pages : list DocumentPage) (sections : list DocumentSection) (db : KnowledgeDb)
    (draft : DocumentChunkDraft) (id : UUID) : Prop :=
  ∃ c k excerpt_sum,
    get_citation_row (car_id c) db = Some c ∧ c ∈ kd_citations db ∧
    find (λ k, bool_decide (ckr_id k = id)) (kd_chunks db) = Some k ∧
    ck_text (ckr_draft k) = ck_text draft ∧
    let request := draft_request run version sum excerpt_sum (page_row pages draft)
                     (section_row sections draft) id draft in
    CreateCitationRequest_valid request = true ∧ create_citation request = Ok (car_draft c) ∧
    anchor_row_ok (car_draft c) = true.

Lemma add_chunk_spec run version sum pages sections draft db id db' :
  pr_id run ∈ map pr_id (kd_runs db) → wf uuid4 db →
  add_chunk uuid4 now run version sum pages sections draft db = Ok (id, db') →
  grows db db' ∧ (wf uuid4 db' ∧ pr_id run ∈ map pr_id (kd_runs db')) ∧
  anchored run version sum pages sections db' draft id.
Proof using All.
  intros Hrun Hwf H. unfold add_chunk in H. apply guard_seq in H as [_ H].
  apply bind_Ok in H as (excerpt_sum & Hsum & H). apply bind_Ok in H as (request & Hreq & H).
  apply bind_Ok in H as (citation & Hc & H). apply guard_seq in H as [Hrow H]. injection H as <- <-.
  apply validated_Ok in Hreq as [-> Hvalid]. apply orb_false_iff in Hrow as [Hrow%negb_false_iff _].
  destruct Hwf as [W1 W2 W3 W4 W5 W6 W7 W8]. split; [|split; [split|]].
  - split_and!; try done; cbn; by eexists.
  - split; cbn.
    + intros n Hn. apply W1. lia.
    + intros n Hn. apply W2. lia.
    + intros n Hn. apply not_elem_snoc; [apply W3; lia|]. cbn. apply uuid4_ne. lia.
    + intros n Hn. apply not_elem_snoc; [apply W4; lia|]. cbn. apply uuid4_ne. lia.
    + exact W5.
    + exact W6.
    + intros c [Hc'|E%list_elem_of_singleton]%elem_of_app; [by apply W7|by subst c].
    + exact W8.
  - done.
  - set (c := mkAnchorRow _ citation _ now). set (k := mkChunkRow _ _ _ _).
    exists c, k, excerpt_sum. split_and!.
    + unfold get_citation_row. cbn [kd_citations with_citations with_chunks].
      apply (find_snoc_key car_id). apply W4. cbn. lia.
    + cbn. apply elem_of_app. right. by left.
    + cbn [kd_chunks with_citations with_chunks]. apply (find_snoc_key ckr_id (kd_chunks db) k).
      apply W3. lia.
    + done.
    + split; [exact Hvalid|]. split; [exact Hc|exact Hrow].
Qed.

Lemma anchored_grows run version sum pages sections db db' draft id : grows db db' →
  anchored run version sum pages sections db draft id →
  anchored run version sum pages sections db' draft id.
Proof using All.
  intros (_ & _ & _ & _ & _ & Hk & Hc) (c & k & es & H1 & H2 & H3 & H4 & H5).
  exists c, k, es. split_and!; [by eapply find_prefix| |by eapply find_prefix|done|exact H5].
  by apply (elem_of_prefix _ _ _ H2 Hc).
Qed.

Lemma add_chunks_spec run version sum drafts db ids db' :
  pr_id run ∈ map pr_id (kd_runs db) → wf uuid4 db →
  sess_map (add_chunk uuid4 now run version sum (run_pages (pr_id run) db)
    (run_sections (pr_id run) db)) drafts db = Ok (ids, db') →
  grows db db' ∧ wf uuid4 db' ∧ Forall2 (anchored run version sum (run_pages (pr_id run) db)
    (run_sections (pr_id run) db) db') drafts ids.
Proof using All.
  intros Hrun Hwf H.
  destruct (sess_map_inv grows (add_chunk uuid4 now run version sum (run_pages (pr_id run) db)
    (run_sections (pr_id run) db)) (λ db, wf uuid4 db ∧ pr_id run ∈ map pr_id (kd_runs db))
    (λ _ _, True) (anchored run version sum (run_pages (pr_id run) db) (run_sections (pr_id run) db))
    drafts) with (db := db) (ys := ids) (db' := db') as (Hg & [Hwf' _] & Hall).
  - done.
  - intros. by eapply anchored_grows.
  - intros x db1 y db2 [Hwf1 Hrun1] _ Hx. by apply add_chunk_spec.
  - done.
  - by apply Forall_true.
  - done.
  - done.
Qed.

Lemma holds_grows db db' run version d : grows db db' → holds db run version d →
  holds db' run version d.
Proof using All.
  intros (Ev & El & Er & Ep & Es & _) [H1 H2 H3 H4 H5 H6 H7 H8].
  split; unfold get_run, get_document_version, run_pages, run_sections in *;
    rewrite ?Ev, ?Er, ?Ep, ?Es; assumption.
Qed.
End Fresh.

(** ** Parse runs *)

(** Only the artifacts of a run are added. *)
Definition adds_artifacts (uuid4 : nat → UUID) (run_id : UUID) (pages : list ParsedPage)
    (sections : list ParsedSection) (db db' : KnowledgeDb) : Prop :=
  kd_versions db' = kd_versions db ∧ kd_links db' = kd_links db ∧ kd_runs db' = kd_runs db ∧
  kd_chunks db' = kd_chunks db ∧ kd_citations db' = kd_citations db ∧ (kd_next db ≤ kd_next db')%nat ∧
  (∃ rows, kd_pages db' = kd_pages db ++ rows ∧ map pgr_page rows = pages ∧
     Forall (λ r, pgr_run r = run_id) rows) ∧
  (∃ rows, kd_sections db' = kd_sections db ++ rows ∧ map snr_section rows = sections ∧
     Forall (λ r, snr_run r = run_id) rows ∧
     Forall (λ r, ∃ n, (kd_next db ≤ n < kd_next db')%nat ∧ snr_id r = uuid4 n) rows ∧
     NoDup (map snr_id rows) ∧
     NoDup (map (λ r, sn_section_path (snr_section r)) rows) ∧
     Forall (λ r, ∀ r', r' ∈ run_sections run_id db →
        sn_section_path (snr_section r') ≠ sn_section_path (snr_section r)) rows).

Section Artifacts.
Context (uuid4 : nat → UUID) `{!Inj (=) (=) uuid4} (now : time).

Lemma add_pages_spec run_id l : ∀ db u db', add_pages uuid4 run_id l db = Ok (u, db') →
  adds_artifacts uuid4 run_id l [] db db'.
Proof using All.
  induction l as [|p l IH]; intros db u db' H.
  { injection H as <- <-. split_and!; try done; exists []; rewrite app_nil_r; split_and!;
      done || constructor. }
  cbn in H. apply sess_bind_Ok in H as ([] & db1 & Hp & H). apply IH in H.
  unfold add_page in Hp. apply guard_seq in Hp as [_ Hp]. injection Hp as <-.
  destruct H as (H1 & H2 & H3 & H4 & H5 & H6 & (rows & Hr & Hm & Ha) & (srows & Hs & Hms & _)).
  cbn in *. apply map_eq_nil in Hms as ->.
  split_and!; try done; [lia| |exists []; rewrite app_nil_r in *; split_and!; done || constructor].
  eexists (_ :: rows). split_and!; [rewrite Hr, <- app_assoc; done|by cbn; rewrite Hm|by constructor].
Qed.

Lemma add_sections_spec run_id l : ∀ ids db u db', add_sections uuid4 run_id ids l db = Ok (u, db') →
  adds_artifacts uuid4 run_id [] l db db'.
Proof using All.
  induction l as [|s l IH]; intros ids db u db' H.
  { injection H as <- <-. split_and!; try done; exists []; rewrite app_nil_r; split_and!;
      done || constructor. }
  cbn in H. apply sess_bind_Ok in H as (ids' & db1 & Hs & H). apply IH in H.
  unfold add_section in Hs. apply bind_Ok in Hs as (parent & _ & Hs).
  apply guard_seq in Hs as [Hok Hs]. injection Hs as <- <-.
  destruct H as (H1 & H2 & H3 & H4 & H5 & H6 & (prows & Hp & Hmp & _) &
    (rows & Hr & Hm & Hrun & Hids & Hnd & Hpaths & Hfresh)).
  set (row := mkSectionRow (uuid4 (kd_next db)) run_id parent s) in *.
  apply orb_false_iff in Hok as [_ Hdup].
  assert (Hrs : run_sections run_id
      (with_sections db (kd_sections db ++ [row])) = run_sections run_id db ++ [row]).
  { unfold run_sections. cbn. rewrite filter_app, filter_cons_True by done. done. }
  rewrite Hrs in Hfresh. rewrite Forall_forall in Hfresh, Hids. clear Hrs.
  cbn [with_sections kd_versions kd_links kd_runs kd_pages kd_sections kd_chunks kd_citations kd_next]
    in H1, H2, H3, H4, H5, H6, Hp, Hr, Hids.
  apply map_eq_nil in Hmp as ->. rewrite app_nil_r in Hp.
  split_and!; try done; [lia|exists []; rewrite app_nil_r; split_and!; done || constructor|].
  exists (row :: rows). split_and!.
  - by rewrite Hr, <- app_assoc.
  - cbn. by rewrite Hm.
  - by constructor.
  - constructor; [exists (kd_next db); split; [lia|done]|]. apply Forall_forall. intros r Hin.
    destruct (Hids r Hin) as (n & ? & ?). exists n. split; [lia|done].
  - cbn. constructor; [|done]. intros (r & Er & Hin)%list_elem_of_fmap.
    destruct (Hids r Hin) as (n & ? & En). rewrite En in Er. apply (inj uuid4) in Er. lia.
  - cbn. constructor; [|done]. intros (r & Er & Hin)%list_elem_of_fmap.
    apply (Hfresh r Hin row); [apply elem_of_app; right; by left|exact Er].
  - constructor.
    + intros r' Hr' E. rewrite <- not_true_iff_false in Hdup. apply Hdup. apply existsb_exists.
      exists r'. split; [by apply list_elem_of_In|by apply bool_decide_eq_true_2].
    + apply Forall_forall. intros r Hin r' Hr'. apply (Hfresh r Hin). apply elem_of_app. by left.
Qed.

(** Updating a run keeps its id. *)
Lemma get_run_update id id' f db : (∀ r, pr_id (f r) = pr_id r) →
  get_run id (update_run id' f db) =
  (λ r, if bool_decide (pr_id r = id') then f r else r) <$> get_run id db.
Proof.
  intros Hf. unfold get_run, update_run. cbn. induction (kd_runs db) as [|r l IH]; cbn; [done|].
  assert (E : pr_id (if bool_decide (pr_id r = id') then f r else r) = pr_id r)
    by (case_bool_decide; [apply Hf|done]).
  rewrite E. by destruct (bool_decide (pr_id r = id)).
Qed.

Lemma run_ids_update id f db : (∀ r, pr_id (f r) = pr_id r) →
  map pr_id (kd_runs (update_run id f db)) = map pr_id (kd_runs db).
Proof.
  intros Hf. cbn. rewrite map_map. apply map_ext. intros r. case_bool_decide; [apply Hf|done].
Qed.

Lemma run_artifacts_new {A} (run_of : A → UUID) (id : UUID) (runs : list UUID) (l rows : list A) : id ∉ runs →
  (∀ x, x ∈ l → run_of x ∈ runs) → Forall (λ r, run_of r = id) rows →
  filter (λ x, run_of x = id) (l ++ rows) = rows.
Proof.
  intros Hid Hl Hrows. rewrite filter_app, list_filter_none, (list_filter_all _ rows); [done| |].
  - intros x Hx. by rewrite Forall_forall in Hrows; apply Hrows.
  - apply Forall_forall. intros x Hx <-. by apply Hid, Hl.
Qed.

(** *** The tables stay well formed *)

Lemma wf_run_added row db : pr_id row = uuid4 (kd_next db) → wf uuid4 db →
  wf uuid4 (with_runs db (kd_runs db ++ [row]) (S (kd_next db))).
Proof using All.
  intros Hid [W1 W2 W3 W4 W5 W6 W7 W8].
  split; cbn [with_runs kd_runs kd_sections kd_chunks kd_citations kd_pages kd_next];
    try (intros n Hn; (apply W2 || apply W3 || apply W4); lia).
  - intros n Hn. apply not_elem_snoc; [apply W1; lia|]. rewrite Hid. intros E%(inj uuid4). lia.
  - intros p Hp. rewrite map_app. apply elem_of_app. left. by apply W5.
  - intros p Hp. rewrite map_app. apply elem_of_app. left. by apply W6.
  - intros p Hp. rewrite map_app. apply elem_of_app. left. by apply W7.
  - exact W8.
Qed.

Lemma wf_update_run id f db : (∀ r, pr_id (f r) = pr_id r) → wf uuid4 db →
  wf uuid4 (update_run id f db).
Proof using All.
  intros Hf [W1 W2 W3 W4 W5 W6 W7 W8].
  split; rewrite ?run_ids_update by done; assumption.
Qed.

Lemma wf_artifacts id pages sections db db' : adds_artifacts uuid4 id pages sections db db' →
  id ∈ map pr_id (kd_runs db) → wf uuid4 db → wf uuid4 db'.
Proof using All.
  intros (_ & _ & Er & Ek & Ec & En & (prows & Ep & _ & Hp) &
    (srows & Es & _ & Hs & Hid & Hnd & _)) Hin [W1 W2 W3 W4 W5 W6 W7 W8].
  rewrite Forall_forall in Hp. rewrite Forall_forall in Hs, Hid.
  split; rewrite ?Er, ?Ek, ?Ec, ?Ep, ?Es; try (intros n Hn; (apply W1 || apply W3 || apply W4); lia).
  - intros n Hn. rewrite map_app. apply not_elem_of_app. split; [apply W2; lia|].
    intros (s & E & Hx)%list_elem_of_fmap. destruct (Hid s Hx) as (m & ? & Em).
    rewrite Em in E. apply (inj uuid4) in E. lia.
  - intros p [Hx|Hx]%elem_of_app; [by apply W5|]. by rewrite (Hp p Hx).
  - intros s [Hx|Hx]%elem_of_app; [by apply W6|]. by rewrite (Hs s Hx).
  - exact W7.
  - rewrite map_app. apply NoDup_app. split_and!; [done| |done].
    intros x Hx (s & -> & Hy)%list_elem_of_fmap. destruct (Hid s Hy) as (m & ? & Em).
    rewrite Em in Hx. by apply (W2 m); [lia|].
Qed.

(** *** The steps of a fresh parse *)

Lemma adds_artifacts_trans id pages sections a b c :
  adds_artifacts uuid4 id pages [] a b → adds_artifacts uuid4 id [] sections b c →
  adds_artifacts uuid4 id pages sections a c.
Proof using All.
  intros (A1 & A2 & A3 & A4 & A5 & A6 & (prows & Ap & Apm & Apr) & (? & As & Asm & _))
    (B1 & B2 & B3 & B4 & B5 & B6 & (? & Bp & Bpm & _) & (srows & Bs & Bsm & Bsr & Bid & Bnd & Bpath & Bf)).
  apply map_eq_nil in Asm as ->, Bpm as ->. rewrite app_nil_r in As, Bp.
  split_and!; try congruence; [lia|exists prows; split_and!; congruence|].
  exists srows. rewrite As in Bs. split_and!; try done.
  - apply Forall_forall. intros r Hr. rewrite Forall_forall in Bid.
    destruct (Bid r Hr) as (n & ? & ?). exists n. split; [lia|done].
  - unfold run_sections in *. by rewrite As in Bf.
Qed.

Lemma artifacts_written id row d db u db' : get_run id db = Some row →
  replace_running_artifacts uuid4 id d db = Ok (u, db') →
  adds_artifacts uuid4 id (pd_pages d) (sort_by section_ltb (pd_sections d))
    (update_run id (set_text (pd_canonical_text d)) db) db'.
Proof using All.
  intros Hget H. unfold replace_running_artifacts in H. rewrite Hget in H.
  apply guard_seq in H as [_ H]. apply guard_seq in H as [_ H].
  apply sess_bind_Ok in H as (u1 & db1 & Hpages & Hsections).
  eapply adds_artifacts_trans; [by eapply add_pages_spec|by eapply add_sections_spec].
Qed.

Lemma parse_fresh {Storage : BlobStorage} registry version_id config db r db1 rr d :
  parse uuid4 now registry version_id config db = Ok (r, db1) →
  ps_reused r = false → ps_run r = Some rr → ps_document r = Some d →
  ∃ version parser content row u db2,
    get_document_version version_id db = Some version ∧
    registry (dv_mime_type version) = Some parser ∧
    blob_get (dv_storage_uri version) = Ok content ∧ parser_parse parser content config = Ok d ∧
    pr_id row = uuid4 (kd_next db) ∧
    replace_running_artifacts uuid4 (pr_id row) d
      (with_runs db (kd_runs db ++ [row]) (S (kd_next db))) = Ok (u, db2) ∧
    finish_parse_run now (pr_id row) (pd_status d) (Some (pd_canonical_text_checksum d))
      (pd_warnings d) db2 = Ok (rr, db1).
Proof using All.
  intros H Hreused Hrr Hd. unfold parse in H.
  destruct (get_document_version version_id db) as [version|] eqn:Ev;
    [|injection H as <- <-; discriminate Hrr].
  destruct (registry (dv_mime_type version)) as [parser|] eqn:Ep;
    [|injection H as <- <-; discriminate Hrr].
  destruct (find_parse_run _ _ _ _ _ db) as [existing|] eqn:Ef.
  { unfold reuse_run in H. destruct (bool_decide _).
    - injection H as <- <-. discriminate Hreused.
    - apply bind_Ok in H as (document & _ & H). injection H as <- <-. discriminate Hreused. }
  apply bind_Ok in H as (stored & Hst & H).
  destruct stored as [content|]; [|injection H as <- <-; discriminate Hrr].
  unfold catch_blob in Hst.
  destruct (blob_get _) as [c|e] eqn:Hblob; [injection Hst as ->|by destruct (exn_class e)].
  apply sess_bind_Ok in H as (acquired & db2 & Ha & H).
  unfold acquire_parse_run in Ha. rewrite Ef in Ha. injection Ha as <- <-.
  cbn [fst snd negb rr_id _parse_run_record] in H.
  unfold run_parser in H. apply sess_bind_Ok in H as (parsed & db3 & Hparse & H).
  apply sess_lift_Ok in Hparse as [Hparse ->].
  apply sess_bind_Ok in H as (u & db4 & Hart & H).
  apply sess_bind_Ok in H as (u' & db5 & Hst' & H). apply sess_lift_Ok in Hst' as [_ ->].
  apply sess_bind_Ok in H as (terminal & db6 & Hfin & H). injection H as <- <-.
  injection Hrr as <-. injection Hd as ->.
  exists version, parser, content. eexists _, u, db4.
  split_and!; [done..| |exact Hart|exact Hfin]. done.
Qed.

(** A run finishes with the text, the status and the checksum it is given. *)
Lemma run_finished id status sum warnings db rr db' run :
  get_run id db = Some run → finish_parse_run now id status (Some sum) warnings db = Ok (rr, db') →
  db' = update_run id (set_completion status (Some sum) warnings now) db ∧ rr_id rr = pr_id run.
Proof using All.
  intros Hget H. unfold finish_parse_run in H. rewrite Hget in H.
  apply guard_seq in H as [_ H]. by injection H as <- <-.
Qed.

(** A fresh parse leaves a completed run that holds the document. *)
Lemma parse_holds {Storage : BlobStorage} registry version_id config db r db1 rr d :
  wf uuid4 db → parse uuid4 now registry version_id config db = Ok (r, db1) →
  ps_reused r = false → ps_run r = Some rr → ps_document r = Some d →
  ∃ version run parser content,
    get_document_version version_id db = Some version ∧
    registry (dv_mime_type version) = Some parser ∧
    blob_get (dv_storage_uri version) = Ok content ∧ parser_parse parser content config = Ok d ∧
    holds db1 run version d ∧ pr_id run = rr_id rr ∧ is_Some (pr_completed_at run) ∧
    run_chunks (pr_id run) db1 = [] ∧ wf uuid4 db1 ∧ pr_id run ∈ map pr_id (kd_runs db1) ∧
    kd_versions db1 = kd_versions db ∧ kd_links db1 = kd_links db.
Proof using All.
  intros Hwf H Hreused Hrr Hd.
  destruct (parse_fresh _ _ _ _ _ _ _ _ H Hreused Hrr Hd) as
    (version & parser & content & row & u & db4 & Ev & Ep & Hblob & Hparse & Hrow & Hart & Hfin).
  assert (Hnew : pr_id row ∉ map pr_id (kd_runs db)) by (rewrite Hrow; apply Hwf; lia).
  apply (wf_run_added row) in Hwf as Hwf2; [|done].
  set (db2 := with_runs db (kd_runs db ++ [row]) (S (kd_next db))) in *.
  assert (Hget2 : get_run (pr_id row) db2 = Some row) by (by apply (find_snoc_key pr_id (kd_runs db) row)).
  apply (artifacts_written _ row) in Hart; [|done].
  set (f := set_text (pd_canonical_text d)) in *. set (db3 := update_run (pr_id row) f db2) in *.
  assert (Hids : map pr_id (kd_runs db3) = map pr_id (kd_runs db) ++ [pr_id row]).
  { subst db3. rewrite run_ids_update by done. subst db2. cbn. by rewrite map_app. }
  assert (Hget3 : get_run (pr_id row) db3 = Some (f row)).
  { subst db3. rewrite get_run_update, Hget2 by done. cbn. by rewrite bool_decide_eq_true_2. }
  assert (Hwf4 : wf uuid4 db4).
  { eapply wf_artifacts; [exact Hart| |by apply wf_update_run].
    rewrite Hids. apply elem_of_app. right. by left. }
  destruct Hart as (B1 & B2 & B3 & B4 & B5 & B6 & (prows & Bp & Bpm & Bpr) &
    (srows & Bs & Bsm & Bsr & Bid & Bnd & Bpath & _)).
  assert (Hget4 : get_run (pr_id row) db4 = Some (f row)) by (unfold get_run in *; by rewrite B3).
  destruct (run_finished _ _ _ _ _ _ _ _ Hget4 Hfin) as [-> Hrr_id].
  set (g := set_completion _ _ _ _). set (run := g (f row)).
  change (pr_id row) with (pr_id run) in *. change (pr_id (f row)) with (pr_id run) in Hrr_id.
  assert (Hrp : run_pages (pr_id run) (update_run (pr_id run) g db4) = prows).
  { unfold run_pages. cbn [kd_pages update_run with_runs]. rewrite Bp.
    apply (run_artifacts_new pgr_run _ (map pr_id (kd_runs db))); [done|apply Hwf|done]. }
  assert (Hrs : run_sections (pr_id run) (update_run (pr_id run) g db4) = srows).
  { unfold run_sections. cbn [kd_sections update_run with_runs]. rewrite Bs.
    apply (run_artifacts_new snr_run _ (map pr_id (kd_runs db))); [done|apply Hwf|done]. }
  exists version, run, parser, content. split_and!; try done.
  - split; rewrite ?Hrp, ?Hrs; try done.
    + rewrite get_run_update, Hget4 by done. cbn. by rewrite bool_decide_eq_true_2.
    + unfold get_document_version in *. cbn [kd_versions update_run with_runs]. rewrite B1.
      cbn [kd_versions update_run with_runs db3 db2]. apply find_elem in Ev as Hv.
      destruct Hv as [_ Hv%bool_decide_eq_true]. by rewrite Hv.
    + rewrite Bsm. apply sort_by_perm.
  - unfold run_chunks. cbn [kd_chunks update_run with_runs]. rewrite B4. apply list_filter_none. apply Forall_forall.
    intros c Hc E. apply Hnew. rewrite <- E. by apply Hwf.
  - by apply wf_update_run.
  - rewrite run_ids_update by done. rewrite B3, Hids. apply elem_of_app. right. by left.
Qed.
End Artifacts.
