(* ===== verification/DocumentCli.v ===== *)
(** The document commands (cli_documents.py) over the session: registering a
    version, parsing and chunking it, the bounded listings; and the theorem that
    a document ingested by them carries citations that verify. *)
From S2P Require Import Prelude PyDecimal PyText Sha256 AgentModel Text DocModel Session Chunking.
From S2P Require Import Citations Knowledge DocIdentity Parsers Ingest Citable.

(** * The parsers *)

(** The tokenizers of the standard library and of pypdf. *)
Class Tokenizers := {
  html_tokenize : ustr → list html_event;
  json_loads : ustr → json_result;
  pdf_open : string → option pdf_reader }.

Definition ParserRegistry := list (string * DocumentParser).
Definition _MIME_TYPES : list string := ["application/pdf"; "text/html"; "text/plain"; "application/json"].

(** [ParserRegistry.__init__] and [select] *)
Definition parser_registry (parsers : list (string * DocumentParser)) : res ParserRegistry :=
  reject_if (bool_decide (parsers = []) || existsb (λ kv, negb (bool_decide (kv.1 ∈ _MIME_TYPES))) parsers)
    ValueError "parser registry keys must be approved MIME types";;
  Ok parsers.
Definition select (registry : ParserRegistry) (mime_type : string) : option DocumentParser :=
  snd <$> find (λ kv, bool_decide (kv.1 = mime_type)) registry.

Section Commands.
Context `{UnicodeData} `{Tokenizers} `{BlobStorage}.

Definition PdfTextParser : DocumentParser := mkParser "pypdf-text-layer" "pdf-parser-v1" (pdf_parse pdf_open).
Definition SafeHtmlParser : DocumentParser := mkParser "safe-html" "html-parser-v1" (html_parse html_tokenize).
Definition PlainTextParser : DocumentParser := mkParser "plain-text" "text-parser-v1" plain_text_parse.
Definition JsonDocumentParser (approved : list ustr) : DocumentParser :=
  mkParser "approved-json" "json-parser-v1" (json_parse json_loads approved).

Definition _registry : ParserRegistry :=
  [("application/pdf", PdfTextParser); ("text/html", SafeHtmlParser); ("text/plain", PlainTextParser);
   ("application/json", JsonDocumentParser [])].

(** * Commands *)

Context (uuid4 : nat → UUID) (now : time).

(** A command prints its result and commits, or prints a BLOCKED line, exits with
    3 and its session is rolled back. *)
Inductive cli_outcome (A : Type) := Printed (a : A) | Blocked (line : string).
#[global] Arguments Printed {A} a.
#[global] Arguments Blocked {A} line.

Definition command {A} (missing failed : string) (body : knowM A) (db : KnowledgeDb) :
    cli_outcome A * KnowledgeDb :=
  match body db with
  | Ok (a, db') => (Printed a, db')
  | Raise e =>
      (Blocked (match exn_class e with
                | LookupError | KeyError | IndexError => missing
                | _ => failed
                end), db)
  end.

(** The version with the id asked for, else the latest of the security. *)
Definition _select_version (requested_id : UUID) (db : KnowledgeDb) : option DocumentVersionRecord :=
  match get_document_version requested_id db with
  | Some version => Some version
  | None =>
      head (sort_by (λ a b : DocumentVersionRecord,
          (dv_version_number b <? dv_version_number a)
          || ((dv_version_number a =? dv_version_number b)
              && str_ltb (uuid_str (dv_id a)) (uuid_str (dv_id b))))
        (filter (λ v : DocumentVersionRecord, dv_security_id v = requested_id) (kd_versions db)))
  end.

(** Parse a version, chunk the document and store chunks and citations: [None]
    where the run or the document is missing. *)
Definition ingest (fuel : nat) (version_id : UUID) (config : ParserConfig) (chunk_config : ChunkConfig) :
    knowM (DocumentParseResult * option (list UUID)) :=
  result ← parse uuid4 now (select _registry) version_id config;
  match ps_run result, ps_document result with
  | Some run, Some document =>
      drafts ← sess_lift (chunk fuel document chunk_config);
      ids ← add_chunks_and_citations uuid4 now (rr_id run) version_id drafts;
      mret (result, Some ids)
  | _, _ => mret (result, None)
  end.

Definition parse_document (fuel : nat) (requested_id : UUID)
    (max_bytes max_pages max_characters : Z) : KnowledgeDb → cli_outcome DocumentParseResult * KnowledgeDb :=
  command "COMPANY_DOCUMENT_BODY_NOT_AVAILABLE" "DOCUMENT_PARSE_FAILED" (λ db,
    version ← require_some (_select_version requested_id db) LookupError "";
    config ← validated ParserConfig_valid
      (mkParserConfig max_bytes max_pages 100000 max_characters 50000 64 32 10000 []);
    (r ← ingest fuel (dv_id version) config default_chunk_config; mret r.1) db).

Definition register_version (source_document_id : UUID) (document_language : DocumentLanguage)
    (trust_level : TrustLevel) (evidence_origin access_mode live_status : string)
    (source_version_status : SourceVersionStatus) :
    KnowledgeDb → cli_outcome DocumentVersionResult * KnowledgeDb :=
  command "VERIFIED_SOURCE_DOCUMENT_BODY_REQUIRED" "DOCUMENT_VERSION_REGISTRATION_FAILED" (λ db,
    body ← get_source_body source_document_id db;
    ident ← get_or_create_logical_document uuid4 source_document_id db;
    let '(logical_document_id, db) := ident in
    match body, logical_document_id with
    | Some body, Some logical =>
        request ← validated RegisterDocumentVersionRequest_valid
          (mkRegister (Some logical) body None None document_language trust_level evidence_origin
             access_mode live_status source_version_status);
        register uuid4 now request db
    | _, _ => raise LookupError ""
    end).

(** The stored bytes are still those of the version. *)
Definition verify_version (id : UUID) (db : KnowledgeDb) : res string :=
  match get_document_version id db with
  | None => raise LookupError ""
  | Some version =>
      metadata ← blob_metadata (dv_storage_uri version);
      reject_if (negb (bool_decide (checksum_sha256 metadata = dv_checksum version))
                 || negb (size_bytes metadata =? dv_byte_size version)
                 || negb (bool_decide (content_type metadata = dv_mime_type version)))
        LookupError "";;
      Ok (dv_checksum version)
  end.
Definition verify_document (id : UUID) (db : KnowledgeDb) : cli_outcome string :=
  (command "DOCUMENT_VERSION_VERIFICATION_FAILED" "DOCUMENT_VERSION_VERIFICATION_FAILED"
     (λ db, checksum ← verify_version id db; Ok (checksum, db)) db).1.

(** At most a hundred rows are listed; none is an error. *)
Definition listing {A} (rows : list A) : res (list A) :=
  reject_if (bool_decide (take 100 rows = [])) LookupError "";; Ok (take 100 rows).

Definition list_sections (version_id : UUID) (db : KnowledgeDb) : res (list DocumentSection) :=
  listing (sort_by (λ a b, ultb (sn_section_path (snr_section a)) (sn_section_path (snr_section b)))
    (filter (λ s, (pr_document_version_id <$> get_run (snr_run s) db) = Some version_id)
       (kd_sections db))).
Definition list_chunks (version_id : UUID) (db : KnowledgeDb) : res (list DocumentChunk) :=
  listing (sort_by (λ a b, ck_chunk_index (ckr_draft a) <? ck_chunk_index (ckr_draft b))
    (filter (λ c, ckr_version c = version_id) (kd_chunks db))).

(** * Ingested documents are citable *)

Lemma registry_outcome mime parser content config d : select _registry mime = Some parser →
  parser_parse parser content config = Ok d → parse_outcome content config d.
Proof.
  unfold select. intros Hs Hp. apply fmap_Some in Hs as ([k p] & Hf & ->).
  apply find_elem in Hf as [Hin _]. cbn in Hp.
  repeat (apply elem_of_cons in Hin as [[= -> ->]|Hin]; [cbn in Hp; unfold parse_outcome; eauto 6|]).
  by apply elem_of_nil in Hin.
Qed.

Lemma chunk_from_segments fuel d config drafts : located d → ChunkConfig_valid config = true →
  chunk fuel d config = Ok drafts →
  Forall (λ draft, ∃ s, s ∈ _segments d ∧ from_segment d draft s) drafts.
Proof.
  intros Hl Hv Hd. destruct (decide (pd_canonical_text d = [])) as [E|E].
  - unfold chunk in Hd. rewrite bool_decide_eq_true_2 in Hd by done. injection Hd as <-. constructor.
  - pose proof Hd as Hc. unfold chunk in Hc. rewrite bool_decide_eq_false_2 in Hc by done.
    apply chunk_segments_ranges in Hc as [cuts Hcuts].
    eapply (chunks_from d config cuts); [by apply located_segments|by eapply ranges_tiled|].
    by rewrite <- (chunk_eq fuel).
Qed.

(** An excerpt has at most 1000 characters and a chunk up to 1600: a chunk that is
    longer than an excerpt aborts the whole ingestion. *)
Lemma long_chunk_not_cited run version sum pages sections draft db x : 1000 < ulen (ck_text draft) →
  add_chunk uuid4 now run version sum pages sections draft db ≠ Ok x.
Proof.
  intros Hlong H'. unfold add_chunk in H'. apply guard_seq in H' as [_ H'].
  apply bind_Ok in H' as (excerpt_sum & _ & H'). apply bind_Ok in H' as (request & Hr & _).
  apply validated_Ok in Hr as [-> Hv]. unfold CreateCitationRequest_valid in Hv.
  repeat (apply andb_true_iff in Hv as [Hv ?]). cbn in *. unfold ulen_between, between in *. bools. lia.
Qed.

(** A stored citation of the chunk quotes its text and verifies. *)
Definition cited (db : KnowledgeDb) (snapshot_id : option UUID) (as_of : option time) (strict : bool)
    (text : ustr) (chunk_id : UUID) : Prop :=
  ∃ c, c ∈ kd_citations db ∧ ca_chunk_id (car_draft c) = Some chunk_id ∧
    ca_excerpt (car_draft c) = text ∧
    verify_citation (car_id c) snapshot_id as_of strict db =
      Ok (Some (mkVerification CitSt.VALID (car_id c) [])).

Lemma chunks_cited `{!Inj (=) (=) uuid4} run version d drafts db1 ids db2 snapshot_id as_of strict :
  wf uuid4 db1 → holds db1 run version d → located d →
  Forall (λ s, sn_locator_type s ≠ Loc.PDF_PAGE_RANGE) (pd_sections d) →
  pr_id run ∈ map pr_id (kd_runs db1) → run_chunks (pr_id run) db1 = [] →
  Forall (λ draft, ∃ s, s ∈ _segments d ∧ from_segment d draft s) drafts →
  add_chunks_and_citations uuid4 now (pr_id run) (dv_id version) drafts db1 = Ok (ids, db2) →
  blob_stored version → citable version snapshot_id as_of strict db1 →
  wf uuid4 db2 ∧ Forall2 (λ draft id, cited db2 snapshot_id as_of strict (ck_text draft) id) drafts ids.
Proof using All.
  intros Hwf Hh Hl Ht Hrun Hnone Hfrom Hadd Hblob Hcit.
  unfold add_chunks_and_citations in Hadd.
  rewrite (ho_run _ _ _ _ Hh), (ho_version _ _ _ _ Hh), (ho_checksum _ _ _ _ Hh), Hnone in Hadd.
  apply guard_seq in Hadd as [_ Hadd]. cbn in Hadd.
  apply add_chunks_spec in Hadd as (Hg & Hwf2 & Hall); [|done..]. split; [done|].
  assert (Hh2 : holds db2 run version d) by (by eapply holds_grows).
  assert (Hpg : run_pages (pr_id run) db2 = run_pages (pr_id run) db1 ∧
    run_sections (pr_id run) db2 = run_sections (pr_id run) db1).
  { destruct Hg as (_ & _ & _ & Ep & Es & _). unfold run_pages, run_sections. by rewrite Ep, Es. }
  destruct Hpg as [Epg Esc].
  apply (citable_same _ _ _ _ _ db2) in Hcit; [|apply Hg..].
  rewrite Forall_forall in Hfrom. apply (Forall2_impl_l _ _ _ _ Hall).
  intros draft id Hd (c & k & es & Hc & Hin & Hk & Htext & Hv & Hcr & Hrow).
  rewrite <- Epg, <- Esc in Hv, Hcr. exists c. split; [done|].
  apply create_citation_Ok in Hcr as Hc2. destruct Hc2 as (Ec & _). rewrite Ec.
  split_and!; [done..|].
  by eapply (anchor_verifies db2 run version d draft c id es Hh2 Hl Ht (Hfrom draft Hd) Hv Hcr Hrow).
Qed.

(** C18. Ingestion end to end: whenever a version is parsed afresh, chunked and
    stored, every chunk has a citation that quotes its exact text, and that the
    verifier accepts in any scope the version may be used in, provided the blob
    storage still holds the bytes of the version. *)
Theorem ingested_chunks_are_citable `{!Inj (=) (=) uuid4} fuel version_id config chunk_config
    db r ids db2 version snapshot_id as_of strict :
  wf uuid4 db → ChunkConfig_valid chunk_config = true →
  ingest fuel version_id config chunk_config db = Ok ((r, Some ids), db2) → ps_reused r = false →
  get_document_version version_id db = Some version → blob_stored version →
  citable version snapshot_id as_of strict db →
  ∃ d drafts, ps_document r = Some d ∧ chunk fuel d chunk_config = Ok drafts ∧ wf uuid4 db2 ∧
    Forall2 (λ draft id, cited db2 snapshot_id as_of strict (ck_text draft) id) drafts ids.
Proof using All.
  intros Hwf Hv Hi Hnew Hver Hblob Hcit. unfold ingest in Hi.
  apply sess_bind_Ok in Hi as (r' & db1 & Hparse & Hi).
  destruct (ps_run r') as [rr|] eqn:Hrr; [|discriminate Hi].
  destruct (ps_document r') as [d|] eqn:Hd; [|discriminate Hi].
  apply sess_bind_Ok in Hi as (drafts & db1' & Hc & Hi). apply sess_lift_Ok in Hc as [Hc ->].
  apply sess_bind_Ok in Hi as (ids' & db2' & Hadd & Hi). injection Hi as <- <- <-.
  destruct (parse_holds uuid4 now _ _ _ _ _ _ _ _ Hwf Hparse Hnew Hrr Hd) as
    (version' & run & parser & content & Ev & Ep & _ & Hp & Hh & Eid & _ & Hnone & Hwf1 & Hrun & E1 & E2).
  rewrite Hver in Ev. injection Ev as <-.
  apply (registry_outcome _ _ _ _ _ Ep) in Hp.
  apply find_elem in Hver as [_ Hid%bool_decide_eq_true].
  rewrite <- Eid, <- Hid in Hadd. exists d, drafts. split; [done|]. split; [done|].
  eapply (chunks_cited run version d); try done.
  - by eapply outcome_located.
  - by eapply outcome_types.
  - by eapply chunk_from_segments; [eapply outcome_located|..].
  - by eapply citable_same.
Qed.
End Commands.

(** * Samples *)

#[export] Instance sample_tokenizers : Tokenizers := {|
  html_tokenize _ := sample_html; json_loads _ := JsonDecodeError; pdf_open _ := None |}.

Definition registered_knowledge : KnowledgeDb := with_versions sample_knowledge [sample_version].
Definition next_uuid (n : nat) : UUID := mkUUID (str_repeat n "0").
Definition sample_ingest : res ((DocumentParseResult * option (list UUID)) * KnowledgeDb) :=
  ingest (H := ascii_unicode) next_uuid 5000 10 (sample_id 0) default_parser_config default_chunk_config
    registered_knowledge.

#[export] Instance next_uuid_inj : Inj (=) (=) next_uuid.
Proof.
  assert (Hlen : ∀ n, String.length (str_repeat n "0") = n).
  { induction n as [|n IH]; [done|]. exact (f_equal S IH). }
  intros n m E%(f_equal (λ u, String.length (uuid_str u))). cbn in E. by rewrite !Hlen in E.
Qed.

Lemma registered_wf : wf next_uuid registered_knowledge.
Proof. split; cbn; try (intros ? ?; apply not_elem_of_nil); try constructor; by intros ? ?%elem_of_nil. Qed.

Lemma registered_blob : blob_stored sample_version.
Proof.
  exists sample_blob, (mkBlobMetadata (sha256_hex sample_blob) 13 "text/plain").
  split_and!; vm_compute; reflexivity.
Qed.

(** The only chunk of the sample is cited, and its citation verifies at a time
    after the publication. *)
Lemma ingested_chunks_are_citable_witness :
  ∃ r ids db2 d drafts, sample_ingest = Ok ((r, Some ids), db2) ∧ ids = [next_uuid 2] ∧
    ps_document r = Some d ∧
    Forall2 (λ draft id, cited db2 None (Some 6000) true (ck_text draft) id) drafts ids.
Proof.
  assert (Hr : match sample_ingest with
               | Ok ((r, Some ids), _) => ps_reused r = false ∧ ids = [next_uuid 2]
               | _ => False
               end) by (vm_compute; split; reflexivity).
  destruct sample_ingest as [[[r [ids|]] db2]|e] eqn:E; [|destruct Hr..].
  destruct Hr as [Hnew Hids].
  assert (Hcit : citable sample_version None (Some 6000) true registered_knowledge).
  { split_and!; [vm_compute; discriminate|vm_compute; reflexivity|intros _; eexists; reflexivity|].
    intros p [= <-]. lia. }
  destruct (ingested_chunks_are_citable (H := ascii_unicode) next_uuid 5000 10 (sample_id 0)
    default_parser_config default_chunk_config registered_knowledge r ids db2 sample_version None
    (Some 6000) true registered_wf eq_refl E Hnew eq_refl registered_blob Hcit)
    as (d & drafts & Hd & _ & _ & Hall).
  exists r, ids, db2, d, drafts. split; [reflexivity|]. split; [exact Hids|]. split; [exact Hd|exact Hall].
Defined.

(** Ingesting the version again reuses the parse run, whose document is read back
    with other metadata: the chunks get other checksums and are refused. *)
Example reingestion_conflicts :
  match sample_ingest with
  | Ok (_, db) =>
      ingest (H := ascii_unicode) next_uuid 7000 10 (sample_id 0) default_parser_config
        default_chunk_config db = raise ValueError "chunk generation conflict"
  | Raise _ => False
  end.
Proof. vm_compute. reflexivity. Qed.
