(* ===== verification/Bm25.v ===== *)
(** The arithmetic of lexical scores (domain/retrieval/lexical.py): decimals of
    50 digits, their natural logarithm and [bm25_score]; and [uuid5], the name
    of an index generation. *)
From S2P Require Import Prelude PyDecimal PyText Sha256.

(** * Natural logarithm *)

(** [2 atanh z] of a fixed-point [z] with [scale] units. *)
Fixpoint atanh_series (fuel : nat) (scale z2 term k : Z) : Z :=
  match fuel with
  | O => 0
  | S fuel => term / k + atanh_series fuel scale z2 (term * z2 / scale) (k + 2)
  end.
Definition ln_ratio (scale n d : Z) : Z :=
  let z := (n - d) * scale / (n + d) in
  2 * atanh_series 100 scale (z * z / scale) z 1.

(** [ln (n / d)] in units of [1 / scale]: a power of two is split off, which
    leaves [|z| <= 1/3], so that 100 terms of the series give 90 digits. *)
Definition ln_scaled (scale n d : Z) : Z :=
  let k := Z.log2 n - Z.log2 d in
  k * ln_ratio scale 2 1
  + (if 0 <=? k then ln_ratio scale n (d * 2 ^ k) else ln_ratio scale (n * 2 ^ (- k)) d).

(** [d.ln()] of a positive number in a context of [prec] digits: 30 digits more
    are computed and rounded off. *)
Definition dln_at (prec : Z) (d : decimal) : res decimal :=
  if dsign d || (dcoef d =? 0) then raise InvalidOperation "ln"
  else
    let n := if 0 <=? dexp d then dcoef d * 10 ^ dexp d else dcoef d in
    let m := if 0 <=? dexp d then 1 else 10 ^ (- dexp d) in
    if n =? m then Ok dzero
    else
      let v := ln_scaled (10 ^ (prec + 30)) n m in
      Ok (dfix_at prec (mkDec (v <? 0) (Z.abs v) (- (prec + 30)))).

(** * Scores *)

Definition _QUANTUM : Z := -12.
Definition _K1 : decimal := mkDec false 12 (-1).
Definition _B : decimal := mkDec false 75 (-2).

Record Bm25Stats := mkStats {
  term_frequency : Z; document_frequency : Z; document_count : Z; document_length : Z;
  average_document_length : decimal }.

Definition Bm25Stats_valid (s : Bm25Stats) : bool :=
  (0 <=? term_frequency s) && (0 <=? document_frequency s) && (1 <=? document_count s)
  && (0 <=? document_length s) && (document_frequency s <=? document_count s)
  && negb (dle (average_document_length s) dzero).

(** The context of the score. *)
Definition score_prec : Z := 50.
Definition sadd (a b : decimal) : decimal := dfix_at score_prec (dadd_exact a b).
Definition smul (a b : decimal) : decimal := dfix_at score_prec (dmul_exact a b).

Definition bm25_score (stats : Bm25Stats) : res decimal :=
  if term_frequency stats =? 0 then dquantize _QUANTUM dzero
  else
    let tf := dec_of_Z (term_frequency stats) in
    let df := dec_of_Z (document_frequency stats) in
    let one := dec_of_Z 1 in
    let half := mkDec false 5 (-1) in
    ratio ← ddiv_at score_prec (sadd (sadd (dec_of_Z (document_count stats)) (dneg df)) half)
              (sadd df half);
    inverse_document_frequency ← dln_at score_prec (sadd one ratio);
    length_ratio ← ddiv_at score_prec (smul _B (dec_of_Z (document_length stats)))
                     (average_document_length stats);
    let denominator := sadd tf (smul _K1 (sadd (sadd one (dneg _B)) length_ratio)) in
    score ← ddiv_at score_prec (smul inverse_document_frequency (smul tf (sadd _K1 one)))
              denominator;
    quantize_at score_prec _QUANTUM score.

(** * SHA-1 and [uuid5] *)

Definition rotl (n k : N) : N := w32 (N.lor (N.shiftl n k) (N.shiftr n (32 - k))).

Fixpoint extend_sha1 (f : nat) (w : list N) : list N :=
  match f with
  | O => w
  | S f =>
      let at_ (i : nat) := nth i w 0%N in
      extend_sha1 f
        (rotl (N.lxor (N.lxor (at_ 2%nat) (at_ 7%nat)) (N.lxor (at_ 13%nat) (at_ 15%nat))) 1 :: w)
  end.

(** The function and the constant of a round. *)
Definition sha1_f (t : nat) (b c d : N) : N * N :=
  if (t <? 20)%nat then (N.lxor (N.land b c) (N.land (N.lxor b 0xffffffff) d), 0x5a827999%N)
  else if (t <? 40)%nat then (N.lxor b (N.lxor c d), 0x6ed9eba1%N)
  else if (t <? 60)%nat then
    (N.lor (N.land b c) (N.lor (N.land b d) (N.land c d)), 0x8f1bbcdc%N)
  else (N.lxor b (N.lxor c d), 0xca62c1d6%N).

Fixpoint sha1_rounds (t : nat) (w : list N) (s : N * N * N * N * N) : N * N * N * N * N :=
  match w with
  | [] => s
  | x :: w =>
      let '(a, b, c, d, e) := s in
      let '(f, k) := sha1_f t b c d in
      sha1_rounds (S t) w (w32 (rotl a 5 + f + e + k + x), a, rotl b 30, c, d)
  end.

Fixpoint sha1_blocks (f : nat) (w : list N) (s : N * N * N * N * N) : N * N * N * N * N :=
  match f, w with
  | O, _ | _, [] => s
  | S f, _ =>
      let '(a, b, c, d, e) := s in
      let '(a', b', c', d', e') := sha1_rounds 0 (rev (extend_sha1 64 (rev (take 16 w)))) s in
      sha1_blocks f (drop 16 w) (add32 a a', add32 b b', add32 c c', add32 d d', add32 e e')
  end.
Definition sha1 (l : list N) : list N :=
  let w := words (sha_pad l) in
  let '(a, b, c, d, e) := sha1_blocks (length w) w
    (0x67452301, 0xefcdab89, 0x98badcfe, 0x10325476, 0xc3d2e1f0)%N in
  concat (map (be_bytes 4) [a; b; c; d; e]).

Definition NAMESPACE_URL : list N :=
  [0x6b; 0xa7; 0xb8; 0x11; 0x9d; 0xad; 0x11; 0xd1; 0x80; 0xb4; 0x00; 0xc0; 0x4f; 0xd4; 0x30; 0xc8]%N.

(** [str(uuid5(NAMESPACE_URL, name))] *)
Definition uuid5 (name : string) : UUID :=
  let h := take 16 (sha1 (NAMESPACE_URL ++ string_bytes name)) in
  let h := alter (λ b, N.lor (N.land b 0x0f) 0x50) 6%nat h in
  let h := alter (λ b, N.lor (N.land b 0x3f) 0x80) 8%nat h in
  let hex l := str_join EmptyString (map hex_byte l) in
  mkUUID (str_join "-" [hex (take 4 h); hex (take 2 (drop 4 h)); hex (take 2 (drop 6 h));
                        hex (take 2 (drop 8 h)); hex (drop 10 h)]).

Example uuid5_abc : uuid5 "abc" = mkUUID "68661508-f3c4-55b4-945d-ae2b4dfe5db4".
Proof. vm_compute. reflexivity. Qed.
Example ln_small : dln_at 50 (mkDec false 3 (-3)) =
  Ok (mkDec true 58091429903140273606587291271305669181558139080636 (-49)).
Proof. vm_compute. reflexivity. Qed.
Example ln_near_one : dln_at 50 (mkDec false 100000001 (-8)) =
  Ok (mkDec false 99999999500000003333333308333333533333331666666681 (-58)).
Proof. vm_compute. reflexivity. Qed.
Example score_1 :
  (average ← ddiv (dec_of_Z 50) (dec_of_Z 3); bm25_score (mkStats 2 3 10 17 average)) =
  Ok (mkDec false 1565749577046 (-12)).
Proof. vm_compute. reflexivity. Qed.
Example score_2 : bm25_score (mkStats 1 100 100 1 (mkDec false 3 (-1))) =
  Ok (mkDec false 2539101524 (-12)).
Proof. vm_compute. reflexivity. Qed.
