(* ===== verification/RetrievalModel.v ===== *)
(** The vocabulary and contracts of lexical retrieval (domain/retrieval/enums.py
    and schemas.py) and its tokenizer (tokenizer.py). *)
From S2P Require Import Prelude PyDecimal PyText AgentModel Text DocModel Bm25.

(** * Closed vocabularies *)

Module RMode.
Inductive RetrievalMode :=
  | LEXICAL | VECTOR | HYBRID.
#[global] Instance RetrievalMode_eq_dec : EqDecision RetrievalMode.
Proof. solve_decision. Defined.
Definition all : list RetrievalMode :=
  [LEXICAL; VECTOR; HYBRID].
Definition value (x : RetrievalMode) : string :=
  match x with
  | LEXICAL => "LEXICAL"
  | VECTOR => "VECTOR"
  | HYBRID => "HYBRID"
  end.
End RMode.
Abbreviation RetrievalMode := RMode.RetrievalMode.

Module IdxSt.
Inductive IndexStatus :=
  | BUILDING | COMPLETE | PARTIAL | BLOCKED | FAILED.
#[global] Instance IndexStatus_eq_dec : EqDecision IndexStatus.
Proof. solve_decision. Defined.
Definition all : list IndexStatus :=
  [BUILDING; COMPLETE; PARTIAL; BLOCKED; FAILED].
Definition value (x : IndexStatus) : string :=
  match x with
  | BUILDING => "BUILDING"
  | COMPLETE => "COMPLETE"
  | PARTIAL => "PARTIAL"
  | BLOCKED => "BLOCKED"
  | FAILED => "FAILED"
  end.
End IdxSt.
Abbreviation IndexStatus := IdxSt.IndexStatus.

Module RetSt.
Inductive RetrievalStatus :=
  | PASS | PARTIAL | BLOCKED | FAIL.
#[global] Instance RetrievalStatus_eq_dec : EqDecision RetrievalStatus.
Proof. solve_decision. Defined.
Definition all : list RetrievalStatus :=
  [PASS; PARTIAL; BLOCKED; FAIL].
Definition value (x : RetrievalStatus) : string :=
  match x with
  | PASS => "PASS"
  | PARTIAL => "PARTIAL"
  | BLOCKED => "BLOCKED"
  | FAIL => "FAIL"
  end.
End RetSt.
Abbreviation RetrievalStatus := RetSt.RetrievalStatus.

(** * Contracts *)

Definition document_types_all : list string :=
  ["ANNUAL_REPORT"; "QUARTERLY_REPORT"; "INTERIM_REPORT"; "EARNINGS_RELEASE";
   "MATERIAL_ANNOUNCEMENT"; "SEC_10_K"; "SEC_10_Q"; "SEC_8_K"; "INVESTOR_PRESENTATION"; "OTHER"].

Definition LexicalToken_valid (t : ustr) (position : Z) : bool :=
  ulen_between 1 64 t && between 0 4095 position.

Record TokenizedQuery := mkQuery {
  tq_original_query : ustr; tq_normalized_query : ustr; tq_tokens : list ustr }.
Definition TokenizedQuery_valid (q : TokenizedQuery) : bool :=
  ulen_between 1 256 (tq_original_query q) && ulen_between 1 256 (tq_normalized_query q)
  && between 1 64 (Z.of_nat (length (tq_tokens q))).

Record RetrievalFilters := mkFilters {
  rf_security_id : UUID; rf_snapshot_id : option UUID; rf_research_as_of_time : option time;
  rf_document_types : list string; rf_languages : list DocumentLanguage;
  rf_trust_levels : list TrustLevel; rf_section_paths : list ustr;
  rf_strict_unknown_publication : bool }.
(** Exactly one of two scopes. *)
Definition one_scope {A B} (a : option A) (b : option B) : bool := negb (eqb (is_none a) (is_none b)).
Definition at_most {A} (n : nat) (l : list A) : bool := (length l <=? n)%nat.
Definition RetrievalFilters_valid (f : RetrievalFilters) : bool :=
  at_most 10 (rf_document_types f)
  && forallb (λ t, bool_decide (t ∈ document_types_all)) (rf_document_types f)
  && at_most 4 (rf_languages f) && at_most 5 (rf_trust_levels f) && at_most 20 (rf_section_paths f)
  && one_scope (rf_snapshot_id f) (rf_research_as_of_time f).

Record RetrievalRequest := mkRetrieval {
  rt_query : ustr; rt_mode : RetrievalMode; rt_filters : RetrievalFilters; rt_max_results : Z }.
Definition RetrievalRequest_valid (r : RetrievalRequest) : bool :=
  ulen_between 1 256 (rt_query r) && between 1 20 (rt_max_results r).

Record LexicalBuildRequest := mkBuild {
  lb_index_name : string; lb_security_id : UUID; lb_snapshot_id : option UUID;
  lb_index_as_of_time : option time; lb_tokenizer_version : string; lb_chunk_version : string;
  lb_scoring_version : string }.
Definition LexicalBuildRequest_valid (r : LexicalBuildRequest) : bool :=
  between 1 64 (Z.of_nat (String.length (lb_index_name r)))
  && bool_decide (lb_tokenizer_version r = "tokenizer-v1")
  && bool_decide (lb_chunk_version r = "chunk-v1")
  && bool_decide (lb_scoring_version r = "lexical-rank-v1")
  && one_scope (lb_snapshot_id r) (lb_index_as_of_time r).

Record IndexableChunk := mkIndexable {
  ic_chunk_id : UUID; ic_document_version_id : UUID; ic_document_checksum : string;
  ic_security_id : UUID; ic_published_at : option time; ic_snapshot_ids : list UUID;
  ic_chunk_index : Z; ic_locator_checksum : string; ic_text : ustr; ic_section_title : option ustr;
  ic_document_type : string; ic_language : DocumentLanguage; ic_trust_level : TrustLevel;
  ic_superseded_at : option time; ic_supersession_time_unknown : bool }.
Definition IndexableChunk_valid (c : IndexableChunk) : bool :=
  Checksum_ok (ic_document_checksum c) && (0 <=? ic_chunk_index c)
  && Checksum_ok (ic_locator_checksum c) && ulen_between 1 1600 (ic_text c)
  && opt_forallb (λ t, ulen t <=? 1000) (ic_section_title c)
  && bool_decide (ic_document_type c ∈ document_types_all).

Record LexicalPostingDraft := mkPosting {
  po_token : ustr; po_chunk_id : UUID; po_term_frequency : Z; po_field_kind : string;
  po_positions : list Z }.

Record LexicalIndexResult := mkIndex {
  ix_status : IndexStatus; ix_index_version_id : option UUID;
  ix_document_set_checksum : option string; ix_document_count : Z; ix_chunk_count : Z;
  ix_average_chunk_length : option decimal; ix_postings : list LexicalPostingDraft;
  ix_reused : bool; ix_warnings : list string }.

Record LexicalSearchRequest := mkSearch {
  ls_index_version_id : UUID; ls_tokenized_query : TokenizedQuery; ls_filters : RetrievalFilters;
  ls_max_results : Z }.

Record LexicalHit := mkLexicalHit {
  lh_chunk_id : UUID; lh_document_version_id : UUID; lh_citation_id : UUID; lh_chunk_index : Z;
  lh_locator_checksum : string; lh_text : ustr; lh_section_title : option ustr; lh_score : decimal;
  lh_rank : Z; lh_phrase_match : bool; lh_heading_token_matches : Z }.
Definition LexicalHit_valid (h : LexicalHit) : bool :=
  (0 <=? lh_chunk_index h) && Checksum_ok (lh_locator_checksum h) && ulen_between 1 1600 (lh_text h)
  && opt_forallb (λ t, ulen t <=? 1000) (lh_section_title h) && between 1 20 (lh_rank h)
  && between 0 64 (lh_heading_token_matches h).

Record VectorHit := mkVectorHit { vh_chunk_id : UUID; vh_score : decimal; vh_rank : Z }.

Record HybridHit := mkHybrid {
  hy_chunk_id : UUID; hy_document_version_id : UUID; hy_citation_id : UUID; hy_chunk_index : Z;
  hy_locator_checksum : string; hy_text : ustr; hy_section_title : option ustr;
  hy_lexical_rank : option Z; hy_vector_rank : option Z; hy_lexical_score : option decimal;
  hy_vector_score : option decimal; hy_fusion_score : decimal; hy_phrase_match : bool;
  hy_heading_token_matches : Z; hy_rerank_reason : string }.

Record PreparedRetrieval := mkPrepared {
  pp_status : RetrievalStatus; pp_lexical_index_version_id : option UUID;
  pp_vector_index_version_id : option UUID; pp_hits : list HybridHit; pp_warnings : list string }.

Record RetrievalRunWrite := mkRunWrite {
  rw_request_fingerprint : string; rw_request_basis_fingerprint : string; rw_security_id : UUID;
  rw_snapshot_id : option UUID; rw_research_as_of_time : option time; rw_mode : RetrievalMode;
  rw_original_query : ustr; rw_normalized_query : ustr; rw_max_results : Z;
  rw_tokenizer_version : string; rw_lexical_index_version_id : option UUID;
  rw_vector_index_version_id : option UUID; rw_fusion_version : string;
  rw_reranker_version : string; rw_status : RetrievalStatus }.
Definition RetrievalRunWrite_valid (r : RetrievalRunWrite) : bool :=
  Checksum_ok (rw_request_fingerprint r) && Checksum_ok (rw_request_basis_fingerprint r)
  && ulen_between 1 256 (rw_original_query r) && ulen_between 1 256 (rw_normalized_query r)
  && between 1 20 (rw_max_results r).
Record RetrievalRunRecord := mkRunRecord {
  rn_write :> RetrievalRunWrite; rn_id : UUID; rn_status : RetrievalStatus;
  rn_warnings : list string; rn_created_at : time; rn_completed_at : option time }.

Record RetrievalHitWrite := mkHitWrite {
  hw_chunk_id : UUID; hw_citation_id : UUID; hw_final_rank : Z; hw_lexical_rank : option Z;
  hw_vector_rank : option Z; hw_fusion_score : decimal; hw_rerank_reason : string }.
Record RetrievalHitRecord := mkHitRecord {
  hr_write :> RetrievalHitWrite; hr_id : UUID; hr_retrieval_run_id : UUID; hr_created_at : time }.

Record RetrievalExecutionResult := mkExecution {
  re_status : RetrievalStatus; re_run : option RetrievalRunRecord; re_hits : list RetrievalHitRecord;
  re_reused : bool; re_warnings : list string }.

(** * Tokenizer *)

Definition _STOPWORDS : list ustr := map ulit ["a"; "an"; "and"; "for"; "in"; "of"; "the"; "to"].
Definition is_separator (c : Z) : bool := (c =? 46) || (c =? 37) || (c =? 45).

(** [(?:[.%-][A-Za-z0-9]+)*], greedily. *)
Fixpoint word_tail (fuel : nat) (t : ustr) : ustr * ustr :=
  match fuel, t with
  | S fuel, c :: t' =>
      match t' with
      | d :: _ =>
          if is_separator c && is_alnum d then
            let '(w, rest) := span is_alnum t' in
            let '(ws, rest) := word_tail fuel rest in (c :: w ++ ws, rest)
          else ([], t)
      | [] => ([], t)
      end
  | _, _ => ([], t)
  end.

(** The optional [letters:] before a word. *)
Definition word_prefix (t : ustr) : ustr * ustr :=
  match span is_latin t with
  | ((_ :: _) as letters, 58 :: body) =>
      match body with
      | d :: _ => if is_alnum d then (letters ++ [58], body) else ([], t)
      | [] => ([], t)
      end
  | _ => ([], t)
  end.

(** [_SEGMENT.match] at the head of the text: the segment and what follows. *)
Definition _SEGMENT (t : ustr) : option (ustr * ustr) :=
  match t with
  | [] => None
  | c :: _ =>
      if is_cjk c then Some (span is_cjk t)
      else
        let '(prefix, body) := word_prefix t in
        match span is_alnum body with
        | ([], _) => None
        | (w, rest) =>
            let '(ws, rest) := word_tail (length rest) rest in
            match rest with
            | 37 :: rest => Some (prefix ++ w ++ ws ++ [37], rest)
            | _ => Some (prefix ++ w ++ ws, rest)
            end
        end
  end.
(** [_SEGMENT.finditer] *)
Fixpoint segments (fuel : nat) (t : ustr) : list ustr :=
  match fuel, t with
  | O, _ | _, [] => []
  | S fuel, _ :: t' =>
      match _SEGMENT t with
      | Some (segment, rest) => segment :: segments fuel rest
      | None => segments fuel t'
      end
  end.

Definition bigrams (t : ustr) : list ustr :=
  zip_with (λ a b, [a; b]) t (drop 1 t).
Definition segment_values (segment : ustr) : list ustr :=
  if forallb is_cjk segment then
    if ulen segment =? 1 then [segment]
    else (if ulen segment <=? 32 then [segment] else []) ++ bigrams segment
  else if bool_decide (segment ∈ _STOPWORDS) then [] else [segment].

Section Tokenizer.
Context `{UnicodeData}.

(** [VersionedTokenizer.tokenize]: the values of the tokens, in position order. *)
Definition tokenize (value : ustr) (query : bool) : res (list ustr) :=
  reject_if (existsb (λ c, is_control c && negb (c =? 10) && negb (c =? 9)) value) ValueError
    "unsafe control character in tokenizer input";;
  let normalized := ustrip (casefold (nfkc value)) in
  reject_if (query && (256 <? ulen normalized)) ValueError "query exceeds 256 characters";;
  let values := concat (map segment_values (segments (length normalized) normalized)) in
  reject_if (query && bool_decide (values = [])) ValueError "tokenized query is empty";;
  reject_if (query && (64 <? Z.of_nat (length values))) ValueError "tokenized query exceeds 64 tokens";;
  reject_if (negb (forallb (λ iv, LexicalToken_valid iv.2 iv.1)
               (zip (seqZ 0 (Z.of_nat (length values))) values))) ValidationError "LexicalToken";;
  Ok values.

Definition tokenize_query (value : ustr) : res TokenizedQuery :=
  tokens ← tokenize value true;
  validated TokenizedQuery_valid (mkQuery value (normalize_text value) tokens).
End Tokenizer.

Example tokens_mixed :
  tokenize (H := ascii_unicode) (ulit "The P/E:12 of sec:10-K rose 3.5% " ++ [20844; 21496; 24180; 25253]) false =
  Ok (map ulit ["p"; "e:12"; "sec:10-k"; "rose"; "3.5%"]
      ++ [[20844; 21496; 24180; 25253]; [20844; 21496]; [21496; 24180]; [24180; 25253]]).
Proof. vm_compute. reflexivity. Qed.

(** A word of more than 64 characters is an error: a document that holds one
    cannot be indexed. *)
Example long_word_not_indexed :
  tokenize (H := ascii_unicode) (replicate 65 97) false = raise ValidationError "LexicalToken".
Proof. vm_compute. reflexivity. Qed.
