(* ===== verification/Ranking.v ===== *)
(** Orders by several keys: the boolean [<] of the tuples that Python's [sorted]
    compares is a weak order, key by key, so that [sort_by] really sorts. *)
From S2P Require Import Prelude PyDecimal Text.
From Stdlib Require Import Sorted.

(** A strict weak order, and the test that two elements have the same key. *)
Class WeakOrder {A} (ltb : A → A → bool) := {
  wo_asym x y : ltb x y = true → ltb y x = false;
  wo_trans x y z : ltb x y = false → ltb y z = false → ltb x z = false }.
Class SameKey {A} (ltb same : A → A → bool) :=
  same_key x y : same x y = negb (ltb x y) && negb (ltb y x).

Lemma weak_sorted {A} (ltb : A → A → bool) `{!WeakOrder ltb} l :
  StronglySorted (not_after ltb) (sort_by ltb l).
Proof.
  apply sort_by_sorted; [apply wo_asym|]. unfold not_after. intros x y z Hx Hy. by apply (wo_trans z y x).
Qed.

#[export] Instance Z_weak {A} (f : A → Z) : WeakOrder (λ x y, f x <? f y).
Proof. split; intros; rewrite ?Z.ltb_ge, ?Z.ltb_lt in *; lia. Qed.
#[export] Instance Z_same {A} (f : A → Z) : SameKey (λ x y, f x <? f y) (λ x y, f x =? f y).
Proof.
  intros x y. destruct (Z.eqb_spec (f x) (f y)), (Z.ltb_spec (f x) (f y)), (Z.ltb_spec (f y) (f x));
    try done; lia.
Qed.

(** An integer key, greater first. *)
#[export] Instance Z_weak_desc {A} (f : A → Z) : WeakOrder (λ x y, f y <? f x).
Proof. split; intros; rewrite ?Z.ltb_ge, ?Z.ltb_lt in *; lia. Qed.
#[export] Instance Z_same_desc {A} (f : A → Z) : SameKey (λ x y, f y <? f x) (λ x y, f x =? f y).
Proof. intros x y. rewrite (Z_same f x y). apply andb_comm. Qed.

#[export] Instance str_weak {A} (f : A → string) : WeakOrder (λ x y, str_ltb (f x) (f y)).
Proof.
  split; [intros; by apply str_ltb_asym|]. intros x y z H1 H2.
  apply (key_not_after_trans f z y x); done.
Qed.
#[export] Instance str_same {A} (f : A → string) :
  SameKey (λ x y, str_ltb (f x) (f y)) (λ x y, bool_decide (f x = f y)).
Proof.
  intros x y. case_bool_decide as E.
  - rewrite E. destruct (str_ltb (f y) (f y)) eqn:L; [|done]. by rewrite (str_ltb_asym _ _ L) in L.
  - destruct (str_ltb (f x) (f y)) eqn:L1, (str_ltb (f y) (f x)) eqn:L2; try done.
    by rewrite (str_ltb_total _ _ L1 L2) in E.
Qed.

(** A decimal key, greater first. *)
#[export] Instance dec_weak {A} (f : A → decimal) : WeakOrder (λ x y, dlt (f y) (f x)).
Proof.
  split; intros x y.
  - set (s := Z.min (dexp (f x)) (dexp (f y))). intros H. apply not_true_iff_false. intros H'.
    apply (dlt_scaled _ _ s) in H; [|lia..]. apply (dlt_scaled _ _ s) in H'; lia.
  - intros z H1 H2. set (s := Z.min (dexp (f x)) (Z.min (dexp (f y)) (dexp (f z)))).
    apply not_true_iff_false in H1, H2. apply not_true_iff_false. intros H3.
    apply (dlt_scaled _ _ s) in H3; [|lia..].
    destruct (Z.lt_ge_cases (dscaled (f y) s) (dscaled (f x) s)) as [L|L].
    + apply H1. by apply (dlt_scaled _ _ s); [lia..|].
    + apply H2. apply (dlt_scaled _ _ s); lia.
Qed.
#[export] Instance dec_same {A} (f : A → decimal) :
  SameKey (λ x y, dlt (f y) (f x)) (λ x y, deq (f y) (f x)).
Proof.
  intros x y. set (s := Z.min (dexp (f x)) (dexp (f y))).
  pose proof (dlt_scaled (f y) (f x) s ltac:(lia) ltac:(lia)) as [L1 L1'].
  pose proof (dlt_scaled (f x) (f y) s ltac:(lia) ltac:(lia)) as [L2 L2'].
  pose proof (deq_scaled (f y) (f x) s ltac:(lia) ltac:(lia)) as [E E'].
  destruct (dlt (f y) (f x)), (dlt (f x) (f y)), (deq (f y) (f x)); cbn; try done; exfalso;
    try (specialize (L1 eq_refl)); try (specialize (L2 eq_refl)); try (specialize (E eq_refl)); try lia.
Qed.

(** A boolean key, [true] first. *)
#[export] Instance bool_weak {A} (f : A → bool) : WeakOrder (λ x y, f x && negb (f y)).
Proof. split; intros x y; [by destruct (f x), (f y)|intros z; by destruct (f x), (f y), (f z)]. Qed.
#[export] Instance bool_same {A} (f : A → bool) :
  SameKey (λ x y, f x && negb (f y)) (λ x y, eqb (f x) (f y)).
Proof. intros x y. by destruct (f x), (f y). Qed.

(** A key before the others. *)
Lemma lex_weak {A} (lt1 same lt2 : A → A → bool) : WeakOrder lt1 → SameKey lt1 same → WeakOrder lt2 →
  WeakOrder (λ x y, lt1 x y || (same x y && lt2 x y)).
Proof.
  intros [a1 t1] Hs [a2 t2]. split.
  - intros x y. rewrite (Hs x y), (Hs y x). specialize (a1 x y). specialize (a2 x y).
    destruct (lt1 x y), (lt1 y x), (lt2 x y); cbn; naive_solver.
  - intros x y z. rewrite (Hs x y), (Hs y z), (Hs x z).
    pose proof (t1 x y z) as Hxyz. pose proof (t1 y z x) as Hyzx. pose proof (t1 z x y) as Hzxy.
    pose proof (t1 z y x) as Hzyx. pose proof (t1 y x z) as Hyxz. pose proof (t1 x z y) as Hxzy.
    specialize (t2 x y z).
    destruct (lt1 x y), (lt1 y x), (lt1 y z), (lt1 z y), (lt1 x z), (lt1 z x), (lt2 x y), (lt2 y z);
      cbn in *; naive_solver.
Qed.
