(* ===== verification/Lexical.v ===== *)
(** Lexical retrieval: the index of postings and its BM25 search
    (domain/retrieval/lexical.py), rank fusion and reranking (hybrid.py).  The
    search through an index is the direct search of the chunks' texts. *)
From S2P Require Import Prelude PyDecimal PyText Sha256 AgentModel Text DocModel Session Bm25 RetrievalModel.
From S2P Require Import Ranking.
From Stdlib Require Import Sorted.

(** * Index *)

Definition _eligible (chunk : IndexableChunk) (request : LexicalBuildRequest) : bool :=
  if negb (bool_decide (ic_security_id chunk = lb_security_id request)) then false
  else match lb_snapshot_id request with
  | Some snapshot => bool_decide (snapshot ∈ ic_snapshot_ids chunk)
  | None =>
      match lb_index_as_of_time request, ic_published_at chunk with
      | Some as_of, Some published =>
          if (as_of <? published) || ic_supersession_time_unknown chunk then false
          else match ic_superseded_at chunk with
               | None => true
               | Some superseded => as_of <? superseded
               end
      | _, _ => false
      end
  end.

Definition index_order (a b : IndexableChunk) : bool :=
  let version c := uuid_str (ic_document_version_id c) in
  str_ltb (version a) (version b)
  || (bool_decide (version a = version b)
      && ((ic_chunk_index a <? ic_chunk_index b)
          || ((ic_chunk_index a =? ic_chunk_index b)
              && str_ltb (uuid_str (ic_chunk_id a)) (uuid_str (ic_chunk_id b))))).

Definition build_request_json (r : LexicalBuildRequest) : ujson :=
  UObj [("index_name", UStr (lb_index_name r)); ("security_id", UStr (uuid_str (lb_security_id r)));
        ("snapshot_id", u_opt (λ u, UStr (uuid_str u)) (lb_snapshot_id r));
        ("index_as_of_time", u_opt (λ t, UStr (time_isoformat_z t)) (lb_index_as_of_time r));
        ("tokenizer_version", UStr (lb_tokenizer_version r));
        ("chunk_version", UStr (lb_chunk_version r));
        ("scoring_version", UStr (lb_scoring_version r))].

(** [sorted({(version, checksum)})] *)
Definition pair_ltb (a b : string * string) : bool :=
  str_ltb a.1 b.1 || (bool_decide (a.1 = b.1) && str_ltb a.2 b.2).
Definition document_set (eligible : list IndexableChunk) : list (string * string) :=
  sort_by pair_ltb (remove_dups
    (map (λ c, (uuid_str (ic_document_version_id c), ic_document_checksum c)) eligible)).
Definition document_set_checksum (eligible : list IndexableChunk) : string :=
  sha256_hex (ujson_dumps (UList (map (λ vc, UList [UStr (ulit vc.1); UStr (ulit vc.2)])
    (document_set eligible)))).
Definition build_fingerprint (request : LexicalBuildRequest) (documents : string) : string :=
  sha256_hex (ujson_dumps (UObj [("request", build_request_json request);
                                 ("document_set_checksum", UStr documents)])).

(** The positions of a token, and the postings of one chunk by token. *)
Definition positions_of (token : ustr) (tokens : list ustr) : list Z :=
  map fst (filter (λ iv, iv.2 = token) (zip (seqZ 0 (Z.of_nat (length tokens))) tokens)).
Definition distinct (tokens : list ustr) : list ustr := sort_by ultb (remove_dups tokens).
Definition chunk_postings (chunk : IndexableChunk) (tokens : list ustr) : list LexicalPostingDraft :=
  map (λ token, let positions := positions_of token tokens in
         mkPosting token (ic_chunk_id chunk) (Z.of_nat (length positions)) "BODY" positions)
    (distinct tokens).

Definition total (l : list (list ustr)) : Z := foldr (λ t n, Z.of_nat (length t) + n) 0 l.

Section Lexical.
Context `{UnicodeData}.

Definition eligible_chunks (chunks : list IndexableChunk) (request : LexicalBuildRequest) :
    list IndexableChunk :=
  sort_by index_order (filter (λ c, _eligible c request = true) chunks).

(** The generation built for a request whose fingerprint is not cached. *)
Definition build_index (chunks : list IndexableChunk) (request : LexicalBuildRequest) :
    res LexicalIndexResult :=
  let eligible := eligible_chunks chunks request in
  let documents := document_set_checksum eligible in
  tokens ← res_map (λ c, tokenize (ic_text c) false) eligible;
  average ← match tokens with
            | [] => Ok dzero
            | _ => q ← ddiv (dec_of_Z (total tokens)) (dec_of_Z (Z.of_nat (length tokens)));
                   dquantize _QUANTUM q
            end;
  Ok (mkIndex IdxSt.COMPLETE (Some (uuid5 (build_fingerprint request documents))) (Some documents)
        (Z.of_nat (length (document_set eligible))) (Z.of_nat (length eligible)) (Some average)
        (concat (zip_with chunk_postings eligible tokens)) false []).

(** [LexicalIndexService.build] over the service's cache. *)
Definition build (chunks : list IndexableChunk) (request : LexicalBuildRequest) :
    sessM (list (string * LexicalIndexResult)) LexicalIndexResult := λ cache,
  let fingerprint := build_fingerprint request
                       (document_set_checksum (eligible_chunks chunks request)) in
  match find (λ kv, bool_decide (kv.1 = fingerprint)) cache with
  | Some (_, r) =>
      Ok (mkIndex (ix_status r) (ix_index_version_id r) (ix_document_set_checksum r)
            (ix_document_count r) (ix_chunk_count r) (ix_average_chunk_length r) (ix_postings r)
            true (ix_warnings r), cache)
  | None => r ← build_index chunks request; Ok (r, (fingerprint, r) :: cache)
  end.

(** * Search *)

Definition _matches_filters (chunk : IndexableChunk) (filters : RetrievalFilters) : bool :=
  if negb (bool_decide (ic_security_id chunk = rf_security_id filters)) then false
  else if match rf_snapshot_id filters with
          | Some s => negb (bool_decide (s ∈ ic_snapshot_ids chunk))
          | None => false
          end then false
  else if match rf_research_as_of_time filters with
          | None => false
          | Some as_of =>
              (is_none (ic_published_at chunk) && rf_strict_unknown_publication filters)
              || match ic_published_at chunk with Some p => as_of <? p | None => false end
              || ic_supersession_time_unknown chunk
              || match ic_superseded_at chunk with Some s => s <=? as_of | None => false end
          end then false
  else if negb (bool_decide (rf_document_types filters = []))
          && negb (bool_decide (ic_document_type chunk ∈ rf_document_types filters)) then false
  else if negb (bool_decide (rf_languages filters = []))
          && negb (bool_decide (ic_language chunk ∈ rf_languages filters)) then false
  else bool_decide (rf_trust_levels filters = [])
       || bool_decide (ic_trust_level chunk ∈ rf_trust_levels filters).

Definition _contains_sequence (values query : list ustr) : bool :=
  match query with
  | [] => false
  | _ => negb (length values <? length query)%nat
         && existsb (λ i, bool_decide (take (length query) (drop i values) = query))
              (seq 0 (length values))
  end.

Record Draft := mkDraft {
  df_chunk : IndexableChunk; df_score : decimal; df_phrase : bool; df_heading : Z }.

(** The key [(-score, locator_checksum, chunk_index)]. *)
Definition draft_ltb (a b : Draft) : bool :=
  let loc d := ic_locator_checksum (df_chunk d) in
  let ix d := ic_chunk_index (df_chunk d) in
  dlt (df_score b) (df_score a)
  || (deq (df_score b) (df_score a)
      && (str_ltb (loc a) (loc b) || (bool_decide (loc a = loc b) && (ix a <? ix b)))).

Definition heading_matches (chunk : IndexableChunk) (query : list ustr) : res Z :=
  match ic_section_title chunk with
  | Some ((_ :: _) as title) =>
      heading ← tokenize title false;
      Ok (Z.of_nat (length (filter (λ v, v ∈ heading) query)))
  | _ => Ok 0
  end.

(** The score of a chunk from its terms with their frequencies. *)
Definition score_terms (terms : list (ustr * Z)) (document_frequency : ustr → Z) (count length_ : Z)
    (average : decimal) : res decimal :=
  scores ← res_map (λ tf : ustr * Z,
    stats ← validated Bm25Stats_valid (mkStats tf.2 (document_frequency tf.1) count length_ average);
    bm25_score stats) terms;
  dquantize _QUANTUM (dsum scores).

(** Scores, order and ranks of the chunks that match, each with its terms. *)
Definition rank_chunks (matching : list IndexableChunk) (terms_of : IndexableChunk → list (ustr * Z))
    (citation_ids : gmap UUID UUID) (query : list ustr) (max_results : Z) : res (list LexicalHit) :=
  let document_frequency token :=
    Z.of_nat (length (filter (λ c, token ∈ map fst (terms_of c)) matching)) in
  bodies ← res_map (λ c, tokenize (ic_text c) false) matching;
  average ← ddiv (dec_of_Z (total bodies)) (dec_of_Z (Z.of_nat (length matching)));
  drafts ← res_map (λ cb : IndexableChunk * list ustr,
    score ← score_terms (terms_of cb.1) document_frequency (Z.of_nat (length matching))
              (Z.of_nat (length cb.2)) average;
    heading ← heading_matches cb.1 query;
    Ok (mkDraft cb.1 score (_contains_sequence cb.2 query) heading)) (zip matching bodies);
  let best := take (Z.to_nat max_results) (sort_by draft_ltb drafts) in
  res_map (λ rd : Z * Draft,
    let c := df_chunk rd.2 in
    citation_id ← require_some (citation_ids !! ic_chunk_id c) KeyError "";
    validated LexicalHit_valid
      (mkLexicalHit (ic_chunk_id c) (ic_document_version_id c) citation_id (ic_chunk_index c)
         (ic_locator_checksum c) (ic_text c) (ic_section_title c) (df_score rd.2) rd.1
         (df_phrase rd.2) (df_heading rd.2)))
    (zip (seqZ 1 (Z.of_nat (length best))) best).

(** The dictionary of the chunks by id: a later chunk replaces an earlier one. *)
Definition chunk_dict (chunks : list IndexableChunk) : list IndexableChunk :=
  foldl (λ d c, if existsb (λ x, bool_decide (ic_chunk_id x = ic_chunk_id c)) d
                then map (λ x, if bool_decide (ic_chunk_id x = ic_chunk_id c) then c else x) d
                else d ++ [c]) [] chunks.

(** The postings of a chunk for the tokens of the query. *)
Definition query_postings (index : LexicalIndexResult) (query : list ustr) (chunk_id : UUID) :
    list LexicalPostingDraft :=
  filter (λ p, po_token p ∈ query ∧ po_chunk_id p = chunk_id) (ix_postings index).
Definition posting_terms (index : LexicalIndexResult) (query : list ustr) (c : IndexableChunk) :
    list (ustr * Z) :=
  map (λ p, (po_token p, po_term_frequency p)) (query_postings index query (ic_chunk_id c)).

(** [LexicalSearchService.search] *)
Definition search (chunks : list IndexableChunk) (index : LexicalIndexResult)
    (citation_ids : gmap UUID UUID) (request : LexicalSearchRequest) : res (list LexicalHit) :=
  if negb (bool_decide (ix_index_version_id index = Some (ls_index_version_id request))) then Ok []
  else
    let query := tq_tokens (ls_tokenized_query request) in
    let matching := filter (λ c, posting_terms index query c ≠ []
        ∧ is_Some (citation_ids !! ic_chunk_id c) ∧ _matches_filters c (ls_filters request) = true)
      (chunk_dict chunks) in
    match matching with
    | [] => Ok []
    | _ => rank_chunks matching (posting_terms index query) citation_ids query (ls_max_results request)
    end.
End Lexical.

(** * Fusion and reranking *)

(** [reciprocal_rank_fusion]: the dictionary of vector hits keeps the last of a chunk. *)
Definition fuse_hit (vector : list VectorHit) (k : Z) (hit : LexicalHit) : res HybridHit :=
  let vector_hit := find (λ v, bool_decide (vh_chunk_id v = lh_chunk_id hit)) (rev vector) in
  score ← ddiv (dec_of_Z 1) (dec_of_Z (k + lh_rank hit));
  score ← match vector_hit with
          | None => Ok score
          | Some v => s ← ddiv (dec_of_Z 1) (dec_of_Z (k + vh_rank v)); Ok (dadd score s)
          end;
  fusion ← dquantize _QUANTUM score;
  Ok (mkHybrid (lh_chunk_id hit) (lh_document_version_id hit) (lh_citation_id hit)
        (lh_chunk_index hit) (lh_locator_checksum hit) (lh_text hit) (lh_section_title hit)
        (Some (lh_rank hit)) (vh_rank <$> vector_hit) (Some (lh_score hit)) (vh_score <$> vector_hit)
        fusion (lh_phrase_match hit) (lh_heading_token_matches hit) "FUSION_SCORE").

Definition fusion_ltb (a b : HybridHit) : bool :=
  dlt (hy_fusion_score b) (hy_fusion_score a)
  || (deq (hy_fusion_score b) (hy_fusion_score a)
      && (str_ltb (hy_locator_checksum a) (hy_locator_checksum b)
          || (bool_decide (hy_locator_checksum a = hy_locator_checksum b)
              && (hy_chunk_index a <? hy_chunk_index b)))).

Definition reciprocal_rank_fusion (lexical : list LexicalHit) (vector : list VectorHit) (k : Z) :
    res (list HybridHit) :=
  reject_if (k <? 1) ValueError "RRF k must be positive";;
  results ← res_map (fuse_hit vector k) lexical;
  Ok (sort_by fusion_ltb results).

Definition _reason (hit : HybridHit) : string :=
  if hy_phrase_match hit then "EXACT_PHRASE"
  else if negb (hy_heading_token_matches hit =? 0) then "HEADING_MATCH"
  else "FUSION_SCORE".

(** The best rank of the channels. *)
Definition best_rank (h : HybridHit) : Z :=
  match hy_lexical_rank h, hy_vector_rank h with
  | Some a, Some b => Z.min a b
  | Some a, None | None, Some a => a
  | None, None => 0
  end.
Definition rerank_ltb (a b : HybridHit) : bool :=
  let phrase h := hy_phrase_match h in
  let heading h := hy_heading_token_matches h in
  let score h := hy_fusion_score h in
  let loc h := hy_locator_checksum h in
  (phrase a && negb (phrase b))
  || (eqb (phrase a) (phrase b)
      && ((heading b <? heading a)
          || ((heading a =? heading b)
              && (dlt (score b) (score a)
                  || (deq (score b) (score a)
                      && ((best_rank a <? best_rank b)
                          || ((best_rank a =? best_rank b)
                              && (str_ltb (loc a) (loc b)
                                  || (bool_decide (loc a = loc b)
                                      && (hy_chunk_index a <? hy_chunk_index b)))))))))).

Definition with_reason (h : HybridHit) : HybridHit :=
  mkHybrid (hy_chunk_id h) (hy_document_version_id h) (hy_citation_id h) (hy_chunk_index h)
    (hy_locator_checksum h) (hy_text h) (hy_section_title h) (hy_lexical_rank h) (hy_vector_rank h)
    (hy_lexical_score h) (hy_vector_score h) (hy_fusion_score h) (hy_phrase_match h)
    (hy_heading_token_matches h) (_reason h).
Definition stable_rerank (hits : list HybridHit) : list HybridHit :=
  map with_reason (sort_by rerank_ltb hits).

(** * The orders sort *)

#[export] Instance draft_weak : WeakOrder draft_ltb.
Proof. apply lex_weak; [apply _..|]. apply lex_weak; apply _. Qed.
#[export] Instance fusion_weak : WeakOrder fusion_ltb.
Proof. apply lex_weak; [apply _..|]. apply lex_weak; apply _. Qed.
#[export] Instance rerank_weak : WeakOrder rerank_ltb.
Proof. repeat (apply lex_weak; [apply _..|]). apply _. Qed.

(** * The index finds what the texts hold *)

Lemma res_map_ext {A B} (f g : A → res B) l : (∀ x, x ∈ l → f x = g x) → res_map f l = res_map g l.
Proof.
  induction l as [|x l IH]; intros Hfg; [done|]. cbn. rewrite (Hfg x) by left.
  rewrite IH; [done|]. intros y Hy. apply Hfg. by right.
Qed.

Lemma filter_ext_in {A} (P Q : A → Prop) `{!∀ x, Decision (P x), !∀ x, Decision (Q x)} (l : list A) :
  (∀ x, x ∈ l → P x ↔ Q x) → filter P l = filter Q l.
Proof.
  induction l as [|x l IH]; intros Hpq; [done|]. rewrite !filter_cons.
  rewrite IH by (intros y Hy; apply Hpq; by right). pose proof (Hpq x ltac:(left)) as Hx.
  repeat case_decide; tauto || done.
Qed.

Lemma res_map_map {A B C} (f : B → res C) (g : A → B) l :
  res_map f (map g l) = res_map (λ x, f (g x)) l.
Proof. induction l as [|x l IH]; [done|]. cbn. by rewrite IH. Qed.

(** The entries made for one key of a list without repeated keys. *)
Lemma filter_concat_key {A B K} `{EqDecision K} (key : A → K) (key' : B → K) (f : A → list B) l x :
  NoDup (map key l) → (∀ y b, y ∈ l → b ∈ f y → key' b = key y) →
  filter (λ b, key' b = key x) (concat (map f l)) =
  concat (map f (filter (λ y, key y = key x) l)).
Proof.
  induction l as [|y l IH]; intros Hn Hk; [done|]. cbn in Hn. apply NoDup_cons in Hn as [Hy Hn].
  cbn [map concat]. rewrite filter_app, IH; [|done|intros z b Hz; apply Hk; by right].
  rewrite filter_cons. case_decide as E.
  - cbn. f_equal. apply list_filter_all. intros b Hb. rewrite <- E. by apply Hk; [left|].
  - rewrite list_filter_none; [done|]. apply Forall_forall. intros b Hb Eb. apply E.
    rewrite <- Eb. symmetry. by apply Hk; [left|].
Qed.

Lemma filter_key {A K} `{EqDecision K} (key : A → K) l x : NoDup (map key l) → x ∈ l →
  filter (λ y, key y = key x) l = [x].
Proof.
  induction l as [|y l IH]; intros Hn Hx; [by apply elem_of_nil in Hx|]. cbn in Hn.
  apply NoDup_cons in Hn as [Hy Hn]. rewrite filter_cons. apply elem_of_cons in Hx as [->|Hx].
  - rewrite decide_True by done. f_equal. apply list_filter_none. apply Forall_forall.
    intros z Hz E. apply Hy. rewrite <- E. by apply list_elem_of_fmap_2.
  - rewrite decide_False; [by apply IH|]. intros E. apply Hy. rewrite E. by apply list_elem_of_fmap_2.
Qed.

Lemma chunk_dict_id l : ∀ d, NoDup (map ic_chunk_id (d ++ l)) →
  foldl (λ d c, if existsb (λ x, bool_decide (ic_chunk_id x = ic_chunk_id c)) d
                then map (λ x, if bool_decide (ic_chunk_id x = ic_chunk_id c) then c else x) d
                else d ++ [c]) d l = d ++ l.
Proof.
  induction l as [|c l IH]; intros d Hn; [by rewrite app_nil_r|]. cbn [foldl].
  replace (existsb _ d) with false; [rewrite IH; by rewrite <- app_assoc|].
  symmetry. apply not_true_iff_false. intros (x & Hx%list_elem_of_In & E%bool_decide_eq_true)%existsb_exists.
  rewrite map_app in Hn. apply NoDup_app in Hn as (_ & Hn & _).
  apply (Hn (ic_chunk_id c)); [rewrite <- E; by apply list_elem_of_fmap_2|left].
Qed.

(** The occurrences of a token, counted. *)
Definition count_of (token : ustr) (tokens : list ustr) : Z :=
  Z.of_nat (length (filter (λ x, x = token) tokens)).
Lemma length_positions token tokens : Z.of_nat (length (positions_of token tokens)) = count_of token tokens.
Proof.
  unfold positions_of, count_of. rewrite length_map. f_equal. generalize 0.
  induction tokens as [|x tokens IH]; intros k; [done|]. cbn [length].
  rewrite seqZ_cons by lia. cbn [zip zip_with]. rewrite Nat2Z.inj_succ, Z.pred_succ.
  rewrite !filter_cons. cbn. case_decide; cbn; [f_equal|]; apply IH.
Qed.

Section Direct.
Context `{UnicodeData}.

Definition tokens_of (c : IndexableChunk) : list ustr :=
  match tokenize (ic_text c) false with Ok l => l | Raise _ => [] end.

(** The distinct tokens of a chunk that the query names, with their frequencies. *)
Definition direct_terms (query : list ustr) (c : IndexableChunk) : list (ustr * Z) :=
  map (λ t, (t, count_of t (tokens_of c))) (filter (λ t, t ∈ query) (distinct (tokens_of c))).

(** The search without an index: the texts of all chunks are read. *)
Definition direct_matching (chunks : list IndexableChunk) (request : LexicalBuildRequest)
    (citation_ids : gmap UUID UUID) (query : list ustr) (filters : RetrievalFilters) :
    list IndexableChunk :=
  filter (λ c, (_eligible c request = true ∧ Exists (λ t, t ∈ query) (tokens_of c))
    ∧ is_Some (citation_ids !! ic_chunk_id c) ∧ _matches_filters c filters = true) chunks.
Definition direct_search (chunks : list IndexableChunk) (request : LexicalBuildRequest)
    (citation_ids : gmap UUID UUID) (search : LexicalSearchRequest) : res (list LexicalHit) :=
  let query := tq_tokens (ls_tokenized_query search) in
  match direct_matching chunks request citation_ids query (ls_filters search) with
  | [] => Ok []
  | matching => rank_chunks matching (direct_terms query) citation_ids query (ls_max_results search)
  end.

Lemma built_postings chunks request index : build_index chunks request = Ok index →
  ix_postings index = concat (map (λ c, chunk_postings c (tokens_of c)) (eligible_chunks chunks request)).
Proof.
  intros Hb. apply bind_Ok in Hb as (tokens & Ht & Hb). apply bind_Ok in Hb as (average & _ & Hb).
  injection Hb as <-. cbn. f_equal. apply res_map_Ok in Ht.
  induction Ht as [|c t l ts Hc _ IH]; [done|]. cbn. rewrite IH. f_equal. unfold tokens_of. by rewrite Hc.
Qed.

Lemma indexed_terms chunks request index query c : NoDup (map ic_chunk_id chunks) →
  build_index chunks request = Ok index → c ∈ chunks →
  posting_terms index query c = if _eligible c request then direct_terms query c else [].
Proof.
  intros Hn Hb Hc. unfold posting_terms, query_postings. rewrite (built_postings _ _ _ Hb).
  rewrite <- list_filter_filter.
  assert (Hn' : NoDup (map ic_chunk_id (eligible_chunks chunks request))).
  { unfold eligible_chunks. rewrite sort_by_perm. eapply sublist_NoDup; [exact Hn|].
    apply fmap_sublist, sublist_filter. }
  rewrite (filter_concat_key ic_chunk_id po_chunk_id (λ c, chunk_postings c (tokens_of c)) _ c Hn').
  2: { intros y p _ (t & -> & _)%list_elem_of_fmap. done. }
  destruct (_eligible c request) eqn:E.
  - rewrite (filter_key ic_chunk_id _ c Hn')
      by (apply elem_of_sort_by, list_elem_of_filter; done).
    cbn. rewrite app_nil_r. unfold chunk_postings, direct_terms.
    generalize (distinct (tokens_of c)) as l. induction l as [|t l IH]; [done|].
    cbn [map]. rewrite !filter_cons. cbn. case_decide; cbn; [|exact IH].
    f_equal; [by rewrite length_positions|exact IH].
  - replace (filter _ (eligible_chunks chunks request)) with ([] : list IndexableChunk); [done|].
    symmetry. apply list_filter_none. apply Forall_forall.
    intros y (Hy & Hin)%elem_of_sort_by%list_elem_of_filter Eid.
    assert (y = c) as ->; [|by rewrite Hy in E].
    apply list_elem_of_lookup in Hin as [i Hi], Hc as [k Hk].
    assert (i = k) as ->; [|congruence].
    apply (NoDup_lookup _ _ _ (ic_chunk_id c) Hn); rewrite list_lookup_fmap, ?Hi, ?Hk; cbn; congruence.
Qed.

Lemma direct_terms_empty query c : direct_terms query c ≠ [] ↔ Exists (λ t, t ∈ query) (tokens_of c).
Proof.
  unfold direct_terms, distinct. rewrite Exists_exists. split.
  - intros Hne. destruct (filter _ _) as [|t l] eqn:E; [done|]. exists t.
    assert (Ht : t ∈ t :: l) by left. rewrite <- E in Ht.
    apply list_elem_of_filter in Ht as [Hq Ht]. by rewrite elem_of_sort_by, elem_of_remove_dups in Ht.
  - intros (t & Ht & Hq) E. apply map_eq_nil in E.
    assert (Hin : t ∈ filter (λ t, t ∈ query) (sort_by ultb (remove_dups (tokens_of c))))
      by (apply list_elem_of_filter; rewrite elem_of_sort_by, elem_of_remove_dups; done).
    rewrite E in Hin. by apply elem_of_nil in Hin.
Qed.

Lemma score_terms_ext terms f g n m average : (∀ t, f t = g t) →
  score_terms terms f n m average = score_terms terms g n m average.
Proof.
  intros Hfg. unfold score_terms. erewrite res_map_ext; [reflexivity|].
  intros tf _. cbn. by rewrite Hfg.
Qed.

Lemma rank_chunks_ext matching f g citation_ids query n : (∀ c, c ∈ matching → f c = g c) →
  rank_chunks matching f citation_ids query n = rank_chunks matching g citation_ids query n.
Proof.
  intros Hfg. unfold rank_chunks.
  destruct (res_map _ matching) as [bodies|e] eqn:Eb; [|done]. rewrite !Ok_bind.
  destruct (ddiv _ _) as [average|e]; [|done]. rewrite !Ok_bind.
  erewrite (res_map_ext _ _ (zip matching bodies)); [reflexivity|].
  intros [c body] Hin%elem_of_zip_l. cbn. rewrite (Hfg c Hin).
  erewrite score_terms_ext; [reflexivity|]. intros t. cbn. do 2 f_equal.
  apply filter_ext_in. intros c' Hc'. by rewrite (Hfg c' Hc').
Qed.

(** The search through an index is the direct search. *)
Lemma search_is_direct chunks request index citation_ids search_request :
  NoDup (map ic_chunk_id chunks) → build_index chunks request = Ok index →
  ix_index_version_id index = Some (ls_index_version_id search_request) →
  search chunks index citation_ids search_request =
  direct_search chunks request citation_ids search_request.
Proof.
  intros Hn Hb Hid. unfold search, direct_search. rewrite bool_decide_eq_true_2 by done.
  cbn [negb]. unfold chunk_dict. rewrite chunk_dict_id by done. rewrite app_nil_l.
  set (query := tq_tokens _).
  assert (E : filter (λ c, posting_terms index query c ≠ [] ∧ is_Some (citation_ids !! ic_chunk_id c)
      ∧ _matches_filters c (ls_filters search_request) = true) chunks =
    direct_matching chunks request citation_ids query (ls_filters search_request)).
  { apply filter_ext_in. intros c Hc. rewrite (indexed_terms chunks request index query c Hn Hb Hc).
    rewrite <- direct_terms_empty.
    destruct (_eligible c request); [tauto|]. split; [by intros [? _]|by intros [[? _] _]]. }
  rewrite E. destruct (direct_matching _ _ _ _ _) as [|c l] eqn:Em; [done|].
  apply rank_chunks_ext. intros c' Hc'. rewrite <- Em in Hc'.
  apply list_elem_of_filter in Hc' as [[[He _] _] Hc'].
  rewrite (indexed_terms _ _ _ _ _ Hn Hb Hc'). by rewrite He.
Qed.

(** ** Ranks *)

Definition hit_of (d : Draft) (rank : Z) (h : LexicalHit) : Prop :=
  lh_chunk_id h = ic_chunk_id (df_chunk d) ∧ lh_score h = df_score d ∧
  lh_phrase_match h = df_phrase d ∧ lh_heading_token_matches h = df_heading d ∧ lh_rank h = rank ∧
  lh_text h = ic_text (df_chunk d).

(** The hits are the first of all the matching chunks in the order of the key. *)
Lemma rank_chunks_sorted matching terms citation_ids query n hits :
  rank_chunks matching terms citation_ids query n = Ok hits →
  ∃ drafts, map df_chunk drafts ≡ₚ matching ∧ StronglySorted (not_after draft_ltb) drafts ∧
    Forall2 (λ rd h, hit_of rd.2 rd.1 h ∧ citation_ids !! lh_chunk_id h = Some (lh_citation_id h))
      (zip (seqZ 1 (Z.of_nat (length hits))) (take (Z.to_nat n) drafts)) hits ∧
    length hits = length (take (Z.to_nat n) drafts).
Proof.
  intros Hr. apply bind_Ok in Hr as (bodies & Hb & Hr). apply bind_Ok in Hr as (average & _ & Hr).
  apply bind_Ok in Hr as (drafts & Hd & Hr). cbv zeta in Hr.
  set (best := take _ _) in Hr. apply res_map_Ok in Hr, Hd, Hb.
  assert (Hlen : length best = length hits).
  { apply Forall2_length in Hr. rewrite length_zip_with, length_seqZ in Hr. lia. }
  exists (sort_by draft_ltb drafts). split_and!.
  - rewrite sort_by_perm. apply Forall2_length in Hb.
    assert (Hc : Forall2 (λ cb d, df_chunk d = cb.1) (zip matching bodies) drafts).
    { eapply Forall2_impl; [exact Hd|]. intros cb d Hx.
      apply bind_Ok in Hx as (score & _ & Hx). apply bind_Ok in Hx as (heading & _ & Hx).
      by injection Hx as <-. }
    assert (E : map df_chunk drafts = map fst (zip matching bodies))
      by (clear -Hc; induction Hc as [|? ? ? ? E _ IH]; [done|]; cbn; by rewrite E, IH).
    rewrite E. change (map fst) with (fmap (M := list) (A := IndexableChunk * list ustr) fst).
    rewrite fst_zip by lia. done.
  - apply weak_sorted, _.
  - rewrite <- Hlen. eapply Forall2_impl; [exact Hr|]. intros [rank d] h Hh. cbn in *.
    apply bind_Ok in Hh as (citation & Hc & Hh). apply validated_Ok in Hh as [-> _].
    apply require_some_Ok in Hc. cbn. by split_and!.
  - done.
Qed.
End Direct.

(** C21. Retrieval: a search through an index built from the chunks is the search
    that reads the text of every chunk of the scope, whatever its outcome; and
    its hits are the first, in the order of score, locator and index, of all the
    chunks that hold a word of the query, are cited and pass the filters. *)
Theorem search_equals_direct `{UnicodeData} chunks request index citation_ids search_request :
  NoDup (map ic_chunk_id chunks) → build_index chunks request = Ok index →
  ix_index_version_id index = Some (ls_index_version_id search_request) →
  search chunks index citation_ids search_request =
    direct_search chunks request citation_ids search_request ∧
  ∀ hits, search chunks index citation_ids search_request = Ok hits →
    ∃ drafts,
      map df_chunk drafts ≡ₚ direct_matching chunks request citation_ids
        (tq_tokens (ls_tokenized_query search_request)) (ls_filters search_request) ∧
      StronglySorted (not_after draft_ltb) drafts ∧
      Forall2 (λ rd h, hit_of rd.2 rd.1 h ∧ citation_ids !! lh_chunk_id h = Some (lh_citation_id h))
        (zip (seqZ 1 (Z.of_nat (length hits)))
           (take (Z.to_nat (ls_max_results search_request)) drafts)) hits ∧
      length hits = length (take (Z.to_nat (ls_max_results search_request)) drafts).
Proof.
  intros Hn Hb Hid. rewrite (search_is_direct _ _ _ _ _ Hn Hb Hid). split; [done|].
  intros hits Hs. unfold direct_search in Hs.
  destruct (direct_matching _ _ _ _ _) as [|c l]; [|by eapply rank_chunks_sorted].
  injection Hs as <-. exists []. rewrite take_nil. split_and!; constructor.
Qed.

(** * Samples *)

Definition sample_chunk (n : Z) (text : string) (published : time) : IndexableChunk :=
  mkIndexable (mkUUID ("chunk-" +:+ str_of_Z n)) (mkUUID "version") (sha256_hex "") (mkUUID "security")
    (Some published) [] n (sha256_hex (str_of_Z n)) (ulit text) None "ANNUAL_REPORT" DocLang.EN_US
    Trust.OFFICIAL_COMPANY None false.
Definition sample_chunks : list IndexableChunk :=
  [sample_chunk 0 "Revenue rose; net revenue of the year." 10; sample_chunk 1 "Risk factors." 10;
   sample_chunk 2 "Revenue risk." 10; sample_chunk 3 "Revenue of the next year." 90].
Definition sample_build : LexicalBuildRequest :=
  mkBuild "sample" (mkUUID "security") None (Some 50) "tokenizer-v1" "chunk-v1" "lexical-rank-v1".
Definition sample_citations : gmap UUID UUID :=
  list_to_map (map (λ c, (ic_chunk_id c, mkUUID ("cite-" +:+ uuid_str (ic_chunk_id c)))) sample_chunks).
Definition sample_search (id : UUID) : LexicalSearchRequest :=
  mkSearch id (mkQuery (ulit "revenue") (ulit "revenue") [ulit "revenue"])
    (mkFilters (mkUUID "security") None (Some 50) [] [] [] [] true) 10.
Abbreviation sample_index := (build_index (H := ascii_unicode) sample_chunks sample_build).

(** The chunk published after the research time is not found. *)
Lemma search_equals_direct_witness :
  ∃ index id hits, sample_index = Ok index ∧
    search (H := ascii_unicode) sample_chunks index sample_citations (sample_search id) = Ok hits ∧
    map (λ h, uuid_str (lh_chunk_id h)) hits = ["chunk-0"; "chunk-2"] ∧
    search (H := ascii_unicode) sample_chunks index sample_citations (sample_search id) =
      direct_search (H := ascii_unicode) sample_chunks sample_build sample_citations (sample_search id).
Proof.
  assert (Hr : match sample_index with
    | Ok index => match ix_index_version_id index with
      | Some id =>
          match search (H := ascii_unicode) sample_chunks index sample_citations (sample_search id) with
          | Ok hits => map (λ h, uuid_str (lh_chunk_id h)) hits = ["chunk-0"; "chunk-2"]
          | Raise _ => False
          end
      | None => False
      end
    | Raise _ => False
    end) by (vm_compute; reflexivity).
  destruct sample_index as [index|e] eqn:Eb; [|destruct Hr].
  destruct (ix_index_version_id index) as [id|] eqn:Ei; [|destruct Hr].
  destruct (search (H := ascii_unicode) sample_chunks index sample_citations (sample_search id))
    as [hits|e] eqn:Es; [|destruct Hr].
  exists index, id, hits. split; [reflexivity|]. split; [exact Es|]. split; [exact Hr|].
  assert (Hn : NoDup (map ic_chunk_id sample_chunks)) by (apply (bool_decide_eq_true_1 _); vm_compute; reflexivity).
  exact (proj1 (search_equals_direct (H := ascii_unicode) sample_chunks sample_build index
    sample_citations (sample_search id) Hn Eb Ei)).
Defined.
