(* ===== verification/Retrieval.v ===== *)
(** Retrieval runs over the knowledge tables: the index and run repository
    (db/repositories/knowledge.py), the retrieval service
    (domain/retrieval/service.py), evidence bundles (evidence.py) and the
    retrieval commands (cli_rag.py). *)
From S2P Require Import Prelude PyDecimal PyText Sha256 AgentModel Text DocModel Session Chunking.
From S2P Require Import Citations Knowledge Ingest Bm25 RetrievalModel Ranking Lexical.
From Stdlib Require Import Sorted.

(** * Tables *)

Record LexicalIndexVersion := mkIndexVersion {
  iv_id : UUID; iv_request : LexicalBuildRequest; iv_document_set_checksum : string;
  iv_fingerprint : string; iv_document_count : Z; iv_chunk_count : Z; iv_average_length : decimal;
  iv_status : IndexStatus; iv_completed_at : time }.
Record LexicalPosting := mkPostingRow { lp_index : UUID; lp_posting : LexicalPostingDraft }.

Record RagDb := mkRag {
  rg_knowledge : KnowledgeDb; rg_indexes : list LexicalIndexVersion; rg_postings : list LexicalPosting;
  rg_runs : list RetrievalRunRecord; rg_hits : list RetrievalHitRecord; rg_next : nat }.
Abbreviation ragM := (sessM RagDb).

Definition with_rag_runs (db : RagDb) (rows : list RetrievalRunRecord) (n : nat) : RagDb :=
  mkRag (rg_knowledge db) (rg_indexes db) (rg_postings db) rows (rg_hits db) n.
Definition with_hits (db : RagDb) (rows : list RetrievalHitRecord) (n : nat) : RagDb :=
  mkRag (rg_knowledge db) (rg_indexes db) (rg_postings db) (rg_runs db) rows n.

(** * Chunks to index and search *)

Definition uuid_ltb (a b : UUID) : bool := str_ltb (uuid_str a) (uuid_str b).

(** The first citation of a chunk, by id. *)
Definition citation_of_chunk (chunk_id : UUID) (db : KnowledgeDb) : option CitationAnchor :=
  head (sort_by (λ a b, uuid_ltb (car_id a) (car_id b))
    (filter (λ c, ca_chunk_id (car_draft c) = Some chunk_id) (kd_citations db))).

Definition indexable_chunk (security_id : UUID) (db : KnowledgeDb) (chunk : DocumentChunk)
    (version : DocumentVersionRecord) (logical : LogicalDocument) : IndexableChunk :=
  let '(_, superseded_at, unknown) := _supersession_state (dv_id version) db in
  mkIndexable (ckr_id chunk) (dv_id version) (dv_checksum version) security_id
    (dv_published_at version) (version_snapshots (dv_id version) db) (ck_chunk_index (ckr_draft chunk))
    (match citation_of_chunk (ckr_id chunk) db with
     | None => ck_checksum (ckr_draft chunk)
     | Some c => ca_locator_checksum (car_draft c)
     end)
    (ck_text (ckr_draft chunk)) None (ld_document_type logical) (dv_document_language version)
    (dv_trust_level version) superseded_at unknown.

Definition chunk_row_ltb (a b : DocumentChunk) : bool :=
  uuid_ltb (ckr_version a) (ckr_version b)
  || (bool_decide (ckr_version a = ckr_version b)
      && ((ck_chunk_index (ckr_draft a) <? ck_chunk_index (ckr_draft b))
          || ((ck_chunk_index (ckr_draft a) =? ck_chunk_index (ckr_draft b))
              && uuid_ltb (ckr_id a) (ckr_id b)))).

(** The chunk joined with its version and logical document, for one security. *)
Definition joined_chunk (security_id : UUID) (db : KnowledgeDb) (chunk : DocumentChunk) :
    option IndexableChunk :=
  match get_document_version (ckr_version chunk) db with
  | None => None
  | Some version =>
      if bool_decide (dv_security_id version = security_id) then
        match find (λ l, bool_decide (ld_id l = dv_logical_document_id version)) (kd_logical db) with
        | None => None
        | Some logical => Some (indexable_chunk security_id db chunk version logical)
        end
      else None
  end.
Definition list_indexable_chunks (security_id : UUID) (db : KnowledgeDb) : res (list IndexableChunk) :=
  res_map (validated IndexableChunk_valid)
    (omap (joined_chunk security_id db) (sort_by chunk_row_ltb (kd_chunks db))).

(** [citation_ids_for_chunks]: [setdefault] keeps the first citation of a chunk. *)
Definition citation_ids_for_chunks (chunk_ids : list UUID) (db : KnowledgeDb) : gmap UUID UUID :=
  list_to_map (omap (λ id, c ← citation_of_chunk id db; Some (id, car_id c)) chunk_ids).

(** * Index generations *)

Definition posting_ltb (a b : LexicalPosting) : bool :=
  let p x := lp_posting x in
  ultb (po_token (p a)) (po_token (p b))
  || (bool_decide (po_token (p a) = po_token (p b))
      && (uuid_ltb (po_chunk_id (p a)) (po_chunk_id (p b))
          || (bool_decide (po_chunk_id (p a) = po_chunk_id (p b))
              && str_ltb (po_field_kind (p a)) (po_field_kind (p b))))).

Definition load_lexical_index (id : UUID) (db : RagDb) : res LexicalIndexResult :=
  match find (λ r, bool_decide (iv_id r = id)) (rg_indexes db) with
  | None => raise ValueError "lexical index not found"
  | Some row =>
      Ok (mkIndex (iv_status row) (Some (iv_id row)) (Some (iv_document_set_checksum row))
            (iv_document_count row) (iv_chunk_count row) (Some (iv_average_length row))
            (map lp_posting (sort_by posting_ltb (filter (λ p, lp_index p = id) (rg_postings db))))
            true [])
  end.

Definition index_fingerprint (id : UUID) (documents : string) : string :=
  sha256_hex (uuid_str id +:+ ":" +:+ documents).

(** [persist_lexical_index]: an insert that breaks the unique fingerprint loads
    the generation of that id instead. *)
Definition persist_lexical_index (now : time) (request : LexicalBuildRequest)
    (result : LexicalIndexResult) : ragM LexicalIndexResult := λ db,
  match ix_index_version_id result, ix_document_set_checksum result with
  | Some id, Some documents =>
      if existsb (λ r, bool_decide (iv_id r = id)) (rg_indexes db)
         || existsb (λ r, bool_decide (iv_fingerprint r = index_fingerprint id documents)) (rg_indexes db)
      then r ← load_lexical_index id db; Ok (r, db)
      else
        let row := mkIndexVersion id request documents (index_fingerprint id documents)
                     (ix_document_count result) (ix_chunk_count result)
                     (default dzero (ix_average_chunk_length result)) (ix_status result) now in
        Ok (result, mkRag (rg_knowledge db) (rg_indexes db ++ [row])
                      (rg_postings db ++ map (mkPostingRow id) (ix_postings result))
                      (rg_runs db) (rg_hits db) (rg_next db))
  | _, _ => raise ValueError "complete lexical index metadata is required"
  end.

(** The latest complete generation of a scope. *)
Definition generation_ltb (a b : LexicalIndexVersion) : bool :=
  (iv_completed_at b <? iv_completed_at a)
  || ((iv_completed_at a =? iv_completed_at b) && uuid_ltb (iv_id a) (iv_id b)).
Definition generation_in_scope (security_id : UUID) (snapshot_id : option UUID)
    (as_of : option time) (r : LexicalIndexVersion) : bool :=
  bool_decide (lb_security_id (iv_request r) = security_id)
  && bool_decide (iv_status r = IdxSt.COMPLETE)
  && match snapshot_id with
     | Some _ => bool_decide (lb_snapshot_id (iv_request r) = snapshot_id)
     | None => is_none (lb_snapshot_id (iv_request r))
               && match as_of with
                  | Some t => bool_decide (lb_index_as_of_time (iv_request r) = Some t)
                  | None => false
                  end
     end.
Definition current_generation (security_id : UUID) (snapshot_id : option UUID)
    (as_of : option time) (db : RagDb) : option LexicalIndexVersion :=
  head (sort_by generation_ltb
    (filter (λ r, generation_in_scope security_id snapshot_id as_of r = true) (rg_indexes db))).
Definition find_lexical_index (security_id : UUID) (snapshot_id : option UUID)
    (as_of : option time) (db : RagDb) : res (option LexicalIndexResult) :=
  match current_generation security_id snapshot_id as_of db with
  | None => Ok None
  | Some row => Some <$> load_lexical_index (iv_id row) db
  end.

(** * Fingerprints *)

Definition filters_json (f : RetrievalFilters) : ujson :=
  UObj [("security_id", UStr (uuid_str (rf_security_id f)));
        ("snapshot_id", u_opt (λ u, UStr (uuid_str u)) (rf_snapshot_id f));
        ("research_as_of_time", u_opt (λ t, UStr (time_isoformat_z t)) (rf_research_as_of_time f));
        ("document_types", UList (map (λ t, UStr (ulit t)) (rf_document_types f)));
        ("languages", UList (map (λ l, UStr (DocLang.value l)) (rf_languages f)));
        ("trust_levels", UList (map (λ l, UStr (Trust.value l)) (rf_trust_levels f)));
        ("section_paths", UList (map UStr (rf_section_paths f)));
        ("strict_unknown_publication", UBool (rf_strict_unknown_publication f))].

Definition _FUSION_VERSION : string := "fusion-v1".
Definition _RERANKER_VERSION : string := "stable-reranker-v1".

Section Service.
Context `{UnicodeData}.

Definition canonical_request_basis_fingerprint (r : RetrievalRequest) : string :=
  sha256_hex (ujson_dumps (UObj
    [("query", UStr (normalize_text (rt_query r))); ("mode", UStr (RMode.value (rt_mode r)));
     ("filters", filters_json (rt_filters r)); ("max_results", UInt (rt_max_results r));
     ("tokenizer_version", UStr (ulit "tokenizer-v1")); ("fusion_version", UStr _FUSION_VERSION);
     ("reranker_version", UStr _RERANKER_VERSION)])).

Definition canonical_request_fingerprint (r : RetrievalRequest)
    (lexical_index_version_id vector_index_version_id : option UUID) : string :=
  sha256_hex (ujson_dumps (UObj
    [("request_basis_fingerprint", UStr (canonical_request_basis_fingerprint r));
     ("lexical_index_version_id", u_opt (λ u, UStr (uuid_str u)) lexical_index_version_id);
     ("vector_index_version_id", u_opt (λ u, UStr (uuid_str u)) vector_index_version_id);
     ("fusion_version", UStr _FUSION_VERSION); ("reranker_version", UStr _RERANKER_VERSION)])).

(** * Engine *)

(** [RetrievalEngine] *)
Record RetrievalEngine := mkEngine {
  generation_ids : RetrievalRequest → option UUID * option UUID;
  retrieve : RetrievalRequest → res PreparedRetrieval }.

(** [DeterministicRetrievalEngine] *)
Definition deterministic_retrieve (lexical_index_version_id : UUID)
    (lexical_search : LexicalSearchRequest → res (list LexicalHit)) (request : RetrievalRequest) :
    res PreparedRetrieval :=
  if bool_decide (rt_mode request = RMode.VECTOR) then
    Ok (mkPrepared RetSt.BLOCKED None None [] ["EMBEDDING_PROVIDER_NOT_CONFIGURED"])
  else
    query ← tokenize_query (rt_query request);
    lexical ← lexical_search (mkSearch lexical_index_version_id query (rt_filters request)
                                (rt_max_results request));
    fused ← reciprocal_rank_fusion lexical [] 60;
    let hits := stable_rerank fused in
    if bool_decide (rt_mode request = RMode.HYBRID) then
      Ok (mkPrepared RetSt.PARTIAL (Some lexical_index_version_id) None hits ["VECTOR_CHANNEL_BLOCKED"])
    else Ok (mkPrepared RetSt.PASS (Some lexical_index_version_id) None hits []).
Definition DeterministicRetrievalEngine (lexical_index_version_id : UUID)
    (lexical_search : LexicalSearchRequest → res (list LexicalHit)) : RetrievalEngine :=
  mkEngine (λ request, if bool_decide (rt_mode request = RMode.VECTOR) then (None, None)
                       else (Some lexical_index_version_id, None))
    (deterministic_retrieve lexical_index_version_id lexical_search).

(** * Retrieval runs *)

Definition find_run_by_fingerprint (fingerprint : string) (db : RagDb) : option RetrievalRunRecord :=
  find (λ r : RetrievalRunRecord, bool_decide (rw_request_fingerprint r = fingerprint)) (rg_runs db).

(** The constraints of retrieval_hits: rank, uniqueness and the cited chunk. *)
Definition hit_row_ok (run_id : UUID) (h : RetrievalHitWrite) (db : RagDb) : bool :=
  between 1 20 (hw_final_rank h)
  && negb (existsb (λ r : RetrievalHitRecord, bool_decide (hr_retrieval_run_id r = run_id)
             && ((hw_final_rank r =? hw_final_rank h) || bool_decide (hw_chunk_id r = hw_chunk_id h)))
             (rg_hits db))
  && existsb (λ c, bool_decide (car_id c = hw_citation_id h)
                   && bool_decide (ca_chunk_id (car_draft c) = Some (hw_chunk_id h)))
       (kd_citations (rg_knowledge db)).

Definition list_hits (run_id : UUID) (limit : Z) (db : RagDb) : list RetrievalHitRecord :=
  take (Z.to_nat (Z.min (Z.max limit 1) 20))
    (sort_by (λ a b : RetrievalHitRecord,
        (hw_final_rank a <? hw_final_rank b)
        || ((hw_final_rank a =? hw_final_rank b) && uuid_ltb (hr_id a) (hr_id b)))
      (filter (λ h, hr_retrieval_run_id h = run_id) (rg_hits db))).

(** [verify_citation] of a repository with or without a blob storage. *)
Definition citation_valid (storage : option BlobStorage) (citation_id : UUID)
    (snapshot_id : option UUID) (as_of : option time) (strict : bool) (db : KnowledgeDb) : res bool :=
  match storage with
  | None => Ok false
  | Some storage =>
      v ← verify_citation citation_id snapshot_id as_of strict db;
      Ok (bool_decide (cv_status <$> v = Some CitSt.VALID))
  end.

Fixpoint res_filter {A : Type} (f : A → res bool) (l : list A) : res (list A) :=
  match l with
  | [] => Ok []
  | x :: l => b ← f x; rest ← res_filter f l; Ok (match b with true => x :: rest | false => rest end)
  end.

Section Writes.
Context (uuid4 : nat → UUID) (now : time) (storage : option BlobStorage).

(** [acquire_run]: the unique fingerprint is the lookup key. *)
Definition acquire_run (value : RetrievalRunWrite) : ragM (RetrievalRunRecord * bool) := λ db,
  match find_run_by_fingerprint (rw_request_fingerprint value) db with
  | Some existing => Ok ((existing, false), db)
  | None =>
      let row := mkRunRecord value (uuid4 (rg_next db)) (rw_status value) [] now None in
      Ok ((row, true), with_rag_runs db (rg_runs db ++ [row]) (S (rg_next db)))
  end.

Definition add_hit (run_id : UUID) (h : RetrievalHitWrite) : ragM unit := λ db,
  reject_if (negb (hit_row_ok run_id h db)) IntegrityError "retrieval_hits";;
  Ok (tt, with_hits db (rg_hits db ++ [mkHitRecord h (uuid4 (rg_next db)) run_id now])
            (S (rg_next db))).
Definition add_hits (run_id : UUID) (hits : list RetrievalHitWrite) : ragM (list unit) :=
  sess_map (add_hit run_id) hits.

Definition complete_run (status : RetrievalStatus) (warnings : list string) (r : RetrievalRunRecord) :
    RetrievalRunRecord :=
  mkRunRecord (rn_write r) (rn_id r) status warnings (rn_created_at r) (Some now).
Definition finish_run (run_id : UUID) (status : RetrievalStatus) (warnings : list string) :
    ragM RetrievalRunRecord := λ db,
  match find (λ r, bool_decide (rn_id r = run_id)) (rg_runs db) with
  | None => raise ValueError "retrieval run not found"
  | Some row =>
      reject_if (is_some (rn_completed_at row)) ValueError "retrieval run is already terminal";;
      Ok (complete_run status warnings row,
          with_rag_runs db (map (λ r, if bool_decide (rn_id r = run_id)
                                  then complete_run status warnings r else r) (rg_runs db))
            (rg_next db))
  end.

(** [valid_citation_ids] *)
Definition valid_citation_ids (ids : list UUID) (request : RetrievalRequest) (db : KnowledgeDb) :
    res (list UUID) :=
  let f := rt_filters request in
  res_filter (λ id, citation_valid storage id (rf_snapshot_id f) (rf_research_as_of_time f)
                      (rf_strict_unknown_publication f) db) ids.

Definition _retrieval_in_progress (run : RetrievalRunRecord) : RetrievalExecutionResult :=
  mkExecution RetSt.BLOCKED (Some run) [] true ["RETRIEVAL_RUN_IN_PROGRESS"].
Definition reused_run (request : RetrievalRequest) (run : RetrievalRunRecord) (db : RagDb) :
    RetrievalExecutionResult :=
  if is_some (rn_completed_at run) then
    mkExecution (rn_status run) (Some run) (list_hits (rn_id run) (rt_max_results request) db) true
      (rn_warnings run)
  else _retrieval_in_progress run.

(** The status and warnings once unverified hits are dropped. *)
Definition exclusion (prepared : PreparedRetrieval) (candidates verified : list HybridHit) :
    RetrievalStatus * list string :=
  if (length verified =? length candidates)%nat then (pp_status prepared, pp_warnings prepared)
  else if bool_decide (verified = []) then
    (RetSt.BLOCKED, pp_warnings prepared ++ ["NO_VALID_CITATIONS"])
  else (if bool_decide (pp_status prepared = RetSt.PASS) then RetSt.PARTIAL else pp_status prepared,
        pp_warnings prepared ++ ["INVALID_CITATIONS_EXCLUDED"]).

Definition run_write (request : RetrievalRequest) (fingerprint : string) (prepared : PreparedRetrieval) :
    RetrievalRunWrite :=
  let f := rt_filters request in
  mkRunWrite fingerprint (canonical_request_basis_fingerprint request) (rf_security_id f)
    (rf_snapshot_id f) (rf_research_as_of_time f) (rt_mode request) (rt_query request)
    (normalize_text (rt_query request)) (rt_max_results request) "tokenizer-v1"
    (pp_lexical_index_version_id prepared) (pp_vector_index_version_id prepared) _FUSION_VERSION
    _RERANKER_VERSION (pp_status prepared).

Definition hit_writes (verified : list HybridHit) : list RetrievalHitWrite :=
  zip_with (λ rank h, mkHitWrite (hy_chunk_id h) (hy_citation_id h) rank (hy_lexical_rank h)
      (hy_vector_rank h) (hy_fusion_score h) (hy_rerank_reason h))
    (seqZ 1 (Z.of_nat (length verified))) verified.

(** The hits whose citations verify are stored and the run is completed. *)
Definition record_hits (request : RetrievalRequest) (prepared : PreparedRetrieval) (run_id : UUID) :
    ragM RetrievalExecutionResult :=
  let candidates := take (Z.to_nat (rt_max_results request)) (pp_hits prepared) in
  valid ← (λ db : RagDb, v ← valid_citation_ids (map hy_citation_id candidates) request (rg_knowledge db);
                         Ok (v, db));
  let verified := filter (λ h, hy_citation_id h ∈ valid) candidates in
  let outcome := exclusion prepared candidates verified in
  _ ← add_hits run_id (hit_writes verified);
  terminal ← finish_run run_id outcome.1 outcome.2;
  hits ← sess_read (list_hits (rn_id terminal) (rt_max_results request));
  mret (mkExecution (rn_status terminal) (Some terminal) hits false (rn_warnings terminal)).

(** [RetrievalExecutionService.execute] *)
Definition execute (engine : RetrievalEngine) (request : RetrievalRequest) :
    ragM RetrievalExecutionResult := λ db,
  let ids := generation_ids engine request in
  let fingerprint := canonical_request_fingerprint request ids.1 ids.2 in
  match find_run_by_fingerprint fingerprint db with
  | Some existing => Ok (reused_run request existing db, db)
  | None =>
      prepared ← retrieve engine request;
      write ← validated RetrievalRunWrite_valid (run_write request fingerprint prepared);
      (acquired ← acquire_run write;
       if negb acquired.2 then sess_read (reused_run request acquired.1)
       else record_hits request prepared (rn_id acquired.1)) db
  end.

(** * Commands *)

(** [cli_rag.search] *)
Definition rag_search (query : ustr) (security_id : UUID) (snapshot_id : option UUID)
    (as_of : option time) (mode : RetrievalMode) (max_results : Z) : ragM RetrievalExecutionResult := λ db,
  found ← find_lexical_index security_id snapshot_id as_of db;
  match found with
  | Some index =>
      match ix_index_version_id index with
      | Some id =>
          chunks ← list_indexable_chunks security_id (rg_knowledge db);
          let citations := citation_ids_for_chunks (map ic_chunk_id chunks) (rg_knowledge db) in
          filters ← validated RetrievalFilters_valid
            (mkFilters security_id snapshot_id as_of [] [] [] [] true);
          request ← validated RetrievalRequest_valid (mkRetrieval query mode filters max_results);
          execute (DeterministicRetrievalEngine id (search chunks index citations)) request db
      | None => raise LookupError ""
      end
  | None => raise LookupError ""
  end.

(** [cli_rag.build_lexical_index]: [as_of] is what the command line parsed. *)
Definition build_lexical_index (security_id : UUID) (snapshot_id : option UUID)
    (as_of : option datetime) : ragM LexicalIndexResult := λ db,
  chunks ← list_indexable_chunks security_id (rg_knowledge db);
  reject_if (bool_decide (chunks = [])) LookupError "";;
  index_as_of_time ← match as_of with
                     | None => Ok None
                     | Some d => t ← require_some (to_utc d) ValidationError
                                       "timestamp must be timezone aware"; Ok (Some t)
                     end;
  request ← validated LexicalBuildRequest_valid
    (mkBuild ("security-" +:+ uuid_str security_id) security_id snapshot_id index_as_of_time
       "tokenizer-v1" "chunk-v1" "lexical-rank-v1");
  built ← build chunks request [];
  r ← persist_lexical_index now request built.1 db;
  Ok (built.1, r.2).
End Writes.
End Service.
