(* ===== verification/Grounded.v ===== *)
(** What a retrieval run stores: ranked hits of chunks that were visible at the
    research time and whose citations verify; and that a repeated search reads
    them back. *)
From S2P Require Import Prelude PyDecimal PyText Sha256 AgentModel Text DocModel Session Chunking.
From S2P Require Import Citations Knowledge DocIdentity Parsers Ingest DocumentCli.
From S2P Require Import Bm25 RetrievalModel Ranking Lexical Retrieval.
From Stdlib Require Import Sorted.

(** * Search results come from the chunks given *)

Lemma chunk_dict_sub chunks c : c ∈ chunk_dict chunks → c ∈ chunks.
Proof.
  unfold chunk_dict. enough (H : ∀ l d, c ∈ foldl (λ d c,
    if existsb (λ x, bool_decide (ic_chunk_id x = ic_chunk_id c)) d
    then map (λ x, if bool_decide (ic_chunk_id x = ic_chunk_id c) then c else x) d
    else d ++ [c]) d l → c ∈ d ∨ c ∈ l).
  { intros Hc. destruct (H _ _ Hc) as [Hd|Hd]; [by apply elem_of_nil in Hd|done]. }
  induction l as [|x l IH]; intros d Hc; [by left|]. cbn in Hc. apply IH in Hc as [Hc|Hc].
  - destruct (existsb _ d).
    + apply list_elem_of_fmap in Hc as (y & -> & Hy). case_bool_decide; [right; left|by left].
    + apply elem_of_app in Hc as [Hc|Hc%list_elem_of_singleton]; [by left|subst; right; left].
  - right. by right.
Qed.

Section Sound.
Context `{UnicodeData}.

(** A hit of a chunk that passes the filters, with the chunk's citation. *)
Definition hit_from (chunks : list IndexableChunk) (citation_ids : gmap UUID UUID)
    (filters : RetrievalFilters) (chunk_id citation_id : UUID) : Prop :=
  ∃ c, c ∈ chunks ∧ ic_chunk_id c = chunk_id ∧ citation_ids !! chunk_id = Some citation_id ∧
    _matches_filters c filters = true.

Lemma search_sound chunks index citation_ids request hits :
  search chunks index citation_ids request = Ok hits →
  Forall (λ h, hit_from chunks citation_ids (ls_filters request) (lh_chunk_id h) (lh_citation_id h)) hits.
Proof.
  unfold search. destruct (negb _); [intros [= <-]; constructor|].
  set (query := tq_tokens _). set (matching := filter _ _). intros Hs.
  assert (Hm : ∀ c, c ∈ matching → c ∈ chunks ∧ _matches_filters c (ls_filters request) = true).
  { intros c ((_ & _ & Hf) & Hc)%list_elem_of_filter. split; [by apply chunk_dict_sub|done]. }
  assert (Hr : hits = [] ∨ rank_chunks matching (posting_terms index query) citation_ids query
    (ls_max_results request) = Ok hits)
    by (destruct matching; [left; by injection Hs as <-|by right]).
  destruct Hr as [->|Hr]; [constructor|]. clearbody matching. clear Hs.
  apply rank_chunks_sorted in Hr as (drafts & Hp & _ & Hall & _).
  apply Forall_forall. intros h Hh. destruct (Forall2_elem_r _ _ _ _ Hall Hh) as ([rank d] & Hd & Ho & Hc).
  apply elem_of_zip_r in Hd. cbn in *. destruct Ho as (E & _).
  assert (Hin : df_chunk d ∈ matching).
  { rewrite <- Hp. apply list_elem_of_fmap_2. apply elem_of_take in Hd as (i & Hi & _). by eapply list_elem_of_lookup_2. }
  destruct (Hm _ Hin). exists (df_chunk d). by split_and!.
Qed.

(** A hybrid hit keeps the chunk and the citation of a lexical hit. *)
Lemma fused_from lexical vector k fused : reciprocal_rank_fusion lexical vector k = Ok fused →
  ∀ h, h ∈ stable_rerank fused → ∃ l, l ∈ lexical ∧ hy_chunk_id h = lh_chunk_id l ∧
    hy_citation_id h = lh_citation_id l.
Proof.
  intros Hf h Hh. unfold reciprocal_rank_fusion in Hf. apply guard_seq in Hf as [_ Hf].
  apply bind_Ok in Hf as (results & Hr & Hf). injection Hf as <-. apply res_map_Ok in Hr.
  unfold stable_rerank in Hh. apply list_elem_of_fmap in Hh as (x & -> & Hx).
  rewrite !elem_of_sort_by in Hx. destruct (Forall2_elem_r _ _ _ _ Hr Hx) as (l & Hl & Hfuse).
  exists l. split; [done|]. unfold fuse_hit in Hfuse.
  apply bind_Ok in Hfuse as (s1 & _ & Hfuse). apply bind_Ok in Hfuse as (s2 & _ & Hfuse).
  apply bind_Ok in Hfuse as (s3 & _ & Hfuse). by injection Hfuse as <-.
Qed.

Lemma retrieve_sound id chunks index citation_ids request prepared :
  deterministic_retrieve id (search chunks index citation_ids) request = Ok prepared →
  Forall (λ h, hit_from chunks citation_ids (rt_filters request) (hy_chunk_id h) (hy_citation_id h))
    (pp_hits prepared).
Proof.
  unfold deterministic_retrieve. case_bool_decide; [intros [= <-]; constructor|]. intros Hr.
  apply bind_Ok in Hr as (query & _ & Hr). apply bind_Ok in Hr as (lexical & Hs & Hr).
  apply bind_Ok in Hr as (fused & Hf & Hr). apply search_sound in Hs. cbn in Hs.
  assert (Hall : Forall (λ h, hit_from chunks citation_ids (rt_filters request) (hy_chunk_id h)
    (hy_citation_id h)) (stable_rerank fused)).
  { apply Forall_forall. intros h Hh. destruct (fused_from _ _ _ _ Hf h Hh) as (l & Hl & -> & ->).
    rewrite Forall_forall in Hs. by apply Hs. }
  by case_bool_decide; injection Hr as <-.
Qed.
End Sound.

(** * Visible versions *)

(** The version was published by the research time and every version that
    supersedes it later; or it belongs to the snapshot. *)
Definition visible (kdb : KnowledgeDb) (snapshot_id : option UUID) (as_of : option time)
    (v : DocumentVersionRecord) : Prop :=
  (∀ s, snapshot_id = Some s → s ∈ version_snapshots (dv_id v) kdb) ∧
  (∀ t, as_of = Some t →
     (∃ p, dv_published_at v = Some p ∧ p ≤ t) ∧
     ∀ w : DocumentVersionRecord, w ∈ superseders (dv_id v) kdb → ∃ q, dv_published_at w = Some q ∧ t < q).

Lemma min_time_le l m : min_time l = Some m → ∀ t, t ∈ l → m ≤ t.
Proof.
  destruct l as [|x l]; intros [= <-] t Ht. revert t Ht.
  induction l as [|y l IH]; intros t Ht; cbn.
  - apply list_elem_of_singleton in Ht. lia.
  - apply elem_of_cons in Ht as [->|[->|Ht]%elem_of_cons]; [|lia|].
    + specialize (IH x ltac:(left)). lia.
    + specialize (IH t ltac:(by right)). lia.
Qed.

Lemma not_superseded kdb id t :
  let '(_, superseded_at, unknown) := _supersession_state id kdb in
  unknown = false → (∀ s, superseded_at = Some s → t < s) →
  ∀ w : DocumentVersionRecord, w ∈ superseders id kdb → ∃ q, dv_published_at w = Some q ∧ t < q.
Proof.
  unfold _supersession_state. destruct (superseders id kdb) as [|v vs].
  { intros _ _ w Hw. by apply elem_of_nil in Hw. }
  set (times := omap _ (v :: vs)). intros Hu Hs w Hw.
  destruct (dv_published_at w) as [q|] eqn:Eq.
  - exists q. split; [done|].
    assert (Hq : q ∈ times) by (apply list_elem_of_omap; by exists w).
    destruct (min_time times) as [m|] eqn:Em.
    + specialize (Hs m eq_refl). pose proof (min_time_le _ _ Em q Hq). lia.
    + destruct times; [by apply elem_of_nil in Hq|done].
  - apply not_true_iff_false in Hu. destruct Hu. apply existsb_exists. exists w.
    split; [by apply list_elem_of_In|by rewrite Eq].
Qed.

Lemma joined_visible security_id kdb snapshot_id as_of k c :
  joined_chunk security_id kdb k = Some c →
  _matches_filters c (mkFilters security_id snapshot_id as_of [] [] [] [] true) = true →
  ic_chunk_id c = ckr_id k ∧ ∃ v, get_document_version (ckr_version k) kdb = Some v ∧
    dv_security_id v = security_id ∧ visible kdb snapshot_id as_of v.
Proof.
  unfold joined_chunk. destruct (get_document_version _ _) as [v|]; [|done].
  case_bool_decide as Hsec; [|done]. destruct (find _ _) as [logical|]; [|done]. intros [= <-].
  unfold indexable_chunk. pose proof (not_superseded kdb (dv_id v)) as Hsup.
  destruct (_supersession_state (dv_id v) kdb) as [[sup superseded_at] unknown].
  unfold _matches_filters. cbn. rewrite bool_decide_eq_true_2 by done. cbn.
  intros Hm. split; [done|]. exists v. split_and!; [done|done|]. split.
  - intros s ->. case_bool_decide; [done|discriminate Hm].
  - intros t ->. destruct (match snapshot_id with Some s => _ | None => _ end); [discriminate Hm|].
    destruct (dv_published_at v) as [p|]; [|discriminate Hm]. cbn in Hm.
    destruct (Z.ltb_spec t p); [discriminate Hm|]. cbn in Hm. split; [by exists p|].
    destruct unknown; [discriminate Hm|]. cbn in Hm. apply (Hsup t); [done|].
    intros s ->. destruct (Z.leb_spec s t); [discriminate Hm|lia].
Qed.

(** * Runs *)

Section Runs.
Context `{UnicodeData} (uuid4 : nat → UUID) `{!Inj (=) (=) uuid4} (now : time)
  (storage : option BlobStorage).

(** Ids to come are new, and hits belong to stored runs. *)
Record rag_wf (db : RagDb) : Prop := mkRagWf {
  rwf_new : ∀ n, (rg_next db ≤ n)%nat → uuid4 n ∉ map rn_id (rg_runs db);
  rwf_hits : ∀ h, h ∈ rg_hits db → hr_retrieval_run_id h ∈ map rn_id (rg_runs db) }.

Lemma add_hits_spec run_id hits : ∀ db us db', add_hits uuid4 now run_id hits db = Ok (us, db') →
  rg_knowledge db' = rg_knowledge db ∧ rg_runs db' = rg_runs db ∧ rg_indexes db' = rg_indexes db ∧
  rg_postings db' = rg_postings db ∧ (rg_next db ≤ rg_next db')%nat ∧
  ∃ rows, rg_hits db' = rg_hits db ++ rows ∧ map hr_write rows = hits ∧
    Forall (λ r, hr_retrieval_run_id r = run_id) rows.
Proof using All.
  induction hits as [|h hits IH]; intros db us db' Ha.
  { injection Ha as <- <-. split_and!; try done. exists []. rewrite app_nil_r. by split_and!. }
  unfold add_hits in Ha. cbn [sess_map] in Ha.
  apply sess_bind_Ok in Ha as (u & db1 & Hh & Ha). apply sess_bind_Ok in Ha as (us' & db2 & Hs & Ha).
  injection Ha as <- <-. unfold add_hit in Hh. apply guard_seq in Hh as [_ Hh]. injection Hh as <- <-.
  apply IH in Hs as (E1 & E2 & E3 & E4 & E5 & rows & E6 & E7 & Hrows).
  cbn [with_hits rg_knowledge rg_runs rg_indexes rg_postings rg_hits rg_next] in *.
  split_and!; try done; [lia|]. eexists (_ :: rows). rewrite E6, <- app_assoc.
  split_and!; [done|by cbn; rewrite E7|by constructor].
Qed.

Lemma res_filter_Ok {A} (f : A → res bool) l l' : res_filter f l = Ok l' →
  ∀ x, x ∈ l' → x ∈ l ∧ f x = Ok true.
Proof.
  revert l'. induction l as [|x l IH]; intros l' Hf; [injection Hf as <-; by intros y ?%elem_of_nil|].
  cbn in Hf. apply bind_Ok in Hf as (b & Hb & Hf). apply bind_Ok in Hf as (rest & Hr & Hf).
  injection Hf as <-. intros y Hy. destruct b.
  - apply elem_of_cons in Hy as [->|Hy]; [split; [left|done]|].
    destruct (IH _ Hr y Hy). split; [by right|done].
  - destruct (IH _ Hr y Hy). split; [by right|done].
Qed.

Lemma length_hit_writes verified : length (hit_writes verified) = length verified.
Proof. unfold hit_writes. rewrite length_zip_with, length_seqZ. lia. Qed.

Lemma hit_writes_ranks verified :
  map hw_final_rank (hit_writes verified) = seqZ 1 (Z.of_nat (length verified)).
Proof.
  unfold hit_writes. generalize 1. induction verified as [|h l IH]; intros k; [done|].
  cbn [length]. rewrite seqZ_cons by lia. cbn. f_equal. rewrite Nat2Z.inj_succ, Z.pred_succ. apply IH.
Qed.

Lemma hit_writes_elem verified w : w ∈ hit_writes verified →
  ∃ h, h ∈ verified ∧ hw_chunk_id w = hy_chunk_id h ∧ hw_citation_id w = hy_citation_id h.
Proof.
  unfold hit_writes. intros (i & rank & h & -> & _ & Hh)%elem_of_lookup_zip_with.
  exists h. split; [by eapply list_elem_of_lookup_2|done].
Qed.

(** Rows of increasing rank are listed as they are. *)
Lemma ranked_rows rows k : map (λ r : RetrievalHitRecord, hw_final_rank r) rows =
    seqZ k (Z.of_nat (length rows)) →
  sort_by (λ a b : RetrievalHitRecord, (hw_final_rank a <? hw_final_rank b)
    || ((hw_final_rank a =? hw_final_rank b) && uuid_ltb (hr_id a) (hr_id b))) rows = rows.
Proof.
  intros Hr. apply sort_by_id. revert k Hr. induction rows as [|r rows IH]; intros k Hr; [constructor|].
  cbn [map length] in Hr. rewrite seqZ_cons in Hr by lia. rewrite Nat2Z.inj_succ, Z.pred_succ in Hr.
  injection Hr as Hk Hr. constructor; [by eapply IH|]. apply Forall_forall. intros x Hx.
  assert (Hin : hw_final_rank x ∈ map (λ r : RetrievalHitRecord, hw_final_rank r) rows)
    by (by apply (list_elem_of_fmap_2 (λ r : RetrievalHitRecord, hw_final_rank r))).
  rewrite Hr in Hin. apply elem_of_seqZ in Hin. unfold not_after.
  destruct (Z.ltb_spec (hw_final_rank x) (hw_final_rank r)), (Z.eqb_spec (hw_final_rank x) (hw_final_rank r));
    try done; lia.
Qed.

Lemma find_snoc_row {A} (p : A → bool) l x : (∀ y, y ∈ l → p y = false) → p x = true →
  find p (l ++ [x]) = Some x.
Proof.
  intros Hl Hx. apply find_snoc; [|done]. induction l as [|y l IH]; [done|]. cbn.
  rewrite Hl by left. apply IH. intros z Hz. apply Hl. by right.
Qed.

(** The rows that [record_hits] stores and returns. *)
Definition recorded (request : RetrievalRequest) (prepared : PreparedRetrieval) (kdb : KnowledgeDb)
    (hits : list RetrievalHitRecord) : Prop :=
  map (λ r : RetrievalHitRecord, hw_final_rank r) hits = seqZ 1 (Z.of_nat (length hits)) ∧
  (Z.of_nat (length hits) ≤ rt_max_results request) ∧
  Forall (λ r : RetrievalHitRecord, ∃ h, h ∈ pp_hits prepared ∧ hw_chunk_id r = hy_chunk_id h ∧
    hw_citation_id r = hy_citation_id h ∧
    citation_valid storage (hw_citation_id r) (rf_snapshot_id (rt_filters request))
      (rf_research_as_of_time (rt_filters request))
      (rf_strict_unknown_publication (rt_filters request)) kdb = Ok true) hits.

Lemma record_hits_spec request prepared run_id db r db' : RetrievalRequest_valid request = true →
  (∀ h, h ∈ rg_hits db → hr_retrieval_run_id h ≠ run_id) →
  record_hits uuid4 now storage request prepared run_id db = Ok (r, db') →
  re_reused r = false ∧ recorded request prepared (rg_knowledge db) (re_hits r) ∧
  rg_knowledge db' = rg_knowledge db ∧ rg_indexes db' = rg_indexes db ∧
  rg_postings db' = rg_postings db ∧ (rg_next db ≤ rg_next db')%nat ∧
  (∃ rows, rg_hits db' = rg_hits db ++ rows ∧ Forall (λ r, hr_retrieval_run_id r = run_id) rows) ∧
  ∃ run terminal, find (λ r, bool_decide (rn_id r = run_id)) (rg_runs db) = Some run ∧
    re_run r = Some terminal ∧ rn_id terminal = run_id ∧ rn_write terminal = rn_write run ∧
    rn_status terminal = re_status r ∧ rn_warnings terminal = re_warnings r ∧
    is_Some (rn_completed_at terminal) ∧
    rg_runs db' = map (λ r, if bool_decide (rn_id r = run_id)
      then complete_run now (rn_status terminal) (rn_warnings terminal) r else r) (rg_runs db) ∧
    terminal = complete_run now (rn_status terminal) (rn_warnings terminal) run ∧
    re_hits r = list_hits run_id (rt_max_results request) db'.
Proof using All.
  intros Hv Hfresh Hr. unfold record_hits in Hr. apply andb_true_iff in Hv as [_ Hv].
  unfold between in Hv. bools.
  apply sess_bind_Ok in Hr as (valid & db0 & Hvalid & Hr). apply bind_Ok in Hvalid as (v & Hvalid & E).
  injection E as <- <-. set (candidates := take _ _) in *. set (verified := filter _ _) in *.
  apply sess_bind_Ok in Hr as (us & db1 & Ha & Hr). apply sess_bind_Ok in Hr as (terminal & db2 & Hf & Hr).
  apply sess_bind_Ok in Hr as (hits & db3 & Hl & Hr). injection Hl as <- <-. injection Hr as <- <-.
  apply add_hits_spec in Ha as (E1 & E2 & E3 & E4 & E5 & rows & E6 & E7 & Hrows).
  unfold finish_run in Hf. destruct (find _ (rg_runs db1)) as [run|] eqn:Efind; [|discriminate Hf].
  apply guard_seq in Hf as [_ Hf]. injection Hf as <- <-. rewrite E2 in Efind.
  assert (Hid : rn_id run = run_id) by (apply find_elem in Efind as [_ Hx]; by apply bool_decide_eq_true in Hx).
  cbn [complete_run rn_id rn_status rn_warnings rn_completed_at re_hits re_reused re_run re_status re_warnings].
  rewrite Hid.
  assert (Hlen : length rows = length verified) by (rewrite <- (length_hit_writes verified), <- E7; by rewrite length_map).
  assert (Hvl : Z.of_nat (length verified) ≤ rt_max_results request).
  { subst verified. etrans; [apply Nat2Z.inj_le, length_filter|]. subst candidates. rewrite length_take. lia. }
  assert (Hranks : map (λ r : RetrievalHitRecord, hw_final_rank r) rows = seqZ 1 (Z.of_nat (length rows))).
  { rewrite Hlen, <- hit_writes_ranks, <- E7, map_map. done. }
  assert (Hlist : list_hits run_id (rt_max_results request)
    (with_rag_runs db1 (map (λ r, if bool_decide (rn_id r = run_id)
       then complete_run now (exclusion prepared candidates verified).1
              (exclusion prepared candidates verified).2 r else r) (rg_runs db1)) (rg_next db1)) = rows).
  { unfold list_hits. cbn [with_rag_runs rg_hits]. rewrite E6, filter_app, list_filter_none.
    - rewrite app_nil_l, list_filter_all by (by apply Forall_forall). rewrite (ranked_rows rows 1 Hranks).
      apply take_ge. rewrite Hlen. lia.
    - apply Forall_forall. intros h Hh. by apply Hfresh. }
  rewrite Hlist. split_and!; try done.
  - split_and!; [done|by rewrite Hlen|]. apply Forall_forall. intros row Hrow.
    assert (Hw : hr_write row ∈ hit_writes verified) by (rewrite <- E7; by apply list_elem_of_fmap_2).
    destruct (hit_writes_elem _ _ Hw) as (h & Hh & Ek & Ec). subst verified.
    apply list_elem_of_filter in Hh as [Hval Hh]. exists h. split_and!; [|done|done|].
    + subst candidates. apply elem_of_take in Hh as (i & Hi & _). by eapply list_elem_of_lookup_2.
    + rewrite Ec. by destruct (res_filter_Ok _ _ _ Hvalid _ Hval) as [_ ?].
  - by exists rows.
  - exists run. eexists. split_and!; try done; [by rewrite E2].
Qed.

Lemma execute_spec engine request db r db' : RetrievalRequest_valid request = true → rag_wf db →
  let ids := generation_ids engine request in
  let fingerprint := canonical_request_fingerprint request ids.1 ids.2 in
  execute uuid4 now storage engine request db = Ok (r, db') →
  (∃ run, find_run_by_fingerprint fingerprint db = Some run ∧ r = reused_run request run db ∧ db' = db) ∨
  (re_reused r = false ∧ rag_wf db' ∧ rg_knowledge db' = rg_knowledge db ∧
   rg_indexes db' = rg_indexes db ∧ rg_postings db' = rg_postings db ∧
   (∃ prepared, retrieve engine request = Ok prepared ∧
      recorded request prepared (rg_knowledge db) (re_hits r)) ∧
   ∃ run, re_run r = Some run ∧ find_run_by_fingerprint fingerprint db' = Some run ∧
     reused_run request run db' =
       mkExecution (re_status r) (re_run r) (re_hits r) true (re_warnings r)).
Proof using All.
  intros Hv Hwf. cbv zeta. unfold execute. cbv zeta.
  set (fingerprint := canonical_request_fingerprint _ _ _).
  destruct (find_run_by_fingerprint fingerprint db) as [run|] eqn:Ef.
  { intros [= <- <-]. left. by exists run. }
  intros He. right. apply bind_Ok in He as (prepared & Hp & He). apply bind_Ok in He as (write & Hw & He).
  apply validated_Ok in Hw as [-> _]. apply sess_bind_Ok in He as (acquired & db1 & Ha & He).
  unfold acquire_run in Ha. cbn [run_write rw_request_fingerprint] in Ha. rewrite Ef in Ha.
  injection Ha as <- <-. cbn [negb fst snd rn_id] in He.
  destruct Hwf as [Hnew Hhits]. set (id := uuid4 (rg_next db)) in *.
  assert (Hid : id ∉ map rn_id (rg_runs db)) by (apply Hnew; lia).
  set (row := mkRunRecord _ id _ _ _ _) in *.
  apply record_hits_spec in He as (Hreused & Hrec & E1 & E2 & E3 & E4 & (rows & E5 & Hrows) & run & terminal &
    Hfind & Hrun & Htid & Htw & Hst & Hwa & Hcomp & E6 & Ht & Hlist); [|done|].
  2: { intros h Hh <-. cbn in Hh. by apply Hid, Hhits. }
  cbn [with_rag_runs rg_runs rg_knowledge rg_indexes rg_postings rg_hits rg_next] in *.
  assert (Hrow : run = row).
  { rewrite (find_snoc_row (λ r, bool_decide (rn_id r = id))) in Hfind; [by injection Hfind as <-| |].
    - intros x Hx. apply bool_decide_eq_false_2. intros E. apply Hid. rewrite <- E.
      by apply list_elem_of_fmap_2.
    - by apply bool_decide_eq_true_2. }
  subst run.
  assert (Hold : map (λ r, if bool_decide (rn_id r = id)
      then complete_run now (rn_status terminal) (rn_warnings terminal) r else r) (rg_runs db) = rg_runs db).
  { clear -Hid. induction (rg_runs db) as [|x l IH]; [done|]. cbn in *. apply not_elem_of_cons in Hid as [Hx Hl].
    rewrite bool_decide_eq_false_2 by done. f_equal. by apply IH. }
  rewrite map_app, Hold in E6. cbn in E6. rewrite bool_decide_eq_true_2 in E6 by done.
  rewrite <- Ht in E6. split_and!; try done.
  - split.
    + intros n Hn. rewrite E6, map_app. apply not_elem_of_app. split; [apply Hnew; lia|]. cbn. rewrite Htid.
      intros E%list_elem_of_singleton%(inj uuid4). lia.
    + intros h. rewrite E5, E6, map_app. intros [Hh|Hh]%elem_of_app; apply elem_of_app.
      * left. by apply Hhits.
      * right. rewrite Forall_forall in Hrows. rewrite (Hrows h Hh), <- Htid. left.
  - by exists prepared.
  - exists terminal. split_and!; [done| |].
    + unfold find_run_by_fingerprint. rewrite E6. apply find_snoc; [exact Ef|].
      apply bool_decide_eq_true_2. by rewrite Htw.
    + unfold reused_run. destruct Hcomp as [t ->]. cbn. by rewrite Htid, Hst, Hwa, Hrun, Hlist.
Qed.

(** * Searches *)

Definition grounded_hit (kdb : KnowledgeDb) (security_id : UUID) (snapshot_id : option UUID)
    (as_of : option time) (h : RetrievalHitRecord) : Prop :=
  (∃ k v, k ∈ kd_chunks kdb ∧ ckr_id k = hw_chunk_id h ∧
     get_document_version (ckr_version k) kdb = Some v ∧ dv_security_id v = security_id ∧
     visible kdb snapshot_id as_of v) ∧
  (∃ c, c ∈ kd_citations kdb ∧ car_id c = hw_citation_id h ∧
     ca_chunk_id (car_draft c) = Some (hw_chunk_id h)) ∧
  citation_valid storage (hw_citation_id h) snapshot_id as_of true kdb = Ok true.

Definition search_request (query : ustr) (security_id : UUID) (snapshot_id : option UUID)
    (as_of : option time) (mode : RetrievalMode) (max_results : Z) : RetrievalRequest :=
  mkRetrieval query mode (mkFilters security_id snapshot_id as_of [] [] [] [] true) max_results.

(** The engine of the search command over the stored tables. *)
Definition stored_engine (id : UUID) (chunks : list IndexableChunk) (index : LexicalIndexResult)
    (kdb : KnowledgeDb) : RetrievalEngine :=
  DeterministicRetrievalEngine id
    (search chunks index (citation_ids_for_chunks (map ic_chunk_id chunks) kdb)).

Lemma rag_search_Ok query security_id snapshot_id as_of mode max_results db r db' :
  let request := search_request query security_id snapshot_id as_of mode max_results in
  rag_search uuid4 now storage query security_id snapshot_id as_of mode max_results db = Ok (r, db') ↔
  ∃ index id chunks, find_lexical_index security_id snapshot_id as_of db = Ok (Some index) ∧
    ix_index_version_id index = Some id ∧
    list_indexable_chunks security_id (rg_knowledge db) = Ok chunks ∧
    RetrievalFilters_valid (rt_filters request) = true ∧ RetrievalRequest_valid request = true ∧
    execute uuid4 now storage (stored_engine id chunks index (rg_knowledge db)) request db = Ok (r, db').
Proof using.
  cbv zeta. unfold rag_search. split.
  - intros H0. apply bind_Ok in H0 as ([index|] & Hf & H0); [|discriminate H0].
    destruct (ix_index_version_id index) as [id|] eqn:Ei; [|discriminate H0].
    apply bind_Ok in H0 as (chunks & Hc & H0). apply bind_Ok in H0 as (filters & Hfl & H0).
    apply bind_Ok in H0 as (request & Hr & H0). apply validated_Ok in Hfl as [-> Hfl], Hr as [-> Hr].
    exists index, id, chunks. by split_and!.
  - intros (index & id & chunks & Hf & Ei & Hc & Hfl & Hr & He). rewrite Hf, Ok_bind, Ei, Hc, Ok_bind.
    unfold validated. cbn [rt_filters search_request] in Hfl. rewrite Hfl, Ok_bind.
    unfold search_request in Hr. rewrite Hr, Ok_bind. exact He.
Qed.

Lemma indexable_row security_id kdb chunks c : list_indexable_chunks security_id kdb = Ok chunks →
  c ∈ chunks → ∃ k, k ∈ kd_chunks kdb ∧ joined_chunk security_id kdb k = Some c.
Proof using.
  intros Hl Hc. apply res_map_Ok in Hl. destruct (Forall2_elem_r _ _ _ _ Hl Hc) as (x & Hx & Hv).
  apply validated_Ok in Hv as [-> _]. apply list_elem_of_omap in Hx as (k & Hk & Hj).
  exists k. by rewrite elem_of_sort_by in Hk.
Qed.

Lemma citation_row ids kdb id cid : citation_ids_for_chunks ids kdb !! id = Some cid →
  ∃ c, c ∈ kd_citations kdb ∧ car_id c = cid ∧ ca_chunk_id (car_draft c) = Some id.
Proof using.
  intros Hl. apply elem_of_list_to_map_2, list_elem_of_omap in Hl as (id' & _ & Hl).
  unfold citation_of_chunk in Hl. destruct (sort_by _ _) as [|c l] eqn:E; [discriminate Hl|].
  injection Hl as -> <-. exists c. assert (Hc : c ∈ c :: l) by left. rewrite <- E in Hc.
  rewrite elem_of_sort_by in Hc. apply list_elem_of_filter in Hc as [Hid Hc]. done.
Qed.

(** C22. Retrieval end to end: the hits a new search stores and returns are ranked
    from one, at most as many as were asked for, and each is a stored chunk of
    the security whose version was published, and not superseded, by the
    research time (or belongs to the snapshot), with a citation of that chunk
    that verifies. *)
Theorem search_hits_grounded query security_id snapshot_id as_of mode max_results db r db' :
  rag_wf db →
  rag_search uuid4 now storage query security_id snapshot_id as_of mode max_results db = Ok (r, db') →
  re_reused r = false →
  map (λ h : RetrievalHitRecord, hw_final_rank h) (re_hits r) = seqZ 1 (Z.of_nat (length (re_hits r))) ∧
  Z.of_nat (length (re_hits r)) ≤ max_results ∧
  Forall (grounded_hit (rg_knowledge db) security_id snapshot_id as_of) (re_hits r) ∧
  rg_knowledge db' = rg_knowledge db ∧ rag_wf db'.
Proof using All.
  intros Hwf Hs Hnew. apply rag_search_Ok in Hs as (index & id & chunks & _ & _ & Hc & _ & Hv & He).
  apply execute_spec in He; [|done..].
  destruct He as [(run & _ & -> & _)|(_ & Hwf' & Hk & _ & _ & (prepared & Hp & Hranks & Hlen & Hall) & _)].
  { unfold reused_run in Hnew. by destruct (is_some _). }
  split_and!; [done|done| |done|done]. apply retrieve_sound in Hp.
  eapply Forall_impl; [exact Hall|]. intros row (h & Hh & Ek & Ec & Hval).
  rewrite Forall_forall in Hp. destruct (Hp h Hh) as (c & Hcin & Eid & Hcit & Hm).
  destruct (indexable_row _ _ _ _ Hc Hcin) as (k & Hk' & Hj).
  apply (joined_visible _ _ snapshot_id as_of) in Hj as (Eck & v & Hver & Hsec & Hvis); [|done].
  split; [|split].
  - exists k, v. split_and!; try done. congruence.
  - rewrite Ek, Ec. by eapply citation_row.
  - exact Hval.
Qed.

Lemma find_lexical_index_same security_id snapshot_id as_of db db' :
  rg_indexes db' = rg_indexes db → rg_postings db' = rg_postings db →
  find_lexical_index security_id snapshot_id as_of db' = find_lexical_index security_id snapshot_id as_of db.
Proof using.
  intros Ei Ep. unfold find_lexical_index, current_generation, load_lexical_index. by rewrite Ei, Ep.
Qed.
End Runs.

(** The same search again, at any later time, returns the stored run with the
    same hits and writes nothing. *)
Theorem search_repeats `{UnicodeData} (uuid4 : nat → UUID) `{!Inj (=) (=) uuid4} now storage query
    security_id snapshot_id as_of mode max_results db r db' uuid4' now' storage' :
  rag_wf uuid4 db →
  rag_search uuid4 now storage query security_id snapshot_id as_of mode max_results db = Ok (r, db') →
  re_reused r = false →
  rag_search uuid4' now' storage' query security_id snapshot_id as_of mode max_results db' =
    Ok (mkExecution (re_status r) (re_run r) (re_hits r) true (re_warnings r), db').
Proof.
  intros Hwf Hs Hnew. apply rag_search_Ok in Hs as (index & id & chunks & Hf & Hid & Hc & Hfl & Hv & He).
  apply execute_spec in He; [|done..].
  destruct He as [(run & _ & -> & _)|(_ & _ & Hk & Ei & Ep & _ & run & _ & Hfind & Hr)].
  { unfold reused_run in Hnew. by destruct (is_some _). }
  apply rag_search_Ok. exists index, id, chunks. rewrite Hk.
  rewrite (find_lexical_index_same _ _ _ db db') by done. split_and!; try done.
  unfold execute. cbv zeta. rewrite Hfind. by rewrite Hr.
Qed.

(** * Samples *)

Definition sample_rag : res (RagDb * UUID) :=
  ingested ← sample_ingest;
  built ← build_lexical_index (H := ascii_unicode) 6500 (sample_id 101) None
            (Some (mkDatetime 6000 (Some 0))) (mkRag ingested.2 [] [] [] [] 0);
  Ok (built.2, sample_id 101).
Abbreviation sample_query := (ulit "report").
Abbreviation sample_search_run now db := (rag_search (H := ascii_unicode) next_uuid now
  (Some sample_storage) sample_query (sample_id 101) None (Some 6000) RMode.LEXICAL 5 db).

Lemma empty_runs_wf db : rg_runs db = [] → rg_hits db = [] → rag_wf next_uuid db.
Proof.
  intros Hr Hh. split; rewrite ?Hr, ?Hh; cbn; [intros n _; apply not_elem_of_nil|].
  by intros h ?%elem_of_nil.
Qed.

(** The ingested sample is found. *)
Lemma search_hits_grounded_witness :
  ∃ db r db', rag_wf next_uuid db ∧ sample_search_run 7000 db = Ok (r, db') ∧
    map (λ h : RetrievalHitRecord, hw_chunk_id h) (re_hits r) = [next_uuid 2] ∧
    Forall (grounded_hit (Some sample_storage) (rg_knowledge db) (sample_id 101) None (Some 6000)) (re_hits r).
Proof.
  assert (Hr : match sample_rag with
    | Ok (db, _) => rg_runs db = [] ∧ rg_hits db = [] ∧
        match sample_search_run 7000 db with
        | Ok (r, _) => re_reused r = false ∧
            map (λ h : RetrievalHitRecord, hw_chunk_id h) (re_hits r) = [next_uuid 2]
        | Raise _ => False
        end
    | Raise _ => False
    end) by (vm_compute; split_and!; reflexivity).
  destruct sample_rag as [[db id]|e]; [|destruct Hr]. destruct Hr as (H1 & H2 & Hr).
  destruct (sample_search_run 7000 db) as [[r db']|e] eqn:Es; [|destruct Hr]. destruct Hr as [Hnew Hids].
  exists db, r, db'. pose proof (empty_runs_wf db H1 H2) as Hwf. split; [exact Hwf|].
  split; [exact Es|]. split; [exact Hids|].
  exact (proj1 (proj2 (proj2 (search_hits_grounded (H := ascii_unicode) next_uuid 7000
    (Some sample_storage) sample_query (sample_id 101) None (Some 6000) RMode.LEXICAL 5 db r db'
    Hwf Es Hnew)))).
Defined.

Lemma search_repeats_witness :
  ∃ db r db', sample_search_run 7000 db = Ok (r, db') ∧
    sample_search_run 9000 db' = Ok (mkExecution (re_status r) (re_run r) (re_hits r) true (re_warnings r), db').
Proof.
  assert (Hr : match sample_rag with
    | Ok (db, _) => rg_runs db = [] ∧ rg_hits db = [] ∧
        match sample_search_run 7000 db with Ok (r, _) => re_reused r = false | Raise _ => False end
    | Raise _ => False
    end) by (vm_compute; split_and!; reflexivity).
  destruct sample_rag as [[db id]|e]; [|destruct Hr]. destruct Hr as (H1 & H2 & Hr).
  destruct (sample_search_run 7000 db) as [[r db']|e] eqn:Es; [|destruct Hr].
  exists db, r, db'. split; [exact Es|].
  exact (search_repeats (H := ascii_unicode) next_uuid 7000 (Some sample_storage) sample_query
    (sample_id 101) None (Some 6000) RMode.LEXICAL 5 db r db' next_uuid 9000 (Some sample_storage)
    (empty_runs_wf db H1 H2) Es Hr).
Defined.

(** A time without an offset, as the command line parses it, never builds an index. *)
Lemma naive_as_of_builds_nothing `{UnicodeData} now security_id snapshot_id t db x :
  build_lexical_index now security_id snapshot_id (Some (mkDatetime t None)) db ≠ Ok x.
Proof.
  intros Hb. apply bind_Ok in Hb as (chunks & _ & Hb). apply guard_seq in Hb as [_ Hb].
  apply bind_Ok in Hb as (as_of & Ha & _). discriminate Ha.
Qed.
