(* ===== verification/RagRead.v ===== *)
(** Cache-only reads of retrieval: evidence bundles of stored runs
    (db/repositories/knowledge.py, domain/retrieval/evidence.py) and the
    precomputed query service (domain/retrieval/service.py). *)
From S2P Require Import Prelude PyDecimal PyText Sha256 AgentModel Text DocModel Session Chunking.
From S2P Require Import Citations Knowledge DocIdentity Parsers Ingest DocumentCli.
From S2P Require Import Bm25 RetrievalModel Ranking Lexical Retrieval Grounded.

Record EvidenceItem := mkItem {
  ei_citation_id : UUID; ei_document_version_id : UUID; ei_chunk_id : UUID; ei_excerpt : ustr;
  ei_document_type : string; ei_trust_level : TrustLevel; ei_published_at : option time;
  ei_provider_id : UUID; ei_source_document_id : UUID; ei_evidence_origin : string;
  ei_access_mode : string; ei_live_status : string; ei_locator_type : LocatorType;
  ei_start_page : option Z; ei_end_page : option Z; ei_section_path : option ustr;
  ei_chunk_version : string; ei_parser_version : string; ei_tokenizer_version : string;
  ei_citation_version : string; ei_document_checksum : string; ei_match_reason : string }.
Definition EvidenceItem_valid (i : EvidenceItem) : bool :=
  ulen_between 1 1000 (ei_excerpt i) && bool_decide (ei_document_type i ∈ document_types_all)
  && opt_forallb (λ p, 1 <=? p) (ei_start_page i) && opt_forallb (λ p, 1 <=? p) (ei_end_page i)
  && opt_forallb (λ t, ulen t <=? 1000) (ei_section_path i) && Checksum_ok (ei_document_checksum i)
  && between 1 256 (Z.of_nat (String.length (ei_match_reason i))).

Record EvidenceBundle := mkBundle {
  eb_status : RetrievalStatus; eb_retrieval_run_id : option UUID; eb_mode : RetrievalMode;
  eb_research_as_of_time : option time; eb_snapshot_id : option UUID;
  eb_lexical_index_version_id : option UUID; eb_vector_index_version_id : option UUID;
  eb_items : list EvidenceItem; eb_warnings : list string }.

(** * A bundle from verified citations (evidence.py) *)

Record VerifiedCitationEvidence := mkVerified { ve_item : EvidenceItem; ve_status : CitationStatus }.

Definition with_excerpt (i : EvidenceItem) (excerpt : ustr) (reason : string) : EvidenceItem :=
  mkItem (ei_citation_id i) (ei_document_version_id i) (ei_chunk_id i) excerpt (ei_document_type i)
    (ei_trust_level i) (ei_published_at i) (ei_provider_id i) (ei_source_document_id i)
    (ei_evidence_origin i) (ei_access_mode i) (ei_live_status i) (ei_locator_type i) (ei_start_page i)
    (ei_end_page i) (ei_section_path i) (ei_chunk_version i) (ei_parser_version i)
    (ei_tokenizer_version i) (ei_citation_version i) (ei_document_checksum i) reason.

(** [tuple(dict.fromkeys(values))] *)
Definition dedup_warnings (l : list string) : list string :=
  foldl (λ d w, if bool_decide (w ∈ d) then d else d ++ [w]) [] l.

(** The dictionary of valid citations keeps the last of an id. *)
Definition bundle_item (citations : list VerifiedCitationEvidence) (limit : Z)
    (hit : RetrievalHitRecord) : option EvidenceItem :=
  match find (λ c, bool_decide (ei_citation_id (ve_item c) = hw_citation_id hit)
                   && bool_decide (ve_status c = CitSt.VALID)) (rev citations) with
  | Some c =>
      if bool_decide (ei_chunk_id (ve_item c) = hw_chunk_id hit) then
        Some (with_excerpt (ve_item c) (slice (ei_excerpt (ve_item c)) 0 limit) (hw_rerank_reason hit))
      else None
  | None => None
  end.

Definition build_evidence_bundle (run : RetrievalRunRecord) (hits : list RetrievalHitRecord)
    (citations : list VerifiedCitationEvidence) (excerpt_limit : Z) : res EvidenceBundle :=
  reject_if (negb (between 1 1000 excerpt_limit)) ValueError
    "excerpt_limit must be between 1 and 1000";;
  items ← res_map (validated EvidenceItem_valid) (omap (bundle_item citations excerpt_limit)
    (sort_by (λ a b : RetrievalHitRecord, hw_final_rank a <? hw_final_rank b) hits));
  let warnings := rn_warnings run
    ++ (if existsb (λ c, negb (bool_decide (ve_status c = CitSt.VALID))) citations
        then ["INVALID_CITATION_EXCLUDED"] else [])
    ++ (if bool_decide (items = []) then ["NO_VALID_CITATIONS"] else []) in
  Ok (mkBundle (if bool_decide (items = []) then RetSt.BLOCKED else rn_status run) (Some (rn_id run))
        (rw_mode run) (rw_research_as_of_time run) (rw_snapshot_id run)
        (rw_lexical_index_version_id run) (rw_vector_index_version_id run) items
        (dedup_warnings warnings)).

(** * The bundle of a stored run *)

Definition min_limit (limit : Z) : Z := Z.min (Z.max limit 1) 20.

Section Bundle.
Context (storage : option BlobStorage).

(** A hit with the rows it is joined to. *)
Record JoinedHit := mkJoined {
  jh_hit : RetrievalHitRecord; jh_citation : CitationAnchor; jh_chunk : DocumentChunk;
  jh_version : DocumentVersionRecord; jh_logical : LogicalDocument; jh_run : DocumentParseRun }.
Definition hit_join (kdb : KnowledgeDb) (hit : RetrievalHitRecord) : option JoinedHit :=
  match find (λ c, bool_decide (car_id c = hw_citation_id hit)) (kd_citations kdb),
        find (λ c, bool_decide (ckr_id c = hw_chunk_id hit)) (kd_chunks kdb) with
  | Some citation, Some chunk =>
      match get_document_version (ca_document_version_id (car_draft citation)) kdb,
            get_run (ca_parse_run_id (car_draft citation)) kdb with
      | Some version, Some parse_run =>
          match find (λ l, bool_decide (ld_id l = dv_logical_document_id version)) (kd_logical kdb) with
          | Some logical => Some (mkJoined hit citation chunk version logical parse_run)
          | None => None
          end
      | _, _ => None
      end
  | _, _ => None
  end.

Definition stored_item (run : RetrievalRunRecord) (row : JoinedHit) : EvidenceItem :=
  let c := car_draft (jh_citation row) in
  let version := jh_version row in
  mkItem (car_id (jh_citation row)) (ca_document_version_id c) (ckr_id (jh_chunk row)) (ca_excerpt c)
    (ld_document_type (jh_logical row)) (dv_trust_level version) (dv_published_at version)
    (dv_provider_id version) (dv_source_document_id version) (dv_evidence_origin version)
    (dv_access_mode version) (dv_live_status version) (ca_locator_type c) (ca_start_page c)
    (ca_end_page c) (car_section_path (jh_citation row)) (ck_chunk_version (ckr_draft (jh_chunk row)))
    (pr_parser_version (jh_run row)) (rw_tokenizer_version run) (ca_citation_version c)
    (dv_checksum version) (hw_rerank_reason (jh_hit row)).

Definition run_hits (run_id : UUID) (db : RagDb) : list RetrievalHitRecord :=
  filter (λ h, hr_retrieval_run_id h = run_id) (rg_hits db).

Definition _bundle_for_run (run : RetrievalRunRecord) (db : RagDb) : res EvidenceBundle :=
  let total_hits := length (run_hits (rn_id run) db) in
  let rows := omap (hit_join (rg_knowledge db)) (list_hits (rn_id run) 20 db) in
  valid_rows ← res_filter (λ row, citation_valid storage (car_id (jh_citation row)) (rw_snapshot_id run)
                 (rw_research_as_of_time run) true (rg_knowledge db)) rows;
  let excluded := negb (length valid_rows =? total_hits)%nat in
  items ← res_map (validated EvidenceItem_valid) (map (stored_item run) valid_rows);
  Ok (mkBundle
        (if excluded && bool_decide (rn_status run = RetSt.PASS) then RetSt.PARTIAL else rn_status run)
        (Some (rn_id run)) (rw_mode run) (rw_research_as_of_time run) (rw_snapshot_id run)
        (rw_lexical_index_version_id run) (rw_vector_index_version_id run) items
        (rn_warnings run ++ (if excluded then ["INVALID_CITATIONS_EXCLUDED"] else []))).

(** [get_evidence_bundle] and [get_retrieval_run]: completed runs only. *)
Definition get_retrieval_run (id : UUID) (db : RagDb) : option RetrievalRunRecord :=
  match find (λ r, bool_decide (rn_id r = id)) (rg_runs db) with
  | Some run => if is_some (rn_completed_at run) then Some run else None
  | None => None
  end.
Definition get_evidence_bundle (id : UUID) (db : RagDb) : res (option EvidenceBundle) :=
  match get_retrieval_run id db with
  | Some run => Some <$> _bundle_for_run run db
  | None => Ok None
  end.

(** The latest completed run of a request, on the current index generation. *)
Definition run_ltb (a b : RetrievalRunRecord) : bool :=
  let completed r := default 0 (rn_completed_at r) in
  (completed b <? completed a) || ((completed a =? completed b) && uuid_ltb (rn_id a) (rn_id b)).
Definition find_bundle_for_request (basis : string) (request : RetrievalRequest) (db : RagDb) :
    res (option EvidenceBundle) :=
  let f := rt_filters request in
  let candidates := filter (λ r : RetrievalRunRecord,
    rw_request_basis_fingerprint r = basis ∧ is_Some (rn_completed_at r)) (rg_runs db) in
  let latest rows := match head (sort_by run_ltb rows) with
                     | None => Ok None
                     | Some run => Some <$> _bundle_for_run run db
                     end in
  if bool_decide (rt_mode request = RMode.VECTOR) then latest candidates
  else match current_generation (rf_security_id f) (rf_snapshot_id f) (rf_research_as_of_time f) db with
  | None => Ok None
  | Some generation =>
      latest (filter (λ r : RetrievalRunRecord,
        rw_lexical_index_version_id r = Some (iv_id generation)) candidates)
  end.

(** * The query service *)

(** [PrecomputedRetrievalQueryService.lookup] *)
Definition lookup `{UnicodeData} (request : RetrievalRequest) (db : RagDb) : res EvidenceBundle :=
  found ← find_bundle_for_request (canonical_request_basis_fingerprint request) request db;
  match found with
  | Some bundle => Ok bundle
  | None =>
      let f := rt_filters request in
      Ok (mkBundle RetSt.BLOCKED None (rt_mode request) (rf_research_as_of_time f) (rf_snapshot_id f)
            None None [] ["RETRIEVAL_RUN_NOT_PRECOMPUTED"])
  end.

(** [list_document_versions]: the versions of a security visible in a scope. *)
Definition version_ltb (a b : DocumentVersionRecord) : bool :=
  let published v := dv_published_at v in
  match published a, published b with
  | Some _, None => true
  | None, Some _ => false
  | pa, pb =>
      (default 0 pb <? default 0 pa)
      || ((default 0 pa =? default 0 pb)
          && ((dv_version_number b <? dv_version_number a)
              || ((dv_version_number a =? dv_version_number b) && uuid_ltb (dv_id a) (dv_id b))))
  end.
Definition version_in_scope (security_id : UUID) (snapshot_id : option UUID) (as_of : option time)
    (kdb : KnowledgeDb) (v : DocumentVersionRecord) : bool :=
  bool_decide (dv_security_id v = security_id)
  && match snapshot_id, as_of with
     | Some s, _ => bool_decide (s ∈ version_snapshots (dv_id v) kdb)
     | None, Some t => match dv_published_at v with Some p => p <=? t | None => false end
     | None, None => true
     end.
Definition list_document_versions (security_id : UUID) (snapshot_id : option UUID)
    (as_of : option time) (limit : Z) (kdb : KnowledgeDb) : list DocumentVersionRecord :=
  take (Z.to_nat (min_limit limit)) (sort_by version_ltb
    (filter (λ v, version_in_scope security_id snapshot_id as_of kdb v = true) (kd_versions kdb))).

(** [_read_result] and [_status_read]: the status and warnings of a read. *)
Definition _read_result {A} (records : list A) (missing : string) :
    RetrievalStatus * list A * list string :=
  if bool_decide (length records = 0%nat) then (RetSt.BLOCKED, [], [missing])
  else (RetSt.PASS, records, []).
Definition _status_read (record : option EvidenceBundle) :
    RetrievalStatus * list EvidenceBundle * list string :=
  match record with
  | None => _read_result [] "RAG_RECORD_NOT_FOUND"
  | Some bundle => (eb_status bundle, [bundle], eb_warnings bundle)
  end.

(** * What a bundle holds *)

(** Every item is a ranked hit of the run with the citation's exact excerpt, and
    the citation verifies in the scope of the run at the time of the read. *)
Definition item_grounded (run : RetrievalRunRecord) (db : RagDb) (i : EvidenceItem) : Prop :=
  ∃ (hit : RetrievalHitRecord) c, hit ∈ run_hits (rn_id run) db ∧ c ∈ kd_citations (rg_knowledge db) ∧
    car_id c = hw_citation_id hit ∧ ei_citation_id i = car_id c ∧ ei_chunk_id i = hw_chunk_id hit ∧
    ei_excerpt i = ca_excerpt (car_draft c) ∧
    citation_valid storage (car_id c) (rw_snapshot_id run) (rw_research_as_of_time run) true
      (rg_knowledge db) = Ok true.

Lemma list_hits_sub run_id limit db h : h ∈ list_hits run_id limit db → h ∈ run_hits run_id db.
Proof.
  unfold list_hits. intros (i & Hi & _)%elem_of_take. apply list_elem_of_lookup_2 in Hi.
  by rewrite elem_of_sort_by in Hi.
Qed.

Lemma bundle_items run db bundle : _bundle_for_run run db = Ok bundle →
  Forall (item_grounded run db) (eb_items bundle) ∧
  (eb_status bundle = RetSt.PASS → length (eb_items bundle) = length (run_hits (rn_id run) db)).
Proof.
  intros Hb. apply bind_Ok in Hb as (valid & Hv & Hb). apply bind_Ok in Hb as (items & Hi & Hb).
  injection Hb as <-. cbn [eb_items eb_status]. apply res_map_Ok in Hi.
  assert (E : items = map (stored_item run) valid).
  { clear -Hi. revert Hi. generalize (map (stored_item run) valid). intros l.
    induction 1 as [|x y l k Hx _ IH]; [done|]. apply validated_Ok in Hx as [-> _]. by rewrite IH. }
  subst items. split.
  - apply Forall_forall. intros i (row & -> & Hrow)%list_elem_of_fmap.
    destruct (res_filter_Ok _ _ _ Hv row Hrow) as [Hj Hval].
    apply list_elem_of_omap in Hj as (hit & Hh & Hj). apply list_hits_sub in Hh.
    unfold hit_join in Hj. destruct (find _ (kd_citations _)) as [c|] eqn:Ec; [|discriminate Hj].
    destruct (find _ (kd_chunks _)) as [k|] eqn:Ek; [|discriminate Hj].
    destruct (get_document_version _ _) as [v|]; [|discriminate Hj].
    destruct (get_run _ _) as [p|]; [|discriminate Hj].
    destruct (find _ (kd_logical _)) as [l|]; [|discriminate Hj]. injection Hj as <-.
    apply find_elem in Ec as [Hc Eid%bool_decide_eq_true]. apply find_elem in Ek as [_ Ekid%bool_decide_eq_true].
    exists hit, c. cbn in *. by split_and!.
  - rewrite length_map. destruct (Nat.eqb_spec (length valid) (length (run_hits (rn_id run) db))); [done|].
    cbn. intros E. case_bool_decide; [discriminate E|done].
Qed.

Lemma without_storage_no_items run db bundle : storage = None →
  _bundle_for_run run db = Ok bundle → eb_items bundle = [].
Proof.
  intros Es Hb. apply bind_Ok in Hb as (valid & Hv & Hb). apply bind_Ok in Hb as (items & Hi & Hb).
  injection Hb as <-. cbn. destruct valid as [|row valid]; [by injection Hi as <-|].
  destruct (res_filter_Ok _ _ _ Hv row ltac:(left)) as [_ Hf]. 
  cbn in Hf. rewrite Es in Hf. discriminate Hf.
Qed.
End Bundle.
