(* ===== verification/ReportModel.v ===== *)
(** The vocabulary and contracts of verifiable reports: enumerations, JSON
    payloads, structured content, bindings, reflection and revision records
    (domain/reports/enums.py, schemas.py, reporting.py, binding_schemas.py,
    reflection_policy.py and the contracts of reflection.py, revision.py and
    release_gate.py). *)
From S2P Require Import Prelude PyDecimal PyText Sha256 AgentModel PyParse Text DocModel Bm25.
From Stdlib Require Import Ascii.

(** * Closed vocabularies *)

Module RepType.
Inductive ReportType :=
  | DATA_QUALITY_REPORT | EVIDENCE_SUMMARY | FINANCIAL_RESEARCH_DRAFT | FULL_RESEARCH_DRAFT.
#[global] Instance ReportType_eq_dec : EqDecision ReportType.
Proof. solve_decision. Defined.
Definition all : list ReportType :=
  [DATA_QUALITY_REPORT; EVIDENCE_SUMMARY; FINANCIAL_RESEARCH_DRAFT; FULL_RESEARCH_DRAFT].
Definition value (x : ReportType) : string :=
  match x with
  | DATA_QUALITY_REPORT => "DATA_QUALITY_REPORT"
  | EVIDENCE_SUMMARY => "EVIDENCE_SUMMARY"
  | FINANCIAL_RESEARCH_DRAFT => "FINANCIAL_RESEARCH_DRAFT"
  | FULL_RESEARCH_DRAFT => "FULL_RESEARCH_DRAFT"
  end.
End RepType.
Abbreviation ReportType := RepType.ReportType.

Module RepLocale.
Inductive ReportLocale :=
  | ZH_CN | EN_US.
#[global] Instance ReportLocale_eq_dec : EqDecision ReportLocale.
Proof. solve_decision. Defined.
Definition all : list ReportLocale :=
  [ZH_CN; EN_US].
Definition value (x : ReportLocale) : string :=
  match x with
  | ZH_CN => "zh-CN"
  | EN_US => "en-US"
  end.
End RepLocale.
Abbreviation ReportLocale := RepLocale.ReportLocale.

Module RepSec.
Inductive ReportSection :=
  | RESEARCH_SCOPE | SECURITY_IDENTITY | DATA_AVAILABILITY | FINANCIAL_HEALTH
   | VALUATION_SNAPSHOT | DOCUMENT_EVIDENCE | CATALYST_EVIDENCE | RISK_EVIDENCE
   | CORPORATE_ACTIONS | DATA_QUALITY | CONFLICTS | UNSUPPORTED_CLAIMS | LIMITATIONS
   | CLAIM_INDEX | EVIDENCE_APPENDIX | CITATION_APPENDIX.
#[global] Instance ReportSection_eq_dec : EqDecision ReportSection.
Proof. solve_decision. Defined.
Definition all : list ReportSection :=
  [RESEARCH_SCOPE; SECURITY_IDENTITY; DATA_AVAILABILITY; FINANCIAL_HEALTH; VALUATION_SNAPSHOT
  ; DOCUMENT_EVIDENCE; CATALYST_EVIDENCE; RISK_EVIDENCE; CORPORATE_ACTIONS; DATA_QUALITY
  ; CONFLICTS; UNSUPPORTED_CLAIMS; LIMITATIONS; CLAIM_INDEX; EVIDENCE_APPENDIX
  ; CITATION_APPENDIX].
Definition value (x : ReportSection) : string :=
  match x with
  | RESEARCH_SCOPE => "RESEARCH_SCOPE"
  | SECURITY_IDENTITY => "SECURITY_IDENTITY"
  | DATA_AVAILABILITY => "DATA_AVAILABILITY"
  | FINANCIAL_HEALTH => "FINANCIAL_HEALTH"
  | VALUATION_SNAPSHOT => "VALUATION_SNAPSHOT"
  | DOCUMENT_EVIDENCE => "DOCUMENT_EVIDENCE"
  | CATALYST_EVIDENCE => "CATALYST_EVIDENCE"
  | RISK_EVIDENCE => "RISK_EVIDENCE"
  | CORPORATE_ACTIONS => "CORPORATE_ACTIONS"
  | DATA_QUALITY => "DATA_QUALITY"
  | CONFLICTS => "CONFLICTS"
  | UNSUPPORTED_CLAIMS => "UNSUPPORTED_CLAIMS"
  | LIMITATIONS => "LIMITATIONS"
  | CLAIM_INDEX => "CLAIM_INDEX"
  | EVIDENCE_APPENDIX => "EVIDENCE_APPENDIX"
  | CITATION_APPENDIX => "CITATION_APPENDIX"
  end.
End RepSec.
Abbreviation ReportSection := RepSec.ReportSection.

Module RepSt.
Inductive ResearchReportStatus :=
  | DRAFT | REFLECTED | REVISED | PUBLISHABLE | PARTIAL | BLOCKED | FAILED.
#[global] Instance ResearchReportStatus_eq_dec : EqDecision ResearchReportStatus.
Proof. solve_decision. Defined.
Definition all : list ResearchReportStatus :=
  [DRAFT; REFLECTED; REVISED; PUBLISHABLE; PARTIAL; BLOCKED; FAILED].
Definition value (x : ResearchReportStatus) : string :=
  match x with
  | DRAFT => "DRAFT"
  | REFLECTED => "REFLECTED"
  | REVISED => "REVISED"
  | PUBLISHABLE => "PUBLISHABLE"
  | PARTIAL => "PARTIAL"
  | BLOCKED => "BLOCKED"
  | FAILED => "FAILED"
  end.
End RepSt.
Abbreviation ResearchReportStatus := RepSt.ResearchReportStatus.

Module RepSecSt.
Inductive ReportSectionStatus :=
  | COMPLETE | PARTIAL | BLOCKED | NO_EVIDENCE | NOT_REQUESTED.
#[global] Instance ReportSectionStatus_eq_dec : EqDecision ReportSectionStatus.
Proof. solve_decision. Defined.
Definition all : list ReportSectionStatus :=
  [COMPLETE; PARTIAL; BLOCKED; NO_EVIDENCE; NOT_REQUESTED].
Definition value (x : ReportSectionStatus) : string :=
  match x with
  | COMPLETE => "COMPLETE"
  | PARTIAL => "PARTIAL"
  | BLOCKED => "BLOCKED"
  | NO_EVIDENCE => "NO_EVIDENCE"
  | NOT_REQUESTED => "NOT_REQUESTED"
  end.
End RepSecSt.
Abbreviation ReportSectionStatus := RepSecSt.ReportSectionStatus.

Module BlkType.
Inductive ReportBlockType :=
  | HEADING | PARAGRAPH | BULLET_LIST | METRIC_TABLE | EVIDENCE_TABLE | WARNING | LIMITATION
   | CONFLICT | CLAIM_INDEX | CITATION_LIST.
#[global] Instance ReportBlockType_eq_dec : EqDecision ReportBlockType.
Proof. solve_decision. Defined.
Definition all : list ReportBlockType :=
  [HEADING; PARAGRAPH; BULLET_LIST; METRIC_TABLE; EVIDENCE_TABLE; WARNING; LIMITATION; CONFLICT
  ; CLAIM_INDEX; CITATION_LIST].
Definition value (x : ReportBlockType) : string :=
  match x with
  | HEADING => "HEADING"
  | PARAGRAPH => "PARAGRAPH"
  | BULLET_LIST => "BULLET_LIST"
  | METRIC_TABLE => "METRIC_TABLE"
  | EVIDENCE_TABLE => "EVIDENCE_TABLE"
  | WARNING => "WARNING"
  | LIMITATION => "LIMITATION"
  | CONFLICT => "CONFLICT"
  | CLAIM_INDEX => "CLAIM_INDEX"
  | CITATION_LIST => "CITATION_LIST"
  end.
End BlkType.
Abbreviation ReportBlockType := BlkType.ReportBlockType.

Module BlkSt.
Inductive ReportBlockStatus :=
  | COMPLETE | PARTIAL | BLOCKED | NO_EVIDENCE | NOT_REQUESTED.
#[global] Instance ReportBlockStatus_eq_dec : EqDecision ReportBlockStatus.
Proof. solve_decision. Defined.
Definition all : list ReportBlockStatus :=
  [COMPLETE; PARTIAL; BLOCKED; NO_EVIDENCE; NOT_REQUESTED].
Definition value (x : ReportBlockStatus) : string :=
  match x with
  | COMPLETE => "COMPLETE"
  | PARTIAL => "PARTIAL"
  | BLOCKED => "BLOCKED"
  | NO_EVIDENCE => "NO_EVIDENCE"
  | NOT_REQUESTED => "NOT_REQUESTED"
  end.
End BlkSt.
Abbreviation ReportBlockStatus := BlkSt.ReportBlockStatus.

Module RefKind.
Inductive ReferenceKind :=
  | CITATION | EVIDENCE | METRIC | LIMITATION | CONFLICT.
#[global] Instance ReferenceKind_eq_dec : EqDecision ReferenceKind.
Proof. solve_decision. Defined.
Definition all : list ReferenceKind :=
  [CITATION; EVIDENCE; METRIC; LIMITATION; CONFLICT].
Definition value (x : ReferenceKind) : string :=
  match x with
  | CITATION => "CITATION"
  | EVIDENCE => "EVIDENCE"
  | METRIC => "METRIC"
  | LIMITATION => "LIMITATION"
  | CONFLICT => "CONFLICT"
  end.
End RefKind.
Abbreviation ReferenceKind := RefKind.ReferenceKind.

Module BindRole.
Inductive ReportClaimBindingRole :=
  | PRIMARY | SUPPORTING | CONTRADICTING | LIMITATION.
#[global] Instance ReportClaimBindingRole_eq_dec : EqDecision ReportClaimBindingRole.
Proof. solve_decision. Defined.
Definition all : list ReportClaimBindingRole :=
  [PRIMARY; SUPPORTING; CONTRADICTING; LIMITATION].
Definition value (x : ReportClaimBindingRole) : string :=
  match x with
  | PRIMARY => "PRIMARY"
  | SUPPORTING => "SUPPORTING"
  | CONTRADICTING => "CONTRADICTING"
  | LIMITATION => "LIMITATION"
  end.
End BindRole.
Abbreviation ReportClaimBindingRole := BindRole.ReportClaimBindingRole.

Module VisKind.
Inductive VisibleReferenceKind :=
  | EVIDENCE | METRIC.
#[global] Instance VisibleReferenceKind_eq_dec : EqDecision VisibleReferenceKind.
Proof. solve_decision. Defined.
Definition all : list VisibleReferenceKind :=
  [EVIDENCE; METRIC].
Definition value (x : VisibleReferenceKind) : string :=
  match x with
  | EVIDENCE => "EVIDENCE"
  | METRIC => "METRIC"
  end.
End VisKind.
Abbreviation VisibleReferenceKind := VisKind.VisibleReferenceKind.

Module Sev.
Inductive ReflectionSeverity :=
  | CRITICAL | HIGH | MEDIUM | LOW.
#[global] Instance ReflectionSeverity_eq_dec : EqDecision ReflectionSeverity.
Proof. solve_decision. Defined.
Definition all : list ReflectionSeverity :=
  [CRITICAL; HIGH; MEDIUM; LOW].
Definition value (x : ReflectionSeverity) : string :=
  match x with
  | CRITICAL => "CRITICAL"
  | HIGH => "HIGH"
  | MEDIUM => "MEDIUM"
  | LOW => "LOW"
  end.
End Sev.
Abbreviation ReflectionSeverity := Sev.ReflectionSeverity.

Module Chk.
Inductive RuntimeReflectionCheck :=
  | FACTUAL_BLOCK_HAS_CLAIM | PRIMARY_CLAIM_HAS_EVIDENCE | DOCUMENT_CLAIM_HAS_VALID_CITATION
   | STRUCTURED_CLAIM_HAS_LINEAGE | SECURITY_MATCHES | SNAPSHOT_MATCHES | AS_OF_MATCHES
   | NO_FUTURE_EVIDENCE | STRICT_DOCUMENT_PUBLISHED_AT_KNOWN
   | NO_REAL_RESEARCH_SYNTHETIC_EVIDENCE | NO_CROSS_SECURITY_RECORDS
   | NO_CROSS_SNAPSHOT_RECORDS | CONFLICTING_CLAIMS_DISCLOSED | PARTIAL_SUPPORT_QUALIFIED
   | UNSUPPORTED_CLAIMS_RESTRICTED | BLOCKED_CAPABILITY_NOT_COMPLETED | DATA_QUALITY_PRESENT
   | LIMITATIONS_PRESENT | NO_ORPHAN_BODY_REFERENCE | NO_UNUSED_APPENDIX_REFERENCE
   | CITATION_VALID | CLAIM_SET_CHECKSUM_MATCHES | EVIDENCE_LINK_SET_CHECKSUMS_MATCH
   | PACKAGE_CHECKSUM_MATCHES | NO_RATING_LANGUAGE | NO_TARGET_PRICE | NO_POSITION_ADVICE
   | NO_TRADING_INSTRUCTION | NO_UNSUPPORTED_OVERSTATEMENT | FIXTURE_NOT_DESCRIBED_AS_LIVE
   | SYNTHETIC_NOT_REAL_COMPANY_RESEARCH | EXCERPT_WITHIN_POLICY | UNIT_CURRENCY_MATCH
   | REPORT_AS_OF_PRESENT | SNAPSHOT_IDENTITY_PRESENT | NO_FALSE_MODEL_CALL_CLAIM
   | RETRIEVAL_CAPABILITY_HONEST | JSON_MARKDOWN_CHECKSUMS_MATCH
   | REPORT_STRUCTURE_VERSION_CHAIN_VALID | REPORT_INPUT_MANIFEST_UNCHANGED.
#[global] Instance RuntimeReflectionCheck_eq_dec : EqDecision RuntimeReflectionCheck.
Proof. solve_decision. Defined.
Definition all : list RuntimeReflectionCheck :=
  [FACTUAL_BLOCK_HAS_CLAIM; PRIMARY_CLAIM_HAS_EVIDENCE; DOCUMENT_CLAIM_HAS_VALID_CITATION
  ; STRUCTURED_CLAIM_HAS_LINEAGE; SECURITY_MATCHES; SNAPSHOT_MATCHES; AS_OF_MATCHES
  ; NO_FUTURE_EVIDENCE; STRICT_DOCUMENT_PUBLISHED_AT_KNOWN
  ; NO_REAL_RESEARCH_SYNTHETIC_EVIDENCE; NO_CROSS_SECURITY_RECORDS; NO_CROSS_SNAPSHOT_RECORDS
  ; CONFLICTING_CLAIMS_DISCLOSED; PARTIAL_SUPPORT_QUALIFIED; UNSUPPORTED_CLAIMS_RESTRICTED
  ; BLOCKED_CAPABILITY_NOT_COMPLETED; DATA_QUALITY_PRESENT; LIMITATIONS_PRESENT
  ; NO_ORPHAN_BODY_REFERENCE; NO_UNUSED_APPENDIX_REFERENCE; CITATION_VALID
  ; CLAIM_SET_CHECKSUM_MATCHES; EVIDENCE_LINK_SET_CHECKSUMS_MATCH; PACKAGE_CHECKSUM_MATCHES
  ; NO_RATING_LANGUAGE; NO_TARGET_PRICE; NO_POSITION_ADVICE; NO_TRADING_INSTRUCTION
  ; NO_UNSUPPORTED_OVERSTATEMENT; FIXTURE_NOT_DESCRIBED_AS_LIVE
  ; SYNTHETIC_NOT_REAL_COMPANY_RESEARCH; EXCERPT_WITHIN_POLICY; UNIT_CURRENCY_MATCH
  ; REPORT_AS_OF_PRESENT; SNAPSHOT_IDENTITY_PRESENT; NO_FALSE_MODEL_CALL_CLAIM
  ; RETRIEVAL_CAPABILITY_HONEST; JSON_MARKDOWN_CHECKSUMS_MATCH
  ; REPORT_STRUCTURE_VERSION_CHAIN_VALID; REPORT_INPUT_MANIFEST_UNCHANGED].
Definition value (x : RuntimeReflectionCheck) : string :=
  match x with
  | FACTUAL_BLOCK_HAS_CLAIM => "FACTUAL_BLOCK_HAS_CLAIM"
  | PRIMARY_CLAIM_HAS_EVIDENCE => "PRIMARY_CLAIM_HAS_EVIDENCE"
  | DOCUMENT_CLAIM_HAS_VALID_CITATION => "DOCUMENT_CLAIM_HAS_VALID_CITATION"
  | STRUCTURED_CLAIM_HAS_LINEAGE => "STRUCTURED_CLAIM_HAS_LINEAGE"
  | SECURITY_MATCHES => "SECURITY_MATCHES"
  | SNAPSHOT_MATCHES => "SNAPSHOT_MATCHES"
  | AS_OF_MATCHES => "AS_OF_MATCHES"
  | NO_FUTURE_EVIDENCE => "NO_FUTURE_EVIDENCE"
  | STRICT_DOCUMENT_PUBLISHED_AT_KNOWN => "STRICT_DOCUMENT_PUBLISHED_AT_KNOWN"
  | NO_REAL_RESEARCH_SYNTHETIC_EVIDENCE => "NO_REAL_RESEARCH_SYNTHETIC_EVIDENCE"
  | NO_CROSS_SECURITY_RECORDS => "NO_CROSS_SECURITY_RECORDS"
  | NO_CROSS_SNAPSHOT_RECORDS => "NO_CROSS_SNAPSHOT_RECORDS"
  | CONFLICTING_CLAIMS_DISCLOSED => "CONFLICTING_CLAIMS_DISCLOSED"
  | PARTIAL_SUPPORT_QUALIFIED => "PARTIAL_SUPPORT_QUALIFIED"
  | UNSUPPORTED_CLAIMS_RESTRICTED => "UNSUPPORTED_CLAIMS_RESTRICTED"
  | BLOCKED_CAPABILITY_NOT_COMPLETED => "BLOCKED_CAPABILITY_NOT_COMPLETED"
  | DATA_QUALITY_PRESENT => "DATA_QUALITY_PRESENT"
  | LIMITATIONS_PRESENT => "LIMITATIONS_PRESENT"
  | NO_ORPHAN_BODY_REFERENCE => "NO_ORPHAN_BODY_REFERENCE"
  | NO_UNUSED_APPENDIX_REFERENCE => "NO_UNUSED_APPENDIX_REFERENCE"
  | CITATION_VALID => "CITATION_VALID"
  | CLAIM_SET_CHECKSUM_MATCHES => "CLAIM_SET_CHECKSUM_MATCHES"
  | EVIDENCE_LINK_SET_CHECKSUMS_MATCH => "EVIDENCE_LINK_SET_CHECKSUMS_MATCH"
  | PACKAGE_CHECKSUM_MATCHES => "PACKAGE_CHECKSUM_MATCHES"
  | NO_RATING_LANGUAGE => "NO_RATING_LANGUAGE"
  | NO_TARGET_PRICE => "NO_TARGET_PRICE"
  | NO_POSITION_ADVICE => "NO_POSITION_ADVICE"
  | NO_TRADING_INSTRUCTION => "NO_TRADING_INSTRUCTION"
  | NO_UNSUPPORTED_OVERSTATEMENT => "NO_UNSUPPORTED_OVERSTATEMENT"
  | FIXTURE_NOT_DESCRIBED_AS_LIVE => "FIXTURE_NOT_DESCRIBED_AS_LIVE"
  | SYNTHETIC_NOT_REAL_COMPANY_RESEARCH => "SYNTHETIC_NOT_REAL_COMPANY_RESEARCH"
  | EXCERPT_WITHIN_POLICY => "EXCERPT_WITHIN_POLICY"
  | UNIT_CURRENCY_MATCH => "UNIT_CURRENCY_MATCH"
  | REPORT_AS_OF_PRESENT => "REPORT_AS_OF_PRESENT"
  | SNAPSHOT_IDENTITY_PRESENT => "SNAPSHOT_IDENTITY_PRESENT"
  | NO_FALSE_MODEL_CALL_CLAIM => "NO_FALSE_MODEL_CALL_CLAIM"
  | RETRIEVAL_CAPABILITY_HONEST => "RETRIEVAL_CAPABILITY_HONEST"
  | JSON_MARKDOWN_CHECKSUMS_MATCH => "JSON_MARKDOWN_CHECKSUMS_MATCH"
  | REPORT_STRUCTURE_VERSION_CHAIN_VALID => "REPORT_STRUCTURE_VERSION_CHAIN_VALID"
  | REPORT_INPUT_MANIFEST_UNCHANGED => "REPORT_INPUT_MANIFEST_UNCHANGED"
  end.
End Chk.
Abbreviation RuntimeReflectionCheck := Chk.RuntimeReflectionCheck.

Module ReflSt.
Inductive ReportReflectionStatus :=
  | RUNNING | PASS | FINDINGS | BLOCKED | FAILED.
#[global] Instance ReportReflectionStatus_eq_dec : EqDecision ReportReflectionStatus.
Proof. solve_decision. Defined.
Definition all : list ReportReflectionStatus :=
  [RUNNING; PASS; FINDINGS; BLOCKED; FAILED].
Definition value (x : ReportReflectionStatus) : string :=
  match x with
  | RUNNING => "RUNNING"
  | PASS => "PASS"
  | FINDINGS => "FINDINGS"
  | BLOCKED => "BLOCKED"
  | FAILED => "FAILED"
  end.
End ReflSt.
Abbreviation ReportReflectionStatus := ReflSt.ReportReflectionStatus.

Module Cat.
Inductive ReflectionFindingCategory :=
  | BINDING | CONTEXT | TEMPORAL | EVIDENCE | DISCLOSURE | REFERENCE | CHECKSUM
   | CONTENT_SAFETY | DATA_QUALITY | FORMAT | VERSIONING | CAPABILITY.
#[global] Instance ReflectionFindingCategory_eq_dec : EqDecision ReflectionFindingCategory.
Proof. solve_decision. Defined.
Definition all : list ReflectionFindingCategory :=
  [BINDING; CONTEXT; TEMPORAL; EVIDENCE; DISCLOSURE; REFERENCE; CHECKSUM; CONTENT_SAFETY
  ; DATA_QUALITY; FORMAT; VERSIONING; CAPABILITY].
Definition value (x : ReflectionFindingCategory) : string :=
  match x with
  | BINDING => "BINDING"
  | CONTEXT => "CONTEXT"
  | TEMPORAL => "TEMPORAL"
  | EVIDENCE => "EVIDENCE"
  | DISCLOSURE => "DISCLOSURE"
  | REFERENCE => "REFERENCE"
  | CHECKSUM => "CHECKSUM"
  | CONTENT_SAFETY => "CONTENT_SAFETY"
  | DATA_QUALITY => "DATA_QUALITY"
  | FORMAT => "FORMAT"
  | VERSIONING => "VERSIONING"
  | CAPABILITY => "CAPABILITY"
  end.
End Cat.
Abbreviation ReflectionFindingCategory := Cat.ReflectionFindingCategory.

Module RevAct.
Inductive ReportRevisionActionCode :=
  | DELETE_UNBOUND_FACT_BLOCK | DELETE_UNSUPPORTED_FACT_BLOCK | DOWNGRADE_PARTIAL_LANGUAGE
   | MOVE_CONFLICT_TO_CONFLICTS | MOVE_UNSUPPORTED_TO_APPENDIX | MOVE_BLOCKED_TO_LIMITATIONS
   | ADD_DATA_QUALITY_FROM_EXISTING_STATE | ADD_LIMITATIONS_FROM_EXISTING_STATE
   | RENUMBER_EXISTING_REFERENCES | REMOVE_INVALID_CITATION_BLOCK
   | REMOVE_FORBIDDEN_ADVICE_TEXT | TRUNCATE_EXISTING_EXCERPT | FIX_DETERMINISTIC_FORMAT.
#[global] Instance ReportRevisionActionCode_eq_dec : EqDecision ReportRevisionActionCode.
Proof. solve_decision. Defined.
Definition all : list ReportRevisionActionCode :=
  [DELETE_UNBOUND_FACT_BLOCK; DELETE_UNSUPPORTED_FACT_BLOCK; DOWNGRADE_PARTIAL_LANGUAGE
  ; MOVE_CONFLICT_TO_CONFLICTS; MOVE_UNSUPPORTED_TO_APPENDIX; MOVE_BLOCKED_TO_LIMITATIONS
  ; ADD_DATA_QUALITY_FROM_EXISTING_STATE; ADD_LIMITATIONS_FROM_EXISTING_STATE
  ; RENUMBER_EXISTING_REFERENCES; REMOVE_INVALID_CITATION_BLOCK; REMOVE_FORBIDDEN_ADVICE_TEXT
  ; TRUNCATE_EXISTING_EXCERPT; FIX_DETERMINISTIC_FORMAT].
Definition value (x : ReportRevisionActionCode) : string :=
  match x with
  | DELETE_UNBOUND_FACT_BLOCK => "DELETE_UNBOUND_FACT_BLOCK"
  | DELETE_UNSUPPORTED_FACT_BLOCK => "DELETE_UNSUPPORTED_FACT_BLOCK"
  | DOWNGRADE_PARTIAL_LANGUAGE => "DOWNGRADE_PARTIAL_LANGUAGE"
  | MOVE_CONFLICT_TO_CONFLICTS => "MOVE_CONFLICT_TO_CONFLICTS"
  | MOVE_UNSUPPORTED_TO_APPENDIX => "MOVE_UNSUPPORTED_TO_APPENDIX"
  | MOVE_BLOCKED_TO_LIMITATIONS => "MOVE_BLOCKED_TO_LIMITATIONS"
  | ADD_DATA_QUALITY_FROM_EXISTING_STATE => "ADD_DATA_QUALITY_FROM_EXISTING_STATE"
  | ADD_LIMITATIONS_FROM_EXISTING_STATE => "ADD_LIMITATIONS_FROM_EXISTING_STATE"
  | RENUMBER_EXISTING_REFERENCES => "RENUMBER_EXISTING_REFERENCES"
  | REMOVE_INVALID_CITATION_BLOCK => "REMOVE_INVALID_CITATION_BLOCK"
  | REMOVE_FORBIDDEN_ADVICE_TEXT => "REMOVE_FORBIDDEN_ADVICE_TEXT"
  | TRUNCATE_EXISTING_EXCERPT => "TRUNCATE_EXISTING_EXCERPT"
  | FIX_DETERMINISTIC_FORMAT => "FIX_DETERMINISTIC_FORMAT"
  end.
End RevAct.
Abbreviation ReportRevisionActionCode := RevAct.ReportRevisionActionCode.

Module RevSt.
Inductive ReportRevisionStatus :=
  | RUNNING | COMPLETED | PARTIAL | BLOCKED | FAILED.
#[global] Instance ReportRevisionStatus_eq_dec : EqDecision ReportRevisionStatus.
Proof. solve_decision. Defined.
Definition all : list ReportRevisionStatus :=
  [RUNNING; COMPLETED; PARTIAL; BLOCKED; FAILED].
Definition value (x : ReportRevisionStatus) : string :=
  match x with
  | RUNNING => "RUNNING"
  | COMPLETED => "COMPLETED"
  | PARTIAL => "PARTIAL"
  | BLOCKED => "BLOCKED"
  | FAILED => "FAILED"
  end.
End RevSt.
Abbreviation ReportRevisionStatus := RevSt.ReportRevisionStatus.

Module Gate.
Inductive ReleaseGateDecision :=
  | PUBLISHABLE | PARTIAL | BLOCKED | FAILED.
#[global] Instance ReleaseGateDecision_eq_dec : EqDecision ReleaseGateDecision.
Proof. solve_decision. Defined.
Definition all : list ReleaseGateDecision :=
  [PUBLISHABLE; PARTIAL; BLOCKED; FAILED].
Definition value (x : ReleaseGateDecision) : string :=
  match x with
  | PUBLISHABLE => "PUBLISHABLE"
  | PARTIAL => "PARTIAL"
  | BLOCKED => "BLOCKED"
  | FAILED => "FAILED"
  end.
End Gate.
Abbreviation ReleaseGateDecision := Gate.ReleaseGateDecision.

Module Req.
Inductive ReleaseGateRequirement :=
  | REPORT_CHECKSUMS_VALID | PACKAGE_INPUT_CHECKSUMS_VALID | ROUND_TWO_COMPLETED
   | NO_CRITICAL_FINDINGS | NO_HIGH_FINDINGS | NO_UNSUPPORTED_FACTUAL_BODY_CLAIMS
   | CONFLICTS_DISCLOSED | DOCUMENT_CITATIONS_VALID | STRUCTURED_LINEAGE_VALID
   | TEMPORAL_EVIDENCE_VALID | NO_SYNTHETIC_CONTAMINATION | CONTEXT_MATCHES
   | NO_FORBIDDEN_ADVICE | DATA_QUALITY_PRESENT | LIMITATIONS_PRESENT | PACKAGE_ELIGIBLE
   | REPORT_TYPE_COMPATIBLE | PROJECTION_MATCHES.
#[global] Instance ReleaseGateRequirement_eq_dec : EqDecision ReleaseGateRequirement.
Proof. solve_decision. Defined.
Definition all : list ReleaseGateRequirement :=
  [REPORT_CHECKSUMS_VALID; PACKAGE_INPUT_CHECKSUMS_VALID; ROUND_TWO_COMPLETED
  ; NO_CRITICAL_FINDINGS; NO_HIGH_FINDINGS; NO_UNSUPPORTED_FACTUAL_BODY_CLAIMS
  ; CONFLICTS_DISCLOSED; DOCUMENT_CITATIONS_VALID; STRUCTURED_LINEAGE_VALID
  ; TEMPORAL_EVIDENCE_VALID; NO_SYNTHETIC_CONTAMINATION; CONTEXT_MATCHES; NO_FORBIDDEN_ADVICE
  ; DATA_QUALITY_PRESENT; LIMITATIONS_PRESENT; PACKAGE_ELIGIBLE; REPORT_TYPE_COMPATIBLE
  ; PROJECTION_MATCHES].
Definition value (x : ReleaseGateRequirement) : string :=
  match x with
  | REPORT_CHECKSUMS_VALID => "REPORT_CHECKSUMS_VALID"
  | PACKAGE_INPUT_CHECKSUMS_VALID => "PACKAGE_INPUT_CHECKSUMS_VALID"
  | ROUND_TWO_COMPLETED => "ROUND_TWO_COMPLETED"
  | NO_CRITICAL_FINDINGS => "NO_CRITICAL_FINDINGS"
  | NO_HIGH_FINDINGS => "NO_HIGH_FINDINGS"
  | NO_UNSUPPORTED_FACTUAL_BODY_CLAIMS => "NO_UNSUPPORTED_FACTUAL_BODY_CLAIMS"
  | CONFLICTS_DISCLOSED => "CONFLICTS_DISCLOSED"
  | DOCUMENT_CITATIONS_VALID => "DOCUMENT_CITATIONS_VALID"
  | STRUCTURED_LINEAGE_VALID => "STRUCTURED_LINEAGE_VALID"
  | TEMPORAL_EVIDENCE_VALID => "TEMPORAL_EVIDENCE_VALID"
  | NO_SYNTHETIC_CONTAMINATION => "NO_SYNTHETIC_CONTAMINATION"
  | CONTEXT_MATCHES => "CONTEXT_MATCHES"
  | NO_FORBIDDEN_ADVICE => "NO_FORBIDDEN_ADVICE"
  | DATA_QUALITY_PRESENT => "DATA_QUALITY_PRESENT"
  | LIMITATIONS_PRESENT => "LIMITATIONS_PRESENT"
  | PACKAGE_ELIGIBLE => "PACKAGE_ELIGIBLE"
  | REPORT_TYPE_COMPATIBLE => "REPORT_TYPE_COMPATIBLE"
  | PROJECTION_MATCHES => "PROJECTION_MATCHES"
  end.
End Req.
Abbreviation ReleaseGateRequirement := Req.ReleaseGateRequirement.

Module GenSt.
Inductive ReportGenerationStatus :=
  | CREATED | RUNNING | COMPLETED | PARTIAL | BLOCKED | FAILED.
#[global] Instance ReportGenerationStatus_eq_dec : EqDecision ReportGenerationStatus.
Proof. solve_decision. Defined.
Definition all : list ReportGenerationStatus :=
  [CREATED; RUNNING; COMPLETED; PARTIAL; BLOCKED; FAILED].
Definition value (x : ReportGenerationStatus) : string :=
  match x with
  | CREATED => "CREATED"
  | RUNNING => "RUNNING"
  | COMPLETED => "COMPLETED"
  | PARTIAL => "PARTIAL"
  | BLOCKED => "BLOCKED"
  | FAILED => "FAILED"
  end.
End GenSt.
Abbreviation ReportGenerationStatus := GenSt.ReportGenerationStatus.

(** * JSON payloads *)

(** [JsonValue]: objects keep their insertion order; a float is its [repr]. *)
Inductive pjson :=
| PNull | PBool (b : bool) | PInt (z : Z) | PFloat (repr : string) | PStr (t : ustr)
| PList (l : list pjson) | PObj (l : list (ustr * pjson)).
Abbreviation payload := (list (ustr * pjson)) (only parsing).

Section pjson_ind.
Context (P : pjson → Prop).
Context (Hnull : P PNull) (Hbool : ∀ b, P (PBool b)) (Hint : ∀ z, P (PInt z))
  (Hfloat : ∀ r, P (PFloat r)) (Hstr : ∀ t, P (PStr t)) (Hlist : ∀ l, Forall P l → P (PList l))
  (Hobj : ∀ l, Forall (λ kv, P kv.2) l → P (PObj l)).

Fixpoint pjson_ind' (v : pjson) : P v :=
  match v with
  | PNull => Hnull | PBool b => Hbool b | PInt z => Hint z | PFloat r => Hfloat r | PStr t => Hstr t
  | PList l => Hlist l ((fix go l : Forall P l :=
      match l with [] => Forall_nil_2 _ | x :: l => Forall_cons_2 _ _ _ (pjson_ind' x) (go l) end) l)
  | PObj l => Hobj l ((fix go l : Forall (λ kv : ustr * pjson, P kv.2) l :=
      match l with [] => Forall_nil_2 _ | x :: l => Forall_cons_2 _ _ _ (pjson_ind' x.2) (go l) end) l)
  end.
End pjson_ind.

(** [d.get(k)]; an object of the program never repeats a key. *)
Fixpoint jget (d : payload) (k : ustr) : option pjson :=
  match d with
  | [] => None
  | (k', v) :: d => if bool_decide (k' = k) then Some v else jget d k
  end.
Definition jhas (d : payload) (k : ustr) : bool := is_some (jget d k).
Definition as_text (v : option pjson) : option ustr :=
  match v with Some (PStr t) => Some t | _ => None end.
Definition as_list (v : option pjson) : option (list pjson) :=
  match v with Some (PList l) => Some l | _ => None end.

(** The text of a UTF-8 literal. *)
Fixpoint utext (s : string) : ustr :=
  let b c := Z.of_N (N_of_ascii c) in
  match s with
  | EmptyString => []
  | String c s1 =>
      if b c <? 192 then b c :: utext s1
      else match s1 with
      | EmptyString => [b c]
      | String c1 s2 =>
          if b c <? 224 then ((b c - 192) * 64 + (b c1 - 128)) :: utext s2
          else match s2 with
          | EmptyString => [b c; b c1]
          | String c2 s3 => ((b c - 224) * 4096 + (b c1 - 128) * 64 + (b c2 - 128)) :: utext s3
          end
      end
  end.
Example utext_cjk : utext "a目标价" = [97; 30446; 26631; 20215].
Proof. reflexivity. Qed.

(** * Structured content (reporting.py) *)

Definition key_char (c : ascii) : bool := is_lower c || is_digit c || char_in ["_"; "."; "-"]%char c.
(** [^[a-z][a-z0-9_.-]{2,127}$] and [^[a-z0-9][a-z0-9_.-]{0,127}$] *)
Definition block_key_ok : string → bool := matches_ident is_lower key_char 2 127.
Definition row_key_ok : string → bool :=
  matches_ident (λ c, is_lower c || is_digit c) key_char 0 127.

Record StructuredReportBlock := mkBlock {
  bk_block_key : string; bk_block_index : Z; bk_block_type : ReportBlockType;
  bk_status : ReportBlockStatus; bk_text : option ustr; bk_payload : payload }.
Definition StructuredReportBlock_valid (b : StructuredReportBlock) : bool :=
  block_key_ok (bk_block_key b) && between 0 299 (bk_block_index b)
  && opt_forallb (λ t, ulen t <=? 10000) (bk_text b).

Record StructuredReportSection := mkSection {
  se_section : ReportSection; se_section_index : Z; se_title : ustr; se_status : ReportSectionStatus;
  se_blocks : list StructuredReportBlock }.

Definition contiguous {A} (index : A → Z) (l : list A) : bool :=
  bool_decide (map index l = seqZ 0 (Z.of_nat (length l))).
Definition StructuredReportSection_valid (s : StructuredReportSection) : bool :=
  between 0 15 (se_section_index s) && ulen_between 1 160 (se_title s)
  && (Z.of_nat (length (se_blocks s)) <=? 300) && contiguous bk_block_index (se_blocks s)
  && bool_decide (NoDup (map bk_block_key (se_blocks s))).

Record StructuredReportContent := mkContent {
  co_schema_version : string; co_locale : ReportLocale; co_sections : list StructuredReportSection }.

(** [^research-report-v[1-9][0-9]*$] *)
Definition schema_version_ok (s : string) : bool :=
  String.prefix "research-report-v" s &&
  match String.substring 17 (String.length s - 17) s with
  | String c s => is_digit c && negb (bool_decide (c = "0"%char)) && str_forallb is_digit s
  | EmptyString => false
  end.
Definition blocks_of (c : StructuredReportContent) : list StructuredReportBlock :=
  concat (map se_blocks (co_sections c)).
Definition StructuredReportContent_valid (c : StructuredReportContent) : bool :=
  schema_version_ok (co_schema_version c) && between 1 16 (Z.of_nat (length (co_sections c)))
  && contiguous se_section_index (co_sections c) && bool_decide (NoDup (map se_section (co_sections c)))
  && (Z.of_nat (length (blocks_of c)) <=? 300).

Record ResearchReportRecord := mkReport {
  rr_id : UUID; rr_report_generation_run_id : UUID; rr_report_version : Z;
  rr_previous_report_id : option UUID; rr_report_type : ReportType; rr_report_locale : ReportLocale;
  rr_status : ResearchReportStatus; rr_title : ustr; rr_subtitle : option ustr;
  rr_security_id : UUID; rr_snapshot_id : UUID; rr_research_as_of_time : time;
  rr_research_package_id : UUID; rr_input_manifest_checksum : string; rr_package_checksum : string;
  rr_structured_content : StructuredReportContent; rr_markdown_content : ustr;
  rr_structured_checksum : string; rr_markdown_checksum : string; rr_content_checksum : string;
  rr_claim_set_checksum : string; rr_evidence_set_checksum : string; rr_link_set_checksum : string;
  rr_citation_set_checksum : string; rr_renderer_version : string; rr_template_name : string;
  rr_template_version : string; rr_created_at : time }.

(** LF line ends and exactly one trailing newline. *)
Definition canonical_markdown (t : ustr) : bool :=
  negb (bool_decide (13 ∈ t))
  && match rev t with
     | c :: d :: _ => (c =? 10) && negb (d =? 10)
     | [c] => c =? 10
     | [] => false
     end.
Definition markdown_ok (t : ustr) : bool := ulen_between 1 1048576 t && canonical_markdown t.
Definition ResearchReportRecord_valid (r : ResearchReportRecord) : bool :=
  (1 <=? rr_report_version r) && ulen_between 1 256 (rr_title r)
  && opt_forallb (λ t, ulen t <=? 512) (rr_subtitle r) && markdown_ok (rr_markdown_content r)
  && forallb Checksum_ok [rr_input_manifest_checksum r; rr_package_checksum r; rr_structured_checksum r;
       rr_markdown_checksum r; rr_content_checksum r; rr_claim_set_checksum r;
       rr_evidence_set_checksum r; rr_link_set_checksum r; rr_citation_set_checksum r]
  && Version_ok (rr_renderer_version r).

(** * Lineage bindings (binding_schemas.py) *)

Record ReportClaimBindingWrite := mkClaimBinding {
  rcb_id : UUID; rcb_report_block_id : UUID; rcb_claim_id : UUID; rcb_role : ReportClaimBindingRole;
  rcb_sentence_index : option Z; rcb_item_or_row_key : option string; rcb_created_at : time }.
Record ReportEvidenceBindingWrite := mkEvidenceBinding {
  reb_id : UUID; reb_report_block_id : UUID; reb_report_claim_binding_id : UUID;
  reb_claim_evidence_link_id : UUID; reb_evidence_id : UUID; reb_role : EvidenceRole;
  reb_visible_reference_kind : VisibleReferenceKind; reb_visible_reference : ustr;
  reb_item_or_row_key : string; reb_citation_id : option UUID; reb_source_record_id : option UUID;
  reb_source_checksum : option string; reb_created_at : time }.
Record ReportCitationBindingWrite := mkCitationBinding {
  rtb_id : UUID; rtb_report_evidence_binding_id : UUID; rtb_citation_id : UUID;
  rtb_document_version_id : UUID; rtb_visible_reference : ustr; rtb_locator_summary : ustr;
  rtb_rendered_excerpt : ustr; rtb_rendered_excerpt_checksum : string; rtb_created_at : time }.

Record ResearchReportAggregate := mkAggregate {
  ag_report : ResearchReportRecord; ag_claim_bindings : list ReportClaimBindingWrite;
  ag_evidence_bindings : list ReportEvidenceBindingWrite;
  ag_citation_bindings : list ReportCitationBindingWrite }.

(** [uuid5(NAMESPACE_URL, f"{report.id}:block:{block.block_key}")] *)
Definition block_id (report_id : UUID) (block_key : string) : UUID :=
  uuid5 (uuid_str report_id +:+ ":block:" +:+ block_key).

(** A block that states a fact: the tables and conflicts, or any with a claim. *)
Definition fact_keys : list ustr := map ulit ["claim_id"; "statement_code"; "support_status"].
Definition states_fact (b : StructuredReportBlock) : bool :=
  bool_decide (bk_block_type b ∈ [BlkType.METRIC_TABLE; BlkType.CONFLICT])
  || existsb (jhas (bk_payload b)) fact_keys.

(** [require_complete_binding_graph]; the dictionary of block ids keeps the
    last block of an id. *)
Definition binding_error {A} : string → res A := raise ValidationError.
Definition blocks_by_id (r : ResearchReportRecord) : list (UUID * StructuredReportBlock) :=
  map (λ b, (block_id (rr_id r) (bk_block_key b), b)) (blocks_of (rr_structured_content r)).
Definition last_block (blocks : list (UUID * StructuredReportBlock)) (id : UUID) : option StructuredReportBlock :=
  snd <$> find (λ p, bool_decide (p.1 = id)) (rev blocks).
Definition block_by_id (r : ResearchReportRecord) : UUID → option StructuredReportBlock :=
  last_block (blocks_by_id r).
Definition factual_ids (blocks : list (UUID * StructuredReportBlock)) : list UUID :=
  filter (λ id, match last_block blocks id with Some b => states_fact b | None => false end = true)
    (map fst blocks).
Definition evidence_in_context (claims : list ReportClaimBindingWrite) (v : ReportEvidenceBindingWrite) :
    bool :=
  match find (λ c, bool_decide (rcb_id c = reb_report_claim_binding_id v)) claims with
  | Some c => bool_decide (rcb_report_block_id c = reb_report_block_id v)
  | None => false
  end.
Definition require_complete_binding_graph (a : ResearchReportAggregate) : res unit :=
  let claims := ag_claim_bindings a in
  let evidence := ag_evidence_bindings a in
  match claims with
  | [] => Ok tt
  | _ =>
      let blocks := blocks_by_id (ag_report a) in
      let factual := factual_ids blocks in
      reject_if (negb (bool_decide (NoDup (map rcb_id claims)))) ValidationError
        "report claim binding ids must be unique";;
      reject_if (negb (forallb (λ c, is_some (last_block blocks (rcb_report_block_id c))) claims))
        ValidationError "claim binding references an unknown report block";;
      reject_if (negb (forallb (λ id, bool_decide (id ∈ map rcb_report_block_id claims))
                               factual
                       && forallb (λ c, bool_decide (rcb_report_block_id c ∈ factual)) claims))
        ValidationError "every factual report block requires an exact claim binding";;
      reject_if (negb (bool_decide (NoDup (map reb_id evidence)))) ValidationError
        "report evidence binding ids must be unique";;
      reject_if (negb (forallb (evidence_in_context claims) evidence)) ValidationError
        "evidence binding claim/block context mismatch";;
      reject_if (existsb (λ c, negb (bool_decide (rcb_role c = BindRole.LIMITATION))
                   && negb (bool_decide (rcb_id c ∈ map reb_report_claim_binding_id evidence))) claims)
        ValidationError "supported report claim binding requires evidence";;
      reject_if (negb (forallb (λ v, bool_decide (rtb_report_evidence_binding_id v ∈ map reb_id evidence))
                         (ag_citation_bindings a)))
        ValidationError "citation binding references unknown report evidence binding"
  end.
(** The constructor [ResearchReportAggregate(...)]. *)
Definition new_aggregate (a : ResearchReportAggregate) : res ResearchReportAggregate :=
  reject_if (negb (forallb (λ n, Z.of_nat n <=? 5000)
      [length (ag_claim_bindings a); length (ag_evidence_bindings a)]
    && (Z.of_nat (length (ag_citation_bindings a)) <=? 1000))) ValidationError "too many bindings";;
  require_complete_binding_graph a;; Ok a.

(** * The sealed input of a report (schemas.py) *)

Record ReportInputIssue := mkIssue {
  is_code : string; is_claim_id : option UUID; is_evidence_id : option UUID;
  is_citation_id : option UUID }.
Record ReportInputSectionState := mkSectionState {
  ss_section : ResearchSection; ss_status : PackageSectionStatus; ss_claim_ids : list UUID;
  ss_warning_codes : list string }.
Record ReportInputManifest := mkManifest {
  mf_research_package_id : UUID; mf_research_agent_run_id : UUID; mf_research_request_id : UUID;
  mf_security_id : UUID; mf_issuer_id : UUID; mf_snapshot_id : UUID; mf_research_as_of_time : time;
  mf_research_type : ResearchType; mf_research_mode : ResearchMode;
  mf_package_status : ResearchPackageStatus; mf_package_checksum : string; mf_policy_version : string;
  mf_planner_version : string; mf_tool_catalog_version : string; mf_evidence_version : string;
  mf_claim_version : string; mf_package_version : string; mf_claim_ids : list UUID;
  mf_evidence_ids : list UUID; mf_link_ids : list UUID; mf_citation_ids : list UUID;
  mf_lineage_ids : list UUID; mf_claims_checksum : string; mf_evidence_checksum : string;
  mf_links_checksum : string; mf_citations_checksum : string; mf_lineage_checksum : string;
  mf_section_states : list ReportInputSectionState; mf_blocked_capabilities : list string;
  mf_warnings : list string; mf_data_quality_items : list ReportInputIssue;
  mf_limitation_items : list ReportInputIssue; mf_synthetic_status : SyntheticStatus;
  mf_manifest_schema_version : string; mf_canonical_payload_checksum : string; mf_created_at : time }.

(** The fields of a policy that are [Literal] have one value and are left out. *)
Record ReportPolicyRecord := mkReportPolicy {
  rp_version : string; rp_checksum : string; rp_allowed_report_types : list ReportType;
  rp_allowed_locales : list ReportLocale; rp_allowed_sections : list ReportSection;
  rp_max_report_blocks : Z; rp_max_claims_per_block : Z; rp_max_citations_per_block : Z;
  rp_max_excerpt_length : Z; rp_max_reflection_rounds : Z; rp_max_revision_rounds : Z }.
Record RuntimeReflectionPolicyRecord := mkReflectionPolicy {
  rfp_version : string; rfp_checksum : string; rfp_required_checks : list RuntimeReflectionCheck }.

(** * Reflection and revision records (reflection.py, revision.py) *)

Definition TERMINAL_REFLECTION_STATUSES : list ReportReflectionStatus :=
  [ReflSt.PASS; ReflSt.FINDINGS; ReflSt.BLOCKED; ReflSt.FAILED].
Definition TERMINAL_REVISION_STATUSES : list ReportRevisionStatus :=
  [RevSt.COMPLETED; RevSt.PARTIAL; RevSt.BLOCKED; RevSt.FAILED].
Definition TERMINAL_GENERATION_STATUSES : list ReportGenerationStatus :=
  [GenSt.COMPLETED; GenSt.PARTIAL; GenSt.BLOCKED; GenSt.FAILED].

Record ReportReflectionRunRecord := mkReflectionRun {
  fr_id : UUID; fr_research_report_id : UUID; fr_reflection_policy_version : string;
  fr_engine_name : string; fr_engine_version : string; fr_round_number : Z;
  fr_input_report_checksum : string; fr_status : ReportReflectionStatus; fr_started_at : time;
  fr_total_finding_count : Z; fr_critical_count : Z; fr_high_count : Z; fr_medium_count : Z;
  fr_low_count : Z; fr_blocked_reason_code : option string; fr_error_code : option string;
  fr_safe_error_message : option string; fr_completed_at : option time }.

(** [_validate_reflection_outcome] *)
Definition _validate_reflection_outcome (r : ReportReflectionRunRecord) : res unit :=
  let status := fr_status r in
  let total := fr_total_finding_count r in
  let error := is_some (fr_error_code r) || is_some (fr_safe_error_message r) in
  reject_if (negb (total =? fr_critical_count r + fr_high_count r + fr_medium_count r + fr_low_count r))
    ValidationError "Reflection severity counts must sum to total";;
  match status with
  | ReflSt.RUNNING =>
      reject_if (negb (total =? 0) || is_some (fr_blocked_reason_code r) || error
                 || is_some (fr_completed_at r)) ValidationError
        "RUNNING Reflection cannot contain terminal outcome"
  | _ =>
      reject_if (is_none (fr_completed_at r)) ValidationError
        "Reflection outcome must be a completed terminal state";;
      reject_if (bool_decide (status = ReflSt.PASS) && negb (total =? 0)) ValidationError
        "PASS Reflection cannot contain findings";;
      reject_if (bool_decide (status = ReflSt.FINDINGS) && (total =? 0)) ValidationError
        "FINDINGS Reflection requires findings";;
      reject_if (bool_decide (status = ReflSt.BLOCKED) && is_none (fr_blocked_reason_code r))
        ValidationError "BLOCKED Reflection requires a reason";;
      if bool_decide (status = ReflSt.FAILED) then
        reject_if (is_none (fr_error_code r) || is_none (fr_safe_error_message r)) ValidationError
          "FAILED Reflection requires a safe error"
      else reject_if error ValidationError "Non-failed Reflection cannot contain an error"
  end.

Definition blocks_release (s : ReflectionSeverity) : bool := bool_decide (s ∈ [Sev.CRITICAL; Sev.HIGH]).

Record ReportReflectionFindingRecord := mkFinding {
  ff_id : UUID; ff_reflection_run_id : UUID; ff_research_report_id : UUID;
  ff_report_section_id : option UUID; ff_report_block_id : option UUID; ff_claim_id : option UUID;
  ff_evidence_id : option UUID; ff_citation_id : option UUID; ff_finding_code : string;
  ff_category : ReflectionFindingCategory; ff_severity : ReflectionSeverity; ff_description : string;
  ff_remediation_code : string; ff_blocking : bool; ff_created_at : time;
  ff_report_section : option ReportSection; ff_block_key : option string }.
(** [require_safe_description]: for the ASCII descriptions of the engine. *)
Definition unsafe_tokens : list string :=
  ["password="; "secret="; "token="; "api_key"; "select "; "insert "; "update "; "delete "; "drop ";
   "file://"; "blob://"; "traceback (most recent call last)"; "<script"; "</"].
Definition safe_description (s : string) : bool :=
  let t := ulit s in
  negb (existsb (λ token, ucontains (map ascii_fold t) (ulit token)) unsafe_tokens)
  && negb ((3 <=? ulen t) && bool_decide (slice t 1 3 = [58; 92])).
Definition Finding_valid (f : ReportReflectionFindingRecord) : bool :=
  Code_ok (ff_finding_code f) && between 1 512 (str_len (ff_description f))
  && safe_description (ff_description f) && Code_ok (ff_remediation_code f)
  && (is_none (ff_report_block_id f) || is_some (ff_report_section_id f))
  && Bool.eqb (ff_blocking f) (blocks_release (ff_severity f)).

Record ReportReflectionResult := mkReflectionResult {
  fx_run : ReportReflectionRunRecord; fx_finding_ids : list UUID;
  fx_findings : list ReportReflectionFindingRecord }.
(** The constructor [ReportReflectionResult(...)]. *)
Definition new_reflection_result (x : ReportReflectionResult) : res ReportReflectionResult :=
  let run := fx_run x in
  reject_if (bool_decide (fr_status run ∉ TERMINAL_REFLECTION_STATUSES)) ValidationError
    "Reflection result requires a terminal run";;
  reject_if (negb (Z.of_nat (length (fx_finding_ids x)) =? fr_total_finding_count run)) ValidationError
    "Reflection result finding count mismatch";;
  reject_if (negb (bool_decide (NoDup (fx_finding_ids x)))) ValidationError
    "Reflection result finding IDs must be unique";;
  match fx_findings x with
  | [] => Ok x
  | l =>
      reject_if (negb (bool_decide (map ff_id l = fx_finding_ids x))) ValidationError
        "materialized Finding IDs must match result order";;
      reject_if (existsb (λ f, negb (bool_decide (ff_reflection_run_id f = fr_id run))
                   || negb (bool_decide (ff_research_report_id f = fr_research_report_id run))) l)
        ValidationError "materialized Findings must match Reflection context";;
      Ok x
  end.

Record ReportRevisionAction := mkAction {
  ra_finding_id : UUID; ra_action_code : ReportRevisionActionCode; ra_block_key : option string }.
Record ReportRevisionRunRecord := mkRevisionRun {
  vr_id : UUID; vr_source_report_id : UUID; vr_source_reflection_run_id : UUID;
  vr_report_policy_version : string; vr_engine_name : string; vr_engine_version : string;
  vr_status : ReportRevisionStatus; vr_started_at : time; vr_target_report_id : option UUID;
  vr_actions : list ReportRevisionAction; vr_applied_finding_ids : list UUID;
  vr_unresolved_finding_ids : list UUID; vr_blocked_reason_code : option string;
  vr_error_code : option string; vr_safe_error_message : option string;
  vr_completed_at : option time }.

(** [_validate_revision_outcome] *)
Definition _validate_revision_outcome (r : ReportRevisionRunRecord) : res unit :=
  let status := vr_status r in
  let applied := vr_applied_finding_ids r in
  let unresolved := vr_unresolved_finding_ids r in
  let error := is_some (vr_error_code r) || is_some (vr_safe_error_message r) in
  let none {A} (l : list A) := (length l =? 0)%nat in
  reject_if (negb (bool_decide (map ra_finding_id (vr_actions r) = applied))) ValidationError
    "Revision actions must exactly match applied Findings";;
  reject_if (negb (bool_decide (NoDup applied)) || negb (bool_decide (NoDup unresolved))) ValidationError
    "Revision Finding IDs must be unique";;
  reject_if (existsb (λ id, bool_decide (id ∈ unresolved)) applied) ValidationError
    "Applied and unresolved Findings must be disjoint";;
  match status with
  | RevSt.RUNNING =>
      reject_if (is_some (vr_target_report_id r) || negb (none (vr_actions r)) || negb (none applied)
                 || negb (none unresolved) || is_some (vr_blocked_reason_code r) || error
                 || is_some (vr_completed_at r)) ValidationError
        "RUNNING Revision cannot contain terminal outcome"
  | _ =>
      let succeeded := bool_decide (status ∈ [RevSt.COMPLETED; RevSt.PARTIAL]) in
      reject_if (is_none (vr_completed_at r)) ValidationError
        "Revision outcome must be a completed terminal state";;
      reject_if (succeeded && is_none (vr_target_report_id r)) ValidationError
        "Successful Revision requires one target Report";;
      reject_if (negb succeeded && is_some (vr_target_report_id r)) ValidationError
        "Blocked or failed Revision cannot have a target Report";;
      reject_if (bool_decide (status = RevSt.COMPLETED) && negb (none unresolved)) ValidationError
        "COMPLETED Revision cannot retain unresolved Findings";;
      reject_if (bool_decide (status = RevSt.PARTIAL) && none unresolved) ValidationError
        "PARTIAL Revision requires unresolved Findings";;
      (if bool_decide (status = RevSt.BLOCKED) then
         reject_if (is_none (vr_blocked_reason_code r) || negb (none (vr_actions r))
                    || negb (none applied) || none unresolved) ValidationError
           "BLOCKED Revision requires unresolved-only outcome"
       else reject_if (is_some (vr_blocked_reason_code r)) ValidationError
              "Only BLOCKED Revision can carry a blocked reason");;
      if bool_decide (status = RevSt.FAILED) then
        reject_if (is_none (vr_error_code r) || is_none (vr_safe_error_message r)
                   || negb (none (vr_actions r)) || negb (none applied)) ValidationError
          "FAILED Revision requires a safe error and no actions"
      else reject_if error ValidationError "Non-failed Revision cannot contain an error"
  end.
