(* ===== verification/ReportText.v ===== *)
(** Canonical JSON and checksums of reports, their Markdown projection and the
    numbering of their visible references (domain/reports/canonical.py,
    markdown.py, references.py, checksums.py). *)
From S2P Require Import Prelude PyDecimal PyText Sha256 AgentModel PyParse Ledger Text DocModel Bm25.
From S2P Require Import ReportModel.

Section Reports.
Context `{UnicodeData}.

(** * Canonical JSON (canonical.py) *)

(** [_normalize]: every text in NFKC, no floats, no keys that collide. *)
Fixpoint report_normalize (v : pjson) : res pjson :=
  match v with
  | PNull | PBool _ | PInt _ => Ok v
  | PFloat _ => raise TypeError "binary floating-point values are not canonical"
  | PStr t => Ok (PStr (nfkc t))
  | PList l => PList <$> res_map report_normalize l
  | PObj l =>
      PObj <$> (fix go (seen : payload) (l : payload) : res payload :=
        match l with
        | [] => Ok seen
        | (k, x) :: l =>
            reject_if (jhas seen (nfkc k)) ValueError "normalized mapping keys must be unique";;
            y ← report_normalize x;
            go (seen ++ [(nfkc k, y)]) l
        end) [] l
  end.

(** The string encoder of [json.dumps(ensure_ascii=False)]. *)
Definition json_escape_char (c : Z) : ustr :=
  if c =? 34 then [92; 34]
  else if c =? 92 then [92; 92]
  else if c =? 10 then ulit "\n"
  else if c =? 13 then ulit "\r"
  else if c =? 9 then ulit "\t"
  else if c =? 8 then ulit "\b"
  else if c =? 12 then ulit "\f"
  else if c <? 32 then ulit ("\u" +:+ hex4 c)
  else [c].
Definition json_text (t : ustr) : ustr := [34] ++ concat (map json_escape_char t) ++ [34].
Definition pair_ultb {A} (a b : ustr * A) : bool := ultb a.1 b.1.

Fixpoint report_dumps (v : pjson) : ustr :=
  match v with
  | PNull => ulit "null"
  | PBool b => ulit (if b then "true" else "false")
  | PInt z => ulit (str_of_Z z)
  | PFloat r => ulit r
  | PStr t => json_text t
  | PList l => [91] ++ ujoin [44] (map report_dumps l) ++ [93]
  | PObj l => [123] ++ ujoin [44]
      (map (λ kv, json_text kv.1 ++ [58] ++ kv.2)
        (sort_by pair_ultb (map (λ kv, (kv.1, report_dumps kv.2)) l))) ++ [125]
  end.

Definition canonical_report_json (v : pjson) : res ustr := report_dumps <$> report_normalize v.
Definition report_checksum (v : pjson) : res string :=
  t ← canonical_report_json v; s ← utf8 t; Ok (sha256_hex s).

(** [model_dump] of the structured content. *)
Definition j_text (t : option ustr) : pjson := match t with Some t => PStr t | None => PNull end.
Definition block_json (b : StructuredReportBlock) : pjson :=
  PObj [(ulit "block_key", PStr (ulit (bk_block_key b))); (ulit "block_index", PInt (bk_block_index b));
        (ulit "block_type", PStr (ulit (BlkType.value (bk_block_type b))));
        (ulit "status", PStr (ulit (BlkSt.value (bk_status b)))); (ulit "text", j_text (bk_text b));
        (ulit "payload", PObj (bk_payload b))].
Definition section_json (s : StructuredReportSection) : pjson :=
  PObj [(ulit "section", PStr (ulit (RepSec.value (se_section s))));
        (ulit "section_index", PInt (se_section_index s)); (ulit "title", PStr (se_title s));
        (ulit "status", PStr (ulit (RepSecSt.value (se_status s))));
        (ulit "blocks", PList (map block_json (se_blocks s)))].
Definition content_json (c : StructuredReportContent) : pjson :=
  PObj [(ulit "schema_version", PStr (ulit (co_schema_version c)));
        (ulit "locale", PStr (ulit (RepLocale.value (co_locale c))));
        (ulit "sections", PList (map section_json (co_sections c)))].

(** * Markdown (markdown.py) *)

Definition MARKDOWN_RENDERER_VERSION : string := "deterministic-markdown-v1".
Record RenderedMarkdown := mkRendered { rm_markdown_content : ustr; rm_markdown_checksum : string }.

(** [t.replace(c, r)] for one character, and for CR LF. *)
Definition replace_char (c : Z) (r t : ustr) : ustr := concat (map (λ x, if x =? c then r else [x]) t).
Fixpoint replace_crlf (t : ustr) : ustr :=
  match t with
  | [] => []
  | c :: t => if (c =? 13) && ustarts t [10] then replace_crlf t else c :: replace_crlf t
  end.
Definition markdown_markers : list Z := [96; 42; 95; 91; 93; 35; 124].
Definition _escape (value : ustr) : ustr :=
  let escaped := replace_char 92 [92; 92] value in
  let escaped := replace_char 13 [10] (replace_crlf escaped) in
  let escaped := replace_char 10 [92; 110] escaped in
  let escaped := replace_char 62 (ulit "&gt;") (replace_char 60 (ulit "&lt;") escaped) in
  foldl (λ t m, replace_char m [92; m] t) escaped markdown_markers.

(** [f"{marks} {_escape(a)} [{_escape(b)}] [{_escape(c)}]"] *)
Definition heading_line (marks a b c : ustr) : ustr :=
  marks ++ [32] ++ _escape a ++ [32; 91] ++ _escape b ++ [93; 32; 91] ++ _escape c ++ [93].
Definition payload_line (kv : ustr * pjson) : res ustr :=
  t ← canonical_report_json kv.2;
  Ok (ulit "- " ++ _escape kv.1 ++ ulit ": " ++ _escape t).
Definition block_lines (b : StructuredReportBlock) : res (list ustr) :=
  rows ← res_map payload_line (sort_by pair_ultb (bk_payload b));
  Ok ([heading_line (ulit "###") (ulit (bk_block_key b)) (ulit (BlkType.value (bk_block_type b)))
         (ulit (BlkSt.value (bk_status b)))]
      ++ match bk_text b with Some t => [_escape t] | None => [] end ++ rows ++ [[]]).
Definition section_lines (s : StructuredReportSection) : res (list ustr) :=
  blocks ← res_map block_lines (se_blocks s);
  Ok ([heading_line (ulit "##") (se_title s) (ulit (RepSec.value (se_section s)))
         (ulit (RepSecSt.value (se_status s))); []] ++ concat blocks).
(** [while lines and lines[-1] == "": lines.pop()] *)
Definition drop_blank (lines : list ustr) : list ustr :=
  rev ((fix go (l : list ustr) := match l with [] :: l => go l | _ => l end) (rev lines)).
Definition markdown_text (c : StructuredReportContent) : res ustr :=
  sections ← res_map section_lines (co_sections c);
  let lines := [heading_line (ulit "#") (ulit "Research Report") (ulit (co_schema_version c))
                  (ulit (RepLocale.value (co_locale c))); []] ++ concat sections in
  Ok (ujoin [10] (drop_blank lines) ++ [10]).
(** [DeterministicMarkdownRenderer.render] *)
Definition render (c : StructuredReportContent) : res RenderedMarkdown :=
  markdown ← markdown_text c;
  checksum ← report_checksum (PStr markdown);
  validated (λ r, markdown_ok (rm_markdown_content r)) (mkRendered markdown checksum).

(** * Visible references (references.py) *)

Definition reference_error {A} : string → res A := raise (NamedError "ReportReferenceError").
Record ReferenceTarget := mkTarget { tg_kind : ReferenceKind; tg_record_id : UUID; tg_label : ustr }.
Abbreviation ReferenceEntry := ReferenceTarget (only parsing).

Definition reference_prefix (k : ReferenceKind) : ustr :=
  ulit match k with
  | RefKind.CITATION => "CIT" | RefKind.EVIDENCE => "EV" | RefKind.METRIC => "MET"
  | RefKind.LIMITATION => "LIM" | RefKind.CONFLICT => "CON"
  end.
Definition digit_ok (c : Z) : bool := cp_in 48 57 c.

(** [^(CIT|EV|MET|LIM|CON)-[0-9]{3}] at the head of a text: the label and the rest. *)
Definition match_label (t : ustr) : option (ustr * ustr) :=
  match find (λ p, ustarts t (p ++ [45])) (map reference_prefix RefKind.all) with
  | Some p =>
      match drop (length p + 1) t with
      | a :: b :: c :: rest =>
          if digit_ok a && digit_ok b && digit_ok c then Some (p ++ [45; a; b; c], rest) else None
      | _ => None
      end
  | None => None
  end.
Definition label_ok (t : ustr) : bool :=
  match match_label t with Some (_, []) => true | _ => false end.
(** [_REFERENCE_PATTERN] at the head of a text. *)
Definition match_reference (t : ustr) : option ustr :=
  match t with
  | c :: t =>
      if c =? 91 then
        match match_label t with
        | Some (label, d :: _) => if d =? 93 then Some label else None
        | _ => None
        end
      else None
  | [] => None
  end.

(** A text as its characters and the references found in it, left to right. *)
Inductive piece := Chr (c : Z) | Ref (label : ustr).
Fixpoint pieces_go (skip : nat) (t : ustr) : list piece :=
  match t with
  | [] => []
  | c :: t' =>
      match skip with
      | S n => pieces_go n t'
      | O => match match_reference t with
             | Some label => Ref label :: pieces_go (S (length label)) t'
             | None => Chr c :: pieces_go 0 t'
             end
      end
  end.
Definition pieces : ustr → list piece := pieces_go 0.
Definition piece_text (p : piece) : ustr :=
  match p with Chr c => [c] | Ref label => [91] ++ label ++ [93] end.
Definition unpieces (l : list piece) : ustr := concat (map piece_text l).

Definition _labels_in_text (t : ustr) : list ustr :=
  omap (λ p, match p with Ref label => Some label | Chr _ => None end) (pieces t).
(** [replacements.get(old, old)]; the dictionary as a function. *)
Definition rename (replacements : list (ustr * ustr)) (label : ustr) : ustr :=
  match find (λ kv, bool_decide (kv.1 = label)) (rev replacements) with
  | Some kv => kv.2
  | None => label
  end.
Definition rename_piece (replacements : list (ustr * ustr)) (p : piece) : piece :=
  match p with Ref label => Ref (rename replacements label) | Chr c => Chr c end.
Definition _replace_reference_text (t : ustr) (replacements : list (ustr * ustr)) : ustr :=
  unpieces (map (rename_piece replacements) (pieces t)).

(** [str(item[key])] for the fields of a target: only a text, or for the
    record id an integer, can be what the contract accepts. *)
Definition field_text (d : payload) (k : ustr) : option ustr :=
  match jget d k with
  | Some (PStr t) => Some t
  | Some (PInt z) => Some (ulit (str_of_Z z))
  | _ => None
  end.
Definition uuid_of_text (t : ustr) : option UUID :=
  match utf8 t with Ok s => parse_uuid s | Raise _ => None end.
Definition kind_of_text (t : ustr) : option ReferenceKind :=
  find (λ k, bool_decide (ulit (RefKind.value k) = t)) RefKind.all.
Definition parse_target (item : pjson) : option ReferenceTarget :=
  match item with
  | PObj d =>
      match field_text d (ulit "kind"), field_text d (ulit "record_id"), field_text d (ulit "label") with
      | Some kind, Some record, Some label =>
          match kind_of_text kind, uuid_of_text record with
          | Some kind, Some record =>
              if label_ok label && ustarts label (reference_prefix kind ++ [45])
              then Some (mkTarget kind record label) else None
          | _, _ => None
          end
      | _, _, _ => None
      end
  | _ => None
  end.
Definition block_targets (b : StructuredReportBlock) : res (list ReferenceTarget) :=
  match default (PList []) (jget (bk_payload b) (ulit "reference_targets")) with
  | PList l => res_map (λ item, match parse_target item with
                                | Some t => Ok t
                                | None => reference_error "REFERENCE_TARGET_INVALID"
                                end) l
  | _ => reference_error "REFERENCE_TARGETS_INVALID"
  end.
Definition _collect_targets (c : StructuredReportContent) : res (list ReferenceTarget) :=
  (λ l, concat l) <$> res_map block_targets (blocks_of c).

Definition target_key (t : ReferenceTarget) : ReferenceKind * UUID := (tg_kind t, tg_record_id t).
Definition block_labels (b : StructuredReportBlock) : list ustr :=
  _labels_in_text (default [] (bk_text b))
  ++ match jget (bk_payload b) (ulit "reference") with Some (PStr t) => _labels_in_text t | _ => [] end.
Definition _body_labels (c : StructuredReportContent) : list ustr := concat (map block_labels (blocks_of c)).

(** The two dictionaries of the check keep the first entry of a key. *)
Fixpoint bijective (seen targets : list ReferenceTarget) : res unit :=
  match targets with
  | [] => Ok tt
  | t :: targets =>
      match find (λ s, bool_decide (tg_label s = tg_label t)) seen with
      | Some s => if bool_decide (target_key s = target_key t) then Ok tt
                  else reference_error "REFERENCE_LABEL_NOT_BIJECTIVE"
      | None => Ok tt
      end;;
      match find (λ s, bool_decide (target_key s = target_key t)) seen with
      | Some s => if bool_decide (tg_label s = tg_label t) then Ok tt
                  else reference_error "REFERENCE_RECORD_NOT_BIJECTIVE"
      | None => Ok tt
      end;;
      bijective (seen ++ [t]) targets
  end.
Definition _validate_existing_graph (c : StructuredReportContent) (targets : list ReferenceTarget) :
    res unit :=
  bijective [] targets;;
  let body := _body_labels c in
  reject_if (existsb (λ l, negb (bool_decide (l ∈ map tg_label targets))) body)
    (NamedError "ReportReferenceError") "BODY_REFERENCE_UNBOUND";;
  reject_if (existsb (λ t, negb (bool_decide (tg_label t ∈ body))) targets)
    (NamedError "ReportReferenceError") "REFERENCE_TARGET_UNUSED".

(** [_allocate]: each record of a kind gets the next number at its first target. *)
Definition numbered (k : ReferenceKind) (n : Z) : ustr :=
  reference_prefix k ++ [45] ++ ulit (pad_left 3 (str_of_Z n)).
Record Allocation := mkAllocation {
  al_replacements : list (ustr * ustr); al_entries : list ReferenceTarget }.
Definition allocate_one (a : Allocation) (t : ReferenceTarget) : res Allocation :=
  match find (λ e, bool_decide (target_key e = target_key t)) (al_entries a) with
  | Some e => Ok (mkAllocation (al_replacements a ++ [(tg_label t, tg_label e)]) (al_entries a))
  | None =>
      let n := Z.of_nat (length (filter (λ e, tg_kind e = tg_kind t) (al_entries a))) + 1 in
      e ← validated (λ e, label_ok (tg_label e))
            (mkTarget (tg_kind t) (tg_record_id t) (numbered (tg_kind t) n));
      Ok (mkAllocation (al_replacements a ++ [(tg_label t, tg_label e)]) (al_entries a ++ [e]))
  end.
Definition _allocate (targets : list ReferenceTarget) : res Allocation :=
  res_fold allocate_one targets (mkAllocation [] []).

(** [_rewrite_json]: in an object, a [label] that is itself a key is renamed too. *)
Fixpoint _rewrite_json (replacements : list (ustr * ustr)) (v : pjson) : pjson :=
  match v with
  | PStr t => PStr (_replace_reference_text t replacements)
  | PList l => PList (map (_rewrite_json replacements) l)
  | PObj l =>
      PObj (map (λ kv, (kv.1, match bool_decide (kv.1 = ulit "label"), _rewrite_json replacements kv.2 with
                              | true, PStr t => PStr (rename replacements t)
                              | _, w => w
                              end)) l)
  | _ => v
  end.
Definition _rewrite_block (replacements : list (ustr * ustr)) (b : StructuredReportBlock) :
    res StructuredReportBlock :=
  validated StructuredReportBlock_valid
    (mkBlock (bk_block_key b) (bk_block_index b) (bk_block_type b) (bk_status b)
       ((λ t, _replace_reference_text t replacements) <$> bk_text b)
       (map (λ kv, (kv.1, _rewrite_json replacements kv.2)) (bk_payload b))).
Definition rewrite_section (replacements : list (ustr * ustr)) (s : StructuredReportSection) :
    res StructuredReportSection :=
  blocks ← res_map (_rewrite_block replacements) (se_blocks s);
  validated StructuredReportSection_valid
    (mkSection (se_section s) (se_section_index s) (se_title s) (se_status s) blocks).
Definition _rewrite_content (c : StructuredReportContent) (replacements : list (ustr * ustr)) :
    res StructuredReportContent :=
  sections ← res_map (rewrite_section replacements) (co_sections c);
  validated StructuredReportContent_valid (mkContent (co_schema_version c) (co_locale c) sections).

Record ReferenceAllocation := mkReferences {
  rf_content : StructuredReportContent; rf_references : list ReferenceTarget }.
(** [ReportReferenceAllocator.allocate] *)
Definition allocate (c : StructuredReportContent) : res ReferenceAllocation :=
  targets ← _collect_targets c;
  _validate_existing_graph c targets;;
  a ← _allocate targets;
  content ← _rewrite_content c (al_replacements a);
  validated (λ r, Z.of_nat (length (rf_references r)) <=? 5000) (mkReferences content (al_entries a)).

(** * Checksums and the projection (checksums.py) *)

Definition reference_json (e : ReferenceTarget) : pjson :=
  PObj [(ulit "kind", PStr (ulit (RefKind.value (tg_kind e))));
        (ulit "record_id", PStr (ulit (uuid_str (tg_record_id e)))); (ulit "label", PStr (tg_label e))].
Record ReportChecksumContext := mkChecksumContext {
  cc_schema_version : string; cc_template_name : string; cc_template_version : string;
  cc_renderer_version : string; cc_markdown_renderer_version : string; cc_locale : ReportLocale;
  cc_input_manifest_checksum : string; cc_visible_references : list ReferenceTarget }.
Definition structured_report_checksum (c : StructuredReportContent) : res string :=
  report_checksum (content_json c).
Definition markdown_checksum (t : ustr) : res string := report_checksum (PStr t).
Definition combined_report_checksum (structured markdown : string) (c : ReportChecksumContext) :
    res string :=
  let text s := PStr (ulit s) in
  report_checksum (PObj [
    (ulit "schema_version", text (cc_schema_version c)); (ulit "structured_checksum", text structured);
    (ulit "markdown_checksum", text markdown); (ulit "template_name", text (cc_template_name c));
    (ulit "template_version", text (cc_template_version c));
    (ulit "renderer_version", text (cc_renderer_version c));
    (ulit "markdown_renderer_version", text (cc_markdown_renderer_version c));
    (ulit "locale", text (RepLocale.value (cc_locale c)));
    (ulit "input_manifest_checksum", text (cc_input_manifest_checksum c));
    (ulit "visible_references", PList (map reference_json (cc_visible_references c)))]).

Definition checksum_error {A} : string → res A := raise (NamedError "ReportChecksumError").
Definition reject_checksum (b : bool) (code : string) : res unit :=
  if b then checksum_error code else Ok tt.
(** [verify_report_projection]: the three checksums expected of a report. *)
Definition verify_report_projection (c : StructuredReportContent) (markdown : ustr)
    (context : ReportChecksumContext) (structured markdown_sum content : string) : res unit :=
  reject_checksum (negb (bool_decide (co_schema_version c = cc_schema_version context))
                   || negb (bool_decide (co_locale c = cc_locale context)))
    "REPORT_CHECKSUM_CONTEXT_MISMATCH";;
  rendered ← render c;
  reject_checksum (negb (bool_decide (cc_markdown_renderer_version context = MARKDOWN_RENDERER_VERSION))
                   || negb (bool_decide (rm_markdown_content rendered = markdown)))
    "REPORT_MARKDOWN_PROJECTION_MISMATCH";;
  actual_structured ← structured_report_checksum c;
  reject_checksum (negb (bool_decide (actual_structured = structured)))
    "REPORT_STRUCTURED_CHECKSUM_MISMATCH";;
  actual_markdown ← markdown_checksum markdown;
  reject_checksum (negb (bool_decide (actual_markdown = markdown_sum))
                   || negb (bool_decide (rm_markdown_checksum rendered = actual_markdown)))
    "REPORT_MARKDOWN_CHECKSUM_MISMATCH";;
  actual_combined ← combined_report_checksum actual_structured actual_markdown context;
  reject_checksum (negb (bool_decide (actual_combined = content))) "REPORT_CONTENT_CHECKSUM_MISMATCH".

(** What the three checksums and the Markdown of a report are computed from. *)
Definition checksum_context (content : StructuredReportContent) (r : ResearchReportRecord)
    (references : list ReferenceTarget) : ReportChecksumContext :=
  mkChecksumContext (co_schema_version content) (rr_template_name r) (rr_template_version r)
    (rr_renderer_version r) MARKDOWN_RENDERER_VERSION (rr_report_locale r)
    (rr_input_manifest_checksum r) references.
End Reports.
