(* ===== verification/ReportLabels.v ===== *)
(** The numbering of visible references (references.py): texts are parsed into
    references and characters and printed back, labels number the records of a
    kind from 1 in the order of the text, and numbering a numbered report
    changes nothing. *)
From S2P Require Import Prelude PyDecimal PyText Sha256 AgentModel PyParse Ledger Claims Text DocModel Bm25.
From Stdlib Require Import DecimalPos DecimalString Ascii.
From S2P Require Import ReportModel ReportText.

(** * Labels *)

Definition label_shape (k : ReferenceKind) (l : ustr) : Prop :=
  ∃ a b c, digit_ok a && digit_ok b && digit_ok c = true ∧ l = reference_prefix k ++ [45; a; b; c].

Lemma ustarts_app t p : ustarts t p = true ↔ ∃ u, t = p ++ u.
Proof.
  unfold ustarts. rewrite bool_decide_eq_true. split.
  - intros E. exists (drop (length p) t). by rewrite <- E at 1; rewrite take_drop.
  - intros [u ->]. by rewrite take_app_length.
Qed.

Lemma prefix_found k u :
  find (λ p, ustarts ((reference_prefix k ++ [45]) ++ u) (p ++ [45])) (map reference_prefix RefKind.all) =
  Some (reference_prefix k).
Proof. destruct k; vm_compute; reflexivity. Qed.
Lemma length_snoc (p : ustr) : length (p ++ [45]) = (length p + 1)%nat.
Proof. by rewrite length_app. Qed.
Lemma match_label_iff t l rest : match_label t = Some (l, rest) ↔ (∃ k, label_shape k l) ∧ t = l ++ rest.
Proof.
  split.
  - unfold match_label. destruct (find _ _) as [p|] eqn:E; [|done].
    apply find_some in E as [Hp (u & ->)%ustarts_app].
    apply in_map_iff in Hp as (k & <- & _).
    rewrite <- app_assoc. replace (length (reference_prefix k) + 1)%nat with
      (length (reference_prefix k ++ [45])) by (by rewrite length_app).
    rewrite app_assoc, drop_app_length. destruct u as [|a [|b [|c u]]]; [done..|].
    destruct (digit_ok a && digit_ok b && digit_ok c) eqn:Ed; [|done]. intros [= <- <-].
    split; [by exists k, a, b, c|]. by rewrite <- !app_assoc.
  - intros [(k & a & b & c & Hd & ->) ->]. unfold match_label.
    assert (Ha : (reference_prefix k ++ [45; a; b; c]) ++ rest =
      (reference_prefix k ++ [45]) ++ a :: b :: c :: rest) by (by rewrite <- !app_assoc).
    rewrite Ha, prefix_found, <- length_snoc, drop_app_length. by rewrite Hd.
Qed.
Lemma label_ok_iff l : label_ok l = true ↔ ∃ k, label_shape k l.
Proof.
  unfold label_ok. split.
  - destruct (match_label l) as [[l' [|]]|] eqn:E; [|done..]. intros _.
    apply match_label_iff in E as [Hk ->]. by rewrite app_nil_r.
  - intros Hk. by rewrite (proj2 (match_label_iff l l []) (conj Hk (eq_sym (app_nil_r l)))).
Qed.
Lemma label_plain l : label_ok l = true → 91 ∉ l ∧ 93 ∉ l.
Proof.
  rewrite label_ok_iff. intros (k & a & b & c & Hd & ->). unfold digit_ok, cp_in in Hd.
  repeat (apply andb_true_iff in Hd as [Hd ?]).
  assert (Hk : ∀ x, x ∈ reference_prefix k → 64 < x < 91) by (intros x; destruct k; cbn; set_solver by lia).
  split; rewrite elem_of_app, !elem_of_cons, elem_of_nil; intros [Hx%Hk|Hx]; lia.
Qed.

Lemma match_reference_iff c t l : match_reference (c :: t) = Some l ↔
  c = 91 ∧ label_ok l = true ∧ ∃ rest, t = l ++ 93 :: rest.
Proof.
  rewrite label_ok_iff. cbn. destruct (c =? 91) eqn:Ec; [apply Z.eqb_eq in Ec|apply Z.eqb_neq in Ec; naive_solver].
  destruct (match_label t) as [[l' [|d u]]|] eqn:E.
  - apply match_label_iff in E as [Hk ->]. split; [done|]. intros (_ & Hl & rest & Et). exfalso.
    apply (f_equal (λ t, 93 ∈ t)) in Et. rewrite app_nil_r in Et.
    destruct (label_plain l' (proj2 (label_ok_iff l') Hk)) as [_ Hn]. apply Hn.
    rewrite Et. apply elem_of_app. right. left.
  - apply match_label_iff in E as [Hk ->]. destruct (d =? 93) eqn:Ed.
    + apply Z.eqb_eq in Ed as ->. split; [intros [= <-]; eauto|].
      intros (_ & Hl & rest & Et). f_equal.
      assert (E1 : match_label (l' ++ 93 :: u) = Some (l', 93 :: u)) by (apply match_label_iff; done).
      assert (E2 : match_label (l' ++ 93 :: u) = Some (l, 93 :: rest))
        by (rewrite Et; apply match_label_iff; done). congruence.
    + apply Z.eqb_neq in Ed. split; [done|]. intros (_ & Hl & rest & Et). exfalso.
      assert (E1 : match_label (l' ++ d :: u) = Some (l', d :: u)) by (apply match_label_iff; done).
      assert (E2 : match_label (l' ++ d :: u) = Some (l, 93 :: rest))
        by (rewrite Et; apply match_label_iff; done). congruence.
  - split; [done|]. intros (_ & Hl & rest & ->).
    by rewrite (proj2 (match_label_iff _ l (93 :: rest)) (conj Hl eq_refl)) in E.
Qed.

(** * Pieces *)

Lemma pieces_go_drop n t : pieces_go n t = pieces_go 0 (drop n t).
Proof. revert n. induction t as [|c t IH]; by intros [|n]; cbn. Qed.
Lemma pieces_ref l t : label_ok l = true → pieces (91 :: l ++ 93 :: t) = Ref l :: pieces t.
Proof.
  intros Hl. unfold pieces. cbn [pieces_go].
  rewrite (proj2 (match_reference_iff 91 (l ++ 93 :: t) l)) by eauto.
  rewrite pieces_go_drop. f_equal. f_equal.
  replace (S (length l)) with (length (l ++ [93])) by (rewrite length_app; cbn; lia).
  change (l ++ 93 :: t) with (l ++ [93] ++ t). by rewrite app_assoc, drop_app_length.
Qed.
Lemma pieces_chr c t : match_reference (c :: t) = None → pieces (c :: t) = Chr c :: pieces t.
Proof. intros E. unfold pieces. cbn [pieces_go]. by rewrite E. Qed.

(** The piece lists that texts have. *)
Inductive parsed : list piece → Prop :=
| parsed_nil : parsed []
| parsed_ref l ps : label_ok l = true → parsed ps → parsed (Ref l :: ps)
| parsed_chr c ps : match_reference (c :: unpieces ps) = None → parsed ps → parsed (Chr c :: ps).

Lemma pieces_unpieces ps : parsed ps → pieces (unpieces ps) = ps.
Proof.
  induction 1 as [|l ps Hl _ IH|c ps Hc _ IH]; [done| |].
  - change (unpieces (Ref l :: ps)) with (([91] ++ l ++ [93]) ++ unpieces ps).
    rewrite <- !app_assoc. cbn [app]. by rewrite pieces_ref, IH.
  - change (unpieces (Chr c :: ps)) with (c :: unpieces ps). by rewrite pieces_chr, IH.
Qed.
Lemma parse_text t : unpieces (pieces t) = t ∧ parsed (pieces t).
Proof.
  induction t as [t IH] using (induction_ltof1 _ (@length Z)). unfold ltof in IH.
  destruct t as [|c t]; [by split; [|constructor]|].
  destruct (match_reference (c :: t)) as [l|] eqn:E.
  - apply match_reference_iff in E as (-> & Hl & rest & ->). rewrite pieces_ref by done.
    destruct (IH rest) as [Hu Hp]; [rewrite !length_cons, length_app, length_cons; lia|].
    split; [|by constructor]. unfold unpieces. cbn. fold (unpieces (pieces rest)).
    by rewrite Hu, <- app_assoc.
  - rewrite pieces_chr by done. destruct (IH t) as [Hu Hp]; [cbn; lia|].
    split; [unfold unpieces; cbn; by fold (unpieces (pieces t)); rewrite Hu|].
    constructor; [by rewrite Hu|done].
Qed.

(** The characters before the first reference of a list. *)
Fixpoint lead (ps : list piece) : ustr :=
  match ps with Chr c :: ps => c :: lead ps | _ => [] end.
Lemma unpieces_lead ps : unpieces ps = lead ps ∨ ∃ u, unpieces ps = lead ps ++ 91 :: u.
Proof.
  induction ps as [|[c|l] ps IH]; [by left| |right; by eexists].
  unfold unpieces. cbn. fold (unpieces ps). destruct IH as [->|[u ->]]; eauto.
Qed.

Lemma app_mark (x t u rest : ustr) : 91 ∉ x → t ++ 91 :: u = x ++ rest → ∃ r, t = x ++ r.
Proof.
  revert t. induction x as [|d x IH]; intros t Hx E; [by exists t|].
  rewrite not_elem_of_cons in Hx. destruct Hx as [Hd Hx].
  destruct t as [|e t]; [cbn in E; congruence|]. injection E as -> E.
  destruct (IH t Hx E) as [r ->]. by exists r.
Qed.
Lemma match_reference_mark c t u : match_reference (c :: t ++ 91 :: u) = match_reference (c :: t).
Proof.
  destruct (match_reference (c :: t)) as [l|] eqn:E.
  - apply match_reference_iff in E as (-> & Hl & rest & ->). apply match_reference_iff.
    split_and!; [done|done|]. eexists. by rewrite <- app_assoc.
  - destruct (match_reference (c :: t ++ _)) as [l|] eqn:E'; [|done]. exfalso.
    apply match_reference_iff in E' as (-> & Hl & rest & E').
    destruct (label_plain l Hl) as [H1 _].
    destruct (app_mark (l ++ [93]) t u rest) as [r ->].
    + rewrite elem_of_app, list_elem_of_singleton. intros [?|?]; [done|lia].
    + by rewrite <- app_assoc.
    + rewrite <- app_assoc in E. rewrite (proj2 (match_reference_iff 91 (l ++ [93] ++ r) l)) in E; [done|eauto].
Qed.
Lemma match_reference_lead c ps : match_reference (c :: unpieces ps) = match_reference (c :: lead ps).
Proof. destruct (unpieces_lead ps) as [->|[u ->]]; [done|apply match_reference_mark]. Qed.

(** Renaming the references of a text renames what parsing it finds. *)
Definition on_ref (f : ustr → ustr) (p : piece) : piece :=
  match p with Ref l => Ref (f l) | Chr c => Chr c end.
Lemma lead_on_ref f ps : lead (map (on_ref f) ps) = lead ps.
Proof. induction ps as [|[c|l] ps IH]; cbn; [done|by rewrite IH|done]. Qed.
Lemma parsed_on_ref f ps : (∀ l, label_ok l = true → label_ok (f l) = true) → parsed ps →
  parsed (map (on_ref f) ps).
Proof.
  intros Hf. induction 1 as [|l ps Hl _ IH|c ps Hc _ IH]; cbn; constructor; auto.
  by rewrite match_reference_lead, lead_on_ref, <- match_reference_lead.
Qed.

Section Renaming.
Context (r : list (ustr * ustr)) (Hr : ∀ kv, kv ∈ r → label_ok kv.2 = true).

Lemma rename_label l : label_ok l = true → label_ok (rename r l) = true.
Proof.
  intros Hl. unfold rename. destruct (find _ _) as [kv|] eqn:E; [|done].
  apply find_some in E as [Hin _]. apply Hr. by apply in_rev, list_elem_of_In in Hin.
Qed.
Lemma rename_pieces ps : map (rename_piece r) ps = map (on_ref (rename r)) ps.
Proof. apply map_ext. by intros []. Qed.
Lemma pieces_renamed t : pieces (_replace_reference_text t r) = map (on_ref (rename r)) (pieces t).
Proof.
  unfold _replace_reference_text. rewrite rename_pieces. apply pieces_unpieces, parsed_on_ref;
    [apply rename_label|apply parse_text].
Qed.
Lemma labels_renamed t : _labels_in_text (_replace_reference_text t r) = map (rename r) (_labels_in_text t).
Proof.
  unfold _labels_in_text. rewrite pieces_renamed. induction (pieces t) as [|[c|l] ps IH]; cbn; [done..|].
  by rewrite IH.
Qed.
End Renaming.

Lemma replace_plain r t : 91 ∉ t → _replace_reference_text t r = t.
Proof.
  intros Ht. assert (Hp : pieces t = map Chr t).
  { induction t as [|c t IH]; [done|]. rewrite not_elem_of_cons in Ht. destruct Ht as [Hc Ht].
    rewrite pieces_chr; [by rewrite IH|]. destruct (match_reference _) eqn:E; [|done].
    apply match_reference_iff in E. naive_solver. }
  unfold _replace_reference_text. rewrite Hp. rewrite map_map. unfold unpieces. clear.
  induction t as [|c t IH]; cbn; [done|]. by f_equal.
Qed.
Lemma replace_id r t : (∀ l, rename r l = l) → _replace_reference_text t r = t.
Proof.
  intros Hr. unfold _replace_reference_text. rewrite (map_ext _ id), map_id; [apply parse_text|].
  intros [c|l]; cbn; [done|by rewrite Hr].
Qed.
Lemma rewrite_json_id r v : (∀ l, rename r l = l) → _rewrite_json r v = v.
Proof.
  intros Hr. induction v as [| | | | |l IH|l IH] using pjson_ind'; cbn; try done.
  - by rewrite replace_id.
  - f_equal. induction IH as [|x l Hx _ IHl]; cbn; congruence.
  - f_equal. induction IH as [|[k x] l Hx _ IHl]; cbn; [done|]. cbn in Hx. rewrite Hx, IHl. f_equal. f_equal.
    case_bool_decide; [|done]. destruct x; by rewrite ?Hr.
Qed.

(** * Numbers in labels *)

Lemma ulit_inj s s' : ulit s = ulit s' → s = s'.
Proof.
  revert s'. induction s as [|c s IH]; intros [|c' s'] E; cbn in E; try done. injection E as Ec E.
  f_equal; [|by apply IH]. apply N2Z.inj in Ec.
  by rewrite <- (ascii_N_embedding c), <- (ascii_N_embedding c'), Ec.
Qed.

Lemma read_padded m d : NilEmpty.uint_of_string (str_repeat m "0" +:+ NilEmpty.string_of_uint d) =
  Some (Nat.iter m Decimal.D0 d).
Proof.
  induction m as [|m IH]; [apply NilEmpty.usu|].
  change (str_repeat (S m) "0" +:+ NilEmpty.string_of_uint d) with
    (String "0"%char (str_repeat m "0" +:+ NilEmpty.string_of_uint d)).
  cbn [NilEmpty.uint_of_string]. by rewrite IH.
Qed.
Lemma padded_value m d : Pos.of_uint (Nat.iter m Decimal.D0 d) = Pos.of_uint d.
Proof. induction m as [|m IH]; [done|]. exact IH. Qed.
Lemma pad_left_inj w n n' : 0 < n → 0 < n' → pad_left w (str_of_Z n) = pad_left w (str_of_Z n') → n = n'.
Proof.
  destruct n as [|p|p], n' as [|p'|p']; try lia. intros _ _ E.
  assert (Hs : ∀ q, str_of_Z (Zpos q) = NilEmpty.string_of_uint (Pos.to_uint q)).
  { intros q. unfold str_of_Z. cbn. pose proof (DecimalPos.Unsigned.to_uint_nonnil q) as Hq.
    by destruct (Pos.to_uint q). }
  unfold pad_left, zeros in E. rewrite !Hs in E. apply (f_equal NilEmpty.uint_of_string) in E.
  rewrite !read_padded in E. injection E as E. apply (f_equal Pos.of_uint) in E.
  rewrite !padded_value, !DecimalPos.Unsigned.of_to in E. by injection E as ->.
Qed.
Lemma numbered_inj k k' n n' : 0 < n → 0 < n' → numbered k n = numbered k' n' → k = k' ∧ n = n'.
Proof.
  intros Hn Hn' E. unfold numbered in E.
  assert (k = k') as <- by (destruct k, k'; try done; by vm_compute in E).
  apply (app_inv_head (reference_prefix k)), (app_inv_head [45]), ulit_inj, pad_left_inj in E; auto.
Qed.

(** * Allocation *)

(** Labels and records of the targets correspond one to one. *)
Definition coherent (ts : list ReferenceTarget) : Prop :=
  ∀ s t, s ∈ ts → t ∈ ts → tg_label s = tg_label t ↔ target_key s = target_key t.

Lemma coherent_app ts ts' : coherent (ts ++ ts') → coherent ts.
Proof. intros Hc s t Hs Ht. apply Hc; apply elem_of_app; by left. Qed.
Lemma bijective_iff seen ts : coherent seen → bijective seen ts = Ok tt ↔ coherent (seen ++ ts).
Proof.
  revert seen. induction ts as [|t ts IH]; intros seen Hc; [by rewrite app_nil_r|]. cbn [bijective].
  assert (Hst : (match find (λ s, bool_decide (tg_label s = tg_label t)) seen with
      | Some s => if bool_decide (target_key s = target_key t) then Ok tt
                  else reference_error "REFERENCE_LABEL_NOT_BIJECTIVE"
      | None => Ok tt end = Ok tt ∧
      match find (λ s, bool_decide (target_key s = target_key t)) seen with
      | Some s => if bool_decide (tg_label s = tg_label t) then Ok tt
                  else reference_error "REFERENCE_RECORD_NOT_BIJECTIVE"
      | None => Ok tt end = Ok tt) ↔ coherent (seen ++ [t])).
  { assert (Hb : coherent (seen ++ [t]) ↔ ∀ s, s ∈ seen → tg_label s = tg_label t ↔ target_key s = target_key t).
    { split; [intros Hb s Hs; apply Hb; set_solver|].
      intros Hs a b. rewrite !elem_of_app, !list_elem_of_singleton. intros [Ha| ->] [Hb| ->]; auto; [|done].
      specialize (Hs b Hb). split; intros E; symmetry; apply Hs; done. }
    rewrite Hb. destruct (find _ seen) as [s1|] eqn:E1; destruct (find (λ s, bool_decide (target_key s = _)) seen) as [s2|] eqn:E2.
    - apply find_some in E1 as [H1 E1%bool_decide_eq_true], E2 as [H2 E2%bool_decide_eq_true].
      rewrite <- list_elem_of_In in H1, H2. split.
      + intros [F1 F2]. repeat case_bool_decide; try done. intros s Hs. split; intros Es.
        * rewrite <- E2. apply Hc; [done..|]. congruence.
        * rewrite <- E1. apply Hc; [done..|]. congruence.
      + intros Hs. rewrite !bool_decide_eq_true_2 by (by apply Hs). done.
    - apply find_some in E1 as [H1 E1%bool_decide_eq_true]. rewrite <- list_elem_of_In in H1. split.
      + intros [F1 _]. case_bool_decide as Hk; [|done].
        pose proof (find_none _ _ E2 s1 (proj1 (list_elem_of_In _ _) H1)) as Hn. cbn in Hn.
        by rewrite bool_decide_eq_true_2 in Hn.
      + intros Hs. rewrite bool_decide_eq_true_2 by (by apply Hs). done.
    - apply find_some in E2 as [H2 E2%bool_decide_eq_true]. rewrite <- list_elem_of_In in H2. split.
      + intros [_ F2]. case_bool_decide as Hk; [|done].
        pose proof (find_none _ _ E1 s2 (proj1 (list_elem_of_In _ _) H2)) as Hn. cbn in Hn.
        by rewrite bool_decide_eq_true_2 in Hn.
      + intros Hs. rewrite bool_decide_eq_true_2 by (by apply Hs). done.
    - split; [|done]. intros _ s Hs%list_elem_of_In.
      pose proof (find_none _ _ E1 s Hs) as N1. pose proof (find_none _ _ E2 s Hs) as N2. cbn in N1, N2.
      by rewrite bool_decide_eq_false in N1, N2. }
  replace (seen ++ t :: ts) with ((seen ++ [t]) ++ ts) by (by rewrite <- app_assoc). split.
  - intros E. apply seq_Ok in E as [F1 E]. apply seq_Ok in E as [F2 E].
    assert (Hc' : coherent (seen ++ [t])) by (by apply Hst). by apply IH.
  - intros Hall. destruct (proj2 Hst (coherent_app _ _ Hall)) as [F1 F2].
    rewrite F1, Ok_bind, F2, Ok_bind. apply IH; [by eapply coherent_app|done].
Qed.

(** What the entries and replacements of an allocation are. *)
Record allocated (ts : list ReferenceTarget) (a : Allocation) : Prop := mkAllocated {
  at_covers : ∀ t, t ∈ ts → ∃ e, e ∈ al_entries a ∧ target_key e = target_key t;
  at_from : ∀ e, e ∈ al_entries a → ∃ t, t ∈ ts ∧ target_key t = target_key e;
  at_keys : NoDup (map target_key (al_entries a));
  at_numbers : ∀ k, let es := filter (λ e, tg_kind e = k) (al_entries a) in
    map tg_label es = map (numbered k) (seqZ 1 (Z.of_nat (length es)));
  at_labels : ∀ e, e ∈ al_entries a → label_ok (tg_label e) = true;
  at_sound : ∀ kv, kv ∈ al_replacements a → ∃ t e, t ∈ ts ∧ e ∈ al_entries a ∧
    target_key e = target_key t ∧ kv = (tg_label t, tg_label e);
  at_total : ∀ t, t ∈ ts → ∃ kv, kv ∈ al_replacements a ∧ kv.1 = tg_label t }.

Lemma allocated_step ts a t a' : allocated ts a → allocate_one a t = Ok a' → allocated (ts ++ [t]) a'.
Proof.
  intros [Hc Hf Hk Hn Hl Hs Ht] E. unfold allocate_one in E.
  destruct (find _ (al_entries a)) as [e|] eqn:Ee.
  - apply find_some in Ee as [He%list_elem_of_In Eke%bool_decide_eq_true]. injection E as <-.
    split; cbn; auto.
    + intros u [Hu| ->%list_elem_of_singleton]%elem_of_app; [by apply Hc|by exists e].
    + intros e' He'. destruct (Hf e' He') as (u & ? & ?). exists u. by rewrite elem_of_app; eauto.
    + intros kv [Hkv| ->%list_elem_of_singleton]%elem_of_app.
      * destruct (Hs kv Hkv) as (u & e' & ? & ? & ? & ?). exists u, e'. by rewrite elem_of_app; eauto.
      * exists t, e. by rewrite elem_of_app, list_elem_of_singleton; eauto.
    + intros u [Hu| ->%list_elem_of_singleton]%elem_of_app.
      * destruct (Ht u Hu) as (kv & ? & ?). exists kv. by rewrite elem_of_app; eauto.
      * eexists. rewrite elem_of_app, list_elem_of_singleton. eauto.
  - apply bind_Ok in E as (e & [-> Hok]%validated_Ok & [= <-]). set (e := mkTarget _ _ _) in *.
    assert (Hnew : ∀ e', e' ∈ al_entries a → target_key e' ≠ target_key t).
    { intros e' He' Ek. pose proof (find_none _ _ Ee e' (proj1 (list_elem_of_In _ _) He')) as Hno.
      cbn in Hno. by rewrite bool_decide_eq_true_2 in Hno. }
    split; cbn [al_entries al_replacements].
    + intros u [Hu| ->%list_elem_of_singleton]%elem_of_app.
      * destruct (Hc u Hu) as (e' & ? & ?). exists e'. by rewrite elem_of_app; eauto.
      * exists e. by rewrite elem_of_app, list_elem_of_singleton; eauto.
    + intros e' [He'| ->%list_elem_of_singleton]%elem_of_app.
      * destruct (Hf e' He') as (u & ? & ?). exists u. by rewrite elem_of_app; eauto.
      * exists t. by rewrite elem_of_app, list_elem_of_singleton; eauto.
    + rewrite map_app. apply NoDup_app. split_and!; [done| |by apply NoDup_singleton].
      intros x (e' & -> & He')%list_elem_of_fmap Hx. apply list_elem_of_singleton in Hx.
      by apply (Hnew e' He').
    + intros k. cbv zeta. rewrite filter_app, map_app, length_app.
      specialize (Hn k). cbv zeta in Hn. destruct (decide (tg_kind t = k)) as [<-|Hk'].
      * rewrite filter_cons_True, filter_nil by done. cbn [length map].
        rewrite Nat2Z.inj_add, seqZ_app by lia. rewrite map_app, <- Hn. f_equal.
        cbn. rewrite Z.add_comm. done.
      * rewrite filter_cons_False, filter_nil by done. cbn [map length]. rewrite !app_nil_r, Nat.add_0_r. done.
    + intros e' [He'| ->%list_elem_of_singleton]%elem_of_app; [by apply Hl|done].
    + intros kv [Hkv| ->%list_elem_of_singleton]%elem_of_app.
      * destruct (Hs kv Hkv) as (u & e' & ? & ? & ? & ?). exists u, e'. by rewrite !elem_of_app; eauto 6.
      * exists t, e. by rewrite !elem_of_app, !list_elem_of_singleton; eauto 6.
    + intros u [Hu| ->%list_elem_of_singleton]%elem_of_app.
      * destruct (Ht u Hu) as (kv & ? & ?). exists kv. by rewrite elem_of_app; eauto.
      * eexists. rewrite elem_of_app, list_elem_of_singleton. eauto.
Qed.
Lemma allocated_fold ts0 ts a a' : allocated ts0 a → res_fold allocate_one ts a = Ok a' →
  allocated (ts0 ++ ts) a'.
Proof.
  revert ts0 a. induction ts as [|t ts IH]; intros ts0 a Ha E; cbn in E.
  - injection E as <-. by rewrite app_nil_r.
  - apply bind_Ok in E as (a1 & E1 & E). replace (ts0 ++ t :: ts) with ((ts0 ++ [t]) ++ ts) by (by rewrite <- app_assoc).
    eapply IH; [by eapply allocated_step|done].
Qed.
Lemma allocate_spec ts a : _allocate ts = Ok a → allocated ts a.
Proof.
  intros E. apply (allocated_fold [] ts (mkAllocation [] [])); [|done].
  split; cbn; try (intros ? ?%elem_of_nil; done); [apply NoDup_nil_2|done].
Qed.

Definition relabel (r : list (ustr * ustr)) (t : ReferenceTarget) : ReferenceTarget :=
  mkTarget (tg_kind t) (tg_record_id t) (rename r (tg_label t)).

Lemma entry_label ts a e : allocated ts a → e ∈ al_entries a →
  ∃ n, 0 < n ∧ tg_label e = numbered (tg_kind e) n.
Proof.
  intros Ha He. assert (Hin : tg_label e ∈ map tg_label (filter (λ x, tg_kind x = tg_kind e) (al_entries a))).
  { apply list_elem_of_fmap_2. by apply list_elem_of_filter. }
  rewrite (at_numbers _ _ Ha) in Hin. apply list_elem_of_fmap in Hin as (n & -> & Hn).
  exists n. apply elem_of_seqZ in Hn. split; [lia|done].
Qed.
Lemma entries_one_label ts a e e' : allocated ts a → e ∈ al_entries a → e' ∈ al_entries a →
  tg_label e = tg_label e' → e = e'.
Proof.
  intros Ha He He' E. destruct (entry_label _ _ _ Ha He) as (n & Hn & En).
  destruct (entry_label _ _ _ Ha He') as (n' & Hn' & En').
  pose proof E as E0. rewrite En, En' in E0. apply numbered_inj in E0 as [Ek _]; [|done..].
  apply (NoDup_map_inj tg_label (filter (λ x, tg_kind x = tg_kind e) (al_entries a))).
  - rewrite (at_numbers _ _ Ha). apply NoDup_fmap_2_strong; [|apply NoDup_seqZ].
    intros x y Hx Hy Exy. apply elem_of_seqZ in Hx, Hy. by apply numbered_inj in Exy as [_ ?]; [|lia..].
  - by apply list_elem_of_filter.
  - by apply list_elem_of_filter.
  - exact E.
Qed.
Lemma entries_one_key ts a e e' : allocated ts a → e ∈ al_entries a → e' ∈ al_entries a →
  target_key e = target_key e' → e = e'.
Proof. intros Ha. apply NoDup_map_inj. apply (at_keys _ _ Ha). Qed.

Lemma rename_found r l : (∃ kv, kv ∈ r ∧ kv.1 = l) → ∃ kv, kv ∈ r ∧ kv.1 = l ∧ rename r l = kv.2.
Proof.
  intros (kv & Hin & <-). unfold rename. destruct (find _ (rev r)) as [kv'|] eqn:E.
  - apply find_some in E as [Hin' E%bool_decide_eq_true]. exists kv'.
    by rewrite <- in_rev, <- list_elem_of_In in Hin'.
  - pose proof (find_none _ _ E kv) as Hn. rewrite <- in_rev, <- list_elem_of_In in Hn.
    specialize (Hn Hin). cbn in Hn. by rewrite bool_decide_eq_true_2 in Hn.
Qed.
Lemma rename_target ts a t : coherent ts → allocated ts a → t ∈ ts →
  ∃ e, e ∈ al_entries a ∧ target_key e = target_key t ∧ rename (al_replacements a) (tg_label t) = tg_label e.
Proof.
  intros Hc Ha Ht. destruct (rename_found _ _ (at_total _ _ Ha t Ht)) as (kv & Hkv & E & ->).
  destruct (at_sound _ _ Ha kv Hkv) as (u & e & Hu & He & Ek & ->). cbn in *.
  exists e. split_and!; [done| |done]. rewrite Ek. by apply Hc.
Qed.
Lemma coherent_relabel ts a : coherent ts → allocated ts a →
  coherent (map (relabel (al_replacements a)) ts).
Proof.
  intros Hc Ha x y (s & -> & Hs)%list_elem_of_fmap (t & -> & Ht)%list_elem_of_fmap.
  destruct (rename_target _ _ _ Hc Ha Hs) as (e & He & Ke & Le).
  destruct (rename_target _ _ _ Hc Ha Ht) as (e' & He' & Ke' & Le').
  change (target_key (relabel (al_replacements a) s)) with (target_key s).
  change (target_key (relabel (al_replacements a) t)) with (target_key t).
  cbn [relabel tg_label]. rewrite Le, Le'. split; intros E.
  - rewrite <- Ke, <- Ke'. by rewrite (entries_one_label _ _ _ _ Ha He He' E).
  - by rewrite (entries_one_key _ _ e e' Ha He He') by congruence.
Qed.

(** Allocation looks only at the records. *)
Lemma allocate_by_key ts ts' a b a' : map target_key ts' = map target_key ts →
  al_entries a' = al_entries a → res_fold allocate_one ts a = Ok b →
  ∃ b', res_fold allocate_one ts' a' = Ok b' ∧ al_entries b' = al_entries b.
Proof.
  revert ts' a a'. induction ts as [|t ts IH]; intros [|t' ts'] a a' Ek Ea E; try done.
  - injection E as <-. by exists a'.
  - injection Ek as Et Er Ets. cbn in E |- *. apply bind_Ok in E as (a1 & E1 & E).
    assert (Ekey : target_key t' = target_key t) by (unfold target_key; congruence).
    assert (∃ a1', allocate_one a' t' = Ok a1' ∧ al_entries a1' = al_entries a1) as (a1' & -> & Ea1).
    { unfold allocate_one in *. rewrite Ea, Ekey. destruct (find _ _) as [e|].
      - injection E1 as <-. by eexists.
      - apply bind_Ok in E1 as (e & E1 & [= <-]). rewrite Et, Er, E1, Ok_bind. by eexists. }
    rewrite Ok_bind. by eapply IH.
Qed.
Lemma reallocate ts a : coherent ts → _allocate ts = Ok a →
  ∃ a', _allocate (map (relabel (al_replacements a)) ts) = Ok a' ∧ al_entries a' = al_entries a ∧
        ∀ l, rename (al_replacements a') l = l.
Proof.
  intros Hc E. pose proof (allocate_spec _ _ E) as Ha.
  destruct (allocate_by_key ts (map (relabel (al_replacements a)) ts) (mkAllocation [] []) a (mkAllocation [] []))
    as (a' & E' & Ee); [|done|done|].
  { rewrite map_map. by apply map_ext. }
  exists a'. split_and!; [done|done|]. pose proof (allocate_spec _ _ E') as Ha'. intros l.
  unfold rename. destruct (find _ _) as [kv|] eqn:F; [|done].
  apply find_some in F as [Hin F%bool_decide_eq_true]. apply in_rev, list_elem_of_In in Hin.
  destruct (at_sound _ _ Ha' kv Hin) as (t' & e & Ht' & He & Ek & ->). cbn in F |- *. subst l.
  apply list_elem_of_fmap in Ht' as (t & -> & Ht).
  destruct (rename_target _ _ _ Hc Ha Ht) as (e2 & He2 & Ke2 & Le2). cbn [relabel tg_label]. rewrite Le2.
  rewrite Ee in He. f_equal. apply (entries_one_key _ _ e e2 Ha He He2). rewrite Ek, Ke2. done.
Qed.

(** * Rewriting a report *)

Definition rewritten_block (r : list (ustr * ustr)) (b : StructuredReportBlock) : StructuredReportBlock :=
  mkBlock (bk_block_key b) (bk_block_index b) (bk_block_type b) (bk_status b)
    ((λ t, _replace_reference_text t r) <$> bk_text b)
    (map (λ kv, (kv.1, _rewrite_json r kv.2)) (bk_payload b)).
Definition rewritten_section (r : list (ustr * ustr)) (s : StructuredReportSection) : StructuredReportSection :=
  mkSection (se_section s) (se_section_index s) (se_title s) (se_status s)
    (map (rewritten_block r) (se_blocks s)).
Definition rewritten (r : list (ustr * ustr)) (c : StructuredReportContent) : StructuredReportContent :=
  mkContent (co_schema_version c) (co_locale c) (map (rewritten_section r) (co_sections c)).

Definition section_ok (s : StructuredReportSection) : Prop :=
  Forall (λ b, StructuredReportBlock_valid b = true) (se_blocks s) ∧ StructuredReportSection_valid s = true.
Definition content_ok (c : StructuredReportContent) : Prop :=
  Forall section_ok (co_sections c) ∧ StructuredReportContent_valid c = true.

Lemma res_map_pure {A B} (g : A → res B) (f : A → B) (P : B → Prop) l l' :
  (∀ x y, g x = Ok y ↔ y = f x ∧ P y) → res_map g l = Ok l' ↔ l' = map f l ∧ Forall P l'.
Proof.
  intros Hg. rewrite res_map_Ok. split.
  - induction 1 as [|x y l l' Hx _ [-> IH]]; [done|]. apply Hg in Hx as [-> Hp]. by split; [|constructor].
  - intros [-> Hp]. induction l as [|x l IH]; [constructor|]. inversion Hp; subst.
    constructor; [by apply Hg|by apply IH].
Qed.
Lemma rewrite_section_iff r s s' : rewrite_section r s = Ok s' ↔ s' = rewritten_section r s ∧ section_ok s'.
Proof.
  unfold rewrite_section. rewrite bind_Ok.
  assert (Hb : ∀ bs, res_map (_rewrite_block r) (se_blocks s) = Ok bs ↔
    bs = map (rewritten_block r) (se_blocks s) ∧ Forall (λ b, StructuredReportBlock_valid b = true) bs).
  { intros bs. apply res_map_pure. intros b b'. unfold _rewrite_block. rewrite validated_Ok. naive_solver. }
  setoid_rewrite Hb. setoid_rewrite validated_Ok. unfold section_ok. split.
  - by intros (bs & [-> Hf] & -> & Hs).
  - intros (-> & Hf & Hs). eexists. split; [split; [reflexivity|exact Hf]|done].
Qed.
Lemma rewrite_content_iff r c c' : _rewrite_content c r = Ok c' ↔ c' = rewritten r c ∧ content_ok c'.
Proof.
  unfold _rewrite_content. rewrite bind_Ok.
  setoid_rewrite (res_map_pure _ _ _ _ _ (rewrite_section_iff r)). setoid_rewrite validated_Ok.
  unfold content_ok. split.
  - by intros (bs & [-> Hf] & -> & Hs).
  - intros (-> & Hf & Hs). eexists. split; [split; [reflexivity|exact Hf]|done].
Qed.
Lemma blocks_rewritten r c : blocks_of (rewritten r c) = map (rewritten_block r) (blocks_of c).
Proof. unfold blocks_of. cbn. rewrite map_map, concat_map, map_map. done. Qed.
Lemma rewritten_id r c : (∀ l, rename r l = l) → rewritten r c = c.
Proof.
  intros Hr. destruct c as [v l ss]. unfold rewritten. cbn. f_equal.
  rewrite (map_ext _ id), map_id; [done|]. intros [k i t st bs]. unfold rewritten_section. cbn. f_equal.
  rewrite (map_ext _ id), map_id; [done|]. intros [bk bi bt bst x p]. unfold rewritten_block. cbn. f_equal.
  - destruct x; cbn; by rewrite ?replace_id.
  - rewrite (map_ext _ id), map_id; [done|]. intros [k' v']. cbn. by rewrite rewrite_json_id.
Qed.

Lemma jget_map (h : ustr → pjson → pjson) d k :
  jget (map (λ kv, (kv.1, h kv.1 kv.2)) d) k = h k <$> jget d k.
Proof. induction d as [|[k' v] d IH]; cbn; [done|]. case_bool_decide; [by subst|done]. Qed.

(** The record ids of the targets are written without brackets, as [str] of a
    UUID is. *)
Definition plain_records (c : StructuredReportContent) : Prop :=
  ∀ b l d t, b ∈ blocks_of c → jget (bk_payload b) (ulit "reference_targets") = Some (PList l) →
    PObj d ∈ l → field_text d (ulit "record_id") = Some t → 91 ∉ t.

Section Rewriting.
Context (r : list (ustr * ustr)) (Hr : ∀ kv, kv ∈ r → label_ok kv.2 = true).

(** What becomes of the value of a key in an object. *)
Definition rewrite_field (k : ustr) (v : pjson) : pjson :=
  match bool_decide (k = ulit "label"), _rewrite_json r v with
  | true, PStr t => PStr (rename r t)
  | _, w => w
  end.
Lemma rewrite_obj d : _rewrite_json r (PObj d) = PObj (map (λ kv, (kv.1, rewrite_field kv.1 kv.2)) d).
Proof. reflexivity. Qed.

Definition keeps_kind (t : ReferenceTarget) : Prop :=
  ustarts (rename r (tg_label t)) (reference_prefix (tg_kind t) ++ [45]) = true.

Lemma field_rewritten d k t : k ≠ ulit "label" → field_text d k = Some t → 91 ∉ t →
  field_text (map (λ kv, (kv.1, rewrite_field kv.1 kv.2)) d) k = Some t.
Proof.
  unfold field_text. intros Hk E Ht. rewrite (jget_map rewrite_field).
  destruct (jget d k) as [v|]; [|done]. cbn. unfold rewrite_field. rewrite bool_decide_eq_false_2 by done.
  destruct v; try done; injection E as ->; cbn; by rewrite ?replace_plain by done.
Qed.
Lemma number_no_label z : label_ok (ulit (str_of_Z z)) = false.
Proof.
  apply not_true_iff_false. intros (k & a & b & c & _ & E)%label_ok_iff. apply (f_equal head) in E.
  destruct z as [|p|p]; [by destruct k; vm_compute in E| |by destruct k; vm_compute in E].
  unfold str_of_Z in E. cbn [Z.to_int] in E.
  destruct (Pos.to_uint p), k; vm_compute in E; discriminate E.
Qed.
Lemma label_rewritten d t : field_text d (ulit "label") = Some t → label_ok t = true →
  field_text (map (λ kv, (kv.1, rewrite_field kv.1 kv.2)) d) (ulit "label") = Some (rename r t).
Proof.
  unfold field_text. intros E Ht. rewrite (jget_map rewrite_field).
  destruct (jget d _) as [v|]; [|done]. cbn. unfold rewrite_field. rewrite bool_decide_eq_true_2 by done.
  destruct v as [| |z| |u| |]; try done; injection E as <-.
  - by rewrite number_no_label in Ht.
  - cbn. by rewrite replace_plain by (by apply label_plain).
Qed.

Lemma parse_target_rewritten d t : parse_target (PObj d) = Some t → keeps_kind t →
  (∀ u, field_text d (ulit "record_id") = Some u → 91 ∉ u) →
  parse_target (_rewrite_json r (PObj d)) = Some (relabel r t).
Proof.
  intros E Hk Hp. unfold parse_target in E.
  destruct (field_text d (ulit "kind")) as [kt|] eqn:Ekt; [|done].
  destruct (field_text d (ulit "record_id")) as [rt|] eqn:Ert; [|done].
  destruct (field_text d (ulit "label")) as [lt|] eqn:Elt; [|done].
  destruct (kind_of_text kt) as [kind|] eqn:Ekind; [|done].
  destruct (uuid_of_text rt) as [u|] eqn:Eu; [|done].
  destruct (label_ok lt) eqn:Elab; [|done]. cbn in E.
  destruct (ustarts lt _) eqn:Est; [|done]. injection E as <-.
  pose proof (field_rewritten d (ulit "kind") kt ltac:(done) Ekt) as H1.
  pose proof (field_rewritten d (ulit "record_id") rt ltac:(done) Ert (Hp rt eq_refl)) as H2.
  pose proof (label_rewritten d lt Elt Elab) as H3.
  assert (Hkt : 91 ∉ kt).
  { unfold kind_of_text in Ekind. apply find_some in Ekind as [_ Ekind%bool_decide_eq_true]. subst kt.
    apply (bool_decide_eq_true_1 (91 ∉ ulit (RefKind.value kind))). by destruct kind. }
  specialize (H1 Hkt). rewrite rewrite_obj. unfold parse_target.
  rewrite H1, H2, H3, Ekind, Eu, (rename_label r Hr lt Elab). unfold keeps_kind in Hk. cbn [tg_kind tg_label] in Hk. by rewrite Hk.
Qed.

Lemma block_targets_rewritten b ts : block_targets b = Ok ts → (∀ t, t ∈ ts → keeps_kind t) →
  (∀ l d u, jget (bk_payload b) (ulit "reference_targets") = Some (PList l) → PObj d ∈ l →
     field_text d (ulit "record_id") = Some u → 91 ∉ u) →
  block_targets (rewritten_block r b) = Ok (map (relabel r) ts).
Proof.
  unfold block_targets. cbn [bk_payload rewritten_block]. intros E Hk Hp.
  rewrite (jget_map (λ _, _rewrite_json r)).
  destruct (jget (bk_payload b) _) as [v|]; cbn in E |- *; [|by injection E as <-].
  destruct v as [| | | | |l|]; try done. cbn.
  apply res_map_Ok in E. apply res_map_Ok.
  assert (Hpl : ∀ d u, PObj d ∈ l → field_text d (ulit "record_id") = Some u → 91 ∉ u) by (intros; by eapply Hp).
  clear Hp. induction E as [|item t l ts Ei _ IH]; [constructor|]. cbn [map]. constructor.
  - destruct (parse_target item) as [t'|] eqn:Et; [|done]. injection Ei as ->.
    destruct item as [| | | | | |d]; try done. rewrite (parse_target_rewritten d t); [done|done| |].
    + apply Hk. left.
    + intros u Hu. eapply Hpl; [left|done].
  - apply IH; [intros; apply Hk; by right|]. intros d u Hd. apply Hpl. by right.
Qed.

Lemma block_labels_rewritten b : block_labels (rewritten_block r b) = map (rename r) (block_labels b).
Proof.
  unfold block_labels. cbn [bk_payload bk_text rewritten_block]. rewrite (jget_map (λ _, _rewrite_json r)), map_app.
  f_equal.
  - destruct (bk_text b); cbn; [by apply labels_renamed|done].
  - destruct (jget (bk_payload b) _) as [v|]; cbn; [|done]. destruct v; cbn; try done. by apply labels_renamed.
Qed.
End Rewriting.

Lemma numbered_start k n : ustarts (numbered k n) (reference_prefix k ++ [45]) = true.
Proof. apply ustarts_app. eexists. unfold numbered. by rewrite <- app_assoc. Qed.
Lemma replacements_ok ts a : allocated ts a → ∀ kv, kv ∈ al_replacements a → label_ok kv.2 = true.
Proof. intros Ha kv Hkv. destruct (at_sound _ _ Ha kv Hkv) as (t & e & _ & He & _ & ->). by apply (at_labels _ _ Ha). Qed.

Lemma collect_iff c ts : _collect_targets c = Ok ts ↔
  ∃ l, Forall2 (λ b t, block_targets b = Ok t) (blocks_of c) l ∧ ts = concat l.
Proof.
  unfold _collect_targets. split.
  - intros E. destruct (res_map block_targets (blocks_of c)) as [l|] eqn:El; [|done]. injection E as <-.
    exists l. by rewrite <- res_map_Ok.
  - intros (l & Hl & ->). apply res_map_Ok in Hl. by rewrite Hl.
Qed.
Lemma collect_rewritten r c ts : (∀ kv, kv ∈ r → label_ok kv.2 = true) → plain_records c →
  _collect_targets c = Ok ts → (∀ t, t ∈ ts → keeps_kind r t) →
  _collect_targets (rewritten r c) = Ok (map (relabel r) ts).
Proof.
  intros Hr Hp (l & Hl & ->)%collect_iff Hk. apply collect_iff. exists (map (map (relabel r)) l).
  split; [|by rewrite concat_map]. rewrite blocks_rewritten.
  assert (Hp' : ∀ b, b ∈ blocks_of c → ∀ l d u, jget (bk_payload b) (ulit "reference_targets") = Some (PList l) →
    PObj d ∈ l → field_text d (ulit "record_id") = Some u → 91 ∉ u) by (intros; by eapply Hp).
  clear Hp. induction Hl as [|b t bs l Hb _ IH]; cbn [map]; constructor.
  - apply block_targets_rewritten; [done|done| |apply Hp'; left].
    intros x Hx. apply Hk. cbn. apply elem_of_app. by left.
  - apply IH; [|intros b' Hb'; apply Hp'; by right]. intros x Hx. apply Hk. cbn. apply elem_of_app. by right.
Qed.
Lemma body_rewritten r c : (∀ kv, kv ∈ r → label_ok kv.2 = true) →
  _body_labels (rewritten r c) = map (rename r) (_body_labels c).
Proof.
  intros Hr. unfold _body_labels. rewrite blocks_rewritten, concat_map, !map_map. f_equal.
  apply map_ext. intros b. by apply block_labels_rewritten.
Qed.

(** What a successful numbering consists of. *)
Lemma allocate_iff c x : allocate c = Ok x ↔ ∃ ts a, _collect_targets c = Ok ts ∧ coherent ts ∧
  (∀ l, l ∈ _body_labels c ↔ l ∈ map tg_label ts) ∧ _allocate ts = Ok a ∧
  rf_references x = al_entries a ∧ rf_content x = rewritten (al_replacements a) c ∧ content_ok (rf_content x) ∧
  Z.of_nat (length (al_entries a)) <= 5000.
Proof.
  assert (Hg : ∀ ts, _validate_existing_graph c ts = Ok tt ↔
    coherent ts ∧ ∀ l, l ∈ _body_labels c ↔ l ∈ map tg_label ts).
  { intros ts. unfold _validate_existing_graph. rewrite seq_Ok, (bijective_iff [] ts) by (by intros ? ? ?%elem_of_nil).
    cbn [app]. rewrite seq_Ok.
    assert (Hr : ∀ b code u, reject_if b (NamedError "ReportReferenceError") code = Ok u ↔ b = false)
      by (intros [] ? []; done).
    rewrite !Hr, <- !not_true_iff_false, !existsb_iff. setoid_rewrite negb_true_iff. setoid_rewrite bool_decide_eq_false.
    split; intros [Hc Hl]; (split; [exact Hc|]).
    - destruct Hl as [H1 H2]. intros l. split.
      + intros Hin. destruct (decide (l ∈ map tg_label ts)); [done|]. destruct H1. by exists l.
      + intros (t & -> & Ht)%list_elem_of_fmap. destruct (decide (tg_label t ∈ _body_labels c)); [done|].
        destruct H2. by exists t.
    - split; intros (y & Hy & Hn); apply Hn, Hl; [done|by apply list_elem_of_fmap_2]. }
  unfold allocate. rewrite bind_Ok. split.
  - intros (ts & Hts & E). apply seq_Ok in E as [Hv E]. apply Hg in Hv as [Hc Hl].
    apply bind_Ok in E as (a & Ha & E). apply bind_Ok in E as (c' & Hw & E).
    apply rewrite_content_iff in Hw as [-> Hok]. apply validated_Ok in E as [-> Hn]. cbn in Hn |- *.
    exists ts, a. split_and!; try done. by apply Z.leb_le.
  - intros (ts & a & Hts & Hc & Hl & Ha & Hf & Hco & Hok & Hn). exists ts. split; [done|].
    rewrite (proj2 (Hg ts)) by done. rewrite Ok_bind, Ha, Ok_bind, (proj2 (rewrite_content_iff _ _ (rf_content x))) by done.
    rewrite Ok_bind. apply validated_Ok. destruct x; cbn in *. subst. split; [done|]. by apply Z.leb_le.
Qed.

(** Numbering the references of a report gives each record of a kind one
    label, 1, 2, 3 and so on in the order of the text, and leaves the records
    the report refers to and their order as they were; the labels of the text are
    exactly those of the references, and a numbered report is numbered: doing
    it again changes nothing. *)
Theorem numbering_canonical c x : allocate c = Ok x → plain_records c →
  NoDup (map target_key (rf_references x)) ∧
  (∀ k, let es := filter (λ e, tg_kind e = k) (rf_references x) in
     map tg_label es = map (numbered k) (seqZ 1 (Z.of_nat (length es)))) ∧
  (∃ ts ts', _collect_targets c = Ok ts ∧ _collect_targets (rf_content x) = Ok ts' ∧
     map target_key ts' = map target_key ts ∧
     ∀ t, t ∈ ts' → t ∈ rf_references x) ∧
  (∀ l, l ∈ _body_labels (rf_content x) ↔ l ∈ map tg_label (rf_references x)) ∧
  allocate (rf_content x) = Ok x.
Proof.
  intros (ts & a & Hts & Hc & Hl & Ha & Hf & Hco & Hok & Hn)%allocate_iff Hp.
  pose proof (allocate_spec _ _ Ha) as Hs. pose proof (replacements_ok _ _ Hs) as Hr.
  assert (Hk : ∀ t, t ∈ ts → keeps_kind (al_replacements a) t).
  { intros t Ht. destruct (rename_target _ _ _ Hc Hs Ht) as (e & He & Ke & Le). unfold keeps_kind. rewrite Le.
    destruct (entry_label _ _ _ Hs He) as (n & _ & ->). injection Ke as -> _. apply numbered_start. }
  pose proof (collect_rewritten _ _ _ Hr Hp Hts Hk) as Hts'. rewrite <- Hco in Hts'.
  pose proof (body_rewritten _ c Hr) as Hb. rewrite <- Hco in Hb.
  assert (Hbody : ∀ l, l ∈ _body_labels (rf_content x) ↔ l ∈ map tg_label (map (relabel (al_replacements a)) ts)).
  { intros l. rewrite Hb, map_map, !list_elem_of_fmap. split.
    - intros (l0 & -> & (t & -> & Ht)%Hl%list_elem_of_fmap). by exists t.
    - intros (t & -> & Ht). exists (tg_label t). split; [done|]. by apply Hl, list_elem_of_fmap_2. }
  assert (Hin : ∀ t, t ∈ map (relabel (al_replacements a)) ts → t ∈ al_entries a).
  { intros t' (t & -> & Ht)%list_elem_of_fmap. destruct (rename_target _ _ _ Hc Hs Ht) as (e & He & Ke & Le).
    unfold relabel. rewrite Le. destruct e as [k i l]. injection Ke as <- <-. done. }
  destruct (reallocate _ _ Hc Ha) as (a' & Ha' & Ee & Hid).
  rewrite Hf. split_and!.
  - apply (at_keys _ _ Hs).
  - apply (at_numbers _ _ Hs).
  - eexists ts, _. split_and!; [done|exact Hts'|by rewrite map_map; apply map_ext|done].
  - intros l. rewrite Hbody. split.
    + intros (t & -> & Ht)%list_elem_of_fmap. apply list_elem_of_fmap_2. by apply Hin.
    + intros (e & -> & He)%list_elem_of_fmap. destruct (at_from _ _ Hs e He) as (t & Ht & Kt).
      destruct (rename_target _ _ _ Hc Hs Ht) as (e' & He' & Ke' & Le').
      apply list_elem_of_fmap. exists (relabel (al_replacements a) t). split; [|by apply list_elem_of_fmap_2].
      cbn. rewrite Le'. f_equal. apply (entries_one_key _ _ _ _ Hs He He'). congruence.
  - apply allocate_iff. exists (map (relabel (al_replacements a)) ts), a'. split_and!; try done.
    + by apply coherent_relabel.
    + by rewrite Hf, Ee.
    + by rewrite rewritten_id.
    + by rewrite Ee.
Qed.

(** A report whose labels are out of order. *)
Definition cited_block (key : string) (index : Z) (label id : string) : StructuredReportBlock :=
  mkBlock key index BlkType.METRIC_TABLE BlkSt.COMPLETE (Some (ulit ("1 [" +:+ label +:+ "]")))
    [(ulit "reference", PStr (ulit ("[" +:+ label +:+ "]")));
     (ulit "reference_targets", PList [PObj [(ulit "kind", PStr (ulit "EVIDENCE"));
        (ulit "record_id", PStr (ulit id)); (ulit "label", PStr (ulit label))]])].
Definition uuid_a : string := "00000000-0000-4000-8000-00000000000a".
Definition uuid_b : string := "00000000-0000-4000-8000-00000000000b".
Definition misnumbered : StructuredReportContent :=
  mkContent "research-report-v1" RepLocale.EN_US
    [mkSection RepSec.FINANCIAL_HEALTH 0 (ulit "Financial Health") RepSecSt.COMPLETE
       [cited_block "claim.a.0" 0 "EV-007" uuid_a; cited_block "claim.b.1" 1 "EV-001" uuid_b;
        cited_block "claim.c.2" 2 "EV-007" uuid_a]].
Lemma misnumbered_plain : plain_records misnumbered.
Proof.
  intros b l d t Hb El Hd Et.
  assert (Hall : forallb (λ b, match jget (bk_payload b) (ulit "reference_targets") with
    | Some (PList l) => forallb (λ i, match i with
        | PObj d => match field_text d (ulit "record_id") with Some t => bool_decide (91 ∉ t) | None => true end
        | _ => true end) l
    | _ => true end) (blocks_of misnumbered) = true) by (vm_compute; reflexivity).
  rewrite forallb_forall in Hall. specialize (Hall b (proj1 (list_elem_of_In _ _) Hb)). rewrite El in Hall.
  rewrite forallb_forall in Hall. specialize (Hall _ (proj1 (list_elem_of_In _ _) Hd)). cbv beta iota in Hall.
  rewrite Et in Hall. by apply bool_decide_eq_true_1 in Hall.
Qed.
Lemma numbering_canonical_witness : ∃ x, allocate misnumbered = Ok x ∧
  map tg_label (rf_references x) = map ulit ["EV-001"; "EV-002"] ∧ allocate (rf_content x) = Ok x.
Proof.
  assert (C : match allocate misnumbered with
    | Ok x => map tg_label (rf_references x) = map ulit ["EV-001"; "EV-002"]
    | Raise _ => False end) by (vm_compute; reflexivity).
  destruct (allocate misnumbered) as [x|] eqn:E; [|destruct C].
  exists x. split; [reflexivity|]. split; [exact C|].
  exact (proj2 (proj2 (proj2 (proj2 (numbering_canonical misnumbered x E misnumbered_plain))))).
Defined.
