(* ===== verification/Language.v ===== *)
(** The language rules of report reflection: the fragment of Python's [re]
    their patterns use and the patterns themselves
    (domain/reports/reflection.py). *)
From S2P Require Import Prelude PyDecimal PyText AgentModel Text ReportModel.

(** What the rules ask of the Unicode character database: [\w], [\d], the text
    in upper case and whether [repr] shows a character. *)
Class CharData := {
  word_char : Z → bool;
  decimal_char : Z → bool;
  upper : ustr → ustr;
  printable : Z → bool }.
Definition ascii_upper_char (c : Z) : Z := if cp_in 97 122 c then c - 32 else c.
Definition ascii_chars : CharData := {|
  word_char c := is_alnum c || (c =? 95); decimal_char := cp_in 48 57;
  upper := map ascii_upper_char; printable := cp_in 32 126 |}.

Inductive rx :=
| RLit (t : ustr)
| RSeq (a b : rx)
| RAlt (a b : rx)
| ROpt (a : rx)
| RDigits
| RBound.

(** The pattern constructors: a literal is written in UTF-8. *)
Definition lit (s : string) : rx := RLit (utext s).
Fixpoint alt (l : list rx) : rx := match l with [] => RLit [] | [r] => r | r :: l => RAlt r (alt l) end.
Definition lits (l : list string) : rx := alt (map lit l).
Definition bounded (r : rx) : rx := RSeq RBound (RSeq r RBound).

Section Match.
Context `{CharData}.

(** [re.IGNORECASE]: simple case folding; [i], [s] and [k] have foreign variants. *)
Definition same_char (p c : Z) : bool :=
  (ascii_fold p =? ascii_fold c)
  || ((ascii_fold p =? 105) && ((c =? 304) || (c =? 305)))
  || ((ascii_fold p =? 115) && (c =? 383))
  || ((ascii_fold p =? 107) && (c =? 8490)).

(** A position: the character before it and the text after it. *)
Definition position : Type := option Z * ustr.
Fixpoint match_lit (l : ustr) (p : position) : option position :=
  match l with
  | [] => Some p
  | x :: l => match p.2 with
              | c :: t => if same_char x c then match_lit l (Some c, t) else None
              | [] => None
              end
  end.
Definition at_boundary (p : position) : bool :=
  let before := match p.1 with Some c => word_char c | None => false end in
  let after := match p.2 with c :: _ => word_char c | [] => false end in
  xorb before after.
(** [\d+]: every way to stop. *)
Fixpoint match_digits (t : ustr) : list position :=
  match t with
  | c :: t => if decimal_char c then (Some c, t) :: match_digits t else []
  | [] => []
  end.
(** Every position a match can end at. *)
Fixpoint rx_ends (r : rx) (p : position) : list position :=
  match r with
  | RLit l => match match_lit l p with Some q => [q] | None => [] end
  | RSeq a b => concat (map (rx_ends b) (rx_ends a p))
  | RAlt a b => rx_ends a p ++ rx_ends b p
  | ROpt a => rx_ends a p ++ [p]
  | RDigits => match_digits p.2
  | RBound => if at_boundary p then [p] else []
  end.
(** [pattern.search(text) is not None] *)
Fixpoint rx_search_from (r : rx) (prev : option Z) (t : ustr) : bool :=
  match rx_ends r (prev, t) with
  | _ :: _ => true
  | [] => match t with c :: t => rx_search_from r (Some c) t | [] => false end
  end.
Definition rx_search (r : rx) (t : ustr) : bool := rx_search_from r None t.
End Match.

(** [_LANGUAGE_PATTERNS] *)
Definition _LANGUAGE_PATTERNS (c : RuntimeReflectionCheck) : option (list rx) :=
  match c with
  | Chk.NO_RATING_LANGUAGE => Some
      [RAlt (bounded (lits ["strong buy"; "rating"; "outperform"; "underperform"; "overweight"; "underweight"]))
            (lits ["评级"; "增持"; "减持"; "跑赢"; "跑输"])]
  | Chk.NO_TARGET_PRICE => Some
      [RAlt (bounded (lits ["target price"; "price target"])) (lit "目标价")]
  | Chk.NO_POSITION_ADVICE => Some
      [RAlt (bounded (alt [lit "position size"; lit "portfolio allocation";
               RSeq (lit "allocate ") (RSeq RDigits (RSeq (ROpt (RSeq (lit ".") RDigits)) (lit "%")))]))
            (lits ["仓位"; "配置比例"])]
  | Chk.NO_TRADING_INSTRUCTION => Some
      [RSeq RBound (RSeq (lits ["buy"; "sell"; "hold"]) (RSeq (lit " ")
         (RSeq (ROpt (lits ["the "; "these "])) (lits ["share"; "stock"]))));
       RAlt (bounded (RSeq (lits ["buy"; "sell"]) (lit " now")))
            (lits ["立即买入"; "立即卖出"; "买入该股"; "卖出该股"])]
  | Chk.NO_UNSUPPORTED_OVERSTATEMENT => Some
      [RAlt (bounded (lits ["will definitely"; "guaranteed"; "without doubt"; "certain to"]))
            (lits ["一定会"; "必然会"; "毫无疑问"; "保证收益"])]
  | Chk.NO_FALSE_MODEL_CALL_CLAIM => Some
      [RAlt (RSeq RBound (RSeq (lits ["generated"; "analyzed"; "written"]) (RSeq (lit " by ")
               (RSeq (ROpt (RSeq (lit "a") (RSeq (ROpt (lit "n")) (lit " "))))
                  (RSeq (ROpt (RSeq (lits ["openai"; "ai"; "language"]) (lit " ")))
                     (RSeq (lit "model") RBound))))))
            (lits ["由大模型生成"; "模型分析得出"; "AI生成"])]
  | _ => None
  end.

Section Rule.
Context `{CharData}.
(** [_matches_language_rule] *)
Definition _matches_language_rule (text : option ustr) (patterns : list rx) : bool :=
  match text with Some t => existsb (λ r, rx_search r t) patterns | None => false end.
End Rule.

(** Advice that is found, and advice that is not: after the percent sign of an
    allocation the pattern wants a word boundary, which only a word character
    directly behind the sign gives. *)
Definition found (c : RuntimeReflectionCheck) (text : string) : bool :=
  match _LANGUAGE_PATTERNS c with
  | Some l => @_matches_language_rule ascii_chars (Some (utext text)) l
  | None => false
  end.
Example advice_found :
  forallb (λ ct, found ct.1 ct.2)
    [(Chk.NO_RATING_LANGUAGE, "Rated OUTPERFORM."); (Chk.NO_RATING_LANGUAGE, "上调评级");
     (Chk.NO_TARGET_PRICE, "a price target of 3"); (Chk.NO_TRADING_INSTRUCTION, "Hold these shares");
     (Chk.NO_TRADING_INSTRUCTION, "buy now"); (Chk.NO_UNSUPPORTED_OVERSTATEMENT, "is Guaranteed!");
     (Chk.NO_FALSE_MODEL_CALL_CLAIM, "written by an AI model"); (Chk.NO_POSITION_ADVICE, "仓位")] = true.
Proof. vm_compute. reflexivity. Qed.
Example no_advice :
  existsb (λ ct, found ct.1 ct.2)
    [(Chk.NO_RATING_LANGUAGE, "operating margin"); (Chk.NO_TRADING_INSTRUCTION, "buyback of shares");
     (Chk.NO_FALSE_MODEL_CALL_CLAIM, "generated by models")] = false.
Proof. vm_compute. reflexivity. Qed.

Lemma allocation_advice_missed :
  found Chk.NO_POSITION_ADVICE "Allocate 25% of the portfolio" = false ∧
  found Chk.NO_POSITION_ADVICE "Allocate 25.5%" = false ∧
  found Chk.NO_POSITION_ADVICE "allocate 25%of" = true.
Proof. vm_compute. done. Qed.
