(* ===== verification/Reflection.v ===== *)
(** The deterministic reflection of a report: the forty checks, their
    severities and the findings they yield (domain/reports/reflection.py). *)
From S2P Require Import Prelude PyDecimal PyText Sha256 AgentModel PyParse Ledger Claims Text DocModel Bm25.
From S2P Require Import ReportModel ReportText Language.

Definition REFLECTION_ENGINE_NAME : string := "deterministic-report-reflection".
Definition REFLECTION_ENGINE_VERSION : string := "deterministic-report-reflection-v1".

(** * The rules *)

Definition _MINIMUM_SEVERITIES (c : RuntimeReflectionCheck) : ReflectionSeverity :=
  match c with
  | Chk.FACTUAL_BLOCK_HAS_CLAIM | Chk.PRIMARY_CLAIM_HAS_EVIDENCE
  | Chk.DOCUMENT_CLAIM_HAS_VALID_CITATION | Chk.STRUCTURED_CLAIM_HAS_LINEAGE
  | Chk.STRICT_DOCUMENT_PUBLISHED_AT_KNOWN | Chk.CONFLICTING_CLAIMS_DISCLOSED
  | Chk.UNSUPPORTED_CLAIMS_RESTRICTED | Chk.BLOCKED_CAPABILITY_NOT_COMPLETED
  | Chk.DATA_QUALITY_PRESENT | Chk.LIMITATIONS_PRESENT | Chk.CITATION_VALID
  | Chk.NO_UNSUPPORTED_OVERSTATEMENT | Chk.FIXTURE_NOT_DESCRIBED_AS_LIVE
  | Chk.REPORT_AS_OF_PRESENT | Chk.SNAPSHOT_IDENTITY_PRESENT | Chk.NO_FALSE_MODEL_CALL_CLAIM
  | Chk.RETRIEVAL_CAPABILITY_HONEST => Sev.HIGH
  | Chk.SECURITY_MATCHES | Chk.SNAPSHOT_MATCHES | Chk.AS_OF_MATCHES | Chk.NO_FUTURE_EVIDENCE
  | Chk.NO_REAL_RESEARCH_SYNTHETIC_EVIDENCE | Chk.NO_CROSS_SECURITY_RECORDS
  | Chk.NO_CROSS_SNAPSHOT_RECORDS | Chk.CLAIM_SET_CHECKSUM_MATCHES
  | Chk.EVIDENCE_LINK_SET_CHECKSUMS_MATCH | Chk.PACKAGE_CHECKSUM_MATCHES
  | Chk.NO_RATING_LANGUAGE | Chk.NO_TARGET_PRICE | Chk.NO_POSITION_ADVICE
  | Chk.NO_TRADING_INSTRUCTION | Chk.SYNTHETIC_NOT_REAL_COMPANY_RESEARCH
  | Chk.JSON_MARKDOWN_CHECKSUMS_MATCH | Chk.REPORT_STRUCTURE_VERSION_CHAIN_VALID
  | Chk.REPORT_INPUT_MANIFEST_UNCHANGED => Sev.CRITICAL
  | Chk.PARTIAL_SUPPORT_QUALIFIED | Chk.NO_ORPHAN_BODY_REFERENCE
  | Chk.NO_UNUSED_APPENDIX_REFERENCE | Chk.EXCERPT_WITHIN_POLICY | Chk.UNIT_CURRENCY_MATCH => Sev.MEDIUM
  end.

Definition _RULE_CATEGORIES (c : RuntimeReflectionCheck) : ReflectionFindingCategory :=
  match c with
  | Chk.FACTUAL_BLOCK_HAS_CLAIM | Chk.PRIMARY_CLAIM_HAS_EVIDENCE
  | Chk.DOCUMENT_CLAIM_HAS_VALID_CITATION | Chk.STRUCTURED_CLAIM_HAS_LINEAGE => Cat.BINDING
  | Chk.SECURITY_MATCHES | Chk.SNAPSHOT_MATCHES | Chk.NO_CROSS_SECURITY_RECORDS
  | Chk.NO_CROSS_SNAPSHOT_RECORDS | Chk.REPORT_AS_OF_PRESENT | Chk.SNAPSHOT_IDENTITY_PRESENT => Cat.CONTEXT
  | Chk.AS_OF_MATCHES | Chk.NO_FUTURE_EVIDENCE | Chk.STRICT_DOCUMENT_PUBLISHED_AT_KNOWN => Cat.TEMPORAL
  | Chk.NO_REAL_RESEARCH_SYNTHETIC_EVIDENCE | Chk.SYNTHETIC_NOT_REAL_COMPANY_RESEARCH => Cat.EVIDENCE
  | Chk.CONFLICTING_CLAIMS_DISCLOSED | Chk.PARTIAL_SUPPORT_QUALIFIED
  | Chk.UNSUPPORTED_CLAIMS_RESTRICTED | Chk.FIXTURE_NOT_DESCRIBED_AS_LIVE => Cat.DISCLOSURE
  | Chk.BLOCKED_CAPABILITY_NOT_COMPLETED | Chk.NO_FALSE_MODEL_CALL_CLAIM
  | Chk.RETRIEVAL_CAPABILITY_HONEST => Cat.CAPABILITY
  | Chk.DATA_QUALITY_PRESENT | Chk.LIMITATIONS_PRESENT => Cat.DATA_QUALITY
  | Chk.NO_ORPHAN_BODY_REFERENCE | Chk.NO_UNUSED_APPENDIX_REFERENCE | Chk.CITATION_VALID
  | Chk.EXCERPT_WITHIN_POLICY => Cat.REFERENCE
  | Chk.CLAIM_SET_CHECKSUM_MATCHES | Chk.EVIDENCE_LINK_SET_CHECKSUMS_MATCH
  | Chk.PACKAGE_CHECKSUM_MATCHES | Chk.JSON_MARKDOWN_CHECKSUMS_MATCH
  | Chk.REPORT_INPUT_MANIFEST_UNCHANGED => Cat.CHECKSUM
  | Chk.NO_RATING_LANGUAGE | Chk.NO_TARGET_PRICE | Chk.NO_POSITION_ADVICE
  | Chk.NO_TRADING_INSTRUCTION | Chk.NO_UNSUPPORTED_OVERSTATEMENT => Cat.CONTENT_SAFETY
  | Chk.UNIT_CURRENCY_MATCH => Cat.FORMAT
  | Chk.REPORT_STRUCTURE_VERSION_CHAIN_VALID => Cat.VERSIONING
  end.

(** [_REVISION_REMEDIATIONS], and what a check without one asks for. *)
Definition remediation_code (c : RuntimeReflectionCheck) : string :=
  match c with
  | Chk.FACTUAL_BLOCK_HAS_CLAIM | Chk.PRIMARY_CLAIM_HAS_EVIDENCE
  | Chk.STRUCTURED_CLAIM_HAS_LINEAGE => "DELETE_UNBOUND_FACT_BLOCK"
  | Chk.DOCUMENT_CLAIM_HAS_VALID_CITATION | Chk.CITATION_VALID => "REMOVE_INVALID_CITATION_BLOCK"
  | Chk.CONFLICTING_CLAIMS_DISCLOSED => "MOVE_CONFLICT_TO_CONFLICTS"
  | Chk.PARTIAL_SUPPORT_QUALIFIED => "DOWNGRADE_PARTIAL_LANGUAGE"
  | Chk.UNSUPPORTED_CLAIMS_RESTRICTED => "MOVE_UNSUPPORTED_TO_APPENDIX"
  | Chk.BLOCKED_CAPABILITY_NOT_COMPLETED => "MOVE_BLOCKED_TO_LIMITATIONS"
  | Chk.DATA_QUALITY_PRESENT => "ADD_DATA_QUALITY_FROM_EXISTING_STATE"
  | Chk.LIMITATIONS_PRESENT => "ADD_LIMITATIONS_FROM_EXISTING_STATE"
  | Chk.NO_ORPHAN_BODY_REFERENCE | Chk.NO_UNUSED_APPENDIX_REFERENCE => "RENUMBER_EXISTING_REFERENCES"
  | Chk.NO_RATING_LANGUAGE | Chk.NO_TARGET_PRICE | Chk.NO_POSITION_ADVICE
  | Chk.NO_TRADING_INSTRUCTION | Chk.NO_UNSUPPORTED_OVERSTATEMENT
  | Chk.NO_FALSE_MODEL_CALL_CLAIM => "REMOVE_FORBIDDEN_ADVICE_TEXT"
  | Chk.EXCERPT_WITHIN_POLICY => "TRUNCATE_EXISTING_EXCERPT"
  | Chk.JSON_MARKDOWN_CHECKSUMS_MATCH => "FIX_DETERMINISTIC_FORMAT"
  | _ => "REMEDIATE_" +:+ Chk.value c
  end.

(** [REFLECTION_RULES]: one rule per check, in the order of the checks. *)
Record ReflectionRule := mkRule {
  rl_check : RuntimeReflectionCheck; rl_minimum_severity : ReflectionSeverity;
  rl_category : ReflectionFindingCategory; rl_remediation_code : string }.
Definition rule_of (c : RuntimeReflectionCheck) : ReflectionRule :=
  mkRule c (_MINIMUM_SEVERITIES c) (_RULE_CATEGORIES c) (remediation_code c).
Definition REFLECTION_RULES : list ReflectionRule := map rule_of Chk.all.

Record CandidateReflectionFinding := mkCandidate {
  cf_finding_code : RuntimeReflectionCheck; cf_category : ReflectionFindingCategory;
  cf_severity : ReflectionSeverity; cf_description : string; cf_remediation_code : string;
  cf_blocking : bool; cf_report_section : option ReportSection; cf_block_key : option string;
  cf_claim_id : option UUID; cf_evidence_id : option UUID; cf_citation_id : option UUID }.

Record ReflectionSeverityCounts := mkCounts {
  sc_total : Z; sc_critical : Z; sc_high : Z; sc_medium : Z; sc_low : Z }.
Definition count_severity {A} (severity : A → ReflectionSeverity) (s : ReflectionSeverity) (l : list A) : Z :=
  Z.of_nat (length (filter (λ f, severity f = s) l)).
(** [_candidate_counts] and [count_findings_by_severity] *)
Definition severity_counts {A} (severity : A → ReflectionSeverity) (l : list A) : ReflectionSeverityCounts :=
  mkCounts (Z.of_nat (length l)) (count_severity severity Sev.CRITICAL l)
    (count_severity severity Sev.HIGH l) (count_severity severity Sev.MEDIUM l)
    (count_severity severity Sev.LOW l).
Definition _candidate_counts : list CandidateReflectionFinding → ReflectionSeverityCounts :=
  severity_counts cf_severity.
Definition count_findings_by_severity : list ReportReflectionFindingRecord → ReflectionSeverityCounts :=
  severity_counts ff_severity.

Record ReportReflectionDraft := mkReflectionDraft {
  fd_research_report_id : UUID; fd_engine_name : string; fd_engine_version : string;
  fd_round_number : Z; fd_input_report_checksum : string; fd_status : ReportReflectionStatus;
  fd_findings : list CandidateReflectionFinding; fd_severity_counts : ReflectionSeverityCounts }.

(** * Blocks in their sections *)

Record _BlockContext := mkContext {
  cx_section : ReportSection; cx_section_index : Z; cx_block : StructuredReportBlock }.
Definition section_contexts (s : StructuredReportSection) : list _BlockContext :=
  map (mkContext (se_section s) (se_section_index s)) (se_blocks s).
Definition _block_contexts (a : ResearchReportAggregate) : list _BlockContext :=
  concat (map section_contexts (co_sections (rr_structured_content (ag_report a)))).

Definition _APPENDIX_SECTIONS : list ReportSection :=
  [RepSec.CLAIM_INDEX; RepSec.EVIDENCE_APPENDIX; RepSec.CITATION_APPENDIX].
Definition _DOCUMENT_SECTIONS : list ReportSection :=
  [RepSec.DOCUMENT_EVIDENCE; RepSec.CATALYST_EVIDENCE; RepSec.RISK_EVIDENCE; RepSec.CORPORATE_ACTIONS].
Definition _is_appendix (s : ReportSection) : bool := bool_decide (s ∈ _APPENDIX_SECTIONS).
Definition _is_document_section (s : ReportSection) : bool := bool_decide (s ∈ _DOCUMENT_SECTIONS).
Definition _is_factual (x : _BlockContext) : bool :=
  negb (_is_appendix (cx_section x)) && states_fact (cx_block x).

Definition field (x : _BlockContext) (key : string) : option pjson := jget (bk_payload (cx_block x)) (ulit key).
Definition text_of (x : _BlockContext) : ustr := default [] (bk_text (cx_block x)).
Definition _support (x : _BlockContext) : option ustr := as_text (field x "support_status").
Definition support_in (x : _BlockContext) (l : list string) : bool :=
  match _support x with Some t => bool_decide (t ∈ map ulit l) | None => false end.
Definition _payload_uuid (x : _BlockContext) (key : string) : option UUID :=
  t ← as_text (field x key); uuid_of_text t.
Definition _payload_ids (x : _BlockContext) (key : string) : list UUID :=
  omap (λ v, t ← as_text (Some v); uuid_of_text t) (default [] (as_list (field x key))).
Definition _first_payload_uuid (x : _BlockContext) (key : string) : option UUID := head (_payload_ids x key).
Definition no_ids (x : _BlockContext) (key : string) : bool := (length (_payload_ids x key) =? 0)%nat.

Definition is_valid_status (v : option pjson) : bool :=
  match v with Some (PStr t) => bool_decide (t = ulit "VALID") | _ => false end.
Definition _has_valid_citation (x : _BlockContext) : bool :=
  is_valid_status (field x "citation_status")
  && match field x "citation_id" with
     | Some (PStr t) => is_some (uuid_of_text t)
     | _ => negb (no_ids x "citation_ids")
     end.

(** [parsed.astimezone(UTC)]: outside of years 1 to 9999 it raises. *)
Definition min_time : time := -62135596800000000.
Definition max_time : time := 253402300799999999.
Definition _parse_timestamp (v : option pjson) : res (option time) :=
  match v with
  | Some (PStr t) =>
      match utf8 t with
      | Ok s => match fromisoformat (replace_z s) with
                | Some d => match to_utc d with
                            | Some u => if between min_time max_time u then Ok (Some u)
                                        else raise OverflowError "date value out of range"
                            | None => Ok None
                            end
                | None => Ok None
                end
      | Raise _ => Ok None
      end
  | _ => Ok None
  end.
Definition _payload_timestamps (x : _BlockContext) : res (list time) :=
  (λ l : list (option time), omap id l) <$>
    res_map (λ key : string, _parse_timestamp (field x key)) ["source_published_at"; "published_at"; "as_of_time"].
Definition _published_at (x : _BlockContext) : res (option time) :=
  _parse_timestamp (match field x "source_published_at" with Some v => Some v | None => field x "published_at" end).

(** [value in {...}]: a list or an object is not hashable. *)
Definition _payload_is_synthetic (x : _BlockContext) : res bool :=
  match field x "synthetic_status" with
  | Some (PList _) | Some (PObj _) => raise TypeError "unhashable type"
  | Some (PStr t) => Ok (bool_decide (t ∈ map ulit ["SYNTHETIC_TEST_ONLY"; "UNKNOWN"]))
  | _ => Ok false
  end.
Definition _payload_context_mismatch (x : _BlockContext) (key : string) (expected : UUID) : bool :=
  match field x key with
  | None | Some PNull => false
  | Some (PStr t) => match uuid_of_text t with Some u => negb (bool_decide (u = expected)) | None => true end
  | Some _ => true
  end.
Definition _section_present (contexts : list _BlockContext) (s : ReportSection) : bool :=
  existsb (λ x, bool_decide (cx_section x = s)) contexts.

(** [_labels_from_value]: labels that are whole values of a reference field. *)
Fixpoint _labels_from_value (v : pjson) : list ustr :=
  match v with
  | PObj l =>
      omap (λ kv, match kv.2 with
                  | PStr t => if bool_decide (kv.1 ∈ map ulit ["label"; "reference"; "visible_reference"])
                                 && label_ok t then Some t else None
                  | _ => None
                  end) l
      ++ concat (map (λ kv, _labels_from_value kv.2) l)
  | PList l => concat (map _labels_from_value l)
  | _ => []
  end.
Definition _body_reference_labels (contexts : list _BlockContext) : list ustr :=
  concat (map (λ x,
    match field x "reference" with Some (PStr t) => _labels_in_text t | _ => [] end
    ++ match field x "reference_targets" with Some v => _labels_from_value v | None => [] end) contexts).
Definition _appendix_reference_labels (contexts : list _BlockContext) : list ustr :=
  concat (map (λ x, if _is_appendix (cx_section x)
                    then _labels_from_value (PObj (bk_payload (cx_block x))) else []) contexts).
(** [bool(a - b)] *)
Definition some_missing (a b : list ustr) : bool := existsb (λ l, negb (bool_decide (l ∈ b))) a.

(** [_citation_rows]: the objects that name a citation, outermost first. *)
Fixpoint citation_rows (v : pjson) : list payload :=
  match v with
  | PObj l => (if jhas l (ulit "citation_id") || jhas l (ulit "citation_status") then [l] else [])
              ++ concat (map (λ kv, citation_rows kv.2) l)
  | PList l => concat (map citation_rows l)
  | _ => []
  end.
Definition _citation_rows (x : _BlockContext) : list payload := citation_rows (PObj (bk_payload (cx_block x))).

Definition _unit_currency_mismatch (x : _BlockContext) : bool :=
  match field x "unit", field x "currency_code" with
  | Some (PStr u), Some (PStr c) =>
      let known := map ulit ["CNY"; "USD"] in
      bool_decide (u ∈ known) && bool_decide (c ∈ known) && negb (bool_decide (u = c))
  | _, _ => false
  end.

Section Engine.
Context `{UnicodeData} `{CharData}.

(** [str(value)] of a JSON value, through [repr] inside lists and objects. *)
Definition repr_char (quote c : Z) : ustr :=
  if (c =? quote) || (c =? 92) then [92; c]
  else if c =? 10 then ulit "\n" else if c =? 13 then ulit "\r" else if c =? 9 then ulit "\t"
  else if printable c then [c]
  else if c <? 256 then ulit ("\x" +:+ hex_byte (Z.to_N c))
  else if c <? 65536 then ulit ("\u" +:+ hex4 c)
  else ulit ("\U" +:+ hex4 (c / 65536) +:+ hex4 (c mod 65536)).
Definition repr_text (t : ustr) : ustr :=
  let quote := if bool_decide (39 ∈ t) && negb (bool_decide (34 ∈ t)) then 34 else 39 in
  [quote] ++ concat (map (repr_char quote) t) ++ [quote].
Fixpoint py_repr (v : pjson) : ustr :=
  match v with
  | PNull => ulit "None"
  | PBool b => ulit (if b then "True" else "False")
  | PInt z => ulit (str_of_Z z)
  | PFloat r => ulit r
  | PStr t => repr_text t
  | PList l => [91] ++ ujoin (ulit ", ") (map py_repr l) ++ [93]
  | PObj l => [123] ++ ujoin (ulit ", ") (map (λ kv, repr_text kv.1 ++ ulit ": " ++ py_repr kv.2) l) ++ [125]
  end.
Definition py_str_of (v : pjson) : ustr := match v with PStr t => t | _ => py_repr v end.

Definition mentions (text : ustr) (markers : list string) : bool :=
  existsb (λ m, ucontains text (utext m)) markers.
Definition _has_partial_qualifier (text : ustr) : bool :=
  mentions (casefold text) ["limited by"; "partial"; "based on available"; "verified evidence only";
                            "受数据可用性限制"; "部分支持"; "仅反映已验证证据"].
Definition _claims_blocked_capability_completed (x : _BlockContext) (mf : ReportInputManifest) : bool :=
  match field x "capability_code" with
  | Some (PStr code) =>
      bool_decide (code ∈ map ulit (mf_blocked_capabilities mf))
      && (bool_decide (bk_status (cx_block x) = BlkSt.COMPLETE)
          || mentions (casefold (text_of x))
               ["completed"; "passed"; "available"; "已完成"; "已通过"; "可用"])
  | _ => false
  end.
Definition joined_text (contexts : list _BlockContext) : ustr := ujoin [32] (map text_of contexts).
Definition _describes_live (contexts : list _BlockContext) : bool :=
  let text := casefold (joined_text contexts) in
  negb (mentions text ["not live"; "not_live"; "offline"; "非实时"])
  && mentions text ["live data"; "live market data"; "real-time"; "realtime"; "实时数据"; "实时行情"].
Definition _has_all_synthetic_markers (contexts : list _BlockContext) : bool :=
  let text := upper (joined_text contexts) in
  forallb (λ m, ucontains text (utext m)) ["SYNTHETIC_TEST_ONLY"; "NOT_COMPANY_EVIDENCE"; "OFFLINE"; "NOT_LIVE"].
Definition _claims_full_semantic_retrieval (contexts : list _BlockContext) : bool :=
  mentions (casefold (joined_text contexts))
    ["full semantic"; "complete vector retrieval"; "full hybrid retrieval"; "完整语义检索"; "完整向量检索"].

(** [_projection_matches]: the comparisons stop at the first that fails. *)
Definition _projection_matches (r : ResearchReportRecord) : res bool :=
  rendered ← render (rr_structured_content r);
  structured ← report_checksum (content_json (rr_structured_content r));
  if negb (bool_decide (structured = rr_structured_checksum r)) then Ok false
  else
    markdown ← report_checksum (PStr (rr_markdown_content r));
    Ok (bool_decide (markdown = rr_markdown_checksum r)
        && bool_decide (rm_markdown_content rendered = rr_markdown_content r)
        && bool_decide (rm_markdown_checksum rendered = rr_markdown_checksum r)).

(** * Findings *)

Definition _finding (rule : ReflectionRule) (x : option _BlockContext) : CandidateReflectionFinding :=
  mkCandidate (rl_check rule) (rl_category rule) (rl_minimum_severity rule)
    (Chk.value (rl_check rule) +:+ " validation failed.") (rl_remediation_code rule)
    (blocks_release (rl_minimum_severity rule)) (cx_section <$> x) (bk_block_key ∘ cx_block <$> x)
    (x ← x; _payload_uuid x "claim_id") (x ← x; _first_payload_uuid x "evidence_ids")
    (x ← x; _first_payload_uuid x "citation_ids").
Definition _for_contexts (rule : ReflectionRule) (p : _BlockContext → bool) (l : list _BlockContext) :
    list CandidateReflectionFinding :=
  map (λ x, _finding rule (Some x)) (filter (λ x, p x = true) l).
Definition for_contexts_res (rule : ReflectionRule) (p : _BlockContext → res bool)
    (l : list _BlockContext) : res (list CandidateReflectionFinding) :=
  bs ← res_map p l;
  Ok (map (λ bx, _finding rule (Some bx.2)) (filter (λ bx, bx.1 = true) (zip bs l))).
Definition _global_if (rule : ReflectionRule) (b : bool) : list CandidateReflectionFinding :=
  if b then [_finding rule None] else [].
Fixpoint res_existsb {A} (p : A → res bool) (l : list A) : res bool :=
  match l with [] => Ok false | x :: l => b ← p x; if (b : bool) then Ok true else res_existsb p l end.

Definition real_statuses : list SyntheticStatus := [Synth.REAL_VERIFIED; Synth.FIXTURE_REAL_EXCERPT].
Definition body_of (contexts : list _BlockContext) : list _BlockContext :=
  filter (λ x, _is_appendix (cx_section x) = false) contexts.
Definition factual_of (contexts : list _BlockContext) : list _BlockContext :=
  filter (λ x, _is_factual x = true) (body_of contexts).

(** [_evaluate_rule] *)
Definition _evaluate_rule (rule : ReflectionRule) (a : ResearchReportAggregate) (mf : ReportInputManifest)
    (contexts : list _BlockContext) : res (list CandidateReflectionFinding) :=
  let r := ag_report a in
  let body := body_of contexts in
  let factual := factual_of contexts in
  let each p l := Ok (_for_contexts rule p l) in
  let once b := Ok (_global_if rule b) in
  match rl_check rule with
  | Chk.FACTUAL_BLOCK_HAS_CLAIM => each (λ x, is_none (_payload_uuid x "claim_id")) factual
  | Chk.PRIMARY_CLAIM_HAS_EVIDENCE =>
      each (λ x, support_in x ["SUPPORTED"; "PARTIALLY_SUPPORTED"; "CONFLICTING"]
                 && no_ids x "evidence_ids") factual
  | Chk.DOCUMENT_CLAIM_HAS_VALID_CITATION =>
      each (λ x, _is_document_section (cx_section x) && negb (_has_valid_citation x)) factual
  | Chk.STRUCTURED_CLAIM_HAS_LINEAGE =>
      each (λ x, negb (_is_document_section (cx_section x))
                 && (no_ids x "link_ids" && no_ids x "lineage_ids")) factual
  | Chk.SECURITY_MATCHES => once (negb (bool_decide (rr_security_id r = mf_security_id mf)))
  | Chk.SNAPSHOT_MATCHES => once (negb (bool_decide (rr_snapshot_id r = mf_snapshot_id mf)))
  | Chk.AS_OF_MATCHES =>
      once (negb (rr_research_as_of_time r =? mf_research_as_of_time mf))
  | Chk.NO_FUTURE_EVIDENCE =>
      for_contexts_res rule (λ x, existsb (λ t, mf_research_as_of_time mf <? t) <$> _payload_timestamps x) body
  | Chk.STRICT_DOCUMENT_PUBLISHED_AT_KNOWN =>
      for_contexts_res rule (λ x, if _is_document_section (cx_section x)
                                  then is_none <$> _published_at x else Ok false) factual
  | Chk.NO_REAL_RESEARCH_SYNTHETIC_EVIDENCE =>
      contaminated ←
        (if bool_decide (mf_research_mode mf = AgentModel.RMode.REAL_RESEARCH)
            && negb (bool_decide (mf_synthetic_status mf ∈ real_statuses)) then Ok true
         else res_existsb _payload_is_synthetic factual);
      once contaminated
  | Chk.NO_CROSS_SECURITY_RECORDS =>
      each (λ x, _payload_context_mismatch x "security_id" (rr_security_id r)) body
  | Chk.NO_CROSS_SNAPSHOT_RECORDS =>
      each (λ x, _payload_context_mismatch x "snapshot_id" (rr_snapshot_id r)) body
  | Chk.CONFLICTING_CLAIMS_DISCLOSED =>
      each (λ x, support_in x ["CONFLICTING"] && negb (bool_decide (cx_section x = RepSec.CONFLICTS))) factual
  | Chk.PARTIAL_SUPPORT_QUALIFIED =>
      each (λ x, support_in x ["PARTIALLY_SUPPORTED"] && negb (_has_partial_qualifier (text_of x))) factual
  | Chk.UNSUPPORTED_CLAIMS_RESTRICTED =>
      each (λ x, support_in x ["UNSUPPORTED"]
                 && negb (bool_decide (cx_section x ∈ [RepSec.UNSUPPORTED_CLAIMS; RepSec.LIMITATIONS]))) factual
  | Chk.BLOCKED_CAPABILITY_NOT_COMPLETED => each (λ x, _claims_blocked_capability_completed x mf) body
  | Chk.DATA_QUALITY_PRESENT => once (negb (_section_present contexts RepSec.DATA_QUALITY))
  | Chk.LIMITATIONS_PRESENT => once (negb (_section_present contexts RepSec.LIMITATIONS))
  | Chk.NO_ORPHAN_BODY_REFERENCE =>
      once (some_missing (_body_reference_labels body) (_appendix_reference_labels contexts))
  | Chk.NO_UNUSED_APPENDIX_REFERENCE =>
      once (some_missing (_appendix_reference_labels contexts) (_body_reference_labels body))
  | Chk.CITATION_VALID =>
      each (λ x, existsb (λ row, negb (is_valid_status (jget row (ulit "citation_status")))) (_citation_rows x))
        contexts
  | Chk.CLAIM_SET_CHECKSUM_MATCHES => once (negb (bool_decide (rr_claim_set_checksum r = mf_claims_checksum mf)))
  | Chk.EVIDENCE_LINK_SET_CHECKSUMS_MATCH =>
      once (negb (bool_decide (rr_evidence_set_checksum r = mf_evidence_checksum mf))
            || negb (bool_decide (rr_link_set_checksum r = mf_links_checksum mf)))
  | Chk.PACKAGE_CHECKSUM_MATCHES => once (negb (bool_decide (rr_package_checksum r = mf_package_checksum mf)))
  | Chk.NO_RATING_LANGUAGE | Chk.NO_TARGET_PRICE | Chk.NO_POSITION_ADVICE | Chk.NO_TRADING_INSTRUCTION
  | Chk.NO_UNSUPPORTED_OVERSTATEMENT | Chk.NO_FALSE_MODEL_CALL_CLAIM =>
      match _LANGUAGE_PATTERNS (rl_check rule) with
      | Some patterns => each (λ x, _matches_language_rule (bk_text (cx_block x)) patterns) body
      | None => raise (NamedError "ReportReflectionEngineError") "REPORT_REFLECTION_RULE_UNIMPLEMENTED"
      end
  | Chk.FIXTURE_NOT_DESCRIBED_AS_LIVE =>
      once (bool_decide (mf_synthetic_status mf = Synth.FIXTURE_REAL_EXCERPT) && _describes_live body)
  | Chk.SYNTHETIC_NOT_REAL_COMPANY_RESEARCH =>
      once ((bool_decide (mf_research_mode mf = AgentModel.RMode.SYNTHETIC_TEST_ONLY)
             || bool_decide (mf_synthetic_status mf = Synth.SYNTHETIC_TEST_ONLY))
            && negb (_has_all_synthetic_markers body))
  | Chk.EXCERPT_WITHIN_POLICY =>
      each (λ x, existsb (λ row, 1000 <? ulen (py_str_of (default (PStr []) (jget row (ulit "rendered_excerpt")))))
                   (_citation_rows x)) contexts
  | Chk.UNIT_CURRENCY_MATCH => each _unit_currency_mismatch factual
  | Chk.REPORT_AS_OF_PRESENT => once false
  | Chk.SNAPSHOT_IDENTITY_PRESENT =>
      once (bool_decide (rr_snapshot_id r = mkUUID "00000000-0000-0000-0000-000000000000"))
  | Chk.RETRIEVAL_CAPABILITY_HONEST =>
      let blocked := existsb (λ code, mentions (ulit code) ["VECTOR"; "HYBRID"])
                       (mf_blocked_capabilities mf ++ mf_warnings mf) in
      once (blocked && _claims_full_semantic_retrieval body)
  | Chk.JSON_MARKDOWN_CHECKSUMS_MATCH => matches ← _projection_matches r; once (negb matches)
  | Chk.REPORT_STRUCTURE_VERSION_CHAIN_VALID =>
      let valid_chain := ((rr_report_version r =? 1) && is_none (rr_previous_report_id r))
                         || ((1 <? rr_report_version r) && is_some (rr_previous_report_id r)) in
      let valid_structure :=
        bool_decide (co_schema_version (rr_structured_content r) = "research-report-v1")
        && bool_decide (co_locale (rr_structured_content r) = rr_report_locale r) in
      once (negb valid_chain || negb valid_structure)
  | Chk.REPORT_INPUT_MANIFEST_UNCHANGED =>
      once (negb (bool_decide (rr_input_manifest_checksum r = mf_canonical_payload_checksum mf))
            || negb (bool_decide (rr_research_package_id r = mf_research_package_id mf)))
  end.

(** [DeterministicReportReflectionEngine.reflect] *)
Definition engine_error {A} : string → res A := raise (NamedError "ReportReflectionEngineError").
Definition reflect (a : ResearchReportAggregate) (mf : ReportInputManifest)
    (policy : RuntimeReflectionPolicyRecord) (round_number : Z) : res ReportReflectionDraft :=
  (if between 1 2 round_number then Ok tt else engine_error "REPORT_REFLECTION_ROUND_INVALID");;
  (if bool_decide (rfp_required_checks policy = map rl_check REFLECTION_RULES) then Ok tt
   else engine_error "REPORT_REFLECTION_POLICY_CHECKS_INVALID");;
  findings ← (λ l : list (list CandidateReflectionFinding), concat l) <$>
    res_map (λ rule, _evaluate_rule rule a mf (_block_contexts a)) REFLECTION_RULES;
  validated (λ d, Z.of_nat (length (fd_findings d)) <=? 10000)
    (mkReflectionDraft (rr_id (ag_report a)) REFLECTION_ENGINE_NAME REFLECTION_ENGINE_VERSION round_number
       (rr_content_checksum (ag_report a))
       (if (length findings =? 0)%nat then ReflSt.PASS else ReflSt.FINDINGS)
       findings (_candidate_counts findings)).
End Engine.

(** * What each check demands *)

Section Spec.
Context `{UnicodeData} `{CharData}.

Definition check_holds (c : RuntimeReflectionCheck) (a : ResearchReportAggregate) (mf : ReportInputManifest) :
    Prop :=
  let r := ag_report a in
  let all_blocks := _block_contexts a in
  let body := body_of all_blocks in
  let factual := factual_of all_blocks in
  match c with
  | Chk.FACTUAL_BLOCK_HAS_CLAIM => ∀ x, x ∈ factual → is_Some (_payload_uuid x "claim_id")
  | Chk.PRIMARY_CLAIM_HAS_EVIDENCE => ∀ x, x ∈ factual →
      support_in x ["SUPPORTED"; "PARTIALLY_SUPPORTED"; "CONFLICTING"] = true →
      _payload_ids x "evidence_ids" ≠ []
  | Chk.DOCUMENT_CLAIM_HAS_VALID_CITATION => ∀ x, x ∈ factual →
      _is_document_section (cx_section x) = true → _has_valid_citation x = true
  | Chk.STRUCTURED_CLAIM_HAS_LINEAGE => ∀ x, x ∈ factual →
      _is_document_section (cx_section x) = false →
      _payload_ids x "link_ids" ≠ [] ∨ _payload_ids x "lineage_ids" ≠ []
  | Chk.SECURITY_MATCHES => rr_security_id r = mf_security_id mf
  | Chk.SNAPSHOT_MATCHES => rr_snapshot_id r = mf_snapshot_id mf
  | Chk.AS_OF_MATCHES => rr_research_as_of_time r = mf_research_as_of_time mf
  | Chk.NO_FUTURE_EVIDENCE => ∀ x, x ∈ body →
      ∃ l, _payload_timestamps x = Ok l ∧ ∀ t, t ∈ l → t ≤ mf_research_as_of_time mf
  | Chk.STRICT_DOCUMENT_PUBLISHED_AT_KNOWN => ∀ x, x ∈ factual →
      _is_document_section (cx_section x) = true → ∃ t, _published_at x = Ok (Some t)
  | Chk.NO_REAL_RESEARCH_SYNTHETIC_EVIDENCE =>
      (mf_research_mode mf = AgentModel.RMode.REAL_RESEARCH → mf_synthetic_status mf ∈ real_statuses) ∧
      ∀ x, x ∈ factual → _payload_is_synthetic x = Ok false
  | Chk.NO_CROSS_SECURITY_RECORDS => ∀ x, x ∈ body →
      _payload_context_mismatch x "security_id" (rr_security_id r) = false
  | Chk.NO_CROSS_SNAPSHOT_RECORDS => ∀ x, x ∈ body →
      _payload_context_mismatch x "snapshot_id" (rr_snapshot_id r) = false
  | Chk.CONFLICTING_CLAIMS_DISCLOSED => ∀ x, x ∈ factual →
      support_in x ["CONFLICTING"] = true → cx_section x = RepSec.CONFLICTS
  | Chk.PARTIAL_SUPPORT_QUALIFIED => ∀ x, x ∈ factual →
      support_in x ["PARTIALLY_SUPPORTED"] = true → _has_partial_qualifier (text_of x) = true
  | Chk.UNSUPPORTED_CLAIMS_RESTRICTED => ∀ x, x ∈ factual →
      support_in x ["UNSUPPORTED"] = true → cx_section x ∈ [RepSec.UNSUPPORTED_CLAIMS; RepSec.LIMITATIONS]
  | Chk.BLOCKED_CAPABILITY_NOT_COMPLETED => ∀ x, x ∈ body →
      _claims_blocked_capability_completed x mf = false
  | Chk.DATA_QUALITY_PRESENT => ∃ x, x ∈ all_blocks ∧ cx_section x = RepSec.DATA_QUALITY
  | Chk.LIMITATIONS_PRESENT => ∃ x, x ∈ all_blocks ∧ cx_section x = RepSec.LIMITATIONS
  | Chk.NO_ORPHAN_BODY_REFERENCE => _body_reference_labels body ⊆ _appendix_reference_labels all_blocks
  | Chk.NO_UNUSED_APPENDIX_REFERENCE => _appendix_reference_labels all_blocks ⊆ _body_reference_labels body
  | Chk.CITATION_VALID => ∀ x row, x ∈ all_blocks → row ∈ _citation_rows x →
      jget row (ulit "citation_status") = Some (PStr (ulit "VALID"))
  | Chk.CLAIM_SET_CHECKSUM_MATCHES => rr_claim_set_checksum r = mf_claims_checksum mf
  | Chk.EVIDENCE_LINK_SET_CHECKSUMS_MATCH =>
      rr_evidence_set_checksum r = mf_evidence_checksum mf ∧ rr_link_set_checksum r = mf_links_checksum mf
  | Chk.PACKAGE_CHECKSUM_MATCHES => rr_package_checksum r = mf_package_checksum mf
  | Chk.NO_RATING_LANGUAGE | Chk.NO_TARGET_PRICE | Chk.NO_POSITION_ADVICE | Chk.NO_TRADING_INSTRUCTION
  | Chk.NO_UNSUPPORTED_OVERSTATEMENT | Chk.NO_FALSE_MODEL_CALL_CLAIM => ∀ x patterns p t,
      _LANGUAGE_PATTERNS c = Some patterns → x ∈ body → bk_text (cx_block x) = Some t →
      p ∈ patterns → rx_search p t = false
  | Chk.FIXTURE_NOT_DESCRIBED_AS_LIVE =>
      mf_synthetic_status mf = Synth.FIXTURE_REAL_EXCERPT → _describes_live body = false
  | Chk.SYNTHETIC_NOT_REAL_COMPANY_RESEARCH =>
      mf_research_mode mf = AgentModel.RMode.SYNTHETIC_TEST_ONLY ∨
      mf_synthetic_status mf = Synth.SYNTHETIC_TEST_ONLY → _has_all_synthetic_markers body = true
  | Chk.EXCERPT_WITHIN_POLICY => ∀ x row v, x ∈ all_blocks → row ∈ _citation_rows x →
      jget row (ulit "rendered_excerpt") = Some v → ulen (py_str_of v) ≤ 1000
  | Chk.UNIT_CURRENCY_MATCH => ∀ x, x ∈ factual → _unit_currency_mismatch x = false
  | Chk.REPORT_AS_OF_PRESENT => True
  | Chk.SNAPSHOT_IDENTITY_PRESENT => rr_snapshot_id r ≠ mkUUID "00000000-0000-0000-0000-000000000000"
  | Chk.RETRIEVAL_CAPABILITY_HONEST =>
      (∃ code, code ∈ mf_blocked_capabilities mf ++ mf_warnings mf ∧
               mentions (ulit code) ["VECTOR"; "HYBRID"] = true) → _claims_full_semantic_retrieval body = false
  | Chk.JSON_MARKDOWN_CHECKSUMS_MATCH => _projection_matches r = Ok true
  | Chk.REPORT_STRUCTURE_VERSION_CHAIN_VALID =>
      ((rr_report_version r = 1 ∧ rr_previous_report_id r = None) ∨
       (1 < rr_report_version r ∧ is_Some (rr_previous_report_id r))) ∧
      co_schema_version (rr_structured_content r) = "research-report-v1" ∧
      co_locale (rr_structured_content r) = rr_report_locale r
  | Chk.REPORT_INPUT_MANIFEST_UNCHANGED =>
      rr_input_manifest_checksum r = mf_canonical_payload_checksum mf ∧
      rr_research_package_id r = mf_research_package_id mf
  end.

Lemma for_contexts_nil rule p l : _for_contexts rule p l = [] ↔ ∀ x, x ∈ l → p x = false.
Proof.
  unfold _for_contexts. split.
  - intros E%fmap_nil_inv x Hx. destruct (p x) eqn:Ep; [|done].
    assert (Hf : x ∈ filter (λ x, p x = true) l) by (by apply list_elem_of_filter).
    rewrite E in Hf. by apply elem_of_nil in Hf.
  - intros Hp. rewrite list_filter_none; [done|].
    apply Forall_forall. intros x Hx. rewrite Hp by done. done.
Qed.

Lemma global_if_nil rule b : _global_if rule b = [] ↔ b = false.
Proof. by destruct b. Qed.

Lemma for_contexts_res_nil rule p l fs : for_contexts_res rule p l = Ok fs →
  (fs = [] ↔ ∀ x, x ∈ l → p x = Ok false).
Proof.
  unfold for_contexts_res. intros (bs & Hbs & [= <-])%bind_Ok. apply res_map_Ok in Hbs.
  split.
  - intros E%fmap_nil_inv. revert E. induction Hbs as [|x b l bs Hx _ IH]; intros E y Hy;
      [by apply elem_of_nil in Hy|].
    change (zip (b :: bs) (x :: l)) with ((b, x) :: zip bs l) in E.
    destruct b; [by rewrite filter_cons_True in E|]. rewrite filter_cons_False in E by done.
    apply elem_of_cons in Hy as [->|Hy]; [done|by apply IH].
  - intros Hp. induction Hbs as [|x b l bs Hx _ IH]; [done|].
    change (zip (b :: bs) (x :: l)) with ((b, x) :: zip bs l).
    assert (b = false) as -> by (rewrite (Hp x ltac:(left)) in Hx; congruence).
    rewrite filter_cons_False by done. apply IH. intros y Hy. apply Hp. by right.
Qed.

Lemma res_existsb_false {A} (p : A → res bool) l : res_existsb p l = Ok false ↔ ∀ x, x ∈ l → p x = Ok false.
Proof.
  induction l as [|x l IH]; cbn; [split; [by intros _ x ?%elem_of_nil|done]|].
  destruct (p x) as [[]|e] eqn:Ep; run_res.
  - split; [done|]. intros Hp. rewrite (Hp x ltac:(left)) in Ep. done.
  - rewrite IH. split; [by intros Hl y [->|Hy]%elem_of_cons; [|apply Hl]|].
    intros Hl y Hy. apply Hl. by right.
  - split; [done|]. intros Hp. rewrite (Hp x ltac:(left)) in Ep. done.
Qed.


Lemma some_missing_false a b : some_missing a b = false ↔ a ⊆ b.
Proof.
  unfold some_missing. rewrite existsb_false. split.
  - intros Hl x Hx. specialize (Hl x Hx). by apply negb_false_iff, bool_decide_eq_true in Hl.
  - intros Hl x Hx. apply negb_false_iff, bool_decide_eq_true. by apply Hl.
Qed.

Lemma andb_false_impl a b : a && b = false ↔ (a = true → b = false).
Proof. destruct a, b; naive_solver. Qed.
Lemma no_ids_false x key : no_ids x key = false ↔ _payload_ids x key ≠ [].
Proof. unfold no_ids. rewrite Nat.eqb_neq. by destruct (_payload_ids x key). Qed.

(** The condition of the rules that look at blocks one by one. *)
Lemma each_spec rule p l fs (Q : _BlockContext → Prop) :
  Ok (_for_contexts rule p l) = Ok fs → (∀ x, p x = false ↔ Q x) → (fs = [] ↔ ∀ x, x ∈ l → Q x).
Proof. intros [= <-] HQ. rewrite for_contexts_nil. by setoid_rewrite HQ. Qed.
Lemma once_spec rule b fs (Q : Prop) : Ok (_global_if rule b) = Ok fs → (b = false ↔ Q) → (fs = [] ↔ Q).
Proof. intros [= <-] HQ. by rewrite global_if_nil. Qed.
Lemma each_res_spec rule p l fs (Q : _BlockContext → Prop) :
  for_contexts_res rule p l = Ok fs → (∀ x, p x = Ok false ↔ Q x) → (fs = [] ↔ ∀ x, x ∈ l → Q x).
Proof. intros E HQ. rewrite (for_contexts_res_nil _ _ _ _ E). by setoid_rewrite HQ. Qed.

Lemma fmap_Ok {A B} (f : A → B) (m : res A) b : f <$> m = Ok b ↔ ∃ a, m = Ok a ∧ b = f a.
Proof. destruct m; cbn; naive_solver. Qed.

Lemma language_spec patterns x : _matches_language_rule (bk_text (cx_block x)) patterns = false ↔
  ∀ p t, bk_text (cx_block x) = Some t → p ∈ patterns → rx_search p t = false.
Proof.
  destruct (bk_text (cx_block x)) as [t|]; cbn; [|naive_solver].
  rewrite existsb_false. naive_solver.
Qed.
Lemma valid_status_iff v : is_valid_status v = true ↔ v = Some (PStr (ulit "VALID")).
Proof.
  unfold is_valid_status. destruct v as [[| | | | | |]|]; try naive_solver.
  rewrite bool_decide_eq_true. naive_solver.
Qed.
Lemma language_check rule patterns l fs :
  Ok (_for_contexts rule (λ x, _matches_language_rule (bk_text (cx_block x)) patterns) l) = Ok fs →
  (fs = [] ↔ ∀ x ps p t, Some patterns = Some ps → x ∈ l → bk_text (cx_block x) = Some t →
             p ∈ ps → rx_search p t = false).
Proof.
  intros E. eapply iff_trans; [apply (each_spec _ _ _ _ (λ x, ∀ p t, bk_text (cx_block x) = Some t →
    p ∈ patterns → rx_search p t = false) E); intros x; apply language_spec|].
  split; [intros Hl x ps p t [= <-]; by eauto|intros Hl x Hx p t; by eauto].
Qed.

(** A check yields no finding exactly when its condition holds. *)
Lemma evaluate_spec c a mf fs : _evaluate_rule (rule_of c) a mf (_block_contexts a) = Ok fs →
  (fs = [] ↔ check_holds c a mf).
Proof.
  intros E. destruct c; cbn [check_holds]; unfold _evaluate_rule in E; cbn [rl_check rule_of] in E; cbv zeta in E |- *.
  - eapply each_spec; [exact E|]. intros x. apply is_none_false.
  - eapply each_spec; [exact E|]. intros x. by rewrite andb_false_impl, no_ids_false.
  - eapply each_spec; [exact E|]. intros x. by rewrite andb_false_impl, negb_false_iff.
  - eapply each_spec; [exact E|]. intros x. rewrite andb_false_impl, negb_true_iff, andb_false_iff.
    by rewrite !no_ids_false.
  - eapply once_spec; [exact E|]. apply negb_decide.
  - eapply once_spec; [exact E|]. apply negb_decide.
  - eapply once_spec; [exact E|]. by rewrite negb_false_iff, Z.eqb_eq.
  - eapply each_res_spec; [exact E|]. intros x. rewrite fmap_Ok. setoid_rewrite (eq_comm false).
    setoid_rewrite existsb_false. by setoid_rewrite Z.ltb_ge.
  - eapply each_res_spec; [exact E|]. intros x. cbv beta. destruct (_is_document_section _); [|naive_solver].
    rewrite fmap_Ok. setoid_rewrite (eq_comm false). setoid_rewrite is_none_false.
    unfold is_Some. naive_solver.
  - apply bind_Ok in E as (b & Eb & E). eapply once_spec; [exact E|].
    destruct (bool_decide (mf_research_mode mf = _)) eqn:Em; cbn in Eb; bools.
    + case_bool_decide as Hs; cbn in Eb.
      * destruct b; [|rewrite res_existsb_false in Eb; naive_solver]. split; [done|].
        intros [_ Hf]. apply res_existsb_false in Hf. congruence.
      * injection Eb as <-. naive_solver.
    + destruct b; [|rewrite res_existsb_false in Eb; naive_solver]. split; [done|].
      intros [_ Hf]. apply res_existsb_false in Hf. congruence.
  - by eapply each_spec; [exact E|].
  - by eapply each_spec; [exact E|].
  - eapply each_spec; [exact E|]. intros x. by rewrite andb_false_impl, negb_decide.
  - eapply each_spec; [exact E|]. intros x. by rewrite andb_false_impl, negb_false_iff.
  - eapply each_spec; [exact E|]. intros x. by rewrite andb_false_impl, negb_decide.
  - by eapply each_spec; [exact E|].
  - eapply once_spec; [exact E|]. unfold _section_present. rewrite negb_false_iff, existsb_iff.
    by setoid_rewrite bool_decide_eq_true.
  - eapply once_spec; [exact E|]. unfold _section_present. rewrite negb_false_iff, existsb_iff.
    by setoid_rewrite bool_decide_eq_true.
  - eapply once_spec; [exact E|]. apply some_missing_false.
  - eapply once_spec; [exact E|]. apply some_missing_false.
  - eapply iff_trans; [apply (each_spec _ _ _ _ (λ x, ∀ row, row ∈ _citation_rows x →
        jget row (ulit "citation_status") = Some (PStr (ulit "VALID"))) E)|naive_solver].
    intros x. rewrite existsb_false. setoid_rewrite negb_false_iff. by setoid_rewrite valid_status_iff.
  - eapply once_spec; [exact E|]. apply negb_decide.
  - eapply once_spec; [exact E|]. by rewrite orb_false_iff, !negb_decide.
  - eapply once_spec; [exact E|]. apply negb_decide.
  - exact (language_check _ _ _ _ E).
  - exact (language_check _ _ _ _ E).
  - exact (language_check _ _ _ _ E).
  - exact (language_check _ _ _ _ E).
  - exact (language_check _ _ _ _ E).
  - eapply once_spec; [exact E|]. by rewrite andb_false_impl, bool_decide_eq_true.
  - eapply once_spec; [exact E|].
    by rewrite andb_false_impl, negb_false_iff, orb_true_iff, !bool_decide_eq_true.
  - eapply iff_trans; [apply (each_spec _ _ _ _ (λ x, ∀ row, row ∈ _citation_rows x →
        ulen (py_str_of (default (PStr []) (jget row (ulit "rendered_excerpt")))) ≤ 1000) E)|].
    { intros x. rewrite existsb_false. by setoid_rewrite Z.ltb_ge. }
    split.
    + intros Hl x row v Hx Hr Hv. specialize (Hl x Hx row Hr). by rewrite Hv in Hl.
    + intros Hl x Hx row Hr. destruct (jget row _) eqn:Hv; [by eapply Hl|done].
  - by eapply each_spec; [exact E|].
  - by eapply once_spec; [exact E|].
  - eapply once_spec; [exact E|]. by rewrite bool_decide_eq_false.
  - exact (language_check _ _ _ _ E).
  - eapply once_spec; [exact E|]. rewrite andb_false_impl, existsb_iff. done.
  - apply bind_Ok in E as (b & Eb & E). eapply once_spec; [exact E|].
    rewrite negb_false_iff, Eb. naive_solver.
  - eapply once_spec; [exact E|]. rewrite orb_false_iff, !negb_false_iff, !andb_true_iff, !orb_true_iff.
    rewrite !andb_true_iff, Z.eqb_eq, Z.ltb_lt, is_none_true, !bool_decide_eq_true. unfold is_some.
    rewrite negb_true_iff, is_none_false. done.
  - eapply once_spec; [exact E|]. by rewrite orb_false_iff, !negb_decide.
Qed.

(** Every finding of a rule is the rule applied to a block, or to the report. *)
Lemma evaluate_findings rule a mf xs fs : _evaluate_rule rule a mf xs = Ok fs →
  ∀ f, f ∈ fs → ∃ x, f = _finding rule x.
Proof.
  assert (Heach : ∀ p l fs, Ok (_for_contexts rule p l) = Ok fs → ∀ f, f ∈ fs → ∃ x, f = _finding rule x).
  { intros p l ? [= <-] f (x & -> & _)%list_elem_of_fmap. by eexists. }
  assert (Honce : ∀ b fs, Ok (_global_if rule b) = Ok fs → ∀ f, f ∈ fs → ∃ x, f = _finding rule x).
  { intros [] ? [= <-] f Hf; cbn in Hf; [|by apply elem_of_nil in Hf].
    apply list_elem_of_singleton in Hf as ->. by eexists. }
  assert (Hres : ∀ p l fs, for_contexts_res rule p l = Ok fs → ∀ f, f ∈ fs → ∃ x, f = _finding rule x).
  { intros p l ? (bs & _ & [= <-])%bind_Ok f (x & -> & _)%list_elem_of_fmap. by eexists. }
  unfold _evaluate_rule. cbv zeta. intros E.
  destruct (rl_check rule); cbn [_LANGUAGE_PATTERNS] in E; eauto;
    apply bind_Ok in E as (b & _ & E); eauto.
Qed.

Lemma all_checks c : c ∈ Chk.all.
Proof. apply (bool_decide_eq_true_1 (c ∈ Chk.all)). by destruct c. Qed.

Lemma reflect_findings a mf policy n d : reflect a mf policy n = Ok d →
  ∀ f, f ∈ fd_findings d → ∃ c x, f = _finding (rule_of c) x.
Proof.
  unfold reflect, engine_error. intros E.
  destruct (between 1 2 n); [|discriminate E]. rewrite Ok_bind in E.
  case_bool_decide; [|discriminate E]. rewrite Ok_bind in E.
  apply bind_Ok in E as (fs & (l & Hl & ->)%fmap_Ok & E). apply validated_Ok in E as [-> _].
  intros f (fs & Hf & Hfs)%elem_of_concat. apply res_map_Ok in Hl.
  destruct (Forall2_elem_r _ _ _ _ Hl Hfs) as (rule & (c & -> & _)%list_elem_of_fmap & E).
  destruct (evaluate_findings _ _ _ _ _ E f Hf) as [x ->]. by eexists _, _.
Qed.

(** What a reflection that returns has found, check by check. *)
Lemma reflect_checks a mf policy n d : reflect a mf policy n = Ok d →
  (∀ c, check_holds c a mf ↔ ∀ f, f ∈ fd_findings d → cf_finding_code f ≠ c) ∧
  (fd_status d = ReflSt.PASS ↔ ∀ c, check_holds c a mf) ∧
  fd_severity_counts d = _candidate_counts (fd_findings d) ∧
  fd_status d ∈ [ReflSt.PASS; ReflSt.FINDINGS].
Proof.
  unfold reflect, engine_error. intros E.
  destruct (between 1 2 n); [|discriminate E]. rewrite Ok_bind in E.
  case_bool_decide; [|discriminate E]. rewrite Ok_bind in E.
  apply bind_Ok in E as (fs & (l & Hl & ->)%fmap_Ok & E). apply validated_Ok in E as [-> _].
  cbn [fd_findings fd_status fd_severity_counts]. apply res_map_Ok in Hl. unfold REFLECTION_RULES in Hl.
  assert (Hc : ∀ c, check_holds c a mf ↔ ∀ f, f ∈ concat l → cf_finding_code f ≠ c).
  { intros c. split.
    - intros Hh f (fs & Hf & Hfs)%elem_of_concat Hcode.
      destruct (Forall2_elem_r _ _ _ _ Hl Hfs) as (rule & (c' & -> & _)%list_elem_of_fmap & E).
      destruct (evaluate_findings _ _ _ _ _ E f Hf) as [x ->]. cbn in Hcode. subst c'.
      apply evaluate_spec in E. rewrite (proj2 E Hh) in Hf. by apply elem_of_nil in Hf.
    - intros Hf. destruct (Forall2_elem_l _ _ _ _ Hl (list_elem_of_fmap_2 rule_of _ _ (all_checks c)))
        as (fs & Hfs & E). pose proof (evaluate_spec _ _ _ _ E) as [Hs _]. apply Hs.
      destruct fs as [|f fs]; [done|]. exfalso.
      destruct (evaluate_findings _ _ _ _ _ E f ltac:(left)) as [x Hx].
      apply (Hf f); [|by rewrite Hx]. apply elem_of_concat. exists (f :: fs). split; [left|done]. }
  split_and!; [exact Hc| |done|].
  - destruct (concat l) as [|f fs] eqn:Ef; cbn; split; try done.
    + intros _ c. apply Hc. by intros f ?%elem_of_nil.
    + intros Hh. exfalso. by apply (proj1 (Hc (cf_finding_code f)) (Hh _) f); [left|].
  - destruct (_ =? _)%nat; repeat first [left|right].
Qed.
End Spec.

(** * A report to reflect on *)

Definition sample_id (n : Z) : UUID :=
  mkUUID ("00000000-0000-4000-8000-" +:+ pad_left 12 (str_of_Z n)).
Definition id_text (n : Z) : pjson := PStr (ulit (uuid_str (sample_id n))).
Definition metric_block (claim : bool) : StructuredReportBlock :=
  mkBlock "financial.margin" 0 BlkType.METRIC_TABLE BlkSt.COMPLETE (Some (ulit "Margin [MET-001]"))
    ((if claim then [(ulit "claim_id", id_text 1)] else [])
     ++ [(ulit "support_status", PStr (ulit "SUPPORTED")); (ulit "evidence_ids", PList [id_text 2]);
         (ulit "link_ids", PList [id_text 3]); (ulit "reference", PStr (ulit "[MET-001]"));
         (ulit "reference_targets", PList [PObj [(ulit "kind", PStr (ulit "METRIC"));
            (ulit "record_id", id_text 2); (ulit "label", PStr (ulit "MET-001"))]])]).
Definition note_block (key : string) (type : ReportBlockType) (text : string) : StructuredReportBlock :=
  mkBlock key 0 type BlkSt.PARTIAL (Some (ulit text)) [].
Definition appendix_block : StructuredReportBlock :=
  mkBlock "appendix.evidence" 0 BlkType.EVIDENCE_TABLE BlkSt.COMPLETE None
    [(ulit "rows", PList [PObj [(ulit "visible_reference", PStr (ulit "MET-001"))]])].
Definition sample_section (s : ReportSection) (i : Z) (blocks : list StructuredReportBlock) :
    StructuredReportSection := mkSection s i (ulit (RepSec.value s)) RepSecSt.COMPLETE blocks.
Definition sample_content (claim : bool) : StructuredReportContent :=
  mkContent "research-report-v1" RepLocale.EN_US
    [sample_section RepSec.FINANCIAL_HEALTH 0 [metric_block claim];
     sample_section RepSec.DATA_QUALITY 1 [note_block "quality.note" BlkType.WARNING "One source."];
     sample_section RepSec.LIMITATIONS 2 [note_block "limits.note" BlkType.LIMITATION "No forecasts."];
     sample_section RepSec.EVIDENCE_APPENDIX 3 [appendix_block]].
Definition checksum_of (t : string) : string := sha256_hex t.
Definition sample_draft (content : StructuredReportContent) : ResearchReportRecord :=
  mkReport (sample_id 10) (sample_id 11) 1 None RepType.FULL_RESEARCH_DRAFT RepLocale.EN_US RepSt.DRAFT
    (ulit "Research Report") None (sample_id 12) (sample_id 13) 1700000000000000 (sample_id 14)
    (checksum_of "manifest") (checksum_of "package") content [10] (checksum_of "") (checksum_of "")
    (checksum_of "") (checksum_of "claims") (checksum_of "evidence") (checksum_of "links")
    (checksum_of "citations") "deterministic-report-renderer-v1" "full-research" "1.0.0" 1700000000000000.
Definition sample_manifest : ReportInputManifest :=
  mkManifest (sample_id 14) (sample_id 15) (sample_id 16) (sample_id 12) (sample_id 17) (sample_id 13)
    1700000000000000 RType.FULL_RESEARCH_PACKAGE AgentModel.RMode.REAL_RESEARCH PkgStatus.COMPLETE
    (checksum_of "package") "policy-v1" "planner-v1" "catalog" "evidence-v1" "claim-v1" "package-v1"
    [sample_id 1] [sample_id 2] [sample_id 3] [] [] (checksum_of "claims") (checksum_of "evidence")
    (checksum_of "links") (checksum_of "citations") (checksum_of "lineage") [] [] [] [] []
    Synth.REAL_VERIFIED "report-input-manifest-v1" (checksum_of "manifest") 1700000000000000.
Definition reflection_policy : RuntimeReflectionPolicyRecord :=
  mkReflectionPolicy "runtime-report-reflection-v1" (checksum_of "") Chk.all.


Definition flawed_report : ResearchReportAggregate :=
  mkAggregate (sample_draft (sample_content false)) [] [] [].
