(* ===== verification/ReportRevise.v ===== *)
(** Deterministic revision of a report from the findings of its reflection,
    and the carrying over of its lineage bindings (domain/reports/revision.py). *)
From S2P Require Import Prelude PyDecimal PyText Sha256 AgentModel PlanModel PyParse Ledger Claims.
From S2P Require Import Text DocModel Bm25.
From S2P Require Import ReportModel ReportText Language Reflection.

Definition REVISION_ENGINE_NAME : string := "deterministic-report-revision".
Definition REVISION_ENGINE_VERSION : string := "deterministic-report-revision-v1".
Definition revision_error {A} : string → res A := raise (NamedError "ReportRevisionError").
Definition is_revision_error (e : exn) : bool := bool_decide (exn_class e = NamedError "ReportRevisionError").

(** * Updates of the content *)

(** [section.model_copy(update={"blocks": ...})]: nothing is checked again. *)
Definition with_blocks (s : StructuredReportSection) (blocks : list StructuredReportBlock) :
    StructuredReportSection :=
  mkSection (se_section s) (se_section_index s) (se_title s) (se_status s) blocks.
Definition with_sections (c : StructuredReportContent) (sections : list StructuredReportSection) :
    StructuredReportContent := mkContent (co_schema_version c) (co_locale c) sections.
Definition on_blocks (f : list StructuredReportBlock → list StructuredReportBlock)
    (c : StructuredReportContent) : StructuredReportContent :=
  with_sections c (map (λ s, with_blocks s (f (se_blocks s))) (co_sections c)).
Definition with_text (b : StructuredReportBlock) (t : ustr) : StructuredReportBlock :=
  mkBlock (bk_block_key b) (bk_block_index b) (bk_block_type b) (bk_status b) (Some t) (bk_payload b).
Definition with_payload (b : StructuredReportBlock) (d : payload) : StructuredReportBlock :=
  mkBlock (bk_block_key b) (bk_block_index b) (bk_block_type b) (bk_status b) (bk_text b) d.
Definition with_index (b : StructuredReportBlock) (i : Z) : StructuredReportBlock :=
  mkBlock (bk_block_key b) i (bk_block_type b) (bk_status b) (bk_text b) (bk_payload b).

Definition _contains_block (c : StructuredReportContent) (key : string) : bool :=
  existsb (λ b, bool_decide (bk_block_key b = key)) (blocks_of c).
Definition found_key (c : StructuredReportContent) (key : option string) : res string :=
  match key with
  | Some key => if _contains_block c key then Ok key else revision_error "REVISION_BLOCK_NOT_FOUND"
  | None => revision_error "REVISION_BLOCK_NOT_FOUND"
  end.
Definition _delete_block (c : StructuredReportContent) (key : option string) : res StructuredReportContent :=
  key ← found_key c key;
  Ok (on_blocks (filter (λ b, bk_block_key b ≠ key)) c).
Definition _transform_block (transform : StructuredReportBlock → res StructuredReportBlock)
    (c : StructuredReportContent) (key : option string) : res StructuredReportContent :=
  key ← found_key c key;
  sections ← res_map (λ s,
      blocks ← res_map (λ b, if bool_decide (bk_block_key b = key) then transform b else Ok b) (se_blocks s);
      Ok (with_blocks s blocks)) (co_sections c);
  Ok (with_sections c sections).
(** The last block of the key is moved; every block of the key is taken out. *)
Definition _move_block (c : StructuredReportContent) (key : option string) (target : ReportSection) :
    res StructuredReportContent :=
  key ← require_some key (NamedError "ReportRevisionError") "REVISION_BLOCK_NOT_FOUND";
  selected ← require_some (last (filter (λ b, bk_block_key b = key) (blocks_of c)))
               (NamedError "ReportRevisionError") "REVISION_BLOCK_NOT_FOUND";
  let retained := co_sections (on_blocks (filter (λ b, bk_block_key b ≠ key)) c) in
  match list_find (λ s, se_section s = target) retained with
  | None =>
      s ← validated StructuredReportSection_valid
            (mkSection target (Z.of_nat (length retained)) (ulit (title_of (RepSec.value target)))
               RepSecSt.PARTIAL [selected]);
      Ok (with_sections c (retained ++ [s]))
  | Some (i, s) => Ok (with_sections c (<[i := with_blocks s (se_blocks s ++ [selected])]> retained))
  end.

(** [finding.id.hex[:8]] and [casefold] of an ASCII code. *)
Definition disclosure_key (f : ReportReflectionFindingRecord) : string :=
  "reflection." +:+ str_map ascii_lower (ff_remediation_code f) +:+ "."
  +:+ String.substring 0 8 (uuid_str (ff_id f)).
Definition section_status_of (s : ReportBlockStatus) : ReportSectionStatus :=
  match s with
  | BlkSt.COMPLETE => RepSecSt.COMPLETE | BlkSt.PARTIAL => RepSecSt.PARTIAL
  | BlkSt.BLOCKED => RepSecSt.BLOCKED | BlkSt.NO_EVIDENCE => RepSecSt.NO_EVIDENCE
  | BlkSt.NOT_REQUESTED => RepSecSt.NOT_REQUESTED
  end.
Definition disclosure_block (f : ReportReflectionFindingRecord) (type : ReportBlockType)
    (status : ReportBlockStatus) : StructuredReportBlock :=
  mkBlock (disclosure_key f) 0 type status
    (Some (ulit ("Reflection limitation: " +:+ ff_finding_code f +:+ ".")))
    [(ulit "finding_code", PStr (ulit (ff_finding_code f)));
     (ulit "remediation_code", PStr (ulit (ff_remediation_code f)))].
Definition _append_disclosure (c : StructuredReportContent) (f : ReportReflectionFindingRecord)
    (section : ReportSection) (type : ReportBlockType) (status : ReportBlockStatus) :
    res StructuredReportContent :=
  block ← validated StructuredReportBlock_valid (disclosure_block f type status);
  match list_find (λ s, se_section s = section) (co_sections c) with
  | None =>
      s ← validated StructuredReportSection_valid
            (mkSection section (Z.of_nat (length (co_sections c)))
               (ulit (title_of (RepSec.value section))) (section_status_of status) [block]);
      Ok (with_sections c (co_sections c ++ [s]))
  | Some (i, s) => Ok (with_sections c (<[i := with_blocks s (se_blocks s ++ [block])]> (co_sections c)))
  end.

(** [_truncate_excerpts] *)
Fixpoint _truncate_excerpts (maximum : Z) (v : pjson) : pjson :=
  match v with
  | PObj l =>
      PObj (map (λ kv, (kv.1,
        match bool_decide (kv.1 = ulit "rendered_excerpt"), kv.2 with
        | true, PStr t => if maximum <? ulen t then PStr (slice t 0 maximum) else kv.2
        | _, _ => _truncate_excerpts maximum kv.2
        end)) l)
  | PList l => PList (map (_truncate_excerpts maximum) l)
  | _ => v
  end.
Definition truncate_payload (maximum : Z) (d : payload) : payload :=
  match _truncate_excerpts maximum (PObj d) with PObj d => d | _ => d end.

(** [_canonicalize]: blocks and sections are numbered again. *)
Definition renumber_blocks (l : list StructuredReportBlock) : list StructuredReportBlock :=
  zip_with with_index l (seqZ 0 (Z.of_nat (length l))).
Definition _canonicalize (c : StructuredReportContent) : res StructuredReportContent :=
  sections ← res_map (λ si : StructuredReportSection * Z, let s := si.1 in
      validated StructuredReportSection_valid
        (mkSection (se_section s) si.2 (se_title s)
           (match se_blocks s with [] => RepSecSt.NO_EVIDENCE | _ => se_status s end)
           (renumber_blocks (se_blocks s))))
    (zip (co_sections c) (seqZ 0 (Z.of_nat (length (co_sections c)))));
  validated StructuredReportContent_valid (with_sections c sections).

Section Revise.
Context `{UnicodeData}.

Definition partial_prefix : ustr := ulit "Limited by verified evidence: ".
Definition _qualify_partial (b : StructuredReportBlock) : res StructuredReportBlock :=
  match bk_text b with
  | None => revision_error "REVISION_TEXT_NOT_FOUND"
  | Some t => if ustarts (casefold t) (casefold partial_prefix) then Ok b
              else Ok (with_text b (partial_prefix ++ t))
  end.

(** [REVISION_ACTION_HANDLERS] *)
Definition handler (action : ReportRevisionActionCode) (c : StructuredReportContent)
    (f : ReportReflectionFindingRecord) (policy : ReportPolicyRecord) : res StructuredReportContent :=
  match action with
  | RevAct.DELETE_UNBOUND_FACT_BLOCK | RevAct.DELETE_UNSUPPORTED_FACT_BLOCK
  | RevAct.REMOVE_INVALID_CITATION_BLOCK | RevAct.REMOVE_FORBIDDEN_ADVICE_TEXT =>
      _delete_block c (ff_block_key f)
  | RevAct.DOWNGRADE_PARTIAL_LANGUAGE => _transform_block _qualify_partial c (ff_block_key f)
  | RevAct.MOVE_CONFLICT_TO_CONFLICTS => _move_block c (ff_block_key f) RepSec.CONFLICTS
  | RevAct.MOVE_UNSUPPORTED_TO_APPENDIX => _move_block c (ff_block_key f) RepSec.UNSUPPORTED_CLAIMS
  | RevAct.MOVE_BLOCKED_TO_LIMITATIONS => _move_block c (ff_block_key f) RepSec.LIMITATIONS
  | RevAct.ADD_DATA_QUALITY_FROM_EXISTING_STATE =>
      _append_disclosure c f RepSec.DATA_QUALITY BlkType.WARNING BlkSt.PARTIAL
  | RevAct.ADD_LIMITATIONS_FROM_EXISTING_STATE =>
      _append_disclosure c f RepSec.LIMITATIONS BlkType.LIMITATION BlkSt.BLOCKED
  | RevAct.RENUMBER_EXISTING_REFERENCES => rf_content <$> allocate c
  | RevAct.TRUNCATE_EXISTING_EXCERPT =>
      _transform_block
        (λ b, Ok (with_payload b (truncate_payload (rp_max_excerpt_length policy) (bk_payload b))))
        c (ff_block_key f)
  | RevAct.FIX_DETERMINISTIC_FORMAT => _canonicalize c
  end.

Definition action_of_code (code : string) : option ReportRevisionActionCode :=
  find (λ a, bool_decide (RevAct.value a = code)) RevAct.all.

(** The loop of [revise] over the findings, with what it has collected. *)
Record RevisionState := mkRevising {
  rs_content : StructuredReportContent; rs_actions : list ReportRevisionAction;
  rs_unresolved : list UUID }.
Definition apply_finding (policy : ReportPolicyRecord) (s : RevisionState)
    (f : ReportReflectionFindingRecord) : res RevisionState :=
  let unresolved := Ok (mkRevising (rs_content s) (rs_actions s) (rs_unresolved s ++ [ff_id f])) in
  match action_of_code (ff_remediation_code f) with
  | None => unresolved
  | Some action =>
      match handler action (rs_content s) f policy with
      | Ok content => Ok (mkRevising content
                            (rs_actions s ++ [mkAction (ff_id f) action (ff_block_key f)]) (rs_unresolved s))
      | Raise e => if is_revision_error e then unresolved else Raise e
      end
  end.

(** * The successor report *)

(** The report with new content: rendered, summed and given its id. *)
Definition revised_report (source : ResearchReportRecord) (id : UUID) (content : StructuredReportContent)
    (markdown : ustr) (structured markdown_sum content_sum : string) : ResearchReportRecord :=
  mkReport id (rr_report_generation_run_id source) (rr_report_version source + 1) (Some (rr_id source))
    (rr_report_type source) (rr_report_locale source) RepSt.REVISED (rr_title source) (rr_subtitle source)
    (rr_security_id source) (rr_snapshot_id source) (rr_research_as_of_time source)
    (rr_research_package_id source) (rr_input_manifest_checksum source) (rr_package_checksum source)
    content markdown structured markdown_sum content_sum (rr_claim_set_checksum source)
    (rr_evidence_set_checksum source) (rr_link_set_checksum source) (rr_citation_set_checksum source)
    (rr_renderer_version source) (rr_template_name source) (rr_template_version source)
    (rr_created_at source).
Definition _build_target (source : ResearchReportRecord) (c : StructuredReportContent) :
    res ResearchReportRecord :=
  allocation ← allocate c;
  let content := rf_content allocation in
  rendered ← render content;
  structured ← structured_report_checksum content;
  markdown ← markdown_checksum (rm_markdown_content rendered);
  combined ← combined_report_checksum structured markdown
               (checksum_context content source (rf_references allocation));
  let id := uuid5 (uuid_str (rr_id source) +:+ ":" +:+ str_of_Z (rr_report_version source + 1) +:+ ":"
                   +:+ combined) in
  validated ResearchReportRecord_valid
    (revised_report source id content (rm_markdown_content rendered) structured markdown combined).

(** [rebase_report_bindings]: a binding survives when its block, its reference
    and the binding it hangs on do. *)
Definition key_of_block (r : ResearchReportRecord) (id : UUID) : option string :=
  bk_block_key <$> block_by_id r id.
Definition has_block (r : ResearchReportRecord) (key : string) : bool :=
  _contains_block (rr_structured_content r) key.
Definition rebase_claim (source target : ResearchReportRecord) (b : ReportClaimBindingWrite) :
    option ReportClaimBindingWrite :=
  match key_of_block source (rcb_report_block_id b) with
  | Some key =>
      if has_block target key then
        Some (mkClaimBinding
          (uuid5 (uuid_str (rr_id target) +:+ ":claim-binding:" +:+ key +:+ ":" +:+ uuid_str (rcb_claim_id b)))
          (block_id (rr_id target) key) (rcb_claim_id b) (rcb_role b) (rcb_sentence_index b)
          (rcb_item_or_row_key b) (rr_created_at target))
      else None
  | None => None
  end.
(** [d.get(k)] of a dictionary filled in order: the last entry wins. *)
Definition last_entry {A} (d : list (UUID * A)) (k : UUID) : option A :=
  snd <$> find (λ kv, bool_decide (kv.1 = k)) (rev d).
Definition label_of (references : list ReferenceTarget) (kind : ReferenceKind) (id : UUID) : option ustr :=
  tg_label <$> find (λ e, bool_decide (tg_kind e = kind) && bool_decide (tg_record_id e = id)) (rev references).
Definition rebase_evidence (source target : ResearchReportRecord) (references : list ReferenceTarget)
    (claims : list (UUID * UUID)) (b : ReportEvidenceBindingWrite) : option ReportEvidenceBindingWrite :=
  let kind := match reb_visible_reference_kind b with
              | VisKind.METRIC => RefKind.METRIC | VisKind.EVIDENCE => RefKind.EVIDENCE
              end in
  match last_entry claims (reb_report_claim_binding_id b), key_of_block source (reb_report_block_id b) with
  | Some claim, Some key =>
      match has_block target key, label_of references kind (reb_evidence_id b) with
      | true, Some label =>
          Some (mkEvidenceBinding
            (uuid5 (uuid_str (rr_id target) +:+ ":evidence-binding:" +:+ key +:+ ":"
                    +:+ uuid_str (reb_claim_evidence_link_id b)))
            (block_id (rr_id target) key) claim (reb_claim_evidence_link_id b) (reb_evidence_id b)
            (reb_role b) (reb_visible_reference_kind b) label (reb_item_or_row_key b) (reb_citation_id b)
            (reb_source_record_id b) (reb_source_checksum b) (rr_created_at target))
      | _, _ => None
      end
  | _, _ => None
  end.
Definition rebase_citation (target : ResearchReportRecord) (references : list ReferenceTarget)
    (evidence : list (UUID * UUID)) (b : ReportCitationBindingWrite) : option ReportCitationBindingWrite :=
  match last_entry evidence (rtb_report_evidence_binding_id b),
        label_of references RefKind.CITATION (rtb_citation_id b) with
  | Some id, Some label =>
      Some (mkCitationBinding
        (uuid5 (uuid_str (rr_id target) +:+ ":citation-binding:" +:+ uuid_str (rtb_citation_id b)))
        id (rtb_citation_id b) (rtb_document_version_id b) label (rtb_locator_summary b)
        (rtb_rendered_excerpt b) (rtb_rendered_excerpt_checksum b) (rr_created_at target))
  | _, _ => None
  end.
Definition rebase_report_bindings (source : ResearchReportAggregate) (target : ResearchReportRecord) :
    res ResearchReportAggregate :=
  let s := ag_report source in
  allocation ← allocate (rr_structured_content target);
  let references := rf_references allocation in
  let claims := omap (λ b, (λ b', (rcb_id b, b')) <$> rebase_claim s target b) (ag_claim_bindings source) in
  let claim_ids := map (λ p, (p.1, rcb_id p.2)) claims in
  let evidence := omap (λ b, (λ b', (reb_id b, b')) <$> rebase_evidence s target references claim_ids b)
                    (ag_evidence_bindings source) in
  let evidence_ids := map (λ p, (p.1, reb_id p.2)) evidence in
  new_aggregate (mkAggregate target (map snd claims) (map snd evidence)
    (omap (rebase_citation target references evidence_ids) (ag_citation_bindings source))).

(** * The revision engine *)

Record ReportRevisionDraft := mkRevisionDraft {
  vd_source_report_id : UUID; vd_source_report_checksum : string; vd_engine_name : string;
  vd_engine_version : string; vd_target : ResearchReportAggregate;
  vd_actions : list ReportRevisionAction; vd_applied_finding_ids : list UUID;
  vd_unresolved_finding_ids : list UUID }.

Definition reject_revision (b : bool) (code : string) : res unit := if b then revision_error code else Ok tt.
Definition _validate_revision_input (source : ResearchReportAggregate) (x : ReportReflectionResult)
    (policy : ReportPolicyRecord) : res unit :=
  let run := fx_run x in
  reject_revision (negb (bool_decide (fr_status run = ReflSt.FINDINGS))) "REFLECTION_FINDINGS_REQUIRED";;
  reject_revision (length (fx_findings x) =? 0)%nat "FINDINGS_NOT_MATERIALIZED";;
  reject_revision (negb (bool_decide (fr_research_report_id run = rr_id (ag_report source)))
                   || negb (fr_round_number run =? 1)
                   || negb (bool_decide (fr_input_report_checksum run = rr_content_checksum (ag_report source))))
    "REFLECTION_CONTEXT_MISMATCH";;
  reject_revision (negb (rp_max_revision_rounds policy =? 1)) "REPORT_REVISION_POLICY_INVALID".

(** [DeterministicReportRevisionEngine.revise] *)
Definition revise (source : ResearchReportAggregate) (x : ReportReflectionResult)
    (policy : ReportPolicyRecord) : res ReportRevisionDraft :=
  let r := ag_report source in
  _validate_revision_input source x policy;;
  s ← res_fold (apply_finding policy) (fx_findings x) (mkRevising (rr_structured_content r) [] []);
  content ← _canonicalize (rs_content s);
  target ← _build_target r content;
  target_aggregate ← rebase_report_bindings source target;
  Ok (mkRevisionDraft (rr_id r) (rr_content_checksum r) REVISION_ENGINE_NAME REVISION_ENGINE_VERSION
        target_aggregate (rs_actions s) (map ra_finding_id (rs_actions s)) (rs_unresolved s)).
End Revise.

(** * What a revision may change *)

Section Edits.
Context `{UnicodeData}.

(** The four edits of a block that stays. *)
Inductive edit : StructuredReportBlock → StructuredReportBlock → Prop :=
| edit_qualify b t : bk_text b = Some t → edit b (with_text b (partial_prefix ++ t))
| edit_index b i : edit b (with_index b i)
| edit_truncate b n : edit b (with_payload b (truncate_payload n (bk_payload b)))
| edit_renumber b b' replacements : _rewrite_block replacements b = Ok b' → edit b b'.

Lemma jhas_map (f : ustr * pjson → pjson) d k : jhas (map (λ kv, (kv.1, f kv)) d) k = jhas d k.
Proof.
  unfold jhas. induction d as [|[k' v] d IH]; [done|]. cbn. by case_bool_decide.
Qed.

(** An edit keeps what a block is: key, type, status and whether it states a fact. *)
Lemma edit_keeps b b' : edit b b' →
  bk_block_key b' = bk_block_key b ∧ bk_block_type b' = bk_block_type b ∧
  bk_status b' = bk_status b ∧ states_fact b' = states_fact b.
Proof.
  intros He. destruct He as [b t Ht|b i|b n|b b' r Hr]; cbn; split_and!; try done.
  - unfold states_fact. cbn [bk_block_type bk_payload with_payload]. f_equal.
    cbn [existsb fact_keys map]. unfold truncate_payload. cbn [_truncate_excerpts].
    by rewrite !(jhas_map (λ kv, match bool_decide (kv.1 = _), kv.2 with _, _ => _ end)).
  - apply validated_Ok in Hr as [-> _]. done.
  - apply validated_Ok in Hr as [-> _]. done.
  - apply validated_Ok in Hr as [-> _]. done.
  - apply validated_Ok in Hr as [-> _]. unfold states_fact. cbn. by rewrite !jhas_map.
Qed.

Lemma edits_keep b b' : rtc edit b b' →
  bk_block_key b' = bk_block_key b ∧ bk_block_type b' = bk_block_type b ∧
  bk_status b' = bk_status b ∧ states_fact b' = states_fact b.
Proof.
  induction 1 as [b|b b' b'' He _ (-> & -> & -> & ->)]; [done|]. by apply edit_keeps.
Qed.

(** ** Every operation on the content keeps a property closed under the edits *)

Context (P : StructuredReportBlock → Prop).
Definition all_blocks (c : StructuredReportContent) : Prop :=
  Forall (λ s, Forall P (se_blocks s)) (co_sections c).

Lemma all_blocks_elem c b : all_blocks c → b ∈ blocks_of c → P b.
Proof.
  unfold all_blocks, blocks_of. intros Hc (bs & Hb & (s & -> & Hs)%list_elem_of_fmap)%elem_of_concat.
  rewrite Forall_forall in Hc. specialize (Hc s Hs). by rewrite Forall_forall in Hc; apply Hc.
Qed.

Lemma all_blocks_delete c key c' : all_blocks c → _delete_block c key = Ok c' → all_blocks c'.
Proof.
  intros Hc (k & _ & [= <-])%bind_Ok. unfold all_blocks, on_blocks. cbn. apply Forall_fmap.
  eapply Forall_impl; [exact Hc|]. intros s Hs. cbn.
  rewrite Forall_forall in Hs |- *. intros b [_ Hb]%list_elem_of_filter. by apply Hs.
Qed.

Lemma all_blocks_transform f c key c' : all_blocks c → (∀ b b', P b → f b = Ok b' → P b') →
  _transform_block f c key = Ok c' → all_blocks c'.
Proof.
  intros Hc Hf (k & _ & (ss & Hss & [= <-])%bind_Ok)%bind_Ok. apply res_map_Ok in Hss.
  unfold all_blocks in *. cbn. revert Hc. induction Hss as [|s s' l l' Hs _ IH]; intros Hc; [done|].
  apply Forall_cons in Hc as [Hs0 Hc]. constructor; [|by apply IH].
  apply bind_Ok in Hs as (bs & Hbs & [= <-]). cbn. apply res_map_Ok in Hbs. clear -Hbs Hs0 Hf.
  induction Hbs as [|b b' l l' Hb _ IH]; [done|]. apply Forall_cons in Hs0 as [Hb0 Hs0].
  constructor; [|by apply IH]. case_bool_decide; [by eapply Hf|]. by injection Hb as <-.
Qed.

Lemma all_blocks_put c (Q : StructuredReportSection → Prop) `{!∀ s, Decision (Q s)} i s b :
  all_blocks c → P b → list_find Q (co_sections c) = Some (i, s) →
  all_blocks (with_sections c (<[i := with_blocks s (se_blocks s ++ [b])]> (co_sections c))).
Proof.
  intros Hc Hb (Hs & _)%list_find_Some. unfold all_blocks. cbn. apply Forall_insert; [done|].
  cbn. apply Forall_app. split; [|by constructor]. unfold all_blocks in Hc.
  rewrite Forall_forall in Hc. apply Hc. by eapply list_elem_of_lookup_2.
Qed.

Lemma all_blocks_snoc c s : all_blocks c → Forall P (se_blocks s) →
  all_blocks (with_sections c (co_sections c ++ [s])).
Proof. intros Hc Hs. unfold all_blocks. cbn. apply Forall_app. split; [done|by constructor]. Qed.

Lemma last_elem {A} (l : list A) x : last l = Some x → x ∈ l.
Proof. rewrite last_lookup. by intros E%list_elem_of_lookup_2. Qed.

Lemma all_blocks_move c key target c' : all_blocks c → _move_block c key target = Ok c' → all_blocks c'.
Proof.
  intros Hc E. apply bind_Ok in E as (k & _ & E). apply bind_Ok in E as (b & Hb%require_some_Ok & E).
  assert (HPb : P b).
  { apply last_elem, list_elem_of_filter in Hb as [_ Hb]. by eapply all_blocks_elem. }
  assert (Hr : all_blocks (on_blocks (filter (λ b, bk_block_key b ≠ k)) c)).
  { unfold all_blocks, on_blocks. cbn. apply Forall_fmap. eapply Forall_impl; [exact Hc|]. intros s Hs.
    cbn. rewrite Forall_forall in Hs |- *. intros b' [_ Hb']%list_elem_of_filter. by apply Hs. }
  cbv zeta in E. match type of E with context [match ?o with None => _ | Some _ => _ end] => destruct o as [[i s]|] eqn:Ef end.
  - injection E as <-. by apply (all_blocks_put _ _ _ _ _ Hr HPb Ef).
  - apply bind_Ok in E as (s & [-> _]%validated_Ok & [= <-]).
    apply (all_blocks_snoc _ _ Hr). by constructor.
Qed.

Lemma all_blocks_append c f section type status c' : all_blocks c → P (disclosure_block f type status) →
  _append_disclosure c f section type status = Ok c' → all_blocks c'.
Proof.
  intros Hc Hf E. apply bind_Ok in E as (b & [-> _]%validated_Ok & E).
  match type of E with context [match ?o with None => _ | Some _ => _ end] => destruct o as [[i s]|] eqn:Ef end.
  - injection E as <-. by apply (all_blocks_put _ _ _ _ _ Hc Hf Ef).
  - apply bind_Ok in E as (s & [-> _]%validated_Ok & [= <-]). apply all_blocks_snoc; [done|by constructor].
Qed.

Context (P_edit : ∀ b b', P b → edit b b' → P b').

Lemma all_blocks_rewrite c r c' : all_blocks c → _rewrite_content c r = Ok c' → all_blocks c'.
Proof.
  intros Hc (ss & Hss & [-> _]%validated_Ok)%bind_Ok. apply res_map_Ok in Hss. unfold all_blocks in *.
  cbn. revert Hc. induction Hss as [|s s' l l' Hs _ IH]; intros Hc; [done|].
  apply Forall_cons in Hc as [Hs0 Hc]. constructor; [|by apply IH].
  apply bind_Ok in Hs as (bs & Hbs & [-> _]%validated_Ok). cbn. apply res_map_Ok in Hbs.
  clear -Hbs Hs0 P_edit. induction Hbs as [|b b' l l' Hb _ IH]; [done|].
  apply Forall_cons in Hs0 as [Hb0 Hs0]. constructor; [|by apply IH].
  eapply P_edit; [exact Hb0|]. by eapply edit_renumber.
Qed.

Lemma all_blocks_allocate c a : all_blocks c → allocate c = Ok a → all_blocks (rf_content a).
Proof.
  intros Hc E. apply bind_Ok in E as (ts & _ & E). apply seq_Ok in E as [_ E].
  apply bind_Ok in E as (al & _ & E). apply bind_Ok in E as (c' & Hr & E).
  apply validated_Ok in E as [-> _]. by eapply all_blocks_rewrite.
Qed.

Lemma all_blocks_canonicalize c c' : all_blocks c → _canonicalize c = Ok c' → all_blocks c'.
Proof.
  intros Hc E. apply bind_Ok in E as (ss & Hss & [-> _]%validated_Ok). apply res_map_Ok in Hss.
  unfold all_blocks. cbn. apply Forall_forall. intros s Hs.
  destruct (Forall2_elem_r _ _ _ _ Hss Hs) as ([s0 i] & Hin & [-> _]%validated_Ok).
  apply elem_of_zip_l in Hin. unfold all_blocks in Hc. rewrite Forall_forall in Hc.
  specialize (Hc _ Hin). cbn. unfold renumber_blocks. rewrite Forall_forall in Hc.
  apply Forall_forall. intros b (b0 & j & -> & Hb & _)%elem_of_zip_with. eapply P_edit; [by apply Hc|constructor].
Qed.

(** Every action does. *)
Lemma all_blocks_handler action c f policy c' : all_blocks c →
  (∀ type status, type ∈ [BlkType.WARNING; BlkType.LIMITATION] → P (disclosure_block f type status)) →
  handler action c f policy = Ok c' → all_blocks c'.
Proof.
  intros Hc Hf E. destruct action; cbn [handler] in E.
  1,2,10,11: by eapply all_blocks_delete.
  1: { eapply all_blocks_transform; [exact Hc| |exact E]. intros b b' Hb Hq. unfold _qualify_partial in Hq.
       destruct (bk_text b) as [t|] eqn:Et; [|discriminate Hq].
       destruct (ustarts _ _); injection Hq as <-; [done|]. eapply P_edit; [exact Hb|by constructor]. }
  1,2,3: by eapply all_blocks_move.
  1,2: eapply all_blocks_append; [exact Hc| |exact E]; apply Hf; set_solver.
  - apply fmap_Ok in E as (a & E & ->). by eapply all_blocks_allocate.
  - eapply all_blocks_transform; [exact Hc| |exact E]. intros b b' Hb [= <-].
    eapply P_edit; [exact Hb|constructor].
  - by eapply all_blocks_canonicalize.
Qed.
End Edits.

(** * The successor's lineage and the revision as a whole *)

Section Successor.
Context `{UnicodeData}.

(** The bindings of [t] are bindings of [a], on the same claims and records. *)
Definition bindings_from (a t : ResearchReportAggregate) : Prop :=
  (∀ b', b' ∈ ag_claim_bindings t → ∃ b, b ∈ ag_claim_bindings a ∧ rcb_claim_id b' = rcb_claim_id b ∧
     rcb_role b' = rcb_role b ∧ rcb_item_or_row_key b' = rcb_item_or_row_key b) ∧
  (∀ b', b' ∈ ag_evidence_bindings t → ∃ b, b ∈ ag_evidence_bindings a ∧
     reb_evidence_id b' = reb_evidence_id b ∧ reb_claim_evidence_link_id b' = reb_claim_evidence_link_id b ∧
     reb_role b' = reb_role b ∧ reb_citation_id b' = reb_citation_id b ∧
     reb_source_record_id b' = reb_source_record_id b ∧ reb_source_checksum b' = reb_source_checksum b) ∧
  (∀ b', b' ∈ ag_citation_bindings t → ∃ b, b ∈ ag_citation_bindings a ∧
     rtb_citation_id b' = rtb_citation_id b ∧ rtb_document_version_id b' = rtb_document_version_id b ∧
     rtb_rendered_excerpt b' = rtb_rendered_excerpt b ∧
     rtb_rendered_excerpt_checksum b' = rtb_rendered_excerpt_checksum b).

Lemma new_aggregate_Ok a a' : new_aggregate a = Ok a' → a' = a ∧ require_complete_binding_graph a = Ok tt.
Proof.
  unfold new_aggregate. intros E. apply seq_Ok in E as [_ E]. apply seq_Ok in E as [Hg [= <-]]. done.
Qed.

Lemma rebase_sound a target t : rebase_report_bindings a target = Ok t →
  ag_report t = target ∧ bindings_from a t ∧ require_complete_binding_graph t = Ok tt.
Proof.
  intros E. apply bind_Ok in E as (al & _ & E). cbv zeta in E.
  apply new_aggregate_Ok in E as [-> Hg]. split_and!; [done| |exact Hg]. clear Hg. split_and!; cbn.
  - intros b' (p & -> & (b & Hb & Hp)%list_elem_of_omap)%list_elem_of_fmap. exists b. split; [done|].
    destruct (rebase_claim _ _ _) as [b'|] eqn:Er; [|discriminate Hp]. injection Hp as <-. unfold rebase_claim in Er.
    destruct (key_of_block _ _); [|discriminate Er]. destruct (has_block _ _); [|discriminate Er].
    by injection Er as <-.
  - intros b' (p & -> & (b & Hb & Hp)%list_elem_of_omap)%list_elem_of_fmap. exists b. split; [done|].
    destruct (rebase_evidence _ _ _ _ _) as [b'|] eqn:Er; [|discriminate Hp]. injection Hp as <-.
    unfold rebase_evidence in Er.
    destruct (last_entry _ _); [|discriminate Er]. destruct (key_of_block _ _); [|discriminate Er].
    destruct (has_block _ _); [|discriminate Er]. destruct (label_of _ _ _); [|discriminate Er].
    by injection Er as <-.
  - intros b' (b & Hb & Er)%list_elem_of_omap. exists b. split; [done|]. unfold rebase_citation in Er.
    destruct (last_entry _ _); [|discriminate Er]. destruct (label_of _ _ _); [|discriminate Er].
    by injection Er as <-.
Qed.

(** A target report is the source with new content, a new version and a
    projection and checksums made from that content. *)
Definition succeeds (r t : ResearchReportRecord) : Prop :=
  rr_report_version t = rr_report_version r + 1 ∧ rr_previous_report_id t = Some (rr_id r) ∧
  rr_status t = RepSt.REVISED ∧ rr_security_id t = rr_security_id r ∧ rr_snapshot_id t = rr_snapshot_id r ∧
  rr_research_as_of_time t = rr_research_as_of_time r ∧ rr_claim_set_checksum t = rr_claim_set_checksum r ∧
  rr_evidence_set_checksum t = rr_evidence_set_checksum r ∧ rr_link_set_checksum t = rr_link_set_checksum r ∧
  rr_citation_set_checksum t = rr_citation_set_checksum r ∧ rr_package_checksum t = rr_package_checksum r ∧
  rr_input_manifest_checksum t = rr_input_manifest_checksum r.

Lemma render_checksum c m : render c = Ok m → markdown_checksum (rm_markdown_content m) = Ok (rm_markdown_checksum m).
Proof.
  intros E. apply bind_Ok in E as (t & _ & E). apply bind_Ok in E as (s & Hs & E).
  apply validated_Ok in E as [-> _]. exact Hs.
Qed.

Lemma build_target_spec r c t : _build_target r c = Ok t →
  succeeds r t ∧ _projection_matches t = Ok true ∧ StructuredReportContent_valid (rr_structured_content t) = true ∧
  ∃ a, allocate c = Ok a ∧ rr_structured_content t = rf_content a.
Proof.
  intros E. apply bind_Ok in E as (a & Ha & E). cbv zeta in E.
  apply bind_Ok in E as (m & Hm & E). apply bind_Ok in E as (s & Hs & E).
  apply bind_Ok in E as (k & Hk & E). apply bind_Ok in E as (w & _ & E). apply validated_Ok in E as [-> _].
  split_and!; [done| | |by exists a].
  - unfold _projection_matches. cbn [rr_structured_content revised_report]. run_res Hm.
    unfold structured_report_checksum in Hs. run_res Hs.
    cbn [rr_structured_checksum revised_report rr_markdown_content rr_markdown_checksum].
    rewrite bool_decide_eq_true_2 by done. cbn [negb].
    pose proof (render_checksum _ _ Hm) as Hr. rewrite Hr in Hk. injection Hk as <-.
    unfold markdown_checksum in Hr. run_res Hr. by rewrite !bool_decide_eq_true_2.
  - apply bind_Ok in Ha as (ts & _ & Ha). apply seq_Ok in Ha as [_ Ha].
    apply bind_Ok in Ha as (al & _ & Ha). apply bind_Ok in Ha as (c' & Hr & Ha).
    apply validated_Ok in Ha as [-> _]. apply bind_Ok in Hr as (ss & _ & [-> Hv]%validated_Ok). exact Hv.
Qed.

(** Every finding ends up applied or unresolved. *)
Lemma apply_finding_ids policy s f s' : apply_finding policy s f = Ok s' →
  map ra_finding_id (rs_actions s') ++ rs_unresolved s' ≡ₚ
  (map ra_finding_id (rs_actions s) ++ rs_unresolved s) ++ [ff_id f].
Proof.
  unfold apply_finding. cbv zeta. intros E.
  assert (Hu : s' = mkRevising (rs_content s) (rs_actions s) (rs_unresolved s ++ [ff_id f]) →
    map ra_finding_id (rs_actions s') ++ rs_unresolved s' ≡ₚ
    (map ra_finding_id (rs_actions s) ++ rs_unresolved s) ++ [ff_id f]).
  { intros ->. cbn. by rewrite app_assoc. }
  destruct (action_of_code _) as [action|]; [|apply Hu; by injection E as <-].
  destruct (handler _ _ _ _) as [c|e]; [|destruct (is_revision_error e); [apply Hu; by injection E as <-|discriminate E]].
  injection E as <-. cbn. rewrite map_app. cbn. solve_Permutation.
Qed.

Lemma apply_findings_ids policy fs s s' : res_fold (apply_finding policy) fs s = Ok s' →
  map ra_finding_id (rs_actions s') ++ rs_unresolved s' ≡ₚ
  (map ra_finding_id (rs_actions s) ++ rs_unresolved s) ++ map ff_id fs.
Proof.
  revert s. induction fs as [|f fs IH]; intros s E; cbn in E; [injection E as <-; by rewrite app_nil_r|].
  apply bind_Ok in E as (s1 & H1%apply_finding_ids & E%IH). rewrite E, H1. cbn. by rewrite <- app_assoc.
Qed.
End Successor.

Lemma apply_findings_blocks `{UnicodeData} (P : StructuredReportBlock → Prop) policy fs :
  (∀ b b', P b → edit b b' → P b') →
  (∀ f type status, f ∈ fs → type ∈ [BlkType.WARNING; BlkType.LIMITATION] → P (disclosure_block f type status)) →
  ∀ s s', all_blocks P (rs_content s) → res_fold (apply_finding policy) fs s = Ok s' →
  all_blocks P (rs_content s').
Proof.
  intros HP. induction fs as [|f fs IH]; intros Hd s s' Hs E; cbn in E; [by injection E as <-|].
  apply bind_Ok in E as (s1 & E1 & E). eapply IH; [|clear E|exact E].
  { intros f' type status Hf'. apply Hd. by right. }
  unfold apply_finding in E1. cbv zeta in E1.
  destruct (action_of_code _) as [action|]; [|by injection E1 as <-].
  destruct (handler _ _ _ _) as [c|e] eqn:Eh.
  - injection E1 as <-. cbn. eapply all_blocks_handler; [exact HP|exact Hs| |exact Eh].
    intros type status Ht. by apply Hd; [left|].
  - destruct (is_revision_error e); [by injection E1 as <-|discriminate E1].
Qed.

(** A disclosure states no fact, whatever it is about. *)
Lemma disclosure_states_no_fact f type status : type ∈ [BlkType.WARNING; BlkType.LIMITATION] →
  states_fact (disclosure_block f type status) = false.
Proof.
  intros Ht. assert (Hn : type ∉ [BlkType.METRIC_TABLE; BlkType.CONFLICT]) by set_solver.
  unfold states_fact. cbn [bk_block_type disclosure_block]. by rewrite bool_decide_eq_false_2.
Qed.

(** C24. A revision adds nothing but disclosures: every block of the new report
    is a block of the old one after the permitted edits (a partial-support
    prefix, truncated excerpts, new numbers) or a warning or limitation about a
    finding; so every block that states a fact was there before, under the same
    key.  The lineage is copied from the old report, the new one succeeds it
    with a matching projection, and every finding is applied or unresolved. *)
Theorem revision_only_subtracts `{UnicodeData} a x policy d : revise a x policy = Ok d →
  let t := vd_target d in
  (∀ b', b' ∈ blocks_of (rr_structured_content (ag_report t)) →
     (∃ b, b ∈ blocks_of (rr_structured_content (ag_report a)) ∧ rtc edit b b') ∨
     (∃ f type status, f ∈ fx_findings x ∧ type ∈ [BlkType.WARNING; BlkType.LIMITATION] ∧
        rtc edit (disclosure_block f type status) b')) ∧
  (∀ b', b' ∈ blocks_of (rr_structured_content (ag_report t)) → states_fact b' = true →
     ∃ b, b ∈ blocks_of (rr_structured_content (ag_report a)) ∧ states_fact b = true ∧
          bk_block_key b = bk_block_key b') ∧
  bindings_from a t ∧ succeeds (ag_report a) (ag_report t) ∧
  _projection_matches (ag_report t) = Ok true ∧
  vd_applied_finding_ids d ++ vd_unresolved_finding_ids d ≡ₚ map ff_id (fx_findings x).
Proof.
  intros E. apply seq_Ok in E as [_ E]. apply bind_Ok in E as (s & Hs & E).
  apply bind_Ok in E as (c & Hc & E). apply bind_Ok in E as (r & Hr & E).
  apply bind_Ok in E as (t & Ht & [= <-]). cbn [vd_target vd_applied_finding_ids vd_unresolved_finding_ids].
  destruct (rebase_sound _ _ _ Ht) as (-> & Hb & _).
  destruct (build_target_spec _ _ _ Hr) as (Hsu & Hp & _ & al & Hal & Hrc).
  set (P b' := (∃ b, b ∈ blocks_of (rr_structured_content (ag_report a)) ∧ rtc edit b b') ∨
     (∃ f type status, f ∈ fx_findings x ∧ type ∈ [BlkType.WARNING; BlkType.LIMITATION] ∧
        rtc edit (disclosure_block f type status) b')).
  assert (HP : ∀ b b', P b → edit b b' → P b').
  { intros b b' [(b0 & Hb0 & Hrt)|(f & ty & st & Hf & Hty & Hrt)] Hed; [left|right].
    - exists b0. split; [done|by eapply rtc_r].
    - exists f, ty, st. split_and!; [done|done|by eapply rtc_r]. }
  assert (Hall : all_blocks P (rr_structured_content r)).
  { rewrite Hrc. eapply all_blocks_allocate; [exact HP| |exact Hal].
    eapply all_blocks_canonicalize; [exact HP| |exact Hc].
    eapply apply_findings_blocks; [exact HP| | |exact Hs].
    - intros f ty st Hf Hty. right. exists f, ty, st. split_and!; [done|done|apply rtc_refl].
    - unfold all_blocks. cbn. rewrite Forall_forall. intros se Hse. rewrite Forall_forall. intros b Hbs.
      left. exists b. split; [|apply rtc_refl]. apply elem_of_concat. exists (se_blocks se).
      split; [done|by apply list_elem_of_fmap_2]. }
  split_and!; [..|exact Hb|exact Hsu|exact Hp|].
  - intros b' Hb'. by apply (all_blocks_elem P _ _ Hall).
  - intros b' Hb' Hfact. destruct (all_blocks_elem P _ _ Hall Hb') as [(b & Hbs & Hrt)|(f & ty & st & _ & Hty & Hrt)].
    + destruct (edits_keep _ _ Hrt) as (Hk & _ & _ & Hst). exists b. by rewrite <- Hst, Hk.
    + destruct (edits_keep _ _ Hrt) as (_ & _ & _ & Hst). rewrite disclosure_states_no_fact in Hst by done. congruence.
  - apply apply_findings_ids in Hs. exact Hs.
Qed.

(** * A report revised *)

Definition sample_policy : ReportPolicyRecord :=
  mkReportPolicy "verifiable-report-policy-v1" (checksum_of "") RepType.all RepLocale.all RepSec.all 300 20 20
    1000 2 1.
Definition sample_run (n status_round : Z) (report : ResearchReportRecord) (status : ReportReflectionStatus)
    (high : Z) : ReportReflectionRunRecord :=
  mkReflectionRun (sample_id n) (rr_id report) "runtime-report-reflection-v1" REFLECTION_ENGINE_NAME
    REFLECTION_ENGINE_VERSION status_round (rr_content_checksum report) status 1700000000000000 high 0 high 0 0
    None None None (Some 1700000000000000).
Definition unbound_finding : ReportReflectionFindingRecord :=
  mkFinding (sample_id 30) (sample_id 20) (sample_id 10) (Some (sample_id 31)) (Some (sample_id 32)) None None
    None "FACTUAL_BLOCK_HAS_CLAIM" Cat.BINDING Sev.HIGH "FACTUAL_BLOCK_HAS_CLAIM validation failed."
    "DELETE_UNBOUND_FACT_BLOCK" true 1700000000000000 (Some RepSec.FINANCIAL_HEALTH) (Some "financial.margin").
Definition limit_finding : ReportReflectionFindingRecord :=
  mkFinding (sample_id 33) (sample_id 20) (sample_id 10) None None None None None "LIMITATIONS_PRESENT"
    Cat.DATA_QUALITY Sev.HIGH "LIMITATIONS_PRESENT validation failed." "ADD_LIMITATIONS_FROM_EXISTING_STATE"
    true 1700000000000000 None None.
Definition first_reflection : ReportReflectionResult :=
  mkReflectionResult (sample_run 20 1 (ag_report flawed_report) ReflSt.FINDINGS 2)
    [sample_id 30; sample_id 33] [unbound_finding; limit_finding].

Lemma revision_only_subtracts_witness :
  ∃ d, @revise ascii_unicode flawed_report first_reflection sample_policy = Ok d ∧
    map (λ b, (bk_block_key b, states_fact b)) (blocks_of (rr_structured_content (ag_report (vd_target d)))) =
      [("quality.note", false); ("limits.note", false);
       ("reflection.add_limitations_from_existing_state.00000000", false); ("appendix.evidence", false)] ∧
    vd_applied_finding_ids d ++ vd_unresolved_finding_ids d ≡ₚ [sample_id 30; sample_id 33].
Proof.
  assert (C : match @revise ascii_unicode flawed_report first_reflection sample_policy with
    | Ok d => map (λ b, (bk_block_key b, states_fact b))
                (blocks_of (rr_structured_content (ag_report (vd_target d)))) =
              [("quality.note", false); ("limits.note", false);
               ("reflection.add_limitations_from_existing_state.00000000", false); ("appendix.evidence", false)]
    | Raise _ => False end) by (vm_compute; reflexivity).
  destruct (@revise ascii_unicode _ _ _) as [d|e] eqn:E; [|contradiction C].
  exists d. split; [reflexivity|]. split; [exact C|].
  exact (proj2 (proj2 (proj2 (proj2 (proj2 (@revision_only_subtracts ascii_unicode _ _ _ _ E)))))).
Defined.

(** Moving a block that is not the first of its section into a section the
    report does not have fails with an error that [revise] does not handle. *)
Lemma move_to_new_section_raises c key b target :
  last (filter (λ b, bk_block_key b = key) (blocks_of c)) = Some b → bk_block_index b ≠ 0 →
  Forall (λ s, se_section s ≠ target) (co_sections c) →
  ∃ e, _move_block c (Some key) target = Raise e ∧ is_revision_error e = false.
Proof.
  intros Hb Hi Ht. exists (mkExn ValidationError "invalid field"). split; [|reflexivity]. unfold _move_block, require_some.
  rewrite Ok_bind, Hb, Ok_bind. cbv zeta.
  match goal with |- context [list_find ?Q ?l] => assert (E : list_find Q l = None) end.
  { apply list_find_None. unfold on_blocks. cbn. apply Forall_fmap. exact Ht. }
  rewrite E. unfold validated, StructuredReportSection_valid, contiguous. cbn.
  rewrite (bool_decide_eq_false_2 ([bk_block_index b] = [0])) by congruence.
  by rewrite !andb_false_r.
Qed.
