(* ===== verification/ReleaseGate.v ===== *)
(** The release gate: the version chain of reports and the decision whether a
    candidate report may be published (domain/reports/versioning.py,
    release_gate.py). *)
From S2P Require Import Prelude PyDecimal PyText Sha256 AgentModel PyParse Ledger Text DocModel Bm25.
From S2P Require Import ReportModel ReportText Language Reflection ReportRevise.

Definition RELEASE_GATE_VERSION : string := "report-release-gate-v1".

(** * The version chain (versioning.py) *)

(** Python's [==] on contents: objects compare without order, [True == 1]. *)
Fixpoint json_eqb (x y : pjson) {struct x} : bool :=
  match x, y with
  | PNull, PNull => true
  | PBool a, PBool b => Bool.eqb a b
  | PBool a, PInt b | PInt b, PBool a => b =? (if a then 1 else 0)
  | PInt a, PInt b => a =? b
  | PFloat a, PFloat b => bool_decide (a = b)
  | PStr a, PStr b => bool_decide (a = b)
  | PList a, PList b =>
      (fix go (a b : list pjson) : bool :=
        match a, b with
        | [], [] => true
        | x :: a, y :: b => json_eqb x y && go a b
        | _, _ => false
        end) a b
  | PObj a, PObj b =>
      bool_decide (length a = length b) &&
      (fix go (a : payload) : bool :=
        match a with
        | [] => true
        | (k, v) :: a => match jget b k with Some w => json_eqb v w && go a | None => false end
        end) a
  | _, _ => false
  end.
Definition content_eqb (a b : StructuredReportContent) : bool := json_eqb (content_json a) (content_json b).

Definition version_error (b : bool) (code : string) : res unit :=
  if b then raise (NamedError "ReportVersionError") code else Ok tt.

Definition validate_initial_report (r : ResearchReportRecord) : res unit :=
  version_error (negb (rr_report_version r =? 1) || is_some (rr_previous_report_id r))
    "INITIAL_REPORT_CHAIN_INVALID".
Definition _validate_publishable_content_identity (parent child : ResearchReportRecord) : res unit :=
  version_error (negb (content_eqb (rr_structured_content parent) (rr_structured_content child))
      || neqb (rr_markdown_content parent) (rr_markdown_content child)
      || neqb (rr_structured_checksum parent) (rr_structured_checksum child)
      || neqb (rr_markdown_checksum parent) (rr_markdown_checksum child)
      || neqb (rr_content_checksum parent) (rr_content_checksum child)
      || neqb (rr_claim_set_checksum parent) (rr_claim_set_checksum child)
      || neqb (rr_evidence_set_checksum parent) (rr_evidence_set_checksum child)
      || neqb (rr_link_set_checksum parent) (rr_link_set_checksum child)
      || neqb (rr_citation_set_checksum parent) (rr_citation_set_checksum child))
    "PUBLISHABLE_CONTENT_MISMATCH".
Definition validate_report_successor (parent child : ResearchReportRecord) : res unit :=
  version_error (negb (neqb (rr_id child) (rr_id parent))) "REPORT_SELF_REFERENCE";;
  version_error (neqb (rr_report_version child) (rr_report_version parent + 1))
    "REPORT_VERSION_NOT_CONTIGUOUS";;
  version_error (neqb (rr_previous_report_id child) (Some (rr_id parent))) "REPORT_PARENT_MISMATCH";;
  version_error (neqb (rr_report_generation_run_id child) (rr_report_generation_run_id parent))
    "REPORT_GENERATION_RUN_MISMATCH";;
  version_error (neqb (rr_security_id child) (rr_security_id parent)) "REPORT_SECURITY_MISMATCH";;
  version_error (neqb (rr_snapshot_id child) (rr_snapshot_id parent)) "REPORT_SNAPSHOT_MISMATCH";;
  version_error (neqb (rr_research_as_of_time child) (rr_research_as_of_time parent))
    "REPORT_AS_OF_MISMATCH";;
  version_error (neqb (rr_research_package_id child) (rr_research_package_id parent))
    "REPORT_PACKAGE_MISMATCH";;
  version_error (neqb (rr_input_manifest_checksum child) (rr_input_manifest_checksum parent))
    "REPORT_MANIFEST_MISMATCH";;
  version_error (neqb (rr_report_type child) (rr_report_type parent)) "REPORT_TYPE_MISMATCH";;
  version_error (neqb (rr_report_locale child) (rr_report_locale parent)) "REPORT_LOCALE_MISMATCH";;
  version_error (neqb (rr_renderer_version child) (rr_renderer_version parent)
      || neqb (rr_template_name child) (rr_template_name parent)
      || neqb (rr_template_version child) (rr_template_version parent))
    "REPORT_RENDER_CONTRACT_MISMATCH";;
  if bool_decide (rr_status child = RepSt.PUBLISHABLE)
  then _validate_publishable_content_identity parent child else Ok tt.

(** * The requirements (release_gate.py) *)

(** [_REQUIREMENT_CHECKS] *)
Definition _REQUIREMENT_CHECKS (q : ReleaseGateRequirement) : list RuntimeReflectionCheck :=
  match q with
  | Req.NO_UNSUPPORTED_FACTUAL_BODY_CLAIMS =>
      [Chk.FACTUAL_BLOCK_HAS_CLAIM; Chk.PRIMARY_CLAIM_HAS_EVIDENCE; Chk.UNSUPPORTED_CLAIMS_RESTRICTED]
  | Req.CONFLICTS_DISCLOSED => [Chk.CONFLICTING_CLAIMS_DISCLOSED]
  | Req.DOCUMENT_CITATIONS_VALID => [Chk.DOCUMENT_CLAIM_HAS_VALID_CITATION; Chk.CITATION_VALID]
  | Req.STRUCTURED_LINEAGE_VALID => [Chk.STRUCTURED_CLAIM_HAS_LINEAGE]
  | Req.TEMPORAL_EVIDENCE_VALID => [Chk.NO_FUTURE_EVIDENCE; Chk.STRICT_DOCUMENT_PUBLISHED_AT_KNOWN]
  | Req.NO_SYNTHETIC_CONTAMINATION =>
      [Chk.NO_REAL_RESEARCH_SYNTHETIC_EVIDENCE; Chk.SYNTHETIC_NOT_REAL_COMPANY_RESEARCH;
       Chk.FIXTURE_NOT_DESCRIBED_AS_LIVE]
  | Req.CONTEXT_MATCHES =>
      [Chk.SECURITY_MATCHES; Chk.SNAPSHOT_MATCHES; Chk.AS_OF_MATCHES; Chk.NO_CROSS_SECURITY_RECORDS;
       Chk.NO_CROSS_SNAPSHOT_RECORDS; Chk.REPORT_AS_OF_PRESENT; Chk.SNAPSHOT_IDENTITY_PRESENT;
       Chk.REPORT_INPUT_MANIFEST_UNCHANGED]
  | Req.NO_FORBIDDEN_ADVICE =>
      [Chk.NO_RATING_LANGUAGE; Chk.NO_TARGET_PRICE; Chk.NO_POSITION_ADVICE; Chk.NO_TRADING_INSTRUCTION;
       Chk.NO_UNSUPPORTED_OVERSTATEMENT]
  | Req.DATA_QUALITY_PRESENT => [Chk.DATA_QUALITY_PRESENT]
  | Req.LIMITATIONS_PRESENT => [Chk.LIMITATIONS_PRESENT]
  | _ => []
  end.

(** [_finding_checks]: findings with a code that is no check are passed over. *)
Definition check_of_code (code : string) : option RuntimeReflectionCheck :=
  find (λ c, bool_decide (Chk.value c = code)) Chk.all.
Definition _finding_checks (x : ReportReflectionResult) : list RuntimeReflectionCheck :=
  omap (λ f, check_of_code (ff_finding_code f)) (fx_findings x).
Definition _checks_absent (checks : list RuntimeReflectionCheck) (q : ReleaseGateRequirement) : bool :=
  forallb (λ c, negb (bool_decide (c ∈ _REQUIREMENT_CHECKS q))) checks.

Section Gate.
Context `{UnicodeData}.

(** [except (TypeError, ValueError)] *)
Definition is_value_error (e : exn) : bool :=
  bool_decide (exn_class e ∈ [TypeError; ValueError; ValidationError; UnicodeEncodeError;
                              NamedError "ReportReferenceError"; NamedError "ReportChecksumError"]).
(** [_report_integrity]: (checksums valid, projection matches) *)
Definition _report_integrity (a : ResearchReportAggregate) : res (bool * bool) :=
  let r := ag_report a in
  let content := rr_structured_content r in
  rendered ← render content;
  let projection := bool_decide (rm_markdown_content rendered = rr_markdown_content r) in
  match (allocation ← allocate content;
         verify_report_projection content (rr_markdown_content r)
           (checksum_context content r (rf_references allocation)) (rr_structured_checksum r)
           (rr_markdown_checksum r) (rr_content_checksum r)) with
  | Ok _ => Ok (true, projection)
  | Raise e => if is_value_error e then Ok (false, projection) else Raise e
  end.

Definition _input_integrity (a : ResearchReportAggregate) (mf : ReportInputManifest) : bool :=
  let r := ag_report a in
  bool_decide (rr_research_package_id r = mf_research_package_id mf)
  && bool_decide (rr_input_manifest_checksum r = mf_canonical_payload_checksum mf)
  && bool_decide (rr_package_checksum r = mf_package_checksum mf)
  && bool_decide (rr_claim_set_checksum r = mf_claims_checksum mf)
  && bool_decide (rr_evidence_set_checksum r = mf_evidence_checksum mf)
  && bool_decide (rr_link_set_checksum r = mf_links_checksum mf)
  && bool_decide (rr_citation_set_checksum r = mf_citations_checksum mf).
Definition _context_matches (a : ResearchReportAggregate) (mf : ReportInputManifest) : bool :=
  let r := ag_report a in
  bool_decide (rr_security_id r = mf_security_id mf) && bool_decide (rr_snapshot_id r = mf_snapshot_id mf)
  && bool_decide (rr_research_as_of_time r = mf_research_as_of_time mf).
Definition _round_two_completed (a : ResearchReportAggregate) (x : ReportReflectionResult) : bool :=
  let run := fx_run x in
  (fr_round_number run =? 2) && bool_decide (fr_status run ∈ [ReflSt.PASS; ReflSt.FINDINGS])
  && is_some (fr_completed_at run) && bool_decide (fr_research_report_id run = rr_id (ag_report a))
  && bool_decide (fr_input_report_checksum run = rr_content_checksum (ag_report a))
  && (Z.of_nat (length (fx_finding_ids x)) =? fr_total_finding_count run)
  && bool_decide (map ff_id (fx_findings x) = fx_finding_ids x).
Definition _report_type_compatible (a : ResearchReportAggregate) (mf : ReportInputManifest)
    (policy : ReportPolicyRecord) : bool :=
  let type := rr_report_type (ag_report a) in
  bool_decide (type ∈ rp_allowed_report_types policy)
  && (if bool_decide (mf_package_status mf = PkgStatus.BLOCKED)
      then bool_decide (type = RepType.DATA_QUALITY_REPORT)
      else negb (bool_decide (mf_package_status mf = PkgStatus.FAILED))).
Definition mode_consistent (mf : ReportInputManifest) : bool :=
  (bool_decide (mf_synthetic_status mf ∈ real_statuses)
   && bool_decide (mf_research_mode mf = AgentModel.RMode.REAL_RESEARCH))
  || (bool_decide (mf_synthetic_status mf = Synth.SYNTHETIC_TEST_ONLY)
      && bool_decide (mf_research_mode mf = AgentModel.RMode.SYNTHETIC_TEST_ONLY)).

(** [requirement_values]; [integrity] is what [_report_integrity] returned. *)
Definition requirement_value (a : ResearchReportAggregate) (mf : ReportInputManifest)
    (x : ReportReflectionResult) (policy : ReportPolicyRecord) (integrity : bool * bool)
    (q : ReleaseGateRequirement) : bool :=
  let absent := _checks_absent (_finding_checks x) q in
  let has s := bool_decide (s ∈ map se_section (co_sections (rr_structured_content (ag_report a)))) in
  match q with
  | Req.REPORT_CHECKSUMS_VALID => integrity.1
  | Req.PACKAGE_INPUT_CHECKSUMS_VALID => _input_integrity a mf
  | Req.ROUND_TWO_COMPLETED => _round_two_completed a x
  | Req.NO_CRITICAL_FINDINGS => fr_critical_count (fx_run x) =? 0
  | Req.NO_HIGH_FINDINGS => fr_high_count (fx_run x) =? 0
  | Req.NO_UNSUPPORTED_FACTUAL_BODY_CLAIMS | Req.CONFLICTS_DISCLOSED | Req.DOCUMENT_CITATIONS_VALID
  | Req.STRUCTURED_LINEAGE_VALID | Req.TEMPORAL_EVIDENCE_VALID | Req.NO_FORBIDDEN_ADVICE => absent
  | Req.NO_SYNTHETIC_CONTAMINATION => mode_consistent mf && absent
  | Req.CONTEXT_MATCHES => _context_matches a mf && absent
  | Req.DATA_QUALITY_PRESENT => has RepSec.DATA_QUALITY && absent
  | Req.LIMITATIONS_PRESENT => has RepSec.LIMITATIONS && absent
  | Req.PACKAGE_ELIGIBLE => bool_decide (mf_package_status mf = PkgStatus.COMPLETE)
  | Req.REPORT_TYPE_COMPATIBLE => _report_type_compatible a mf policy
  | Req.PROJECTION_MATCHES => integrity.2
  end.

(** [_decision] *)
Definition _decision (mf : ReportInputManifest) (x : ReportReflectionResult)
    (passed : ReleaseGateRequirement → bool) : ReleaseGateDecision :=
  let workflow_valid := passed Req.REPORT_CHECKSUMS_VALID && passed Req.PACKAGE_INPUT_CHECKSUMS_VALID
                        && passed Req.ROUND_TWO_COMPLETED && passed Req.PROJECTION_MATCHES in
  if negb workflow_valid || bool_decide (mf_package_status mf = PkgStatus.FAILED) then Gate.FAILED
  else if bool_decide (mf_package_status mf = PkgStatus.BLOCKED) then Gate.BLOCKED
  else if negb (passed Req.NO_CRITICAL_FINDINGS) || negb (passed Req.NO_HIGH_FINDINGS) then Gate.BLOCKED
  else if bool_decide (mf_package_status mf = PkgStatus.PARTIAL) then Gate.PARTIAL
  else if bool_decide (fr_status (fx_run x) = ReflSt.FINDINGS) || negb (forallb passed Req.all)
  then Gate.PARTIAL
  else Gate.PUBLISHABLE.

Record ReportReleaseDecisionResult := mkDecision {
  de_candidate_report_id : UUID; de_round_two_reflection_run_id : UUID; de_gate_version : string;
  de_input_manifest_checksum : string; de_report_checksum : string;
  de_internal_release_status : ReleaseGateDecision;
  de_requirements : list (ReleaseGateRequirement * bool); de_reason_codes : list string;
  de_sealed_report : option ResearchReportAggregate }.

(** [_build_sealed_report] *)
Definition sealed_id (r : ResearchReportRecord) : UUID :=
  uuid5 (uuid_str (rr_id r) +:+ ":" +:+ RELEASE_GATE_VERSION +:+ ":publishable").
Definition sealed_record (r : ResearchReportRecord) : ResearchReportRecord :=
  mkReport (sealed_id r) (rr_report_generation_run_id r) (rr_report_version r + 1) (Some (rr_id r))
    (rr_report_type r) (rr_report_locale r) RepSt.PUBLISHABLE (rr_title r) (rr_subtitle r)
    (rr_security_id r) (rr_snapshot_id r) (rr_research_as_of_time r) (rr_research_package_id r)
    (rr_input_manifest_checksum r) (rr_package_checksum r) (rr_structured_content r)
    (rr_markdown_content r) (rr_structured_checksum r) (rr_markdown_checksum r) (rr_content_checksum r)
    (rr_claim_set_checksum r) (rr_evidence_set_checksum r) (rr_link_set_checksum r)
    (rr_citation_set_checksum r) (rr_renderer_version r) (rr_template_name r) (rr_template_version r)
    (rr_created_at r).
Definition _build_sealed_report (a : ResearchReportAggregate) : res ResearchReportAggregate :=
  validate_report_successor (ag_report a) (sealed_record (ag_report a));;
  rebase_report_bindings a (sealed_record (ag_report a)).

(** [ReportReleaseGate.evaluate] *)
Definition evaluate (a : ResearchReportAggregate) (mf : ReportInputManifest) (x : ReportReflectionResult)
    (policy : ReportPolicyRecord) : res ReportReleaseDecisionResult :=
  integrity ← _report_integrity a;
  let passed := requirement_value a mf x policy integrity in
  let decision := _decision mf x passed in
  let failed := map Req.value (filter (λ q, passed q = false) Req.all) in
  let reason_codes := sort_str (remove_dups (failed ++ map Chk.value (_finding_checks x))) in
  sealed ← (if bool_decide (decision = Gate.PUBLISHABLE) then Some <$> _build_sealed_report a else Ok None);
  validated (λ d, Z.of_nat (length (de_reason_codes d)) <=? 100)
    (mkDecision (rr_id (ag_report a)) (fr_id (fx_run x)) RELEASE_GATE_VERSION
       (mf_canonical_payload_checksum mf) (rr_content_checksum (ag_report a)) decision
       (map (λ q, (q, passed q)) Req.all) reason_codes sealed).
End Gate.

(** * What a decision means *)

Section Decisions.
Context `{UnicodeData}.

Lemma evaluate_inv a mf x policy d : evaluate a mf x policy = Ok d →
  ∃ integrity, _report_integrity a = Ok integrity ∧
    let passed := requirement_value a mf x policy integrity in
    de_internal_release_status d = _decision mf x passed ∧
    de_requirements d = map (λ q, (q, passed q)) Req.all ∧
    (if bool_decide (_decision mf x passed = Gate.PUBLISHABLE)
     then ∃ s, _build_sealed_report a = Ok s ∧ de_sealed_report d = Some s
     else de_sealed_report d = None).
Proof.
  intros E. apply bind_Ok in E as (i & Hi & E). cbv zeta in E. exists i. split; [exact Hi|].
  apply bind_Ok in E as (s & Hs & E). apply validated_Ok in E as [-> _]. cbv zeta. cbn.
  split_and!; [done|done|]. destruct (bool_decide _).
  - apply fmap_Ok in Hs as (s' & Hs & ->). by exists s'.
  - by injection Hs as <-.
Qed.

Lemma all_requirements q : q ∈ Req.all.
Proof. apply (bool_decide_eq_true_1 (q ∈ Req.all)). by destruct q. Qed.

Lemma decision_publishable mf x passed : _decision mf x passed = Gate.PUBLISHABLE ↔
  (∀ q, passed q = true) ∧ fr_status (fx_run x) ≠ ReflSt.FINDINGS ∧
  mf_package_status mf ∉ [PkgStatus.FAILED; PkgStatus.BLOCKED; PkgStatus.PARTIAL].
Proof.
  unfold _decision. split.
  - destruct (negb _ || _) eqn:E1; [done|]. bools.
    case_bool_decide as E2; [done|]. destruct (negb _ || _); [done|].
    case_bool_decide as E3; [done|]. destruct (bool_decide _ || _) eqn:E4; [done|]. intros _. bools.
    split_and!; [|done|by rewrite !not_elem_of_cons; split_and!; [done..|apply not_elem_of_nil]].
    intros q. match goal with F : forallb _ _ = true |- _ => rewrite forallb_forall in F;
      by apply F, list_elem_of_In, all_requirements end.
  - intros (Hp & Hf & Hs). rewrite !not_elem_of_cons in Hs. destruct Hs as (? & ? & ? & _).
    rewrite !Hp. cbn [negb orb andb]. rewrite !bool_decide_eq_false_2 by done. cbn [orb].
    by replace (forallb passed Req.all) with true
      by (symmetry; apply forallb_forall; auto).
Qed.

(** The gate publishes exactly when all eighteen requirements hold and the
    second reflection left no finding, which needs a complete package; it fails
    exactly when the checksums, the inputs, the second round or the projection
    do not hold or the package failed.  Only a published report is sealed. *)
Theorem gate_decision_iff a mf x policy d : evaluate a mf x policy = Ok d →
  (de_internal_release_status d = Gate.PUBLISHABLE ↔
     (∀ q b, (q, b) ∈ de_requirements d → b = true) ∧ fr_status (fx_run x) = ReflSt.PASS) ∧
  (de_internal_release_status d = Gate.FAILED ↔
     mf_package_status mf = PkgStatus.FAILED ∨
     ∃ q, (q, false) ∈ de_requirements d ∧
       q ∈ [Req.REPORT_CHECKSUMS_VALID; Req.PACKAGE_INPUT_CHECKSUMS_VALID; Req.ROUND_TWO_COMPLETED;
            Req.PROJECTION_MATCHES]) ∧
  (is_Some (de_sealed_report d) ↔ de_internal_release_status d = Gate.PUBLISHABLE).
Proof.
  intros E. destruct (evaluate_inv _ _ _ _ _ E) as (i & _ & Hs & Hr & Hsealed). cbv zeta in *.
  set (passed := requirement_value a mf x policy i) in *. rewrite Hs, Hr.
  assert (Hin : ∀ q b, (q, b) ∈ map (λ q, (q, passed q)) Req.all ↔ b = passed q).
  { intros q b. rewrite list_elem_of_fmap. split; [by intros (q' & [= -> ->] & _)|].
    intros ->. exists q. split; [done|apply all_requirements]. }
  split_and!.
  - rewrite decision_publishable. split.
    + intros (Hp & Hf & _). split; [intros q b ->%Hin; apply Hp|].
      pose proof (Hp Req.ROUND_TWO_COMPLETED) as H2.
      unfold passed in H2. cbn in H2. unfold _round_two_completed in H2. bools.
      match goal with F : fr_status _ ∈ _ |- _ => apply elem_of_cons in F as [F|F]; [exact F|] end.
      match goal with F : fr_status _ ∈ _ |- _ => apply list_elem_of_singleton in F; by destruct Hf end.
    + intros (Hp & Hf). assert (Hq : ∀ q, passed q = true) by (intros q; by eapply Hp, Hin).
      split_and!; [done|by rewrite Hf|]. pose proof (Hq Req.PACKAGE_ELIGIBLE) as H2.
      unfold passed in H2. cbn in H2. bools.
      rewrite H2. by apply (bool_decide_eq_false_1 (PkgStatus.COMPLETE ∈ _)).
  - setoid_rewrite Hin. unfold _decision. destruct (negb _ || _) eqn:E1.
    + split; [intros _|done]. apply orb_true_iff in E1 as [E1|E1]; [right|by left; bools].
      rewrite negb_true_iff, !andb_false_iff in E1.
      destruct E1 as [[[E1|E1]|E1]|E1]; eexists; (split; [symmetry; exact E1|]); rewrite !elem_of_cons; eauto.
    + bools. split.
      * repeat (case_match; try done).
      * intros [Hf|(q & Hq & Hin')]; [done|]. exfalso.
        rewrite !elem_of_cons, elem_of_nil in Hin'. destruct_or!; try subst q; congruence.
  - case_bool_decide as Eb; [|rewrite Hsealed].
    + destruct Hsealed as (s & _ & ->). split; eauto.
    + split; [by intros [? [=]]|done].
Qed.
End Decisions.

(** A published report is clean: when the second reflection of the gate is
    the engine's own on that report, every one of the forty conditions holds of
    it; its research package is complete and its research mode honest, its
    checksums and Markdown are those of its content, and what is sealed is the
    candidate itself, as its next version, with lineage copied from it. *)
Lemma published_report_clean `{UnicodeData} `{CharData} a mf x policy d reflection draft :
  evaluate a mf x policy = Ok d → de_internal_release_status d = Gate.PUBLISHABLE →
  reflect a mf reflection 2 = Ok draft → fr_status (fx_run x) = fd_status draft →
  (∀ c, check_holds c a mf) ∧
  mf_package_status mf = PkgStatus.COMPLETE ∧ mode_consistent mf = true ∧ _input_integrity a mf = true ∧
  (∃ al, allocate (rr_structured_content (ag_report a)) = Ok al ∧
     verify_report_projection (rr_structured_content (ag_report a)) (rr_markdown_content (ag_report a))
       (checksum_context (rr_structured_content (ag_report a)) (ag_report a) (rf_references al))
       (rr_structured_checksum (ag_report a)) (rr_markdown_checksum (ag_report a))
       (rr_content_checksum (ag_report a)) = Ok tt) ∧
  ∃ s, de_sealed_report d = Some s ∧ ag_report s = sealed_record (ag_report a) ∧ bindings_from a s.
Proof.
  intros E Hd Hr Hst. destruct (evaluate_inv _ _ _ _ _ E) as (i & Hi & Hs & _ & Hsealed). cbv zeta in *.
  rewrite Hs in Hd. pose proof Hd as Hd'. apply decision_publishable in Hd as (Hp & Hf & _).
  rewrite bool_decide_eq_true_2 in Hsealed by done. destruct Hsealed as (s & Hb & Hsd).
  pose proof (Hp Req.PACKAGE_ELIGIBLE) as Hcomplete. pose proof (Hp Req.NO_SYNTHETIC_CONTAMINATION) as Hmode.
  pose proof (Hp Req.PACKAGE_INPUT_CHECKSUMS_VALID) as Hin. pose proof (Hp Req.REPORT_CHECKSUMS_VALID) as Hsum.
  cbn [requirement_value] in Hcomplete, Hmode, Hin, Hsum. apply andb_true_iff in Hmode as [Hmode _].
  apply bool_decide_eq_true_1 in Hcomplete.
  destruct (reflect_checks _ _ _ _ _ Hr) as (_ & Hpass & _ & Hstatus).
  apply seq_Ok in Hb as [_ Hb]. apply rebase_sound in Hb as (Hrep & Hbind & _).
  split_and!; [|done|done|done| |by exists s].
  - apply Hpass. apply elem_of_cons in Hstatus as [->|Hstatus]; [done|].
    apply list_elem_of_singleton in Hstatus. congruence.
  - apply bind_Ok in Hi as (m & _ & Hi). cbv zeta in Hi.
    match type of Hi with match ?v with _ => _ end = _ => destruct v as [[]|e] eqn:Ev end.
    + apply bind_Ok in Ev as (al & Hal & Hv). by exists al.
    + destruct (is_value_error e); [injection Hi as <-; discriminate Hsum|discriminate Hi].
Qed.

(** * A report published *)

Definition good_candidate : res ResearchReportAggregate :=
  r ← @_build_target ascii_unicode (sample_draft (sample_content true)) (sample_content true);
  let block := block_id (rr_id r) "financial.margin" in
  @new_aggregate (mkAggregate r
    [mkClaimBinding (sample_id 40) block (sample_id 1) BindRole.PRIMARY None (Some "margin") 1700000000000000]
    [mkEvidenceBinding (sample_id 41) block (sample_id 40) (sample_id 3) (sample_id 2) EvRole.PRIMARY
       VisKind.METRIC (ulit "MET-001") "margin" None None None 1700000000000000] []).
Definition second_round (r : ResearchReportRecord) : ReportReflectionResult :=
  mkReflectionResult (sample_run 50 2 r ReflSt.PASS 0) [] [].

(** The gate publishes the good candidate after a second reflection that passes. *)
Lemma gate_run_publishes :
  match good_candidate with
  | Ok a =>
      match @evaluate ascii_unicode a sample_manifest (second_round (ag_report a)) sample_policy,
            @reflect ascii_unicode ascii_chars a sample_manifest reflection_policy 2 with
      | Ok d, Ok draft => bool_decide (de_internal_release_status d = Gate.PUBLISHABLE)
                          && bool_decide (fd_status draft = ReflSt.PASS)
      | _, _ => false
      end
  | Raise _ => false
  end = true.
Proof. vm_compute. reflexivity. Qed.

Lemma gate_decision_iff_witness :
  ∃ a d, good_candidate = Ok a ∧
    @evaluate ascii_unicode a sample_manifest (second_round (ag_report a)) sample_policy = Ok d ∧
    is_Some (de_sealed_report d).
Proof.
  pose proof gate_run_publishes as C.
  destruct good_candidate as [a|e] eqn:Ea; [|discriminate C].
  destruct (@evaluate ascii_unicode _ _ _ _) as [d|e] eqn:Ed; [|discriminate C].
  destruct (@reflect ascii_unicode ascii_chars _ _ _ _) as [draft|e] eqn:Er; [|discriminate C].
  apply andb_true_iff in C as [Hd%bool_decide_eq_true_1 _].
  exists a, d. split; [reflexivity|]. split; [exact Ed|].
  exact (proj2 (proj2 (proj2 (@gate_decision_iff ascii_unicode _ _ _ _ _ Ed))) Hd).
Defined.
