(* ===== verification/ReportInput.v ===== *)
(** The sealed input of a report: the records of one research package, their
    verification, the manifest that freezes them and the report requests
    (domain/reports/input_verification.py, requests.py, schemas.py). *)
From S2P Require Import Prelude PyDecimal PyText Sha256 AgentModel RunControl Preflight PyParse Ledger Claims.
From Stdlib Require Import Ascii.
From S2P Require Import Text DocModel Citations.
From S2P Require Import ReportModel ReportText.

(** * [model_dump(mode="python")] of the records *)

(** [canonical.py] of the reports on the values of the agent records. *)
Fixpoint pjson_of (value : pyval) : res pjson :=
  match value with
  | VNone => Ok PNull
  | VBool b => Ok (PBool b)
  | VStr s => Ok (PStr (ulit s))
  | VInt z => Ok (PInt z)
  | VFloat r => Ok (PFloat r)
  | VDecSpecial _ => raise ValueError "Decimal values must be finite"
  | VDec d => Ok (PStr (ulit (str_of_dec d)))
  | VUuid u => Ok (PStr (ulit (uuid_str u)))
  | VTime t =>
      match to_utc t with
      | Some us => Ok (PStr (ulit (time_isoformat_z us)))
      | None => raise ValueError "datetime values must include a timezone"
      end
  | VDate d => Ok (PStr (ulit (date_isoformat d)))
  | VMap l => PObj <$> res_map (λ kv, j ← pjson_of kv.2; Ok (ulit kv.1, j)) l
  | VList l => PList <$> res_map pjson_of l
  | VOther _ => raise TypeError "unsupported canonical value type"
  end.

Definition v_uuid (o : option UUID) : pyval := match o with Some u => VUuid u | None => VNone end.
Definition v_codes (l : list string) : pyval := VList (map VStr l).
Definition v_ids (l : list UUID) : pyval := VList (map VUuid l).

Definition dump_package_record (p : ResearchPackageRecord) : pyval :=
  match dump_package p with
  | VMap l => VMap (l ++ [("checksum", VStr (pk_checksum p)); ("id", VUuid (pk_id p));
                          ("created_at", utc_time (pk_created_at p))])
  | v => v
  end.

(** The request without [id], [request_checksum] and [created_at]: the basis of
    its checksum. *)
Definition dump_request_basis (r : ResearchRequestRecord) : list (string * pyval) :=
  dump_command r ++
  [("normalized_security_query", VStr (rq_normalized_security_query r));
   ("resolved_security_id", VUuid (rq_resolved_security_id r));
   ("tool_catalog_version", VStr (rq_tool_catalog_version r));
   ("tool_catalog_checksum", VStr (rq_tool_catalog_checksum r))].
Definition dump_request (r : ResearchRequestRecord) : pyval :=
  VMap (dump_request_basis r ++
    [("id", VUuid (rq_id r)); ("request_checksum", VStr (rq_request_checksum r));
     ("created_at", utc_time (rq_created_at r))]).

Definition dump_counts (m : gmap string Z) : pyval :=
  VMap (map (λ kv, (kv.1, VInt kv.2)) (map_to_list m)).
Definition dump_budget (b : RunBudget) : pyval :=
  VMap [("max_steps", VInt (max_steps b)); ("max_tool_calls", VInt (max_tool_calls b));
        ("max_calls_per_tool", VInt (max_calls_per_tool b));
        ("max_retries_per_step", VInt (max_retries_per_step b));
        ("max_duration_seconds", VInt (max_duration_seconds b));
        ("model_token_budget", VInt (model_token_budget b));
        ("consumed_steps", VInt (consumed_steps b));
        ("consumed_tool_calls", VInt (consumed_tool_calls b));
        ("consumed_model_tokens", VInt (consumed_model_tokens b));
        ("elapsed_seconds", VDec (elapsed_seconds b));
        ("calls_per_tool", dump_counts (calls_per_tool b));
        ("retries_per_step", dump_counts (retries_per_step b))].
Definition dump_run (r : ResearchAgentRunRecord) : pyval :=
  VMap [("id", VUuid (run_id r)); ("request_id", VUuid (run_request_id r));
        ("security_id", VUuid (run_security_id r)); ("snapshot_id", VUuid (run_snapshot_id r));
        ("research_as_of_time", utc_time (run_research_as_of_time r));
        ("status", VStr (RunStatus.value (run_status r)));
        ("policy_version", VStr (run_policy_version r));
        ("planner_version", VStr (run_planner_version r));
        ("tool_catalog_version", VStr (run_tool_catalog_version r));
        ("tool_catalog_checksum", VStr (run_tool_catalog_checksum r));
        ("idempotency_key", VStr (run_idempotency_key r)); ("budget", dump_budget (run_budget r));
        ("warning_codes", v_codes (run_warning_codes r));
        ("terminal_reason_code", v_str (run_terminal_reason_code r));
        ("created_at", utc_time (run_created_at r)); ("updated_at", utc_time (run_updated_at r));
        ("terminal_at", v_time (run_terminal_at r))].

Definition dump_claim (c : ResearchClaimWrite) : pyval :=
  VMap [("id", VUuid (cl_id c)); ("run_id", VUuid (cl_run_id c));
        ("claim_type", VStr (ClType.value (cl_claim_type c)));
        ("lifecycle_status", VStr (Lifecycle.value (cl_lifecycle_status c)));
        ("support_status", v_str (Support.value <$> cl_support_status c));
        ("statement_code", VStr (cl_statement_code c)); ("value", v_dec (cl_value c));
        ("unit", v_str (cl_unit c)); ("currency_code", v_str (cl_currency_code c));
        ("period", v_str (cl_period c)); ("as_of_time", v_time (cl_as_of_time c));
        ("metric_basis", v_str (cl_metric_basis c)); ("builder_version", VStr (cl_builder_version c));
        ("validator_version", v_str (cl_validator_version c));
        ("created_at", utc_time (cl_created_at c)); ("completed_at", v_time (cl_completed_at c))].
Definition dump_evidence (e : ResearchEvidenceRecord) : pyval :=
  VMap [("id", VUuid (e_id e)); ("run_id", VUuid (e_run_id e));
        ("observation_id", VUuid (e_observation_id e));
        ("evidence_type", VStr (EvType.value (e_evidence_type e)));
        ("status", VStr (EvStatus.value (e_status e))); ("schema_version", VStr (e_schema_version e));
        ("security_id", VUuid (e_security_id e)); ("snapshot_id", VUuid (e_snapshot_id e));
        ("research_as_of_time", utc_time (e_research_as_of_time e));
        ("source_record_type", v_str (e_source_record_type e));
        ("source_record_id", v_uuid (e_source_record_id e));
        ("source_checksum", v_str (e_source_checksum e)); ("published_at", v_time (e_published_at e));
        ("citation_id", v_uuid (e_citation_id e)); ("calculation_run_id", v_uuid (e_calculation_run_id e));
        ("calculation_input_ids", v_ids (e_calculation_input_ids e));
        ("formula_version", v_str (e_formula_version e));
        ("synthetic_status", VStr (Synth.value (e_synthetic_status e)));
        ("payload", VMap (e_payload e)); ("warning_codes", v_codes (e_warning_codes e));
        ("created_at", utc_time (e_created_at e))].
Definition dump_link (l : ClaimEvidenceLinkWrite) : pyval :=
  VMap [("id", VUuid (lk_id l)); ("run_id", VUuid (lk_run_id l)); ("claim_id", VUuid (lk_claim_id l));
        ("evidence_id", VUuid (lk_evidence_id l)); ("role", VStr (EvRole.value (lk_role l)));
        ("created_at", utc_time (lk_created_at l))].

(** Citations hold text that need not be ASCII. *)
Definition j_str (s : string) : pjson := PStr (ulit s).
Definition j_uuid (u : UUID) : pjson := j_str (uuid_str u).
Definition j_opt {A} (f : A → pjson) (o : option A) : pjson :=
  match o with Some x => f x | None => PNull end.
Definition j_time (t : time) : pjson := j_str (time_isoformat_z t).
Definition citation_record_json (c : CitationAnchorRecord) : pjson :=
  PObj [(ulit "document_version_id", j_uuid (ca_document_version_id c));
        (ulit "parse_run_id", j_uuid (ca_parse_run_id c)); (ulit "page_id", j_opt j_uuid (ca_page_id c));
        (ulit "section_id", j_opt j_uuid (ca_section_id c)); (ulit "chunk_id", j_opt j_uuid (ca_chunk_id c));
        (ulit "locator_type", j_str (Loc.value (ca_locator_type c)));
        (ulit "start_page", j_opt PInt (ca_start_page c)); (ulit "end_page", j_opt PInt (ca_end_page c));
        (ulit "html_anchor", j_opt PStr (ca_html_anchor c));
        (ulit "json_pointer", j_opt PStr (ca_json_pointer c));
        (ulit "start_offset", j_opt PInt (ca_start_offset c));
        (ulit "end_offset", j_opt PInt (ca_end_offset c)); (ulit "excerpt", PStr (ca_excerpt c));
        (ulit "excerpt_checksum", j_str (ca_excerpt_checksum c));
        (ulit "canonical_text_checksum", j_str (ca_canonical_text_checksum c));
        (ulit "document_checksum", j_str (ca_document_checksum c));
        (ulit "citation_version", j_str (ca_citation_version c));
        (ulit "parser_version", j_str (ca_parser_version c));
        (ulit "sanitizer_version", j_str (ca_sanitizer_version c));
        (ulit "locator_checksum", j_str (ca_locator_checksum c)); (ulit "id", j_uuid (ca_id c));
        (ulit "created_at", j_time (ca_created_at c))].
Definition verification_json (v : CitationVerification) : pjson :=
  PObj [(ulit "status", j_str (CitSt.value (cv_status v))); (ulit "citation_id", j_uuid (cv_citation_id v));
        (ulit "warnings", PList (map j_str (cv_warnings v)))].

(** * The input bundle and its verification *)

Record PersistedReportInput := mkInput {
  pi_package : ResearchPackageRecord; pi_run : ResearchAgentRunRecord;
  pi_request : ResearchRequestRecord; pi_issuer_id : UUID; pi_claims : list ResearchClaimWrite;
  pi_evidence : list ResearchEvidenceRecord; pi_links : list ClaimEvidenceLinkWrite;
  pi_citations : list CitationAnchorRecord; pi_citation_verifications : list CitationVerification }.
Definition PersistedReportInput_valid (i : PersistedReportInput) : bool :=
  at_most 500 (pi_claims i) && at_most 1000 (pi_evidence i) && at_most 5000 (pi_links i)
  && at_most 1000 (pi_citations i) && at_most 1000 (pi_citation_verifications i).

Definition _fail {A} (code : string) : res A := raise (NamedError "ReportInputValidationError") code.
Definition fail_if (b : bool) (code : string) : res unit := if b then _fail code else Ok tt.

(** [tuple(sorted(set(values), key=str))] *)
Definition _sorted_ids (ids : list UUID) : list UUID := sort_uuid (remove_dups ids).
Definition same_set (a b : list UUID) : bool := bool_decide (list_to_set a =@{gset UUID} list_to_set b).
Definition minus_nonempty (a b : list UUID) : bool := existsb (λ x, bool_decide (x ∉ b)) a.

Definition _validate_package_checksum (p : ResearchPackageRecord) : res unit :=
  checksum ← stable_checksum (dump_package p);
  fail_if (neqb checksum (pk_checksum p)) "PACKAGE_CHECKSUM_MISMATCH".
Definition _validate_request_checksum (r : ResearchRequestRecord) : res unit :=
  checksum ← stable_checksum (VMap (dump_request_basis r));
  fail_if (neqb checksum (rq_request_checksum r)) "REQUEST_CHECKSUM_MISMATCH".

Definition ids_supported (s : ClaimSupportStatus) (claims : list ResearchClaimWrite) : list UUID :=
  map cl_id (filter (λ c, cl_support_status c = Some s) claims).
Definition later (t : option time) (limit : time) : bool :=
  match t with Some t => limit <? t | None => false end.

Definition _validate_claims (i : PersistedReportInput) : res unit :=
  let p := pi_package i in
  let claims := pi_claims i in
  let actual := map cl_id claims in
  let expected := concat (map sec_claim_ids (pk_sections p)) in
  fail_if (neqb actual (_sorted_ids actual)) "UNSTABLE_CLAIM_ORDER";;
  fail_if (existsb (λ c, neqb (cl_lifecycle_status c) Lifecycle.VALIDATED) claims) "CLAIM_NOT_VALIDATED";;
  fail_if (minus_nonempty actual expected) "UNUSED_CLAIM";;
  fail_if (minus_nonempty expected actual) "CLAIM_RECORD_MISSING";;
  res_iter (λ c : ResearchClaimWrite,
    fail_if (neqb (cl_run_id c) (run_id (pi_run i))) "CLAIM_RUN_MISMATCH";;
    fail_if (later (cl_as_of_time c) (pk_research_as_of_time p)) "FUTURE_DATA") claims;;
  fail_if (negb (same_set (pk_unsupported_claim_ids p) (ids_supported Support.UNSUPPORTED claims)))
    "UNSUPPORTED_CLAIM_SET_MISMATCH";;
  fail_if (negb (same_set (pk_conflicting_claim_ids p) (ids_supported Support.CONFLICTING claims)))
    "CONFLICTING_CLAIM_SET_MISMATCH".

Definition validate_evidence (i : PersistedReportInput) (e : ResearchEvidenceRecord) : res unit :=
  let p := pi_package i in
  fail_if (neqb (e_run_id e) (run_id (pi_run i))) "EVIDENCE_RUN_MISMATCH";;
  fail_if (neqb (e_security_id e) (pk_security_id p)) "EVIDENCE_SECURITY_MISMATCH";;
  fail_if (neqb (e_snapshot_id e) (pk_snapshot_id p)) "EVIDENCE_SNAPSHOT_MISMATCH";;
  fail_if (neqb (e_research_as_of_time e) (pk_research_as_of_time p)) "EVIDENCE_AS_OF_MISMATCH";;
  fail_if (later (e_published_at e) (pk_research_as_of_time p)) "FUTURE_DATA";;
  fail_if (bool_decide (rq_research_mode (pi_request i) = RMode.REAL_RESEARCH)
    && bool_decide (e_synthetic_status e ∈ [Synth.SYNTHETIC_TEST_ONLY; Synth.UNKNOWN]))
    "SYNTHETIC_EVIDENCE_FOR_REAL_RUN".
Definition _validate_evidence (i : PersistedReportInput) : res unit :=
  let actual := map e_id (pi_evidence i) in
  let expected := pk_evidence_ids (pi_package i) in
  fail_if (neqb actual (_sorted_ids actual)) "UNSTABLE_EVIDENCE_ORDER";;
  fail_if (minus_nonempty actual expected) "UNUSED_EVIDENCE";;
  fail_if (minus_nonempty expected actual) "EVIDENCE_RECORD_MISSING";;
  res_iter (validate_evidence i) (pi_evidence i).

(** A claim that states something, or states that sources disagree. *)
Definition needs_evidence (c : ResearchClaimWrite) : bool :=
  bool_decide (cl_support_status c ∈
    [Some Support.SUPPORTED; Some Support.PARTIALLY_SUPPORTED; Some Support.CONFLICTING]).
Fixpoint validate_links (i : PersistedReportInput) (seen : list (UUID * UUID))
    (links : list ClaimEvidenceLinkWrite) : res unit :=
  match links with
  | [] => Ok tt
  | l :: links =>
      fail_if (neqb (lk_run_id l) (run_id (pi_run i))) "CLAIM_EVIDENCE_LINK_RUN_MISMATCH";;
      fail_if (bool_decide (lk_claim_id l ∉ map cl_id (pi_claims i))
        || bool_decide (lk_evidence_id l ∉ map e_id (pi_evidence i))) "CLAIM_EVIDENCE_LINK_UNREACHABLE";;
      fail_if (bool_decide ((lk_claim_id l, lk_evidence_id l) ∈ seen)) "DUPLICATE_CLAIM_EVIDENCE_LINK";;
      validate_links i ((lk_claim_id l, lk_evidence_id l) :: seen) links
  end.
Definition _validate_links (i : PersistedReportInput) : res unit :=
  validate_links i [] (pi_links i);;
  fail_if (minus_nonempty (map cl_id (filter (λ c, needs_evidence c = true) (pi_claims i)))
    (map lk_claim_id (pi_links i))) "CLAIM_EVIDENCE_LINK_MISSING".

(** A dictionary built from rows: the last row of an identifier wins. *)
Definition last_with {A} (key : A → UUID) (l : list A) (id : UUID) : option A :=
  last (filter (λ x, key x = id) l).

Definition validate_cited (i : PersistedReportInput) (e : ResearchEvidenceRecord) : res unit :=
  match e_citation_id e with
  | None => Ok tt
  | Some id =>
      match last_with ca_id (pi_citations i) id,
            last_with cv_citation_id (pi_citation_verifications i) id with
      | Some c, Some v =>
          fail_if (neqb (cv_status v) CitSt.VALID) "INVALID_CITATION";;
          anchor ← create_citation c;
          fail_if (neqb (ca_locator_checksum anchor) (ca_locator_checksum c)) "CITATION_CHECKSUM_MISMATCH";;
          fail_if (bool_decide (e_evidence_type e = EvType.DOCUMENT_CITATION_EVIDENCE)
            && (neqb (e_status e) EvStatus.VALID
                || neqb (e_source_checksum e) (Some (ca_document_checksum c)))) "CITATION_EVIDENCE_MISMATCH"
      | _, _ => raise KeyError (uuid_str id)
      end
  end.
Definition _validate_citations (i : PersistedReportInput) : res unit :=
  let ids := map ca_id (pi_citations i) in
  let verified := map cv_citation_id (pi_citation_verifications i) in
  let required := omap e_citation_id (pi_evidence i) in
  fail_if (negb (bool_decide (NoDup ids))) "DUPLICATE_CITATION";;
  fail_if (negb (bool_decide (NoDup verified))) "DUPLICATE_CITATION_VERIFICATION";;
  fail_if (minus_nonempty ids required) "UNUSED_CITATION";;
  fail_if (minus_nonempty required ids) "CITATION_RECORD_MISSING";;
  fail_if (negb (same_set verified required)) "CITATION_VERIFICATION_SET_MISMATCH";;
  res_iter (validate_cited i) (pi_evidence i).

Definition identifies_issuer (i : PersistedReportInput) (e : ResearchEvidenceRecord) : bool :=
  let says key id := bool_decide (as_str <$> dict_get (e_payload e) key = Some (Some (uuid_str id))) in
  bool_decide (e_evidence_type e = EvType.SECURITY_MASTER_EVIDENCE)
  && bool_decide (e_status e = EvStatus.VALID)
  && bool_decide (e_security_id e = pk_security_id (pi_package i))
  && says "security_id" (pk_security_id (pi_package i)) && says "issuer_id" (pi_issuer_id i).
Definition _validate_issuer_identity (i : PersistedReportInput) : res unit :=
  fail_if (negb (Nat.eqb (length (filter (λ e, identifies_issuer i e = true) (pi_evidence i))) 1))
    "ISSUER_IDENTITY_MISMATCH".

(** [_validate_input] *)
Definition _validate_input (i : PersistedReportInput) : res unit :=
  let p := pi_package i in
  let run := pi_run i in
  let q := pi_request i in
  fail_if (neqb (pk_run_id p) (run_id run)) "PACKAGE_RUN_MISMATCH";;
  fail_if (neqb (pk_request_id p) (rq_id q) || neqb (run_request_id run) (rq_id q)) "REQUEST_RUN_MISMATCH";;
  fail_if (neqb (run_security_id run) (pk_security_id p)) "RUN_SECURITY_MISMATCH";;
  fail_if (neqb (rq_resolved_security_id q) (pk_security_id p)) "REQUEST_SECURITY_MISMATCH";;
  fail_if (neqb (run_snapshot_id run) (pk_snapshot_id p) || neqb (rq_snapshot_id q) (pk_snapshot_id p))
    "RUN_SNAPSHOT_MISMATCH";;
  fail_if (neqb (run_research_as_of_time run) (pk_research_as_of_time p)
    || neqb (rq_research_as_of_time q) (pk_research_as_of_time p)) "RUN_AS_OF_MISMATCH";;
  fail_if (neqb (rq_research_type q) (pk_research_type p)) "RESEARCH_TYPE_MISMATCH";;
  fail_if (bool_decide (pk_status p = PkgStatus.FAILED)) "RESEARCH_PACKAGE_FAILED";;
  fail_if (neqb (run_policy_version run) (pk_policy_version p)
    || neqb (rq_policy_version q) (pk_policy_version p)) "POLICY_VERSION_MISMATCH";;
  fail_if (neqb (run_planner_version run) (pk_planner_version p)
    || neqb (rq_planner_version q) (pk_planner_version p)) "PLANNER_VERSION_MISMATCH";;
  fail_if (neqb (run_tool_catalog_version run) (pk_tool_catalog_version p)
    || neqb (rq_tool_catalog_version q) (pk_tool_catalog_version p)) "TOOL_CATALOG_VERSION_MISMATCH";;
  fail_if (bool_decide (run_status run ∉ [RunStatus.COMPLETED; RunStatus.PARTIAL; RunStatus.BLOCKED]))
    "RESEARCH_RUN_NOT_SEALED";;
  _validate_package_checksum p;;
  _validate_request_checksum q;;
  _validate_claims i;;
  _validate_evidence i;;
  _validate_links i;;
  _validate_citations i;;
  _validate_issuer_identity i.

(** * The manifest *)

Definition _lineage_ids (i : PersistedReportInput) : list UUID :=
  _sorted_ids (concat (map (λ e, option_list (e_calculation_run_id e) ++ e_calculation_input_ids e)
    (pi_evidence i))).
Definition _lineage_basis (i : PersistedReportInput) : pyval :=
  VList (map (λ e,
    VMap [("evidence_id", VUuid (e_id e)); ("source_record_type", v_str (e_source_record_type e));
          ("source_record_id", v_uuid (e_source_record_id e));
          ("source_checksum", v_str (e_source_checksum e)); ("published_at", v_time (e_published_at e));
          ("citation_id", v_uuid (e_citation_id e)); ("calculation_run_id", v_uuid (e_calculation_run_id e));
          ("calculation_input_ids", v_ids (e_calculation_input_ids e));
          ("formula_version", v_str (e_formula_version e))]) (pi_evidence i)).

Definition _aggregate_synthetic_status (i : PersistedReportInput) : SyntheticStatus :=
  let statuses := map e_synthetic_status (pi_evidence i) in
  if forallb (λ s, bool_decide (s = Synth.REAL_VERIFIED)) statuses then Synth.REAL_VERIFIED
  else if bool_decide (Synth.SYNTHETIC_TEST_ONLY ∈ statuses) then Synth.SYNTHETIC_TEST_ONLY
  else if bool_decide (Synth.UNKNOWN ∈ statuses) then Synth.UNKNOWN
  else Synth.FIXTURE_REAL_EXCERPT.

(** Issues are in the strict order of their keys. *)
Definition _issue_key (s : ReportInputIssue) : list string :=
  let id (o : option UUID) := match o with Some u => uuid_str u | None => "" end in
  [is_code s; id (is_claim_id s); id (is_evidence_id s); id (is_citation_id s)].
Fixpoint strs_ltb (a b : list string) : bool :=
  match a, b with
  | x :: a, y :: b => str_ltb x y || (bool_decide (x = y) && strs_ltb a b)
  | [], _ :: _ => true
  | _, [] => false
  end.
Definition issues_ok (l : list ReportInputIssue) : bool :=
  bool_decide (map _issue_key l = sort_by strs_ltb (remove_dups (map _issue_key l))).
Definition codes_ok (l : list string) : bool :=
  bool_decide (l = sort_str (remove_dups l)) && forallb Code_ok l && at_most 100 l.
Definition ids_ok (n : Z) (l : list UUID) : bool := bool_decide (l = _sorted_ids l) && at_most n l.
(** [^report-input-manifest-v[1-9][0-9]*$] *)
Definition manifest_version_ok (s : string) : bool :=
  String.prefix "report-input-manifest-v" s &&
  match String.substring 23 (String.length s - 23) s with
  | String c s => is_digit c && negb (bool_decide (c = "0"%char)) && str_forallb is_digit s
  | EmptyString => false
  end.
Definition ReportInputManifest_valid (m : ReportInputManifest) : bool :=
  forallb Checksum_ok [mf_package_checksum m; mf_claims_checksum m; mf_evidence_checksum m;
    mf_links_checksum m; mf_citations_checksum m; mf_lineage_checksum m; mf_canonical_payload_checksum m]
  && forallb Version_ok [mf_policy_version m; mf_planner_version m; mf_evidence_version m;
       mf_claim_version m; mf_package_version m]
  && len_between 80 80 (mf_tool_catalog_version m)
  && ids_ok 500 (mf_claim_ids m) && ids_ok 1000 (mf_evidence_ids m) && ids_ok 5000 (mf_link_ids m)
  && ids_ok 1000 (mf_citation_ids m) && ids_ok 5000 (mf_lineage_ids m)
  && between 1 10 (Z.of_nat (length (mf_section_states m)))
  && forallb (λ s, at_most 100 (ss_claim_ids s) && at_most 100 (ss_warning_codes s)
       && forallb Code_ok (ss_warning_codes s)) (mf_section_states m)
  && codes_ok (mf_blocked_capabilities m) && codes_ok (mf_warnings m)
  && issues_ok (mf_data_quality_items m) && issues_ok (mf_limitation_items m)
  && at_most 500 (mf_data_quality_items m) && at_most 500 (mf_limitation_items m)
  && manifest_version_ok (mf_manifest_schema_version m).

#[export] Instance ReportInputIssue_eq_dec : EqDecision ReportInputIssue.
Proof. solve_decision. Defined.
#[export] Instance ReportInputSectionState_eq_dec : EqDecision ReportInputSectionState.
Proof. solve_decision. Defined.
#[export] Instance ReportInputManifest_eq_dec : EqDecision ReportInputManifest.
Proof. solve_decision. Defined.

Definition code_issue (code : string) : ReportInputIssue := mkIssue code None None None.
Definition sorted_codes (l : list string) : list string := sort_str (remove_dups l).

Section Inputs.
Context `{UnicodeData}.

Definition checksum_of_values (v : pyval) : res string := j ← pjson_of v; report_checksum j.
Definition citations_json (i : PersistedReportInput) : pjson :=
  PObj [(ulit "citations", PList (map citation_record_json (pi_citations i)));
        (ulit "verifications", PList (map verification_json (pi_citation_verifications i)))].

(** [_input_checksum] *)
Definition _input_checksum (i : PersistedReportInput) : res string :=
  package ← pjson_of (dump_package_record (pi_package i));
  run ← pjson_of (dump_run (pi_run i));
  request ← pjson_of (dump_request (pi_request i));
  claims ← res_map (λ c, pjson_of (dump_claim c)) (pi_claims i);
  evidence ← res_map (λ e, pjson_of (dump_evidence e)) (pi_evidence i);
  links ← res_map (λ l, pjson_of (dump_link l)) (pi_links i);
  report_checksum (PObj [(ulit "package", package); (ulit "run", run); (ulit "request", request);
    (ulit "issuer_id", j_uuid (pi_issuer_id i)); (ulit "claims", PList claims);
    (ulit "evidence", PList evidence); (ulit "links", PList links);
    (ulit "citations", PList (map citation_record_json (pi_citations i)));
    (ulit "citation_verifications", PList (map verification_json (pi_citation_verifications i)))]).

(** [build_report_input_manifest] *)
Definition build_report_input_manifest (i : PersistedReportInput) : res ReportInputManifest :=
  let p := pi_package i in
  _validate_input i;;
  claims ← checksum_of_values (VList (map dump_claim (pi_claims i)));
  evidence ← checksum_of_values (VList (map dump_evidence (pi_evidence i)));
  links ← checksum_of_values (VList (map dump_link (pi_links i)));
  citations ← report_checksum (citations_json i);
  lineage ← checksum_of_values (_lineage_basis i);
  payload ← _input_checksum i;
  let warnings := sorted_codes (pk_warnings p) in
  let blocked := sorted_codes (pk_blocked_capabilities p) in
  validated ReportInputManifest_valid
    (mkManifest (pk_id p) (pk_run_id p) (pk_request_id p) (pk_security_id p) (pi_issuer_id i)
      (pk_snapshot_id p) (pk_research_as_of_time p) (pk_research_type p)
      (rq_research_mode (pi_request i)) (pk_status p) (pk_checksum p) (pk_policy_version p)
      (pk_planner_version p) (pk_tool_catalog_version p) (pk_evidence_version p)
      (pk_claim_version p) (pk_package_version p)
      (_sorted_ids (map cl_id (pi_claims i))) (_sorted_ids (map e_id (pi_evidence i)))
      (_sorted_ids (map lk_id (pi_links i))) (_sorted_ids (map ca_id (pi_citations i)))
      (_lineage_ids i) claims evidence links citations lineage
      (map (λ s, mkSectionState (sec_section s) (sec_status s) (sec_claim_ids s) (sec_warning_codes s))
        (pk_sections p))
      blocked warnings (map code_issue warnings) (map code_issue blocked)
      (_aggregate_synthetic_status i) "report-input-manifest-v1" payload (pk_created_at p)).

Record VerifiedReportInput := mkVerified {
  vi_manifest : ReportInputManifest; vi_input : PersistedReportInput }.

(** [validate_report_input_manifest] *)
Definition validate_report_input_manifest (m : ReportInputManifest) (i : PersistedReportInput)
    : res VerifiedReportInput :=
  rebuilt ← build_report_input_manifest i;
  fail_if (neqb (mf_claim_ids m) (mf_claim_ids rebuilt) || neqb (mf_evidence_ids m) (mf_evidence_ids rebuilt)
    || neqb (mf_link_ids m) (mf_link_ids rebuilt) || neqb (mf_citation_ids m) (mf_citation_ids rebuilt)
    || neqb (mf_lineage_ids m) (mf_lineage_ids rebuilt)) "MANIFEST_RECORD_SET_MISMATCH";;
  fail_if (neqb (mf_canonical_payload_checksum m) (mf_canonical_payload_checksum rebuilt))
    "MANIFEST_CHECKSUM_MISMATCH";;
  fail_if (neqb m rebuilt) "MANIFEST_METADATA_MISMATCH";;
  Ok (mkVerified m i).
End Inputs.

(** * What verification establishes *)

Lemma fail_if_Ok b code u : fail_if b code = Ok u ↔ b = false.
Proof. destruct u. by destruct b; cbn. Qed.
Lemma minus_nonempty_false a b : minus_nonempty a b = false ↔ a ⊆ b.
Proof.
  unfold minus_nonempty. rewrite existsb_false. split.
  - intros Hx x Hin. specialize (Hx x Hin). apply bool_decide_eq_false_1 in Hx. by apply dec_stable.
  - intros Hs x Hin. apply bool_decide_eq_false_2. intros Hn. by apply Hn, Hs.
Qed.
Lemma later_false t limit : later t limit = false ↔ ∀ u, t = Some u → u <= limit.
Proof. destruct t as [t|]; cbn; [rewrite Z.ltb_ge|]; naive_solver. Qed.

(** Splits a chain of checks into its checks. *)
Ltac checks E :=
  repeat match type of E with
    | (_ ;; _) = Ok _ => let F := fresh "Hc" in apply seq_Ok in E as [F E]; apply fail_if_Ok in F
    | fail_if _ _ = Ok _ => apply fail_if_Ok in E
    end.
Ltac split_orb :=
  repeat match goal with
    | F : _ || _ = false |- _ => apply orb_false_iff in F as [? ?]
    | F : neqb _ _ = false |- _ => apply (proj1 (neqb_false _ _)) in F
    | F : minus_nonempty _ _ = false |- _ => apply minus_nonempty_false in F
    | F : later _ _ = false |- _ => rewrite later_false in F
    | F : negb _ = false |- _ => apply negb_false_iff in F
    | F : bool_decide _ = true |- _ => apply bool_decide_eq_true_1 in F
    | F : bool_decide _ = false |- _ => apply bool_decide_eq_false_1 in F
    end.

(** The records of a sealed input belong together and say nothing the research
    could not know. *)
Record sealed_input (i : PersistedReportInput) : Prop := mkSealed {
  si_run : pk_run_id (pi_package i) = run_id (pi_run i);
  si_request : run_request_id (pi_run i) = rq_id (pi_request i);
  si_security : rq_resolved_security_id (pi_request i) = pk_security_id (pi_package i);
  si_status : run_status (pi_run i) ∈ [RunStatus.COMPLETED; RunStatus.PARTIAL; RunStatus.BLOCKED]
    ∧ pk_status (pi_package i) ≠ PkgStatus.FAILED;
  si_checksums : stable_checksum (dump_package (pi_package i)) = Ok (pk_checksum (pi_package i)) ∧
    stable_checksum (VMap (dump_request_basis (pi_request i))) = Ok (rq_request_checksum (pi_request i));
  si_claims : ∀ c, c ∈ pi_claims i → cl_run_id c = run_id (pi_run i) ∧
    cl_lifecycle_status c = Lifecycle.VALIDATED ∧
    (∃ s, s ∈ pk_sections (pi_package i) ∧ cl_id c ∈ sec_claim_ids s) ∧
    (∀ t, cl_as_of_time c = Some t → t <= pk_research_as_of_time (pi_package i)) ∧
    (needs_evidence c = true → ∃ l e, l ∈ pi_links i ∧ e ∈ pi_evidence i ∧
       lk_claim_id l = cl_id c ∧ lk_evidence_id l = e_id e);
  si_evidence : ∀ e, e ∈ pi_evidence i → e_run_id e = run_id (pi_run i) ∧
    e_security_id e = pk_security_id (pi_package i) ∧ e_snapshot_id e = pk_snapshot_id (pi_package i) ∧
    e_id e ∈ pk_evidence_ids (pi_package i) ∧
    (∀ t, e_published_at e = Some t → t <= pk_research_as_of_time (pi_package i)) ∧
    (rq_research_mode (pi_request i) = RMode.REAL_RESEARCH →
       e_synthetic_status e ∉ [Synth.SYNTHETIC_TEST_ONLY; Synth.UNKNOWN]) ∧
    (∀ id, e_citation_id e = Some id → ∃ c v, c ∈ pi_citations i ∧ ca_id c = id ∧
       v ∈ pi_citation_verifications i ∧ cv_citation_id v = id ∧ cv_status v = CitSt.VALID ∧
       (e_evidence_type e = EvType.DOCUMENT_CITATION_EVIDENCE →
        e_source_checksum e = Some (ca_document_checksum c)));
  si_ids : NoDup (map cl_id (pi_claims i)) ∧ NoDup (map e_id (pi_evidence i));
  si_issuer : exists! e, e ∈ pi_evidence i ∧ identifies_issuer i e = true }.

Lemma sorted_ids_NoDup ids : NoDup (_sorted_ids ids).
Proof. unfold _sorted_ids, sort_uuid, sort_key. rewrite sort_by_perm. apply NoDup_remove_dups. Qed.
Lemma elem_of_sorted_ids x ids : x ∈ _sorted_ids ids ↔ x ∈ ids.
Proof. unfold _sorted_ids, sort_uuid, sort_key. by rewrite elem_of_sort_by, elem_of_remove_dups. Qed.

Lemma validate_links_Ok i seen links : validate_links i seen links = Ok tt →
  ∀ l, l ∈ links → lk_claim_id l ∈ map cl_id (pi_claims i) ∧ lk_evidence_id l ∈ map e_id (pi_evidence i).
Proof.
  revert seen. induction links as [|l links IH]; intros seen E l' Hl; [by apply elem_of_nil in Hl|].
  cbn in E. checks E. split_orb. apply elem_of_cons in Hl as [->|Hl]; [|exact (IH _ E _ Hl)].
  split; by apply dec_stable.
Qed.

Lemma last_with_Some {A} (key : A → UUID) l id x : last_with key l id = Some x → x ∈ l ∧ key x = id.
Proof.
  unfold last_with. intros E. rewrite last_lookup in E. apply list_elem_of_lookup_2 in E.
  by apply list_elem_of_filter in E as [? ?].
Qed.

Lemma validate_claims_Ok i : _validate_claims i = Ok tt →
  NoDup (map cl_id (pi_claims i)) ∧
  ∀ c, c ∈ pi_claims i → cl_run_id c = run_id (pi_run i) ∧ cl_lifecycle_status c = Lifecycle.VALIDATED ∧
    (∃ s, s ∈ pk_sections (pi_package i) ∧ cl_id c ∈ sec_claim_ids s) ∧
    (∀ t, cl_as_of_time c = Some t → t <= pk_research_as_of_time (pi_package i)).
Proof.
  intros E. apply seq_Ok in E as [Hs E]. apply seq_Ok in E as [Hv E]. apply seq_Ok in E as [Hu E].
  apply seq_Ok in E as [_ E]. apply seq_Ok in E as [Hi _].
  apply fail_if_Ok in Hs, Hv, Hu. split_orb. rewrite existsb_false in Hv. rewrite res_iter_Ok, Forall_forall in Hi.
  split; [rewrite Hs; apply sorted_ids_NoDup|]. intros c Hc.
  specialize (Hi c Hc). specialize (Hv c Hc). cbn in Hi. checks Hi. split_orb. split_and!; [done..| |done].
  destruct (elem_of_concat (cl_id c) (map sec_claim_ids (pk_sections (pi_package i)))) as [Hd _].
  destruct Hd as (ids & Hin & Hids); [by apply Hu, list_elem_of_fmap_2|].
  apply list_elem_of_fmap in Hids as (s & -> & ?). by exists s.
Qed.

Lemma validate_cited_Ok i e id : validate_cited i e = Ok tt → e_citation_id e = Some id →
  ∃ c v, c ∈ pi_citations i ∧ ca_id c = id ∧
    v ∈ pi_citation_verifications i ∧ cv_citation_id v = id ∧ cv_status v = CitSt.VALID ∧
    (e_evidence_type e = EvType.DOCUMENT_CITATION_EVIDENCE → e_source_checksum e = Some (ca_document_checksum c)).
Proof.
  unfold validate_cited. intros E Hid. rewrite Hid in E.
  destruct (last_with ca_id _ _) as [c|] eqn:Ec; [|done].
  destruct (last_with cv_citation_id _ _) as [v|] eqn:Ev; [|done].
  apply last_with_Some in Ec as [? ?], Ev as [? ?]. apply seq_Ok in E as [Hv E]. apply fail_if_Ok in Hv.
  apply bind_Ok in E as (a & _ & E). checks E. split_orb. exists c, v. split_and!; [done..|].
  intros Ht. match goal with F : _ && _ = false |- _ => rewrite bool_decide_eq_true_2 in F by done;
    cbn in F end. by split_orb.
Qed.

Lemma single_filter {A} (p : A → bool) l : length (filter (λ x, p x = true) l) = 1%nat →
  exists! x, x ∈ l ∧ p x = true.
Proof.
  destruct (filter _ l) as [|x [|]] eqn:E; [done| |done]. intros _.
  assert (Hx : ∀ y, y ∈ [x] ↔ p y = true ∧ y ∈ l) by (intros y; by rewrite <- E, list_elem_of_filter).
  exists x. split; [apply and_comm, Hx; apply list_elem_of_singleton; done|].
  intros y Hy%and_comm%Hx. by apply list_elem_of_singleton in Hy.
Qed.

Lemma validated_input_sealed i : _validate_input i = Ok tt → sealed_input i.
Proof.
  intros E. unfold _validate_input in E. cbv zeta in E.
  do 12 (let F := fresh "Hc" in apply seq_Ok in E as [F E]; apply fail_if_Ok in F).
  apply seq_Ok in E as [Hp E]. apply seq_Ok in E as [Hq E]. apply seq_Ok in E as [Hcl E].
  apply seq_Ok in E as [Hev E]. apply seq_Ok in E as [Hlk E]. apply seq_Ok in E as [Hct E].
  apply bind_Ok in Hp as (c1 & Hp & E1), Hq as (c2 & Hq & E2).
  apply fail_if_Ok in E, E1, E2. split_orb. subst c1 c2.
  apply seq_Ok in Hlk as [Hl1 Hl2]. apply fail_if_Ok in Hl2. split_orb.
  apply validate_claims_Ok in Hcl as [Hnd Hcl].
  apply seq_Ok in Hev as [Ho Hev]. apply seq_Ok in Hev as [Hu Hev]. apply seq_Ok in Hev as [_ Hev].
  apply fail_if_Ok in Ho, Hu. split_orb. rewrite res_iter_Ok, Forall_forall in Hev.
  do 5 (apply seq_Ok in Hct as [_ Hct]). rewrite res_iter_Ok, Forall_forall in Hct.
  split; [congruence|congruence|congruence|split; [|done]|done| | | |].
  - match goal with F : ¬ (_ ∉ _) |- _ => by apply dec_stable in F end.
  - intros c Hin. destruct (Hcl c Hin) as (? & ? & ? & ?). split_and!; [done..|].
    intros Hn. assert (Hlc : cl_id c ∈ map lk_claim_id (pi_links i)).
    { apply Hl2, list_elem_of_fmap_2, list_elem_of_filter. done. }
    apply list_elem_of_fmap in Hlc as (l & Hl & Hll). destruct (validate_links_Ok _ _ _ Hl1 l Hll) as [_ He].
    apply list_elem_of_fmap in He as (e & He & Hin'). exists l, e. done.
  - intros e He. specialize (Hev e He). unfold validate_evidence in Hev. cbv zeta in Hev. checks Hev.
    split_orb. split_and!; [done..| | | |].
    + by apply Hu, list_elem_of_fmap_2.
    + done.
    + intros Hm. apply andb_false_iff in Hev as [Hm'|Hs]; split_orb; [done|]. exact Hs.
    + intros id Hid. eapply validate_cited_Ok; [by apply Hct|done].
  - split; [done|]. rewrite Ho. apply sorted_ids_NoDup.
  - apply single_filter. by apply Nat.eqb_eq.
Qed.

(** * Sealing *)

Section Sealing.
Context `{UnicodeData}.

(** A manifest accepts exactly the inputs it was built from. *)
Lemma validate_manifest_iff m i v : validate_report_input_manifest m i = Ok v ↔
  build_report_input_manifest i = Ok m ∧ v = mkVerified m i.
Proof.
  unfold validate_report_input_manifest. rewrite bind_Ok. split.
  - intros (r & Hr & E). checks E. split_orb. injection E as <-. by subst r.
  - intros [Hb ->]. exists m. split; [done|].
    assert (Hn : ∀ A (D : EqDecision A) (x : A), neqb x x = false) by (intros; by apply neqb_false).
    by rewrite !Hn.
Qed.

Lemma build_manifest_Ok i m : build_report_input_manifest i = Ok m →
  _validate_input i = Ok tt ∧ ReportInputManifest_valid m = true ∧
  _input_checksum i = Ok (mf_canonical_payload_checksum m) ∧
  mf_claim_ids m = map cl_id (pi_claims i) ∧ mf_evidence_ids m = map e_id (pi_evidence i) ∧
  mf_link_ids m = _sorted_ids (map lk_id (pi_links i)) ∧
  mf_security_id m = pk_security_id (pi_package i) ∧ mf_snapshot_id m = pk_snapshot_id (pi_package i) ∧
  mf_research_as_of_time m = pk_research_as_of_time (pi_package i) ∧
  mf_package_status m = pk_status (pi_package i) ∧ mf_research_agent_run_id m = run_id (pi_run i) ∧
  mf_research_mode m = rq_research_mode (pi_request i).
Proof.
  intros E. apply seq_Ok in E as [Hv E]. repeat (apply bind_Ok in E as (? & ? & E)).
  apply validated_Ok in E as [-> Hok]. destruct (validated_input_sealed i Hv) as [Hr _ _ _ _ _ _ _ _].
  pose proof Hv as Hv'. unfold _validate_input in Hv. cbv zeta in Hv. do 14 (apply seq_Ok in Hv as [_ Hv]).
  apply seq_Ok in Hv as [Hc Hv]. apply seq_Ok in Hv as [He Hv]. apply seq_Ok in Hc as [Hc _].
  apply seq_Ok in He as [He _]. apply fail_if_Ok in Hc, He. split_orb. cbn. split_and!; try done; by symmetry.
Qed.
End Sealing.

(** * A package sealed *)

Definition nth_id (n : Z) : UUID := mkUUID ("00000000-0000-4000-8000-" +:+ pad_left 12 (str_of_Z n)).
Definition sealed_at : time := 1700000000000000.
Definition catalog_pin : string := str_repeat 80 "c".
Definition a_checksum : string := str_repeat 64 "a".

(** The identity of the security, its margin, and a statement without evidence. *)
Definition some_evidence (n : Z) (type : EvidenceType) (payload : list (string * pyval))
    (published : option time) : ResearchEvidenceRecord :=
  mkEvidence (nth_id n) (nth_id 20) (nth_id (n + 100)) type EvStatus.VALID "evidence-v1" (nth_id 12)
    (nth_id 13) sealed_at None None None published None None [] None Synth.REAL_VERIFIED payload [] sealed_at.
Definition identity_evidence : ResearchEvidenceRecord :=
  some_evidence 30 EvType.SECURITY_MASTER_EVIDENCE
    [("security_id", VStr (uuid_str (nth_id 12))); ("issuer_id", VStr (uuid_str (nth_id 17)))] None.
Definition margin_evidence (published : time) : ResearchEvidenceRecord :=
  some_evidence 31 EvType.DERIVED_METRIC_EVIDENCE [("value", VStr "0.25")] (Some published).
Definition some_claim (n : Z) (type : ClaimType) (support : ClaimSupportStatus) (code : string)
    (value : option decimal) : ResearchClaimWrite :=
  mkClaim (nth_id n) (nth_id 20) type Lifecycle.VALIDATED (Some support) code value
    (if is_some value then Some "RATIO" else None) None (if is_some value then Some "FY2023" else None)
    (Some sealed_at) None "claim-v1" (Some "claim-v1") sealed_at (Some sealed_at).
Definition package_claims (margin : ClaimSupportStatus) : list ResearchClaimWrite :=
  [some_claim 1 ClType.FINANCIAL_METRIC margin "NET_MARGIN" (Some (mkDec false 25 (-2)));
   some_claim 2 ClType.DATA_QUALITY Support.UNSUPPORTED "MISSING_FILINGS" None].
Definition package_request (sections : list ResearchSection) : res ResearchRequestRecord :=
  let r checksum := mkRequest (mkRequestCreate "AAPL" RType.FULL_RESEARCH_PACKAGE (nth_id 13) sealed_at sections
    "policy-v1" "planner-v1" (mkRequested None None None None None) RMode.REAL_RESEARCH) (nth_id 16) (nth_id 12)
    "aapl" catalog_pin a_checksum checksum sealed_at in
  checksum ← stable_checksum (VMap (dump_request_basis (r "")));
  Ok (r checksum).
Definition package_run : ResearchAgentRunRecord :=
  mkRun (nth_id 20) (nth_id 16) (nth_id 12) (nth_id 13) sealed_at RunStatus.COMPLETED "policy-v1" "planner-v1"
    catalog_pin a_checksum "key" (mkBudget 12 24 5 1 120 0 0 0 0 dzero ∅ ∅) [] None sealed_at sealed_at
    (Some sealed_at).
Definition package_of (sections : list ResearchSection) (claims : list ResearchClaimWrite) (published : time) :
    res PersistedReportInput :=
  let evidence := [identity_evidence; margin_evidence published] in
  request ← package_request sections;
  package ← assemble (nth_id 14) (nth_id 20) (nth_id 16) (nth_id 12) (nth_id 13) sealed_at RType.FULL_RESEARCH_PACKAGE
    "policy-v1" "planner-v1" catalog_pin sections claims evidence [] [] false sealed_at;
  Ok (mkInput package package_run request (nth_id 17) claims evidence
    [mkLink (nth_id 40) (nth_id 20) (nth_id 1) (nth_id 31) EvRole.PRIMARY sealed_at] [] []).
Definition package_input (published : time) (margin : ClaimSupportStatus) : res PersistedReportInput :=
  package_of RSection.all (package_claims margin) published.


(** The package seals; with evidence of the next day it does not. *)
Lemma package_seals :
  match package_input sealed_at Support.SUPPORTED, package_input (sealed_at + 86400000000) Support.SUPPORTED with
  | Ok i, Ok late =>
      match @build_report_input_manifest ascii_unicode i with
      | Ok m =>
          match @validate_report_input_manifest ascii_unicode m i, @validate_report_input_manifest ascii_unicode m late with
          | Ok _, Raise e => bool_decide (e = mkExn (NamedError "ReportInputValidationError") "FUTURE_DATA")
          | _, _ => false
          end
      | Raise _ => false
      end
  | _, _ => false
  end = true.
Proof. vm_compute. reflexivity. Qed.

