(* ===== verification/ReportTemplate.v ===== *)
(** The reference data of reports: templates, the report and reflection
    policies with their seeding, and the section skeleton of a report
    (domain/reports/templates.py, policies.py, reflection_policy.py, sections.py
    and the policy and template tables of db/repositories/reports.py). *)
From S2P Require Import Prelude PyDecimal PyText Sha256 AgentModel RunControl ToolRun PyParse Ledger Claims.
From S2P Require Import Text DocModel Citations.
From S2P Require Import ReportModel ReportText ReportInput.

Module TplSt.
Inductive TemplateStatus :=
  | ACTIVE | DEPRECATED | TEST_ONLY.
#[global] Instance TemplateStatus_eq_dec : EqDecision TemplateStatus.
Proof. solve_decision. Defined.
Definition all : list TemplateStatus :=
  [ACTIVE; DEPRECATED; TEST_ONLY].
Definition value (x : TemplateStatus) : string :=
  match x with
  | ACTIVE => "ACTIVE"
  | DEPRECATED => "DEPRECATED"
  | TEST_ONLY => "TEST_ONLY"
  end.
End TplSt.
Abbreviation TemplateStatus := TplSt.TemplateStatus.

Module Plc.
Inductive TemplatePlaceholder :=
  | OFFICIAL_SECURITY_NAME | SYMBOL | EXCHANGE | CLAIM_VALUE | CLAIM_UNIT | CLAIM_PERIOD
   | CLAIM_AS_OF | VISIBLE_REFERENCE.
#[global] Instance TemplatePlaceholder_eq_dec : EqDecision TemplatePlaceholder.
Proof. solve_decision. Defined.
Definition all : list TemplatePlaceholder :=
  [OFFICIAL_SECURITY_NAME; SYMBOL; EXCHANGE; CLAIM_VALUE; CLAIM_UNIT; CLAIM_PERIOD; CLAIM_AS_OF
  ; VISIBLE_REFERENCE].
Definition value (x : TemplatePlaceholder) : string :=
  match x with
  | OFFICIAL_SECURITY_NAME => "OFFICIAL_SECURITY_NAME"
  | SYMBOL => "SYMBOL"
  | EXCHANGE => "EXCHANGE"
  | CLAIM_VALUE => "CLAIM_VALUE"
  | CLAIM_UNIT => "CLAIM_UNIT"
  | CLAIM_PERIOD => "CLAIM_PERIOD"
  | CLAIM_AS_OF => "CLAIM_AS_OF"
  | VISIBLE_REFERENCE => "VISIBLE_REFERENCE"
  end.
End Plc.
Abbreviation TemplatePlaceholder := Plc.TemplatePlaceholder.

(** * Templates (templates.py) *)

Record TemplateToken := mkToken {
  tk_literal : option ustr; tk_placeholder : option TemplatePlaceholder }.
Record TemplateSectionRule := mkRule {
  sr_section : ReportSection; sr_required : bool; sr_allow_empty_state : bool }.
Record StatementPattern := mkPattern { sp_statement_code : string; sp_tokens : list TemplateToken }.
Record TableColumnDescriptor := mkColumn {
  tc_column_code : string; tc_label : ustr; tc_value_placeholder : TemplatePlaceholder }.
(** [citation_style] has one value, BRACKETED_NUMERIC. *)
Record ReportTemplateVersionWrite := mkTemplate {
  tp_name : string; tp_version : string; tp_report_type : ReportType; tp_locale : ReportLocale;
  tp_section_keys : list ReportSection; tp_section_rules : list TemplateSectionRule;
  tp_statement_patterns : list StatementPattern; tp_table_columns : list TableColumnDescriptor;
  tp_template_schema_version : string; tp_checksum : string; tp_status : TemplateStatus }.
Record ReportTemplateVersionRecord := mkTemplateRecord {
  tp_write :> ReportTemplateVersionWrite; tp_id : UUID; tp_created_at : time }.
#[export] Instance TemplateToken_eq_dec : EqDecision TemplateToken.
Proof. solve_decision. Defined.
#[export] Instance TemplateSectionRule_eq_dec : EqDecision TemplateSectionRule.
Proof. solve_decision. Defined.
#[export] Instance StatementPattern_eq_dec : EqDecision StatementPattern.
Proof. solve_decision. Defined.
#[export] Instance TableColumnDescriptor_eq_dec : EqDecision TableColumnDescriptor.
Proof. solve_decision. Defined.
#[export] Instance ReportTemplateVersionWrite_eq_dec : EqDecision ReportTemplateVersionWrite.
Proof. solve_decision. Defined.

#[export] Instance ReportPolicyRecord_eq_dec : EqDecision ReportPolicyRecord.
Proof. solve_decision. Defined.
#[export] Instance RuntimeReflectionPolicyRecord_eq_dec : EqDecision RuntimeReflectionPolicyRecord.
Proof. solve_decision. Defined.

Definition literal (t : ustr) : TemplateToken := mkToken (Some t) None.
Definition placeholder (p : TemplatePlaceholder) : TemplateToken := mkToken None (Some p).

(** [_fixed_disclosure_patterns] *)
Definition _fixed_disclosure_patterns (locale : ReportLocale) : list StatementPattern :=
  map (λ p : string * string, mkPattern p.1 [literal (utext p.2)])
    match locale with
    | RepLocale.ZH_CN =>
        [("PARTIAL_QUALIFIER", "以下结果受数据可用性限制，仅反映已验证证据。");
         ("BLOCKED_DISCLOSURE", "相关能力受阻，未使用缺失信息推断事实。");
         ("NO_EVIDENCE_DISCLOSURE", "未发现可验证证据，未填补缺失内容。");
         ("CONFLICT_DISCLOSURE", "证据存在冲突，未自动选择或合并数值。")]
    | RepLocale.EN_US =>
        [("PARTIAL_QUALIFIER",
          "The following results are limited by data availability and reflect verified evidence only.");
         ("BLOCKED_DISCLOSURE",
          "The capability is blocked; missing information was not used to infer facts.");
         ("NO_EVIDENCE_DISCLOSURE", "No verifiable evidence is available; missing content was not filled.");
         ("CONFLICT_DISCLOSURE",
          "Evidence conflicts are preserved; values were not selected or combined automatically.")]
    end.

Section Templates.
Context `{UnicodeData}.

(** [_validate_literal] *)
Definition literal_forbidden : list string :=
  ["{"; "}"; "${"; "__"; "../"; "\"; "://"; "os."; "environ"; "eval("; "exec("; "<script"; "</";
   "select "; "insert "; "update "; "delete "; "drop "; "powershell"; "cmd.exe"; " env:"].
Definition literal_safe (t : ustr) : bool :=
  negb (existsb (λ marker, ucontains (casefold t) (ulit marker)) literal_forbidden).
Definition TemplateToken_valid (t : TemplateToken) : bool :=
  negb (Bool.eqb (is_none (tk_literal t)) (is_none (tk_placeholder t)))
  && match tk_literal t with Some l => ulen_between 1 200 l && literal_safe l | None => true end.
Definition ReportTemplateVersion_valid (t : ReportTemplateVersionWrite) : bool :=
  bool_decide (map sr_section (tp_section_rules t) = tp_section_keys t)
  && bool_decide (NoDup (tp_section_keys t)) && between 1 16 (Z.of_nat (length (tp_section_keys t)))
  && between 1 100 (Z.of_nat (length (tp_statement_patterns t)))
  && forallb (λ p, Code_ok (sp_statement_code p) && between 1 20 (Z.of_nat (length (sp_tokens p)))
       && forallb TemplateToken_valid (sp_tokens p)) (tp_statement_patterns t)
  && at_most 20 (tp_table_columns t)
  && forallb (λ c, Code_ok (tc_column_code c) && ulen_between 1 80 (tc_label c)) (tp_table_columns t)
  && Checksum_ok (tp_checksum t).

Definition token_json (t : TemplateToken) : pjson :=
  PObj [(ulit "literal", j_opt PStr (tk_literal t));
        (ulit "placeholder", j_opt (λ p, j_str (Plc.value p)) (tk_placeholder t))].
(** The template without its id, time and checksum. *)
Definition template_basis (t : ReportTemplateVersionWrite) : pjson :=
  PObj [(ulit "name", j_str (tp_name t)); (ulit "version", j_str (tp_version t));
    (ulit "report_type", j_str (RepType.value (tp_report_type t)));
    (ulit "locale", j_str (RepLocale.value (tp_locale t)));
    (ulit "section_keys", PList (map (λ s, j_str (RepSec.value s)) (tp_section_keys t)));
    (ulit "section_rules", PList (map (λ r,
       PObj [(ulit "section", j_str (RepSec.value (sr_section r))); (ulit "required", PBool (sr_required r));
             (ulit "allow_empty_state", PBool (sr_allow_empty_state r))]) (tp_section_rules t)));
    (ulit "statement_patterns", PList (map (λ p,
       PObj [(ulit "statement_code", j_str (sp_statement_code p));
             (ulit "tokens", PList (map token_json (sp_tokens p)))]) (tp_statement_patterns t)));
    (ulit "table_columns", PList (map (λ c,
       PObj [(ulit "column_code", j_str (tc_column_code c)); (ulit "label", PStr (tc_label c));
             (ulit "value_placeholder", j_str (Plc.value (tc_value_placeholder c)))]) (tp_table_columns t)));
    (ulit "citation_style", j_str "BRACKETED_NUMERIC");
    (ulit "template_schema_version", j_str (tp_template_schema_version t));
    (ulit "status", j_str (TplSt.value (tp_status t)))].
Definition _template_checksum (t : ReportTemplateVersionWrite) : res string :=
  report_checksum (template_basis t).

(** [_build_template] *)
Definition _build_template (report_type : ReportType) (locale : ReportLocale) :
    res ReportTemplateVersionWrite :=
  let local (zh en : string) := utext match locale with RepLocale.ZH_CN => zh | RepLocale.EN_US => en end in
  let rules := map (λ s, mkRule s (bool_decide (s ∈ [RepSec.DATA_QUALITY; RepSec.LIMITATIONS])) true)
    RepSec.all in
  let patterns :=
    [mkPattern "SECURITY_IDENTITY"
       [literal (local "证券：" "Security: "); placeholder Plc.OFFICIAL_SECURITY_NAME;
        literal (local "（" " ("); placeholder Plc.SYMBOL; literal (ulit " / ");
        placeholder Plc.EXCHANGE; literal (local "）" ")")];
     mkPattern "NUMERIC_CLAIM"
       [placeholder Plc.CLAIM_VALUE; literal (ulit " "); placeholder Plc.CLAIM_UNIT;
        literal (local "，期间：" ", period: "); placeholder Plc.CLAIM_PERIOD; literal (ulit " ");
        placeholder Plc.VISIBLE_REFERENCE]] ++ _fixed_disclosure_patterns locale in
  let columns := [mkColumn "VALUE" (local "数值" "Value") Plc.CLAIM_VALUE;
                  mkColumn "PERIOD" (local "期间" "Period") Plc.CLAIM_PERIOD] in
  let basis := mkTemplate (ToolRun.casefold (RepType.value report_type)) "1.0.0" report_type locale
    RepSec.all rules patterns columns "report-template-v1" "" TplSt.ACTIVE in
  checksum ← _template_checksum basis;
  validated ReportTemplateVersion_valid
    (mkTemplate (tp_name basis) (tp_version basis) report_type locale RepSec.all rules patterns columns
       "report-template-v1" checksum TplSt.ACTIVE).

(** [build_default_template_writes] *)
Definition build_default_template_writes : res (list ReportTemplateVersionWrite) :=
  res_map (λ p : ReportType * ReportLocale, _build_template p.1 p.2)
    (t ← RepType.all; l ← RepLocale.all; [(t, l)]).

(** * Policies (policies.py, reflection_policy.py) *)

Definition REPORT_POLICY_VERSION : string := "verifiable-report-policy-v1".
Definition RUNTIME_REFLECTION_POLICY_VERSION : string := "runtime-report-reflection-v1".
Definition j_enums {A} (value : A → string) (l : list A) : pjson := PList (map (λ x, j_str (value x)) l).
Definition policy_definition (p : ReportPolicyRecord) : pjson :=
  PObj ([(ulit "allowed_report_types", j_enums RepType.value (rp_allowed_report_types p));
         (ulit "allowed_locales", j_enums RepLocale.value (rp_allowed_locales p));
         (ulit "allowed_sections", j_enums RepSec.value (rp_allowed_sections p))]
    ++ map (λ k, (ulit k, PBool true))
         ["include_unsupported_claims"; "include_conflicting_claims"; "include_blocked_capabilities";
          "include_data_quality"; "include_limitations"; "require_claim_binding";
          "require_evidence_binding"; "require_valid_document_citation"]
    ++ map (λ k, (ulit k, PBool false))
         ["allow_synthetic_evidence"; "allow_unknown_published_at"; "allow_model_narrative";
          "allow_model_reflection"]
    ++ map (λ kv : string * Z, (ulit kv.1, PInt kv.2))
         [("max_report_blocks", rp_max_report_blocks p); ("max_claims_per_block", rp_max_claims_per_block p);
          ("max_citations_per_block", rp_max_citations_per_block p);
          ("max_excerpt_length", rp_max_excerpt_length p);
          ("max_reflection_rounds", rp_max_reflection_rounds p);
          ("max_revision_rounds", rp_max_revision_rounds p)]).
(** [build_default_report_policy] *)
Definition build_default_report_policy : res ReportPolicyRecord :=
  let policy c := mkReportPolicy REPORT_POLICY_VERSION c RepType.all RepLocale.all RepSec.all
    300 20 20 1000 2 1 in
  policy <$> report_checksum (policy_definition (policy "")).
(** [build_default_runtime_reflection_policy] *)
Definition build_default_runtime_reflection_policy : res RuntimeReflectionPolicyRecord :=
  checksum ← report_checksum (PObj [(ulit "required_checks", j_enums Chk.value Chk.all);
    (ulit "severity_threshold", j_str (Sev.value Sev.HIGH)); (ulit "max_reflection_rounds", PInt 2);
    (ulit "max_revision_rounds", PInt 1); (ulit "allow_model_reflection", PBool false);
    (ulit "require_release_gate", PBool true)]);
  Ok (mkReflectionPolicy RUNTIME_REFLECTION_POLICY_VERSION checksum Chk.all).

(** * The reference tables and their seeding *)

Record reference_db := mkReferenceDb {
  rd_templates : list ReportTemplateVersionRecord; rd_policies : list ReportPolicyRecord;
  rd_reflection_policies : list RuntimeReflectionPolicyRecord }.
Definition get_template (db : reference_db) (name version : string) (locale : ReportLocale) :
    option ReportTemplateVersionRecord :=
  find (λ t : ReportTemplateVersionRecord, bool_decide (tp_name t = name)
    && bool_decide (tp_version t = version) && bool_decide (tp_locale t = locale)) (rd_templates db).
Definition get_policy (db : reference_db) (version : string) : option ReportPolicyRecord :=
  find (λ p, bool_decide (rp_version p = version)) (rd_policies db).
Definition get_runtime_reflection_policy (db : reference_db) (version : string) :
    option RuntimeReflectionPolicyRecord :=
  find (λ p, bool_decide (rfp_version p = version)) (rd_reflection_policies db).

(** [add_template]: one row for each name, version and locale. *)
Definition add_template (db : reference_db) (id : UUID) (now : time) (t : ReportTemplateVersionWrite) :
    res (reference_db * ReportTemplateVersionRecord) :=
  reject_if (is_some (get_template db (tp_name t) (tp_version t) (tp_locale t))) IntegrityError
    "uq_report_template_versions_identity";;
  reject_if (bool_decide (id ∈ map tp_id (rd_templates db))) IntegrityError
    "pk_report_template_versions";;
  let row := mkTemplateRecord t id now in
  Ok (mkReferenceDb (rd_templates db ++ [row]) (rd_policies db) (rd_reflection_policies db), row).
Definition add_policy (db : reference_db) (p : ReportPolicyRecord) : res reference_db :=
  reject_if (is_some (get_policy db (rp_version p))) IntegrityError "uq_report_policies_version";;
  Ok (mkReferenceDb (rd_templates db) (rd_policies db ++ [p]) (rd_reflection_policies db)).
Definition add_runtime_reflection_policy (db : reference_db) (p : RuntimeReflectionPolicyRecord) :
    res reference_db :=
  reject_if (is_some (get_runtime_reflection_policy db (rfp_version p))) IntegrityError
    "uq_runtime_reflection_policies_version";;
  Ok (mkReferenceDb (rd_templates db) (rd_policies db) (rd_reflection_policies db ++ [p])).

(** [ReportTemplateSeedService.seed_v1]: the records and how many are new. *)
Fixpoint seed_templates (uuid4 : nat → UUID) (now : time) (db : reference_db) (n : nat)
    (l : list ReportTemplateVersionWrite) : res (reference_db * list ReportTemplateVersionRecord * Z) :=
  match l with
  | [] => Ok (db, [], 0)
  | t :: l =>
      match get_template db (tp_name t) (tp_version t) (tp_locale t) with
      | Some existing =>
          reject_if (negb (bool_decide (tp_write existing = t))) (NamedError "ReportTemplateError")
            "REPORT_TEMPLATE_VERSION_CONFLICT";;
          x ← seed_templates uuid4 now db n l;
          Ok (x.1.1, existing :: x.1.2, x.2)
      | None =>
          r ← add_template db (uuid4 n) now t;
          x ← seed_templates uuid4 now r.1 (S n) l;
          Ok (x.1.1, r.2 :: x.1.2, x.2 + 1)
      end
  end.
Definition template_seed_v1 (uuid4 : nat → UUID) (now : time) (db : reference_db) :
    res (reference_db * list ReportTemplateVersionRecord * Z) :=
  writes ← build_default_template_writes; seed_templates uuid4 now db 0 writes.

(** The two policy seeds: the policy, and whether it is new. *)
Definition policy_seed_v1 (db : reference_db) : res (reference_db * ReportPolicyRecord * bool) :=
  expected ← build_default_report_policy;
  match get_policy db (rp_version expected) with
  | Some existing =>
      reject_if (negb (bool_decide (existing = expected))) (NamedError "ReportPolicyError")
        "REPORT_POLICY_VERSION_CONFLICT";;
      Ok (db, existing, false)
  | None => db' ← add_policy db expected; Ok (db', expected, true)
  end.
Definition reflection_policy_seed_v1 (db : reference_db) :
    res (reference_db * RuntimeReflectionPolicyRecord * bool) :=
  expected ← build_default_runtime_reflection_policy;
  match get_runtime_reflection_policy db (rfp_version expected) with
  | Some existing =>
      reject_if (negb (bool_decide (existing = expected))) (NamedError "RuntimeReflectionPolicyError")
        "RUNTIME_REFLECTION_POLICY_VERSION_CONFLICT";;
      Ok (db, existing, false)
  | None => db' ← add_runtime_reflection_policy db expected; Ok (db', expected, true)
  end.
End Templates.

(** * Section skeletons (sections.py) *)

Record ReportSectionDraft := mkSectionDraft {
  sd_section : ReportSection; sd_section_index : Z; sd_title : ustr; sd_status : ReportSectionStatus;
  sd_required : bool }.

(** [_title] *)
Definition _EN_TITLES (s : ReportSection) : string :=
  match s with
  | RepSec.RESEARCH_SCOPE => "Research Scope" | RepSec.SECURITY_IDENTITY => "Security Identity"
  | RepSec.DATA_AVAILABILITY => "Data Availability" | RepSec.FINANCIAL_HEALTH => "Financial Health"
  | RepSec.VALUATION_SNAPSHOT => "Valuation Snapshot" | RepSec.DOCUMENT_EVIDENCE => "Document Evidence"
  | RepSec.CATALYST_EVIDENCE => "Catalyst Evidence" | RepSec.RISK_EVIDENCE => "Risk Evidence"
  | RepSec.CORPORATE_ACTIONS => "Corporate Actions" | RepSec.DATA_QUALITY => "Data Quality"
  | RepSec.CONFLICTS => "Conflicts" | RepSec.UNSUPPORTED_CLAIMS => "Unsupported Claims"
  | RepSec.LIMITATIONS => "Limitations" | RepSec.CLAIM_INDEX => "Claim Index"
  | RepSec.EVIDENCE_APPENDIX => "Evidence Appendix" | RepSec.CITATION_APPENDIX => "Citation Appendix"
  end.
Definition _ZH_TITLES (s : ReportSection) : string :=
  match s with
  | RepSec.RESEARCH_SCOPE => "研究范围" | RepSec.SECURITY_IDENTITY => "证券身份"
  | RepSec.DATA_AVAILABILITY => "数据可用性" | RepSec.FINANCIAL_HEALTH => "财务健康"
  | RepSec.VALUATION_SNAPSHOT => "估值快照" | RepSec.DOCUMENT_EVIDENCE => "文档证据"
  | RepSec.CATALYST_EVIDENCE => "催化剂证据" | RepSec.RISK_EVIDENCE => "风险证据"
  | RepSec.CORPORATE_ACTIONS => "公司行动" | RepSec.DATA_QUALITY => "数据质量"
  | RepSec.CONFLICTS => "冲突" | RepSec.UNSUPPORTED_CLAIMS => "未支持声明"
  | RepSec.LIMITATIONS => "限制" | RepSec.CLAIM_INDEX => "声明索引"
  | RepSec.EVIDENCE_APPENDIX => "证据附录" | RepSec.CITATION_APPENDIX => "引用附录"
  end.
Definition section_title (s : ReportSection) (locale : ReportLocale) : ustr :=
  utext match locale with RepLocale.ZH_CN => _ZH_TITLES s | RepLocale.EN_US => _EN_TITLES s end.

(** [ResearchSection(section.value)] *)
Definition research_section (s : ReportSection) : option ResearchSection :=
  find (λ r, bool_decide (RSection.value r = RepSec.value s)) RSection.all.
(** [_status]; the dictionary of states keeps the last of a section. *)
Definition section_status (s : ReportSection) (m : ReportInputManifest) : ReportSectionStatus :=
  if bool_decide (s = RepSec.RESEARCH_SCOPE) then RepSecSt.COMPLETE
  else match research_section s with
  | None =>
      if bool_decide (s ∈ [RepSec.CONFLICTS; RepSec.UNSUPPORTED_CLAIMS]) then RepSecSt.NO_EVIDENCE
      else RepSecSt.NOT_REQUESTED
  | Some r =>
      match find (λ x, bool_decide (ss_section x = r)) (rev (mf_section_states m)) with
      | None =>
          if bool_decide (s = RepSec.LIMITATIONS) && negb (bool_decide (mf_blocked_capabilities m = []))
          then RepSecSt.BLOCKED
          else if bool_decide (s ∈ [RepSec.DATA_QUALITY; RepSec.LIMITATIONS]) then RepSecSt.NO_EVIDENCE
          else RepSecSt.NOT_REQUESTED
      | Some x =>
          match ss_status x with
          | SecStatus.PASS => RepSecSt.COMPLETE
          | SecStatus.PARTIAL => RepSecSt.PARTIAL
          | SecStatus.BLOCKED => RepSecSt.BLOCKED
          | SecStatus.NO_EVIDENCE => RepSecSt.NO_EVIDENCE
          | SecStatus.NOT_REQUESTED => RepSecSt.NOT_REQUESTED
          end
      end
  end.

Definition ReportSectionDraft_valid (d : ReportSectionDraft) : bool :=
  between 0 15 (sd_section_index d) && ulen_between 1 160 (sd_title d).
(** [build_sections]; [rules[section]] is there in every valid template. *)
Definition build_sections (t : ReportTemplateVersionWrite) (m : ReportInputManifest) :
    res (list ReportSectionDraft) :=
  res_map (λ x : Z * ReportSection,
    match find (λ r, bool_decide (sr_section r = x.2)) (rev (tp_section_rules t)) with
    | None => raise KeyError (RepSec.value x.2)
    | Some rule =>
        validated ReportSectionDraft_valid
          (mkSectionDraft x.2 x.1 (section_title x.2 (tp_locale t)) (section_status x.2 m) (sr_required rule))
    end) (zip (seqZ 0 (Z.of_nat (length (tp_section_keys t)))) (tp_section_keys t)).
