(* ===== verification/ReportRender.v ===== *)
(** The deterministic renderer of a report: claims become blocks of the sections
    their support puts them in, with the seed references they cite
    (domain/reports/rendering.py). *)
From S2P Require Import Prelude PyDecimal PyText Sha256 AgentModel RunControl ToolRun PyParse Ledger Claims.
From S2P Require Import Text DocModel Citations.
From S2P Require Import ReportModel ReportText ReportInput ReportTemplate.

Definition RENDERER_VERSION : string := "deterministic-report-renderer-v1".
Definition render_error {A} : string → res A := raise (NamedError "ReportRenderError").
Definition render_error_if (b : bool) (code : string) : res unit :=
  if b then render_error code else Ok tt.

Record ReportRequestRecord := mkReportRequest {
  rt_id : UUID; rt_manifest : ReportInputManifest; rt_report_type : ReportType;
  rt_report_locale : ReportLocale; rt_template_name : string; rt_template_version : string;
  rt_report_policy_version : string; rt_reflection_policy_version : string;
  rt_requested_sections : list ReportSection; rt_include_evidence_appendix : bool;
  rt_include_claim_index : bool; rt_max_excerpt_length : Z; rt_idempotency_key : string;
  rt_created_at : time }.

(** [_validate_configuration]; the policy contract has no model narrative. *)
Definition _validate_configuration (m : ReportInputManifest) (request : ReportRequestRecord)
    (policy : ReportPolicyRecord) (template : ReportTemplateVersionWrite) : res unit :=
  render_error_if (neqb (rt_manifest request) m) "REPORT_REQUEST_MANIFEST_MISMATCH";;
  render_error_if (bool_decide (rt_report_type request ∉ rp_allowed_report_types policy))
    "REPORT_TYPE_NOT_ALLOWED";;
  render_error_if (bool_decide (rt_report_locale request ∉ rp_allowed_locales policy))
    "REPORT_LOCALE_NOT_ALLOWED";;
  render_error_if (existsb (λ s, bool_decide (s ∉ rp_allowed_sections policy)) (rt_requested_sections request))
    "REPORT_SECTION_NOT_ALLOWED";;
  render_error_if (neqb (tp_status template) TplSt.ACTIVE
    || neqb (tp_report_type template) (rt_report_type request)
    || neqb (tp_locale template) (rt_report_locale request)
    || neqb (tp_name template) (rt_template_name request)
    || neqb (tp_version template) (rt_template_version request)) "REPORT_TEMPLATE_MISMATCH".

(** * Where a claim goes and how it looks *)

Definition _claim_section (c : ResearchClaimWrite) : ReportSection :=
  match cl_support_status c with
  | Some Support.CONFLICTING => RepSec.CONFLICTS
  | Some Support.UNSUPPORTED => RepSec.UNSUPPORTED_CLAIMS
  | Some Support.BLOCKED => RepSec.LIMITATIONS
  | _ =>
      match cl_claim_type c with
      | ClType.IDENTITY => RepSec.SECURITY_IDENTITY
      | ClType.FINANCIAL_FACT | ClType.FINANCIAL_METRIC => RepSec.FINANCIAL_HEALTH
      | ClType.VALUATION_METRIC => RepSec.VALUATION_SNAPSHOT
      | ClType.DOCUMENT_DISCLOSURE => RepSec.DOCUMENT_EVIDENCE
      | ClType.CORPORATE_ACTION => RepSec.CORPORATE_ACTIONS
      | ClType.DATA_QUALITY => RepSec.DATA_QUALITY
      | ClType.LIMITATION => RepSec.LIMITATIONS
      end
  end.
Definition _block_type (s : ClaimSupportStatus) : ReportBlockType :=
  match s with
  | Support.CONFLICTING => BlkType.CONFLICT
  | Support.UNSUPPORTED | Support.BLOCKED => BlkType.LIMITATION
  | Support.SUPPORTED | Support.PARTIALLY_SUPPORTED => BlkType.METRIC_TABLE
  end.
Definition _block_status (s : ClaimSupportStatus) : ReportBlockStatus :=
  match s with
  | Support.SUPPORTED => BlkSt.COMPLETE
  | Support.PARTIALLY_SUPPORTED | Support.CONFLICTING => BlkSt.PARTIAL
  | Support.UNSUPPORTED => BlkSt.NO_EVIDENCE
  | Support.BLOCKED => BlkSt.BLOCKED
  end.

(** * Seed references *)

(** The kind of reference that stands for the claim itself, not its evidence. *)
Definition disclosure_kind (s : option ClaimSupportStatus) : option ReferenceKind :=
  match s with
  | Some Support.CONFLICTING => Some RefKind.CONFLICT
  | Some (Support.UNSUPPORTED | Support.BLOCKED) => Some RefKind.LIMITATION
  | _ => None
  end.
Definition evidence_kind (e : ResearchEvidenceRecord) : ReferenceKind :=
  if bool_decide (e_evidence_type e ∈ [EvType.DERIVED_METRIC_EVIDENCE; EvType.METRIC_LINEAGE_EVIDENCE])
  then RefKind.METRIC else RefKind.EVIDENCE.

Definition evidence_link_ltb (a b : ClaimEvidenceLinkWrite) : bool :=
  strs_ltb [uuid_str (lk_evidence_id a); uuid_str (lk_id a)] [uuid_str (lk_evidence_id b); uuid_str (lk_id b)].
Definition links_of (links : list ClaimEvidenceLinkWrite) (c : ResearchClaimWrite) :
    list ClaimEvidenceLinkWrite :=
  filter (λ l, lk_claim_id l = cl_id c) links.
Definition sorted_links (links : list ClaimEvidenceLinkWrite) (c : ResearchClaimWrite) :
    list ClaimEvidenceLinkWrite :=
  sort_by evidence_link_ltb (links_of links c).

(** [_allocate_reference] *)
Definition _allocate_reference (allocated : list ReferenceTarget) (key : ReferenceKind * UUID) :
    res (list ReferenceTarget) :=
  if existsb (λ r, bool_decide (target_key r = key)) allocated then Ok allocated
  else
    let n := Z.of_nat (length (filter (λ r, tg_kind r = key.1) allocated)) + 1 in
    r ← validated (λ r, label_ok (tg_label r)) (mkTarget key.1 key.2 (numbered key.1 n));
    Ok (allocated ++ [r]).

Section Render.
Context `{UnicodeData}.
Context (evidence : list ResearchEvidenceRecord) (links : list ClaimEvidenceLinkWrite).

Definition evidence_of (id : UUID) : option ResearchEvidenceRecord := last_with e_id evidence id.

(** What a claim may cite: itself, or its evidence in the order of the ids. *)
Definition reference_keys (c : ResearchClaimWrite) : list (ReferenceKind * UUID) :=
  match disclosure_kind (cl_support_status c) with
  | Some kind => [(kind, cl_id c)]
  | None => omap (λ l, (λ e, (evidence_kind e, e_id e)) <$> evidence_of (lk_evidence_id l)) (sorted_links links c)
  end.
Definition _seed_references (claims : list ResearchClaimWrite) : res (list ReferenceTarget) :=
  res_fold _allocate_reference (concat (map reference_keys claims)) [].

(** [reference_by_id]: a record has the label it was given last. *)
Definition reference_label (references : list ReferenceTarget) (id : UUID) : option ustr :=
  tg_label <$> last_with tg_record_id references id.

Definition _claim_reference (references : list ReferenceTarget) (c : ResearchClaimWrite) : ustr :=
  let label :=
    if is_some (disclosure_kind (cl_support_status c)) then reference_label references (cl_id c)
    else head (omap (λ l, reference_label references (lk_evidence_id l)) (sorted_links links c)) in
  match label with Some label => [91] ++ label ++ [93] | None => [] end.

Definition target_json (kind : ReferenceKind) (id : UUID) (label : ustr) : pjson :=
  PObj [(ulit "kind", j_str (RefKind.value kind)); (ulit "record_id", j_uuid id); (ulit "label", PStr label)].
Definition _claim_reference_targets (references : list ReferenceTarget) (c : ResearchClaimWrite) : pjson :=
  match disclosure_kind (cl_support_status c) with
  | Some kind =>
      PList (option_list ((λ label, target_json kind (cl_id c) label) <$> reference_label references (cl_id c)))
  | None =>
      PList (take 1 (omap (λ l : ClaimEvidenceLinkWrite,
        match evidence_of (lk_evidence_id l), reference_label references (lk_evidence_id l) with
        | Some e, Some label => Some (target_json (evidence_kind e) (e_id e) label)
        | _, _ => None
        end) (sorted_links links c)))
  end.

(** [_render_pattern] *)
Definition placeholder_value (c : ResearchClaimWrite) (reference : ustr) (p : TemplatePlaceholder) :
    option ustr :=
  match p with
  | Plc.CLAIM_VALUE => Some (ulit (default "" (str_of_dec <$> cl_value c)))
  | Plc.CLAIM_UNIT => Some (ulit (default "" (cl_unit c)))
  | Plc.CLAIM_PERIOD => Some (ulit (default "" (cl_period c)))
  | Plc.CLAIM_AS_OF => Some (ulit (default "" (time_isoformat_z <$> cl_as_of_time c)))
  | Plc.VISIBLE_REFERENCE => Some reference
  | Plc.OFFICIAL_SECURITY_NAME | Plc.SYMBOL | Plc.EXCHANGE => None
  end.
Definition _render_pattern (p : StatementPattern) (c : ResearchClaimWrite) (reference : ustr) : res ustr :=
  (λ parts : list _, concat parts) <$> res_map (λ t,
    match tk_literal t, tk_placeholder t with
    | Some l, _ => Ok l
    | None, Some p =>
        match placeholder_value c reference p with
        | Some v => Ok v
        | None => render_error "REPORT_TEMPLATE_PLACEHOLDER_UNAVAILABLE"
        end
    | None, None => render_error "REPORT_TEMPLATE_PLACEHOLDER_UNAVAILABLE"
    end) (sp_tokens p).

(** * Blocks *)

(** The links of a claim whose evidence is in the bundle. *)
Definition grounded_links (c : ResearchClaimWrite) : list ClaimEvidenceLinkWrite :=
  filter (λ l, is_Some (evidence_of (lk_evidence_id l))) (links_of links c).
Definition claim_block_key (c : ResearchClaimWrite) (index : Z) : string :=
  "claim." +:+ ToolRun.casefold (cl_statement_code c) +:+ "." +:+ str_of_Z index.
Definition claim_payload (references : list ReferenceTarget) (c : ResearchClaimWrite)
    (s : ClaimSupportStatus) : payload :=
  let grounded := grounded_links c in
  [(ulit "claim_id", j_uuid (cl_id c));
   (ulit "evidence_ids", PList (map j_uuid (sort_uuid (map lk_evidence_id grounded))));
   (ulit "link_ids", PList (map j_uuid (sort_uuid (map lk_id grounded))));
   (ulit "metric_basis", j_opt j_str (cl_metric_basis c)); (ulit "period", j_opt j_str (cl_period c));
   (ulit "reference", PStr (_claim_reference references c));
   (ulit "reference_targets", _claim_reference_targets references c);
   (ulit "statement_code", j_str (cl_statement_code c)); (ulit "support_status", j_str (Support.value s));
   (ulit "unit", j_opt j_str (cl_unit c));
   (ulit "value", j_opt (λ v, j_str (str_of_dec v)) (cl_value c))].

(** [_claim_block] *)
Definition _claim_block (template : ReportTemplateVersionWrite) (references : list ReferenceTarget)
    (index : Z) (c : ResearchClaimWrite) : res StructuredReportBlock :=
  match cl_support_status c with
  | None => render_error "CLAIM_SUPPORT_STATUS_MISSING"
  | Some s =>
      match find (λ p, bool_decide (sp_statement_code p = "NUMERIC_CLAIM"))
              (rev (tp_statement_patterns template)) with
      | None => render_error "REPORT_STATEMENT_PATTERN_MISSING"
      | Some pattern =>
          text ← _render_pattern pattern c (_claim_reference references c);
          render_error_if (needs_evidence c && bool_decide (grounded_links c = []))
            "REPORT_CLAIM_EVIDENCE_BINDING_MISSING";;
          validated StructuredReportBlock_valid
            (mkBlock (claim_block_key c index) index (_block_type s) (_block_status s) (Some text)
              (claim_payload references c s))
      end
  end.
(** [ReportBlockStatus(section.status.value)] *)
Definition block_status_of (s : ReportSectionStatus) : ReportBlockStatus :=
  match s with
  | RepSecSt.COMPLETE => BlkSt.COMPLETE
  | RepSecSt.PARTIAL => BlkSt.PARTIAL
  | RepSecSt.BLOCKED => BlkSt.BLOCKED
  | RepSecSt.NO_EVIDENCE => BlkSt.NO_EVIDENCE
  | RepSecSt.NOT_REQUESTED => BlkSt.NOT_REQUESTED
  end.
(** [_empty_state_block] *)
Definition _empty_state_block (status : ReportBlockStatus) (section : ReportSection) :
    res StructuredReportBlock :=
  validated StructuredReportBlock_valid
    (mkBlock ("empty." +:+ ToolRun.casefold (RepSec.value section)) 0 BlkType.HEADING status
      (Some (ulit (BlkSt.value status))) []).

Definition section_blocks (template : ReportTemplateVersionWrite) (references : list ReferenceTarget)
    (claims : list ResearchClaimWrite) (d : ReportSectionDraft) : res (list StructuredReportBlock) :=
  match filter (λ c, _claim_section c = sd_section d) claims with
  | [] => b ← _empty_state_block (block_status_of (sd_status d)) (sd_section d); Ok [b]
  | l => res_map (λ x : Z * ResearchClaimWrite, _claim_block template references x.1 x.2)
           (zip (seqZ 0 (Z.of_nat (length l))) l)
  end.
Definition render_section (template : ReportTemplateVersionWrite) (references : list ReferenceTarget)
    (claims : list ResearchClaimWrite) (d : ReportSectionDraft) : res StructuredReportSection :=
  blocks ← section_blocks template references claims d;
  validated StructuredReportSection_valid
    (mkSection (sd_section d) (sd_section_index d) (sd_title d) (sd_status d) blocks).

(** [_mark_synthetic_content] *)
Definition marker_text : ustr := ulit "SYNTHETIC_TEST_ONLY NOT_COMPANY_EVIDENCE OFFLINE NOT_LIVE".
Definition mark_block (b : StructuredReportBlock) : StructuredReportBlock :=
  mkBlock (bk_block_key b) (bk_block_index b) (bk_block_type b) (bk_status b)
    (Some (ustrip (default [] (bk_text b) ++ [32] ++ marker_text))) (bk_payload b).
Definition mark_section (s : StructuredReportSection) : StructuredReportSection :=
  if bool_decide (se_section s = RepSec.RESEARCH_SCOPE) then
    mkSection (se_section s) (se_section_index s) (se_title s) (se_status s) (map mark_block (se_blocks s))
  else s.
Definition _mark_synthetic_content (m : ReportInputManifest) (c : StructuredReportContent) :
    StructuredReportContent :=
  if bool_decide (mf_research_mode m = RMode.SYNTHETIC_TEST_ONLY)
     && bool_decide (mf_synthetic_status m = Synth.SYNTHETIC_TEST_ONLY)
  then mkContent (co_schema_version c) (co_locale c) (map mark_section (co_sections c))
  else c.

(** [_render_content] *)
Definition _render_content (m : ReportInputManifest) (template : ReportTemplateVersionWrite)
    (references : list ReferenceTarget) (claims : list ResearchClaimWrite) : res StructuredReportContent :=
  drafts ← build_sections template m;
  sections ← res_map (render_section template references claims) drafts;
  c ← validated StructuredReportContent_valid
        (mkContent "research-report-v1" (tp_locale template) sections);
  Ok (_mark_synthetic_content m c).
End Render.

(** * The renderer *)

Record RenderedReportDraft := mkRenderedDraft {
  rd_renderer_version : string; rd_input_manifest_checksum : string;
  rd_structured_content : StructuredReportContent; rd_structured_checksum : string;
  rd_claim_ids : list UUID; rd_evidence_ids : list UUID; rd_link_ids : list UUID;
  rd_citation_ids : list UUID; rd_visible_references : list ReferenceTarget }.
Definition RenderedReportDraft_valid (d : RenderedReportDraft) : bool :=
  at_most 500 (rd_claim_ids d) && at_most 1000 (rd_evidence_ids d) && at_most 5000 (rd_link_ids d)
  && at_most 1000 (rd_citation_ids d) && at_most 5000 (rd_visible_references d).

(** Claims by statement code and id, links by claim, evidence and id. *)
Definition claim_ltb (a b : ResearchClaimWrite) : bool :=
  strs_ltb [cl_statement_code a; uuid_str (cl_id a)] [cl_statement_code b; uuid_str (cl_id b)].
Definition link_ltb (a b : ClaimEvidenceLinkWrite) : bool :=
  strs_ltb [uuid_str (lk_claim_id a); uuid_str (lk_evidence_id a); uuid_str (lk_id a)]
           [uuid_str (lk_claim_id b); uuid_str (lk_evidence_id b); uuid_str (lk_id b)].

Section Renderer.
Context `{UnicodeData}.

(** [DeterministicReportRenderer.render] *)
Definition render_report (v : VerifiedReportInput) (request : ReportRequestRecord)
    (policy : ReportPolicyRecord) (template : ReportTemplateVersionWrite) : res RenderedReportDraft :=
  verified ← validate_report_input_manifest (vi_manifest v) (vi_input v);
  let m := vi_manifest verified in
  let i := vi_input verified in
  _validate_configuration m request policy template;;
  let claims := sort_by claim_ltb (pi_claims i) in
  let links := sort_by link_ltb (pi_links i) in
  references ← _seed_references (pi_evidence i) links claims;
  seeded ← _render_content (pi_evidence i) links m template references claims;
  allocation ← ReportText.allocate seeded;
  let content := rf_content allocation in
  checksum ← report_checksum (content_json content);
  validated RenderedReportDraft_valid
    (mkRenderedDraft RENDERER_VERSION (mf_canonical_payload_checksum m) content checksum
      (map cl_id claims) (_sorted_ids (map e_id (pi_evidence i))) (sort_uuid (map lk_id links))
      (sort_uuid (mf_citation_ids m)) (rf_references allocation)).
End Renderer.
