(* ===== verification/ReportCompose.v ===== *)
(** Composition of one sealed package into a report: rendering, the bindings of
    its blocks, the claim index and the evidence appendix, and the checksums of
    the result (domain/reports/composition.py, appendices.py). *)
From S2P Require Import Prelude PyDecimal PyText Sha256 AgentModel RunControl ToolRun PyParse Ledger Claims.
From S2P Require Import Text DocModel Citations Bm25.
From S2P Require Import ReportModel ReportText ReportInput ReportTemplate ReportRender Language Reflection ReleaseGate.

(** * Bindings (composition.py) *)

(** [_status] and [_title] of the report *)
Definition report_status (s : ResearchPackageStatus) : ResearchReportStatus :=
  match s with
  | PkgStatus.COMPLETE => RepSt.DRAFT
  | PkgStatus.PARTIAL => RepSt.PARTIAL
  | PkgStatus.BLOCKED => RepSt.BLOCKED
  | PkgStatus.FAILED => RepSt.FAILED
  end.
Definition report_title (t : ReportType) (locale : ReportLocale) : ustr :=
  utext match locale, t with
  | RepLocale.ZH_CN, RepType.DATA_QUALITY_REPORT => "可验证数据质量报告"
  | RepLocale.ZH_CN, RepType.EVIDENCE_SUMMARY => "可验证证据摘要"
  | RepLocale.ZH_CN, RepType.FINANCIAL_RESEARCH_DRAFT => "可验证财务研究草稿"
  | RepLocale.ZH_CN, RepType.FULL_RESEARCH_DRAFT => "可验证研究草稿"
  | RepLocale.EN_US, RepType.DATA_QUALITY_REPORT => "Verifiable Data Quality Report"
  | RepLocale.EN_US, RepType.EVIDENCE_SUMMARY => "Verifiable Evidence Summary"
  | RepLocale.EN_US, RepType.FINANCIAL_RESEARCH_DRAFT => "Verifiable Financial Research Draft"
  | RepLocale.EN_US, RepType.FULL_RESEARCH_DRAFT => "Verifiable Research Draft"
  end.

Definition _claim_role (s : ClaimSupportStatus) : ReportClaimBindingRole :=
  match s with
  | Support.CONFLICTING => BindRole.CONTRADICTING
  | Support.UNSUPPORTED | Support.BLOCKED => BindRole.LIMITATION
  | Support.SUPPORTED | Support.PARTIALLY_SUPPORTED => BindRole.PRIMARY
  end.

(** The contracts of the three bindings (binding_schemas.py). *)
Definition ReportClaimBindingWrite_valid (b : ReportClaimBindingWrite) : bool :=
  opt_forallb (between 0 999) (rcb_sentence_index b) && opt_forallb row_key_ok (rcb_item_or_row_key b).
Definition visible_prefix (k : VisibleReferenceKind) : ustr :=
  match k with VisKind.METRIC => ulit "MET-" | VisKind.EVIDENCE => ulit "EV-" end.
Definition ReportEvidenceBindingWrite_valid (b : ReportEvidenceBindingWrite) : bool :=
  label_ok (reb_visible_reference b)
  && existsb (λ p, ustarts (reb_visible_reference b) (ulit p)) ["EV-"; "MET-"]
  && row_key_ok (reb_item_or_row_key b) && opt_forallb Checksum_ok (reb_source_checksum b)
  && ustarts (reb_visible_reference b) (visible_prefix (reb_visible_reference_kind b)).
Definition ReportCitationBindingWrite_valid (b : ReportCitationBindingWrite) : bool :=
  label_ok (rtb_visible_reference b) && ustarts (rtb_visible_reference b) (ulit "CIT-")
  && ulen_between 1 1000 (rtb_locator_summary b) && ulen_between 1 1000 (rtb_rendered_excerpt b)
  && Checksum_ok (rtb_rendered_excerpt_checksum b).

(** [citation_locator_summary]; an absent part prints as None. *)
Definition citation_locator_summary (c : CitationAnchorRecord) : ustr :=
  let num o := ulit match o with Some z => str_of_Z z | None => "None" end in
  let text o := default (ulit "None") o in
  match ca_locator_type c with
  | Loc.PDF_PAGE_RANGE => ulit "pages:" ++ num (ca_start_page c) ++ [45] ++ num (ca_end_page c)
  | Loc.HTML_ANCHOR_RANGE => ulit "html:" ++ text (ca_html_anchor c)
  | Loc.JSON_POINTER => ulit "json:" ++ text (ca_json_pointer c)
  | Loc.SECTION_RANGE =>
      ulit "section:" ++ ulit (default "None" (uuid_str <$> ca_section_id c)) ++ [58]
      ++ num (ca_start_offset c) ++ [45] ++ num (ca_end_offset c)
  | Loc.TEXT_OFFSET_RANGE => ulit "text:" ++ num (ca_start_offset c) ++ [45] ++ num (ca_end_offset c)
  end.

(** [t.strip("[]")] *)
Definition strip_brackets (t : ustr) : ustr :=
  let trim := fix go (t : ustr) := match t with
    | c :: t' => if (c =? 91) || (c =? 93) then go t' else t | [] => [] end in
  rev (trim (rev (trim t))).
(** [UUID(t)] *)
Definition read_uuid (t : ustr) : res UUID :=
  match uuid_of_text t with
  | Some u => Ok u
  | None => raise ValueError "badly formed hexadecimal UUID string"
  end.

Record block_bindings_of := mkBlockBindings {
  bb_claims : list ReportClaimBindingWrite; bb_evidence : list ReportEvidenceBindingWrite;
  bb_citations : list ReportCitationBindingWrite }.
Definition no_bindings : block_bindings_of := mkBlockBindings [] [] [].
Definition join_bindings (l : list block_bindings_of) : block_bindings_of :=
  mkBlockBindings (concat (map bb_claims l)) (concat (map bb_evidence l)) (concat (map bb_citations l)).

Section Compose.
Context `{UnicodeData} `{CharData}.

Section Bindings.
Context (report_id : UUID) (i : PersistedReportInput) (created_at : time).

Definition binding_id (role key suffix : string) : UUID :=
  uuid5 (uuid_str report_id +:+ ":" +:+ role +:+ ":" +:+ key +:+ ":" +:+ suffix).
(** The number of a citation among the sorted ids of the bundle. *)
Definition citation_label (id : UUID) : ustr :=
  match list_find (λ x, x = id) (_sorted_ids (map ca_id (pi_citations i))) with
  | Some (n, _) => numbered RefKind.CITATION (Z.of_nat n + 1)
  | None => []
  end.

Definition citation_binding (evidence_binding : UUID) (id : UUID) : res (list ReportCitationBindingWrite) :=
  match last_with ca_id (pi_citations i) id with
  | None => raise ValueError "REPORT_BLOCK_CITATION_NOT_IN_MANIFEST"
  | Some c =>
      b ← validated ReportCitationBindingWrite_valid
            (mkCitationBinding (uuid5 (uuid_str report_id +:+ ":citation-binding:" +:+ uuid_str (ca_id c)))
               evidence_binding (ca_id c) (ca_document_version_id c) (citation_label (ca_id c))
               (citation_locator_summary c) (ca_excerpt c) (ca_excerpt_checksum c) created_at);
      Ok [b]
  end.

(** The link a block names first. *)
Definition first_link (b : StructuredReportBlock) (claim_id : UUID) : res ClaimEvidenceLinkWrite :=
  match jget (bk_payload b) (ulit "link_ids") with
  | Some (PList (id :: _)) =>
      u ← read_uuid (py_str_of id);
      match last_with lk_id (pi_links i) u with
      | Some l => if neqb (lk_claim_id l) claim_id then raise ValueError "REPORT_BLOCK_LINK_NOT_IN_MANIFEST"
                  else Ok l
      | None => raise ValueError "REPORT_BLOCK_LINK_NOT_IN_MANIFEST"
      end
  | _ => raise ValueError "REPORT_BLOCK_LINK_NOT_IN_MANIFEST"
  end.
Definition evidence_binding (b : StructuredReportBlock) (block claim_binding claim_id : UUID) :
    res (ReportEvidenceBindingWrite * ResearchEvidenceRecord) :=
  l ← first_link b claim_id;
  match evidence_of (pi_evidence i) (lk_evidence_id l) with
  | None => raise ValueError "REPORT_BLOCK_EVIDENCE_NOT_IN_MANIFEST"
  | Some e =>
      let reference := strip_brackets (py_str_of (default (PStr []) (jget (bk_payload b) (ulit "reference")))) in
      let kind := match evidence_kind e with RefKind.METRIC => VisKind.METRIC | _ => VisKind.EVIDENCE end in
      w ← validated ReportEvidenceBindingWrite_valid
            (mkEvidenceBinding (binding_id "evidence-binding" (bk_block_key b) (uuid_str (lk_id l)))
               block claim_binding (lk_id l) (e_id e) (lk_role l) kind reference (bk_block_key b)
               (e_citation_id e) (e_source_record_id e) (e_source_checksum e) created_at);
      Ok (w, e)
  end.

(** One block in the loop of [_bindings]. *)
Definition block_bindings (b : StructuredReportBlock) : res block_bindings_of :=
  match jget (bk_payload b) (ulit "claim_id") with
  | Some (PStr raw) =>
      claim_id ← read_uuid raw;
      match c ← last_with cl_id (pi_claims i) claim_id; cl_support_status c with
      | None => raise ValueError "REPORT_BLOCK_CLAIM_NOT_IN_MANIFEST"
      | Some s =>
          let block := block_id report_id (bk_block_key b) in
          claim ← validated ReportClaimBindingWrite_valid
                    (mkClaimBinding (binding_id "claim-binding" (bk_block_key b) (uuid_str claim_id))
                       block claim_id (_claim_role s) None (Some (bk_block_key b)) created_at);
          if bool_decide (rcb_role claim = BindRole.LIMITATION) then Ok (mkBlockBindings [claim] [] [])
          else
            we ← evidence_binding b block (rcb_id claim) claim_id;
            citations ← match e_citation_id we.2 with
                        | None => Ok []
                        | Some id => citation_binding (reb_id we.1) id
                        end;
            Ok (mkBlockBindings [claim] [we.1] citations)
      end
  | _ => Ok no_bindings
  end.
Definition _bindings (content : StructuredReportContent) : res block_bindings_of :=
  join_bindings <$> res_map block_bindings (blocks_of content).
End Bindings.

(** * Appendices (appendices.py) *)

Definition appendix_error {A} : string → res A := raise (NamedError "ReportAppendixError").
Definition appendix_error_if (b : bool) (code : string) : res unit :=
  if b then appendix_error code else Ok tt.

(** [ReportBlockDraft] of an appendix: its checksum is taken and then dropped. *)
Definition appendix_block (key : string) (type : ReportBlockType) (status : ReportBlockStatus)
    (rows : list pjson) (location : string) : res StructuredReportBlock :=
  let b := mkBlock key 0 type status None [(ulit "rows", PList rows)] in
  _ ← report_checksum (PObj [(ulit "block_key", j_str key); (ulit "block_index", PInt 0);
        (ulit "block_type", j_str (BlkType.value type)); (ulit "status", j_str (BlkSt.value status));
        (ulit "text", PNull); (ulit "payload", PObj (bk_payload b));
        (ulit "factual_location_key", j_str location)]);
  validated StructuredReportBlock_valid b.

(** [_used_claim_ids]: each claim at its first block. *)
Fixpoint used_claim_ids (seen : list UUID) (blocks : list StructuredReportBlock) : res (list UUID) :=
  match blocks with
  | [] => Ok []
  | b :: blocks =>
      match jget (bk_payload b) (ulit "claim_id") with
      | None | Some PNull => used_claim_ids seen blocks
      | Some raw =>
          match uuid_of_text (py_str_of raw) with
          | None => appendix_error "CLAIM_INDEX_CLAIM_ID_INVALID"
          | Some id =>
              if bool_decide (id ∈ seen) then used_claim_ids seen blocks
              else l ← used_claim_ids (id :: seen) blocks; Ok (id :: l)
          end
      end
  end.
Definition _used_claim_ids (c : StructuredReportContent) : res (list UUID) := used_claim_ids [] (blocks_of c).
Definition _claim_classification (s : ClaimSupportStatus) : string :=
  match s with Support.PARTIALLY_SUPPORTED => "PARTIAL" | _ => Support.value s end.

Definition claim_index_row (claims : list ResearchClaimWrite) (bindings : list ReportClaimBindingWrite)
    (id : UUID) : res pjson :=
  match find (λ c, bool_decide (cl_id c = id)) claims with
  | None => appendix_error "CLAIM_INDEX_CLAIM_MISSING"
  | Some c =>
      appendix_error_if (bool_decide (id ∉ map rcb_claim_id bindings)) "CLAIM_INDEX_BINDING_MISSING";;
      match cl_support_status c with
      | None => appendix_error "CLAIM_INDEX_SUPPORT_STATUS_MISSING"
      | Some s =>
          Ok (PObj [(ulit "claim_id", j_uuid (cl_id c)); (ulit "statement_code", j_str (cl_statement_code c));
                    (ulit "claim_type", j_str (ClType.value (cl_claim_type c)));
                    (ulit "support_status", j_str (Support.value s));
                    (ulit "classification", j_str (_claim_classification s))])
      end
  end.
(** [build_claim_index] *)
Definition build_claim_index (c : StructuredReportContent) (claims : list ResearchClaimWrite)
    (bindings : list ReportClaimBindingWrite) : res StructuredReportBlock :=
  appendix_error_if (negb (bool_decide (NoDup (map cl_id claims)))) "CLAIM_INDEX_DUPLICATE_CLAIM";;
  used ← _used_claim_ids c;
  rows ← res_map (claim_index_row claims bindings) used;
  let supported id := existsb (λ c, bool_decide (cl_id c = id)
    && bool_decide (cl_support_status c = Some Support.SUPPORTED)) claims in
  appendix_block "appendix.claim_index" BlkType.CLAIM_INDEX
    (if forallb supported used then BlkSt.COMPLETE else BlkSt.PARTIAL) rows "claim_index.rows".

Record EvidenceAppendixBindingView := mkView {
  vw_visible_reference : ustr; vw_claim : ResearchClaimWrite; vw_claim_binding : ReportClaimBindingWrite;
  vw_evidence : option ResearchEvidenceRecord; vw_evidence_binding : option ReportEvidenceBindingWrite }.
Definition EvidenceAppendixBindingView_valid (v : EvidenceAppendixBindingView) : bool :=
  label_ok (vw_visible_reference v) && negb (ustarts (vw_visible_reference v) (ulit "CIT-")).

(** [_evidence_reference_order] *)
Definition _evidence_reference_order (v : EvidenceAppendixBindingView) : Z * Z :=
  let t := vw_visible_reference v in
  let prefix := fst <$> find (λ kn : string * Z, ustarts t (ulit kn.1)) [("EV-", 0); ("MET-", 1); ("LIM-", 2); ("CON-", 3)] in
  let rank := match prefix with Some "EV-" => 0 | Some "MET-" => 1 | Some "LIM-" => 2 | _ => 3 end in
  (rank, fold_left (λ n c, n * 10 + (c - 48)) (drop (length t - 3) t) 0).
Definition order_ltb (a b : EvidenceAppendixBindingView) : bool :=
  let x := _evidence_reference_order a in
  let y := _evidence_reference_order b in
  (x.1 <? y.1) || ((x.1 =? y.1) && (x.2 <? y.2)).

(** [_evidence_row] *)
Definition check_view (m : ReportInputManifest) (v : EvidenceAppendixBindingView) : res unit :=
  let c := vw_claim v in
  appendix_error_if (bool_decide (cl_id c ∉ mf_claim_ids m)) "EVIDENCE_APPENDIX_CLAIM_NOT_IN_MANIFEST";;
  appendix_error_if (neqb (rcb_claim_id (vw_claim_binding v)) (cl_id c))
    "EVIDENCE_APPENDIX_CLAIM_BINDING_MISMATCH";;
  if existsb (λ p, ustarts (vw_visible_reference v) (ulit p)) ["EV-"; "MET-"] then
    match vw_evidence v, vw_evidence_binding v with
    | Some e, Some b =>
        appendix_error_if (bool_decide (e_id e ∉ mf_evidence_ids m))
          "EVIDENCE_APPENDIX_EVIDENCE_NOT_IN_MANIFEST";;
        appendix_error_if (neqb (reb_evidence_id b) (e_id e)
          || neqb (reb_report_claim_binding_id b) (rcb_id (vw_claim_binding v)))
          "EVIDENCE_APPENDIX_BINDING_MISMATCH";;
        appendix_error_if (neqb (reb_visible_reference b) (vw_visible_reference v))
          "EVIDENCE_APPENDIX_REFERENCE_MISMATCH";;
        appendix_error_if (neqb (e_security_id e) (mf_security_id m)
          || neqb (e_snapshot_id e) (mf_snapshot_id m)
          || neqb (e_research_as_of_time e) (mf_research_as_of_time m))
          "EVIDENCE_APPENDIX_CONTEXT_MISMATCH"
    | _, _ => appendix_error "EVIDENCE_APPENDIX_BINDING_MISSING"
    end
  else appendix_error_if (is_some (vw_evidence v) || is_some (vw_evidence_binding v))
         "EVIDENCE_APPENDIX_DISCLOSURE_HAS_EVIDENCE".
Definition evidence_row (v : EvidenceAppendixBindingView) : pjson :=
  let c := vw_claim v in
  let ev_get {A} (f : ResearchEvidenceRecord → option A) : option A := e ← vw_evidence v; f e in
  PObj [(ulit "reference", PStr (vw_visible_reference v)); (ulit "claim_id", j_uuid (cl_id c));
    (ulit "evidence_id", j_opt j_uuid (e_id <$> vw_evidence v));
    (ulit "statement_code", j_str (cl_statement_code c));
    (ulit "value", j_opt (λ x, j_str (str_of_dec x)) (cl_value c)); (ulit "unit", j_opt j_str (cl_unit c));
    (ulit "currency_code", j_opt j_str (cl_currency_code c)); (ulit "period", j_opt j_str (cl_period c));
    (ulit "as_of_time", j_opt j_time (cl_as_of_time c));
    (ulit "source_record_type", j_opt j_str (ev_get e_source_record_type));
    (ulit "source_record_id", j_opt j_uuid (ev_get e_source_record_id));
    (ulit "source_checksum", j_opt j_str (ev_get e_source_checksum));
    (ulit "calculation_run_id", j_opt j_uuid (ev_get e_calculation_run_id));
    (ulit "calculation_input_ids", PList (map j_uuid (default [] (e_calculation_input_ids <$> vw_evidence v))));
    (ulit "formula_version", j_opt j_str (ev_get e_formula_version));
    (ulit "support_status", j_opt (λ s, j_str (Support.value s)) (cl_support_status c));
    (ulit "evidence_status", j_opt (λ e, j_str (EvStatus.value (e_status e))) (vw_evidence v))].
Definition _evidence_row (m : ReportInputManifest) (v : EvidenceAppendixBindingView) : res pjson :=
  check_view m v;; Ok (evidence_row v).

(** [build_evidence_appendix] *)
Definition view_complete (v : EvidenceAppendixBindingView) : bool :=
  bool_decide (cl_support_status (vw_claim v) = Some Support.SUPPORTED)
  && bool_decide (e_status <$> vw_evidence v = Some EvStatus.VALID).
Definition build_evidence_appendix (m : ReportInputManifest) (views : list EvidenceAppendixBindingView) :
    res StructuredReportBlock :=
  let ordered := sort_by order_ltb views in
  appendix_error_if (negb (bool_decide (NoDup (map vw_visible_reference ordered))))
    "EVIDENCE_APPENDIX_REFERENCE_DUPLICATE";;
  rows ← res_map (_evidence_row m) ordered;
  appendix_block "appendix.evidence" BlkType.EVIDENCE_TABLE
    (if forallb view_complete ordered then BlkSt.COMPLETE else BlkSt.PARTIAL) rows "evidence_appendix.rows".

(** * The appended content (composition.py) *)

Definition appendix_view (i : PersistedReportInput) (references : list ReferenceTarget)
    (evidence_bindings : list ReportEvidenceBindingWrite) (b : ReportClaimBindingWrite) :
    res EvidenceAppendixBindingView :=
  c ← require_some (last_with cl_id (pi_claims i) (rcb_claim_id b)) KeyError (uuid_str (rcb_claim_id b));
  match last_with reb_report_claim_binding_id evidence_bindings (rcb_id b) with
  | None =>
      label ← require_some (reference_label references (cl_id c)) KeyError (uuid_str (cl_id c));
      validated EvidenceAppendixBindingView_valid (mkView label c b None None)
  | Some eb =>
      e ← require_some (last_with e_id (pi_evidence i) (reb_evidence_id eb)) KeyError
            (uuid_str (reb_evidence_id eb));
      validated EvidenceAppendixBindingView_valid (mkView (reb_visible_reference eb) c b (Some e) (Some eb))
  end.
(** A section replaced by one block, with the status of the block. *)
Definition section_status_of_block (s : ReportBlockStatus) : ReportSectionStatus :=
  match s with
  | BlkSt.COMPLETE => RepSecSt.COMPLETE
  | BlkSt.PARTIAL => RepSecSt.PARTIAL
  | BlkSt.BLOCKED => RepSecSt.BLOCKED
  | BlkSt.NO_EVIDENCE => RepSecSt.NO_EVIDENCE
  | BlkSt.NOT_REQUESTED => RepSecSt.NOT_REQUESTED
  end.
Definition replace_section (replacements : list (ReportSection * StructuredReportBlock))
    (s : StructuredReportSection) : StructuredReportSection :=
  match find (λ r, bool_decide (r.1 = se_section s)) replacements with
  | Some (_, b) =>
      mkSection (se_section s) (se_section_index s) (se_title s) (section_status_of_block (bk_status b)) [b]
  | None => s
  end.
(** [_with_appendices] *)
Definition _with_appendices (c : StructuredReportContent) (v : VerifiedReportInput)
    (request : ReportRequestRecord) (bindings : block_bindings_of) : res StructuredReportContent :=
  let i := vi_input v in
  let bound := negb (bool_decide (bb_claims bindings = [])) in
  index ← (if rt_include_claim_index request && bound then
             b ← build_claim_index c (pi_claims i) (bb_claims bindings); Ok [(RepSec.CLAIM_INDEX, b)]
           else Ok []);
  appendix ← (if rt_include_evidence_appendix request && bound then
                a ← ReportText.allocate c;
                views ← res_map (appendix_view i (rf_references a) (bb_evidence bindings)) (bb_claims bindings);
                b ← build_evidence_appendix (vi_manifest v) views;
                Ok [(RepSec.EVIDENCE_APPENDIX, b)]
              else Ok []);
  Ok (mkContent (co_schema_version c) (co_locale c) (map (replace_section (index ++ appendix)) (co_sections c))).

(** * The report *)

(** A report of some content: its Markdown and the checksums of both. *)
Definition project (r : ResearchReportRecord) (content : StructuredReportContent) (structured : string) :
    res ResearchReportRecord :=
  rendered ← ReportText.render content;
  a ← ReportText.allocate content;
  markdown ← markdown_checksum (rm_markdown_content rendered);
  combined ← combined_report_checksum structured markdown (checksum_context content r (rf_references a));
  Ok (mkReport (rr_id r) (rr_report_generation_run_id r) (rr_report_version r) (rr_previous_report_id r)
    (rr_report_type r) (rr_report_locale r) (rr_status r) (rr_title r) (rr_subtitle r) (rr_security_id r)
    (rr_snapshot_id r) (rr_research_as_of_time r) (rr_research_package_id r) (rr_input_manifest_checksum r)
    (rr_package_checksum r) content (rm_markdown_content rendered) structured markdown combined
    (rr_claim_set_checksum r) (rr_evidence_set_checksum r) (rr_link_set_checksum r)
    (rr_citation_set_checksum r) (rr_renderer_version r) (rr_template_name r) (rr_template_version r)
    (rr_created_at r)).
(** The fields of the report that do not depend on its content. *)
Definition report_frame (m : ReportInputManifest) (request : ReportRequestRecord)
    (template : ReportTemplateVersionWrite) (report_id run_id : UUID) (created_at : time) (renderer : string)
    (content : StructuredReportContent) : ResearchReportRecord :=
  mkReport report_id run_id 1 None (rt_report_type request) (rt_report_locale request)
    (report_status (mf_package_status m)) (report_title (rt_report_type request) (rt_report_locale request))
    None (mf_security_id m) (mf_snapshot_id m) (mf_research_as_of_time m) (mf_research_package_id m)
    (mf_canonical_payload_checksum m) (mf_package_checksum m) content [] "" "" ""
    (mf_claims_checksum m) (mf_evidence_checksum m) (mf_links_checksum m) (mf_citations_checksum m)
    renderer (tp_name template) (tp_version template) created_at.

(** [DeterministicReportCompositionService.compose] *)
Definition compose (v : VerifiedReportInput) (request : ReportRequestRecord) (policy : ReportPolicyRecord)
    (template : ReportTemplateVersionWrite) (report_id generation_run_id : UUID) (created_at : time) :
    res ResearchReportAggregate :=
  draft ← render_report v request policy template;
  let content := rd_structured_content draft in
  first ← project (report_frame (vi_manifest v) request template report_id generation_run_id created_at
                     (rd_renderer_version draft) content) content (rd_structured_checksum draft);
  report ← validated ResearchReportRecord_valid first;
  bindings ← _bindings report_id (vi_input v) created_at content;
  appended ← _with_appendices content v request bindings;
  if content_eqb appended content then
    new_aggregate (mkAggregate report (bb_claims bindings) (bb_evidence bindings) (bb_citations bindings))
  else
    structured ← structured_report_checksum appended;
    final ← project report appended structured;
    rebound ← _bindings report_id (vi_input v) created_at appended;
    new_aggregate (mkAggregate final (bb_claims rebound) (bb_evidence rebound) (bb_citations rebound)).
End Compose.
