(* ===== verification/Composed.v ===== *)
(** What a composed report says: each claim of the package that the template has
    a section for stands in one block, in its section and with its value; the
    checksums and the Markdown are those of the content; and the inputs on which
    composition breaks down. *)
From S2P Require Import Prelude PyDecimal PyText Sha256 AgentModel RunControl ToolRun PyParse Ledger Claims.
From S2P Require Import Text DocModel Citations Bm25.
From S2P Require Import ReportModel ReportText ReportLabels ReportInput ReportTemplate ReportRender Language.
From S2P Require Import Reflection ReportRevise ReleaseGate ReportCompose.
From Stdlib Require Import DecimalString Ascii.

(** * Text without brackets *)

Definition no_bracket (c : ascii) : bool := negb (bool_decide (c = "["%char)).
Definition plain (s : string) : bool := str_forallb no_bracket s.
Lemma plain_ulit s : plain s = true → 91 ∉ ulit s.
Proof.
  unfold plain. induction s as [|c s IH]; cbn; [by intros _ ?%elem_of_nil|].
  intros [Hc Hs]%andb_true_iff. rewrite not_elem_of_cons. split; [|by apply IH].
  intros E. apply negb_true_iff, bool_decide_eq_false in Hc. apply Hc.
  rewrite <- (ascii_N_embedding c). replace (N_of_ascii c) with 91%N by lia. done.
Qed.
Lemma plain_app s t : plain (s +:+ t) = plain s && plain t.
Proof.
  unfold plain. induction s as [|c s IH]; [done|].
  change (String c s +:+ t) with (String c (s +:+ t)). cbn [str_forallb]. by rewrite IH, andb_assoc.
Qed.
Lemma plain_substring n m s : plain s = true → plain (String.substring n m s) = true.
Proof.
  unfold plain. revert n m. induction s as [|c s IH]; intros [|n] [|m]; cbn; try done;
    intros [Hc Hs]%andb_true_iff; [|by apply IH..]. by rewrite Hc, IH.
Qed.
Lemma plain_repeat n : plain (str_repeat n "0") = true.
Proof. induction n as [|n IH]; [done|]. exact IH. Qed.
Lemma plain_uint d : plain (NilEmpty.string_of_uint d) = true.
Proof. induction d; cbn; done. Qed.
Lemma plain_number z : plain (str_of_Z z) = true.
Proof.
  unfold str_of_Z. destruct z as [|p|p]; cbn; [done| |].
  - pose proof (plain_uint (Pos.to_uint p)). by destruct (Pos.to_uint p).
  - pose proof (plain_uint (Pos.to_uint p)). by destruct (Pos.to_uint p).
Qed.
Lemma plain_decimal d : plain (str_of_dec d) = true.
Proof.
  assert (Hp : ∀ n, plain (place_dot (str_of_Z (dcoef d)) n) = true).
  { intros n. unfold place_dot, zeros. repeat case_match; rewrite ?plain_app, ?plain_repeat, ?plain_number,
      ?plain_substring by apply plain_number; done. }
  unfold str_of_dec. cbv zeta. rewrite !plain_app, Hp. repeat case_match; rewrite ?plain_app, ?plain_number; done.
Qed.
Lemma j_str_rewritten r s : plain s = true → _rewrite_json r (j_str s) = j_str s.
Proof. intros Hs. cbn. unfold j_str. f_equal. by apply replace_plain, plain_ulit. Qed.

(** * Blocks that state claims *)

Definition block_claim (b : StructuredReportBlock) : option ustr :=
  as_text (jget (bk_payload b) (ulit "claim_id")).
Definition has_claim (b : StructuredReportBlock) : bool := is_some (block_claim b).
(** The blocks of a report with their sections. *)
Definition placed (c : StructuredReportContent) : list (ReportSection * StructuredReportBlock) :=
  concat (map (λ s, map (λ b, (se_section s, b)) (se_blocks s)) (co_sections c)).

(** A block states a claim: it names it, stands in its section, shows its
    support and carries its value. *)
Record states (kb : ReportSection * StructuredReportBlock) (c : ResearchClaimWrite) : Prop := mkStates {
  sc_claim : block_claim kb.2 = Some (ulit (uuid_str (cl_id c)));
  sc_section : kb.1 = _claim_section c;
  sc_support : ∃ s, cl_support_status c = Some s ∧ bk_block_type kb.2 = _block_type s ∧
    bk_status kb.2 = _block_status s ∧
    jget (bk_payload kb.2) (ulit "support_status") = Some (j_str (Support.value s));
  sc_value : jget (bk_payload kb.2) (ulit "value") = Some (j_opt (λ v, j_str (str_of_dec v)) (cl_value c)) }.

(** A section states exactly the claims that belong to it, in their order. *)
Definition tells (claims : list ResearchClaimWrite) (s : StructuredReportSection) : Prop :=
  Forall2 states (map (λ b, (se_section s, b)) (filter (λ b, has_claim b = true) (se_blocks s)))
    (filter (λ c, _claim_section c = se_section s) claims).

Lemma states_has_claim k b c : states (k, b) c → has_claim b = true.
Proof. intros [E _ _ _]. unfold has_claim. cbn in E. by rewrite E. Qed.
Lemma tells_of claims s l bs : l = filter (λ c, _claim_section c = se_section s) claims → se_blocks s = bs →
  Forall2 (λ c b, states (se_section s, b) c) l bs → tells claims s.
Proof.
  intros -> Eb Hf. unfold tells. rewrite Eb. clear Eb. revert Hf. generalize (filter (λ c, _claim_section c = se_section s) claims).
  intros l. induction 1 as [|c b l bs Hcb _ IH]; [constructor|].
  rewrite filter_cons_True by (by eapply states_has_claim). cbn [map]. by constructor.
Qed.

Lemma value_plain c : _claim_section c ≠ RepSec.CLAIM_INDEX ∧ _claim_section c ≠ RepSec.EVIDENCE_APPENDIX.
Proof. unfold _claim_section. destruct (cl_support_status c) as [[]|], (cl_claim_type c); done. Qed.

Lemma zip_map_Ok {A B} (f : Z * A → res B) (P : A → B → Prop) l i bs :
  (∀ x b, x.2 ∈ l → f x = Ok b → P x.2 b) →
  res_map f (zip (seqZ i (Z.of_nat (length l))) l) = Ok bs → Forall2 P l bs.
Proof.
  revert i bs. induction l as [|a l IH]; intros i bs Hf E.
  - cbn in E. injection E as <-. constructor.
  - rewrite seqZ_cons in E by (cbn; lia).
    replace (Z.pred (Z.of_nat (length (a :: l)))) with (Z.of_nat (length l)) in E by (cbn; lia).
    change (zip (i :: ?x) (a :: l)) with ((i, a) :: zip x l) in E. cbn [res_map] in E.
    apply bind_Ok in E as (b & Eb & E). apply bind_Ok in E as (bs' & Ebs & [= <-]).
    constructor; [apply (Hf (i, a)); [left|done]|]. eapply IH; [|exact Ebs].
    intros x y Hx. apply Hf. by right.
Qed.

Section Rendered.
Context `{UnicodeData}.

Lemma claim_block_states ev links template refs i c b : _claim_block ev links template refs i c = Ok b →
  states (_claim_section c, b) c.
Proof.
  unfold _claim_block. intros E. destruct (cl_support_status c) as [s|] eqn:Es; [|done].
  destruct (find _ _) as [p|]; [|done]. apply bind_Ok in E as (t & _ & E). apply seq_Ok in E as [_ E].
  apply validated_Ok in E as [-> _]. split; [done|done|by exists s|done].
Qed.
Lemma section_tells ev links template refs claims d s : render_section ev links template refs claims d = Ok s →
  tells claims s ∧ se_section s = sd_section d.
Proof.
  intros E. apply bind_Ok in E as (bs & Eb & E). apply validated_Ok in E as [-> _]. cbn. split; [|done].
  unfold section_blocks in Eb. destruct (filter _ claims) as [|c l] eqn:El.
  - apply bind_Ok in Eb as (b & [-> _]%validated_Ok & [= <-]). unfold tells. cbn [se_blocks se_section].
    rewrite El. constructor.
  - eapply tells_of; [symmetry; exact El|done|]. cbn [se_section].
    assert (Hsec : ∀ x, x ∈ c :: l → _claim_section x = sd_section d).
    { intros x Hx. rewrite <- El in Hx. by apply list_elem_of_filter in Hx as [? _]. }
    eapply zip_map_Ok; [|exact Eb]. intros x b Hx Hb. cbv beta. rewrite <- (Hsec _ Hx).
    cbv beta in Hb. exact (claim_block_states _ _ _ _ _ _ _ Hb).
Qed.

(** What keeps the statements of a section. *)
Lemma states_keep k b b' c : bk_block_type b' = bk_block_type b → bk_status b' = bk_status b →
  (∀ key, key = ulit "claim_id" ∨ key = ulit "support_status" ∨ key = ulit "value" →
     ∀ v, jget (bk_payload b) key = Some v → (v = PNull ∨ ∃ s, v = j_str s ∧ plain s = true) →
     jget (bk_payload b') key = Some v) →
  plain (uuid_str (cl_id c)) = true → states (k, b) c → states (k, b') c.
Proof.
  intros Et Es Hkeep Hp [Hc Hk (s & H1 & H2 & H3 & H4) Hv]. cbn [fst snd] in *. split; cbn [fst snd].
  - unfold block_claim in *. destruct (jget (bk_payload b) _) as [v|] eqn:E; [|done].
    destruct v; try done. injection Hc as ->.
    rewrite (Hkeep _ ltac:(tauto) _ E); [done|]. right. by eexists.
  - done.
  - exists s. rewrite Et, Es. split_and!; [done..|]. apply Hkeep; [tauto|done|].
    right. eexists. split; [done|]. by destruct s.
  - apply Hkeep; [tauto|done|]. destruct (cl_value c); [right|by left]. eexists. split; [done|apply plain_decimal].
Qed.

Context (claims : list ResearchClaimWrite) (Hplain : ∀ c, c ∈ claims → plain (uuid_str (cl_id c)) = true).

Lemma tells_keep (f : StructuredReportBlock → StructuredReportBlock) s s' :
  se_section s' = se_section s → se_blocks s' = map f (se_blocks s) →
  (∀ b, has_claim (f b) = has_claim b) →
  (∀ b c, c ∈ claims → states (se_section s, b) c → states (se_section s, f b) c) →
  tells claims s → tells claims s'.
Proof.
  unfold tells. intros Es Eb Hh Hf. rewrite Es, Eb. generalize (se_blocks s). intros bs.
  assert (Hc : ∀ c, c ∈ filter (λ c, _claim_section c = se_section s) claims → c ∈ claims)
    by (by intros c [_ ?]%list_elem_of_filter). revert Hc.
  generalize (filter (λ c, _claim_section c = se_section s) claims).
  induction bs as [|b bs IH]; intros l Hl; [done|]. cbn [map]. destruct (has_claim b) eqn:Eh.
  - rewrite filter_cons_True by done. rewrite filter_cons_True by (by rewrite Hh). cbn [map].
    inversion 1; subst. constructor; [apply Hf; [by apply Hl; left|done]|]. apply IH; [|done].
    intros c Hc. apply Hl. by right.
  - rewrite (filter_cons_False _ b) by congruence. rewrite (filter_cons_False _ (f b)) by (rewrite Hh; congruence).
    by apply IH.
Qed.
Lemma mark_tells s : tells claims s → tells claims (mark_section s).
Proof.
  unfold mark_section. case_bool_decide; [|done]. apply (tells_keep mark_block); try done.
  intros b c _. intros [? ? ? ?]. by split.
Qed.
Lemma rewritten_tells r s : tells claims s → tells claims (rewritten_section r s).
Proof.
  apply (tells_keep (rewritten_block r)); [done|done| |].
  - intros b. unfold has_claim, block_claim. cbn [rewritten_block bk_payload].
    rewrite (jget_map (λ _, _rewrite_json r)). destruct (jget _ _) as [[]|]; done.
  - intros b c Hc. apply states_keep; [done|done| |by apply Hplain].
    intros key _ v Ev Hv. cbn [rewritten_block bk_payload]. rewrite (jget_map (λ _, _rewrite_json r)), Ev. cbn.
    f_equal. destruct Hv as [->|(t & -> & Ht)]; [done|by apply j_str_rewritten].
Qed.
Lemma replace_tells reps s :
  (∀ k b, (k, b) ∈ reps → k ∈ [RepSec.CLAIM_INDEX; RepSec.EVIDENCE_APPENDIX] ∧ has_claim b = false) →
  tells claims s → tells claims (replace_section reps s).
Proof.
  intros Hr Ht. unfold replace_section. destruct (find _ reps) as [[k b]|] eqn:E; [|done].
  apply find_some in E as [Hin%list_elem_of_In E%bool_decide_eq_true]. cbn in E. subst k.
  destruct (Hr _ _ Hin) as [Hk Hb]. unfold tells. cbn [se_section se_blocks].
  rewrite filter_cons_False by (by rewrite Hb). rewrite filter_nil, list_filter_none; [constructor|].
  apply Forall_forall. intros c _ Ec. destruct (value_plain c) as [H1 H2].
  rewrite !elem_of_cons, elem_of_nil in Hk. destruct Hk as [Hk|[Hk|[]]]; congruence.
Qed.

(** The claims a report with these sections states, in the order it states them. *)
Definition stated (keys : list ReportSection) : list ResearchClaimWrite :=
  concat (map (λ k, filter (λ c, _claim_section c = k) claims) keys).
Lemma stated_perm keys : NoDup keys → stated keys ≡ₚ filter (λ c, _claim_section c ∈ keys) claims.
Proof.
  intros Hn. unfold stated. clear Hplain. induction claims as [|c l IH].
  - cbn. clear Hn. by induction keys.
  - assert (Hout : ∀ ks, _claim_section c ∉ ks →
      concat (map (λ k, filter (λ c, _claim_section c = k) (c :: l)) ks)
      = concat (map (λ k, filter (λ c, _claim_section c = k) l) ks)).
    { induction ks as [|k ks IHk]; [done|]. rewrite not_elem_of_cons. intros [H1 H2]. cbn [map concat].
      by rewrite filter_cons_False, IHk. }
    destruct (decide (_claim_section c ∈ keys)) as [Hin|Hin].
    + rewrite filter_cons_True by done. rewrite <- IH.
      apply list_elem_of_split in Hin as (a & b & ->). apply NoDup_app in Hn as (_ & Ha & [Hb _]%NoDup_cons).
      rewrite !map_app, !concat_app. cbn [map concat]. rewrite filter_cons_True by done.
      rewrite (Hout a) by (intros H'; by apply (Ha _ H'); left). rewrite (Hout b) by done.
      cbn [app]. symmetry. apply Permutation_middle.
    + rewrite filter_cons_False by done. by rewrite Hout.
Qed.

(** A content whose sections state exactly their claims. *)
Definition tells_all (c : StructuredReportContent) : Prop := Forall (tells claims) (co_sections c).
Lemma placed_states c : tells_all c →
  Forall2 states (filter (λ kb, has_claim kb.2 = true) (placed c)) (stated (map se_section (co_sections c))).
Proof.
  unfold tells_all, placed, stated. induction 1 as [|s ss Hs _ IH]; [constructor|]. cbn [map concat].
  rewrite filter_app. apply Forall2_app; [|exact IH]. unfold tells in Hs.
  replace (filter _ (map _ _)) with (map (λ b, (se_section s, b)) (filter (λ b, has_claim b = true) (se_blocks s)));
    [exact Hs|]. clear. induction (se_blocks s) as [|b bs IH]; [done|]. cbn [map].
  destruct (has_claim b) eqn:E.
  - rewrite !filter_cons_True by done. cbn [map]. by rewrite IH.
  - rewrite !filter_cons_False by (cbn; congruence). exact IH.
Qed.

Lemma tells_map (f : StructuredReportSection → StructuredReportSection) ss :
  (∀ s, tells claims s → tells claims (f s)) → Forall (tells claims) ss → Forall (tells claims) (map f ss).
Proof. intros Hf Hs. rewrite Forall_map. eapply Forall_impl; [exact Hs|exact Hf]. Qed.
Lemma same_sections (f : StructuredReportSection → StructuredReportSection) ss :
  (∀ s, se_section (f s) = se_section s) → map se_section (map f ss) = map se_section ss.
Proof. intros Hf. rewrite map_map. by apply map_ext. Qed.

Lemma drafts_sections t m ds : build_sections t m = Ok ds → map sd_section ds = tp_section_keys t.
Proof.
  unfold build_sections. generalize 0. generalize (tp_section_keys t). intros keys i E.
  apply res_map_Ok in E.
  assert (Hz : map snd (zip (seqZ i (Z.of_nat (length keys))) keys) = keys).
  { change (map snd) with (fmap (M:=list) (snd (A:=Z) (B:=ReportSection))).
    rewrite snd_zip; [done|]. rewrite length_seqZ. lia. }
  etransitivity; [|exact Hz]. clear Hz. induction E as [|x d l ds Hx _ IH]; [done|]. cbn [map]. rewrite <- IH. f_equal.
  destruct (find _ _); [|done]. by apply validated_Ok in Hx as [-> _].
Qed.

Lemma rendered_content ev links m template refs c : _render_content ev links m template refs claims = Ok c →
  tells_all c ∧ map se_section (co_sections c) = tp_section_keys template ∧ NoDup (tp_section_keys template) ∧
  co_locale c = tp_locale template.
Proof.
  intros E. apply bind_Ok in E as (ds & Hds%drafts_sections & E). apply bind_Ok in E as (ss & Hss & E).
  apply bind_Ok in E as (c0 & [-> Hv]%validated_Ok & [= <-]).
  assert (Ht : Forall (tells claims) ss ∧ map se_section ss = tp_section_keys template).
  { rewrite <- Hds. apply res_map_Ok in Hss. clear Hv Hds. induction Hss as [|d s ds ss Hs _ [IH1 IH2]]; [done|].
    apply section_tells in Hs as [? ?]. split; [by constructor|]. cbn. by f_equal. }
  destruct Ht as [Ht Hk]. unfold StructuredReportContent_valid in Hv. rewrite !andb_true_iff in Hv.
  destruct Hv as [[_ Hn] _]. apply bool_decide_eq_true in Hn. cbn in Hn. rewrite Hk in Hn.
  unfold _mark_synthetic_content. destruct (_ && _); [|done].
  split_and!; [by apply tells_map, Ht; apply mark_tells| |done|done]. cbn. rewrite same_sections; [done|].
  intros s. unfold mark_section. by case_bool_decide.
Qed.

(** Same sections, same locale, and still exactly the claims. *)
Definition kept (c c' : StructuredReportContent) : Prop :=
  (tells_all c → tells_all c') ∧ map se_section (co_sections c') = map se_section (co_sections c) ∧
  co_locale c' = co_locale c ∧ co_schema_version c' = co_schema_version c.
Lemma allocated_kept c a : ReportText.allocate c = Ok a → kept c (rf_content a).
Proof.
  intros (ts & al & _ & _ & _ & _ & _ & -> & _)%allocate_iff. split_and!; [|by apply same_sections|done|done].
  intros Ht. by apply tells_map, Ht; apply rewritten_tells.
Qed.

Lemma appendix_no_claim key type st rows loc b : appendix_block key type st rows loc = Ok b → has_claim b = false.
Proof. intros (x & _ & E)%bind_Ok. by apply validated_Ok in E as [-> _]. Qed.
Lemma replaced_kept reps c :
  (∀ k b, (k, b) ∈ reps → k ∈ [RepSec.CLAIM_INDEX; RepSec.EVIDENCE_APPENDIX] ∧ has_claim b = false) →
  kept c (mkContent (co_schema_version c) (co_locale c) (map (replace_section reps) (co_sections c))).
Proof.
  intros Hr. split_and!; [|apply same_sections|done|done].
  - intros Ht. apply tells_map, Ht. intros s. by apply replace_tells.
  - intros s. unfold replace_section. by destruct (find _ _) as [[]|].
Qed.
Lemma appended_kept `{CharData} c v request bs c' : _with_appendices c v request bs = Ok c' → kept c c'.
Proof.
  unfold _with_appendices. cbv zeta. intros (idx & Hi & E)%bind_Ok. apply bind_Ok in E as (app & Ha & [= <-]).
  apply replaced_kept. intros k b [Hin|Hin]%elem_of_app.
  - destruct (rt_include_claim_index request && _); [|injection Hi as <-; by apply elem_of_nil in Hin].
    apply bind_Ok in Hi as (b' & Hb & [= <-]). rewrite list_elem_of_singleton in Hin; injection Hin as -> ->.
    split; [left|]. unfold build_claim_index in Hb. apply seq_Ok in Hb as [_ Hb].
    apply bind_Ok in Hb as (? & _ & Hb). apply bind_Ok in Hb as (? & _ & Hb). by eapply appendix_no_claim.
  - destruct (rt_include_evidence_appendix request && _); [|injection Ha as <-; by apply elem_of_nil in Hin].
    apply bind_Ok in Ha as (? & _ & Ha). apply bind_Ok in Ha as (? & _ & Ha).
    apply bind_Ok in Ha as (b' & Hb & [= <-]). rewrite list_elem_of_singleton in Hin; injection Hin as -> ->.
    split; [right; left|]. unfold build_evidence_appendix in Hb. cbv zeta in Hb. apply seq_Ok in Hb as [_ Hb].
    apply bind_Ok in Hb as (? & _ & Hb). by eapply appendix_no_claim.
Qed.
End Rendered.

(** * The report as a whole *)

Section Projected.
Context `{UnicodeData} `{CharData}.

(** The Markdown and the three checksums of a report are those of its content. *)
Definition projects (r : ResearchReportRecord) : Prop :=
  ∃ al, ReportText.allocate (rr_structured_content r) = Ok al ∧
    verify_report_projection (rr_structured_content r) (rr_markdown_content r)
      (checksum_context (rr_structured_content r) r (rf_references al))
      (rr_structured_checksum r) (rr_markdown_checksum r) (rr_content_checksum r) = Ok tt.
Lemma project_projects r c sum r' : project r c sum = Ok r' → structured_report_checksum c = Ok sum →
  co_locale c = rr_report_locale r → rr_structured_content r' = c ∧ projects r'.
Proof.
  intros E Hs Hl. apply bind_Ok in E as (md & Hmd & E). apply bind_Ok in E as (al & Hal & E).
  apply bind_Ok in E as (ms & Hms & E). apply bind_Ok in E as (cs & Hcs & [= <-]). split; [done|].
  exists al. split; [done|]. cbn [rr_structured_content rr_markdown_content rr_structured_checksum
    rr_markdown_checksum rr_content_checksum]. unfold verify_report_projection.
  assert (Hsum : rm_markdown_checksum md = ms).
  { pose proof Hmd as E. unfold render in E. apply bind_Ok in E as (t & _ & E). apply bind_Ok in E as (x & Hx & E).
    apply validated_Ok in E as [-> _]. cbn in Hms |- *. unfold markdown_checksum in Hms. congruence. }
  assert (Hr : ∀ P `{Decision P} Q `{Decision Q} code, P → Q →
    reject_checksum (negb (bool_decide P) || negb (bool_decide Q)) code = Ok tt).
  { intros P ? Q ? code HP HQ. by rewrite !bool_decide_eq_true_2 by done. }
  rewrite Hr by done. rewrite seq_Ok. split; [done|]. rewrite Hmd, Ok_bind, Hr by done.
  rewrite seq_Ok. split; [done|]. rewrite Hs, Ok_bind, seq_Ok. split; [by rewrite bool_decide_eq_true_2|].
  rewrite Hms, Ok_bind, Hr by done. rewrite seq_Ok. split; [done|].
  change (checksum_context c _ (rf_references al)) with (checksum_context c r (rf_references al)).
  rewrite Hcs, Ok_bind. by rewrite bool_decide_eq_true_2.
Qed.

(** A claim whose identifier reads back as itself, as every UUID does. *)
Definition canonical (c : ResearchClaimWrite) : Prop := uuid_of_text (ulit (uuid_str (cl_id c))) = Some (cl_id c).
Lemma plain_hex n v : plain (hex_text n v) = true.
Proof.
  revert v. induction n as [|n IH]; intros v; [done|]. cbn [hex_text]. rewrite plain_app, IH. cbn.
  assert (Hd : (Z.to_N (v mod 16) < 16)%N) by (pose proof (Z.mod_pos_bound v 16); lia). revert Hd.
  generalize (Z.to_N (v mod 16)). intros k Hk.
  assert (Hin : k ∈ map N.of_nat (seq 0 16)).
  { apply list_elem_of_fmap. exists (N.to_nat k). split; [lia|]. apply elem_of_seq. lia. }
  clear Hk. revert k Hin.
  refine (proj1 (Forall_forall (λ k, plain (String (hex_digit k) "") = true) _) _). by repeat constructor.
Qed.
Lemma canonical_plain c : canonical c → plain (uuid_str (cl_id c)) = true.
Proof.
  unfold canonical, uuid_of_text. destruct (utf8 _) as [s|]; [|done]. unfold parse_uuid. cbv zeta.
  destruct (Nat.eqb _ _); [|done]. destruct (hex_int _) as [v|]; [|done].
  change (Some v ≫= ?f) with (f v). cbv beta. destruct ((0 <=? v) && (v <? 2 ^ 128)); [|done].
  intros [= <-]. unfold uuid_of_int. cbn [uuid_str]. by rewrite !plain_app, !plain_hex.
Qed.

Lemma last_with_unique {A} (key : A → UUID) l x : NoDup (map key l) → x ∈ l → last_with key l (key x) = Some x.
Proof.
  intros Hn Hx. unfold last_with. destruct (last (filter (λ y, key y = key x) l)) as [y|] eqn:E.
  - pose proof (last_with_Some key l (key x) y E) as [Hy Hk]. f_equal. by eapply NoDup_map_inj.
  - apply last_None in E. exfalso. assert (Hin : x ∈ filter (λ y, key y = key x) l) by by apply list_elem_of_filter.
    rewrite E in Hin. by apply elem_of_nil in Hin.
Qed.

(** A claim block and its binding: the claim, its role, and unless the claim is
    a limitation one evidence binding of the claim binding, by a link of the claim. *)
Record bound (report_id : UUID) (i : PersistedReportInput) (evidence : list ReportEvidenceBindingWrite)
    (kb : ReportSection * StructuredReportBlock) (w : ReportClaimBindingWrite) (c : ResearchClaimWrite) : Prop :=
  mkBound {
    bn_claim : rcb_claim_id w = cl_id c;
    bn_block : rcb_report_block_id w = block_id report_id (bk_block_key kb.2);
    bn_role : Some (rcb_role w) = _claim_role <$> cl_support_status c;
    bn_evidence : rcb_role w ≠ BindRole.LIMITATION → ∃ v l, v ∈ evidence ∧
      reb_report_claim_binding_id v = rcb_id w ∧ reb_report_block_id v = rcb_report_block_id w ∧
      l ∈ pi_links i ∧ lk_claim_id l = cl_id c ∧ lk_evidence_id l = reb_evidence_id v ∧
      ∃ e, e ∈ pi_evidence i ∧ e_id e = reb_evidence_id v ∧
        reb_source_checksum v = e_source_checksum e ∧ reb_citation_id v = e_citation_id e }.
Lemma bound_mono rid i evs evs' kb w c : evs ⊆ evs' → bound rid i evs kb w c → bound rid i evs' kb w c.
Proof. intros Hs [? ? ? He]. split; [done..|]. intros Hr. destruct (He Hr) as (v & l & ? & ?). exists v, l. auto. Qed.

Section Bound.
Context (report_id : UUID) (i : PersistedReportInput) (created_at : time).
Context (Hids : NoDup (map cl_id (pi_claims i))).

Lemma first_link_Ok b id l : first_link i b id = Ok l → l ∈ pi_links i ∧ lk_claim_id l = id.
Proof.
  unfold first_link. destruct (jget _ _) as [[| | | | |[|x xs]|]|]; try done.
  intros (u & _ & E)%bind_Ok. destruct (last_with _ _ _) as [l'|] eqn:El; [|done].
  apply last_with_Some in El as [? _]. destruct (neqb _ _) eqn:En; [done|]. injection E as <-.
  apply (proj1 (neqb_false _ _)) in En. done.
Qed.
Lemma no_claim_no_bindings b bs : has_claim b = false → block_bindings report_id i created_at b = Ok bs →
  bs = no_bindings.
Proof.
  unfold has_claim, block_claim, block_bindings.
  destruct (jget _ _) as [[]|]; cbn; try done; intros _ E; by injection E as <-.
Qed.
Lemma block_bound k b c bs : c ∈ pi_claims i → canonical c → states (k, b) c →
  block_bindings report_id i created_at b = Ok bs →
  ∃ w, bb_claims bs = [w] ∧ bound report_id i (bb_evidence bs) (k, b) w c.
Proof.
  intros Hc Hcan [Hcl _ _ _] E. cbn [snd] in Hcl. unfold block_claim in Hcl. unfold block_bindings in E.
  destruct (jget _ _) as [v|]; [|done]. destruct v; try done. injection Hcl as ->.
  unfold read_uuid in E. rewrite Hcan, Ok_bind in E. rewrite (last_with_unique cl_id _ c) in E by done.
  change (Some c ≫= ?f) with (f c) in E. cbv beta in E. destruct (cl_support_status c) as [s|] eqn:Es; [|done].
  apply bind_Ok in E as (w & [-> _]%validated_Ok & E).
  case_bool_decide as Hr.
  - injection E as <-. eexists. split; [done|]. split; [done|done|by rewrite Es|]. intros Hn. by destruct Hn.
  - apply bind_Ok in E as ((v & e) & He & E). apply bind_Ok in E as (cs & _ & [= <-]). cbn [fst snd].
    eexists. split; [done|]. split; [done|done|by rewrite Es|]. intros _.
    unfold evidence_binding in He. apply bind_Ok in He as (l & [Hl Hlc]%first_link_Ok & He).
    destruct (evidence_of _ _) as [e'|] eqn:Ee; [|done]. unfold evidence_of in Ee.
    apply last_with_Some in Ee as [Hin Hid]. apply bind_Ok in He as (v' & [-> _]%validated_Ok & [= <- <-]).
    eexists _, l. split; [by left|]. cbn. split_and!; try done. by exists e'.
Qed.

Lemma bindings_bound kbs cs bs :
  Forall (λ c, c ∈ pi_claims i ∧ canonical c) cs →
  Forall2 states (filter (λ kb, has_claim kb.2 = true) kbs) cs →
  res_map (block_bindings report_id i created_at) (map snd kbs) = Ok bs →
  Forall3 (bound report_id i (concat (map bb_evidence bs))) (filter (λ kb, has_claim kb.2 = true) kbs)
    (concat (map bb_claims bs)) cs.
Proof.
  intros Hcs Hst E. apply res_map_Ok in E. revert cs Hcs Hst. remember (map snd kbs) as bl eqn:Ebl.
  revert kbs Ebl. induction E as [|b x bl bs Hb _ IH]; intros [|[k b'] kbs] Ebl cs Hcs Hst; try done.
  - inversion Hst. constructor.
  - injection Ebl as -> ->. cbn [map concat]. destruct (has_claim b') eqn:Eh.
    + rewrite filter_cons_True in Hst |- * by done. inversion Hst as [|? c ? cs' Hs Hst']; subst.
      inversion Hcs as [|? ? [Hc Hcan] Hcs']; subst. destruct (block_bound k b' c x) as (w & -> & Hbd); [done..|].
      cbn [app]. constructor; [eapply bound_mono, Hbd; intros ? ?; apply elem_of_app; by left|].
      eapply Forall3_impl; [by apply IH|]. intros ? ? ?. apply bound_mono. intros ? ?. apply elem_of_app. by right.
    + rewrite filter_cons_False in Hst |- * by (cbn; congruence).
      apply no_claim_no_bindings in Hb as ->; [|done]. cbn [no_bindings bb_claims bb_evidence app]. by apply IH.
Qed.
End Bound.

(** What rendering hands to composition. *)
Lemma rendered_draft v request policy template d : render_report v request policy template = Ok d →
  (∀ c, c ∈ pi_claims (vi_input v) → canonical c) →
  tells_all (sort_by claim_ltb (pi_claims (vi_input v))) (rd_structured_content d) ∧
  map se_section (co_sections (rd_structured_content d)) = tp_section_keys template ∧
  NoDup (tp_section_keys template) ∧ NoDup (map cl_id (pi_claims (vi_input v))) ∧
  co_locale (rd_structured_content d) = rt_report_locale request ∧
  structured_report_checksum (rd_structured_content d) = Ok (rd_structured_checksum d).
Proof.
  intros E Hcan. unfold render_report in E. apply bind_Ok in E as (v' & [Hm ->]%validate_manifest_iff & E).
  cbn [vi_manifest vi_input] in E. cbv zeta in E. apply seq_Ok in E as [Hc E].
  apply bind_Ok in E as (refs & _ & E). apply bind_Ok in E as (seeded & Hs & E).
  apply bind_Ok in E as (al & Hal & E). apply bind_Ok in E as (sum & Hsum & E).
  apply validated_Ok in E as [-> _]. cbn [rd_structured_content rd_structured_checksum].
  apply rendered_content in Hs as (Ht & Hk & Hn & Hl).
  apply (allocated_kept (sort_by claim_ltb (pi_claims (vi_input v)))) in Hal as (Hal & Hk' & Hl' & _).
  2: { intros c Hin. apply canonical_plain, Hcan. by rewrite elem_of_sort_by in Hin. }
  unfold _validate_configuration in Hc. do 4 apply seq_Ok in Hc as [_ Hc].
  unfold render_error_if in Hc. destruct (_ || _) eqn:Ho in Hc; [done|]. split_orb.
  apply build_manifest_Ok in Hm as [Hv _]. pose proof (si_ids _ (validated_input_sealed _ Hv)) as [Hids _].
  split_and!; [by apply Hal|congruence|done|done|congruence|done].
Qed.

(** What the content of a report is to its claims and bindings. *)
Definition composed_from (v : VerifiedReportInput) (template : ReportTemplateVersionWrite)
    (a : ResearchReportAggregate) : Prop :=
  let content := rr_structured_content (ag_report a) in
  let blocks := filter (λ kb, has_claim kb.2 = true) (placed content) in
  map se_section (co_sections content) = tp_section_keys template ∧
  ∃ claims, claims ≡ₚ filter (λ c, _claim_section c ∈ tp_section_keys template) (pi_claims (vi_input v)) ∧
    Forall2 states blocks claims ∧
    Forall3 (bound (rr_id (ag_report a)) (vi_input v) (ag_evidence_bindings a)) blocks (ag_claim_bindings a) claims.

Lemma composed_content v template a t content bs :
  NoDup (tp_section_keys template) → NoDup (map cl_id (pi_claims (vi_input v))) →
  (∀ c, c ∈ pi_claims (vi_input v) → canonical c) →
  tells_all (sort_by claim_ltb (pi_claims (vi_input v))) content →
  map se_section (co_sections content) = tp_section_keys template →
  _bindings (rr_id (ag_report a)) (vi_input v) t content = Ok bs →
  rr_structured_content (ag_report a) = content → ag_claim_bindings a = bb_claims bs →
  ag_evidence_bindings a = bb_evidence bs → composed_from v template a.
Proof.
  intros Hk Hids Hcan Ht Hs Hb Hc H1 H2. unfold composed_from. cbv zeta. rewrite Hc, H1, H2. split; [done|].
  apply placed_states in Ht. rewrite Hs in Ht.
  set (cs := stated _ _) in Ht. exists cs.
  assert (Hp : cs ≡ₚ filter (λ c, _claim_section c ∈ tp_section_keys template) (pi_claims (vi_input v))).
  { unfold cs. rewrite stated_perm by done. by rewrite (sort_by_perm claim_ltb). }
  split_and!; [exact Hp|exact Ht|]. unfold _bindings in Hb. apply fmap_Ok in Hb as (l & Hl & ->).
  cbn [join_bindings bb_claims bb_evidence]. eapply bindings_bound; [exact Hids| |exact Ht|].
  - apply Forall_forall. intros c Hin. rewrite Hp in Hin. apply list_elem_of_filter in Hin as [_ Hin]. auto.
  - replace (map snd (placed content)) with (blocks_of content); [exact Hl|].
    unfold placed, blocks_of. clear. induction (co_sections content) as [|s ss IH]; [done|]. cbn [map concat].
    rewrite map_app, map_map. cbn. by rewrite map_id, <- IH.
Qed.

(** The fields a projection leaves as they were. *)
Lemma project_frame r c sum r' : project r c sum = Ok r' →
  rr_id r' = rr_id r ∧ rr_report_version r' = rr_report_version r ∧
  rr_previous_report_id r' = rr_previous_report_id r ∧
  rr_input_manifest_checksum r' = rr_input_manifest_checksum r ∧ rr_report_locale r' = rr_report_locale r.
Proof. intros E. repeat (apply bind_Ok in E as (? & _ & E)). by injection E as <-. Qed.

(** C25. A composed report is about one sealed package and says what the package
    supports: the sections are those of the template; each claim that belongs in
    one of them stands in exactly one block, with its own id, support and value,
    and that block is bound to the claim and, unless the claim only discloses a
    limitation, to evidence the package links to it; no block claims more. The
    bindings are complete, and the Markdown and checksums are those of the
    content. *)
Theorem compose_states_claims v request policy template report_id run_id created a :
  compose v request policy template report_id run_id created = Ok a →
  (∀ c, c ∈ pi_claims (vi_input v) → canonical c) →
  sealed_input (vi_input v) ∧
  _input_checksum (vi_input v) = Ok (rr_input_manifest_checksum (ag_report a)) ∧
  composed_from v template a ∧ projects (ag_report a) ∧ require_complete_binding_graph a = Ok tt ∧
  rr_id (ag_report a) = report_id ∧ rr_report_version (ag_report a) = 1 ∧
  rr_previous_report_id (ag_report a) = None.
Proof.
  intros E Hcan. apply bind_Ok in E as (d & Hd & E). pose proof Hd as Hm. unfold render_report in Hm.
  apply bind_Ok in Hm as (v' & [Hm _]%validate_manifest_iff & _).
  apply build_manifest_Ok in Hm as (Hv & _ & Hsum & _). split; [by apply validated_input_sealed|].
  apply rendered_draft in Hd as (Ht & Hk & Hn & Hids & Hl & Hs); [|done].
  apply bind_Ok in E as (first & Hf & E). apply bind_Ok in E as (report & [-> _]%validated_Ok & E).
  apply bind_Ok in E as (bs & Hbs & E). apply bind_Ok in E as (content & Happ & E).
  pose proof (project_frame _ _ _ _ Hf) as (Hi & Hver & Hprev & Hmf & Hloc).
  cbn [rr_id rr_report_version rr_previous_report_id rr_input_manifest_checksum rr_report_locale report_frame]
    in Hi, Hver, Hprev, Hmf, Hloc.
  apply (appended_kept (sort_by claim_ltb (pi_claims (vi_input v)))) in Happ as (Htells & Hkeys & Hlocale & _).
  destruct (content_eqb _ _).
  - apply new_aggregate_Ok in E as [-> Hg]. cbn [ag_report] in *.
    apply project_projects in Hf as [Hc Hp]; [|done|done].
    split_and!; try done; [by rewrite Hmf| ].
    apply (composed_content v template _ created (rd_structured_content d) bs); try done.
    cbn [ag_report]. by rewrite Hi.
  - apply bind_Ok in E as (sum & Hsum' & E). apply bind_Ok in E as (final & Hfin & E).
    apply bind_Ok in E as (re & Hre & E). apply new_aggregate_Ok in E as [-> Hg].
    pose proof (project_frame _ _ _ _ Hfin) as (Hi' & Hver' & Hprev' & Hmf' & _).
    apply project_projects in Hfin as [Hc Hp]; [|done|congruence]. cbn [ag_report] in *.
    split_and!; try done; try congruence.
    apply (composed_content v template _ created content re); try done; [by apply Htells|congruence|].
    cbn [ag_report]. by rewrite Hi', Hi.
Qed.
End Projected.

(** * A report composed *)

Definition package_parts (margin : ClaimSupportStatus) :
    res (VerifiedReportInput * ReportTemplateVersionWrite * ReportPolicyRecord) :=
  i ← package_input sealed_at margin;
  m ← @build_report_input_manifest ascii_unicode i;
  template ← @_build_template ascii_unicode RepType.FULL_RESEARCH_DRAFT RepLocale.EN_US;
  policy ← @build_default_report_policy ascii_unicode;
  Ok (mkVerified m i, template, policy).
Definition package_report (x : VerifiedReportInput * ReportTemplateVersionWrite * ReportPolicyRecord) :
    res ResearchReportAggregate :=
  let '(v, template, policy) := x in
  @compose ascii_unicode ascii_chars v
    (mkReportRequest (nth_id 50) (vi_manifest v) RepType.FULL_RESEARCH_DRAFT RepLocale.EN_US (tp_name template)
       (tp_version template) (rp_version policy) RUNTIME_REFLECTION_POLICY_VERSION RepSec.all true true 1000
       "report-key" sealed_at)
    policy template (nth_id 51) (nth_id 52) sealed_at.

(** The report of the package states its two claims, one of them with evidence. *)
Lemma package_composes :
  match package_parts Support.SUPPORTED with
  | Ok x =>
      match package_report x with
      | Ok a => forallb (λ c, bool_decide (uuid_of_text (ulit (uuid_str (cl_id c))) = Some (cl_id c)))
                  (pi_claims (vi_input x.1.1))
                && bool_decide (map rcb_claim_id (ag_claim_bindings a) = [nth_id 1; nth_id 2])
                && bool_decide (map reb_visible_reference (ag_evidence_bindings a) = [ulit "MET-001"])
      | Raise _ => false
      end
  | Raise _ => false
  end = true.
Proof. vm_compute. reflexivity. Qed.

(** A claim on which sources disagree gets a CON reference, which no evidence
    binding accepts: the package has no report. *)
Lemma conflicting_claim_has_no_report :
  match package_parts Support.CONFLICTING with
  | Ok x => match package_report x with
            | Raise e => bool_decide (e = mkExn ValidationError "invalid field")
            | Ok _ => false
            end
  | Raise _ => false
  end = true.
Proof. vm_compute. reflexivity. Qed.

Lemma compose_states_claims_witness : ∃ x a, package_parts Support.SUPPORTED = Ok x ∧ package_report x = Ok a ∧
  sealed_input (vi_input x.1.1) ∧ composed_from x.1.1 x.1.2 a ∧ @projects ascii_unicode (ag_report a).
Proof.
  pose proof package_composes as C.
  destruct (package_parts Support.SUPPORTED) as [x|e] eqn:Ex; [|discriminate C].
  destruct (package_report x) as [a|e] eqn:Ea; [|discriminate C].
  apply andb_true_iff in C as [[C _]%andb_true_iff _].
  exists x, a. split; [reflexivity|]. split; [exact Ea|]. clear Ex. destruct x as [[v template] policy].
  pose proof (@compose_states_claims ascii_unicode ascii_chars v _ policy template _ _ _ a Ea) as P.
  destruct P as (Hs & _ & Hc & Hp & _).
  - intros c Hin. rewrite forallb_forall in C. specialize (C c). rewrite <- list_elem_of_In in C.
    exact (bool_decide_eq_true_1 _ (C Hin)).
  - split; [exact Hs|]. split; [exact Hc|exact Hp].
Defined.
