(* ===== verification/ReportStore.v ===== *)
(** The report tables and their repositories: requests, generation runs, report
    versions with their sections, blocks and bindings, reflections, revisions and
    gates, with the constraints of the tables
    (db/repositories/reports.py, db/models/reports.py, domain/reports/generation.py). *)
From S2P Require Import Prelude Session PyDecimal PyText Sha256 AgentModel RunControl ToolRun PyParse Ledger Claims.
From S2P Require Import Text DocModel Citations Bm25.
From S2P Require Import ReportModel ReportText ReportInput ReportTemplate ReportRender Reflection ReportCompose.
From S2P Require Import ReportRevise ReleaseGate.
From Stdlib Require Import Ascii.

(** * Generation runs (generation.py) *)

Record ReportGenerationRunRecord := mkGenerationRun {
  gr_id : UUID; gr_report_request_id : UUID; gr_research_package_id : UUID; gr_research_agent_run_id : UUID;
  gr_security_id : UUID; gr_snapshot_id : UUID; gr_research_as_of_time : time; gr_report_type : ReportType;
  gr_report_locale : ReportLocale; gr_report_policy_version : string; gr_template_name : string;
  gr_template_version : string; gr_renderer_version : string; gr_manifest_schema_version : string;
  gr_manifest_checksum : string; gr_package_checksum : string; gr_claims_checksum : string;
  gr_evidence_checksum : string; gr_links_checksum : string; gr_citations_checksum : string;
  gr_lineage_checksum : string; gr_idempotency_key : string; gr_status : ReportGenerationStatus;
  gr_warning_count : Z; gr_blocked_reason_code : option string; gr_error_code : option string;
  gr_safe_error_message : option string; gr_created_at : time; gr_updated_at : time;
  gr_terminal_at : option time }.
Record ReportGenerationTransition := mkTransition {
  gt_expected_status : ReportGenerationStatus; gt_target_status : ReportGenerationStatus;
  gt_warning_count : Z; gt_blocked_reason_code : option string; gt_error_code : option string;
  gt_safe_error_message : option string; gt_changed_at : time }.

(** [ReportGenerationStateMachine.transition] *)
Definition generation_allowed (current target : ReportGenerationStatus) : bool :=
  (bool_decide (current = GenSt.CREATED) && bool_decide (target = GenSt.RUNNING))
  || (bool_decide (current = GenSt.RUNNING) && bool_decide (target ∈ TERMINAL_GENERATION_STATUSES)).
(** [require_transition_result_shape], with the bounds of the fields. *)
Definition new_transition (t : ReportGenerationTransition) : res ReportGenerationTransition :=
  let error := is_some (gt_error_code t) || is_some (gt_safe_error_message t) in
  let target := gt_target_status t in
  let bad b := reject_if b ValidationError "ReportGenerationTransition" in
  bad (negb (between 0 1000 (gt_warning_count t)));;
  reject_if (negb (generation_allowed (gt_expected_status t) target))
    (NamedError "ReportGenerationTransitionError") "REPORT_GENERATION_TRANSITION_FORBIDDEN";;
  (if bool_decide (target = GenSt.RUNNING) then
     bad (negb (gt_warning_count t =? 0) || is_some (gt_blocked_reason_code t) || error)
   else
     bad (bool_decide (target = GenSt.FAILED) && (is_none (gt_error_code t) || is_none (gt_safe_error_message t)));;
     bad (negb (bool_decide (target = GenSt.FAILED)) && error);;
     bad (bool_decide (target ∈ [GenSt.PARTIAL; GenSt.BLOCKED]) && is_none (gt_blocked_reason_code t)));;
  Ok t.

(** * The tables *)

Record ReportSectionRow := mkSectionRow {
  sw_id : UUID; sw_report_id : UUID; sw_section_key : ReportSection; sw_section_index : Z }.
Record ReportBlockRow := mkBlockRow {
  bw_id : UUID; bw_report_id : UUID; bw_section_id : UUID; bw_block : StructuredReportBlock }.
Record ReportReleaseGateRow := mkGateRow {
  gw_id : UUID; gw_candidate_report_id : UUID; gw_round_two_reflection_run_id : UUID;
  gw_sealed_report_id : option UUID; gw_gate_version : string; gw_input_manifest_checksum : string;
  gw_report_checksum : string; gw_internal_release_status : ReleaseGateDecision;
  gw_requirements : list (ReleaseGateRequirement * bool); gw_reason_codes : list string; gw_created_at : time }.

(** The bindings of a report are rows with its identifier; a citation row also
    names the block. *)
Record report_db := mkReportDb {
  rb_reference : reference_db; rb_requests : list ReportRequestRecord;
  rb_runs : list ReportGenerationRunRecord; rb_reports : list ResearchReportRecord;
  rb_sections : list ReportSectionRow; rb_blocks : list ReportBlockRow;
  rb_claims : list (UUID * ReportClaimBindingWrite); rb_evidence : list (UUID * ReportEvidenceBindingWrite);
  rb_citations : list (UUID * UUID * ReportCitationBindingWrite);
  rb_reflections : list ReportReflectionRunRecord; rb_findings : list ReportReflectionFindingRecord;
  rb_revisions : list ReportRevisionRunRecord; rb_gates : list ReportReleaseGateRow }.

Definition with_reference db x := mkReportDb x (rb_requests db) (rb_runs db) (rb_reports db) (rb_sections db)
  (rb_blocks db) (rb_claims db) (rb_evidence db) (rb_citations db) (rb_reflections db) (rb_findings db)
  (rb_revisions db) (rb_gates db).
Definition with_requests db x := mkReportDb (rb_reference db) x (rb_runs db) (rb_reports db) (rb_sections db)
  (rb_blocks db) (rb_claims db) (rb_evidence db) (rb_citations db) (rb_reflections db) (rb_findings db)
  (rb_revisions db) (rb_gates db).
Definition with_runs db x := mkReportDb (rb_reference db) (rb_requests db) x (rb_reports db) (rb_sections db)
  (rb_blocks db) (rb_claims db) (rb_evidence db) (rb_citations db) (rb_reflections db) (rb_findings db)
  (rb_revisions db) (rb_gates db).
(** The report rows with everything that hangs on them. *)
Definition with_report db r ss bs := mkReportDb (rb_reference db) (rb_requests db) (rb_runs db)
  (rb_reports db ++ [r]) (rb_sections db ++ ss) (rb_blocks db ++ bs) (rb_claims db) (rb_evidence db)
  (rb_citations db) (rb_reflections db) (rb_findings db) (rb_revisions db) (rb_gates db).
Definition with_bindings db cs es ts := mkReportDb (rb_reference db) (rb_requests db) (rb_runs db)
  (rb_reports db) (rb_sections db) (rb_blocks db) (rb_claims db ++ cs) (rb_evidence db ++ es)
  (rb_citations db ++ ts) (rb_reflections db) (rb_findings db) (rb_revisions db) (rb_gates db).
Definition with_reflections db x fs := mkReportDb (rb_reference db) (rb_requests db) (rb_runs db)
  (rb_reports db) (rb_sections db) (rb_blocks db) (rb_claims db) (rb_evidence db) (rb_citations db) x
  (rb_findings db ++ fs) (rb_revisions db) (rb_gates db).
Definition with_revisions db x := mkReportDb (rb_reference db) (rb_requests db) (rb_runs db)
  (rb_reports db) (rb_sections db) (rb_blocks db) (rb_claims db) (rb_evidence db) (rb_citations db)
  (rb_reflections db) (rb_findings db) x (rb_gates db).
Definition with_gates db x := mkReportDb (rb_reference db) (rb_requests db) (rb_runs db)
  (rb_reports db) (rb_sections db) (rb_blocks db) (rb_claims db) (rb_evidence db) (rb_citations db)
  (rb_reflections db) (rb_findings db) (rb_revisions db) x.

(** A statement on the tables. *)
Abbreviation dbM := (sessM report_db).
Definition get : dbM report_db := λ db, Ok (db, db).
Definition put (f : report_db → report_db) : dbM unit := λ db, Ok (tt, f db).
Definition stmt {A} (m : res A) : dbM A := sess_lift m.
(** A constraint of a table: the statement that violates it fails. *)
Definition constraint (ok : bool) (name : string) : dbM unit := stmt (reject_if (negb ok) IntegrityError name).
Definition uniq {A} `{EqDecision A} (l : list A) : bool := bool_decide (NoDup l).
Definition has {A} `{EqDecision A} (x : A) (l : list A) : bool := bool_decide (x ∈ l).
Definition opt_has {A} `{EqDecision A} (x : option A) (l : list A) : bool := opt_forallb (λ x, has x l) x.
Definition found {A} (o : option A) (code : string) : dbM A := stmt (require_some o LookupError code).

(** [octet_length] of a stored text. *)
Definition octets (t : ustr) : res Z := (λ s, Z.of_nat (String.length s)) <$> utf8 t.
Definition octets_between (lo hi : Z) (t : ustr) (name : string) : dbM unit :=
  n ← stmt (octets t); constraint (between lo hi n) name.
Definition each {A} (f : A → dbM unit) (l : list A) : dbM unit := _ ← sess_map f l; mret tt.

(** * Requests and generation runs *)

Definition template_name_ok : string → bool :=
  matches_ident is_lower (λ c, is_lower c || is_digit c || char_in ["_"; "-"]%char c) 2 63.
Definition ReportRequestRecord_valid (r : ReportRequestRecord) : bool :=
  template_name_ok (rt_template_name r) && semver_ok (rt_template_version r)
  && Version_ok (rt_report_policy_version r) && Version_ok (rt_reflection_policy_version r)
  && between 1 16 (Z.of_nat (length (rt_requested_sections r)))
  && between 1 1000 (rt_max_excerpt_length r) && Checksum_ok (rt_idempotency_key r).

(** What PostgreSQL stores of a JSON document has a bounded text. *)
Class RowSizes := {
  manifest_fits : ReportInputManifest → bool;
  content_fits : StructuredReportContent → bool }.

Section Repositories.
Context `{UnicodeData} `{CharData} `{RowSizes}.

(** [add_request] *)
Definition add_request (r : ReportRequestRecord) : dbM ReportRequestRecord :=
  db ← get;
  constraint (uniq (map rt_id (rb_requests db ++ [r]))) "pk_report_requests";;
  constraint (uniq (map rt_idempotency_key (rb_requests db ++ [r]))) "uq_report_requests_idempotency_key";;
  constraint (has (rt_report_policy_version r) (map rp_version (rd_policies (rb_reference db))))
    "fk_report_requests_policy";;
  constraint (has (rt_reflection_policy_version r) (map rfp_version (rd_reflection_policies (rb_reference db))))
    "fk_report_requests_reflection_policy";;
  constraint (manifest_fits (rt_manifest r)) "ck_report_requests_manifest_size";;
  put (λ db, with_requests db (rb_requests db ++ [r]));;
  stmt (validated ReportRequestRecord_valid r).
(** [get_request] *)
Definition get_request (db : report_db) (id : UUID) : res (option ReportRequestRecord) :=
  match find (λ r, bool_decide (rt_id r = id)) (rb_requests db) with
  | Some r => Some <$> validated ReportRequestRecord_valid r
  | None => Ok None
  end.

Definition REUSABLE_GENERATION : list ReportGenerationStatus :=
  [GenSt.CREATED; GenSt.RUNNING; GenSt.COMPLETED; GenSt.PARTIAL; GenSt.BLOCKED].
(** The contract of a run: what its fields need beyond those of its request. *)
Definition ReportGenerationRunRecord_valid (r : ReportGenerationRunRecord) : bool :=
  template_name_ok (gr_template_name r) && semver_ok (gr_template_version r)
  && forallb Version_ok [gr_report_policy_version r; gr_renderer_version r; gr_manifest_schema_version r]
  && forallb Checksum_ok [gr_manifest_checksum r; gr_package_checksum r; gr_claims_checksum r;
       gr_evidence_checksum r; gr_links_checksum r; gr_citations_checksum r; gr_lineage_checksum r;
       gr_idempotency_key r]
  && between 0 1000 (gr_warning_count r).
(** [SqlAlchemyReportGenerationRepository.create_run] *)
Definition create_generation_run (r : ReportGenerationRunRecord) : dbM ReportGenerationRunRecord :=
  r ← stmt (validated ReportGenerationRunRecord_valid r);
  db ← get;
  let reusable := filter (λ r, gr_status r ∈ REUSABLE_GENERATION) (rb_runs db ++ [r]) in
  constraint (uniq (map gr_id (rb_runs db ++ [r]))) "pk_report_generation_runs";;
  constraint (uniq (map gr_idempotency_key reusable)) "ux_report_generation_runs_reusable_key";;
  constraint (has (gr_report_request_id r) (map rt_id (rb_requests db))) "fk_report_generation_runs_request";;
  constraint (has (gr_report_policy_version r) (map rp_version (rd_policies (rb_reference db))))
    "fk_report_generation_runs_policy";;
  put (λ db, with_runs db (rb_runs db ++ [r]));; mret r.
(** [get_run] *)
Definition get_generation_run (db : report_db) (id : UUID) : res (option ReportGenerationRunRecord) :=
  match find (λ r, bool_decide (gr_id r = id)) (rb_runs db) with
  | Some r => Some <$> validated ReportGenerationRunRecord_valid r
  | None => Ok None
  end.
Definition transitioned (r : ReportGenerationRunRecord) (t : ReportGenerationTransition) :
    ReportGenerationRunRecord :=
  mkGenerationRun (gr_id r) (gr_report_request_id r) (gr_research_package_id r) (gr_research_agent_run_id r)
    (gr_security_id r) (gr_snapshot_id r) (gr_research_as_of_time r) (gr_report_type r) (gr_report_locale r)
    (gr_report_policy_version r) (gr_template_name r) (gr_template_version r) (gr_renderer_version r)
    (gr_manifest_schema_version r) (gr_manifest_checksum r) (gr_package_checksum r) (gr_claims_checksum r)
    (gr_evidence_checksum r) (gr_links_checksum r) (gr_citations_checksum r) (gr_lineage_checksum r)
    (gr_idempotency_key r) (gt_target_status t) (gt_warning_count t) (gt_blocked_reason_code t)
    (gt_error_code t) (gt_safe_error_message t) (gr_created_at r) (gt_changed_at t)
    (if bool_decide (gt_target_status t = GenSt.RUNNING) then gr_terminal_at r else Some (gt_changed_at t)).
(** [SqlAlchemyReportGenerationRepository.transition] *)
Definition transition_generation (id : UUID) (t : ReportGenerationTransition) : dbM ReportGenerationRunRecord :=
  t ← stmt (new_transition t);
  db ← get;
  r ← found (find (λ r, bool_decide (gr_id r = id)) (rb_runs db)) "REPORT_GENERATION_RUN_NOT_FOUND";
  stmt (reject_if (neqb (gr_status r) (gt_expected_status t)) RuntimeError "REPORT_GENERATION_STATUS_CONFLICT");;
  put (λ db, with_runs db (map (λ x, if bool_decide (gr_id x = id) then transitioned x t else x) (rb_runs db)));;
  stmt (validated ReportGenerationRunRecord_valid (transitioned r t)).

(** * Reports and their bindings *)

Definition section_id (report_id : UUID) (s : ReportSection) : UUID :=
  uuid5 (uuid_str report_id +:+ ":section:" +:+ RepSec.value s).
Definition section_rows (r : ResearchReportRecord) : list ReportSectionRow :=
  map (λ s, mkSectionRow (section_id (rr_id r) (se_section s)) (rr_id r) (se_section s) (se_section_index s))
    (co_sections (rr_structured_content r)).
Definition block_rows (r : ResearchReportRecord) : list ReportBlockRow :=
  concat (map (λ s, map (λ b, mkBlockRow (block_id (rr_id r) (bk_block_key b)) (rr_id r)
                                 (section_id (rr_id r) (se_section s)) b) (se_blocks s))
    (co_sections (rr_structured_content r))).
Definition add_report_rows (r : ResearchReportRecord) : dbM unit :=
  db ← get;
  let reports := rb_reports db ++ [r] in
  let new_sections := section_rows r in
  let new_blocks := block_rows r in
  let sections := rb_sections db ++ new_sections in
  let blocks := rb_blocks db ++ new_blocks in
  constraint (uniq (map rr_id reports)) "pk_research_reports";;
  constraint (uniq (map (λ r, (rr_report_generation_run_id r, rr_report_version r)) reports))
    "uq_research_reports_generation_version";;
  constraint (uniq (omap rr_previous_report_id reports)) "ux_research_reports_previous";;
  constraint (has (rr_report_generation_run_id r) (map gr_id (rb_runs db))) "fk_research_reports_generation_run";;
  constraint (opt_has (rr_previous_report_id r) (map rr_id reports)) "fk_research_reports_previous";;
  constraint (1 <=? rr_report_version r) "ck_research_reports_version";;
  octets_between 1 1048576 (rr_markdown_content r) "ck_research_reports_content_size";;
  constraint (content_fits (rr_structured_content r)) "ck_research_reports_content_size";;
  constraint (uniq (map sw_id sections)) "pk_report_sections";;
  constraint (uniq (map (λ s, (sw_report_id s, sw_section_index s)) sections)) "uq_report_sections_report_index";;
  constraint (uniq (map (λ s, (sw_report_id s, sw_section_key s)) sections)) "uq_report_sections_report_key";;
  constraint (forallb (λ s, between 0 15 (sw_section_index s)) new_sections) "ck_report_sections_index";;
  constraint (uniq (map bw_id blocks)) "pk_report_blocks";;
  constraint (uniq (map (λ b, (bw_section_id b, bk_block_index (bw_block b))) blocks))
    "uq_report_blocks_section_index";;
  constraint (uniq (map (λ b, (bw_report_id b, bk_block_key (bw_block b))) blocks)) "uq_report_blocks_report_key";;
  constraint (forallb (λ b, between 0 299 (bk_block_index (bw_block b))) new_blocks) "ck_report_blocks_index";;
  each (λ b, match bk_text (bw_block b) with
             | Some t => octets_between 0 10000 t "ck_report_blocks_text_size"
             | None => mret tt
             end) new_blocks;;
  put (λ db, with_report db r new_sections new_blocks).

(** [^(EV|MET)-[0-9]{3}$] *)
Definition evidence_reference_ok (t : ustr) : bool :=
  existsb (λ p, ustarts t (ulit p) && (ulen t =? str_len p + 3)
    && forallb (λ c, between 48 57 c) (drop (String.length p) t)) ["EV-"; "MET-"].
(** [_binding_block_id] *)
Definition _binding_block_id (evidence : list ReportEvidenceBindingWrite) (id : UUID) : res UUID :=
  reb_report_block_id <$> require_some (find (λ b, bool_decide (reb_id b = id)) evidence) ValueError
    "REPORT_CITATION_EVIDENCE_BINDING_NOT_FOUND".
(** [add_bindings] *)
Definition claim_location_ok (b : ReportClaimBindingWrite) : bool :=
  xorb (is_some (rcb_sentence_index b)) (is_some (rcb_item_or_row_key b))
  && opt_forallb (between 0 999) (rcb_sentence_index b).
Definition claim_place {A} (key : ReportClaimBindingWrite → option A) (b : ReportClaimBindingWrite) :
    option (UUID * UUID * A) :=
  (λ k, (rcb_report_block_id b, rcb_claim_id b, k)) <$> key b.
Definition add_bindings (report_id : UUID) (a : ResearchReportAggregate) : dbM unit :=
  db ← get;
  _ ← found (find (λ r, bool_decide (rr_id r = report_id)) (rb_reports db)) "RESEARCH_REPORT_NOT_FOUND";
  let blocks := map bw_id (rb_blocks db) in
  let claims := rb_claims db ++ map (pair report_id) (ag_claim_bindings a) in
  let evidence := rb_evidence db ++ map (pair report_id) (ag_evidence_bindings a) in
  constraint (uniq (map (λ b, rcb_id b.2) claims)) "pk_report_claim_bindings";;
  constraint (forallb (λ b, has (rcb_report_block_id b) blocks) (ag_claim_bindings a))
    "fk_report_claim_bindings_block";;
  constraint (forallb claim_location_ok (ag_claim_bindings a)) "ck_report_claim_bindings_location";;
  constraint (uniq (omap (λ b, claim_place rcb_sentence_index b.2) claims)) "ux_report_claim_bindings_sentence";;
  constraint (uniq (omap (λ b, claim_place rcb_item_or_row_key b.2) claims)) "ux_report_claim_bindings_item";;
  constraint (uniq (map (λ b, reb_id b.2) evidence)) "pk_report_evidence_bindings";;
  constraint (forallb (λ b, has (reb_report_block_id b) blocks) (ag_evidence_bindings a))
    "fk_report_evidence_bindings_block";;
  constraint (forallb (λ b, has (reb_report_claim_binding_id b) (map (λ b, rcb_id b.2) claims))
    (ag_evidence_bindings a)) "fk_report_evidence_bindings_claim_binding";;
  constraint (uniq (map (λ b, (reb_report_claim_binding_id b.2, reb_claim_evidence_link_id b.2)) evidence))
    "uq_report_evidence_bindings_link";;
  constraint (uniq (map (λ b, (b.1, reb_visible_reference b.2)) evidence))
    "uq_report_evidence_bindings_visible_reference";;
  constraint (forallb (λ b, evidence_reference_ok (reb_visible_reference b)) (ag_evidence_bindings a))
    "ck_report_evidence_bindings_visible_reference";;
  rows ← stmt (res_map (λ b, block ← _binding_block_id (ag_evidence_bindings a) (rtb_report_evidence_binding_id b);
                             Ok (report_id, block, b)) (ag_citation_bindings a));
  let citations := rb_citations db ++ rows in
  constraint (uniq (map (λ b, rtb_id b.2) citations)) "pk_report_citation_bindings";;
  constraint (uniq (map (λ b, (b.1.1, rtb_visible_reference b.2)) citations))
    "uq_report_citation_bindings_visible_reference";;
  each (λ b, octets_between 1 1000 (rtb_rendered_excerpt b) "ck_report_citation_bindings_excerpt_size")
    (ag_citation_bindings a);;
  put (λ db, with_bindings db (map (pair report_id) (ag_claim_bindings a))
               (map (pair report_id) (ag_evidence_bindings a)) rows).
(** [add_report] *)
Definition add_report (a : ResearchReportAggregate) : dbM ResearchReportAggregate :=
  let r := ag_report a in
  add_report_rows r;;
  stmt (reject_if (existsb states_fact (blocks_of (rr_structured_content r))
                   && bool_decide (ag_claim_bindings a = [])) ValueError "REPORT_FACTUAL_BINDINGS_REQUIRED");;
  add_bindings (rr_id r) a;;
  r ← stmt (validated ResearchReportRecord_valid r);
  stmt (new_aggregate (mkAggregate r (ag_claim_bindings a) (ag_evidence_bindings a) (ag_citation_bindings a))).

(** The rows of a report, as [_report_aggregate] reads them back. *)
Definition of_report {A} (id : A → UUID) (rows : list (UUID * A)) (report_id : UUID) : list A :=
  sort_key (λ b, uuid_str (id b)) (map snd (filter (λ b, b.1 = report_id) rows)).
Definition _report_aggregate (db : report_db) (r : ResearchReportRecord) : res ResearchReportAggregate :=
  r ← validated ResearchReportRecord_valid r;
  claims ← res_map (validated ReportClaimBindingWrite_valid) (of_report rcb_id (rb_claims db) (rr_id r));
  evidence ← res_map (validated ReportEvidenceBindingWrite_valid) (of_report reb_id (rb_evidence db) (rr_id r));
  citations ← res_map (validated ReportCitationBindingWrite_valid)
    (of_report rtb_id (map (λ b, (b.1.1, b.2)) (rb_citations db)) (rr_id r));
  new_aggregate (mkAggregate r claims evidence citations).
(** [get_report] *)
Definition get_report (db : report_db) (id : UUID) : res (option ResearchReportAggregate) :=
  match find (λ r, bool_decide (rr_id r = id)) (rb_reports db) with
  | Some r => Some <$> _report_aggregate db r
  | None => Ok None
  end.
(** [list_versions] *)
Definition version_ltb (a b : ResearchReportRecord) : bool :=
  (rr_report_version a <? rr_report_version b)
  || ((rr_report_version a =? rr_report_version b) && str_ltb (uuid_str (rr_id a)) (uuid_str (rr_id b))).
Definition list_versions (db : report_db) (run_id : UUID) : res (list ResearchReportRecord) :=
  res_map (validated ResearchReportRecord_valid)
    (sort_by version_ltb (filter (λ r, rr_report_generation_run_id r = run_id) (rb_reports db))).
End Repositories.

(** * Reflections, revisions, gates *)

Section Workflow.
Context `{UnicodeData} `{CharData} `{RowSizes}.

(** The contract of a stored reflection run and of the run it will become. *)
Definition valid_reflection (r : ReportReflectionRunRecord) : res ReportReflectionRunRecord :=
  _validate_reflection_outcome r;; Ok r.
Definition reflection_completed (r : ReportReflectionRunRecord) (status : ReportReflectionStatus)
    (n : ReflectionSeverityCounts) (completed_at : time) : ReportReflectionRunRecord :=
  mkReflectionRun (fr_id r) (fr_research_report_id r) (fr_reflection_policy_version r) (fr_engine_name r)
    (fr_engine_version r) (fr_round_number r) (fr_input_report_checksum r) status (fr_started_at r)
    (sc_total n) (sc_critical n) (sc_high n) (sc_medium n) (sc_low n) None None None (Some completed_at).

(** [SqlAlchemyReportReflectionRepository.create_run] *)
Definition create_reflection_run (r : ReportReflectionRunRecord) : dbM ReportReflectionRunRecord :=
  db ← get;
  let rows := rb_reflections db ++ [r] in
  constraint (uniq (map fr_id rows)) "pk_report_reflection_runs";;
  constraint (uniq (map (λ r, (fr_research_report_id r, fr_round_number r, fr_reflection_policy_version r)) rows))
    "uq_report_reflection_runs_report_round_policy";;
  constraint (has (fr_research_report_id r) (map rr_id (rb_reports db))) "fk_report_reflection_runs_report";;
  constraint (has (fr_reflection_policy_version r) (map rfp_version (rd_reflection_policies (rb_reference db))))
    "fk_report_reflection_runs_policy";;
  constraint (between 1 2 (fr_round_number r)) "ck_report_reflection_runs_round";;
  put (λ db, with_reflections db rows []);;
  stmt (valid_reflection r).

(** The identity of a finding row; a row with a missing part has none. *)
Definition finding_identity (f : ReportReflectionFindingRecord) : option (list UUID * string) :=
  match ff_report_block_id f, ff_claim_id f, ff_evidence_id f, ff_citation_id f with
  | Some b, Some c, Some e, Some t => Some ([ff_reflection_run_id f; b; c; e; t], ff_finding_code f)
  | _, _, _, _ => None
  end.
(** [_reflection_finding_row]: the section and the key of the block are not stored. *)
Definition finding_row (f : ReportReflectionFindingRecord) : ReportReflectionFindingRecord :=
  mkFinding (ff_id f) (ff_reflection_run_id f) (ff_research_report_id f) (ff_report_section_id f)
    (ff_report_block_id f) (ff_claim_id f) (ff_evidence_id f) (ff_citation_id f) (ff_finding_code f)
    (ff_category f) (ff_severity f) (ff_description f) (ff_remediation_code f) (ff_blocking f)
    (ff_created_at f) None None.
(** [SqlAlchemyReportReflectionRepository.complete_run] *)
Definition complete_reflection_run (id : UUID) (status : ReportReflectionStatus)
    (n : ReflectionSeverityCounts) (completed_at : time) (findings : list ReportReflectionFindingRecord) :
    dbM ReportReflectionResult :=
  db ← get;
  r ← found (find (λ r, bool_decide (fr_id r = id)) (rb_reflections db)) "REPORT_REFLECTION_RUN_NOT_FOUND";
  stmt (reject_if (negb (Z.of_nat (length findings) =? sc_total n)) ValueError
          "REPORT_REFLECTION_FINDING_COUNT_MISMATCH");;
  let rows := map finding_row findings in
  let all := rb_findings db ++ rows in
  constraint (uniq (map ff_id all)) "pk_report_reflection_findings";;
  constraint (uniq (omap finding_identity all)) "uq_report_reflection_findings_identity";;
  constraint (forallb (λ f, opt_has (ff_report_section_id f) (map sw_id (rb_sections db))
                            && opt_has (ff_report_block_id f) (map bw_id (rb_blocks db))) rows)
    "fk_report_reflection_findings_section";;
  constraint (forallb (λ f, between 1 512 (str_len (ff_description f))) rows)
    "ck_report_reflection_findings_description";;
  let done_run := reflection_completed r status n completed_at in
  put (λ db, with_reflections db
         (map (λ x, if bool_decide (fr_id x = id) then done_run else x) (rb_reflections db)) rows);;
  run ← stmt (valid_reflection done_run);
  fs ← stmt (res_map (validated Finding_valid) rows);
  stmt (new_reflection_result (mkReflectionResult run (map ff_id findings) fs)).

(** [get_result] *)
Definition located_finding (db : report_db) (f : ReportReflectionFindingRecord) : ReportReflectionFindingRecord :=
  let section := id ← ff_report_section_id f; find (λ s, bool_decide (sw_id s = id)) (rb_sections db) in
  let block := id ← ff_report_block_id f; find (λ b, bool_decide (bw_id b = id)) (rb_blocks db) in
  mkFinding (ff_id f) (ff_reflection_run_id f) (ff_research_report_id f) (ff_report_section_id f)
    (ff_report_block_id f) (ff_claim_id f) (ff_evidence_id f) (ff_citation_id f) (ff_finding_code f)
    (ff_category f) (ff_severity f) (ff_description f) (ff_remediation_code f) (ff_blocking f)
    (ff_created_at f) (sw_section_key <$> section) ((λ b, bk_block_key (bw_block b)) <$> block).
Definition get_result (db : report_db) (id : UUID) : res (option ReportReflectionResult) :=
  match find (λ r, bool_decide (fr_id r = id)) (rb_reflections db) with
  | None => Ok None
  | Some r =>
      if bool_decide (fr_status r = ReflSt.RUNNING) then Ok None
      else
        rows ← res_map (validated Finding_valid)
          (sort_key (λ f, uuid_str (ff_id f)) (filter (λ f, ff_reflection_run_id f = id) (rb_findings db)));
        let findings := map (located_finding db) rows in
        run ← valid_reflection r;
        Some <$> new_reflection_result (mkReflectionResult run (map ff_id findings) findings)
  end.

Definition valid_revision (r : ReportRevisionRunRecord) : res ReportRevisionRunRecord :=
  _validate_revision_outcome r;; Ok r.
(** [SqlAlchemyReportRevisionRepository.create_run] *)
Definition create_revision_run (r : ReportRevisionRunRecord) : dbM ReportRevisionRunRecord :=
  db ← get;
  let rows := rb_revisions db ++ [r] in
  constraint (uniq (map vr_id rows)) "pk_report_revision_runs";;
  constraint (uniq (map vr_source_report_id rows)) "uq_report_revision_runs_source_report";;
  constraint (has (vr_source_report_id r) (map rr_id (rb_reports db))) "fk_report_revision_runs_source_report";;
  constraint (has (vr_source_reflection_run_id r) (map fr_id (rb_reflections db)))
    "fk_report_revision_runs_source_reflection";;
  constraint (has (vr_report_policy_version r) (map rp_version (rd_policies (rb_reference db))))
    "fk_report_revision_runs_policy";;
  put (λ db, with_revisions db rows);;
  stmt (valid_revision r).
Definition revision_completed (r : ReportRevisionRunRecord) (status : ReportRevisionStatus) (target : UUID)
    (d : ReportRevisionDraft) (completed_at : time) : ReportRevisionRunRecord :=
  mkRevisionRun (vr_id r) (vr_source_report_id r) (vr_source_reflection_run_id r) (vr_report_policy_version r)
    (vr_engine_name r) (vr_engine_version r) status (vr_started_at r) (Some target) (vd_actions d)
    (vd_applied_finding_ids d) (vd_unresolved_finding_ids d) None None None (Some completed_at).
(** [SqlAlchemyReportRevisionRepository.complete_run] of a draft with its target. *)
Definition complete_revision_run (id : UUID) (status : ReportRevisionStatus) (d : ReportRevisionDraft)
    (completed_at : time) : dbM ReportRevisionRunRecord :=
  db ← get;
  r ← found (find (λ r, bool_decide (vr_id r = id)) (rb_revisions db)) "REPORT_REVISION_RUN_NOT_FOUND";
  let target := rr_id (ag_report (vd_target d)) in
  persisted ← add_report (vd_target d);
  stmt (reject_if (neqb target (rr_id (ag_report persisted))) ValueError "REPORT_REVISION_TARGET_ID_MISMATCH");;
  let done_run := revision_completed r status target d completed_at in
  db ← get;
  let rows := map (λ x, if bool_decide (vr_id x = id) then done_run else x) (rb_revisions db) in
  constraint (uniq (omap vr_target_report_id rows)) "uq_report_revision_runs_target_report";;
  put (λ db, with_revisions db rows);;
  stmt (valid_revision done_run).

(** [SqlAlchemyReportReleaseGateRepository.add_gate] *)
Definition gate_row (id : UUID) (d : ReportReleaseDecisionResult) (sealed : option UUID) (created_at : time) :
    ReportReleaseGateRow :=
  mkGateRow id (de_candidate_report_id d) (de_round_two_reflection_run_id d) sealed (de_gate_version d)
    (de_input_manifest_checksum d) (de_report_checksum d) (de_internal_release_status d)
    (de_requirements d) (de_reason_codes d) created_at.
Definition add_gate (id : UUID) (d : ReportReleaseDecisionResult) (sealed : option UUID) (created_at : time) :
    dbM ReportReleaseGateRow :=
  match de_sealed_report d with
  | None => mret tt
  | Some a =>
      persisted ← add_report a;
      stmt (reject_if (neqb sealed (Some (rr_id (ag_report persisted)))) ValueError
              "REPORT_RELEASE_SEALED_ID_MISMATCH")
  end;;
  let row := gate_row id d sealed created_at in
  db ← get;
  let rows := rb_gates db ++ [row] in
  constraint (uniq (map gw_id rows)) "pk_report_release_gates";;
  constraint (uniq (map (λ g, (gw_candidate_report_id g, gw_gate_version g)) rows))
    "uq_report_release_gates_candidate_version";;
  constraint (uniq (omap gw_sealed_report_id rows)) "uq_report_release_gates_sealed_report";;
  constraint (has (gw_candidate_report_id row) (map rr_id (rb_reports db))) "fk_report_release_gates_candidate";;
  constraint (has (gw_round_two_reflection_run_id row) (map fr_id (rb_reflections db)))
    "fk_report_release_gates_reflection";;
  put (λ db, with_gates db rows);; mret row.
End Workflow.
