(* ===== verification/ReportCli.v ===== *)
(** The report commands: sealing a request, generating, reflecting on, revising
    and releasing a report, each as one transaction over the report tables
    (report_cli_application.py, domain/reports/requests.py, application.py), and
    what holds after every sequence of commands. *)
From S2P Require Import Prelude Session PyDecimal PyText Sha256 AgentModel RunControl ToolRun PyParse Ledger Claims.
From S2P Require Import Text DocModel Citations Bm25.
From S2P Require Import ReportModel ReportText ReportLabels ReportInput ReportTemplate ReportRender Language.
From S2P Require Import Reflection ReportRevise ReleaseGate ReportCompose ReportStore.

(** * The package bundle *)

(** The rows of the research agent, of securities and of citations a report
    reads; a security with its issuer. *)
Record agent_rows := mkAgentRows {
  aw_packages : list ResearchPackageRecord; aw_runs : list ResearchAgentRunRecord;
  aw_requests : list ResearchRequestRecord; aw_securities : list (UUID * UUID);
  aw_claims : list ResearchClaimWrite; aw_evidence : list ResearchEvidenceRecord;
  aw_links : list ClaimEvidenceLinkWrite; aw_citations : list CitationAnchorRecord }.
Definition row_with {A} (key : A → UUID) (l : list A) (id : UUID) : option A :=
  find (λ x, bool_decide (key x = id)) l.
Definition rows_of_run {A} (run id : A → UUID) (l : list A) (run_id : UUID) : list A :=
  sort_key (λ x, uuid_str (id x)) (filter (λ x, run x = run_id) l).
(** A citation is taken as verified when the last evidence that cites it is VALID. *)
Definition verification_of (evidence : list ResearchEvidenceRecord) (c : CitationAnchorRecord) :
    CitationVerification :=
  let statuses := map e_status (filter (λ e, e_citation_id e = Some (ca_id c)) evidence) in
  mkVerification (if bool_decide (last statuses = Some EvStatus.VALID) then CitSt.VALID else CitSt.INVALID)
    (ca_id c) [].
(** [get_package_bundle] *)
Definition get_package_bundle (rows : agent_rows) (id : UUID) : res (option PersistedReportInput) :=
  match row_with pk_id (aw_packages rows) id with
  | None => Ok None
  | Some p =>
      match row_with run_id (aw_runs rows) (pk_run_id p), row_with rq_id (aw_requests rows) (pk_request_id p),
            row_with fst (aw_securities rows) (pk_security_id p) with
      | Some run, Some request, Some security =>
          let evidence := rows_of_run e_run_id e_id (aw_evidence rows) (pk_run_id p) in
          let cited := omap e_citation_id evidence in
          let citations := sort_key (λ c, uuid_str (ca_id c)) (filter (λ c, ca_id c ∈ cited) (aw_citations rows)) in
          Some <$> validated PersistedReportInput_valid
            (mkInput p run request security.2 (rows_of_run cl_run_id cl_id (aw_claims rows) (pk_run_id p))
               evidence (rows_of_run lk_run_id lk_id (aw_links rows) (pk_run_id p)) citations
               (map (verification_of evidence) citations))
      | _, _, _ => Ok None
      end
  end.

(** * Requests (requests.py) *)

Record CreateReportRequest := mkCreateReport {
  cr_research_package_id : UUID; cr_report_type : ReportType; cr_report_locale : ReportLocale;
  cr_template_name : string; cr_template_version : string; cr_report_policy_version : string;
  cr_reflection_policy_version : string; cr_requested_sections : list ReportSection;
  cr_include_evidence_appendix : bool; cr_include_claim_index : bool; cr_max_excerpt_length : Z }.
Definition request_error_if (b : bool) (code : string) : res unit :=
  reject_if b (NamedError "ReportRequestError") code.
(** [_validate_package_state] *)
Definition _validate_package_state (s : ResearchPackageStatus) (t : ReportType) : res unit :=
  request_error_if (bool_decide (s = PkgStatus.FAILED)) "RESEARCH_PACKAGE_FAILED";;
  request_error_if (bool_decide (s = PkgStatus.BLOCKED) && neqb t RepType.DATA_QUALITY_REPORT)
    "BLOCKED_PACKAGE_REPORT_TYPE_NOT_ALLOWED".
Definition idempotency_basis (c : CreateReportRequest) (m : ReportInputManifest) : pjson :=
  PObj [(ulit "research_package_id", j_uuid (cr_research_package_id c));
    (ulit "report_type", j_str (RepType.value (cr_report_type c)));
    (ulit "report_locale", j_str (RepLocale.value (cr_report_locale c)));
    (ulit "template_name", j_str (cr_template_name c)); (ulit "template_version", j_str (cr_template_version c));
    (ulit "report_policy_version", j_str (cr_report_policy_version c));
    (ulit "reflection_policy_version", j_str (cr_reflection_policy_version c));
    (ulit "requested_sections", j_enums RepSec.value (cr_requested_sections c));
    (ulit "include_evidence_appendix", PBool (cr_include_evidence_appendix c));
    (ulit "include_claim_index", PBool (cr_include_claim_index c));
    (ulit "max_excerpt_length", PInt (cr_max_excerpt_length c));
    (ulit "manifest_checksum", j_str (mf_canonical_payload_checksum m));
    (ulit "package_checksum", j_str (mf_package_checksum m)); (ulit "claims_checksum", j_str (mf_claims_checksum m));
    (ulit "evidence_checksum", j_str (mf_evidence_checksum m)); (ulit "links_checksum", j_str (mf_links_checksum m));
    (ulit "citations_checksum", j_str (mf_citations_checksum m));
    (ulit "lineage_checksum", j_str (mf_lineage_checksum m))].

Section Commands.
Context `{UnicodeData} `{CharData} `{RowSizes}.

(** [ReportRequestService.create], up to the row it stores. *)
Definition seal_request (rows : agent_rows) (id : UUID) (now : time) (c : CreateReportRequest) :
    res ReportRequestRecord :=
  bundle ← get_package_bundle rows (cr_research_package_id c);
  i ← require_some bundle (NamedError "ReportRequestError") "RESEARCH_PACKAGE_NOT_FOUND";
  m ← build_report_input_manifest i;
  v ← validate_report_input_manifest m i;
  _validate_package_state (mf_package_status (vi_manifest v)) (cr_report_type c);;
  key ← report_checksum (idempotency_basis c (vi_manifest v));
  validated ReportRequestRecord_valid
    (mkReportRequest id (vi_manifest v) (cr_report_type c) (cr_report_locale c) (cr_template_name c)
       (cr_template_version c) (cr_report_policy_version c) (cr_reflection_policy_version c)
       (cr_requested_sections c) (cr_include_evidence_appendix c) (cr_include_claim_index c)
       (cr_max_excerpt_length c) key now).
Definition create_request (rows : agent_rows) (id : UUID) (now : time) (c : CreateReportRequest) :
    dbM ReportRequestRecord :=
  r ← stmt (seal_request rows id now c); add_request r.

(** * Commands (report_cli_application.py) *)

(** New identifiers and readings of the clock, in the order they are taken. *)
Record cli_env := mkCliEnv { en_uuid4 : nat → UUID; en_now : nat → time }.

Record GenerateReportCommand := mkGenerate {
  ge_research_package_id : UUID; ge_report_type : ReportType; ge_report_locale : ReportLocale }.
Record ReportReferenceData := mkReferenceData {
  rx_policy : ReportPolicyRecord; rx_reflection_policy : RuntimeReflectionPolicyRecord;
  rx_template : ReportTemplateVersionRecord }.
(** The seeded policy, reflection policy and template of a command. *)
Definition reference_data (c : GenerateReportCommand) (db : reference_db) : res ReportReferenceData :=
  writes ← build_default_template_writes;
  t ← require_some (find (λ t, bool_decide (tp_report_type t = ge_report_type c)
                               && bool_decide (tp_locale t = ge_report_locale c)) writes)
        (NamedError "StopIteration") "";
  match get_policy db REPORT_POLICY_VERSION, get_runtime_reflection_policy db RUNTIME_REFLECTION_POLICY_VERSION,
        get_template db (tp_name t) (tp_version t) (ge_report_locale c) with
  | Some policy, Some reflection, Some template => Ok (mkReferenceData policy reflection template)
  | _, _, _ => raise LookupError "REPORT_REFERENCE_DATA_NOT_SEEDED"
  end.
Definition report_command (c : GenerateReportCommand) (x : ReportReferenceData) : CreateReportRequest :=
  let template := tp_write (rx_template x) in
  mkCreateReport (ge_research_package_id c) (ge_report_type c) (ge_report_locale c) (tp_name template)
    (tp_version template) (rp_version (rx_policy x)) (rfp_version (rx_reflection_policy x)) RepSec.all true true
    (rp_max_excerpt_length (rx_policy x)).
Definition generation_run (id : UUID) (q : ReportRequestRecord) (now : time) : ReportGenerationRunRecord :=
  let m := rt_manifest q in
  mkGenerationRun id (rt_id q) (mf_research_package_id m) (mf_research_agent_run_id m) (mf_security_id m)
    (mf_snapshot_id m) (mf_research_as_of_time m) (rt_report_type q) (rt_report_locale q)
    (rt_report_policy_version q) (rt_template_name q) (rt_template_version q) RENDERER_VERSION
    (mf_manifest_schema_version m) (mf_canonical_payload_checksum m) (mf_package_checksum m)
    (mf_claims_checksum m) (mf_evidence_checksum m) (mf_links_checksum m) (mf_citations_checksum m)
    (mf_lineage_checksum m) (rt_idempotency_key q) GenSt.CREATED 0 None None None now now None.
(** [_generation_outcome] *)
Definition _generation_outcome (s : ResearchReportStatus) : res (ReportGenerationStatus * option string) :=
  match s with
  | RepSt.DRAFT => Ok (GenSt.COMPLETED, None)
  | RepSt.PARTIAL => Ok (GenSt.PARTIAL, Some "VERIFIED_EVIDENCE_INCOMPLETE")
  | RepSt.BLOCKED => Ok (GenSt.BLOCKED, Some "VERIFIED_EVIDENCE_UNAVAILABLE")
  | _ => raise ValueError "REPORT_GENERATION_STATUS_INVALID"
  end.
(** [_generate] *)
Definition generate (env : cli_env) (rows : agent_rows) (c : GenerateReportCommand) :
    dbM (ReportGenerationStatus * UUID * UUID) :=
  db ← get;
  x ← stmt (reference_data c (rb_reference db));
  q ← create_request rows (en_uuid4 env 0) (en_now env 0) (report_command c x);
  bundle ← stmt (get_package_bundle rows (ge_research_package_id c));
  persisted ← found bundle "RESEARCH_PACKAGE_NOT_FOUND";
  verified ← stmt (validate_report_input_manifest (rt_manifest q) persisted);
  run ← create_generation_run (generation_run (en_uuid4 env 1) q (en_now env 1));
  run ← transition_generation (gr_id run)
          (mkTransition GenSt.CREATED GenSt.RUNNING 0 None None None (en_now env 1));
  a ← stmt (compose verified q (rx_policy x) (tp_write (rx_template x)) (en_uuid4 env 2) (gr_id run) (en_now env 1));
  stored ← add_report a;
  outcome ← stmt (_generation_outcome (rr_status (ag_report stored)));
  run ← transition_generation (gr_id run)
          (mkTransition GenSt.RUNNING outcome.1 (Z.of_nat (length (mf_warnings (rt_manifest q)))) outcome.2 None
             None (en_now env 2));
  mret (gr_status run, rr_id (ag_report stored), gr_id run).

(** [_request_for_report] *)
Definition _request_for_report (db : report_db) (run_id : UUID) : res ReportRequestRecord :=
  run ← get_generation_run db run_id;
  run ← require_some run LookupError "REPORT_GENERATION_RUN_NOT_FOUND";
  q ← get_request db (gr_report_request_id run);
  require_some q LookupError "REPORT_REQUEST_NOT_FOUND".

(** [_finding_write] *)
Definition _finding_write (report_id run_id : UUID) (index : Z) (c : CandidateReflectionFinding) (now : time) :
    ReportReflectionFindingRecord :=
  mkFinding
    (uuid5 (uuid_str run_id +:+ ":finding:" +:+ str_of_Z index +:+ ":" +:+ Chk.value (cf_finding_code c) +:+ ":"
            +:+ default "None" (cf_block_key c)))
    run_id report_id (section_id report_id <$> cf_report_section c) (block_id report_id <$> cf_block_key c)
    (cf_claim_id c) (cf_evidence_id c) (cf_citation_id c) (Chk.value (cf_finding_code c)) (cf_category c)
    (cf_severity c) (cf_description c) (cf_remediation_code c) (cf_blocking c) now None None.
Definition finding_writes (report_id run_id : UUID) (l : list CandidateReflectionFinding) (now : time) :
    res (list ReportReflectionFindingRecord) :=
  res_map (λ x : Z * CandidateReflectionFinding,
    validated Finding_valid (_finding_write report_id run_id x.1 x.2 now))
    (zip (seqZ 0 (Z.of_nat (length l))) l).

(** [ReflectReportCommand]: the predecessors it names are read by nobody. *)
Record ReflectReportCommand := mkReflect {
  re_report_id : UUID; re_round_number : Z; re_prior_reflection_run_id : option UUID;
  re_revision_run_id : option UUID }.
Definition ReflectReportCommand_valid (c : ReflectReportCommand) : bool :=
  between 1 2 (re_round_number c)
  && negb ((re_round_number c =? 1) && (is_some (re_prior_reflection_run_id c) || is_some (re_revision_run_id c)))
  && negb ((re_round_number c =? 2) && is_none (re_prior_reflection_run_id c)).
(** [_reflect] *)
Definition reflect_report (env : cli_env) (c : ReflectReportCommand) : dbM ReportReflectionResult :=
  c ← stmt (validated ReflectReportCommand_valid c);
  db ← get;
  a ← stmt (get_report db (re_report_id c));
  a ← found a "RESEARCH_REPORT_NOT_FOUND";
  q ← stmt (_request_for_report db (rr_report_generation_run_id (ag_report a)));
  policy ← found (get_runtime_reflection_policy (rb_reference db) (rt_reflection_policy_version q))
             "RUNTIME_REFLECTION_POLICY_NOT_FOUND";
  d ← stmt (reflect a (rt_manifest q) policy (re_round_number c));
  let run_id := en_uuid4 env 0 in
  let started_at := en_now env 0 in
  _ ← create_reflection_run
        (mkReflectionRun run_id (rr_id (ag_report a)) (rfp_version policy) (fd_engine_name d) (fd_engine_version d)
           (re_round_number c) (rr_content_checksum (ag_report a)) ReflSt.RUNNING started_at 0 0 0 0 0 None None
           None None);
  findings ← stmt (finding_writes (rr_id (ag_report a)) run_id (fd_findings d) started_at);
  complete_reflection_run run_id (fd_status d) (count_findings_by_severity findings) (en_now env 1) findings.

(** [_revise] *)
Definition revise_report (env : cli_env) (report_id reflection_run_id : UUID) : dbM ReportRevisionRunRecord :=
  db ← get;
  source ← stmt (get_report db report_id);
  reflection ← stmt (get_result db reflection_run_id);
  match source, reflection with
  | Some source, Some reflection =>
      policy ← found (get_policy (rb_reference db) REPORT_POLICY_VERSION) "REPORT_POLICY_NOT_FOUND";
      d ← stmt (revise source reflection policy);
      _ ← create_revision_run
            (mkRevisionRun (en_uuid4 env 0) (rr_id (ag_report source)) (fr_id (fx_run reflection))
               (rp_version policy) REVISION_ENGINE_NAME REVISION_ENGINE_VERSION RevSt.RUNNING (en_now env 0) None []
               [] [] None None None None);
      complete_revision_run (en_uuid4 env 0)
        (if bool_decide (vd_unresolved_finding_ids d = []) then RevSt.COMPLETED else RevSt.PARTIAL) d (en_now env 1)
  | _, _ => stmt (raise LookupError "REPORT_REVISION_INPUT_NOT_FOUND")
  end.

(** [_release] *)
Definition gate_id (report_id : UUID) : UUID := uuid5 (uuid_str report_id +:+ ":" +:+ RELEASE_GATE_VERSION).
Definition release_report (env : cli_env) (report_id reflection_run_id : UUID) : dbM ReportReleaseGateRow :=
  db ← get;
  report ← stmt (get_report db report_id);
  reflection ← stmt (get_result db reflection_run_id);
  match report, reflection with
  | Some a, Some x =>
      q ← stmt (_request_for_report db (rr_report_generation_run_id (ag_report a)));
      policy ← found (get_policy (rb_reference db) (rt_report_policy_version q)) "REPORT_POLICY_NOT_FOUND";
      d ← stmt (evaluate a (rt_manifest q) x policy);
      add_gate (gate_id (rr_id (ag_report a))) d ((λ s, rr_id (ag_report s)) <$> de_sealed_report d) (en_now env 0)
  | _, _ => stmt (raise LookupError "REPORT_RELEASE_INPUT_NOT_FOUND")
  end.

(** [_invoke]: the commands that write; one that fails changes nothing. *)
Inductive command :=
| SeedPolicy | SeedReflectionPolicy | SeedTemplates
| Generate (c : GenerateReportCommand) | Reflect (c : ReflectReportCommand)
| Revise (report_id reflection_run_id : UUID) | Release (report_id reflection_run_id : UUID).
Definition seed {A} (f : reference_db → res (reference_db * A)) : dbM unit :=
  db ← get; x ← stmt (f (rb_reference db)); put (λ db, with_reference db x.1).
Definition invoke (env : cli_env) (rows : agent_rows) (c : command) : dbM unit :=
  match c with
  | SeedPolicy => seed (λ db, x ← policy_seed_v1 db; Ok (x.1.1, x.2))
  | SeedReflectionPolicy => seed (λ db, x ← reflection_policy_seed_v1 db; Ok (x.1.1, x.2))
  | SeedTemplates => seed (λ db, x ← template_seed_v1 (en_uuid4 env) (en_now env 0) db; Ok (x.1.1, x.2))
  | Generate c => _ ← generate env rows c; mret tt
  | Reflect c => _ ← reflect_report env c; mret tt
  | Revise report run => _ ← revise_report env report run; mret tt
  | Release report run => _ ← release_report env report run; mret tt
  end.

Definition empty_reports : report_db := mkReportDb (mkReferenceDb [] [] []) [] [] [] [] [] [] [] [] [] [] [] [].
Inductive cli_step (db db' : report_db) : Prop :=
| cli_ran env rows c : invoke env rows c db = Ok (tt, db') → cli_step db db'.
Definition reports_reachable (db : report_db) : Prop := rtc cli_step empty_reports db.
End Commands.
