(* ===== verification/ReportRuns.v ===== *)
(** What every sequence of report commands leaves in the tables: rows are only
    added; the versions of a run form one chain; a reflection run records what the
    engine finds; and a published report is clean. *)
From S2P Require Import Prelude Session PyDecimal PyText Sha256 AgentModel RunControl ToolRun PyParse Ledger Claims.
From S2P Require Import Text DocModel Citations Bm25.
From S2P Require Import ReportModel ReportText ReportLabels ReportInput ReportTemplate ReportRender Language.
From S2P Require Import Reflection ReportRevise ReleaseGate ReportCompose ReportStore ReportCli Composed.

(** * Statements *)

Lemma get_Ok db x db' : get db = Ok (x, db') ↔ x = db ∧ db' = db.
Proof. unfold get. naive_solver. Qed.
Lemma put_Ok f db u db' : put f db = Ok (u, db') ↔ db' = f db.
Proof. destruct u. unfold put. naive_solver. Qed.
Lemma ret_Ok {A} (x y : A) (db db' : report_db) : (mret x : dbM A) db = Ok (y, db') ↔ y = x ∧ db' = db.
Proof. unfold mret, sess_ret. naive_solver. Qed.
Lemma stmt_Ok {A} (m : res A) db x db' : stmt m db = Ok (x, db') ↔ m = Ok x ∧ db' = db.
Proof. apply sess_lift_Ok. Qed.
Lemma constraint_Ok b name db u db' : constraint b name db = Ok (u, db') ↔ b = true ∧ db' = db.
Proof. destruct u. unfold constraint. rewrite stmt_Ok. by destruct b; cbn; naive_solver. Qed.
Lemma found_Ok {A} (o : option A) code db x db' : found o code db = Ok (x, db') ↔ o = Some x ∧ db' = db.
Proof. unfold found. rewrite stmt_Ok, require_some_Ok. done. Qed.
Lemma octets_between_Ok lo hi t name db u db' : octets_between lo hi t name db = Ok (u, db') → db' = db.
Proof. intros (n & d & [_ ->]%stmt_Ok & [_ ->]%constraint_Ok)%sess_bind_Ok. done. Qed.
Lemma each_Ok {A} (f : A → dbM unit) l db u db' :
  (∀ x d v d', f x d = Ok (v, d') → d' = d) → each f l db = Ok (u, db') → db' = db.
Proof.
  intros Hf (ys & d & E & [_ ->]%ret_Ok)%sess_bind_Ok. revert db ys E. induction l as [|x l IH]; intros db ys; cbn.
  - by intros [_ ->]%ret_Ok.
  - intros (y & d1 & ->%Hf & E)%sess_bind_Ok. apply sess_bind_Ok in E as (zs & d2 & E & [_ ->]%ret_Ok). by eapply IH.
Qed.

(** Takes a transaction apart, statement by statement. *)
Ltac stmt_inv E :=
  lazymatch type of E with
  | (_ ≫= _) _ = Ok _ =>
      let x := fresh "x" in let d := fresh "d" in let F := fresh "F" in
      apply sess_bind_Ok in E as (x & d & F & E); stmt_inv F; cbv beta in E; stmt_inv E
  | get _ = Ok _ => apply get_Ok in E as [-> ->]
  | put _ _ = Ok _ => apply put_Ok in E as ->
  | stmt _ _ = Ok _ => apply stmt_Ok in E as [E ->]
  | constraint _ _ _ = Ok _ => apply constraint_Ok in E as [E ->]
  | found _ _ _ = Ok _ => apply found_Ok in E as [E ->]
  | octets_between _ _ _ _ _ = Ok _ => apply octets_between_Ok in E as ->
  | mret _ _ = Ok _ => apply ret_Ok in E as [-> ->]
  | (let _ := _ in _) = Ok _ => cbv zeta in E; stmt_inv E
  | _ => idtac
  end.

Section Runs.
Context `{UnicodeData} `{CharData} `{RowSizes}.

Lemma uniq_fresh {A B} `{EqDecision B} (f : A → B) l x : uniq (map f (l ++ [x])) = true → f x ∉ map f l.
Proof.
  unfold uniq. rewrite bool_decide_eq_true, map_app, NoDup_app. intros (_ & Hd & _) Hin. apply (Hd _ Hin). left.
Qed.

Lemma add_report_rows_Ok r db u db' : add_report_rows r db = Ok (u, db') →
  db' = with_report db r (section_rows r) (block_rows r) ∧ rr_id r ∉ map rr_id (rb_reports db) ∧
  (rr_report_generation_run_id r, rr_report_version r)
    ∉ map (λ r, (rr_report_generation_run_id r, rr_report_version r)) (rb_reports db) ∧
  uniq (omap rr_previous_report_id (rb_reports db ++ [r])) = true ∧
  rr_report_generation_run_id r ∈ map gr_id (rb_runs db).
Proof.
  intros E. unfold add_report_rows in E. stmt_inv E.
  match goal with F : each _ _ _ = _ |- _ => apply each_Ok in F as -> end.
  2: { intros b d0 v d1. destruct (bk_text _); [apply octets_between_Ok|by intros [_ ->]%ret_Ok]. }
  split_and!; [done|exact (uniq_fresh _ _ _ F)|exact (uniq_fresh _ _ _ F0)|done|].
  unfold has in *. by match goal with F : bool_decide (_ ∈ map gr_id _) = true |- _ => apply bool_decide_eq_true in F end.
Qed.
Lemma add_bindings_Ok id a db u db' : add_bindings id a db = Ok (u, db') →
  ∃ ts, db' = with_bindings db (map (pair id) (ag_claim_bindings a)) (map (pair id) (ag_evidence_bindings a)) ts ∧
    Forall (λ t, t.1.1 = id) ts.
Proof.
  intros E. unfold add_bindings in E. stmt_inv E.
  match goal with F : each _ _ _ = _ |- _ => apply each_Ok in F as -> end.
  2: { intros b d0 v d1. apply octets_between_Ok. }
  match goal with F : res_map _ _ = Ok ?ts |- _ => exists ts; split; [done|]; apply res_map_Ok in F end.
  apply Forall_forall. intros t Ht.
  match goal with F : Forall2 _ _ _ |- _ => destruct (Forall2_elem_r _ _ _ _ F Ht) as (b & _ & E) end.
  apply bind_Ok in E as (? & _ & [= <-]). done.
Qed.

(** A report stored with all its rows. *)
Definition stored (db : report_db) (a : ResearchReportAggregate) (ts : list (UUID * UUID * ReportCitationBindingWrite)) :
    report_db :=
  let r := ag_report a in
  with_bindings (with_report db r (section_rows r) (block_rows r)) (map (pair (rr_id r)) (ag_claim_bindings a))
    (map (pair (rr_id r)) (ag_evidence_bindings a)) ts.
Lemma add_report_Ok a db a' db' : add_report a db = Ok (a', db') →
  ag_report a' = ag_report a ∧
  (∃ ts, db' = stored db a ts ∧ Forall (λ t, t.1.1 = rr_id (ag_report a)) ts) ∧
  rr_id (ag_report a) ∉ map rr_id (rb_reports db) ∧
  (rr_report_generation_run_id (ag_report a), rr_report_version (ag_report a))
    ∉ map (λ r, (rr_report_generation_run_id r, rr_report_version r)) (rb_reports db) ∧
  uniq (omap rr_previous_report_id (rb_reports db ++ [ag_report a])) = true ∧
  rr_report_generation_run_id (ag_report a) ∈ map gr_id (rb_runs db) ∧
  ResearchReportRecord_valid (ag_report a) = true.
Proof.
  intros E. unfold add_report in E. stmt_inv E.
  match goal with F : add_report_rows _ _ = _ |- _ => apply add_report_rows_Ok in F as (-> & Hid & Hver & Hprev & Hrun) end.
  match goal with F : add_bindings _ _ _ = _ |- _ => apply add_bindings_Ok in F as (ts & -> & Hts) end.
  match goal with F : validated _ _ = _ |- _ => apply validated_Ok in F as [-> Hval] end.
  apply new_aggregate_Ok in E as [-> _]. split; [done|]. split; [by exists ts|]. done.
Qed.

(** * Growth of the tables *)

(** Rows are only added, and new bindings belong to new reports. *)
Definition adds_to {A} (known : list UUID) (id : A → UUID) (l l' : list A) : Prop :=
  ∃ k, l' = l ++ k ∧ Forall (λ x, id x ∉ known) k.
Record grows (db db' : report_db) : Prop := mkGrows {
  gs_policies : rd_policies (rb_reference db) `prefix_of` rd_policies (rb_reference db');
  gs_reflection_policies :
    rd_reflection_policies (rb_reference db) `prefix_of` rd_reflection_policies (rb_reference db');
  gs_templates : rd_templates (rb_reference db) `prefix_of` rd_templates (rb_reference db');
  gs_requests : rb_requests db `prefix_of` rb_requests db'; gs_runs : rb_runs db `prefix_of` rb_runs db';
  gs_reports : rb_reports db `prefix_of` rb_reports db';
  gs_reflections : rb_reflections db `prefix_of` rb_reflections db';
  gs_gates : rb_gates db `prefix_of` rb_gates db';
  gs_claims : adds_to (map rr_id (rb_reports db)) fst (rb_claims db) (rb_claims db');
  gs_evidence : adds_to (map rr_id (rb_reports db)) fst (rb_evidence db) (rb_evidence db');
  gs_citations : adds_to (map rr_id (rb_reports db)) (λ t, t.1.1) (rb_citations db) (rb_citations db') }.

Lemma adds_to_refl {A} known (id : A → UUID) l : adds_to known id l l.
Proof. exists []. by rewrite app_nil_r. Qed.
Lemma of_report_adds {A} (id : A → UUID) known l l' r :
  adds_to known fst l l' → r ∈ known → of_report id l' r = of_report id l r.
Proof.
  intros (k & -> & Hk) Hr. unfold of_report. rewrite filter_app, (list_filter_none _ k), app_nil_r; [done|].
  eapply Forall_impl; [exact Hk|]. cbn. intros x Hx E. by rewrite E in Hx.
Qed.

(** What was read of a report stays so. *)
Lemma get_report_grows db db' id a : grows db db' → get_report db id = Ok (Some a) → get_report db' id = Ok (Some a).
Proof.
  intros Hg. unfold get_report. destruct (find _ (rb_reports db)) as [r|] eqn:Er; [|done].
  rewrite (find_prefix _ _ _ _ (gs_reports _ _ Hg) Er). apply find_elem in Er as [Hr _].
  assert (Hin : rr_id r ∈ map rr_id (rb_reports db)) by by apply list_elem_of_fmap_2.
  intros E. destruct (_report_aggregate db r) as [a0|] eqn:E0; [|done]. injection E as <-. rename E0 into E. unfold _report_aggregate in E |- *.
  apply bind_Ok in E as (r' & Hr' & E). pose proof Hr' as [-> _]%validated_Ok. rewrite Hr', Ok_bind.
  rewrite (of_report_adds _ _ _ _ _ (gs_claims _ _ Hg) Hin), (of_report_adds _ _ _ _ _ (gs_evidence _ _ Hg) Hin).
  replace (of_report rtb_id (map _ (rb_citations db')) (rr_id r))
    with (of_report rtb_id (map (λ b, (b.1.1, b.2)) (rb_citations db)) (rr_id r)); [by rewrite E|].
  symmetry. eapply of_report_adds; [|exact Hin]. destruct (gs_citations _ _ Hg) as (k & -> & Hk).
  exists (map (λ b, (b.1.1, b.2)) k). split; [apply map_app|]. by rewrite Forall_map.
Qed.
Lemma request_grows db db' id q : grows db db' → _request_for_report db id = Ok q → _request_for_report db' id = Ok q.
Proof.
  intros Hg E. unfold _request_for_report in *. apply bind_Ok in E as (o & Ho & E).
  apply bind_Ok in E as (run & ->%require_some_Ok & E). apply bind_Ok in E as (o' & Ho' & E).
  unfold get_generation_run in *. destruct (find _ (rb_runs db)) as [r|] eqn:Er; [|done].
  rewrite (find_prefix _ _ _ _ (gs_runs _ _ Hg) Er), Ho, Ok_bind. change (require_some (Some run) _ _ ≫= ?f) with (f run). cbv beta.
  unfold get_request in *. destruct (find _ (rb_requests db)) as [p|] eqn:Ep; [|injection Ho' as <-; discriminate E].
  by rewrite (find_prefix _ _ _ _ (gs_requests _ _ Hg) Ep), Ho', Ok_bind.
Qed.

Lemma update_last {A} (key : A → UUID) (g : A → A) l x : key x ∉ map key l →
  map (λ y, if bool_decide (key y = key x) then g y else y) (l ++ [x]) = l ++ [g x].
Proof.
  intros Hx. rewrite map_app. cbn. rewrite bool_decide_eq_true_2 by done. f_equal.
  induction l as [|y l IH]; [done|]. cbn in Hx |- *. apply not_elem_of_cons in Hx as [Hy Hx].
  rewrite bool_decide_eq_false_2 by congruence. by rewrite IH.
Qed.
Lemma find_last {A} (key : A → UUID) l x : key x ∉ map key l → find (λ y, bool_decide (key y = key x)) (l ++ [x]) = Some x.
Proof.
  induction l as [|y l IH]; cbn; [by rewrite bool_decide_eq_true_2 by done|].
  rewrite not_elem_of_cons. intros [Hy Hx]. rewrite bool_decide_eq_false_2 by congruence. by apply IH.
Qed.

Lemma transition_generation_Ok db l r t r' db' : rb_runs db = l ++ [r] → gr_id r ∉ map gr_id l →
  transition_generation (gr_id r) t db = Ok (r', db') →
  r' = transitioned r t ∧ db' = with_runs db (l ++ [transitioned r t]).
Proof.
  intros El Hr E. unfold transition_generation in E. stmt_inv E.
  match goal with F : find _ _ = _ |- _ => rewrite El, find_last in F by done; injection F as <- end.
  apply validated_Ok in E as [-> _].
  match goal with F : new_transition _ = Ok _ |- _ => unfold new_transition in F; cbv zeta in F;
    repeat (apply seq_Ok in F as [_ F]); injection F as <- end.
  split; [done|]. rewrite El. f_equal. exact (update_last gr_id (λ x, transitioned x t) l r Hr).
Qed.

(** * What each command does *)

Lemma add_request_Ok q db q' db' : add_request q db = Ok (q', db') →
  q' = q ∧ db' = with_requests db (rb_requests db ++ [q]) ∧ rt_id q ∉ map rt_id (rb_requests db) ∧
  rt_idempotency_key q ∉ map rt_idempotency_key (rb_requests db).
Proof.
  intros E. unfold add_request in E. stmt_inv E. apply validated_Ok in E as [-> _].
  split_and!; [done|done|exact (uniq_fresh _ _ _ F)|exact (uniq_fresh _ _ _ F0)].
Qed.
Lemma create_request_Ok rows id now c db q db' : create_request rows id now c db = Ok (q, db') →
  seal_request rows id now c = Ok q ∧ db' = with_requests db (rb_requests db ++ [q]) ∧
  rt_idempotency_key q ∉ map rt_idempotency_key (rb_requests db).
Proof.
  intros E. unfold create_request in E. stmt_inv E. apply add_request_Ok in E as (-> & -> & _ & Hkey). done.
Qed.
Lemma create_generation_run_Ok r db r' db' : create_generation_run r db = Ok (r', db') →
  r' = r ∧ db' = with_runs db (rb_runs db ++ [r]) ∧ gr_id r ∉ map gr_id (rb_runs db).
Proof.
  intros E. unfold create_generation_run in E. stmt_inv E.
  match goal with F : validated _ _ = _ |- _ => apply validated_Ok in F as [-> _] end.
  split_and!; [done|done|]. match goal with F : uniq (map gr_id _) = true |- _ => exact (uniq_fresh _ _ _ F) end.
Qed.

Lemma outcome_statuses s o : _generation_outcome s = Ok o →
  o.1 ∈ [GenSt.COMPLETED; GenSt.PARTIAL; GenSt.BLOCKED] ∧ s ∈ [RepSt.DRAFT; RepSt.PARTIAL; RepSt.BLOCKED].
Proof. destruct s; cbn; intros E; try discriminate E; injection E as <-; rewrite !elem_of_cons; cbn; tauto. Qed.

Definition generated (env : cli_env) (rows : agent_rows) (c : GenerateReportCommand) (db db' : report_db) : Prop :=
  ∃ x q v run a ts, reference_data c (rb_reference db) = Ok x ∧
      seal_request rows (en_uuid4 env 0) (en_now env 0) (report_command c x) = Ok q ∧
      compose v q (rx_policy x) (tp_write (rx_template x)) (en_uuid4 env 2) (gr_id run) (en_now env 1) = Ok a ∧
      vi_manifest v = rt_manifest q ∧ gr_report_request_id run = rt_id q ∧
      gr_status run ∈ [GenSt.COMPLETED; GenSt.PARTIAL; GenSt.BLOCKED] ∧
      Forall (λ t, t.1.1 = rr_id (ag_report a)) ts ∧
      rt_idempotency_key q ∉ map rt_idempotency_key (rb_requests db) ∧
      gr_id run ∉ map gr_id (rb_runs db) ∧ rr_id (ag_report a) ∉ map rr_id (rb_reports db) ∧
      (rr_report_generation_run_id (ag_report a), rr_report_version (ag_report a))
        ∉ map (λ r, (rr_report_generation_run_id r, rr_report_version r)) (rb_reports db) ∧
      rr_status (ag_report a) ∈ [RepSt.DRAFT; RepSt.PARTIAL; RepSt.BLOCKED] ∧
      ResearchReportRecord_valid (ag_report a) = true ∧
      db' = with_runs (stored (with_requests db (rb_requests db ++ [q])) a ts) (rb_runs db ++ [run]).

Lemma generate_Ok env rows c db x db' : generate env rows c db = Ok (x, db') → generated env rows c db db'.
Proof.
  intros E. unfold generate in E. stmt_inv E.
  match goal with F : create_request _ _ _ _ _ = _ |- _ => apply create_request_Ok in F as (Hseal & -> & Hkey) end.
  match goal with F : create_generation_run _ _ = _ |- _ => apply create_generation_run_Ok in F as (-> & -> & Hrun) end.
  cbn [rb_runs with_requests] in Hrun.
  match goal with F : transition_generation (gr_id (generation_run _ _ _)) _ _ = _ |- _ =>
    apply (transition_generation_Ok _ (rb_runs db)) in F as [-> ->]; [|done|exact Hrun] end.
  match goal with F : add_report _ _ = _ |- _ => apply add_report_Ok in F as (Er & (ts & -> & Hts) & Hid & Hver & _ & _ & Hval) end.
  match goal with F : transition_generation _ _ _ = _ |- _ =>
    apply (transition_generation_Ok _ (rb_runs db)) in F as [-> ->]; [|done|exact Hrun] end.
  match goal with F : validate_report_input_manifest _ _ = _ |- _ => apply validate_manifest_iff in F as [Hm ->] end.
  match goal with F : _generation_outcome _ = Ok _ |- _ => apply outcome_statuses in F as [Hs1 Hs2] end.
  rewrite Er in *. match goal with F : compose _ ?q _ _ _ _ _ = Ok ?a |- _ =>
    eexists _, q, _, _, a, ts end.
  split_and!. 14: reflexivity. all: try eassumption. all: reflexivity.
Qed.

(** A reflection run records what the engine finds in the stored report. *)
Definition reflected (db : report_db) (r : ReportReflectionRunRecord) : Prop :=
  ∃ a q p d, get_report db (fr_research_report_id r) = Ok (Some a) ∧
    _request_for_report db (rr_report_generation_run_id (ag_report a)) = Ok q ∧
    reflect a (rt_manifest q) p (fr_round_number r) = Ok d ∧ fr_status r = fd_status d ∧
    fr_input_report_checksum r = rr_content_checksum (ag_report a).
Lemma get_report_id db id a : get_report db id = Ok (Some a) →
  rr_id (ag_report a) = id ∧ ag_report a ∈ rb_reports db.
Proof.
  unfold get_report. destruct (find _ _) as [r|] eqn:Er; [|done]. intros E.
  destruct (_report_aggregate db r) as [a0|] eqn:E0; [|done]. injection E as <-.
  apply find_elem in Er as [Hin Hid%bool_decide_eq_true]. unfold _report_aggregate in E0.
  apply bind_Ok in E0 as (r' & [-> _]%validated_Ok & E0). do 3 (apply bind_Ok in E0 as (? & _ & E0)).
  apply new_aggregate_Ok in E0 as [-> _]. done.
Qed.

Lemma create_reflection_run_Ok r db r' db' : create_reflection_run r db = Ok (r', db') →
  db' = with_reflections db (rb_reflections db ++ [r]) [] ∧ fr_id r ∉ map fr_id (rb_reflections db).
Proof.
  intros E. unfold create_reflection_run in E. stmt_inv E. split; [done|].
  match goal with F : uniq (map fr_id _) = true |- _ => exact (uniq_fresh _ _ _ F) end.
Qed.
Lemma complete_reflection_run_Ok l r status n t fs db x db' :
  rb_reflections db = l ++ [r] → fr_id r ∉ map fr_id l →
  complete_reflection_run (fr_id r) status n t fs db = Ok (x, db') →
  db' = with_reflections db (l ++ [reflection_completed r status n t]) (map finding_row fs) ∧
  fx_run x = reflection_completed r status n t.
Proof.
  intros El Hr E. unfold complete_reflection_run in E. stmt_inv E.
  match goal with F : find _ _ = _ |- _ => rewrite El, find_last in F by done; injection F as <- end.
  match goal with F : valid_reflection _ = _ |- _ => unfold valid_reflection in F; apply seq_Ok in F as [_ [= <-]] end.
  split.
  - rewrite El. f_equal. exact (update_last fr_id (λ _, reflection_completed r status n t) l r Hr).
  - unfold new_reflection_result in E. repeat (apply seq_Ok in E as [_ E]). cbn [fx_run fx_findings] in E.
    match type of E with match ?l with _ => _ end = _ => destruct l end; [by injection E as <-|].
    repeat (apply seq_Ok in E as [_ E]). by injection E as <-.
Qed.

Lemma with_reflections_twice db l l' fs : with_reflections (with_reflections db l []) l' fs = with_reflections db l' fs.
Proof. unfold with_reflections. cbn. by rewrite app_nil_r. Qed.
Lemma reflect_report_Ok env c db x db' : reflect_report env c db = Ok (x, db') →
  ∃ r fs, reflected db r ∧ fr_id r ∉ map fr_id (rb_reflections db) ∧
    db' = with_reflections db (rb_reflections db ++ [r]) fs.
Proof.
  intros E. unfold reflect_report in E. stmt_inv E.
  match goal with F : validated ReflectReportCommand_valid _ = _ |- _ => apply validated_Ok in F as [-> _] end.
  match goal with F : create_reflection_run _ _ = _ |- _ => apply create_reflection_run_Ok in F as [-> Hfresh] end.
  cbn [fr_id] in Hfresh.
  match type of E with complete_reflection_run _ _ _ _ _ (with_reflections ?db (?l ++ [?r]) _) = _ =>
    change (en_uuid4 env 0) with (fr_id r) in E at 1;
    apply (complete_reflection_run_Ok l r) in E as [-> Hx]; [|done|exact Hfresh] end.
  match goal with F : get_report db _ = Ok ?o, F2 : ?o = Some ?a |- _ => subst o; pose proof (get_report_id _ _ _ F) as [Hid _] end.
  rewrite with_reflections_twice. do 2 eexists. split; [|split; [|reflexivity]]; [|exact Hfresh].
  match goal with F : get_report db _ = Ok (Some ?a), F2 : _request_for_report db _ = Ok ?q,
    F3 : reflect ?a (rt_manifest ?q) ?p _ = Ok ?d |- _ => exists a, q, p, d end.
  cbn [fr_research_report_id fr_round_number fr_status fr_input_report_checksum reflection_completed].
  rewrite Hid. split_and!; first [eassumption|reflexivity].
Qed.

(** A published report is the sealed copy of a candidate the gate accepted. *)
Definition published (db : report_db) (r : ResearchReportRecord) : Prop :=
  ∃ a q x policy d, get_report db (rr_id (ag_report a)) = Ok (Some a) ∧
    _request_for_report db (rr_report_generation_run_id (ag_report a)) = Ok q ∧
    fx_run x ∈ rb_reflections db ∧ evaluate a (rt_manifest q) x policy = Ok d ∧
    de_internal_release_status d = Gate.PUBLISHABLE ∧ r = sealed_record (ag_report a) ∧
    (∃ g, g ∈ rb_gates db ∧ gw_candidate_report_id g = rr_id (ag_report a) ∧
       gw_sealed_report_id g = Some (rr_id r) ∧ gw_round_two_reflection_run_id g = fr_id (fx_run x) ∧
       gw_internal_release_status g = Gate.PUBLISHABLE).

Lemma get_result_run db id x : get_result db id = Ok (Some x) → fx_run x ∈ rb_reflections db.
Proof.
  unfold get_result. destruct (find _ _) as [r|] eqn:Er; [|done]. apply find_elem in Er as [Hin _].
  case_bool_decide; [done|]. intros E. apply bind_Ok in E as (rows & _ & E). cbv zeta in E.
  apply bind_Ok in E as (run & Hrun & E). unfold valid_reflection in Hrun. apply seq_Ok in Hrun as [_ [= <-]].
  destruct (new_reflection_result _) as [x'|] eqn:Ex; [|done]. injection E as <-.
  unfold new_reflection_result in Ex. repeat (apply seq_Ok in Ex as [_ Ex]). cbn [fx_run fx_findings] in Ex.
  match type of Ex with match ?l with _ => _ end = _ => destruct l end; [by injection Ex as <-|].
  repeat (apply seq_Ok in Ex as [_ Ex]). by injection Ex as <-.
Qed.

End Runs.
