(* ===== verification/Published.v ===== *)
(** What holds after every sequence of report commands: the versions of a run are
    one chain, a published report is clean, and a package is reported on once. *)
From S2P Require Import Prelude Session PyDecimal PyText Sha256 AgentModel RunControl ToolRun PyParse Ledger Claims.
From S2P Require Import Text DocModel Citations Bm25.
From S2P Require Import ReportModel ReportText ReportLabels ReportInput ReportTemplate ReportRender Language.
From S2P Require Import Reflection ReportRevise ReleaseGate ReportCompose ReportStore ReportCli Composed ReportRuns.

Section Published.
Context `{UnicodeData} `{CharData} `{RowSizes}.

(** * Revising and releasing *)

Lemma revise_report_Ok env id run db x db' : revise_report env id run db = Ok (x, db') →
  ∃ a refl policy d ts rs, get_report db id = Ok (Some a) ∧ get_result db run = Ok (Some refl) ∧
    revise a refl policy = Ok d ∧
    rr_id (ag_report (vd_target d)) ∉ map rr_id (rb_reports db) ∧
    (rr_report_generation_run_id (ag_report (vd_target d)), rr_report_version (ag_report (vd_target d)))
      ∉ map (λ r, (rr_report_generation_run_id r, rr_report_version r)) (rb_reports db) ∧
    ResearchReportRecord_valid (ag_report (vd_target d)) = true ∧
    Forall (λ t, t.1.1 = rr_id (ag_report (vd_target d))) ts ∧
    db' = with_revisions (stored db (vd_target d) ts) rs.
Proof.
  intros E. unfold revise_report in E. stmt_inv E.
  match type of E with (match ?o with _ => _ end) _ = _ => destruct o as [a|]; [|by apply stmt_Ok in E as [? _]] end.
  match type of E with (match ?o with _ => _ end) _ = _ => destruct o as [refl|]; [|by apply stmt_Ok in E as [? _]] end.
  stmt_inv E.
  match goal with F : create_revision_run _ _ = _ |- _ => unfold create_revision_run in F; stmt_inv F end.
  unfold complete_revision_run in E. stmt_inv E.
  match goal with F : add_report _ _ = _ |- _ => apply add_report_Ok in F as (_ & (ts & -> & Hts) & Hid & Hver & _ & _ & Hval) end.
  match goal with F : revise _ _ ?p = Ok ?d |- _ => do 6 eexists; split_and! end.
  3: eassumption. all: try eassumption. reflexivity.
Qed.

Lemma evaluate_ids a mf x policy d : evaluate a mf x policy = Ok d →
  de_candidate_report_id d = rr_id (ag_report a) ∧ de_round_two_reflection_run_id d = fr_id (fx_run x).
Proof.
  intros E. apply bind_Ok in E as (i & _ & E). cbv zeta in E.
  apply bind_Ok in E as (s & _ & E). by apply validated_Ok in E as [-> _].
Qed.
Lemma release_report_Ok env id run db x db' : release_report env id run db = Ok (x, db') →
  ∃ a refl q policy d g, get_report db id = Ok (Some a) ∧ get_result db run = Ok (Some refl) ∧
    _request_for_report db (rr_report_generation_run_id (ag_report a)) = Ok q ∧
    evaluate a (rt_manifest q) refl policy = Ok d ∧
    gw_candidate_report_id g = rr_id (ag_report a) ∧ gw_round_two_reflection_run_id g = fr_id (fx_run refl) ∧
    gw_internal_release_status g = de_internal_release_status d ∧
    gw_sealed_report_id g = (λ s, rr_id (ag_report s)) <$> de_sealed_report d ∧
    match de_sealed_report d with
    | None => db' = with_gates db (rb_gates db ++ [g])
    | Some s => ∃ ts, db' = with_gates (stored db s ts) (rb_gates db ++ [g]) ∧
        rr_id (ag_report s) ∉ map rr_id (rb_reports db) ∧
        (rr_report_generation_run_id (ag_report s), rr_report_version (ag_report s))
          ∉ map (λ r, (rr_report_generation_run_id r, rr_report_version r)) (rb_reports db) ∧
        ResearchReportRecord_valid (ag_report s) = true ∧
        Forall (λ t, t.1.1 = rr_id (ag_report s)) ts
    end.
Proof.
  intros E. unfold release_report in E. stmt_inv E.
  match type of E with (match ?o with _ => _ end) _ = _ => destruct o as [a|]; [|by apply stmt_Ok in E as [? _]] end.
  match type of E with (match ?o with _ => _ end) _ = _ => destruct o as [refl|]; [|by apply stmt_Ok in E as [? _]] end.
  stmt_inv E. unfold add_gate in E. stmt_inv E.
  match goal with F : evaluate ?a (rt_manifest ?q) ?x ?p = Ok ?d |- _ =>
    exists a, x, q, p, d, (gate_row (gate_id (rr_id (ag_report a))) d ((λ s, rr_id (ag_report s)) <$> de_sealed_report d) (en_now env 0)); pose proof (evaluate_ids _ _ _ _ _ F) as [Hc Hr] end.
  split_and!; first [eassumption|reflexivity|idtac].
  match goal with F : match ?o with Some _ => _ | None => _ end _ = _ |- _ => destruct o as [s|]; stmt_inv F end; [|reflexivity].
  match goal with F : add_report _ _ = _ |- _ => apply add_report_Ok in F as (_ & (ts & -> & Hts) & Hid & Hver & _ & _ & Hval) end.
  exists ts. split_and!; [reflexivity|done..].
Qed.

(** * Progress of a command *)

(** A version and the next one of the same run. *)
Definition follows (p r : ResearchReportRecord) : Prop :=
  rr_previous_report_id r = Some (rr_id p) ∧ rr_report_version r = rr_report_version p + 1 ∧
  rr_report_generation_run_id r = rr_report_generation_run_id p ∧ rr_report_type r = rr_report_type p ∧
  rr_report_locale r = rr_report_locale p ∧ rr_security_id r = rr_security_id p ∧
  rr_snapshot_id r = rr_snapshot_id p ∧ rr_research_as_of_time r = rr_research_as_of_time p ∧
  rr_research_package_id r = rr_research_package_id p ∧
  rr_input_manifest_checksum r = rr_input_manifest_checksum p ∧ rr_package_checksum r = rr_package_checksum p.
(** A report is the composed one of its run, or a revision of a stored report, or
    the sealed copy of one. *)
Definition added (db : report_db) (r : ResearchReportRecord) : Prop :=
  (rr_report_version r = 1 ∧ rr_previous_report_id r = None ∧
     rr_status r ∈ [RepSt.DRAFT; RepSt.PARTIAL; RepSt.BLOCKED]) ∨
  ∃ p, p ∈ rb_reports db ∧ follows p r ∧
    (rr_status r = RepSt.REVISED ∨ rr_status r = RepSt.PUBLISHABLE ∧ published db r).
Definition run_version (r : ResearchReportRecord) : UUID * Z := (rr_report_generation_run_id r, rr_report_version r).
Record progress (db db' : report_db) : Prop := mkProgress {
  pr_grows : grows db db';
  pr_reports : rb_reports db' = rb_reports db ∨
    ∃ r, rb_reports db' = rb_reports db ++ [r] ∧ rr_id r ∉ map rr_id (rb_reports db) ∧
      run_version r ∉ map run_version (rb_reports db) ∧ ResearchReportRecord_valid r = true ∧ added db' r;
  pr_reflections : rb_reflections db' = rb_reflections db ∨
    ∃ r, rb_reflections db' = rb_reflections db ++ [r] ∧ reflected db' r }.

Lemma adds_to_app {A} known (id : A → UUID) l k : Forall (λ x, id x ∉ known) k → adds_to known id l (l ++ k).
Proof. by exists k. Qed.
Lemma adds_to_trans {A} known known' (id : A → UUID) l l' l'' : known ⊆ known' →
  adds_to known id l l' → adds_to known' id l' l'' → adds_to known id l l''.
Proof.
  intros Hk (k & -> & H1') (k' & -> & H2'). exists (k ++ k'). rewrite app_assoc. split; [done|].
  apply Forall_app. split; [done|]. eapply Forall_impl; [exact H2'|]. cbn. intros x Hx Hin. by apply Hx, Hk.
Qed.
Lemma prefix_known db db' : grows db db' → map rr_id (rb_reports db) ⊆ map rr_id (rb_reports db').
Proof. intros Hg. destruct (gs_reports _ _ Hg) as [k ->]. rewrite map_app. intros x Hx. apply elem_of_app. by left. Qed.
Lemma grows_refl db : grows db db.
Proof. split; first [reflexivity|apply adds_to_refl]. Qed.
Lemma grows_trans db1 db2 db3 : grows db1 db2 → grows db2 db3 → grows db1 db3.
Proof.
  intros G1 G2. pose proof (prefix_known _ _ G1) as Hk. destruct G1, G2.
  split; solve [etrans; eassumption|eapply adds_to_trans; eassumption].
Qed.
(** A report stored with rows that carry its own new identifier. *)
Lemma grows_stored db a ts : rr_id (ag_report a) ∉ map rr_id (rb_reports db) →
  Forall (λ t, t.1.1 = rr_id (ag_report a)) ts → grows db (stored db a ts).
Proof.
  intros Hid Hts.
  assert (Hb : ∀ A (k : list A), Forall (λ x, x.1 ∉ map rr_id (rb_reports db)) (map (pair (rr_id (ag_report a))) k)).
  { intros A k. rewrite Forall_map. by apply Forall_true. }
  split; cbn; try first [reflexivity|by apply prefix_app_r|apply adds_to_app, Hb].
  apply adds_to_app. eapply Forall_impl; [exact Hts|]. cbn. by intros t ->.
Qed.
(** Tables a report does not read may grow as well. *)
Ltac grow := split; cbn; first [reflexivity|by apply prefix_app_r|apply adds_to_refl].
Lemma grows_requests db k : grows db (with_requests db (rb_requests db ++ k)). Proof. grow. Qed.
Lemma grows_runs db k : grows db (with_runs db (rb_runs db ++ k)). Proof. grow. Qed.
Lemma grows_reflections db k fs : grows db (with_reflections db (rb_reflections db ++ k) fs). Proof. grow. Qed.
Lemma grows_revisions db rs : grows db (with_revisions db rs). Proof. grow. Qed.
Lemma grows_gates db k : grows db (with_gates db (rb_gates db ++ k)). Proof. grow. Qed.

(** The seeds only append to the reference tables. *)
Definition reference_grows (x y : reference_db) : Prop :=
  rd_policies x `prefix_of` rd_policies y ∧ rd_reflection_policies x `prefix_of` rd_reflection_policies y ∧
  rd_templates x `prefix_of` rd_templates y.
Lemma reference_refl x : reference_grows x x.
Proof. by split_and!. Qed.
Lemma seed_templates_grows uuid4 now x n l y : seed_templates uuid4 now x n l = Ok y → reference_grows x y.1.1.
Proof.
  revert x n y. induction l as [|t l IH]; intros x n y E; cbn in E; [injection E as <-; apply reference_refl|].
  destruct (get_template _ _ _ _).
  - apply seq_Ok in E as [_ E]. apply bind_Ok in E as (z & Hz & [= <-]). exact (IH _ _ _ Hz).
  - apply bind_Ok in E as (r & Hr & E). apply bind_Ok in E as (z & Hz & [= <-]). apply IH in Hz as (Hp & Hf & Ht).
    unfold add_template in Hr. do 2 apply seq_Ok in Hr as [_ Hr]. injection Hr as <-. cbn in *.
    split_and!; [done|done|]. etrans; [|exact Ht]. by apply prefix_app_r.
Qed.
Lemma grows_reference db x : reference_grows (rb_reference db) x → grows db (with_reference db x).
Proof. intros (? & ? & ?). split; cbn; first [done|reflexivity|apply adds_to_refl]. Qed.
Lemma seed_progress {A} (f : reference_db → res (reference_db * A)) db db' :
  (∀ x y, f x = Ok y → reference_grows x y.1) → seed f db = Ok (tt, db') → progress db db'.
Proof. intros Hf E. unfold seed in E. stmt_inv E. split; [by apply grows_reference; auto|by left|by left]. Qed.
Lemma policy_seed_grows x y : policy_seed_v1 x = Ok y → reference_grows x y.1.1.
Proof.
  intros (e & _ & E)%bind_Ok. destruct (get_policy _ _).
  - apply seq_Ok in E as [_ [= <-]]. apply reference_refl.
  - apply bind_Ok in E as (z & Hz & [= <-]). apply seq_Ok in Hz as [_ [= <-]].
    split_and!; cbn; [by apply prefix_app_r|done|done].
Qed.
Lemma reflection_seed_grows x y : reflection_policy_seed_v1 x = Ok y → reference_grows x y.1.1.
Proof.
  intros (e & _ & E)%bind_Ok. destruct (get_runtime_reflection_policy _ _).
  - apply seq_Ok in E as [_ [= <-]]. apply reference_refl.
  - apply bind_Ok in E as (z & Hz & [= <-]). apply seq_Ok in Hz as [_ [= <-]].
    split_and!; cbn; [done|by apply prefix_app_r|done].
Qed.

Lemma project_keeps r c sum r' : project r c sum = Ok r' →
  rr_report_version r' = rr_report_version r ∧ rr_previous_report_id r' = rr_previous_report_id r ∧
  rr_research_package_id r' = rr_research_package_id r.
Proof. intros E. repeat (apply bind_Ok in E as (? & _ & E)). by injection E as <-. Qed.
(** What is composed is the first version of its run. *)
Lemma composed_first v q policy template id run_id now a : compose v q policy template id run_id now = Ok a →
  rr_report_version (ag_report a) = 1 ∧ rr_previous_report_id (ag_report a) = None ∧
  rr_research_package_id (ag_report a) = mf_research_package_id (vi_manifest v).
Proof.
  intros E. apply bind_Ok in E as (d & _ & E). apply bind_Ok in E as (first & Hf%project_keeps & E).
  apply bind_Ok in E as (report & [-> _]%validated_Ok & E). do 2 apply bind_Ok in E as (? & _ & E).
  destruct (content_eqb _ _); [by apply new_aggregate_Ok in E as [-> _]|].
  apply bind_Ok in E as (? & _ & E). apply bind_Ok in E as (final & Hg%project_keeps & E).
  apply bind_Ok in E as (? & _ & E). apply new_aggregate_Ok in E as [-> _]. cbn in *. intuition congruence.
Qed.
Lemma revised_follows a x policy d : revise a x policy = Ok d →
  follows (ag_report a) (ag_report (vd_target d)) ∧ rr_status (ag_report (vd_target d)) = RepSt.REVISED.
Proof.
  intros E. apply seq_Ok in E as [_ E]. do 2 apply bind_Ok in E as (? & _ & E). apply bind_Ok in E as (r & Hr & E).
  apply bind_Ok in E as (t & Ht & [= <-]). cbn [vd_target]. apply rebase_sound in Ht as (-> & _).
  do 5 (apply bind_Ok in Hr as (? & _ & Hr)). by apply validated_Ok in Hr as [-> _].
Qed.
Lemma sealed_follows a s : _build_sealed_report a = Ok s →
  ag_report s = sealed_record (ag_report a) ∧ follows (ag_report a) (ag_report s).
Proof. intros E. apply seq_Ok in E as [_ E]. by apply rebase_sound in E as (-> & _). Qed.

Lemma generate_progress env rows c x db db' : generate env rows c db = Ok (x, db') → progress db db'.
Proof.
  intros (x0 & q & v & run & a & ts & _ & _ & Ha & _ & _ & _ & Hts & _ & _ & Hid & Hver & Hst & Hval & ->)%generate_Ok.
  apply composed_first in Ha as (H1' & H2' & _). split; cbn.
  - eapply grows_trans; [apply (grows_requests db [q])|].
    eapply grows_trans; [by apply (grows_stored _ a ts)|]. exact (grows_runs (stored _ a ts) [run]).
  - right. exists (ag_report a). split_and!; [done..|]. by left.
  - by left.
Qed.
Lemma reflect_progress env c x db db' : reflect_report env c db = Ok (x, db') → progress db db'.
Proof.
  intros (r & fs & Hr & Hf & ->)%reflect_report_Ok. pose proof (grows_reflections db [r] fs) as Hg. split; [done|by left|].
  right. exists r. split; [done|]. destruct Hr as (a & q & p & d & E1 & E2 & E3). exists a, q, p, d.
  split_and!; [by eapply get_report_grows|by eapply request_grows|apply E3..].
Qed.
Lemma revise_progress env id run x db db' : revise_report env id run db = Ok (x, db') → progress db db'.
Proof.
  intros (a & y & policy & d & ts & rs & Ea & _ & Hd & Hid & Hver & Hval & Hts & ->)%revise_report_Ok.
  pose proof (revised_follows _ _ _ _ Hd) as [Hf Hst]. pose proof (get_report_id _ _ _ Ea) as [_ Hin]. split.
  - eapply grows_trans; [by apply (grows_stored db (vd_target d) ts)|]. apply grows_revisions.
  - right. exists (ag_report (vd_target d)). split_and!; [done..|]. right. exists (ag_report a).
    split_and!; [|done|by left]. cbn. apply elem_of_app. by left.
  - by left.
Qed.
Lemma release_progress env id run x db db' : release_report env id run db = Ok (x, db') → progress db db'.
Proof.
  intros (a & y & q & policy & d & g & Ea & Ey & Eq & Ed & Hg1 & Hg2 & Hg3 & Hg4 & Hs)%release_report_Ok.
  destruct (evaluate_inv _ _ _ _ _ Ed) as (i & _ & Hdec & _ & Hsealed). cbv zeta in Hdec, Hsealed.
  rewrite <- Hdec in Hsealed. case_bool_decide as Hpub.
  2: { rewrite Hsealed in Hs. subst db'. split; [apply grows_gates|by left|by left]. }
  destruct Hsealed as (s & Hb & Hsd). rewrite Hsd in Hs, Hg4. destruct Hs as (ts & -> & Hid & Hver & Hval & Hts).
  pose proof (sealed_follows _ _ Hb) as [Hrec Hf]. pose proof (get_report_id _ _ _ Ea) as [Hid' Hin].
  assert (Hg : grows db (with_gates (stored db s ts) (rb_gates db ++ [g]))).
  { eapply grows_trans; [by apply (grows_stored db s ts)|]. apply (grows_gates (stored db s ts)). }
  split; [exact Hg| |by left]. right. exists (ag_report s). split_and!; [done..|]. right. exists (ag_report a).
  split_and!; [cbn; apply elem_of_app; by left|done|]. right. split; [by rewrite Hrec|].
  exists a, q, y, policy, d. rewrite Hid'. split_and!; [by eapply get_report_grows|by eapply request_grows| |done..|].
  - cbn. by eapply get_result_run.
  - exists g. rewrite Hg1, Hid'. split_and!; [cbn; apply elem_of_app; right; left|done|done|done|by rewrite Hg3].
Qed.

Lemma step_progress db db' : cli_step db db' → progress db db'.
Proof.
  intros [env rows c E]. destruct c; cbn in E.
  1-3: eapply seed_progress; [|exact E]; intros x y Hy; apply bind_Ok in Hy as (z & Hz & [= <-]); cbn.
  - by apply policy_seed_grows.
  - by apply reflection_seed_grows.
  - apply bind_Ok in Hz as (w & _ & Hz). by eapply seed_templates_grows.
  - apply sess_bind_Ok in E as (x & d & E & [_ ->]%ret_Ok). by eapply generate_progress.
  - apply sess_bind_Ok in E as (x & d & E & [_ ->]%ret_Ok). by eapply reflect_progress.
  - apply sess_bind_Ok in E as (x & d & E & [_ ->]%ret_Ok). by eapply revise_progress.
  - apply sess_bind_Ok in E as (x & d & E & [_ ->]%ret_Ok). by eapply release_progress.
Qed.
Lemma evaluate_round_two a mf x policy d : evaluate a mf x policy = Ok d → de_internal_release_status d = Gate.PUBLISHABLE →
  fr_round_number (fx_run x) = 2 ∧ fr_research_report_id (fx_run x) = rr_id (ag_report a).
Proof.
  intros E Hd. destruct (evaluate_inv _ _ _ _ _ E) as (i & _ & Hs & _). cbv zeta in Hs. rewrite Hs in Hd.
  apply decision_publishable in Hd as (Hp & _). specialize (Hp Req.ROUND_TWO_COMPLETED).
  cbn [requirement_value] in Hp. unfold _round_two_completed in Hp. bools. split; [lia|done].
Qed.

(** * Invariants *)

Lemma prefix_elem {A} (l l' : list A) x : l `prefix_of` l' → x ∈ l → x ∈ l'.
Proof. intros [k ->] Hx. apply elem_of_app. by left. Qed.
Lemma published_grows db db' r : grows db db' → published db r → published db' r.
Proof.
  intros Hg (a & q & x & policy & d & Ha & Hq & Hx & Hd & Hp & Hr & g & Hgin & Hrest).
  exists a, q, x, policy, d. split_and!; [by eapply get_report_grows|by eapply request_grows| |done..|].
  - eapply prefix_elem; [apply Hg|done].
  - exists g. split; [|done]. eapply prefix_elem; [apply Hg|done].
Qed.
Lemma reflected_grows db db' r : grows db db' → reflected db r → reflected db' r.
Proof.
  intros Hg (a & q & p & d & Ha & Hq & Hrest). exists a, q, p, d.
  split_and!; [by eapply get_report_grows|by eapply request_grows|apply Hrest..].
Qed.
Lemma added_grows db db' r : grows db db' → added db r → added db' r.
Proof.
  intros Hg [Hi|(p & Hp & Hf & Hs)]; [by left|right]. exists p.
  split_and!; [eapply prefix_elem; [apply Hg|done]|done|].
  destruct Hs as [Hs|[Hs Hpub]]; [by left|right; split; [done|by eapply published_grows]].
Qed.

Record sound_reports (db : report_db) : Prop := mkSound {
  so_ids : NoDup (map rr_id (rb_reports db)); so_versions : NoDup (map run_version (rb_reports db));
  so_valid : Forall (λ r, ResearchReportRecord_valid r = true) (rb_reports db);
  so_added : Forall (added db) (rb_reports db); so_reflected : Forall (reflected db) (rb_reflections db) }.

Lemma NoDup_snoc {A} (l : list A) x : NoDup l → x ∉ l → NoDup (l ++ [x]).
Proof. intros Hn Hx. apply NoDup_app. split_and!; [done| |apply NoDup_singleton]. by intros y Hy ->%list_elem_of_singleton. Qed.
Lemma progress_sound db db' : progress db db' → sound_reports db → sound_reports db'.
Proof.
  intros [Hg Hr Hf] [Hi Hv Hval Ha Hrefl].
  assert (Ha' : Forall (added db') (rb_reports db)) by (eapply Forall_impl; [exact Ha|]; intros r; by apply added_grows).
  assert (Hrefl' : Forall (reflected db') (rb_reflections db)).
  { eapply Forall_impl; [exact Hrefl|]. intros r. by apply reflected_grows. }
  split.
  - destruct Hr as [->|(r & -> & Hid & _)]; [done|]. rewrite map_app. by apply NoDup_snoc.
  - destruct Hr as [->|(r & -> & _ & Hver & _)]; [done|]. rewrite map_app. by apply NoDup_snoc.
  - destruct Hr as [->|(r & -> & _ & _ & Hrv & _)]; [done|]. apply Forall_app. by split; [|constructor].
  - destruct Hr as [->|(r & -> & _ & _ & _ & Had)]; [done|]. apply Forall_app. by split; [|constructor].
  - destruct Hf as [->|(r & -> & Hre)]; [done|]. apply Forall_app. by split; [|constructor].
Qed.
Lemma reachable_sound db : reports_reachable db → sound_reports db.
Proof.
  apply (rtc_ind_r sound_reports).
  - split; [constructor..].
  - intros x y _ Hs Hx. exact (progress_sound _ _ (step_progress _ _ Hs) Hx).
Qed.
Lemma steps_grow db db' : rtc cli_step db db' → grows db db'.
Proof.
  induction 1 as [|x y z Hs _ IH]; [apply grows_refl|]. eapply grows_trans; [|exact IH]. by apply step_progress.
Qed.

(** C27. Whatever commands are run, a published report is clean: it is the sealed
    copy, one version later, of a stored report on which every one of the forty
    reflection checks holds, whose package was complete and whose research mode
    is honest, whose checksums and Markdown are those of its content, and a
    release gate row records it. *)
Theorem published_reports_clean db r : reports_reachable db → r ∈ rb_reports db → rr_status r = RepSt.PUBLISHABLE →
  ∃ a q, get_report db (rr_id (ag_report a)) = Ok (Some a) ∧
    _request_for_report db (rr_report_generation_run_id r) = Ok q ∧ r = sealed_record (ag_report a) ∧
    (∀ c, check_holds c a (rt_manifest q)) ∧
    mf_package_status (rt_manifest q) = PkgStatus.COMPLETE ∧ mode_consistent (rt_manifest q) = true ∧
    _input_integrity a (rt_manifest q) = true ∧ projects (ag_report a) ∧
    ∃ g, g ∈ rb_gates db ∧ gw_candidate_report_id g = rr_id (ag_report a) ∧
      gw_sealed_report_id g = Some (rr_id r) ∧ gw_internal_release_status g = Gate.PUBLISHABLE.
Proof.
  intros Hdb Hr Hst. apply reachable_sound in Hdb as [_ _ _ Ha Hrefl].
  rewrite Forall_forall in Ha. destruct (Ha r Hr) as [(_ & _ & Hs)|(p & _ & _ & [Hs|[_ Hp]])].
  1: { rewrite Hst, !elem_of_cons, elem_of_nil in Hs. by destruct_or! Hs. }
  1: congruence.
  destruct Hp as (a & q & x & policy & d & Ea & Eq & Hx & Ed & Hd & -> & g & Hg & Hc & Hgs & _ & Hgst).
  rewrite Forall_forall in Hrefl. destruct (Hrefl _ Hx) as (a' & q' & pol & draft & Ea' & Eq' & Er & Hfs & _).
  pose proof (evaluate_round_two _ _ _ _ _ Ed Hd) as [H2 Hrep]. rewrite Hrep, Ea in Ea'. injection Ea' as <-.
  rewrite Eq in Eq'. injection Eq' as <-. rewrite H2 in Er.
  destruct (published_report_clean _ _ _ _ _ _ _ Ed Hd Er Hfs) as (Hall & H3 & H4 & H5 & H6 & _).
  exists a, q. split_and!; try done. by exists g.
Qed.

(** * Versions *)

Lemma version_ltb_asym x y : version_ltb x y = true → version_ltb y x = false.
Proof.
  unfold version_ltb. intros E. apply orb_true_iff in E as [E|E]; [|apply andb_true_iff in E as [E E2]; apply str_ltb_asym in E2; rewrite E2].
  all: apply orb_false_iff; split; [lia|]; rewrite ?andb_false_r; try done. apply andb_false_iff. left. lia.
Qed.
Lemma version_not_after x y : not_after version_ltb x y ↔
  rr_report_version x < rr_report_version y ∨ rr_report_version x = rr_report_version y ∧
    str_ltb (uuid_str (rr_id y)) (uuid_str (rr_id x)) = false.
Proof.
  unfold not_after, version_ltb. rewrite orb_false_iff, andb_false_iff.
  destruct (str_ltb (uuid_str (rr_id y)) _); split; intros; destruct_and?; destruct_or?; try lia; try done.
  all: try (split; [lia|auto]); try (left; lia).
Qed.
Lemma version_not_after_trans x y z :
  not_after version_ltb x y → not_after version_ltb y z → not_after version_ltb x z.
Proof.
  rewrite !version_not_after. intros [H1'|[H1' H1'']] [H2'|[H2' H2'']]; [left; lia..|]. right. split; [lia|].
  exact (key_not_after_trans (λ r, uuid_str (rr_id r)) x y z H1'' H2'').
Qed.

(** Distinct numbers in order, each [k] or the successor of another, count from [k]. *)
Lemma counts_from k (zs : list Z) : StronglySorted Z.le zs → NoDup zs →
  (∀ z, z ∈ zs → z = k ∨ z - 1 ∈ zs) → zs = seqZ k (Z.of_nat (length zs)).
Proof.
  intros Hs. revert k. induction Hs as [|z zs Hs IH Hz]; intros k Hn Hc; [done|].
  apply NoDup_cons in Hn as [Hzn Hn]. rewrite Forall_forall in Hz.
  assert (z = k) as ->.
  { destruct (Hc z) as [E|Hin]; [by left|done|]. apply elem_of_cons in Hin as [E|Hin]; [lia|]. apply Hz in Hin. lia. }
  cbn [length]. rewrite seqZ_cons by lia. replace (Z.pred (Z.of_nat (S (length zs)))) with (Z.of_nat (length zs)) by lia.
  f_equal. apply IH; [done|]. intros z Hin. assert (k ≠ z) by (by intros ->).
  destruct (Hc z) as [E|Hin']; [by right|congruence|]. apply elem_of_cons in Hin' as [E|Hin']; [left; lia|by right].
Qed.

Lemma res_map_valid {A} (p : A → bool) l : Forall (λ x, p x = true) l → res_map (validated p) l = Ok l.
Proof.
  intros Hl. apply res_map_Ok. induction Hl; constructor; [by apply validated_Ok|done].
Qed.
Lemma StronglySorted_map {A B} (f : A → B) (R : A → A → Prop) (Q : B → B → Prop) l :
  (∀ x y, R x y → Q (f x) (f y)) → StronglySorted R l → StronglySorted Q (map f l).
Proof.
  intros Hf. induction 1 as [|x l Hs IH Hx]; cbn; constructor; [done|]. rewrite Forall_map. eapply Forall_impl; [exact Hx|]. auto.
Qed.

(** C28. The versions of a run are one chain: they are numbered from one without a
    gap or a fork, each names the one before it as its predecessor, and all are
    about the same package, security, snapshot and sealed input. *)
Theorem report_versions_chain db run : reports_reachable db →
  ∃ l, list_versions db run = Ok l ∧ l ≡ₚ filter (λ r, rr_report_generation_run_id r = run) (rb_reports db) ∧
    map rr_report_version l = seqZ 1 (Z.of_nat (length l)) ∧
    ∀ i p r, l !! i = Some p → l !! S i = Some r → follows p r.
Proof.
  intros [_ Hver Hval Ha _]%reachable_sound. set (f := filter _ _).
  set (l := sort_by version_ltb f). assert (Hp : l ≡ₚ f) by apply sort_by_perm.
  assert (Hin : ∀ r, r ∈ l ↔ r ∈ rb_reports db ∧ rr_report_generation_run_id r = run).
  { intros r. rewrite Hp. unfold f. rewrite list_elem_of_filter. tauto. }
  rewrite Forall_forall in Hval, Ha.
  assert (Hback : ∀ r, r ∈ l → rr_report_version r = 1 ∨ ∃ p, p ∈ l ∧ follows p r).
  { intros r Hr. apply Hin in Hr as [Hr Hrun]. destruct (Ha r Hr) as [(E & _)|(p & Hpin & Hf & _)]; [by left|right].
    exists p. split; [|done]. apply Hin. split; [done|]. destruct Hf as (_ & _ & E & _). congruence. }
  assert (Hinj : ∀ x y, x ∈ l → y ∈ l → rr_report_version x = rr_report_version y → x = y).
  { intros x y [Hx Hxr]%Hin [Hy Hyr]%Hin E. apply (NoDup_map_inj _ _ _ _ Hver Hx Hy). unfold run_version. congruence. }
  assert (Hcount : map rr_report_version l = seqZ 1 (Z.of_nat (length l))).
  { rewrite <- (length_map rr_report_version l). apply counts_from.
    - eapply StronglySorted_map; [|apply (sort_by_sorted version_ltb version_ltb_asym version_not_after_trans)].
      intros x y [E|[E _]]%version_not_after; lia.
    - assert (Hnl : NoDup l). { rewrite Hp. apply NoDup_filter. by eapply NoDup_fmap_1. }
      apply NoDup_fmap_2_strong; [|done]. intros x y Hx Hy. by apply Hinj.
    - intros z (r & -> & Hr)%list_elem_of_fmap. destruct (Hback r Hr) as [E|(p & Hpin & Hf)]; [by left|right].
      destruct Hf as (_ & E & _). replace (rr_report_version r - 1) with (rr_report_version p) by lia.
      by apply list_elem_of_fmap_2. }
  exists l. split_and!; [|done|done|].
  - unfold list_versions. apply res_map_valid, Forall_forall. intros r Hr. by apply Hval, Hin.
  - intros i p r Hi HS.
    assert (Hv : ∀ j x, l !! j = Some x → rr_report_version x = 1 + Z.of_nat j).
    { intros j x Hj. assert (E : map rr_report_version l !! j = Some (rr_report_version x)) by by rewrite list_lookup_fmap, Hj.
      rewrite Hcount in E. apply lookup_seqZ in E. lia. }
    pose proof (Hv _ _ Hi) as Hi'. pose proof (Hv _ _ HS) as HS'.
    destruct (Hback r) as [E|(p' & Hpin & Hf)]; [by eapply list_elem_of_lookup_2|lia|].
    replace p with p'; [done|]. apply Hinj; [done|by eapply list_elem_of_lookup_2|]. destruct Hf as (_ & E & _). lia.
Qed.

(** * A package is reported on once *)

Lemma reference_data_grows c x y r : reference_grows x y → reference_data c x = Ok r → reference_data c y = Ok r.
Proof.
  intros (Hp & Hf & Ht) E. unfold reference_data in *. apply bind_Ok in E as (ws & Hw & E).
  apply bind_Ok in E as (t & Htp & E). rewrite Hw, Ok_bind, Htp, Ok_bind.
  unfold get_policy, get_runtime_reflection_policy, get_template in *.
  destruct (find _ (rd_policies x)) eqn:E1; [|discriminate E]. rewrite (find_prefix _ _ _ _ Hp E1).
  destruct (find _ (rd_reflection_policies x)) eqn:E2; [|discriminate E]. rewrite (find_prefix _ _ _ _ Hf E2).
  destruct (find _ (rd_templates x)) eqn:E3; [|discriminate E]. by rewrite (find_prefix _ _ _ _ Ht E3).
Qed.
(** The key of a request depends on neither its identifier nor the time. *)
Lemma seal_request_key rows id now id' now' c q : seal_request rows id now c = Ok q →
  ∃ q', seal_request rows id' now' c = Ok q' ∧ rt_idempotency_key q' = rt_idempotency_key q.
Proof.
  intros E. unfold seal_request in *. do 4 (apply bind_Ok in E as (? & Hx & E); rewrite Hx, Ok_bind; clear Hx).
  apply seq_Ok in E as [Hs E]. rewrite Hs. apply bind_Ok in E as (k & Hk & E). apply validated_Ok in E as [-> Hv].
  eexists. split; [rewrite seq_Ok; split; [done|]; rewrite Hk, Ok_bind; apply validated_Ok; by split; [|exact Hv]|].
  reflexivity.
Qed.
Lemma bind_step {A B} (m : dbM A) (f : A → dbM B) db x db' : m db = Ok (x, db') → (m ≫= f) db = f x db'.
Proof. unfold mbind, sess_bind. by intros ->. Qed.
Lemma bind_raise {A B} (m : dbM A) (f : A → dbM B) db e : m db = Raise e → (m ≫= f) db = Raise e.
Proof. unfold mbind, sess_bind. by intros ->. Qed.
Lemma add_request_used q db : rt_idempotency_key q ∈ map rt_idempotency_key (rb_requests db) →
  ∃ name, add_request q db = Raise (mkExn IntegrityError name).
Proof.
  intros Hk. assert (Hu : uniq (map rt_idempotency_key (rb_requests db ++ [q])) = false).
  { destruct (uniq _) eqn:E; [|done]. by apply uniq_fresh in E. }
  unfold add_request. unfold get at 1. unfold mbind at 1, sess_bind at 1.
  destruct (uniq (map rt_id _)); unfold constraint, stmt, mbind, sess_bind, sess_lift; cbn; [rewrite Hu|]; by eexists.
Qed.

(** C29. A package is reported on once: after a report of a package was generated,
    whatever happens next, generating the same report from the same rows fails on
    the key of its request and changes nothing. *)
Theorem report_generated_once env rows c db x db' env' db'' :
  generate env rows c db = Ok (x, db') → rtc cli_step db' db'' →
  ∃ name, generate env' rows c db'' = Raise (mkExn IntegrityError name).
Proof.
  intros E%generate_Ok Hs%steps_grow.
  destruct E as (rx & q & v & run & a & ts & Hrx & Hq & _ & _ & _ & _ & _ & _ & _ & _ & _ & _ & _ & ->).
  assert (Hr : reference_data c (rb_reference db'') = Ok rx).
  { eapply reference_data_grows; [|exact Hrx]. split_and!; apply Hs. }
  destruct (seal_request_key _ _ _ (en_uuid4 env' 0) (en_now env' 0) _ _ Hq) as (q' & Hq' & Hk).
  assert (Hin : rt_idempotency_key q' ∈ map rt_idempotency_key (rb_requests db'')).
  { rewrite Hk. apply list_elem_of_fmap_2. eapply prefix_elem; [apply Hs|]. cbn. apply elem_of_app. right. left. }
  destruct (add_request_used _ _ Hin) as [name Ha]. exists name.
  unfold generate. rewrite (bind_step get _ _ db'' db'') by done.
  rewrite (bind_step (stmt _) _ _ rx db'') by (apply stmt_Ok; done).
  apply bind_raise. unfold create_request.
  rewrite (bind_step (stmt _) _ _ q' db'') by (apply stmt_Ok; done). exact Ha.
Qed.
End Published.

(** * A report published *)

Definition clean_package : res PersistedReportInput :=
  package_of [RSection.FINANCIAL_HEALTH]
    [some_claim 1 ClType.FINANCIAL_METRIC Support.SUPPORTED "NET_MARGIN" (Some (mkDec false 25 (-2)))] sealed_at.
Definition rows_of_input (i : PersistedReportInput) : agent_rows :=
  mkAgentRows [pi_package i] [pi_run i] [pi_request i] [(pk_security_id (pi_package i), pi_issuer_id i)]
    (pi_claims i) (pi_evidence i) (pi_links i) [].
#[local] Instance any_size : RowSizes := {| manifest_fits := λ _, true; content_fits := λ _, true |}.
Definition nth_env (k : Z) : cli_env := mkCliEnv (λ n, nth_id (1000 * k + Z.of_nat n)) (λ _, sealed_at).
Definition the_command : GenerateReportCommand :=
  mkGenerate (nth_id 14) RepType.FULL_RESEARCH_DRAFT RepLocale.EN_US.
Definition the_report : UUID := nth_id 4002.
Definition run_all (rows : agent_rows) : list (cli_env * command) → report_db → res report_db :=
  res_fold (λ db c, x ← @invoke ascii_unicode ascii_chars any_size c.1 rows c.2 db; Ok x.2).
Lemma run_all_steps rows l db db' : run_all rows l db = Ok db' →
  rtc (@cli_step ascii_unicode ascii_chars any_size) db db'.
Proof.
  revert db. induction l as [|[env c] l IH]; intros db E; cbn in E; [injection E as <-; apply rtc_refl|].
  apply bind_Ok in E as (d & Hd & E). apply bind_Ok in Hd as ([[] d'] & Hd & [= <-]).
  eapply rtc_l; [|by apply IH]. by exists env rows c.
Qed.

(** The seeds and the report, and then its second reflection and its release. *)
Record report_pipeline := mkPipeline {
  pl_rows : agent_rows; pl_seeded : report_db; pl_result : ReportGenerationStatus * UUID * UUID;
  pl_generated : report_db; pl_released : report_db }.
Definition pipeline : res report_pipeline :=
  i ← clean_package;
  let rows := rows_of_input i in
  seeded ← run_all rows [(nth_env 1, SeedPolicy); (nth_env 2, SeedReflectionPolicy); (nth_env 3, SeedTemplates)]
             empty_reports;
  x ← @generate ascii_unicode ascii_chars any_size (nth_env 4) rows the_command seeded;
  released ← run_all rows [(nth_env 5, Reflect (mkReflect the_report 2 (Some (nth_id 1)) None));
                           (nth_env 6, Release the_report (nth_id 5000))] x.2;
  Ok (mkPipeline rows seeded x.1 x.2 released).
Lemma pipeline_spec p : pipeline = Ok p →
  @generate ascii_unicode ascii_chars any_size (nth_env 4) (pl_rows p) the_command (pl_seeded p)
    = Ok (pl_result p, pl_generated p) ∧
  rtc (@cli_step ascii_unicode ascii_chars any_size) (pl_generated p) (pl_released p) ∧
  @reports_reachable ascii_unicode ascii_chars any_size (pl_released p).
Proof.
  unfold pipeline. intros (i & _ & E)%bind_Ok. cbv zeta in E. apply bind_Ok in E as (seeded & Hs & E).
  apply bind_Ok in E as ([x g] & Hg & E). apply bind_Ok in E as (r & Hr & [= <-]). cbn.
  apply run_all_steps in Hs, Hr. split; [exact Hg|]. split; [exact Hr|].
  unfold reports_reachable. etrans; [exact Hs|]. eapply rtc_l; [|exact Hr].
  exists (nth_env 4) (rows_of_input i) (Generate the_command). unfold invoke. by rewrite (bind_step _ _ _ _ _ Hg).
Qed.
Lemma pipeline_publishes :
  match pipeline with
  | Ok p => bool_decide (map rr_status (rb_reports (pl_released p)) = [RepSt.DRAFT; RepSt.PUBLISHABLE])
  | Raise _ => false
  end = true.
Proof. vm_cast_no_check (eq_refl true). Qed.

Lemma published_reports_clean_witness : ∃ p r a, pipeline = Ok p ∧ r ∈ rb_reports (pl_released p) ∧
  rr_status r = RepSt.PUBLISHABLE ∧ r = sealed_record (ag_report a) ∧ @projects ascii_unicode (ag_report a).
Proof.
  pose proof pipeline_publishes as C. destruct pipeline as [p|e] eqn:E; [|discriminate C].
  apply bool_decide_eq_true_1 in C. destruct (pipeline_spec p E) as (_ & _ & Hdb).
  assert (Hr : RepSt.PUBLISHABLE ∈ map rr_status (rb_reports (pl_released p))) by (rewrite C; right; left).
  apply list_elem_of_fmap in Hr as (r & Hs & Hr).
  destruct (@published_reports_clean ascii_unicode ascii_chars any_size _ r Hdb Hr (eq_sym Hs))
    as (a & q & _ & _ & Hsealed & _ & _ & _ & _ & Hp & _).
  exists p, r, a. split; [reflexivity|]. split; [exact Hr|]. split; [exact (eq_sym Hs)|]. split; [exact Hsealed|exact Hp].
Defined.
Lemma report_versions_chain_witness : ∃ p l, pipeline = Ok p ∧
  list_versions (pl_released p) (nth_id 4001) = Ok l ∧
  map rr_report_version l = seqZ 1 (Z.of_nat (length l)).
Proof.
  pose proof pipeline_publishes as C. destruct pipeline as [p|e] eqn:E; [|discriminate C].
  destruct (pipeline_spec p E) as (_ & _ & Hdb).
  destruct (@report_versions_chain ascii_unicode ascii_chars any_size _ (nth_id 4001) Hdb) as (l & Hl & _ & Hv & _).
  exists p, l. split; [reflexivity|]. split; [exact Hl|exact Hv].
Defined.
Lemma report_generated_once_witness : ∃ p name, pipeline = Ok p ∧
  @generate ascii_unicode ascii_chars any_size (nth_env 7) (pl_rows p) the_command (pl_released p)
    = Raise (mkExn IntegrityError name).
Proof.
  pose proof pipeline_publishes as C. destruct pipeline as [p|e] eqn:E; [|discriminate C].
  destruct (pipeline_spec p E) as (Hg & Hs & _).
  destruct (@report_generated_once ascii_unicode ascii_chars any_size _ _ _ _ _ _ (nth_env 7) _ Hg Hs) as [name Hn].
  exists p, name. split; [reflexivity|exact Hn].
Defined.
