(* ===== verification/ProviderSync.v ===== *)
(** Provider synchronization: the finite requests and plans of a sync, the
    lifecycle of a run, checkpoints and request attempts
    (domain/providers/sync.py, domain/providers/canonical.py) and the repository
    of their tables (db/repositories/providers.py, the class
    SqlAlchemyProviderSyncRepository). *)
From S2P Require Import Prelude Session PyDecimal PyText Sha256 AgentModel Text ReportModel Language.
From Stdlib Require Import Ascii.

(** * Vocabularies (domain/providers/enums.py) *)

Module PRunSt.
Inductive ProviderRunStatus :=
  | PLANNED | QUEUED | RUNNING | PAUSED | COMPLETED | PARTIAL | BLOCKED | FAILED | CANCELLED.
#[global] Instance ProviderRunStatus_eq_dec : EqDecision ProviderRunStatus.
Proof. solve_decision. Defined.
Definition all : list ProviderRunStatus :=
  [PLANNED; QUEUED; RUNNING; PAUSED; COMPLETED; PARTIAL; BLOCKED; FAILED; CANCELLED].
Definition value (x : ProviderRunStatus) : string :=
  match x with
  | PLANNED => "PLANNED"
  | QUEUED => "QUEUED"
  | RUNNING => "RUNNING"
  | PAUSED => "PAUSED"
  | COMPLETED => "COMPLETED"
  | PARTIAL => "PARTIAL"
  | BLOCKED => "BLOCKED"
  | FAILED => "FAILED"
  | CANCELLED => "CANCELLED"
  end.
End PRunSt.
Abbreviation ProviderRunStatus := PRunSt.ProviderRunStatus.

Module SliceSt.
Inductive ProviderSyncSliceStatus :=
  | PENDING | RUNNING | COMPLETED | PARTIAL | BLOCKED | FAILED | CANCELLED.
#[global] Instance ProviderSyncSliceStatus_eq_dec : EqDecision ProviderSyncSliceStatus.
Proof. solve_decision. Defined.
Definition all : list ProviderSyncSliceStatus :=
  [PENDING; RUNNING; COMPLETED; PARTIAL; BLOCKED; FAILED; CANCELLED].
Definition value (x : ProviderSyncSliceStatus) : string :=
  match x with
  | PENDING => "PENDING"
  | RUNNING => "RUNNING"
  | COMPLETED => "COMPLETED"
  | PARTIAL => "PARTIAL"
  | BLOCKED => "BLOCKED"
  | FAILED => "FAILED"
  | CANCELLED => "CANCELLED"
  end.
End SliceSt.
Abbreviation ProviderSyncSliceStatus := SliceSt.ProviderSyncSliceStatus.

Module ExecMode.
Inductive ProviderExecutionMode :=
  | OFFLINE | LIVE_VALIDATION.
#[global] Instance ProviderExecutionMode_eq_dec : EqDecision ProviderExecutionMode.
Proof. solve_decision. Defined.
Definition all : list ProviderExecutionMode :=
  [OFFLINE; LIVE_VALIDATION].
Definition value (x : ProviderExecutionMode) : string :=
  match x with
  | OFFLINE => "OFFLINE"
  | LIVE_VALIDATION => "LIVE_VALIDATION"
  end.
End ExecMode.
Abbreviation ProviderExecutionMode := ExecMode.ProviderExecutionMode.

(** [canonical_provider_json], [provider_checksum]: the encoding of
    research_agent/canonical.py, of values of the control plane. *)
Definition canonical_provider_json (value : pyval) : res string := canonical_json value.
Definition provider_checksum (value : pyval) : res string := sha256_hex <$> canonical_provider_json value.

(** * The lifecycle of a run *)

Module ProviderRunStateMachine.
Definition _TERMINAL : list ProviderRunStatus :=
  [PRunSt.COMPLETED; PRunSt.PARTIAL; PRunSt.BLOCKED; PRunSt.FAILED; PRunSt.CANCELLED].
Definition _ALLOWED (current : ProviderRunStatus) : list ProviderRunStatus :=
  match current with
  | PRunSt.PLANNED => [PRunSt.QUEUED; PRunSt.BLOCKED; PRunSt.CANCELLED]
  | PRunSt.QUEUED => [PRunSt.RUNNING; PRunSt.BLOCKED; PRunSt.CANCELLED]
  | PRunSt.RUNNING =>
      [PRunSt.PAUSED; PRunSt.COMPLETED; PRunSt.PARTIAL; PRunSt.BLOCKED; PRunSt.FAILED; PRunSt.CANCELLED]
  | PRunSt.PAUSED => [PRunSt.QUEUED; PRunSt.RUNNING; PRunSt.BLOCKED; PRunSt.CANCELLED]
  | _ => []
  end.

Definition transition (current target : ProviderRunStatus) : res ProviderRunStatus :=
  reject_if (bool_decide (current ∈ _TERMINAL)) ValueError "PROVIDER_RUN_TERMINAL";;
  if decide (target = current) then Ok target else
  reject_if (negb (bool_decide (target ∈ _ALLOWED current))) ValueError
    "PROVIDER_RUN_TRANSITION_FORBIDDEN";;
  Ok target.
End ProviderRunStateMachine.

(** [stage9_guard_sync_run], the trigger on updates of provider_sync_runs: the
    status it finds is text. *)
Definition stage9_guard_sync_run (OLD NEW : string) : res string :=
  let any (l : list string) (s : string) := bool_decide (s ∈ l) in
  let terminal := ["COMPLETED"; "PARTIAL"; "BLOCKED"; "FAILED"; "CANCELLED"] in
  reject_if (any terminal OLD) IntegrityError "STAGE9_SYNC_RUN_IMMUTABLE";;
  reject_if (negb (String.eqb OLD NEW) && negb (
      (String.eqb OLD "PLANNED" && any ["QUEUED"; "BLOCKED"; "CANCELLED"] NEW)
      || (String.eqb OLD "QUEUED" && any ["RUNNING"; "BLOCKED"; "CANCELLED"] NEW)
      || (String.eqb OLD "RUNNING"
          && any ["PAUSED"; "COMPLETED"; "PARTIAL"; "BLOCKED"; "FAILED"; "CANCELLED"] NEW)
      || (String.eqb OLD "PAUSED" && any ["QUEUED"; "RUNNING"; "BLOCKED"; "CANCELLED"] NEW)))
    IntegrityError "STAGE9_SYNC_RUN_TRANSITION_FORBIDDEN";;
  Ok NEW.

Record ProviderRunContext := mkRunContext {
  rc_sync_request_id : UUID; rc_sync_plan_id : UUID; rc_policy_id : UUID; rc_license_policy_id : UUID;
  rc_max_requests : Z; rc_max_bytes : Z }.
#[export] Instance ProviderRunContext_eq_dec : EqDecision ProviderRunContext.
Proof. solve_decision. Defined.
Definition validate_context_unchanged (current proposed : ProviderRunContext) : res unit :=
  reject_if (bool_decide (current ≠ proposed)) ValueError "PROVIDER_RUN_CONTEXT_IMMUTABLE".

(** * Input that may not be arbitrary *)

(** [_SQL] *)
Definition _SQL : rx :=
  bounded (lits ["select"; "insert"; "update"; "delete"; "drop"; "alter"; "create"]).
Definition _FORBIDDEN_SCOPE_KEYS : list string := ["url"; "uri"; "path"; "file"; "sql"; "query"].
Definition _BUDGET_BOUNDS : list (string * (Z * Z)) :=
  [("max_requests", (1, 10000)); ("max_bytes", (1, 10737418240)); ("max_attempts", (1, 3));
   ("max_duration_seconds", (1, 86400))].

Section Arbitrary.
Context `{UnicodeData} `{CharData}.

(** [value.casefold() == name] for an ASCII [name]; a text of the control plane
    is kept in UTF-8. *)
Definition folds_to (name value : string) : bool := bool_decide (casefold (utext value) = ulit name).

(** A path of Windows: [^[a-zA-Z]:[\\/]]. *)
Definition drive_path (value : ustr) : bool :=
  match value with
  | c :: colon :: slash :: _ => is_latin c && (colon =? 58) && ((slash =? 92) || (slash =? 47))
  | _ => false
  end.

Definition arbitrary_text (value : string) : bool :=
  let lowered := casefold (utext value) in
  ucontains lowered (ulit "://") || ustarts lowered [47] || ustarts lowered [92]
  || drive_path (utext value) || rx_search _SQL (utext value) || folds_to "latest" value.

Fixpoint _contains_arbitrary_input (value : pyval) : bool :=
  match value with
  | VMap l => existsb (λ kv,
      existsb (λ name, folds_to name kv.1) _FORBIDDEN_SCOPE_KEYS || _contains_arbitrary_input kv.2) l
  | VList l => existsb _contains_arbitrary_input l
  | VStr s => arbitrary_text s
  | _ => false
  end.
End Arbitrary.

(** [_validate_finite_budget]; keys are distinct. *)
Definition budget_entry_ok (value : list (string * pyval)) (b : string * (Z * Z)) : bool :=
  match dict_get value b.1 with Some (VInt item) => between b.2.1 b.2.2 item | _ => false end.
Definition _validate_finite_budget (value : list (string * pyval)) : res unit :=
  reject_if (negb (forallb (λ kv, bool_decide (kv.1 ∈ _BUDGET_BOUNDS.*1)) value
                   && forallb (λ b, dict_has value b.1) _BUDGET_BOUNDS))
    ValidationError "BUDGET must contain the exact finite limit set";;
  reject_if (negb (forallb (budget_entry_ok value) _BUDGET_BOUNDS))
    ValidationError "BUDGET is outside its finite bound".

(** * Requests, slices and plans *)

Definition universe_ok (u : option string) : bool := opt_forallb (λ s, len_between 1 64 s) u.

(** [CheckpointScope] *)
Record CheckpointScope := mkScope {
  cs_provider_definition_id : UUID; cs_provider_capability_id : UUID; cs_universe_code : option string;
  cs_security_id : option UUID; cs_scope_version : string }.
#[export] Instance CheckpointScope_eq_dec : EqDecision CheckpointScope.
Proof. solve_decision. Defined.
(** The constraints of the fields and [validate_exact_scope]. *)
Definition new_CheckpointScope (s : CheckpointScope) : res CheckpointScope :=
  reject_if (negb (universe_ok (cs_universe_code s) && semver_ok (cs_scope_version s)))
    ValidationError "CheckpointScope";;
  reject_if (bool_decide (is_none (cs_universe_code s) = is_none (cs_security_id s)))
    ValidationError "exactly one universe_code or security_id is required";;
  Ok s.
(** [CheckpointScope.checksum] *)
Definition checkpoint_checksum (s : CheckpointScope) : res string :=
  provider_checksum (VMap [
    ("provider_definition_id", VUuid (cs_provider_definition_id s));
    ("provider_capability_id", VUuid (cs_provider_capability_id s));
    ("universe_code", v_str (cs_universe_code s));
    ("security_id", match cs_security_id s with Some u => VUuid u | None => VNone end);
    ("scope_version", VStr (cs_scope_version s))]).

Record ProviderSyncRequestWrite := mkSyncRequest {
  sr_provider_definition_id : UUID; sr_provider_capability_id : UUID; sr_policy_id : UUID;
  sr_license_policy_id : UUID; sr_credential_reference_id : option UUID; sr_security_id : option UUID;
  sr_universe_code : option string; sr_research_as_of_time : time; sr_range_start : date;
  sr_range_end : date; sr_execution_mode : ProviderExecutionMode; sr_scope : list (string * pyval);
  sr_budget : list (string * pyval); sr_request_checksum : string; sr_idempotency_key : string }.

Section Requests.
Context `{UnicodeData} `{CharData}.

(** The constraints of the fields and [validate_range_and_scope]. *)
Definition new_ProviderSyncRequestWrite (r : ProviderSyncRequestWrite) : res ProviderSyncRequestWrite :=
  let bad b m := reject_if b ValidationError m in
  bad (negb (universe_ok (sr_universe_code r) && Checksum_ok (sr_request_checksum r)
             && Checksum_ok (sr_idempotency_key r))) "ProviderSyncRequestWrite";;
  bad (sr_range_end r <? sr_range_start r) "range_end cannot precede range_start";;
  bad (time_date (sr_research_as_of_time r) <? sr_range_end r) "FUTURE range is not allowed";;
  bad (bool_decide (is_none (sr_security_id r) = is_none (sr_universe_code r)))
    "exactly one Security or universe scope is required";;
  bad (negb (opt_forallb (λ u, negb (folds_to "latest" u)) (sr_universe_code r)))
    "LATEST is not an exact universe";;
  bad (_contains_arbitrary_input (VMap (sr_scope r))) "ARBITRARY URL, path, or SQL scope is forbidden";;
  _validate_finite_budget (sr_budget r);;
  Ok r.

Record ProviderSyncSlice := mkSlice {
  sl_slice_id : string; sl_ordinal : Z; sl_range_start : date; sl_range_end : date;
  sl_depends_on : list string; sl_request_parameters : list (string * pyval) }.
Definition context_keys : list string :=
  ["provider_definition_id"; "provider_capability_id"; "security_id"; "universe_code"; "snapshot_id";
   "research_as_of_time"; "policy_id"; "license_policy_id"; "credential_reference_id"].
(** [^[A-Z][A-Z0-9_]{0,63}$] *)
Definition slice_id_ok : string → bool :=
  matches_ident is_upper (λ c, is_upper c || is_digit c || char_in ["_"%char] c) 0 63.
(** [tuple(sorted(set(value)))] *)
Definition sorted_set (l : list string) : list string := sort_str (remove_dups l).

(** The constraints of the fields and [validate_slice]. *)
Definition new_ProviderSyncSlice (s : ProviderSyncSlice) : res ProviderSyncSlice :=
  let bad b m := reject_if b ValidationError m in
  bad (negb (slice_id_ok (sl_slice_id s) && between 0 9999 (sl_ordinal s)
             && (length (sl_depends_on s) <=? 64)%nat)) "ProviderSyncSlice";;
  bad (sl_range_end s <? sl_range_start s) "slice range_end cannot precede range_start";;
  bad (bool_decide (sl_slice_id s ∈ sl_depends_on s)) "slice cannot depend on itself";;
  bad (bool_decide (sl_depends_on s ≠ sorted_set (sl_depends_on s)))
    "slice dependencies must be unique and sorted";;
  bad (existsb (λ k, bool_decide (k ∈ (sl_request_parameters s).*1)) context_keys)
    "CONTEXT override is forbidden";;
  bad (_contains_arbitrary_input (VMap (sl_request_parameters s)))
    "ARBITRARY URL, path, or SQL input is forbidden";;
  Ok s.
End Requests.

Record ProviderSyncPlanDraft := mkPlanDraft {
  pd_sync_request_id : UUID; pd_adapter_version : string; pd_catalog_version : string;
  pd_checkpoint_revision : option Z; pd_slices : list ProviderSyncSlice }.
(** [positions]: the ordinal of each slice by its identifier. *)
Definition positions (slices : list ProviderSyncSlice) : list (string * Z) :=
  map (λ s, (sl_slice_id s, sl_ordinal s)) slices.
Definition check_dependency (pos : list (string * Z)) (item : ProviderSyncSlice) (dependency : string) :
    res unit :=
  match dict_get pos dependency with
  | None => raise ValidationError "slice dependency is undefined"
  | Some p => reject_if (sl_ordinal item <=? p) ValidationError
                "slice dependency must precede the dependent slice"
  end.
(** The constraints of the fields and [validate_finite_dag]. *)
Definition new_ProviderSyncPlanDraft (d : ProviderSyncPlanDraft) : res ProviderSyncPlanDraft :=
  let bad b m := reject_if b ValidationError m in
  let n := length (pd_slices d) in
  bad (negb (semver_ok (pd_adapter_version d) && semver_ok (pd_catalog_version d)
             && opt_forallb (Z.leb 0) (pd_checkpoint_revision d) && between 1 10000 (Z.of_nat n)))
    "ProviderSyncPlanDraft";;
  bad (negb (bool_decide (NoDup (map sl_slice_id (pd_slices d))))) "slice identifiers must be unique";;
  bad (bool_decide (map sl_ordinal (pd_slices d) ≠ map Z.of_nat (seq 0 n)))
    "slice ordinals must be contiguous and ordered";;
  res_iter (λ item, res_iter (check_dependency (positions (pd_slices d)) item) (sl_depends_on item))
    (pd_slices d);;
  Ok d.

(** [ProviderSyncSlice.model_dump]: in JSON mode dates are text. *)
Definition slice_fields (day : date → pyval) (s : ProviderSyncSlice) : pyval := VMap [
  ("slice_id", VStr (sl_slice_id s)); ("ordinal", VInt (sl_ordinal s));
  ("range_start", day (sl_range_start s)); ("range_end", day (sl_range_end s));
  ("depends_on", VList (map VStr (sl_depends_on s)));
  ("request_parameters", VMap (sl_request_parameters s))].
Definition build_plan_checksum (d : ProviderSyncPlanDraft) : res string :=
  provider_checksum (VMap [
    ("sync_request_id", VUuid (pd_sync_request_id d)); ("adapter_version", VStr (pd_adapter_version d));
    ("catalog_version", VStr (pd_catalog_version d));
    ("checkpoint_revision", match pd_checkpoint_revision d with Some n => VInt n | None => VNone end);
    ("slices", VList (map (slice_fields VDate) (pd_slices d)))]).

Record ProviderSyncPlanWrite := mkPlanWrite {
  pw_sync_request_id : UUID; pw_adapter_version : string; pw_checkpoint_revision : option Z;
  pw_slices : list pyval; pw_plan_checksum : string }.
Record ProviderSyncPlanRecord := mkPlanRecord {
  pr_id : UUID; pr_write : ProviderSyncPlanWrite; pr_slice_count : Z; pr_created_at : time }.

(** [ProviderSyncPlanDraft.to_write]; the parameters of a slice are JSON values
    already. *)
Definition to_write (d : ProviderSyncPlanDraft) : res ProviderSyncPlanWrite :=
  checksum ← build_plan_checksum d;
  Ok (mkPlanWrite (pd_sync_request_id d) (pd_adapter_version d) (pd_checkpoint_revision d)
        (map (slice_fields (λ d, VStr (date_isoformat d))) (pd_slices d)) checksum).

(** * Runs, attempts and checkpoints *)

Record ProviderSyncRunWrite := mkRunWrite {
  sw_sync_request_id : UUID; sw_sync_plan_id : UUID; sw_provider_definition_id : UUID;
  sw_provider_capability_id : UUID }.
Record ProviderRunTransition := mkRunTransition {
  rt_target : ProviderRunStatus; rt_consumed_requests : Z; rt_consumed_bytes : Z;
  rt_consumed_attempts : Z; rt_started_at : option time; rt_paused_at : option time;
  rt_completed_at : option time; rt_lease_owner : option string; rt_lease_expires_at : option time;
  rt_warning_codes : list string }.
Record ProviderSyncRunRecord := mkSyncRun {
  rn_id : UUID; rn_write : ProviderSyncRunWrite; rn_status : ProviderRunStatus;
  rn_consumed_requests : Z; rn_consumed_bytes : Z; rn_consumed_attempts : Z;
  rn_started_at : option time; rn_paused_at : option time; rn_completed_at : option time;
  rn_lease_owner : option string; rn_lease_expires_at : option time; rn_warning_codes : list string;
  rn_created_at : time }.

Record ProviderRequestAttemptWrite := mkAttemptWrite {
  aw_sync_run_id : UUID; aw_slice_id : string; aw_attempt_number : Z;
  aw_status : ProviderSyncSliceStatus; aw_endpoint_id : string; aw_response_status_code : option Z;
  aw_response_bytes : Z; aw_started_at : time; aw_completed_at : option time;
  aw_safe_error_code : option string }.
#[export] Instance ProviderRequestAttemptWrite_eq_dec : EqDecision ProviderRequestAttemptWrite.
Proof. solve_decision. Defined.
(** The constraints of the fields of a write (a record allows number 4). *)
Definition attempt_valid (max_number : Z) (w : ProviderRequestAttemptWrite) : bool :=
  len_between 1 64 (aw_slice_id w) && between 1 max_number (aw_attempt_number w)
  && len_between 1 128 (aw_endpoint_id w)
  && opt_forallb (between 100 599) (aw_response_status_code w) && (0 <=? aw_response_bytes w)
  && opt_forallb (len_between 0 128) (aw_safe_error_code w).
Record ProviderRequestAttemptRecord := mkAttemptRecord {
  at_id : UUID; at_write : ProviderRequestAttemptWrite; at_created_at : time }.
Record ProviderRequestAttemptReservation := mkAttemptReservation {
  ar_id : UUID; ar_value : ProviderRequestAttemptWrite }.
(** [validate_pending_reservation] *)
Definition new_ProviderRequestAttemptReservation (r : ProviderRequestAttemptReservation) :
    res ProviderRequestAttemptReservation :=
  reject_if (bool_decide (aw_status (ar_value r) ≠ SliceSt.PENDING)) ValidationError
    "PROVIDER_ATTEMPT_RESERVATION_NOT_PENDING";;
  reject_if (is_some (aw_completed_at (ar_value r))) ValidationError
    "PROVIDER_ATTEMPT_RESERVATION_ALREADY_COMPLETED";;
  Ok r.
Record ProviderRequestAttemptSettlement := mkAttemptSettlement {
  as_id : UUID; as_status : ProviderSyncSliceStatus; as_response_status_code : option Z;
  as_response_bytes : Z; as_completed_at : time; as_safe_error_code : option string }.
(** The constraints of the fields and [validate_terminal_settlement]. *)
Definition new_ProviderRequestAttemptSettlement (s : ProviderRequestAttemptSettlement) :
    res ProviderRequestAttemptSettlement :=
  reject_if (negb (opt_forallb (between 100 599) (as_response_status_code s)
                   && (0 <=? as_response_bytes s)
                   && opt_forallb (len_between 0 128) (as_safe_error_code s)))
    ValidationError "ProviderRequestAttemptSettlement";;
  reject_if (negb (bool_decide (as_status s ∈
      [SliceSt.COMPLETED; SliceSt.PARTIAL; SliceSt.BLOCKED; SliceSt.FAILED; SliceSt.CANCELLED])))
    ValidationError "PROVIDER_ATTEMPT_SETTLEMENT_NOT_TERMINAL";;
  Ok s.

Record CheckpointAdvance := mkAdvance {
  ca_scope : CheckpointScope; ca_expected_revision : Z; ca_watermark : list (string * pyval) }.
(** A row of provider_sync_checkpoints. *)
Record CheckpointRow := mkCheckpoint {
  ck_id : UUID; ck_definition : UUID; ck_capability : UUID; ck_scope_checksum : string;
  ck_watermark : list (string * pyval); ck_revision : Z; ck_updated_at : time; ck_created_at : time }.
Record ProviderCheckpointRecord := mkCheckpointRecord {
  cr_id : UUID; cr_scope : CheckpointScope; cr_scope_checksum : string;
  cr_watermark : list (string * pyval); cr_revision : Z; cr_updated_at : time; cr_created_at : time }.

(** * The map of transitions is the trigger's *)

(** The state machine of the domain and the PostgreSQL trigger accept the
    same updates of a run's status: a transition is allowed by the one exactly
    when the other lets the row through, with the same resulting status. *)
Theorem sync_guard_agrees current target status :
  ProviderRunStateMachine.transition current target = Ok status ↔
  stage9_guard_sync_run (PRunSt.value current) (PRunSt.value target) = Ok (PRunSt.value status) ∧ status = target.
Proof.
  assert (Hm : ∀ s, ProviderRunStateMachine.transition current target = Ok s → s = target).
  { intros s. unfold ProviderRunStateMachine.transition. rewrite guard_seq. intros [_ H].
    destruct (decide _); [by injection H|]. apply guard_seq in H as [_ H]. by injection H. }
  assert (Hb : is_ok (ProviderRunStateMachine.transition current target) =
    is_ok (stage9_guard_sync_run (PRunSt.value current) (PRunSt.value target))).
  { destruct current, target; vm_compute; reflexivity. }
  assert (Hg : ∀ s, stage9_guard_sync_run (PRunSt.value current) (PRunSt.value target) = Ok s → s = PRunSt.value target).
  { intros s. unfold stage9_guard_sync_run. cbv zeta. rewrite !guard_seq. by intros (_ & _ & [= <-]). }
  split.
  - intros H. pose proof (Hm _ H) as ->. rewrite H in Hb. destruct (stage9_guard_sync_run _ _) as [s|] eqn:E; [|discriminate].
    by rewrite (Hg s eq_refl).
  - intros [H ->]. rewrite H in Hb. destruct (ProviderRunStateMachine.transition _ _) as [s|] eqn:E; [|discriminate].
    by rewrite (Hm s eq_refl).
Qed.

(** * Plans are finite and ordered *)

(** A slice may depend on the slices before it only. *)
Definition ordered_slices (slices : list ProviderSyncSlice) : Prop :=
  ∀ (i : nat) s d, slices !! i = Some s → d ∈ sl_depends_on s →
    ∃ (j : nat) s', (j < i)%nat ∧ slices !! j = Some s' ∧ sl_slice_id s' = d.
Definition plan_fields_ok (d : ProviderSyncPlanDraft) : bool :=
  semver_ok (pd_adapter_version d) && semver_ok (pd_catalog_version d)
  && opt_forallb (Z.leb 0) (pd_checkpoint_revision d) && between 1 10000 (Z.of_nat (length (pd_slices d))).

Lemma ordinal_at slices (i : nat) s : map sl_ordinal slices = map Z.of_nat (seq 0 (length slices)) →
  slices !! i = Some s → sl_ordinal s = Z.of_nat i.
Proof.
  intros H Hi. assert (Hl : (map sl_ordinal slices) !! i = Some (sl_ordinal s)) by (by rewrite list_lookup_fmap, Hi).
  rewrite H, list_lookup_fmap, fmap_Some in Hl. destruct Hl as (k & Hk & ->).
  apply lookup_seq in Hk as [-> _]. done.
Qed.
Lemma positions_get slices k p : NoDup (map sl_slice_id slices) →
  dict_get (positions slices) k = Some p ↔ ∃ s, s ∈ slices ∧ sl_slice_id s = k ∧ sl_ordinal s = p.
Proof.
  intros Hnd. split.
  - intros (s & [= -> ->] & Hs)%dict_get_elem%list_elem_of_fmap. eauto.
  - intros (s & Hs & <- & <-). apply dict_elem_get.
    + unfold positions. rewrite <- list_fmap_compose. exact Hnd.
    + by apply (list_elem_of_fmap_2 (λ s, (sl_slice_id s, sl_ordinal s))).
Qed.
Lemma check_dependency_Ok pos item d :
  check_dependency pos item d = Ok tt ↔ ∃ p, dict_get pos d = Some p ∧ p < sl_ordinal item.
Proof.
  unfold check_dependency. destruct (dict_get pos d) as [p|].
  - rewrite reject_if_Ok. split; [intros H; exists p; split; [done|lia]|intros (q & [= <-] & H); lia].
  - split; [discriminate|by intros (q & ? & _)].
Qed.

(** C30. A plan draft is accepted exactly when its fields are in bounds, its
    slices have distinct identifiers, are numbered in their order, and each
    depends on slices before it only: so executing them in order meets every
    dependency, and there is no cycle. *)
Theorem plan_draft_contract d :
  new_ProviderSyncPlanDraft d = Ok d ↔
  plan_fields_ok d = true ∧ NoDup (map sl_slice_id (pd_slices d)) ∧
  map sl_ordinal (pd_slices d) = map Z.of_nat (seq 0 (length (pd_slices d))) ∧ ordered_slices (pd_slices d).
Proof.
  unfold new_ProviderSyncPlanDraft. cbv zeta.
  rewrite !guard_seq, !negb_false_iff, bool_decide_eq_true, bool_decide_eq_false, seq_Ok, res_iter_Ok, Forall_forall.
  fold (plan_fields_ok d).
  assert (Hdep : NoDup (map sl_slice_id (pd_slices d)) →
    map sl_ordinal (pd_slices d) = map Z.of_nat (seq 0 (length (pd_slices d))) →
    (∀ s, s ∈ pd_slices d → res_iter (check_dependency (positions (pd_slices d)) s) (sl_depends_on s) = Ok tt) ↔
    ordered_slices (pd_slices d)).
  { intros Hnd Hord. split.
    - intros H i s dep Hi Hdep. specialize (H s (list_elem_of_lookup_2 _ _ _ Hi)).
      rewrite res_iter_Ok, Forall_forall in H. apply H, check_dependency_Ok in Hdep as (p & Hp & Hlt).
      apply positions_get in Hp as (s' & [j Hj]%list_elem_of_lookup & <- & <-); [|done].
      rewrite (ordinal_at _ _ _ Hord Hi), (ordinal_at _ _ _ Hord Hj) in Hlt. exists j, s'. split; [lia|done].
    - intros H s [i Hi]%list_elem_of_lookup. rewrite res_iter_Ok, Forall_forall. intros dep Hdep.
      destruct (H i s dep Hi Hdep) as (j & s' & Hlt & Hj & <-). apply check_dependency_Ok.
      exists (sl_ordinal s'). split; [apply positions_get; [done|]|].
      + exists s'. split; [by eapply list_elem_of_lookup_2|done].
      + rewrite (ordinal_at _ _ _ Hord Hi), (ordinal_at _ _ _ Hord Hj). lia. }
  split.
  - intros (Hf & Hnd & Hord%dec_stable & H & _). split_and!; try done. by apply Hdep.
  - intros (Hf & Hnd & Hord & H). split_and!; try done; [by intros ?|]. by apply Hdep.
Qed.
