(* ===== verification/SyncStore.v ===== *)
(** The tables of provider synchronization and their repository
    (SqlAlchemyProviderSyncRepository of db/repositories/providers.py, with the
    constraints of db/models/providers.py).  Each operation is a session over
    [sync_db]; a new row takes its identifier and time from the arguments. *)
From S2P Require Import Prelude Session PyDecimal PyText Sha256 AgentModel Text ReportModel Language ProviderSync.

(** * The tables *)

(** The rows the foreign keys of the tables point at, by identifier. *)
Record control_refs := mkRefs {
  cx_definitions : list UUID; cx_capabilities : list UUID; cx_policies : list UUID;
  cx_licenses : list UUID; cx_credentials : list UUID; cx_securities : list UUID }.
Record ProviderSyncRequestRecord := mkSyncRequestRow {
  sq_id : UUID; sq_write : ProviderSyncRequestWrite; sq_created_at : time }.
Record sync_db := mkSyncDb {
  sy_refs : control_refs; sy_requests : list ProviderSyncRequestRecord;
  sy_plans : list ProviderSyncPlanRecord; sy_runs : list ProviderSyncRunRecord;
  sy_attempts : list ProviderRequestAttemptRecord; sy_checkpoints : list CheckpointRow }.

Definition with_sync_requests db x := mkSyncDb (sy_refs db) x (sy_plans db) (sy_runs db)
  (sy_attempts db) (sy_checkpoints db).
Definition with_plans db x := mkSyncDb (sy_refs db) (sy_requests db) x (sy_runs db) (sy_attempts db)
  (sy_checkpoints db).
Definition with_sync_runs db x := mkSyncDb (sy_refs db) (sy_requests db) (sy_plans db) x (sy_attempts db)
  (sy_checkpoints db).
Definition with_attempts db x := mkSyncDb (sy_refs db) (sy_requests db) (sy_plans db) (sy_runs db) x
  (sy_checkpoints db).
Definition with_checkpoints db x := mkSyncDb (sy_refs db) (sy_requests db) (sy_plans db) (sy_runs db)
  (sy_attempts db) x.

Abbreviation syncM := (sessM sync_db).

(** Statements on any tables: a read of them all, a write, a constraint. *)
Section Statements.
Context {S : Type}.
Definition tables : sessM S S := λ db, Ok (db, db).
Definition write (f : S → S) : sessM S unit := λ db, Ok (tt, f db).
Definition check (ok : bool) (name : string) : sessM S unit :=
  sess_lift (reject_if (negb ok) IntegrityError name).
Definition checked (l : list (bool * string)) : sessM S unit :=
  sess_lift (res_iter (λ c, reject_if (negb c.1) IntegrityError c.2) l).

Lemma tables_Ok db x db' : tables db = Ok (x, db') ↔ x = db ∧ db' = db.
Proof. unfold tables. split; [by intros [= <- <-]|by intros [-> ->]]. Qed.
Lemma write_Ok f (db : S) x db' : write f db = Ok (x, db') ↔ db' = f db.
Proof. unfold write. destruct x. split; [by intros [= <-]|by intros ->]. Qed.
Lemma checked_Ok l (db : S) x db' :
  checked l db = Ok (x, db') ↔ db' = db ∧ Forall (λ c, c.1 = true) l.
Proof.
  unfold checked. rewrite sess_lift_Ok. destruct x.
  assert (H : res_iter (λ c : bool * string, reject_if (negb c.1) IntegrityError c.2) l = Ok tt ↔
              Forall (λ c, c.1 = true) l).
  { induction l as [|[b n] l IH]; cbn [res_iter]; [by split|].
    rewrite seq_Ok, reject_if_Ok, Forall_cons, IH. cbn. by rewrite negb_false_iff. }
  rewrite H. tauto.
Qed.
Lemma done_Ok {A} (a : A) (db : S) x db' : (mret a : sessM S A) db = Ok (x, db') ↔ x = a ∧ db' = db.
Proof. unfold mret, sess_ret. split; [by intros [= <- <-]|by intros [-> ->]]. Qed.
End Statements.

(** Takes a transaction apart, statement by statement. *)
Ltac tx_inv E :=
  lazymatch type of E with
  | (_ ≫= _) _ = Ok _ =>
      let x := fresh "x" in let d := fresh "d" in let F := fresh "F" in
      apply sess_bind_Ok in E as (x & d & F & E); tx_inv F; cbv beta in E; tx_inv E
  | tables _ = Ok _ => apply tables_Ok in E as [-> ->]
  | write _ _ = Ok _ => apply write_Ok in E as ->
  | checked _ _ = Ok _ => apply checked_Ok in E as [-> E]
  | sess_lift _ _ = Ok _ => apply sess_lift_Ok in E as [E ->]
  | mret _ _ = Ok _ => apply done_Ok in E as [E ->]; try (rewrite E; clear E)
  | (let _ := _ in _) = Ok _ => cbv zeta in E; tx_inv E
  | _ => idtac
  end.

Definition member {A} `{EqDecision A} (x : A) (l : list A) : bool := bool_decide (x ∈ l).
Definition opt_member {A} `{EqDecision A} (x : option A) (l : list A) : bool := opt_forallb (λ x, member x l) x.
Definition distinct {A} `{EqDecision A} (l : list A) : bool := bool_decide (NoDup l).
Lemma distinct_fresh {A B} `{EqDecision B} (f : A → B) l x :
  distinct (map f (l ++ [x])) = true ↔ NoDup (map f l) ∧ f x ∉ map f l.
Proof.
  unfold distinct. rewrite bool_decide_eq_true, map_app, NoDup_app. cbn. split.
  - intros (? & Hd & _). split; [done|]. intros Hin. apply (Hd _ Hin). left.
  - intros [? ?]. split_and!; [done| |apply NoDup_singleton]. set_solver.
Qed.

Definition conflict {A} (code : string) : res A := raise (NamedError "ProviderRepositoryConflict") code.

(** Whether PostgreSQL's text of a JSON document is within the bound of its
    column. *)
Class JsonBounds := {
  scope_bounded : list (string * pyval) → bool;
  budget_bounded : list (string * pyval) → bool;
  slices_bounded : list pyval → bool }.

(** * Requests and plans *)

Section Repository.
Context `{JsonBounds}.

(** [create_request] *)
Definition create_request (id : UUID) (now : time) (value : ProviderSyncRequestWrite) :
    syncM ProviderSyncRequestRecord :=
  db ← tables;
  match find (λ r, String.eqb (sr_idempotency_key (sq_write r)) (sr_idempotency_key value)) (sy_requests db) with
  | Some existing =>
      sess_lift (if String.eqb (sr_request_checksum (sq_write existing)) (sr_request_checksum value)
                 then Ok existing else conflict "PROVIDER_SYNC_REQUEST_CONFLICT")
  | None =>
      let row := mkSyncRequestRow id value now in
      let refs := sy_refs db in
      checked [
        (distinct (map sq_id (sy_requests db ++ [row])), "pk_provider_sync_requests");
        (member (sr_provider_definition_id value) (cx_definitions refs), "fk_provider_sync_requests_definition");
        (member (sr_provider_capability_id value) (cx_capabilities refs), "fk_provider_sync_requests_capability");
        (member (sr_policy_id value) (cx_policies refs), "fk_provider_sync_requests_policy");
        (member (sr_license_policy_id value) (cx_licenses refs), "fk_provider_sync_requests_license");
        (opt_member (sr_credential_reference_id value) (cx_credentials refs),
         "fk_provider_sync_requests_credential");
        (opt_member (sr_security_id value) (cx_securities refs), "fk_provider_sync_requests_security");
        (distinct (map (λ r, sr_idempotency_key (sq_write r)) (sy_requests db ++ [row])),
         "uq_provider_sync_requests_idempotency");
        (sr_range_start value <=? sr_range_end value, "ck_provider_sync_requests_range");
        (Checksum_ok (sr_request_checksum value) && Checksum_ok (sr_idempotency_key value),
         "ck_provider_sync_requests_checksums");
        (scope_bounded (sr_scope value) && budget_bounded (sr_budget value),
         "ck_provider_sync_requests_json_bounds")];;
      write (λ db, with_sync_requests db (sy_requests db ++ [row]));;
      mret row
  end.

(** [add_plan] *)
Definition add_plan (id : UUID) (now : time) (value : ProviderSyncPlanWrite) : syncM ProviderSyncPlanRecord :=
  db ← tables;
  match find (λ r, bool_decide (pw_sync_request_id (pr_write r) = pw_sync_request_id value)
                   && String.eqb (pw_plan_checksum (pr_write r)) (pw_plan_checksum value)) (sy_plans db) with
  | Some existing => mret existing
  | None =>
      let n := Z.of_nat (length (pw_slices value)) in
      let row := mkPlanRecord id value n now in
      checked [
        (distinct (map pr_id (sy_plans db ++ [row])), "pk_provider_sync_plans");
        (member (pw_sync_request_id value) (map sq_id (sy_requests db)), "fk_provider_sync_plans_request");
        (distinct (map (λ r, (pw_sync_request_id (pr_write r), pw_plan_checksum (pr_write r)))
                     (sy_plans db ++ [row])), "uq_provider_sync_plans_identity");
        (between 1 10000 n, "ck_provider_sync_plans_slice_count");
        (Checksum_ok (pw_plan_checksum value), "ck_provider_sync_plans_checksum");
        (slices_bounded (pw_slices value), "ck_provider_sync_plans_json_bound")];;
      write (λ db, with_plans db (sy_plans db ++ [row]));;
      mret row
  end.
End Repository.

(** * Runs *)

Definition terminal_run (s : ProviderRunStatus) : bool :=
  bool_decide (s ∈ ProviderRunStateMachine._TERMINAL).
(** The checks of provider_sync_runs on one row. *)
Definition run_row_ok (r : ProviderSyncRunRecord) : list (bool * string) :=
  [((0 <=? rn_consumed_requests r) && (0 <=? rn_consumed_bytes r) && (0 <=? rn_consumed_attempts r),
    "ck_provider_sync_runs_counters");
   (Bool.eqb (terminal_run (rn_status r)) (is_some (rn_completed_at r)),
    "ck_provider_sync_runs_terminal_time")].

(** [create_run] *)
Definition create_run (id : UUID) (now : time) (value : ProviderSyncRunWrite) : syncM ProviderSyncRunRecord :=
  db ← tables;
  match find (λ r, bool_decide (sw_sync_request_id (rn_write r) = sw_sync_request_id value)
                   && bool_decide (sw_sync_plan_id (rn_write r) = sw_sync_plan_id value)) (sy_runs db) with
  | Some existing =>
      let w := rn_write existing in
      sess_lift (if bool_decide (sw_provider_definition_id w = sw_provider_definition_id value)
                    && bool_decide (sw_provider_capability_id w = sw_provider_capability_id value)
                 then Ok existing else conflict "PROVIDER_SYNC_RUN_CONFLICT")
  | None =>
      let row := mkSyncRun id value PRunSt.PLANNED 0 0 0 None None None None None [] now in
      checked ([
        (distinct (map rn_id (sy_runs db ++ [row])), "pk_provider_sync_runs");
        (member (sw_sync_request_id value) (map sq_id (sy_requests db)), "fk_provider_sync_runs_request");
        (member (sw_sync_plan_id value) (map pr_id (sy_plans db)), "fk_provider_sync_runs_plan");
        (member (sw_provider_definition_id value) (cx_definitions (sy_refs db)), "fk_provider_sync_runs_definition");
        (member (sw_provider_capability_id value) (cx_capabilities (sy_refs db)), "fk_provider_sync_runs_capability");
        (distinct (map (λ r, (sw_sync_request_id (rn_write r), sw_sync_plan_id (rn_write r)))
                     (sy_runs db ++ [row])), "uq_provider_sync_runs_identity")] ++ run_row_ok row);;
      write (λ db, with_sync_runs db (sy_runs db ++ [row]));;
      mret row
  end.

(** [get_run] *)
Definition find_run (db : sync_db) (run_id : UUID) : option ProviderSyncRunRecord :=
  find (λ r, bool_decide (rn_id r = run_id)) (sy_runs db).

Definition moved_run (r : ProviderSyncRunRecord) (value : ProviderRunTransition) : ProviderSyncRunRecord :=
  mkSyncRun (rn_id r) (rn_write r) (rt_target value) (rt_consumed_requests value) (rt_consumed_bytes value)
    (rt_consumed_attempts value) (rt_started_at value) (rt_paused_at value) (rt_completed_at value)
    (rt_lease_owner value) (rt_lease_expires_at value) (rt_warning_codes value) (rn_created_at r).
(** The repository's [transition]. *)
Definition transition_run (run_id : UUID) (value : ProviderRunTransition) : syncM ProviderSyncRunRecord :=
  db ← tables;
  row ← sess_lift (require_some (find_run db run_id) LookupError "PROVIDER_SYNC_RUN_NOT_FOUND");
  _ ← sess_lift (ProviderRunStateMachine.transition (rn_status row) (rt_target value));
  let row' := moved_run row value in
  sess_lift (_ ← stage9_guard_sync_run (PRunSt.value (rn_status row)) (PRunSt.value (rt_target value)); Ok tt);;
  checked (run_row_ok row');;
  write (λ db, with_sync_runs db
    (map (λ r, if bool_decide (rn_id r = run_id) then row' else r) (sy_runs db)));;
  mret row'.

(** * Attempts *)

Definition attempt_statuses : list ProviderSyncSliceStatus :=
  [SliceSt.PENDING; SliceSt.RUNNING; SliceSt.COMPLETED; SliceSt.BLOCKED; SliceSt.FAILED; SliceSt.CANCELLED].
Definition attempt_identity (r : ProviderRequestAttemptRecord) : UUID * string * Z :=
  let w := at_write r in (aw_sync_run_id w, aw_slice_id w, aw_attempt_number w).
(** The checks of provider_request_attempts on one row. *)
Definition attempt_row_ok (w : ProviderRequestAttemptWrite) : list (bool * string) :=
  [(member (aw_status w) attempt_statuses, "ck_provider_request_attempts_status");
   (between 1 4 (aw_attempt_number w) && (0 <=? aw_response_bytes w)
    && opt_forallb (between 100 599) (aw_response_status_code w), "ck_provider_request_attempts_bounds");
   (opt_forallb (Z.leb (aw_started_at w)) (aw_completed_at w), "ck_provider_request_attempts_time")].

Definition insert_attempt (row : ProviderRequestAttemptRecord) : syncM ProviderRequestAttemptRecord :=
  db ← tables;
  checked ([
    (distinct (map at_id (sy_attempts db ++ [row])), "pk_provider_request_attempts");
    (member (aw_sync_run_id (at_write row)) (map rn_id (sy_runs db)), "fk_provider_request_attempts_run");
    (distinct (map attempt_identity (sy_attempts db ++ [row])), "uq_provider_request_attempts_identity")]
    ++ attempt_row_ok (at_write row));;
  write (λ db, with_attempts db (sy_attempts db ++ [row]));;
  mret row.

Definition same_identity (w : ProviderRequestAttemptWrite) (r : ProviderRequestAttemptRecord) : bool :=
  bool_decide (attempt_identity r = (aw_sync_run_id w, aw_slice_id w, aw_attempt_number w)).

(** [append_attempt] *)
Definition append_attempt (id : UUID) (now : time) (value : ProviderRequestAttemptWrite) :
    syncM ProviderRequestAttemptRecord :=
  db ← tables;
  match find (same_identity value) (sy_attempts db) with
  | Some existing =>
      sess_lift (if decide (at_write existing = value) then Ok existing
                 else conflict "PROVIDER_ATTEMPT_CONFLICT")
  | None => insert_attempt (mkAttemptRecord id value now)
  end.

(** [reserve_attempt] *)
Definition reserve_attempt (now : time) (value : ProviderRequestAttemptReservation) :
    syncM ProviderRequestAttemptRecord :=
  db ← tables;
  match find (λ r, bool_decide (at_id r = ar_id value) || same_identity (ar_value value) r) (sy_attempts db) with
  | Some existing =>
      sess_lift (if decide (at_id existing = ar_id value ∧ at_write existing = ar_value value)
                 then Ok existing else conflict "PROVIDER_ATTEMPT_CONFLICT")
  | None => insert_attempt (mkAttemptRecord (ar_id value) (ar_value value) now)
  end.

Definition settled_attempt (w : ProviderRequestAttemptWrite) (value : ProviderRequestAttemptSettlement) :
    ProviderRequestAttemptWrite :=
  mkAttemptWrite (aw_sync_run_id w) (aw_slice_id w) (aw_attempt_number w) (as_status value)
    (aw_endpoint_id w) (as_response_status_code value) (as_response_bytes value) (aw_started_at w)
    (Some (as_completed_at value)) (as_safe_error_code value).
Definition set_attempt (id : UUID) (w : ProviderRequestAttemptWrite) (r : ProviderRequestAttemptRecord) :
    ProviderRequestAttemptRecord :=
  if bool_decide (at_id r = id) then mkAttemptRecord (at_id r) w (at_created_at r) else r.
Definition find_attempt (db : sync_db) (id : UUID) : option ProviderRequestAttemptRecord :=
  find (λ r, bool_decide (at_id r = id)) (sy_attempts db).

(** [settle_attempt]: a row settled before must carry the same result. *)
Definition settle_attempt (value : ProviderRequestAttemptSettlement) : syncM ProviderRequestAttemptRecord :=
  db ← tables;
  row ← sess_lift (require_some (find_attempt db (as_id value)) LookupError "PROVIDER_ATTEMPT_NOT_FOUND");
  let w := at_write row in
  if bool_decide (aw_status w ≠ SliceSt.PENDING) then
    sess_lift (if decide (w = settled_attempt w value) then Ok row
               else conflict "PROVIDER_ATTEMPT_SETTLEMENT_CONFLICT")
  else
    let w' := settled_attempt w value in
    checked (attempt_row_ok w');;
    write (λ db, with_attempts db (map (set_attempt (as_id value) w') (sy_attempts db)));;
    mret (mkAttemptRecord (at_id row) w' (at_created_at row)).

(** * Checkpoints *)

Definition checkpoint_key (r : CheckpointRow) : UUID * UUID * string :=
  (ck_definition r, ck_capability r, ck_scope_checksum r).
Definition scope_key (s : CheckpointScope) (checksum : string) : UUID * UUID * string :=
  (cs_provider_definition_id s, cs_provider_capability_id s, checksum).
Definition find_checkpoint (db : sync_db) (key : UUID * UUID * string) : option CheckpointRow :=
  find (λ r, bool_decide (checkpoint_key r = key)) (sy_checkpoints db).
Definition _checkpoint_record (r : CheckpointRow) (scope : CheckpointScope) : ProviderCheckpointRecord :=
  mkCheckpointRecord (ck_id r) scope (ck_scope_checksum r) (ck_watermark r) (ck_revision r)
    (ck_updated_at r) (ck_created_at r).
Definition advanced (r : CheckpointRow) (watermark : list (string * pyval)) (now : time) : CheckpointRow :=
  mkCheckpoint (ck_id r) (ck_definition r) (ck_capability r) (ck_scope_checksum r) watermark
    (ck_revision r + 1) now (ck_created_at r).

(** [compare_and_swap_checkpoint] *)
Definition compare_and_swap_checkpoint (id : UUID) (now : time) (value : CheckpointAdvance) :
    syncM ProviderCheckpointRecord :=
  let scope := ca_scope value in
  checksum ← sess_lift (checkpoint_checksum scope);
  db ← tables;
  match find_checkpoint db (scope_key scope checksum) with
  | None =>
      sess_lift (if ca_expected_revision value =? 0 then Ok tt else conflict "PROVIDER_CHECKPOINT_CONFLICT");;
      let row := mkCheckpoint id (cs_provider_definition_id scope) (cs_provider_capability_id scope) checksum
                   (ca_watermark value) 0 now now in
      checked [
        (distinct (map ck_id (sy_checkpoints db ++ [row])), "pk_provider_sync_checkpoints");
        (member (ck_definition row) (cx_definitions (sy_refs db)), "fk_provider_sync_checkpoints_definition");
        (member (ck_capability row) (cx_capabilities (sy_refs db)), "fk_provider_sync_checkpoints_capability");
        (distinct (map checkpoint_key (sy_checkpoints db ++ [row])), "uq_provider_sync_checkpoints_scope");
        (Checksum_ok checksum, "ck_provider_sync_checkpoints_checksum")];;
      write (λ db, with_checkpoints db (sy_checkpoints db ++ [row]));;
      mret (_checkpoint_record row scope)
  | Some row =>
      sess_lift (if ck_revision row =? ca_expected_revision value then Ok tt
                 else conflict "PROVIDER_CHECKPOINT_CONFLICT");;
      let row' := advanced row (ca_watermark value) now in
      write (λ db, with_checkpoints db
        (map (λ r, if bool_decide (ck_id r = ck_id row) then row' else r) (sy_checkpoints db)));;
      mret (_checkpoint_record row' scope)
  end.

(** [get_checkpoint] *)
Definition get_checkpoint (db : sync_db) (scope : CheckpointScope) : res (option ProviderCheckpointRecord) :=
  checksum ← checkpoint_checksum scope;
  Ok ((λ r, _checkpoint_record r scope) <$> find_checkpoint db (scope_key scope checksum)).

(** * Checkpoints advance one revision at a time *)

Abbreviation checkpoint_call := (UUID * time * CheckpointAdvance)%type.
Definition advance_key (value : CheckpointAdvance) : option (UUID * UUID * string) :=
  match checkpoint_checksum (ca_scope value) with Ok c => Some (scope_key (ca_scope value) c) | Raise _ => None end.
Definition cas (c : checkpoint_call) (db : sync_db) : res (ProviderCheckpointRecord * sync_db) :=
  compare_and_swap_checkpoint c.1.1 c.1.2 c.2 db.
(** The revisions expected by the advances of one scope that were accepted, in
    order. *)
Fixpoint accepted_revisions (key : UUID * UUID * string) (db : sync_db) (calls : list checkpoint_call) : list Z :=
  match calls with
  | [] => []
  | c :: calls =>
      match cas c db with
      | Ok (_, db') => (if bool_decide (advance_key c.2 = Some key) then [ca_expected_revision c.2] else [])
                       ++ accepted_revisions key db' calls
      | Raise _ => accepted_revisions key db calls
      end
  end.
(** Revision 0 creates the row; then each revision is left once. *)
Definition revisions_from (row : option CheckpointRow) (n : nat) : list Z :=
  match row, n with
  | Some r, _ => seqZ (ck_revision r) (Z.of_nat n)
  | None, O => []
  | None, S n => 0 :: seqZ 0 (Z.of_nat n)
  end.

Definition swap_row (row row' : CheckpointRow) (r : CheckpointRow) : CheckpointRow :=
  if bool_decide (ck_id r = ck_id row) then row' else r.
Lemma cas_Ok c db v db' : cas c db = Ok (v, db') →
  ∃ key, advance_key c.2 = Some key ∧
    ((find_checkpoint db key = None ∧ ca_expected_revision c.2 = 0 ∧ ∃ row, checkpoint_key row = key ∧
        ck_revision row = 0 ∧ NoDup (map ck_id (sy_checkpoints db ++ [row])) ∧
        db' = with_checkpoints db (sy_checkpoints db ++ [row])) ∨
     (∃ row row', find_checkpoint db key = Some row ∧ ck_revision row = ca_expected_revision c.2 ∧
        checkpoint_key row' = key ∧ ck_id row' = ck_id row ∧ ck_revision row' = ck_revision row + 1 ∧
        db' = with_checkpoints db (map (swap_row row row') (sy_checkpoints db)))).
Proof.
  intros E. unfold cas, compare_and_swap_checkpoint in E. cbv zeta in E.
  apply sess_bind_Ok in E as (checksum & d & [Hsum ->]%sess_lift_Ok & E). tx_inv E.
  exists (scope_key (ca_scope c.2) checksum). unfold advance_key. rewrite Hsum. split; [done|].
  destruct (find_checkpoint db _) as [row|] eqn:Hf; tx_inv E.
  - destruct (_ =? _) eqn:Er; [|discriminate]. right.
    exists row, (advanced row (ca_watermark c.2) c.1.2). apply Z.eqb_eq in Er.
    apply find_elem in Hf as [_ Hk%bool_decide_eq_true]. by split_and!.
  - destruct (_ =? _) eqn:Er; [|discriminate]. left. apply Z.eqb_eq in Er. split_and!; [done|done|].
    match goal with F : Forall _ _ |- _ => apply Forall_cons in F as [Hid _] end. cbn in Hid.
    eexists. split_and!; [| | |reflexivity]; [done|done|]. by apply bool_decide_eq_true in Hid.
Qed.

Lemma find_swap l row row' key : NoDup (map ck_id l) → row ∈ l → checkpoint_key row' = checkpoint_key row →
  ck_id row' = ck_id row →
  find (λ r, bool_decide (checkpoint_key r = key)) (map (swap_row row row') l) =
  swap_row row row' <$> find (λ r, bool_decide (checkpoint_key r = key)) l.
Proof.
  intros Hnd Hin Hk Hid. assert (Hkey : ∀ r, r ∈ l → checkpoint_key (swap_row row row' r) = checkpoint_key r).
  { intros r Hr. unfold swap_row. case_bool_decide as E; [|done]. rewrite Hk. f_equal.
    by apply (NoDup_map_inj ck_id l). }
  clear Hin Hnd. induction l as [|r l IH]; cbn; [done|]. rewrite Hkey by left.
  destruct (bool_decide _); [done|]. apply IH. intros x Hx. apply Hkey. by right.
Qed.

(** C31. Compare-and-swap never loses an advance of an existing checkpoint:
    whatever calls are made in whatever order, the accepted advances of a scope
    expect consecutive revisions, so no two of them saw the same one.  A scope
    without a checkpoint takes its first advance at revision 0, and one more
    advance at revision 0 after that, since creating the row does not count
    as a revision. *)
Theorem checkpoint_revisions key calls db : NoDup (map ck_id (sy_checkpoints db)) →
  ∃ n, accepted_revisions key db calls = revisions_from (find_checkpoint db key) n.
Proof.
  revert db. induction calls as [|c calls IH]; intros db Hnd; cbn [accepted_revisions].
  { exists 0%nat. by destruct (find_checkpoint db key). }
  destruct (cas c db) as [[v db']|e] eqn:E; [|by apply IH].
  apply cas_Ok in E as (k & Hk & [(Hf & He & row & Hrow & Hrev & Hnd' & ->)|(row & row' & Hf & He & Hk' & Hid & Hrev & ->)]);
    rewrite Hk.
  - destruct (IH (with_checkpoints db (sy_checkpoints db ++ [row])) Hnd') as [n Hn]. rewrite Hn.
    unfold find_checkpoint in *. cbn [with_checkpoints sy_checkpoints].
    destruct (bool_decide (Some k = Some key)) eqn:Ek.
    + apply bool_decide_eq_true in Ek as [= ->]. exists (S n). rewrite Hf, find_app_none by done. cbn [find].
      rewrite bool_decide_eq_true_2 by done. cbn. by rewrite He, Hrev.
    + exists n. apply bool_decide_eq_false in Ek. cbn [app]. f_equal.
      destruct (find (λ r, bool_decide (checkpoint_key r = key)) (sy_checkpoints db)) as [r|] eqn:Ef.
      * by apply (find_prefix _ (sy_checkpoints db)); [apply prefix_app_r|].
      * rewrite find_app_none by done. cbn. rewrite bool_decide_eq_false_2; [done|]. intros H. congruence.
  - pose proof (find_elem _ _ _ Hf) as [Hin Hrk%bool_decide_eq_true].
    assert (Hnd' : NoDup (map ck_id (map (swap_row row row') (sy_checkpoints db)))).
    { rewrite map_map. erewrite map_ext; [exact Hnd|]. intros r. unfold swap_row. by case_bool_decide; [congruence|]. }
    destruct (IH (with_checkpoints db (map (swap_row row row') (sy_checkpoints db))) Hnd') as [n Hn]. rewrite Hn.
    unfold find_checkpoint in *. cbn [with_checkpoints sy_checkpoints]. rewrite find_swap by congruence.
    destruct (bool_decide (Some k = Some key)) eqn:Ek.
    + apply bool_decide_eq_true in Ek as [= ->]. exists (S n). rewrite Hf. cbn [fmap option_fmap option_map].
      unfold swap_row. rewrite bool_decide_eq_true_2 by done. cbn [revisions_from app].
      rewrite (seqZ_cons _ (Z.of_nat (S n))) by lia. rewrite Hrev, He. f_equal.
      replace (Z.pred (Z.of_nat (S n))) with (Z.of_nat n) by lia. done.
    + exists n. cbn [app].
      destruct (find (λ r, bool_decide (checkpoint_key r = key)) (sy_checkpoints db)) as [r|] eqn:Ef; [|done]. cbn.
      unfold swap_row. rewrite bool_decide_eq_false_2; [done|]. intros Heq.
      apply bool_decide_eq_false in Ek. apply find_elem in Ef as [Hr Hkr%bool_decide_eq_true].
      assert (r = row) by (by apply (NoDup_map_inj ck_id (sy_checkpoints db))). congruence.
Qed.

Module SyncSample.
Definition scope : CheckpointScope := mkScope (mkUUID "d") (mkUUID "c") (Some "US") None "1.0.0".
Definition call (n : string) (expected : Z) : checkpoint_call :=
  (mkUUID n, 0, mkAdvance scope expected [("cursor", VStr n)]).
Definition db : sync_db := mkSyncDb (mkRefs [mkUUID "d"] [mkUUID "c"] [] [] [] []) [] [] [] [] [].
(** Two writers that both found no checkpoint, a third that read revision 1 and
    a fourth that read the same. *)
Definition calls : list checkpoint_call := [call "a" 0; call "b" 0; call "x" 1; call "y" 1].
Definition key : UUID * UUID * string := default (mkUUID "", mkUUID "", "") (advance_key (call "a" 0).2).
End SyncSample.

Lemma checkpoint_revisions_witness :
  accepted_revisions SyncSample.key SyncSample.db SyncSample.calls = [0; 0; 1] ∧
  ∃ n, accepted_revisions SyncSample.key SyncSample.db SyncSample.calls =
       revisions_from (find_checkpoint SyncSample.db SyncSample.key) n.
Proof.
  split; [vm_cast_no_check (eq_refl [0; 0; 1])|].
  apply (checkpoint_revisions SyncSample.key SyncSample.calls SyncSample.db). by apply NoDup_nil_2.
Defined.
