(* ===== verification/LiveModel.v ===== *)
(** Finite authorizations of live evidence: grants, their events, consumptions
    and execution approvals (domain/live_evidence/schemas.py, enums.py,
    authorization.py, canonical.py, execution_approval.py), and the registries of
    incidents and retention plans (incidents.py, retention.py). *)
From S2P Require Import Prelude PyDecimal PyText Sha256 AgentModel Text ReportModel Language ProviderSync.
From Stdlib Require Import Ascii.

Module AuthSt.
Inductive LiveAuthorizationState :=
  | DRAFT | APPROVED | ACTIVE | CONSUMED | EXPIRED | REVOKED | CANCELLED.
#[global] Instance LiveAuthorizationState_eq_dec : EqDecision LiveAuthorizationState.
Proof. solve_decision. Defined.
Definition all : list LiveAuthorizationState :=
  [DRAFT; APPROVED; ACTIVE; CONSUMED; EXPIRED; REVOKED; CANCELLED].
Definition value (x : LiveAuthorizationState) : string :=
  match x with
  | DRAFT => "DRAFT"
  | APPROVED => "APPROVED"
  | ACTIVE => "ACTIVE"
  | CONSUMED => "CONSUMED"
  | EXPIRED => "EXPIRED"
  | REVOKED => "REVOKED"
  | CANCELLED => "CANCELLED"
  end.
End AuthSt.
Abbreviation LiveAuthorizationState := AuthSt.LiveAuthorizationState.

Module AuthEv.
Inductive LiveAuthorizationEventType :=
  | APPROVE | ACTIVATE | CONSUME | EXPIRE | REVOKE | CANCEL.
#[global] Instance LiveAuthorizationEventType_eq_dec : EqDecision LiveAuthorizationEventType.
Proof. solve_decision. Defined.
Definition all : list LiveAuthorizationEventType :=
  [APPROVE; ACTIVATE; CONSUME; EXPIRE; REVOKE; CANCEL].
Definition value (x : LiveAuthorizationEventType) : string :=
  match x with
  | APPROVE => "APPROVE"
  | ACTIVATE => "ACTIVATE"
  | CONSUME => "CONSUME"
  | EXPIRE => "EXPIRE"
  | REVOKE => "REVOKE"
  | CANCEL => "CANCEL"
  end.
End AuthEv.
Abbreviation LiveAuthorizationEventType := AuthEv.LiveAuthorizationEventType.

Module ConsSt.
Inductive ConsumptionState :=
  | RESERVED | SETTLED | ABANDONED.
#[global] Instance ConsumptionState_eq_dec : EqDecision ConsumptionState.
Proof. solve_decision. Defined.
Definition all : list ConsumptionState :=
  [RESERVED; SETTLED; ABANDONED].
Definition value (x : ConsumptionState) : string :=
  match x with
  | RESERVED => "RESERVED"
  | SETTLED => "SETTLED"
  | ABANDONED => "ABANDONED"
  end.
End ConsSt.
Abbreviation ConsumptionState := ConsSt.ConsumptionState.

Module ApprSt.
Inductive ExecutionApprovalState :=
  | VALID | EXPIRED | CONSUMED | BLOCKED.
#[global] Instance ExecutionApprovalState_eq_dec : EqDecision ExecutionApprovalState.
Proof. solve_decision. Defined.
Definition all : list ExecutionApprovalState :=
  [VALID; EXPIRED; CONSUMED; BLOCKED].
Definition value (x : ExecutionApprovalState) : string :=
  match x with
  | VALID => "VALID"
  | EXPIRED => "EXPIRED"
  | CONSUMED => "CONSUMED"
  | BLOCKED => "BLOCKED"
  end.
End ApprSt.
Abbreviation ExecutionApprovalState := ApprSt.ExecutionApprovalState.

Definition live_error {A} (code : string) : res A := raise (NamedError "LiveEvidenceValidationError") code.
Definition live_reject (b : bool) (code : string) : res unit :=
  reject_if b (NamedError "LiveEvidenceValidationError") code.
Lemma live_reject_Ok b c u : live_reject b c = Ok u ↔ b = false.
Proof. apply reject_if_Ok. Qed.
Lemma live_guard {A} b c (m : res A) a : (live_reject b c;; m) = Ok a ↔ b = false ∧ m = Ok a.
Proof. apply guard_seq. Qed.

(** * Codes and names *)

(** [^[A-Z][A-Z0-9_]{2,63}$] *)
Definition stable_code : string → bool :=
  matches_ident is_upper (λ c, is_upper c || is_digit c || char_in ["_"%char] c) 2 63.
(** [^[A-Za-z0-9][A-Za-z0-9._:-]{0,127}$] *)
Definition is_word_char (c : ascii) : bool := is_upper c || is_lower c || is_digit c.
Definition identifier_ok : string → bool :=
  matches_ident is_word_char (λ c, is_word_char c || char_in ["."; "_"; ":"; "-"]%char c) 0 127.
(** [^[A-Z0-9][A-Z0-9-]{0,15}$] *)
Definition filing_type_ok : string → bool :=
  matches_ident (λ c, is_upper c || is_digit c) (λ c, is_upper c || is_digit c || char_in ["-"%char] c) 0 15.

(** [_DOMAIN_PATTERN]: at least two labels of at most 63 characters, without a
    hyphen at either end. *)
Definition label_char (c : ascii) : bool := is_lower c || is_digit c.
Definition label_ok (l : list ascii) : bool :=
  match l with
  | [] => false
  | c :: _ => label_char c && match last l with Some d => label_char d | None => false end
              && forallb (λ c, label_char c || char_in ["-"%char] c) l && (length l <=? 63)%nat
  end.
Fixpoint labels (word : list ascii) (l : list ascii) : list (list ascii) :=
  match l with
  | [] => [rev word]
  | c :: l => if Ascii.eqb c "." then rev word :: labels [] l else labels (c :: word) l
  end.
Definition domain_ok (s : string) : bool :=
  let parts := labels [] (String.list_ascii_of_string s) in
  (2 <=? length parts)%nat && forallb label_ok parts && (str_len s <=? 253).

Example domain_ok_sec : domain_ok "data.sec.gov" = true ∧ domain_ok "sec" = false
  ∧ domain_ok "-a.b" = false ∧ domain_ok "a..b" = false ∧ domain_ok "a.b." = false.
Proof. vm_compute. done. Qed.

(** [value == tuple(sorted(set(value)))] *)
Definition is_sorted_set (l : list string) : bool := bool_decide (l = sorted_set l).
Definition count_between (lo hi : nat) {A} (l : list A) : bool := ((lo <=? length l) && (length l <=? hi))%nat.

(** * Grants *)

Record LiveAuthorizationGrantWrite := mkGrant {
  lg_provider_definition_id : UUID; lg_provider_code : string; lg_provider_definition_version : string;
  lg_provider_definition_checksum : string; lg_provider_capability_id : UUID; lg_capability_code : string;
  lg_capability_version : string; lg_official_domains : list string; lg_security_id : UUID;
  lg_issuer_id : UUID; lg_provider_security_identifier : string; lg_request_methods : list string;
  lg_request_limit : Z; lg_byte_limit : Z; lg_date_from : date; lg_date_to : date;
  lg_filing_types : list string; lg_allowed_document_count : Z; lg_credential_reference_id : UUID;
  lg_user_agent_reference_id : UUID; lg_license_policy_id : UUID; lg_license_policy_version : string;
  lg_license_policy_checksum : string; lg_provider_policy_id : UUID; lg_provider_policy_version : string;
  lg_provider_policy_checksum : string; lg_raw_storage_allowed : bool; lg_cache_allowed : bool;
  lg_retention_deadline : time; lg_approved_at : time; lg_expires_at : time; lg_approved_by : string;
  lg_canonical_checksum : string }.
Record LiveAuthorizationGrantRecord := mkGrantRecord {
  gd_id : UUID; gd_write : LiveAuthorizationGrantWrite; gd_created_at : time }.

Definition seconds (n : Z) : Z := n * 1000000.
Definition minutes (n : Z) : Z := seconds (60 * n).

(** The constraints of the fields and the validators of
    [LiveAuthorizationGrantWrite]. *)
Definition grant_fields_ok (g : LiveAuthorizationGrantWrite) : bool :=
  stable_code (lg_provider_code g) && semver_ok (lg_provider_definition_version g)
  && Checksum_ok (lg_provider_definition_checksum g) && stable_code (lg_capability_code g)
  && semver_ok (lg_capability_version g) && count_between 1 8 (lg_official_domains g)
  && identifier_ok (lg_provider_security_identifier g) && count_between 1 4 (lg_request_methods g)
  && between 1 100 (lg_request_limit g) && between 1 52428800 (lg_byte_limit g)
  && count_between 1 8 (lg_filing_types g) && between 1 100 (lg_allowed_document_count g)
  && semver_ok (lg_license_policy_version g) && Checksum_ok (lg_license_policy_checksum g)
  && semver_ok (lg_provider_policy_version g) && Checksum_ok (lg_provider_policy_checksum g)
  && stable_code (lg_approved_by g) && Checksum_ok (lg_canonical_checksum g).
Definition new_LiveAuthorizationGrantWrite (g : LiveAuthorizationGrantWrite) : res LiveAuthorizationGrantWrite :=
  let bad b m := reject_if b ValidationError m in
  bad (negb (grant_fields_ok g)) "LiveAuthorizationGrantWrite";;
  bad (negb (is_sorted_set (lg_official_domains g))) "official_domains must be unique and sorted";;
  bad (negb (forallb domain_ok (lg_official_domains g)))
    "official_domains must contain exact lowercase DNS names";;
  bad (negb (is_sorted_set (lg_request_methods g) && forallb (String.eqb "GET") (lg_request_methods g)))
    "request_methods must be the exact GET allowlist";;
  bad (negb (is_sorted_set (lg_filing_types g))) "filing_types must be unique and sorted";;
  bad (negb (forallb filing_type_ok (lg_filing_types g))) "filing_types must use stable form codes";;
  bad (lg_date_to g <? lg_date_from g) "date_to must not precede date_from";;
  bad (lg_request_limit g <? lg_allowed_document_count g)
    "allowed_document_count must not exceed request_limit";;
  bad (lg_expires_at g <=? lg_approved_at g) "expires_at must be later than approved_at";;
  bad (minutes 30 <? lg_expires_at g - lg_approved_at g)
    "authorization lifetime must not exceed thirty minutes";;
  bad (lg_retention_deadline g <=? lg_approved_at g) "retention_deadline must be later than approved_at";;
  Ok g.

(** * Canonical grants (canonical.py) *)

Definition canonical_grant (g : LiveAuthorizationGrantWrite) : res string :=
  canonical_json (VMap [
    ("provider_definition_id", VUuid (lg_provider_definition_id g));
    ("provider_code", VStr (lg_provider_code g));
    ("provider_definition_version", VStr (lg_provider_definition_version g));
    ("provider_definition_checksum", VStr (lg_provider_definition_checksum g));
    ("provider_capability_id", VUuid (lg_provider_capability_id g));
    ("capability_code", VStr (lg_capability_code g));
    ("capability_version", VStr (lg_capability_version g));
    ("official_domains", VList (map VStr (lg_official_domains g)));
    ("security_id", VUuid (lg_security_id g)); ("issuer_id", VUuid (lg_issuer_id g));
    ("provider_security_identifier", VStr (lg_provider_security_identifier g));
    ("request_methods", VList (map VStr (lg_request_methods g)));
    ("request_limit", VInt (lg_request_limit g)); ("byte_limit", VInt (lg_byte_limit g));
    ("date_from", VDate (lg_date_from g)); ("date_to", VDate (lg_date_to g));
    ("filing_types", VList (map VStr (lg_filing_types g)));
    ("allowed_document_count", VInt (lg_allowed_document_count g));
    ("credential_reference_id", VUuid (lg_credential_reference_id g));
    ("user_agent_reference_id", VUuid (lg_user_agent_reference_id g));
    ("license_policy_id", VUuid (lg_license_policy_id g));
    ("license_policy_version", VStr (lg_license_policy_version g));
    ("license_policy_checksum", VStr (lg_license_policy_checksum g));
    ("provider_policy_id", VUuid (lg_provider_policy_id g));
    ("provider_policy_version", VStr (lg_provider_policy_version g));
    ("provider_policy_checksum", VStr (lg_provider_policy_checksum g));
    ("raw_storage_allowed", VBool (lg_raw_storage_allowed g)); ("cache_allowed", VBool (lg_cache_allowed g));
    ("retention_deadline", utc_time (lg_retention_deadline g)); ("approved_at", utc_time (lg_approved_at g));
    ("expires_at", utc_time (lg_expires_at g)); ("approved_by", VStr (lg_approved_by g));
    ("schema", VStr "live-authorization-grant-v1")]).
Definition grant_checksum (g : LiveAuthorizationGrantWrite) : res string := sha256_hex <$> canonical_grant g.
Definition verify_grant_checksum (g : LiveAuthorizationGrantWrite) : res unit :=
  checksum ← grant_checksum g;
  live_reject (negb (String.eqb (lg_canonical_checksum g) checksum)) "AUTH_CHECKSUM_INVALID".

(** * The life of an authorization (authorization.py) *)

Definition _TERMINAL_STATES : list LiveAuthorizationState :=
  [AuthSt.CONSUMED; AuthSt.EXPIRED; AuthSt.REVOKED; AuthSt.CANCELLED].
Definition _TRANSITIONS (current : LiveAuthorizationState) (event : LiveAuthorizationEventType) :
    option LiveAuthorizationState :=
  match current, event with
  | AuthSt.DRAFT, AuthEv.APPROVE => Some AuthSt.APPROVED
  | AuthSt.DRAFT, AuthEv.CANCEL => Some AuthSt.CANCELLED
  | AuthSt.DRAFT, AuthEv.EXPIRE => Some AuthSt.EXPIRED
  | AuthSt.APPROVED, AuthEv.ACTIVATE => Some AuthSt.ACTIVE
  | AuthSt.APPROVED, AuthEv.CANCEL => Some AuthSt.CANCELLED
  | AuthSt.APPROVED, AuthEv.EXPIRE => Some AuthSt.EXPIRED
  | AuthSt.APPROVED, AuthEv.REVOKE => Some AuthSt.REVOKED
  | AuthSt.ACTIVE, AuthEv.CONSUME => Some AuthSt.CONSUMED
  | AuthSt.ACTIVE, AuthEv.EXPIRE => Some AuthSt.EXPIRED
  | AuthSt.ACTIVE, AuthEv.REVOKE => Some AuthSt.REVOKED
  | _, _ => None
  end.

Module AuthorizationStateMachine.
Definition transition (current : LiveAuthorizationState) (event : LiveAuthorizationEventType) :
    res LiveAuthorizationState :=
  live_reject (bool_decide (current ∈ _TERMINAL_STATES)) "AUTH_TERMINAL_IMMUTABLE";;
  match _TRANSITIONS current event with
  | None => live_error "AUTH_TRANSITION_INVALID"
  | Some next_state => Ok next_state
  end.
Fixpoint replay_from (state : LiveAuthorizationState) (events : list LiveAuthorizationEventType) :
    res LiveAuthorizationState :=
  match events with
  | [] => Ok state
  | event :: events => state ← transition state event; replay_from state events
  end.
Definition replay (events : list LiveAuthorizationEventType) : res LiveAuthorizationState :=
  replay_from AuthSt.DRAFT events.
End AuthorizationStateMachine.
Abbreviation replay := AuthorizationStateMachine.replay.

(** [derive_state]: [now] may lack a time zone. *)
Definition derive_state (g : LiveAuthorizationGrantWrite) (events : list LiveAuthorizationEventType)
    (now : datetime) : res LiveAuthorizationState :=
  match to_utc now with
  | None => live_error "AUTH_SCOPE_INVALID"
  | Some t =>
      current ← replay events;
      if bool_decide (current ∈ _TERMINAL_STATES) then Ok current
      else if lg_expires_at g <=? t then Ok AuthSt.EXPIRED else Ok current
  end.

Definition require_active_authorization (g : LiveAuthorizationGrantWrite)
    (events : list LiveAuthorizationEventType) (now : datetime) : res LiveAuthorizationState :=
  state ← derive_state g events now;
  match state with
  | AuthSt.EXPIRED => live_error "AUTHORIZATION_EXPIRED"
  | AuthSt.REVOKED => live_error "AUTHORIZATION_REVOKED"
  | AuthSt.ACTIVE => Ok state
  | _ => live_error "AUTH_RESERVATION_INVALID"
  end.

Record RevokeAuthorizationRequest := mkRevoke {
  rv_authorization_id : UUID; rv_expected_state : LiveAuthorizationState; rv_expected_event_count : Z;
  rv_reason_code : string; rv_revoked_by : string; rv_revoked_at : time }.
(** The constraints of the fields and [validate_expected_state]. *)
Definition new_RevokeAuthorizationRequest (r : RevokeAuthorizationRequest) : res RevokeAuthorizationRequest :=
  reject_if (negb (between 0 100 (rv_expected_event_count r) && stable_code (rv_reason_code r)
                   && stable_code (rv_revoked_by r))) ValidationError "RevokeAuthorizationRequest";;
  reject_if (negb (bool_decide (rv_expected_state r ∈ [AuthSt.DRAFT; AuthSt.APPROVED; AuthSt.ACTIVE])))
    ValidationError "expected_state must be nonterminal";;
  Ok r.
Record AuthorizationRevocationResult := mkRevocation {
  rz_authorization_id : UUID; rz_state : LiveAuthorizationState; rz_events : list LiveAuthorizationEventType;
  rz_event_sequence : Z }.
(** [revoke_authorization]: a transition that raises is a conflict too. *)
Definition revoke_authorization (r : RevokeAuthorizationRequest) (history : list LiveAuthorizationEventType) :
    res AuthorizationRevocationResult :=
  live_reject (negb (Z.of_nat (length history) =? rv_expected_event_count r)) "AUTH_REVOCATION_CONFLICT";;
  current ← replay history;
  live_reject (bool_decide (current ≠ rv_expected_state r) || bool_decide (current ∈ _TERMINAL_STATES))
    "AUTH_REVOCATION_CONFLICT";;
  state ← match AuthorizationStateMachine.transition current AuthEv.REVOKE with
          | Ok state => Ok state
          | Raise _ => live_error "AUTH_REVOCATION_CONFLICT"
          end;
  Ok (mkRevocation (rv_authorization_id r) state (history ++ [AuthEv.REVOKE])
        (Z.of_nat (length history) + 1)).

Record AuthorizationExecutionScope := mkExecScope {
  es_provider_definition_id : UUID; es_provider_code : string; es_provider_definition_version : string;
  es_provider_capability_id : UUID; es_capability_code : string; es_capability_version : string;
  es_security_id : UUID; es_issuer_id : UUID; es_provider_security_identifier : string }.
Definition validate_execution_scope (g : LiveAuthorizationGrantWrite) (s : AuthorizationExecutionScope) :
    res unit :=
  live_reject (bool_decide (
      (lg_provider_definition_id g, lg_provider_code g, lg_provider_definition_version g)
      ≠ (es_provider_definition_id s, es_provider_code s, es_provider_definition_version s)))
    "AUTH_PROVIDER_MISMATCH";;
  live_reject (bool_decide (
      (lg_provider_capability_id g, lg_capability_code g, lg_capability_version g)
      ≠ (es_provider_capability_id s, es_capability_code s, es_capability_version s)))
    "AUTH_CAPABILITY_MISMATCH";;
  live_reject (bool_decide ((lg_security_id g, lg_issuer_id g) ≠ (es_security_id s, es_issuer_id s)))
    "AUTH_SECURITY_MISMATCH";;
  live_reject (bool_decide (lg_provider_security_identifier g ≠ es_provider_security_identifier s))
    "AUTH_PROVIDER_IDENTIFIER_MISMATCH";;
  Ok tt.

(** * Consumptions *)

Record ConsumptionReservationRequest := mkReserve {
  cq_authorization_id : UUID; cq_request_attempt_id : UUID; cq_reserved_bytes : Z; cq_reserved_at : time }.
#[export] Instance ConsumptionReservationRequest_eq_dec : EqDecision ConsumptionReservationRequest.
Proof. solve_decision. Defined.
Definition new_ConsumptionReservationRequest (r : ConsumptionReservationRequest) :
    res ConsumptionReservationRequest :=
  reject_if (negb (between 1 52428800 (cq_reserved_bytes r))) ValidationError "ConsumptionReservationRequest";;
  Ok r.
Record ConsumptionReservation := mkReservation {
  cv_id : UUID; cv_request : ConsumptionReservationRequest; cv_state : ConsumptionState }.
Definition new_ConsumptionReservation (r : ConsumptionReservation) : res ConsumptionReservation :=
  _ ← new_ConsumptionReservationRequest (cv_request r);
  reject_if (bool_decide (cv_state r ≠ ConsSt.RESERVED)) ValidationError "reservation state must be RESERVED";;
  Ok r.
Record ConsumptionSettlementRequest := mkSettle {
  ce_authorization_id : UUID; ce_request_attempt_id : UUID; ce_actual_bytes : Z; ce_socket_opened : bool;
  ce_state : ConsumptionState; ce_settled_at : time }.
Definition new_ConsumptionSettlementRequest (s : ConsumptionSettlementRequest) : res ConsumptionSettlementRequest :=
  reject_if (negb (between 0 52428800 (ce_actual_bytes s))) ValidationError "ConsumptionSettlementRequest";;
  reject_if (negb (bool_decide (ce_state s ∈ [ConsSt.SETTLED; ConsSt.ABANDONED]))) ValidationError
    "settlement state must be SETTLED or ABANDONED";;
  Ok s.
Record LiveAuthorizationConsumptionRecord := mkConsumed {
  lc_reservation : ConsumptionReservationRequest; lc_id : UUID; lc_actual_bytes : Z; lc_socket_opened : bool;
  lc_state : ConsumptionState; lc_settled_at : time }.

Module AuthorizationConsumption.
(** [AuthorizationConsumption.reserve]; [id] is the [uuid4] of a new reservation. *)
Definition reserve (id : UUID) (request : ConsumptionReservationRequest)
    (existing : option ConsumptionReservation) : res ConsumptionReservation :=
  match existing with
  | Some e => if decide (cv_request e = request) then Ok e else live_error "AUTH_CONSUMPTION_DUPLICATE"
  | None => new_ConsumptionReservation (mkReservation id request ConsSt.RESERVED)
  end.
(** [AuthorizationConsumption.settle] *)
Definition settle (r : ConsumptionReservation) (s : ConsumptionSettlementRequest) :
    res LiveAuthorizationConsumptionRecord :=
  let q := cv_request r in
  let identity_matches := bool_decide (cq_authorization_id q = ce_authorization_id s)
    && bool_decide (cq_request_attempt_id q = ce_request_attempt_id s) in
  let valid_accounting := (ce_actual_bytes s <=? cq_reserved_bytes q) && (cq_reserved_at q <=? ce_settled_at s) in
  let valid_abandonment := negb (bool_decide (ce_state s = ConsSt.ABANDONED))
    || (negb (ce_socket_opened s) && (ce_actual_bytes s =? 0)) in
  let valid_settlement := negb (bool_decide (ce_state s = ConsSt.SETTLED)) || ce_socket_opened s in
  live_reject (negb (identity_matches && valid_accounting && valid_abandonment && valid_settlement))
    "AUTH_RESERVATION_INVALID";;
  Ok (mkConsumed q (cv_id r) (ce_actual_bytes s) (ce_socket_opened s) (ce_state s) (ce_settled_at s)).
End AuthorizationConsumption.

(** * Execution approvals (execution_approval.py) *)

Record LiveExecutionApprovalWrite := mkApproval {
  la_authorization_id : UUID; la_authorization_checksum : string; la_sync_plan_id : UUID;
  la_plan_checksum : string; la_approval_registry_id : string; la_approval_registry_version : string;
  la_approval_registry_checksum : string; la_approved_by : string; la_approved_at : time;
  la_expires_at : time }.
(** The constraints of the fields and [validate_lifetime]. *)
Definition new_LiveExecutionApprovalWrite (a : LiveExecutionApprovalWrite) : res LiveExecutionApprovalWrite :=
  reject_if (negb (Checksum_ok (la_authorization_checksum a) && Checksum_ok (la_plan_checksum a)
                   && stable_code (la_approval_registry_id a) && semver_ok (la_approval_registry_version a)
                   && Checksum_ok (la_approval_registry_checksum a) && stable_code (la_approved_by a)))
    ValidationError "LiveExecutionApprovalWrite";;
  let lifetime := la_expires_at a - la_approved_at a in
  reject_if ((lifetime <=? 0) || (minutes 10 <? lifetime)) ValidationError
    "execution approval lifetime must be within ten minutes";;
  Ok a.
Record LiveExecutionApprovalRecord := mkApprovalRecord {
  ax_id : UUID; ax_write : LiveExecutionApprovalWrite; ax_approval_signature : string;
  ax_state : ExecutionApprovalState; ax_created_at : time }.

(** [_signature] *)
Definition _signature (a : LiveExecutionApprovalWrite) : res string :=
  sha256_hex <$> canonical_json (VMap [
    ("authorization_id", VUuid (la_authorization_id a));
    ("authorization_checksum", VStr (la_authorization_checksum a));
    ("sync_plan_id", VUuid (la_sync_plan_id a)); ("plan_checksum", VStr (la_plan_checksum a));
    ("approval_registry_id", VStr (la_approval_registry_id a));
    ("approval_registry_version", VStr (la_approval_registry_version a));
    ("approval_registry_checksum", VStr (la_approval_registry_checksum a));
    ("approved_by", VStr (la_approved_by a)); ("approved_at", utc_time (la_approved_at a));
    ("expires_at", utc_time (la_expires_at a))]).

Module ExecutionApprovalService.
(** [create]; [id] is the [uuid4] of the record. *)
Definition create (id : UUID) (value : LiveExecutionApprovalWrite) : res LiveExecutionApprovalRecord :=
  signature ← _signature value;
  Ok (mkApprovalRecord id value signature ApprSt.VALID (la_approved_at value)).

Record ValidateExecutionApprovalRequest := mkValidate {
  vq_approval : LiveExecutionApprovalRecord; vq_authorization_checksum : string; vq_plan_checksum : string;
  vq_checked_at : time; vq_consumed : bool }.
(** [validate]: the decision is a state and a failure code. *)
Definition validate (r : ValidateExecutionApprovalRequest) : res (ExecutionApprovalState * option string) :=
  let approval := vq_approval r in
  let w := ax_write approval in
  live_reject (negb (String.eqb (la_authorization_checksum w) (vq_authorization_checksum r)
                     && String.eqb (la_plan_checksum w) (vq_plan_checksum r)))
    "EXEC_APPROVAL_PLAN_MISMATCH";;
  live_reject (vq_consumed r) "EXEC_APPROVAL_REPLAYED";;
  live_reject (la_expires_at w <=? vq_checked_at r) "EXEC_APPROVAL_EXPIRED";;
  write ← new_LiveExecutionApprovalWrite w;
  signature ← _signature write;
  Ok (if negb (String.eqb (ax_approval_signature approval) signature)
      then (ApprSt.BLOCKED, Some "EXEC_APPROVAL_SIGNATURE_INVALID")
      else (ApprSt.VALID, None)).
End ExecutionApprovalService.

(** * Incidents (incidents.py) *)

Module IncSt.
Inductive IncidentStatus := OPEN | CONTAINED | REMEDIATING | CLOSED.
#[global] Instance IncidentStatus_eq_dec : EqDecision IncidentStatus.
Proof. solve_decision. Defined.
End IncSt.
Abbreviation IncidentStatus := IncSt.IncidentStatus.
Module IncEv.
Inductive IncidentEventType := CONTAIN | START_REMEDIATION | CLOSE.
#[global] Instance IncidentEventType_eq_dec : EqDecision IncidentEventType.
Proof. solve_decision. Defined.
End IncEv.
Abbreviation IncidentEventType := IncEv.IncidentEventType.

Record LiveIncidentWrite := mkIncident {
  li_category : string; li_severity : string; li_summary_code : string;
  li_affected_record_ids : list UUID; li_source_checksum : string; li_opened_at : time }.
Definition uuid_sorted_set (l : list UUID) : bool :=
  bool_decide (l = sort_key uuid_str (remove_dups l)).
(** The constraints of the fields and [validate_ids]. *)
Definition new_LiveIncidentWrite (w : LiveIncidentWrite) : res LiveIncidentWrite :=
  reject_if (negb (bool_decide (li_category w ∈ ["EVIDENCE_INTEGRITY"; "AUTHORIZATION"; "RETENTION"; "PROVIDER_COMPLIANCE"])
                   && bool_decide (li_severity w ∈ ["CRITICAL"; "HIGH"; "MEDIUM"; "LOW"])
                   && stable_code (li_summary_code w) && count_between 1 2048 (li_affected_record_ids w)
                   && Checksum_ok (li_source_checksum w))) ValidationError "LiveIncidentWrite";;
  reject_if (negb (uuid_sorted_set (li_affected_record_ids w))) ValidationError
    "affected IDs must be unique and sorted";;
  Ok w.
Record LiveIncidentRecord := mkIncidentRecord {
  lx_id : UUID; lx_write : LiveIncidentWrite; lx_status : IncidentStatus; lx_incident_checksum : string;
  lx_updated_at : time; lx_closed_at : option time }.
Record LiveIncidentEventWrite := mkIncidentEvent {
  ie_incident_id : UUID; ie_sequence : Z; ie_event_type : IncidentEventType; ie_reason_code : string;
  ie_created_at : time }.
Record LiveIncidentEventRecord := mkIncidentEventRecord {
  ix_id : UUID; ix_write : LiveIncidentEventWrite; ix_previous_status : IncidentStatus;
  ix_target_status : IncidentStatus }.

Definition nil_uuid : string := "00000000-0000-0000-0000-000000000000".
Definition is_nil (u : UUID) : bool := String.eqb (uuid_str u) nil_uuid.

Module LiveIncidentRegistry.
(** [open]: the time of opening is not part of the checksum. *)
Definition open (id : UUID) (value : LiveIncidentWrite) : res LiveIncidentRecord :=
  live_reject (existsb is_nil (li_affected_record_ids value)) "INCIDENT_SCOPE_INVALID";;
  canonical ← canonical_json (VMap [
    ("category", VStr (li_category value)); ("severity", VStr (li_severity value));
    ("summary_code", VStr (li_summary_code value));
    ("affected_record_ids", VList (map VUuid (li_affected_record_ids value)));
    ("source_checksum", VStr (li_source_checksum value))]);
  Ok (mkIncidentRecord id value IncSt.OPEN (sha256_hex canonical) (li_opened_at value) None).

Definition transitions (status : IncidentStatus) (event : IncidentEventType) : option IncidentStatus :=
  match status, event with
  | IncSt.OPEN, IncEv.CONTAIN => Some IncSt.CONTAINED
  | IncSt.CONTAINED, IncEv.START_REMEDIATION => Some IncSt.REMEDIATING
  | IncSt.REMEDIATING, IncEv.CLOSE => Some IncSt.CLOSED
  | _, _ => None
  end.
(** [append_event] *)
Definition append_event (id : UUID) (incident : LiveIncidentRecord) (value : LiveIncidentEventWrite)
    (existing : list LiveIncidentEventRecord) : res (LiveIncidentRecord * LiveIncidentEventRecord) :=
  live_reject (bool_decide (ie_incident_id value ≠ lx_id incident)
      || existsb (λ e, bool_decide (ie_incident_id (ix_write e) = ie_incident_id value)
                       && (ie_sequence (ix_write e) =? ie_sequence value)) existing)
    "INCIDENT_EVENT_DUPLICATE";;
  match transitions (lx_status incident) (ie_event_type value) with
  | None => live_error "INCIDENT_TRANSITION_INVALID"
  | Some target =>
      Ok (mkIncidentRecord (lx_id incident) (lx_write incident) target (lx_incident_checksum incident)
            (ie_created_at value)
            (if bool_decide (target = IncSt.CLOSED) then Some (ie_created_at value) else None),
          mkIncidentEventRecord id value (lx_status incident) target)
  end.
End LiveIncidentRegistry.

(** * Retention (retention.py) *)

Module RetSt.
Inductive RetentionStatus := PLANNED | RUNNING | PASS | PARTIAL | BLOCKED | FAIL.
#[global] Instance RetentionStatus_eq_dec : EqDecision RetentionStatus.
Proof. solve_decision. Defined.
End RetSt.
Abbreviation RetentionStatus := RetSt.RetentionStatus.

Record EvidenceRetentionPlanRequest := mkRetention {
  rq_artifact_ids : list UUID; rq_affected_lineage_ids : list UUID; rq_reason_code : string;
  rq_deadline_at : time; rq_created_at : time }.
(** The constraints of the fields and [validate_ids]; the only action is
    DELETE_RESTRICTED_ARTIFACT. *)
Definition new_EvidenceRetentionPlanRequest (r : EvidenceRetentionPlanRequest) :
    res EvidenceRetentionPlanRequest :=
  reject_if (negb (count_between 1 128 (rq_artifact_ids r) && count_between 0 2048 (rq_affected_lineage_ids r)
                   && stable_code (rq_reason_code r))) ValidationError "EvidenceRetentionPlanRequest";;
  reject_if (negb (uuid_sorted_set (rq_artifact_ids r) && uuid_sorted_set (rq_affected_lineage_ids r)))
    ValidationError "IDs must be unique and sorted";;
  Ok r.
Record EvidenceRetentionActionRecord := mkRetentionAction {
  ra_id : UUID; ra_request : EvidenceRetentionPlanRequest; ra_status : RetentionStatus;
  ra_plan_checksum : string; ra_completed_at : option time; ra_warning_codes : list string }.

Module EvidenceRetentionRegistry.
Definition plan (id : UUID) (value : EvidenceRetentionPlanRequest) : res EvidenceRetentionActionRecord :=
  live_reject (existsb is_nil (rq_artifact_ids value)) "RETENTION_SCOPE_INVALID";;
  live_reject (rq_deadline_at value <=? rq_created_at value) "RETENTION_DEADLINE_INVALID";;
  canonical ← canonical_json (VMap [
    ("action_type", VStr "DELETE_RESTRICTED_ARTIFACT");
    ("artifact_ids", VList (map VUuid (rq_artifact_ids value)));
    ("affected_lineage_ids", VList (map VUuid (rq_affected_lineage_ids value)));
    ("reason_code", VStr (rq_reason_code value)); ("deadline_at", utc_time (rq_deadline_at value))]);
  Ok (mkRetentionAction id value RetSt.PLANNED (sha256_hex canonical) None []).

(** [execute] over a storage [S]: what [storage.delete] does and whether it
    raises, and [storage.exists]. *)
Section Execute.
Context {S : Type} (delete : UUID → S → res S) (exists_ : UUID → S → bool).
Fixpoint delete_all (ids : list UUID) (storage : S) : res S :=
  match ids with
  | [] => Ok storage
  | id :: ids => storage ← delete id storage; delete_all ids storage
  end.
(** The files deleted before a failure stay deleted. *)
Fixpoint deleted_until (ids : list UUID) (storage : S) : S :=
  match ids with
  | [] => storage
  | id :: ids => match delete id storage with Ok storage => deleted_until ids storage | Raise _ => storage end
  end.
Definition execute (action : EvidenceRetentionActionRecord) (completed_at : time) (storage : S) :
    res EvidenceRetentionActionRecord * S :=
  if bool_decide (ra_status action ≠ RetSt.PLANNED) then
    (live_error "RETENTION_HISTORY_REWRITE_FORBIDDEN", storage)
  else
    let ids := rq_artifact_ids (ra_request action) in
    match delete_all ids storage with
    | Raise _ => (live_error "RETENTION_DELETE_BLOCKED", deleted_until ids storage)
    | Ok storage =>
        if existsb (λ id, exists_ id storage) ids then (live_error "RETENTION_DELETE_VERIFY_FAILED", storage)
        else (Ok (mkRetentionAction (ra_id action) (ra_request action) RetSt.PASS (ra_plan_checksum action)
                    (Some completed_at) (ra_warning_codes action)), storage)
    end.
End Execute.
End EvidenceRetentionRegistry.
