(* ===== verification/GateB.v ===== *)
(** The authorization gate of a live pilot: the envelope an operator approves
    and the check of an execution against the stored contracts
    (domain/live_evidence/gate_b_authorization.py and the credential reference
    metadata of domain/providers/credentials.py). *)
From S2P Require Import Prelude PyDecimal PyText Sha256 AgentModel Text ReportModel Language ProviderSync LiveModel.
From Stdlib Require Import Ascii.

(** * Credential references *)

Module CredKind.
Inductive CredentialResolverKind := NONE | ENVIRONMENT.
#[global] Instance CredentialResolverKind_eq_dec : EqDecision CredentialResolverKind.
Proof. solve_decision. Defined.
End CredKind.
Abbreviation CredentialResolverKind := CredKind.CredentialResolverKind.
Module CredSt.
Inductive ProviderCredentialStatus :=
  | NOT_REQUIRED | NOT_READ | CONFIGURED_METADATA_ONLY | MISSING | BLOCKED.
#[global] Instance ProviderCredentialStatus_eq_dec : EqDecision ProviderCredentialStatus.
Proof. solve_decision. Defined.
Definition all : list ProviderCredentialStatus :=
  [NOT_REQUIRED; NOT_READ; CONFIGURED_METADATA_ONLY; MISSING; BLOCKED].
Definition value (x : ProviderCredentialStatus) : string :=
  match x with
  | NOT_REQUIRED => "NOT_REQUIRED"
  | NOT_READ => "NOT_READ"
  | CONFIGURED_METADATA_ONLY => "CONFIGURED_METADATA_ONLY"
  | MISSING => "MISSING"
  | BLOCKED => "BLOCKED"
  end.
End CredSt.
Abbreviation ProviderCredentialStatus := CredSt.ProviderCredentialStatus.

Record CredentialReferenceWrite := mkCredential {
  cw_provider_definition_id : UUID; cw_reference_version : string; cw_resolver_kind : CredentialResolverKind;
  cw_declared_name : option string; cw_status : ProviderCredentialStatus; cw_safe_label : string }.
Record CredentialReferenceRecord := mkCredentialRecord {
  cd_id : UUID; cd_write : CredentialReferenceWrite; cd_checksum : string; cd_created_at : time }.

(** [validate_resolver_slot] *)
Definition validate_resolver_slot (w : CredentialReferenceWrite) : res unit :=
  let bad b m := reject_if b ValidationError m in
  match cw_resolver_kind w with
  | CredKind.NONE =>
      bad (is_some (cw_declared_name w)) "NONE resolver must not declare an environment name";;
      bad (bool_decide (cw_status w ≠ CredSt.NOT_REQUIRED)) "NONE resolver requires NOT_REQUIRED status"
  | CredKind.ENVIRONMENT =>
      bad (is_none (cw_declared_name w)) "ENVIRONMENT resolver requires one declared name";;
      bad (bool_decide (cw_status w = CredSt.NOT_REQUIRED)) "ENVIRONMENT resolver cannot use NOT_REQUIRED status"
  end.

Definition _FORBIDDEN_METADATA_FIELDS : list string :=
  ["value"; "secret"; "token"; "api_key"; "password"; "prefix"; "suffix"; "hash"; "cookie"; "authorization"].
(** The keys of [CredentialReferenceRecord.model_dump]. *)
Definition credential_keys : list string :=
  ["provider_definition_id"; "reference_version"; "resolver_kind"; "declared_name"; "status"; "safe_label";
   "id"; "checksum"; "created_at"].
(** [validate_credential_reference_metadata] *)
Definition validate_credential_reference_metadata `{UnicodeData} (keys : list string) : res unit :=
  reject_if (existsb (λ k, existsb (λ f, folds_to f k) _FORBIDDEN_METADATA_FIELDS) keys) ValueError
    "forbidden credential metadata field".

(** * Envelopes *)

Record GateBCandidate := mkCandidate {
  gc_security_id : UUID; gc_issuer_id : UUID; gc_symbol : string; gc_exchange : string; gc_cik : string }.
Record GateBAuthorizationEnvelope := mkEnvelope {
  ge_provider : string; ge_candidate : GateBCandidate; ge_plan_id : UUID; ge_plan_checksum : string;
  ge_allowed_hosts : list string; ge_allowed_paths : list string; ge_max_resource_count : Z;
  ge_max_actual_attempts : Z; ge_retry_limit : Z; ge_redirect_limit : Z; ge_concurrency : Z;
  ge_connect_timeout_seconds : Z; ge_idle_read_timeout_seconds : Z; ge_total_timeout_seconds : Z;
  ge_contact_identity_reference : string; ge_grant_id : string; ge_single_use : bool;
  ge_approved_at : time; ge_expires_at : time }.

Section Envelope.
Context `{CharData}.

(** [_candidate_is_finite]: [[A-Z0-9.-]{1,32}], [X[A-Z0-9]{3}] and [\d{10}]. *)
Definition upper_or_digit (c : ascii) : bool := is_upper c || is_digit c.
Definition _candidate_is_finite (c : GateBCandidate) : bool :=
  str_forallb (λ a, upper_or_digit a || char_in ["."; "-"]%char a) (gc_symbol c) && len_between 1 32 (gc_symbol c)
  && match gc_exchange c with
     | String x rest => Ascii.eqb x "X" && str_forallb upper_or_digit rest && (str_len rest =? 3)
     | EmptyString => false
     end
  && forallb decimal_char (utext (gc_cik c)) && (str_len (gc_cik c) =? 10).

(** [_paths_are_finite] *)
Definition _paths_are_finite (paths : list string) : bool :=
  (length paths =? 3)%nat && bool_decide (NoDup paths)
  && forallb (λ p, ustarts (utext p) [47] && negb (ucontains (utext p) (ulit "://"))) paths.

(** [_require_approved_envelope] *)
Definition _require_approved_envelope (v : GateBAuthorizationEnvelope) : res unit :=
  live_reject (negb (String.eqb (ge_provider v) "SEC_EDGAR_PUBLIC_V1")) "GATE_B_PROVIDER_INVALID";;
  live_reject (negb (_candidate_is_finite (ge_candidate v))) "GATE_B_CANDIDATE_INVALID";;
  live_reject (String.eqb (ge_grant_id v) "") "GATE_B_GRANT_REFERENCE_INVALID";;
  live_reject (negb (ge_single_use v)) "GATE_B_SINGLE_USE_REQUIRED";;
  live_reject (bool_decide (ge_allowed_hosts v ≠ ["data.sec.gov"; "www.sec.gov"])) "GATE_B_HOST_SCOPE_INVALID";;
  live_reject (negb (ge_max_resource_count v =? 3)) "GATE_B_RESOURCE_BUDGET_INVALID";;
  live_reject (negb (ge_max_actual_attempts v =? 4)) "GATE_B_ATTEMPT_BUDGET_INVALID";;
  live_reject (negb (ge_retry_limit v =? 1)) "GATE_B_ATTEMPT_BUDGET_INVALID";;
  live_reject (negb (ge_redirect_limit v =? 0)) "GATE_B_REDIRECT_FORBIDDEN";;
  live_reject (negb (ge_concurrency v =? 1)) "GATE_B_ATTEMPT_BUDGET_INVALID";;
  live_reject (negb ((ge_connect_timeout_seconds v =? 10) && (ge_idle_read_timeout_seconds v =? 30)
                     && (ge_total_timeout_seconds v =? 120))) "GATE_B_PLAN_INVALID";;
  live_reject (negb (String.eqb (ge_contact_identity_reference v) "SEC_EDGAR_CONTACT_IDENTITY"))
    "GATE_B_CONTACT_REFERENCE_INVALID";;
  let lifetime := ge_expires_at v - ge_approved_at v in
  live_reject ((lifetime <=? 0) || (minutes 10 <? lifetime)) "GATE_B_AUTHORIZATION_WINDOW_INVALID";;
  live_reject (negb (_paths_are_finite (ge_allowed_paths v))) "GATE_B_PLAN_INVALID".
End Envelope.

(** * Validation against the stored contracts *)

(** The fields of [GateBAuthorizationValidation] and [AuthorizedGateBExecution]. *)
Record gate_b_execution := mkExecution {
  ex_authorization_id : UUID; ex_authorization_checksum : string; ex_approval_id : UUID; ex_plan_id : UUID;
  ex_plan_checksum : string; ex_provider : string; ex_security_id : UUID; ex_issuer_id : UUID;
  ex_provider_security_identifier : string; ex_credential_reference_id : UUID;
  ex_user_agent_reference_id : UUID }.

(** [_require_authoritative_binding] *)
Definition _require_authoritative_binding (v : GateBAuthorizationEnvelope) (grant : LiveAuthorizationGrantRecord)
    (approval : LiveExecutionApprovalRecord) (plan : ProviderSyncPlanRecord) : res unit :=
  let g := gd_write grant in
  live_reject (negb (String.eqb (ge_grant_id v) (uuid_str (gd_id grant)))) "GATE_B_GRANT_REFERENCE_INVALID";;
  live_reject (bool_decide (ge_plan_id v ≠ pr_id plan)
      || negb (String.eqb (ge_plan_checksum v) (pw_plan_checksum (pr_write plan)))
      || negb (pr_slice_count plan =? ge_max_resource_count v)
      || bool_decide (la_authorization_id (ax_write approval) ≠ gd_id grant)
      || bool_decide (la_sync_plan_id (ax_write approval) ≠ pr_id plan))
    "EXEC_APPROVAL_PLAN_MISMATCH";;
  live_reject (negb (String.eqb (ge_provider v) (lg_provider_code g))
      || bool_decide (gc_security_id (ge_candidate v) ≠ lg_security_id g)
      || bool_decide (gc_issuer_id (ge_candidate v) ≠ lg_issuer_id g)
      || negb (String.eqb (gc_cik (ge_candidate v)) (lg_provider_security_identifier g))
      || bool_decide (ge_allowed_hosts v ≠ lg_official_domains g)
      || negb (ge_max_actual_attempts v =? lg_request_limit g))
    "AUTH_SECURITY_MISMATCH".

(** [_require_contact_reference] *)
Definition contact_reference_ok (definition_id reference_id : UUID) (r : CredentialReferenceRecord) : bool :=
  bool_decide (cd_id r = reference_id)
  && bool_decide (cw_provider_definition_id (cd_write r) = definition_id)
  && bool_decide (cw_resolver_kind (cd_write r) = CredKind.ENVIRONMENT)
  && bool_decide (cw_declared_name (cd_write r) = Some "SEC_EDGAR_CONTACT_IDENTITY")
  && bool_decide (cw_status (cd_write r) = CredSt.CONFIGURED_METADATA_ONLY).
Definition _require_contact_reference `{UnicodeData} (grant : LiveAuthorizationGrantRecord)
    (reference : CredentialReferenceRecord) : res unit :=
  validate_credential_reference_metadata credential_keys;;
  let g := gd_write grant in
  live_reject (negb (contact_reference_ok (lg_provider_definition_id g) (lg_user_agent_reference_id g) reference))
    "GATE_B_CONTACT_REFERENCE_INVALID".

(** [ProductionAuthorizationGate.authorize]; an instant of the caller is aware UTC. *)
Definition authorize `{UnicodeData} (envelope : GateBAuthorizationEnvelope) (grant : LiveAuthorizationGrantRecord)
    (events : list LiveAuthorizationEventType) (approval : LiveExecutionApprovalRecord)
    (plan : ProviderSyncPlanRecord) (scope : AuthorizationExecutionScope)
    (contact_reference : CredentialReferenceRecord) (checked_at : time) : res gate_b_execution :=
  let g := gd_write grant in
  verify_grant_checksum g;;
  _require_authoritative_binding envelope grant approval plan;;
  _ ← require_active_authorization g events (mkDatetime checked_at (Some 0));
  live_reject (bool_decide (ax_state approval = ApprSt.EXPIRED)) "EXEC_APPROVAL_EXPIRED";;
  live_reject (bool_decide (ax_state approval = ApprSt.BLOCKED)) "EXEC_APPROVAL_SIGNATURE_INVALID";;
  validate_execution_scope g scope;;
  decision ← ExecutionApprovalService.validate
    (ExecutionApprovalService.mkValidate approval (lg_canonical_checksum g) (pw_plan_checksum (pr_write plan))
       checked_at (bool_decide (ax_state approval = ApprSt.CONSUMED)));
  live_reject (bool_decide (decision.1 ≠ ApprSt.VALID))
    (default "EXEC_APPROVAL_SIGNATURE_INVALID" decision.2);;
  _require_contact_reference grant contact_reference;;
  Ok (mkExecution (gd_id grant) (lg_canonical_checksum g) (ax_id approval) (pr_id plan)
        (pw_plan_checksum (pr_write plan)) (lg_provider_code g) (lg_security_id g) (lg_issuer_id g)
        (lg_provider_security_identifier g) (lg_credential_reference_id g) (lg_user_agent_reference_id g)).

(** * What the gate lets through *)

(** The contracts an execution rests on, as a reviewer would list them. *)
Record authorized `{UnicodeData} (envelope : GateBAuthorizationEnvelope) (grant : LiveAuthorizationGrantRecord)
    (events : list LiveAuthorizationEventType) (approval : LiveExecutionApprovalRecord)
    (plan : ProviderSyncPlanRecord) (scope : AuthorizationExecutionScope)
    (contact : CredentialReferenceRecord) (now : time) : Prop := {
  (** the grant is the one its checksum was computed from *)
  au_checksum : grant_checksum (gd_write grant) = Ok (lg_canonical_checksum (gd_write grant));
  (** the envelope names this grant, and the same plan as the approval *)
  au_grant : ge_grant_id envelope = uuid_str (gd_id grant);
  au_plan : ge_plan_id envelope = pr_id plan ∧ ge_plan_checksum envelope = pw_plan_checksum (pr_write plan) ∧
    pr_slice_count plan = ge_max_resource_count envelope;
  au_approval : la_authorization_id (ax_write approval) = gd_id grant ∧
    la_authorization_checksum (ax_write approval) = lg_canonical_checksum (gd_write grant) ∧
    la_sync_plan_id (ax_write approval) = pr_id plan ∧
    la_plan_checksum (ax_write approval) = pw_plan_checksum (pr_write plan);
  (** provider, security, hosts and attempts of the envelope are the grant's *)
  au_scope : ge_provider envelope = lg_provider_code (gd_write grant) ∧
    gc_security_id (ge_candidate envelope) = lg_security_id (gd_write grant) ∧
    gc_issuer_id (ge_candidate envelope) = lg_issuer_id (gd_write grant) ∧
    gc_cik (ge_candidate envelope) = lg_provider_security_identifier (gd_write grant) ∧
    ge_allowed_hosts envelope = lg_official_domains (gd_write grant) ∧
    ge_max_actual_attempts envelope = lg_request_limit (gd_write grant);
  (** the grant is active and has not expired *)
  au_active : replay events = Ok AuthSt.ACTIVE ∧ now < lg_expires_at (gd_write grant);
  (** the approval is unspent, unexpired, well formed and signed *)
  au_valid : ax_state approval = ApprSt.VALID ∧ now < la_expires_at (ax_write approval) ∧
    new_LiveExecutionApprovalWrite (ax_write approval) = Ok (ax_write approval) ∧
    _signature (ax_write approval) = Ok (ax_approval_signature approval);
  (** the execution asks for exactly the scope of the grant *)
  au_execution : validate_execution_scope (gd_write grant) scope = Ok tt;
  (** the contact is the environment variable the grant names *)
  au_contact : validate_credential_reference_metadata credential_keys = Ok tt ∧
    contact_reference_ok (lg_provider_definition_id (gd_write grant))
      (lg_user_agent_reference_id (gd_write grant)) contact = true }.

Definition execution_for (grant : LiveAuthorizationGrantRecord) (approval : LiveExecutionApprovalRecord)
    (plan : ProviderSyncPlanRecord) : gate_b_execution :=
  let g := gd_write grant in
  mkExecution (gd_id grant) (lg_canonical_checksum g) (ax_id approval) (pr_id plan)
    (pw_plan_checksum (pr_write plan)) (lg_provider_code g) (lg_security_id g) (lg_issuer_id g)
    (lg_provider_security_identifier g) (lg_credential_reference_id g) (lg_user_agent_reference_id g).

Lemma neq_false {A} `{EqDecision A} (x y : A) : bool_decide (x ≠ y) = false ↔ x = y.
Proof. rewrite bool_decide_eq_false. split; [by apply dec_stable|by intros -> ?]. Qed.
Lemma neqs_false (x y : string) : negb (String.eqb x y) = false ↔ x = y.
Proof. by rewrite negb_false_iff, String.eqb_eq. Qed.
Lemma neqZ_false (x y : Z) : negb (x =? y) = false ↔ x = y.
Proof. by rewrite negb_false_iff, Z.eqb_eq. Qed.

Lemma verify_grant_checksum_Ok g :
  verify_grant_checksum g = Ok tt ↔ grant_checksum g = Ok (lg_canonical_checksum g).
Proof.
  unfold verify_grant_checksum. rewrite bind_Ok. setoid_rewrite live_reject_Ok. setoid_rewrite neqs_false.
  split; [by intros (x & -> & ->)|eauto].
Qed.

Lemma binding_Ok v grant approval plan : _require_authoritative_binding v grant approval plan = Ok tt ↔
  ge_grant_id v = uuid_str (gd_id grant) ∧
  (ge_plan_id v = pr_id plan ∧ ge_plan_checksum v = pw_plan_checksum (pr_write plan) ∧
   pr_slice_count plan = ge_max_resource_count v ∧ la_authorization_id (ax_write approval) = gd_id grant ∧
   la_sync_plan_id (ax_write approval) = pr_id plan) ∧
  (ge_provider v = lg_provider_code (gd_write grant) ∧
   gc_security_id (ge_candidate v) = lg_security_id (gd_write grant) ∧
   gc_issuer_id (ge_candidate v) = lg_issuer_id (gd_write grant) ∧
   gc_cik (ge_candidate v) = lg_provider_security_identifier (gd_write grant) ∧
   ge_allowed_hosts v = lg_official_domains (gd_write grant) ∧
   ge_max_actual_attempts v = lg_request_limit (gd_write grant)).
Proof.
  unfold _require_authoritative_binding, live_reject.
  rewrite !guard_seq, reject_if_Ok, !orb_false_iff, !neqs_false, !neqZ_false, !neq_false. tauto.
Qed.

Lemma active_Ok g events now st : require_active_authorization g events (mkDatetime now (Some 0)) = Ok st ↔
  st = AuthSt.ACTIVE ∧ replay events = Ok AuthSt.ACTIVE ∧ now < lg_expires_at g.
Proof.
  unfold require_active_authorization, derive_state. rewrite bind_Ok.
  change (to_utc (mkDatetime now (Some 0))) with (Some (now - 0)). rewrite Z.sub_0_r. split.
  - intros (s & Hs & H). apply bind_Ok in Hs as (c & Hc & Hs).
    destruct (bool_decide (c ∈ _)) eqn:Ht.
    + injection Hs as <-. apply bool_decide_eq_true in Ht. destruct c; try discriminate; set_solver.
    + destruct (_ <=? _) eqn:Hx; injection Hs as <-; [discriminate|]. destruct c; try discriminate.
      injection H as <-. split_and!; [done|done|lia].
  - intros (-> & Hr & Hlt). exists AuthSt.ACTIVE. split; [|done]. apply bind_Ok. exists AuthSt.ACTIVE.
    split; [done|]. cbn [bool_decide]. rewrite bool_decide_eq_false_2 by (unfold _TERMINAL_STATES; set_solver).
    by rewrite (proj2 (Z.leb_gt _ _)).
Qed.

Lemma approval_validate_Ok r d : ExecutionApprovalService.validate r = Ok d ↔
  let w := ax_write (ExecutionApprovalService.vq_approval r) in
  la_authorization_checksum w = ExecutionApprovalService.vq_authorization_checksum r ∧
  la_plan_checksum w = ExecutionApprovalService.vq_plan_checksum r ∧
  ExecutionApprovalService.vq_consumed r = false ∧ ExecutionApprovalService.vq_checked_at r < la_expires_at w ∧
  ∃ w' sig, new_LiveExecutionApprovalWrite w = Ok w' ∧ _signature w' = Ok sig ∧
    d = if String.eqb (ax_approval_signature (ExecutionApprovalService.vq_approval r)) sig
        then (ApprSt.VALID, None) else (ApprSt.BLOCKED, Some "EXEC_APPROVAL_SIGNATURE_INVALID").
Proof.
  unfold ExecutionApprovalService.validate, live_reject. cbv zeta.
  rewrite !guard_seq, negb_false_iff, andb_true_iff, !String.eqb_eq, bind_Ok. split.
  - intros ([-> ->] & Hc & Hx & w' & Hw & H). apply bind_Ok in H as (sig & Hs & [= <-]).
    split_and!; try done; [lia|]. exists w', sig. split_and!; [done|done|]. by destruct (String.eqb _ _).
  - intros (-> & -> & Hc & Hx & w' & sig & Hw & Hs & ->). split_and!; try done; [lia|].
    exists w'. split; [done|]. apply bind_Ok. exists sig. split; [done|]. by destruct (String.eqb _ _).
Qed.

Lemma new_approval_id w w' : new_LiveExecutionApprovalWrite w = Ok w' → w' = w.
Proof. unfold new_LiveExecutionApprovalWrite. cbv zeta. rewrite !guard_seq. by intros (_ & _ & [= <-]). Qed.

Lemma contact_Ok `{UnicodeData} grant r : _require_contact_reference grant r = Ok tt ↔
  validate_credential_reference_metadata credential_keys = Ok tt ∧
  contact_reference_ok (lg_provider_definition_id (gd_write grant))
    (lg_user_agent_reference_id (gd_write grant)) r = true.
Proof. unfold _require_contact_reference. by rewrite seq_Ok, live_reject_Ok, negb_false_iff. Qed.

Section Contract.
Context `{UnicodeData}.

End Contract.
