(* ===== verification/LiveStore.v ===== *)
(** The tables of live evidence and the transactions of the pilot's budget:
    reserving and settling consumptions, consuming an authorization, starting an
    execution and reserving its attempts
    (db/repositories/live_evidence.py, db/models/live_evidence.py,
    the contracts of providers/sec_edgar/retry.py).  A transaction holds the row
    lock of the grant, so transactions on one grant run one after the other. *)
From S2P Require Import Prelude Session PyDecimal PyText Sha256 AgentModel Text ReportModel Language.
From S2P Require Import ProviderSync SyncStore LiveModel GateB.

(** * The tables *)

Record GrantRow := mkGrantRow {
  gt_id : UUID; gt_request_limit : Z; gt_byte_limit : Z; gt_canonical_checksum : string; gt_scope : pyval;
  gt_expires_at : time }.
Record EventRow := mkEventRow {
  ev_id : UUID; ev_authorization_id : UUID; ev_sequence : Z; ev_event_type : LiveAuthorizationEventType }.
Record ConsumptionRow := mkConsumptionRow {
  co_id : UUID; co_request : ConsumptionReservationRequest; co_actual_bytes : option Z;
  co_socket_opened : option bool; co_state : ConsumptionState; co_settled_at : option time }.
Record ApprovalRow := mkApprovalRow {
  ap_id : UUID; ap_authorization_id : UUID; ap_plan_id : UUID; ap_plan_checksum : string;
  ap_signature : string; ap_state : ExecutionApprovalState; ap_expires_at : time }.

Record live_db := mkLiveDb {
  lv_grants : list GrantRow; lv_events : list EventRow; lv_consumptions : list ConsumptionRow;
  lv_approvals : list ApprovalRow; lv_sync : sync_db }.
Definition with_events db x := mkLiveDb (lv_grants db) x (lv_consumptions db) (lv_approvals db) (lv_sync db).
Definition with_consumptions db x := mkLiveDb (lv_grants db) (lv_events db) x (lv_approvals db) (lv_sync db).
Definition with_approvals db x := mkLiveDb (lv_grants db) (lv_events db) (lv_consumptions db) x (lv_sync db).
Definition with_sync db x := mkLiveDb (lv_grants db) (lv_events db) (lv_consumptions db) (lv_approvals db) x.

Abbreviation liveM := (sessM live_db).

(** A transaction of the sync tables inside one of these tables. *)
Definition on_sync {A} (m : syncM A) : liveM A := λ db,
  '(a, sy) ← m (lv_sync db); Ok (a, with_sync db sy).

Definition find_grant (db : live_db) (id : UUID) : option GrantRow :=
  find (λ g, bool_decide (gt_id g = id)) (lv_grants db).
Definition of_grant (id : UUID) (c : ConsumptionRow) : bool :=
  bool_decide (cq_authorization_id (co_request c) = id).
Definition of_attempt (id attempt : UUID) (c : ConsumptionRow) : bool :=
  of_grant id c && bool_decide (cq_request_attempt_id (co_request c) = attempt).
Definition grant_consumptions (db : live_db) (id : UUID) : list ConsumptionRow :=
  List.filter (of_grant id) (lv_consumptions db).
(** [SELECT ... ORDER BY sequence] *)
Definition event_ltb (a b : EventRow) : bool := ev_sequence a <? ev_sequence b.
Definition grant_events (db : live_db) (id : UUID) : list EventRow :=
  sort_by event_ltb (List.filter (λ e, bool_decide (ev_authorization_id e = id)) (lv_events db)).

(** * Consumptions *)

(** [reserve_consumption]: [id] is the [uuid4] of a new row. *)
Definition reserve_consumption (id : UUID) (request : ConsumptionReservationRequest) :
    liveM ConsumptionReservation :=
  db ← tables;
  grant ← sess_lift (match find_grant db (cq_authorization_id request) with
                     | None => live_error "AUTH_RESERVATION_INVALID" | Some g => Ok g end);
  match find (of_attempt (cq_authorization_id request) (cq_request_attempt_id request)) (lv_consumptions db) with
  | Some row =>
      existing ← sess_lift (new_ConsumptionReservation (mkReservation (co_id row) (co_request row) (co_state row)));
      sess_lift (AuthorizationConsumption.reserve id request (Some existing))
  | None =>
      let consumed_requests := Z.of_nat (length (grant_consumptions db (cq_authorization_id request))) in
      sess_lift (live_reject (gt_request_limit grant <=? consumed_requests) "AUTH_REQUEST_BUDGET_EXCEEDED");;
      reservation ← sess_lift (AuthorizationConsumption.reserve id request None);
      let row := mkConsumptionRow (cv_id reservation) (cv_request reservation) None None (cv_state reservation) None in
      checked [
        (distinct (map co_id (lv_consumptions db ++ [row])), "pk_live_authorization_consumptions");
        (0 <? cq_reserved_bytes (co_request row), "ck_live_auth_consumption_reserved")];;
      write (λ db, with_consumptions db (lv_consumptions db ++ [row]));;
      mret reservation
  end.

(** [_consumption_record] of a settled row. *)
Definition _consumption_record (row : ConsumptionRow) : res LiveAuthorizationConsumptionRecord :=
  match co_actual_bytes row, co_socket_opened row, co_settled_at row with
  | Some bytes, Some opened, Some at_ => Ok (mkConsumed (co_request row) (co_id row) bytes opened (co_state row) at_)
  | _, _, _ => raise ValidationError "LiveAuthorizationConsumptionRecord"
  end.
Definition settled_row (row : ConsumptionRow) (r : LiveAuthorizationConsumptionRecord) : ConsumptionRow :=
  mkConsumptionRow (co_id row) (co_request row) (Some (lc_actual_bytes r)) (Some (lc_socket_opened r))
    (lc_state r) (Some (lc_settled_at r)).
Definition same_settlement (row : ConsumptionRow) (s : ConsumptionSettlementRequest) : bool :=
  bool_decide (co_actual_bytes row = Some (ce_actual_bytes s))
  && bool_decide (co_socket_opened row = Some (ce_socket_opened s))
  && bool_decide (co_state row = ce_state s) && bool_decide (co_settled_at row = Some (ce_settled_at s)).
Definition sum_Z (l : list Z) : Z := foldr Z.add 0 l.
(** [coalesce(sum(actual_bytes), 0)] over the SETTLED rows. *)
Definition counted_bytes (c : ConsumptionRow) : Z :=
  if bool_decide (co_state c = ConsSt.SETTLED) then default 0 (co_actual_bytes c) else 0.
Definition settled_bytes (l : list ConsumptionRow) : Z := sum_Z (map counted_bytes l).

(** [settle_consumption] *)
Definition settle_consumption (s : ConsumptionSettlementRequest) : liveM LiveAuthorizationConsumptionRecord :=
  db ← tables;
  grant ← sess_lift (match find_grant db (ce_authorization_id s) with
                     | None => live_error "AUTH_RESERVATION_INVALID" | Some g => Ok g end);
  row ← sess_lift (match find (of_attempt (ce_authorization_id s) (ce_request_attempt_id s)) (lv_consumptions db) with
                   | None => live_error "AUTH_RESERVATION_INVALID" | Some row => Ok row end);
  if bool_decide (co_state row ≠ ConsSt.RESERVED) then
    if same_settlement row s then sess_lift (_consumption_record row)
    else sess_lift (live_error "AUTH_SETTLEMENT_CONFLICT")
  else
    let consumed_bytes := settled_bytes (grant_consumptions db (ce_authorization_id s)) in
    sess_lift (live_reject (gt_byte_limit grant <? consumed_bytes + ce_actual_bytes s) "AUTH_BYTE_BUDGET_EXCEEDED");;
    reservation ← sess_lift (new_ConsumptionReservation (mkReservation (co_id row) (co_request row) ConsSt.RESERVED));
    record ← sess_lift (AuthorizationConsumption.settle reservation s);
    write (λ db, with_consumptions db
      (map (λ c, if bool_decide (co_id c = lc_id record) then settled_row c record else c) (lv_consumptions db)));;
    mret record.

(** [consume_authorization] *)
Definition consume_authorization (event_id : UUID) (authorization_id : UUID) : liveM LiveAuthorizationState :=
  db ← tables;
  sess_lift (live_reject (is_none (find_grant db authorization_id)) "AUTH_RESERVATION_INVALID");;
  let events := map ev_event_type (grant_events db authorization_id) in
  state ← sess_lift (replay events);
  sess_lift (live_reject (bool_decide (state = AuthSt.CONSUMED)) "AUTHORIZATION_ALREADY_CONSUMED");;
  sess_lift (live_reject (bool_decide (state ≠ AuthSt.ACTIVE)) "AUTH_RESERVATION_INVALID");;
  let row := mkEventRow event_id authorization_id (Z.of_nat (length events) + 1) AuthEv.CONSUME in
  checked [
    (distinct (map ev_id (lv_events db ++ [row])), "pk_live_authorization_events");
    (distinct (map (λ e, (ev_authorization_id e, ev_sequence e)) (lv_events db ++ [row])),
     "uq_live_auth_events_sequence")];;
  write (λ db, with_events db (lv_events db ++ [row]));;
  sess_lift (AuthorizationStateMachine.transition state AuthEv.CONSUME).

(** * Attempts of the pilot (sec_edgar/retry.py) *)

Module AttKind.
Inductive SecAttemptKind := INITIAL | RETRY.
#[global] Instance SecAttemptKind_eq_dec : EqDecision SecAttemptKind.
Proof. solve_decision. Defined.
End AttKind.
Abbreviation SecAttemptKind := AttKind.SecAttemptKind.

Record SecAttemptReservationRequest := mkAttemptRequest {
  aq_authorization_id : UUID; aq_plan_id : UUID; aq_plan_checksum : string; aq_slice_id : string;
  aq_endpoint_id : string; aq_attempt_number : Z; aq_kind : SecAttemptKind }.
#[export] Instance SecAttemptReservationRequest_eq_dec : EqDecision SecAttemptReservationRequest.
Proof. solve_decision. Defined.
Definition new_SecAttemptReservationRequest (r : SecAttemptReservationRequest) : res SecAttemptReservationRequest :=
  reject_if (negb (Checksum_ok (aq_plan_checksum r) && len_between 1 64 (aq_slice_id r)
                   && len_between 1 128 (aq_endpoint_id r) && between 1 4 (aq_attempt_number r)))
    ValidationError "SecAttemptReservationRequest";;
  Ok r.
Record SecAttemptPermit := mkPermit {
  pm_request : SecAttemptReservationRequest; pm_request_attempt_id : UUID }.

(** [SqlAlchemySecAttemptReservationPort]: it is built with a validation and
    holds an execution once it has started it. *)
Inductive port_execution := Validated (e : gate_b_execution) | Authorized (e : gate_b_execution).
Definition execution_of (x : port_execution) : gate_b_execution :=
  match x with Validated e | Authorized e => e end.
Record reservation_port := mkPort {
  po_execution : port_execution; po_sync_run_id : UUID; po_reserved_bytes : Z }.

(** What one call takes from outside: the [uuid4]s, the readings of the clock in
    their order, and the time PostgreSQL gives a new row. *)
Record fresh := mkFresh {
  fr_attempt_id : UUID; fr_consumption_id : UUID; fr_event_id : UUID; fr_approval_clock : time;
  fr_grant_clock : time; fr_reserved_clock : time; fr_started_clock : time; fr_row_time : time }.

Section Port.
Context (port : reservation_port) (new : fresh).
Let execution := execution_of (po_execution port).

(** [_require_scope] *)
Definition _require_scope (r : SecAttemptReservationRequest) : res unit :=
  live_reject (bool_decide (aq_authorization_id r ≠ ex_authorization_id execution)
      || bool_decide (aq_plan_id r ≠ ex_plan_id execution)
      || negb (String.eqb (aq_plan_checksum r) (ex_plan_checksum execution))
      || ((aq_attempt_number r =? 1) && negb (bool_decide (aq_kind r = AttKind.INITIAL))))
    "SEC_ATTEMPT_RESERVATION_REQUIRED".

(** [_require_persisted_plan_resource] *)
Definition field_is (item : pyval) (key value : string) : bool :=
  match item with
  | VMap d => match dict_get d key with Some (VStr v) => String.eqb v value | _ => false end
  | _ => false
  end.
Definition _require_persisted_plan_resource (r : SecAttemptReservationRequest) (plan_slices : list pyval) :
    res unit :=
  match List.filter (λ item, field_is item "slice_id" (aq_slice_id r)) plan_slices with
  | [VMap d] =>
      match dict_get d "request_parameters" with
      | Some parameters =>
          live_reject (negb (field_is parameters "endpoint_id" (aq_endpoint_id r)))
            "SEC_ATTEMPT_RESERVATION_REQUIRED"
      | None => live_error "SEC_ATTEMPT_RESERVATION_REQUIRED"
      end
  | _ => live_error "SEC_ATTEMPT_RESERVATION_REQUIRED"
  end.

Definition of_run (run_id : UUID) (a : ProviderRequestAttemptRecord) : bool :=
  bool_decide (aw_sync_run_id (at_write a) = run_id).
Definition of_slice (slice_id : string) (a : ProviderRequestAttemptRecord) : bool :=
  String.eqb (aw_slice_id (at_write a)) slice_id.
Definition run_attempts (db : live_db) (run_id : UUID) : list ProviderRequestAttemptRecord :=
  List.filter (of_run run_id) (sy_attempts (lv_sync db)).
Definition count_Z {A} (p : A → bool) (l : list A) : Z := Z.of_nat (length (List.filter p l)).
(** [count( * ) - count(DISTINCT slice_id)] *)
Definition retry_count (l : list ProviderRequestAttemptRecord) : Z :=
  Z.of_nat (length l) - Z.of_nat (length (remove_dups (map (λ a, aw_slice_id (at_write a)) l))).

(** [_persist_gate_b_attempt] *)
Definition _persist_gate_b_attempt (r : SecAttemptReservationRequest) : liveM unit :=
  db ← tables;
  let w := mkAttemptWrite (po_sync_run_id port) (aq_slice_id r) (aq_attempt_number r) SliceSt.PENDING
             (aq_endpoint_id r) None 0 (fr_started_clock new) None None in
  if existsb (λ a, bool_decide (at_id a = fr_attempt_id new) || same_identity w a) (sy_attempts (lv_sync db))
  then sess_lift (conflict "PROVIDER_ATTEMPT_CONFLICT")
  else _ ← on_sync (insert_attempt (mkAttemptRecord (fr_attempt_id new) w (fr_row_time new))); mret tt.

(** [_reserve_attempt] after the reservation of a consumption: the plan of the
    run, the number and kind of the attempt, its row. *)
Definition plan_binding (db : live_db) : option (ProviderSyncRunRecord * ProviderSyncPlanRecord) :=
  run ← find_run (lv_sync db) (po_sync_run_id port);
  plan ← find (λ p, bool_decide (pr_id p = sw_sync_plan_id (rn_write run))) (sy_plans (lv_sync db));
  Some (run, plan).
Definition check_attempt (r : SecAttemptReservationRequest) (db : live_db) : res unit :=
  let attempts := run_attempts db (po_sync_run_id port) in
  let total_attempts := Z.of_nat (length attempts) in
  let same_slice := List.filter (of_slice (aq_slice_id r)) attempts in
  live_reject (4 <=? total_attempts) "SEC_ATTEMPT_BUDGET_EXHAUSTED";;
  let existing_identity := existsb (λ a, aw_attempt_number (at_write a) =? aq_attempt_number r) same_slice in
  live_reject (negb existing_identity && negb (aq_attempt_number r =? total_attempts + 1))
    "SEC_ATTEMPT_SEQUENCE_INVALID";;
  let prior := existsb (λ a, aw_attempt_number (at_write a) <? aq_attempt_number r) same_slice in
  let expected_kind := if prior then AttKind.RETRY else AttKind.INITIAL in
  live_reject (bool_decide (aq_kind r ≠ expected_kind)) "SEC_ATTEMPT_RESERVATION_REQUIRED";;
  live_reject (prior && (1 <=? retry_count attempts)) "SEC_RETRY_BUDGET_EXHAUSTED";;
  if aq_attempt_number r =? 4 then
    let request_limit := gt_request_limit <$> find_grant db (aq_authorization_id r) in
    live_reject (negb (String.eqb (ex_provider execution) "SEC_EDGAR_PUBLIC_V1")
        || bool_decide (request_limit ≠ Some 4)) "SEC_ATTEMPT_BUDGET_EXHAUSTED"
  else Ok tt.
Definition reserve_for_budget (request : ConsumptionReservationRequest) : liveM ConsumptionReservation := λ db,
  match reserve_consumption (fr_consumption_id new) request db with
  | Ok x => Ok x
  | Raise e =>
      if bool_decide (e = mkExn (NamedError "LiveEvidenceValidationError") "AUTH_REQUEST_BUDGET_EXCEEDED")
      then live_error "SEC_ATTEMPT_BUDGET_EXHAUSTED" else Raise e
  end.
Definition _reserve_attempt (r : SecAttemptReservationRequest) : liveM unit :=
  request ← sess_lift (new_ConsumptionReservationRequest
    (mkReserve (aq_authorization_id r) (fr_attempt_id new) (po_reserved_bytes port) (fr_reserved_clock new)));
  _ ← reserve_for_budget request;
  db ← tables;
  match plan_binding db with
  | None => sess_lift (live_error "SEC_SYNC_RUN_PLAN_MISMATCH")
  | Some (run, plan) =>
      sess_lift (live_reject (bool_decide (sw_sync_plan_id (rn_write run) ≠ aq_plan_id r)) "SEC_SYNC_RUN_PLAN_MISMATCH");;
      sess_lift (live_reject (negb (String.eqb (pw_plan_checksum (pr_write plan)) (aq_plan_checksum r)))
        "EXEC_APPROVAL_PLAN_MISMATCH");;
      sess_lift (_require_persisted_plan_resource r (pw_slices (pr_write plan)));;
      sess_lift (check_attempt r db);;
      _persist_gate_b_attempt r
  end.

(** [_lock_and_validate_execution_start] *)
Definition scope_matches (scope : pyval) : bool :=
  field_is scope "security_id" (uuid_str (ex_security_id execution))
  && field_is scope "issuer_id" (uuid_str (ex_issuer_id execution))
  && field_is scope "provider_security_identifier" (ex_provider_security_identifier execution).
Definition _lock_and_validate_execution_start (db : live_db) : res unit :=
  match find (λ a, bool_decide (ap_id a = ex_approval_id execution)) (lv_approvals db) with
  | None => live_error "EXEC_APPROVAL_INVALID"
  | Some approval =>
      live_reject (bool_decide (ap_state approval = ApprSt.CONSUMED)) "EXEC_APPROVAL_REPLAYED";;
      live_reject (bool_decide (ap_state approval ≠ ApprSt.VALID)) "EXEC_APPROVAL_INVALID";;
      live_reject (ap_expires_at approval <=? fr_approval_clock new) "EXEC_APPROVAL_EXPIRED";;
      live_reject (bool_decide (ap_authorization_id approval ≠ ex_authorization_id execution)
          || bool_decide (ap_plan_id approval ≠ ex_plan_id execution)
          || negb (String.eqb (ap_plan_checksum approval) (ex_plan_checksum execution)))
        "EXEC_APPROVAL_PLAN_MISMATCH"
  end;;
  match find_grant db (ex_authorization_id execution) with
  | None => live_error "AUTH_RESERVATION_INVALID"
  | Some grant =>
      live_reject (negb (String.eqb (gt_canonical_checksum grant) (ex_authorization_checksum execution))
          || (gt_expires_at grant <=? fr_grant_clock new)) "AUTH_RESERVATION_INVALID";;
      live_reject (negb (scope_matches (gt_scope grant))) "AUTH_SECURITY_MISMATCH"
  end;;
  let plan_id := (λ r, sw_sync_plan_id (rn_write r)) <$> find_run (lv_sync db) (po_sync_run_id port) in
  live_reject (bool_decide (plan_id ≠ Some (ex_plan_id execution))) "SEC_SYNC_RUN_PLAN_MISMATCH";;
  let plan_checksum := (λ p, pw_plan_checksum (pr_write p)) <$>
    find (λ p, bool_decide (pr_id p = ex_plan_id execution)) (sy_plans (lv_sync db)) in
  live_reject (bool_decide (plan_checksum ≠ Some (ex_plan_checksum execution))) "EXEC_APPROVAL_PLAN_MISMATCH".

(** A repository conflict leaves the port as a validation error. *)
Definition as_live_error {A} (m : res A) : res A :=
  match m with
  | Ok a => Ok a
  | Raise e =>
      if bool_decide (exn_class e = NamedError "ProviderRepositoryConflict") then live_error (exn_code e)
      else Raise e
  end.

(** [reserve] *)
Definition reserve (r : SecAttemptReservationRequest) : liveM SecAttemptPermit := λ db,
  match po_execution port with
  | Validated _ => live_error "SEC_EXECUTION_START_REQUIRED"
  | Authorized _ =>
      _require_scope r;;
      '(_, db') ← as_live_error (_reserve_attempt r db);
      Ok (mkPermit r (fr_attempt_id new), db')
  end.

Definition consume_approval (db : live_db) : live_db :=
  with_approvals db (map (λ a, if bool_decide (ap_id a = ex_approval_id execution) && bool_decide (ap_state a = ApprSt.VALID)
    then mkApprovalRow (ap_id a) (ap_authorization_id a) (ap_plan_id a) (ap_plan_checksum a) (ap_signature a)
           ApprSt.CONSUMED (ap_expires_at a)
    else a) (lv_approvals db)).
(** [start_execution]: the port that comes back holds the execution. *)
Definition start_execution (r : SecAttemptReservationRequest) : liveM (reservation_port * SecAttemptPermit) := λ db,
  match po_execution port with
  | Authorized _ => live_error "SEC_EXECUTION_START_VALIDATION_REQUIRED"
  | Validated e =>
      live_reject (negb (bool_decide (aq_kind r = AttKind.INITIAL)) || negb (aq_attempt_number r =? 1))
        "SEC_EXECUTION_START_INITIAL_REQUIRED";;
      _require_scope r;;
      '(_, db') ← as_live_error ((
        sess_lift (_lock_and_validate_execution_start db);;
        write consume_approval;;
        _ ← consume_authorization (fr_event_id new) (ex_authorization_id e);
        _reserve_attempt r) db);
      Ok ((mkPort (Authorized e) (po_sync_run_id port) (po_reserved_bytes port),
           mkPermit r (fr_attempt_id new)), db')
  end.
End Port.
