(* ===== verification/LiveBudget.v ===== *)
(** What the transactions of [LiveStore] keep: the request and byte budgets of a
    grant, the numbering and the retry of a run's attempts, and the single use
    of an authorization and of an approval, over every sequence of
    transactions. *)
From S2P Require Import Prelude Session PyDecimal PyText Sha256 AgentModel Text ReportModel Language.
From S2P Require Import ProviderSync SyncStore LiveModel GateB LiveStore.

(** * What a transaction does *)

Lemma find_grant_Some db id g : find_grant db id = Some g → g ∈ lv_grants db ∧ gt_id g = id.
Proof. intros [H ?%bool_decide_eq_true]%find_elem. done. Qed.

Lemma of_attempt_true id a c : of_attempt id a c = true ↔
  cq_authorization_id (co_request c) = id ∧ cq_request_attempt_id (co_request c) = a.
Proof. unfold of_attempt, of_grant. by rewrite andb_true_iff, !bool_decide_eq_true. Qed.

(** The pair that identifies a consumption. *)
Definition consumption_key (c : ConsumptionRow) : UUID * UUID :=
  (cq_authorization_id (co_request c), cq_request_attempt_id (co_request c)).
Definition reserved_row (id : UUID) (q : ConsumptionReservationRequest) : ConsumptionRow :=
  mkConsumptionRow id q None None ConsSt.RESERVED None.

Lemma reserve_consumption_Ok id q db v db' : reserve_consumption id q db = Ok (v, db') →
  (db' = db ∧ ∃ c, c ∈ lv_consumptions db ∧ co_request c = q ∧ co_state c = ConsSt.RESERVED) ∨
  (db' = with_consumptions db (lv_consumptions db ++ [reserved_row id q]) ∧
   id ∉ map co_id (lv_consumptions db) ∧
   (cq_authorization_id q, cq_request_attempt_id q) ∉ map consumption_key (lv_consumptions db) ∧
   1 <= cq_reserved_bytes q ∧
   ∃ g, find_grant db (cq_authorization_id q) = Some g ∧
     Z.of_nat (length (grant_consumptions db (cq_authorization_id q))) < gt_request_limit g).
Proof.
  intros E. unfold reserve_consumption in E. tx_inv E.
  destruct (find_grant db _) as [g|] eqn:Hg; [|done]. injection F as <-.
  destruct (find _ (lv_consumptions db)) as [row|] eqn:Hf; tx_inv E.
  - left. apply find_elem in Hf as [Hrow _]. split; [done|].
    unfold new_ConsumptionReservation in F. apply bind_Ok in F as (? & _ & F).
    apply guard_seq in F as [F [= <-]]. cbn in *.
    destruct (decide _) as [<-|]; [|done].
    apply bool_decide_eq_false, dec_stable in F. eauto.
  - right. apply live_reject_Ok in F.
    unfold AuthorizationConsumption.reserve, new_ConsumptionReservation in F0.
    apply bind_Ok in F0 as (? & Hq & F0). apply guard_seq in F0 as [_ [= <-]]. cbn in *.
    apply guard_seq in Hq as [Hq _]. apply negb_false_iff in Hq. unfold between in Hq.
    apply Forall_cons in F1 as [Hid _]. cbn in Hid. apply distinct_fresh in Hid as [_ Hid].
    split_and!; [done|done| |lia|exists g; split; [done|lia]].
    intros (c & Hc & Hin)%list_elem_of_fmap.
    assert (Hk : of_attempt (cq_authorization_id q) (cq_request_attempt_id q) c = true).
    { apply of_attempt_true. by injection Hc as -> ->. }
    eapply find_none in Hf; [|by apply list_elem_of_In]. congruence.
Qed.

Definition settle_row (id : UUID) (r : LiveAuthorizationConsumptionRecord) (c : ConsumptionRow) : ConsumptionRow :=
  if bool_decide (co_id c = id) then settled_row c r else c.
Lemma settle_consumption_Ok s db v db' : settle_consumption s db = Ok (v, db') →
  db' = db ∨ ∃ g row, find_grant db (ce_authorization_id s) = Some g ∧ row ∈ lv_consumptions db ∧
    consumption_key row = (ce_authorization_id s, ce_request_attempt_id s) ∧ co_state row = ConsSt.RESERVED ∧
    lc_actual_bytes v = ce_actual_bytes s ∧ lc_state v = ce_state s ∧
    ce_actual_bytes s <= cq_reserved_bytes (co_request row) ∧
    settled_bytes (grant_consumptions db (ce_authorization_id s)) + ce_actual_bytes s <= gt_byte_limit g ∧
    db' = with_consumptions db (map (settle_row (co_id row) v) (lv_consumptions db)).
Proof.
  intros E. unfold settle_consumption in E. tx_inv E.
  destruct (find_grant db _) as [g|] eqn:Hg; [|done]. injection F as <-.
  destruct (find _ (lv_consumptions db)) as [row|] eqn:Hf; [|done]. injection F0 as <-.
  apply find_elem in Hf as [Hrow Hkey%of_attempt_true].
  destruct (bool_decide _) eqn:Hst.
  - destruct (same_settlement _ _); tx_inv E; by left.
  - tx_inv E. apply live_reject_Ok in F. apply bool_decide_eq_false, dec_stable in Hst.
    unfold new_ConsumptionReservation in F0. apply bind_Ok in F0 as (? & _ & F0).
    apply guard_seq in F0 as [_ [= <-]].
    unfold AuthorizationConsumption.settle in F1. apply live_guard in F1 as [F1 [= <-]].
    rewrite negb_false_iff, !andb_true_iff in F1. cbn in *.
    right. exists g, row. unfold consumption_key. destruct Hkey as [-> ->]. split_and!; try done; lia.
Qed.

Lemma map_same {A} (f : A → A) l : (∀ x, x ∈ l → f x = x) → map f l = l.
Proof. intros H. induction l as [|x l IH]; cbn; [done|]. rewrite H, IH; [done| |left]. intros y Hy. apply H. by right. Qed.

Lemma settle_row_other id r c : co_id c ≠ id → settle_row id r c = c.
Proof. intros H. unfold settle_row. by rewrite bool_decide_eq_false_2. Qed.
Lemma settle_row_self r c : settle_row (co_id c) r c = settled_row c r.
Proof. unfold settle_row. by rewrite bool_decide_eq_true_2. Qed.
Lemma in_keys {A B} (f : A → B) x l k : f x = k → x ∈ l → k ∈ map f l.
Proof. intros <-. apply list_elem_of_fmap_2. Qed.

Lemma settled_bytes_cons c l : settled_bytes (c :: l) = counted_bytes c + settled_bytes l.
Proof. done. Qed.

(** A row that is settled counts its bytes once. *)
Lemma settled_bytes_settle l row r : NoDup (map co_id l) → row ∈ l → co_state row = ConsSt.RESERVED →
  settled_bytes (map (settle_row (co_id row) r) l) =
  settled_bytes l + if bool_decide (lc_state r = ConsSt.SETTLED) then lc_actual_bytes r else 0.
Proof.
  intros Hnd Hin Hst. induction l as [|c l IH]; [by apply elem_of_nil in Hin|].
  apply NoDup_cons in Hnd as [Hc Hnd]. fold (map co_id l) in *. cbn [map]. rewrite !settled_bytes_cons.
  apply elem_of_cons in Hin as [<-|Hin].
  - rewrite (map_same (settle_row _ _) l), settle_row_self.
    + unfold counted_bytes at 1 2. rewrite Hst. cbn [co_state co_actual_bytes settled_row].
      rewrite (bool_decide_eq_false_2 (ConsSt.RESERVED = _)) by done. cbn. lia.
    + intros x Hx. apply settle_row_other. intros E. by apply Hc, (in_keys _ x).
  - rewrite (IH Hnd Hin), settle_row_other; [lia|]. intros E. by apply Hc, (in_keys _ row).
Qed.

Lemma settle_row_request id r c : co_request (settle_row id r c) = co_request c.
Proof. unfold settle_row. by case_bool_decide. Qed.
Lemma settle_row_id id r c : co_id (settle_row id r c) = co_id c.
Proof. unfold settle_row. by case_bool_decide. Qed.
Lemma of_grant_settle id r l g :
  List.filter (of_grant g) (map (settle_row id r) l) = map (settle_row id r) (List.filter (of_grant g) l).
Proof.
  induction l as [|c l IH]; cbn; [done|].
  replace (of_grant g (settle_row id r c)) with (of_grant g c) by (unfold of_grant; by rewrite settle_row_request).
  rewrite IH. by destruct (of_grant g c).
Qed.
Lemma filter_NoDup {A B} (f : A → B) (p : A → bool) l : NoDup (map f l) → NoDup (map f (List.filter p l)).
Proof.
  induction l as [|x l IH]; [done|]. intros [Hx H]%NoDup_cons. cbn [List.filter].
  destruct (p x); [|by apply IH]. apply NoDup_cons. split; [|by apply IH].
  intros (y & Hy & Hin)%list_elem_of_fmap. destruct Hx. apply list_elem_of_In, filter_In in Hin as [Hin _].
  by apply (in_keys _ y), list_elem_of_In.
Qed.

Lemma NoDup_grow {A B} `{EqDecision B} (f : A → B) l x :
  NoDup (map f l) → f x ∉ map f l → NoDup (map f (l ++ [x])).
Proof. intros Hl Hx. by apply (proj1 (bool_decide_eq_true _)), (distinct_fresh f l x). Qed.

(** * The budget of a grant *)

Record budget_ok (db : live_db) : Prop := {
  bo_grants : NoDup (map gt_id (lv_grants db));
  bo_ids : NoDup (map co_id (lv_consumptions db));
  bo_attempts : NoDup (map consumption_key (lv_consumptions db));
  bo_requests : ∀ g, g ∈ lv_grants db →
    Z.of_nat (length (grant_consumptions db (gt_id g))) <= gt_request_limit g;
  bo_bytes : ∀ g, g ∈ lv_grants db → settled_bytes (grant_consumptions db (gt_id g)) <= gt_byte_limit g }.

Lemma settled_bytes_app l k : settled_bytes (l ++ k) = settled_bytes l + settled_bytes k.
Proof. unfold settled_bytes, sum_Z. rewrite map_app. induction (map _ l); cbn; lia. Qed.

Lemma grant_consumptions_add db c id :
  grant_consumptions (with_consumptions db (lv_consumptions db ++ [c])) id =
  grant_consumptions db id ++ if of_grant id c then [c] else [].
Proof. unfold grant_consumptions. cbn. rewrite List.filter_app. cbn. by destruct (of_grant id c). Qed.
Lemma grant_consumptions_settle db id r g :
  grant_consumptions (with_consumptions db (map (settle_row id r) (lv_consumptions db))) g =
  map (settle_row id r) (grant_consumptions db g).
Proof. apply of_grant_settle. Qed.

Lemma reserve_keeps_budget id q db v db' : budget_ok db → reserve_consumption id q db = Ok (v, db') → budget_ok db'.
Proof.
  intros Hb [[-> _]|(-> & Hid & Hkey & _ & g & Hg & Hlt)]%reserve_consumption_Ok; [done|].
  pose proof Hb as [Hnd Hi Ha Hr Hy]. apply find_grant_Some in Hg as [Hg Hgid].
  constructor; cbn [with_consumptions lv_grants lv_consumptions]; [done|by apply NoDup_grow|by apply NoDup_grow| |].
  - intros g' Hg'. rewrite grant_consumptions_add, length_app.
    destruct (of_grant (gt_id g') (reserved_row id q)) eqn:E; cbn [length]; [|pose proof (Hr g' Hg'); lia].
    apply bool_decide_eq_true in E. cbn [reserved_row co_request] in E.
    assert (g' = g) as -> by (apply (NoDup_map_inj gt_id (lv_grants db)); congruence).
    rewrite E in Hlt. lia.
  - intros g' Hg'. rewrite grant_consumptions_add, settled_bytes_app. pose proof (Hy g' Hg').
    assert (H0 : settled_bytes [reserved_row id q] = 0) by reflexivity.
    destruct (of_grant _ _); [lia|]. cbn. lia.
Qed.

Lemma settle_keeps_budget s db v db' : 0 <= ce_actual_bytes s → budget_ok db →
  settle_consumption s db = Ok (v, db') → budget_ok db'.
Proof.
  intros H0 Hb [->|(g & row & Hg & Hrow & Hkey & Hst & Hac & _ & _ & Hlim & ->)]%settle_consumption_Ok; [done|].
  pose proof Hb as [Hnd Hi Ha Hr Hy]. apply find_grant_Some in Hg as [Hg Hgid].
  assert (Hsame : ∀ {B} (f : ConsumptionRow → B), (∀ c, f (settle_row (co_id row) v c) = f c) →
    map f (map (settle_row (co_id row) v) (lv_consumptions db)) = map f (lv_consumptions db)).
  { intros B f Hf. rewrite map_map. by apply map_ext. }
  constructor; cbn [with_consumptions lv_grants lv_consumptions]; [done| | | |].
  - rewrite Hsame; [done|]. intros c. apply settle_row_id.
  - rewrite Hsame; [done|]. intros c. unfold consumption_key. by rewrite settle_row_request.
  - intros g' Hg'. rewrite grant_consumptions_settle, length_map. by apply Hr.
  - intros g' Hg'. rewrite grant_consumptions_settle.
    destruct (decide (gt_id g' = ce_authorization_id s)) as [E|E].
    + assert (g' = g) as -> by (apply (NoDup_map_inj gt_id (lv_grants db)); congruence).
      rewrite settled_bytes_settle; [|by apply filter_NoDup| |done].
      * rewrite E, Hac. destruct (bool_decide _); lia.
      * apply list_elem_of_In, filter_In. split; [by apply list_elem_of_In|]. apply bool_decide_eq_true.
        rewrite E. by injection Hkey as -> _.
    + rewrite map_same; [by apply Hy|]. intros c [Hin Hc%bool_decide_eq_true]%list_elem_of_In%filter_In.
      apply settle_row_other. intros Ec. destruct E. rewrite <- Hc.
      assert (c = row) as -> by (eapply (NoDup_map_inj co_id); eauto; by apply list_elem_of_In).
      by injection Hkey as -> _.
Qed.

(** * Attempts of a run *)

(** [reserve_consumption] touches the consumptions only. *)
Lemma reserve_consumption_frame id q db v db' : reserve_consumption id q db = Ok (v, db') →
  db' = with_consumptions db (lv_consumptions db') ∧
  lv_consumptions db `prefix_of` lv_consumptions db' ∧
  ∃ c, c ∈ lv_consumptions db' ∧ co_request c = q.
Proof.
  intros [[-> (c & ? & ? & _)]|(-> & _)]%reserve_consumption_Ok.
  - split_and!; [by destruct db|done|eauto].
  - cbn. split_and!; [done|by apply prefix_app_r|]. exists (reserved_row id q). split; [|done]. apply elem_of_app. right. left.
Qed.

Section Attempt.
Context (port : reservation_port) (new : fresh).

Definition wanted (r : SecAttemptReservationRequest) : ConsumptionReservationRequest :=
  mkReserve (aq_authorization_id r) (fr_attempt_id new) (po_reserved_bytes port) (fr_reserved_clock new).
Definition new_attempt (r : SecAttemptReservationRequest) : ProviderRequestAttemptRecord :=
  mkAttemptRecord (fr_attempt_id new)
    (mkAttemptWrite (po_sync_run_id port) (aq_slice_id r) (aq_attempt_number r) SliceSt.PENDING
       (aq_endpoint_id r) None 0 (fr_started_clock new) None None) (fr_row_time new).
Definition with_attempt (db : live_db) (a : ProviderRequestAttemptRecord) : live_db :=
  with_sync db (with_attempts (lv_sync db) (sy_attempts (lv_sync db) ++ [a])).

Lemma insert_attempt_Ok row sy x sy' : insert_attempt row sy = Ok (x, sy') →
  sy' = with_attempts sy (sy_attempts sy ++ [row]) ∧ NoDup (map at_id (sy_attempts sy ++ [row])) ∧
  NoDup (map attempt_identity (sy_attempts sy ++ [row])) ∧
  aw_sync_run_id (at_write row) ∈ map rn_id (sy_runs sy).
Proof.
  intros E. unfold insert_attempt in E. tx_inv E.
  match goal with F : Forall _ _ |- _ =>
    apply Forall_cons in F as [H1 F]; apply Forall_cons in F as [H2 F]; apply Forall_cons in F as [H3 _] end.
  cbn in *. unfold distinct, member in *. by rewrite bool_decide_eq_true in H1, H2, H3.
Qed.

Lemma _reserve_attempt_Ok r db u db' : _reserve_attempt port new r db = Ok (u, db') →
  ∃ v db1 run plan, reserve_consumption (fr_consumption_id new) (wanted r) db = Ok (v, db1) ∧
    plan_binding port db1 = Some (run, plan) ∧ sw_sync_plan_id (rn_write run) = aq_plan_id r ∧
    pw_plan_checksum (pr_write plan) = aq_plan_checksum r ∧
    _require_persisted_plan_resource r (pw_slices (pr_write plan)) = Ok tt ∧
    check_attempt port r db1 = Ok tt ∧
    Forall (λ a, at_id a ≠ fr_attempt_id new ∧ attempt_identity a ≠ attempt_identity (new_attempt r))
      (sy_attempts (lv_sync db1)) ∧
    db' = with_attempt db1 (new_attempt r).
Proof.
  intros E. unfold _reserve_attempt in E. tx_inv E.
  apply guard_seq in F as [_ [= <-]]. unfold reserve_for_budget in F0.
  destruct (reserve_consumption _ _ db) as [[v d0]|e] eqn:Hres; [injection F0 as -> ->|by destruct (bool_decide _)].
  destruct (plan_binding port d) as [[run plan]|] eqn:Hplan; tx_inv E; [|done].
  apply live_reject_Ok in F. apply live_reject_Ok in F0. apply bool_decide_eq_false, dec_stable in F.
  apply negb_false_iff, String.eqb_eq in F0. destruct x2, x3.
  exists x0, d, run, plan. split_and!; try done.
  all: unfold _persist_gate_b_attempt in E; tx_inv E.
  all: destruct (existsb _ _) eqn:Hex; tx_inv E; [done|].
  - apply Forall_forall. intros a Ha. apply not_true_iff_false in Hex.
    assert (Hn : ∀ a, a ∈ sy_attempts (lv_sync d) →
      (bool_decide (at_id a = fr_attempt_id new) || same_identity (at_write (new_attempt r)) a) ≠ true).
    { intros b Hb Hc. apply Hex, existsb_exists. exists b. by rewrite <- list_elem_of_In. }
    specialize (Hn _ Ha). rewrite orb_true_iff in Hn. unfold same_identity in Hn. rewrite !bool_decide_eq_true in Hn.
    by split; intros He; apply Hn; [left|right].
  - unfold on_sync in F3. apply bind_Ok in F3 as ([y sy] & Hi & [= <- <-]).
    apply insert_attempt_Ok in Hi as [-> _]. done.
Qed.
End Attempt.

(** The number and the slice of each attempt of a run, in the order they were
    reserved. *)
Definition slice_of (a : ProviderRequestAttemptRecord) : string := aw_slice_id (at_write a).
Definition number_of (a : ProviderRequestAttemptRecord) : Z := aw_attempt_number (at_write a).
(** At most four attempts, numbered from one, of which one repeats a slice. *)
Definition attempts_bounded (l : list ProviderRequestAttemptRecord) : Prop :=
  map number_of l = map Z.of_nat (seq 1 (length l)) ∧ (length l <= 4)%nat ∧ 0 <= retry_count l <= 1.

Lemma length_remove_dups_snoc (l : list string) x :
  length (remove_dups (l ++ [x])) = (length (remove_dups l) + if bool_decide (x ∈ l) then 0 else 1)%nat.
Proof.
  assert (H : remove_dups (l ++ [x]) ≡ₚ if bool_decide (x ∈ l) then remove_dups l else x :: remove_dups l).
  { apply NoDup_Permutation; [apply NoDup_remove_dups| |].
    - case_bool_decide; [apply NoDup_remove_dups|]. apply NoDup_cons.
      rewrite elem_of_remove_dups. split; [done|apply NoDup_remove_dups].
    - intros y. rewrite elem_of_remove_dups, elem_of_app, list_elem_of_singleton.
      case_bool_decide; rewrite ?elem_of_cons, elem_of_remove_dups; naive_solver. }
  rewrite H. case_bool_decide; cbn; lia.
Qed.
Lemma retry_count_snoc l a :
  retry_count (l ++ [a]) = retry_count l + if bool_decide (slice_of a ∈ map slice_of l) then 1 else 0.
Proof.
  unfold retry_count. fold slice_of. change (λ a, aw_slice_id (at_write a)) with slice_of.
  rewrite map_app, length_app. cbn [map]. rewrite length_remove_dups_snoc.
  case_bool_decide; cbn; lia.
Qed.
Lemma slice_found l s : List.filter (of_slice s) l ≠ [] ↔ s ∈ map slice_of l.
Proof.
  split.
  - destruct (List.filter _ l) as [|a k] eqn:E; [done|]. intros _.
    assert (Ha : In a (List.filter (of_slice s) l)) by (rewrite E; by left).
    apply filter_In in Ha as [Ha Hs%String.eqb_eq]. apply (in_keys _ a); [done|by apply list_elem_of_In].
  - intros (a & -> & Ha)%list_elem_of_fmap E. apply list_elem_of_In in Ha.
    assert (Hin : In a (List.filter (of_slice (slice_of a)) l)) by (apply filter_In; split; [done|apply String.eqb_refl]).
    by rewrite E in Hin.
Qed.

Lemma check_attempt_Ok port r db : check_attempt port r db = Ok tt →
  let l := run_attempts db (po_sync_run_id port) in
  (length l < 4)%nat ∧
  (aq_attempt_number r = Z.of_nat (length l) + 1 ∨
   ∃ a, a ∈ l ∧ slice_of a = aq_slice_id r ∧ number_of a = aq_attempt_number r) ∧
  (∃ prior, prior = existsb (λ a, number_of a <? aq_attempt_number r) (List.filter (of_slice (aq_slice_id r)) l) ∧
     aq_kind r = (if prior then AttKind.RETRY else AttKind.INITIAL) ∧ (prior = true → retry_count l < 1)).
Proof.
  unfold check_attempt. cbv zeta. rewrite !live_guard. intros (H1 & H2 & H3 & H4 & _). split_and!; [lia| |].
  - apply andb_false_iff in H2 as [H2|H2]; [right|left; lia]. apply negb_false_iff, existsb_exists in H2 as (a & Ha & Hn).
    apply filter_In in Ha as [Ha Hs%String.eqb_eq]. exists a. split_and!; [by apply list_elem_of_In|done|].
    unfold number_of. lia.
  - eexists. split; [done|]. apply bool_decide_eq_false, dec_stable in H3. split; [done|].
    intros Hp. change (λ a, number_of a <? aq_attempt_number r)
      with (λ a, aw_attempt_number (at_write a) <? aq_attempt_number r) in Hp. rewrite Hp in H4. cbn in H4. lia.
Qed.

(** An attempt that passes the check extends a bounded run. *)
Lemma check_attempt_bounded port new r db : let l := run_attempts db (po_sync_run_id port) in
  attempts_bounded l → check_attempt port r db = Ok tt →
  Forall (λ a, attempt_identity a ≠ attempt_identity (new_attempt port new r)) l →
  attempts_bounded (l ++ [new_attempt port new r]).
Proof.
  intros l (Hnum & Hlen & Hret) Hc Hfresh. apply check_attempt_Ok in Hc as (Hlt & Hnext & prior & Hp & Hk & Hr).
  fold l in Hlt, Hnext, Hp, Hr.
  assert (Hn : aq_attempt_number r = Z.of_nat (length l) + 1).
  { destruct Hnext as [?|(a & Ha & Hs & Hn)]; [done|]. rewrite Forall_forall in Hfresh. destruct (Hfresh a Ha).
    unfold attempt_identity. cbn. unfold slice_of, number_of in *. rewrite Hs, Hn. do 2 f_equal.
    unfold l, run_attempts in Ha. apply list_elem_of_In, filter_In in Ha as [_ Ha%bool_decide_eq_true]. done. }
  assert (Hall : ∀ a, a ∈ l → number_of a < aq_attempt_number r).
  { intros a Ha. assert (Hin : number_of a ∈ map number_of l) by by apply list_elem_of_fmap_2.
    rewrite Hnum in Hin. apply list_elem_of_fmap in Hin as (k & -> & Hk'). apply elem_of_seq in Hk'. lia. }
  unfold attempts_bounded. rewrite map_app, length_app, retry_count_snoc, Hnum. cbn [length map].
  rewrite seq_app, map_app. cbn [seq map]. split_and!.
  - f_equal. unfold number_of. cbn. rewrite Hn. f_equal. lia.
  - lia.
  - case_bool_decide; lia.
  - case_bool_decide as Hs; [|lia]. apply slice_found in Hs. cbn in Hs.
    destruct prior; [specialize (Hr eq_refl); lia|]. destruct (List.filter _ l) as [|a k] eqn:E; [done|].
    cbn in Hp. assert (Ha : a ∈ l).
    { apply list_elem_of_In. apply (filter_In (of_slice (aq_slice_id r))). rewrite E. by left. }
    specialize (Hall a Ha). symmetry in Hp. apply orb_false_iff in Hp as [Hp _]. lia.
Qed.

(** * Sequences of transactions *)

(** What the pilot commits: an execution it starts, an attempt it reserves, the
    settlement of an attempt with its consumption. *)
Inductive live_op :=
| LStart (port : reservation_port) (new : fresh) (r : SecAttemptReservationRequest)
| LReserve (port : reservation_port) (new : fresh) (r : SecAttemptReservationRequest)
| LSettle (a : ProviderRequestAttemptSettlement) (c : ConsumptionSettlementRequest).

Definition settle_both (a : ProviderRequestAttemptSettlement) (c : ConsumptionSettlementRequest) : liveM unit :=
  a ← sess_lift (new_ProviderRequestAttemptSettlement a);
  _ ← on_sync (settle_attempt a);
  c ← sess_lift (new_ConsumptionSettlementRequest c);
  _ ← settle_consumption c;
  mret tt.
Definition run_op (o : live_op) : liveM unit :=
  match o with
  | LStart port new r => _ ← start_execution port new r; mret tt
  | LReserve port new r => _ ← reserve port new r; mret tt
  | LSettle a c => settle_both a c
  end.
(** A transaction that raises leaves the tables as they were. *)
Definition commit (db : live_db) (o : live_op) : live_db :=
  match run_op o db with Ok (_, db') => db' | Raise _ => db end.
Definition commits (db : live_db) (ops : list live_op) : live_db := foldl commit db ops.
(** The transactions that committed, in order. *)
Fixpoint committed (db : live_db) (ops : list live_op) : list live_op :=
  match ops with
  | [] => []
  | o :: ops => (if is_ok (run_op o db) then [o] else []) ++ committed (commit db o) ops
  end.

Lemma commit_cases db o : commit db o = db ∨ run_op o db = Ok (tt, commit db o).
Proof. unfold commit. destruct (run_op o db) as [[[] d]|e]; [by right|by left]. Qed.
Lemma commits_inv (P : live_db → Prop) ops :
  (∀ db o db', P db → run_op o db = Ok (tt, db') → P db') → ∀ db, P db → P (commits db ops).
Proof.
  intros Hstep. unfold commits. induction ops as [|o ops IH]; cbn; [done|]. intros db HP. apply IH.
  destruct (commit_cases db o) as [->|E]; [done|by eapply Hstep].
Qed.

Lemma as_live_error_Ok {A} (m : res A) x : as_live_error m = Ok x → m = Ok x.
Proof.
  destruct m as [a|e]; cbn; [done|]. by destruct (bool_decide _).
Qed.

Lemma reserve_Ok port new r db p db' : reserve port new r db = Ok (p, db') →
  p = mkPermit r (fr_attempt_id new) ∧ _require_scope port r = Ok tt ∧ _reserve_attempt port new r db = Ok (tt, db').
Proof.
  unfold reserve. destruct (po_execution port); [discriminate|].
  intros ([] & Hs & (([] & d) & E%as_live_error_Ok & [= <- <-])%bind_Ok)%bind_Ok. done.
Qed.

(** What a start has checked and done before it reserves the first attempt. *)
Lemma start_Ok port new r db v db' : start_execution port new r db = Ok (v, db') →
  ∃ e db1 state, po_execution port = Validated e ∧ aq_kind r = AttKind.INITIAL ∧ aq_attempt_number r = 1 ∧
    _require_scope port r = Ok tt ∧ _lock_and_validate_execution_start port new db = Ok tt ∧
    v = (mkPort (Authorized e) (po_sync_run_id port) (po_reserved_bytes port), mkPermit r (fr_attempt_id new)) ∧
    consume_authorization (fr_event_id new) (ex_authorization_id e) (consume_approval port db) = Ok (state, db1) ∧
    _reserve_attempt port new r db1 = Ok (tt, db').
Proof.
  unfold start_execution. destruct (po_execution port) as [e|] eqn:Hp; [|discriminate].
  intros (H1 & H)%live_guard. apply seq_Ok in H as [H2 H].
  apply bind_Ok in H as (([] & d) & E%as_live_error_Ok & [= <- <-]).
  tx_inv E. apply orb_false_iff in H1 as [Hk Hn]. apply negb_false_iff in Hk, Hn.
  apply bool_decide_eq_true in Hk. destruct x.
  eexists e, _, _. split_and!; try done. lia.
Qed.

(** * Frames *)

Lemma consume_authorization_Ok ev a db st db' : consume_authorization ev a db = Ok (st, db') →
  replay (map ev_event_type (grant_events db a)) = Ok AuthSt.ACTIVE ∧ st = AuthSt.CONSUMED ∧
  db' = with_events db (lv_events db ++
    [mkEventRow ev a (Z.of_nat (length (grant_events db a)) + 1) AuthEv.CONSUME]).
Proof.
  intros E. unfold consume_authorization in E. tx_inv E.
  apply live_reject_Ok in F1, F2. apply bool_decide_eq_false, dec_stable in F2. rewrite F2 in *.
  change (Ok AuthSt.CONSUMED = Ok st) in E. injection E as <-. by rewrite length_map.
Qed.

(** The attempt a settlement updates is the one of its identifier. *)
Lemma settle_attempt_Ok s sy a sy' : NoDup (map at_id (sy_attempts sy)) → settle_attempt s sy = Ok (a, sy') →
  ∃ f, (∀ r, r ∈ sy_attempts sy → at_id (f r) = at_id r ∧ attempt_identity (f r) = attempt_identity r) ∧
    sy' = with_attempts sy (map f (sy_attempts sy)).
Proof.
  intros Hnd E. unfold settle_attempt in E. tx_inv E.
  destruct (find_attempt sy (as_id s)) as [row|] eqn:Hrow; [|discriminate]. injection F as <-.
  apply find_elem in Hrow as [Hrow Hid%bool_decide_eq_true].
  destruct (bool_decide _); tx_inv E.
  - exists id. split; [done|]. rewrite map_id. by destruct sy.
  - exists (set_attempt (as_id s) (settled_attempt (at_write row) s)). split; [|done]. intros r Hr.
    unfold set_attempt. destruct (bool_decide (at_id r = as_id s)) eqn:Er; [|done]. split; [done|].
    apply bool_decide_eq_true in Er.
    assert (r = row) as -> by (apply (NoDup_map_inj at_id (sy_attempts sy)); congruence). done.
Qed.

Lemma settle_both_Ok a c db db' : settle_both a c db = Ok (tt, db') →
  ∃ x sy v, settle_attempt a (lv_sync db) = Ok (x, sy) ∧ 0 <= ce_actual_bytes c ∧
    bool_decide (ce_state c ∈ [ConsSt.SETTLED; ConsSt.ABANDONED]) = true ∧
    settle_consumption c (with_sync db sy) = Ok (v, db').
Proof.
  intros E. unfold settle_both in E. tx_inv E.
  apply guard_seq in F as [_ F]. apply guard_seq in F as [_ [= <-]].
  unfold on_sync in F0. apply bind_Ok in F0 as ([y sy] & Hs & [= <- <-]).
  apply guard_seq in F1 as [Hb F1]. apply guard_seq in F1 as [Hst [= <-]].
  apply negb_false_iff in Hst, Hb. eexists _, _, _. split_and!; [done| |done|done].
  unfold between in Hb. lia.
Qed.

(** * Budgets hold over every sequence of transactions *)

Lemma budget_ok_frame db db' : lv_grants db' = lv_grants db → lv_consumptions db' = lv_consumptions db →
  budget_ok db → budget_ok db'.
Proof.
  intros Hg Hc [H1 H2 H3 H4 H5]. constructor; rewrite ?Hg, ?Hc; try done;
    intros g Hin; unfold grant_consumptions; rewrite Hc; [by apply H4|by apply H5].
Qed.
Lemma _reserve_attempt_budget port new r db u db' : budget_ok db →
  _reserve_attempt port new r db = Ok (u, db') → budget_ok db'.
Proof.
  intros Hb E. apply _reserve_attempt_Ok in E as (v & db1 & run & plan & Hr & _ & _ & _ & _ & _ & _ & ->).
  by eapply (budget_ok_frame db1), reserve_keeps_budget.
Qed.
Lemma run_op_budget o db db' : budget_ok db → run_op o db = Ok (tt, db') → budget_ok db'.
Proof.
  intros Hb E. destruct o as [port new r|port new r|a c]; cbn in E; tx_inv E.
  - apply start_Ok in F as (e & db1 & st & _ & _ & _ & _ & _ & _ & Hc & Hr).
    apply consume_authorization_Ok in Hc as (_ & _ & ->). eapply _reserve_attempt_budget; [|exact Hr].
    by apply (budget_ok_frame db).
  - apply reserve_Ok in F as (_ & _ & Hr). by eapply _reserve_attempt_budget.
  - apply settle_both_Ok in E as (x & sy & v & _ & H0 & _ & Hs).
    eapply settle_keeps_budget; [done| |exact Hs]. by apply (budget_ok_frame db).
Qed.
Lemma run_op_grants o db db' : run_op o db = Ok (tt, db') → lv_grants db' = lv_grants db.
Proof.
  assert (Hres : ∀ port new r db u db', _reserve_attempt port new r db = Ok (u, db') → lv_grants db' = lv_grants db).
  { intros port new r db0 u d E. apply _reserve_attempt_Ok in E as (v & db1 & run & plan & Hr & _ & _ & _ & _ & _ & _ & ->).
    apply reserve_consumption_frame in Hr as [-> _]. done. }
  intros E. destruct o as [port new r|port new r|a c]; cbn in E; tx_inv E.
  - apply start_Ok in F as (e & db1 & st & _ & _ & _ & _ & _ & _ & Hc & Hr).
    apply consume_authorization_Ok in Hc as (_ & _ & ->). by apply Hres in Hr.
  - apply reserve_Ok in F as (_ & _ & Hr). by apply Hres in Hr.
  - apply settle_both_Ok in E as (x & sy & v & _ & _ & _ & Hs).
    by apply settle_consumption_Ok in Hs as [->|(? & ? & _ & _ & _ & _ & _ & _ & _ & _ & ->)].
Qed.

(** C33. No sequence of starts, reservations and settlements, by whatever ports
    and in whatever order, spends more than a grant allows: every grant keeps
    its limits, at most [request_limit] requests are reserved under it and the
    bytes settled under it sum to at most [byte_limit]. *)
Theorem grant_budget_kept db ops : budget_ok db →
  lv_grants (commits db ops) = lv_grants db ∧
  ∀ g, g ∈ lv_grants db →
    Z.of_nat (length (grant_consumptions (commits db ops) (gt_id g))) <= gt_request_limit g ∧
    settled_bytes (grant_consumptions (commits db ops) (gt_id g)) <= gt_byte_limit g.
Proof.
  intros Hb.
  assert (Hg : lv_grants (commits db ops) = lv_grants db).
  { apply (commits_inv (λ d, lv_grants d = lv_grants db)); [|done]. intros d o d' <- E. by eapply run_op_grants. }
  assert (Hok : budget_ok (commits db ops)).
  { apply commits_inv; [|done]. intros d o d' Hd E. by eapply run_op_budget. }
  split; [done|]. intros g Hin. rewrite <- Hg in Hin. destruct Hok. auto.
Qed.

(** * Every attempt of a run is counted and paid for *)

(** The request of an attempt has a consumption of its own. *)
Definition funded (db : live_db) (a : ProviderRequestAttemptRecord) : Prop :=
  ∃ c, c ∈ lv_consumptions db ∧ cq_request_attempt_id (co_request c) = at_id a.
Record runs_ok (db : live_db) : Prop := {
  ro_ids : NoDup (map at_id (sy_attempts (lv_sync db)));
  ro_runs : ∀ run_id, attempts_bounded (run_attempts db run_id);
  ro_funded : ∀ a, a ∈ sy_attempts (lv_sync db) → funded db a }.

Lemma run_attempts_add db a run_id :
  run_attempts (with_attempt db a) run_id = run_attempts db run_id ++ if of_run run_id a then [a] else [].
Proof. unfold run_attempts. cbn. rewrite List.filter_app. cbn. by destruct (of_run run_id a). Qed.

Lemma _reserve_attempt_runs port new r db u db' : runs_ok db → _reserve_attempt port new r db = Ok (u, db') → runs_ok db'.
Proof.
  intros [Hi Hr Hf] E. apply _reserve_attempt_Ok in E as (v & db1 & run & plan & Hres & _ & _ & _ & _ & Hc & Hnew & ->).
  apply reserve_consumption_frame in Hres as (Hdb1 & Hpre & c & Hcin & Hcq).
  assert (Hsy : lv_sync db1 = lv_sync db) by by rewrite Hdb1. rewrite Hsy in Hnew.
  assert (Hra : ∀ run_id, run_attempts db1 run_id = run_attempts db run_id) by (intros; unfold run_attempts; by rewrite Hsy).
  constructor.
  - cbn [with_attempt with_sync with_attempts lv_sync sy_attempts]. rewrite Hsy. apply NoDup_grow; [done|].
    intros (a & Ha & Hin)%list_elem_of_fmap. rewrite Forall_forall in Hnew. by destruct (proj1 (Hnew a Hin)).
  - intros run_id. rewrite run_attempts_add, Hra.
    destruct (of_run run_id (new_attempt port new r)) eqn:E; [|by rewrite app_nil_r].
    apply bool_decide_eq_true in E. cbn in E. subst run_id. rewrite <- Hra.
    apply (check_attempt_bounded port new r db1); [by rewrite Hra|done|].
    apply Forall_forall. intros a Ha. rewrite Forall_forall in Hnew. apply Hnew.
    unfold run_attempts in Ha. apply list_elem_of_In, filter_In in Ha as [Ha _]. rewrite <- Hsy. by apply list_elem_of_In.
  - intros a. cbn [with_attempt with_sync with_attempts lv_sync sy_attempts]. rewrite Hsy, elem_of_app, list_elem_of_singleton.
    intros [Ha| ->].
    + destruct (Hf a Ha) as (c' & Hc' & ?). exists c'. split; [|done]. eapply elem_of_prefix; [exact Hc'|exact Hpre].
    + exists c. split; [done|]. by rewrite Hcq.
Qed.

Lemma settle_runs s db sy a : runs_ok db → settle_attempt s (lv_sync db) = Ok (a, sy) → runs_ok (with_sync db sy).
Proof.
  intros [Hi Hr Hf] (f & Hid & ->)%settle_attempt_Ok; [|done].
  assert (Hsub : ∀ run_id r, r ∈ run_attempts db run_id → r ∈ sy_attempts (lv_sync db)).
  { intros run_id r Hin. unfold run_attempts in Hin. apply list_elem_of_In, filter_In in Hin as [Hin _]. by apply list_elem_of_In. }
  assert (Hmap : ∀ run_id, run_attempts (with_sync db (with_attempts (lv_sync db) (map f (sy_attempts (lv_sync db))))) run_id =
    map f (run_attempts db run_id)).
  { intros run_id. unfold run_attempts. cbn. clear Hr Hf Hi Hsub. induction (sy_attempts (lv_sync db)) as [|r l IH]; cbn; [done|].
    rewrite IH by (intros; apply Hid; by right).
    assert (Hrun : of_run run_id (f r) = of_run run_id r).
    { destruct (Hid r) as [_ E]; [left|]. unfold of_run. injection E as -> _ _. done. }
    rewrite Hrun. by destruct (of_run run_id r). }
  constructor.
  - cbn. rewrite map_map. erewrite map_ext_in; [exact Hi|]. intros r Hin%list_elem_of_In. by apply Hid.
  - intros run_id. rewrite Hmap. destruct (Hr run_id) as (Hn & Hl & Hc).
    assert (Hk : ∀ {B} (g : ProviderRequestAttemptRecord → B), (∀ r, r ∈ run_attempts db run_id → g (f r) = g r) →
      map g (map f (run_attempts db run_id)) = map g (run_attempts db run_id)).
    { intros B g Hg. rewrite map_map. apply map_ext_in. intros r Hin%list_elem_of_In. by apply Hg. }
    unfold attempts_bounded, retry_count. rewrite length_map, !Hk; [done| |].
    all: intros r Hin; destruct (Hid r (Hsub _ _ Hin)) as [_ E]; unfold number_of; by injection E.
  - intros r. cbn. intros (r0 & -> & Hin)%list_elem_of_fmap. destruct (Hf r0 Hin) as (c & Hc & E).
    exists c. split; [done|]. rewrite E. symmetry. by apply Hid.
Qed.

Lemma settle_consumption_runs c db v db' : runs_ok db → settle_consumption c db = Ok (v, db') → runs_ok db'.
Proof.
  intros [Hi Hr Hf] [->|(g & row & _ & _ & _ & _ & _ & _ & _ & _ & ->)]%settle_consumption_Ok; [done|].
  constructor; [done|exact Hr|]. intros a Ha. destruct (Hf a Ha) as (c0 & Hc & E).
  exists (settle_row (co_id row) v c0). split; [by apply list_elem_of_fmap_2|]. by rewrite settle_row_request.
Qed.

Lemma run_op_runs o db db' : runs_ok db → run_op o db = Ok (tt, db') → runs_ok db'.
Proof.
  intros Hb E. destruct o as [port new r|port new r|a c]; cbn in E; tx_inv E.
  - apply start_Ok in F as (e & db1 & st & _ & _ & _ & _ & _ & _ & Hc & Hr).
    apply consume_authorization_Ok in Hc as (_ & _ & ->). eapply _reserve_attempt_runs; [|exact Hr].
    destruct Hb. by constructor.
  - apply reserve_Ok in F as (_ & _ & Hr). by eapply _reserve_attempt_runs.
  - apply settle_both_Ok in E as (x & sy & v & Hs & _ & _ & Hc).
    eapply settle_consumption_runs; [|exact Hc]. by eapply settle_runs.
Qed.

(** C34. Over every sequence of starts, reservations and settlements a sync run
    never has more than four attempts; they are numbered from one without gaps
    in the order they were reserved; at most one of them repeats a slice; and
    each of them has a consumption of its own, so none is outside the request
    budget of a grant. *)
Theorem run_attempts_bounded db ops : runs_ok db → ∀ run_id,
  let l := run_attempts (commits db ops) run_id in
  map number_of l = map Z.of_nat (seq 1 (length l)) ∧ (length l <= 4)%nat ∧
  (length l <= S (length (remove_dups (map slice_of l))))%nat ∧
  ∀ a, a ∈ l → funded (commits db ops) a.
Proof.
  intros Hb run_id l. assert (Hok : runs_ok (commits db ops)).
  { apply commits_inv; [|done]. intros d o d' Hd E. by eapply run_op_runs. }
  destruct Hok as [_ Hr Hf]. destruct (Hr run_id) as (Hn & Hl & Hc). split_and!; [done|done| |].
  - unfold retry_count in Hc. fold l in Hc. change (λ a, aw_slice_id (at_write a)) with slice_of in Hc. lia.
  - intros a Ha. apply Hf. unfold l, run_attempts in Ha. apply list_elem_of_In, filter_In in Ha as [Ha _].
    by apply list_elem_of_In.
Qed.

(** * One execution per authorization and per approval *)

Definition consumed (db : live_db) (a : UUID) : Prop :=
  ∃ e, e ∈ lv_events db ∧ ev_authorization_id e = a ∧ ev_event_type e = AuthEv.CONSUME.
Definition find_approval (db : live_db) (id : UUID) : option ApprovalRow :=
  find (λ a, bool_decide (ap_id a = id)) (lv_approvals db).
Definition approval_used (db : live_db) (id : UUID) : Prop :=
  ∃ a, find_approval db id = Some a ∧ ap_state a = ApprSt.CONSUMED.

Lemma replay_no_consume l : ∀ s, AuthorizationStateMachine.replay_from s l = Ok AuthSt.ACTIVE → AuthEv.CONSUME ∉ l.
Proof.
  induction l as [|e l IH]; cbn; intros s; [by intros _ ?%elem_of_nil|].
  intros (s' & Hs & H)%bind_Ok [<-|Hin]%elem_of_cons; [|by eapply IH].
  destruct s; try discriminate. assert (s' = AuthSt.CONSUMED) as -> by (by injection Hs).
  destruct l as [|e l]; [discriminate|]. cbn in H. apply bind_Ok in H as (? & H & _). discriminate.
Qed.
Lemma active_not_consumed db a :
  replay (map ev_event_type (grant_events db a)) = Ok AuthSt.ACTIVE → ¬ consumed db a.
Proof.
  intros H%replay_no_consume (e & He & Ha & Ht). apply H. rewrite <- Ht. apply list_elem_of_fmap_2.
  unfold grant_events. rewrite elem_of_sort_by. apply list_elem_of_In, filter_In.
  split; [by apply list_elem_of_In|]. by apply bool_decide_eq_true.
Qed.

Lemma find_consume_approval l p id :
  let used a := if bool_decide (ap_id a = p) && bool_decide (ap_state a = ApprSt.VALID)
    then mkApprovalRow (ap_id a) (ap_authorization_id a) (ap_plan_id a) (ap_plan_checksum a) (ap_signature a)
           ApprSt.CONSUMED (ap_expires_at a) else a in
  find (λ a, bool_decide (ap_id a = id)) (map used l) = used <$> find (λ a, bool_decide (ap_id a = id)) l.
Proof.
  intros used. induction l as [|a l IH]; cbn [map find]; [done|].
  assert (Hid : ap_id (used a) = ap_id a) by (unfold used; by destruct (_ && _)). rewrite Hid, IH.
  by destruct (bool_decide _).
Qed.

(** What a transaction leaves behind of the authorizations and approvals spent
    before it. *)
Definition spent_kept (db db' : live_db) : Prop :=
  (∀ a, consumed db a → consumed db' a) ∧ (∀ p, approval_used db p → approval_used db' p).
Lemma spent_kept_frame db db' : lv_events db' = lv_events db → lv_approvals db' = lv_approvals db → spent_kept db db'.
Proof. intros He Ha. unfold spent_kept, consumed, approval_used, find_approval. by rewrite He, Ha. Qed.
Lemma _reserve_attempt_spent port new r db u db' : _reserve_attempt port new r db = Ok (u, db') → spent_kept db db'.
Proof.
  intros E. apply _reserve_attempt_Ok in E as (v & db1 & run & plan & Hr & _ & _ & _ & _ & _ & _ & ->).
  apply reserve_consumption_frame in Hr as [-> _]. by apply spent_kept_frame.
Qed.

(** A start finds its authorization and approval unspent, and spends both. *)
Lemma start_spends port new r db v db' : start_execution port new r db = Ok (v, db') →
  ∃ e, po_execution port = Validated e ∧
    ¬ consumed db (ex_authorization_id e) ∧ ¬ approval_used db (ex_approval_id e) ∧
    consumed db' (ex_authorization_id e) ∧ approval_used db' (ex_approval_id e) ∧ spent_kept db db'.
Proof.
  intros (e & db1 & st & Hp & _ & _ & _ & Hl & _ & Hc & Hr)%start_Ok. exists e.
  apply consume_authorization_Ok in Hc as (Hact & _ & ->). apply _reserve_attempt_spent in Hr as [Hrc Hra].
  unfold _lock_and_validate_execution_start in Hl. rewrite Hp in Hl. cbn [execution_of] in Hl.
  apply seq_Ok in Hl as [Hl _].
  destruct (find _ (lv_approvals db)) as [a|] eqn:Ha; [|discriminate].
  rewrite !live_guard in Hl. destruct Hl as (Hnc & Hv & _).
  apply bool_decide_eq_false in Hnc. apply bool_decide_eq_false, dec_stable in Hv.
  assert (Hid : ap_id a = ex_approval_id e) by (apply find_elem in Ha as [_ H]; by apply bool_decide_eq_true in H).
  assert (Hfind : ∀ id, find_approval (consume_approval port db) id =
    (λ a, if bool_decide (ap_id a = ex_approval_id e) && bool_decide (ap_state a = ApprSt.VALID)
     then mkApprovalRow (ap_id a) (ap_authorization_id a) (ap_plan_id a) (ap_plan_checksum a) (ap_signature a)
            ApprSt.CONSUMED (ap_expires_at a) else a) <$> find_approval db id).
  { intros id. unfold consume_approval. rewrite Hp. apply find_consume_approval. }
  split_and!; [done| | | | |split].
  - by apply active_not_consumed in Hact.
  - intros (a' & Ha' & Hst). unfold find_approval in Ha'. congruence.
  - apply Hrc. eexists. split; [apply elem_of_app; right; left|done].
  - apply Hra. eexists. unfold find_approval at 1. cbn [with_events lv_approvals]. fold (find_approval (consume_approval port db) (ex_approval_id e)).
    rewrite Hfind. unfold find_approval. rewrite Ha. cbn. rewrite Hid, Hv, !bool_decide_eq_true_2 by done. done.
  - intros x (ev & Hev & ?). apply Hrc. exists ev. split; [|done]. apply elem_of_app. by left.
  - intros p (a' & Ha' & Hst). apply Hra. unfold approval_used, find_approval. cbn [with_events lv_approvals].
    fold (find_approval (consume_approval port db) p). rewrite Hfind, Ha'. cbn. rewrite Hst, andb_false_r. eauto.
Qed.

Lemma run_op_spent o db db' : run_op o db = Ok (tt, db') → spent_kept db db'.
Proof.
  intros E. destruct o as [port new r|port new r|a c]; cbn in E; tx_inv E.
  - by apply start_spends in F as (e & _ & _ & _ & _ & _ & H).
  - apply reserve_Ok in F as (_ & _ & Hr). by eapply _reserve_attempt_spent.
  - apply settle_both_Ok in E as (x & sy & v & _ & _ & _ & Hc).
    by apply settle_consumption_Ok in Hc as [->|(? & ? & _ & _ & _ & _ & _ & _ & _ & _ & ->)]; apply spent_kept_frame.
Qed.

(** Starts of an execution under an authorization, or with an approval. *)
Definition starts_with (p : gate_b_execution → bool) (o : live_op) : bool :=
  match o with LStart port _ _ => p (execution_of (po_execution port)) | _ => false end.
Definition count_starts (p : gate_b_execution → bool) (ops : list live_op) : nat :=
  length (List.filter (starts_with p) ops).
Definition under (a : UUID) (e : gate_b_execution) : bool := bool_decide (ex_authorization_id e = a).
Definition by_approval (a : UUID) (e : gate_b_execution) : bool := bool_decide (ex_approval_id e = a).

(** A resource that every start of a kind finds free, and leaves taken for good,
    is taken once. *)
Lemma taken_once (p : gate_b_execution → bool) (taken : live_db → Prop) :
  (∀ o db db', run_op o db = Ok (tt, db') → taken db → taken db') →
  (∀ o db db', run_op o db = Ok (tt, db') → starts_with p o = true → ¬ taken db ∧ taken db') →
  ∀ ops db, (count_starts p (committed db ops) <= 1)%nat ∧ (taken db → count_starts p (committed db ops) = 0%nat).
Proof.
  intros Hkeep Htake ops. unfold count_starts. induction ops as [|o ops IH]; intros db; cbn; [split; [lia|done]|].
  rewrite List.filter_app, length_app.
  unfold commit. destruct (run_op o db) as [[[] db']|e] eqn:E; cbn; [|apply IH].
  destruct (IH db') as [H1 H0]. specialize (Hkeep o db db' E). specialize (Htake o db db' E).
  destruct (starts_with p o) eqn:Ho; cbn [length]; [|split; [lia|intros H; apply H0, Hkeep, H]].
  destruct (Htake eq_refl) as [Hfree Ht]. split; [rewrite (H0 Ht); lia|done].
Qed.

(** C35. An authorization is used once and an approval is used once: over every
    sequence of transactions, by whatever ports, at most one start of an
    execution under a given authorization commits and at most one with a given
    approval, and none when the authorization was consumed, or the approval
    used, beforehand. *)
Theorem single_use db ops :
  (∀ a, (count_starts (under a) (committed db ops) <= 1)%nat ∧
        (consumed db a → count_starts (under a) (committed db ops) = 0%nat)) ∧
  (∀ p, (count_starts (by_approval p) (committed db ops) <= 1)%nat ∧
        (approval_used db p → count_starts (by_approval p) (committed db ops) = 0%nat)).
Proof.
  split; intros x.
  - apply (taken_once (under x) (λ d, consumed d x)).
    + intros o d d' E. apply run_op_spent in E as [H _]. apply H.
    + intros [port new r| |] d d' E Hs; try discriminate. cbn in E. tx_inv E.
      apply start_spends in F as (e & Hp & ? & _ & ? & _). cbn in Hs. rewrite Hp in Hs.
      apply bool_decide_eq_true in Hs. cbn in Hs. by subst x.
  - apply (taken_once (by_approval x) (λ d, approval_used d x)).
    + intros o d d' E. apply run_op_spent in E as [_ H]. apply H.
    + intros [port new r| |] d d' E Hs; try discriminate. cbn in E. tx_inv E.
      apply start_spends in F as (e & Hp & _ & ? & _ & ? & _). cbn in Hs. rewrite Hp in Hs.
      apply bool_decide_eq_true in Hs. cbn in Hs. by subst x.
Qed.

(** * A run of the pilot on concrete tables *)

Module LiveSample.
Definition u (s : string) : UUID := mkUUID s.
Definition sum (c : string) : string := String.concat "" (repeat c 64).
Definition slice (id endpoint : string) : pyval :=
  VMap [("slice_id", VStr id); ("request_parameters", VMap [("endpoint_id", VStr endpoint)])].
Definition plan : ProviderSyncPlanRecord :=
  mkPlanRecord (u "plan") (mkPlanWrite (u "request") "1.0.0" None
    [slice "SEC_SUBMISSIONS" "SEC_SUBMISSIONS_JSON"; slice "SEC_FILING_INDEX" "SEC_FILING_DOCUMENT";
     slice "SEC_PRIMARY_DOCUMENT" "SEC_FILING_DOCUMENT"] (sum "b")) 3 0.
Definition run : ProviderSyncRunRecord :=
  mkSyncRun (u "run") (mkRunWrite (u "request") (u "plan") (u "definition") (u "capability"))
    PRunSt.RUNNING 0 0 0 (Some 0) None None None None [] 0.
Definition grant : GrantRow :=
  mkGrantRow (u "grant") 4 1000 (sum "a")
    (VMap [("security_id", VStr "security"); ("issuer_id", VStr "issuer");
           ("provider_security_identifier", VStr "0000320193")]) 1000.
Definition approval : ApprovalRow := mkApprovalRow (u "approval") (u "grant") (u "plan") (sum "b") (sum "c") ApprSt.VALID 500.
Definition history : list EventRow :=
  [mkEventRow (u "e1") (u "grant") 1 AuthEv.APPROVE; mkEventRow (u "e2") (u "grant") 2 AuthEv.ACTIVATE].
Definition db : live_db :=
  mkLiveDb [grant] history [] [approval]
    (mkSyncDb (mkRefs [] [] [] [] [] []) [] [plan] [run] [] []).

Definition execution : gate_b_execution :=
  mkExecution (u "grant") (sum "a") (u "approval") (u "plan") (sum "b") "SEC_EDGAR_PUBLIC_V1" (u "security")
    (u "issuer") "0000320193" (u "credential") (u "contact").
Definition port (x : gate_b_execution → port_execution) : reservation_port := mkPort (x execution) (u "run") 600.
Definition new (n : string) (t : time) : fresh :=
  mkFresh (u ("attempt" +:+ n)) (u ("consumption" +:+ n)) (u ("event" +:+ n)) t t t t t.
Definition ask (slice endpoint : string) (number : Z) (kind : SecAttemptKind) : SecAttemptReservationRequest :=
  mkAttemptRequest (u "grant") (u "plan") (sum "b") slice endpoint number kind.
Definition settle (n : string) (status : ProviderSyncSliceStatus) (bytes : Z) (t : time) : live_op :=
  LSettle (mkAttemptSettlement (u ("attempt" +:+ n)) status (Some 200) bytes t None)
    (mkSettle (u "grant") (u ("attempt" +:+ n)) bytes true ConsSt.SETTLED t).

(** One start, three resources with one retry; a second start, a second retry
    and a settlement beyond the byte limit are refused. *)
Definition ops : list live_op :=
  [LStart (port Validated) (new "1" 10) (ask "SEC_SUBMISSIONS" "SEC_SUBMISSIONS_JSON" 1 AttKind.INITIAL);
   settle "1" SliceSt.COMPLETED 500 11;
   LStart (port Validated) (new "9" 12) (ask "SEC_SUBMISSIONS" "SEC_SUBMISSIONS_JSON" 1 AttKind.INITIAL);
   LReserve (port Authorized) (new "2" 12) (ask "SEC_FILING_INDEX" "SEC_FILING_DOCUMENT" 2 AttKind.INITIAL);
   settle "2" SliceSt.BLOCKED 0 13;
   LReserve (port Authorized) (new "3" 14) (ask "SEC_FILING_INDEX" "SEC_FILING_DOCUMENT" 3 AttKind.RETRY);
   settle "3" SliceSt.COMPLETED 501 15;
   settle "3" SliceSt.COMPLETED 400 15;
   LReserve (port Authorized) (new "8" 16) (ask "SEC_FILING_INDEX" "SEC_FILING_DOCUMENT" 4 AttKind.RETRY);
   LReserve (port Authorized) (new "4" 16) (ask "SEC_PRIMARY_DOCUMENT" "SEC_FILING_DOCUMENT" 4 AttKind.INITIAL);
   LReserve (port Authorized) (new "5" 17) (ask "SEC_PRIMARY_DOCUMENT" "SEC_FILING_DOCUMENT" 4 AttKind.RETRY)].

Example ops_committed : map (λ o, match o with LStart _ n _ | LReserve _ n _ => uuid_str (fr_attempt_id n)
                                  | LSettle a _ => uuid_str (as_id a) end) (committed db ops) =
  ["attempt1"; "attempt1"; "attempt2"; "attempt2"; "attempt3"; "attempt3"; "attempt4"].
Proof. vm_compute. reflexivity. Qed.

Lemma budget_ok_start : budget_ok db.
Proof.
  constructor; cbn; try by apply NoDup_nil_2. 1: apply NoDup_singleton.
  all: intros g ->%list_elem_of_singleton; vm_compute; discriminate.
Qed.
Lemma runs_ok_start : runs_ok db.
Proof.
  constructor; cbn; [by apply NoDup_nil_2| |by intros a ?%elem_of_nil].
  intros run_id. split_and!; [done|cbn; lia|vm_compute; discriminate|vm_compute; discriminate].
Qed.
End LiveSample.

Lemma grant_budget_kept_witness :
  settled_bytes (grant_consumptions (commits LiveSample.db LiveSample.ops) (LiveSample.u "grant")) = 900 ∧
  settled_bytes (grant_consumptions (commits LiveSample.db LiveSample.ops) (LiveSample.u "grant")) <= 1000.
Proof.
  split; [vm_compute; reflexivity|].
  destruct (grant_budget_kept LiveSample.db LiveSample.ops LiveSample.budget_ok_start) as [_ H].
  exact (proj2 (H LiveSample.grant (list_elem_of_here _ _))).
Defined.
Lemma run_attempts_bounded_witness :
  length (run_attempts (commits LiveSample.db LiveSample.ops) (LiveSample.u "run")) = 4%nat ∧
  (length (run_attempts (commits LiveSample.db LiveSample.ops) (LiveSample.u "run")) <= 4)%nat.
Proof.
  split; [vm_compute; reflexivity|].
  exact (proj1 (proj2 (run_attempts_bounded LiveSample.db LiveSample.ops LiveSample.runs_ok_start (LiveSample.u "run")))).
Defined.
