(* ===== verification/SecPolicy.v ===== *)
(** The exact resources of the SEC pilot: the approved endpoints and how a
    request is built for one (providers/sec_edgar/endpoints.py, schemas.py,
    providers/http_policy.py), and the binding of a plan to them
    (providers/sec_edgar/policy.py). *)
From S2P Require Import Prelude Session PyDecimal PyText Sha256 AgentModel Text ReportModel Language.
From S2P Require Import ProviderSync SyncStore LiveModel GateB.
From Stdlib Require Import Ascii.

Module SecArt.
Inductive SecArtifactKind :=
  | SUBMISSIONS_METADATA | COMPANY_FACTS | FILING_INDEX | PRIMARY_FILING_DOCUMENT
   | COMPLETE_SUBMISSION_TEXT | XBRL_INSTANCE | EXHIBIT.
#[global] Instance SecArtifactKind_eq_dec : EqDecision SecArtifactKind.
Proof. solve_decision. Defined.
Definition all : list SecArtifactKind :=
  [SUBMISSIONS_METADATA; COMPANY_FACTS; FILING_INDEX; PRIMARY_FILING_DOCUMENT
  ; COMPLETE_SUBMISSION_TEXT; XBRL_INSTANCE; EXHIBIT].
Definition value (x : SecArtifactKind) : string :=
  match x with
  | SUBMISSIONS_METADATA => "SUBMISSIONS_METADATA"
  | COMPANY_FACTS => "COMPANY_FACTS"
  | FILING_INDEX => "FILING_INDEX"
  | PRIMARY_FILING_DOCUMENT => "PRIMARY_FILING_DOCUMENT"
  | COMPLETE_SUBMISSION_TEXT => "COMPLETE_SUBMISSION_TEXT"
  | XBRL_INSTANCE => "XBRL_INSTANCE"
  | EXHIBIT => "EXHIBIT"
  end.
End SecArt.
Abbreviation SecArtifactKind := SecArt.SecArtifactKind.

(** * Text *)

Definition sec_error {A} (code : string) : res A := raise ValueError code.
Definition sec_reject (b : bool) (code : string) : res unit := reject_if b ValueError code.

(** [s.replace(old, new)] *)
Fixpoint replace_go (old new : string) (skip : nat) (s : string) : string :=
  match s with
  | EmptyString => EmptyString
  | String c rest =>
      match skip with
      | S k => replace_go old new k rest
      | O => if String.prefix old s then new +:+ replace_go old new (pred (String.length old)) rest
             else String c (replace_go old new 0 rest)
      end
  end.
Definition replace (old new s : string) : string := replace_go old new 0 s.
(** [sub in s] *)
Fixpoint has_sub (sub s : string) : bool :=
  String.prefix sub s || match s with EmptyString => false | String _ rest => has_sub sub rest end.

(** [quote(value, safe="")]: the bytes of the UTF-8 text. *)
Definition hex_upper (n : N) : ascii := ascii_of_N (if (n <? 10)%N then 48 + n else 55 + n).
Fixpoint quote (s : string) : string :=
  match s with
  | EmptyString => EmptyString
  | String c rest =>
      (if is_word_char c || char_in ["_"; "."; "-"; "~"]%char c then String c EmptyString
       else let n := N_of_ascii c in String "%" (String (hex_upper (n / 16)) (String (hex_upper (n mod 16)) EmptyString)))
      +:+ quote rest
  end.
Example quote_ex : quote "a-b_c.~ /%" = "a-b_c.~%20%2F%25". Proof. reflexivity. Qed.

(** * Endpoints (http_policy.py, endpoints.py) *)

Record ProviderEndpointPolicy := mkEndpoint {
  ep_endpoint_id : string; ep_host : string; ep_path_template : string; ep_parameter_names : list string;
  ep_accepted_content_types : list string }.
(** Every approved endpoint is a GET over https on port 443 without query and
    redirects. *)
Record CanonicalProviderRequest := mkCanonical {
  cp_endpoint_id : string; cp_host : string; cp_path : string; cp_accepted_content_types : list string;
  cp_url : string }.

(** [_PLACEHOLDER.findall(path)]: names in braces. *)
Definition name_tail (c : ascii) : bool := is_lower c || is_digit c || char_in ["_"%char] c.
Fixpoint placeholder_end (s : string) : option string :=
  match s with
  | String "}" _ => Some EmptyString
  | String c rest => if name_tail c then String c <$> placeholder_end rest else None
  | EmptyString => None
  end.
Fixpoint placeholders (s : string) : list string :=
  match s with
  | EmptyString => []
  | String "{" rest =>
      match placeholder_end rest with
      | Some name => (if match name with String c _ => is_lower c && (str_len name <=? 64) | _ => false end
                      then [name] else []) ++ placeholders rest
      | None => placeholders rest
      end
  | String _ rest => placeholders rest
  end.

(** [_canonical_host] of an ASCII name: the IDNA codec leaves it as it is. *)
Definition lower_char (c : ascii) : ascii := if is_upper c then ascii_of_N (N_of_ascii c + 32) else c.
Fixpoint lower (s : string) : string :=
  match s with EmptyString => EmptyString | String c s => String (lower_char c) (lower s) end.
Definition _canonical_host (value : string) : res string :=
  sec_reject (negb (domain_ok (lower value))) "ENDPOINT_HOST_INVALID";; Ok (lower value).
(** [_unsafe_path_parameter]; an encoded separator contains a percent sign. *)
Definition _unsafe_path_parameter (value : string) : bool :=
  bool_decide (value ∈ ["."; ".."]) || has_sub "/" value || has_sub "\" value || has_sub "%" value.

(** The values of a template are normalized and bounded
    ([ProviderHttpRequestTemplate.validate_normalized_values]); their keys come
    from the program. *)
Definition template_value_ok (item : string) : bool :=
  len_between 1 512 item && bool_decide (ustrip (utext item) = utext item)
  && forallb (λ c, (32 <=? c) && negb (c =? 127)) (utext item).

Definition fill (path : string) (kv : string * string) : string :=
  replace ("{" +:+ kv.1 +:+ "}") (quote kv.2) path.
(** [expand_endpoint] without query *)
Definition expand_endpoint (policy : ProviderEndpointPolicy) (parameters : list (string * string)) :
    res CanonicalProviderRequest :=
  reject_if (negb (forallb (λ kv, template_value_ok kv.2) parameters)) ValidationError
    "request parameters must be normalized and bounded";;
  let names := ep_parameter_names policy in
  sec_reject (negb (bool_decide (sort_str parameters.*1 = sort_str names))) "ENDPOINT_PARAMETERS_MISMATCH";;
  host ← _canonical_host (ep_host policy);
  sec_reject (negb (bool_decide (sorted_set (placeholders (ep_path_template policy)) = sort_str names)))
    "ENDPOINT_POLICY_PLACEHOLDERS_MISMATCH";;
  let ordered := omap (λ n, (λ v, (n, v)) <$> dict_get parameters n) names in
  sec_reject (existsb (λ kv, _unsafe_path_parameter kv.2) ordered) "ENDPOINT_PARAMETER_UNSAFE";;
  let path := foldl fill (ep_path_template policy) ordered in
  sec_reject (negb (String.prefix "/" path) || has_sub "\" path || has_sub "/../" (path +:+ "/")
              || has_sub "/./" (path +:+ "/")) "ENDPOINT_PATH_UNSAFE";;
  Ok (mkCanonical (ep_endpoint_id policy) host path (ep_accepted_content_types policy)
        ("https://" +:+ host +:+ path)).

Definition SEC_ENDPOINT_POLICIES : list (string * ProviderEndpointPolicy) :=
  [("SEC_COMPANY_FACTS_JSON",
    mkEndpoint "SEC_COMPANY_FACTS_JSON" "data.sec.gov" "/api/xbrl/companyfacts/CIK{cik}.json" ["cik"]
      ["application/json"]);
   ("SEC_FILING_DOCUMENT",
    mkEndpoint "SEC_FILING_DOCUMENT" "www.sec.gov" "/Archives/edgar/data/{cik}/{accession}/{document_path}"
      ["accession"; "cik"; "document_path"]
      ["application/json"; "application/pdf"; "application/xhtml+xml"; "application/xml"; "text/html";
       "text/plain"; "text/xml"]);
   ("SEC_SUBMISSIONS_JSON",
    mkEndpoint "SEC_SUBMISSIONS_JSON" "data.sec.gov" "/submissions/CIK{cik}.json" ["cik"]
      ["application/json"])].

(** [normalize_cik]: one to ten digits, padded with zeros.  A CIK must equal the
    identifier of a grant, which is ASCII, so other digits are refused here. *)
Definition normalize_cik (value : string) : res string :=
  sec_reject (negb (str_forallb is_digit value && len_between 1 10 value)) "SEC_CIK_INVALID";;
  Ok (pad_left 10 value).
(** [str(int(cik))] *)
Fixpoint strip_zeros (s : string) : string :=
  match s with String "0" (String _ _ as rest) => strip_zeros rest | _ => s end.

Section Endpoints.
Context `{CharData}.

(** [accession_without_dashes(normalize_accession(value))] *)
Definition dashed_accession (t : ustr) : bool :=
  match t with
  | a0 :: a1 :: a2 :: a3 :: a4 :: a5 :: a6 :: a7 :: a8 :: a9 :: d1 :: b0 :: b1 :: d2 :: rest =>
      forallb decimal_char [a0; a1; a2; a3; a4; a5; a6; a7; a8; a9; b0; b1] && (d1 =? 45) && (d2 =? 45)
      && (length rest =? 6)%nat && forallb decimal_char rest
  | _ => false
  end.
Definition compact_accession (t : ustr) : bool := (length t =? 18)%nat && forallb decimal_char t.
Definition accession_path (value : string) : res string :=
  if dashed_accession (utext value) then Ok (replace "-" "" value)
  else if compact_accession (utext value) then Ok value
  else sec_error "SEC_ACCESSION_INVALID".

(** [_DOCUMENT_PATH] ignores case, which lets four foreign letters into the
    ASCII classes; the extension follows the last dot. *)
Definition ci_word (c : Z) : bool := is_alnum c || bool_decide (c ∈ [304; 305; 383; 8490]).
Definition ci_path_char (c : Z) : bool := ci_word c || bool_decide (c ∈ [46; 95; 45]).
Definition ci_equal (pattern : string) (t : ustr) : bool :=
  (length (ulit pattern) =? length t)%nat && forallb (λ pc, same_char pc.1 pc.2) (zip (ulit pattern) t).
Definition extensions : list string := ["htm"; "html"; "txt"; "xml"; "xsd"; "json"; "pdf"].
Definition document_pattern (t : ustr) : bool :=
  let '(ext, stem) := span (λ c, negb (c =? 46)) (rev t) in
  existsb (λ e, ci_equal e (rev ext)) extensions
  && match stem with
     | _ :: stem =>
         match rev stem with
         | c :: rest => ci_word c && forallb ci_path_char rest && (length rest <=? 247)%nat
         | [] => false
         end
     | [] => false
     end.
Definition _validate_document_path (value : string) : res unit :=
  sec_reject (negb (document_pattern (utext value)) || bool_decide (value ∈ ["."; ".."])
    || has_sub ".." value || has_sub "/" value || has_sub "\" value || has_sub "%" value)
    "SEC_DOCUMENT_PATH_INVALID".

(** [build_sec_request] *)
Definition build_sec_request (endpoint_id cik : string) (accession_number document_path : option string) :
    res CanonicalProviderRequest :=
  match dict_get SEC_ENDPOINT_POLICIES endpoint_id with
  | None => sec_error "SEC_ENDPOINT_NOT_ALLOWED"
  | Some policy =>
      normalized_cik ← normalize_cik cik;
      parameters ← (if bool_decide (endpoint_id ∈ ["SEC_SUBMISSIONS_JSON"; "SEC_COMPANY_FACTS_JSON"]) then
          sec_reject (is_some accession_number || is_some document_path) "SEC_ENDPOINT_ARGUMENTS_INVALID";;
          Ok [("cik", normalized_cik)]
        else
          match accession_number, document_path with
          | Some accession_number, Some document_path =>
              accession ← accession_path accession_number;
              _validate_document_path document_path;;
              Ok [("cik", strip_zeros normalized_cik); ("accession", accession); ("document_path", document_path)]
          | _, _ => sec_error "SEC_ENDPOINT_ARGUMENTS_INVALID"
          end);
      expand_endpoint policy parameters
  end.
End Endpoints.

Example submissions_request : let data := ascii_chars in
  cp_url <$> build_sec_request "SEC_SUBMISSIONS_JSON" "320193" None None =
  Ok "https://data.sec.gov/submissions/CIK0000320193.json".
Proof. vm_compute. reflexivity. Qed.
Example document_request : let data := ascii_chars in
  cp_url <$> build_sec_request "SEC_FILING_DOCUMENT" "0000320193" (Some "0000320193-25-000079") (Some "aapl-10q.HTM") =
  Ok "https://www.sec.gov/Archives/edgar/data/320193/000032019325000079/aapl-10q.HTM".
Proof. vm_compute. reflexivity. Qed.

(** * The authorized plan (policy.py) *)

Record SecAuthorizedResource := mkResource {
  rs_plan_id : UUID; rs_plan_checksum : string; rs_slice_id : string; rs_ordinal : Z;
  rs_request : CanonicalProviderRequest; rs_artifact_kind : SecArtifactKind; rs_max_response_bytes : Z }.
Record SecAuthorizedPlan := mkAuthorizedPlan {
  sp_plan_id : UUID; sp_plan_checksum : string; sp_resources : list SecAuthorizedResource }.
(** [require_resource] *)
Definition require_resource (plan : SecAuthorizedPlan) (slice_id : string) : res SecAuthorizedResource :=
  match find (λ r, String.eqb (rs_slice_id r) slice_id) (sp_resources plan) with
  | Some r => Ok r
  | None => sec_error "SEC_PLAN_RESOURCE_NOT_FOUND"
  end.

Record resource_contract := mkContract {
  rc_slice_id : string; rc_endpoint_id : string; rc_kind : SecArtifactKind; rc_depends_on : list string;
  rc_max_bytes : Z }.
Definition _GATE_B_RESOURCE_CONTRACT : list resource_contract :=
  [mkContract "SEC_SUBMISSIONS" "SEC_SUBMISSIONS_JSON" SecArt.SUBMISSIONS_METADATA [] (2 * 1024 * 1024);
   mkContract "SEC_FILING_INDEX" "SEC_FILING_DOCUMENT" SecArt.FILING_INDEX ["SEC_SUBMISSIONS"] (1024 * 1024);
   mkContract "SEC_PRIMARY_DOCUMENT" "SEC_FILING_DOCUMENT" SecArt.PRIMARY_FILING_DOCUMENT ["SEC_FILING_INDEX"]
     (20 * 1024 * 1024)].

(** [ProviderSyncSlice.model_validate] of a dictionary: the contract is strict,
    so a date must be a date and not its text (and [depends_on] a tuple: a
    [VList] here, so a JSON array, refused by the code too, is not told apart). *)
Definition slice_keys : list string :=
  ["slice_id"; "ordinal"; "range_start"; "range_end"; "depends_on"; "request_parameters"].
Definition text_list (v : option pyval) : option (list string) :=
  match v with
  | None => Some []
  | Some (VList l) => mapM as_str l
  | Some _ => None
  end.
Section Bind.
Context `{UnicodeData} `{CharData}.

Definition slice_of_value (v : pyval) : res ProviderSyncSlice :=
  match v with
  | VMap d =>
      match dict_get d "slice_id", dict_get d "ordinal", dict_get d "range_start", dict_get d "range_end",
            text_list (dict_get d "depends_on"), dict_get d "request_parameters" with
      | Some (VStr slice_id), Some (VInt ordinal), Some (VDate range_start), Some (VDate range_end),
        Some depends_on, Some (VMap parameters) =>
          reject_if (negb (forallb (λ kv, bool_decide (kv.1 ∈ slice_keys)) d)) ValidationError "ProviderSyncSlice";;
          new_ProviderSyncSlice (mkSlice slice_id ordinal range_start range_end depends_on parameters)
      | _, _, _, _, _, _ => raise ValidationError "ProviderSyncSlice"
      end
  | _ => raise ValidationError "ProviderSyncSlice"
  end.

(** [_required_string] *)
Definition _required_string (values : list (string * pyval)) (key : string) : res string :=
  match dict_get values key with
  | Some (VStr value) => sec_reject (String.eqb value "") "SEC_PLAN_RESOURCE_INVALID";; Ok value
  | _ => sec_error "SEC_PLAN_RESOURCE_INVALID"
  end.
Definition allowed_keys (endpoint_id : string) : list string :=
  if String.eqb endpoint_id "SEC_SUBMISSIONS_JSON" then
    ["endpoint_id"; "cik"; "form_filters"; "artifact_kind"; "max_response_bytes"]
  else if String.eqb endpoint_id "SEC_FILING_DOCUMENT" then
    ["endpoint_id"; "cik"; "accession_number"; "document_path"; "form"; "artifact_kind"; "max_response_bytes"]
  else [].

(** [_bind_resource] *)
Definition _bind_resource (e : gate_b_execution) (plan : ProviderSyncPlanRecord) (item : ProviderSyncSlice)
    (expected_ordinal : Z) (expected : resource_contract) : res SecAuthorizedResource :=
  let invalid b := sec_reject b "SEC_PLAN_RESOURCE_INVALID" in
  let parameters := sl_request_parameters item in
  endpoint_id ← _required_string parameters "endpoint_id";
  invalid (negb (String.eqb (sl_slice_id item) (rc_slice_id expected)) || negb (sl_ordinal item =? expected_ordinal)
           || bool_decide (sl_depends_on item ≠ rc_depends_on expected)
           || negb (String.eqb endpoint_id (rc_endpoint_id expected)));;
  text ← _required_string parameters "cik";
  cik ← normalize_cik text;
  invalid (negb (String.eqb cik (ex_provider_security_identifier e)));;
  invalid (negb (forallb (λ kv, bool_decide (kv.1 ∈ allowed_keys endpoint_id)) parameters));;
  max_response_bytes ← match dict_get parameters "max_response_bytes" with
                       | Some (VInt n) => invalid (negb (n =? rc_max_bytes expected));; Ok n
                       | _ => sec_error "SEC_PLAN_RESOURCE_INVALID"
                       end;
  invalid (negb (match dict_get parameters "artifact_kind" with
                 | None => true
                 | Some (VStr kind) => String.eqb kind (SecArt.value (rc_kind expected))
                 | Some _ => false
                 end));;
  request ← (if String.eqb endpoint_id "SEC_FILING_DOCUMENT" then
      accession_number ← _required_string parameters "accession_number";
      document_path ← _required_string parameters "document_path";
      build_sec_request endpoint_id cik (Some accession_number) (Some document_path)
    else build_sec_request endpoint_id cik None None);
  Ok (mkResource (pr_id plan) (pw_plan_checksum (pr_write plan)) (sl_slice_id item) (sl_ordinal item) request
        (rc_kind expected) max_response_bytes).

Fixpoint bind_all (e : gate_b_execution) (plan : ProviderSyncPlanRecord) (ordinal : Z)
    (slices : list ProviderSyncSlice) (contract : list resource_contract) : res (list SecAuthorizedResource) :=
  match slices, contract with
  | [], [] => Ok []
  | item :: slices, expected :: contract =>
      r ← _bind_resource e plan item ordinal expected;
      rs ← bind_all e plan (ordinal + 1) slices contract;
      Ok (r :: rs)
  | _, _ => sec_error "zip() arguments have different lengths"
  end.
(** [bind_sec_authorized_plan]; whatever fails in a slice is one error. *)
Definition bind_sec_authorized_plan (e : gate_b_execution) (plan : ProviderSyncPlanRecord) : res SecAuthorizedPlan :=
  let w := pr_write plan in
  sec_reject (bool_decide (pr_id plan ≠ ex_plan_id e) || negb (String.eqb (pw_plan_checksum w) (ex_plan_checksum e)))
    "SEC_AUTHORIZED_PLAN_MISMATCH";;
  sec_reject (negb (pr_slice_count plan =? 3) || negb (length (pw_slices w) =? 3)%nat) "SEC_PLAN_RESOURCE_INVALID";;
  match slices ← res_map slice_of_value (pw_slices w); bind_all e plan 0 slices _GATE_B_RESOURCE_CONTRACT with
  | Ok resources => Ok (mkAuthorizedPlan (pr_id plan) (pw_plan_checksum w) resources)
  | Raise _ => sec_error "SEC_PLAN_RESOURCE_INVALID"
  end.

(** C37. A plan read back from its table cannot be bound: the dates of its slices
    are text there ([to_write] stores the JSON form), and the strict contract of
    a slice refuses text for a date.  Whatever the draft, the identifiers and
    the execution, binding the stored plan raises. *)
Theorem stored_plan_not_bound d w id n now e : to_write d = Ok w →
  bind_sec_authorized_plan e (mkPlanRecord id w n now) = sec_error "SEC_AUTHORIZED_PLAN_MISMATCH" ∨
  bind_sec_authorized_plan e (mkPlanRecord id w n now) = sec_error "SEC_PLAN_RESOURCE_INVALID".
Proof.
  unfold to_write. intros (checksum & _ & [= <-])%bind_Ok. unfold bind_sec_authorized_plan, sec_reject.
  cbn [pr_id pr_write pr_slice_count pw_plan_checksum pw_slices].
  destruct (bool_decide (id ≠ _) || _); [left; reflexivity|]. right.
  destruct (negb (n =? 3) || _) eqn:E2; [reflexivity|].
  apply orb_false_iff in E2 as [_ E2]. destruct (pd_slices d) as [|s l]; [discriminate|]. reflexivity.
Qed.
End Bind.

(** * Where a bound plan may go *)

Definition no_brace : string → bool := str_forallb (λ c, negb (Ascii.eqb c "{")).

Lemma replace_skip old new x s : no_brace x = true →
  replace (String "{" old) new (x +:+ s) = x +:+ replace (String "{" old) new s.
Proof.
  unfold replace. induction x as [|c x IH]; [done|]. cbn [no_brace str_forallb].
  intros [Hc Hx]%andb_true_iff. change (String c x +:+ s) with (String c (x +:+ s)).
  cbn [replace_go String.prefix]. destruct (ascii_dec "{" c) as [<-|_]; [by rewrite Ascii.eqb_refl in Hc|].
  by rewrite (IH Hx).
Qed.
Lemma no_brace_app a b : no_brace (a +:+ b) = no_brace a && no_brace b.
Proof. unfold no_brace. induction a as [|c a IH]; [done|]. change (String c a +:+ b) with (String c (a +:+ b)).
  cbn [str_forallb]. by rewrite IH, andb_assoc. Qed.
Lemma quote_no_brace s : no_brace (quote s) = true.
Proof.
  induction s as [|c s IH]; [done|]. cbn [quote]. rewrite no_brace_app, IH, andb_true_r. clear.
  destruct c as [[] [] [] [] [] [] [] []]; reflexivity.
Qed.
Lemma quote_plain s : str_forallb is_digit s = true → quote s = s.
Proof.
  induction s as [|c s IH]; [done|]. cbn [str_forallb quote]. intros [Hc Hs]%andb_true_iff.
  unfold is_word_char. by rewrite Hc, orb_true_r, (IH Hs).
Qed.
Lemma app_str_assoc (a b c : string) : (a +:+ b) +:+ c = a +:+ b +:+ c.
Proof. induction a as [|x a IH]; [done|]. change (String x ((a +:+ b) +:+ c) = String x (a +:+ b +:+ c)). by rewrite IH. Qed.

Lemma fill_submissions cik :
  foldl fill "/submissions/CIK{cik}.json" [("cik", cik)] = "/submissions/CIK" +:+ quote cik +:+ ".json".
Proof. reflexivity. Qed.
Lemma prefix_app x y : String.prefix x (x +:+ y) = true.
Proof.
  induction x as [|c x IH]; [by destruct y|]. change (String c x +:+ y) with (String c (x +:+ y)).
  cbn [String.prefix]. by destruct (ascii_dec c c).
Qed.
Lemma app_str_nil s : s +:+ EmptyString = s.
Proof. induction s as [|c s IH]; [done|]. change (String c s +:+ EmptyString) with (String c (s +:+ EmptyString)). by rewrite IH. Qed.
Lemma replace_skipped old new x s : replace_go old new (String.length x) (x +:+ s) = replace old new s.
Proof. induction x as [|c x IH]; [done|exact IH]. Qed.
Lemma replace_here c old new s : replace (String c old) new (String c old +:+ s) = new +:+ replace (String c old) new s.
Proof.
  unfold replace at 1. change (String c old +:+ s) with (String c (old +:+ s)) at 1. cbn [replace_go].
  change (String c (old +:+ s)) with (String c old +:+ s). rewrite prefix_app. cbn [String.length pred].
  by rewrite replace_skipped.
Qed.
(** Filling a placeholder that a text without braces precedes. *)
Lemma fill_step key value before after : no_brace before = true →
  fill (before +:+ ("{" +:+ key +:+ "}") +:+ after) (key, value) =
  before +:+ quote value +:+ replace (String "{" (key +:+ "}")) (quote value) after.
Proof.
  intros Hb. unfold fill. cbn [fst snd]. change ("{" +:+ key +:+ "}") with (String "{" (key +:+ "}")).
  by rewrite (replace_skip _ _ _ _ Hb), replace_here.
Qed.
Lemma replace_none old new s : no_brace s = true → replace (String "{" old) new s = s.
Proof.
  intros Hs. rewrite <- (app_str_nil s) at 1. rewrite (replace_skip _ _ _ _ Hs). apply app_str_nil.
Qed.
Lemma fill_document a c d :
  foldl fill "/Archives/edgar/data/{cik}/{accession}/{document_path}" [("accession", a); ("cik", c); ("document_path", d)] =
  "/Archives/edgar/data/" +:+ quote c +:+ "/" +:+ quote a +:+ "/" +:+ quote d.
Proof.
  cbn [foldl].
  change (fill "/Archives/edgar/data/{cik}/{accession}/{document_path}" ("accession", a)) with
    ("/Archives/edgar/data/" +:+ ("{" +:+ "cik" +:+ "}") +:+ "/" +:+ quote a +:+ "/{document_path}").
  rewrite fill_step, (replace_skip _ _ "/"), (replace_skip _ _ (quote a)) by first [reflexivity | apply quote_no_brace].
  change (replace _ (quote c) "/{document_path}") with ("/" +:+ ("{" +:+ "document_path" +:+ "}") +:+ "").
  assert (∀ t, "/Archives/edgar/data/" +:+ quote c +:+ "/" +:+ quote a +:+ "/" +:+ t =
               ("/Archives/edgar/data/" +:+ quote c +:+ "/" +:+ quote a +:+ "/") +:+ t) as E
    by (intros t; by rewrite !app_str_assoc).
  rewrite !E, fill_step by (rewrite !no_brace_app, !quote_no_brace; reflexivity).
  change (replace _ _ "") with "". by rewrite app_str_nil.
Qed.

(** ** The URL of a request *)

Lemma str_forallb_app p a b : str_forallb p (a +:+ b) = str_forallb p a && str_forallb p b.
Proof.
  induction a as [|c a IH]; [done|]. change (String c a +:+ b) with (String c (a +:+ b)).
  cbn [str_forallb]. by rewrite IH, andb_assoc.
Qed.
Lemma zeros_digits n : str_forallb is_digit (zeros n) = true.
Proof. unfold zeros. induction (Z.to_nat n) as [|k IH]; [done|exact IH]. Qed.
Lemma normalize_cik_digits value cik : normalize_cik value = Ok cik → str_forallb is_digit cik = true.
Proof.
  unfold normalize_cik, sec_reject. rewrite guard_seq, negb_false_iff, andb_true_iff.
  intros [[Hd _] [= <-]]. unfold pad_left. by rewrite str_forallb_app, zeros_digits, Hd.
Qed.

(** [expand_endpoint] fills the template of the policy's path. *)
Lemma expand_url policy parameters host r :
  _canonical_host (ep_host policy) = Ok host → expand_endpoint policy parameters = Ok r →
  cp_url r = "https://" +:+ host +:+ foldl fill (ep_path_template policy)
    (omap (λ n, (λ v, (n, v)) <$> dict_get parameters n) (ep_parameter_names policy)) ∧
  cp_path r = foldl fill (ep_path_template policy)
    (omap (λ n, (λ v, (n, v)) <$> dict_get parameters n) (ep_parameter_names policy)) ∧ cp_host r = host.
Proof.
  intros Hh. unfold expand_endpoint, sec_reject. cbv zeta. rewrite !guard_seq, Hh, Ok_bind, !guard_seq.
  intros (_ & _ & _ & _ & _ & [= <-]). done.
Qed.

Definition submissions_url (cik : string) : string := "https://data.sec.gov/submissions/CIK" +:+ cik +:+ ".json".
Definition document_url (cik accession document : string) : string :=
  "https://www.sec.gov/Archives/edgar/data/" +:+ cik +:+ "/" +:+ quote accession +:+ "/" +:+ quote document.

Lemma strip_zeros_digits s : str_forallb is_digit s = true → str_forallb is_digit (strip_zeros s) = true.
Proof.
  induction s as [|c s IH]; [done|]. intros Hs. cbn [strip_zeros]. cbn [str_forallb] in Hs.
  apply andb_true_iff in Hs as [Hc Hs]. specialize (IH Hs).
  destruct c as [[] [] [] [] [] [] [] []]; try done; destruct s; try done; cbn [str_forallb]; by rewrite ?Hc.
Qed.

Lemma submissions_request_url `{CharData} value r : build_sec_request "SEC_SUBMISSIONS_JSON" value None None = Ok r →
  ∃ cik, normalize_cik value = Ok cik ∧ cp_url r = submissions_url cik.
Proof.
  unfold build_sec_request. change (dict_get SEC_ENDPOINT_POLICIES _) with (snd <$> SEC_ENDPOINT_POLICIES !! 2%nat).
  cbn [lookup list_lookup fmap option_fmap option_map SEC_ENDPOINT_POLICIES snd].
  intros (cik & Hcik & H1)%bind_Ok. exists cik. split; [done|].
  apply bind_Ok in H1 as (ps & Hps & H1). cbn in Hps. injection Hps as <-.
  apply (expand_url _ _ "data.sec.gov") in H1 as (-> & _); [|reflexivity].
  cbn [ep_parameter_names ep_path_template]. change (omap _ ["cik"]) with [("cik", cik)].
  rewrite fill_submissions, quote_plain by (by eapply normalize_cik_digits). reflexivity.
Qed.
Lemma document_request_url `{CharData} value accession_number document r :
  build_sec_request "SEC_FILING_DOCUMENT" value (Some accession_number) (Some document) = Ok r →
  ∃ cik accession, normalize_cik value = Ok cik ∧ accession_path accession_number = Ok accession ∧
    _validate_document_path document = Ok tt ∧ cp_url r = document_url (strip_zeros cik) accession document.
Proof.
  unfold build_sec_request. change (dict_get SEC_ENDPOINT_POLICIES _) with (snd <$> SEC_ENDPOINT_POLICIES !! 1%nat).
  cbn [lookup list_lookup fmap option_fmap option_map SEC_ENDPOINT_POLICIES snd].
  intros (cik & Hcik & H1)%bind_Ok. apply bind_Ok in H1 as (ps & Hps & H1).
  rewrite bool_decide_eq_false_2 in Hps by set_solver.
  apply bind_Ok in Hps as (accession & Ha & Hps). apply seq_Ok in Hps as [Hd [= <-]].
  exists cik, accession. split_and!; [done..|].
  apply (expand_url _ _ "www.sec.gov") in H1 as (-> & _); [|reflexivity].
  cbn [ep_parameter_names ep_path_template].
  change (omap _ ["accession"; "cik"; "document_path"]) with
    [("accession", accession); ("cik", strip_zeros cik); ("document_path", document)].
  rewrite fill_document, (quote_plain (strip_zeros cik)); [reflexivity|].
  apply strip_zeros_digits. by eapply normalize_cik_digits.
Qed.

(** ** The resources of a bound plan *)

Lemma digits_len s : str_forallb is_digit s = true → str_len s = Z.of_nat (String.length s).
Proof.
  induction s as [|c s IH]; [done|]. cbn [str_forallb str_len String.length]. intros [Hc Hs]%andb_true_iff.
  unfold is_digit, in_range in Hc. apply andb_true_iff in Hc as [_ Hc%N.leb_le].
  rewrite (proj2 (N.leb_gt 128 _)) by lia. cbn [andb]. rewrite (IH Hs). lia.
Qed.
Lemma length_app_str a b : String.length (a +:+ b) = (String.length a + String.length b)%nat.
Proof. induction a as [|c a IH]; [done|]. exact (f_equal S IH). Qed.
Lemma zeros_length n : String.length (zeros n) = Z.to_nat n.
Proof. unfold zeros. induction (Z.to_nat n) as [|k IH]; [done|exact (f_equal S IH)]. Qed.
(** Normalizing a CIK twice is normalizing it once. *)
Lemma normalize_cik_again value cik : normalize_cik value = Ok cik → normalize_cik cik = Ok cik.
Proof.
  intros E. pose proof (normalize_cik_digits _ _ E) as Hd. revert E.
  unfold normalize_cik, sec_reject, len_between. rewrite !guard_seq, !negb_false_iff, !andb_true_iff, !Z.leb_le.
  intros [(Hv & Hlo & Hhi) [= Hc]]. rewrite (digits_len _ Hv) in Hlo, Hhi.
  assert (String.length cik = 10%nat) as L
    by (rewrite <- Hc; unfold pad_left; rewrite length_app_str, zeros_length; lia).
  rewrite (digits_len _ Hd), L. split_and!; [done|lia|lia|]. unfold pad_left. by rewrite L.
Qed.

Section Bound.
Context `{UnicodeData} `{CharData}.
(** Where the request of a contract's slice goes. *)
Definition goes_to (endpoint_id cik url : string) : Prop :=
  if String.eqb endpoint_id "SEC_FILING_DOCUMENT" then
    ∃ accession_number accession document, accession_path accession_number = Ok accession ∧
      _validate_document_path document = Ok tt ∧ url = document_url (strip_zeros cik) accession document
  else url = submissions_url cik.
Record bound_to (plan : ProviderSyncPlanRecord) (cik : string) (ordinal : Z) (expected : resource_contract)
    (r : SecAuthorizedResource) : Prop := {
  bt_plan : rs_plan_id r = pr_id plan ∧ rs_plan_checksum r = pw_plan_checksum (pr_write plan);
  bt_slice : rs_slice_id r = rc_slice_id expected ∧ rs_ordinal r = ordinal ∧
    rs_artifact_kind r = rc_kind expected ∧ rs_max_response_bytes r = rc_max_bytes expected;
  bt_url : goes_to (rc_endpoint_id expected) cik (cp_url (rs_request r)) }.

Lemma bind_resource_bound e plan item ordinal expected r :
  rc_endpoint_id expected ∈ ["SEC_SUBMISSIONS_JSON"; "SEC_FILING_DOCUMENT"] →
  _bind_resource e plan item ordinal expected = Ok r →
  bound_to plan (ex_provider_security_identifier e) ordinal expected r.
Proof.
  intros Hep. unfold _bind_resource, sec_reject. cbv zeta.
  intros (ep & _ & E)%bind_Ok. rewrite guard_seq, !orb_false_iff in E.
  rewrite !neqs_false, neqZ_false in E. destruct E as ((((Hid & Ho) & _) & ->) & E).
  apply bind_Ok in E as (text & _ & E). apply bind_Ok in E as (cik & Hcik & E).
  rewrite !guard_seq, neqs_false in E. destruct E as (-> & _ & E).
  apply bind_Ok in E as (bytes & Hb & E). rewrite guard_seq in E. destruct E as (_ & E).
  assert (bytes = rc_max_bytes expected) as ->.
  { destruct (dict_get _ "max_response_bytes") as [[]|]; try discriminate.
    rewrite guard_seq, neqZ_false in Hb. by destruct Hb as [-> [= ->]]. }
  apply bind_Ok in E as (request & Hr & [= <-]). split; [done|done|]. cbn [rs_request]. unfold goes_to.
  apply normalize_cik_again in Hcik. destruct (String.eqb_spec (rc_endpoint_id expected) "SEC_FILING_DOCUMENT") as [Hd|Hd].
  - apply bind_Ok in Hr as (a & _ & Hr). apply bind_Ok in Hr as (d & _ & Hr). rewrite Hd in Hr.
    apply document_request_url in Hr as (cik & acc & Hc & Ha & Hv & Hu). exists a, acc, d.
    rewrite Hcik in Hc. by injection Hc as <-.
  - assert (rc_endpoint_id expected = "SEC_SUBMISSIONS_JSON") as Es by set_solver. rewrite Es in Hr.
    apply submissions_request_url in Hr as (cik & Hc & Hu). rewrite Hcik in Hc. by injection Hc as <-.
Qed.

Lemma bind_all_bound e plan contract : ∀ n slices rs,
  Forall (λ c, rc_endpoint_id c ∈ ["SEC_SUBMISSIONS_JSON"; "SEC_FILING_DOCUMENT"]) contract →
  bind_all e plan n slices contract = Ok rs →
  Forall2 (λ nc r, bound_to plan (ex_provider_security_identifier e) nc.1 nc.2 r)
    (zip (seqZ n (Z.of_nat (length contract))) contract) rs.
Proof.
  induction contract as [|c contract IH]; intros n [|s slices] rs Hc E; try discriminate.
  - injection E as <-. constructor.
  - apply Forall_cons in Hc as [Hc Hcs]. cbn [bind_all] in E. apply bind_Ok in E as (r & Hr & E).
    apply bind_Ok in E as (rs' & Hrs & [= <-]). rewrite seqZ_cons by (cbn; lia). constructor.
    + by eapply bind_resource_bound.
    + replace (Z.pred (Z.of_nat (length (c :: contract)))) with (Z.of_nat (length contract)) by (cbn [length]; lia).
      rewrite <- Z.add_1_r. by eapply IH.
Qed.

(** C36. Binding a plan pins every request the pilot can make.  A bound plan has
    the three resources of the contract, in order and with its size limits, and
    their requests go to the submissions of the authorized CIK and to two
    documents in the EDGAR archive of that CIK, named by an accession number and
    by a file name without separators: nothing in a plan's parameters changes
    the host, the directory or the number of requests. *)
Theorem bound_resources e plan sp : bind_sec_authorized_plan e plan = Ok sp →
  sp_plan_id sp = ex_plan_id e ∧ sp_plan_checksum sp = ex_plan_checksum e ∧
  rs_slice_id <$> sp_resources sp = ["SEC_SUBMISSIONS"; "SEC_FILING_INDEX"; "SEC_PRIMARY_DOCUMENT"] ∧
  rs_ordinal <$> sp_resources sp = [0; 1; 2] ∧
  rs_max_response_bytes <$> sp_resources sp = [2097152; 1048576; 20971520] ∧
  let cik := ex_provider_security_identifier e in
  ∃ a1 d1 a2 d2 n1 n2,
    (cp_url ∘ rs_request) <$> sp_resources sp =
      [submissions_url cik; document_url (strip_zeros cik) a1 d1; document_url (strip_zeros cik) a2 d2] ∧
    accession_path n1 = Ok a1 ∧ accession_path n2 = Ok a2 ∧
    _validate_document_path d1 = Ok tt ∧ _validate_document_path d2 = Ok tt.
Proof.
  unfold bind_sec_authorized_plan, sec_reject. cbv zeta.
  rewrite !guard_seq, orb_false_iff, neq_false, neqs_false. intros ((Hi & Hk) & _ & E).
  destruct (slices ← res_map slice_of_value _; _) as [rs|] eqn:E2; [|discriminate]. injection E as <-.
  apply bind_Ok in E2 as (slices & _ & E). apply bind_all_bound in E; [|repeat constructor; set_solver].
  cbn [sp_resources sp_plan_id sp_plan_checksum]. cbn [length _GATE_B_RESOURCE_CONTRACT] in E.
  change (seqZ 0 _) with [0; 1; 2] in E. cbn [zip] in E.
  apply Forall2_cons_inv_l in E as (r0 & l0 & [_ (I0 & O0 & _ & M0) U0] & E & ->).
  apply Forall2_cons_inv_l in E as (r1 & l1 & [_ (I1 & O1 & _ & M1) (n1 & a1 & d1 & A1 & V1 & U1)] & E & ->).
  apply Forall2_cons_inv_l in E as (r2 & l2 & [_ (I2 & O2 & _ & M2) (n2 & a2 & d2 & A2 & V2 & U2)] & E & ->).
  apply Forall2_nil_inv_l in E as ->. cbn [fst snd] in *. unfold compose. cbn.
  rewrite I0, I1, I2, O0, O1, O2, M0, M1, M2. split_and!; try done.
  exists a1, d1, a2, d2, n1, n2. rewrite U1, U2. split_and!; try done. unfold goes_to in U0. by rewrite U0.
Qed.
End Bound.

Module SecSample.
#[local] Existing Instance ascii_unicode.
#[local] Instance data : CharData := ascii_chars.
Definition kind (s : string) : string * pyval := ("artifact_kind", VStr s).
Definition slices : list ProviderSyncSlice :=
  let param ep := [("endpoint_id", VStr ep); ("cik", VStr "320193")] in
  let document path := [("accession_number", VStr "0000320193-25-000079"); ("document_path", VStr path)] in
  [mkSlice "SEC_SUBMISSIONS" 0 20000 20001 []
     (param "SEC_SUBMISSIONS_JSON" ++ [("max_response_bytes", VInt 2097152)]);
   mkSlice "SEC_FILING_INDEX" 1 20000 20001 ["SEC_SUBMISSIONS"]
     (param "SEC_FILING_DOCUMENT" ++ document "index.json" ++ [("max_response_bytes", VInt 1048576)]);
   mkSlice "SEC_PRIMARY_DOCUMENT" 2 20000 20001 ["SEC_FILING_INDEX"]
     (param "SEC_FILING_DOCUMENT" ++ document "aapl-10q.htm" ++ [("max_response_bytes", VInt 20971520)])].
Definition draft : ProviderSyncPlanDraft := mkPlanDraft (mkUUID "1") "sec-1" "sec-catalog-1" None slices.
Definition execution : gate_b_execution :=
  mkExecution (mkUUID "5") "c" (mkUUID "6") (mkUUID "2") "c" "sec_edgar" (mkUUID "7") (mkUUID "8") "0000320193" (mkUUID "9")
    (mkUUID "9").
(** The plan as it is before it is stored: its dates are dates. *)
Definition unstored : ProviderSyncPlanRecord :=
  mkPlanRecord (mkUUID "2") (mkPlanWrite (mkUUID "1") "sec-1" None (map (slice_fields VDate) slices) "c") 3 0.
Definition urls : list string :=
  ["https://data.sec.gov/submissions/CIK0000320193.json";
   "https://www.sec.gov/Archives/edgar/data/320193/000032019325000079/index.json";
   "https://www.sec.gov/Archives/edgar/data/320193/000032019325000079/aapl-10q.htm"].
Example bound_urls :
  (λ sp, (cp_url ∘ rs_request) <$> sp_resources sp) <$> bind_sec_authorized_plan execution unstored = Ok urls.
Proof. vm_compute. reflexivity. Qed.

Lemma bound_resources_witness : ∃ sp, bind_sec_authorized_plan execution unstored = Ok sp ∧
  rs_ordinal <$> sp_resources sp = [0; 1; 2].
Proof.
  destruct (bind_sec_authorized_plan execution unstored) as [sp|] eqn:E; [|vm_compute in E; discriminate].
  exists sp. split; [done|]. by destruct (bound_resources execution unstored sp E) as (_ & _ & _ & ? & _).
Defined.
(** Once stored, the same plan is refused. *)
Lemma stored_plan_not_bound_witness : ∃ w, to_write draft = Ok w ∧
  (bind_sec_authorized_plan execution (mkPlanRecord (mkUUID "2") w 3 0) = sec_error "SEC_AUTHORIZED_PLAN_MISMATCH" ∨
   bind_sec_authorized_plan execution (mkPlanRecord (mkUUID "2") w 3 0) = sec_error "SEC_PLAN_RESOURCE_INVALID").
Proof.
  destruct (to_write draft) as [w|] eqn:E; [|vm_compute in E; discriminate].
  exists w. split; [done|]. exact (stored_plan_not_bound draft w (mkUUID "2") 3 0 execution E).
Defined.
End SecSample.
