(* ===== verification/HttpClient.v ===== *)
(** The HTTP boundary of the providers: URLs, the address a request is pinned to
    and the loop of attempts and redirects (SafeHttpClient of
    providers/http_client.py).  What the network, the resolver, the rate limiter
    and the clock do is an environment: a function of the number of the attempt.
    A comparison of the clock with the deadline is an answer of the environment,
    and sleeping between attempts only lets time pass. *)
From S2P Require Import Prelude PyDecimal PyText Sha256 AgentModel Text ReportModel Language.
From S2P Require Import ProviderSync SyncStore LiveModel GateB SecPolicy.
From Stdlib Require Import Ascii.

(** * URLs ([urllib.parse.urlsplit]) *)

(** The text before the first character with [p], that character and the rest. *)
Fixpoint partition (p : ascii → bool) (s : string) : string * option (ascii * string) :=
  match s with
  | EmptyString => (EmptyString, None)
  | String c s => if p c then (EmptyString, Some (c, s)) else let '(a, r) := partition p s in (String c a, r)
  end.
Definition cut (c : ascii) (s : string) : string * option string :=
  let '(a, r) := partition (Ascii.eqb c) s in (a, snd <$> r).
(** The text after the last [c]. *)
Fixpoint after_last (c : ascii) (s : string) : string :=
  match s with
  | EmptyString => EmptyString
  | String d rest =>
      if str_forallb (λ x, negb (Ascii.eqb c x)) s then s else after_last c rest
  end.
Definition has_char (c : ascii) (s : string) : bool := negb (str_forallb (λ x, negb (Ascii.eqb c x)) s).
Fixpoint drop_low (s : string) : string :=
  match s with String c rest => if (N_of_ascii c <=? 32)%N then drop_low rest else s | EmptyString => s end.
Fixpoint drop_breaks (s : string) : string :=
  match s with
  | EmptyString => EmptyString
  | String c rest => if char_in ["009"; "010"; "013"]%char c then drop_breaks rest else String c (drop_breaks rest)
  end.

Record split_url := mkSplit { us_scheme : string; us_netloc : string; us_path : string; us_query : string;
  us_fragment : string }.
(** [None] is ValueError.  A bracketed host is refused at once: it is an address
    or an IPvFuture name, and neither is on a list of allowed hosts. *)
Definition scheme_char (c : ascii) : bool := is_word_char c || char_in ["+"; "-"; "."]%char c.
Definition urlsplit (url : string) : option split_url :=
  let url := drop_breaks (drop_low url) in
  let '(scheme, url) :=
    match cut ":" url with
    | (String c pre as word, Some rest) =>
        if (is_upper c || is_lower c) && str_forallb scheme_char word then (lower word, rest) else ("", url)
    | _ => ("", url)
    end in
  let '(netloc, url) :=
    if String.prefix "//" url
    then match partition (char_in ["/"; "?"; "#"]%char) (String.substring 2 (String.length url) url) with
         | (netloc, Some (c, rest)) => (netloc, String c rest)
         | (netloc, None) => (netloc, "")
         end
    else ("", url) in
  if has_char "[" netloc || has_char "]" netloc then None else
  let '(url, fragment) := cut "#" url in
  let '(path, query) := cut "?" url in
  Some (mkSplit scheme netloc path (default "" query) (default "" fragment)).

(** [parsed.username is not None], [parsed.hostname], [parsed.port] *)
Definition has_user (u : split_url) : bool := has_char "@" (us_netloc u).
Definition hostinfo (u : split_url) : string * option string := cut ":" (after_last "@" (us_netloc u)).
Definition hostname (u : split_url) : option string :=
  match (hostinfo u).1 with
  | EmptyString => None
  | host => Some (match cut "%" host with
                  | (name, Some zone) => lower name +:+ "%" +:+ zone
                  | (name, None) => lower name
                  end)
  end.
Fixpoint digits_value (acc : Z) (s : string) : Z :=
  match s with EmptyString => acc | String c s => digits_value (acc * 10 + (Z.of_N (N_of_ascii c) - 48)) s end.
(** [None] is ValueError. *)
Definition port (u : split_url) : option (option Z) :=
  match (hostinfo u).2 with
  | None | Some EmptyString => Some None
  | Some digits =>
      if str_forallb is_digit digits && (digits_value 0 digits <=? 65535) then Some (Some (digits_value 0 digits))
      else None
  end.
(** [ipaddress.ip_address(host)] of a host without colons: four octets. *)
Definition octet_ok (word : list ascii) : bool :=
  match word with
  | [] => false
  | ["0"%char] => true
  | c :: _ => negb (Ascii.eqb c "0") && forallb is_digit word && (length word <=? 3)%nat
              && (digits_value 0 (String.string_of_list_ascii word) <=? 255)
  end.
Definition ipv4_literal (host : string) : bool :=
  let parts := labels [] (String.list_ascii_of_string host) in
  (length parts =? 4)%nat && forallb octet_ok parts.

Example split_ex : urlsplit " https://User@Data.SEC.gov:443/a/b?q=1#f" =
  Some (mkSplit "https" "User@Data.SEC.gov:443" "/a/b" "q=1" "f").
Proof. reflexivity. Qed.
Example host_ex : (hostname <$> urlsplit "https://User@Data.SEC.gov:443/a") = Some (Some "data.sec.gov")
  ∧ (port <$> urlsplit "https://data.sec.gov:4x/a") = Some None ∧ urlsplit "https://[::1]/" = None.
Proof. done. Qed.
Example ipv4_ex : ipv4_literal "127.0.0.1" = true ∧ ipv4_literal "127.0.0.01" = false ∧ ipv4_literal "a.b.c.d" = false.
Proof. done. Qed.

(** * Policies, requests and results *)

Inductive http_error :=
  | NetworkDisabledError | HttpPolicyError | RetryExhaustedError | HttpTimeoutError | RedirectError
  | ResponseTooLargeError | InvalidNotModifiedError.
#[export] Instance http_error_eq_dec : EqDecision http_error.
Proof. solve_decision. Defined.

(** The time settings are positive and finite numbers that only the environment
    sees. *)
Record HttpClientPolicy := mkHttpPolicy {
  hp_allowed_hosts : list string; hp_user_agent : option string; hp_network_enabled : bool;
  hp_max_response_bytes : Z; hp_max_redirects : Z; hp_max_attempts : Z; hp_retryable_status_codes : list Z }.
Definition printable (s : string) : bool := forallb (λ c, (32 <=? c) && negb (c =? 127)) (utext s).
Definition new_HttpClientPolicy (p : HttpClientPolicy) : HttpClientPolicy + http_error :=
  if bool_decide (hp_allowed_hosts p = [])
     || negb (between 1 52428800 (hp_max_response_bytes p)) || negb (between 0 5 (hp_max_redirects p))
     || negb (between 1 3 (hp_max_attempts p))
     || match hp_user_agent p with Some a => negb (len_between 1 256 a && printable a) | None => false end
     || negb (forallb (between 100 599) (hp_retryable_status_codes p))
  then inr HttpPolicyError else inl p.
(** [build_sec_http_client_policy] (sec_edgar/policy.py) *)
Definition build_sec_http_client_policy (network_enabled : bool) : HttpClientPolicy :=
  mkHttpPolicy (sorted_set (map (λ kv, ep_host kv.2) SEC_ENDPOINT_POLICIES)) None network_enabled 5242880 0 1 [].

Record HttpRequest := mkHttpRequest { hq_url : string; hq_accept : string; hq_headers : list (string * string) }.
(** [safe_url], the redacted address of the answer, is [url] here. *)
Record HttpResult := mkHttpResult {
  hr_status_code : Z; hr_body : string; hr_content_type : option string; hr_url : string; hr_attempts : Z;
  hr_cache_status : string; hr_etag : option string; hr_last_modified : option string }.
Record CachedResponse := mkCached {
  cr_body : string; cr_content_type : option string; cr_etag : option string; cr_last_modified : option string }.

(** What [ipaddress] says of an address. *)
Record IPAddress := mkAddress {
  ip_version : Z; ip_value : Z; ip_is_global : bool; ip_is_private : bool; ip_is_loopback : bool;
  ip_is_link_local : bool; ip_is_multicast : bool; ip_is_reserved : bool; ip_is_unspecified : bool }.
Definition public_address (a : IPAddress) : bool :=
  ip_is_global a && negb (ip_is_private a || ip_is_loopback a || ip_is_link_local a || ip_is_multicast a
                          || ip_is_reserved a || ip_is_unspecified a).
(** [_PinnedTarget]: its URL has the address in place of the host. *)
Record _PinnedTarget := mkTarget {
  pt_host : string; pt_authority : string; pt_address : IPAddress; pt_path : string; pt_query : string }.
(** What goes over the wire. *)
Record wire_request := mkWire { wq_target : _PinnedTarget; wq_headers : list (string * string) }.

(** * The environment *)

Inductive lookup_answer := Addresses (l : list IPAddress) | LookupLate | LookupFailed.
Inductive limiter_answer := Granted | LimiterLate | LimiterFailed.
(** A failure of the exchange: the deadline, httpx.TimeoutException,
    httpx.NetworkError, another httpx error. *)
Inductive net_failure := Late | TimeoutException | NetworkFailure | RequestFailure.
(** [rs_content_length] is [int(...)] of the header when it is one; the body is
    its chunks and, unless it is complete, the failure after them. *)
Record response := mkResponse {
  rs_status : Z; rs_location : option string; rs_content_length : option Z; rs_content_type : option string;
  rs_etag : option string; rs_last_modified : option string; rs_chunks : list string;
  rs_broken : option net_failure }.
Inductive exchange := NotStarted | Failed (f : net_failure) | Responded (late : bool) (r : response).
Record attempt_env := mkAttempt {
  ae_late : bool; ae_lookup : lookup_answer; ae_limiter : limiter_answer; ae_late_again : bool;
  ae_exchange : exchange }.

(** * Headers *)

Definition _PROTECTED_REQUEST_HEADER_NAMES : list string :=
  ["user-agent"; "accept"; "accept-encoding"; "host"; "if-none-match"; "if-modified-since"].
Definition _SENSITIVE_HEADER_NAMES : list string :=
  ["authorization"; "proxy-authorization"; "cookie"; "set-cookie"; "api-key"; "x-api-key"; "apikey"; "x-apikey"].
Definition split_on (c : ascii) (s : string) : list string :=
  let fix go (word l : list ascii) : list string :=
    match l with
    | [] => [String.string_of_list_ascii (rev word)]
    | x :: l => if Ascii.eqb c x then String.string_of_list_ascii (rev word) :: go [] l else go (x :: word) l
    end in go [] (String.list_ascii_of_string s).
Fixpoint ends_with (suffix s : string) : bool :=
  String.eqb suffix s || match s with String _ rest => ends_with suffix rest | EmptyString => false end.
(** [_is_sensitive_header] of a valid name, which has no blanks. *)
Definition _is_sensitive_header (name : string) : bool :=
  let normalized := replace "_" "-" (lower name) in
  let parts := split_on "-" normalized in
  let compact := replace "-" "" normalized in
  bool_decide (normalized ∈ _SENSITIVE_HEADER_NAMES)
  || existsb (λ part, bool_decide (part ∈ ["token"; "secret"; "signature"])) parts
  || existsb (λ suffix, ends_with suffix compact) ["apikey"; "token"; "secret"; "signature"].
(** [_validate_header] *)
Definition header_char (c : ascii) : bool :=
  is_word_char c || char_in ["!"; "#"; "$"; "%"; "&"; "'"; "*"; "+"; "-"; "."; "^"; "_"; "`"; "|"; "~"]%char c.
Definition header_ok (h : string * string) : bool :=
  negb (String.eqb h.1 "") && str_forallb header_char h.1
  && str_forallb (λ c, let n := N_of_ascii c in (32 <=? n)%N && (n <? 127)%N) h.2.

(** [_url_origin] *)
Definition _url_origin (url : string) : option (string * Z) :=
  u ← urlsplit url; p ← port u; host ← hostname u; Some (lower host, default 443 p).
Definition newline : string := String "010"%char EmptyString.
(** [_cache_key] *)
Definition _cache_key (url accept : string) : string :=
  let material := match urlsplit url with
    | None => url
    | Some u =>
        let host := lower (default "" (hostname u)) in
        let netloc := match port u with
                      | Some (Some p) => if p =? 443 then host else host +:+ ":" +:+ str_of_Z p
                      | _ => host
                      end in
        us_scheme u +:+ "://" +:+ netloc +:+ (if String.eqb (us_path u) "" then "/" else us_path u)
        +:+ (if String.eqb (us_query u) "" then "" else "?" +:+ us_query u)
    end in
  sha256_hex ("GET" +:+ newline +:+ material +:+ newline +:+ accept).

(** * One request *)

Section Client.
Context (policy : HttpClientPolicy) (request_identity : option string).

(** [_validate_url] *)
Definition address_le (a b : IPAddress) : bool :=
  (ip_version a <? ip_version b) || (ip_version a =? ip_version b) && (ip_value a <=? ip_value b).
Definition min_address (a : IPAddress) (l : list IPAddress) : IPAddress :=
  foldl (λ m x, if address_le m x then m else x) a l.
Definition allowed_url (url : string) : option (split_url * string * option Z) :=
  u ← urlsplit url;
  p ← port u;
  host ← hostname u;
  if String.eqb (us_scheme u) "https" && negb (has_user u) && String.eqb (us_fragment u) ""
     && bool_decide (p ∈ [None; Some 443]) && negb (ipv4_literal host)
     && bool_decide (lower host ∈ hp_allowed_hosts policy)
  then Some (u, lower host, p) else None.
Definition _validate_url (url : string) (answer : lookup_answer) : _PinnedTarget + http_error :=
  match allowed_url url with
  | None => inr HttpPolicyError
  | Some (u, host, p) =>
      match answer with
      | LookupLate => inr HttpTimeoutError
      | LookupFailed | Addresses [] => inr HttpPolicyError
      | Addresses (a :: l) =>
          if negb (forallb public_address (a :: l)) then inr HttpPolicyError
          else inl (mkTarget host (if bool_decide (p = Some 443) then host +:+ ":443" else host)
                      (min_address a l) (us_path u) (us_query u))
      end
  end.

(** The chunks of a body, and the bytes counted so far. *)
Inductive body_read := Body (s : string) | TooLarge | Broken (f : net_failure).
Fixpoint read_body (total : Z) (body : string) (chunks : list string) (broken : option net_failure) : body_read :=
  match chunks with
  | [] => match broken with None => Body body | Some f => Broken f end
  | chunk :: chunks =>
      let total := total + Z.of_nat (String.length chunk) in
      if hp_max_response_bytes policy <? total then TooLarge
      else read_body total (body +:+ chunk) chunks broken
  end.

(** What an attempt comes to: an end, another attempt at the same URL, or a
    redirect. *)
Inductive verdict := Ends (r : HttpResult + http_error) (store : option CachedResponse) | Again | Follow (location : string).
Definition failed (target_attempt : Z) (f : net_failure) : verdict :=
  match f with
  | Late => Ends (inr HttpTimeoutError) None
  | TimeoutException =>
      if hp_max_attempts policy <=? target_attempt then Ends (inr HttpTimeoutError) None else Again
  | NetworkFailure =>
      if hp_max_attempts policy <=? target_attempt then Ends (inr RetryExhaustedError) None else Again
  | RequestFailure => Ends (inr HttpPolicyError) None
  end.
Definition _REDIRECT_STATUS_CODES : list Z := [301; 302; 303; 307; 308].
Definition judge (cached : option CachedResponse) (url : string) (attempts target_attempt redirects : Z)
    (r : response) : verdict :=
  if bool_decide (rs_status r ∈ _REDIRECT_STATUS_CODES) then
    match rs_location r with
    | None | Some EmptyString => Ends (inr RedirectError) None
    | Some location =>
        if hp_max_redirects policy <=? redirects then Ends (inr RedirectError) None else Follow location
    end
  else if rs_status r =? 304 then
    match cached with
    | None => Ends (inr InvalidNotModifiedError) None
    | Some c => Ends (inl (mkHttpResult 304 (cr_body c) (cr_content_type c) url attempts "REVALIDATED"
                             (cr_etag c) (cr_last_modified c))) None
    end
  else if negb (bool_decide (rs_status r ∈ hp_retryable_status_codes policy)) then
    if match rs_content_length r with Some n => hp_max_response_bytes policy <? n | None => false end
    then Ends (inr ResponseTooLargeError) None
    else match read_body 0 "" (rs_chunks r) (rs_broken r) with
         | TooLarge => Ends (inr ResponseTooLargeError) None
         | Broken f => failed target_attempt f
         | Body body =>
             let success := (200 <=? rs_status r) && (rs_status r <? 300) in
             let status := if success && bool_decide (is_Some cached) then "UPDATED" else "MISS" in
             Ends (inl (mkHttpResult (rs_status r) body (rs_content_type r) url attempts status
                          (rs_etag r) (rs_last_modified r)))
               (if success then Some (mkCached body (rs_content_type r) (rs_etag r) (rs_last_modified r)) else None)
         end
  else if hp_max_attempts policy <=? target_attempt then Ends (inr RetryExhaustedError) None
  else Again.

(** One pass of the inner loop: the request it sends, if any, and its verdict. *)
Definition attempt (cached : option CachedResponse) (url : string) (headers : list (string * string))
    (attempts target_attempt redirects : Z) (e : attempt_env) : option wire_request * verdict :=
  let ends x := (None, Ends (inr x) None) in
  if ae_late e then ends HttpTimeoutError else
  match _validate_url url (ae_lookup e) with
  | inr HttpPolicyError => ends (if 0 <? redirects then RedirectError else HttpPolicyError)
  | inr x => ends x
  | inl target =>
      match ae_limiter e with
      | LimiterLate => ends HttpTimeoutError
      | LimiterFailed => ends HttpPolicyError
      | Granted =>
          if ae_late_again e then ends HttpTimeoutError else
          let wire := mkWire target (headers ++ [("Host", pt_authority target)]) in
          match ae_exchange e with
          | NotStarted => ends HttpTimeoutError
          | Failed f => (Some wire, failed target_attempt f)
          | Responded true _ => (Some wire, Ends (inr HttpTimeoutError) None)
          | Responded false r => (Some wire, judge cached url attempts target_attempt redirects r)
          end
      end
  end.

(** [get]: [urljoin] is the standard library's, [None] its ValueError. *)
Context (urljoin : string → string → option string) (env : nat → attempt_env).
Abbreviation http_cache := (gmap string CachedResponse).

Fixpoint get_go (fuel n : nat) (cache : http_cache) (key url : string) (headers : list (string * string))
    (target_attempt redirects : Z) : option ((HttpResult + http_error) * http_cache * list wire_request) :=
  match fuel with
  | O => None
  | S fuel =>
      let attempts := Z.of_nat (S n) in
      let '(wire, v) := attempt (cache !! key) url headers attempts (target_attempt + 1) redirects (env n) in
      '(r, cache, log) ← match v with
        | Ends r None => Some (r, cache, [])
        | Ends r (Some c) => Some (r, <[key := c]> cache, [])
        | Again => get_go fuel (S n) cache key url headers (target_attempt + 1) redirects
        | Follow location =>
            match urljoin url location with
            | None => Some (inr RedirectError, cache, [])
            | Some next =>
                let headers := if bool_decide (_url_origin next = _url_origin url) then headers
                               else filter (λ h, _is_sensitive_header h.1 = false) headers in
                get_go fuel (S n) cache key next headers 0 (redirects + 1)
            end
        end;
      Some (r, cache, option_list wire ++ log)
  end.
Definition fuel : nat := Z.to_nat ((hp_max_redirects policy + 1) * hp_max_attempts policy).

Definition request_headers (request : HttpRequest) (cached : option CachedResponse) (user_agent : string) :
    list (string * string) :=
  filter (λ h, lower h.1 ∉ _PROTECTED_REQUEST_HEADER_NAMES) (hq_headers request)
  ++ [("Accept", hq_accept request); ("Accept-Encoding", "identity"); ("User-Agent", user_agent)]
  ++ match cached ≫= cr_etag with Some e => [("If-None-Match", e)] | None => [] end
  ++ match cached ≫= cr_last_modified with Some e => [("If-Modified-Since", e)] | None => [] end.
Definition get (request : HttpRequest) (cache : http_cache) :
    option ((HttpResult + http_error) * http_cache * list wire_request) :=
  let fails e := Some (inr e, cache, []) in
  if negb (hp_network_enabled policy) then fails NetworkDisabledError else
  match match request_identity with Some identity => Some identity | None => hp_user_agent policy end with
  | None => fails HttpPolicyError
  | Some user_agent =>
      let key := _cache_key (hq_url request) (hq_accept request) in
      let headers := request_headers request (cache !! key) user_agent in
      if negb (forallb header_ok (hq_headers request)) || negb (forallb header_ok headers)
      then fails HttpPolicyError
      else get_go fuel 0 cache key (hq_url request) headers 0 0
  end.
End Client.

(** * What a request can do *)

Section Bounds.
Context (policy : HttpClientPolicy).
Hypothesis valid : new_HttpClientPolicy policy = inl policy.
Let attempts_max := hp_max_attempts policy.
Let redirects_max := hp_max_redirects policy.

Lemma policy_bounds : 1 <= attempts_max ∧ 0 <= redirects_max ∧ 1 <= hp_max_response_bytes policy.
Proof.
  clear -valid. subst attempts_max redirects_max. unfold new_HttpClientPolicy in valid.
  destruct (_ || _) eqn:E; [discriminate|]. rewrite !orb_false_iff, !negb_false_iff in E. unfold between in E. lia.
Qed.

(** A request on the wire: to an allowed name, at a public address. *)
Definition wire_ok (w : wire_request) : Prop :=
  pt_host (wq_target w) ∈ hp_allowed_hosts policy ∧ public_address (pt_address (wq_target w)) = true ∧
  pt_authority (wq_target w) ∈ [pt_host (wq_target w); pt_host (wq_target w) +:+ ":443"] ∧
  ("Host", pt_authority (wq_target w)) ∈ wq_headers w.
(** A body is within the limit; a 304 repeats the body of the cache. *)
Definition body_ok (h : HttpResult) : Prop :=
  Z.of_nat (String.length (hr_body h)) <= hp_max_response_bytes policy ∨ hr_status_code h = 304.

Lemma min_address_in a l : min_address a l ∈ a :: l.
Proof.
  unfold min_address. revert a. induction l as [|x l IH]; intros a; cbn [foldl]; [by left|].
  specialize (IH (if address_le a x then a else x)). destruct (address_le a x); set_solver.
Qed.
Lemma validate_url_ok url answer t headers : _validate_url policy url answer = inl t →
  wire_ok (mkWire t (headers ++ [("Host", pt_authority t)])).
Proof.
  unfold _validate_url, allowed_url, mbind, option_bind.
  destruct (urlsplit url) as [u|]; [|discriminate]. destruct (port u) as [p|]; [|discriminate].
  destruct (hostname u) as [host|]; [|discriminate].
  destruct (_ && bool_decide (lower host ∈ _)) eqn:E; [|discriminate]. apply andb_true_iff in E as [_ Hin%bool_decide_eq_true].
  destruct answer as [[|a l]| |]; try discriminate.
  destruct (forallb _ _) eqn:Hp; [|discriminate]. intros [= <-]. unfold wire_ok. cbn [wq_target wq_headers pt_host pt_authority pt_address].
  rewrite forallb_forall in Hp. split_and!; [done| | |].
  - apply Hp, list_elem_of_In, min_address_in.
  - destruct (bool_decide _); set_solver.
  - apply elem_of_app. right. by left.
Qed.

Lemma failed_cases t f v : failed policy t f = v →
  v = Again ∧ t < attempts_max ∨ ∃ x, v = Ends (inr x) None.
Proof. intros <-. destruct f; cbn; try destruct (Z.leb_spec (hp_max_attempts policy) t); eauto. Qed.
Lemma read_body_bound chunks broken : ∀ total body s, total = Z.of_nat (String.length body) →
  total <= hp_max_response_bytes policy → read_body policy total body chunks broken = Body s →
  Z.of_nat (String.length s) <= hp_max_response_bytes policy.
Proof.
  induction chunks as [|c chunks IH]; intros total body s Ht Hb; cbn [read_body].
  - destruct broken; [discriminate|]. intros [= <-]. lia.
  - destruct (Z.ltb_spec (hp_max_response_bytes policy) (total + Z.of_nat (String.length c))); [discriminate|].
    apply IH; [rewrite length_app_str; lia|done].
Qed.

(** The verdicts that let the loop go on leave it within its bounds. *)
Definition verdict_ok (attempts t redirects : Z) (v : verdict) : Prop :=
  match v with
  | Ends (inl h) _ => hr_attempts h = attempts ∧ body_ok h
  | Ends (inr _) _ => True
  | Again => t < attempts_max
  | Follow _ => redirects < redirects_max
  end.
Lemma failed_ok attempts t redirects f : verdict_ok attempts t redirects (failed policy t f).
Proof. destruct (failed_cases t f _ eq_refl) as [[-> H]|[x ->]]; done. Qed.
Lemma judge_ok cached url attempts t redirects r :
  verdict_ok attempts t redirects (judge policy cached url attempts t redirects r).
Proof.
  pose proof policy_bounds. unfold judge. destruct (bool_decide (rs_status r ∈ _REDIRECT_STATUS_CODES)).
  - destruct (rs_location r) as [[|]|]; try done.
    destruct (Z.leb_spec (hp_max_redirects policy) redirects); done.
  - destruct (rs_status r =? 304); [destruct cached; [split; [done|by right]|done]|].
    destruct (negb _).
    + destruct (match rs_content_length r with Some _ => _ | None => _ end); [done|].
      destruct (read_body _ _ _ _ _) as [body| |f] eqn:E; [|done|apply failed_ok].
      split; [done|]. left. cbn [hr_body]. eapply read_body_bound; [..|exact E]; cbn; lia.
    + destruct (Z.leb_spec (hp_max_attempts policy) t); done.
Qed.
Lemma attempt_ok cached url headers attempts t redirects e w v :
  attempt policy cached url headers attempts t redirects e = (w, v) →
  (∀ x, w = Some x → wire_ok x) ∧ verdict_ok attempts t redirects v ∧
  match v with Ends (inr _) _ => True | _ => is_Some w end.
Proof.
  unfold attempt. destruct (ae_late e); [by intros [= <- <-]|].
  destruct (_validate_url policy url (ae_lookup e)) as [target|x] eqn:Ev; [|by destruct x; intros [= <- <-]].
  destruct (ae_limiter e); [|by intros [= <- <-]..].
  destruct (ae_late_again e); [by intros [= <- <-]|].
  destruct (ae_exchange e) as [|f|[] r]; intros [= <- <-].
  - done.
  - split_and!; [|apply failed_ok|].
    + intros x [= <-]. by eapply validate_url_ok.
    + destruct (failed_cases t f _ eq_refl) as [[-> _]|[x ->]]; eauto.
  - split_and!; [|done|done]. intros x [= <-]. by eapply validate_url_ok.
  - split_and!; [|apply judge_ok|].
    + intros x [= <-]. by eapply validate_url_ok.
    + destruct (judge _ _ _ _ _ _) as [[]| |]; eauto.
Qed.

Lemma get_go_ok urljoin env : ∀ f n cache key url headers t redirects,
  0 <= t < attempts_max → 0 <= redirects <= redirects_max →
  (redirects_max - redirects) * attempts_max + (attempts_max - t) <= Z.of_nat f →
  ∃ r cache' log, get_go policy urljoin env f n cache key url headers t redirects = Some (r, cache', log) ∧
    Z.of_nat (length log) <= (redirects_max - redirects) * attempts_max + (attempts_max - t) ∧
    Forall wire_ok log ∧
    (∀ h, r = inl h → body_ok h ∧ hr_attempts h = Z.of_nat n + Z.of_nat (length log)).
Proof.
  pose proof policy_bounds as (HA & HR & _).
  induction f as [|f IH]; intros n cache key url headers t redirects Ht Hr Hf; [nia|].
  cbn [get_go]. unfold mbind, option_bind. destruct (attempt _ _ _ _ _ _ _ _) as [w v] eqn:E.
  apply attempt_ok in E as (Hw & Hv & Hs).
  assert (Hlog : Forall wire_ok (option_list w)) by (destruct w; constructor; auto).
  assert (Hlen : Z.of_nat (length (option_list w)) <= 1) by (destruct w; cbn; lia).
  assert (Hone : match v with Ends (inr _) _ => True | _ => Z.of_nat (length (option_list w)) = 1 end)
    by (destruct v as [[]| |]; try done; by destruct Hs as [x ->]).
  assert (Hmul : 0 <= (redirects_max - redirects) * attempts_max) by nia.
  destruct v as [r [c|]| |location].
  1,2: eexists _, _, _; split; [reflexivity|]; rewrite app_nil_r; split_and!; [lia|done|];
       intros h ->; cbn in Hv, Hone; destruct Hv; split; [done|lia].
  - cbn in Hv. destruct (IH (S n) cache key url headers (t + 1) redirects) as (r & c & l & -> & Hl & Hf' & Hh); [lia..|].
    eexists _, _, _. split; [reflexivity|]. rewrite length_app. split_and!; [lia| |].
    + by apply Forall_app.
    + intros h Eh. destruct (Hh h Eh). split; [done|lia].
  - cbn in Hv. destruct (urljoin url location) as [next|].
    2: { eexists _, _, _. split; [reflexivity|]. rewrite app_nil_r. split_and!; [lia|done|discriminate]. }
    assert (Hmul' : (redirects_max - (redirects + 1)) * attempts_max + attempts_max =
      (redirects_max - redirects) * attempts_max) by nia.
    edestruct (IH (S n) cache key next) as (r & c & l & -> & Hl & Hf' & Hh); [lia|lia|lia|].
    eexists _, _, _. split; [reflexivity|]. rewrite length_app. split_and!; [lia| |].
    + by apply Forall_app.
    + intros h Eh. destruct (Hh h Eh). split; [done|lia].
Qed.
End Bounds.

Lemma get_ok policy identity urljoin env request cache : new_HttpClientPolicy policy = inl policy →
  ∃ r cache' log, get policy identity urljoin env request cache = Some (r, cache', log) ∧
    Z.of_nat (length log) <= (hp_max_redirects policy + 1) * hp_max_attempts policy ∧
    Forall (wire_ok policy) log ∧ (hp_network_enabled policy = false → log = []) ∧
    (∀ h, r = inl h → body_ok policy h ∧ hr_attempts h = Z.of_nat (length log)).
Proof.
  intros Hp. pose proof (policy_bounds policy Hp) as (HA & HR & _). unfold get.
  assert (Hnone : ∀ e, ∃ r cache' log, @Some ((HttpResult + http_error) * _ * _) (inr e, cache, []) = Some (r, cache', log) ∧
    Z.of_nat (length log) <= (hp_max_redirects policy + 1) * hp_max_attempts policy ∧
    Forall (wire_ok policy) log ∧ (hp_network_enabled policy = false → log = []) ∧
    (∀ h, r = inl h → body_ok policy h ∧ hr_attempts h = Z.of_nat (length log))).
  { intros e. eexists _, _, _. split; [reflexivity|]. split_and!; [cbn; nia|by constructor|by intros|by intros]. }
  destruct (hp_network_enabled policy); cbn [negb]; [|apply Hnone].
  destruct (match identity with Some _ => _ | None => _ end) as [agent|]; [|apply Hnone].
  destruct (_ || _); [apply Hnone|].
  edestruct (λ f, get_go_ok policy Hp urljoin env f 0 cache) as (r & c & l & -> & Hl & Hw & Hh); [lia|lia| |].
  { unfold fuel. rewrite Z2Nat.id; nia. }
  eexists _, _, _. split; [reflexivity|]. split_and!; [nia|done|discriminate|]. intros h Eh. destruct (Hh h Eh). split; [done|lia].
Qed.

(** C38. A request ends, whatever the network does: within the attempts per
    target and the redirects of a valid policy.  Every message it puts on the
    wire goes to a name on the list of allowed hosts, at a public address that
    was resolved for it, redirects included; nothing is sent when the network is
    disabled; a body that comes back is within the byte limit, unless it is the
    cached one, and the attempts that are reported are the requests sent. *)
Theorem get_bounded policy identity urljoin env request cache : new_HttpClientPolicy policy = inl policy →
  ∃ r cache' log, get policy identity urljoin env request cache = Some (r, cache', log) ∧
    Z.of_nat (length log) <= (hp_max_redirects policy + 1) * hp_max_attempts policy ∧
    Forall (wire_ok policy) log ∧ (hp_network_enabled policy = false → log = []) ∧
    (∀ h, r = inl h → body_ok policy h ∧ hr_attempts h = Z.of_nat (length log)).
Proof. apply get_ok. Qed.

(** * A request on a concrete network *)

Lemma sec_policy_valid b : new_HttpClientPolicy (build_sec_http_client_policy b) = inl (build_sec_http_client_policy b).
Proof. destruct b; reflexivity. Qed.

Module HttpSample.
Definition address : IPAddress := mkAddress 4 390004996 true false false false false false false.
Definition local : IPAddress := mkAddress 4 2130706433 false true true false false false false.
Definition policy : HttpClientPolicy :=
  mkHttpPolicy ["data.example.com"] (Some "research/1.0") true 10 1 2 [429; 503].
Definition request : HttpRequest := mkHttpRequest "https://data.example.com/a" "application/json" [("X-Api-Key", "k")].
Definition urljoin (base location : string) : option string := Some ("https://data.example.com" +:+ location).
Definition answers (status : Z) (location : option string) (chunks : list string) (lookup : list IPAddress) : attempt_env :=
  mkAttempt false (Addresses lookup) Granted false
    (Responded false (mkResponse status location None (Some "application/json") None None chunks None)).
(** A network failure, a redirect, a busy server, an answer. *)
Definition env (n : nat) : attempt_env :=
  match n with
  | 0%nat => mkAttempt false (Addresses [address]) Granted false (Failed NetworkFailure)
  | 1%nat => answers 302 (Some "/b") [] [address]
  | 2%nat => answers 503 None [] [address]
  | _ => answers 200 None ["[1,"; "2]"] [address]
  end.
Definition ask (policy : HttpClientPolicy) (env : nat → attempt_env) :=
  (λ x, (x.1.1, map (λ w, (pt_path (wq_target w), wq_headers w !! 0%nat)) x.2)) <$>
  get policy None urljoin env request ∅.

Example ask_ok : ask policy env =
  Some (inl (mkHttpResult 200 "[1,2]" (Some "application/json") "https://data.example.com/b" 4 "MISS" None None),
        [("/a", Some ("X-Api-Key", "k")); ("/a", Some ("X-Api-Key", "k")); ("/b", Some ("X-Api-Key", "k"));
         ("/b", Some ("X-Api-Key", "k"))]).
Proof. vm_compute. reflexivity. Qed.
(** A name that resolves to the local machine as well is not contacted, a long
    body is cut off, and a policy without network sends nothing. *)
Example ask_local : ask policy (λ _, answers 200 None [] [address; local]) = Some (inr HttpPolicyError, []).
Proof. vm_compute. reflexivity. Qed.
Example ask_long : (fst <$> ask policy (λ _, answers 200 None ["123456"; "789012"] [address])) = Some (inr ResponseTooLargeError).
Proof. vm_compute. reflexivity. Qed.

Lemma get_bounded_witness : ∃ r cache' log, get policy None urljoin env request ∅ = Some (r, cache', log) ∧
  Z.of_nat (length log) <= 4.
Proof.
  destruct (get_bounded policy None urljoin env request ∅ eq_refl) as (r & c & l & E & H & _).
  exists r, c, l. split; [exact E|exact H].
Defined.
End HttpSample.
