(* ===== verification/Artifacts.v ===== *)
(** Raw artifacts of a provider, the batches parsed from them, their manifests
    and the quality checks (domain/providers/artifacts.py, quality.py), where
    they are stored (infrastructure/provider_artifact_storage.py, the class
    SqlAlchemyProviderArtifactRepository of db/repositories/providers.py) and the
    terminal record of a pilot (SqlAlchemySecTerminalStore of
    db/repositories/live_evidence.py). *)
From S2P Require Import Prelude Session PyDecimal PyText PyParse Sha256 AgentModel Text ReportModel Language.
From S2P Require Import ProviderSync SyncStore LiveModel GateB LiveStore SecPolicy HttpClient.
From Stdlib Require Import Ascii.

(** * Artifacts and manifests (artifacts.py) *)

(** [ProviderSyntheticStatus] has the names of the agent's [SyntheticStatus]. *)
Abbreviation ProviderSyntheticStatus := SyntheticStatus.

Record ProviderRawArtifactDraft := mkArtifactDraft {
  ad_content_type : string; ad_expected_checksum : option string; ad_store_raw_permitted : bool }.
Record ProviderRawArtifactWrite := mkArtifactWrite {
  aw_provider_definition_id : UUID; aw_provider_capability_id : UUID; aw_run_id : UUID;
  aw_request_attempt_id : UUID; aw_license_policy_id : UUID; aw_source_identity : string;
  aw_source_checksum : string; aw_byte_count : Z; aw_content_type : string; aw_blob_key : string;
  aw_acquired_at : time; aw_source_published_at : option time; aw_synthetic_status : ProviderSyntheticStatus }.
#[export] Instance ProviderRawArtifactWrite_eq_dec : EqDecision ProviderRawArtifactWrite.
Proof. solve_decision. Defined.
Record ProviderRawArtifactRecord := mkArtifactRecord {
  ar_id : UUID; ar_write : ProviderRawArtifactWrite; ar_created_at : time }.
Record ProviderRawArtifactReservation := mkArtifactReservation {
  av_id : UUID; av_value : ProviderRawArtifactWrite }.
Record ProviderIngestionManifestWrite := mkManifestWrite {
  mw_raw_artifact_id : UUID; mw_sync_run_id : UUID; mw_adapter_version : string; mw_parser_version : string;
  mw_schema_version : string; mw_batch_checksum : string; mw_record_count : Z;
  mw_source_published_at : option time; mw_warning_codes : list string;
  mw_synthetic_status : ProviderSyntheticStatus; mw_manifest_checksum : string }.
Record ProviderIngestionManifestRecord := mkManifestRecord {
  mr_id : UUID; mr_write : ProviderIngestionManifestWrite; mr_created_at : time }.
Record ProviderManifestBatch := mkManifestBatch { mb_record_identities : list string; mb_batch_checksum : string }.
Record ProviderIngestionContext := mkIngestionContext {
  ic_provider_definition_id : UUID; ic_provider_capability_id : UUID; ic_sync_run_id : UUID;
  ic_request_attempt_id : UUID; ic_security_id : option UUID; ic_research_as_of_time : time;
  ic_adapter_version : string; ic_parser_version : string; ic_schema_version : string;
  ic_synthetic_status : ProviderSyntheticStatus; ic_warning_codes : list string }.

Section Contracts.
Context `{CharData}.

(** [value == value.strip()] and no control character. *)
Definition clean (s : string) : bool := bool_decide (ustrip (utext s) = utext s) && printable s.
Definition new_ProviderRawArtifactDraft (d : ProviderRawArtifactDraft) : res ProviderRawArtifactDraft :=
  let t := ad_content_type d in
  reject_if (negb (len_between 1 128 t && opt_forallb Checksum_ok (ad_expected_checksum d)))
    ValidationError "ProviderRawArtifactDraft";;
  reject_if (negb (clean t) || negb (has_sub "/" t) || has_sub ".." t || has_sub "\" t)
    ValidationError "content_type is invalid";;
  Ok d.
(** [validate_blob_key] *)
Definition drive_prefix (s : string) : bool := match s with String _ (String ":" _) => true | _ => false end.
Definition blob_key_ok (s : string) : bool :=
  negb (String.prefix "/" s || has_sub "\" s || bool_decide (".." ∈ split_on "/" s) || drive_prefix s).
Definition new_ProviderRawArtifactWrite (w : ProviderRawArtifactWrite) : res ProviderRawArtifactWrite :=
  reject_if (negb (len_between 1 512 (aw_source_identity w) && Checksum_ok (aw_source_checksum w)
    && between 1 52428800 (aw_byte_count w) && len_between 1 128 (aw_content_type w)
    && len_between 1 512 (aw_blob_key w))) ValidationError "ProviderRawArtifactWrite";;
  reject_if (negb (blob_key_ok (aw_blob_key w))) ValidationError "blob_key must be a safe relative storage key";;
  Ok w.
(** [ProviderManifestBatch] with [validate_record_identities] *)
Definition new_ProviderManifestBatch (b : ProviderManifestBatch) : res ProviderManifestBatch :=
  let ids := mb_record_identities b in
  reject_if (negb ((1 <=? length ids)%nat && (Z.of_nat (length ids) <=? 10000) && Checksum_ok (mb_batch_checksum b)))
    ValidationError "ProviderManifestBatch";;
  reject_if (negb (forallb (λ i, negb (String.eqb i "") && clean i && (str_len i <=? 256)) ids))
    ValidationError "record identities must be bounded printable text";;
  reject_if (negb (is_sorted_set ids)) ValidationError "record identities must be unique and stably ordered";;
  Ok b.

(** [build_ingestion_manifest] *)
Definition opt_time (t : option time) : pyval := match t with Some t => utc_time t | None => VNone end.
Definition opt_uuid (u : option UUID) : pyval := match u with Some u => VUuid u | None => VNone end.
Definition strings (l : list string) : pyval := VList (map VStr l).
Definition build_ingestion_manifest (artifact : ProviderRawArtifactRecord) (batch : ProviderManifestBatch)
    (context : ProviderIngestionContext) : res ProviderIngestionManifestWrite :=
  let a := ar_write artifact in
  reject_if (bool_decide (
      (aw_provider_definition_id a, aw_provider_capability_id a, aw_run_id a, aw_request_attempt_id a,
       aw_synthetic_status a) ≠
      (ic_provider_definition_id context, ic_provider_capability_id context, ic_sync_run_id context,
       ic_request_attempt_id context, ic_synthetic_status context))) ValueError "PROVIDER_MANIFEST_LINEAGE_MISMATCH";;
  reject_if (match aw_source_published_at a with Some t => ic_research_as_of_time context <? t | None => false end)
    ValueError "PROVIDER_MANIFEST_FUTURE_DATA";;
  let warnings := ic_warning_codes context ++
    match aw_source_published_at a with None => ["UNKNOWN_PUBLISHED_AT"] | Some _ => [] end in
  let ordered_warnings := sorted_set warnings in
  checksum ← provider_checksum (VMap [
    ("provider_definition_id", VUuid (aw_provider_definition_id a));
    ("provider_capability_id", VUuid (aw_provider_capability_id a)); ("sync_run_id", VUuid (aw_run_id a));
    ("request_attempt_id", VUuid (aw_request_attempt_id a)); ("security_id", opt_uuid (ic_security_id context));
    ("raw_artifact_id", VUuid (ar_id artifact)); ("raw_source_checksum", VStr (aw_source_checksum a));
    ("raw_retrieved_at", utc_time (aw_acquired_at a)); ("source_published_at", opt_time (aw_source_published_at a));
    ("research_as_of_time", utc_time (ic_research_as_of_time context));
    ("adapter_version", VStr (ic_adapter_version context)); ("parser_version", VStr (ic_parser_version context));
    ("schema_version", VStr (ic_schema_version context)); ("record_identities", strings (mb_record_identities batch));
    ("batch_checksum", VStr (mb_batch_checksum batch));
    ("synthetic_status", VStr (Synth.value (ic_synthetic_status context)));
    ("warning_codes", strings ordered_warnings)]);
  let m := mkManifestWrite (ar_id artifact) (aw_run_id a) (ic_adapter_version context) (ic_parser_version context)
    (ic_schema_version context) (mb_batch_checksum batch) (Z.of_nat (length (mb_record_identities batch)))
    (aw_source_published_at a) ordered_warnings (ic_synthetic_status context) checksum in
  reject_if (negb (semver_ok (mw_adapter_version m) && semver_ok (mw_parser_version m)
    && len_between 1 64 (mw_schema_version m) && (length ordered_warnings <=? 64)%nat))
    ValidationError "ProviderIngestionManifestWrite";;
  Ok m.
End Contracts.

(** * Records and batches *)

Module RecSt.
Inductive ProviderRecordStatus :=
  | COMPLETE | PARTIAL | MISSING.
#[global] Instance ProviderRecordStatus_eq_dec : EqDecision ProviderRecordStatus.
Proof. solve_decision. Defined.
Definition all : list ProviderRecordStatus :=
  [COMPLETE; PARTIAL; MISSING].
Definition value (x : ProviderRecordStatus) : string :=
  match x with
  | COMPLETE => "COMPLETE"
  | PARTIAL => "PARTIAL"
  | MISSING => "MISSING"
  end.
End RecSt.
Abbreviation ProviderRecordStatus := RecSt.ProviderRecordStatus.

Module QRule.
Inductive ProviderQualityRule :=
  | IDENTITY | TEMPORAL | SOURCE_CHECKSUM | SYNTHETIC_ISOLATION | DUPLICATE | DECIMAL
   | CURRENCY_UNIT | MISSING.
#[global] Instance ProviderQualityRule_eq_dec : EqDecision ProviderQualityRule.
Proof. solve_decision. Defined.
Definition all : list ProviderQualityRule :=
  [IDENTITY; TEMPORAL; SOURCE_CHECKSUM; SYNTHETIC_ISOLATION; DUPLICATE; DECIMAL; CURRENCY_UNIT
  ; MISSING].
Definition value (x : ProviderQualityRule) : string :=
  match x with
  | IDENTITY => "IDENTITY"
  | TEMPORAL => "TEMPORAL"
  | SOURCE_CHECKSUM => "SOURCE_CHECKSUM"
  | SYNTHETIC_ISOLATION => "SYNTHETIC_ISOLATION"
  | DUPLICATE => "DUPLICATE"
  | DECIMAL => "DECIMAL"
  | CURRENCY_UNIT => "CURRENCY_UNIT"
  | MISSING => "MISSING"
  end.
End QRule.
Abbreviation ProviderQualityRule := QRule.ProviderQualityRule.

Record ProviderRecordIdentity := mkIdentity {
  ri_provider_definition_id : UUID; ri_provider_capability_id : UUID; ri_source_identity : string;
  ri_record_key : string; ri_revision : Z }.
Definition identity_value (i : ProviderRecordIdentity) : pyval := VMap [
  ("provider_definition_id", VUuid (ri_provider_definition_id i));
  ("provider_capability_id", VUuid (ri_provider_capability_id i));
  ("source_identity", VStr (ri_source_identity i)); ("record_key", VStr (ri_record_key i));
  ("revision", VInt (ri_revision i))].
(** [ProviderRecordIdentity.checksum] *)
Definition identity_checksum (i : ProviderRecordIdentity) : res string := provider_checksum (identity_value i).
Record ProviderRecord := mkRecord {
  rd_identity : ProviderRecordIdentity; rd_raw_artifact_id : UUID; rd_source_checksum : string;
  rd_source_published_at : option time; rd_status : ProviderRecordStatus;
  rd_numeric_values : list (string * option string); rd_text_values : list (string * option string);
  rd_warning_codes : list string; rd_synthetic_status : ProviderSyntheticStatus }.
Definition optional_strings (l : list (string * option string)) : pyval := VMap (map (λ kv, (kv.1, v_str kv.2)) l).
Definition record_value (r : ProviderRecord) : pyval := VMap [
  ("identity", identity_value (rd_identity r)); ("raw_artifact_id", VUuid (rd_raw_artifact_id r));
  ("source_checksum", VStr (rd_source_checksum r)); ("source_published_at", opt_time (rd_source_published_at r));
  ("status", VStr (RecSt.value (rd_status r))); ("numeric_values", optional_strings (rd_numeric_values r));
  ("text_values", optional_strings (rd_text_values r)); ("warning_codes", strings (rd_warning_codes r));
  ("synthetic_status", VStr (Synth.value (rd_synthetic_status r)))].
Definition finite_decimal (s : string) : bool :=
  match parse_decimal s with Some (PFinite _) => true | _ => false end.
(** [Decimal(item).is_finite()] of every number, as the validator and the
    quality check ask. *)
Definition _valid_decimals (r : ProviderRecord) : bool :=
  forallb (λ kv, match kv.2 with Some s => finite_decimal s | None => true end) (rd_numeric_values r).
Definition new_ProviderRecord (r : ProviderRecord) : res ProviderRecord :=
  reject_if (negb (Checksum_ok (rd_source_checksum r) && (length (rd_warning_codes r) <=? 64)%nat))
    ValidationError "ProviderRecord";;
  reject_if (negb (_valid_decimals r)) ValidationError "numeric values must be finite Decimal strings";;
  reject_if (bool_decide (rd_status r = RecSt.PARTIAL) && bool_decide (rd_warning_codes r = [])) ValidationError
    "PARTIAL records require a warning";;
  reject_if (bool_decide (rd_status r = RecSt.MISSING) && bool_decide (rd_warning_codes r = [])) ValidationError
    "MISSING records require a warning";;
  reject_if (bool_decide (rd_status r = RecSt.MISSING)
             && existsb (λ kv, is_some kv.2) (rd_numeric_values r)) ValidationError
    "missing numeric values cannot be filled with zero";;
  Ok r.

Record ProviderBatch := mkBatch { bt_manifest_checksum : string; bt_records : list ProviderRecord }.
(** [ProviderBatch.batch_checksum] *)
Definition build_provider_batch_checksum (l : list ProviderRecord) : res string :=
  provider_checksum (VList (map record_value l)).
(** [validate_stable_identity_order] *)
Definition new_ProviderBatch (b : ProviderBatch) : res ProviderBatch :=
  let keys := map (λ r, ri_record_key (rd_identity r)) (bt_records b) in
  reject_if (negb (Checksum_ok (bt_manifest_checksum b) && (1 <=? length keys)%nat
                   && (Z.of_nat (length keys) <=? 10000))) ValidationError "ProviderBatch";;
  reject_if (negb (bool_decide (keys = sort_str keys)) || negb (bool_decide (NoDup keys))) ValidationError
    "batch record identities must be unique and stably ordered";;
  sums ← res_map (λ r, identity_checksum (rd_identity r)) (bt_records b);
  reject_if (negb (bool_decide (NoDup sums))) ValidationError "batch contains duplicate record identity";;
  Ok b.

(** * Data quality (quality.py) *)

Record ProviderQualityContext := mkQualityContext {
  qc_research_as_of_time : time; qc_provider_definition_id : UUID; qc_provider_capability_id : UUID;
  qc_raw_artifact_id : UUID; qc_source_checksum : string; qc_synthetic_status : ProviderSyntheticStatus;
  qc_allowed_currencies : list string; qc_allowed_units : list string }.
Record ProviderQualityIssue := mkQualityIssue { qi_rule : ProviderQualityRule; qi_record_key : string; qi_safe_detail : string }.
Definition _issue (rule : ProviderQualityRule) (r : ProviderRecord) : ProviderQualityIssue :=
  mkQualityIssue rule (ri_record_key (rd_identity r)) (QRule.value rule +:+ " validation failed").
(** [_valid_currency_unit] *)
Definition allowed_text (r : ProviderRecord) (key : string) (allowed : list string) : bool :=
  match dict_get (rd_text_values r) key with
  | Some (Some v) => bool_decide (v ∈ allowed)
  | _ => true
  end.
Definition _valid_currency_unit (r : ProviderRecord) (c : ProviderQualityContext) : bool :=
  allowed_text r "currency" (qc_allowed_currencies c) && allowed_text r "unit" (qc_allowed_units c).
(** The rules a record breaks, given the checksums of the identities before it. *)
Definition broken_rules (c : ProviderQualityContext) (seen : list string) (sum : string) (r : ProviderRecord) :
    list ProviderQualityRule :=
  let i := rd_identity r in
  let when (b : bool) rule := if b then [rule] else [] in
  when (bool_decide (sum ∈ seen)) QRule.DUPLICATE ++
  when (bool_decide (ri_provider_definition_id i ≠ qc_provider_definition_id c)
        || bool_decide (ri_provider_capability_id i ≠ qc_provider_capability_id c)
        || bool_decide (rd_raw_artifact_id r ≠ qc_raw_artifact_id c)) QRule.IDENTITY ++
  when (match rd_source_published_at r with Some t => qc_research_as_of_time c <? t | None => false end) QRule.TEMPORAL ++
  when (negb (String.eqb (rd_source_checksum r) (qc_source_checksum c))) QRule.SOURCE_CHECKSUM ++
  when (bool_decide (rd_synthetic_status r ≠ qc_synthetic_status c)) QRule.SYNTHETIC_ISOLATION ++
  when (negb (_valid_decimals r)) QRule.DECIMAL ++
  when (negb (_valid_currency_unit r c)) QRule.CURRENCY_UNIT ++
  when (bool_decide (rd_status r = RecSt.MISSING) && existsb (λ kv, is_some kv.2) (rd_numeric_values r)) QRule.MISSING.
Fixpoint issues_from (c : ProviderQualityContext) (seen : list string) (l : list ProviderRecord) :
    res (list ProviderQualityIssue) :=
  match l with
  | [] => Ok []
  | r :: l =>
      sum ← identity_checksum (rd_identity r);
      rest ← issues_from c (sum :: seen) l;
      Ok (map (λ rule, _issue rule r) (broken_rules c seen sum r) ++ rest)
  end.
Definition issue_ltb (a b : ProviderQualityIssue) : bool :=
  str_ltb (qi_record_key a) (qi_record_key b)
  || String.eqb (qi_record_key a) (qi_record_key b) && str_ltb (QRule.value (qi_rule a)) (QRule.value (qi_rule b)).
(** [ProviderDataQualityValidator.validate]: the batch passes when there is no
    issue. *)
Definition quality_issues (batch : ProviderBatch) (c : ProviderQualityContext) : res (list ProviderQualityIssue) :=
  sort_by issue_ltb <$> issues_from c [] (bt_records batch).

(** * Where artifacts are kept *)

(** [AtomicProviderArtifactStorage.write]; [put] is the blob storage's, which
    answers with the URI, the checksum and the size it stored. *)
Record StoredProviderArtifact := mkStored {
  st_blob_key : string; st_storage_uri : string; st_checksum : string; st_byte_count : Z; st_content_type : string }.
Definition strip_slash (s : string) : string := match s with String "/" rest => rest | _ => s end.
Definition write_blob (put : string → string → res (string * string * Z)) (draft : ProviderRawArtifactDraft)
    (content : string) : res StoredProviderArtifact :=
  reject_if (negb (ad_store_raw_permitted draft)) PermissionError "RAW_STORAGE_PROHIBITED";;
  let checksum := sha256_hex content in
  reject_if (match ad_expected_checksum draft with Some c => negb (String.eqb checksum c) | None => false end)
    ValueError "RAW_ARTIFACT_CHECKSUM_MISMATCH";;
  '(uri, stored, size) ← put content (ad_content_type draft);
  key ← match urlsplit uri with Some u => Ok (strip_slash (us_path u)) | None => raise ValueError "Invalid URL" end;
  reject_if (negb (String.eqb stored checksum) || negb (size =? Z.of_nat (String.length content)))
    ValueError "RAW_ARTIFACT_DURABILITY_MISMATCH";;
  reject_if (negb (str_forallb is_hex_lower key && (str_len key =? 32)
                   && between 0 52428800 (Z.of_nat (String.length content)))) ValidationError "StoredProviderArtifact";;
  Ok (mkStored key uri checksum (Z.of_nat (String.length content)) (ad_content_type draft)).

Record IssueRow := mkIssueRow { is_run_id : UUID; is_manifest_id : UUID; is_rule_code : string; is_safe_detail : string }.
Record ValidationRow := mkValidationRow {
  vr_id : UUID; vr_definition_id : UUID; vr_capability_id : UUID; vr_grant_id : UUID; vr_passed : bool;
  vr_max_requests : Z; vr_max_bytes : Z; vr_consumed_requests : Z; vr_consumed_bytes : Z;
  vr_expires_at : time; vr_started_at : time; vr_completed_at : time }.
(** An audit event: [ae_summary] is the JSON object its text holds, if any. *)
Record AuditRow := mkAuditRow {
  au_id : UUID; au_definition_id : UUID; au_run_id : option UUID; au_action_code : string;
  au_decision_code : string; au_safe_summary : string; au_summary : option (list (string * pyval));
  au_event_checksum : string; au_created_at : time }.

(** The tables the pilot writes. *)
Record pilot_db := mkPilotDb {
  pl_live : live_db; pl_artifacts : list ProviderRawArtifactRecord;
  pl_manifests : list ProviderIngestionManifestRecord; pl_issues : list IssueRow;
  pl_validations : list ValidationRow; pl_events : list AuditRow }.
Abbreviation pilotM := (sessM pilot_db).
Definition with_live db x :=
  mkPilotDb x (pl_artifacts db) (pl_manifests db) (pl_issues db) (pl_validations db) (pl_events db).
Definition with_artifacts db x :=
  mkPilotDb (pl_live db) x (pl_manifests db) (pl_issues db) (pl_validations db) (pl_events db).
Definition with_manifests db x :=
  mkPilotDb (pl_live db) (pl_artifacts db) x (pl_issues db) (pl_validations db) (pl_events db).
Definition with_terminal db issues validation event :=
  mkPilotDb (pl_live db) (pl_artifacts db) (pl_manifests db) (pl_issues db ++ issues)
    (pl_validations db ++ [validation]) (pl_events db ++ [event]).
Definition on_live {A} (m : liveM A) : pilotM A := λ db, '(a, lv) ← m (pl_live db); Ok (a, with_live db lv).
Definition pilot_sync (db : pilot_db) : sync_db := lv_sync (pl_live db).

(** [add_artifact_with_id] *)
Definition artifact_identity (a : ProviderRawArtifactWrite) : UUID * string * string :=
  (aw_provider_definition_id a, aw_source_identity a, aw_source_checksum a).
Definition same_artifact (v : ProviderRawArtifactReservation) (r : ProviderRawArtifactRecord) : bool :=
  bool_decide (ar_id r = av_id v) || bool_decide (artifact_identity (ar_write r) = artifact_identity (av_value v)).
(** [ck_provider_raw_artifacts_blob_key] *)
Definition blob_key_row_ok (s : string) : bool :=
  len_between 1 512 s && negb (String.prefix "/" s || has_sub "\" s || has_sub ".." s
    || match s with String c (String ":" _) => is_upper c || is_lower c | _ => false end).
Definition add_artifact_with_id (v : ProviderRawArtifactReservation) (now : time) : pilotM ProviderRawArtifactRecord :=
  db ← tables;
  match find (same_artifact v) (pl_artifacts db) with
  | Some r =>
      if bool_decide (ar_id r = av_id v) && bool_decide (ar_write r = av_value v) then mret r
      else sess_lift (conflict "PROVIDER_ARTIFACT_CONFLICT")
  | None =>
      let a := av_value v in
      let row := mkArtifactRecord (av_id v) a now in
      let refs := sy_refs (pilot_sync db) in
      checked [
        (distinct (map ar_id (pl_artifacts db ++ [row])), "pk_provider_raw_artifacts");
        (member (aw_provider_definition_id a) (cx_definitions refs), "fk_provider_raw_artifacts_definition");
        (member (aw_provider_capability_id a) (cx_capabilities refs), "fk_provider_raw_artifacts_capability");
        (member (aw_run_id a) (map rn_id (sy_runs (pilot_sync db))), "fk_provider_raw_artifacts_run");
        (member (aw_request_attempt_id a) (map at_id (sy_attempts (pilot_sync db))), "fk_provider_raw_artifacts_attempt");
        (member (aw_license_policy_id a) (cx_licenses refs), "fk_provider_raw_artifacts_license");
        (Checksum_ok (aw_source_checksum a), "ck_provider_raw_artifacts_checksum");
        (0 <? aw_byte_count a, "ck_provider_raw_artifacts_size");
        (blob_key_row_ok (aw_blob_key a), "ck_provider_raw_artifacts_blob_key")];;
      write (λ db, with_artifacts db (pl_artifacts db ++ [row]));;
      mret row
  end.

(** [add_manifest] *)
Definition manifest_key (m : ProviderIngestionManifestWrite) : UUID * string * string * string * string :=
  (mw_raw_artifact_id m, mw_adapter_version m, mw_parser_version m, mw_schema_version m, mw_manifest_checksum m).
Definition add_manifest (id : UUID) (m : ProviderIngestionManifestWrite) (now : time) :
    pilotM ProviderIngestionManifestRecord :=
  db ← tables;
  match find (λ r, bool_decide (manifest_key (mr_write r) = manifest_key m)) (pl_manifests db) with
  | Some r => mret r
  | None =>
      let row := mkManifestRecord id m now in
      checked [
        (distinct (map mr_id (pl_manifests db ++ [row])), "pk_provider_ingestion_manifests");
        (member (mw_raw_artifact_id m) (map ar_id (pl_artifacts db)), "fk_provider_ingestion_manifests_artifact");
        (member (mw_sync_run_id m) (map rn_id (sy_runs (pilot_sync db))), "fk_provider_ingestion_manifests_run");
        (Checksum_ok (mw_batch_checksum m) && Checksum_ok (mw_manifest_checksum m), "ck_provider_ingestion_manifests_checksums");
        (0 <=? mw_record_count m, "ck_provider_ingestion_manifests_count")];;
      write (λ db, with_manifests db (pl_manifests db ++ [row]));;
      mret row
  end.

(** * The terminal record of a pilot *)

Record LiveValidationResult := mkLiveResult {
  lt_passed : bool; lt_terminal_stage : string; lt_artifact_id : option UUID; lt_manifest_id : option UUID;
  lt_request_attempt_id : UUID; lt_document_version_id : option UUID; lt_citation_ids : list UUID;
  lt_data_quality_issue_count : Z; lt_warning_codes : list string; lt_stop_reason : string;
  lt_failed_ordinal : option Z; lt_failed_slice_id : option string; lt_audit_event_id : option UUID }.
Definition status_value (passed : bool) : string := if passed then "PASSED" else "BLOCKED".
(** The constraints of the fields and [validate_terminal_lineage]. *)
Definition new_LiveValidationResult (r : LiveValidationResult) : res LiveValidationResult :=
  reject_if (negb (bool_decide (lt_terminal_stage r ∈ ["DATA_QUALITY"; "RESOURCE_ORCHESTRATION"])
    && (0 <=? lt_data_quality_issue_count r) && (length (lt_warning_codes r) <=? 64)%nat
    && len_between 1 128 (lt_stop_reason r) && opt_forallb (between 0 2) (lt_failed_ordinal r)
    && opt_forallb (len_between 1 64) (lt_failed_slice_id r))) ValidationError "LiveValidationResult";;
  reject_if (if String.eqb (lt_terminal_stage r) "DATA_QUALITY" then
      is_none (lt_artifact_id r) || is_none (lt_manifest_id r) || is_none (lt_document_version_id r)
      || bool_decide (lt_citation_ids r = []) || is_some (lt_failed_ordinal r) || is_some (lt_failed_slice_id r)
    else lt_passed r || is_none (lt_failed_ordinal r) || is_none (lt_failed_slice_id r))
    ValidationError (if String.eqb (lt_terminal_stage r) "DATA_QUALITY" then "GATE_B_DATA_QUALITY_LINEAGE_REQUIRED"
                     else "GATE_B_RESOURCE_FAILURE_LINEAGE_REQUIRED");;
  Ok r.

(** [SqlAlchemySecTerminalStore]: what it is built with. *)
Record terminal_store := mkTerminalStore {
  ts_execution : gate_b_execution; ts_provider_definition_id : UUID; ts_provider_capability_id : UUID;
  ts_sync_run_id : UUID; ts_started_at : time; ts_expires_at : time; ts_max_requests : Z; ts_max_bytes : Z }.
(** What one commit takes from outside. *)
Record terminal_fresh := mkTerminalFresh {
  tf_validation_id : UUID; tf_event_id : UUID; tf_completed_at : time; tf_row_time : time }.

Section Terminal.
Context (store : terminal_store) (new : terminal_fresh) (result : LiveValidationResult)
  (issues : list ProviderQualityIssue).
Let execution := ts_execution store.

Definition projection_ltb (a b : ProviderQualityIssue) : bool :=
  str_ltb (QRule.value (qi_rule a)) (QRule.value (qi_rule b))
  || String.eqb (QRule.value (qi_rule a)) (QRule.value (qi_rule b)) && str_ltb (qi_safe_detail a) (qi_safe_detail b).
Definition issue_projection : pyval :=
  VList (map (λ i, VMap [("rule_code", VStr (QRule.value (qi_rule i))); ("safe_detail", VStr (qi_safe_detail i));
                         ("severity", VStr "MEDIUM"); ("status", VStr "OPEN")]) (sort_by projection_ltb issues)).
Definition opt_int (n : option Z) : pyval := match n with Some n => VInt n | None => VNone end.
Definition terminal_identity (issue_checksum : string) : list (string * pyval) := [
  ("artifact_id", opt_uuid (lt_artifact_id result)); ("approval_id", VUuid (ex_approval_id execution));
  ("authorization_id", VUuid (ex_authorization_id execution));
  ("citation_ids", VList (map VUuid (lt_citation_ids result)));
  ("document_version_id", opt_uuid (lt_document_version_id result));
  ("failed_ordinal", opt_int (lt_failed_ordinal result)); ("failed_slice_id", v_str (lt_failed_slice_id result));
  ("issue_count", VInt (Z.of_nat (length issues))); ("issue_checksum", VStr issue_checksum);
  ("manifest_id", opt_uuid (lt_manifest_id result)); ("plan_checksum", VStr (ex_plan_checksum execution));
  ("provider", VStr (ex_provider execution)); ("request_attempt_id", VUuid (lt_request_attempt_id result));
  ("security_id", VUuid (ex_security_id execution)); ("status", VStr (status_value (lt_passed result)));
  ("stop_reason", VStr (lt_stop_reason result)); ("terminal_stage", VStr (lt_terminal_stage result));
  ("warning_codes", strings (lt_warning_codes result))].

(** [_require_complete_gate_b_resource_set]; the table of manifests exists. *)
Definition attempt_ltb (a b : ProviderRequestAttemptRecord * ProviderRawArtifactRecord) : bool :=
  aw_attempt_number (at_write a.1) <? aw_attempt_number (at_write b.1).
Definition completed_artifacts (db : pilot_db) : list (ProviderRequestAttemptRecord * ProviderRawArtifactRecord) :=
  sort_by attempt_ltb (
    a ← List.filter (λ a, bool_decide (aw_sync_run_id (at_write a) = ts_sync_run_id store)
                          && bool_decide (aw_status (at_write a) = SliceSt.COMPLETED)) (sy_attempts (pilot_sync db));
    r ← List.filter (λ r, bool_decide (aw_request_attempt_id (ar_write r) = at_id a)) (pl_artifacts db);
    [(a, r)]).
Definition run_manifests (db : pilot_db) : list (ProviderIngestionManifestRecord * ProviderRawArtifactRecord) :=
  m ← pl_manifests db;
  r ← List.filter (λ r, bool_decide (ar_id r = mw_raw_artifact_id (mr_write m))
                        && bool_decide (aw_run_id (ar_write r) = ts_sync_run_id store)) (pl_artifacts db);
  [(m, r)].
Definition _require_complete_gate_b_resource_set (db : pilot_db) : res unit :=
  let rows := completed_artifacts db in
  live_reject (bool_decide (map (λ x, aw_slice_id (at_write x.1)) rows ≠
    ["SEC_SUBMISSIONS"; "SEC_FILING_INDEX"; "SEC_PRIMARY_DOCUMENT"])) "GATE_B_RESOURCE_SET_INCOMPLETE";;
  live_reject (bool_decide ((λ x, (at_id x.1, Some (ar_id x.2))) <$> last rows ≠
      Some (lt_request_attempt_id result, lt_artifact_id result))
    || bool_decide (lt_citation_ids result = [])) "GATE_B_RESOURCE_SET_INCOMPLETE";;
  live_reject (negb (length (run_manifests db) =? 3)%nat) "GATE_B_RESOURCE_SET_INCOMPLETE".

(** [_load_terminal_summary] *)
Definition _load_terminal_summary (row : AuditRow) : res (list (string * pyval)) :=
  match au_summary row with
  | None => live_error "GATE_B_AUDIT_TERMINAL_INVALID"
  | Some parsed =>
      checksum ← provider_checksum (VMap parsed);
      live_reject (negb (String.eqb checksum (au_event_checksum row))) "GATE_B_AUDIT_TERMINAL_INVALID";;
      Ok parsed
  end.
Definition event_row_ltb (a b : AuditRow) : bool :=
  (au_created_at a <? au_created_at b)
  || (au_created_at a =? au_created_at b) && str_ltb (uuid_str (au_id a)) (uuid_str (au_id b)).
Definition terminal_events (db : pilot_db) : list AuditRow :=
  take 2 (sort_by event_row_ltb (List.filter (λ e, bool_decide (au_run_id e = Some (ts_sync_run_id store))
    && String.eqb (au_action_code e) "DATA_QUALITY_STOP") (pl_events db))).

(** The rows of a new terminal record, which the constraints then accept or
    not: its summary is text of at most 1024 characters. *)
Definition terminal_event (summary : list (string * pyval)) : res AuditRow :=
  text ← canonical_provider_json (VMap summary);
  checksum ← provider_checksum (VMap summary);
  Ok (mkAuditRow (tf_event_id new) (ts_provider_definition_id store) (Some (ts_sync_run_id store)) "DATA_QUALITY_STOP"
        (status_value (lt_passed result)) text (Some summary) checksum (tf_row_time new)).
Definition validation_row (db : pilot_db) : ValidationRow :=
  let l := grant_consumptions (pl_live db) (ex_authorization_id execution) in
  mkValidationRow (tf_validation_id new) (ts_provider_definition_id store) (ts_provider_capability_id store)
    (ex_authorization_id execution) (lt_passed result) (ts_max_requests store) (ts_max_bytes store)
    (Z.of_nat (length l)) (sum_Z (map (λ c, default 0 (co_actual_bytes c)) l))
    (ts_expires_at store) (ts_started_at store) (tf_completed_at new).
Definition validation_row_ok (v : ValidationRow) : bool :=
  between 1 100 (vr_max_requests v) && between 1 52428800 (vr_max_bytes v)
  && between 0 (vr_max_requests v) (vr_consumed_requests v) && between 0 (vr_max_bytes v) (vr_consumed_bytes v)
  && (vr_started_at v <? vr_expires_at v).
Definition terminal_constraints (db : pilot_db) (rows : list IssueRow) (v : ValidationRow) (e : AuditRow) :
    list (bool * string) :=
  let refs := sy_refs (pilot_sync db) in [
    (forallb (λ i, member (is_manifest_id i) (map mr_id (pl_manifests db))) rows, "fk_provider_data_quality_issues_manifest");
    (distinct (map vr_id (pl_validations db ++ [v])), "pk_provider_live_validation_runs");
    (member (vr_definition_id v) (cx_definitions refs), "fk_provider_live_validation_runs_definition");
    (member (vr_capability_id v) (cx_capabilities refs), "fk_provider_live_validation_runs_capability");
    (member (vr_grant_id v) (map gt_id (lv_grants (pl_live db))), "fk_provider_live_validation_runs_live_authorization");
    (validation_row_ok v, "ck_provider_live_validation_runs_budgets");
    (distinct (map au_id (pl_events db ++ [e])), "pk_provider_audit_events");
    (Checksum_ok (au_event_checksum e), "ck_provider_audit_events_checksum");
    (len_between 1 1024 (au_safe_summary e), "ck_provider_audit_events_safe")].

(** [commit] *)
Definition commit_terminal : pilotM UUID :=
  sess_lift (live_reject (negb (lt_data_quality_issue_count result =? Z.of_nat (length issues)))
    "GATE_B_TERMINAL_ISSUE_COUNT_MISMATCH");;
  issue_checksum ← sess_lift (provider_checksum issue_projection);
  let identity := terminal_identity issue_checksum in
  terminal_checksum ← sess_lift (provider_checksum (VMap identity));
  db ← tables;
  sess_lift (live_reject (is_none (find_run (pilot_sync db) (ts_sync_run_id store))) "GATE_B_SYNC_RUN_INVALID");;
  match terminal_events db with
  | [] =>
      sess_lift (if lt_passed result then _require_complete_gate_b_resource_set db else Ok tt);;
      let summary := identity ++ [("terminal_checksum", VStr terminal_checksum);
                                  ("terminal_validation_id", VUuid (tf_validation_id new))] in
      sess_lift (live_reject (negb (bool_decide (issues = [])) && is_none (lt_manifest_id result))
        "GATE_B_TERMINAL_MANIFEST_REQUIRED");;
      let rows := omap (λ i, (λ m, mkIssueRow (ts_sync_run_id store) m (QRule.value (qi_rule i)) (qi_safe_detail i))
                             <$> lt_manifest_id result) issues in
      let v := validation_row db in
      e ← sess_lift (terminal_event summary);
      checked (terminal_constraints db rows v e);;
      write (λ db, with_terminal db rows v e);;
      mret (tf_event_id new)
  | [existing] =>
      summary ← sess_lift (_load_terminal_summary existing);
      sess_lift (live_reject (negb (match dict_get summary "terminal_checksum" with
                                    | Some (VStr c) => String.eqb c terminal_checksum | _ => false end))
        "GATE_B_TERMINAL_CONFLICT");;
      mret (au_id existing)
  | _ => sess_lift (live_error "GATE_B_TERMINAL_CONFLICT")
  end.
End Terminal.

(** * How long a summary is *)

Lemma str_len_nonneg s : 0 <= str_len s.
Proof. induction s as [|c s IH]; cbn; [lia|]. destruct (_ && _); lia. Qed.
Lemma str_len_app a b : str_len (a +:+ b) = str_len a + str_len b.
Proof.
  induction a as [|c a IH]; [done|]. change (String c a +:+ b) with (String c (a +:+ b)). cbn [str_len].
  rewrite IH. lia.
Qed.
Lemma str_len_escape s : str_len s <= str_len (json_escape s).
Proof.
  induction s as [|c s IH]; [done|]. cbn [json_escape]. rewrite str_len_app.
  change (str_len (String c s)) with ((if (128 <=? N_of_ascii c)%N && (N_of_ascii c <? 192)%N then 0 else 1) + str_len s).
  assert ((if (128 <=? N_of_ascii c)%N && (N_of_ascii c <? 192)%N then 0 else 1) <= 1) as Hone by (destruct (_ && _); lia).
  assert ((if (128 <=? N_of_ascii c)%N && (N_of_ascii c <? 192)%N then 0 else 1) <= str_len (String c "")) as Hsame
    by (cbn; destruct (_ && _); lia).
  revert Hone Hsame. generalize (if (128 <=? N_of_ascii c)%N && (N_of_ascii c <? 192)%N then 0 else 1). intros w Hone Hsame.
  apply Z.add_le_mono; [|done]. repeat match goal with |- context [if ?b then _ else _] => destruct b end;
    first [exact Hsame | etransitivity; [exact Hone|]].
  all: match goal with |- 1 <= str_len ?t => let u := eval hnf in t in
    match u with String _ ?r => change (1 <= 1 + str_len r); pose proof (str_len_nonneg r); lia end end.
Qed.
Lemma str_len_string s : str_len s + 2 <= str_len (json_string s).
Proof. unfold json_string. rewrite !str_len_app. pose proof (str_len_escape s). change (str_len dquote) with 1. lia. Qed.

Definition total_len (l : list string) : Z := sum_Z (map str_len l).
Lemma total_len_app l k : total_len (l ++ k) = total_len l + total_len k.
Proof. unfold total_len, sum_Z. rewrite map_app. induction (map str_len l); cbn; lia. Qed.
Lemma total_len_perm l k : l ≡ₚ k → total_len l = total_len k.
Proof. unfold total_len, sum_Z. induction 1; cbn in *; lia. Qed.
Lemma total_len_in s l : s ∈ l → str_len s <= total_len l.
Proof.
  induction l as [|x l IH]; [by intros ?%elem_of_nil|].
  assert (0 <= total_len l) by (clear; induction l as [|x l IH]; [done|]; pose proof (str_len_nonneg x); unfold total_len, sum_Z in *; cbn; lia).
  change (total_len (x :: l)) with (str_len x + total_len l). pose proof (str_len_nonneg x).
  intros [->|Hs]%elem_of_cons; [lia|]. specialize (IH Hs). lia.
Qed.
Lemma str_len_join l : l ≠ [] → str_len (str_join "," l) = total_len l + Z.of_nat (length l) - 1.
Proof.
  induction l as [|x [|y l] IH]; [done| |]; intros _.
  - unfold total_len, sum_Z. cbn. lia.
  - change (str_join "," (x :: y :: l)) with (x +:+ "," +:+ str_join "," (y :: l)). rewrite !str_len_app, IH by done.
    change (total_len (x :: y :: l)) with (str_len x + total_len (y :: l)). cbn [length]. change (str_len ",") with 1. lia.
Qed.

(** A JSON object is at least as long as its keys and any one of its values. *)
Lemma object_len l k v : (k, v) ∈ l →
  total_len l.*1 + 4 * Z.of_nat (length l) + 1 + str_len (json_dumps v) <= str_len (json_dumps (JObj l)).
Proof.
  intros Hin. cbn [json_dumps]. rewrite !str_len_app.
  change (str_len "{") with 1. change (str_len "}") with 1.
  set (entry := λ kv : string * string, json_string kv.1 +:+ ":" +:+ kv.2).
  assert (length (sort_key fst (map (λ kv : string * json, (kv.1, json_dumps kv.2)) l)) = length l) as Hl
    by (unfold sort_key; rewrite (Permutation_length (sort_by_perm _ _)), length_map; done).
  rewrite str_len_join by (intros E; apply (f_equal length) in E; rewrite length_map, Hl in E; destruct l; [by apply elem_of_nil in Hin|done]).
  rewrite length_map, Hl. unfold sort_key.
  pose proof (total_len_perm _ _ (Permutation_map entry (sort_by_perm (key_ltb fst)
    (map (λ kv : string * json, (kv.1, json_dumps kv.2)) l)))) as Hperm.
  fold entry. rewrite Hperm.
  assert (∀ l : list (string * json),
    total_len l.*1 + 3 * Z.of_nat (length l) <= total_len (map entry (map (λ kv, (kv.1, json_dumps kv.2)) l)) ∧
    ((k, v) ∈ l → total_len l.*1 + 3 * Z.of_nat (length l) + str_len (json_dumps v) <=
      total_len (map entry (map (λ kv, (kv.1, json_dumps kv.2)) l)))) as Hall.
  { clear. induction l as [|[x w] l [IH1 IH2]]; [split; [done|by intros ?%elem_of_nil]|].
    change (total_len ((x, w) :: l).*1) with (str_len x + total_len l.*1).
    change (total_len (map entry (map (λ kv, (kv.1, json_dumps kv.2)) ((x, w) :: l)))) with
      (str_len (json_string x +:+ ":" +:+ json_dumps w) + total_len (map entry (map (λ kv, (kv.1, json_dumps kv.2)) l))).
    rewrite !str_len_app. pose proof (str_len_string x). pose proof (str_len_nonneg (json_dumps w)).
    change (str_len ":") with 1. cbn [length].
    split; [lia|]. intros [[= -> ->]|Hin]%elem_of_cons; [lia|]. specialize (IH2 Hin). lia. }
  destruct (Hall l) as [_ H]. specialize (H Hin). lia.
Qed.
(** A list of identifiers of 36 characters. *)
Lemma uuids_len l : l ≠ [] → Forall (λ u, str_len (uuid_str u) = 36) l →
  39 * Z.of_nat (length l) + 1 <= str_len (json_dumps (JList (map (λ u, JStr (uuid_str u)) l))).
Proof.
  intros Hne Hl. cbn [json_dumps]. rewrite !str_len_app, map_map, str_len_join by (by destruct l).
  change (str_len "[") with 1. change (str_len "]") with 1. rewrite length_map. cbn [json_dumps].
  assert (38 * Z.of_nat (length l) <= total_len (map (λ u, json_string (uuid_str u)) l)); [|lia].
  clear Hne. induction Hl as [|u l Hu _ IH]; [done|]. cbn [map length].
  pose proof (str_len_string (uuid_str u)). unfold total_len, sum_Z in *. cbn [map foldr]. lia.
Qed.

Lemma normalize_map l j : _normalize (VMap l) = Ok j → ∃ m, j = JObj m ∧ m.*1 = l.*1 ∧
  ∀ k v w, (k, v) ∈ l → _normalize v = Ok w → (k, w) ∈ m.
Proof.
  cbn [_normalize]. destruct (res_map _ l) as [m|] eqn:E; [|discriminate]. intros [= <-]. exists m. split; [done|].
  apply res_map_Ok in E. induction E as [|[k v] [k' w] l m Hkv _ [IHk IHv]]; [split; [done|by intros ? ? ? ?%elem_of_nil]|].
  apply bind_Ok in Hkv as (w' & Hw & [= -> ->]). cbn [fst snd] in *. split; [by rewrite !fmap_cons, IHk|].
  intros k v' w'' [[= -> ->]|Hin]%elem_of_cons Hv.
  - rewrite Hw in Hv. injection Hv as ->. by left.
  - right. by eapply IHv.
Qed.
Lemma normalize_uuids l : _normalize (VList (map VUuid l)) = Ok (JList (map (λ u, JStr (uuid_str u)) l)).
Proof.
  cbn [_normalize]. assert (res_map _normalize (map VUuid l) = Ok (map (λ u, JStr (uuid_str u)) l)) as ->; [|done].
  apply res_map_Ok. induction l as [|u l IH]; constructor; [done|exact IH].
Qed.

Lemma terminal_event_Ok store new result summary e : terminal_event store new result summary = Ok e →
  canonical_provider_json (VMap summary) = Ok (au_safe_summary e).
Proof. unfold terminal_event. intros (text & Ht & E)%bind_Ok. apply bind_Ok in E as (sum & _ & [= <-]). exact Ht. Qed.
Lemma terminal_constraints_len db rows v e : Forall (λ c, c.1 = true) (terminal_constraints db rows v e) →
  str_len (au_safe_summary e) <= 1024.
Proof.
  rewrite Forall_forall. intros H. specialize (H (len_between 1 1024 (au_safe_summary e), "ck_provider_audit_events_safe")).
  assert (len_between 1 1024 (au_safe_summary e) = true) as [_ Hl%Z.leb_le]%andb_true_iff; [|done].
  apply H. unfold terminal_constraints. set_solver.
Qed.

(** C40. The pilot cannot record what it found about a document with eighteen
    citations or more.  The summary of the terminal record lists them all, its
    column holds 1024 characters, and a citation takes 39: the transaction of
    the terminal store fails, whatever the result says, unless a record of the
    run is already there. *)
Theorem long_terminal_refused store new result issues db : terminal_events store db = [] →
  Forall (λ u, str_len (uuid_str u) = 36) (lt_citation_ids result) →
  (18 <= length (lt_citation_ids result))%nat →
  ∀ v, commit_terminal store new result issues db ≠ Ok v.
Proof.
  intros Hev Hid Hn [x db'] E. unfold commit_terminal in E. tx_inv E. rewrite Hev in E. tx_inv E.
  match goal with F : Forall _ (terminal_constraints _ _ _ _) |- _ => apply terminal_constraints_len in F as Hle end.
  match goal with F : terminal_event _ _ _ _ = Ok _ |- _ => apply terminal_event_Ok in F as Htext end.
  unfold canonical_provider_json, canonical_json in Htext.
  match type of Htext with _ <$> _normalize (VMap ?s) = _ =>
    destruct (_normalize (VMap s)) as [j|] eqn:Ej; [|discriminate] end.
  injection Htext as Htext. rewrite <- Htext in Hle. apply normalize_map in Ej as (m & -> & Hk & Hv).
  assert (("citation_ids", JList (map (λ u, JStr (uuid_str u)) (lt_citation_ids result))) ∈ m) as Hin.
  { eapply Hv; [|apply normalize_uuids]. apply elem_of_app. left. unfold terminal_identity. set_solver. }
  pose proof (object_len _ _ _ Hin) as Hlen. rewrite Hk in Hlen.
  pose proof (uuids_len (lt_citation_ids result)) as Hu.
  assert (length m = 20%nat) as Hm by (apply (f_equal length) in Hk; by rewrite !length_fmap in Hk).
  rewrite Hm in Hlen. assert (lt_citation_ids result ≠ []) as Hne by (intros Hz; rewrite Hz in Hn; cbn in Hn; lia).
  specialize (Hu Hne Hid). revert Hlen.
  match goal with |- total_len ?t + _ + _ + _ <= _ → _ => change (total_len t) with 267 end. lia.
Qed.

Module TerminalSample.
Definition id (n : nat) : UUID :=
  mkUUID ("6f1d2c3b-4a59-4e68-8d77-0000000000" +:+ pad_left 2 (str_of_Z (Z.of_nat n))).
Definition sum (c : string) : string := String.concat "" (repeat c 64).
Definition execution : gate_b_execution :=
  mkExecution (id 1) (sum "a") (id 2) (id 3) (sum "b") "SEC_EDGAR_PUBLIC_V1" (id 4) (id 5) "0000320193" (id 6) (id 7).
Definition store : terminal_store := mkTerminalStore execution (id 8) (id 9) (id 10) 0 100 4 1000.
Definition new : terminal_fresh := mkTerminalFresh (id 11) (id 12) 50 50.
Definition result (citations : nat) : LiveValidationResult :=
  mkLiveResult false "DATA_QUALITY" (Some (id 13)) (Some (id 14)) (id 15) (Some (id 16)) (map id (seq 17 citations))
    0 [] "DATA_QUALITY_STOP" None None None.
Definition db : pilot_db :=
  mkPilotDb (mkLiveDb [mkGrantRow (id 1) 4 1000 (sum "a") VNone 100] [] [] []
      (mkSyncDb (mkRefs [id 8] [id 9] [] [] [] []) [] []
        [mkSyncRun (id 10) (mkRunWrite (id 20) (id 3) (id 8) (id 9)) PRunSt.RUNNING 0 0 0 (Some 0) None None None None [] 0]
        [] [])) [] [] [] [] [].
(** Two citations fit; the third does not. *)
Example two_citations_fit : (λ x, length (pl_events x.2)) <$> commit_terminal store new (result 2) [] db = Ok 1%nat.
Proof. vm_compute. reflexivity. Qed.
Example third_citation_refused : commit_terminal store new (result 3) [] db = raise IntegrityError "ck_provider_audit_events_safe".
Proof. vm_compute. reflexivity. Qed.
Lemma long_terminal_refused_witness : length (lt_citation_ids (result 18)) = 18%nat ∧
  ∀ v, commit_terminal store new (result 18) [] db ≠ Ok v.
Proof.
  split; [reflexivity|]. apply (long_terminal_refused store new (result 18) [] db); [reflexivity| |cbn; lia].
  repeat constructor; reflexivity.
Defined.
End TerminalSample.
