(* ===== verification/SecPilot.v ===== *)
(** The SEC pilot: sending the request of an authorized resource
    (providers/sec_edgar/transport.py, retry.py, request_identity.py), settling
    what came back and stopping at data quality
    (domain/live_evidence/gate_b_pilot.py), over the tables of [Artifacts] and the
    HTTP boundary of [HttpClient].  A step that raises keeps what the
    transactions before it committed. *)
From S2P Require Import Prelude Session PyDecimal PyText Sha256 AgentModel Text ReportModel Language.
From S2P Require Import ProviderSync SyncStore LiveModel GateB LiveStore LiveBudget SecPolicy HttpClient Artifacts.
From Stdlib Require Import Ascii.

(** * Data *)

Record SecIngestionContext := mkSecContext {
  sc_provider_definition_id : UUID; sc_provider_capability_id : UUID; sc_sync_run_id : UUID;
  sc_license_policy_id : UUID; sc_security_id : UUID; sc_research_as_of_time : time; sc_retrieved_at : time;
  sc_source_published_at : option time; sc_adapter_version : string; sc_parser_version : string;
  sc_schema_version : string; sc_synthetic_status : ProviderSyntheticStatus; sc_source_identity : string;
  sc_source_endpoint_type : string; sc_artifact_kind : SecArtifactKind;
  sc_expected_accession_number : option string; sc_expected_document_path : option string }.
(** [as_ingestion_context] *)
Definition as_ingestion_context (c : SecIngestionContext) (request_attempt_id : UUID) : ProviderIngestionContext :=
  mkIngestionContext (sc_provider_definition_id c) (sc_provider_capability_id c) (sc_sync_run_id c)
    request_attempt_id (Some (sc_security_id c)) (sc_research_as_of_time c) (sc_adapter_version c)
    (sc_parser_version c) (sc_schema_version c) (sc_synthetic_status c) [].
(** What the adapter is told of the bytes it parses. *)
Record SecParseContext := mkParseContext {
  px_context : SecIngestionContext; px_raw_artifact_id : UUID; px_source_checksum : string;
  px_manifest_checksum : string; px_content_type : string }.
Record ValidatedSecSettlement := mkValidated {
  vs_artifact_id : UUID; vs_request_attempt_id : UUID; vs_source_checksum : string; vs_content_type : string;
  vs_body : string; vs_batch : ProviderBatch; vs_raw_artifact_draft : ProviderRawArtifactDraft;
  vs_context : SecIngestionContext }.
Record CommittedSecSettlement := mkCommitted {
  cs_artifact_id : UUID; cs_manifest_id : UUID; cs_request_attempt_id : UUID; cs_storage_uri : string;
  cs_content_checksum : string; cs_manifest_checksum : string }.
Record SecDocumentCitationResult := mkCitations { dc_document_version_id : UUID; dc_citation_ids : list UUID }.
Record CompletedSecResource := mkCompleted {
  cm_resource : SecAuthorizedResource; cm_committed : CommittedSecSettlement; cm_validated : ValidatedSecSettlement }.
Record SecPhysicalAttempt := mkPhysical {
  pa_permit : SecAttemptPermit; pa_response : option HttpResult; pa_safe_error_code : option string;
  pa_started_at : time; pa_completed_at : time; pa_socket_opened : option bool }.
Record SecTransportResult := mkTransport {
  tr_completed : bool; tr_reason_code : string; tr_attempts : list SecPhysicalAttempt }.

(** * The world *)

(** A message sequence sent for a permit: the client of one [_send]. *)
Record sent_request := mkSent { sn_attempt : UUID; sn_url : string; sn_wire : list wire_request }.
(** The tables, what was sent, and how many values were taken from outside. *)
Record world := mkWorld { wd_db : pilot_db; wd_sent : list sent_request; wd_ticks : nat }.

(** The ports the pilot is built with, and what the n-th value taken from
    outside is: identifiers, clocks, the network of a client and its cache. *)
Record outside := mkOutside {
  ox_fresh : nat → fresh; ox_terminal : nat → terminal_fresh; ox_clock : nat → time; ox_uuid : nat → UUID;
  ox_network : nat → nat → attempt_env; ox_cache : nat → gmap string CachedResponse;
  ox_urljoin : string → string → option string;
  (** [resolve_request_identity] of the environment: the User-Agent *)
  ox_resolve : CredentialReferenceRecord → res string;
  ox_context : SecAuthorizedResource → res SecIngestionContext;
  (** [SecEdgarAdapter.parse_response] *)
  ox_parse : string → SecParseContext → res ProviderBatch;
  ox_put : string → string → res (string * string * Z);
  ox_admit : CommittedSecSettlement → ValidatedSecSettlement → res SecDocumentCitationResult;
  (** what the audit view tells of a terminal record: the slices, status, stage *)
  ox_audit : pilot_db → option (list string * option string * option string) }.

Definition ioM (A : Type) : Type := world → res A * world.
#[export] Instance io_ret : MRet ioM := λ A a w, (Ok a, w).
#[export] Instance io_bind : MBind ioM := λ A B f m w,
  match m w with (Ok a, w) => f a w | (Raise e, w) => (Raise e, w) end.
Definition io_lift {A} (m : res A) : ioM A := λ w, (m, w).
Definition io_fail {A} (e : exn) : ioM A := io_lift (Raise e).
(** One transaction: it commits or leaves the tables as they were. *)
Definition transact {A} (m : pilotM A) : ioM A := λ w,
  match m (wd_db w) with
  | Ok (a, db) => (Ok a, mkWorld db (wd_sent w) (wd_ticks w))
  | Raise e => (Raise e, w)
  end.
Definition catch {A} (m : ioM A) (handle : exn → ioM A) : ioM A := λ w,
  match m w with (Ok a, w) => (Ok a, w) | (Raise e, w) => handle e w end.
Definition taken {A} (f : nat → A) : ioM A := λ w,
  (Ok (f (wd_ticks w)), mkWorld (wd_db w) (wd_sent w) (S (wd_ticks w))).
Definition log_sent (s : sent_request) : ioM unit := λ w, (Ok tt, mkWorld (wd_db w) (wd_sent w ++ [s]) (wd_ticks w)).

(** [except ValueError] *)
Definition value_error (e : exn) : bool :=
  bool_decide (exn_class e ∈ [ValueError; ValidationError; NamedError "LiveEvidenceValidationError";
                              NamedError "ProviderRepositoryConflict"; UnicodeEncodeError]).

(** * Sending (transport.py, retry.py) *)

Definition _TRANSIENT_STATUS_CODES : list Z := [500; 502; 503; 504].
Definition _TRANSIENT_ERROR_CODES : list string := ["CONNECT_TIMEOUT"; "READ_TIMEOUT"].
Definition same_permit (e : gate_b_execution) (r : SecAuthorizedResource) (p : SecAttemptReservationRequest) : bool :=
  bool_decide (aq_authorization_id p = ex_authorization_id e) && bool_decide (aq_plan_id p = ex_plan_id e)
  && String.eqb (aq_plan_checksum p) (ex_plan_checksum e) && String.eqb (aq_slice_id p) (rs_slice_id r)
  && String.eqb (aq_endpoint_id p) (cp_endpoint_id (rs_request r)).
Definition permit_ok (e : gate_b_execution) (r : SecAuthorizedResource) (p : SecAttemptReservationRequest)
    (number : Z) (kind : SecAttemptKind) : bool :=
  same_permit e r p && (aq_attempt_number p =? number) && bool_decide (aq_kind p = kind).
Definition request_for (e : gate_b_execution) (r : SecAuthorizedResource) (number : Z) (kind : SecAttemptKind) :
    SecAttemptReservationRequest :=
  mkAttemptRequest (ex_authorization_id e) (ex_plan_id e) (ex_plan_checksum e) (rs_slice_id r)
    (cp_endpoint_id (rs_request r)) number kind.

Section Pilot.
Context `{UnicodeData} `{CharData} (out : outside).

(** [reservations.reserve]; the request is validated when it is built. *)
Definition reserve_attempt_of (port : reservation_port) (r : SecAttemptReservationRequest) : ioM SecAttemptPermit :=
  r ← io_lift (new_SecAttemptReservationRequest r);
  new ← taken (ox_fresh out);
  transact (on_live (reserve port new r)).

(** [resolve_sec_request_identity] *)
Definition resolve_sec_request_identity (e : gate_b_execution) (reference : CredentialReferenceRecord) : res string :=
  sec_reject (negb (String.eqb (ex_provider e) "SEC_EDGAR_PUBLIC_V1")
    || bool_decide (cd_id reference ≠ ex_user_agent_reference_id e)
    || negb (bool_decide (cw_resolver_kind (cd_write reference) = CredKind.ENVIRONMENT))
    || negb (bool_decide (cw_declared_name (cd_write reference) = Some "SEC_EDGAR_CONTACT_IDENTITY"))
    || negb (bool_decide (cw_status (cd_write reference) = CredSt.CONFIGURED_METADATA_ONLY)))
    "SEC_CONTACT_REFERENCE_INVALID";;
  match ox_resolve out reference with
  | Ok identity => Ok identity
  | Raise err =>
      if value_error err
      then if String.eqb (exn_code err) "SEC_CONTACT_IDENTITY_INVALID" then Raise err
           else sec_error "SEC_CONTACT_REFERENCE_INVALID"
      else Raise err
  end.

(** [_send]: the factory builds its clients with the policy of
    [build_sec_http_client_policy]. *)
Definition error_code (e : http_error) : string :=
  match e with
  | HttpTimeoutError => "READ_TIMEOUT"
  | RetryExhaustedError => "CONNECT_TIMEOUT"
  | _ => "SEC_TRANSPORT_BLOCKED"
  end.
Definition _send (r : SecAuthorizedResource) (permit : SecAttemptPermit) (identity : string) : ioM SecPhysicalAttempt :=
  started_at ← taken (ox_clock out);
  network ← taken (ox_network out);
  cache ← taken (ox_cache out);
  let accept := default "" (head (cp_accepted_content_types (rs_request r))) in
  match get (build_sec_http_client_policy true) (Some identity) (ox_urljoin out) network
          (mkHttpRequest (cp_url (rs_request r)) accept []) cache with
  | None => io_fail (mkExn RuntimeError "unreachable")
  | Some (result, _, wire) =>
      log_sent (mkSent (pm_request_attempt_id permit) (cp_url (rs_request r)) wire);;
      completed_at ← taken (ox_clock out);
      mret (match result with
            | inl response => mkPhysical permit (Some response) None started_at completed_at (Some true)
            | inr e => mkPhysical permit None (Some (error_code e)) started_at completed_at None
            end)
  end.

(** [SecGateBRetryController.classify]: a new permit, or why there is none. *)
Definition classify (port : reservation_port) (e : gate_b_execution) (r : SecAuthorizedResource)
    (previous : SecAttemptPermit) (http_status : option Z) (code : option string) : ioM (SecAttemptPermit + string) :=
  if bool_decide (http_status = Some 429) then mret (inr "SEC_HTTP_429_ABORT") else
  let eligible := match http_status with Some s => bool_decide (s ∈ _TRANSIENT_STATUS_CODES) | None => false end
    || match code with Some c => bool_decide (c ∈ _TRANSIENT_ERROR_CODES) | None => false end in
  if negb eligible then mret (inr "SEC_RETRY_NOT_ELIGIBLE") else
  let q := pm_request previous in
  if negb (same_permit e r q) || (4 <=? aq_attempt_number q) then mret (inr "SEC_ATTEMPT_RESERVATION_REQUIRED") else
  let request := request_for e r (aq_attempt_number q + 1) AttKind.RETRY in
  io_lift (new_SecAttemptReservationRequest request) ≫= λ _,
  catch (permit ← reserve_attempt_of port request;
         mret (if permit_ok e r (pm_request permit) (aq_attempt_number request) AttKind.RETRY then inl permit
               else inr "SEC_ATTEMPT_RESERVATION_REQUIRED"))
    (λ err, if value_error err then mret (inr "SEC_RETRY_BUDGET_EXHAUSTED") else io_fail err).

(** [SecGateBTransportController]; the sequence of attempts is never empty when
    the transport answers. *)
Definition _require_matching_permit (e : gate_b_execution) (r : SecAuthorizedResource) (permit : SecAttemptPermit)
    (number : Z) (kind : SecAttemptKind) : res unit :=
  sec_reject (negb (permit_ok e r (pm_request permit) number kind)) "SEC_ATTEMPT_RESERVATION_REQUIRED".
Definition successful (a : SecPhysicalAttempt) : bool :=
  match pa_response a with Some h => (200 <=? hr_status_code h) && (hr_status_code h <? 300) | None => false end.
Definition status_of (a : SecPhysicalAttempt) : option Z := hr_status_code <$> pa_response a.
(** [ProviderRetryOutcome] *)
Definition outcome_ok (a : SecPhysicalAttempt) : bool :=
  opt_forallb (between 100 599) (status_of a) && (is_some (status_of a) || is_some (pa_safe_error_code a)).
Definition transport_execute (port : reservation_port) (e : gate_b_execution) (plan : ProviderSyncPlanRecord)
    (slice_id : string) (contact : CredentialReferenceRecord) (permit : option SecAttemptPermit) :
    ioM SecTransportResult :=
  authorized_plan ← io_lift (bind_sec_authorized_plan e plan);
  resource ← io_lift (require_resource authorized_plan slice_id);
  permit ← match permit with
           | Some permit => mret permit
           | None => reserve_attempt_of port (request_for e resource 1 AttKind.INITIAL)
           end;
  let number := aq_attempt_number (pm_request permit) in
  io_lift (_require_matching_permit e resource permit number AttKind.INITIAL) ≫= λ _,
  match resolve_sec_request_identity e contact with
  | Raise err =>
      if value_error err then
        occurred_at ← taken (ox_clock out);
        mret (mkTransport false "SEC_CONTACT_RESOLUTION_FAILED"
                [mkPhysical permit None (Some "SEC_CONTACT_RESOLUTION_FAILED") occurred_at occurred_at (Some false)])
      else io_fail err
  | Ok identity =>
      attempt ← _send resource permit identity;
      if successful attempt then mret (mkTransport true "SEC_TRANSPORT_COMPLETED" [attempt]) else
      io_lift (reject_if (negb (outcome_ok attempt)) ValidationError "ProviderRetryOutcome") ≫= λ _,
      decision ← classify port e resource permit (status_of attempt) (pa_safe_error_code attempt);
      match decision with
      | inr reason => mret (mkTransport false reason [attempt])
      | inl retry =>
          io_lift (_require_matching_permit e resource retry (number + 1) AttKind.RETRY) ≫= λ _,
          retry_attempt ← _send resource retry identity;
          mret (if successful retry_attempt
                then mkTransport true "SEC_TRANSPORT_COMPLETED" [attempt; retry_attempt]
                else mkTransport false
                       (if bool_decide (status_of retry_attempt = Some 429) then "SEC_HTTP_429_ABORT"
                        else "SEC_TRANSIENT_RETRY_EXHAUSTED") [attempt; retry_attempt])
      end
  end.

(** * Settling (gate_b_pilot.py) *)

Definition response_bytes (a : SecPhysicalAttempt) : Z :=
  match pa_response a with Some h => Z.of_nat (String.length (hr_body h)) | None => 0 end.
(** [value or default] of a text *)
Definition or_else (s : option string) (d : string) : string :=
  match s with Some EmptyString | None => d | Some s => s end.
(** [settle_failure] *)
Definition settle_failure (a : SecPhysicalAttempt) : ioM unit :=
  let unstarted := bool_decide (pa_socket_opened a = Some false) && (response_bytes a =? 0) in
  let id := pm_request_attempt_id (pa_permit a) in
  transact (on_live (settle_both
    (mkAttemptSettlement id SliceSt.BLOCKED (status_of a) (response_bytes a) (pa_completed_at a)
       (Some (or_else (pa_safe_error_code a) "SEC_TRANSPORT_BLOCKED")))
    (mkSettle (aq_authorization_id (pm_request (pa_permit a))) id (response_bytes a) (negb unstarted)
       (if unstarted then ConsSt.ABANDONED else ConsSt.SETTLED) (pa_completed_at a)))).

(** [settle]: the bytes are written first, then one transaction. *)
Definition settle_artifact (v : ValidatedSecSettlement) (a : SecPhysicalAttempt) : ioM CommittedSecSettlement :=
  let c := vs_context v in
  io_lift (sec_reject (bool_decide (pm_request_attempt_id (pa_permit a) ≠ vs_request_attempt_id v))
    "SEC_SETTLEMENT_ATTEMPT_MISMATCH") ≫= λ _,
  match pa_response a with
  | None => io_lift (sec_error "SEC_SETTLEMENT_RESPONSE_REQUIRED")
  | Some response =>
      io_lift (sec_reject (bool_decide (pa_socket_opened a ≠ Some true)) "SEC_SETTLEMENT_RESPONSE_REQUIRED") ≫= λ _,
      stored ← io_lift (write_blob (ox_put out) (vs_raw_artifact_draft v) (vs_body v));
      artifact_write ← io_lift (new_ProviderRawArtifactWrite
        (mkArtifactWrite (sc_provider_definition_id c) (sc_provider_capability_id c) (sc_sync_run_id c)
           (vs_request_attempt_id v) (sc_license_policy_id c) (sc_source_identity c) (vs_source_checksum v)
           (st_byte_count stored) (st_content_type stored) (st_blob_key stored) (sc_retrieved_at c)
           (sc_source_published_at c) (sc_synthetic_status c)));
      identities ← io_lift (res_map (λ r, identity_checksum (rd_identity r)) (bt_records (vs_batch v)));
      batch_checksum ← io_lift (build_provider_batch_checksum (bt_records (vs_batch v)));
      batch ← io_lift (new_ProviderManifestBatch (mkManifestBatch (sort_str identities) batch_checksum));
      manifest ← io_lift (build_ingestion_manifest
        (mkArtifactRecord (vs_artifact_id v) artifact_write (sc_retrieved_at c)) batch
        (as_ingestion_context c (vs_request_attempt_id v)));
      artifact_time ← taken (ox_clock out);
      manifest_id ← taken (ox_uuid out);
      manifest_time ← taken (ox_clock out);
      let bytes := Z.of_nat (String.length (hr_body response)) in
      record ← transact (
        on_live (settle_both
          (mkAttemptSettlement (vs_request_attempt_id v) SliceSt.COMPLETED (Some (hr_status_code response)) bytes
             (pa_completed_at a) None)
          (mkSettle (aq_authorization_id (pm_request (pa_permit a))) (vs_request_attempt_id v) bytes true
             ConsSt.SETTLED (pa_completed_at a))) ≫= λ _,
        _ ← add_artifact_with_id (mkArtifactReservation (vs_artifact_id v) artifact_write) artifact_time;
        add_manifest manifest_id manifest manifest_time);
      mret (mkCommitted (vs_artifact_id v) (mr_id record) (vs_request_attempt_id v) (st_storage_uri stored)
              (st_checksum stored) (mw_manifest_checksum manifest))
  end.

(** [validate_sec_response] *)
Definition media_type (h : HttpResult) : res string :=
  lower <$> utf8 (ustrip (utext (cut ";" (default "" (hr_content_type h))).1)).
Definition validate_sec_response (a : SecPhysicalAttempt) (r : SecAuthorizedResource) (c : SecIngestionContext)
    (artifact_id : UUID) : res ValidatedSecSettlement :=
  match pa_response a with
  | None => sec_error "SEC_RESPONSE_NOT_SUCCESSFUL"
  | Some h =>
      sec_reject (negb (successful a)) "SEC_RESPONSE_NOT_SUCCESSFUL";;
      let body := hr_body h in
      sec_reject (String.eqb body "" || (rs_max_response_bytes r <? Z.of_nat (String.length body)))
        "SEC_RESPONSE_SIZE_INVALID";;
      content_type ← media_type h;
      sec_reject (bool_decide (content_type ∉ map lower (cp_accepted_content_types (rs_request r))))
        "SEC_RESPONSE_MIME_INVALID";;
      let q := pm_request (pa_permit a) in
      sec_reject (bool_decide (aq_plan_id q ≠ rs_plan_id r) || negb (String.eqb (aq_plan_checksum q) (rs_plan_checksum r))
        || negb (String.eqb (aq_slice_id q) (rs_slice_id r))
        || negb (String.eqb (aq_endpoint_id q) (cp_endpoint_id (rs_request r)))) "SEC_SETTLEMENT_RESOURCE_MISMATCH";;
      let source_checksum := sha256_hex body in
      let attempt_id := pm_request_attempt_id (pa_permit a) in
      manifest_checksum ← provider_checksum (VMap [
        ("artifact_id", VUuid artifact_id); ("request_attempt_id", VUuid attempt_id);
        ("source_identity", VStr (sc_source_identity c)); ("source_checksum", VStr source_checksum);
        ("schema_version", VStr (sc_schema_version c))]);
      batch ← ox_parse out body (mkParseContext c artifact_id source_checksum manifest_checksum content_type);
      draft ← new_ProviderRawArtifactDraft (mkArtifactDraft content_type (Some source_checksum) true);
      Ok (mkValidated artifact_id attempt_id source_checksum content_type body batch draft c)
  end.

(** * Stopping at data quality *)

Definition commit_result (store : terminal_store) (result : LiveValidationResult) (issues : list ProviderQualityIssue) :
    ioM LiveValidationResult :=
  result ← io_lift (new_LiveValidationResult result);
  new ← taken (ox_terminal out);
  event ← transact (commit_terminal store new result issues);
  mret (mkLiveResult (lt_passed result) (lt_terminal_stage result) (lt_artifact_id result) (lt_manifest_id result)
          (lt_request_attempt_id result) (lt_document_version_id result) (lt_citation_ids result)
          (lt_data_quality_issue_count result) (lt_warning_codes result) (lt_stop_reason result)
          (lt_failed_ordinal result) (lt_failed_slice_id result) (Some event)).
(** [block_resource_failure] *)
Definition block_resource_failure (store : terminal_store) (r : SecAuthorizedResource) (attempt_id : UUID)
    (stop_reason : string) : ioM LiveValidationResult :=
  commit_result store (mkLiveResult false "RESOURCE_ORCHESTRATION" None None attempt_id None [] 0 [] stop_reason
    (Some (rs_ordinal r)) (Some (rs_slice_id r)) None) [].
(** [evaluate] *)
Definition quality_context (v : ValidatedSecSettlement) : ProviderQualityContext :=
  let c := vs_context v in
  mkQualityContext (sc_research_as_of_time c) (sc_provider_definition_id c) (sc_provider_capability_id c)
    (vs_artifact_id v) (vs_source_checksum v) (sc_synthetic_status c) [] [].
Definition _SLICES : list string := ["SEC_SUBMISSIONS"; "SEC_FILING_INDEX"; "SEC_PRIMARY_DOCUMENT"].
Definition evaluate (store : terminal_store) (completed : list CompletedSecResource) (d : SecDocumentCitationResult) :
    ioM LiveValidationResult :=
  match last completed with
  | Some primary =>
      if bool_decide (map (λ i, rs_slice_id (cm_resource i)) completed ≠ _SLICES)
      then io_lift (live_error "GATE_B_RESOURCE_SET_INCOMPLETE") else
      let c := cm_committed primary in
      let v := cm_validated primary in
      io_lift (live_reject (bool_decide (rs_artifact_kind (cm_resource primary) ≠ SecArt.PRIMARY_FILING_DOCUMENT))
        "GATE_B_PRIMARY_DOCUMENT_INVALID") ≫= λ _,
      io_lift (sec_reject (bool_decide ((cs_artifact_id c, cs_request_attempt_id c, cs_content_checksum c) ≠
          (vs_artifact_id v, vs_request_attempt_id v, vs_source_checksum v))) "SEC_DATA_QUALITY_LINEAGE_MISMATCH") ≫= λ _,
      issues ← io_lift (quality_issues (vs_batch v) (quality_context v));
      commit_result store (mkLiveResult (bool_decide (issues = [])) "DATA_QUALITY" (Some (cs_artifact_id c))
        (Some (cs_manifest_id c)) (cs_request_attempt_id c) (Some (dc_document_version_id d)) (dc_citation_ids d)
        (Z.of_nat (length issues)) [] "DATA_QUALITY_STOP" None None None) issues
  | None => io_lift (live_error "GATE_B_RESOURCE_SET_INCOMPLETE")
  end.

(** * The pilot *)

(** [str(exc)] of the exceptions [_execute_resource] catches: the text of a
    pydantic error never starts with a code. *)
Definition failure_code (e : exn) : string :=
  if bool_decide (exn_class e = NamedError "LiveEvidenceValidationError") then exn_code e
  else if negb (bool_decide (exn_class e = ValidationError)) && String.prefix "SEC_" (exn_code e) then exn_code e
  else "SEC_RESPONSE_VALIDATION_FAILED".
Definition with_error_code (a : SecPhysicalAttempt) (code : string) : SecPhysicalAttempt :=
  mkPhysical (pa_permit a) (pa_response a) (Some code) (pa_started_at a) (pa_completed_at a) (pa_socket_opened a).
Fixpoint settle_failures (l : list SecPhysicalAttempt) : ioM unit :=
  match l with
  | [] => mret tt
  | a :: l => settle_failure a ≫= λ _, settle_failures l
  end.

(** [_require_context] *)
Definition _require_context (r : SecAuthorizedResource) (c : SecIngestionContext) : res unit :=
  live_reject (bool_decide (sc_artifact_kind c ≠ rs_artifact_kind r)
    || negb (String.eqb (sc_source_endpoint_type c) (cp_endpoint_id (rs_request r)))) "SEC_INGESTION_CONTEXT_MISMATCH".
(** [_require_permit] *)
Definition _require_permit (e : gate_b_execution) (r : SecAuthorizedResource) (permit : SecAttemptPermit) (number : Z) :
    res unit :=
  live_reject (negb (permit_ok e r (pm_request permit) number AttKind.INITIAL)) "SEC_ATTEMPT_RESERVATION_REQUIRED".
(** [_require_dependency_lineage] *)
Definition names_primary (primary_filename index_path : string) (r : ProviderRecord) : bool :=
  let value key := dict_get (rd_text_values r) key in
  bool_decide (value "primary_document" = Some (Some primary_filename))
  && has_sub (replace "-" "" (match value "accession_number" with
                              | None => "" | Some None => "None" | Some (Some s) => s end)) index_path.
Definition _require_dependency_lineage (resources : list SecAuthorizedResource) (completed : list CompletedSecResource) :
    res unit :=
  let path (n : nat) := default "" ((λ r, cp_path (rs_request r)) <$> resources !! n) in
  let primary_filename := after_last "/" (path 2%nat) in
  match completed with
  | [c] =>
      live_reject (negb (existsb (names_primary primary_filename (path 1%nat)) (bt_records (vs_batch (cm_validated c)))))
        "SEC_RESOURCE_DEPENDENCY_INVALID"
  | [_; c] => live_reject (negb (has_sub primary_filename (vs_body (cm_validated c)))) "SEC_RESOURCE_DEPENDENCY_INVALID"
  | _ => Ok tt
  end.

Section Application.
Context (port : reservation_port) (store : terminal_store) (e : gate_b_execution) (plan : ProviderSyncPlanRecord)
  (contact : CredentialReferenceRecord).

(** What the response of a completed attempt becomes, or the end of the run. *)
Definition validated_response (r : SecAuthorizedResource) (a : SecPhysicalAttempt) : ioM ValidatedSecSettlement :=
  context ← io_lift (ox_context out r);
  io_lift (_require_context r context) ≫= λ _,
  artifact_id ← taken (ox_uuid out);
  io_lift (validate_sec_response a r context artifact_id).
Definition invalid_response (r : SecAuthorizedResource) (a : SecPhysicalAttempt) (err : exn) :
    ioM ValidatedSecSettlement :=
  if value_error err then
    let code := failure_code err in
    settle_failure (with_error_code a code) ≫= λ _,
    block_resource_failure store r (pm_request_attempt_id (pa_permit a)) code ≫= λ _,
    io_lift (live_error code)
  else io_fail err.
(** [_execute_resource] *)
Definition _execute_resource (r : SecAuthorizedResource) (permit : SecAttemptPermit) :
    ioM (CompletedSecResource * Z) :=
  result ← transport_execute port e plan (rs_slice_id r) contact (Some permit);
  settle_failures (removelast (tr_attempts result)) ≫= λ _,
  match tr_completed result, last (tr_attempts result) with
  | true, Some attempt =>
      validated ← catch (validated_response r attempt) (invalid_response r attempt);
      committed ← settle_artifact validated attempt;
      mret (mkCompleted r committed validated, aq_attempt_number (pm_request (pa_permit attempt)))
  | true, None => io_fail (mkExn IndexError "tuple index out of range")
  | false, Some attempt =>
      settle_failure attempt ≫= λ _,
      block_resource_failure store r (pm_request_attempt_id (pa_permit attempt))
        (or_else (pa_safe_error_code attempt) "SEC_RESOURCE_EXECUTION_BLOCKED") ≫= λ _,
      io_lift (live_error (tr_reason_code result))
  | false, None => io_lift (live_error (tr_reason_code result))
  end.

(** [_reserve_resource] *)
Definition _reserve_resource (r : SecAuthorizedResource) (number : Z) : ioM SecAttemptPermit :=
  permit ← reserve_attempt_of port (request_for e r number AttKind.INITIAL);
  io_lift (_require_permit e r permit number) ≫= λ _,
  mret permit.
(** The loop of [execute_authorized]. *)
Fixpoint execute_all (resources todo : list SecAuthorizedResource) (completed : list CompletedSecResource)
    (initial : SecAttemptPermit) (next_attempt_number : Z) : ioM (list CompletedSecResource) :=
  match todo with
  | [] => mret completed
  | r :: todo =>
      permit ← (if rs_ordinal r =? 0
                then io_lift (_require_permit e r initial 1) ≫= λ _, mret initial
                else _reserve_resource r next_attempt_number);
      '(c, last_attempt_number) ← _execute_resource r permit;
      let completed := completed ++ [c] in
      catch (io_lift (_require_dependency_lineage resources completed)) (λ err,
        if bool_decide (exn_class err = NamedError "LiveEvidenceValidationError") then
          block_resource_failure store r (cs_request_attempt_id (cm_committed c)) (exn_code err) ≫= λ _, io_fail err
        else io_fail err) ≫= λ _,
      execute_all resources todo completed initial (last_attempt_number + 1)
  end.
(** [SecGateBPilotApplication.execute_authorized] *)
Definition execute_authorized (initial : SecAttemptPermit) : ioM LiveValidationResult :=
  authorized_plan ← io_lift (bind_sec_authorized_plan e plan);
  let resources := sp_resources authorized_plan in
  completed ← execute_all resources resources [] initial 1;
  match last completed with
  | Some primary =>
      document ← io_lift (ox_admit out (cm_committed primary) (cm_validated primary));
      evaluate store completed document
  | None => io_fail (mkExn IndexError "list index out of range")
  end.
End Application.

(** The audit view must tell of the three slices and of the result. *)
Definition check_audit (result : LiveValidationResult) : ioM LiveValidationResult := λ w,
  match ox_audit out (wd_db w) with
  | Some (slices, status, stage) =>
      if bool_decide (slices = _SLICES) && bool_decide (status = Some (status_value (lt_passed result)))
         && bool_decide (stage = Some "DATA_QUALITY")
      then (Ok result, w) else (live_error "GATE_B_AUDIT_INCOMPLETE", w)
  | None => (live_error "GATE_B_AUDIT_INCOMPLETE", w)
  end.
(** [AuthorizedSecGateBOfflineApplication.execute_authorized]: the port keeps
    the execution it has started. *)
Definition run_pilot (port : reservation_port) (store : terminal_store) (validation : gate_b_execution)
    (plan : ProviderSyncPlanRecord) (contact : CredentialReferenceRecord) : ioM LiveValidationResult :=
  authorized_plan ← io_lift (bind_sec_authorized_plan validation plan);
  match sp_resources authorized_plan with
  | [] => io_fail (mkExn IndexError "tuple index out of range")
  | initial :: _ =>
      request ← io_lift (new_SecAttemptReservationRequest (request_for validation initial 1 AttKind.INITIAL));
      new ← taken (ox_fresh out);
      '(port, permit) ← transact (on_live (start_execution port new request));
      result ← execute_authorized port store (execution_of (po_execution port)) plan contact permit;
      check_audit result
  end.
End Pilot.

(** * What a run can send *)

(** A client sends at most one message, to a host of EDGAR, for a URL that a plan
    can be bound to. *)
Definition sent_ok `{CharData} (s : sent_request) : Prop :=
  (length (sn_wire s) <= 1)%nat ∧ Forall (wire_ok (build_sec_http_client_policy true)) (sn_wire s) ∧
  ∃ endpoint_id cik, endpoint_id ∈ ["SEC_SUBMISSIONS_JSON"; "SEC_FILING_DOCUMENT"] ∧ goes_to endpoint_id cik (sn_url s).
Definition attempt_ids (db : live_db) : list UUID := map at_id (sy_attempts (lv_sync db)).
Abbreviation world_ids w := (attempt_ids (pl_live (wd_db w))).
(** Every message has an attempt of its own, and the attempts are in order. *)
Record sound `{CharData} (w : world) : Prop := {
  so_runs : runs_ok (pl_live (wd_db w));
  so_once : NoDup (map sn_attempt (wd_sent w));
  so_attempts : ∀ s, s ∈ wd_sent w → sn_attempt s ∈ world_ids w;
  so_sent : Forall sent_ok (wd_sent w) }.
(** A permit that was reserved and not used. *)
Definition unsent (p : SecAttemptPermit) (w : world) : Prop :=
  pm_request_attempt_id p ∈ world_ids w ∧ pm_request_attempt_id p ∉ map sn_attempt (wd_sent w).

(** ** Tables that only grow *)

Definition live_grows (db db' : live_db) : Prop := runs_ok db → runs_ok db' ∧ attempt_ids db ⊆ attempt_ids db'.
Lemma live_grows_refl db : live_grows db db.
Proof. intros H. split; [exact H|done]. Qed.
Lemma live_grows_trans db1 db2 db3 : live_grows db1 db2 → live_grows db2 db3 → live_grows db1 db3.
Proof. intros H1 H2 H. destruct (H1 H) as [Hr Hi]. destruct (H2 Hr) as [Hr' Hi']. split; [done|by etransitivity]. Qed.

Lemma reserve_attempt_new port new r db u db' : _reserve_attempt port new r db = Ok (u, db') → runs_ok db →
  runs_ok db' ∧ attempt_ids db' = attempt_ids db ++ [fr_attempt_id new] ∧ fr_attempt_id new ∉ attempt_ids db.
Proof.
  intros E Hr. split; [by eapply _reserve_attempt_runs|].
  apply _reserve_attempt_Ok in E as (v & db1 & run & plan & Hres & _ & _ & _ & _ & _ & Hnew & ->).
  apply reserve_consumption_frame in Hres as (Hdb1 & _).
  assert (lv_sync db1 = lv_sync db) as Hsy by (by rewrite Hdb1).
  unfold attempt_ids, with_attempt. cbn [lv_sync with_sync with_attempts sy_attempts]. rewrite Hsy in *.
  split; [by rewrite map_app|]. intros (a & Ha & Hin)%list_elem_of_fmap. rewrite Forall_forall in Hnew.
  by destruct (proj1 (Hnew a Hin)).
Qed.
Lemma settle_both_grows a c db db' : settle_both a c db = Ok (tt, db') → live_grows db db'.
Proof.
  intros E Hr. split; [by apply (run_op_runs (LSettle a c) db)|].
  apply settle_both_Ok in E as (x & sy & v & Hs & _ & _ & Hc).
  apply settle_attempt_Ok in Hs as (f & Hf & ->); [|by destruct Hr].
  assert (lv_sync db' = with_attempts (lv_sync db) (map f (sy_attempts (lv_sync db)))) as Hsy
    by (by apply settle_consumption_Ok in Hc as [->|(? & ? & _ & _ & _ & _ & _ & _ & _ & _ & ->)]).
  unfold attempt_ids. rewrite Hsy. cbn [with_attempts sy_attempts]. rewrite map_map.
  intros i (a' & -> & Hin)%list_elem_of_fmap. rewrite <- (proj1 (Hf a' Hin)).
  by apply (in_keys (λ r, at_id (f r)) a').
Qed.

(** ** Reasoning about steps *)

Definition triple `{CharData} {A} (P : world → Prop) (m : ioM A) (Q : A → world → Prop) : Prop :=
  ∀ w, sound w → P w → sound (m w).2 ∧ ∀ a, (m w).1 = Ok a → Q a (m w).2.
Abbreviation keeps m := (triple (λ _, True) m (λ _ _, True)).

Section Rules.
Context `{UnicodeData} `{CharData}.

Lemma triple_ret {A} (P : world → Prop) (a : A) (Q : A → world → Prop) : (∀ w, P w → Q a w) → triple P (mret a) Q.
Proof. intros HQ w Hs HP. split; [exact Hs|]. cbn. intros a' [= <-]. by apply HQ. Qed.
Lemma triple_lift {A} (P : world → Prop) (m : res A) : triple P (io_lift m) (λ a w, m = Ok a ∧ P w).
Proof. intros w Hs HP. split; [exact Hs|]. by intros a. Qed.
Lemma triple_fail {A} P e (Q : A → world → Prop) : triple P (io_fail e) Q.
Proof. intros w Hs HP. split; [exact Hs|]. discriminate. Qed.
Lemma triple_bind {A B} P (m : ioM A) R (f : A → ioM B) Q :
  triple P m R → (∀ a, triple (R a) (f a) Q) → triple P (m ≫= f) Q.
Proof.
  intros Hm Hf w Hs HP. destruct (Hm w Hs HP) as [Hs' Ha]. unfold mbind, io_bind.
  destruct (m w) as [[a|e] w']; cbn in *; [|by split]. apply Hf; [done|by apply Ha].
Qed.
Lemma triple_weaken {A} (P P' : world → Prop) (m : ioM A) (Q Q' : A → world → Prop) :
  triple P m Q → (∀ w, P' w → P w) → (∀ a w, Q a w → Q' a w) → triple P' m Q'.
Proof. intros Hm HP HQ w Hs Hw. destruct (Hm w Hs (HP w Hw)) as [? Ha]. split; [done|]. intros a E. by apply HQ, Ha. Qed.
Lemma triple_keeps {A} P (m : ioM A) : keeps m → triple P m (λ _ _, True).
Proof. intros Hm. eapply triple_weaken; [exact Hm|done|done]. Qed.
Lemma triple_catch {A} P (m : ioM A) h Q :
  triple P m Q → (∀ e, triple (λ _, True) (h e) Q) → triple P (catch m h) Q.
Proof.
  intros Hm Hh w Hs HP. destruct (Hm w Hs HP) as [Hs' Ha]. unfold catch.
  destruct (m w) as [[a|e] w']; cbn in *; [split; [done|]; intros a' [= <-]; by apply Ha|by apply Hh].
Qed.
(** A value taken from outside, under what the tables and messages tell. *)
Lemma triple_taken {A} (P : world → Prop) (f : nat → A) :
  (∀ db sent n m, P (mkWorld db sent n) → P (mkWorld db sent m)) → triple P (taken f) (λ _, P).
Proof.
  intros HP [db sent n] [H1 H2 H3 H4] Hw. split; [by constructor|]. intros a _. by eapply HP.
Qed.
Lemma triple_transact {A} (m : pilotM A) : (∀ db a db', m db = Ok (a, db') → live_grows (pl_live db) (pl_live db')) →
  keeps (transact m).
Proof.
  intros Hm [db sent n] [H1 H2 H3 H4] _. unfold transact. cbn [wd_db wd_sent wd_ticks] in *.
  destruct (m db) as [[a db']|e] eqn:E; (split; [|done]); [|by constructor].
  destruct (Hm db a db' E H1) as [Hr Hi]. constructor; cbn [snd wd_db wd_sent] in *; try done.
  intros s Hs. by apply Hi, H3.
Qed.

(** Reserving yields a permit that was not used. *)
Lemma reserved_unsent {A} (m : pilotM A) (permit : A → SecAttemptPermit) :
  (∀ db a db', m db = Ok (a, db') → runs_ok (pl_live db) → runs_ok (pl_live db') ∧
     attempt_ids (pl_live db') = attempt_ids (pl_live db) ++ [pm_request_attempt_id (permit a)] ∧
     pm_request_attempt_id (permit a) ∉ attempt_ids (pl_live db)) →
  triple (λ _, True) (transact m) (λ a, unsent (permit a)).
Proof.
  intros Hm [db sent n] [H1 H2 H3 H4] _. unfold transact. cbn [wd_db wd_sent wd_ticks] in *.
  destruct (m db) as [[a db']|e] eqn:E; [|split; [by constructor|discriminate]].
  destruct (Hm db a db' E H1) as (Hr & Hi & Hn). split.
  - constructor; cbn [snd wd_db wd_sent]; try done. intros s Hs. rewrite Hi. apply elem_of_app. left. by apply H3.
  - intros a' [= <-]. unfold unsent. cbn [snd wd_db wd_sent]. rewrite Hi. split; [apply elem_of_app; right; by left|].
    intros (s & Es & Hs)%list_elem_of_fmap. apply Hn. rewrite Es. by apply H3.
Qed.
Lemma reserve_unsent out port r : triple (λ _, True) (reserve_attempt_of out port r) unsent.
Proof.
  unfold reserve_attempt_of. eapply triple_bind; [apply triple_lift|]. intros q.
  eapply triple_bind; [apply triple_keeps, triple_taken; done|]. intros new.
  apply (reserved_unsent _ (λ p, p)). intros db p db' E Hr.
  unfold on_live in E. apply bind_Ok in E as ([p' lv] & E & [= <- <-]).
  apply reserve_Ok in E as (-> & _ & E). by eapply reserve_attempt_new.
Qed.
End Rules.

(** ** The steps *)

(** A transaction that leaves the live tables alone. *)
Definition aside {A} (m : pilotM A) : Prop := ∀ db a db', m db = Ok (a, db') → pl_live db' = pl_live db.
Lemma artifact_aside v now : aside (add_artifact_with_id v now).
Proof.
  intros db a db' E. unfold add_artifact_with_id in E. tx_inv E.
  destruct (find _ _); [destruct (_ && _); tx_inv E; done|]. tx_inv E. done.
Qed.
Lemma manifest_aside id m now : aside (add_manifest id m now).
Proof. intros db a db' E. unfold add_manifest in E. tx_inv E. destruct (find _ _); tx_inv E; done. Qed.
Lemma terminal_aside store new result issues : aside (commit_terminal store new result issues).
Proof.
  intros db a db' E. unfold commit_terminal in E. tx_inv E.
  destruct (terminal_events store db) as [|row [|]]; tx_inv E; done.
Qed.

Create HintDb pilot.
Section Steps.
Context `{UnicodeData} `{CharData} (out : outside).

Lemma keeps_lift {A} (m : res A) : keeps (io_lift m).
Proof. eapply triple_weaken; [apply (triple_lift (λ _, True))|done|done]. Qed.
Lemma keeps_taken {A} (f : nat → A) : keeps (taken f).
Proof. by apply triple_taken. Qed.
Lemma keeps_ret {A} (a : A) : keeps (mret a).
Proof. by apply triple_ret. Qed.
Lemma keeps_bind {A B} (m : ioM A) (f : A → ioM B) : keeps m → (∀ a, keeps (f a)) → keeps (m ≫= f).
Proof. apply triple_bind. Qed.
Lemma keeps_fail {A} e : keeps (io_fail (A := A) e).
Proof. apply triple_fail. Qed.
Hint Resolve keeps_lift keeps_taken keeps_ret keeps_fail : pilot.
Ltac steps := repeat first [solve [eauto with pilot] | apply keeps_bind; [|intros]].

Lemma keeps_settle a c : keeps (transact (on_live (settle_both a c))).
Proof.
  apply triple_transact. intros db u db' E. unfold on_live in E.
  apply bind_Ok in E as ([x lv] & E & [= <- <-]). destruct x. by apply settle_both_grows in E.
Qed.
Lemma settle_failure_keeps a : keeps (settle_failure a).
Proof. apply keeps_settle. Qed.
Hint Resolve settle_failure_keeps : pilot.
Lemma settle_failures_keeps l : keeps (settle_failures l).
Proof. induction l as [|a l IH]; cbn; steps. Qed.
Lemma settle_artifact_keeps v a : keeps (settle_artifact out v a).
Proof.
  unfold settle_artifact. steps. destruct (pa_response a); steps. apply triple_transact.
  intros db m db' E. tx_inv E. unfold on_live in F. apply bind_Ok in F as ([u lv] & F & [= <- <-]). destruct u.
  apply settle_both_grows in F. apply artifact_aside in F0. apply manifest_aside in E.
  by rewrite E, F0.
Qed.
Lemma commit_result_keeps store result issues : keeps (commit_result out store result issues).
Proof.
  unfold commit_result. steps. apply triple_transact. intros db e db' E. apply terminal_aside in E.
  rewrite E. apply live_grows_refl.
Qed.
Hint Resolve settle_failures_keeps settle_artifact_keeps commit_result_keeps : pilot.
Lemma block_keeps store r id reason : keeps (block_resource_failure out store r id reason).
Proof. unfold block_resource_failure. steps. Qed.
Lemma evaluate_keeps store completed d : keeps (evaluate out store completed d).
Proof. unfold evaluate. destruct (last completed); [|steps]. destruct (bool_decide _); steps. Qed.
Hint Resolve block_keeps evaluate_keeps : pilot.

(** Where the request of a resource goes. *)
Definition edgar (r : SecAuthorizedResource) : Prop :=
  ∃ endpoint_id cik, endpoint_id ∈ ["SEC_SUBMISSIONS_JSON"; "SEC_FILING_DOCUMENT"] ∧
    goes_to endpoint_id cik (cp_url (rs_request r)).
Lemma bound_plan e plan sp : bind_sec_authorized_plan e plan = Ok sp →
  map rs_ordinal (sp_resources sp) = [0; 1; 2] ∧ Forall edgar (sp_resources sp).
Proof.
  unfold bind_sec_authorized_plan, sec_reject. cbv zeta. rewrite !guard_seq. intros (_ & _ & E).
  destruct (slices ← res_map slice_of_value _; _) as [rs|] eqn:E2; [|discriminate]. injection E as <-.
  apply bind_Ok in E2 as (slices & _ & E). apply bind_all_bound in E; [|repeat constructor; set_solver].
  change (zip _ _GATE_B_RESOURCE_CONTRACT) with (zip [0; 1; 2] _GATE_B_RESOURCE_CONTRACT) in E.
  cbn [zip _GATE_B_RESOURCE_CONTRACT] in E.
  repeat match goal with F : Forall2 _ (_ :: _) _ |- _ => apply Forall2_cons_inv_l in F as (? & ? & [_ [_ [? _]] ?] & F & ->) end.
  apply Forall2_nil_inv_l in E as ->. cbn [fst snd rc_endpoint_id] in *. split; [cbn; congruence|].
  repeat constructor; unfold edgar; eexists _, _; (split; [|eassumption]); set_solver.
Qed.

(** A permit is spent by the message it is sent with. *)
Lemma send_spends r p identity : edgar r → triple (unsent p) (_send out r p identity) (λ _ _, True).
Proof.
  intros Hr. unfold _send.
  eapply triple_bind; [by apply triple_taken|]. intros started.
  eapply triple_bind; [by apply triple_taken|]. intros network.
  eapply triple_bind; [by apply triple_taken|]. intros cache. cbv zeta.
  edestruct (get_ok (build_sec_http_client_policy true)) as (result & cache' & wire & -> & Hlen & Hwire & _);
    [apply sec_policy_valid|].
  eapply (triple_bind _ _ (λ _ _, True)); [|intros ?; eapply triple_bind; [apply keeps_taken|intros t; apply keeps_ret]].
  intros [db sent n] [S1 S2 S3 S4] [Hin Hout]. split; [|done]. unfold log_sent. cbn [wd_db wd_sent wd_ticks fst snd] in *.
  constructor; cbn [wd_db wd_sent]; [done| | |].
  - by apply NoDup_grow.
  - intros s [Hs| ->%list_elem_of_singleton]%elem_of_app; [by apply S3|exact Hin].
  - apply Forall_app. split; [done|]. constructor; [|constructor]. split_and!; [cbn in *; lia|exact Hwire|exact Hr].
Qed.

Lemma classify_unsent port e r p status code :
  triple (λ _, True) (classify out port e r p status code) (λ d w, match d with inl q => unsent q w | inr _ => True end).
Proof.
  unfold classify. repeat (destruct (bool_decide _); [by apply triple_ret|]).
  destruct (negb _); [by apply triple_ret|]. cbv zeta. destruct (_ || _); [by apply triple_ret|].
  eapply triple_bind; [apply keeps_lift|]. intros ?. apply triple_catch.
  - eapply triple_bind; [apply reserve_unsent|]. intros q. apply triple_ret. intros w Hw.
    by destruct (permit_ok _ _ _ _ _).
  - intros err. destruct (value_error err); [by apply triple_ret|apply triple_fail].
Qed.

Lemma triple_check {A} P (m : res A) : triple P (io_lift m) (λ _, P).
Proof. eapply triple_weaken; [apply (triple_lift P)|done|]. by intros a w [_ ?]. Qed.
Lemma triple_pure {A} (φ : Prop) P (m : ioM A) Q : (φ → triple P m Q) → triple (λ w, φ ∧ P w) m Q.
Proof. intros Hm w Hs [Hφ HP]. by apply Hm. Qed.
Lemma transport_keeps port e plan slice contact permit :
  triple (λ w, match permit with Some p => unsent p w | None => True end)
    (transport_execute out port e plan slice contact permit) (λ _ _, True).
Proof.
  unfold transport_execute. eapply triple_bind; [apply triple_lift|]. intros sp.
  apply triple_pure. intros Hsp%bound_plan. destruct Hsp as [_ Hed].
  eapply triple_bind; [apply triple_lift|]. intros r. apply triple_pure. intros Hr.
  assert (edgar r) as Her.
  { unfold require_resource in Hr. destruct (find _ _) as [x|] eqn:Ef; [|discriminate]. injection Hr as <-.
    apply find_elem in Ef as [Ef _]. rewrite Forall_forall in Hed. by apply Hed. }
  eapply triple_bind; [|].
  { instantiate (1 := λ p, unsent p). destruct permit as [p|]; [by apply triple_ret|]. apply reserve_unsent. }
  intros p. eapply triple_bind; [apply triple_check|]. intros ?.
  destruct (resolve_sec_request_identity out e contact) as [identity|err].
  2: { destruct (value_error err); [|apply triple_fail]. apply triple_keeps. steps. }
  eapply triple_bind; [by apply send_spends|]. intros x.
  destruct (successful x); [apply keeps_ret|].
  eapply triple_bind; [apply keeps_lift|]. intros ?.
  eapply triple_bind; [apply classify_unsent|]. intros [q|reason]; [|apply keeps_ret].
  eapply triple_bind; [apply triple_check|]. intros ?.
  eapply triple_bind; [by apply send_spends|]. intros y. apply keeps_ret.
Qed.

Lemma execute_resource_keeps port store e plan contact r p :
  triple (unsent p) (_execute_resource out port store e plan contact r p) (λ _ _, True).
Proof.
  unfold _execute_resource. eapply triple_bind; [exact (transport_keeps port e plan (rs_slice_id r) contact (Some p))|].
  intros result. steps.
  destruct (tr_completed result), (last (tr_attempts result)) as [x|]; steps.
  apply triple_catch.
  - unfold validated_response. steps.
  - intros err. unfold invalid_response. destruct (value_error err); steps.
Qed.
(** One pass of the loop, from a permit. *)
Lemma execute_all_keeps port store e plan contact resources todo : ∀ completed initial number,
  Forall (λ r, rs_ordinal r ≠ 0) todo →
  keeps (execute_all out port store e plan contact resources todo completed initial number).
Proof.
  induction todo as [|r todo IH]; intros completed initial number Ht; [apply keeps_ret|].
  apply Forall_cons in Ht as [Hr Ht]. cbn [execute_all]. rewrite (proj2 (Z.eqb_neq _ _) Hr).
  eapply triple_bind.
  { unfold _reserve_resource. eapply triple_bind; [apply reserve_unsent|]. intros p.
    eapply triple_bind; [apply triple_check|]. intros ?. by apply triple_ret. }
  intros p. eapply triple_bind; [apply execute_resource_keeps|]. intros [c last_number].
  apply keeps_bind; [|intros; by apply IH].
  apply triple_catch; [steps|]. intros err. destruct (bool_decide _); steps.
Qed.
Lemma execute_authorized_keeps port store e plan contact p :
  triple (unsent p) (execute_authorized out port store e plan contact p) (λ _ _, True).
Proof.
  unfold execute_authorized. eapply triple_bind; [apply triple_lift|]. intros sp. apply triple_pure.
  intros [Ho _]%bound_plan. eapply triple_bind.
  2: { intros completed. destruct (last completed); steps. }
  destruct (sp_resources sp) as [|r todo] eqn:Er; [discriminate|]. rewrite <- Er at 1.
  cbn [map] in Ho. injection Ho as Hr Ht. cbn [execute_all]. rewrite Hr. cbn [Z.eqb].
  eapply triple_bind.
  { eapply triple_bind; [apply triple_check|]. intros ?. by apply (triple_ret (unsent p) p (λ p, unsent p)). }
  intros q. eapply triple_bind; [apply execute_resource_keeps|]. intros [c last_number].
  apply keeps_bind.
  - apply triple_catch; [steps|]. intros err. destruct (bool_decide _); steps.
  - intros ?. apply execute_all_keeps.
    destruct todo as [|r1 [|r2 [|]]]; try discriminate. cbn in Ht. injection Ht as H1 H2.
    repeat constructor; lia.
Qed.

Lemma run_pilot_keeps port store validation plan contact : keeps (run_pilot out port store validation plan contact).
Proof.
  unfold run_pilot. apply keeps_bind; [steps|intros sp]. destruct (sp_resources sp) as [|r l]; [steps|].
  apply keeps_bind; [steps|intros q]. apply keeps_bind; [steps|intros new].
  eapply triple_bind.
  { apply (reserved_unsent _ snd). intros db [port' p] db' E Hr. unfold on_live in E.
    apply bind_Ok in E as ([v lv] & E & [= -> <-]).
    apply start_Ok in E as (e & db1 & st & _ & _ & _ & _ & _ & [= -> ->] & Hc & E).
    apply consume_authorization_Ok in Hc as (_ & _ & ->). eapply reserve_attempt_new in E; [exact E|].
    destruct Hr. by constructor. }
  intros [port' p]. eapply triple_bind; [apply execute_authorized_keeps|]. intros result.
  intros w Hs _. unfold check_audit. destruct (ox_audit _ _) as [[[slices status] stage]|]; [|by split].
  by destruct (_ && _).
Qed.
End Steps.

(** * Runs one after another *)

(** A run: what it is built with, and what it is asked. *)
Record pilot_call := mkCall {
  pc_outside : outside; pc_port : reservation_port; pc_store : terminal_store; pc_validation : gate_b_execution;
  pc_plan : ProviderSyncPlanRecord; pc_contact : CredentialReferenceRecord }.
Section Runs.
Context `{UnicodeData} `{CharData}.
Definition call_pilot (w : world) (c : pilot_call) : world :=
  (run_pilot (pc_outside c) (pc_port c) (pc_store c) (pc_validation c) (pc_plan c) (pc_contact c) w).2.
Definition call_all (w : world) (calls : list pilot_call) : world := foldl call_pilot w calls.

Lemma call_all_sound calls : ∀ w, sound w → sound (call_all w calls).
Proof.
  unfold call_all. induction calls as [|c calls IH]; intros w Hw; [done|]. apply IH.
  exact (proj1 (run_pilot_keeps (pc_outside c) (pc_port c) (pc_store c) (pc_validation c) (pc_plan c) (pc_contact c) w Hw I)).
Qed.

(** The messages sent for the attempts of a sync run. *)
Definition sent_in_run (w : world) (run_id : UUID) : list sent_request :=
  List.filter (λ s, bool_decide (sn_attempt s ∈ map at_id (run_attempts (pl_live (wd_db w)) run_id))) (wd_sent w).

(** C39. No sequence of pilot runs, with whatever ports, plans, clocks, network
    and failures, sends more than was reserved for it.  Every message has an
    attempt row of its own, committed before it was sent, whose request is paid
    for by a consumption of its own; a sync run sends at most four; each goes
    to a host of EDGAR at a public address, without redirects or repetitions,
    for a URL a plan can be bound to. *)
Theorem pilot_sends_reserved w calls : runs_ok (pl_live (wd_db w)) → wd_sent w = [] →
  let w' := call_all w calls in
  NoDup (map sn_attempt (wd_sent w')) ∧
  Forall sent_ok (wd_sent w') ∧
  (∀ s, s ∈ wd_sent w' → ∃ a, a ∈ sy_attempts (lv_sync (pl_live (wd_db w'))) ∧ at_id a = sn_attempt s ∧
     funded (pl_live (wd_db w')) a) ∧
  ∀ run_id, (length (sent_in_run w' run_id) <= 4)%nat.
Proof.
  intros Hr Hs w'. assert (sound w') as [Hr' Hn Ha Ho].
  { apply call_all_sound. constructor; rewrite ?Hs; [done|constructor|by intros ? ?%elem_of_nil|constructor]. }
  split_and!; [done|done| |].
  - intros s (a & E & Hin)%Ha%list_elem_of_fmap. exists a. split_and!; [done|done|]. by destruct Hr' as [_ _ Hf]; apply Hf.
  - intros run_id. destruct Hr' as [_ Hb _]. destruct (Hb run_id) as (_ & Hl & _).
    rewrite <- (length_map at_id) in Hl. etransitivity; [|exact Hl]. rewrite <- (length_map sn_attempt).
    apply NoDup_incl_length; [by apply NoDup_ListNoDup, filter_NoDup|].
    intros i Hi. apply list_elem_of_In in Hi. apply list_elem_of_fmap in Hi as (s & -> & Hin).
    apply list_elem_of_In, filter_In in Hin as [_ Hin%bool_decide_eq_true]. by apply list_elem_of_In.
Qed.
End Runs.

(** * A run on a concrete network *)

Module PilotSample.
#[local] Existing Instance ascii_unicode.
#[local] Instance data : CharData := ascii_chars.
Definition u (s : string) : UUID := mkUUID s.
Definition sum (c : string) : string := String.concat "" (repeat c 64).
Definition numbered (name : string) (n : nat) : UUID := u (name +:+ str_of_Z (Z.of_nat n)).
Definition plan_row (day : date → pyval) : ProviderSyncPlanRecord :=
  mkPlanRecord (u "plan") (mkPlanWrite (u "request") "1.0.0" None (map (slice_fields day) SecSample.slices) (sum "b")) 3 0.
Definition run : ProviderSyncRunRecord :=
  mkSyncRun (u "run") (mkRunWrite (u "request") (u "plan") (u "definition") (u "capability"))
    PRunSt.RUNNING 0 0 0 (Some 0) None None None None [] 0.
(** The tables before a run: the plan is stored, its dates are text there. *)
Definition db : pilot_db :=
  mkPilotDb (mkLiveDb [LiveSample.grant] LiveSample.history [] [LiveSample.approval]
    (mkSyncDb (mkRefs [u "definition"] [u "capability"] [] [u "license"] [] []) []
      [plan_row (λ d, VStr (date_isoformat d))] [run] [] [])) [] [] [] [] [].
Definition start : world := mkWorld db [] 0.

Definition answer (status : Z) (chunks : list string) (n : nat) : attempt_env :=
  mkAttempt false (Addresses [HttpSample.address]) Granted false
    (Responded false (mkResponse status None None (Some "application/json; charset=utf-8") None None chunks None)).
Definition body : string := "[1, aapl-10q.htm]".
Definition context (r : SecAuthorizedResource) : SecIngestionContext :=
  mkSecContext (u "definition") (u "capability") (u "run") (u "license") (u "security") 900 20 None "1.0.0" "1.0.0" "1"
    Synth.FIXTURE_REAL_EXCERPT (rs_slice_id r) (cp_endpoint_id (rs_request r)) (rs_artifact_kind r) None None.
Definition parsed (_ : string) (p : SecParseContext) : res ProviderBatch :=
  let c := px_context p in
  new_ProviderBatch (mkBatch (px_manifest_checksum p)
    [mkRecord (mkIdentity (sc_provider_definition_id c) (sc_provider_capability_id c) (sc_source_identity c) "1" 1)
       (px_raw_artifact_id p) (px_source_checksum p) None RecSt.COMPLETE []
       [("primary_document", Some "aapl-10q.htm"); ("accession_number", Some "0000320193-25-000079")] []
       (sc_synthetic_status c)]).
(** The first message is answered with 503, the others with the status given. *)
Definition out (status : Z) : outside := mkOutside
  (λ n, mkFresh (numbered "attempt" n) (numbered "consumption" n) (numbered "event" n) 10 10 10 10 10)
  (λ n, mkTerminalFresh (numbered "validation" n) (numbered "terminal" n) 50 50) (λ n, 10 + Z.of_nat n) (numbered "id")
  (λ n, if (n =? 2)%nat then answer 503 [] else answer status [body]) (λ _, ∅) (λ _ _, None)
  (λ _, Ok "research contact@example.com") (λ r, Ok (context r)) parsed
  (λ content _, Ok ("blob://local/0123456789abcdef0123456789abcdef", sha256_hex content, Z.of_nat (String.length content)))
  (λ _ _, Ok (mkCitations (u "document") [u "citation"]))
  (λ _, Some (_SLICES, Some "PASSED", Some "DATA_QUALITY")).
Definition contact : CredentialReferenceRecord :=
  mkCredentialRecord (u "contact") (mkCredential (u "definition") "1" CredKind.ENVIRONMENT
    (Some "SEC_EDGAR_CONTACT_IDENTITY") CredSt.CONFIGURED_METADATA_ONLY "contact") (sum "d") 0.
Definition store : terminal_store :=
  mkTerminalStore LiveSample.execution (u "definition") (u "capability") (u "run") 0 100 4 1000.
Definition call (status : Z) : pilot_call :=
  mkCall (out status) (LiveSample.port Validated) store LiveSample.execution (plan_row VDate) contact.
Definition outcome (status : Z) : res LiveValidationResult * world :=
  run_pilot (out status) (LiveSample.port Validated) store LiveSample.execution (plan_row VDate) contact start.
Definition sent_urls (w : world) : list (UUID * string * nat) :=
  map (λ s, (sn_attempt s, sn_url s, length (sn_wire s))) (wd_sent w).
Definition settled (w : world) : list (string * ProviderSyncSliceStatus * option string) :=
  map (λ a, (aw_slice_id (at_write a), aw_status (at_write a), aw_safe_error_code (at_write a)))
    (sy_attempts (lv_sync (pl_live (wd_db w)))).

(** A retry, three resources, a record of data quality. *)
Example passed_run : let '(r, w) := outcome 200 in
  (λ r, (lt_passed r, lt_stop_reason r, lt_audit_event_id r)) <$> r = Ok (true, "DATA_QUALITY_STOP", Some (u "terminal32")) ∧
  sent_urls w = [(u "attempt0", nth 0 SecSample.urls "", 1%nat); (u "attempt5", nth 0 SecSample.urls "", 1%nat);
                 (u "attempt14", nth 1 SecSample.urls "", 1%nat); (u "attempt23", nth 2 SecSample.urls "", 1%nat)] ∧
  settled w = [("SEC_SUBMISSIONS", SliceSt.BLOCKED, Some "SEC_TRANSPORT_BLOCKED"); ("SEC_SUBMISSIONS", SliceSt.COMPLETED, None);
               ("SEC_FILING_INDEX", SliceSt.COMPLETED, None); ("SEC_PRIMARY_DOCUMENT", SliceSt.COMPLETED, None)].
Proof. vm_compute. done. Qed.
(** A server that asks to wait ends the run. *)
Example aborted_run : (outcome 429).1 = live_error "SEC_HTTP_429_ABORT" ∧ length (wd_sent (outcome 429).2) = 2%nat.
Proof. vm_compute. done. Qed.

Lemma start_runs_ok : runs_ok (pl_live (wd_db start)).
Proof.
  constructor; cbn; [by apply NoDup_nil_2| |by intros a ?%elem_of_nil].
  intros run_id. split_and!; [done|cbn; lia|vm_compute; discriminate|vm_compute; discriminate].
Qed.
(** The second run finds its approval used. *)
Lemma pilot_sends_reserved_witness : let w := call_all start [call 429; call 200] in
  length (wd_sent w) = 2%nat ∧ (length (sent_in_run w (u "run")) <= 4)%nat.
Proof.
  split; [vm_compute; reflexivity|].
  exact (proj2 (proj2 (proj2 (pilot_sends_reserved start [call 429; call 200] start_runs_ok eq_refl))) (u "run")).
Defined.
End PilotSample.
